(* ===== verification/_CoqProject ===== *)
-Q . S2P
Prelude.v
Result.v
Diagnostics.v
TimeSpan.v
IntrusiveList.v
ListFamily.v
BusyMutex.v
HandleTable.v
Allocators.v
Fiber.v
Scheduler.v
SchedulerSpec.v
ThreadSpec.v
WaitSpec.v
MessageQueue.v
UKernSync.v
Machine.v
SysSync.v
SysThread.v
TreeNode.v
Alignment.v
Strings.v
ExpHeap.v
HeapTree.v
Runtime.v
Float32.v
Simd.v
Vectors.v
Matrices.v
Camera.v
Vulkan.v
VkContext.v
VkMemory.v
VkDescriptors.v
VkLifetime.v
VkDisplay.v
VkShader.v
VkCommands.v
VkRendering.v
VkProc.v
VkStartup.v
Paths.v
Files.v
Resources.v
Hid.v
HidThread.v
Learn.v
LearnLifetime.v
SampleMain.v
UnitTester.v
UnitTests.v
