(* ===== verification/Prelude.v ===== *)
(** DD-Framework verification library: the documentation of the whole development, and the prelude.

    * The program

    DD-Framework (src/libraries/lib_dd, headers under include/dd, sources under source) is a C++ framework
    for Windows.  Its core is [ukern], a user-mode scheduler that runs fibers on one scheduler thread per
    core, with handles for threads, locks, keys and address waits; [sys] and [util] build threads, mutexes,
    events, message queues, containers, strings, paths and time on it, [mem] the heaps.  The parts meet in
    shared intrusive lists: a fiber is in one run queue or wait list of the scheduler at a time, a waiter in
    the wait list of a lock's owner, a key or an address; a lock is one word of user memory that holds the
    handle of its owner and a bit for waiters.

    * How the code is read

    An integer of the code is a [Z] with its reduction written out ([u32], [s16], ...); signed overflow, a
    null or dangling pointer, an access outside an array, an over-wide shift, a failed assertion, a lock
    that blocks for ever and the use of an indeterminate value are values of [fault] where the models stop.
    The makefiles pass -fwrapv, with which a
    signed overflow wraps: that a model stops there is stricter than the code.  Code with state is in the monad
    [M S A].  Names are those of the source; a method of a class that is in
    a Module has the class's name in front, Enter of sys::Mutex is [SysSync.Mutex.Enter].  Loops over
    intrusive lists are [IntrusiveList.for_each], written like the range-based for: what the body does to
    the links shows in the iteration, as it does in the code.

    Fuel.  The loops of lists take the number of their iterations plus one; the theorems ask for as much as
    the list is long, or say which fuel is enough.  Unbounded waits (BusyMutex, InternalCriticalSection,
    Event::Wait) are single steps with a position ([EnterPc]) or loops for which the theorems state both
    what they return and, where the code never ends, that no fuel suffices.  A function that leaves a
    processor in the middle, because it switches to another fiber or waits, is two definitions, the second
    one called [..._resume] or [..._from].

    * The files and the source they model

    - Prelude: faults, the monad, machine integers, arrays, bits, searches.
    - Result (util_result*.h, .hpp): the macros and codes of results.  Diagnostics (trace_abort.*, trace_assert.h and the
      macros that abort): assertions and the report of an abort.
    - TimeSpan (util_timespan.hpp, util_timestamp.x64.cpp, util_time.cpp): time and ticks.
    - IntrusiveList, ListFamily (util_intrusivelist.hpp): one list over a store of nodes; many lists that
      share the store, as a function from heads to sequences.
    - BusyMutex (ukern_busymutex.hpp): the ticket lock as a step relation on the accesses of many threads.
    - HandleTable (ukern_handletable.hpp): the generational table and its packed free list.
    - Allocators (util_fixedobjectallocator.hpp, util_heapobjectallocator.hpp, util_heaparray.hpp,
      util_pointerarray.hpp): the class [ObjectPool] is what the scheduler relies on.
    - Fiber (ukern_fiberlocalstorage.h, ukern_waitableobject.hpp and the members of ukern_scheduler.hpp): the
      state of the scheduler.  Scheduler (ukern_scheduler.hpp, .cpp, ukern_fiberlocalstorage.cpp): all of its
      operations.  SchedulerSpec, ThreadSpec, WaitSpec: its invariant and properties, in that order run
      queues and dispatch; start, activity, priority and end of threads; locks, keys and addresses.
    - MessageQueue (util_messagequeue.hpp, sys_messagequeue.hpp): the ring buffer and its two instances.
    - UKernSync (ukern_threadapi.cpp, ukern_synchronizationapi.cpp, ukern_debug.cpp,
      ukern_internalcriticalsection.hpp, ukern_internalconditionvariable.hpp): the interface of the kernel and
      the lock and condition variable on one word.
    - Machine (SchedulerFiberMain of ukern_scheduler.cpp): the main loop of a core over the readings of the counter,
      and programs of fibers run by it.
    - SysSync (sys_mutex.hpp, sys_event.hpp, sys_servicecriticalsection.hpp, sys_serviceevent.hpp,
      util_critsec.hpp, util_condvar.hpp), SysThread (sys_thread*.hpp, sys_servicethread.hpp,
      sys_delegatethread.hpp, sys_systemmanager.*, util_delegate*.hpp): what sys and util build on it.
    - TreeNode (util_intrusivetreenode.hpp): trees of siblings and children.
    - Alignment (util_alignment.hpp, util_sizeconstants.hpp).
    - Strings (util_tstring.hpp, util_bufferstring.hpp, util_charactercode.hpp), Paths (util_pathutil.hpp).
    - ExpHeap (mem_expheap.hpp, .cpp and the parts of mem_heap.hpp it uses): the expandable heap; the class
      [HeapLock] is what it needs of its critical section.  HeapTree (mem_heap.hpp, mem_heapmanager.*,
      mem_idisposer.*, mem_new.hpp): the tree of heaps, disposers, operator new.
    - Runtime (util_runtimetypeinfo.hpp, util_member.hpp, util_typestorage.hpp, util_singleton.h and the traits of
      util_intrusivelist.hpp): type checks, offsets of members, singletons.
    - Float32, Simd, Vectors, Matrices, Camera (util/math, util_camera.hpp, util_projection.hpp): a
      32-bit operation is IEEE arithmetic, and the SSE instructions are modelled lane by lane; then
      what the vectors, matrices, cameras and projections compute with them.
    - Vulkan (the calls of the driver, the objects of include/dd/vk and the log of calls), VkContext
      (vk_context.hpp, .cpp), VkMemory (vk_memorypool.hpp, vk_buffer.hpp, vk_texture*.hpp, vk_*targetview.hpp,
      vk_sampler.hpp), VkDescriptors (vk_descriptorpool.hpp), VkLifetime (which objects are alive after a log of
      calls), VkDisplay (vk_displaybuffer.hpp), VkShader (vk_shader.hpp), VkCommands and its theorems VkRendering
      (vk_commandbuffer.hpp, .cpp), VkProc (vk_proc.h, .cpp), VkStartup (start and end of the context): the answers
      of the driver are those of the class [Driver], the constants of its header those of [VkHeader].
    - Files (res_filedevice*.hpp, res_systemfiledevice.win32.hpp), Resources (res_resourcemanager.hpp): file
      devices over the calls of Windows, and resource factories over them.
    - Hid (hid_rawinput.h, .cpp and the window procedure of hid_thread.cpp): keyboard and mouse, frames, the handling of
      a message.  HidThread (hid_thread.h, .cpp): the thread that receives the messages.
    - Learn, LearnLifetime (learn_hello.cpp of src/test_program1): the scene of the sample program, and what its
      setup, relocations and clean-up leave alive.  SampleMain (main.cpp): a frame, and the two threads of the program.
    - UnitTester (src/libraries/lib_unit_tester), UnitTests (src/unit_tests): the tester, and the tests of the
      library as programs over these models.

    * What the theorems show

    - Containers.  A list refines a sequence and the loops over it visit that sequence; a tree is a forest
      of ordered children before and after every operation, without cycles, and the search for the root
      ends; the handle table hands out handles that are valid until they are freed and never those of
      another entry's past; a fixed allocator hands out every slot once; a queue is first in, first out.
    - Scheduler.  [sched_inv] holds after initialisation and each operation; a pass of a core takes the first
      fiber that may run in the order of the priorities; sleeping fibers come back no earlier than their
      time; a wait on an address parks the fiber when the value is as expected.
      A core whose fibers sleep goes through its main loop until one is due.
    - Locks.  At most one thread is inside a BusyMutex in every interleaving; an InternalCriticalSection is
      taken and left alone and handed to the fiber that waited; the defects that break the locks above it
      are theorems too.
    - Numbers, strings, paths.  Conversions of time are exact within stated bounds and round trips; alignment
      rounds to the nearest multiples; a FixedString stays a terminated text with its length; a path is the
      directory and the file name it is cut into.
    - Rendering.  The calls a client can record are in an order Vulkan allows, whatever it records; a resource
      that is set reaches the draw through mapped memory and a push constant; the display buffer destroys what
      it creates, but for one swapchain; slots of descriptors are never held twice; the device that is picked
      is the first that fits; the context starts through loaded pointers only and ends with nothing left alive.
    - The sample program.  Setup places its buffers and textures inside their memory without overlaps; clean-up destroys
      all that setup and the relocations create; its camera moves along its own axes; a frame draws inside one
      rendering; closing the window ends both threads, unless it is closed before the other thread looks for it.
    - Mathematics, input and files.  What the functions compute with the operations they are given, exactly and
      over the reals; a keyboard is the product of its keys; what reaches the devices below the file classes.
    - Aborts.  The report of an abort is printed and written whole but for the last character of its message, and the
      program exits whatever the system answers.
    - Tests.  The unit tests of the handle table, of time and of the scheduler pass on the models, from the
      initialisation of the program to the value TEST_SUCCESS returns.
    - Defects.  Where the code does not do what its name or comment says, the theorem states what it does:
      waits on keys that never wait, locks that exclude nobody, a heap that never allocates, loops that run
      past the end of a list they change.  Each has a concrete witness.

    * Assumptions

    The development has no axioms.  Code outside of the repository (Win32, the formatting of vsnprintf, the
    virtual functions and delegates a client provides, the decoder of images, the driver of Vulkan) is an argument of the definitions that call it or is
    logged as a call; what a theorem needs of it is one of its hypotheses.

    * Not modelled, and why

    The manager of GPU heaps, mem_separateheap.hpp and mem_unitheap.hpp are not
    part of any translation unit and do not compile.
    The unit test of the heap manager calls a function that is nowhere defined.  stb_image is third-party.
    Code that is commented out has no model. *)
From Stdlib Require Export ZArith Lia.
From stdpp Require Export base gmap strings option numbers list.

(** Names of stdpp and of the Standard Library that this development uses for
    its own purposes are left alone; [Z] is the default number type. *)
#[export] Set Default Goal Selector "!".
Open Scope Z_scope.

(** * Faults

    The ways in which the modelled code leaves the defined part of the C++
    abstract machine (or calls [trace::impl::AbortImpl]): a model stops there. *)
Inductive fault : Type :=
  | NullDeref          (* access through a null pointer *)
  | BadPointer         (* access through a pointer that designates no live object *)
  | BadContainer       (* an intrusive list head used as if it were an element *)
  | OutOfBounds        (* array access outside of the array *)
  | AssertFailed       (* DD_ASSERT in a DD_DEBUG build, RESULT_ABORT_UNLESS *)
  | DivByZero          (* division by zero *)
  | SignedOverflow     (* signed arithmetic whose result does not fit its type *)
  | BadShift           (* a shift by at least the width of its operand *)
  | BadConversion      (* a floating point number that the integer type cannot represent *)
  | Uninitialized      (* use of a value nothing has been assigned to *)
  | Blocked            (* a lock that is held: the thread does not go on *)
  | OutOfFuel.         (* the bound given to the model of a loop was too small *)

#[export] Instance fault_eq_dec : EqDecision fault.
Proof. solve_decision. Defined.

(** * Fallible computations and the state monad over them *)
Inductive res (A : Type) : Type :=
  | Ok (a : A)
  | Fault (f : fault).
Arguments Ok {A} a.
Arguments Fault {A} f.

#[export] Instance res_eq_dec {A} `{EqDecision A} : EqDecision (res A).
Proof. solve_decision. Defined.

Definition is_Ok {A} (r : res A) : bool :=
  match r with Ok _ => true | Fault _ => false end.

#[export] Instance res_ret : MRet res := fun _ a => Ok a.
#[export] Instance res_bind : MBind res := fun _ _ k r =>
  match r with Ok a => k a | Fault f => Fault f end.
#[export] Instance res_fmap : FMap res := fun _ _ g r =>
  match r with Ok a => Ok (g a) | Fault f => Fault f end.

(** [M S A]: code that reads and writes a state [S], may fault, and returns an [A]. *)
Definition M (S A : Type) : Type := S -> res (A * S).

#[export] Instance M_ret {S} : MRet (M S) := fun _ a s => Ok (a, s).
#[export] Instance M_bind {S} : MBind (M S) := fun _ _ k m s =>
  match m s with Ok (a, s') => k a s' | Fault f => Fault f end.

Definition get {S} : M S S := fun s => Ok (s, s).
Definition gets {S A} (f : S -> A) : M S A := fun s => Ok (f s, s).
Definition modify {S} (f : S -> S) : M S unit := fun s => Ok (tt, f s).
Definition throw {S A} (f : fault) : M S A := fun _ => Fault f.
Definition lift {S A} (r : res A) : M S A := fun s =>
  match r with Ok a => Ok (a, s) | Fault f => Fault f end.

(** [DD_ASSERT(expression)] of a [DD_DEBUG] build: [AbortImpl] does not return. *)
Definition dd_assert {S} (b : bool) : M S unit := if b then mret tt else throw AssertFailed.

(** Access to an object through a pointer that may be null. *)
Definition deref {S A} (p : option A) : M S A :=
  match p with Some a => mret a | None => throw NullDeref end.

(** Signed 64-bit arithmetic whose overflow is undefined. *)
Definition s64_max : Z := 2 ^ 63 - 1.
Definition s64_min : Z := - 2 ^ 63.
Definition chk64 (x : Z) : res Z :=
  if (s64_min <=? x) && (x <=? s64_max) then Ok x else Fault SignedOverflow.
(** C++ division and remainder (towards zero); the one overflowing quotient faults too. *)
Definition div64 (x y : Z) : res Z := if y =? 0 then Fault DivByZero else chk64 (Z.quot x y).
Definition rem64 (x y : Z) : res Z :=
  if y =? 0 then Fault DivByZero else q ← chk64 (Z.quot x y); Ok (Z.rem x y).

(** Signed 32-bit arithmetic whose overflow is undefined. *)
Definition chk32 (x : Z) : res Z :=
  if (- 2 ^ 31 <=? x) && (x <? 2 ^ 31) then Ok x else Fault SignedOverflow.

(** Arrays: an access outside of the bounds faults. *)
Definition arr_get {A} (l : list A) (i : Z) : res A :=
  if i <? 0 then Fault OutOfBounds
  else match l !! Z.to_nat i with Some x => Ok x | None => Fault OutOfBounds end.
Definition arr_set {A} (l : list A) (i : Z) (x : A) : res (list A) :=
  if (i <? 0) || (Z.of_nat (length l) <=? i) then Fault OutOfBounds
  else Ok (<[Z.to_nat i := x]> l).

(** * Notations of the development *)
Declare Scope dd_scope.
Delimit Scope dd_scope with dd.

(** The early-return macros of util_result.hpp. *)
Notation "'RESULT_RETURN_UNLESS' c , r ;; k" :=
  (if c then k else mret r)
  (at level 100, c at level 99, r at level 99, k at level 200, right associativity) : dd_scope.
Notation "'RESULT_RETURN_IF' c , r ;; k" :=
  (if c then mret r else k)
  (at level 100, c at level 99, r at level 99, k at level 200, right associativity) : dd_scope.

Open Scope dd_scope.

(** * Machine integers

    An integer of the code is the [Z] of its value.  [wrap w] is reduction of an
    unsigned [w]-bit result, [swrap w] conversion to a signed [w]-bit integer. *)
Definition wrap (w x : Z) : Z := x mod 2 ^ w.
Definition swrap (w x : Z) : Z := (x + 2 ^ (w - 1)) mod 2 ^ w - 2 ^ (w - 1).
Definition u8 : Z -> Z := wrap 8.
Definition u16 : Z -> Z := wrap 16.
Definition u32 : Z -> Z := wrap 32.
Definition u64 : Z -> Z := wrap 64.
Definition s16 : Z -> Z := swrap 16.
Definition s32 : Z -> Z := swrap 32.
Definition s64 : Z -> Z := swrap 64.

(** * Lemmas on machine integers *)
Section machine_integers.
Implicit Types w x y : Z.

Lemma wrap_range w x : 0 <= w -> 0 <= wrap w x < 2 ^ w.
Proof. intros. unfold wrap. apply Z.mod_pos_bound. lia. Qed.

Lemma wrap_small w x : 0 <= x < 2 ^ w -> wrap w x = x.
Proof. intros. unfold wrap. by apply Z.mod_small. Qed.

Lemma wrap_wrap w x : wrap w (wrap w x) = wrap w x.
Proof. unfold wrap. apply Zmod_mod. Qed.

Lemma swrap_range w x : 1 <= w -> - 2 ^ (w - 1) <= swrap w x < 2 ^ (w - 1).
Proof.
  intros. unfold swrap.
  assert (2 ^ w = 2 * 2 ^ (w - 1)) as E.
  { rewrite <- Z.pow_succ_r by lia. f_equal. lia. }
  pose proof (Z.mod_pos_bound (x + 2 ^ (w - 1)) (2 ^ w)). lia.
Qed.

Lemma swrap_small w x : 1 <= w -> - 2 ^ (w - 1) <= x < 2 ^ (w - 1) -> swrap w x = x.
Proof.
  intros. unfold swrap.
  assert (2 ^ w = 2 * 2 ^ (w - 1)) as E.
  { rewrite <- Z.pow_succ_r by lia. f_equal. lia. }
  rewrite Z.mod_small; lia.
Qed.

Lemma swrap_wrap w x : swrap w (wrap w x) = swrap w x.
Proof. unfold swrap, wrap. by rewrite Zplus_mod_idemp_l. Qed.

Lemma wrap_sub w x y : wrap w (wrap w x - wrap w y) = wrap w (x - y).
Proof. unfold wrap. by rewrite <- Zminus_mod. Qed.
End machine_integers.

(** [word_simpl] removes the reductions that [lia] can see to be identities. *)
Ltac word_simpl :=
  unfold u8, u16, u32, u64, s16, s32, s64 in *;
  repeat first
    [ rewrite wrap_small in * by lia
    | rewrite swrap_small in * by lia
    | rewrite wrap_wrap in * ].

(** * Monad lemmas *)
Section monad.
Context {S A B C : Type}.

Lemma M_ret_bind (a : A) (k : A -> M S B) : (mret a ≫= k) = k a.
Proof. reflexivity. Qed.

Lemma M_bind_ok (m : M S A) (k : A -> M S B) s b s' :
    (m ≫= k) s = Ok (b, s') <-> exists a s1, m s = Ok (a, s1) /\ k a s1 = Ok (b, s').
  Proof.
    unfold mbind, M_bind. destruct (m s) as [[a s1]|f]; split.
    - intros H. by exists a, s1.
    - intros (a' & s1' & [= <- <-] & H). done.
    - done.
    - intros (a' & s1' & [=] & _).
  Qed.

Lemma M_bind_run (m : M S A) (k : A -> M S B) s a s1 :
    m s = Ok (a, s1) -> (m ≫= k) s = k a s1.
  Proof. intros H. unfold mbind, M_bind. by rewrite H. Qed.

Lemma M_bind_fault (m : M S A) (k : A -> M S B) s f :
    m s = Fault f -> (m ≫= k) s = Fault f.
  Proof. intros H. unfold mbind, M_bind. by rewrite H. Qed.

Lemma M_bind_assoc (m : M S A) (g : A -> M S B) (k : B -> M S C) s :
    ((m ≫= g) ≫= k) s = (m ≫= fun a => g a ≫= k) s.
  Proof. unfold mbind, M_bind. by destruct (m s) as [[a s1]|f]. Qed.

Lemma M_gets_bind (f : S -> A) (k : A -> M S B) s : (gets f ≫= k) s = k (f s) s.
Proof. reflexivity. Qed.

Lemma M_modify_bind (f : S -> S) (k : unit -> M S B) s : (modify f ≫= k) s = k tt (f s).
Proof. reflexivity. Qed.

Lemma M_lift_ok (a : A) (k : A -> M S B) s : (lift (Ok a) ≫= k) s = k a s.
Proof. reflexivity. Qed.

Lemma M_modify_run (f : S -> S) s : modify f s = Ok (tt, f s).
Proof. reflexivity. Qed.
End monad.

(** Runs the leading reads and writes of the goal's computation, leaving the rest folded. *)
Ltac steps :=
  repeat first [rewrite M_gets_bind | rewrite M_modify_bind | rewrite M_ret_bind | progress cbn [negb deref]].

(** Runs the state monad's combinators in the goal. *)
Ltac run_M :=
  unfold mbind, M_bind, mret, M_ret, gets, get, modify, throw, lift, dd_assert, deref in *.

(** Linear arithmetic with division and remainder by powers of two that are literals. *)
Ltac pow2_lia :=
  repeat match goal with
    | H : context [2 ^ (Zpos ?p)] |- _ => let v := eval vm_compute in (2 ^ Zpos p) in change (2 ^ Zpos p) with v in H
    | |- context [2 ^ (Zpos ?p)] => let v := eval vm_compute in (2 ^ Zpos p) in change (2 ^ Zpos p) with v
    end;
  Z.to_euclidean_division_equations; lia.

Lemma chk64_ok x : s64_min <= x <= s64_max -> chk64 x = Ok x.
Proof.
  intros Hx. unfold chk64. destruct (Z.leb_spec s64_min x); [|lia].
  by destruct (Z.leb_spec x s64_max); [|lia].
Qed.

Lemma chk64_inv x y : chk64 x = Ok y -> y = x /\ s64_min <= x <= s64_max.
Proof.
  unfold chk64. destruct (Z.leb_spec s64_min x); [|done].
  destruct (Z.leb_spec x s64_max); [|done]. cbn. intros [= <-]. done.
Qed.

Lemma chk32_ok x : - 2 ^ 31 <= x < 2 ^ 31 -> chk32 x = Ok x.
Proof.
  intros Hx. unfold chk32. destruct (Z.leb_spec (- 2 ^ 31) x); [|lia].
  by destruct (Z.ltb_spec x (2 ^ 31)); [|lia].
Qed.

(** * Lemmas on arrays *)
Section arrays.
Context {A : Type}.
Implicit Types (l : list A) (i : nat) (x : A).

Lemma arr_get_lookup l i x : l !! i = Some x -> arr_get l (Z.of_nat i) = Ok x.
Proof.
  intros Hi. unfold arr_get. destruct (Z.ltb_spec (Z.of_nat i) 0); [lia|]. by rewrite Nat2Z.id, Hi.
Qed.

Lemma arr_get_oob l i : (length l <= i)%nat -> arr_get l (Z.of_nat i) = Fault OutOfBounds.
Proof.
  intros Hi. unfold arr_get. rewrite Nat2Z.id, lookup_ge_None_2 by done. by destruct (_ <? _).
Qed.

Lemma arr_set_insert l i x : (i < length l)%nat -> arr_set l (Z.of_nat i) x = Ok (<[i := x]> l).
Proof.
  intros Hi. unfold arr_set. destruct (Z.ltb_spec (Z.of_nat i) 0); [lia|].
  destruct (Z.leb_spec (Z.of_nat (length l)) (Z.of_nat i)); [lia|]. cbn. by rewrite Nat2Z.id.
Qed.

Lemma arr_set_oob l i x : (length l <= i)%nat -> arr_set l (Z.of_nat i) x = Fault OutOfBounds.
Proof.
  intros Hi. unfold arr_set. destruct (Z.leb_spec (Z.of_nat (length l)) (Z.of_nat i)); [|lia].
  by rewrite orb_true_r.
Qed.

Lemma arr_get_Some l (i : Z) : 0 <= i < Z.of_nat (length l) -> exists x, arr_get l i = Ok x.
Proof.
  intros Hi. destruct (lookup_lt_is_Some_2 l (Z.to_nat i)) as [x E]; [lia|]. exists x.
  rewrite <- (Z2Nat.id i) by lia. by apply arr_get_lookup.
Qed.

(** What can be read after a write. *)
Lemma arr_set_total l (i : Z) x : 0 <= i < Z.of_nat (length l) ->
  exists l', arr_set l i x = Ok l' /\ length l' = length l /\
    forall j : Z, arr_get l' j = if j =? i then Ok x else arr_get l j.
Proof.
  intros Hi. exists (<[Z.to_nat i := x]> l). split_and!.
  - rewrite <- (Z2Nat.id i) at 1 by lia. apply arr_set_insert. lia.
  - apply length_insert.
  - intros j. unfold arr_get. destruct (Z.eqb_spec j i) as [->|].
    + rewrite list_lookup_insert_eq by lia. by destruct (Z.ltb_spec i 0); [lia|].
    + destruct (Z.ltb_spec j 0); [done|]. by rewrite list_lookup_insert_ne by lia.
Qed.
End arrays.

(** * Bit operations as arithmetic *)
Section bits.
Implicit Types x y n k : Z.

Lemma land_ones_mod x n : 0 <= n -> Z.land x (2 ^ n - 1) = x mod 2 ^ n.
Proof. intros. rewrite <- Z.land_ones by done. f_equal. rewrite Z.ones_equiv. lia. Qed.

Lemma lor_disjoint_add x y n : 0 <= n -> 0 <= x < 2 ^ n -> Z.lor x (Z.shiftl y n) = x + y * 2 ^ n.
Proof.
  intros Hn Hx. assert (Z.land x (Z.shiftl y n) = 0) as Hl.
  { apply Z.bits_inj'. intros i Hi. rewrite Z.land_spec, Z.bits_0.
    destruct (Z.ltb_spec i n).
    - rewrite (Z.shiftl_spec_low _ _ i) by done. apply andb_false_r.
    - rewrite <- (Z.mod_small x (2 ^ n)), Z.mod_pow2_bits_high by lia. done. }
  pose proof (Z.add_lor_land x (Z.shiftl y n)) as E.
  rewrite Hl, Z.shiftl_mul_pow2 in * by done. lia.
Qed.
End bits.

(** * Searching a list *)
Section find.
Context {A : Type}.
Implicit Types (P : A -> bool) (l : list A) (x : A).

Lemma find_split P l x :
  List.find P l = Some x -> exists l1 l2, l = l1 ++ x :: l2 /\ P x = true /\ forall y, y ∈ l1 -> P y = false.
Proof.
  induction l as [|y l IH]; [done|]. cbn. destruct (P y) eqn:E.
  - intros [= ->]. exists [], l. split; [done|]. split; [done|]. set_solver.
  - intros Hx. destruct (IH Hx) as (l1 & l2 & -> & ? & Hl). exists (y :: l1), l2.
    split; [done|]. split; [done|]. intros z [->|Hz]%elem_of_cons; auto.
Qed.

Lemma find_none P l : List.find P l = None -> forall y, y ∈ l -> P y = false.
Proof.
  induction l as [|x l IH]; cbn; [set_solver|]. destruct (P x) eqn:E; [done|].
  intros Hl y [->|Hy]%elem_of_cons; auto.
Qed.

Lemma find_app P l l2 :
  List.find P (l ++ l2) = match List.find P l with Some x => Some x | None => List.find P l2 end.
Proof. induction l as [|x l IH]; [done|]. cbn. by destruct (P x). Qed.
End find.
