(* ===== verification/Result.v ===== *)
(** Result codes (util_result.hpp, util_result_ukern.h, util_result_res.h,
    util_result_trace.h): the macros that build a code from a module and a
    description number, the accessors, and the codes the rest of the library uses. *)
From S2P Require Import Prelude.

Definition ModuleBits : Z := 9.
Definition DescriptionBits : Z := 13.
Definition ReserveBits : Z := 9.

Definition GetModule (result : Z) : Z := Z.land result ModuleBits.
Definition GetDescription (result : Z) : Z := Z.land (Z.shiftr result ModuleBits) DescriptionBits.

Definition DECLARE_RESULT (ResultModule description : Z) : Z :=
  Z.lor (Z.shiftl (Z.land description DescriptionBits) ModuleBits) (Z.land ResultModule ModuleBits).

(** A range of codes: its first and its last code. *)
Definition DECLARE_RESULT_RANGE (ResultModule description_start description_end : Z) : Z * Z :=
  (DECLARE_RESULT ResultModule description_start, DECLARE_RESULT ResultModule description_end).
(** RESULT_RANGE_ABORT_UNLESS: whether a result is accepted. *)
Definition RESULT_RANGE_ok (result : Z) (range : Z * Z) : bool :=
  negb ((result <? fst range) || (snd range <? result)).

Definition ResultSuccess : Z := 0.

(** util_result_ukern.h *)
Module ukern.
Definition ResultModule : Z := 1.
Definition ResultTimeout : Z := DECLARE_RESULT ResultModule 1.
Definition ResultInvalidHandle : Z := DECLARE_RESULT ResultModule 2.
Definition ResultWin32Error : Z := DECLARE_RESULT ResultModule 3.
Definition ResultThreadStorageExhaustion : Z := DECLARE_RESULT ResultModule 4.
Definition ResultHandleExhaustion : Z := DECLARE_RESULT ResultModule 5.
Definition ResultInvalidThreadFunctionPointer : Z := DECLARE_RESULT ResultModule 6.
Definition ResultInvalidStackSize : Z := DECLARE_RESULT ResultModule 7.
Definition ResultInvalidPriority : Z := DECLARE_RESULT ResultModule 8.
Definition ResultInvalidAddress : Z := DECLARE_RESULT ResultModule 9.
Definition ResultInvalidWaitAddressValue : Z := DECLARE_RESULT ResultModule 10.
Definition ResultInvalidLockAddressValue : Z := DECLARE_RESULT ResultModule 11.
Definition ResultRequiresLock : Z := DECLARE_RESULT ResultModule 12.
Definition ResultValueOutOfRange : Z := DECLARE_RESULT ResultModule 13.
Definition ResultSamePriority : Z := DECLARE_RESULT ResultModule 14.
Definition ResultSameActivityLevel : Z := DECLARE_RESULT ResultModule 15.
Definition ResultSameCoreMask : Z := DECLARE_RESULT ResultModule 16.
Definition ResultInvalidCoreId : Z := DECLARE_RESULT ResultModule 17.
Definition ResultInvalidArbitrationType : Z := DECLARE_RESULT ResultModule 18.
Definition ResultInvalidSignalType : Z := DECLARE_RESULT ResultModule 19.
Definition ResultNoWaiters : Z := DECLARE_RESULT ResultModule 20.
End ukern.

(** util_result_trace.h *)
Module trace.
Definition ResultModule : Z := 2.
Definition ResultAssertFailed : Z := DECLARE_RESULT ResultModule 1.
End trace.

(** util_result_res.h *)
Module res.
Definition ResultModule : Z := 6.
Definition ResultUnknownWin32Error : Z := DECLARE_RESULT ResultModule 1.
Definition ResultFileNotFound : Z := DECLARE_RESULT ResultModule 2.
Definition ResultPathNotFound : Z := DECLARE_RESULT ResultModule 3.
Definition ResultPathTooLong : Z := DECLARE_RESULT ResultModule 4.
Definition ResultFileSharingViolation : Z := DECLARE_RESULT ResultModule 5.
Definition ResultFileLockViolation : Z := DECLARE_RESULT ResultModule 6.
Definition ResultOpenFileExhaustion : Z := DECLARE_RESULT ResultModule 7.
Definition ResultInvalidBufferSize : Z := DECLARE_RESULT ResultModule 8.
Definition ResultInvalidReadDivAlignment : Z := DECLARE_RESULT ResultModule 9.
Definition ResultInvalidFileBufferSize : Z := DECLARE_RESULT ResultModule 10.
Definition ResultInvalidHandle : Z := DECLARE_RESULT ResultModule 11.
Definition ResultInvalidNullPath : Z := DECLARE_RESULT ResultModule 12.
Definition ResultInvalidOpenMode : Z := DECLARE_RESULT ResultModule 13.
Definition ResultInvalidSize : Z := DECLARE_RESULT ResultModule 14.
Definition ResultNullHandle : Z := DECLARE_RESULT ResultModule 15.
Definition ResultNullOutBuffer : Z := DECLARE_RESULT ResultModule 16.
Definition ResultNullPath : Z := DECLARE_RESULT ResultModule 17.
Definition ResultFileSizeRetrievalFailed : Z := DECLARE_RESULT ResultModule 18.
Definition ResultResourceAllocationFailed : Z := DECLARE_RESULT ResultModule 19.
End res.

(** * Lemmas *)
Lemma GetModule_DECLARE_RESULT m d : GetModule (DECLARE_RESULT m d) = Z.land m ModuleBits.
Proof.
  unfold GetModule, DECLARE_RESULT, ModuleBits. rewrite Z.land_lor_distr_l, <- Z.land_assoc.
  change (Z.land 9 9) with 9.
  replace (Z.land (Z.shiftl (Z.land d DescriptionBits) 9) 9) with 0; [by rewrite Z.lor_0_l|].
  symmetry. apply Z.bits_inj'. intros i Hi. rewrite Z.land_spec, Z.bits_0.
  destruct (Z.ltb_spec i 9).
  - by rewrite Z.shiftl_spec_low.
  - rewrite andb_comm, (Z.bits_above_log2 9) by (cbn; lia). done.
Qed.

Lemma GetDescription_DECLARE_RESULT m d : GetDescription (DECLARE_RESULT m d) = Z.land d DescriptionBits.
Proof.
  unfold GetDescription, DECLARE_RESULT, ModuleBits, DescriptionBits.
  rewrite Z.shiftr_lor, Z.shiftr_shiftl_l by lia. change (9 - 9) with 0. rewrite Z.shiftl_0_r.
  replace (Z.shiftr (Z.land m 9) 9) with 0.
  - by rewrite Z.lor_0_r, <- Z.land_assoc.
  - symmetry. rewrite Z.shiftr_land. change (Z.shiftr 9 9) with 0. apply Z.land_0_r.
Qed.

(** * Properties *)

(** What identifies a result: the masks applied are the widths 9 and 13
    themselves, so a code keeps bits 0 and 3 of the module and bits 0, 2 and 3 of the
    description, and two results are the same code exactly when they agree there. *)
Theorem result_code_identity m d m' d' :
  DECLARE_RESULT m d = DECLARE_RESULT m' d' <->
  Z.land m 9 = Z.land m' 9 /\ Z.land d 13 = Z.land d' 13.
Proof.
  split.
  - intros E. rewrite <- !GetModule_DECLARE_RESULT with (d := 0).
    split.
    + pose proof (GetModule_DECLARE_RESULT m d) as E1. pose proof (GetModule_DECLARE_RESULT m' d') as E2.
      rewrite !GetModule_DECLARE_RESULT. rewrite E in E1. unfold ModuleBits in *. congruence.
    + pose proof (GetDescription_DECLARE_RESULT m d) as E1.
      pose proof (GetDescription_DECLARE_RESULT m' d') as E2. rewrite E in E1.
      unfold DescriptionBits in *. congruence.
  - intros [E1 E2]. unfold DECLARE_RESULT, ModuleBits, DescriptionBits. by rewrite E1, E2.
Qed.

(** Two pairs of failures that share a code, and failures of the res module whose
    code is ResultSuccess. *)
Theorem result_code_collisions :
  ukern.ResultTimeout = ukern.ResultWin32Error /\
  ukern.ResultInvalidHandle = ukern.ResultInvalidArbitrationType /\
  ukern.ResultInvalidPriority = ukern.ResultInvalidWaitAddressValue /\
  res.ResultFileNotFound = ResultSuccess /\
  res.ResultNullOutBuffer = ResultSuccess /\
  res.ResultFileSizeRetrievalFailed = ResultSuccess.
Proof. repeat split; reflexivity. Qed.
