(* ===== verification/Diagnostics.v ===== *)
(** Assertions and the report of an abort (trace_abort.h, .cpp, trace_assert.h, and the macros of util_result.hpp that
    abort).  What the program does to the outside is a log of events.

    The formatting of the C library is that of the texts the formats spell out, cut where snprintf cuts them; the
    text that the caller's format gives is an argument.  Texts are shorter than 2^31.  A buffer is the list of its
    characters, [None] where nothing has been written. *)
From stdpp Require Import strings pretty.
From S2P Require Import Prelude Result.

Module Trace.
Local Open Scope string_scope.

Inductive event : Type :=
  | Puts (text : string) | CreateFile (path : string) | WriteFile (file : Z) (bytes : list (option Ascii.ascii))
  | DebugBreak | ExitProcess (code : Z).
(** What the system answers: whether malloc gives memory for the two texts, the handle of the file, whether it is
    written, whether there is a debugger. *)
Record World : Type := MkWorld { info_memory : bool; output_memory : bool; crash_file : Z; written : bool; debugged : bool }.
Definition INVALID_HANDLE_VALUE : Z := 2 ^ 64 - 1.

(** ** The C library *)
Definition chars (s : string) : list Ascii.ascii := String.list_ascii_of_string s.
Definition newline : string := String (Ascii.ascii_of_nat 10) "".
Definition NUL : Ascii.ascii := Ascii.ascii_of_nat 0.
Definition malloc (size : nat) : list (option Ascii.ascii) := replicate size None.
Definition snprintf (buffer : list (option Ascii.ascii)) (size : nat) (text : string) : res (list (option Ascii.ascii)) :=
  match size with
  | O => Ok buffer
  | S room =>
    let written := (take room (chars text) ++ [NUL])%list in
    if (length buffer <? length written)%nat then Fault OutOfBounds
    else Ok ((Some <$> written) ++ drop (length written) buffer)%list
  end.
(** The text up to the terminator. *)
Fixpoint c_string (buffer : list (option Ascii.ascii)) : res string :=
  match buffer with
  | [] => Fault OutOfBounds
  | None :: _ => Fault Uninitialized
  | Some c :: buffer => if decide (c = NUL) then Ok "" else String c <$> c_string buffer
  end.

(** ** The texts of AbortImpl: the format that measures has a space more than the one that is printed *)
Definition measured (function_name full_file_path : string) (line_number : Z) (expected_result abort_info : string) : string :=
  "DD ABORT" +:+ newline +:+ "Function: " +:+ function_name +:+ newline +:+ " File: " +:+ full_file_path +:+ ":"
    +:+ pretty (s32 line_number) +:+ newline +:+ "Expected: " +:+ expected_result +:+ newline +:+ abort_info.
Definition report (function_name full_file_path : string) (line_number : Z) (expected_result abort_info : string) : string :=
  "DD ABORT" +:+ newline +:+ "Function: " +:+ function_name +:+ newline +:+ "File: " +:+ full_file_path +:+ ":"
    +:+ pretty (s32 line_number) +:+ newline +:+ "Expected: " +:+ expected_result +:+ newline +:+ abort_info.
Definition crash_file_name (result : Z) : string :=
  "crash_report_module_" +:+ pretty (s32 (GetModule result)) +:+ "_desc_" +:+ pretty (s32 (GetDescription result)) +:+ ".txt".

Section abort.
Variable w : World.
Definition say (e : event) : M (list event) unit := modify (fun l => l ++ [e])%list.

Definition IsDebuggerPresent : bool := debugged w.
Definition Break : M (list event) unit := if IsDebuggerPresent then say DebugBreak else mret tt.
(** Abort does not return: nothing follows it. *)
Definition Abort (result : Z) : M (list event) unit := Break;; say (ExitProcess (u32 result)).

(** [message] is what the format of the caller gives with its arguments. *)
Definition AbortImpl (expected_result function_name full_file_path : string) (line_number result : Z) (message : string) : M (list event) unit :=
  let abort_info_length := length (chars message) in
  if negb (info_memory w) then Abort result else
  abort_info ← lift (snprintf (malloc (abort_info_length + 1)) abort_info_length message);
  shown ← lift (c_string abort_info);
  let output_length := length (chars (measured function_name full_file_path line_number expected_result shown)) in
  if negb (output_memory w) then Abort result else
  output ← lift (snprintf (malloc output_length) output_length (report function_name full_file_path line_number expected_result shown));
  text ← lift (c_string output);
  say (Puts text);;
  file_path ← lift (snprintf (replicate 256 (Some NUL)) 256 (crash_file_name result));
  path ← lift (c_string file_path);
  say (CreateFile path);;
  if (crash_file w =? INVALID_HANDLE_VALUE)%Z then say (Puts "failed to create file");; Abort result else
  say (WriteFile (crash_file w) (take output_length output));;
  if negb (written w) then Abort result else Abort result.

(** ** The macros: [holds] is the value of the expression, [text] its source *)
Definition DD_ASSERT (debug holds : bool) (text function_name full_file_path : string) (line_number : Z) : M (list event) unit :=
  if holds then mret tt
  else if debug then
    AbortImpl "Assert failed!!!" function_name full_file_path line_number trace.ResultAssertFailed ("Failed: " +:+ text +:+ newline)
  else mret tt.
Definition failed_message (text : string) (result : Z) : string :=
  "Failed: " +:+ text +:+ newline +:+ "  Module: " +:+ pretty (s32 (GetModule result)) +:+ newline +:+
    "  Description " +:+ pretty (s32 (GetDescription result)) +:+ newline.
Definition RESULT_ABORT_UNLESS (result expected_result : Z) (text expected_text function_name full_file_path : string) (line_number : Z) : M (list event) unit :=
  if (result =? expected_result)%Z then mret tt
  else AbortImpl expected_text function_name full_file_path line_number result (failed_message text result).
(** The name of the range is not the parameter that is made a text. *)
Definition RESULT_RANGE_ABORT_UNLESS (result : Z) (expected_result_range : Z * Z) (text function_name full_file_path : string) (line_number : Z) : M (list event) unit :=
  if RESULT_RANGE_ok result expected_result_range then mret tt
  else AbortImpl "expected_result" function_name full_file_path line_number result (failed_message text result).
End abort.

(** ** ukern_debug.cpp and OutputBackTraceImpl of the scheduler: nothing but a text is put out. *)
Definition OutputBackTraceImpl : M (list event) unit := say (Puts "Backtrace was called. But it's not yet implemented.").
Definition OutputBackTraceToFileAll : M (list event) unit := OutputBackTraceImpl.
End Trace.

(** * The report of an abort *)
Section abort_report.
Import Trace.
Local Open Scope string_scope.
Implicit Types (s text : string) (log : list event).

(** A text without the terminator in it. *)
Definition plain_text s : Prop := NUL ∉ chars s.
Definition of_chars (l : list Ascii.ascii) : string := String.string_of_list_ascii l.

Lemma chars_app s1 s2 : chars (s1 +:+ s2) = (chars s1 ++ chars s2)%list.
Proof. induction s1 as [|c s1 IH]; [done|]. apply (f_equal (cons c) IH). Qed.
Lemma of_chars_chars s : of_chars (chars s) = s.
Proof. apply String.string_of_list_ascii_of_string. Qed.
Lemma chars_of_chars l : chars (of_chars l) = l.
Proof. apply String.list_ascii_of_string_of_list_ascii. Qed.

Lemma c_string_written l rest : NUL ∉ l -> c_string ((Some <$> (l ++ [NUL])%list) ++ rest)%list = Ok (of_chars l).
Proof.
  induction l as [|c l IH]; intros Hl; cbn [app fmap list_fmap c_string]; [by rewrite decide_True|].
  apply not_elem_of_cons in Hl as [Hc Hl]. rewrite decide_False by congruence. by rewrite (IH Hl).
Qed.
(** What snprintf leaves in a buffer that has room for what it writes. *)
Lemma snprintf_run buffer size text : (S size <= length buffer)%nat -> plain_text text ->
  exists buffer', snprintf buffer (S size) text = Ok buffer' /\ length buffer' = length buffer /\
    c_string buffer' = Ok (of_chars (take size (chars text))) /\
    take (S (length (take size (chars text)))) buffer' = Some <$> (take size (chars text) ++ [NUL])%list.
Proof.
  intros Hb Ht. unfold snprintf. set (l := take size (chars text)). assert (length l <= size)%nat as Hl by (unfold l; rewrite length_take; lia).
  rewrite length_app. cbn [length]. destruct (Nat.ltb_spec (length buffer) (length l + 1)) as [|_]; [lia|].
  eexists. split; [reflexivity|]. split_and!.
  - rewrite length_app, length_fmap, length_drop, length_app. cbn [length]. lia.
  - apply c_string_written. intros Hin. apply Ht. unfold l in Hin. by apply elem_of_take in Hin as (i & Hi & _); eapply list_elem_of_lookup_2.
  - rewrite take_app_le by (rewrite length_fmap, length_app; cbn [length]; lia).
    apply take_ge. rewrite length_fmap, length_app. cbn [length]. lia.
Qed.

Lemma measured_length f p n e i : length (chars (measured f p n e i)) = S (length (chars (report f p n e i))).
Proof. unfold measured, report. rewrite !chars_app, !length_app. cbn [length chars String.list_ascii_of_string]. lia. Qed.

(** The names of the files: each part of a code has few values. *)
Lemma land_nibble (P : Z -> Prop) r k : 0 <= k < 16 -> Forall (fun x => P (Z.land x k)) (seqZ 0 16) -> P (Z.land r k).
Proof.
  intros Hk HP. replace (Z.land r k) with (Z.land (r mod 2 ^ 4) k).
  - rewrite Forall_forall in HP. apply HP, elem_of_seqZ. pose proof (Z.mod_pos_bound r (2 ^ 4)). lia.
  - rewrite <- Z.land_ones, <- Z.land_assoc by lia. f_equal. rewrite Z.land_comm, Z.land_ones by lia. by apply Z.mod_small.
Qed.
Lemma module_values r : GetModule r ∈ [0; 1; 8; 9].
Proof. apply (land_nibble (fun x => x ∈ [0; 1; 8; 9])); [done|]. apply (bool_decide_unpack _). vm_compute. exact I. Qed.
Lemma description_values r : GetDescription r ∈ [0; 1; 4; 5; 8; 9; 12; 13].
Proof. apply (land_nibble (fun x => x ∈ [0; 1; 4; 5; 8; 9; 12; 13])); [done|]. apply (bool_decide_unpack _). vm_compute. exact I. Qed.
Definition name_of (p : Z * Z) : string := "crash_report_module_" +:+ pretty (s32 p.1) +:+ "_desc_" +:+ pretty (s32 p.2) +:+ ".txt".
Definition code_parts : list (Z * Z) := [0; 1; 8; 9] ≫= fun m => [0; 1; 4; 5; 8; 9; 12; 13] ≫= fun d => [(m, d)].
Lemma parts_of r : (GetModule r, GetDescription r) ∈ code_parts.
Proof.
  unfold code_parts. apply list_elem_of_bind. exists (GetModule r). split; [|apply module_values].
  apply list_elem_of_bind. exists (GetDescription r). split; [by left|apply description_values].
Qed.
Lemma names_checked : Forall (fun p => (length (chars (name_of p)) < 256)%nat /\
  plain_text (name_of p) /\ Forall (fun q => name_of p = name_of q -> p = q) code_parts) code_parts.
Proof. apply (bool_decide_unpack _). vm_compute. exact I. Qed.

(** The name of the crash report: it fits into its array with the terminator, and two results are reported to the
    same file exactly when their module and their description read the same; there are no more than 32 names. *)
Theorem crash_file_names r1 r2 :
  (length (chars (crash_file_name r1)) < 256)%nat /\
  (crash_file_name r1 = crash_file_name r2 <-> GetModule r1 = GetModule r2 /\ GetDescription r1 = GetDescription r2) /\
  crash_file_name r1 ∈ name_of <$> code_parts /\ length code_parts = 32%nat.
Proof.
  pose proof names_checked as Hall. rewrite Forall_forall in Hall. destruct (Hall _ (parts_of r1)) as (Hl & _ & Hinj).
  rewrite Forall_forall in Hinj. split; [exact Hl|]. split; [|split; [|done]].
  - split.
    + intros E. by injection (Hinj _ (parts_of r2) E) as -> ->.
    + intros [Em Ed]. unfold crash_file_name. by rewrite Em, Ed.
  - apply list_elem_of_fmap. exists (GetModule r1, GetDescription r1). split; [done|apply parts_of].
Qed.

Lemma say_run {B} e (k : unit -> M (list event) B) log : (say e ≫= k) log = k tt (log ++ [e])%list.
Proof. done. Qed.
(** What follows the report. *)
Definition break (w : World) : list event := if debugged w then [DebugBreak] else [].
Lemma Abort_run w r log : Abort w r log = Ok (tt, (log ++ break w ++ [ExitProcess (u32 r)])%list).
Proof. unfold Abort, Break, IsDebuggerPresent, break, say, modify. destruct (debugged w); unfold mbind, M_bind; cbn; by rewrite <- ?app_assoc. Qed.
(** The message that is shown: the buffer has room for all of it, but its length leaves no room for the terminator. *)
Definition shown message : string := of_chars (removelast (chars message)).

Lemma info_run message : message <> "" -> plain_text message ->
  exists b, snprintf (malloc (length (chars message) + 1)) (length (chars message)) message = Ok b /\ c_string b = Ok (shown message).
Proof.
  intros Hm Hp. destruct (chars message) as [|c l] eqn:E.
  - exfalso. apply Hm. by rewrite <- (of_chars_chars message), E.
  - cbn [length]. destruct (snprintf_run (malloc (S (length l) + 1)) (length l) message) as (b & Eb & _ & Ec & _).
    + unfold malloc. rewrite length_replicate. lia.
    + done.
    + exists b. split; [exact Eb|]. rewrite Ec. unfold shown. rewrite E. f_equal. f_equal.
      rewrite removelast_firstn_len. cbn [length pred]. done.
Qed.

(** The two buffers of the report: what is measured is one longer than what is printed. *)
Lemma output_run f p n e i : plain_text (report f p n e i) ->
  let size := length (chars (measured f p n e i)) in
  exists b, snprintf (malloc size) size (report f p n e i) = Ok b /\ c_string b = Ok (report f p n e i) /\
    take size b = Some <$> (chars (report f p n e i) ++ [NUL])%list.
Proof.
  intros Hp. cbn zeta. rewrite measured_length.
  destruct (snprintf_run (malloc (S (length (chars (report f p n e i))))) (length (chars (report f p n e i))) (report f p n e i))
    as (b & Eb & _ & Ec & Et); [by unfold malloc; rewrite length_replicate|done|].
  rewrite firstn_all in Ec, Et. exists b. by rewrite of_chars_chars in Ec.
Qed.
Lemma name_run r : exists b, snprintf (replicate 256 (Some NUL)) 256 (crash_file_name r) = Ok b /\ c_string b = Ok (crash_file_name r).
Proof.
  pose proof names_checked as Hall. rewrite Forall_forall in Hall. destruct (Hall _ (parts_of r)) as (Hl & Hp & _).
  destruct (snprintf_run (replicate 256 (Some NUL)) 255 (crash_file_name r)) as (b & Eb & _ & Ec & _); [by rewrite length_replicate|exact Hp|].
  exists b. split; [exact Eb|]. rewrite Ec, take_ge, of_chars_chars; [done|]. change (length (chars (name_of (GetModule r, GetDescription r))) <= 255)%nat. lia.
Qed.
Lemma plain_app s1 s2 : plain_text (s1 +:+ s2) <-> plain_text s1 /\ plain_text s2.
Proof. unfold plain_text. rewrite chars_app, elem_of_app. tauto. Qed.
Lemma plain_shown message : plain_text message -> plain_text (shown message).
Proof.
  unfold plain_text, shown. rewrite chars_of_chars, removelast_firstn_len. intros Hp Hin. apply Hp.
  apply elem_of_take in Hin as (i & Hi & _). by eapply list_elem_of_lookup_2.
Qed.
Lemma plain_digits (m n : N) : (n <= m)%N -> forall s, plain_text s -> plain_text (pretty_N_go n s).
Proof.
  revert n. induction (N.lt_wf_0 m) as [m _ IH]. intros n Hn s Hs. destruct (decide (0 < n)%N) as [Hpos|Hz].
  - rewrite pretty_N_go_step by done. assert (n / 10 < n)%N by (by apply N.div_lt). apply (IH (n / 10)%N); [lia|done|].
    unfold plain_text. cbn. apply not_elem_of_cons. split; [|exact Hs]. unfold pretty_N_char. by repeat case_match.
  - assert (n = 0)%N as -> by lia. by rewrite pretty_N_go_0.
Qed.
Lemma plain_pretty (x : Z) : plain_text (pretty x).
Proof.
  assert (forall n : N, plain_text (pretty n)) as Hn.
  { intros n. unfold pretty, pretty_N. case_decide; [by apply (bool_decide_unpack _); vm_compute|]. apply (plain_digits n); [done|]. apply not_elem_of_nil. }
  destruct x as [|p|p]; [by apply (bool_decide_unpack _); vm_compute|exact (Hn (Npos p))|]. apply (plain_app "-"). split; [|exact (Hn (Npos p))].
  by apply (bool_decide_unpack _); vm_compute.
Qed.
Lemma plain_report f p n e i : plain_text f -> plain_text p -> plain_text e -> plain_text i -> plain_text (report f p n e i).
Proof.
  intros Hf Hp He Hi. unfold report. rewrite !plain_app. split_and!; try done; try apply plain_pretty; by apply (bool_decide_unpack _); vm_compute.
Qed.

(** [C25] Reporting an abort: with memory for the texts it prints the report, creates the file of the result's codes and,
    when that can be, writes the report to it, with a terminator at its end; the last character of the message is lost
    on the way. Whatever the system answers, the last thing it does is to exit with the result. An empty message is read
    before anything has been written to it. *)
Theorem abort_report (w : World) expected function path line result message log :
  plain_text expected -> plain_text function -> plain_text path -> plain_text message ->
  let text := report function path line expected (shown message) in
  (message <> "" -> info_memory w = true -> output_memory w = true ->
    AbortImpl w expected function path line result message log =
      Ok (tt, (log ++ [Puts text; CreateFile (crash_file_name result)] ++
        (if (crash_file w =? INVALID_HANDLE_VALUE)%Z then [Puts "failed to create file"]
         else [WriteFile (crash_file w) (Some <$> (chars text ++ [NUL]))]) ++ break w ++ [ExitProcess (u32 result)])%list)) /\
  (message <> "" -> exists before, AbortImpl w expected function path line result message log = Ok (tt, (log ++ before ++ [ExitProcess (u32 result)])%list)) /\
  (message = "" -> info_memory w = true -> AbortImpl w expected function path line result message log = Fault Uninitialized).
Proof.
  intros He Hf Hp Hm text. assert (forall m, m <> "" -> m = message -> info_memory w = true -> output_memory w = true ->
    AbortImpl w expected function path line result m log =
      Ok (tt, (log ++ [Puts text; CreateFile (crash_file_name result)] ++
        (if (crash_file w =? INVALID_HANDLE_VALUE)%Z then [Puts "failed to create file"]
         else [WriteFile (crash_file w) (Some <$> (chars text ++ [NUL]))]) ++ break w ++ [ExitProcess (u32 result)])%list)) as Hfull.
  { intros m Hne -> Hi Ho. destruct (info_run message Hne Hm) as (b1 & E1 & C1).
    destruct (output_run function path line expected (shown message)) as (b2 & E2 & C2 & T2); [by apply plain_report, plain_shown|].
    destruct (name_run result) as (b3 & E3 & C3). unfold AbortImpl. rewrite Hi, Ho. cbn [negb].
    rewrite E1, M_lift_ok, C1, M_lift_ok, E2, M_lift_ok, C2, M_lift_ok. cbv beta. rewrite say_run, E3, M_lift_ok, C3, M_lift_ok.
    cbv beta. rewrite say_run. fold text in T2 |- *. destruct (crash_file w =? INVALID_HANDLE_VALUE)%Z; cbn match; rewrite say_run.
    - by rewrite Abort_run, <- !app_assoc.
    - rewrite T2. destruct (written w); cbn [negb]; by rewrite Abort_run, <- !app_assoc. }
  split; [intros; by apply Hfull|]. split.
  - intros Hne. destruct (info_memory w) eqn:Hi; [destruct (output_memory w) eqn:Ho|].
    + rewrite Hfull by done. match goal with |- context [(log ++ ?a ++ ?b ++ ?c ++ ?d)%list] => exists (a ++ b ++ c)%list end.
      by rewrite <- !app_assoc.
    + destruct (info_run message Hne Hm) as (b1 & E1 & C1). unfold AbortImpl. rewrite Hi, Ho. cbn [negb].
      rewrite E1, M_lift_ok, C1, M_lift_ok, Abort_run. by eexists.
    + unfold AbortImpl. rewrite Hi. cbn [negb]. rewrite Abort_run. by eexists.
  - intros -> Hi. unfold AbortImpl. by rewrite Hi.
Qed.

(** A failed assertion is an abort in a build with assertions only. *)
Theorem assertion_reports (w : World) debug holds text function path line log :
  DD_ASSERT w debug holds text function path line log =
    if debug && negb holds then AbortImpl w "Assert failed!!!" function path line trace.ResultAssertFailed ("Failed: " +:+ text +:+ newline) log
    else Ok (tt, log).
Proof. unfold DD_ASSERT. by destruct holds, debug. Qed.
End abort_report.

(** * Example *)
Section abort_example.
Import Trace.
Local Open Scope string_scope.
Definition example_world : World := MkWorld true true 12 true false.
Lemma abort_report_witness : exists events,
  DD_ASSERT example_world true false "m_core_count > core" "f()" "a.cpp" 7 [] = Ok (tt, events) /\
  nth_error events 1 = Some (CreateFile "crash_report_module_0_desc_1.txt") /\ last events = Some (ExitProcess 512).
Proof.
  pose proof (proj1 (abort_report example_world "Assert failed!!!" "f()" "a.cpp" 7 trace.ResultAssertFailed
    ("Failed: " +:+ "m_core_count > core" +:+ newline) []
    ltac:(apply (bool_decide_unpack _); vm_compute; exact I) ltac:(apply (bool_decide_unpack _); vm_compute; exact I)
    ltac:(apply (bool_decide_unpack _); vm_compute; exact I) ltac:(apply (bool_decide_unpack _); vm_compute; exact I))
    ltac:(discriminate) eq_refl eq_refl) as E.
  eexists. split; [exact E|]. split; vm_compute; reflexivity.
Defined.
End abort_example.
