(* ===== verification/TimeSpan.v ===== *)
(** dd::TimeSpan, the tick queries and the frame clock (util_timespan.hpp,
    util_timestamp.x64.cpp, util_time.cpp).

    The performance counter and its frequency are Win32's: the frequency and the
    current tick are arguments.  A TimeSpan is its m_time_ns; signed overflow faults. *)
From S2P Require Import Prelude.

Definition MaxTime : Z := s64_max.
Definition MinTime : Z := s64_min.

Record TimeStamp : Type := mkTimeStamp { sSystemFrequency : Z; sMaxTickToTimeSpan : Z }.

(** The statics before InitializeTimeStamp(). *)
Definition TimeStamp_static : TimeStamp := mkTimeStamp 0 MaxTime.

Definition InitializeTimeStamp (frequency : Z) : res TimeStamp :=
  rem ← rem64 MaxTime frequency;
  diff ← chk64 (MaxTime - rem);
  q ← div64 diff 1000000000;
  max ← chk64 (q * frequency);
  Ok (mkTimeStamp frequency max).

Definition GetSystemTickFrequency (ts : TimeStamp) : Z := s32 (sSystemFrequency ts).
Definition GetMaxTickToTimeSpan (ts : TimeStamp) : Z := sMaxTickToTimeSpan ts.

Definition FromTick (ts : TimeStamp) (tick : Z) : res Z :=
  let frequency := GetSystemTickFrequency ts in
  let max_tick_to_timespan := GetMaxTickToTimeSpan ts in
  if max_tick_to_timespan <? tick then Ok MaxTime
  else
    neg ← chk64 (- max_tick_to_timespan);
    if tick <? neg then Ok MinTime
    else
      r ← rem64 tick frequency;
      r ← chk64 (r * 1000000000);
      residual ← div64 r frequency;
      q ← div64 tick frequency;
      quotient ← chk64 (q * 1000000000);
      chk64 (residual + quotient).

Definition FromNanoSeconds (time_ns : Z) : res Z := Ok time_ns.
Definition FromMicroSeconds (time_us : Z) : res Z := chk64 (time_us * 1000).
Definition FromMilliSeconds (time_ms : Z) : res Z := chk64 (time_ms * 1000000).
Definition FromSeconds (time_sec : Z) : res Z := chk64 (time_sec * 1000000000).

Definition GetNanoSeconds (time_ns : Z) : Z := time_ns.
Definition GetMicroSeconds (time_ns : Z) : Z := Z.quot time_ns 1000.
Definition GetMilliSeconds (time_ns : Z) : Z := Z.quot time_ns 1000000.
Definition GetSeconds (time_ns : Z) : Z := Z.quot time_ns 1000000000.

Definition GetTick (ts : TimeStamp) (m_time_ns : Z) : res Z :=
  if m_time_ns =? MinTime then Ok MinTime
  else
    let frequency := GetSystemTickFrequency ts in
    r ← rem64 m_time_ns 1000000000;
    r_coeff ← (if m_time_ns <=? -1 then chk64 (- r) else Ok r);
    p ← div64 m_time_ns 1000000000;
    p_coeff ← (if m_time_ns <=? -1 then chk64 (- p) else Ok p);
    rf ← chk64 (r_coeff * frequency);
    rf ← chk64 (rf + 999999999);
    residual ← div64 rf 1000000000;
    product ← chk64 (p_coeff * frequency);
    result ← chk64 (residual + product);
    if result <=? -1 then chk64 (- result) else Ok result.

(** [now] is what GetSystemTick() reads. *)
Definition GetTimeLeftOnTarget (ts : TimeStamp) (now tick : Z) : res Z :=
  if tick =? 0 then Ok 0
  else
    tick_left ← chk64 (tick - now);
    if (tick_left =? 0) || (tick_left <? tick) then Ok 0
    else FromTick ts tick_left.

(** ukern::impl::GetAbsoluteTimeToWakeup (ukern_scheduler.cpp). *)
Definition GetAbsoluteTimeToWakeup (ts : TimeStamp) (now timeout_ns : Z) : res Z :=
  timeout_tick ← GetTick ts timeout_ns;
  if timeout_tick <=? 0 then Ok MaxTime
  else
    absolute_time ← chk64 (timeout_tick + now);
    next ← chk64 (absolute_time + 1);
    if next <=? 1 then Ok MaxTime
    else chk64 (absolute_time + 2).

(** util_time.cpp: the frame clock; the quotients in double are left out. *)
Record FrameClock : Type := mkFrameClock { sLastFrameTime : Z; sDeltaTick : Z }.
Definition BeginFrame (now : Z) (fc : FrameClock) : res FrameClock :=
  let last_last_frame := sLastFrameTime fc in
  delta ← chk64 (now - last_last_frame);
  Ok (mkFrameClock now delta).

Definition GetMillisecondsFromTick (ts : TimeStamp) (tick : Z) : res Z :=
  let frequency := GetSystemTickFrequency ts in
  r ← rem64 tick frequency;
  r ← chk64 (r * 1000);
  r ← div64 r frequency;
  q ← div64 tick frequency;
  q ← chk64 (q * 1000);
  chk64 (r + q).

(** * Lemmas *)
(** A frequency of the performance counter, read through an s32. *)
Definition valid_frequency (ts : TimeStamp) : Prop :=
  InitializeTimeStamp (sSystemFrequency ts) = Ok ts /\ 0 < sSystemFrequency ts < 2 ^ 31.

Lemma frequency_id ts : valid_frequency ts -> GetSystemTickFrequency ts = sSystemFrequency ts.
Proof. intros [_ Hf]. unfold GetSystemTickFrequency, s32. apply swrap_small; lia. Qed.

Lemma rem64_ok x y : 0 < y -> s64_min <= x <= s64_max -> rem64 x y = Ok (Z.rem x y).
Proof.
  intros Hy Hx. unfold rem64. destruct (Z.eqb_spec y 0); [lia|]. rewrite chk64_ok; [done|].
  unfold s64_min, s64_max in *. nia || (Z.to_euclidean_division_equations; nia).
Qed.

Lemma div64_ok x y : 0 < y -> s64_min <= x <= s64_max -> div64 x y = Ok (Z.quot x y).
Proof.
  intros Hy Hx. unfold div64. destruct (Z.eqb_spec y 0); [lia|]. apply chk64_ok.
  unfold s64_min, s64_max in *. nia || (Z.to_euclidean_division_equations; nia).
Qed.

Lemma quot_nonneg x y : 0 <= x -> 0 < y -> Z.quot x y = x / y.
Proof. intros. apply Z.quot_div_nonneg; lia. Qed.

Lemma rem_nonneg x y : 0 <= x -> 0 < y -> Z.rem x y = x mod y.
Proof. intros. apply Z.rem_mod_nonneg; lia. Qed.

Lemma max_tick_value ts :
  valid_frequency ts ->
  GetMaxTickToTimeSpan ts =
    (s64_max - s64_max mod sSystemFrequency ts) / 1000000000 * sSystemFrequency ts /\
  0 <= GetMaxTickToTimeSpan ts <= s64_max.
Proof.
  intros [Hi Hf]. unfold InitializeTimeStamp, MaxTime, mbind, res_bind in Hi.
  set (f := sSystemFrequency ts) in *.
  pose proof (Z.mod_pos_bound s64_max f ltac:(lia)) as Hm.
  assert (2 ^ 31 < s64_max) by done.
  rewrite rem64_ok, rem_nonneg in Hi by (unfold s64_min in *; lia).
  rewrite chk64_ok, div64_ok, quot_nonneg in Hi by (unfold s64_min in *; lia).
  destruct (chk64 _) as [m|] eqn:E; [|done]. apply chk64_inv in E as [-> E].
  injection Hi as Hts. rewrite <- Hts. cbn. split; [done|]. split; [|lia].
  apply Z.mul_nonneg_nonneg; [|lia]. apply Z.div_pos; lia.
Qed.

Lemma InitializeTimeStamp_valid f : 0 < f <= 1000000000 ->
  exists ts, InitializeTimeStamp f = Ok ts /\ valid_frequency ts /\ sSystemFrequency ts = f /\
    9000000000 * f <= GetMaxTickToTimeSpan ts.
Proof.
  intros Hf. set (m := (s64_max - s64_max mod f) / 1000000000 * f).
  pose proof (Z.mod_pos_bound s64_max f ltac:(lia)) as Hm.
  pose proof (Z.mul_div_le (s64_max - s64_max mod f) 1000000000 ltac:(lia)) as Hk.
  assert (9000000000 <= (s64_max - s64_max mod f) / 1000000000) as Hk9.
  { apply Z.div_le_lower_bound; unfold s64_max in *; lia. }
  assert (InitializeTimeStamp f = Ok (mkTimeStamp f m)) as E.
  { unfold InitializeTimeStamp, MaxTime, mbind, res_bind. assert (2 ^ 31 < s64_max) by done.
    rewrite rem64_ok, rem_nonneg by (unfold s64_min in *; lia).
    rewrite chk64_ok, div64_ok, quot_nonneg by (unfold s64_min in *; lia).
    rewrite chk64_ok by (unfold s64_min; nia). done. }
  exists (mkTimeStamp f m). split; [exact E|]. cbn. split; [|split; [done|]].
  - split; [exact E|]. cbn. lia.
  - unfold m. nia.
Qed.

(** FromTick on ticks that are not negative: the exact quotient, rounded down. *)
Lemma FromTick_nonneg ts tick :
  valid_frequency ts -> 0 <= tick <= GetMaxTickToTimeSpan ts ->
  FromTick ts tick = Ok (tick * 1000000000 / sSystemFrequency ts).
Proof.
  intros Hv Ht. destruct (max_tick_value ts Hv) as [Hmax Hr].
  unfold FromTick. rewrite (frequency_id ts Hv). destruct Hv as [_ Hf].
  set (f := sSystemFrequency ts) in *. set (max := GetMaxTickToTimeSpan ts) in *.
  destruct (Z.ltb_spec max tick); [lia|].
  unfold mbind, res_bind. rewrite chk64_ok by (unfold s64_min, s64_max in *; lia).
  destruct (Z.ltb_spec tick (- max)); [lia|].
  pose proof (Z.mod_pos_bound tick f ltac:(lia)) as Hm.
  pose proof (Z.div_pos tick f ltac:(lia) ltac:(lia)) as Hq.
  pose proof (Z.div_mod tick f ltac:(lia)) as Hdm.
  set (K := (s64_max - s64_max mod f) / 1000000000) in *.
  assert (0 <= K) as HK.
  { apply Z.div_pos; [|lia]. pose proof (Z.mod_le s64_max f). unfold s64_max in *. lia. }
  assert (K * 1000000000 <= s64_max) as HK2.
  { pose proof (Z.mul_div_le (s64_max - s64_max mod f) 1000000000 ltac:(lia)).
    pose proof (Z.mod_pos_bound s64_max f ltac:(lia)). lia. }
  assert (tick / f <= K) as HqK by nia.
  assert (tick mod f = 0 \/ tick / f < K) as Hlast by nia.
  rewrite rem64_ok, rem_nonneg by (unfold s64_min, s64_max in *; lia).
  rewrite chk64_ok by (unfold s64_min, s64_max in *; nia).
  rewrite div64_ok, quot_nonneg by (unfold s64_min, s64_max in *; nia).
  rewrite div64_ok, quot_nonneg by (unfold s64_min, s64_max in *; nia).
  rewrite chk64_ok by (unfold s64_min, s64_max in *; nia).
  assert (0 <= tick mod f * 1000000000 / f < 1000000000) as Hres.
  { split; [apply Z.div_pos; nia|apply Z.div_lt_upper_bound; nia]. }
  replace (tick * 1000000000) with (tick mod f * 1000000000 + tick / f * 1000000000 * f) by nia.
  rewrite Z.div_add by lia. apply chk64_ok.
  destruct Hlast as [Hz|Hlt].
  - rewrite Hz, Z.mul_0_l, Z.div_0_l by lia. unfold s64_min, s64_max in *. lia.
  - unfold s64_min, s64_max in *. lia.
Qed.

(** GetTick on spans that are not negative: the exact quotient, rounded up. *)
Lemma GetTick_nonneg ts ns :
  valid_frequency ts -> sSystemFrequency ts <= 1000000000 -> 0 <= ns <= s64_max ->
  GetTick ts ns = Ok ((ns * sSystemFrequency ts + 999999999) / 1000000000).
Proof.
  intros Hv Hf9 Hns. unfold GetTick. rewrite (frequency_id ts Hv). destruct Hv as [_ Hf].
  set (f := sSystemFrequency ts) in *.
  destruct (Z.eqb_spec ns MinTime) as [E|_]; [unfold MinTime, s64_min in E; lia|].
  destruct (Z.leb_spec ns (-1)); [lia|].
  pose proof (Z.mod_pos_bound ns 1000000000 ltac:(lia)) as Hm.
  pose proof (Z.div_pos ns 1000000000 ltac:(lia) ltac:(lia)) as Hq.
  pose proof (Z.div_mod ns 1000000000 ltac:(lia)) as Hdm.
  set (r := ns mod 1000000000) in *. set (p := ns / 1000000000) in *.
  unfold mbind, res_bind.
  rewrite rem64_ok, rem_nonneg by (unfold s64_min in *; lia). fold r.
  rewrite div64_ok, quot_nonneg by (unfold s64_min in *; lia). fold p.
  assert (0 <= r * f <= 1000000000 * 1000000000) as Hrf by nia.
  rewrite !chk64_ok by (unfold s64_min, s64_max in *; lia).
  rewrite div64_ok, quot_nonneg by (unfold s64_min, s64_max in *; lia).
  replace (ns * f + 999999999) with (r * f + 999999999 + p * f * 1000000000) by nia.
  rewrite Z.div_add by lia. set (e := (r * f + 999999999) / 1000000000).
  assert (0 <= e) as He by (apply Z.div_pos; lia).
  assert (e <= r) as Her by (apply Z.lt_succ_r, Z.div_lt_upper_bound; nia).
  assert (0 <= p * f <= s64_max) as Hpf by nia.
  assert (e + p * f <= s64_max) as Hs by nia.
  rewrite chk64_ok by (unfold s64_min, s64_max in *; lia).
  rewrite chk64_ok by (unfold s64_min, s64_max in *; lia).
  destruct (Z.leb_spec (e + p * f) (-1)); [lia|done].
Qed.

(** A negative span has the ticks of its absolute value. *)
Lemma GetTick_opp ts ns :
  valid_frequency ts -> sSystemFrequency ts <= 1000000000 -> 0 < ns <= s64_max ->
  GetTick ts (- ns) = GetTick ts ns.
Proof.
  intros Hv Hf9 Hns. unfold GetTick.
  destruct (Z.eqb_spec (- ns) MinTime) as [E|_]; [unfold MinTime, s64_min, s64_max in *; lia|].
  destruct (Z.eqb_spec ns MinTime) as [E|_]; [unfold MinTime, s64_min in E; lia|].
  destruct (Z.leb_spec (- ns) (-1)); [|lia]. destruct (Z.leb_spec ns (-1)); [lia|].
  unfold mbind, res_bind.
  rewrite !rem64_ok, !div64_ok by (unfold s64_min, s64_max in *; lia).
  rewrite Z.rem_opp_l, Z.quot_opp_l, !Z.opp_involutive by lia.
  rewrite rem_nonneg, quot_nonneg by lia.
  pose proof (Z.mod_pos_bound ns 1000000000 ltac:(lia)).
  pose proof (Z.div_pos ns 1000000000 ltac:(lia) ltac:(lia)).
  pose proof (Z.div_mod ns 1000000000 ltac:(lia)).
  rewrite !chk64_ok by (unfold s64_min, s64_max in *; lia). done.
Qed.


(** A 10 MHz counter. *)
Definition ts_10MHz : TimeStamp := mkTimeStamp 10000000 92233720360000000.

Lemma ts_10MHz_valid : valid_frequency ts_10MHz.
Proof. split; [vm_compute; reflexivity|cbn; lia]. Qed.




(** GetAbsoluteTimeToWakeup: a zero timeout never ends (MaxTime); a positive one
    ends two ticks after now plus the timeout rounded up; a negative one, the -1 that the
    callers pass for "no timeout" included, is counted like its absolute value. *)
Theorem GetAbsoluteTimeToWakeup_spec ts now ns :
  valid_frequency ts -> sSystemFrequency ts <= 1000000000 ->
  0 <= now <= 2 ^ 61 -> 0 <= ns <= 2 ^ 61 ->
  GetAbsoluteTimeToWakeup ts now 0 = Ok MaxTime /\
  (0 < ns ->
   GetAbsoluteTimeToWakeup ts now ns =
     Ok (now + (ns * sSystemFrequency ts + 999999999) / 1000000000 + 2) /\
   GetAbsoluteTimeToWakeup ts now (- ns) = GetAbsoluteTimeToWakeup ts now ns).
Proof.
  intros Hv Hf9 Hnow Hns. pose proof Hv as [_ Hf].
  assert (2 ^ 61 < s64_max) by done.
  unfold GetAbsoluteTimeToWakeup. split.
  - rewrite GetTick_nonneg by (done || lia). done.
  - intros Hpos. rewrite GetTick_opp by (done || lia). split; [|done].
    rewrite GetTick_nonneg by (done || lia). unfold mbind, res_bind.
    set (f := sSystemFrequency ts) in *. set (t := (ns * f + 999999999) / 1000000000).
    assert (0 < t <= ns) as Ht.
    { subst t. pose proof (Z.div_mod (ns * f + 999999999) 1000000000 ltac:(lia)).
      pose proof (Z.mod_pos_bound (ns * f + 999999999) 1000000000 ltac:(lia)). nia. }
    destruct (Z.leb_spec t 0); [lia|].
    rewrite !chk64_ok by (unfold s64_min, s64_max in *; lia).
    destruct (Z.leb_spec (t + now + 1) 1); [lia|]. f_equal. lia.
Qed.

Lemma GetAbsoluteTimeToWakeup_spec_witness :
  GetAbsoluteTimeToWakeup ts_10MHz 500 0 = Ok MaxTime /\
  (0 < 1 ->
   GetAbsoluteTimeToWakeup ts_10MHz 500 1 =
     Ok (500 + (1 * sSystemFrequency ts_10MHz + 999999999) / 1000000000 + 2) /\
   GetAbsoluteTimeToWakeup ts_10MHz 500 (- 1) = GetAbsoluteTimeToWakeup ts_10MHz 500 1).
Proof.
  apply (GetAbsoluteTimeToWakeup_spec ts_10MHz 500 1); [apply ts_10MHz_valid|cbn; lia..].
Defined.

(** GetTimeLeftOnTarget answers zero for every target once the counter has started:
    the time left is compared with the target instead of with zero. *)
Theorem GetTimeLeftOnTarget_zero ts now tick :
  0 < now <= s64_max -> 0 <= tick <= s64_max -> GetTimeLeftOnTarget ts now tick = Ok 0.
Proof.
  intros Hnow Ht. unfold GetTimeLeftOnTarget. destruct (Z.eqb_spec tick 0); [done|].
  unfold mbind, res_bind. rewrite chk64_ok by (unfold s64_min, s64_max in *; lia).
  destruct (Z.ltb_spec (tick - now) tick); [|lia]. by rewrite orb_true_r.
Qed.

Lemma GetTimeLeftOnTarget_zero_witness : GetTimeLeftOnTarget ts_10MHz 5 1000000 = Ok 0.
Proof. apply (GetTimeLeftOnTarget_zero ts_10MHz 5 1000000); unfold s64_max; lia. Defined.
