(* ===== verification/IntrusiveList.v ===== *)
(** util::IntrusiveListNode and util::IntrusiveList (util_intrusivelist.hpp).

    The links are a store from node addresses to their [m_prev] and [m_next]
    pointers; a list is the address of its head node [m_list].  An address the
    store does not hold is a node as its constructor leaves it, linked to itself.
    [is_list s h l]: from the head [h] the nodes [l] are linked in that order. *)
From S2P Require Import Prelude.

Record IntrusiveListNode (A : Type) : Type := mkNode { m_prev : A; m_next : A }.
Arguments mkNode {A} _ _.
Arguments m_prev {A} _.
Arguments m_next {A} _.

(** A state that holds intrusive list nodes: what the loops over lists need. *)
Class HasNodes (A : Type) `{Countable A} (S : Type) : Type := {
  nodes : S -> gmap A (IntrusiveListNode A);
  set_nodes : gmap A (IntrusiveListNode A) -> S -> S;
  nodes_set_nodes : forall m s, nodes (set_nodes m s) = m;
  set_nodes_set_nodes : forall m m' s, set_nodes m (set_nodes m' s) = set_nodes m s;
  set_nodes_nodes : forall s, set_nodes (nodes s) s = s
}.

Section definitions.
Context {A : Type} `{Countable A}.
Implicit Types (s : gmap A (IntrusiveListNode A)) (n h this : A).

(** IntrusiveListNode(): a node starts out linked to itself. *)
Definition node s n : IntrusiveListNode A := default (mkNode n n) (s !! n).
Definition next s n : A := m_next (node s n).
Definition prev s n : A := m_prev (node s n).
Definition set_next n x s : gmap A (IntrusiveListNode A) := <[n := mkNode (prev s n) x]> s.
Definition set_prev n x s : gmap A (IntrusiveListNode A) := <[n := mkNode x (next s n)]> s.

(** std::construct_at on a node. *)
Definition ConstructNode n s : gmap A (IntrusiveListNode A) := <[n := mkNode n n]> s.

Definition IsLinked s this : bool := negb (bool_decide (this = next s this)).

Definition LinkNext this new_node s : gmap A (IntrusiveListNode A) :=
  let new_prev := prev s new_node in
  let s := set_prev new_node (prev s this) s in
  let s := set_next new_prev this s in
  let s := set_next (prev s this) new_node s in
  set_prev this new_prev s.

Definition LinkPrev this new_node s : gmap A (IntrusiveListNode A) :=
  let new_prev := prev s new_node in
  let s := set_prev new_node (prev s (prev s this)) s in
  let s := set_next new_prev (prev s this) s in
  let s := set_next (prev s (prev s this)) new_node s in
  set_prev (prev s this) new_prev s.

Definition Unlink this s : gmap A (IntrusiveListNode A) :=
  let s := set_next (prev s this) (next s this) s in
  let s := set_prev (next s this) (prev s this) s in
  let s := set_next this this s in
  set_prev this this s.

(** Iterator: the member m_next of an iterator constructed from a node, the node
    operator* designates, and operator++. *)
Definition iterator s n : A := next s n.
Definition iter_deref s (it : A) : A := prev s it.
Definition iter_incr s (it : A) : A := next s it.
Definition list_begin s h : A := iterator s (next s h).
Definition list_end s h : A := iterator s h.

Definition Front s h : A := next s h.
Definition Back s h : A := prev s h.
Definition IsEmpty s h : bool := negb (IsLinked s h).
Definition PushBack h obj s : gmap A (IntrusiveListNode A) := LinkNext h obj s.
Definition PushFront h obj s : gmap A (IntrusiveListNode A) := LinkPrev h obj s.
Definition PopFront h s : A * gmap A (IntrusiveListNode A) :=
  let front := next s h in (front, Unlink front s).
Definition PopBack h s : A * gmap A (IntrusiveListNode A) :=
  let back := prev s h in (back, Unlink back s).
Definition Remove obj s : gmap A (IntrusiveListNode A) := Unlink obj s.
End definitions.

Section loops.
Context {A : Type} `{Countable A} {S R : Type} `{!HasNodes A S}.

Definition modify_nodes (f : gmap A (IntrusiveListNode A) -> gmap A (IntrusiveListNode A)) : M S unit :=
  modify (fun s => set_nodes (f (nodes s)) s).

(** [for (T &x : list) body]: begin() and end() are evaluated once, before the
    first iteration; the body answers [Some r] to leave the loop. *)
Fixpoint for_loop (fuel : nat) (it stop : A) (body : A -> M S (option R)) : M S (option R) :=
  match fuel with
  | O => throw OutOfFuel
  | Datatypes.S fuel =>
      if decide (it = stop) then mret None
      else
        x ← gets (fun s => iter_deref (nodes s) it);
        r ← body x;
        match r with
        | Some r => mret (Some r)
        | None =>
            it ← gets (fun s => iter_incr (nodes s) it);
            for_loop fuel it stop body
        end
  end.

Definition for_each (fuel : nat) (h : A) (body : A -> M S (option R)) : M S (option R) :=
  it ← gets (fun s => list_begin (nodes s) h);
  stop ← gets (fun s => list_end (nodes s) h);
  for_loop fuel it stop body.

(** The reference: the body run on the elements of a list, in order. *)
Fixpoint visit (l : list A) (body : A -> M S (option R)) : M S (option R) :=
  match l with
  | [] => mret None
  | x :: l =>
      r ← body x;
      match r with Some r => mret (Some r) | None => visit l body end
  end.
End loops.
Arguments for_each {A _ _ S R _} fuel h body.

(** The loop that hands the nodes of a list to another list, as it is written in
    ReleaseLockWaitListUnsafe, KeyArbiter::CancelWait, SignalKeyImpl and the
    WakeByAddress functions. *)
Definition TransferList {A} `{Countable A} {S} `{!HasNodes A S} (fuel : nat) (src dst : A) : M S (option unit) :=
  for_each fuel src (fun waiter =>
    modify_nodes (Unlink waiter);;
    modify_nodes (PushBack dst waiter);;
    mret None).

(** * Representation predicate *)
Section representation.
Context {A : Type} `{Countable A}.
Implicit Types (s : gmap A (IntrusiveListNode A)) (n h : A) (l : list A).

Definition linked s (a b : A) : Prop := next s a = b /\ prev s b = a.

Fixpoint seg s (a : A) (l : list A) (b : A) : Prop :=
  match l with
  | [] => linked s a b
  | x :: l => linked s a x /\ seg s x l b
  end.

Definition is_list s h l : Prop := NoDup (h :: l) /\ seg s h l h.
Definition unlinked s n : Prop := is_list s n [].
End representation.

(** * Reads after writes *)
Section lookups.
Context {A : Type} `{Countable A}.
Implicit Types (s : gmap A (IntrusiveListNode A)) (n m x h : A) (l : list A).

Lemma node_insert s n v m : node (<[n := v]> s) m = if decide (n = m) then v else node s m.
Proof.
  unfold node. rewrite lookup_insert. by case_decide.
Qed.

Lemma next_set_next s n x m : next (set_next n x s) m = if decide (n = m) then x else next s m.
Proof. unfold next at 1, set_next. rewrite node_insert. by case_decide. Qed.

Lemma next_set_prev s n x m : next (set_prev n x s) m = next s m.
Proof. unfold next at 1, set_prev. rewrite node_insert. case_decide; by subst. Qed.

Lemma prev_set_prev s n x m : prev (set_prev n x s) m = if decide (n = m) then x else prev s m.
Proof. unfold prev at 1, set_prev. rewrite node_insert. by case_decide. Qed.

Lemma prev_set_next s n x m : prev (set_next n x s) m = prev s m.
Proof. unfold prev at 1, set_next. rewrite node_insert. case_decide; by subst. Qed.

Lemma IsLinked_spec s n : IsLinked s n = true <-> n <> next s n.
Proof. unfold IsLinked. by rewrite negb_true_iff, bool_decide_eq_false. Qed.
End lookups.

Create Rewrite HintDb links.
#[export] Hint Rewrite @next_set_next @next_set_prev @prev_set_prev @prev_set_next : links.

(** Normalises reads of updated links. *)
Ltac links := autorewrite with links in *.

(** * Segments *)
Section segments.
Context {A : Type} `{Countable A}.
Implicit Types (s : gmap A (IntrusiveListNode A)) (a b n m x h : A) (l : list A).

Definition last_or a l : A := List.last l a.
#[local] Arguments last_or : simpl never.

Lemma last_or_cons a x l : last_or a (x :: l) = last_or x l.
Proof.
  unfold last_or. revert a x. induction l as [|y l IH]; intros a x; [done|].
  change (List.last (x :: y :: l) a) with (List.last (y :: l) a).
  by rewrite !IH.
Qed.

Lemma last_or_app a l l2 x : last_or a (l ++ x :: l2) = last_or x l2.
Proof.
  revert a. induction l as [|y l IH]; intros a; cbn [app]; rewrite last_or_cons; [done|]; apply IH.
Qed.

Lemma last_or_in a l : last_or a l ∈ a :: l.
Proof.
  revert a. induction l as [|x l IH]; intros a; [set_solver|].
  rewrite last_or_cons. specialize (IH x). set_solver.
Qed.

Lemma seg_app s a l x l2 b : seg s a (l ++ x :: l2) b <-> seg s a l x /\ seg s x l2 b.
Proof.
  revert a. induction l as [|y l IH]; intros a; cbn; [done|]. rewrite IH. tauto.
Qed.

Lemma seg_prev s a l b : seg s a l b -> prev s b = last_or a l.
Proof.
  revert a. induction l as [|x l IH]; intros a; cbn.
  - by intros [_ ?].
  - intros [_ Hs]. rewrite last_or_cons. by apply IH.
Qed.

Lemma seg_next s a l b : seg s a l b -> next s a = List.hd b l.
Proof. destruct l; cbn; [by intros [? _]|by intros [[? _] _]]. Qed.

Lemma seg_ext s s' a l b :
  (forall x, x ∈ a :: l -> next s' x = next s x) ->
  (forall x, x ∈ b :: l -> prev s' x = prev s x) ->
  seg s a l b -> seg s' a l b.
Proof.
  revert a. induction l as [|x l IH]; intros a Hn Hp; cbn; unfold linked.
  - intros [<- Hb]. rewrite Hn, Hp by set_solver. done.
  - intros [[Hx Hp'] Hs]. rewrite Hn, (Hp x) by set_solver. split; [done|].
    apply IH; [..|done]; intros y Hy; [apply Hn|apply Hp]; set_solver.
Qed.

(** Ending a segment in another node. *)
Lemma seg_retarget s s' a l b b' :
  NoDup (a :: l) ->
  (forall x, x ∈ a :: l -> x <> last_or a l -> next s' x = next s x) ->
  (forall x, x ∈ l -> prev s' x = prev s x) ->
  next s' (last_or a l) = b' -> prev s' b' = last_or a l ->
  seg s a l b -> seg s' a l b'.
Proof.
  revert a. induction l as [|x l IH]; intros a Hnd Hn Hp He Hb; cbn; unfold linked.
  - by intros _.
  - apply NoDup_cons in Hnd as [Hax Hnd]. rewrite last_or_cons in *.
    assert (a <> last_or x l) as Hne.
    { intros ->. apply Hax, last_or_in. }
    intros [[Hx Hp'] Hs]. rewrite Hn, Hp by set_solver. split; [done|].
    apply (IH x); try done; intros y Hy; [apply Hn|apply Hp]; set_solver.
Qed.

Lemma seg_det s a l l' b :
  seg s a l b -> seg s a l' b -> b ∉ l -> b ∉ l' -> l = l'.
Proof.
  revert a l'. induction l as [|x l IH]; intros a [|x' l']; cbn; unfold linked.
  - done.
  - intros [-> _] [[-> _] _] _ Hb. set_solver.
  - intros [[<- _] _] [-> _] Hb. set_solver.
  - intros [[<- _] Hs] [[<- _] Hs'] Hb Hb'. f_equal.
    eapply IH; [done..| |]; set_solver.
Qed.
End segments.

(** Closes goals about the endpoints of updated links: equalities, or a
    hypothesis that separates a node from the elements of a list. *)
Ltac separate_nodes :=
  repeat case_decide;
  first
    [ congruence
    | exfalso; match goal with
      | Hc : forall x, _ -> _ <> x |- _ => solve [eapply Hc; eassumption | eapply Hc; [eassumption|congruence]]
      end ].

(** * Operations on well-formed lists *)
Section operations.
Context {A : Type} `{Countable A}.
Implicit Types (s : gmap A (IntrusiveListNode A)) (a b n x h : A) (l : list A).

Lemma is_list_prev s h l : is_list s h l -> prev s h = last_or h l.
Proof. intros [_ Hs]. by apply seg_prev in Hs. Qed.

Lemma is_list_next s h l : is_list s h l -> next s h = List.hd h l.
Proof. intros [_ Hs]. by apply seg_next in Hs. Qed.

Lemma is_list_unique s h l l' : is_list s h l -> is_list s h l' -> l = l'.
Proof.
  intros [Hnd Hs] [Hnd' Hs']. apply NoDup_cons in Hnd as [? _], Hnd' as [? _].
  by eapply seg_det.
Qed.

Lemma is_list_ext s s' h l :
  (forall x, x ∈ h :: l -> node s' x = node s x) -> is_list s h l -> is_list s' h l.
Proof.
  intros He [Hnd Hs]. split; [done|]. eapply seg_ext; [..|done];
    intros x Hx; unfold next, prev; by rewrite He.
Qed.

(** A list seen from one of its elements: the head becomes an element. *)
Lemma is_list_rotate s h l1 n l2 :
  is_list s h (l1 ++ n :: l2) -> is_list s n (l2 ++ h :: l1).
Proof.
  intros [Hnd Hs]. split.
  - assert (n :: l2 ++ h :: l1 ≡ₚ h :: l1 ++ n :: l2) as ->; [|done].
    by rewrite <- (Permutation_middle l2), <- (Permutation_middle l1),
      (Permutation_app_comm l2), (Permutation_swap n h).
  - rewrite seg_app in *. tauto.
Qed.

Lemma IsEmpty_spec s h l : is_list s h l -> IsEmpty s h = bool_decide (l = []).
Proof.
  intros Hl. unfold IsEmpty, IsLinked. rewrite negb_involutive, (is_list_next _ _ _ Hl).
  apply bool_decide_ext. destruct Hl as [Hnd _]. destruct l as [|x l]; cbn; [done|].
  apply NoDup_cons in Hnd as [Hnd _]. split; [|done]. set_solver.
Qed.

Lemma IsLinked_elem s h l n : is_list s h l -> n ∈ l -> IsLinked s n = true.
Proof.
  intros Hl (l1 & l2 & ->)%list_elem_of_split. apply is_list_rotate in Hl.
  assert (IsEmpty s n = false) as E.
  { rewrite (IsEmpty_spec _ _ _ Hl). apply bool_decide_eq_false. by destruct l2. }
  unfold IsEmpty in E. by apply negb_false_iff.
Qed.

Lemma IsLinked_unlinked s n : unlinked s n -> IsLinked s n = false.
Proof. intros Hl. apply IsEmpty_spec in Hl. unfold IsEmpty in Hl. cbn in Hl. by apply negb_true_iff. Qed.

Lemma next_LinkNext s h n x :
  n <> h ->
  next (LinkNext h n s) x =
    if decide (prev s h = x) then n else if decide (prev s n = x) then h else next s x.
Proof. intros. unfold LinkNext. links. by rewrite (decide_False (P := n = h)) by done. Qed.

Lemma prev_LinkNext s h n x :
  n <> h ->
  prev (LinkNext h n s) x =
    if decide (h = x) then prev s n else if decide (n = x) then prev s h else prev s x.
Proof. intros. unfold LinkNext. by links. Qed.

(** LinkNext splices the circular list of the new node in front of the head. *)
Lemma LinkNext_nodes s h l n l2 :
  is_list s h l -> is_list s n l2 ->
  (forall x, x ∈ h :: l -> x ∉ n :: l2) ->
  is_list (LinkNext h n s) h (l ++ n :: l2).
Proof.
  intros Hl Hn Hd. pose proof (is_list_prev _ _ _ Hl) as Hph.
  pose proof (is_list_prev _ _ _ Hn) as Hpn.
  pose proof (last_or_in h l) as Hinl. pose proof (last_or_in n l2) as Hin2.
  assert (n <> h) as Hnh.
  { intros ->. apply (Hd h); by left. }
  destruct Hl as [Hndl Hsl], Hn as [Hndn Hsn].
  assert (forall x, x ∈ h :: l -> x <> last_or n l2 /\ x <> n) as Hd1.
  { intros x Hx. split; intros ->; apply (Hd _ Hx); [done|by left]. }
  assert (forall x, x ∈ n :: l2 -> x <> last_or h l /\ x <> h) as Hd2.
  { intros x Hx. split; intros ->; eapply Hd; [| |by left|]; done. }
  split.
  { change (NoDup ((h :: l) ++ n :: l2)). by apply NoDup_app. }
  apply NoDup_cons in Hndl as Hndl'. apply NoDup_cons in Hndn as Hndn'.
  pose proof (fun x => next_LinkNext s h n x Hnh) as HN.
  pose proof (fun x => prev_LinkNext s h n x Hnh) as HP.
  rewrite Hph, Hpn in *. apply seg_app. split.
  - apply (seg_retarget s _ h l h n); [done|..|done]; intros; rewrite ?HN, ?HP;
      repeat case_decide; subst; try done; naive_solver set_solver.
  - apply (seg_retarget s _ n l2 n h); [done|..|done]; intros; rewrite ?HN, ?HP;
      repeat case_decide; subst; try done; naive_solver set_solver.
Qed.

Lemma node_eta s x y : next s x = next y x -> prev s x = prev y x -> node s x = node y x.
Proof. unfold next, prev. destruct (node s x), (node y x). by cbn; intros -> ->. Qed.

(** Splicing changes no node outside of the two lists. *)
Lemma LinkNext_frame s h l n l2 x :
  is_list s h l -> is_list s n l2 -> n <> h -> x ∉ h :: l -> x ∉ n :: l2 ->
  node (LinkNext h n s) x = node s x.
Proof.
  intros Hl Hn Hne Hx1 Hx2. pose proof (last_or_in h l). pose proof (last_or_in n l2).
  apply node_eta.
  - rewrite next_LinkNext, (is_list_prev _ _ _ Hl), (is_list_prev _ _ _ Hn) by done.
    rewrite !decide_False; [done|intros <-; naive_solver..].
  - rewrite prev_LinkNext by done. rewrite !decide_False; [done|set_solver..].
Qed.

Lemma PushBack_nodes s h l n :
  is_list s h l -> unlinked s n -> n ∉ h :: l -> is_list (PushBack h n s) h (l ++ [n]).
Proof.
  intros Hl Hn Hni. apply (LinkNext_nodes s h l n []); [done..|].
  intros x Hx ->%list_elem_of_singleton. done.
Qed.

Lemma PushBack_frame s h l n x :
  is_list s h l -> unlinked s n -> n ∉ h :: l -> x ∉ h :: l -> x <> n ->
  node (PushBack h n s) x = node s x.
Proof.
  intros. apply (LinkNext_frame s h l n []); [done..|set_solver|done|set_solver].
Qed.

Lemma next_Unlink s n x :
  next (Unlink n s) x =
    if decide (n = x) then n else if decide (prev s n = x) then next s n else next s x.
Proof. unfold Unlink. links. by repeat case_decide. Qed.

Lemma prev_Unlink s n x :
  prev (Unlink n s) x =
    if decide (n = x) then n else if decide (next s n = x) then prev s n else prev s x.
Proof. unfold Unlink. links. by repeat case_decide. Qed.

Lemma Unlink_unlinked s n l : is_list s n l -> unlinked (Unlink n s) n.
Proof.
  intros Hn. split; [apply NoDup_singleton|]. cbn. split.
  - rewrite next_Unlink. by rewrite decide_True.
  - rewrite prev_Unlink. by rewrite decide_True.
Qed.

(** Unlinking an element removes it; its head keeps the other elements in order. *)
Lemma Unlink_nodes s h l1 n l2 :
  is_list s h (l1 ++ n :: l2) -> is_list (Unlink n s) h (l1 ++ l2).
Proof.
  intros [Hnd Hs]. apply seg_app in Hs as [H1 H2].
  pose proof (seg_prev _ _ _ _ H1) as Hp. pose proof (seg_next _ _ _ _ H2) as Hq.
  pose proof (last_or_in h l1) as Hlast.
  apply NoDup_cons in Hnd as [Hh Hnd]. apply NoDup_app in Hnd as (Hnd1 & Hd & Hnd2).
  apply NoDup_cons in Hnd2 as [Hn Hnd2].
  apply not_elem_of_app in Hh as [Hh1 Hh2].
  assert (forall x, x ∈ h :: l1 -> n <> x) as Hnl1.
  { intros x [->|Hx]%elem_of_cons ->; [set_solver|]. apply (Hd _ Hx). by left. }
  assert (forall x, x ∈ l1 -> n <> x) as Hnl1' by (intros; apply Hnl1; by right).
  assert (forall x, x ∈ l1 -> h <> x) as Hhl1 by (by intros x Hx ->).
  pose proof (Hnl1 _ Hlast) as Hnlast.
  assert (n <> h) as Hnh by (apply Hnl1; by left).
  assert (NoDup (h :: l1)) as Hndh by (by constructor).
  split.
  { apply NoDup_cons. split; [set_solver|]. apply NoDup_app. set_solver. }
  destruct l2 as [|q l2]; cbn in Hq.
  - rewrite app_nil_r. apply (seg_retarget s _ h l1 n h); [done|..|done]; intros;
      rewrite ?next_Unlink, ?prev_Unlink, ?Hp, ?Hq; separate_nodes.
  - destruct H2 as [_ H2]. apply NoDup_cons in Hnd2 as [? _].
    assert (forall x, x ∈ l1 -> q <> x) as Hql1.
    { intros x Hx ->. apply (Hd _ Hx). set_solver. }
    assert (n <> q /\ q <> h) as [Hnq Hqh] by set_solver.
    assert (forall x, x ∈ q :: l2 -> n <> x) as Hnl2 by set_solver.
    assert (forall x, x ∈ q :: l2 -> last_or h l1 <> x) as Hl2last.
    { intros x Hx <-. apply elem_of_cons in Hlast as [E|Hin]; [by apply Hh2; rewrite <- E; right|].
      apply (Hd _ Hin). by right. }
    assert (forall x, x ∈ h :: l2 -> n <> x) as Hnl2' by set_solver.
    assert (forall x, x ∈ h :: l2 -> q <> x) as Hql2 by set_solver.
    apply seg_app. split.
    + apply (seg_retarget s _ h l1 n q); [done|..|done]; intros;
        rewrite ?next_Unlink, ?prev_Unlink, ?Hp, ?Hq; separate_nodes.
    + apply (seg_ext s); [..|done]; intros x Hx;
        rewrite ?next_Unlink, ?prev_Unlink, ?Hp, ?Hq; separate_nodes.
Qed.

Lemma Unlink_frame s h l1 n l2 x :
  is_list s h (l1 ++ n :: l2) -> x ∉ h :: l1 ++ n :: l2 -> node (Unlink n s) x = node s x.
Proof.
  intros Hl Hx. apply is_list_rotate in Hl.
  pose proof (is_list_prev _ _ _ Hl) as Hp. pose proof (is_list_next _ _ _ Hl) as Hq.
  pose proof (last_or_in n (l2 ++ h :: l1)).
  assert (next s n ∈ n :: l2 ++ h :: l1) as Hin.
  { rewrite Hq. destruct l2; cbn; set_solver. }
  assert (forall y, y ∈ n :: l2 ++ h :: l1 -> y <> x) as Hne.
  { intros y Hy ->. apply Hx. set_solver. }
  apply node_eta; rewrite ?next_Unlink, ?prev_Unlink; repeat case_decide; try done;
    exfalso; (eapply Hne; [|done]); [by left|congruence|by left|congruence].
Qed.

(** Unlinking a node that is in no list changes nothing. *)
Lemma Unlink_noop s n x : unlinked s n -> node (Unlink n s) x = node s x.
Proof.
  intros Hn. pose proof (is_list_prev _ _ _ Hn) as Hp. pose proof (is_list_next _ _ _ Hn) as Hq.
  cbn in Hq. unfold last_or in Hp. cbn in Hp.
  apply node_eta; rewrite ?next_Unlink, ?prev_Unlink, Hp, Hq; repeat case_decide; by subst.
Qed.

Lemma PopFront_nodes s h x l :
  is_list s h (x :: l) ->
  let '(front, s') := PopFront h s in front = x /\ is_list s' h l /\ unlinked s' x.
Proof.
  intros Hl. unfold PopFront. rewrite (is_list_next _ _ _ Hl). cbn.
  split; [done|]. split.
  - by apply (Unlink_nodes s h [] x l).
  - eapply (Unlink_unlinked s x). by apply (is_list_rotate s h [] x l).
Qed.

Lemma PopBack_nodes s h x l :
  is_list s h (l ++ [x]) ->
  let '(back, s') := PopBack h s in back = x /\ is_list s' h l /\ unlinked s' x.
Proof.
  intros Hl. unfold PopBack. rewrite (is_list_prev _ _ _ Hl), last_or_app. cbn.
  split; [done|]. split.
  - rewrite <- (app_nil_r l). by apply (Unlink_nodes s h l x []).
  - eapply (Unlink_unlinked s x). by apply (is_list_rotate s h l x []).
Qed.
End operations.

(** * PushFront and the double link of a node *)
Section link_prev.
Context {A : Type} `{Countable A}.
Implicit Types (s : gmap A (IntrusiveListNode A)) (n x h : A) (l : list A).

(** LinkPrev works on the node before its receiver. *)
Lemma LinkPrev_LinkNext s h n : n <> h -> LinkPrev h n s = LinkNext (prev s h) n s.
Proof.
  intros Hne. unfold LinkPrev, LinkNext. links.
  rewrite !(decide_False (P := n = h)) by done. done.
Qed.

(** PushFront puts the new node in front of the last element, not of the first. *)
Lemma PushFront_nodes s h l x n :
  is_list s h (l ++ [x]) -> unlinked s n -> n ∉ h :: l ++ [x] ->
  is_list (PushFront h n s) h (l ++ [n; x]).
Proof.
  intros Hl Hn Hni. unfold PushFront. rewrite LinkPrev_LinkNext by set_solver.
  rewrite (is_list_prev _ _ _ Hl), last_or_app. unfold last_or. cbn.
  apply is_list_rotate in Hl. cbn in Hl.
  assert (n ∉ x :: h :: l) as Hni' by set_solver.
  pose proof (PushBack_nodes _ _ _ _ Hl Hn Hni') as Hr. cbn in Hr.
  apply (is_list_rotate _ x [] h (l ++ [n])) in Hr. cbn in Hr. by rewrite <- app_assoc in Hr.
Qed.

Lemma PushFront_empty s h n :
  is_list s h [] -> unlinked s n -> n <> h -> is_list (PushFront h n s) h [n].
Proof.
  intros Hl Hn Hni. unfold PushFront. rewrite LinkPrev_LinkNext by done.
  rewrite (is_list_prev _ _ _ Hl). unfold last_or. cbn.
  apply (PushBack_nodes s h [] n); [done..|set_solver].
Qed.

(** Linking the same node twice after the same receiver takes it out again. *)
Lemma LinkNext_twice s h l n x :
  is_list s h l -> unlinked s n -> n ∉ h :: l ->
  node (LinkNext h n (LinkNext h n s)) x = node s x.
Proof.
  intros Hl Hn Hni. assert (n <> h) as Hne by set_solver.
  pose proof (is_list_prev _ _ _ Hl) as Hp. pose proof (last_or_in h l) as Hin.
  pose proof (is_list_prev _ _ _ Hn) as Hnp. pose proof (is_list_next _ _ _ Hn) as Hnn.
  cbn in Hnp, Hnn. unfold last_or in Hnp. cbn in Hnp.
  assert (n <> last_or h l) as Hnlast by (intros ->; done).
  assert (next s (last_or h l) = h) as Hlast.
  { destruct Hl as [_ Hl]. induction l as [|y l' _] using rev_ind.
    - by destruct Hl.
    - rewrite last_or_app. apply seg_app in Hl as [_ [? _]]. done. }
  apply node_eta; rewrite ?next_LinkNext, ?prev_LinkNext, Hp, ?Hnp by done;
    repeat case_decide; subst; congruence.
Qed.
End link_prev.


(** * Loops over lists *)
Section loop_lemmas.
Context {A : Type} `{Countable A} {S R : Type} `{!HasNodes A S}.
Implicit Types (s : S) (n x h : A) (l : list A).

Lemma for_loop_visit (I : S -> Prop) (body : A -> M S (option R)) l2 : forall fuel l1 h x s,
  I s -> is_list (nodes s) h (l1 ++ x :: l2) ->
  (length l2 + 2 <= fuel)%nat ->
  (forall y s s', I s -> y ∈ x :: l2 -> body y s = Ok (None, s') -> nodes s' = nodes s /\ I s') ->
  for_loop fuel (List.hd h l2) (List.hd x l1) body s = visit (x :: l2) body s.
Proof.
  induction l2 as [|y l2 IH]; intros [|fuel] l1 h x s HI Hl Hf Hb; [cbn in Hf; lia| |cbn in Hf; lia|].
  - cbn [length List.hd for_loop visit]. pose proof Hl as [Hnd _].
    rewrite decide_False.
    2: { intros ->. apply NoDup_cons in Hnd as [Hx _]. apply Hx. destruct l1; cbn; set_solver. }
    unfold iter_deref. run_M. rewrite (is_list_prev _ _ _ Hl), last_or_app. unfold last_or. cbn.
    destruct (body x s) as [[[r|] s']|f] eqn:E; [done| |done].
    destruct fuel as [|fuel]; [cbn in Hf; lia|]. unfold iter_incr. cbn [for_loop].
    rewrite (proj1 (Hb x _ _ HI ltac:(by left) E)), (is_list_next _ _ _ Hl).
    rewrite decide_True; [done|by destruct l1].
  - cbn [List.hd]. remember (y :: l2) as yl eqn:Eyl. cbn [for_loop visit]. subst yl.
    pose proof Hl as [Hnd Hs].
    assert (prev (nodes s) y = x) as Hp.
    { apply seg_app in Hs as [_ [[_ ?] _]]. done. }
    rewrite decide_False.
    2: { intros ->. apply NoDup_cons in Hnd as [_ Hnd].
         apply NoDup_app in Hnd as (_ & Hd & Hnd). destruct l1 as [|z l1]; cbn in *.
         - apply NoDup_cons in Hnd as [Hx _]. apply Hx. by left.
         - apply (Hd z); [by left|]. right. by left. }
    unfold iter_deref. run_M. rewrite Hp.
    destruct (body x s) as [[[r|] s']|f] eqn:E; [done| |done].
    pose proof (Hb x _ _ HI ltac:(by left) E) as [Hn HI'].
    assert (next (nodes s') y = List.hd h l2) as Hny.
    { rewrite Hn. apply seg_app in Hs as [_ [_ Hs]]. by apply seg_next in Hs. }
    unfold iter_incr. rewrite Hny.
    replace (List.hd x l1) with (List.hd y (l1 ++ [x])) by (by destruct l1).
    apply IH; [done| |cbn in Hf; lia|].
    + by rewrite Hn, <- app_assoc.
    + intros z; intros. eapply Hb; [done| |done]. by right.
Qed.

(** Single iterations, whatever the body does to the links. *)
Lemma for_each_unfold fuel h (body : A -> M S (option R)) s :
  for_each fuel h body s = for_loop fuel (next (nodes s) (next (nodes s) h)) (next (nodes s) h) body s.
Proof. reflexivity. Qed.

Lemma for_loop_step fuel it stop (body : A -> M S (option R)) s s' :
  it <> stop -> body (prev (nodes s) it) s = Ok (None, s') ->
  for_loop (Datatypes.S fuel) it stop body s = for_loop fuel (next (nodes s') it) stop body s'.
Proof. intros Hne E. cbn [for_loop]. rewrite decide_False by done. unfold iter_deref. run_M. by rewrite E. Qed.

Lemma for_loop_fault fuel it stop (body : A -> M S (option R)) s e :
  it <> stop -> body (prev (nodes s) it) s = Fault e ->
  for_loop (Datatypes.S fuel) it stop body s = Fault e.
Proof. intros Hne E. cbn [for_loop]. rewrite decide_False by done. unfold iter_deref. run_M. by rewrite E. Qed.

(** A loop whose body leaves the links alone visits the elements in order; the
    length of the list bounds the iterations.  [I]: what holds of the states between. *)
Lemma for_each_visit_inv (I : S -> Prop) (body : A -> M S (option R)) fuel h l s :
  I s -> is_list (nodes s) h l ->
  (length l + 1 <= fuel)%nat ->
  (forall y s s', I s -> y ∈ l -> body y s = Ok (None, s') -> nodes s' = nodes s /\ I s') ->
  for_each fuel h body s = visit l body s.
Proof.
  intros HI Hl Hf Hb. unfold for_each, list_begin, list_end, iterator. run_M.
  rewrite (is_list_next _ _ _ Hl). destruct l as [|x l]; cbn [List.hd].
  - rewrite (is_list_next _ _ _ Hl). cbn. destruct fuel; [cbn in Hf; lia|].
    cbn [for_loop]. by rewrite decide_True.
  - assert (next (nodes s) x = List.hd h l) as ->.
    { destruct Hl as [_ [_ Hs]]. by apply seg_next in Hs. }
    apply (for_loop_visit I body l fuel [] h x s); [done|done|cbn in Hf; lia|done].
Qed.

Lemma for_each_visit (body : A -> M S (option R)) fuel h l s :
  is_list (nodes s) h l ->
  (length l + 1 <= fuel)%nat ->
  (forall y s s', y ∈ l -> body y s = Ok (None, s') -> nodes s' = nodes s) ->
  for_each fuel h body s = visit l body s.
Proof.
  intros Hl Hf Hb. apply (for_each_visit_inv (fun _ => True)); [done..|].
  intros y s1 s2 _ Hy E. split; [by eapply Hb|done].
Qed.

(** The elements [l1] leave the state alone and the loop goes on; then, at [x], the body
    ends it, or there is no element left. *)
Lemma for_each_find (body : A -> M S (option R)) fuel h l1 x l2 s r s' :
  is_list (nodes s) h (l1 ++ x :: l2) -> (length (l1 ++ x :: l2) + 1 <= fuel)%nat ->
  (forall y, y ∈ l1 -> body y s = Ok (None, s)) -> body x s = Ok (Some r, s') ->
  for_each fuel h body s = Ok (Some r, s').
Proof.
  intros Hl Hf Hb Hx.
  (* no iteration after that on [x] matters: give the body that ends there for good *)
  set (body' := fun y s0 => if decide (y ∈ l1) then body y s0 else
                 match body y s0 with Ok (None, _) => Fault OutOfFuel | o => o end).
  assert (forall fuel it stop s0 o, for_loop fuel it stop body' s0 = Ok o -> for_loop fuel it stop body s0 = Ok o) as Hmono.
  { clear -body'. induction fuel as [|fuel IH]; intros it stop s0 o; [done|]. cbn [for_loop].
    destruct (decide (it = stop)); [done|]. run_M. unfold body' at 1.
    destruct (decide (iter_deref (nodes s0) it ∈ l1)).
    - destruct (body _ s0) as [[[r|] s1]|f] eqn:E; [done|apply IH|done].
    - destruct (body _ s0) as [[[r|] s1]|f] eqn:E; done. }
  assert (for_each fuel h body' s = Ok (Some r, s')) as E.
  { rewrite (for_each_visit_inv (eq s) body' fuel h _ s eq_refl Hl Hf).
    - clear Hl Hf Hmono. assert (forall y, y ∈ l1 -> body' y s = Ok (None, s)) as Hb'.
      { intros y Hy. unfold body'. rewrite decide_True by done. by apply Hb. }
      assert (body' x s = Ok (Some r, s')) as Hx'.
      { unfold body'. case_decide; [|by rewrite Hx]. done. }
      clearbody body'. clear Hb Hx. induction l1 as [|y l1 IH]; cbn; run_M.
      + by rewrite Hx'.
      + rewrite Hb' by by left. apply IH. intros z Hz. apply Hb'. by right.
    - intros y s1 s2 <- Hy. unfold body'. case_decide as Hin.
      + rewrite Hb by done. by intros [= <-].
      + by destruct (body y s) as [[[?|] ?]|?]. }
  revert E. unfold for_each. run_M. apply Hmono.
Qed.

(** A loop whose body unlinks the only element goes on to the list head: unlinking moves
    the end that the loop compares with. *)
Lemma for_each_runs_past (body : A -> M S (option R)) fuel h x s1 s2 e :
  x <> h -> is_list (nodes s1) h [x] -> is_list (nodes s2) h [] ->
  body x s1 = Ok (None, s2) -> body h s2 = Fault e ->
  for_each (Datatypes.S (Datatypes.S fuel)) h body s1 = Fault e.
Proof.
  intros Hne [_ [[Hn1 Hp1] [Hn2 Hp2]]] [_ [Hn3 Hp3]] E1 E2. rewrite for_each_unfold, Hn1, Hn2.
  rewrite (for_loop_step _ _ _ _ s1 s2); [|done|by rewrite Hp2].
  rewrite Hn3. apply for_loop_fault; [done|]. by rewrite Hp3.
Qed.

Lemma for_each_none (body : A -> M S (option R)) fuel h l s :
  is_list (nodes s) h l -> (length l + 1 <= fuel)%nat ->
  (forall y, y ∈ l -> body y s = Ok (None, s)) ->
  for_each fuel h body s = Ok (None, s).
Proof.
  intros Hl Hf Hb. rewrite (for_each_visit_inv (eq s) body fuel h l s eq_refl Hl Hf).
  - clear Hl Hf. induction l as [|y l IH]; [done|]. cbn. run_M. rewrite Hb by by left.
    apply IH. intros z Hz. apply Hb. by right.
  - intros y s1 s2 <- Hy. rewrite Hb by done. by intros [= <-].
Qed.

(** A loop that looks for the first element with [P] and returns its [v]. *)
Lemma for_each_search {B} (g : B -> A) (P : B -> bool) (v : B -> R) (body : A -> M S (option R)) fuel h (bs : list B) s :
  is_list (nodes s) h (g <$> bs) -> (length bs + 1 <= fuel)%nat ->
  (forall b, b ∈ bs -> body (g b) s = Ok (if P b then Some (v b) else None, s)) ->
  for_each fuel h body s = Ok (v <$> List.find P bs, s).
Proof.
  intros Hl Hf Hb. destruct (List.find P bs) as [b|] eqn:E.
  - apply find_split in E as (l1 & l2 & -> & HP & H1). rewrite fmap_app, fmap_cons in Hl.
    apply (for_each_find body fuel h (g <$> l1) (g b) (g <$> l2)); [done| | |].
    + rewrite <- fmap_cons, <- fmap_app, length_fmap. lia.
    + intros y (c & -> & Hc)%list_elem_of_fmap. rewrite Hb, H1; [done|done|set_solver].
    + rewrite Hb, HP; [done|set_solver].
  - pose proof (find_none _ _ E) as Hn. apply (for_each_none body fuel h (g <$> bs)); [done|by rewrite length_fmap|].
    intros y (c & -> & Hc)%list_elem_of_fmap. by rewrite Hb, Hn.
Qed.
End loop_lemmas.

(** * Handing a list over *)
Section transfer.
Context {A : Type} `{Countable A} {S : Type} `{!HasNodes A S}.
Implicit Types (s : S) (n x h src dst : A) (l acc rest : list A).

(** Two disjoint lists. *)
Definition two_lists s src rest dst acc : Prop :=
  is_list (nodes s) src rest /\ is_list (nodes s) dst acc /\
  (forall x, x ∈ src :: rest -> x ∉ dst :: acc).

(** One iteration of the loop moves the first remaining node to the other list. *)
Lemma transfer_step s src y rest dst acc :
  two_lists s src (y :: rest) dst acc ->
  two_lists (set_nodes (PushBack dst y (Unlink y (nodes s))) s) src rest dst (acc ++ [y]) /\
  forall x, x ∉ src :: y :: rest -> x ∉ dst :: acc ->
    node (PushBack dst y (Unlink y (nodes s))) x = node (nodes s) x.
Proof.
  intros (Hs & Hd & Hdis). pose proof Hs as [Hnd _].
  assert (y ∉ dst :: acc) as Hy by (apply Hdis; set_solver).
  assert (src ∉ dst :: acc) as Hsrc by (apply Hdis; set_solver).
  apply NoDup_cons in Hnd as [Hsy Hnd]. apply NoDup_cons in Hnd as [Hyr _].
  pose proof (Unlink_unlinked _ _ _ (is_list_rotate _ src [] y rest Hs)) as Hyu.
  assert (is_list (Unlink y (nodes s)) dst acc) as Hd'.
  { eapply is_list_ext; [|done]. intros x Hx.
    eapply (Unlink_frame _ src [] y rest); [done|]. intros Hin. by apply (Hdis x). }
  pose proof (Unlink_nodes _ src [] y rest Hs) as Hs'. cbn in Hs'.
  split.
  - unfold two_lists. rewrite nodes_set_nodes. split; [|split].
    + eapply is_list_ext; [|exact Hs']. intros x Hx.
      apply (PushBack_frame _ dst acc); [done..| |set_solver].
      apply Hdis. set_solver.
    + by apply PushBack_nodes.
    + intros x Hx. rewrite app_comm_cons, not_elem_of_app, list_elem_of_singleton.
      split; [apply Hdis|]; set_solver.
  - intros x Hx Hxd. rewrite (PushBack_frame _ dst acc) by (done || set_solver).
    eapply (Unlink_frame _ src [] y rest); [done|]. set_solver.
Qed.

(** The loop body of [TransferList]. *)
Definition transfer_body (dst waiter : A) : M S (option unit) :=
  modify_nodes (Unlink waiter);; modify_nodes (PushBack dst waiter);; mret None.

Lemma transfer_body_run dst y s :
  transfer_body dst y s = Ok (None, set_nodes (PushBack dst y (Unlink y (nodes s))) s).
Proof.
  unfold transfer_body, modify_nodes. run_M. by rewrite nodes_set_nodes, set_nodes_set_nodes.
Qed.

(** Once the list is empty the loop still runs: its end iterator was the first
    element, which now belongs to the other list.  It takes the old head itself
    for an element, twice, and reaches the first element through the other list. *)
Lemma transfer_tail fuel src dst a acc s :
  two_lists s src [] dst (a :: acc) -> (4 <= fuel)%nat ->
  exists m, for_loop fuel src a (transfer_body dst) s = Ok (None, set_nodes m s) /\
    is_list m dst (a :: acc ++ [src]) /\
    forall x, x ∉ dst :: a :: acc -> x <> src -> node m x = node (nodes s) x.
Proof.
  intros (Hs & Hd & Hdis) Hf.
  assert (src ∉ dst :: a :: acc) as Hni by (apply Hdis; by left).
  apply not_elem_of_cons in Hni as Hni2. destruct Hni2 as [Hsd Hni2].
  apply not_elem_of_cons in Hni2 as Hni3. destruct Hni3 as [Hsa _].
  pose proof Hd as [Hnd _]. apply NoDup_cons in Hnd as [Hda _].
  apply not_elem_of_cons in Hda as [Hda _].
  destruct fuel as [|[|[|fuel]]]; [lia..|]. cbn [for_loop].
  rewrite decide_False by done. unfold iter_deref, iter_incr. run_M.
  pose proof (is_list_prev _ _ _ Hs) as Hps. unfold last_or in Hps. cbn in Hps.
  rewrite Hps, transfer_body_run, !nodes_set_nodes.
  assert (is_list (Unlink src (nodes s)) dst (a :: acc)) as Hd1.
  { eapply is_list_ext; [|done]. intros. by apply Unlink_noop. }
  pose proof (Unlink_unlinked _ _ _ Hs) as Hs1.
  pose proof (PushBack_nodes _ _ _ _ Hd1 Hs1 Hni) as Hd2.
  set (m1 := PushBack dst src (Unlink src (nodes s))) in *.
  assert (next m1 src = dst) as ->.
  { destruct Hd2 as [_ H2]. apply seg_app in H2 as [_ [? _]]. done. }
  rewrite decide_False by done. rewrite nodes_set_nodes.
  rewrite (is_list_prev _ _ _ Hd2), last_or_app. unfold last_or. cbn.
  rewrite transfer_body_run, set_nodes_set_nodes, !nodes_set_nodes.
  pose proof (Unlink_nodes _ dst (a :: acc) src [] Hd2) as Hd3. rewrite app_nil_r in Hd3.
  pose proof (Unlink_unlinked _ _ _ (is_list_rotate _ _ _ _ _ Hd2)) as Hs3.
  pose proof (PushBack_nodes _ _ _ _ Hd3 Hs3 Hni) as Hd4.
  set (m2 := PushBack dst src (Unlink src m1)) in *.
  rewrite (is_list_next _ _ _ Hd4). cbn. rewrite decide_True by done.
  exists m2. split; [done|]. split; [done|]. intros x Hx Hxs.
  unfold m2. rewrite (PushBack_frame _ dst (a :: acc)) by done.
  rewrite (Unlink_frame _ dst (a :: acc) src []) by (done || set_solver).
  unfold m1. rewrite (PushBack_frame _ dst (a :: acc)) by done. by apply Unlink_noop.
Qed.

Lemma transfer_loop src dst rest : forall fuel y acc s,
  two_lists s src (y :: rest) dst acc -> (length rest + 5 <= fuel)%nat ->
  exists m, for_loop fuel (List.hd src rest) (List.hd y acc) (transfer_body dst) s
      = Ok (None, set_nodes m s) /\
    is_list m dst (acc ++ y :: rest ++ [src]) /\
    forall x, x ∉ src :: y :: rest -> x ∉ dst :: acc -> node m x = node (nodes s) x.
Proof.
  induction rest as [|z rest IH]; intros [|fuel] y acc s Ht Hf; [lia| |lia|];
    cbn [for_loop]; destruct (transfer_step _ _ _ _ _ _ Ht) as [Ht' Hfr];
    destruct Ht as (Hs & Hd & Hdis); pose proof Hs as [Hnd Hseg].
  - cbn [List.hd app]. rewrite decide_False.
    2: { cbn. intros E. destruct acc as [|a acc]; cbn in E; subst.
         - apply NoDup_cons in Hnd as [Hy _]. set_solver.
         - apply (Hdis a); set_solver. }
    unfold iter_deref, iter_incr. run_M. rewrite (is_list_prev _ _ _ Hs). unfold last_or. cbn.
    rewrite transfer_body_run. pose proof Ht' as [Hs' _]. rewrite (is_list_next _ _ _ Hs'). cbn.
    destruct (acc ++ [y]) as [|a acc'] eqn:E; [by destruct acc|].
    replace (List.hd y acc) with a by (destruct acc; by simplify_eq/=).
    destruct (transfer_tail fuel _ _ _ _ _ Ht') as (m & Hrun & Hm & Hmf); [cbn in Hf; lia|].
    rewrite set_nodes_set_nodes in Hrun. exists m. split; [done|]. split.
    + replace (acc ++ [y; src]) with ((acc ++ [y]) ++ [src]) by (by rewrite <- app_assoc).
      by rewrite E.
    + intros x Hx Hxd. rewrite Hmf, nodes_set_nodes.
      * by apply Hfr.
      * rewrite <- E. set_solver.
      * set_solver.
  - cbn [List.hd]. rewrite decide_False.
    2: { intros E. destruct acc as [|a acc]; cbn in E; subst.
         - apply NoDup_cons in Hnd as [_ Hnd]. apply NoDup_cons in Hnd as [Hy _]. set_solver.
         - apply (Hdis a); set_solver. }
    assert (prev (nodes s) z = y) as Hp.
    { by destruct Hseg as [_ [[_ ?] _]]. }
    unfold iter_deref, iter_incr. run_M. rewrite Hp, transfer_body_run.
    assert (next (PushBack dst y (Unlink y (nodes s))) z = List.hd src rest) as Hnz.
    { destruct Ht' as ((_ & Hs') & _). rewrite nodes_set_nodes in Hs'.
      destruct Hs' as [_ Hs']. by apply seg_next in Hs'. }
    rewrite nodes_set_nodes, Hnz.
    replace (List.hd y acc) with (List.hd z (acc ++ [y])) by (by destruct acc).
    destruct (IH fuel z (acc ++ [y]) _ Ht') as (m & Hrun & Hm & Hmf); [cbn in Hf; lia|].
    rewrite set_nodes_set_nodes in Hrun. exists m. split; [done|]. split.
    + by rewrite <- app_assoc in Hm.
    + intros x Hx Hxd. rewrite Hmf, nodes_set_nodes; [by apply Hfr|set_solver..].
Qed.

(** Handing over a non-empty list appends the old list's head to the new list
    as if it were one more waiter. *)
Lemma TransferList_nodes fuel src dst x l s :
  is_list (nodes s) src (x :: l) -> is_list (nodes s) dst [] -> dst ∉ src :: x :: l ->
  (length l + 5 <= fuel)%nat ->
  exists m, TransferList fuel src dst s = Ok (None, set_nodes m s) /\
    is_list m dst (x :: l ++ [src]) /\
    forall y, y ∉ src :: x :: l -> y <> dst -> node m y = node (nodes s) y.
Proof.
  intros Hs Hd Hni Hf.
  assert (two_lists s src (x :: l) dst []) as Ht.
  { split; [done|]. split; [done|]. intros y Hy ->%list_elem_of_singleton. done. }
  destruct (transfer_loop _ _ _ _ _ _ _ Ht Hf) as (m & Hrun & Hm & Hfr).
  exists m. split; [|split; [done|]].
  - unfold TransferList, for_each, list_begin, list_end, iterator. run_M.
    rewrite (is_list_next _ _ _ Hs). cbn [List.hd].
    assert (next (nodes s) x = List.hd src l) as ->.
    { destruct Hs as [_ [_ Hs]]. by apply seg_next in Hs. }
    exact Hrun.
  - intros y Hy Hyd. apply Hfr; [done|set_solver].
Qed.

Lemma TransferList_empty fuel src dst s :
  is_list (nodes s) src [] -> (1 <= fuel)%nat -> TransferList fuel src dst s = Ok (None, s).
Proof.
  intros Hs Hf. unfold TransferList. rewrite (for_each_visit _ _ src []); [done..|].
  by intros y ?? Hin%elem_of_nil.
Qed.
End transfer.

(** * Properties *)
(** [C7] The list operations are those of a double-ended queue: IsEmpty, PushBack,
    PopFront, PopBack and Remove of a list that holds the nodes [l] answer and leave what
    the sequence [l] says, and the node they take out is left unlinked. *)
Theorem intrusive_list_deque {A} `{Countable A} (s : gmap A (IntrusiveListNode A)) h l :
  is_list s h l ->
  IsEmpty s h = bool_decide (l = []) /\
  (forall n, unlinked s n -> n ∉ h :: l -> is_list (PushBack h n s) h (l ++ [n])) /\
  (forall x l', l = x :: l' ->
     (PopFront h s).1 = x /\ is_list (PopFront h s).2 h l' /\ unlinked (PopFront h s).2 x) /\
  (forall x l', l = l' ++ [x] ->
     (PopBack h s).1 = x /\ is_list (PopBack h s).2 h l' /\ unlinked (PopBack h s).2 x) /\
  (forall l1 n l2, l = l1 ++ n :: l2 ->
     is_list (Remove n s) h (l1 ++ l2) /\ unlinked (Remove n s) n).
Proof.
  intros Hl. repeat split_and.
  - by apply IsEmpty_spec.
  - intros n. by apply PushBack_nodes.
  - intros x l' ->. apply PopFront_nodes in Hl. by destruct (PopFront h s).
  - intros x l' ->. apply PopBack_nodes in Hl. by destruct (PopBack h s).
  - intros l1 n l2 ->. split; [by apply Unlink_nodes|].
    apply is_list_rotate in Hl. by eapply Unlink_unlinked.
Qed.

(** A list with head 0 and nodes 1, 2. *)
Definition links_12 : gmap Z (IntrusiveListNode Z) := PushBack 0 2 (PushBack 0 1 ∅).

Lemma links_12_list : is_list links_12 0 [1; 2].
Proof.
  split; [apply (bool_decide_unpack _); vm_compute; exact I|].
  vm_compute. repeat split.
Qed.

Lemma unlinked_fresh (n : Z) : n ∉ [0; 1; 2] -> unlinked links_12 n.
Proof.
  intros Hn. split; [apply NoDup_singleton|].
  unfold seg, linked, next, prev, node, links_12, PushBack, LinkNext, set_next, set_prev.
  rewrite !lookup_insert_ne, lookup_empty by (cbn; set_solver). done.
Qed.

Lemma intrusive_list_deque_witness :
  IsEmpty links_12 0 = false /\ (PopFront 0 links_12).1 = 1 /\ is_list (Remove 2 links_12) 0 [1].
Proof.
  destruct (intrusive_list_deque links_12 0 [1; 2] links_12_list) as (E & _ & P & _ & R).
  split; [exact E|]. split; [exact (proj1 (P 1 [2] eq_refl))|]. exact (proj1 (R [1] 2 [] eq_refl)).
Defined.

(** [C37] The range-based for over a list runs its body on the nodes in list order,
    stopping at the first answer, provided the iterations before do not relink the nodes; one unit
    of fuel more than the list has nodes is enough. *)
Theorem intrusive_list_for_each {A} `{Countable A} {S R} `{!HasNodes A S}
    (body : A -> M S (option R)) fuel h l s :
  is_list (nodes s) h l ->
  (length l + 1 <= fuel)%nat ->
  (forall y s s', y ∈ l -> body y s = Ok (None, s') -> nodes s' = nodes s) ->
  for_each fuel h body s = visit l body s.
Proof. apply for_each_visit. Qed.

#[local] Instance has_nodes_store {A} `{Countable A} : HasNodes A (gmap A (IntrusiveListNode A)).
Proof.
  refine {| nodes := fun m => m; set_nodes := fun m _ => m |}; reflexivity.
Defined.

Lemma intrusive_list_for_each_witness :
  for_each 3 0 (fun x => mret (if x =? 2 then Some (x * 10) else None)) links_12
    = Ok (Some 20, links_12).
Proof.
  assert (is_list (nodes links_12) 0 [1; 2]) as Hl by exact links_12_list.
  rewrite (intrusive_list_for_each _ 3 0 [1; 2] links_12 Hl ltac:(cbn; lia)).
  - reflexivity.
  - intros y s s' _. unfold mret, M_ret. by intros [= _ ->].
Defined.

(** PushFront of a list that is not empty puts the node before the last node, not
    at the front: LinkPrev links to the left of [m_prev]. *)
Theorem push_front_misplaced {A} `{Countable A} (s : gmap A (IntrusiveListNode A)) h l x n :
  is_list s h (l ++ [x]) -> unlinked s n -> n ∉ h :: l ++ [x] ->
  is_list (PushFront h n s) h (l ++ [n; x]).
Proof. apply PushFront_nodes. Qed.

Lemma push_front_misplaced_witness : is_list (PushFront 0 3 links_12) 0 [1; 3; 2].
Proof.
  apply (push_front_misplaced links_12 0 [1] 2 3 links_12_list); [apply unlinked_fresh|];
    apply (bool_decide_unpack _); vm_compute; exact I.
Defined.

(** The loop that hands all nodes of a list over to an empty list also hands over
    the head of the source list: every iteration changes the link that the loop's end test
    reads, and the destination list ends with a node that is no list element. *)
Theorem transfer_list_takes_head {A} `{Countable A} {S} `{!HasNodes A S} fuel src dst x l s :
  is_list (nodes s) src (x :: l) -> is_list (nodes s) dst [] -> dst ∉ src :: x :: l ->
  (length l + 5 <= fuel)%nat ->
  exists m, TransferList fuel src dst s = Ok (None, set_nodes m s) /\
    is_list m dst (x :: l ++ [src]).
Proof.
  intros H1 H2 H3 H4. destruct (TransferList_nodes fuel src dst x l s H1 H2 H3 H4) as (m & E & L & _).
  by exists m.
Qed.

Lemma transfer_list_takes_head_witness :
  exists m, TransferList 6 0 7 links_12 = Ok (None, m) /\ is_list m 7 [1; 2; 0].
Proof.
  refine (transfer_list_takes_head (S := gmap Z (IntrusiveListNode Z)) 6 0 7 1 [2] links_12
            links_12_list _ _ ltac:(cbn; lia)).
  - apply unlinked_fresh. apply (bool_decide_unpack _); vm_compute; exact I.
  - apply (bool_decide_unpack _); vm_compute; exact I.
Defined.
