(* ===== verification/ListFamily.v ===== *)
(** Several intrusive lists over one store of nodes.

    A family [L] gives every node the elements of the list it heads; a node that is no
    element of a list and heads none is unlinked.  The list operations act on [L] as
    operations on sequences, which is how the scheduler's proofs use them. *)
From stdpp Require Import functions.
From S2P Require Import Prelude IntrusiveList.

Section family.
Context {A : Type} `{Countable A}.
Implicit Types (s m : gmap A (IntrusiveListNode A)) (L : A -> list A) (h n x : A) (l : list A).

(** [n] is an element of no list. *)
Definition loose L n : Prop := forall h, n ∉ L h.

Record family s L : Prop := {
  family_disjoint : forall h h' n, n ∈ L h -> n ∈ L h' -> h = h';
  family_leaf : forall h n, n ∈ L h -> L n = [];
  family_list : forall h, loose L h -> is_list s h (L h)
}.

Lemma loose_head s L h : family s L -> L h <> [] -> loose L h.
Proof. intros HF Hne h' Hin. apply Hne. by eapply family_leaf. Qed.

Lemma family_unlinked s L n : family s L -> loose L n -> L n = [] -> unlinked s n.
Proof. intros HF Hn E. pose proof (family_list s L HF n Hn) as Hl. by rewrite E in Hl. Qed.

Lemma family_ext s s' L : (forall x, node s' x = node s x) -> family s L -> family s' L.
Proof.
  intros E HF. split; [apply HF|apply HF|]. intros h Hh.
  apply (is_list_ext s); [intros; apply E|by apply HF].
Qed.

Lemma family_ext_L s L L' : (forall x, L' x = L x) -> family s L -> family s L'.
Proof.
  intros E HF. split.
  - intros h h' n. rewrite !E. apply HF.
  - intros h n. rewrite !E. apply HF.
  - intros h Hh. rewrite E. apply HF. intros h'. rewrite <- E. apply Hh.
Qed.

Lemma family_empty : family ∅ (fun _ => []).
Proof.
  split; [set_solver|done|]. intros h _. split; [apply NoDup_singleton|].
  split; unfold next, prev, node; by rewrite lookup_empty.
Qed.

(** Rings other than the ones that an operation touches are kept. *)
Lemma family_frame s s' L h :
  family s L -> loose L h -> (forall x, x ∈ h :: L h -> node s' x = node s x) -> is_list s' h (L h).
Proof. intros HF Hh E. apply (is_list_ext s); [done|by apply HF]. Qed.

Lemma family_other s L h h' x :
  family s L -> loose L h -> loose L h' -> h <> h' -> x ∈ h :: L h -> x ∉ h' :: L h'.
Proof.
  intros HF Hh Hh' Hne [->|Hx]%elem_of_cons [E|Hx']%elem_of_cons; subst; try done.
  - by apply (Hh h').
  - by apply (Hh' h).
  - apply Hne. by eapply family_disjoint.
Qed.

Lemma fn_insert_in L h l x n : n ∈ (<[h := l]> L : A -> list A) x -> (x = h /\ n ∈ l) \/ (x <> h /\ n ∈ L x).
Proof.
  destruct (decide (x = h)) as [->|Hne].
  - rewrite fn_lookup_insert. auto.
  - rewrite fn_lookup_insert_ne by done. auto.
Qed.

Lemma loose_insert L h l n : loose L n -> n ∉ l -> loose (<[h := l]> L) n.
Proof. intros Hn Hl x Hx. apply fn_insert_in in Hx as [[_ ?]|[_ Hx]]; [done|by apply (Hn x)]. Qed.

Lemma loose_insert_inv L h l n : loose (<[h := l]> L) n -> n ∉ L h -> loose L n.
Proof.
  intros Hn Hh x Hx. destruct (decide (x = h)) as [->|Hne]; [done|].
  apply (Hn x). by rewrite fn_lookup_insert_ne.
Qed.

Lemma family_PushBack s L h n :
  family s L -> loose L h -> loose L n -> L n = [] -> n <> h ->
  family (PushBack h n s) (<[h := L h ++ [n]]> L).
Proof.
  intros HF Hh Hn En Hne.
  assert (is_list s h (L h)) as Hl by by apply HF.
  assert (unlinked s n) as Hu by by eapply family_unlinked.
  assert (n ∉ h :: L h) as Hnl by (apply not_elem_of_cons; split; [done|apply Hn]).
  split.
  - intros h1 h2 x [[-> Hx]|[? Hx]]%fn_insert_in [[-> Hx']|[? Hx']]%fn_insert_in; try done.
    + apply elem_of_app in Hx as [Hx|Hx%list_elem_of_singleton]; [by eapply family_disjoint|].
      subst x. by apply Hn in Hx'.
    + apply elem_of_app in Hx' as [Hx'|Hx'%list_elem_of_singleton]; [by eapply family_disjoint|].
      subst x. by apply Hn in Hx.
    + by eapply family_disjoint.
  - intros h1 x Hx.
    assert (x <> h) as Hxh.
    { intros ->. apply fn_insert_in in Hx as [[-> Hx]|[? Hx]]; [|by apply (Hh h1)].
      apply elem_of_app in Hx as [Hx|Hx%list_elem_of_singleton]; [by apply (Hh h)|done]. }
    rewrite fn_lookup_insert_ne by done.
    apply fn_insert_in in Hx as [[-> Hx]|[? Hx]]; [|by eapply family_leaf].
    apply elem_of_app in Hx as [Hx|Hx%list_elem_of_singleton]; [by eapply family_leaf|by subst].
  - intros x Hx. destruct (decide (x = h)) as [->|Hxh].
    + rewrite fn_lookup_insert. by apply PushBack_nodes.
    + assert (x <> n) as Hxn.
      { intros ->. apply (Hx h). rewrite fn_lookup_insert. set_solver. }
      assert (loose L x) as Hlx.
      { intros y Hy. destruct (decide (y = h)) as [->|Hyh].
        - apply (Hx h). rewrite fn_lookup_insert. set_solver.
        - apply (Hx y). by rewrite fn_lookup_insert_ne. }
      rewrite fn_lookup_insert_ne by done. apply (family_frame s); [done..|].
      intros y Hy. apply (PushBack_frame s h (L h)); [done..| |].
      * by eapply family_other.
      * intros ->. apply elem_of_cons in Hy as [->|Hy]; [done|]. by apply (Hn x).
Qed.

Lemma family_Unlink s L h l1 n l2 :
  family s L -> L h = l1 ++ n :: l2 -> family (Unlink n s) (<[h := l1 ++ l2]> L).
Proof.
  intros HF E.
  assert (loose L h) as Hh.
  { eapply loose_head; [done|]. rewrite E. by destruct l1. }
  assert (is_list s h (l1 ++ n :: l2)) as Hl by (rewrite <- E; by apply HF).
  assert (forall x, x ∈ l1 ++ l2 -> x ∈ L h) as Hsub by (rewrite E; set_solver).
  assert (n ∉ l1 ++ l2) as Hnd.
  { destruct Hl as [Hnd _]. apply NoDup_cons in Hnd as [_ Hnd].
    apply NoDup_app in Hnd as (_ & Hd & Hnd). apply NoDup_cons in Hnd as [Hn2 _].
    intros [Hx|Hx]%elem_of_app; [|done]. apply (Hd n Hx). by left. }
  split.
  - intros h1 h2 x [[-> Hx]|[? Hx]]%fn_insert_in [[-> Hx']|[? Hx']]%fn_insert_in; try done.
    + eapply family_disjoint; [done|by apply Hsub|done].
    + eapply family_disjoint; [done| |by apply Hsub]. done.
    + by eapply family_disjoint.
  - intros h1 x Hx.
    assert (x ∈ L h1) as Hx1 by (apply fn_insert_in in Hx as [[-> Hx]|[_ Hx]]; auto).
    rewrite fn_lookup_insert_ne; [by eapply family_leaf|]. intros ->. by apply (Hh h1).
  - intros x Hx. destruct (decide (x = h)) as [->|Hxh].
    + rewrite fn_lookup_insert. by apply Unlink_nodes.
    + rewrite fn_lookup_insert_ne by done.
      destruct (decide (x = n)) as [->|Hxn].
      * assert (L n = []) as -> by (apply (family_leaf s L HF h); rewrite E; set_solver).
        apply is_list_rotate in Hl. by eapply Unlink_unlinked.
      * assert (loose L x) as Hlx.
        { apply (loose_insert_inv L h (l1 ++ l2)); [done|]. rewrite E. intros Hin.
          apply (Hx h). rewrite fn_lookup_insert. set_solver. }
        apply (family_frame s); [done..|]. intros y Hy.
        apply (Unlink_frame s h l1 n l2); [done|]. rewrite <- E. by eapply family_other.
Qed.

(** Unlinking a node that is in no list changes nothing. *)
Lemma family_Unlink_loose s L n : family s L -> loose L n -> L n = [] -> family (Unlink n s) L.
Proof.
  intros HF Hn E. eapply family_ext; [|done]. intros x. apply Unlink_noop. by eapply family_unlinked.
Qed.

Lemma family_PopFront s L h x l :
  family s L -> L h = x :: l ->
  (PopFront h s).1 = x /\ family (PopFront h s).2 (<[h := l]> L).
Proof.
  intros HF E.
  assert (loose L h) as Hh by (eapply loose_head; [done|by rewrite E]).
  pose proof (family_list s L HF h Hh) as Hl. rewrite E in Hl.
  assert (next s h = x) as Hx by (apply is_list_next in Hl; exact Hl).
  unfold PopFront. cbn. split; [done|]. rewrite Hx. by apply (family_Unlink s L h [] x l).
Qed.

Lemma family_IsEmpty s L h : family s L -> loose L h -> IsEmpty s h = bool_decide (L h = []).
Proof. intros HF Hh. apply IsEmpty_spec. by apply HF. Qed.

Lemma family_IsLinked s L n h : family s L -> n ∈ L h -> IsLinked s n = true.
Proof.
  intros HF Hn. assert (loose L h) as Hh by (eapply loose_head; [done|intros E0; rewrite E0 in Hn; by apply not_elem_of_nil in Hn]).
  eapply IsLinked_elem; [by apply HF|done].
Qed.

(** std::construct_at on a node that is in no list. *)
Lemma family_ConstructNode s L n : family s L -> loose L n -> L n = [] -> family (ConstructNode n s) L.
Proof.
  intros HF Hn E. eapply family_ext; [|done]. intros x. unfold ConstructNode. rewrite node_insert.
  case_decide; [subst x|done]. pose proof (family_unlinked s L n HF Hn E) as [_ [Hnx Hp]].
  unfold next, prev in Hnx, Hp. destruct (node s n). cbn in *. by subst.
Qed.

(** An unlinked node becomes an element of at most one list at a time. *)
Lemma loose_removed s L h l1 n l2 :
  family s L -> L h = l1 ++ n :: l2 -> loose (<[h := l1 ++ l2]> L) n.
Proof.
  intros HF E x Hx.
  assert (n ∈ L h) as Hn by (rewrite E; set_solver).
  apply fn_insert_in in Hx as [[-> Hx]|[Hne Hx]]; [|by apply Hne; eapply family_disjoint].
  assert (loose L h) as Hh by (eapply loose_head; [done|rewrite E; by destruct l1]).
  pose proof (family_list s L HF h Hh) as [Hnd _]. rewrite E in Hnd.
  apply NoDup_cons in Hnd as [_ Hnd].
  apply NoDup_app in Hnd as (_ & Hd & Hnd). apply NoDup_cons in Hnd as [Hn2 _].
  apply elem_of_app in Hx as [Hx|Hx]; [|done]. apply (Hd n Hx). by left.
Qed.
End family.

(** Taking a node out of whatever list it is in. *)
Section without.
Context {A : Type} `{Countable A}.
Implicit Types (s : gmap A (IntrusiveListNode A)) (L : A -> list A) (h n x : A) (l : list A).

Definition without n L : A -> list A := fun h => filter (fun x => x <> n) (L h).

Lemma without_loose n L : loose (without n L) n.
Proof. intros h Hh. unfold without in Hh. rewrite list_elem_of_filter in Hh. tauto. Qed.

Lemma without_elem n L h x : x ∈ without n L h <-> x <> n /\ x ∈ L h.
Proof. unfold without. by rewrite list_elem_of_filter. Qed.

Lemma without_same n L h : n ∉ L h -> without n L h = L h.
Proof.
  unfold without. induction (L h) as [|x l IH]; intros Hn; [done|].
  apply not_elem_of_cons in Hn as [? ?]. rewrite filter_cons_True by done. f_equal. by apply IH.
Qed.

Lemma without_split n L h l1 l2 :
  NoDup (L h) -> L h = l1 ++ n :: l2 -> without n L h = l1 ++ l2.
Proof.
  intros Hnd E. unfold without. rewrite E in *. rewrite filter_app, filter_cons_False by tauto.
  apply NoDup_app in Hnd as (_ & Hd & Hnd). apply NoDup_cons in Hnd as [Hn _].
  assert (forall l, n ∉ l -> filter (fun x => x <> n) l = l) as Hid.
  { intros l. apply (without_same n (fun _ => l) h). }
  rewrite !Hid; [done|done|]. intros Hin. apply (Hd n Hin). by left.
Qed.

Lemma family_NoDup s L h : family s L -> NoDup (L h).
Proof.
  intros HF. destruct (decide (L h = [])) as [->|Hne]; [apply NoDup_nil_2|].
  pose proof (family_list s L HF h (loose_head s L h HF Hne)) as [Hnd _].
  by apply NoDup_cons in Hnd as [_ ?].
Qed.

Lemma family_without s L n : family s L -> L n = [] -> family (Unlink n s) (without n L).
Proof.
  intros HF En.
  destruct (decide (Exists (fun h => n ∈ L h) (elements (dom s)))) as [Hex|Hnex].
  - apply Exists_exists in Hex as (h & _ & Hin).
    apply list_elem_of_split in Hin as (l1 & l2 & E).
    eapply family_ext_L; [|by eapply family_Unlink]. intros x.
    destruct (decide (x = h)) as [->|Hne].
    + rewrite fn_lookup_insert. by apply without_split; [eapply family_NoDup|].
    + rewrite fn_lookup_insert_ne by done. apply without_same. intros Hx. apply Hne.
      eapply (family_disjoint s L HF); [exact Hx|]. rewrite E. set_solver.
  - assert (loose L n) as Hn.
    { intros h Hin. apply Hnex, Exists_exists. exists h. split; [|done].
      apply elem_of_elements, elem_of_dom. apply not_eq_None_Some. intros Hs.
      assert (loose L h) as Hh.
      { eapply loose_head; [done|]. intros E. rewrite E in Hin. by apply not_elem_of_nil in Hin. }
      pose proof (is_list_next _ _ _ (family_list s L HF h Hh)) as Hnx.
      unfold next, node in Hnx. rewrite Hs in Hnx. cbn in Hnx.
      pose proof (family_list s L HF h Hh) as [Hnd _].
      destruct (L h) as [|y l]; [by apply not_elem_of_nil in Hin|]. cbn in Hnx. subst y.
      apply NoDup_cons in Hnd as [Hx _]. apply Hx. by left. }
    eapply family_ext_L; [|by apply family_Unlink_loose]. intros x. apply without_same. apply Hn.
Qed.
End without.

(** TransferList on a family: the head of the source goes along. *)
Section transfer.
Context {A : Type} `{Countable A} {S : Type} `{!HasNodes A S}.

Lemma family_TransferList fuel src dst x l (s : S) (L : A -> list A) :
  family (nodes s) L -> L src = x :: l -> L dst = [] -> loose L dst -> dst <> src ->
  (length l + 5 <= fuel)%nat ->
  exists m, TransferList fuel src dst s = Ok (None, set_nodes m s) /\
    family m (<[dst := x :: l ++ [src]]> (<[src := []]> L)).
Proof.
  intros HF Es Ed Hd Hne Hfuel.
  assert (loose L src) as Hs by (eapply loose_head; [done|by rewrite Es]).
  pose proof (family_list _ L HF src Hs) as Hls. pose proof (family_list _ L HF dst Hd) as Hld.
  rewrite Es in Hls. rewrite Ed in Hld.
  assert (dst ∉ src :: x :: l) as Hnd.
  { rewrite <- Es. apply not_elem_of_cons. split; [done|]. apply Hd. }
  destruct (TransferList_nodes fuel src dst x l s Hls Hld Hnd Hfuel) as (m & E & Hm & Hframe).
  exists m. split; [done|].
  assert (forall h n, n ∈ (<[dst := x :: l ++ [src]]> (<[src := []]> L) : A -> list A) h ->
    (h = dst /\ (n = src \/ n ∈ L src)) \/ (h <> dst /\ h <> src /\ n ∈ L h)) as Hin.
  { intros h n [[-> Hn]|[Hne' Hn]]%fn_insert_in.
    - left. split; [done|]. rewrite Es. set_solver.
    - apply fn_insert_in in Hn as [[_ Hn]|[? Hn]]; [set_solver|auto]. }
  split.
  - intros h h' n Hn Hn'. apply Hin in Hn as [[-> Hn]|(N1 & N2 & Hn)];
      apply Hin in Hn' as [[-> Hn']|(M1 & M2 & Hn')]; try done.
    + destruct Hn as [->|Hn]; [by apply Hs in Hn'|]. destruct M2. by eapply (family_disjoint _ L HF).
    + destruct Hn' as [->|Hn']; [by apply Hs in Hn|]. destruct N2. by eapply (family_disjoint _ L HF).
    + by eapply family_disjoint.
  - intros h n Hn. destruct (decide (n = src)) as [->|Hns].
    { by rewrite fn_lookup_insert_ne, fn_lookup_insert by done. }
    apply Hin in Hn as [[-> [->|Hn]]|(? & ? & Hn)]; [done| |].
    + rewrite !fn_lookup_insert_ne; [by eapply family_leaf|done|]. intros ->. by apply Hd in Hn.
    + rewrite !fn_lookup_insert_ne; [by eapply family_leaf|done|]. intros ->. by apply Hd in Hn.
  - intros h Hh.
    assert (h <> src) as Hhs.
    { intros ->. apply (Hh dst). rewrite fn_lookup_insert. set_solver. }
    destruct (decide (h = dst)) as [->|Hhd]; [by rewrite fn_lookup_insert|].
    assert (loose L h) as Hlh.
    { intros y Hy. destruct (decide (y = src)) as [->|Hys].
      - apply (Hh dst). rewrite fn_lookup_insert. rewrite Es in Hy. set_solver.
      - destruct (decide (y = dst)) as [->|Hyd]; [rewrite Ed in Hy; set_solver|].
        apply (Hh y). by rewrite !fn_lookup_insert_ne. }
    rewrite !fn_lookup_insert_ne by done. apply (family_frame (nodes s)); [done..|].
    intros y Hy. apply Hframe.
    + rewrite <- Es. by eapply family_other.
    + intros ->. apply elem_of_cons in Hy as [->|Hy]; [done|]. by apply Hd in Hy.
Qed.
End transfer.
