(* ===== verification/BusyMutex.v ===== *)
(** ukern::BusyMutex (ukern_busymutex.hpp).

    The union of m_release_count (low half) and m_lock_count (high half) is the
    32-bit m_counter.  [Enter_run] and [Leave] are the code of one thread; [step]
    interleaves the accesses of several threads to the counter. *)
From stdpp Require Import relations.
From S2P Require Import Prelude.

Section definitions.
Implicit Types c wait : Z.

Definition m_release_count c : Z := Z.land c 0xffff.
Definition m_lock_count c : Z := Z.land (Z.shiftr c 0x10) 0xffff.

(** The condition of the wait loop, negated: the thread may go on. *)
Definition Enter_test wait : bool := Z.land wait 0xffff =? Z.land (Z.shiftr wait 0x10) 0xffff.

(** InterlockedExchangeAdd: the old value is returned. *)
Definition Enter_begin c : Z * Z := (c, u32 (c + 0x10000)).

(** InterlockedAdd of 0: the current value is returned. *)
Definition Enter_reload c : Z := u32 (c + 0).

(** Enter() of a thread that runs alone; [fuel] bounds the wait loop. *)
Fixpoint Enter_loop (fuel : nat) wait c : res Z :=
  if Enter_test wait then Ok c
  else match fuel with
       | O => Fault OutOfFuel
       | S fuel => Enter_loop fuel (Enter_reload c) c
       end.
Definition Enter_run (fuel : nat) c : res Z :=
  let '(wait, c) := Enter_begin c in Enter_loop fuel wait c.

(** ++m_release_count: the low half only. *)
Definition Leave c : Z := Z.lor (u16 (m_release_count c + 1)) (Z.shiftl (m_lock_count c) 16).
End definitions.

(** The threads that use the mutex: what each does between two of its accesses. *)
Inductive thread_state : Type := Outside | Spinning | Inside.
#[export] Instance thread_state_eq_dec : EqDecision thread_state.
Proof. solve_decision. Defined.

Definition after_test (wait : Z) : thread_state := if Enter_test wait then Inside else Spinning.

Inductive step : Z * list thread_state -> Z * list thread_state -> Prop :=
  | step_enter c ts i :
      ts !! i = Some Outside ->
      step (c, ts) (snd (Enter_begin c), <[i := after_test (fst (Enter_begin c))]> ts)
  | step_reload c ts i :
      ts !! i = Some Spinning ->
      step (c, ts) (c, <[i := after_test (Enter_reload c)]> ts)
  | step_leave c ts i :
      ts !! i = Some Inside ->
      step (c, ts) (Leave c, <[i := Outside]> ts).

(** The constructor sets m_counter to 0. *)
Definition initial (n : nat) : Z * list thread_state := (0, replicate n Outside).

(** The threads that have taken a ticket and not returned it. *)
Fixpoint count (f : thread_state -> bool) (ts : list thread_state) : nat :=
  match ts with [] => O | t :: ts => ((if f t then 1 else 0) + count f ts)%nat end.
Definition has_ticket (t : thread_state) : bool := match t with Outside => false | _ => true end.
Definition is_inside (t : thread_state) : bool := match t with Inside => true | _ => false end.
Definition pending (ts : list thread_state) : nat := count has_ticket ts.

Definition inv (st : Z * list thread_state) : Prop :=
  let '(c, ts) := st in
  0 <= c < 2 ^ 32 /\
  Z.of_nat (length ts) < 2 ^ 16 /\
  (m_lock_count c - m_release_count c) mod 2 ^ 16 = Z.of_nat (pending ts) /\
  (count is_inside ts <= 1)%nat.

Section lemmas.
Implicit Types (c : Z) (ts : list thread_state).

Lemma release_count_mod c : m_release_count c = c mod 2 ^ 16.
Proof. unfold m_release_count. apply (land_ones_mod c 16). lia. Qed.

Lemma lock_count_mod c : m_lock_count c = (c / 2 ^ 16) mod 2 ^ 16.
Proof.
  unfold m_lock_count. rewrite Z.shiftr_div_pow2 by lia. apply (land_ones_mod _ 16). lia.
Qed.

Lemma Enter_test_spec c : Enter_test c = true <-> m_release_count c = m_lock_count c.
Proof. unfold Enter_test, m_release_count, m_lock_count. by rewrite Z.eqb_eq. Qed.

Lemma Enter_begin_counts c :
  0 <= c < 2 ^ 32 ->
  0 <= snd (Enter_begin c) < 2 ^ 32 /\
  m_release_count (snd (Enter_begin c)) = m_release_count c /\
  m_lock_count (snd (Enter_begin c)) = (m_lock_count c + 1) mod 2 ^ 16.
Proof.
  intros Hc. cbn [snd Enter_begin]. unfold u32, wrap. rewrite !release_count_mod, !lock_count_mod.
  change 0x10000 with (2 ^ 16). pow2_lia.
Qed.

Lemma Leave_counts c :
  0 <= c < 2 ^ 32 ->
  0 <= Leave c < 2 ^ 32 /\
  m_release_count (Leave c) = (m_release_count c + 1) mod 2 ^ 16 /\
  m_lock_count (Leave c) = m_lock_count c.
Proof.
  intros Hc. assert (0 <= m_lock_count c < 2 ^ 16) as Hl.
  { rewrite lock_count_mod. apply Z.mod_pos_bound. lia. }
  unfold Leave. pose proof (wrap_range 16 (m_release_count c + 1) ltac:(lia)) as Hr.
  unfold u16. rewrite lor_disjoint_add by lia.
  rewrite !release_count_mod, !(lock_count_mod (_ + _)) in *.
  set (l := m_lock_count c) in *. unfold wrap in *. pow2_lia.
Qed.

(** The critical section of a thread that finds the mutex free. *)
Lemma Enter_Leave fuel c :
  0 <= c < 2 ^ 32 -> Enter_test c = true ->
  Enter_run fuel c = Ok (snd (Enter_begin c)) /\
  0 <= Leave (snd (Enter_begin c)) < 2 ^ 32 /\
  Enter_test (Leave (snd (Enter_begin c))) = true.
Proof.
  intros Hc Ht. destruct (Enter_begin_counts c Hc) as (Hc' & Hrel & Hlock).
  destruct (Leave_counts _ Hc') as (Hc'' & Hrel' & Hlock').
  split; [|split; [done|]].
  - unfold Enter_run. cbn [Enter_begin]. destruct fuel; cbn [Enter_loop]; by rewrite Ht.
  - apply Enter_test_spec. apply Enter_test_spec in Ht. by rewrite Hrel', Hlock', Hrel, Hlock, Ht.
Qed.

Lemma count_le f ts : (count f ts <= length ts)%nat.
Proof. induction ts as [|t ts IH]; cbn; [done|]. destruct (f t); lia. Qed.

Lemma count_insert f ts i t t' :
  ts !! i = Some t ->
  (count f (<[i := t']> ts) + (if f t then 1 else 0) = count f ts + (if f t' then 1 else 0))%nat.
Proof.
  revert i. induction ts as [|x ts IH]; intros [|i] Hi; try done.
  - injection Hi as ->. cbn. destruct (f t), (f t'); lia.
  - specialize (IH i Hi). change (<[S i := t']> (x :: ts)) with (x :: <[i := t']> ts).
    cbn [count]. destruct (f x), (f t), (f t'); lia.
Qed.
End lemmas.

(** * Interleavings *)
Section interleavings.
Implicit Types (c : Z) (ts : list thread_state) (st : Z * list thread_state).

Lemma Enter_reload_id c : 0 <= c < 2 ^ 32 -> Enter_reload c = c.
Proof. intros. unfold Enter_reload, u32. rewrite Z.add_0_r. by apply wrap_small. Qed.

(** The test succeeds when no ticket is out. *)
Lemma Enter_test_pending c ts : inv (c, ts) -> Enter_test c = true <-> pending ts = O.
Proof.
  intros (Hc & _ & Hd & _). rewrite Enter_test_spec.
  pose proof (wrap_range 16 c) as Hr. pose proof (wrap_range 16 (c / 2 ^ 16)) as Hl. unfold wrap in *.
  rewrite <- release_count_mod in Hr. rewrite <- lock_count_mod in Hl.
  set (l := m_lock_count c) in *. set (r := m_release_count c) in *. pow2_lia.
Qed.

Lemma inside_pending ts : (count is_inside ts <= pending ts)%nat.
Proof. unfold pending. induction ts as [|[] ts IH]; cbn; try done; lia. Qed.

Lemma after_test_cases w : after_test w = Inside /\ Enter_test w = true \/
  after_test w = Spinning /\ Enter_test w = false.
Proof. unfold after_test. destruct (Enter_test w); auto. Qed.

(** A thread that spins reads a counter that still holds its own ticket. *)
Lemma reload_spins c ts i : inv (c, ts) -> ts !! i = Some Spinning -> after_test (Enter_reload c) = Spinning.
Proof.
  intros Hinv Hi. rewrite Enter_reload_id by apply Hinv.
  destruct (after_test_cases c) as [[_ Ht]|[-> _]]; [exfalso|done].
  apply (Enter_test_pending c ts) in Ht; [|done].
  pose proof (count_insert has_ticket ts i Spinning Outside Hi) as Hp. cbn in Hp. unfold pending in Ht. lia.
Qed.

Lemma inv_step st st' : inv st -> step st st' -> inv st'.
Proof.
  intros Hinv Hst. destruct Hst as [c ts i Hi|c ts i Hi|c ts i Hi];
    pose proof Hinv as (Hc & Hn & Hd & H1).
  - destruct (Enter_begin_counts c Hc) as (Hc' & Hr & Hl). cbn [fst snd Enter_begin] in *.
    set (t := after_test c).
    pose proof (count_insert has_ticket ts i Outside t Hi) as Hp.
    pose proof (count_insert is_inside ts i Outside t Hi) as Hs. cbn in Hp, Hs.
    pose proof (count_le has_ticket (<[i:=t]> ts)) as Hle. rewrite length_insert in Hle.
    pose proof (inside_pending ts). pose proof (Enter_test_pending c ts Hinv) as Htp.
    assert (has_ticket t = true /\ (is_inside t = true -> pending ts = O)) as [Ht1 Ht2].
    { subst t. destruct (after_test_cases c) as [[-> E]|[-> _]]; [|done]. by rewrite <- Htp. }
    rewrite Ht1 in Hp. unfold inv, pending in *. rewrite length_insert, Hr, Hl.
    split; [done|]. split; [done|]. split; [pow2_lia|].
    destruct (is_inside t); [rewrite Ht2 in * by done|]; lia.
  - rewrite (reload_spins c ts i), list_insert_id by done. done.
  - destruct (Leave_counts c Hc) as (Hc' & Hr & Hl).
    pose proof (count_insert has_ticket ts i Inside Outside Hi) as Hp.
    pose proof (count_insert is_inside ts i Inside Outside Hi) as Hs. cbn in Hp, Hs.
    unfold inv, pending in *. rewrite length_insert, Hr, Hl.
    split; [done|]. split; [done|]. split; [pow2_lia|lia].
Qed.

Lemma pending_replicate n : pending (replicate n Outside) = O.
Proof. unfold pending. by induction n. Qed.

Lemma inv_initial n : Z.of_nat n < 2 ^ 16 -> inv (initial n).
Proof.
  intros Hn. cbn. rewrite length_replicate, pending_replicate.
  split; [done|]. split; [done|]. split; [done|].
  pose proof (inside_pending (replicate n Outside)). rewrite pending_replicate in *. lia.
Qed.

Lemma inv_reachable n st : Z.of_nat n < 2 ^ 16 -> rtc step (initial n) st -> inv st.
Proof.
  intros Hn. assert (forall st', inv st' -> rtc step st' st -> inv st) as Hgen.
  { intros st' Hi Hr. induction Hr; [done|]. eauto using inv_step. }
  intros. eapply Hgen; [by apply inv_initial|done].
Qed.

Lemma spinning_step st st' i :
  inv st -> step st st' -> snd st !! i = Some Spinning -> snd st' !! i = Some Spinning.
Proof.
  intros Hinv Hst Hi. destruct Hst as [c ts j Hj|c ts j Hj|c ts j Hj]; cbn in *;
    (destruct (decide (j = i)) as [->|]; [|by rewrite list_lookup_insert_ne]).
  - congruence.
  - rewrite (reload_spins c ts i) by done. by rewrite list_insert_id.
  - congruence.
Qed.

Lemma two_inside ts i j :
  ts !! i = Some Inside -> ts !! j = Some Inside -> i <> j ->
  (2 <= count is_inside ts)%nat.
Proof.
  intros Hi Hj Hne. pose proof (count_insert is_inside ts i Inside Outside Hi) as E1.
  assert (<[i := Outside]> ts !! j = Some Inside) as Hj' by (by rewrite list_lookup_insert_ne).
  pose proof (count_insert is_inside _ j Inside Outside Hj') as E2. cbn in E1, E2. lia.
Qed.
End interleavings.

(** * Properties *)

(** [C2] Mutual exclusion: with fewer than 2^16 threads, whatever the order of
    their accesses to the counter, no two are between Enter() and Leave() at once. *)
Theorem busy_mutex_exclusion (n : nat) (c : Z) (ts : list thread_state) (i j : nat) :
  Z.of_nat n < 2 ^ 16 -> rtc step (initial n) (c, ts) ->
  ts !! i = Some Inside -> ts !! j = Some Inside -> i = j.
Proof.
  intros Hn Hr Hi Hj. destruct (decide (i = j)) as [|Hne]; [done|exfalso].
  destruct (inv_reachable n _ Hn Hr) as (_ & _ & _ & H1).
  pose proof (two_inside _ _ _ Hi Hj Hne). lia.
Qed.

Lemma busy_mutex_exclusion_witness : exists c ts, ts !! 1%nat = Some Inside /\
  rtc step (initial 2) (c, ts) /\ forall j, ts !! j = Some Inside -> 1%nat = j.
Proof.
  exists 0x10000, [Outside; Inside]. split; [reflexivity|].
  assert (rtc step (initial 2) (0x10000, [Outside; Inside])) as Hr.
  { apply rtc_once. apply (step_enter 0 [Outside; Outside] 1). reflexivity. }
  split; [exact Hr|]. intros j Hj.
  apply (busy_mutex_exclusion 2 0x10000 [Outside; Inside] 1 j); [|exact Hr|reflexivity|exact Hj].
  vm_compute. reflexivity.
Defined.

(** A thread that finds no ticket out enters at once, without a single turn of
    the wait loop, and its Leave() lets the next one in the same way. *)
Theorem busy_mutex_uncontended (n : nat) (c : Z) (ts : list thread_state) :
  Z.of_nat n < 2 ^ 16 -> rtc step (initial n) (c, ts) -> pending ts = O ->
  exists c', Enter_run 0 c = Ok c' /\ Enter_test (Leave c') = true /\
    m_lock_count c' = (m_lock_count c + 1) mod 2 ^ 16.
Proof.
  intros Hn Hr Hp. pose proof (inv_reachable n _ Hn Hr) as Hinv.
  destruct Hinv as (Hc & Hrest). assert (inv (c, ts)) as Hinv by done.
  pose proof (proj2 (Enter_test_pending c ts Hinv) Hp) as Ht.
  destruct (Enter_Leave 0 c Hc Ht) as (Hrun & _ & Hfree).
  exists (snd (Enter_begin c)). split; [done|]. split; [done|]. by apply Enter_begin_counts.
Qed.

Lemma busy_mutex_uncontended_witness : pending [Outside; Outside] = O /\
  exists c', Enter_run 0 0 = Ok c' /\ Enter_test (Leave c') = true /\
    m_lock_count c' = (m_lock_count 0 + 1) mod 2 ^ 16.
Proof.
  split; [reflexivity|]. apply (busy_mutex_uncontended 2 0 [Outside; Outside]).
  - vm_compute. reflexivity.
  - apply rtc_refl.
  - reflexivity.
Defined.

(** [C39] A thread that has had to wait once never enters: the loop compares the
    release count with the current lock count, which counts the thread's own
    ticket, so no later state of any execution lets it through. *)
Theorem busy_mutex_contended_stuck (n : nat) (st st' : Z * list thread_state) (i : nat) :
  Z.of_nat n < 2 ^ 16 -> rtc step (initial n) st -> snd st !! i = Some Spinning ->
  rtc step st st' -> snd st' !! i = Some Spinning.
Proof.
  intros Hn Hr Hi Hs. pose proof (inv_reachable n _ Hn Hr) as Hinv. clear Hr Hn.
  induction Hs as [st|st st1 st' H1 _ IH]; [done|].
  apply IH; [by eapply spinning_step|by eapply inv_step].
Qed.

Lemma busy_mutex_contended_stuck_witness :
  let st := (0x20000, [Inside; Spinning]) in let st' := (0x20001, [Outside; Spinning]) in
  rtc step st st' /\ snd st' !! 1%nat = Some Spinning.
Proof.
  intros st st'.
  assert (step st st') as Hs by (apply (step_leave 0x20000 [Inside; Spinning] 0); reflexivity).
  split; [apply rtc_once; exact Hs|].
  apply (busy_mutex_contended_stuck 2 st st' 1); [| |reflexivity|apply rtc_once; exact Hs].
  - vm_compute. reflexivity.
  - apply (rtc_l step _ (0x10000, [Inside; Outside])).
    + apply (step_enter 0 [Outside; Outside] 0). reflexivity.
    + apply rtc_once. apply (step_enter 0x10000 [Inside; Outside] 1). reflexivity.
Defined.
