(* ===== verification/HandleTable.v ===== *)
(** ukern::HandleTable (ukern_handletable.hpp).

    The free entries form a list threaded through m_counters from m_indice_iter;
    a used entry holds the counter of its handle and a pointer to its object.
    [entry ht i] is what entry [i] holds, the abstraction the properties speak of. *)
From S2P Require Import Prelude BusyMutex.

Definition MaxHandles : Z := 256.
Definition CounterBitOffset : Z := 0xf.

Record HandleTable (T : Type) : Type := mkHandleTable {
  m_counters : list Z;            (* s16[MaxHandles] *)
  m_objects : list (option T);    (* void*[MaxHandles], None is nullptr *)
  m_table_mutex : Z;              (* BusyMutex *)
  m_indice_iter : Z;              (* s32 *)
  m_active_handles : Z;           (* u16 *)
  m_counter_value : Z             (* u16 *)
}.
Arguments mkHandleTable {T} _ _ _ _ _ _.
Arguments m_counters {T} _.
Arguments m_objects {T} _.
Arguments m_table_mutex {T} _.
Arguments m_indice_iter {T} _.
Arguments m_active_handles {T} _.
Arguments m_counter_value {T} _.

Section definitions.
Context {T : Type}.
Implicit Types (ht : HandleTable T) (handle : Z).

Definition construct : HandleTable T :=
  mkHandleTable (replicate 256 0) (replicate 256 None) 0 (-1) 0 1.

(** One iteration of the loop of Initialize(). *)
Definition Initialize_entry (i : Z) ht : res (HandleTable T) :=
  objects ← arr_set (m_objects ht) i None;
  counters ← arr_set (m_counters ht) i (s16 (i - 1));
  Ok (mkHandleTable counters objects (m_table_mutex ht) i (m_active_handles ht) (m_counter_value ht)).

Fixpoint Initialize_loop (n : nat) (i : Z) ht : res (HandleTable T) :=
  match n with
  | O => Ok ht
  | S n => ht ← Initialize_entry i ht; Initialize_loop n (i + 1) ht
  end.

Definition Initialize ht : res (HandleTable T) :=
  Initialize_loop 256 0
    (mkHandleTable (m_counters ht) (m_objects ht) (m_table_mutex ht) (m_indice_iter ht) 0 1).

(** ScopedBusyMutex around a body; nothing else runs, so a mutex that is taken stays taken. *)
Definition set_mutex (c : Z) ht : HandleTable T :=
  mkHandleTable (m_counters ht) (m_objects ht) c (m_indice_iter ht) (m_active_handles ht) (m_counter_value ht).
Definition with_table_mutex {A} (body : M (HandleTable T) A) : M (HandleTable T) A :=
  c ← gets m_table_mutex;
  c ← lift (Enter_run 1 c);
  modify (set_mutex c);;
  r ← body;
  c ← gets m_table_mutex;
  modify (set_mutex (Leave c));;
  mret r.

(** [Some handle]: true, with *out_handle set. *)
Definition ReserveHandle_body (object : option T) : M (HandleTable T) (option Z) := fun ht =>
  if MaxHandles <=? m_active_handles ht then Ok (None, ht)
  else
    let index := u16 (m_indice_iter ht) in
    indice_iter ← arr_get (m_counters ht) index;
    let counter := m_counter_value ht in
    counters ← arr_set (m_counters ht) index (s16 counter);
    objects ← arr_set (m_objects ht) index object;
    let next := if -1 <? s16 (m_counter_value ht + 1) then u16 (m_counter_value ht + 1) else 1 in
    let out_handle := Z.lor (Z.land index 0x7fff) (u32 (Z.shiftl counter CounterBitOffset)) in
    Ok (Some out_handle,
        mkHandleTable counters objects (m_table_mutex ht) indice_iter
          (u16 (m_active_handles ht + 1)) next).
Definition ReserveHandle (object : option T) : M (HandleTable T) (option Z) :=
  with_table_mutex (ReserveHandle_body object).

Definition FreeHandle_body handle : M (HandleTable T) bool := fun ht =>
  if (handle =? 0) || (Z.shiftr handle CounterBitOffset =? 0) then Ok (false, ht)
  else
    let index := Z.land handle 0x7fff in
    if MaxHandles <? index then Ok (false, ht)
    else
      object ← arr_get (m_objects ht) index;
      match object with
      | None => Ok (false, ht)
      | Some _ =>
          counter ← arr_get (m_counters ht) index;
          if negb (Z.shiftr handle CounterBitOffset =? u32 counter) then Ok (false, ht)
          else
            objects ← arr_set (m_objects ht) index None;
            counters ← arr_set (m_counters ht) index (s16 (m_indice_iter ht));
            Ok (true,
                mkHandleTable counters objects (m_table_mutex ht) index
                  (u16 (m_active_handles ht - 1)) (m_counter_value ht))
      end.
Definition FreeHandle handle : M (HandleTable T) bool := with_table_mutex (FreeHandle_body handle).

Definition GetObjectByHandle_body handle : M (HandleTable T) (option T) := fun ht =>
  if negb (Z.shiftr handle 0x1e =? 0) || (handle =? 0) || (Z.shiftr handle 0xf =? 0) then Ok (None, ht)
  else
    let index := Z.land handle 0x7fff in
    if MaxHandles <? index then Ok (None, ht)
    else
      counter ← arr_get (m_counters ht) index;
      if negb (Z.shiftr handle 0xf =? u32 counter) then Ok (None, ht)
      else object ← arr_get (m_objects ht) index; Ok (object, ht).
Definition GetObjectByHandle handle : M (HandleTable T) (option T) :=
  with_table_mutex (GetObjectByHandle_body handle).
End definitions.

(** * Abstraction and invariant *)
Section invariant.
Context {T : Type}.
Implicit Types (ht : HandleTable T) (i : nat) (c : Z).

(** What entry [i] holds: nothing, or the counter of its handle and its object. *)
Definition entry ht i : option (Z * T) :=
  match m_objects ht !! i, m_counters ht !! i with
  | Some (Some o), Some c => Some (c, o)
  | _, _ => None
  end.

(** The handle of an entry. *)
Definition encode i c : Z := Z.of_nat i + c * 2 ^ 15.

(** The free list: from [iter] through the counters. *)
Fixpoint free_chain (counters : list Z) (iter : Z) (l : list nat) : Prop :=
  match l with
  | [] => iter = -1
  | i :: l => iter = Z.of_nat i /\ exists n, counters !! i = Some n /\ free_chain counters n l
  end.

Definition mutex_free ht : Prop :=
  0 <= m_table_mutex ht < 2 ^ 32 /\ Enter_test (m_table_mutex ht) = true.

(** The table is consistent, [free] being its free list. *)
Record wf ht (free : list nat) : Prop := {
  wf_counters : length (m_counters ht) = 256%nat;
  wf_objects : length (m_objects ht) = 256%nat;
  wf_counter_value : 1 <= m_counter_value ht < 2 ^ 15;
  wf_chain : free_chain (m_counters ht) (m_indice_iter ht) free;
  wf_nodup : NoDup free;
  wf_free : forall i, i ∈ free <-> m_objects ht !! i = Some None;
  wf_active : m_active_handles ht = 256 - Z.of_nat (length free);
  wf_used : forall i c o, entry ht i = Some (c, o) -> 1 <= c < 2 ^ 15
}.
End invariant.

(** * The operations on a consistent table *)
Section lemmas.
Context {T : Type}.
Implicit Types (ht : HandleTable T) (i j : nat) (c : Z) (free : list nat).

Lemma encode_index i c : Z.of_nat i < 2 ^ 15 -> Z.land (encode i c) 0x7fff = Z.of_nat i.
Proof.
  intros Hi. unfold encode. change 0x7fff with (2 ^ 15 - 1). rewrite land_ones_mod by lia.
  rewrite Z_mod_plus_full. apply Z.mod_small. lia.
Qed.

Lemma encode_counter i c : Z.of_nat i < 2 ^ 15 -> Z.shiftr (encode i c) 15 = c.
Proof.
  intros Hi. unfold encode. rewrite Z.shiftr_div_pow2, Z.div_add by lia.
  rewrite Z.div_small; lia.
Qed.

Lemma encode_reserve i c :
  Z.of_nat i < 2 ^ 15 -> 0 <= c < 2 ^ 15 ->
  Z.lor (Z.land (Z.of_nat i) 0x7fff) (u32 (Z.shiftl c CounterBitOffset)) = encode i c.
Proof.
  intros Hi Hc. unfold CounterBitOffset. change 0xf with 15. change 0x7fff with (2 ^ 15 - 1).
  rewrite land_ones_mod, Z.mod_small by lia.
  unfold u32. rewrite wrap_small by (rewrite Z.shiftl_mul_pow2 by lia; pow2_lia).
  apply lor_disjoint_add; lia.
Qed.

Lemma encode_inj i j c c' : Z.of_nat i < 2 ^ 15 -> Z.of_nat j < 2 ^ 15 ->
  encode i c = encode j c' -> i = j /\ c = c'.
Proof.
  intros Hi Hj E. split.
  - apply Nat2Z.inj. by rewrite <- (encode_index i c), <- (encode_index j c'), E.
  - by rewrite <- (encode_counter i c), <- (encode_counter j c'), E.
Qed.

Lemma free_chain_insert counters i x iter free :
  free_chain counters iter free -> i ∉ free -> free_chain (<[i := x]> counters) iter free.
Proof.
  revert iter. induction free as [|j free IH]; intros iter; cbn; [done|].
  intros (-> & n & Hn & Hc) Hi. split; [done|]. exists n. split.
  - rewrite list_lookup_insert_ne by set_solver. done.
  - apply IH; set_solver.
Qed.

Lemma wf_set_mutex m ht free : wf ht free -> wf (set_mutex m ht) free.
Proof. by intros []. Qed.

(** A body that leaves the mutex alone runs in its critical section. *)
Lemma with_table_mutex_run {A} (body : M (HandleTable T) A) ht r ht' :
  mutex_free ht ->
  (forall m, body (set_mutex m ht) = Ok (r, set_mutex m ht')) ->
  exists m, with_table_mutex body ht = Ok (r, set_mutex m ht') /\ mutex_free (set_mutex m ht').
Proof.
  intros [Hr Ht] Hb. destruct (Enter_Leave 1 _ Hr Ht) as (Hrun & Hr' & Ht').
  exists (Leave (snd (Enter_begin (m_table_mutex ht)))). split; [|done].
  unfold with_table_mutex. run_M. rewrite Hrun, Hb. done.
Qed.

Lemma with_table_mutex_fault {A} (body : M (HandleTable T) A) ht f :
  mutex_free ht -> (forall m, body (set_mutex m ht) = Fault f) -> with_table_mutex body ht = Fault f.
Proof.
  intros [Hr Ht] Hb. destruct (Enter_Leave 1 _ Hr Ht) as (Hrun & _).
  unfold with_table_mutex. run_M. by rewrite Hrun, Hb.
Qed.

Lemma wf_index ht free i : wf ht free -> i ∈ free -> (i < 256)%nat.
Proof.
  intros Hwf Hi. apply (wf_free _ _ Hwf) in Hi. apply lookup_lt_Some in Hi.
  by rewrite (wf_objects _ _ Hwf) in Hi.
Qed.

Lemma wf_length ht free : wf ht free -> (length free <= 256)%nat.
Proof.
  intros Hwf. assert (free ⊆+ seq 0 256) as Hs.
  { apply NoDup_submseteq; [apply Hwf|]. intros i Hi. apply elem_of_seq.
    pose proof (wf_index _ _ _ Hwf Hi). lia. }
  apply submseteq_length in Hs. by rewrite length_seq in Hs.
Qed.

Lemma entry_lt ht free i e : wf ht free -> entry ht i = Some e -> (i < 256)%nat.
Proof.
  intros Hwf He. unfold entry in He. destruct (m_objects ht !! i) eqn:E; [|done].
  apply lookup_lt_Some in E. by rewrite (wf_objects _ _ Hwf) in E.
Qed.

Lemma counter_lookup ht free i : wf ht free -> (i < 256)%nat -> exists c, m_counters ht !! i = Some c.
Proof.
  intros Hwf Hi. destruct (lookup_lt_is_Some_2 (m_counters ht) i) as [c Hc]; [|by exists c].
  by rewrite (wf_counters _ _ Hwf).
Qed.

Lemma object_lookup ht free i : wf ht free -> (i < 256)%nat -> exists o, m_objects ht !! i = Some o.
Proof.
  intros Hwf Hi. destruct (lookup_lt_is_Some_2 (m_objects ht) i) as [o Ho]; [|by exists o].
  by rewrite (wf_objects _ _ Hwf).
Qed.
End lemmas.

Section operations.
Context {T : Type}.
Implicit Types (ht : HandleTable T) (i j : nat) (c : Z) (free : list nat) (o : T).

Lemma ReserveHandle_body_full ht o :
  m_active_handles ht = 256 -> forall m, ReserveHandle_body (Some o) (set_mutex m ht) = Ok (None, set_mutex m ht).
Proof. intros Ha m. unfold ReserveHandle_body. cbn. by rewrite Ha. Qed.

(** The next value of m_counter_value. *)
Lemma next_counter_range c : 1 <= c < 2 ^ 15 ->
  1 <= (if -1 <? s16 (c + 1) then u16 (c + 1) else 1) < 2 ^ 15.
Proof.
  intros Hc. destruct (decide (c = 2 ^ 15 - 1)) as [->|Hne]; [vm_compute; split; congruence|].
  unfold s16, u16. rewrite swrap_small, wrap_small by pow2_lia.
  destruct (Z.ltb_spec (-1) (c + 1)); lia.
Qed.

Lemma ReserveHandle_body_ok ht i free o :
  wf ht (i :: free) ->
  exists ht', (forall m, ReserveHandle_body (Some o) (set_mutex m ht) =
      Ok (Some (encode i (m_counter_value ht)), set_mutex m ht')) /\
    wf ht' free /\
    forall j, entry ht' j = if decide (j = i) then Some (m_counter_value ht, o) else entry ht j.
Proof.
  intros Hwf. pose proof (wf_index _ _ i Hwf ltac:(by left)) as Hi.
  pose proof (wf_chain _ _ Hwf) as (Hiter & n & Hn & Hchain).
  pose proof (wf_counter_value _ _ Hwf) as Hcv. pose proof (wf_active _ _ Hwf) as Ha.
  pose proof (wf_nodup _ _ Hwf) as Hnd. apply NoDup_cons in Hnd as [Hif Hnd].
  pose proof (wf_counters _ _ Hwf) as Hlc. pose proof (wf_objects _ _ Hwf) as Hlo.
  pose proof (wf_length _ _ Hwf) as Hlen. cbn in Ha, Hlen.
  set (cv := m_counter_value ht) in *.
  exists (mkHandleTable (<[i := cv]> (m_counters ht)) (<[i := Some o]> (m_objects ht)) (m_table_mutex ht)
    n (m_active_handles ht + 1) (if -1 <? s16 (cv + 1) then u16 (cv + 1) else 1)).
  assert (forall j, entry (mkHandleTable (<[i := cv]> (m_counters ht)) (<[i := Some o]> (m_objects ht))
    (m_table_mutex ht) n (m_active_handles ht + 1) (if -1 <? s16 (cv + 1) then u16 (cv + 1) else 1)) j =
    if decide (j = i) then Some (cv, o) else entry ht j) as Hent.
  { intros j. unfold entry. cbn. case_decide as Hj.
    - subst. by rewrite !list_lookup_insert_eq by (by rewrite ?Hlc, ?Hlo).
    - by rewrite !list_lookup_insert_ne by done. }
  split; [|split; [|done]].
  - intros m. unfold ReserveHandle_body. cbn [set_mutex m_active_handles m_indice_iter m_counters m_objects m_counter_value m_table_mutex].
    fold cv. destruct (Z.leb_spec MaxHandles (m_active_handles ht)) as [Hm|_]; [unfold MaxHandles in Hm; lia|].
    assert (u16 (Z.of_nat i) = Z.of_nat i) as Eu by (apply wrap_small; pow2_lia).
    assert (u16 (m_active_handles ht + 1) = m_active_handles ht + 1) as Ea by (apply wrap_small; pow2_lia).
    assert (s16 cv = cv) as Es by (apply swrap_small; lia).
    rewrite Hiter, Eu, Ea, Es. unfold mbind, res_bind.
    rewrite (arr_get_lookup _ _ _ Hn), !arr_set_insert by (by rewrite ?Hlc, ?Hlo).
    by rewrite encode_reserve by lia.
  - split; cbn; rewrite ?length_insert; try done.
    + apply next_counter_range. lia.
    + by apply free_chain_insert.
    + intros j. destruct (decide (j = i)) as [->|Hj].
      * rewrite list_lookup_insert_eq by (by rewrite Hlo). split; [done|congruence].
      * rewrite list_lookup_insert_ne by done. rewrite <- (wf_free _ _ Hwf). set_solver.
    + lia.
    + intros j c o'. rewrite Hent. case_decide; [intros [= <- <-]; lia|apply Hwf].
Qed.

Lemma FreeHandle_body_live ht i c o free :
  wf ht free -> entry ht i = Some (c, o) ->
  exists ht', (forall m, FreeHandle_body (encode i c) (set_mutex m ht) = Ok (true, set_mutex m ht')) /\
    wf ht' (i :: free) /\ forall j, entry ht' j = if decide (j = i) then None else entry ht j.
Proof.
  intros Hwf He. pose proof (entry_lt _ _ _ _ Hwf He) as Hi.
  pose proof (wf_used _ _ Hwf _ _ _ He) as Hc.
  pose proof (wf_counters _ _ Hwf) as Hlc. pose proof (wf_objects _ _ Hwf) as Hlo.
  pose proof (wf_active _ _ Hwf) as Ha.
  assert (m_objects ht !! i = Some (Some o) /\ m_counters ht !! i = Some c) as [Ho Hcc].
  { unfold entry in He. destruct (m_objects ht !! i) as [[o'|]|]; [|done..].
    destruct (m_counters ht !! i); [|done]. by simplify_eq. }
  assert (i ∉ free) as Hif.
  { rewrite (wf_free _ _ Hwf), Ho. congruence. }
  assert (-1 <= m_indice_iter ht < 256) as Hiter.
  { pose proof (wf_chain _ _ Hwf) as Hch. destruct free as [|k free]; cbn in Hch; [lia|].
    pose proof (wf_index _ _ k Hwf ltac:(by left)). lia. }
  assert (NoDup (i :: free)) as Hnd by (constructor; [done|apply Hwf]).
  assert (length (i :: free) <= 256)%nat as Hlen.
  { assert (i :: free ⊆+ seq 0 256) as Hs.
    { apply NoDup_submseteq; [done|]. intros k [->|Hk]%elem_of_cons; apply elem_of_seq; [lia|].
      pose proof (wf_index _ _ _ Hwf Hk). lia. }
    apply submseteq_length in Hs. by rewrite length_seq in Hs. }
  cbn in Hlen.
  exists (mkHandleTable (<[i := m_indice_iter ht]> (m_counters ht)) (<[i := None]> (m_objects ht)) (m_table_mutex ht)
    (Z.of_nat i) (m_active_handles ht - 1) (m_counter_value ht)).
  assert (forall j, entry (mkHandleTable (<[i := m_indice_iter ht]> (m_counters ht)) (<[i := None]> (m_objects ht))
    (m_table_mutex ht) (Z.of_nat i) (m_active_handles ht - 1) (m_counter_value ht)) j =
    if decide (j = i) then None else entry ht j) as Hent.
  { intros j. unfold entry. cbn. case_decide as Hj.
    - subst. by rewrite list_lookup_insert_eq by (by rewrite Hlo).
    - by rewrite !list_lookup_insert_ne by done. }
  split; [|split; [|done]].
  - intros m. unfold FreeHandle_body, CounterBitOffset. cbn [set_mutex m_active_handles m_indice_iter m_counters m_objects m_counter_value m_table_mutex].
    rewrite encode_counter, encode_index by lia.
    destruct (Z.eqb_spec (encode i c) 0) as [E|_]; [unfold encode in E; lia|].
    destruct (Z.eqb_spec c 0); [lia|]. cbn [orb].
    destruct (Z.ltb_spec MaxHandles (Z.of_nat i)) as [Hm|_]; [unfold MaxHandles in Hm; lia|].
    unfold mbind, res_bind. rewrite (arr_get_lookup _ _ _ Ho), (arr_get_lookup _ _ _ Hcc).
    unfold u32. rewrite wrap_small by pow2_lia. rewrite Z.eqb_refl. cbn [negb].
    rewrite !arr_set_insert by (by rewrite ?Hlc, ?Hlo).
    unfold s16. rewrite swrap_small by pow2_lia. unfold u16. rewrite wrap_small by pow2_lia. done.
  - split; cbn; rewrite ?length_insert; try done.
    + apply Hwf.
    + split; [done|]. exists (m_indice_iter ht). split; [by rewrite list_lookup_insert_eq by (by rewrite Hlc)|].
      apply free_chain_insert; [apply Hwf|done].
    + intros j. destruct (decide (j = i)) as [->|Hj].
      * rewrite list_lookup_insert_eq by (by rewrite Hlo). split; [done|by left].
      * rewrite list_lookup_insert_ne by done. rewrite <- (wf_free _ _ Hwf). set_solver.
    + lia.
    + intros j c' o'. rewrite Hent. case_decide; [done|apply Hwf].
Qed.
Lemma entry_lookup ht i c :
  m_counters ht !! i = Some c ->
  entry ht i = match m_objects ht !! i with Some (Some o) => Some (c, o) | _ => None end.
Proof. intros Hc. unfold entry. rewrite Hc. by destruct (m_objects ht !! i) as [[]|]. Qed.

Lemma FreeHandle_body_stale ht i c free :
  wf ht free -> (i < 256)%nat -> 0 <= c < 2 ^ 17 -> (forall o, entry ht i <> Some (c, o)) ->
  forall m, FreeHandle_body (encode i c) (set_mutex m ht) = Ok (false, set_mutex m ht).
Proof.
  intros Hwf Hi Hc He m. unfold FreeHandle_body, CounterBitOffset.
  cbn [set_mutex m_counters m_objects].
  rewrite encode_counter, encode_index by lia.
  destruct (_ || _); [done|].
  destruct (Z.ltb_spec MaxHandles (Z.of_nat i)) as [|_]; [done|].
  destruct (object_lookup _ _ _ Hwf Hi) as [o Ho]. destruct (counter_lookup _ _ _ Hwf Hi) as [c' Hc'].
  unfold mbind, res_bind. rewrite (arr_get_lookup _ _ _ Ho), (arr_get_lookup _ _ _ Hc').
  pose proof (entry_lookup ht i c' Hc') as E. rewrite Ho in E. destruct o as [o|]; [|done].
  pose proof (wf_used _ _ Hwf _ _ _ E) as Hr.
  unfold u32. rewrite wrap_small by pow2_lia.
  destruct (Z.eqb_spec c c') as [->|]; [|done]. by destruct (He o).
Qed.

(** What a lookup of the handle of entry [i] and counter [c] returns. *)
Definition lookup_handle ht i c : option T :=
  match entry ht i with
  | Some (c', o) => if c =? c' then Some o else None
  | None => None
  end.

Lemma GetObjectByHandle_body_ok ht i c free :
  wf ht free -> (i < 256)%nat -> 0 <= c < 2 ^ 17 ->
  forall m, GetObjectByHandle_body (encode i c) (set_mutex m ht) = Ok (lookup_handle ht i c, set_mutex m ht).
Proof.
  intros Hwf Hi Hc m. unfold GetObjectByHandle_body. change 0xf with 15.
  cbn [set_mutex m_counters m_objects]. rewrite encode_counter, encode_index by lia.
  destruct (object_lookup _ _ _ Hwf Hi) as [o Ho]. destruct (counter_lookup _ _ _ Hwf Hi) as [c' Hc'].
  pose proof (entry_lookup ht i c' Hc') as E. rewrite Ho in E.
  assert (forall o', o = Some o' -> 1 <= c' < 2 ^ 15) as Hr.
  { intros o' ->. apply (wf_used _ _ Hwf i c' o'). done. }
  unfold lookup_handle. rewrite E.
  destruct (negb _ || _ || _) eqn:Eg.
  - destruct o as [o|]; [|done]. destruct (Z.eqb_spec c c') as [->|]; [exfalso|done].
    specialize (Hr o eq_refl). rewrite !orb_true_iff, negb_true_iff, Z.eqb_neq, !Z.eqb_eq in Eg.
    unfold encode in Eg. rewrite Z.shiftr_div_pow2 in Eg by lia. change 0x1e with 30 in Eg. pow2_lia.
  - destruct (Z.ltb_spec MaxHandles (Z.of_nat i)) as [Hm|_]; [unfold MaxHandles in Hm; lia|].
    unfold mbind, res_bind. rewrite (arr_get_lookup _ _ _ Hc').
    destruct o as [o|].
    + specialize (Hr o eq_refl). unfold u32. rewrite wrap_small by pow2_lia.
      destruct (Z.eqb_spec c c'); cbn; [|done]. by rewrite (arr_get_lookup _ _ _ Ho).
    + destruct (c =? u32 c'); cbn; [|done]. by rewrite (arr_get_lookup _ _ _ Ho).
Qed.

(** Initialize() makes every entry free, the last one first in the list. *)
Lemma Initialize_loop_ok n : forall k ht,
  (k + n = 256)%nat -> length (m_counters ht) = 256%nat -> length (m_objects ht) = 256%nat ->
  free_chain (m_counters ht) (Z.of_nat k - 1) (reverse (seq 0 k)) ->
  (forall j, (j < k)%nat -> m_objects ht !! j = Some None) ->
  (n = O -> m_indice_iter ht = 255) ->
  exists ht', Initialize_loop n (Z.of_nat k) ht = Ok ht' /\
    length (m_counters ht') = 256%nat /\ length (m_objects ht') = 256%nat /\
    free_chain (m_counters ht') (m_indice_iter ht') (reverse (seq 0 256)) /\
    (forall j, (j < 256)%nat -> m_objects ht' !! j = Some None) /\
    m_table_mutex ht' = m_table_mutex ht /\ m_active_handles ht' = m_active_handles ht /\
    m_counter_value ht' = m_counter_value ht.
Proof.
  induction n as [|n IH]; intros k ht Hk Hlc Hlo Hch Hob Hit.
  - replace k with 256%nat in * by lia. exists ht. rewrite (Hit eq_refl). done.
  - cbn [Initialize_loop]. unfold Initialize_entry, mbind, res_bind.
    rewrite !arr_set_insert by lia. replace (Z.of_nat k + 1) with (Z.of_nat (S k)) by lia.
    assert (s16 (Z.of_nat k - 1) = Z.of_nat k - 1) as -> by (apply swrap_small; pow2_lia).
    destruct (IH (S k) (mkHandleTable (<[k := Z.of_nat k - 1]> (m_counters ht)) (<[k := None]> (m_objects ht))
      (m_table_mutex ht) (Z.of_nat k) (m_active_handles ht) (m_counter_value ht))) as (ht' & Hrun & Hrest);
      cbn [m_counters m_objects m_indice_iter]; rewrite ?length_insert; try done; try lia.
    + replace (seq 0 (S k)) with (seq 0 k ++ [k]) by (by rewrite seq_S).
      rewrite reverse_app. cbn. split; [lia|]. exists (Z.of_nat k - 1). split.
      * rewrite list_lookup_insert_eq by lia. done.
      * apply free_chain_insert; [done|]. rewrite elem_of_reverse, elem_of_seq. lia.
    + intros j Hj. destruct (decide (j = k)) as [->|].
      * by rewrite list_lookup_insert_eq by lia.
      * rewrite list_lookup_insert_ne by done. apply Hob. lia.
    + exists ht'. rewrite Hrun. split; [done|]. exact Hrest.
Qed.

Lemma Initialize_wf ht :
  length (m_counters ht) = 256%nat -> length (m_objects ht) = 256%nat ->
  exists ht', Initialize ht = Ok ht' /\ wf ht' (reverse (seq 0 256)) /\
    m_table_mutex ht' = m_table_mutex ht.
Proof.
  intros Hlc Hlo. unfold Initialize.
  destruct (Initialize_loop_ok 256 0 (mkHandleTable (m_counters ht) (m_objects ht) (m_table_mutex ht)
    (m_indice_iter ht) 0 1)) as (ht' & Hrun & H1 & H2 & H3 & H4 & H5 & H6 & H7);
    [done|exact Hlc|exact Hlo|done|intros; lia|done|].
  exists ht'. split; [exact Hrun|]. split; [|exact H5]. clear Hrun.
  split; try assumption.
  - rewrite H7. cbn. lia.
  - rewrite reverse_Permutation. apply NoDup_seq.
  - intros j. rewrite elem_of_reverse, elem_of_seq. split; [intros; apply H4; lia|].
    intros Hj%lookup_lt_Some. lia.
  - intros j c o He. unfold entry in He. destruct (m_objects ht' !! j) as [[o'|]|] eqn:E; try done.
    pose proof (lookup_lt_Some _ _ _ E). rewrite H4 in E by lia. done.
Qed.
End operations.

(** * Properties *)
Section properties.
Context {T : Type}.
Implicit Types (ht : HandleTable T) (i j : nat) (c h : Z) (free : list nat) (o : T).

(** The invariant of a table no thread is using. *)
Definition table_inv ht free : Prop := wf ht free /\ mutex_free ht.

(** Handles reserved one after the other for the objects of a list. *)
Fixpoint reserve_all (objects : list T) : M (HandleTable T) (list (option Z)) :=
  match objects with
  | [] => mret []
  | o :: objects => h ← ReserveHandle (Some o); hs ← reserve_all objects; mret (h :: hs)
  end.

Lemma reserve_run ht i free o :
  table_inv ht (i :: free) ->
  exists ht', ReserveHandle (Some o) ht = Ok (Some (encode i (m_counter_value ht)), ht') /\
    table_inv ht' free /\
    forall j, entry ht' j = if decide (j = i) then Some (m_counter_value ht, o) else entry ht j.
Proof.
  intros [Hwf Hm]. destruct (ReserveHandle_body_ok ht i free o Hwf) as (ht' & Hb & Hwf' & He).
  destruct (with_table_mutex_run _ _ _ _ Hm Hb) as (m & Hrun & Hm').
  exists (set_mutex m ht'). split; [exact Hrun|]. split; [|exact He].
  split; [by apply wf_set_mutex|done].
Qed.

Lemma reserve_run_full ht o :
  table_inv ht [] -> exists ht', ReserveHandle (Some o) ht = Ok (None, ht') /\ table_inv ht' [] /\
    forall j, entry ht' j = entry ht j.
Proof.
  intros [Hwf Hm]. pose proof (wf_active _ _ Hwf) as Ha. cbn in Ha.
  destruct (with_table_mutex_run _ _ _ _ Hm (ReserveHandle_body_full ht o ltac:(lia))) as (m & Hrun & Hm').
  exists (set_mutex m ht). split; [exact Hrun|]. split; [|done].
  split; [by apply wf_set_mutex|done].
Qed.

Lemma get_run ht free i c :
  table_inv ht free -> (i < 256)%nat -> 0 <= c < 2 ^ 17 ->
  exists ht', GetObjectByHandle (encode i c) ht = Ok (lookup_handle ht i c, ht') /\
    table_inv ht' free /\ forall j, entry ht' j = entry ht j.
Proof.
  intros [Hwf Hm] Hi Hc.
  destruct (with_table_mutex_run _ _ _ _ Hm (GetObjectByHandle_body_ok ht i c free Hwf Hi Hc)) as (m & Hrun & Hm').
  exists (set_mutex m ht). split; [exact Hrun|]. split; [|done]. split; [by apply wf_set_mutex|done].
Qed.

Lemma free_run ht free i c o :
  table_inv ht free -> entry ht i = Some (c, o) ->
  exists ht', FreeHandle (encode i c) ht = Ok (true, ht') /\ table_inv ht' (i :: free) /\
    forall j, entry ht' j = if decide (j = i) then None else entry ht j.
Proof.
  intros [Hwf Hm] He. destruct (FreeHandle_body_live ht i c o free Hwf He) as (ht' & Hb & Hwf' & He').
  destruct (with_table_mutex_run _ _ _ _ Hm Hb) as (m & Hrun & Hm').
  exists (set_mutex m ht'). split; [exact Hrun|]. split; [|exact He']. split; [by apply wf_set_mutex|done].
Qed.

Lemma lookup_handle_Some ht i c o : lookup_handle ht i c = Some o <-> entry ht i = Some (c, o).
Proof.
  unfold lookup_handle. destruct (entry ht i) as [[c' o']|]; [|done].
  destruct (Z.eqb_spec c c') as [->|]; naive_solver.
Qed.

Lemma Initialize_inv :
  exists ht, Initialize (@construct T) = Ok ht /\ table_inv ht (reverse (seq 0 256)).
Proof.
  destruct (Initialize_wf (@construct T)) as (ht & Hrun & Hwf & Hm); [apply length_replicate..|].
  exists ht. split; [exact Hrun|]. clear Hrun. split; [exact Hwf|].
  unfold mutex_free. rewrite Hm. split; [cbn; lia|reflexivity].
Qed.

Lemma entry_free ht free i : wf ht free -> i ∈ free -> entry ht i = None.
Proof. intros Hwf Hi. apply (wf_free _ _ Hwf) in Hi. unfold entry. by rewrite Hi. Qed.

(** Reserving one handle per object, as long as there are free entries. *)
Lemma reserve_all_run objects : forall ht free,
  table_inv ht free -> (length objects <= length free)%nat ->
  exists cs ht', reserve_all objects ht =
      Ok (Some <$> zip_with encode (take (length objects) free) cs, ht') /\
    length cs = length objects /\ table_inv ht' (drop (length objects) free) /\
    (forall k i c o, free !! k = Some i -> cs !! k = Some c -> objects !! k = Some o ->
      entry ht' i = Some (c, o)) /\
    (forall j, j ∉ take (length objects) free -> entry ht' j = entry ht j).
Proof.
  induction objects as [|o objects IH]; intros ht free Hinv Hlen.
  - exists [], ht. cbn. by rewrite drop_0.
  - destruct free as [|i free]; [cbn in Hlen; lia|].
    destruct (reserve_run ht i free o Hinv) as (ht1 & Hrun & Hinv1 & He1).
    destruct (IH ht1 free Hinv1 ltac:(cbn in Hlen; lia)) as (cs & ht' & Hrun' & Hl & Hinv' & Hk & Hj).
    assert (i ∉ free) as Hi.
    { destruct Hinv as [Hwf _]. apply wf_nodup, NoDup_cons in Hwf. apply Hwf. }
    exists (m_counter_value ht :: cs), ht'. cbn [reserve_all length take drop zip_with fmap list_fmap].
    split; [|split; [cbn; by rewrite Hl|split; [done|split]]].
    + unfold mbind, M_bind. by rewrite Hrun, Hrun'.
    + intros [|k] i' c o' Hf Hc Ho; cbn in Hf, Hc, Ho.
      * simplify_eq. rewrite Hj, He1.
        -- by rewrite decide_True.
        -- intros Hin. apply elem_of_take in Hin as (k & Hk' & _). apply Hi.
           by eapply list_elem_of_lookup_2.
      * by eapply Hk.
    + intros j Hjn. apply not_elem_of_cons in Hjn as [Hji Hjn].
      by rewrite Hj, He1, decide_False.
Qed.

(** Initialize() leaves a consistent table in which every entry is free. *)
Theorem handle_table_initialize :
  exists ht, Initialize (@construct T) = Ok ht /\ table_inv ht (reverse (seq 0 256)) /\
    forall i, entry ht i = None.
Proof.
  destruct Initialize_inv as (ht & Hrun & Hinv). exists ht.
  split; [exact Hrun|]. split; [exact Hinv|]. clear Hrun. intros i. destruct Hinv as [Hwf _].
  destruct (entry ht i) eqn:E; [exfalso|reflexivity].
  pose proof (entry_lt _ _ _ _ Hwf E) as Hi.
  rewrite (entry_free ht _ i Hwf) in E; [discriminate|]. rewrite elem_of_reverse, elem_of_seq. lia.
Qed.

(** [C16] ReserveHandle() fails exactly on a table without a free entry, which it
    leaves as it is; otherwise it takes the first free entry, which was unused, and
    the handle it returns designates the object, every other entry being kept. *)
Theorem handle_table_reserve ht free o :
  table_inv ht free ->
  match free with
  | [] => exists ht', ReserveHandle (Some o) ht = Ok (None, ht') /\ table_inv ht' [] /\
      forall j, entry ht' j = entry ht j
  | i :: free' => exists c ht', ReserveHandle (Some o) ht = Ok (Some (encode i c), ht') /\
      table_inv ht' free' /\ 1 <= c < 2 ^ 15 /\ entry ht i = None /\
      forall j, entry ht' j = if decide (j = i) then Some (c, o) else entry ht j
  end.
Proof.
  intros Hinv. destruct free as [|i free]; [by apply reserve_run_full|].
  destruct (reserve_run ht i free o Hinv) as (ht' & Hrun & Hinv' & He).
  exists (m_counter_value ht), ht'. split; [done|]. split; [done|]. destruct Hinv as [Hwf _].
  split; [apply Hwf|]. split; [|done].
  assert (m_objects ht !! i = Some None) as Ho by (apply (wf_free _ _ Hwf); by left).
  unfold entry. by rewrite Ho.
Qed.


(** GetObjectByHandle() returns the object of the entry when the counter of
    the handle is the entry's, null otherwise, and changes no entry. *)
Theorem handle_table_get ht free i c :
  table_inv ht free -> (i < 256)%nat -> 0 <= c < 2 ^ 17 ->
  exists ht', GetObjectByHandle (encode i c) ht = Ok (lookup_handle ht i c, ht') /\
    table_inv ht' free /\ forall j, entry ht' j = entry ht j.
Proof. apply get_run. Qed.

(** The bounds checks let index MaxHandles through: for such a handle both
    GetObjectByHandle() and FreeHandle() read past the end of the arrays. *)
Theorem handle_table_index_out_of_bounds ht free c :
  table_inv ht free -> 1 <= c < 2 ^ 15 ->
  GetObjectByHandle (encode 256 c) ht = Fault OutOfBounds /\
  FreeHandle (encode 256 c) ht = Fault OutOfBounds.
Proof.
  intros [Hwf Hm] Hc.
  split; apply with_table_mutex_fault; try done; intros m;
    unfold GetObjectByHandle_body, FreeHandle_body, CounterBitOffset; change 0xf with 15;
    cbn [set_mutex m_counters m_objects];
    rewrite encode_counter, encode_index by lia.
  - destruct (Z.eqb_spec (Z.shiftr (encode 256 c) 30) 0) as [_|Hne].
    2: { exfalso. apply Hne. unfold encode. rewrite Z.shiftr_div_pow2 by lia. pow2_lia. }
    destruct (Z.eqb_spec (encode 256 c) 0) as [E|_]; [unfold encode in E; lia|].
    destruct (Z.eqb_spec c 0); [lia|]. cbn.
    by rewrite (arr_get_oob (m_counters ht) 256) by (rewrite (wf_counters _ _ Hwf); lia).
  - destruct (Z.eqb_spec (encode 256 c) 0) as [E|_]; [unfold encode in E; lia|].
    destruct (Z.eqb_spec c 0); [lia|]. cbn.
    by rewrite (arr_get_oob (m_objects ht) 256) by (rewrite (wf_objects _ _ Hwf); lia).
Qed.

(** Exhaustion (the unit test HandleExhaustion): from any consistent table one
    can reserve a handle for each of as many objects as there are free entries;
    the handles are distinct, each designates its object, and when that was all
    the free entries the next ReserveHandle() fails. *)
Theorem handle_table_exhaustion ht free (objects : list T) o :
  table_inv ht free -> length objects = length free ->
  exists hs ht', reserve_all objects ht = Ok (Some <$> hs, ht') /\
    NoDup hs /\ length hs = length objects /\
    (forall k h o', hs !! k = Some h -> objects !! k = Some o' ->
      exists ht'', GetObjectByHandle h ht' = Ok (Some o', ht'')) /\
    exists ht'', ReserveHandle (Some o) ht' = Ok (None, ht'').
Proof.
  intros Hinv Hlen. destruct (reserve_all_run objects ht free Hinv ltac:(lia))
    as (cs & ht' & Hrun & Hl & Hinv' & Hk & _).
  rewrite take_ge in Hrun by lia. rewrite drop_ge in Hinv' by lia.
  pose proof Hinv as [Hwf _].
  exists (zip_with encode free cs), ht'. split; [exact Hrun|].
  assert (forall k h, zip_with encode free cs !! k = Some h ->
    exists i c, free !! k = Some i /\ cs !! k = Some c /\ h = encode i c /\ (i < 256)%nat) as Hz.
  { intros k h Hh. rewrite lookup_zip_with in Hh.
    destruct (free !! k) as [i|] eqn:Ei; [|done]. destruct (cs !! k) as [c|] eqn:Ec; [|done].
    cbn in Hh. simplify_eq. exists i, c. repeat split; try done.
    apply (wf_index _ _ _ Hwf). by eapply list_elem_of_lookup_2. }
  split; [|split; [|split]].
  - apply NoDup_alt. intros k1 k2 h H1 H2.
    destruct (Hz _ _ H1) as (i1 & c1 & E1 & _ & -> & L1). destruct (Hz _ _ H2) as (i2 & c2 & E2 & _ & E & L2).
    apply encode_inj in E as [-> _]; [|lia..]. by apply (NoDup_lookup free k1 k2 i2 (wf_nodup _ _ Hwf)).
  - rewrite length_zip_with. lia.
  - intros k h o' Hh Ho. destruct (Hz _ _ Hh) as (i & c & Ei & Ec & -> & L).
    pose proof (Hk _ _ _ _ Ei Ec Ho) as He. destruct Hinv' as [Hwf' Hm'].
    pose proof (wf_used _ _ Hwf' _ _ _ He) as Hc.
    destruct (get_run ht' [] i c ltac:(split; [exact Hwf'|exact Hm']) L ltac:(lia)) as (ht'' & Hget & _).
    exists ht''. rewrite Hget. by apply lookup_handle_Some in He as ->.
  - destruct (reserve_run_full ht' o Hinv') as (ht'' & Hf & _). by exists ht''.
Qed.
End properties.

(** * Witnesses: the table of the unit tests, just initialized *)
Lemma handle_table_reserve_witness : exists ht c ht' , table_inv ht (reverse (seq 0 256)) /\
  ReserveHandle (Some 7%nat) ht = Ok (Some (encode 255 c), ht') /\ entry ht' 255 = Some (c, 7%nat).
Proof.
  destruct (Initialize_inv (T := nat)) as (ht & _ & Hinv).
  destruct (handle_table_reserve ht (255%nat :: reverse (seq 0 255)) 7%nat Hinv)
    as (c & ht' & Hrun & _ & _ & _ & He).
  exists ht, c, ht'. split; [exact Hinv|]. split; [exact Hrun|]. rewrite He. reflexivity.
Defined.


Lemma handle_table_get_witness : exists ht, table_inv (T := nat) ht (reverse (seq 0 256)) /\
  exists ht', GetObjectByHandle (encode 3 1) ht = Ok (lookup_handle ht 3 1, ht').
Proof.
  destruct (Initialize_inv (T := nat)) as (ht & _ & Hinv). exists ht. split; [exact Hinv|].
  destruct (handle_table_get ht (reverse (seq 0 256)) 3 1 Hinv) as (ht' & Hrun & _);
    [lia|lia|]. exists ht'. exact Hrun.
Defined.

Lemma handle_table_index_out_of_bounds_witness : exists ht, table_inv (T := nat) ht (reverse (seq 0 256)) /\
  GetObjectByHandle (encode 256 1) ht = Fault OutOfBounds /\ FreeHandle (encode 256 1) ht = Fault OutOfBounds.
Proof.
  destruct (Initialize_inv (T := nat)) as (ht & _ & Hinv). exists ht. split; [exact Hinv|].
  apply (handle_table_index_out_of_bounds ht (reverse (seq 0 256)) 1 Hinv). lia.
Defined.

Lemma handle_table_exhaustion_witness : exists ht hs ht', table_inv ht (reverse (seq 0 256)) /\
  reserve_all (seq 1 256) ht = Ok (Some <$> hs, ht') /\ NoDup hs /\ length hs = 256%nat.
Proof.
  destruct (Initialize_inv (T := nat)) as (ht & _ & Hinv).
  destruct (handle_table_exhaustion ht (reverse (seq 0 256)) (seq 1 256) 7%nat Hinv)
    as (hs & ht' & Hrun & Hnd & Hl & _); [reflexivity|].
  exists ht, hs, ht'. split; [exact Hinv|]. split; [exact Hrun|]. split; [exact Hnd|exact Hl].
Defined.
