(* ===== verification/Allocators.v ===== *)
(** The object containers of util: FixedObjectAllocator, HeapObjectAllocator,
    HeapArray and PointerArray (util_fixedobjectallocator.hpp,
    util_heapobjectallocator.hpp, util_heaparray.hpp, util_pointerarray.hpp).

    A pointer into an allocator's storage is the index of its slot.  A slot holds an
    object or, like the union of the code, a free list node with its [next] pointer.
    [ObjectPool] is what both allocators promise to their clients. *)
From S2P Require Import Prelude.

Inductive Slot (T : Type) : Type :=
  | FreeNode (next : option Z)
  | Object (t : T).
Arguments FreeNode {T} next.
Arguments Object {T} t.

(** The free list that both allocators keep: its first node and the slots. *)
Record Pool (T : Type) : Type := mkPool { m_free_list : option Z; m_slots : list (Slot T) }.
Arguments mkPool {T} _ _.
Arguments m_free_list {T} _.
Arguments m_slots {T} _.

(** [n->next] of a free node; a slot that holds an object has no such member. *)
Definition free_next {T} (slots : list (Slot T)) (n : Z) : res (option Z) :=
  s ← arr_get slots n;
  match s with FreeNode next => Ok next | Object _ => Fault BadPointer end.

(** The construction loop of the free lists:
    for (i = 0; i < count - 1; ++i) nodes[i].next = nodes + i + 1. *)
Fixpoint link_free_nodes {T} (n : nat) (i : Z) (slots : list (Slot T)) : res (list (Slot T)) :=
  match n with
  | O => Ok slots
  | S n => slots ← arr_set slots i (FreeNode (Some (i + 1))); link_free_nodes n (i + 1) slots
  end.

Definition PoolAllocate {T} (construct : T) : M (Pool T) (option Z) :=
  p ← get;
  match m_free_list p with
  | None => mret None
  | Some allocation =>
      next ← lift (free_next (m_slots p) allocation);
      slots ← lift (arr_set (m_slots p) allocation (Object construct));
      modify (fun _ => mkPool next slots);;
      mret (Some allocation)
  end.

Definition PoolFree {T} (allocated_object : Z) : M (Pool T) unit :=
  p ← get;
  slots ← lift (arr_set (m_slots p) allocated_object (FreeNode (m_free_list p)));
  modify (fun _ => mkPool (Some allocated_object) slots).

Module FixedObjectAllocator.
(** The constructor: all nodes value-initialised, then linked. *)
Definition construct {T} (Count : nat) : res (Pool T) :=
  slots ← link_free_nodes (Count - 1) 0 (replicate Count (FreeNode None));
  Ok (mkPool (Some 0) slots).

Definition Allocate {T} (construct : T) : M (Pool T) (option Z) := PoolAllocate construct.

Definition Free {T} (allocated_object : Z) : M (Pool T) unit :=
  Count ← gets (fun p => Z.of_nat (length (m_slots p)));
  dd_assert ((0 <? allocated_object) && (allocated_object <? Count));;
  PoolFree allocated_object.
End FixedObjectAllocator.

Module HeapObjectAllocator.
Definition construct {T} : Pool T := mkPool None [].

(** [buffer]: the memory the heap or the caller hands over, as the pointers its slots
    happen to hold; None is a null pointer.  Both overloads of Initialize. *)
Definition Initialize {T} (buffer : option (list (option Z))) (element_count : Z) : M (Pool T) bool :=
  if element_count =? 0 then mret false
  else match buffer with
  | None => mret false
  | Some raw =>
      slots ← lift (link_free_nodes (Z.to_nat element_count - 1) 0 (FreeNode <$> raw));
      modify (fun _ => mkPool (Some 0) slots);;
      mret true
  end.

Definition Allocate {T} (construct : T) : M (Pool T) (option Z) := PoolAllocate construct.
Definition Free {T} (allocated_object : Z) : M (Pool T) unit := PoolFree allocated_object.
End HeapObjectAllocator.

(** HeapArray: [objects] is the buffer the object array pointer designates, [released]
    whether it was given back to the heap. *)
Module HeapArray.
Record t (T : Type) : Type := mk { m_object_array : option (list T); m_array_count : Z; released : bool }.
Arguments mk {T} _ _ _.
Arguments m_object_array {T} _.
Arguments m_array_count {T} _.
Arguments released {T} _.

Definition construct {T} : t T := mk None 0 false.

(** [raw]: the memory operator new returns, holding whatever it holds. *)
Definition InitializeArray {T} (object : T) (raw : option (list T)) (element_count : Z) : M (t T) bool :=
  if element_count =? 0 then mret false
  else match raw with
  | None => modify (fun a => mk None (m_array_count a) (released a));; mret false
  | Some _ => modify (fun _ => mk (Some (replicate (Z.to_nat element_count) object)) element_count false);;
      mret true
  end.

(** The "destruct" loop constructs the objects again; the members keep their values. *)
Definition Finalize {T} (object : T) : M (t T) unit :=
  a ← get;
  match m_object_array a with
  | None => mret tt
  | Some _ =>
      if released a then throw BadPointer
      else modify (fun a =>
        mk (Some (replicate (Z.to_nat (m_array_count a)) object)) (m_array_count a) true)
  end.

Definition at_index {T} (index : Z) : M (t T) T :=
  a ← get;
  dd_assert (index <? m_array_count a);;
  arr ← deref (m_object_array a);
  if released a then throw BadPointer else lift (arr_get arr index).
End HeapArray.

Module PointerArray.
Record t (P : Type) : Type := mk { m_max_pointers : Z; m_used_pointers : Z; m_pointer_array : option (list (option P)) }.
Arguments mk {P} _ _ _.
Arguments m_max_pointers {P} _.
Arguments m_used_pointers {P} _.
Arguments m_pointer_array {P} _.

(** [buffer]: the array new[] returns. *)
Definition Initialize {P} (buffer : option (list (option P))) (pointer_count : Z) : M (t P) unit :=
  dd_assert (negb (pointer_count =? 0));;
  dd_assert (bool_decide (is_Some buffer));;
  modify (fun _ => mk pointer_count 0 buffer).

Definition Finalize {P} : M (t P) unit :=
  a ← get;
  match m_pointer_array a with
  | Some _ => modify (fun _ => mk 0 0 None)
  | None => mret tt
  end.

Definition at_index {P} (index : Z) : M (t P) (option P) :=
  a ← get;
  dd_assert (index <? m_used_pointers a);;
  arr ← deref (m_pointer_array a);
  lift (arr_get arr index).

Definition PushPointer {P} (pointer : option P) : M (t P) unit :=
  a ← get;
  dd_assert (m_used_pointers a <=? m_max_pointers a);;
  arr ← deref (m_pointer_array a);
  arr ← lift (arr_set arr (m_used_pointers a) pointer);
  modify (fun _ => mk (m_max_pointers a) (u32 (m_used_pointers a + 1)) (Some arr)).

Definition PopPointer {P} : M (t P) (option P) :=
  a ← get;
  arr ← deref (m_pointer_array a);
  ret ← lift (arr_get arr (u32 (m_used_pointers a - 1)));
  arr ← lift (arr_set arr (u32 (m_used_pointers a - 1)) None);
  modify (fun _ => mk (m_max_pointers a) (u32 (m_used_pointers a - 1)) (Some arr));;
  mret ret.
End PointerArray.

(** * Free lists *)
(** [chain slots head l]: following [next] from [head] visits the slots [l] and ends. *)
Fixpoint chain {T} (slots : list (Slot T)) (head : option Z) (l : list nat) : Prop :=
  match l with
  | [] => head = None
  | i :: l => head = Some (Z.of_nat i) /\ exists next, slots !! i = Some (FreeNode next) /\ chain slots next l
  end.

(** The free slots are exactly those of [l]; all others hold objects. *)
Definition pool_inv {T} (p : Pool T) (l : list nat) : Prop :=
  NoDup l /\ chain (m_slots p) (m_free_list p) l /\
  forall i s, m_slots p !! i = Some s -> i ∉ l -> exists t, s = Object t.

Definition object_at {T} (p : Pool T) (i : nat) : option T :=
  match m_slots p !! i with Some (Object t) => Some t | _ => None end.

Section pools.
Context {T : Type}.
Implicit Types (slots : list (Slot T)) (p : Pool T) (l : list nat) (i n : nat).

Lemma chain_lookup slots head l i : chain slots head l -> i ∈ l -> exists next, slots !! i = Some (FreeNode next).
Proof.
  revert head. induction l as [|j l IH]; intros head; [set_solver|]. cbn.
  intros (-> & next & Hj & Hc) [->|Hi]%elem_of_cons; [by eexists|by eapply IH].
Qed.

Lemma chain_insert slots head l i s : chain slots head l -> i ∉ l -> chain (<[i := s]> slots) head l.
Proof.
  revert head. induction l as [|j l IH]; intros head; cbn; [done|].
  intros (-> & next & Hj & Hc) Hi. apply not_elem_of_cons in Hi as [? ?].
  split; [done|]. exists next. rewrite list_lookup_insert_ne by done. split; [done|by apply IH].
Qed.

Lemma link_free_nodes_spec n : forall i slots,
  (i + n < length slots)%nat ->
  exists slots', link_free_nodes n (Z.of_nat i) slots = Ok slots' /\ length slots' = length slots /\
    (forall j, (i <= j < i + n)%nat -> slots' !! j = Some (FreeNode (Some (Z.of_nat j + 1)))) /\
    (forall j, (j < i \/ i + n <= j)%nat -> slots' !! j = slots !! j).
Proof.
  induction n as [|n IH]; intros i slots Hi; cbn.
  - exists slots. split; [done|]. split; [done|]. split; [lia|done].
  - rewrite arr_set_insert by lia. unfold mbind, res_bind.
    replace (Z.of_nat i + 1) with (Z.of_nat (S i)) by lia.
    destruct (IH (S i) (<[i := FreeNode (Some (Z.of_nat (S i)))]> slots)) as (s' & E & Hlen & Hin & Hout).
    { rewrite length_insert. lia. }
    rewrite length_insert in Hlen.
    exists s'. split; [done|]. split; [done|]. split.
    + intros j Hj. destruct (decide (j = i)) as [->|Hne].
      * rewrite Hout, list_lookup_insert_eq by lia. do 3 f_equal. lia.
      * apply Hin. lia.
    + intros j Hj. rewrite Hout, list_lookup_insert_ne by lia. done.
Qed.

(** A list of slots linked one after the other, ending in [e], is the chain 0, 1, ... *)
Lemma chain_seq slots n : forall i,
  (forall j, (i <= j < i + n)%nat -> slots !! j = Some (FreeNode (Some (Z.of_nat j + 1)))) ->
  slots !! (i + n)%nat = Some (FreeNode None) ->
  chain slots (Some (Z.of_nat i)) (seq i (S n)).
Proof.
  induction n as [|n IH]; intros i Hin Hlast.
  - cbn. split; [done|]. exists None. by rewrite Nat.add_0_r in Hlast.
  - change (seq i (S (S n))) with (i :: seq (S i) (S n)). cbn [chain]. split; [done|].
    exists (Some (Z.of_nat i + 1)). split; [apply Hin; lia|].
    replace (Z.of_nat i + 1) with (Z.of_nat (S i)) by lia. apply IH.
    + intros j Hj. apply Hin. lia.
    + by replace (S i + n)%nat with (i + S n)%nat by lia.
Qed.

Lemma link_pool_inv (Count : nat) slots :
  length slots = Count -> (0 < Count)%nat -> slots !! (Count - 1)%nat = Some (FreeNode None) ->
  exists slots', link_free_nodes (Count - 1) 0 slots = Ok slots' /\
    pool_inv (mkPool (Some 0) slots') (seq 0 Count) /\ length slots' = Count.
Proof.
  intros Hlen HC Hlast.
  destruct (link_free_nodes_spec (Count - 1) 0 slots) as (s' & E & Hlen' & Hin & Hout); [lia|].
  exists s'. split; [done|]. split; [|lia]. split; [apply NoDup_seq|]. cbn. split.
  - replace Count with (S (Count - 1)) at 1 by lia. apply (chain_seq s' (Count - 1) 0).
    + intros j Hj. apply Hin. lia.
    + cbn. rewrite Hout by lia. done.
  - intros i s Hi Hni. apply lookup_lt_Some in Hi. rewrite elem_of_seq in Hni. lia.
Qed.

Lemma PoolAllocate_empty (c : T) p : pool_inv p [] -> PoolAllocate c p = Ok (None, p).
Proof. intros (_ & Hc & _). cbn in Hc. unfold PoolAllocate. run_M. by rewrite Hc. Qed.

Lemma PoolAllocate_cons (c : T) p i l :
  pool_inv p (i :: l) ->
  exists p', PoolAllocate c p = Ok (Some (Z.of_nat i), p') /\ pool_inv p' l /\
    m_slots p' = <[i := Object c]> (m_slots p) /\ (i < length (m_slots p))%nat /\ object_at p i = None.
Proof.
  intros (Hnd & (Hh & next & Hi & Hc) & Ho). apply NoDup_cons in Hnd as [Hni Hnd].
  pose proof (lookup_lt_Some _ _ _ Hi) as Hlt.
  exists (mkPool next (<[i := Object c]> (m_slots p))). repeat split_and; try done.
  - unfold PoolAllocate. run_M. rewrite Hh. unfold free_next, mbind, res_bind.
    rewrite (arr_get_lookup _ _ _ Hi), arr_set_insert by done. done.
  - split; [done|]. split; [by apply chain_insert|]. cbn. intros j s Hj Hnj.
    destruct (decide (j = i)) as [->|Hne].
    + rewrite list_lookup_insert_eq in Hj by done. injection Hj as <-. by eexists.
    + rewrite list_lookup_insert_ne in Hj by done. apply (Ho j s Hj). set_solver.
  - unfold object_at. by rewrite Hi.
Qed.

Lemma PoolFree_spec p l i t :
  pool_inv p l -> object_at p i = Some t ->
  exists p', PoolFree (Z.of_nat i) p = Ok (tt, p') /\ pool_inv p' (i :: l) /\
    m_slots p' = <[i := FreeNode (m_free_list p)]> (m_slots p).
Proof.
  intros (Hnd & Hc & Ho) Hi. unfold object_at in Hi.
  destruct (m_slots p !! i) as [[next|t']|] eqn:E; try done. injection Hi as ->.
  pose proof (lookup_lt_Some _ _ _ E) as Hlt.
  assert (i ∉ l) as Hni.
  { intros Hi. destruct (chain_lookup _ _ _ _ Hc Hi) as [next Hn]. congruence. }
  exists (mkPool (Some (Z.of_nat i)) (<[i := FreeNode (m_free_list p)]> (m_slots p))).
  split; [|split; [|done]].
  - unfold PoolFree. run_M. by rewrite arr_set_insert.
  - split; [by apply NoDup_cons|]. cbn. split.
    + split; [done|]. exists (m_free_list p). rewrite list_lookup_insert_eq by done.
      split; [done|]. by apply chain_insert.
    + intros j s Hj Hnj. apply not_elem_of_cons in Hnj as [Hne Hnj].
      rewrite list_lookup_insert_ne in Hj by done. by apply (Ho j s).
Qed.
End pools.

(** * The interface of an allocator

    [oa_inv s l]: the slots of [l] are free, in the order in which they are handed out. *)
Class ObjectAllocator (S T : Type) : Type := {
  oa_construct : T;
  oa_allocate : M S (option Z);
  oa_free : Z -> M S unit;
  oa_inv : S -> list nat -> Prop;
  oa_object : S -> nat -> option T;
  oa_freeable : nat -> Prop;
  oa_allocate_empty : forall s, oa_inv s [] -> oa_allocate s = Ok (None, s);
  oa_allocate_cons : forall s i l, oa_inv s (i :: l) ->
    exists s', oa_allocate s = Ok (Some (Z.of_nat i), s') /\ oa_inv s' l /\
      oa_object s i = None /\ oa_object s' i = Some oa_construct /\
      forall j, j <> i -> oa_object s' j = oa_object s j;
  oa_free_spec : forall s l i t, oa_inv s l -> oa_object s i = Some t -> oa_freeable i ->
    exists s', oa_free (Z.of_nat i) s = Ok (tt, s') /\ oa_inv s' (i :: l) /\
      oa_object s' i = None /\ forall j, j <> i -> oa_object s' j = oa_object s j
}.

Section interface.
Context {S T : Type} `{!ObjectAllocator S T}.

(** [n] allocations in a row. *)
Fixpoint allocate_many (n : nat) : M S (list (option Z)) :=
  match n with
  | O => mret []
  | Datatypes.S n => a ← oa_allocate; l ← allocate_many n; mret (a :: l)
  end.

Lemma allocate_many_spec l : forall s, oa_inv s l ->
  exists s', allocate_many (length l + 1) s = Ok ((Some ∘ Z.of_nat <$> l) ++ [None], s') /\
    oa_inv s' [].
Proof.
  induction l as [|i l IH]; intros s Hs.
  - exists s. split; [|done]. cbn. by rewrite (M_bind_run _ _ _ _ _ (oa_allocate_empty s Hs)).
  - destruct (oa_allocate_cons s i l Hs) as (s1 & E & H1 & _).
    destruct (IH s1 H1) as (s2 & E2 & H2). exists s2. split; [|done].
    cbn [length Nat.add allocate_many]. rewrite (M_bind_run _ _ _ _ _ E).
    by rewrite (M_bind_run _ _ _ _ _ E2).
Qed.

(** The object freed last is the one handed out next, constructed anew. *)
Lemma free_allocate s l i t :
  oa_inv s l -> oa_object s i = Some t -> oa_freeable i ->
  exists s', (oa_free (Z.of_nat i);; oa_allocate) s = Ok (Some (Z.of_nat i), s') /\ oa_inv s' l /\
    oa_object s' i = Some oa_construct /\ forall j, j <> i -> oa_object s' j = oa_object s j.
Proof.
  intros Hs Hi Hf. destruct (oa_free_spec s l i t Hs Hi Hf) as (s1 & E1 & H1 & _ & F1).
  destruct (oa_allocate_cons s1 i l H1) as (s2 & E2 & H2 & _ & N2 & F2).
  exists s2. rewrite (M_bind_run _ _ _ _ _ E1). split; [done|]. split; [done|]. split; [done|].
  intros j Hj. by rewrite F2, F1.
Qed.
End interface.

Section instances.
Context {T : Type} (c : T) (Count : nat).

Lemma object_at_insert (p p' : Pool T) i s j :
  m_slots p' = <[i := s]> (m_slots p) -> (i < length (m_slots p))%nat ->
  object_at p' j = if decide (i = j) then match s with Object t => Some t | _ => None end else object_at p j.
Proof.
  intros E Hi. unfold object_at. rewrite E. case_decide as Hd.
  - subst j. by rewrite list_lookup_insert_eq.
  - by rewrite list_lookup_insert_ne.
Qed.

Lemma object_at_lt (p : Pool T) i t : object_at p i = Some t -> (i < length (m_slots p))%nat.
Proof.
  unfold object_at. destruct (m_slots p !! i) eqn:E; [|done]. intros _. by apply lookup_lt_Some in E.
Qed.

Lemma pool_allocate_law (p : Pool T) i l :
  pool_inv p (i :: l) ->
  exists p', PoolAllocate c p = Ok (Some (Z.of_nat i), p') /\ pool_inv p' l /\
    object_at p i = None /\ object_at p' i = Some c /\
    (forall j, j <> i -> object_at p' j = object_at p j) /\ length (m_slots p') = length (m_slots p).
Proof.
  intros Hp. destruct (PoolAllocate_cons c p i l Hp) as (p' & E & H' & Es & Hlt & Hn).
  exists p'. repeat split_and; [done..|by rewrite (object_at_insert p p' i _ i Es Hlt), decide_True| |].
  - intros j Hj. rewrite (object_at_insert p p' i _ j Es Hlt), decide_False by done. done.
  - by rewrite Es, length_insert.
Qed.

Lemma pool_free_law (p : Pool T) l i t :
  pool_inv p l -> object_at p i = Some t ->
  exists p', PoolFree (Z.of_nat i) p = Ok (tt, p') /\ pool_inv p' (i :: l) /\
    object_at p' i = None /\
    (forall j, j <> i -> object_at p' j = object_at p j) /\ length (m_slots p') = length (m_slots p).
Proof.
  intros Hp Hi. pose proof (object_at_lt p i t Hi) as Hlt.
  destruct (PoolFree_spec p l i t Hp Hi) as (p' & E & H' & Es).
  exists p'. repeat split_and; [done..|by rewrite (object_at_insert p p' i _ i Es Hlt), decide_True| |].
  - intros j Hj. rewrite (object_at_insert p p' i _ j Es Hlt), decide_False by done. done.
  - by rewrite Es, length_insert.
Qed.

(** The assertion of Free holds for all slots but the first. *)
Lemma FixedObjectAllocator_Free (p : Pool T) i t :
  object_at p i = Some t -> i <> 0%nat ->
  FixedObjectAllocator.Free (Z.of_nat i) p = PoolFree (Z.of_nat i) p.
Proof.
  intros Hi H0. pose proof (object_at_lt p i t Hi) as Hlt.
  unfold FixedObjectAllocator.Free. unfold mbind at 1, M_bind at 1. unfold gets.
  destruct (Z.ltb_spec 0 (Z.of_nat i)); [|lia].
  by destruct (Z.ltb_spec (Z.of_nat i) (Z.of_nat (length (m_slots p)))); [|lia].
Qed.

#[refine] Instance fixed_object_allocator : ObjectAllocator (Pool T) T := {|
  oa_construct := c;
  oa_allocate := FixedObjectAllocator.Allocate c;
  oa_free := FixedObjectAllocator.Free;
  oa_inv p l := pool_inv p l /\ length (m_slots p) = Count;
  oa_object := object_at;
  oa_freeable i := i <> 0%nat
|}.
Proof.
  - intros s [Hs _]. by apply PoolAllocate_empty.
  - intros s i l [Hs Hc]. destruct (pool_allocate_law s i l Hs) as (s' & ? & ? & ? & ? & ? & ?).
    exists s'. repeat split_and; done || congruence.
  - intros s l i t [Hs Hc] Hi Hf.
    destruct (pool_free_law s l i t Hs Hi) as (s' & E & ? & ? & ? & ?).
    exists s'. split; [|split; [split; [done|congruence]|done]].
    by rewrite (FixedObjectAllocator_Free s i t Hi Hf).
Defined.

#[refine] Instance heap_object_allocator : ObjectAllocator (Pool T) T := {|
  oa_construct := c;
  oa_allocate := HeapObjectAllocator.Allocate c;
  oa_free := HeapObjectAllocator.Free;
  oa_inv := pool_inv;
  oa_object := object_at;
  oa_freeable _ := True
|}.
Proof.
  - intros s Hs. by apply PoolAllocate_empty.
  - intros s i l Hs. destruct (pool_allocate_law s i l Hs) as (s' & ? & ? & ? & ? & ? & _).
    by exists s'.
  - intros s l i t Hs Hi _. destruct (pool_free_law s l i t Hs Hi) as (s' & ? & ? & ? & ? & _).
    by exists s'.
Defined.

Lemma FixedObjectAllocator_construct :
  (0 < Count)%nat ->
  exists p, FixedObjectAllocator.construct Count = Ok p /\
    pool_inv (T := T) p (seq 0 Count) /\ length (m_slots p) = Count.
Proof.
  intros HC. unfold FixedObjectAllocator.construct.
  destruct (link_pool_inv (T := T) Count (replicate Count (FreeNode None))) as (s' & E & H1 & H2).
  - apply length_replicate.
  - done.
  - apply lookup_replicate. split; [done|lia].
  - exists (mkPool (Some 0) s'). rewrite E. done.
Qed.
End instances.

(** * Properties *)
(** FixedObjectAllocator hands out its Count slots once each, in order, and then
    nullptr; the free list it constructs and every operation keep this invariant. *)
Theorem fixed_allocator_exhaustive {T} (c : T) (Count : nat) :
  (0 < Count)%nat ->
  exists p p', FixedObjectAllocator.construct Count = Ok p /\
    allocate_many (S := Pool T) (ObjectAllocator0 := fixed_object_allocator c Count) (Count + 1) p
      = Ok ((Some ∘ Z.of_nat <$> seq 0 Count) ++ [None], p') /\
    pool_inv p' [].
Proof.
  intros HC. destruct (FixedObjectAllocator_construct (T := T) Count HC) as (p & E & Hp & Hl).
  destruct (allocate_many_spec (ObjectAllocator0 := fixed_object_allocator c Count)
              (seq 0 Count) p (conj Hp Hl)) as (p' & E' & H' & _).
  rewrite length_seq in E'. by exists p, p'.
Qed.

Lemma fixed_allocator_exhaustive_witness :
  exists p p', FixedObjectAllocator.construct 3 = Ok p /\
    allocate_many (S := Pool bool) (ObjectAllocator0 := fixed_object_allocator true 3) 4 p
      = Ok ([Some 0; Some 1; Some 2; None], p') /\
    pool_inv p' [].
Proof. apply (fixed_allocator_exhaustive true 3). lia. Defined.

(** Freeing an object and allocating again gives the same slot with a newly
    constructed object and leaves all other objects alone, for every slot but the first:
    the assertion of Free (array < object) rejects the object in slot 0. *)
Theorem fixed_allocator_free {T} (c : T) (p : Pool T) l i t :
  pool_inv p l -> object_at p i = Some t ->
  (i <> 0%nat ->
   exists p', (FixedObjectAllocator.Free (Z.of_nat i);; FixedObjectAllocator.Allocate c) p
       = Ok (Some (Z.of_nat i), p') /\ pool_inv p' l /\
     object_at p' i = Some c /\ forall j, j <> i -> object_at p' j = object_at p j) /\
  (i = 0%nat -> FixedObjectAllocator.Free (Z.of_nat i) p = Fault AssertFailed).
Proof.
  intros Hp Hi. split.
  - intros H0. destruct (free_allocate (ObjectAllocator0 := fixed_object_allocator c (length (m_slots p)))
      p l i t (conj Hp eq_refl) Hi H0) as (p' & E & (H' & _) & N & F). by exists p'.
  - by intros ->.
Qed.

Lemma fixed_allocator_free_witness :
  exists p', (FixedObjectAllocator.Free 1;; FixedObjectAllocator.Allocate 7)
      (mkPool None [Object 5; Object 6]) = Ok (Some 1, p') /\ pool_inv p' [] /\
    object_at p' 1 = Some 7 /\ forall j, j <> 1%nat -> object_at p' j = object_at (mkPool None [Object 5; Object 6]) j.
Proof.
  refine (proj1 (fixed_allocator_free 7 (mkPool None [Object 5; Object 6]) [] 1 6 _ eq_refl) _).
  - split; [apply NoDup_nil_2|]. split; [done|]. cbn. intros [|[|i]] s; cbn; [| |done].
    + intros [= <-] _. by eexists.
    + intros [= <-] _. by eexists.
  - done.
Defined.

(** Allocating along a run of linked slots, whatever the last of them links to. *)
Lemma allocate_run {T} (c : T) n : forall i (p : Pool T) w,
  m_free_list p = Some (Z.of_nat i) ->
  (forall j, (i <= j < i + n)%nat -> m_slots p !! j = Some (FreeNode (Some (Z.of_nat j + 1)))) ->
  m_slots p !! (i + n)%nat = Some (FreeNode w) ->
  exists p', allocate_many (S := Pool T) (ObjectAllocator0 := heap_object_allocator c) (n + 1) p
      = Ok (Some ∘ Z.of_nat <$> seq i (n + 1), p') /\ m_free_list p' = w.
Proof.
  assert (forall i (p : Pool T) next, m_free_list p = Some (Z.of_nat i) ->
      m_slots p !! i = Some (FreeNode next) ->
      HeapObjectAllocator.Allocate c p
        = Ok (Some (Z.of_nat i), mkPool next (<[i := Object c]> (m_slots p)))) as step.
  { intros i p next Hf Hi. unfold HeapObjectAllocator.Allocate, PoolAllocate, free_next. run_M.
    unfold res_bind. rewrite Hf, (arr_get_lookup _ _ _ Hi).
    by rewrite arr_set_insert by (by eapply lookup_lt_Some). }
  induction n as [|n IH]; intros i p w Hf Hin Hlast.
  - rewrite Nat.add_0_r in Hlast. exists (mkPool w (<[i := Object c]> (m_slots p))).
    split; [|done]. cbn. by rewrite (M_bind_run _ _ _ _ _ (step i p w Hf Hlast)).
  - pose proof (step i p _ Hf (Hin i ltac:(lia))) as E.
    destruct (IH (S i) (mkPool (Some (Z.of_nat i + 1)) (<[i := Object c]> (m_slots p))) w) as (p' & E' & H').
    + cbn. f_equal. lia.
    + intros j Hj. cbn. rewrite list_lookup_insert_ne by lia. apply Hin. lia.
    + cbn. rewrite list_lookup_insert_ne by lia. by replace (S (i + n)) with (i + S n)%nat by lia.
    + exists p'. split; [|done]. cbn [Nat.add allocate_many seq]. rewrite (M_bind_run _ _ _ _ _ E).
      by rewrite (M_bind_run _ _ _ _ _ E').
Qed.

(** HeapObjectAllocator::Initialize never writes the [next] of the last node: after
    all objects are allocated the free list is what the memory of the last slot held, so
    the allocator runs out of objects only if that happened to be a null pointer. *)
Theorem heap_allocator_unterminated {T} (c : T) (raw : list (option Z)) last_word p0 :
  exists p p',
    HeapObjectAllocator.Initialize (T := T) (Some (raw ++ [last_word])) (Z.of_nat (length raw + 1)) p0
      = Ok (true, p) /\
    allocate_many (S := Pool T) (ObjectAllocator0 := heap_object_allocator c) (length raw + 1) p
      = Ok (Some ∘ Z.of_nat <$> seq 0 (length raw + 1), p') /\
    m_free_list p' = last_word.
Proof.
  set (slots := FreeNode (T := T) <$> raw ++ [last_word]).
  assert (length slots = (length raw + 1)%nat) as Hlen.
  { unfold slots. rewrite length_fmap, length_app. done. }
  destruct (link_free_nodes_spec (length raw) 0 slots) as (s' & E & Hl & Hin & Hout); [lia|].
  destruct (allocate_run c (length raw) 0 (mkPool (Some 0) s') last_word) as (p' & E' & H').
  - done.
  - exact Hin.
  - cbn. rewrite Hout by lia. unfold slots.
    by rewrite list_lookup_fmap, lookup_app_r, Nat.sub_diag by lia.
  - exists (mkPool (Some 0) s'), p'. split; [|done].
    unfold HeapObjectAllocator.Initialize. destruct (Z.eqb_spec (Z.of_nat (length raw + 1)) 0); [lia|].
    change (Z.of_nat 0) with 0 in E. rewrite Nat2Z.id, Nat.add_sub. fold slots. run_M. by rewrite E.
Qed.

(** PushPointer of a full array passes its assertion and writes past the array. *)
Lemma PushPointer_full {P} (a : PointerArray.t P) arr p :
  PointerArray.m_pointer_array a = Some arr ->
  PointerArray.m_max_pointers a = Z.of_nat (length arr) ->
  0 <= PointerArray.m_used_pointers a ->
  PointerArray.PushPointer p a =
    if PointerArray.m_used_pointers a <? PointerArray.m_max_pointers a
    then Ok (tt, PointerArray.mk (PointerArray.m_max_pointers a)
                   (u32 (PointerArray.m_used_pointers a + 1))
                   (Some (<[Z.to_nat (PointerArray.m_used_pointers a) := p]> arr)))
    else if PointerArray.m_used_pointers a =? PointerArray.m_max_pointers a
    then Fault OutOfBounds else Fault AssertFailed.
Proof.
  intros Ha Hm H0. unfold PointerArray.PushPointer. run_M.
  destruct (Z.leb_spec (PointerArray.m_used_pointers a) (PointerArray.m_max_pointers a)).
  - rewrite Ha. unfold arr_set. cbn -[Z.leb Z.ltb Z.eqb u32 Z.of_nat Z.to_nat Z.add].
    destruct (Z.ltb_spec (PointerArray.m_used_pointers a) 0); [lia|]. cbn [orb].
    destruct (Z.ltb_spec (PointerArray.m_used_pointers a) (PointerArray.m_max_pointers a));
      destruct (Z.leb_spec (Z.of_nat (length arr)) (PointerArray.m_used_pointers a)); try lia; [done|].
    destruct (Z.eqb_spec (PointerArray.m_used_pointers a) (PointerArray.m_max_pointers a)); [done|lia].
  - destruct (Z.ltb_spec (PointerArray.m_used_pointers a) (PointerArray.m_max_pointers a)); [lia|].
    destruct (Z.eqb_spec (PointerArray.m_used_pointers a) (PointerArray.m_max_pointers a)); [lia|done].
Qed.
