(* ===== verification/Fiber.v ===== *)
(** The state of the user-mode scheduler: ukern::FiberLocalStorage
    (ukern_fiberlocalstorage.h), the data of impl::UserScheduler (ukern_scheduler.hpp)
    and of the waitable objects (ukern_waitableobject.hpp), and access to it.

    A FiberLocalStorage pointer is the index of its slot in UserFiberLocalAllocator's
    static array, so a pointer kept beyond the life of its object still reads memory; a
    user address is a number, 0 being nullptr.  The links of all intrusive lists are one
    store over the nodes [NodeId].  What the code asks of Win32 is the log [win32_calls]. *)
From S2P Require Import Prelude IntrusiveList BusyMutex HandleTable Allocators.

Definition InvalidHandle : Z := 0xFFFFFFFF.
Definition MaxFiberNameLength : nat := 32.
Definition WindowsToUKernPriorityOffset : Z := 2.
Definition MaxCoreCount : nat := 32.
Definition MaxThreadCount : nat := 256.
Definition HasChildWaitersBit : Z := 0x40000000.

(** winbase.h *)
Definition THREAD_PRIORITY_LOWEST : Z := -2.
Definition THREAD_PRIORITY_BELOW_NORMAL : Z := -1.
Definition THREAD_PRIORITY_NORMAL : Z := 0.
Definition THREAD_PRIORITY_ABOVE_NORMAL : Z := 1.
Definition THREAD_PRIORITY_HIGHEST : Z := 2.

Inductive FiberState : Type :=
  | FiberState_Scheduled | FiberState_Running | FiberState_Exiting | FiberState_Waiting
  | FiberState_Suspended.

#[export] Instance FiberState_eq_dec : EqDecision FiberState.
Proof. solve_decision. Defined.

(** enum ActivityLevel : u16 *)
Definition ActivityLevel_Suspended : Z := 0.
Definition ActivityLevel_Schedulable : Z := 1.

(** The dynamic type of a waitable object; [DeadArbiter] is what the pointer designates
    after the function whose stack frame holds the object has returned. *)
Inductive Arbiter : Type :=
  | LockArbiter | KeyArbiter | WaitAddressArbiter | DeadArbiter.

Record FiberLocalStorage : Type := mkFLS {
  priority : Z;
  current_core : Z;
  core_mask : Z;
  stack_size : Z;
  user_arg : Z;
  user_function : Z;
  is_suspended : bool;
  ukern_fiber_handle : Z;
  win32_fiber_handle : bool;
  was_locked : Z;
  activity_level : Z;
  wait_tag : Z;
  lock_address : Z;
  wait_address : Z;
  waitable_object : option Arbiter;
  timeout : Z;
  last_result : Z;
  fiber_state : FiberState;
  fiber_name : Z;
  fiber_name_storage : string
}.

Definition set_priority (x : Z) (r : FiberLocalStorage) : FiberLocalStorage :=
  mkFLS x (current_core r) (core_mask r) (stack_size r) (user_arg r) (user_function r) (is_suspended r)
    (ukern_fiber_handle r) (win32_fiber_handle r) (was_locked r) (activity_level r) (wait_tag r)
    (lock_address r) (wait_address r) (waitable_object r) (timeout r) (last_result r) (fiber_state r)
    (fiber_name r) (fiber_name_storage r).
Definition set_current_core (x : Z) (r : FiberLocalStorage) : FiberLocalStorage :=
  mkFLS (priority r) x (core_mask r) (stack_size r) (user_arg r) (user_function r) (is_suspended r)
    (ukern_fiber_handle r) (win32_fiber_handle r) (was_locked r) (activity_level r) (wait_tag r)
    (lock_address r) (wait_address r) (waitable_object r) (timeout r) (last_result r) (fiber_state r)
    (fiber_name r) (fiber_name_storage r).
Definition set_core_mask (x : Z) (r : FiberLocalStorage) : FiberLocalStorage :=
  mkFLS (priority r) (current_core r) x (stack_size r) (user_arg r) (user_function r) (is_suspended r)
    (ukern_fiber_handle r) (win32_fiber_handle r) (was_locked r) (activity_level r) (wait_tag r)
    (lock_address r) (wait_address r) (waitable_object r) (timeout r) (last_result r) (fiber_state r)
    (fiber_name r) (fiber_name_storage r).
Definition set_stack_size (x : Z) (r : FiberLocalStorage) : FiberLocalStorage :=
  mkFLS (priority r) (current_core r) (core_mask r) x (user_arg r) (user_function r) (is_suspended r)
    (ukern_fiber_handle r) (win32_fiber_handle r) (was_locked r) (activity_level r) (wait_tag r)
    (lock_address r) (wait_address r) (waitable_object r) (timeout r) (last_result r) (fiber_state r)
    (fiber_name r) (fiber_name_storage r).
Definition set_user_arg (x : Z) (r : FiberLocalStorage) : FiberLocalStorage :=
  mkFLS (priority r) (current_core r) (core_mask r) (stack_size r) x (user_function r) (is_suspended r)
    (ukern_fiber_handle r) (win32_fiber_handle r) (was_locked r) (activity_level r) (wait_tag r)
    (lock_address r) (wait_address r) (waitable_object r) (timeout r) (last_result r) (fiber_state r)
    (fiber_name r) (fiber_name_storage r).
Definition set_user_function (x : Z) (r : FiberLocalStorage) : FiberLocalStorage :=
  mkFLS (priority r) (current_core r) (core_mask r) (stack_size r) (user_arg r) x (is_suspended r)
    (ukern_fiber_handle r) (win32_fiber_handle r) (was_locked r) (activity_level r) (wait_tag r)
    (lock_address r) (wait_address r) (waitable_object r) (timeout r) (last_result r) (fiber_state r)
    (fiber_name r) (fiber_name_storage r).
Definition set_is_suspended (x : bool) (r : FiberLocalStorage) : FiberLocalStorage :=
  mkFLS (priority r) (current_core r) (core_mask r) (stack_size r) (user_arg r) (user_function r) x
    (ukern_fiber_handle r) (win32_fiber_handle r) (was_locked r) (activity_level r) (wait_tag r)
    (lock_address r) (wait_address r) (waitable_object r) (timeout r) (last_result r) (fiber_state r)
    (fiber_name r) (fiber_name_storage r).
Definition set_ukern_fiber_handle (x : Z) (r : FiberLocalStorage) : FiberLocalStorage :=
  mkFLS (priority r) (current_core r) (core_mask r) (stack_size r) (user_arg r) (user_function r)
    (is_suspended r) x (win32_fiber_handle r) (was_locked r) (activity_level r) (wait_tag r)
    (lock_address r) (wait_address r) (waitable_object r) (timeout r) (last_result r) (fiber_state r)
    (fiber_name r) (fiber_name_storage r).
Definition set_win32_fiber_handle (x : bool) (r : FiberLocalStorage) : FiberLocalStorage :=
  mkFLS (priority r) (current_core r) (core_mask r) (stack_size r) (user_arg r) (user_function r)
    (is_suspended r) (ukern_fiber_handle r) x (was_locked r) (activity_level r) (wait_tag r)
    (lock_address r) (wait_address r) (waitable_object r) (timeout r) (last_result r) (fiber_state r)
    (fiber_name r) (fiber_name_storage r).
Definition set_was_locked (x : Z) (r : FiberLocalStorage) : FiberLocalStorage :=
  mkFLS (priority r) (current_core r) (core_mask r) (stack_size r) (user_arg r) (user_function r)
    (is_suspended r) (ukern_fiber_handle r) (win32_fiber_handle r) x (activity_level r) (wait_tag r)
    (lock_address r) (wait_address r) (waitable_object r) (timeout r) (last_result r) (fiber_state r)
    (fiber_name r) (fiber_name_storage r).
Definition set_activity_level (x : Z) (r : FiberLocalStorage) : FiberLocalStorage :=
  mkFLS (priority r) (current_core r) (core_mask r) (stack_size r) (user_arg r) (user_function r)
    (is_suspended r) (ukern_fiber_handle r) (win32_fiber_handle r) (was_locked r) x (wait_tag r)
    (lock_address r) (wait_address r) (waitable_object r) (timeout r) (last_result r) (fiber_state r)
    (fiber_name r) (fiber_name_storage r).
Definition set_wait_tag (x : Z) (r : FiberLocalStorage) : FiberLocalStorage :=
  mkFLS (priority r) (current_core r) (core_mask r) (stack_size r) (user_arg r) (user_function r)
    (is_suspended r) (ukern_fiber_handle r) (win32_fiber_handle r) (was_locked r) (activity_level r) x
    (lock_address r) (wait_address r) (waitable_object r) (timeout r) (last_result r) (fiber_state r)
    (fiber_name r) (fiber_name_storage r).
Definition set_lock_address (x : Z) (r : FiberLocalStorage) : FiberLocalStorage :=
  mkFLS (priority r) (current_core r) (core_mask r) (stack_size r) (user_arg r) (user_function r)
    (is_suspended r) (ukern_fiber_handle r) (win32_fiber_handle r) (was_locked r) (activity_level r)
    (wait_tag r) x (wait_address r) (waitable_object r) (timeout r) (last_result r) (fiber_state r)
    (fiber_name r) (fiber_name_storage r).
Definition set_wait_address (x : Z) (r : FiberLocalStorage) : FiberLocalStorage :=
  mkFLS (priority r) (current_core r) (core_mask r) (stack_size r) (user_arg r) (user_function r)
    (is_suspended r) (ukern_fiber_handle r) (win32_fiber_handle r) (was_locked r) (activity_level r)
    (wait_tag r) (lock_address r) x (waitable_object r) (timeout r) (last_result r) (fiber_state r)
    (fiber_name r) (fiber_name_storage r).
Definition set_waitable_object (x : option Arbiter) (r : FiberLocalStorage) : FiberLocalStorage :=
  mkFLS (priority r) (current_core r) (core_mask r) (stack_size r) (user_arg r) (user_function r)
    (is_suspended r) (ukern_fiber_handle r) (win32_fiber_handle r) (was_locked r) (activity_level r)
    (wait_tag r) (lock_address r) (wait_address r) x (timeout r) (last_result r) (fiber_state r)
    (fiber_name r) (fiber_name_storage r).
Definition set_timeout (x : Z) (r : FiberLocalStorage) : FiberLocalStorage :=
  mkFLS (priority r) (current_core r) (core_mask r) (stack_size r) (user_arg r) (user_function r)
    (is_suspended r) (ukern_fiber_handle r) (win32_fiber_handle r) (was_locked r) (activity_level r)
    (wait_tag r) (lock_address r) (wait_address r) (waitable_object r) x (last_result r) (fiber_state r)
    (fiber_name r) (fiber_name_storage r).
Definition set_last_result (x : Z) (r : FiberLocalStorage) : FiberLocalStorage :=
  mkFLS (priority r) (current_core r) (core_mask r) (stack_size r) (user_arg r) (user_function r)
    (is_suspended r) (ukern_fiber_handle r) (win32_fiber_handle r) (was_locked r) (activity_level r)
    (wait_tag r) (lock_address r) (wait_address r) (waitable_object r) (timeout r) x (fiber_state r)
    (fiber_name r) (fiber_name_storage r).
Definition set_fiber_state (x : FiberState) (r : FiberLocalStorage) : FiberLocalStorage :=
  mkFLS (priority r) (current_core r) (core_mask r) (stack_size r) (user_arg r) (user_function r)
    (is_suspended r) (ukern_fiber_handle r) (win32_fiber_handle r) (was_locked r) (activity_level r)
    (wait_tag r) (lock_address r) (wait_address r) (waitable_object r) (timeout r) (last_result r) x
    (fiber_name r) (fiber_name_storage r).
Definition set_fiber_name (x : Z) (r : FiberLocalStorage) : FiberLocalStorage :=
  mkFLS (priority r) (current_core r) (core_mask r) (stack_size r) (user_arg r) (user_function r)
    (is_suspended r) (ukern_fiber_handle r) (win32_fiber_handle r) (was_locked r) (activity_level r)
    (wait_tag r) (lock_address r) (wait_address r) (waitable_object r) (timeout r) (last_result r)
    (fiber_state r) x (fiber_name_storage r).
Definition set_fiber_name_storage (x : string) (r : FiberLocalStorage) : FiberLocalStorage :=
  mkFLS (priority r) (current_core r) (core_mask r) (stack_size r) (user_arg r) (user_function r)
    (is_suspended r) (ukern_fiber_handle r) (win32_fiber_handle r) (was_locked r) (activity_level r)
    (wait_tag r) (lock_address r) (wait_address r) (waitable_object r) (timeout r) (last_result r)
    (fiber_state r) (fiber_name r) x.

(** The members of a slot of the static array before any use. *)
Definition zero_storage : FiberLocalStorage :=
  mkFLS 0 0 0 0 0 0 false 0 false 0 0 0 0 0 None 0 0 FiberState_Scheduled 0 EmptyString.

Inductive RunList : Type := High | AboveNormal | Normal | BelowNormal | Low.

(** The intrusive list nodes: a fiber's scheduler_list_node and wait_list_node, the head
    in its wait_list, and the heads of the scheduler's lists. *)
Inductive NodeId : Type :=
  | SchedNode (f : Z) | WaitNode (f : Z) | WaitHead (f : Z)
  | RunHead (p : RunList) | SuspendHead | WaitListHead.

#[export] Instance RunList_eq_dec : EqDecision RunList.
Proof. solve_decision. Defined.
#[export] Instance NodeId_eq_dec : EqDecision NodeId.
Proof. solve_decision. Defined.

Definition NodeId_encode (n : NodeId) : Z * Z :=
  match n with
  | SchedNode f => (0, f) | WaitNode f => (1, f) | WaitHead f => (2, f)
  | RunHead High => (3, 0) | RunHead AboveNormal => (3, 1) | RunHead Normal => (3, 2)
  | RunHead BelowNormal => (3, 3) | RunHead Low => (3, 4)
  | SuspendHead => (4, 0) | WaitListHead => (5, 0)
  end.
Definition NodeId_decode (c : Z * Z) : NodeId :=
  match c with
  | (0, f) => SchedNode f | (1, f) => WaitNode f | (2, f) => WaitHead f
  | (3, 0) => RunHead High | (3, 1) => RunHead AboveNormal | (3, 2) => RunHead Normal
  | (3, 3) => RunHead BelowNormal | (3, _) => RunHead Low
  | (4, _) => SuspendHead | _ => WaitListHead
  end.
#[export] Instance NodeId_countable : Countable NodeId.
Proof. apply (inj_countable' NodeId_encode NodeId_decode). by intros [| | |[]| |]. Defined.

(** The Win32 calls that the scheduler makes, in the order in which it makes them. *)
Inductive Win32Call : Type :=
  | WakeByAddressSingle          (* of m_runnable_fibers *)
  | ConvertThreadToFiber (core : Z)
  | CreateUserFiber (fiber : Z)
  | CreateMainSchedulerFiber
  | DeleteFiber (fiber : Z)
  | CreateSchedulerThread (core : Z)
  | SetThreadAffinityMask (core mask : Z)
  | ResumeSchedulerThread (core : Z)
  | SuspendSchedulerThread (core : Z).

Record UserScheduler : Type := mkScheduler {
  UserFiberLocalAllocator : Pool unit;
  fiber_storage : gmap Z FiberLocalStorage;
  links : gmap NodeId (IntrusiveListNode NodeId);
  user_memory : gmap Z Z;
  m_scheduler_lock : bool;
  m_scheduler_thread_table : list bool;
  m_scheduler_fiber_table : list bool;
  m_core_mask : Z;
  m_core_count : Z;
  m_active_cores : Z;
  m_runnable_fibers : Z;
  m_handle_table : HandleTable Z;
  win32_calls : list Win32Call
}.

Definition set_UserFiberLocalAllocator (x : Pool unit) (r : UserScheduler) : UserScheduler :=
  mkScheduler x (fiber_storage r) (links r) (user_memory r) (m_scheduler_lock r)
    (m_scheduler_thread_table r) (m_scheduler_fiber_table r) (m_core_mask r) (m_core_count r)
    (m_active_cores r) (m_runnable_fibers r) (m_handle_table r) (win32_calls r).
Definition set_fiber_storage (x : gmap Z FiberLocalStorage) (r : UserScheduler) : UserScheduler :=
  mkScheduler (UserFiberLocalAllocator r) x (links r) (user_memory r) (m_scheduler_lock r)
    (m_scheduler_thread_table r) (m_scheduler_fiber_table r) (m_core_mask r) (m_core_count r)
    (m_active_cores r) (m_runnable_fibers r) (m_handle_table r) (win32_calls r).
Definition set_links (x : gmap NodeId (IntrusiveListNode NodeId)) (r : UserScheduler) : UserScheduler :=
  mkScheduler (UserFiberLocalAllocator r) (fiber_storage r) x (user_memory r) (m_scheduler_lock r)
    (m_scheduler_thread_table r) (m_scheduler_fiber_table r) (m_core_mask r) (m_core_count r)
    (m_active_cores r) (m_runnable_fibers r) (m_handle_table r) (win32_calls r).
Definition set_user_memory (x : gmap Z Z) (r : UserScheduler) : UserScheduler :=
  mkScheduler (UserFiberLocalAllocator r) (fiber_storage r) (links r) x (m_scheduler_lock r)
    (m_scheduler_thread_table r) (m_scheduler_fiber_table r) (m_core_mask r) (m_core_count r)
    (m_active_cores r) (m_runnable_fibers r) (m_handle_table r) (win32_calls r).
Definition set_m_scheduler_lock (x : bool) (r : UserScheduler) : UserScheduler :=
  mkScheduler (UserFiberLocalAllocator r) (fiber_storage r) (links r) (user_memory r) x
    (m_scheduler_thread_table r) (m_scheduler_fiber_table r) (m_core_mask r) (m_core_count r)
    (m_active_cores r) (m_runnable_fibers r) (m_handle_table r) (win32_calls r).
Definition set_m_scheduler_thread_table (x : list bool) (r : UserScheduler) : UserScheduler :=
  mkScheduler (UserFiberLocalAllocator r) (fiber_storage r) (links r) (user_memory r) (m_scheduler_lock r) x
    (m_scheduler_fiber_table r) (m_core_mask r) (m_core_count r) (m_active_cores r) (m_runnable_fibers r)
    (m_handle_table r) (win32_calls r).
Definition set_m_scheduler_fiber_table (x : list bool) (r : UserScheduler) : UserScheduler :=
  mkScheduler (UserFiberLocalAllocator r) (fiber_storage r) (links r) (user_memory r) (m_scheduler_lock r)
    (m_scheduler_thread_table r) x (m_core_mask r) (m_core_count r) (m_active_cores r) (m_runnable_fibers r)
    (m_handle_table r) (win32_calls r).
Definition set_m_core_mask (x : Z) (r : UserScheduler) : UserScheduler :=
  mkScheduler (UserFiberLocalAllocator r) (fiber_storage r) (links r) (user_memory r) (m_scheduler_lock r)
    (m_scheduler_thread_table r) (m_scheduler_fiber_table r) x (m_core_count r) (m_active_cores r)
    (m_runnable_fibers r) (m_handle_table r) (win32_calls r).
Definition set_m_core_count (x : Z) (r : UserScheduler) : UserScheduler :=
  mkScheduler (UserFiberLocalAllocator r) (fiber_storage r) (links r) (user_memory r) (m_scheduler_lock r)
    (m_scheduler_thread_table r) (m_scheduler_fiber_table r) (m_core_mask r) x (m_active_cores r)
    (m_runnable_fibers r) (m_handle_table r) (win32_calls r).
Definition set_m_active_cores (x : Z) (r : UserScheduler) : UserScheduler :=
  mkScheduler (UserFiberLocalAllocator r) (fiber_storage r) (links r) (user_memory r) (m_scheduler_lock r)
    (m_scheduler_thread_table r) (m_scheduler_fiber_table r) (m_core_mask r) (m_core_count r) x
    (m_runnable_fibers r) (m_handle_table r) (win32_calls r).
Definition set_m_runnable_fibers (x : Z) (r : UserScheduler) : UserScheduler :=
  mkScheduler (UserFiberLocalAllocator r) (fiber_storage r) (links r) (user_memory r) (m_scheduler_lock r)
    (m_scheduler_thread_table r) (m_scheduler_fiber_table r) (m_core_mask r) (m_core_count r)
    (m_active_cores r) x (m_handle_table r) (win32_calls r).
Definition set_m_handle_table (x : HandleTable Z) (r : UserScheduler) : UserScheduler :=
  mkScheduler (UserFiberLocalAllocator r) (fiber_storage r) (links r) (user_memory r) (m_scheduler_lock r)
    (m_scheduler_thread_table r) (m_scheduler_fiber_table r) (m_core_mask r) (m_core_count r)
    (m_active_cores r) (m_runnable_fibers r) x (win32_calls r).
Definition set_win32_calls (x : list Win32Call) (r : UserScheduler) : UserScheduler :=
  mkScheduler (UserFiberLocalAllocator r) (fiber_storage r) (links r) (user_memory r) (m_scheduler_lock r)
    (m_scheduler_thread_table r) (m_scheduler_fiber_table r) (m_core_mask r) (m_core_count r)
    (m_active_cores r) (m_runnable_fibers r) (m_handle_table r) x.

(** The scheduler instance before InitializeUKern(); [slots] is UserFiberLocalAllocator. *)
Definition SchedulerInstance (slots : Pool unit) (memory : gmap Z Z) : UserScheduler :=
  mkScheduler slots ∅ ∅ memory false (replicate MaxCoreCount false) (replicate MaxCoreCount false)
    0 0 0 0 HandleTable.construct [].

#[export] Instance scheduler_has_nodes : HasNodes NodeId UserScheduler.
Proof.
  refine {| nodes := links; set_nodes := set_links |}; [done..|]. by intros [].
Defined.

(** * Access *)
Definition storage (s : UserScheduler) (f : Z) : FiberLocalStorage :=
  default zero_storage (fiber_storage s !! f).

(** A member of a fiber, read and written through its pointer. *)
Definition member {A} (m : FiberLocalStorage -> A) (f : Z) : M UserScheduler A :=
  gets (fun s => m (storage s f)).
Definition update (u : FiberLocalStorage -> FiberLocalStorage) (f : Z) : M UserScheduler unit :=
  modify (fun s => set_fiber_storage (<[f := u (storage s f)]> (fiber_storage s)) s).

(** The u32 at a user address. *)
Definition load (address : Z) : M UserScheduler Z :=
  if address =? 0 then throw NullDeref
  else memory ← gets user_memory;
    match memory !! address with Some v => mret v | None => throw BadPointer end.
Definition store (address value : Z) : M UserScheduler unit :=
  load address;;
  modify (fun s => set_user_memory (<[address := value]> (user_memory s)) s).

Definition win32 (call : Win32Call) : M UserScheduler unit :=
  modify (fun s => set_win32_calls (win32_calls s ++ [call]) s).

(** A handle table operation on m_handle_table. *)
Definition with_handle_table {A} (op : M (HandleTable Z) A) : M UserScheduler A := fun s =>
  match op (m_handle_table s) with
  | Ok (a, ht) => Ok (a, set_m_handle_table ht s)
  | Fault f => Fault f
  end.
Definition with_allocator {A} (op : M (Pool unit) A) : M UserScheduler A := fun s =>
  match op (UserFiberLocalAllocator s) with
  | Ok (a, p) => Ok (a, set_UserFiberLocalAllocator p s)
  | Fault f => Fault f
  end.

Definition AcquireSRWLockExclusive : M UserScheduler unit :=
  held ← gets m_scheduler_lock;
  if (held : bool) then throw Blocked else modify (set_m_scheduler_lock true).
Definition ReleaseSRWLockExclusive : M UserScheduler unit := modify (set_m_scheduler_lock false).

(** IntrusiveListTraits::GetParentReference for the two kinds of lists: the parent of a
    list head is no FiberLocalStorage. *)
Definition sched_parent (n : NodeId) : M UserScheduler Z :=
  match n with SchedNode f => mret f | _ => throw BadContainer end.
Definition wait_parent (n : NodeId) : M UserScheduler Z :=
  match n with WaitNode f => mret f | _ => throw BadContainer end.

(** The fuel of every loop over a list: more than MaxThreadCount fibers and a head. *)
Definition list_fuel : nat := 300.

(** The loops over lists of fibers, by scheduler_list_node and by wait_list_node. *)
Definition for_sched {R} (head : NodeId) (body : Z -> M UserScheduler (option R)) : M UserScheduler (option R) :=
  for_each list_fuel head (fun n => f ← sched_parent n; body f).
Definition for_wait {R} (f : Z) (body : Z -> M UserScheduler (option R)) : M UserScheduler (option R) :=
  for_each list_fuel (WaitHead f) (fun n => f ← wait_parent n; body f).

(** wait_list.IsEmpty() and wait_list.PopFront() *)
Definition wait_list_IsEmpty (f : Z) : M UserScheduler bool := gets (fun s => IsEmpty (links s) (WaitHead f)).
Definition wait_list_PopFront (f : Z) : M UserScheduler Z :=
  n ← gets (fun s => Front (links s) (WaitHead f));
  modify_nodes (fun m => (PopFront (WaitHead f) m).2);;
  wait_parent n.

(** Loops that keep local variables [L]; the body answers their new value and whether it
    leaves the loop.  The body gets the node: a body that looks at a local variable first has
    not touched the parent of a list head yet. *)
#[export] Instance local_has_nodes L : HasNodes NodeId (UserScheduler * L).
Proof.
  refine {| nodes := fun sl => links sl.1; set_nodes := fun m sl => (set_links m sl.1, sl.2) |}; [done..|].
  by intros [[] ?].
Defined.

Definition with_local {L} (body : L -> M UserScheduler (L * bool)) : M (UserScheduler * L) (option unit) :=
  fun '(s, l) =>
    match body l s with
    | Ok ((l, leave), s) => Ok (if (leave : bool) then Some tt else None, (s, l))
    | Fault f => Fault f
    end.
Definition for_local {L} (head : NodeId) (body : NodeId -> L -> M UserScheduler (L * bool)) (l : L)
    : M UserScheduler L := fun s =>
  match for_each list_fuel head (fun n => with_local (body n)) (s, l) with
  | Ok (_, (s, l)) => Ok (l, s)
  | Fault f => Fault f
  end.

Lemma local_nodes {L} (s : UserScheduler) (l : L) : nodes (s, l) = nodes s.
Proof. reflexivity. Qed.
