(* ===== verification/Scheduler.v ===== *)
(** impl::UserScheduler, FiberLocalStorage's functions and the waitable objects
    (ukern_scheduler.hpp, ukern_scheduler.cpp, ukern_fiberlocalstorage.cpp,
    ukern_waitableobject.hpp): definitions.

    SwitchToFiber leaves a function in the middle, so a function that switches is two
    definitions: the code before the switch, which answers [Switched], and the code that
    runs when the fiber is switched to again, [..._resume].  [cur] is GetFiberData(). *)
From Stdlib Require Import Ascii.
From S2P Require Import Prelude Result TimeSpan IntrusiveList BusyMutex HandleTable Allocators Fiber.

(** A call under a ScopedSchedulerLock, whose destructor runs on every return. *)
Definition scheduler_locked {A} (body : M UserScheduler A) : M UserScheduler A :=
  AcquireSRWLockExclusive;; r ← body; ReleaseSRWLockExclusive;; mret r.

(** The outcome of the first half of a function that may switch to the scheduler:
    returned, or switched with the value of its local variable [result]. *)
Inductive Outcome : Type := Returned (r : Z) | Switched (result : Z).

(** The same for a function that switches with the lock held. *)
Definition scheduler_locked_switch (body : M UserScheduler Outcome) : M UserScheduler Outcome :=
  AcquireSRWLockExclusive;; r ← body;
  match r with Returned _ => ReleaseSRWLockExclusive;; mret r | Switched _ => mret r end.

(** [1 << core], an s32, in a test against a 64-bit mask. *)
Definition core_bit (core : Z) : res Z :=
  if (0 <=? core) && (core <? 32) then Ok (u64 (s32 (Z.shiftl 1 core))) else Fault BadShift.

(** * Lists of the scheduler *)
Definition AddToSchedulerUnsafe (f : Z) : M UserScheduler unit :=
  activity ← member activity_level f;
  if activity =? ActivityLevel_Suspended then
    update (set_fiber_state FiberState_Suspended) f;;
    modify_nodes (PushBack SuspendHead (SchedNode f))
  else
    p ← member priority f;
    (if p =? THREAD_PRIORITY_NORMAL + WindowsToUKernPriorityOffset
     then modify_nodes (PushBack (RunHead Normal) (SchedNode f))
     else if p =? THREAD_PRIORITY_ABOVE_NORMAL + WindowsToUKernPriorityOffset
     then modify_nodes (PushBack (RunHead AboveNormal) (SchedNode f))
     else if p =? THREAD_PRIORITY_BELOW_NORMAL + WindowsToUKernPriorityOffset
     then modify_nodes (PushBack (RunHead BelowNormal) (SchedNode f))
     else if p =? THREAD_PRIORITY_HIGHEST + WindowsToUKernPriorityOffset
     then modify_nodes (PushBack (RunHead High) (SchedNode f))
     else if p =? THREAD_PRIORITY_LOWEST + WindowsToUKernPriorityOffset
     then modify_nodes (PushBack (RunHead Low) (SchedNode f))
     else mret tt);;
    update (set_fiber_state FiberState_Scheduled) f;;
    modify (fun s => set_m_runnable_fibers (u32 (m_runnable_fibers s + 1)) s);;
    win32 WakeByAddressSingle.

(** * Waitable objects *)
Definition EndFiberWaitImpl (wait_fiber wait_result : Z) : M UserScheduler unit :=
  modify_nodes (Unlink (SchedNode wait_fiber));;
  update (set_fiber_state FiberState_Scheduled) wait_fiber;;
  update (set_last_result wait_result) wait_fiber;;
  AddToSchedulerUnsafe wait_fiber.

(** The virtual call waitable_object->EndWait(wait_fiber, wait_result). *)
Definition EndWait (object : option Arbiter) (wait_fiber wait_result : Z) : M UserScheduler unit :=
  arbiter ← deref object;
  match arbiter with
  | LockArbiter | KeyArbiter | WaitAddressArbiter => EndFiberWaitImpl wait_fiber wait_result
  | DeadArbiter => throw BadPointer
  end.

Definition GetFiberByHandle (handle : Z) : M UserScheduler (option Z) :=
  with_handle_table (GetObjectByHandle handle).

(** The loop that moves the wait list of one fiber to another, used by
    ReleaseLockWaitListUnsafe, KeyArbiter::CancelWait, SignalKeyImpl and the wakes. *)
Definition transfer_wait_list (from to : Z) : M UserScheduler unit :=
  TransferList list_fuel (WaitHead from) (WaitHead to);; mret tt.

Definition ReleaseLockWaitListUnsafe (this : Z) : M UserScheduler unit :=
  empty ← wait_list_IsEmpty this;
  dd_assert (negb empty);;
  next_owner ← wait_list_PopFront this;
  empty ← wait_list_IsEmpty this;
  tag ← member wait_tag next_owner;
  address ← member lock_address next_owner;
  store address (if (empty : bool) then tag else Z.lor tag HasChildWaitersBit);;
  update (set_lock_address 0) next_owner;;
  update (set_wait_tag 0) next_owner;;
  transfer_wait_list this next_owner;;
  object ← member waitable_object next_owner;
  EndWait object next_owner ResultSuccess;;
  update (set_waitable_object None) next_owner.

Definition LockArbiter_CancelWait (wait_fiber : Z) : M UserScheduler unit :=
  dd_assert false;;
  ReleaseLockWaitListUnsafe wait_fiber.

Definition KeyArbiter_CancelWait (wait_fiber wait_result : Z) : M UserScheduler unit :=
  empty ← wait_list_IsEmpty wait_fiber;
  linked ← gets (fun s => IsLinked (links s) (WaitNode wait_fiber));
  if (empty : bool) && negb linked then EndFiberWaitImpl wait_fiber wait_result
  else
    (if negb empty then
       next_cv_parent ← wait_list_PopFront wait_fiber;
       transfer_wait_list wait_fiber next_cv_parent
     else modify_nodes (Unlink (WaitNode wait_fiber)));;
    address ← member lock_address wait_fiber;
    prev_tag ← load address;
    tag ← member wait_tag wait_fiber;
    store address (if negb (prev_tag =? 0) then Z.lor tag HasChildWaitersBit else tag);;
    if negb (prev_tag =? 0) then
      object ← GetFiberByHandle (Z.land prev_tag (u32 (Z.lnot HasChildWaitersBit)));
      lock_fiber ← deref object;
      modify_nodes (PushBack (WaitHead lock_fiber) (WaitNode wait_fiber));;
      modify_nodes (Unlink (SchedNode lock_fiber));;
      modify_nodes (PushBack SuspendHead (SchedNode lock_fiber))
    else EndFiberWaitImpl wait_fiber wait_result.

Definition CancelWait (object : option Arbiter) (wait_fiber wait_result : Z) : M UserScheduler unit :=
  arbiter ← deref object;
  match arbiter with
  | LockArbiter => LockArbiter_CancelWait wait_fiber
  | KeyArbiter => KeyArbiter_CancelWait wait_fiber wait_result
  | WaitAddressArbiter => EndFiberWaitImpl wait_fiber wait_result
  | DeadArbiter => throw BadPointer
  end.

Definition IsSchedulable (this core_number time : Z) : M UserScheduler bool :=
  state ← member fiber_state this;
  if negb (bool_decide (state = FiberState_Scheduled)) then mret false
  else
    bit ← lift (core_bit core_number);
    mask ← member core_mask this;
    if Z.land mask bit =? 0 then mret false
    else
      object ← member waitable_object this;
      t ← member timeout this;
      if bool_decide (is_Some object) && (t <? time) then
        CancelWait object this ukern.ResultTimeout;; mret true
      else mret (t <? time).

(** * The scheduler's main loop *)
(** Dispatch() up to SwitchToFiber. *)
Definition Dispatch (fiber_local core_number : Z) : M UserScheduler unit :=
  update (set_fiber_state FiberState_Running) fiber_local;;
  update (set_current_core core_number) fiber_local;;
  core_count ← gets m_core_count;
  dd_assert (core_number <? core_count);;
  modify_nodes (Unlink (SchedNode fiber_local)).

(** The rest of Dispatch(), when the scheduler fiber is switched to. *)
Definition Dispatch_resume (fiber_local core_number : Z) : M UserScheduler unit :=
  core ← member current_core fiber_local;
  dd_assert (core_number =? core);;
  state ← member fiber_state fiber_local;
  match state with
  | FiberState_Running => AddToSchedulerUnsafe fiber_local
  | FiberState_Exiting =>
      win32 (DeleteFiber fiber_local);;
      with_allocator (FixedObjectAllocator.Free fiber_local)
  | FiberState_Waiting => mret tt
  | _ => dd_assert false
  end.

(** One of the loops that run the first schedulable fiber of a list. *)
Definition run_list (core_number tick : Z) (list : RunList) : M UserScheduler (option Z) :=
  for_sched (RunHead list) (fun runnable_fiber =>
    b ← IsSchedulable runnable_fiber core_number tick;
    if (b : bool) then Dispatch runnable_fiber core_number;; mret (Some runnable_fiber) else mret None).

Fixpoint run_lists (core_number tick : Z) (lists : list RunList) : M UserScheduler (option Z) :=
  match lists with
  | [] => mret None
  | l :: lists =>
      r ← run_list core_number tick l;
      match r with Some f => mret (Some f) | None => run_lists core_number tick lists end
  end.

Definition visit_wait_list (core_number tick : Z) : M UserScheduler (option unit) :=
  for_sched WaitListHead (fun waiting_fiber =>
    b ← IsSchedulable waiting_fiber core_number tick;
    if negb b then mret None
    else
      object ← member waitable_object waiting_fiber;
      CancelWait object waiting_fiber ukern.ResultTimeout;;
      mret None).

(** From the restart label to a dispatched fiber ([Some f]) or to the idle part. *)
Definition SchedulerFiberMain_pass (core_number tick : Z) : M UserScheduler (option Z) :=
  visit_wait_list core_number tick;;
  run_lists core_number tick [High; AboveNormal; Normal; BelowNormal; Low].

(** A loop that lowers timeout_tick to the earliest timeout of a list. *)
Definition earliest (core_number : Z) (head : NodeId) (timeout_tick : Z) : M UserScheduler Z :=
  for_local head (fun n timeout_tick =>
    fiber ← sched_parent n;
    bit ← lift (core_bit core_number);
    mask ← member core_mask fiber;
    t ← member timeout fiber;
    mret (if negb (Z.land mask bit =? 0) && (t <? timeout_tick) then t else timeout_tick, false))
    timeout_tick.

(** What a core does with a pass that finds no fiber to run. *)
Inductive Idle : Type :=
  | RestartNow                    (* no time left: the loop is left with the lock held *)
  | RestOnAddress (time_left : Z). (* WaitOnAddress of m_runnable_fibers, lock released *)

(** From the idle part's [do] to WaitOnAddress; [now] is read by GetTimeLeftOnTarget. *)
Definition SchedulerFiberMain_rest (ts : TimeStamp) (now core_number : Z) : M UserScheduler Idle :=
  t ← earliest core_number WaitListHead 0xffffffffffffffff;
  t ← earliest core_number (RunHead High) t;
  t ← earliest core_number (RunHead AboveNormal) t;
  t ← earliest core_number (RunHead Normal) t;
  t ← earliest core_number (RunHead BelowNormal) t;
  timeout_tick ← earliest core_number (RunHead Low) t;
  ReleaseSRWLockExclusive;;
  span ← lift (GetTimeLeftOnTarget ts now (s64 timeout_tick));
  let time_left := u32 (GetMilliSeconds span) in
  if time_left =? 0 then AcquireSRWLockExclusive;; mret RestartNow
  else mret (RestOnAddress time_left).

Definition SchedulerFiberMain_idle (ts : TimeStamp) (now core_number : Z) : M UserScheduler Idle :=
  modify (fun s => set_m_active_cores (u32 (m_active_cores s - 1)) s);;
  s ← get;
  (if (m_runnable_fibers s =? 0) && (m_active_cores s =? 0) then dd_assert false
   else if m_active_cores s =? 0 then win32 WakeByAddressSingle else mret tt);;
  SchedulerFiberMain_rest ts now core_number.

(** After WaitOnAddress: the loop's end; [true] is the goto to the restart label. *)
Definition SchedulerFiberMain_wake : M UserScheduler bool :=
  AcquireSRWLockExclusive;;
  n ← gets m_runnable_fibers;
  if n =? 0 then mret false
  else modify (fun s => set_m_active_cores (u32 (m_active_cores s + 1)) s);; mret true.

(** The [break] of the idle loop and the restart. *)
Definition SchedulerFiberMain_restart : M UserScheduler unit :=
  modify (fun s => set_m_active_cores (u32 (m_active_cores s + 1)) s).

(** InternalSchedulerFiberMain up to the main loop. *)
Definition InternalSchedulerFiberMain (core_number : Z) : M UserScheduler unit :=
  win32 (ConvertThreadToFiber core_number);;
  table ← gets m_scheduler_fiber_table;
  table ← lift (arr_set table core_number true);
  modify (set_m_scheduler_fiber_table table);;
  AcquireSRWLockExclusive.

(** InternalSchedulerMainThreadFiberMain up to the main loop: entered with the first
    switch of the main thread's fiber, which holds the lock. *)
Definition InternalSchedulerMainThreadFiberMain (main_fiber : Z) : M UserScheduler unit :=
  AddToSchedulerUnsafe main_fiber.

(** UserFiberMain before and after the user function. *)
Definition UserFiberMain_enter (fiber_local : Z) : M UserScheduler (Z * Z) :=
  ReleaseSRWLockExclusive;;
  function ← member user_function fiber_local;
  arg ← member user_arg fiber_local;
  if function =? 0 then throw NullDeref else mret (function, arg).

Definition GetSchedulerFiber (fiber_local : Z) : M UserScheduler bool :=
  core_count ← gets m_core_count;
  core ← member current_core fiber_local;
  dd_assert (core <? core_count);;
  table ← gets m_scheduler_fiber_table;
  lift (arr_get table core).

(** SwitchToFiber(GetSchedulerFiber(fiber_local)): a null fiber faults. *)
Definition SwitchToScheduler (fiber_local : Z) : M UserScheduler unit :=
  fiber ← GetSchedulerFiber fiber_local;
  if (fiber : bool) then mret tt else throw NullDeref.

Definition ExitFiberImpl (cur : Z) : M UserScheduler unit :=
  AcquireSRWLockExclusive;;
  update (set_fiber_state FiberState_Exiting) cur;;
  SwitchToScheduler cur.

(** * Initialisation *)
Fixpoint popcount (bits : nat) (x : Z) : Z :=
  match bits with
  | O => 0
  | S bits => Z.land x 1 + popcount bits (Z.shiftr x 1)
  end.
Definition CountOneBits32 (value : Z) : Z := popcount 32 value.
Definition CountOneBits64 (value : Z) : Z := popcount 64 value.

(** "%08x" of a size_t argument: its low 32 bits. *)
Definition hex_digit (d : Z) : ascii :=
  ascii_of_nat (Z.to_nat (if d <? 10 then 48 + d else 87 + d)).
Fixpoint hex_digits (n : nat) (x : Z) : string :=
  match n with
  | O => EmptyString
  | S n => String (hex_digit (Z.land (Z.shiftr x (4 * Z.of_nat n)) 15)) (hex_digits n x)
  end.

(** strncpy into the storage, whose bytes after a shorter name are zero. *)
Definition strncpy (source : string) (n : nat) : string := String.substring 0 n source.

Definition SetInitialFiberNameUnsafe (f : Z) : M UserScheduler unit :=
  function ← member user_function f;
  update (set_fiber_name_storage
    (if function =? 0 then strncpy "MainThread" MaxFiberNameLength
     else String.append "Thread0x" (hex_digits 8 (u32 function)))) f.

(** The scheduler threads of the cores 1 .. core_count - 1. *)
Fixpoint create_scheduler_threads (n : nat) (i : Z) : M UserScheduler unit :=
  match n with
  | O => mret tt
  | S n =>
      win32 (CreateSchedulerThread i);;
      table ← gets m_scheduler_thread_table;
      table ← lift (arr_set table i true);
      modify (set_m_scheduler_thread_table table);;
      secondary_mask ← lift (core_bit i);
      win32 (SetThreadAffinityMask i secondary_mask);;
      win32 (ResumeSchedulerThread i);;
      create_scheduler_threads n (i + 1)
  end.

(** std::construct_at on a slot: FiberLocalStorage's constructor is empty, so only the
    links have initialisers; the other members stay what the slot held (the free list's
    pointer lies over priority and current_core, which are assigned before they are read). *)
Definition construct_fiber (f : Z) : M UserScheduler unit :=
  modify_nodes (ConstructNode (SchedNode f));;
  modify_nodes (ConstructNode (WaitNode f));;
  modify_nodes (ConstructNode (WaitHead f)).

Definition AllocateFiber : M UserScheduler (option Z) :=
  slot ← with_allocator (FixedObjectAllocator.Allocate tt);
  match slot with
  | None => mret None
  | Some f => construct_fiber f;; mret (Some f)
  end.

Definition Scheduler_Initialize (core_mask : Z) : M UserScheduler unit :=
  let core_count := CountOneBits64 core_mask in
  modify (set_m_active_cores core_count);;
  modify (set_m_core_count core_count);;
  modify (set_m_core_mask core_mask);;
  win32 (SetThreadAffinityMask 0 1);;
  ht ← gets m_handle_table;
  ht ← lift (Initialize ht);
  modify (set_m_handle_table ht);;
  table ← gets m_scheduler_thread_table;
  table ← lift (arr_set table 0 true);
  modify (set_m_scheduler_thread_table table);;
  slot ← AllocateFiber;
  main_fiber_local ← deref slot;
  update (set_priority 2) main_fiber_local;;
  update (set_current_core 0) main_fiber_local;;
  update (set_core_mask 1) main_fiber_local;;
  update (set_fiber_state FiberState_Running) main_fiber_local;;
  update (set_activity_level ActivityLevel_Schedulable) main_fiber_local;;
  win32 (ConvertThreadToFiber 0);;
  update (set_win32_fiber_handle true) main_fiber_local;;
  win32 CreateMainSchedulerFiber;;
  table ← gets m_scheduler_fiber_table;
  table ← lift (arr_set table 0 true);
  modify (set_m_scheduler_fiber_table table);;
  handle ← with_handle_table (ReserveHandle (Some main_fiber_local));
  dd_assert (bool_decide (is_Some handle));;
  update (set_ukern_fiber_handle (default 0 handle)) main_fiber_local;;
  SetInitialFiberNameUnsafe main_fiber_local;;
  create_scheduler_threads (Z.to_nat core_count - 1) 1.

(** * Service api *)
(** [Ok (result, out_handle)]; *out_handle is left alone by the failures. *)
Definition CreateThreadImpl (thread_func arg stack_size priority core_id : Z)
    : M UserScheduler (Z * option Z) :=
  RESULT_RETURN_UNLESS negb (thread_func =? 0), (ukern.ResultInvalidThreadFunctionPointer, None);;
  RESULT_RETURN_UNLESS negb (stack_size =? 0), (ukern.ResultInvalidStackSize, None);;
  RESULT_RETURN_UNLESS (-2 <=? priority) && (priority <=? 2), (ukern.ResultInvalidPriority, None);;
  bit ← lift (core_bit core_id);
  mask ← gets m_core_mask;
  RESULT_RETURN_UNLESS negb (Z.land bit mask =? 0), (ukern.ResultInvalidCoreId, None);;
  scheduler_locked (
    slot ← AllocateFiber;
    match slot with
    | None => mret (ukern.ResultThreadStorageExhaustion, None)
    | Some fiber_local =>
        handle ← with_handle_table (ReserveHandle (Some fiber_local));
        match handle with
        | None => mret (ukern.ResultHandleExhaustion, None)
        | Some handle =>
            update (set_ukern_fiber_handle handle) fiber_local;;
            update (set_priority (priority + WindowsToUKernPriorityOffset)) fiber_local;;
            update (set_stack_size stack_size) fiber_local;;
            update (set_core_mask bit) fiber_local;;
            update (set_user_arg arg) fiber_local;;
            update (set_user_function thread_func) fiber_local;;
            update (set_fiber_state FiberState_Suspended) fiber_local;;
            update (set_activity_level ActivityLevel_Suspended) fiber_local;;
            SetInitialFiberNameUnsafe fiber_local;;
            win32 (CreateUserFiber fiber_local);;
            update (set_win32_fiber_handle true) fiber_local;;
            modify_nodes (PushBack SuspendHead (SchedNode fiber_local));;
            h ← member ukern_fiber_handle fiber_local;
            mret (ResultSuccess, Some h)
        end
    end).

(** Unlinks a scheduled fiber and adds it again; the ends of the three setters. *)
Definition SetPriorityImpl (handle priority : Z) : M UserScheduler Z :=
  if (-2 <=? priority) && (priority <=? 2) then mret ukern.ResultInvalidPriority
  else
    object ← GetFiberByHandle handle;
    match object with
    | None => mret ukern.ResultInvalidHandle
    | Some fiber_local =>
        scheduler_locked (
          p ← member Fiber.priority fiber_local;
          if p =? priority then mret ukern.ResultSamePriority
          else
            update (set_priority priority) fiber_local;;
            state ← member fiber_state fiber_local;
            (if bool_decide (state = FiberState_Scheduled) then
               modify_nodes (Unlink (SchedNode fiber_local));;
               AddToSchedulerUnsafe fiber_local
             else mret tt);;
            mret ResultSuccess)
    end.

Definition SetCoreMaskImpl (handle core_mask : Z) : M UserScheduler Z :=
  object ← GetFiberByHandle handle;
  match object with
  | None => mret ukern.ResultInvalidHandle
  | Some fiber_local =>
      scheduler_locked (
        m ← member Fiber.core_mask fiber_local;
        if m =? core_mask then mret ukern.ResultSameCoreMask
        else
          update (set_core_mask core_mask) fiber_local;;
          state ← member fiber_state fiber_local;
          (if bool_decide (state = FiberState_Scheduled) then
             modify_nodes (Unlink (SchedNode fiber_local));;
             AddToSchedulerUnsafe fiber_local
           else mret tt);;
          mret ResultSuccess)
  end.

Definition SetActivityImpl (handle activity : Z) : M UserScheduler Z :=
  object ← GetFiberByHandle handle;
  match object with
  | None => mret ukern.ResultInvalidHandle
  | Some fiber_local =>
      scheduler_locked (
        a ← member activity_level fiber_local;
        if a =? activity then mret ukern.ResultSameActivityLevel
        else
          update (set_activity_level activity) fiber_local;;
          state ← member fiber_state fiber_local;
          (if bool_decide (state = FiberState_Scheduled) || bool_decide (state = FiberState_Suspended) then
             modify_nodes (Unlink (SchedNode fiber_local));;
             AddToSchedulerUnsafe fiber_local
           else mret tt);;
          mret ResultSuccess)
  end.

Definition SleepThreadImpl (cur absolute_timeout : Z) : M UserScheduler Outcome :=
  scheduler_locked_switch (
    (if negb (absolute_timeout =? 0) then update (set_timeout absolute_timeout) cur else mret tt);;
    SwitchToScheduler cur;;
    mret (Switched ResultSuccess)).
Definition SleepThreadImpl_resume : M UserScheduler unit := ReleaseSRWLockExclusive.

(** One round of ExitThreadImpl: [None] when the loop ends, otherwise the fiber sleeps
    and the next round follows. *)
Definition ExitThreadImpl_round (cur handle : Z) : M UserScheduler (option Outcome) :=
  object ← GetFiberByHandle handle;
  match object with
  | None => mret None
  | Some _ => o ← SleepThreadImpl cur 0; mret (Some o)
  end.

Definition ArbitrateLockImpl (cur handle lock_addr tag : Z) : M UserScheduler Outcome :=
  RESULT_RETURN_UNLESS negb (lock_addr =? 0), Returned ukern.ResultInvalidAddress;;
  scheduler_locked_switch (
    object ← GetFiberByHandle handle;
    match object with
    | None => mret (Returned ukern.ResultInvalidHandle)
    | Some handle_fiber =>
        RESULT_RETURN_IF handle_fiber =? cur, Returned ukern.ResultInvalidHandle;;
        address_tag ← load lock_addr;
        RESULT_RETURN_IF negb (address_tag =? Z.lor handle HasChildWaitersBit),
          Returned ukern.ResultInvalidLockAddressValue;;
        update (set_waitable_object (Some LockArbiter)) cur;;
        update (set_lock_address lock_addr) cur;;
        update (set_wait_tag tag) cur;;
        update (set_fiber_state FiberState_Waiting) cur;;
        modify_nodes (PushBack (WaitHead handle_fiber) (WaitNode cur));;
        modify_nodes (Unlink (SchedNode cur));;
        modify_nodes (PushBack SuspendHead (SchedNode cur));;
        SwitchToScheduler cur;;
        mret (Switched ResultSuccess)
    end).

(** The arbiter of a waiting function goes out of scope; a pointer to it stays behind. *)
Definition drop_arbiter (cur : Z) : M UserScheduler unit :=
  object ← member waitable_object cur;
  match object with
  | Some _ => update (set_waitable_object (Some DeadArbiter)) cur
  | None => mret tt
  end.

(** The end of a function that waited: its result, the lock released. *)
Definition Wait_resume (cur result : Z) : M UserScheduler Z :=
  r ← (if result =? ResultSuccess then member last_result cur else mret result);
  drop_arbiter cur;;
  ReleaseSRWLockExclusive;;
  mret r.
Definition ArbitrateLockImpl_resume (cur : Z) : M UserScheduler Z :=
  r ← member last_result cur;
  drop_arbiter cur;;
  ReleaseSRWLockExclusive;;
  mret r.

Definition ArbitrateUnlockImpl (cur lock_addr : Z) : M UserScheduler Z :=
  RESULT_RETURN_UNLESS negb (lock_addr =? 0), ukern.ResultInvalidAddress;;
  scheduler_locked (
    empty ← wait_list_IsEmpty cur;
    RESULT_RETURN_UNLESS negb empty, ukern.ResultRequiresLock;;
    handle ← member ukern_fiber_handle cur;
    value ← load lock_addr;
    RESULT_RETURN_UNLESS handle =? Z.land value (u32 (Z.lnot HasChildWaitersBit)),
      ukern.ResultInvalidLockAddressValue;;
    ReleaseLockWaitListUnsafe cur;;
    mret ResultSuccess).

(** The loops that look for the fiber that waits on an address. *)
Definition find_waiter (address : Z) : M UserScheduler (option Z) :=
  for_sched WaitListHead (fun waiting_fiber =>
    a ← member wait_address waiting_fiber;
    mret (if a =? address then Some waiting_fiber else None)).

Definition WaitKeyImpl (cur lock_addr cv_key tag absolute_timeout : Z) : M UserScheduler Outcome :=
  RESULT_RETURN_UNLESS negb (lock_addr =? 0), Returned ukern.ResultInvalidAddress;;
  RESULT_RETURN_UNLESS negb (cv_key =? 0), Returned ukern.ResultInvalidAddress;;
  scheduler_locked_switch (
    empty ← wait_list_IsEmpty cur;
    RESULT_RETURN_UNLESS negb empty, Returned ukern.ResultRequiresLock;;
    handle ← member ukern_fiber_handle cur;
    value ← load lock_addr;
    RESULT_RETURN_UNLESS handle =? value, Returned ukern.ResultInvalidLockAddressValue;;
    ReleaseLockWaitListUnsafe cur;;
    store cv_key 1;;
    result ← (if 0 =? absolute_timeout then mret ukern.ResultTimeout
              else
                update (set_waitable_object (Some KeyArbiter)) cur;;
                update (set_wait_address cv_key) cur;;
                update (set_lock_address lock_addr) cur;;
                update (set_wait_tag tag) cur;;
                update (set_fiber_state FiberState_Waiting) cur;;
                update (set_timeout (u64 absolute_timeout)) cur;;
                mret ResultSuccess);
    parent ← find_waiter cv_key;
    (match parent with
     | Some waiting_fiber => modify_nodes (PushBack (WaitHead waiting_fiber) (WaitNode cur))
     | None => mret tt
     end);;
    linked ← gets (fun s => IsLinked (links s) (WaitNode cur));
    (if (linked : bool) then
       modify_nodes (Unlink (SchedNode cur));;
       modify_nodes (PushBack WaitListHead (SchedNode cur))
     else mret tt);;
    SwitchToScheduler cur;;
    mret (Switched result)).

Definition SwapLockForSignalKey (waiting_fiber : Z) : M UserScheduler unit :=
  address ← member lock_address waiting_fiber;
  prev_tag ← load address;
  tag ← member wait_tag waiting_fiber;
  store address (if negb (prev_tag =? 0) then Z.lor tag HasChildWaitersBit else tag);;
  if negb (prev_tag =? 0) then
    object ← GetFiberByHandle (u32 (Z.lnot HasChildWaitersBit));
    lock_fiber ← deref object;
    modify_nodes (PushBack (WaitHead lock_fiber) (WaitNode waiting_fiber))
  else
    object ← member waitable_object waiting_fiber;
    EndWait object waiting_fiber ResultSuccess.

(** "Transfer wait list": the first waiter left becomes the parent of the others. *)
Definition promote_waiter (parent : Z) : M UserScheduler unit :=
  empty ← wait_list_IsEmpty parent;
  if (empty : bool) then mret tt
  else
    next_parent ← wait_list_PopFront parent;
    transfer_wait_list parent next_parent;;
    modify_nodes (Unlink (SchedNode parent));;
    modify_nodes (PushBack WaitListHead (SchedNode next_parent)).

Definition SignalKeyImpl (cv_key signal_count : Z) : M UserScheduler Z :=
  RESULT_RETURN_IF cv_key =? 0, ukern.ResultInvalidAddress;;
  scheduler_locked (
    if signal_count =? 0 then store cv_key 0;; mret ResultSuccess
    else
      waiter ← find_waiter cv_key;
      match waiter with
      | None => mret ukern.ResultInvalidAddress
      | Some cv_fiber =>
          SwapLockForSignalKey cv_fiber;;
          for_local (WaitHead cv_fiber) (fun n i =>
            if signal_count <=? i then mret (i, true)
            else
              waiting_fiber ← wait_parent n;
              modify_nodes (Unlink (WaitNode waiting_fiber));;
              SwapLockForSignalKey waiting_fiber;;
              mret (u32 (i + 1), false)) 1;;
          promote_waiter cv_fiber;;
          store cv_key 0;;
          mret ResultSuccess
      end).

(** The common part of the two waits on an address, after the value is accepted. *)
Definition wait_on_address (cur address absolute_timeout : Z) : M UserScheduler unit :=
  update (set_waitable_object (Some WaitAddressArbiter)) cur;;
  update (set_wait_address address) cur;;
  update (set_fiber_state FiberState_Waiting) cur;;
  update (set_timeout (u64 absolute_timeout)) cur;;
  address_fiber ← find_waiter address;
  match address_fiber with
  | None => modify_nodes (PushBack WaitListHead (SchedNode cur))
  | Some address_fiber => modify_nodes (PushBack (WaitHead address_fiber) (WaitNode cur))
  end.

Definition WaitForAddressIfEqualImpl (cur address value absolute_timeout : Z) : M UserScheduler Outcome :=
  RESULT_RETURN_IF address =? 0, Returned ukern.ResultInvalidAddress;;
  scheduler_locked_switch (
    v ← load address;
    result ← (if negb (v =? value) then mret ukern.ResultInvalidWaitAddressValue
              else if absolute_timeout <=? 0 then mret ukern.ResultTimeout
              else wait_on_address cur address absolute_timeout;; mret ResultSuccess);
    SwitchToScheduler cur;;
    mret (Switched result)).

Definition WaitForAddressIfLessThanImpl (cur address value absolute_timeout : Z) (do_decrement : bool)
    : M UserScheduler Outcome :=
  RESULT_RETURN_IF address =? 0, Returned ukern.ResultInvalidAddress;;
  scheduler_locked_switch (
    wait_value ← load address;
    (if do_decrement then v ← load address; store address (u32 (v - 1)) else mret tt);;
    result ← (if value <=? wait_value then mret ukern.ResultInvalidWaitAddressValue
              else if absolute_timeout <=? 0 then mret ukern.ResultTimeout
              else wait_on_address cur address absolute_timeout;; mret ResultSuccess);
    SwitchToScheduler cur;;
    mret (Switched result)).

(** The common end of the three wakes: the parent, its waiters, and a new parent. *)
Definition release_waiters (address_fiber count : Z) : M UserScheduler unit :=
  object ← member waitable_object address_fiber;
  EndWait object address_fiber ResultSuccess;;
  for_local (WaitHead address_fiber) (fun n i =>
    if count <? i then mret (i, true)
    else
      waiting_fiber ← wait_parent n;
      object ← member waitable_object waiting_fiber;
      EndWait object waiting_fiber ResultSuccess;;
      modify_nodes (Unlink (WaitNode waiting_fiber));;
      mret (u32 (i + 1), false)) 1;;
  promote_waiter address_fiber.

Definition WakeByAddressImpl (address count : Z) : M UserScheduler Z :=
  RESULT_RETURN_IF address =? 0, ukern.ResultInvalidAddress;;
  scheduler_locked (
    if count =? 0 then mret ResultSuccess
    else
      waiter ← find_waiter address;
      match waiter with
      | None => mret ukern.ResultNoWaiters
      | Some address_fiber => release_waiters address_fiber count;; mret ResultSuccess
      end).

Definition WakeByAddressIncrementEqualImpl (address value count : Z) : M UserScheduler Z :=
  RESULT_RETURN_IF address =? 0, ukern.ResultInvalidAddress;;
  scheduler_locked (
    v ← load address;
    RESULT_RETURN_IF negb (v =? value), ukern.ResultValueOutOfRange;;
    store address (u32 (value + 1));;
    waiter ← find_waiter address;
    address_fiber ← deref waiter;
    release_waiters address_fiber count;;
    mret ResultSuccess).

Definition WakeByAddressModifyLessThanImpl (address value count : Z) : M UserScheduler Z :=
  RESULT_RETURN_IF address =? 0, ukern.ResultInvalidAddress;;
  scheduler_locked (
    v ← load address;
    if negb (v =? value) then mret ukern.ResultValueOutOfRange
    else
      waiter ← find_waiter address;
      signal ← (match waiter with
                | None => mret 1
                | Some address_fiber =>
                    if 0 <? count then
                      i ← for_local (WaitHead address_fiber)
                            (fun _ i => mret (u32 (i + 1), false)) 1;
                      mret (if i <? count then u32 (-1) else 0)
                    else mret (u32 (-1))
                end);
      (if negb (signal =? 0) then store address (u32 (value + signal)) else mret tt);;
      address_fiber ← deref waiter;
      release_waiters address_fiber count;;
      mret ResultSuccess).

Fixpoint suspend_other_cores (n : nat) (i current_core : Z) : M UserScheduler unit :=
  match n with
  | O => mret tt
  | S n =>
      (if negb (current_core =? i) then
         table ← gets m_scheduler_thread_table;
         lift (arr_get table i);;
         win32 (SuspendSchedulerThread i)
       else mret tt);;
      suspend_other_cores n (i + 1) current_core
  end.
Definition SuspendAllOtherCoresImpl (cur : Z) : M UserScheduler unit :=
  current_core ← member Fiber.current_core cur;
  core_count ← gets m_core_count;
  suspend_other_cores (Z.to_nat core_count) 0 current_core.
