(* ===== verification/SchedulerSpec.v ===== *)
(** The scheduler's run queues: invariant, refinement of the operations on lists of
    fibers, and the properties of dispatching, sleeping and the thread operations.

    [sched_inv s L]: the links of [s] are the lists [L], every scheduler list holds
    scheduler_list_nodes of fibers whose members put them there, every wait_list holds
    wait_list_nodes.  The operations are stated by the lists they leave. *)
From stdpp Require Import functions.
From S2P Require Import Prelude Result TimeSpan IntrusiveList ListFamily BusyMutex HandleTable.
From S2P Require Import Allocators Fiber Scheduler.

(** * Running the model *)
Definition upd (u : FiberLocalStorage -> FiberLocalStorage) (f : Z) (s : UserScheduler) : UserScheduler :=
  set_fiber_storage (<[f := u (storage s f)]> (fiber_storage s)) s.

Lemma storage_upd u f g s : storage (upd u f s) g = if decide (f = g) then u (storage s f) else storage s g.
Proof. unfold storage, upd. cbn. rewrite lookup_insert. by case_decide. Qed.

Section run.
Context {A : Type}.
Implicit Types (s : UserScheduler) (k : A -> M UserScheduler A).

Lemma bind_member {B} (m : FiberLocalStorage -> B) f (k : B -> M UserScheduler A) s :
  (member m f ≫= k) s = k (m (storage s f)) s.
Proof. reflexivity. Qed.

Lemma bind_update u f (k : unit -> M UserScheduler A) s : (update u f ≫= k) s = k tt (upd u f s).
Proof. reflexivity. Qed.

Lemma bind_modify_nodes g (k : unit -> M UserScheduler A) s :
  (modify_nodes g ≫= k) s = k tt (set_links (g (links s)) s).
Proof. reflexivity. Qed.

Lemma bind_modify g (k : unit -> M UserScheduler A) s : (modify g ≫= k) s = k tt (g s).
Proof. reflexivity. Qed.

Lemma bind_gets {B} (g : UserScheduler -> B) (k : B -> M UserScheduler A) s : (gets g ≫= k) s = k (g s) s.
Proof. reflexivity. Qed.

Lemma bind_mret {B} (b : B) (k : B -> M UserScheduler A) s : (mret b ≫= k) s = k b s.
Proof. reflexivity. Qed.

Lemma bind_win32 c (k : unit -> M UserScheduler A) s :
  (win32 c ≫= k) s = k tt (set_win32_calls (win32_calls s ++ [c]) s).
Proof. reflexivity. Qed.

Lemma bind_assert (b : bool) (k : unit -> M UserScheduler A) s :
  b = true -> (dd_assert b ≫= k) s = k tt s.
Proof. by intros ->. Qed.

Lemma bind_lift {B} (r : res B) b (k : B -> M UserScheduler A) s :
  r = Ok b -> (lift r ≫= k) s = k b s.
Proof. by intros ->. Qed.
End run.

(** Runs the first steps of a computation, as far as they are unconditional. *)
Ltac run :=
  repeat first
    [ rewrite bind_member | rewrite bind_update | rewrite bind_modify_nodes | rewrite bind_modify
    | rewrite bind_gets | rewrite bind_mret | rewrite bind_win32 ].

(** * The invariant *)
(** The run list of a priority; none for a value outside of 0 .. 4. *)
Definition run_list_of (priority : Z) : option RunList :=
  match priority with
  | 0 => Some Low | 1 => Some BelowNormal | 2 => Some Normal | 3 => Some AboveNormal | 4 => Some High
  | _ => None
  end.

(** What the members of a fiber say while it is in a scheduler list. *)
Definition placed (h : NodeId) (x : FiberLocalStorage) : Prop :=
  match h with
  | RunHead p => fiber_state x = FiberState_Scheduled /\ activity_level x <> ActivityLevel_Suspended /\
      run_list_of (priority x) = Some p
  | SuspendHead => fiber_state x = FiberState_Suspended \/ fiber_state x = FiberState_Waiting
  | WaitListHead => fiber_state x = FiberState_Waiting
  | _ => False
  end.

Definition fiber_id (f : Z) : Prop := 0 <= f < Z.of_nat MaxThreadCount.

Record sched_inv (s : UserScheduler) (L : NodeId -> list NodeId) : Prop := {
  inv_family : family (links s) L;
  inv_elem : forall h n, n ∈ L h ->
    (exists f, n = SchedNode f /\ fiber_id f /\ placed h (storage s f)) \/
    (exists f g, n = WaitNode f /\ h = WaitHead g /\ fiber_id f)
}.

Section invariant.
Implicit Types (s : UserScheduler) (L : NodeId -> list NodeId) (f g : Z) (h n : NodeId).

Definition is_head n : bool := match n with SchedNode _ | WaitNode _ => false | _ => true end.

Lemma inv_head_loose s L h : sched_inv s L -> is_head h = true -> loose L h.
Proof.
  intros HI Hh x Hx. destruct (inv_elem s L HI x h Hx) as [(f & -> & _)|(f & g & -> & _)]; done.
Qed.

Lemma inv_leaf s L n : sched_inv s L -> is_head n = false -> L n = [].
Proof.
  intros HI Hn. destruct (L n) as [|x l] eqn:E; [done|].
  destruct (inv_elem s L HI n x) as [(f & -> & _ & Hp)|(f & g & -> & -> & _)].
  - rewrite E. by left.
  - destruct n; done.
  - done.
Qed.

(** A fiber whose members fit no scheduler list is in none. *)
Lemma inv_loose s L f :
  sched_inv s L -> (forall h, ~ placed h (storage s f)) -> loose L (SchedNode f).
Proof.
  intros HI Hp h Hin. destruct (inv_elem s L HI h _ Hin) as [(f' & [= ->] & _ & Hp')|(?&?&[=]&_)].
  by apply (Hp h).
Qed.

Lemma inv_sched s L h n :
  sched_inv s L -> n ∈ L h -> (forall g, h <> WaitHead g) ->
  exists f, n = SchedNode f /\ fiber_id f /\ placed h (storage s f).
Proof. intros HI Hn Hh. destruct (inv_elem s L HI h n Hn) as [?|(?&?&->&->&_)]; [done|]. by destruct (Hh x0). Qed.

Lemma inv_length s L h : sched_inv s L -> (length (L h) <= 256)%nat.
Proof.
  intros HI. set (c := if (match h with WaitHead _ => true | _ => false end) then WaitNode else SchedNode).
  assert (L h ⊆ c <$> seqZ 0 256) as Hsub.
  { intros n Hn. apply list_elem_of_fmap.
    destruct (inv_elem s L HI h n Hn) as [(f & -> & Hf & Hp)|(f & g & -> & -> & Hf)].
    - exists f. split; [by destruct h|]. apply elem_of_seqZ. unfold fiber_id, MaxThreadCount in Hf. lia.
    - exists f. split; [done|]. apply elem_of_seqZ. unfold fiber_id, MaxThreadCount in Hf. lia. }
  assert (NoDup (L h)) as Hnd by (eapply family_NoDup, HI).
  pose proof (NoDup_submseteq _ _ Hnd Hsub) as Hm. apply submseteq_length in Hm.
  by rewrite length_fmap, length_seqZ in Hm.
Qed.

(** The invariant reads links and storage only. *)
Lemma inv_same s s' L :
  links s' = links s -> (forall f, storage s' f = storage s f) -> sched_inv s L -> sched_inv s' L.
Proof.
  intros El Es HI. split.
  - rewrite El. apply HI.
  - intros h n Hn. destruct (inv_elem s L HI h n Hn) as [(f & ? & ? & ?)|?]; [left|by right].
    exists f. by rewrite Es.
Qed.

(** Members of a fiber that is in no scheduler list may be changed. *)
Lemma inv_upd s L u f : sched_inv s L -> loose L (SchedNode f) -> sched_inv (upd u f s) L.
Proof.
  intros HI Hf. split; [apply HI|]. intros h n Hn.
  destruct (inv_elem s L HI h n Hn) as [(g & -> & ? & ?)|?]; [left|by right].
  exists g. rewrite storage_upd, decide_False; [done|]. intros ->. by apply (Hf h).
Qed.

Lemma inv_upd_placed s L u f :
  sched_inv s L -> (forall h, placed h (storage s f) -> placed h (u (storage s f))) ->
  sched_inv (upd u f s) L.
Proof.
  intros HI Hu. split; [apply HI|]. intros h n Hn.
  destruct (inv_elem s L HI h n Hn) as [(g & -> & ? & ?)|?]; [left|by right].
  exists g. rewrite storage_upd. case_decide; [subst g|]; auto.
Qed.

Lemma inv_push s L f h :
  sched_inv s L -> fiber_id f -> loose L (SchedNode f) -> placed h (storage s f) ->
  sched_inv (set_links (PushBack h (SchedNode f) (links s)) s) (<[h := L h ++ [SchedNode f]]> L).
Proof.
  intros HI Hf Hl Hp.
  assert (is_head h = true) as Hh by by destruct h.
  split.
  - cbn. apply family_PushBack; [apply HI|by eapply inv_head_loose|done|by eapply inv_leaf|by intros <-].
  - cbn. intros h' n [[-> Hn]|[_ Hn]]%fn_insert_in; [|by apply (inv_elem s L HI)].
    apply elem_of_app in Hn as [Hn|Hn%list_elem_of_singleton]; [by apply (inv_elem s L HI)|].
    left. exists f. done.
Qed.

Lemma inv_push_child s L f g :
  sched_inv s L -> fiber_id f -> loose L (WaitNode f) ->
  sched_inv (set_links (PushBack (WaitHead g) (WaitNode f) (links s)) s)
    (<[WaitHead g := L (WaitHead g) ++ [WaitNode f]]> L).
Proof.
  intros HI Hf Hl. split.
  - cbn. apply family_PushBack; [apply HI|by eapply inv_head_loose|done|by eapply inv_leaf|done].
  - cbn. intros h' n [[-> Hn]|[_ Hn]]%fn_insert_in; [|by apply (inv_elem s L HI)].
    apply elem_of_app in Hn as [Hn|Hn%list_elem_of_singleton]; [by apply (inv_elem s L HI)|].
    right. by exists f, g.
Qed.

Lemma inv_unlink s L n :
  sched_inv s L -> is_head n = false -> sched_inv (set_links (Unlink n (links s)) s) (without n L).
Proof.
  intros HI Hn. split.
  - cbn. apply family_without; [apply HI|by eapply inv_leaf].
  - intros h x [_ Hx]%without_elem. by apply (inv_elem s L HI).
Qed.
End invariant.

(** * AddToSchedulerUnsafe *)
(** Where a fiber is queued: nowhere, if its priority has no list. *)
Definition destination (x : FiberLocalStorage) : option NodeId :=
  if activity_level x =? ActivityLevel_Suspended then Some SuspendHead
  else RunHead <$> run_list_of (priority x).

Definition enqueue (h : option NodeId) (n : NodeId) (L : NodeId -> list NodeId) : NodeId -> list NodeId :=
  match h with Some h => <[h := L h ++ [n]]> L | None => L end.

(** The state that AddToSchedulerUnsafe leaves: the fiber linked at the tail of its list,
    its state set and, unless it is suspended, a core woken. *)
Definition after_add (f : Z) (s : UserScheduler) : UserScheduler :=
  let x := storage s f in
  let link h := match h with Some h => set_links (PushBack h (SchedNode f) (links s)) | None => id end in
  if activity_level x =? ActivityLevel_Suspended then
    set_links (PushBack SuspendHead (SchedNode f) (links s)) (upd (set_fiber_state FiberState_Suspended) f s)
  else
    let s1 := upd (set_fiber_state FiberState_Scheduled) f (link (destination x) s) in
    let s2 := set_m_runnable_fibers (u32 (m_runnable_fibers s + 1)) s1 in
    set_win32_calls (win32_calls s ++ [WakeByAddressSingle]) s2.

(** The five comparisons of the code select the list of the priority. *)
Lemma priority_chain {A} (p : Z) (a b c d e z : A) :
  (if p =? THREAD_PRIORITY_NORMAL + WindowsToUKernPriorityOffset then a
   else if p =? THREAD_PRIORITY_ABOVE_NORMAL + WindowsToUKernPriorityOffset then b
   else if p =? THREAD_PRIORITY_BELOW_NORMAL + WindowsToUKernPriorityOffset then c
   else if p =? THREAD_PRIORITY_HIGHEST + WindowsToUKernPriorityOffset then d
   else if p =? THREAD_PRIORITY_LOWEST + WindowsToUKernPriorityOffset then e else z) =
  match run_list_of p with
  | Some Normal => a | Some AboveNormal => b | Some BelowNormal => c | Some High => d
  | Some Low => e | None => z
  end.
Proof.
  unfold THREAD_PRIORITY_NORMAL, THREAD_PRIORITY_ABOVE_NORMAL, THREAD_PRIORITY_BELOW_NORMAL,
    THREAD_PRIORITY_HIGHEST, THREAD_PRIORITY_LOWEST, WindowsToUKernPriorityOffset.
  destruct (Z.eqb_spec p (0 + 2)) as [->|]; [done|].
  destruct (Z.eqb_spec p (1 + 2)) as [->|]; [done|].
  destruct (Z.eqb_spec p (-1 + 2)) as [->|]; [done|].
  destruct (Z.eqb_spec p (2 + 2)) as [->|]; [done|].
  destruct (Z.eqb_spec p (-2 + 2)) as [->|]; [done|].
  unfold run_list_of. destruct p as [|p|p]; [done| |done]. repeat (destruct p as [p|p|]; try done).
Qed.

Lemma AddToSchedulerUnsafe_run f s : AddToSchedulerUnsafe f s = Ok (tt, after_add f s).
Proof.
  unfold AddToSchedulerUnsafe, after_add, destination. run.
  destruct (activity_level (storage s f) =? ActivityLevel_Suspended); [by run|].
  run. rewrite priority_chain.
  destruct (run_list_of (priority (storage s f))) as [[]|]; run; reflexivity.
Qed.

Lemma after_add_storage f g s :
  storage (after_add f s) g =
    if decide (f = g)
    then set_fiber_state (if activity_level (storage s f) =? ActivityLevel_Suspended
                          then FiberState_Suspended else FiberState_Scheduled) (storage s f)
    else storage s g.
Proof.
  unfold after_add. destruct (_ =? _); [|destruct (destination _)]; unfold storage, upd; cbn;
    rewrite lookup_insert; by case_decide.
Qed.

Lemma after_add_memory f s :
  user_memory (after_add f s) = user_memory s /\ m_handle_table (after_add f s) = m_handle_table s /\
  UserFiberLocalAllocator (after_add f s) = UserFiberLocalAllocator s /\
  m_scheduler_lock (after_add f s) = m_scheduler_lock s /\ m_core_count (after_add f s) = m_core_count s /\
  m_core_mask (after_add f s) = m_core_mask s /\
  m_scheduler_fiber_table (after_add f s) = m_scheduler_fiber_table s.
Proof. unfold after_add. destruct (_ =? _); [|destruct (destination _)]; done. Qed.

Section add.
Implicit Types (s : UserScheduler) (L : NodeId -> list NodeId) (f g : Z).

Lemma destination_placed (x : FiberLocalStorage) h :
  destination x = Some h ->
  placed h (set_fiber_state (if activity_level x =? ActivityLevel_Suspended
                             then FiberState_Suspended else FiberState_Scheduled) x).
Proof.
  unfold destination. destruct (Z.eqb_spec (activity_level x) ActivityLevel_Suspended).
  - intros [= <-]. by left.
  - intros Hh. apply fmap_Some in Hh as (p & Hp & ->). by repeat split.
Qed.

Lemma inv_after_add s L f :
  sched_inv s L -> fiber_id f -> loose L (SchedNode f) ->
  sched_inv (after_add f s) (enqueue (destination (storage s f)) (SchedNode f) L).
Proof.
  intros HI Hf Hl. pose proof (destination_placed (storage s f)) as Hd.
  unfold after_add. destruct (activity_level (storage s f) =? ActivityLevel_Suspended) eqn:E.
  - unfold destination in *. rewrite E in *. cbn.
    apply (inv_push (upd (set_fiber_state FiberState_Suspended) f s)); [by apply inv_upd|done|done|].
    rewrite storage_upd, decide_True by done. by apply Hd.
  - destruct (destination (storage s f)) as [h|] eqn:Eh; cbn [enqueue].
    + eapply inv_same; [| |eapply (inv_push (upd (set_fiber_state FiberState_Scheduled) f s) L f h)];
        [done|done|by apply inv_upd|done|done|].
      rewrite storage_upd, decide_True by done. by apply Hd.
    + eapply inv_same; [| |by apply (inv_upd s L (set_fiber_state FiberState_Scheduled) f)]; done.
Qed.
End add.

(** * Dispatching *)
(** IsSchedulable of a fiber in a run list that waits on nothing, without its effects. *)
Definition may_run (core_bits tick : Z) (x : FiberLocalStorage) : bool :=
  negb (Z.land (core_mask x) core_bits =? 0) && (timeout x <? tick).

(** The state after Dispatch() switched to [f]. *)
Definition after_dispatch (f core : Z) (s : UserScheduler) : UserScheduler :=
  set_links (Unlink (SchedNode f) (links s))
    (upd (set_current_core core) f (upd (set_fiber_state FiberState_Running) f s)).

Section dispatch.
Implicit Types (s : UserScheduler) (L : NodeId -> list NodeId) (f g core tick : Z).

Lemma core_bit_ok core : 0 <= core < 32 -> core_bit core = Ok (u64 (s32 (Z.shiftl 1 core))).
Proof.
  intros Hc. unfold core_bit. destruct (Z.leb_spec 0 core); [|lia].
  by destruct (Z.ltb_spec core 32); [|lia].
Qed.

(** A fiber that is not in state Scheduled, so every fiber of the wait list. *)
Lemma IsSchedulable_not_scheduled f core tick s :
  fiber_state (storage s f) <> FiberState_Scheduled -> IsSchedulable f core tick s = Ok (false, s).
Proof. intros Hs. unfold IsSchedulable. run. by rewrite bool_decide_false. Qed.

Lemma IsSchedulable_scheduled f core tick s :
  0 <= core < 32 -> fiber_state (storage s f) = FiberState_Scheduled ->
  waitable_object (storage s f) = None ->
  IsSchedulable f core tick s = Ok (may_run (u64 (s32 (Z.shiftl 1 core))) tick (storage s f), s).
Proof.
  intros Hc Hs Hw. unfold IsSchedulable, may_run. run. rewrite bool_decide_true by done. cbn [negb].
  rewrite (bind_lift _ _ _ _ (core_bit_ok core Hc)). run.
  destruct (_ =? 0); [done|]. run. rewrite Hw. done.
Qed.

Lemma Dispatch_run f core s :
  core < m_core_count s -> Dispatch f core s = Ok (tt, after_dispatch f core s).
Proof.
  intros Hc. unfold Dispatch. run. rewrite bind_assert; [done|]. cbn. by apply Z.ltb_lt.
Qed.

(** Every fiber in a run list waits on nothing; what a fiber that never waited has. *)
Definition no_waits s L : Prop :=
  forall p f, SchedNode f ∈ L (RunHead p) -> waitable_object (storage s f) = None.

Definition fiber_of (n : NodeId) : Z := match n with SchedNode f => f | _ => 0 end.
Definition run_order : list RunList := [High; AboveNormal; Normal; BelowNormal; Low].

(** The fiber that a core is to run next: the first, by priority and then by queue order,
    that may run on it and whose timeout has passed. *)
Definition next_fiber s L core tick : option Z :=
  fiber_of <$> List.find (fun n => may_run (u64 (s32 (Z.shiftl 1 core))) tick (storage s (fiber_of n)))
                 (concat (L ∘ RunHead <$> run_order)).

Lemma list_fuel_enough s L h : sched_inv s L -> (length (L h) + 1 <= list_fuel)%nat.
Proof. intros HI. pose proof (inv_length s L h HI). unfold list_fuel. lia. Qed.

Lemma inv_is_list s L h : sched_inv s L -> is_head h = true -> is_list (nodes s) h (L h).
Proof. intros HI Hh. apply HI. by eapply inv_head_loose. Qed.

(** The wait list holds fibers in state Waiting only, which IsSchedulable rejects. *)
Lemma visit_wait_list_nothing s L core tick :
  sched_inv s L -> visit_wait_list core tick s = Ok (None, s).
Proof.
  intros HI. unfold visit_wait_list, for_sched.
  apply (for_each_none _ _ _ (L WaitListHead)); [by apply inv_is_list|by eapply list_fuel_enough|].
  intros n Hn. destruct (inv_sched s L WaitListHead n HI Hn ltac:(done)) as (f & -> & Hf & Hp).
  cbn [sched_parent]. run.
  rewrite (M_bind_run _ _ _ _ _ (IsSchedulable_not_scheduled f core tick s ltac:(by rewrite Hp))). done.
Qed.

Lemma run_list_spec s L core tick p :
  sched_inv s L -> no_waits s L -> 0 <= core < 32 -> core < m_core_count s ->
  run_list core tick p s =
    match List.find (fun n => may_run (u64 (s32 (Z.shiftl 1 core))) tick (storage s (fiber_of n)))
            (L (RunHead p)) with
    | Some n => Ok (Some (fiber_of n), after_dispatch (fiber_of n) core s)
    | None => Ok (None, s)
    end.
Proof.
  intros HI Hw Hc Hcc. unfold run_list, for_sched.
  set (body := fun n => f ← sched_parent n; _).
  assert (forall n, n ∈ L (RunHead p) ->
    body n s = if may_run (u64 (s32 (Z.shiftl 1 core))) tick (storage s (fiber_of n))
               then Ok (Some (fiber_of n), after_dispatch (fiber_of n) core s) else Ok (None, s)) as Hb.
  { intros n Hn. destruct (inv_sched s L (RunHead p) n HI Hn ltac:(done)) as (f & -> & Hf & Hp & _).
    unfold body. cbn [sched_parent fiber_of]. run.
    rewrite (M_bind_run _ _ _ _ _ (IsSchedulable_scheduled f core tick s Hc Hp (Hw p f Hn))).
    destruct (may_run _ _ _); [|done].
    by rewrite (M_bind_run _ _ _ _ _ (Dispatch_run f core s Hcc)). }
  clearbody body. pose proof (inv_is_list s L (RunHead p) HI eq_refl) as Hl.
  pose proof (list_fuel_enough s L (RunHead p) HI) as Hfu.
  destruct (List.find _ _) as [n|] eqn:E.
  - apply find_split in E as (l1 & l2 & E & Hn & Hl1). rewrite E in *.
    apply (for_each_find body list_fuel (RunHead p) l1 n l2); [done|done| |].
    + intros y Hy. rewrite Hb by set_solver. by rewrite Hl1.
    + rewrite Hb by set_solver. by rewrite Hn.
  - pose proof (find_none _ _ E) as Hno. apply (for_each_none _ _ _ (L (RunHead p))); [done|done|].
    intros y Hy. rewrite Hb by done. by rewrite Hno.
Qed.

Lemma run_lists_spec s L core tick lists :
  sched_inv s L -> no_waits s L -> 0 <= core < 32 -> core < m_core_count s ->
  run_lists core tick lists s =
    match List.find (fun n => may_run (u64 (s32 (Z.shiftl 1 core))) tick (storage s (fiber_of n)))
            (concat (L ∘ RunHead <$> lists)) with
    | Some n => Ok (Some (fiber_of n), after_dispatch (fiber_of n) core s)
    | None => Ok (None, s)
    end.
Proof.
  intros HI Hw Hc Hcc. induction lists as [|p lists IH]; [done|].
  cbn [run_lists fmap list_fmap concat]. rewrite find_app.
  pose proof (run_list_spec s L core tick p HI Hw Hc Hcc) as E. unfold compose at 1.
  destruct (List.find _ (L (RunHead p))) as [n|]; by rewrite (M_bind_run _ _ _ _ _ E).
Qed.

Lemma SchedulerFiberMain_pass_run s L core tick :
  sched_inv s L -> no_waits s L -> 0 <= core < 32 -> core < m_core_count s ->
  SchedulerFiberMain_pass core tick s =
    match next_fiber s L core tick with
    | Some f => Ok (Some f, after_dispatch f core s)
    | None => Ok (None, s)
    end.
Proof.
  intros HI Hw Hc Hcc. unfold SchedulerFiberMain_pass, next_fiber.
  rewrite (M_bind_run _ _ _ _ _ (visit_wait_list_nothing s L core tick HI)).
  unfold run_order. rewrite run_lists_spec with (L := L) by done. by destruct (List.find _ _).
Qed.

Lemma next_fiber_queued s L core tick f :
  sched_inv s L -> next_fiber s L core tick = Some f ->
  (exists p, SchedNode f ∈ L (RunHead p)) /\ fiber_id f /\
  may_run (u64 (s32 (Z.shiftl 1 core))) tick (storage s f) = true.
Proof.
  unfold next_fiber. intros HI (n & E & ->)%fmap_Some.
  apply find_split in E as (l1 & l2 & E & Hn & _).
  assert (n ∈ concat (L ∘ RunHead <$> run_order)) as Hin by (rewrite E; set_solver).
  apply list_elem_of_In, in_concat in Hin as (l & Hl & Hin).
  apply list_elem_of_In, list_elem_of_fmap in Hl as (p & -> & _). apply list_elem_of_In in Hin.
  destruct (inv_sched s L (RunHead p) n HI Hin ltac:(done)) as (f & -> & Hf & _). eauto.
Qed.

Lemma inv_after_dispatch s L f core :
  sched_inv s L -> sched_inv (after_dispatch f core s) (without (SchedNode f) L).
Proof.
  intros HI. unfold after_dispatch.
  eapply (inv_same (upd (set_current_core core) f (upd (set_fiber_state FiberState_Running) f
    (set_links (Unlink (SchedNode f) (links s)) s)))); [done|done|].
  apply inv_upd; [|apply without_loose]. apply inv_upd; [|apply without_loose].
  by apply inv_unlink.
Qed.
End dispatch.

(** * Locking and switching *)
Section locking.
Implicit Types (s : UserScheduler) (L : NodeId -> list NodeId) (f cur : Z).

Lemma scheduler_locked_run {A} (body : M UserScheduler A) s r s' :
  m_scheduler_lock s = false -> body (set_m_scheduler_lock true s) = Ok (r, s') ->
  scheduler_locked body s = Ok (r, set_m_scheduler_lock false s').
Proof.
  intros Hl Hb. unfold scheduler_locked, AcquireSRWLockExclusive.
  unfold mbind at 1, M_bind at 1. run. rewrite Hl. cbn [modify]. unfold modify.
  rewrite (M_bind_run _ _ _ _ _ Hb). done.
Qed.

Lemma scheduler_locked_switch_run (body : M UserScheduler Outcome) s o s' :
  m_scheduler_lock s = false -> body (set_m_scheduler_lock true s) = Ok (o, s') ->
  scheduler_locked_switch body s =
    Ok (o, match o with Returned _ => set_m_scheduler_lock false s' | Switched _ => s' end).
Proof.
  intros Hl Hb. unfold scheduler_locked_switch, AcquireSRWLockExclusive.
  unfold mbind at 1, M_bind at 1. run. rewrite Hl. unfold modify.
  rewrite (M_bind_run _ _ _ _ _ Hb). by destruct o.
Qed.

(** A fiber runs on a core whose scheduler fiber exists. *)
Definition on_core s cur : Prop :=
  0 <= current_core (storage s cur) < m_core_count s /\
  m_scheduler_fiber_table s !! Z.to_nat (current_core (storage s cur)) = Some true.

Lemma SwitchToScheduler_run s cur : on_core s cur -> SwitchToScheduler cur s = Ok (tt, s).
Proof.
  intros [Hc Ht]. unfold SwitchToScheduler, GetSchedulerFiber. run.
  unfold mbind at 1, M_bind at 1. run. rewrite bind_assert by (apply Z.ltb_lt; lia). run.
  unfold lift. rewrite <- (Z2Nat.id (current_core _)) by lia. by rewrite (arr_get_lookup _ _ _ Ht).
Qed.

Lemma inv_lock s L b : sched_inv s L -> sched_inv (set_m_scheduler_lock b s) L.
Proof. by apply inv_same. Qed.

(** GetFiberByHandle changes nothing but the mutex of the handle table. *)
Lemma GetFiberByHandle_frame handle s o s1 :
  GetFiberByHandle handle s = Ok (o, s1) -> s1 = set_m_handle_table (m_handle_table s1) s.
Proof.
  unfold GetFiberByHandle, with_handle_table.
  destruct (GetObjectByHandle handle (m_handle_table s)) as [[o' ht]|]; [|done].
  by intros [= <- <-].
Qed.

Lemma inv_GetFiberByHandle handle s o s1 L :
  GetFiberByHandle handle s = Ok (o, s1) -> sched_inv s L -> sched_inv s1 L.
Proof. intros ->%GetFiberByHandle_frame. by apply inv_same. Qed.

(** A running fiber is in no list of the scheduler. *)
Lemma running_loose s L f :
  sched_inv s L -> fiber_state (storage s f) = FiberState_Running -> loose L (SchedNode f).
Proof.
  intros HI Hr. apply (inv_loose s); [done|]. intros [| | |p| |]; cbn; try tauto.
  - intros [E _]. congruence.
  - intros [E|E]; congruence.
  - intros E. congruence.
Qed.
End locking.

(** * Properties of dispatching *)
Section dispatching.
Implicit Types (s : UserScheduler) (L : NodeId -> list NodeId) (f core tick : Z).


(** No fiber in the wait list is ever timed out: IsSchedulable accepts fibers in state
    Scheduled only and those of the wait list are in state Waiting, so the visit of the
    wait list changes nothing, whatever the timeouts and the time. *)
Theorem wait_timeouts_never_fire s L core tick :
  sched_inv s L -> visit_wait_list core tick s = Ok (None, s).
Proof. apply visit_wait_list_nothing. Qed.

End dispatching.

(** * Witnesses *)
(** A scheduler with one core, and two fibers of which the second has a higher priority. *)
Definition example_fiber (p : Z) : FiberLocalStorage :=
  set_activity_level ActivityLevel_Schedulable (set_fiber_state FiberState_Running
    (set_core_mask 1 (set_priority p zero_storage))).
Definition example_idle : UserScheduler :=
  set_m_core_count 1 (set_m_scheduler_fiber_table (<[0%nat:=true]> (replicate MaxCoreCount false))
    (upd (fun _ => example_fiber 4) 2 (upd (fun _ => example_fiber 2) 1 (SchedulerInstance (mkPool None []) ∅)))).

Lemma example_idle_inv : sched_inv example_idle (fun _ => []).
Proof.
  split; [apply family_empty|]. intros h n Hn. by apply not_elem_of_nil in Hn.
Qed.

Definition example_queued : UserScheduler := after_add 2 (after_add 1 example_idle).
Definition example_lists : NodeId -> list NodeId :=
  enqueue (Some (RunHead High)) (SchedNode 2) (enqueue (Some (RunHead Normal)) (SchedNode 1) (fun _ => [])).

Lemma example_queued_inv : sched_inv example_queued example_lists.
Proof.
  apply (inv_after_add (after_add 1 example_idle) _ 2).
  - apply (inv_after_add example_idle _ 1); [apply example_idle_inv|unfold fiber_id, MaxThreadCount; lia|].
    intros h Hn. by apply not_elem_of_nil in Hn.
  - unfold fiber_id, MaxThreadCount; lia.
  - apply loose_insert; [|set_solver]. intros h Hn. by apply not_elem_of_nil in Hn.
Qed.

Lemma example_queued_no_waits : no_waits example_queued example_lists.
Proof.
  intros p f Hin. apply fn_insert_in in Hin as [[_ Hin]|[_ Hin]].
  - apply elem_of_app in Hin as [Hin|[= ->]%list_elem_of_singleton]; [|reflexivity].
    by apply not_elem_of_nil in Hin.
  - apply fn_insert_in in Hin as [[_ Hin]|[_ Hin]]; [|by apply not_elem_of_nil in Hin].
    apply elem_of_app in Hin as [Hin|[= ->]%list_elem_of_singleton]; [|reflexivity].
    by apply not_elem_of_nil in Hin.
Qed.


Lemma wait_timeouts_never_fire_witness : visit_wait_list 0 1000 example_queued = Ok (None, example_queued).
Proof. apply (wait_timeouts_never_fire example_queued example_lists 0 1000 example_queued_inv). Defined.

