(* ===== verification/ThreadSpec.v ===== *)
(** Initialisation and the thread operations of the scheduler: InitializeUKern,
    CreateThread, SetActivity (start, resume, suspend), SetPriority, SetCoreMask and the
    exit of threads.

    [kernel_inv s L slots handles]: the run queue invariant, the free slots of
    UserFiberLocalAllocator and the free entries of the handle table. *)
From stdpp Require Import functions.
From S2P Require Import Prelude Result TimeSpan IntrusiveList ListFamily BusyMutex HandleTable.
From S2P Require Import Allocators Fiber Scheduler SchedulerSpec.

Record kernel_inv (s : UserScheduler) (L : NodeId -> list NodeId) (slots handles : list nat) : Prop := {
  ki_sched : sched_inv s L;
  ki_pool : pool_inv (UserFiberLocalAllocator s) slots;
  ki_slots : length (m_slots (UserFiberLocalAllocator s)) = MaxThreadCount;
  ki_handles : table_inv (m_handle_table s) handles;
  ki_fresh : forall i, i ∈ slots -> loose L (SchedNode (Z.of_nat i)) /\
    loose L (WaitNode (Z.of_nat i)) /\ L (WaitHead (Z.of_nat i)) = []
}.

(** Steps that the kernel invariant does not see. *)
Section allocation.
Implicit Types (s : UserScheduler) (L : NodeId -> list NodeId) (i : nat) (f : Z) (slots handles : list nat).

Lemma inv_construct_node s L n :
  sched_inv s L -> loose L n -> L n = [] -> sched_inv (set_links (ConstructNode n (links s)) s) L.
Proof.
  intros HI Hn E. split; [by apply family_ConstructNode; [apply HI| |]|]. apply (inv_elem s L HI).
Qed.

Lemma AllocateFiber_none s : pool_inv (UserFiberLocalAllocator s) [] -> AllocateFiber s = Ok (None, s).
Proof.
  intros Hp. unfold AllocateFiber, mbind, M_bind, with_allocator, FixedObjectAllocator.Allocate.
  rewrite (PoolAllocate_empty tt _ Hp). by destruct s.
Qed.

(** A slot is taken; links, storage and everything else but the allocator stay. *)
Lemma AllocateFiber_some s L i slots handles :
  kernel_inv s L (i :: slots) handles ->
  exists s', AllocateFiber s = Ok (Some (Z.of_nat i), s') /\ kernel_inv s' L slots handles /\
    fiber_id (Z.of_nat i) /\ (i ∉ slots) /\ loose L (SchedNode (Z.of_nat i)) /\
    s' = set_links (links s') (set_UserFiberLocalAllocator (UserFiberLocalAllocator s') s).
Proof.
  intros [HI Hp Hlen Hh Hf].
  destruct (PoolAllocate_cons tt _ _ _ Hp) as (p' & E & Hp' & Es & Hlt & _).
  destruct (Hf i ltac:(by left)) as (H1 & H2 & H3).
  set (s1 := set_UserFiberLocalAllocator p' s).
  assert (sched_inv s1 L) as HI1 by (by apply (inv_same s)).
  set (s2 := set_links (ConstructNode (SchedNode (Z.of_nat i)) (links s1)) s1).
  assert (sched_inv s2 L) as HI2.
  { apply inv_construct_node; [done|done|by eapply inv_leaf]. }
  set (s3 := set_links (ConstructNode (WaitNode (Z.of_nat i)) (links s2)) s2).
  assert (sched_inv s3 L) as HI3.
  { apply inv_construct_node; [done|done|by eapply inv_leaf]. }
  set (s4 := set_links (ConstructNode (WaitHead (Z.of_nat i)) (links s3)) s3).
  assert (sched_inv s4 L) as HI4.
  { apply inv_construct_node; [done|by eapply inv_head_loose|done]. }
  exists s4. split; [|split; [|split; [|split; [|split]]]].
  - unfold AllocateFiber. rewrite (M_bind_run _ _ s (Some (Z.of_nat i)) s1); [done|].
    unfold with_allocator, FixedObjectAllocator.Allocate. by rewrite E.
  - split; [done|done|cbn; by rewrite Es, length_insert|done|]. intros j Hj. apply Hf. by right.
  - unfold fiber_id. rewrite <- Hlen. lia.
  - destruct Hp as [Hnd _]. by apply NoDup_cons in Hnd as [? _].
  - done.
  - done.
Qed.

Lemma ReserveHandle_kernel s L slots handles f :
  kernel_inv s L slots handles ->
  exists h s', with_handle_table (ReserveHandle (Some f)) s = Ok (h, s') /\
    s' = set_m_handle_table (m_handle_table s') s /\
    match handles with
    | [] => h = None /\ kernel_inv s' L slots []
    | i :: handles => exists c, h = Some (encode i c) /\ kernel_inv s' L slots handles /\
        1 <= c < 2 ^ 15 /\ (i < 256)%nat /\ entry (m_handle_table s') i = Some (c, f)
    end.
Proof.
  intros [HI Hp Hlen Hh Hf].
  assert (forall ht hs, table_inv ht hs -> kernel_inv (set_m_handle_table ht s) L slots hs) as Hk.
  { intros ht hs Hht. split; [by apply (inv_same s)|done|done|done|done]. }
  destruct handles as [|i handles].
  - destruct (reserve_run_full _ f Hh) as (ht' & E & Hht & _).
    exists None, (set_m_handle_table ht' s). unfold with_handle_table. rewrite E.
    split; [done|]. split; [done|]. split; [done|]. by apply Hk.
  - destruct (reserve_run _ i handles f Hh) as (ht' & E & Hht & He).
    exists (Some (encode i (m_counter_value (m_handle_table s)))), (set_m_handle_table ht' s).
    unfold with_handle_table. rewrite E. split; [done|]. split; [done|].
    exists (m_counter_value (m_handle_table s)). split; [done|]. split; [by apply Hk|].
    split; [apply Hh|].
    assert (entry ht' i = Some (m_counter_value (m_handle_table s), f)) as Ei by (by rewrite He, decide_True).
    split; [|done]. destruct Hht as [Hwf _]. by eapply entry_lt.
Qed.

(** Changes to a fiber in no scheduler list, and to the parts the invariant leaves out. *)
Lemma kernel_upd s L slots handles u f :
  kernel_inv s L slots handles -> loose L (SchedNode f) -> kernel_inv (upd u f s) L slots handles.
Proof. intros [HI Hp Hlen Hh Hf] Hl. split; [by apply inv_upd|done..]. Qed.

Lemma kernel_same s s' L slots handles :
  links s' = links s -> fiber_storage s' = fiber_storage s ->
  UserFiberLocalAllocator s' = UserFiberLocalAllocator s -> m_handle_table s' = m_handle_table s ->
  kernel_inv s L slots handles -> kernel_inv s' L slots handles.
Proof.
  intros El Es Ea Eh [HI Hp Hlen Hh Hf]. split; [|by rewrite Ea..|by rewrite Eh|done].
  apply (inv_same s); [done| |done]. intros f. unfold storage. by rewrite Es.
Qed.
Lemma kernel_win32 s L slots handles c :
  kernel_inv s L slots handles -> kernel_inv (set_win32_calls c s) L slots handles.
Proof. by apply kernel_same. Qed.

Lemma kernel_lock s L slots handles b :
  kernel_inv s L slots handles -> kernel_inv (set_m_scheduler_lock b s) L slots handles.
Proof. by apply kernel_same. Qed.

Lemma fresh_insert L slots h l :
  (forall i, i ∈ slots -> loose L (SchedNode (Z.of_nat i)) /\
    loose L (WaitNode (Z.of_nat i)) /\ L (WaitHead (Z.of_nat i)) = []) ->
  (forall i, i ∈ slots -> (SchedNode (Z.of_nat i) ∉ l) /\ (WaitNode (Z.of_nat i) ∉ l) /\ h <> WaitHead (Z.of_nat i)) ->
  forall i, i ∈ slots -> loose (<[h := l]> L) (SchedNode (Z.of_nat i)) /\
    loose (<[h := l]> L) (WaitNode (Z.of_nat i)) /\ (<[h := l]> L : NodeId -> list NodeId) (WaitHead (Z.of_nat i)) = [].
Proof.
  intros HL Hl i Hi. destruct (HL i Hi) as (H1 & H2 & H3). destruct (Hl i Hi) as (H4 & H5 & H6).
  split; [by apply loose_insert|]. split; [by apply loose_insert|]. by rewrite fn_lookup_insert_ne.
Qed.

Lemma kernel_push s L slots handles f h :
  kernel_inv s L slots handles -> fiber_id f -> loose L (SchedNode f) -> placed h (storage s f) ->
  (forall i, i ∈ slots -> Z.of_nat i <> f) ->
  kernel_inv (set_links (PushBack h (SchedNode f) (links s)) s) (<[h := L h ++ [SchedNode f]]> L) slots handles.
Proof.
  intros [HI Hp Hlen Hh Hf] Hid Hl Hpl Hs. split; [by apply inv_push|done..|].
  apply fresh_insert; [done|]. intros i Hi. destruct (Hf i Hi) as (H1 & H2 & H3).
  split; [|split]; [| |by destruct h].
  - intros [Hin|[= E]%list_elem_of_singleton]%elem_of_app; [by apply H1 in Hin|by apply (Hs i)].
  - intros [Hin|[=]%list_elem_of_singleton]%elem_of_app. by apply H2 in Hin.
Qed.

Lemma upd_upd u v f s : upd u f (upd v f s) = upd (u ∘ v) f s.
Proof.
  unfold upd at 1. rewrite storage_upd, decide_True by done. unfold upd. cbn. by rewrite insert_insert_eq.
Qed.
End allocation.

(** * Creating threads *)
Definition initial_name (x : FiberLocalStorage) : string :=
  if user_function x =? 0 then strncpy "MainThread" MaxFiberNameLength
  else String.append "Thread0x" (hex_digits 8 (u32 (user_function x))).

Lemma SetInitialFiberName_run f s :
  SetInitialFiberNameUnsafe f s = Ok (tt, upd (set_fiber_name_storage (initial_name (storage s f))) f s).
Proof. reflexivity. Qed.

Section create.
Implicit Types (s : UserScheduler) (L : NodeId -> list NodeId) (slots handles : list nat).

Definition create_checks (core_mask thread_func stack_size priority core_id : Z) : option Z :=
  if thread_func =? 0 then Some ukern.ResultInvalidThreadFunctionPointer
  else if stack_size =? 0 then Some ukern.ResultInvalidStackSize
  else if negb ((-2 <=? priority) && (priority <=? 2)) then Some ukern.ResultInvalidPriority
  else if Z.land (u64 (s32 (Z.shiftl 1 core_id))) core_mask =? 0 then Some ukern.ResultInvalidCoreId
  else None.

(** The part of CreateThreadImpl after the handle is reserved. *)
Lemma create_tail s L slots handles f h thread_func arg stack_size priority bit :
  kernel_inv s L slots handles -> fiber_id (Z.of_nat f) -> f ∉ slots -> loose L (SchedNode (Z.of_nat f)) ->
  let fiber := Z.of_nat f in
  exists s', (
    update (set_ukern_fiber_handle h) fiber;;
    update (set_priority (priority + WindowsToUKernPriorityOffset)) fiber;;
    update (set_stack_size stack_size) fiber;;
    update (set_core_mask bit) fiber;;
    update (set_user_arg arg) fiber;;
    update (set_user_function thread_func) fiber;;
    update (set_fiber_state FiberState_Suspended) fiber;;
    update (set_activity_level ActivityLevel_Suspended) fiber;;
    SetInitialFiberNameUnsafe fiber;;
    win32 (CreateUserFiber fiber);;
    update (set_win32_fiber_handle true) fiber;;
    modify_nodes (PushBack SuspendHead (SchedNode fiber));;
    h ← member ukern_fiber_handle fiber;
    mret (ResultSuccess, Some h)) s = Ok ((ResultSuccess, Some h), s') /\
    kernel_inv s' (<[SuspendHead := L SuspendHead ++ [SchedNode fiber]]> L) slots handles /\
    m_handle_table s' = m_handle_table s /\
    let x := storage s' fiber in
    Fiber.priority x = priority + 2 /\ Fiber.core_mask x = bit /\
    Fiber.user_function x = thread_func /\ Fiber.user_arg x = arg /\
    activity_level x = ActivityLevel_Suspended /\ ukern_fiber_handle x = h.
Proof.
  intros HK Hid Hns Hl fiber. run. rewrite !upd_upd.
  rewrite (M_bind_run _ _ _ _ _ (SetInitialFiberName_run fiber _)). run.
  match goal with |- context [upd ?u fiber s] => set (U := u) end.
  set (V := set_fiber_name_storage _).
  set (s1 := upd V fiber (upd U fiber s)).
  set (s2 := upd (set_win32_fiber_handle true) fiber (set_win32_calls (win32_calls s1 ++ [CreateUserFiber fiber]) s1)).
  assert (kernel_inv s2 L slots handles) as HK2.
  { apply kernel_upd; [|done]. apply kernel_win32. apply kernel_upd; [|done]. by apply kernel_upd. }
  assert (storage s2 fiber = set_win32_fiber_handle true (V (U (storage s fiber)))) as E2.
  { unfold s2. rewrite storage_upd, decide_True by done. f_equal.
    change (storage s1 fiber = V (U (storage s fiber))). unfold s1.
    by rewrite !storage_upd, !decide_True by done. }
  exists (set_links (PushBack SuspendHead (SchedNode fiber) (links s2)) s2).
  change (storage (set_links (PushBack SuspendHead (SchedNode fiber) (links s2)) s2) fiber)
    with (storage s2 fiber). rewrite E2.
  split; [|split; [|split]].
  - reflexivity.
  - apply kernel_push; [done|done|done| |].
    + rewrite E2. by left.
    + intros j Hj ->%Nat2Z.inj. done.
  - done.
  - repeat split.
Qed.

End create.

(** * InitializeUKern *)
Section initialize.
Implicit Types (s : UserScheduler).

Lemma popcount_nonneg bits : forall x, 0 <= popcount bits x.
Proof.
  induction bits as [|bits IH]; intros x; cbn [popcount]; [lia|].
  specialize (IH (Z.shiftr x 1)).
  assert (Z.land x 1 = x mod 2 ^ 1) as -> by (apply (land_ones_mod x 1); lia).
  pose proof (Z.mod_pos_bound x (2 ^ 1) ltac:(lia)). lia.
Qed.

Lemma create_scheduler_threads_run n : forall i s,
  length (m_scheduler_thread_table s) = MaxCoreCount -> 0 <= i -> i + Z.of_nat n <= 32 ->
  exists t c, create_scheduler_threads n i s =
    Ok (tt, set_win32_calls c (set_m_scheduler_thread_table t s)).
Proof.
  induction n as [|n IH]; intros i s Hlen Hi Hn.
  - exists (m_scheduler_thread_table s), (win32_calls s). by destruct s.
  - cbn [create_scheduler_threads]. run.
    assert (arr_set (m_scheduler_thread_table s) i true = Ok (<[Z.to_nat i := true]> (m_scheduler_thread_table s))) as E.
    { rewrite <- (Z2Nat.id i) at 1 by lia. apply arr_set_insert. rewrite Hlen. unfold MaxCoreCount. lia. }
    rewrite (bind_lift _ _ _ _ E). run. rewrite (bind_lift _ _ _ _ (core_bit_ok i ltac:(lia))). run.
    destruct (IH (i + 1) (set_win32_calls
      (((win32_calls s ++ [CreateSchedulerThread i]) ++ [SetThreadAffinityMask i (u64 (s32 (1 ≪ i)))])
         ++ [ResumeSchedulerThread i])
      (set_m_scheduler_thread_table (<[Z.to_nat i := true]> (m_scheduler_thread_table s)) s)))
      as (t & c & E'); [by cbn; rewrite length_insert|lia|lia|].
    exists t, c. exact E'.
Qed.

(** A mask of more than MaxCoreCount cores writes past the thread table. *)
Lemma create_scheduler_threads_fault n : forall i s,
  length (m_scheduler_thread_table s) = MaxCoreCount -> 0 <= i <= 32 -> 32 < i + Z.of_nat n ->
  create_scheduler_threads n i s = Fault OutOfBounds.
Proof.
  induction n as [|n IH]; intros i s Hlen Hi Hn; [lia|].
  cbn [create_scheduler_threads]. run. destruct (decide (i = 32)) as [->|Hne].
  - apply M_bind_fault. unfold lift. cbn [win32 m_scheduler_thread_table].
    change (m_scheduler_thread_table (set_win32_calls _ s)) with (m_scheduler_thread_table s).
    rewrite (arr_set_oob _ 32%nat); [done|]. rewrite Hlen. done.
  - assert (arr_set (m_scheduler_thread_table s) i true = Ok (<[Z.to_nat i := true]> (m_scheduler_thread_table s))) as E.
    { rewrite <- (Z2Nat.id i) at 1 by lia. apply arr_set_insert. rewrite Hlen. unfold MaxCoreCount. lia. }
    rewrite (bind_lift _ _ _ _ E). run. rewrite (bind_lift _ _ _ _ (core_bit_ok i ltac:(lia))). run.
    apply IH; [by cbn; rewrite length_insert|lia|lia].
Qed.

Lemma kernel_initial p memory ht slots handles :
  pool_inv p slots -> length (m_slots p) = MaxThreadCount -> table_inv ht handles ->
  kernel_inv (set_m_handle_table ht (SchedulerInstance p memory)) (fun _ => []) slots handles.
Proof.
  intros Hp Hl Hh. split; [|done..|].
  - split; [apply family_empty|]. intros h n Hn. by apply not_elem_of_nil in Hn.
  - intros i _. split; [|split; [|done]]; intros h Hn; by apply not_elem_of_nil in Hn.
Qed.
End initialize.

Section initialize_theorem.
Implicit Types (s : UserScheduler).

(** The members that the main thread's fiber gets. *)
Definition main_members (h : Z) (x : FiberLocalStorage) : FiberLocalStorage :=
  set_ukern_fiber_handle h (set_win32_fiber_handle true (set_activity_level ActivityLevel_Schedulable
    (set_fiber_state FiberState_Running (set_core_mask 1 (set_current_core 0 (set_priority 2 x)))))).

Lemma Initialize_run_cores mask memory pool :
  FixedObjectAllocator.construct MaxThreadCount = Ok pool ->
  let count := CountOneBits64 mask in
  if decide (count <= 32) then
    exists s c, Scheduler_Initialize mask (SchedulerInstance pool memory) = Ok (tt, s) /\
      kernel_inv s (fun _ => []) (seq 1 255) (reverse (seq 0 255)) /\
      m_scheduler_lock s = false /\ m_core_mask s = mask /\ m_core_count s = count /\
      user_memory s = memory /\ m_active_cores s = count /\ m_runnable_fibers s = 0 /\
      storage s 0 = set_fiber_name_storage "MainThread" (main_members (encode 255 c) zero_storage) /\
      entry (m_handle_table s) 255 = Some (c, 0) /\ (0 < count -> on_core s 0)
  else Scheduler_Initialize mask (SchedulerInstance pool memory) = Fault OutOfBounds.
Proof.
  intros Hpool count.
  destruct (FixedObjectAllocator_construct (T := unit) MaxThreadCount ltac:(unfold MaxThreadCount; lia))
    as (pool' & Epool & Hpi & Hpl).
  rewrite Hpool in Epool. injection Epool as <-. clear Hpool.
  destruct (@Initialize_inv Z) as (ht & Eht & Hht).
  set (s0 := SchedulerInstance pool memory).
  set (s1 := set_m_scheduler_thread_table (<[0%nat:=true]> (replicate MaxCoreCount false))
    (set_win32_calls [SetThreadAffinityMask 0 1] (set_m_core_mask mask
      (set_m_core_count count (set_m_active_cores count (set_m_handle_table ht s0)))))).
  assert (kernel_inv s1 (fun _ => []) (0%nat :: seq 1 255) (255%nat :: reverse (seq 0 255))) as HK1.
  { apply (kernel_same (set_m_handle_table ht s0)); [done..|]. by apply kernel_initial. }
  clear Hpi Hpl Hht. destruct (AllocateFiber_some s1 _ _ _ _ HK1) as (s2 & E2 & HK2 & Hid & Hns & _ & Es2).
  change (Z.of_nat 0) with 0 in *.
  set (s3 := upd (set_activity_level ActivityLevel_Schedulable) 0 (upd (set_fiber_state FiberState_Running) 0
    (upd (set_core_mask 1) 0 (upd (set_current_core 0) 0 (upd (set_priority 2) 0 s2))))).
  set (s3' := upd (set_win32_fiber_handle true) 0 (set_win32_calls (win32_calls s2 ++ [ConvertThreadToFiber 0]) s3)).
  set (s4 := set_m_scheduler_fiber_table (<[0%nat:=true]> (replicate MaxCoreCount false))
    (set_win32_calls ((win32_calls s2 ++ [ConvertThreadToFiber 0]) ++ [CreateMainSchedulerFiber]) s3')).
  assert (forall n : NodeId, loose (fun _ => []) n) as Hloose by (intros n h Hn; by apply not_elem_of_nil in Hn).
  assert (kernel_inv s4 (fun _ => []) (seq 1 255) (255%nat :: reverse (seq 0 255))) as HK4.
  { apply (kernel_same s3'); [done..|]. apply kernel_upd; [|done]. apply kernel_win32.
    repeat (apply kernel_upd; [|done]). done. }
  destruct (ReserveHandle_kernel s4 _ _ _ 0 HK4) as (h & s5 & E5 & Es5 & c & -> & HK5 & Hc & _ & He).
  set (s6 := upd (set_fiber_name_storage "MainThread") 0 (upd (set_ukern_fiber_handle (encode 255 c)) 0 s5)).
  assert (kernel_inv s6 (fun _ => []) (seq 1 255) (reverse (seq 0 255))) as HK6.
  { apply kernel_upd; [|done]. by apply kernel_upd. }
  assert (storage s5 0 = set_win32_fiber_handle true (set_activity_level ActivityLevel_Schedulable
    (set_fiber_state FiberState_Running (set_core_mask 1 (set_current_core 0 (set_priority 2 zero_storage))))))
    as Est5.
  { rewrite Es5. change (storage s3' 0 = set_win32_fiber_handle true
      (set_activity_level ActivityLevel_Schedulable (set_fiber_state FiberState_Running
        (set_core_mask 1 (set_current_core 0 (set_priority 2 zero_storage)))))).
    unfold s3'. rewrite storage_upd, decide_True by done. f_equal.
    change (storage s3 0 = set_activity_level ActivityLevel_Schedulable (set_fiber_state FiberState_Running
        (set_core_mask 1 (set_current_core 0 (set_priority 2 zero_storage))))).
    unfold s3. rewrite !storage_upd, !decide_True by done. by rewrite Es2. }
  assert (storage s6 0 = set_fiber_name_storage "MainThread" (main_members (encode 255 c) zero_storage)) as Est.
  { unfold s6. rewrite !storage_upd, !decide_True by done. by rewrite Est5. }
  assert (Scheduler_Initialize mask s0 = create_scheduler_threads (Z.to_nat count - 1) 1 s6) as Erun.
  { unfold Scheduler_Initialize. fold count. run.
    change (m_handle_table _) with (@construct Z) at 1. rewrite (bind_lift _ _ _ _ Eht). run.
    rewrite (bind_lift _ (<[0%nat:=true]> (replicate MaxCoreCount false))) by done. run.
    match goal with |- (_ ≫= _) ?st = _ => change st with s1 end.
    rewrite (M_bind_run _ _ _ _ _ E2). cbn [deref]. run.
    match goal with |- context [lift (arr_set ?t 0 true)] =>
      change t with (m_scheduler_fiber_table s2); replace (m_scheduler_fiber_table s2)
        with (replicate MaxCoreCount false) by (by rewrite Es2) end.
    rewrite (bind_lift _ (<[0%nat:=true]> (replicate MaxCoreCount false))) by done. run.
    match goal with |- (_ ≫= _) ?st = _ => change st with s4 end.
    rewrite (M_bind_run _ _ _ _ _ E5), bind_assert by done. run.
    rewrite (M_bind_run _ _ _ _ _ (SetInitialFiberName_run 0 _)).
    unfold initial_name. rewrite storage_upd, decide_True, Est5 by done. done. }
  assert (m_scheduler_thread_table s6 = <[0%nat:=true]> (replicate MaxCoreCount false)) as Ett.
  { clear -Es5 Es2. unfold s6. cbn. rewrite Es5. cbn. rewrite Es2. reflexivity. }
  assert (m_core_mask s6 = mask /\ m_core_count s6 = count /\ m_scheduler_lock s6 = false /\
    user_memory s6 = memory /\ m_active_cores s6 = count /\ m_runnable_fibers s6 = 0 /\ m_scheduler_fiber_table s6 = <[0%nat:=true]> (replicate MaxCoreCount false))
    as (Em & Ec & El & Eme & Ea & Er & Ef).
  { clear -Es5 Es2. unfold s6. cbn. rewrite Es5. cbn. rewrite Es2. repeat split. }
  rewrite Erun. clear Erun Eht E2 E5. case_decide as Hcount.
  - destruct (create_scheduler_threads_run (Z.to_nat count - 1) 1 s6) as (t & calls & E7);
      [by rewrite Ett|lia|pose proof (popcount_nonneg 64 mask) as Hp; fold (CountOneBits64 mask) in Hp; fold count in Hp; lia|].
    exists (set_win32_calls calls (set_m_scheduler_thread_table t s6)), c.
    split; [done|]. split; [by apply (kernel_same s6)|].
    do 6 (split; [assumption|]). split; [exact Est|]. split; [exact He|]. intros Hpos. unfold on_core.
    change (storage (set_win32_calls _ _) 0) with (storage s6 0). rewrite Est. cbn [m_core_count].
    change (m_core_count (set_win32_calls _ _)) with (m_core_count s6). rewrite Ec. split; [change (0 <= 0 < count); lia|].
    change (m_scheduler_fiber_table (set_win32_calls _ _)) with (m_scheduler_fiber_table s6). by rewrite Ef.
  - apply create_scheduler_threads_fault; [by rewrite Ett|lia|lia].
Qed.

Lemma Initialize_run mask memory pool :
  FixedObjectAllocator.construct MaxThreadCount = Ok pool ->
  let count := CountOneBits64 mask in
  if decide (count <= 32) then
    exists s c, Scheduler_Initialize mask (SchedulerInstance pool memory) = Ok (tt, s) /\
      kernel_inv s (fun _ => []) (seq 1 255) (reverse (seq 0 255)) /\
      m_scheduler_lock s = false /\ m_core_mask s = mask /\ m_core_count s = count /\
      user_memory s = memory /\
      storage s 0 = set_fiber_name_storage "MainThread" (main_members (encode 255 c) zero_storage) /\
      entry (m_handle_table s) 255 = Some (c, 0) /\ (0 < count -> on_core s 0)
  else Scheduler_Initialize mask (SchedulerInstance pool memory) = Fault OutOfBounds.
Proof.
  intros Hpool count. pose proof (Initialize_run_cores mask memory pool Hpool) as Hi. cbv zeta in Hi. fold count in Hi.
  case_decide; [|done]. destruct Hi as (s & c & ? & ? & ? & ? & ? & ? & _ & _ & ? & ? & ?). exists s, c. by split_and!.
Qed.

(** [C5] InitializeUKern, for a mask of at most MaxCoreCount cores: the main thread is the
    running fiber 0 on core 0 with a valid handle, no fiber is queued, 255 fibers and
    handles are free.  A mask of more cores writes past the thread table. *)
Theorem initialize_ukern mask memory pool :
  FixedObjectAllocator.construct MaxThreadCount = Ok pool ->
  let count := CountOneBits64 mask in
  if decide (count <= 32) then
    exists s c, Scheduler_Initialize mask (SchedulerInstance pool memory) = Ok (tt, s) /\
      kernel_inv s (fun _ => []) (seq 1 255) (reverse (seq 0 255)) /\
      m_scheduler_lock s = false /\ m_core_mask s = mask /\ m_core_count s = count /\
      user_memory s = memory /\
      storage s 0 = set_fiber_name_storage "MainThread" (main_members (encode 255 c) zero_storage) /\
      entry (m_handle_table s) 255 = Some (c, 0) /\ (0 < count -> on_core s 0)
  else Scheduler_Initialize mask (SchedulerInstance pool memory) = Fault OutOfBounds.
Proof. apply Initialize_run. Qed.

(** The scheduler of a single core, just initialised. *)
Lemma booted : exists s c, kernel_inv s (fun _ => []) (seq 1 255) (reverse (seq 0 255)) /\
  m_scheduler_lock s = false /\ m_core_mask s = 1 /\ m_core_count s = 1 /\ on_core s 0 /\
  storage s 0 = set_fiber_name_storage "MainThread" (main_members (encode 255 c) zero_storage) /\
  entry (m_handle_table s) 255 = Some (c, 0).
Proof.
  destruct (FixedObjectAllocator_construct (T := unit) MaxThreadCount ltac:(unfold MaxThreadCount; lia))
    as (pool & Epool & _).
  pose proof (Initialize_run 1 ∅ pool Epool) as Hi. cbv zeta in Hi.
  change (CountOneBits64 1) with 1 in Hi. rewrite decide_True in Hi by lia.
  destruct Hi as (s & c & _ & ? & ? & ? & ? & _ & ? & ? & Hc).
  exists s, c. do 5 (split; [assumption || (apply Hc; lia)|]). by split.
Qed.
End initialize_theorem.

(** * Changing and ending threads *)
Section change.
Implicit Types (s : UserScheduler) (L : NodeId -> list NodeId) (f : Z) (slots handles : list nat).

(** The end of the three setters: the changed fiber is unlinked and queued again. *)
Definition after_reschedule (u : FiberLocalStorage -> FiberLocalStorage) f s : UserScheduler :=
  after_add f (set_links (Unlink (SchedNode f) (links s)) (upd u f s)).

Lemma inv_reschedule s L f u :
  sched_inv s L -> fiber_id f ->
  sched_inv (after_reschedule u f s)
    (enqueue (destination (u (storage s f))) (SchedNode f) (without (SchedNode f) L)).
Proof.
  intros HI Hf. unfold after_reschedule.
  set (s1 := set_links _ _).
  assert (storage s1 f = u (storage s f)) as E.
  { change (storage (upd u f s) f = u (storage s f)). by rewrite storage_upd, decide_True. }
  rewrite <- E. apply inv_after_add; [|done|apply without_loose].
  change (sched_inv (upd u f (set_links (Unlink (SchedNode f) (links s)) s)) (without (SchedNode f) L)).
  apply inv_upd; [by apply inv_unlink|apply without_loose].
Qed.

Lemma reschedule_run f u s {A} (k : unit -> M UserScheduler A) :
  ((modify_nodes (Unlink (SchedNode f));; AddToSchedulerUnsafe f) ≫= k) (upd u f s) =
  k tt (after_reschedule u f s).
Proof. rewrite (M_bind_run _ _ _ tt (after_reschedule u f s)); [done|]. run. apply AddToSchedulerUnsafe_run. Qed.

(** StartThread, ResumeThread and SuspendThread: an unchanged activity level is
    ResultSameActivityLevel; a fiber that is scheduled or suspended moves at once to the
    tail of the list its new activity level and its priority select, and a running or
    waiting fiber only gets the new level. *)
Theorem set_activity s L f handle activity s1 :
  sched_inv s L -> m_scheduler_lock s = false -> fiber_id f ->
  GetFiberByHandle handle s = Ok (Some f, s1) ->
  let x := set_activity_level activity (storage s f) in
  if activity_level (storage s f) =? activity
  then SetActivityImpl handle activity s = Ok (ukern.ResultSameActivityLevel, s1)
  else exists s', SetActivityImpl handle activity s = Ok (ResultSuccess, s') /\
    if decide (fiber_state x = FiberState_Scheduled \/ fiber_state x = FiberState_Suspended)
    then sched_inv s' (enqueue (destination x) (SchedNode f) (without (SchedNode f) L)) /\
      storage s' f = set_fiber_state (if activity =? ActivityLevel_Suspended
        then FiberState_Suspended else FiberState_Scheduled) x
    else sched_inv s' L /\ storage s' f = x.
Proof.
  intros HI Hl Hf Hg x.
  pose proof (GetFiberByHandle_frame _ _ _ _ Hg) as Es1.
  pose proof (inv_GetFiberByHandle _ _ _ _ _ Hg HI) as HI1.
  assert (m_scheduler_lock s1 = false) as Hl1 by (by rewrite Es1).
  assert (storage s1 f = storage s f) as Ex by (by rewrite Es1).
  unfold SetActivityImpl. rewrite (M_bind_run _ _ _ _ _ Hg).
  set (s2 := set_m_scheduler_lock true s1).
  assert (sched_inv s2 L) as HI2 by (by apply inv_lock).
  assert (set_m_scheduler_lock false s2 = s1) as Es2 by (destruct s1; cbn in *; by subst).
  destruct (activity_level (storage s f) =? activity) eqn:Ea.
  - rewrite <- Es2 at 2. apply scheduler_locked_run; [done|]. fold s2. run.
    change (storage s2 f) with (storage s1 f). by rewrite Ex, Ea.
  - case_decide as Hst.
    + exists (set_m_scheduler_lock false (after_reschedule (set_activity_level activity) f s2)).
      split; [|split].
      * apply scheduler_locked_run; [done|]. fold s2. run.
        change (storage s2 f) with (storage s1 f). rewrite Ex, Ea. run.
        rewrite storage_upd, decide_True by done. change (storage s2 f) with (storage s1 f). rewrite Ex.
        replace (_ || _) with true; [by rewrite reschedule_run|].
        symmetry. apply orb_true_iff. by rewrite !bool_decide_eq_true.
      * apply inv_lock. unfold x. rewrite <- Ex. by apply (inv_reschedule s2).
      * change (storage (set_m_scheduler_lock false ?t) f) with (storage t f).
        unfold after_reschedule. rewrite after_add_storage, decide_True by done.
        change (storage (set_links _ ?t) f) with (storage t f). rewrite storage_upd, decide_True by done.
        change (storage s2 f) with (storage s1 f). by rewrite Ex.
    + exists (set_m_scheduler_lock false (upd (set_activity_level activity) f s2)). split; [|split].
      * apply scheduler_locked_run; [done|]. fold s2. run.
        change (storage s2 f) with (storage s1 f). rewrite Ex, Ea. run.
        rewrite storage_upd, decide_True by done. change (storage s2 f) with (storage s1 f). rewrite Ex.
        replace (_ || _) with false; [done|].
        symmetry. apply orb_false_iff. rewrite !bool_decide_eq_false. cbn in Hst. tauto.
      * apply inv_lock, inv_upd_placed; [done|]. change (storage s2 f) with (storage s1 f). rewrite Ex.
        intros [| | |p| |] Hp; cbn in *; tauto.
      * change (storage (set_m_scheduler_lock false ?t) f) with (storage t f).
        rewrite storage_upd, decide_True by done. change (storage s2 f) with (storage s1 f). by rewrite Ex.
Qed.
(** Unlinked and not queued again, a fiber is in no list. *)
Lemma lost_fiber L f x : destination x = None -> loose (enqueue (destination x) (SchedNode f) (without (SchedNode f) L)) (SchedNode f).
Proof. intros ->. apply without_loose. Qed.

(** SetThreadPriority refuses the documented priorities -2 .. 2, for the test of its
    argument is inverted, and stores any other value without the offset of 2 that
    CreateThread adds; a scheduled fiber that gets a value above 4 or below 0 is taken out
    of its queue and put in none, so no pass runs it again. *)
Theorem set_priority_inverted s L f handle p s1 :
  sched_inv s L -> m_scheduler_lock s = false -> fiber_id f ->
  GetFiberByHandle handle s = Ok (Some f, s1) ->
  fiber_state (storage s f) = FiberState_Scheduled -> activity_level (storage s f) <> ActivityLevel_Suspended ->
  if (-2 <=? p) && (p <=? 2) then SetPriorityImpl handle p s = Ok (ukern.ResultInvalidPriority, s)
  else if priority (storage s f) =? p then SetPriorityImpl handle p s = Ok (ukern.ResultSamePriority, s1)
  else exists s' L', SetPriorityImpl handle p s = Ok (ResultSuccess, s') /\ sched_inv s' L' /\
    priority (storage s' f) = p /\
    if (0 <=? p) && (p <=? 4)
    then exists q, run_list_of p = Some q /\
           L' = <[RunHead q := without (SchedNode f) L (RunHead q) ++ [SchedNode f]]> (without (SchedNode f) L)
    else loose L' (SchedNode f).
Proof.
  intros HI Hl Hf Hg Hst Hact. unfold SetPriorityImpl.
  destruct ((-2 <=? p) && (p <=? 2)) eqn:Ep; [done|].
  pose proof (GetFiberByHandle_frame _ _ _ _ Hg) as Es1.
  pose proof (inv_GetFiberByHandle _ _ _ _ _ Hg HI) as HI1.
  assert (m_scheduler_lock s1 = false) as Hl1 by (by rewrite Es1).
  assert (storage s1 f = storage s f) as Ex by (by rewrite Es1).
  rewrite (M_bind_run _ _ _ _ _ Hg).
  set (s2 := set_m_scheduler_lock true s1).
  assert (sched_inv s2 L) as HI2 by (by apply inv_lock).
  assert (set_m_scheduler_lock false s2 = s1) as Es2 by (destruct s1; cbn in *; by subst).
  assert (storage s2 f = storage s f) as Ex2 by exact Ex.
  destruct (priority (storage s f) =? p) eqn:Ea.
  - rewrite <- Es2 at 2. apply scheduler_locked_run; [done|]. fold s2. run. by rewrite Ex2, Ea.
  - pose proof (inv_reschedule s2 L f (set_priority p) HI2 Hf) as HI3. rewrite Ex2 in HI3.
    eexists (set_m_scheduler_lock false (after_reschedule (set_priority p) f s2)), _.
    split; [|split; [by apply inv_lock|split]].
    + apply scheduler_locked_run; [done|]. fold s2. run. rewrite Ex2, Ea. run.
      rewrite storage_upd, decide_True, Ex2, bool_decide_true by done. by rewrite reschedule_run.
    + change (storage (set_m_scheduler_lock false ?t) f) with (storage t f).
      unfold after_reschedule. rewrite after_add_storage, decide_True by done.
      change (storage (set_links _ ?t) f) with (storage t f). by rewrite storage_upd, decide_True.
    + assert (destination (set_priority p (storage s f)) = RunHead <$> run_list_of p) as Ed.
      { unfold destination. cbn [activity_level set_priority priority].
        by destruct (Z.eqb_spec (activity_level (storage s f)) ActivityLevel_Suspended). }
      destruct ((0 <=? p) && (p <=? 4)) eqn:Er.
      * apply andb_true_iff in Er as [H0%Z.leb_le H4%Z.leb_le]. rewrite Ed.
        assert (exists q, run_list_of p = Some q) as [q Hq].
        { assert (p = 0 \/ p = 1 \/ p = 2 \/ p = 3 \/ p = 4) as [->|[->|[->|[->| ->]]]] by lia; by eexists. }
        exists q. by rewrite Hq.
      * apply lost_fiber. rewrite Ed. unfold run_list_of. destruct p as [|q|q]; [done| |done].
        repeat (destruct q as [q|q|]; try done).
Qed.

(** SetThreadCoreMask: the same mask is refused; otherwise the mask is stored and a
    scheduled fiber goes to the tail of its queue, another stays where it is. *)
Theorem set_core_mask_requeues s L f handle mask s1 :
  sched_inv s L -> m_scheduler_lock s = false -> fiber_id f ->
  GetFiberByHandle handle s = Ok (Some f, s1) ->
  if core_mask (storage s f) =? mask then SetCoreMaskImpl handle mask s = Ok (ukern.ResultSameCoreMask, s1)
  else exists s', SetCoreMaskImpl handle mask s = Ok (ResultSuccess, s') /\
    core_mask (storage s' f) = mask /\
    sched_inv s' (if decide (fiber_state (storage s f) = FiberState_Scheduled)
                  then enqueue (destination (storage s f)) (SchedNode f) (without (SchedNode f) L) else L).
Proof.
  intros HI Hl Hf Hg. unfold SetCoreMaskImpl.
  pose proof (GetFiberByHandle_frame _ _ _ _ Hg) as Es1.
  pose proof (inv_GetFiberByHandle _ _ _ _ _ Hg HI) as HI1.
  assert (m_scheduler_lock s1 = false) as Hl1 by (by rewrite Es1).
  assert (storage s1 f = storage s f) as Ex by (by rewrite Es1).
  rewrite (M_bind_run _ _ _ _ _ Hg).
  set (s2 := set_m_scheduler_lock true s1).
  assert (sched_inv s2 L) as HI2 by (by apply inv_lock).
  assert (set_m_scheduler_lock false s2 = s1) as Es2 by (destruct s1; cbn in *; by subst).
  assert (storage s2 f = storage s f) as Ex2 by exact Ex.
  destruct (core_mask (storage s f) =? mask) eqn:Ea.
  { rewrite <- Es2 at 2. apply scheduler_locked_run; [done|]. fold s2. run. by rewrite Ex2, Ea. }
  case_decide as Hst.
  - pose proof (inv_reschedule s2 L f (set_core_mask mask) HI2 Hf) as HI3. rewrite Ex2 in HI3.
    exists (set_m_scheduler_lock false (after_reschedule (set_core_mask mask) f s2)).
    split; [|split; [|by apply inv_lock]].
    + apply scheduler_locked_run; [done|]. fold s2. run. rewrite Ex2, Ea. run.
      rewrite storage_upd, decide_True, Ex2, bool_decide_true by done. by rewrite reschedule_run.
    + change (storage (set_m_scheduler_lock false ?t) f) with (storage t f).
      unfold after_reschedule. rewrite after_add_storage, decide_True by done.
      change (storage (set_links _ ?t) f) with (storage t f). by rewrite storage_upd, decide_True.
  - exists (set_m_scheduler_lock false (upd (set_core_mask mask) f s2)). split; [|split].
    + apply scheduler_locked_run; [done|]. fold s2. run. rewrite Ex2, Ea. run.
      by rewrite storage_upd, decide_True, Ex2, bool_decide_false.
    + change (storage (set_m_scheduler_lock false ?t) f) with (storage t f).
      by rewrite storage_upd, decide_True.
    + apply inv_lock, inv_upd_placed; [done|]. rewrite Ex2. by intros [].
Qed.

(** A fiber whose thread function returns gives its slot back to the allocator, except
    fiber 0, for which Free's assertion fails; its handle stays valid and keeps naming the
    slot, so ExitThread, which waits until the handle is invalid, goes on sleeping. *)
Theorem exit_keeps_handle s L slots handles cur i c :
  kernel_inv s L slots handles -> m_scheduler_lock s = false -> on_core s (Z.of_nat cur) ->
  fiber_state (storage s (Z.of_nat cur)) = FiberState_Running ->
  object_at (UserFiberLocalAllocator s) cur = Some tt ->
  (i < 256)%nat -> 0 <= c < 2 ^ 15 -> entry (m_handle_table s) i = Some (c, Z.of_nat cur) ->
  let core := current_core (storage s (Z.of_nat cur)) in
  exists s1, ExitFiberImpl (Z.of_nat cur) s = Ok (tt, s1) /\
    if decide (cur = 0%nat) then Dispatch_resume 0 core s1 = Fault AssertFailed
    else exists s2, Dispatch_resume (Z.of_nat cur) core s1 = Ok (tt, s2) /\
      pool_inv (UserFiberLocalAllocator s2) (cur :: slots) /\
      exists s3, GetFiberByHandle (encode i c) s2 = Ok (Some (Z.of_nat cur), s3).
Proof.
  intros HK Hl Hc Hr Ho Hi Hcr He core. set (f := Z.of_nat cur) in *.
  set (s1 := upd (set_fiber_state FiberState_Exiting) f (set_m_scheduler_lock true s)).
  assert (storage s1 f = set_fiber_state FiberState_Exiting (storage s f)) as Es1.
  { unfold s1. by rewrite storage_upd, decide_True. }
  exists s1. split.
  { unfold ExitFiberImpl, AcquireSRWLockExclusive. unfold mbind at 1, M_bind at 1. run. rewrite Hl. unfold modify.
    run. apply SwitchToScheduler_run. destruct Hc as [Hc Ht]. by split; rewrite Es1. }
  assert (Dispatch_resume f core s1 =
    with_allocator (FixedObjectAllocator.Free f) (set_win32_calls (win32_calls s1 ++ [DeleteFiber f]) s1)) as E.
  { unfold Dispatch_resume. run. rewrite bind_assert; [|rewrite Es1; apply Z.eqb_refl]. run.
    rewrite Es1. by run. }
  case_decide as H0.
  - subst cur. change 0 with f. by rewrite E.
  - destruct (pool_free_law (UserFiberLocalAllocator s) slots cur tt (ki_pool _ _ _ _ HK) Ho)
      as (p' & Ef & Hp' & _).
    set (s2 := set_UserFiberLocalAllocator p' (set_win32_calls (win32_calls s1 ++ [DeleteFiber f]) s1)).
    exists s2. split; [|split; [done|]].
    + rewrite E. unfold with_allocator.
      change (UserFiberLocalAllocator _) with (UserFiberLocalAllocator s).
      unfold f. rewrite (FixedObjectAllocator_Free _ _ _ Ho H0), Ef. done.
    + destruct (get_run (m_handle_table s) handles i c (ki_handles _ _ _ _ HK) Hi ltac:(lia)) as (ht' & Eg & _).
      exists (set_m_handle_table ht' s2). unfold GetFiberByHandle, with_handle_table.
      change (m_handle_table s2) with (m_handle_table s). rewrite Eg.
      by rewrite (proj2 (lookup_handle_Some _ _ _ _) He).
Qed.
End change.

(** * Witnesses *)
Lemma initialize_ukern_witness : exists pool s, FixedObjectAllocator.construct MaxThreadCount = Ok pool /\
  Scheduler_Initialize 3 (SchedulerInstance pool ∅) = Ok (tt, s) /\ m_core_count s = 2.
Proof.
  destruct (FixedObjectAllocator_construct (T := unit) MaxThreadCount ltac:(unfold MaxThreadCount; lia))
    as (pool & Epool & _).
  pose proof (initialize_ukern 3 ∅ pool Epool) as Hi. cbv zeta in Hi.
  change (CountOneBits64 3) with 2 in Hi. rewrite decide_True in Hi by lia.
  destruct Hi as (s & c & E & _ & _ & _ & Ec & _).
  exists pool, s. split; [exact Epool|]. split; [exact E|exact Ec].
Defined.


(** The main thread queued by its scheduler fiber, with its handle. *)
Lemma main_queued : exists s c s1, sched_inv s (enqueue (Some (RunHead Normal)) (SchedNode 0) (fun _ => [])) /\
  m_scheduler_lock s = false /\ fiber_id 0 /\ GetFiberByHandle (encode 255 c) s = Ok (Some 0, s1) /\
  storage s 0 = set_fiber_state FiberState_Scheduled
    (set_fiber_name_storage "MainThread" (main_members (encode 255 c) zero_storage)).
Proof.
  destruct booted as (s & c & HK & Hl & _ & _ & _ & Hst & He).
  assert (fiber_id 0) as H0 by (unfold fiber_id, MaxThreadCount; lia).
  assert (destination (storage s 0) = Some (RunHead Normal)) as Hd by (by rewrite Hst).
  destruct (get_run (m_handle_table s) _ 255 c (ki_handles _ _ _ _ HK) ltac:(lia)
    ltac:(pose proof (wf_used _ _ (proj1 (ki_handles _ _ _ _ HK)) _ _ _ He); lia)) as (ht' & Eg & _).
  exists (after_add 0 s), c, (set_m_handle_table ht' (after_add 0 s)).
  destruct (after_add_memory 0 s) as (_ & Eh & _ & El & _).
  split; [|split; [by rewrite El|split; [done|split]]].
  - rewrite <- Hd. apply inv_after_add; [apply HK|done|]. intros h Hn. by apply not_elem_of_nil in Hn.
  - unfold GetFiberByHandle, with_handle_table. rewrite Eh, Eg.
    by rewrite (proj2 (lookup_handle_Some _ _ _ _) He).
  - rewrite after_add_storage, decide_True by reflexivity. rewrite Hst. reflexivity.
Qed.

Lemma set_activity_witness : exists s h s', activity_level (storage s 0) = ActivityLevel_Schedulable /\
  SetActivityImpl h ActivityLevel_Suspended s = Ok (ResultSuccess, s') /\
  fiber_state (storage s' 0) = FiberState_Suspended.
Proof.
  destruct main_queued as (s & c & s1 & HI & Hl & H0 & Hg & Hst).
  pose proof (set_activity s _ 0 _ ActivityLevel_Suspended s1 HI Hl H0 Hg) as H. cbv zeta in H.
  rewrite Hst in H. destruct H as (s' & E & H). rewrite decide_True in H by (left; reflexivity).
  destruct H as [_ H]. exists s, (encode 255 c), s'. rewrite Hst, H. split; [reflexivity|].
  split; [exact E|reflexivity].
Defined.

Lemma set_priority_inverted_witness : exists s h s', sched_inv s (enqueue (Some (RunHead Normal)) (SchedNode 0) (fun _ => [])) /\
  SetPriorityImpl h 5 s = Ok (ResultSuccess, s') /\ exists L', sched_inv s' L' /\ loose L' (SchedNode 0).
Proof.
  destruct main_queued as (s & c & s1 & HI & Hl & H0 & Hg & Hst).
  pose proof (set_priority_inverted s _ 0 _ 5 s1 HI Hl H0 Hg) as H. rewrite Hst in H.
  destruct (H eq_refl ltac:(discriminate)) as (s' & L' & E & HI' & _ & Hlo).
  exists s, (encode 255 c), s'. split; [exact HI|]. split; [exact E|]. exists L'. split; [exact HI'|exact Hlo].
Defined.

Lemma set_core_mask_requeues_witness : exists s h s', 
  SetCoreMaskImpl h 2 s = Ok (ResultSuccess, s') /\ core_mask (storage s' 0) = 2.
Proof.
  destruct main_queued as (s & c & s1 & HI & Hl & H0 & Hg & Hst).
  pose proof (set_core_mask_requeues s _ 0 _ 2 s1 HI Hl H0 Hg) as H. rewrite Hst in H.
  destruct H as (s' & E & Hm & _). exists s, (encode 255 c), s'. split; [exact E|exact Hm].
Defined.

(** A running fiber 1 that is an allocated object with a handle. *)
Lemma exit_keeps_handle_witness : exists s i c s1 s2 s3, ExitFiberImpl 1 s = Ok (tt, s1) /\
  Dispatch_resume 1 0 s1 = Ok (tt, s2) /\ GetFiberByHandle (encode i c) s2 = Ok (Some 1, s3).
Proof.
  destruct booted as (s & c & HK & Hl & Hm & Hcc & Hc & Hst & He).
  destruct (AllocateFiber_some s _ 1 (seq 2 254) _ HK) as (s1 & _ & HK1 & _ & _ & Hlo & Es1).
  destruct (ReserveHandle_kernel s1 _ _ _ 1 HK1) as (h & s2 & _ & Es2 & Hh).
  change (reverse (seq 0 255)) with (254%nat :: reverse (seq 0 254)) in Hh.
  destruct Hh as (c2 & _ & HK2 & Hc2 & _ & He2).
  set (s3 := upd (set_current_core 0 ∘ set_fiber_state FiberState_Running) 1 s2).
  assert (kernel_inv s3 (fun _ => []) (seq 2 254) (reverse (seq 0 254))) as HK3.
  { apply kernel_upd; [exact HK2|exact Hlo]. }
  assert (storage s3 1 = set_current_core 0 (set_fiber_state FiberState_Running (storage s2 1))) as E3.
  { unfold s3. rewrite storage_upd, decide_True by reflexivity. reflexivity. }
  assert (m_core_count s3 = 1 /\ m_scheduler_lock s3 = false /\
    m_scheduler_fiber_table s3 = m_scheduler_fiber_table s) as (Ecc & El & Et).
  { unfold s3. cbn. rewrite Es2. cbn. rewrite Es1. cbn. split; [exact Hcc|]. split; [exact Hl|reflexivity]. }
  assert (on_core s3 1) as Hon.
  { unfold on_core. rewrite E3, Ecc, Et. split; [cbn; lia|]. destruct Hc as [_ Hc]. rewrite Hst in Hc. exact Hc. }
  assert (exists u, object_at (UserFiberLocalAllocator s3) 1 = Some u) as [[] Ho].
  { destruct (ki_pool _ _ _ _ HK3) as (_ & _ & Hobj). unfold object_at.
    assert (1 < length (m_slots (UserFiberLocalAllocator s3)))%nat as Hlen.
    { rewrite (ki_slots _ _ _ _ HK3). unfold MaxThreadCount. lia. }
    destruct (lookup_lt_is_Some_2 _ _ Hlen) as [x Ex]. destruct (Hobj 1%nat x Ex) as [t ->].
    - rewrite elem_of_seq. lia.
    - exists t. by rewrite Ex. }
  destruct (exit_keeps_handle s3 _ _ _ 1 254 c2 HK3 El Hon ltac:(change (Z.of_nat 1) with 1; rewrite E3; reflexivity)
    Ho ltac:(lia) ltac:(lia) He2) as (s4 & E4 & H4).
  rewrite decide_False in H4 by discriminate. change (Z.of_nat 1) with 1 in *. rewrite E3 in H4.
  destruct H4 as (s5 & E5 & _ & s6 & E6).
  exists s3, 254%nat, c2, s4, s5, s6. split; [exact E4|]. split; [exact E5|exact E6].
Defined.
