(* ===== verification/WaitSpec.v ===== *)
(** Locks, keys and address waits of the scheduler: ArbitrateLock, ArbitrateUnlock,
    WaitKey, SignalKey, WaitForAddress and WakeByAddress. *)
From stdpp Require Import functions.
From S2P Require Import Prelude Result TimeSpan IntrusiveList ListFamily BusyMutex HandleTable.
From S2P Require Import Allocators Fiber Scheduler SchedulerSpec.

(** * Steps shared by the waits and the wakes *)
Section steps.
Implicit Types (s : UserScheduler) (L : NodeId -> list NodeId) (f g : Z).

Lemma load_run s a v : a <> 0 -> user_memory s !! a = Some v -> load a s = Ok (v, s).
Proof.
  intros Ha Hv. unfold load. destruct (Z.eqb_spec a 0); [done|]. run. by rewrite Hv.
Qed.

Lemma store_run s a v x :
  a <> 0 -> user_memory s !! a = Some v ->
  store a x s = Ok (tt, set_user_memory (<[a := x]> (user_memory s)) s).
Proof. intros Ha Hv. unfold store. by rewrite (M_bind_run _ _ _ _ _ (load_run s a v Ha Hv)). Qed.

(** The state after EndFiberWaitImpl. *)
Definition after_end_wait (f r : Z) s : UserScheduler :=
  after_add f (upd (set_last_result r) f (upd (set_fiber_state FiberState_Scheduled) f
    (set_links (Unlink (SchedNode f) (links s)) s))).

Lemma EndFiberWaitImpl_run f r s : EndFiberWaitImpl f r s = Ok (tt, after_end_wait f r s).
Proof. unfold EndFiberWaitImpl. run. apply AddToSchedulerUnsafe_run. Qed.

Lemma after_end_wait_storage f r g s :
  storage (after_end_wait f r s) g =
    if decide (f = g)
    then set_fiber_state (if activity_level (storage s f) =? ActivityLevel_Suspended
                          then FiberState_Suspended else FiberState_Scheduled)
           (set_last_result r (set_fiber_state FiberState_Scheduled (storage s f)))
    else storage s g.
Proof.
  unfold after_end_wait. rewrite after_add_storage, !storage_upd, !(decide_True (P := f = f)) by done.
  change (storage (set_links _ s) f) with (storage s f). case_decide; [done|].
  done.
Qed.

Lemma after_end_wait_memory f r s :
  user_memory (after_end_wait f r s) = user_memory s /\
  m_handle_table (after_end_wait f r s) = m_handle_table s /\
  m_scheduler_lock (after_end_wait f r s) = m_scheduler_lock s.
Proof.
  unfold after_end_wait. edestruct after_add_memory as (E1 & E2 & _ & E3 & _). by rewrite E1, E2, E3.
Qed.

Lemma inv_after_end_wait s L f r :
  sched_inv s L -> fiber_id f ->
  sched_inv (after_end_wait f r s) (enqueue (destination (storage s f)) (SchedNode f) (without (SchedNode f) L)).
Proof.
  intros HI Hf. unfold after_end_wait. set (s1 := set_links _ s). set (s2 := upd _ f (upd _ f s1)).
  assert (destination (storage s f) = destination (storage s2 f)) as ->.
  { unfold s2. by rewrite !storage_upd, !decide_True. }
  apply inv_after_add; [|done|apply without_loose].
  do 2 (apply inv_upd; [|apply without_loose]). by apply inv_unlink.
Qed.

Lemma find_ext {A} (P Q : A -> bool) l : (forall x, x ∈ l -> P x = Q x) -> List.find P l = List.find Q l.
Proof.
  induction l as [|x l IH]; intros E; [done|]. cbn. rewrite E by by left.
  destruct (Q x); [done|]. apply IH. intros y Hy. apply E. by right.
Qed.

(** The first fiber of the wait list that waits on an address. *)
Definition waiter_on s L a : option Z :=
  fiber_of <$> List.find (fun n => wait_address (storage s (fiber_of n)) =? a) (L WaitListHead).

Lemma find_waiter_run s L a : sched_inv s L -> find_waiter a s = Ok (waiter_on s L a, s).
Proof.
  intros HI. unfold find_waiter, for_sched, waiter_on.
  set (body := fun n => f ← sched_parent n; _).
  assert (forall n, n ∈ L WaitListHead ->
    body n s = Ok (if wait_address (storage s (fiber_of n)) =? a then Some (fiber_of n) else None, s)) as Hb.
  { intros n Hn. destruct (inv_sched s L WaitListHead n HI Hn ltac:(done)) as (f & -> & _). reflexivity. }
  clearbody body. pose proof (inv_is_list s L WaitListHead HI eq_refl) as Hl.
  pose proof (list_fuel_enough s L WaitListHead HI) as Hfu.
  destruct (List.find _ _) as [n|] eqn:E.
  - apply find_split in E as (l1 & l2 & E & Hn & Hl1). rewrite E in *.
    apply (for_each_find body list_fuel WaitListHead l1 n l2); [done|done| |].
    + intros y Hy. rewrite Hb by set_solver. by rewrite Hl1.
    + rewrite Hb by set_solver. by rewrite Hn.
  - pose proof (find_none _ _ E) as Hno. apply (for_each_none _ _ _ (L WaitListHead)); [done|done|].
    intros y Hy. rewrite Hb by done. by rewrite Hno.
Qed.

Lemma waiter_on_inv s L a w :
  sched_inv s L -> waiter_on s L a = Some w ->
  SchedNode w ∈ L WaitListHead /\ fiber_id w /\ fiber_state (storage s w) = FiberState_Waiting.
Proof.
  unfold waiter_on. intros HI (n & E & ->)%fmap_Some.
  apply find_split in E as (l1 & l2 & E & _ & _).
  assert (n ∈ L WaitListHead) as Hn by (rewrite E; set_solver).
  destruct (inv_sched s L WaitListHead n HI Hn ltac:(done)) as (f & -> & ? & ?). done.
Qed.

Lemma for_local_empty {B} s L h (body : NodeId -> B -> M UserScheduler (B * bool)) b :
  sched_inv s L -> is_head h = true -> L h = [] -> for_local h body b s = Ok (b, s).
Proof.
  intros HI Hh E. unfold for_local.
  rewrite (for_each_none _ _ _ [] (s, b)); [done| |unfold list_fuel; cbn; lia|].
  - rewrite <- E. by apply (inv_is_list s).
  - intros y Hy. by apply not_elem_of_nil in Hy.
Qed.

Lemma wait_list_IsEmpty_run s L f : sched_inv s L ->
  wait_list_IsEmpty f s = Ok (bool_decide (L (WaitHead f) = []), s).
Proof.
  intros HI. unfold wait_list_IsEmpty, gets.
  rewrite (family_IsEmpty (links s) L); [done|apply HI|by eapply inv_head_loose].
Qed.

(** EndWait through a live arbiter. *)
Lemma EndWait_run a f r s : a <> DeadArbiter -> EndWait (Some a) f r s = Ok (tt, after_end_wait f r s).
Proof. intros Ha. unfold EndWait. cbn [deref]. run. destruct a; [apply EndFiberWaitImpl_run..|done]. Qed.

(** An inverse [scheduler_locked_run] for faults. *)
Lemma scheduler_locked_fault {A} (body : M UserScheduler A) s e :
  m_scheduler_lock s = false -> body (set_m_scheduler_lock true s) = Fault e ->
  scheduler_locked body s = Fault e.
Proof.
  intros Hl Hb. unfold scheduler_locked, AcquireSRWLockExclusive.
  unfold mbind at 1, M_bind at 1. run. rewrite Hl. unfold modify. by apply M_bind_fault.
Qed.
End steps.

(** * Locks *)
Section locks.
Implicit Types (s : UserScheduler) (L : NodeId -> list NodeId) (f g cur : Z).

Lemma wait_list_PopFront_run s L f w rest :
  sched_inv s L -> L (WaitHead f) = WaitNode w :: rest ->
  exists m, wait_list_PopFront f s = Ok (w, set_links m s) /\
    sched_inv (set_links m s) (<[WaitHead f := rest]> L).
Proof.
  intros HI E. destruct (family_PopFront (links s) L _ _ _ (inv_family _ _ HI) E) as [Hx HF].
  exists (PopFront (WaitHead f) (links s)).2. split.
  - unfold wait_list_PopFront. run. unfold PopFront in Hx. cbn in Hx. unfold Front. by rewrite Hx.
  - split; [exact HF|]. intros h n [[-> Hn]|[_ Hn]]%fn_insert_in; [|by apply (inv_elem s L HI)].
    apply (inv_elem s L HI). rewrite E. by right.
Qed.

Lemma store_after_links m s a v x :
  a <> 0 -> user_memory s !! a = Some v ->
  store a x (set_links m s) = Ok (tt, set_user_memory (<[a := x]> (user_memory s)) (set_links m s)).
Proof. intros Ha Hv. by rewrite (store_run (set_links m s) a v x Ha Hv). Qed.

Lemma transfer_empty s L f g : sched_inv s L -> L (WaitHead f) = [] -> transfer_wait_list f g s = Ok (tt, s).
Proof.
  intros HI E. unfold transfer_wait_list.
  rewrite (M_bind_run _ _ s None s); [done|].
  apply TransferList_empty; [|unfold list_fuel; lia]. rewrite <- E. by apply (inv_is_list s).
Qed.

(** The lists after the transfer of a non-empty wait list: the head goes along. *)
Lemma transfer_cons s L f g x l :
  sched_inv s L -> L (WaitHead f) = x :: l -> L (WaitHead g) = [] -> f <> g ->
  exists m, transfer_wait_list f g s = Ok (tt, set_links m s) /\
    family m (<[WaitHead g := x :: l ++ [WaitHead f]]> (<[WaitHead f := []]> L)).
Proof.
  intros HI Ef Eg Hne. pose proof (inv_length s L (WaitHead f) HI) as Hlen.
  destruct (family_TransferList list_fuel (WaitHead f) (WaitHead g) x l s L) as (m & E & HF);
    [apply HI|done|done|by eapply inv_head_loose|by intros [=]|rewrite Ef in Hlen; cbn in Hlen; unfold list_fuel; lia|].
  exists m. split; [|done]. unfold transfer_wait_list.
  by rewrite (M_bind_run _ _ _ _ _ E).
Qed.

(** What the new owner's fiber record becomes before it is scheduled. *)
Definition owner_members (x : FiberLocalStorage) : FiberLocalStorage := set_wait_tag 0 (set_lock_address 0 x).

(** The state in which the wait list is handed over: the first waiter [w] popped, the lock
    word [a] written. *)
Definition handing_over (w a word : Z) (m : gmap NodeId (IntrusiveListNode NodeId)) s : UserScheduler :=
  upd (set_wait_tag 0) w (upd (set_lock_address 0) w
    (set_user_memory (<[a := word]> (user_memory s)) (set_links m s))).

Lemma handing_over_storage w a word m s : storage (handing_over w a word m s) w = owner_members (storage s w).
Proof. unfold handing_over. by rewrite !storage_upd, !decide_True. Qed.

Lemma inv_handing_over w a word m s L :
  sched_inv (set_links m s) L -> sched_inv (handing_over w a word m s) L.
Proof.
  intros HI. apply inv_upd_placed; [|by intros []]. apply inv_upd_placed; [|by intros []].
  by apply (inv_same (set_links m s)).
Qed.

(** Releasing a lock whose wait list starts with [w]. *)
Lemma release_run s L cur w rest m a v s3 :
  sched_inv s L -> L (WaitHead cur) = WaitNode w :: rest ->
  wait_list_PopFront cur s = Ok (w, set_links m s) ->
  sched_inv (set_links m s) (<[WaitHead cur := rest]> L) ->
  a <> 0 -> user_memory s !! a = Some v -> lock_address (storage s w) = a ->
  transfer_wait_list cur w (handing_over w a (if decide (rest = []) then wait_tag (storage s w)
    else Z.lor (wait_tag (storage s w)) HasChildWaitersBit) m s) = Ok (tt, s3) ->
  waitable_object (storage s3 w) = Some LockArbiter ->
  ReleaseLockWaitListUnsafe cur s = Ok (tt, upd (set_waitable_object None) w (after_end_wait w ResultSuccess s3)).
Proof.
  intros HI Ech Epop HI1 Ha Hv Hla E3 Hwo. unfold ReleaseLockWaitListUnsafe.
  rewrite (M_bind_run _ _ _ _ _ (wait_list_IsEmpty_run s L cur HI)).
  rewrite Ech, bind_assert by done. rewrite (M_bind_run _ _ _ _ _ Epop).
  rewrite (M_bind_run _ _ _ _ _ (wait_list_IsEmpty_run _ _ cur HI1)), fn_lookup_insert. run.
  change (storage (set_links m s) w) with (storage s w). rewrite Hla.
  rewrite (M_bind_run _ _ _ _ _ (store_after_links m s a v _ Ha Hv)). run.
  rewrite (M_bind_run _ _ _ tt s3); [|by case_decide; [rewrite bool_decide_true|rewrite bool_decide_false]].
  run. rewrite Hwo. by rewrite (M_bind_run _ _ _ _ _ (EndWait_run LockArbiter w ResultSuccess s3 ltac:(done))).
Qed.

(** The checks of ArbitrateUnlockImpl. *)
Lemma unlock_run s L cur a v s1 :
  sched_inv s L -> m_scheduler_lock s = false -> a <> 0 -> user_memory s !! a = Some v ->
  ukern_fiber_handle (storage s cur) = Z.land v (u32 (Z.lnot HasChildWaitersBit)) -> L (WaitHead cur) <> [] ->
  ReleaseLockWaitListUnsafe cur (set_m_scheduler_lock true s) = Ok (tt, s1) ->
  ArbitrateUnlockImpl cur a s = Ok (ResultSuccess, set_m_scheduler_lock false s1).
Proof.
  intros HI Hl Ha Hv Hh Hne Erel. unfold ArbitrateUnlockImpl. destruct (Z.eqb_spec a 0); [done|]. cbn [negb].
  set (s0 := set_m_scheduler_lock true s) in *.
  assert (sched_inv s0 L) as HI0 by by apply inv_lock.
  apply scheduler_locked_run; [done|]. fold s0.
  rewrite (M_bind_run _ _ _ _ _ (wait_list_IsEmpty_run s0 L cur HI0)).
  rewrite bool_decide_false by done. cbn [negb]. run.
  rewrite (M_bind_run _ _ _ _ _ (load_run s0 a v Ha Hv)).
  change (storage s0 cur) with (storage s cur). rewrite Hh, Z.eqb_refl.
  by rewrite (M_bind_run _ _ _ _ _ Erel).
Qed.

Lemma placed_no_object h x : placed h x -> placed h (set_waitable_object None x).
Proof. by destruct h. Qed.

Lemma unlock_single_run s L cur w a v tag :
  sched_inv s L -> m_scheduler_lock s = false -> a <> 0 -> user_memory s !! a = Some v ->
  ukern_fiber_handle (storage s cur) = Z.land v (u32 (Z.lnot HasChildWaitersBit)) ->
  L (WaitHead cur) = [WaitNode w] -> fiber_id w -> w <> cur ->
  lock_address (storage s w) = a -> wait_tag (storage s w) = tag ->
  waitable_object (storage s w) = Some LockArbiter ->
  exists s', ArbitrateUnlockImpl cur a s = Ok (ResultSuccess, s') /\
    user_memory s' = <[a := tag]> (user_memory s) /\
    sched_inv s' (enqueue (destination (storage s w)) (SchedNode w)
                   (without (SchedNode w) (<[WaitHead cur := []]> L))) /\
    storage s' w = set_waitable_object None (set_fiber_state
      (if activity_level (storage s w) =? ActivityLevel_Suspended
       then FiberState_Suspended else FiberState_Scheduled)
      (set_last_result ResultSuccess (set_fiber_state FiberState_Scheduled (owner_members (storage s w))))) /\
    m_scheduler_lock s' = false /\ m_core_count s' = m_core_count s.
Proof.
  intros HI Hl Ha Hv Hh Ech Hw Hne Hla Htag Hwo.
  set (s0 := set_m_scheduler_lock true s).
  assert (sched_inv s0 L) as HI0 by by apply inv_lock.
  destruct (wait_list_PopFront_run s0 L cur w [] HI0 Ech) as (m & Epop & HI1).
  set (s2 := handing_over w a tag m s0). set (L1 := <[WaitHead cur := []]> L) in *.
  assert (sched_inv s2 L1) as HI2 by by apply (inv_handing_over w a _ m s0).
  assert (storage s2 w = owner_members (storage s w)) as Es2 by apply (handing_over_storage w a _ m s0).
  set (s3 := after_end_wait w ResultSuccess s2).
  exists (set_m_scheduler_lock false (upd (set_waitable_object None) w s3)).
  split; [|split; [|split; [|split; [|split]]]].
  - eapply (unlock_run s L); [done..|by rewrite Ech|].
    eapply (release_run s0 L cur w [] m a v s2); [done..| |by rewrite Es2].
    rewrite decide_True by done. change (wait_tag (storage s0 w)) with (wait_tag (storage s w)).
    rewrite Htag. apply (transfer_empty s2 L1); [done|]. unfold L1. by rewrite fn_lookup_insert.
  - change (user_memory (set_m_scheduler_lock false _)) with (user_memory s3). unfold s3.
    by destruct (after_end_wait_memory w ResultSuccess s2) as [-> _].
  - apply (inv_lock (upd (set_waitable_object None) w s3)), (inv_upd_placed s3); [|intros h; apply placed_no_object].
    replace (destination (storage s w)) with (destination (storage s2 w)) by (by rewrite Es2).
    by apply inv_after_end_wait.
  - change (storage (set_m_scheduler_lock false ?t) w) with (storage t w).
    rewrite storage_upd, decide_True by done. unfold s3.
    by rewrite after_end_wait_storage, decide_True, Es2 by done.
  - done.
  - cbn. unfold s3, after_end_wait. by edestruct after_add_memory as (_ & _ & _ & _ & -> & _).
Qed.

(** Unlocking with one waiter hands the lock over: the lock word becomes the tag the
    waiter left, the waiter is queued by its priority and its wait ends with
    ResultSuccess. *)
Theorem unlock_hands_over s L cur w a v tag :
  sched_inv s L -> m_scheduler_lock s = false -> a <> 0 -> user_memory s !! a = Some v ->
  ukern_fiber_handle (storage s cur) = Z.land v (u32 (Z.lnot HasChildWaitersBit)) ->
  L (WaitHead cur) = [WaitNode w] -> fiber_id w -> w <> cur ->
  lock_address (storage s w) = a -> wait_tag (storage s w) = tag ->
  waitable_object (storage s w) = Some LockArbiter ->
  exists s', ArbitrateUnlockImpl cur a s = Ok (ResultSuccess, s') /\
    user_memory s' = <[a := tag]> (user_memory s) /\
    sched_inv s' (enqueue (destination (storage s w)) (SchedNode w)
                   (without (SchedNode w) (<[WaitHead cur := []]> L))) /\
    last_result (storage s' w) = ResultSuccess /\ waitable_object (storage s' w) = None /\
    m_scheduler_lock s' = false.
Proof.
  intros HI Hl Ha Hv Hh Ech Hw Hne Hla Htag Hwo.
  destruct (unlock_single_run s L cur w a v tag) as (s' & E & Em & HI' & Est & El & _); [done..|].
  exists s'. by rewrite Est.
Qed.

Lemma destination_head x h : destination x = Some h -> is_head h = true /\ forall g, h <> WaitHead g.
Proof.
  unfold destination. destruct (_ =? _); [by intros [= <-]|]. by intros (q & _ & ->)%fmap_Some.
Qed.

Lemma family_after_end_wait s L f r :
  family (links s) L -> L (SchedNode f) = [] ->
  (forall h, destination (storage s f) = Some h -> loose L h) ->
  family (links (after_end_wait f r s)) (enqueue (destination (storage s f)) (SchedNode f) (without (SchedNode f) L)).
Proof.
  intros HF Ef Hd. unfold after_end_wait. set (s1 := set_links _ s). set (s2 := upd _ f (upd _ f s1)).
  assert (family (links s2) (without (SchedNode f) L)) as HF2 by (by apply family_without).
  assert (storage s2 f = set_last_result r (set_fiber_state FiberState_Scheduled (storage s f))) as Es2.
  { unfold s2. by rewrite !storage_upd, !decide_True. }
  assert (forall h, destination (storage s f) = Some h ->
    family (PushBack h (SchedNode f) (links s2))
      (<[h := without (SchedNode f) L h ++ [SchedNode f]]> (without (SchedNode f) L))) as Hpush.
  { intros h Eh. destruct (destination_head _ _ Eh) as [Hh _].
    apply family_PushBack; [done| |apply without_loose| |by intros <-].
    - intros x [_ Hx]%without_elem. by apply (Hd h Eh x).
    - unfold without. by rewrite Ef. }
  unfold after_add. rewrite Es2. cbn [activity_level set_last_result set_fiber_state].
  assert (destination (set_last_result r (set_fiber_state FiberState_Scheduled (storage s f)))
    = destination (storage s f)) as -> by done.
  unfold destination in *. destruct (activity_level (storage s f) =? ActivityLevel_Suspended).
  - by apply Hpush.
  - destruct (run_list_of (priority (storage s f))) as [q|]; cbn; [by apply Hpush|done].
Qed.

(** After a transfer with the head, the only list head in a list is the one transferred. *)
Lemma transferred_heads s L f g x l h n :
  sched_inv s L -> L (WaitHead f) = x :: l ->
  n ∈ (<[WaitHead g := x :: l ++ [WaitHead f]]> (<[WaitHead f := []]> L) : NodeId -> list NodeId) h ->
  n = WaitHead f \/ (is_head n = false /\ forall k, (h = WaitHead k) -> exists c, n = WaitNode c).
Proof.
  intros HI Ef Hn.
  assert (forall h', n ∈ L h' -> (h' = WaitHead f \/ h' = h) ->
    is_head n = false /\ forall k, h = WaitHead k -> exists c, n = WaitNode c) as Hold.
  { intros h' Hn' Hh'. destruct (inv_elem s L HI h' n Hn') as [(c & -> & _ & Hp)|(c & k & -> & -> & _)].
    - split; [done|]. intros k ->. by destruct Hh' as [->| ->].
    - split; [done|]. by eauto. }
  apply fn_insert_in in Hn as [[-> Hn]|[_ Hn]].
  - apply elem_of_cons in Hn as [Hn|[Hn|Hn%list_elem_of_singleton]%elem_of_app]; [right|right|by left].
    + apply (Hold (WaitHead f)); [rewrite Ef; subst; by left|by left].
    + apply (Hold (WaitHead f)); [rewrite Ef; by right|by left].
  - apply fn_insert_in in Hn as [[_ Hn]|[_ Hn]]; [by apply not_elem_of_nil in Hn|right].
    apply (Hold h); [done|by right].
Qed.

Lemma enqueue_wait_head x f L g : enqueue (destination x) (SchedNode f) L (WaitHead g) = L (WaitHead g).
Proof.
  destruct (destination x) as [h|] eqn:Ed; cbn [enqueue]; [|done].
  rewrite fn_lookup_insert_ne; [done|]. by apply destination_head in Ed as [_ ?].
Qed.

(** Unlocking with several waiters: the lock word gets the first waiter's tag with the
    waiters bit, but the transfer of the others to the new owner ends with the list head
    of the old owner, which is no fiber, in the new owner's wait list. *)
Theorem unlock_transfers_head s L cur w y rest a v tag :
  sched_inv s L -> m_scheduler_lock s = false -> a <> 0 -> user_memory s !! a = Some v ->
  ukern_fiber_handle (storage s cur) = Z.land v (u32 (Z.lnot HasChildWaitersBit)) ->
  L (WaitHead cur) = WaitNode w :: y :: rest -> L (WaitHead w) = [] -> fiber_id w -> w <> cur ->
  lock_address (storage s w) = a -> wait_tag (storage s w) = tag ->
  waitable_object (storage s w) = Some LockArbiter ->
  exists s' L', ArbitrateUnlockImpl cur a s = Ok (ResultSuccess, s') /\
    user_memory s' = <[a := Z.lor tag HasChildWaitersBit]> (user_memory s) /\
    family (links s') L' /\ L' (WaitHead w) = y :: rest ++ [WaitHead cur].
Proof.
  intros HI Hl Ha Hv Hh Ech Ew Hw Hne Hla Htag Hwo.
  set (s0 := set_m_scheduler_lock true s).
  assert (sched_inv s0 L) as HI0 by by apply inv_lock.
  destruct (wait_list_PopFront_run s0 L cur w (y :: rest) HI0 Ech) as (m & Epop & HI1).
  set (s2 := handing_over w a (Z.lor tag HasChildWaitersBit) m s0).
  set (L1 := <[WaitHead cur := y :: rest]> L) in *.
  assert (sched_inv s2 L1) as HI2 by by apply (inv_handing_over w a _ m s0).
  assert (L1 (WaitHead cur) = y :: rest) as E1 by apply fn_lookup_insert.
  destruct (transfer_cons s2 L1 cur w y rest HI2) as (m3 & E3 & HF3);
    [done|unfold L1; rewrite fn_lookup_insert_ne; [done|by intros [=]]|done|].
  set (s3 := set_links m3 s2) in *. set (L3 := <[WaitHead w := _]> _) in *.
  assert (storage s3 w = owner_members (storage s w)) as Es3 by exact (handing_over_storage w a (Z.lor tag HasChildWaitersBit) m s0).
  exists (set_m_scheduler_lock false (upd (set_waitable_object None) w (after_end_wait w ResultSuccess s3))).
  eexists. split; [|split; [|split]].
  - eapply (unlock_run s L); [done..|by rewrite Ech|].
    eapply (release_run s0 L cur w (y :: rest) m a v s3); [done..| |by rewrite Es3].
    rewrite decide_False by done. change (wait_tag (storage s0 w)) with (wait_tag (storage s w)). by rewrite Htag.
  - change (user_memory (set_m_scheduler_lock false _)) with (user_memory (after_end_wait w ResultSuccess s3)).
    by destruct (after_end_wait_memory w ResultSuccess s3) as [-> _].
  - apply (family_after_end_wait s3 L3 w ResultSuccess HF3).
    + unfold L3. rewrite !fn_lookup_insert_ne by done. by apply (inv_leaf s2 L1 (SchedNode w) HI2).
    + intros h Hd x Hx. destruct (destination_head _ _ Hd) as [Hhd Hnw].
      destruct (transferred_heads s2 L1 cur w y rest x h HI2 E1 Hx) as [->|[? _]]; [by apply (Hnw cur)|congruence].
  - rewrite enqueue_wait_head, without_same; [unfold L3; by rewrite fn_lookup_insert|].
    intros Hx. destruct (transferred_heads s2 L1 cur w y rest _ _ HI2 E1 Hx) as [?|[_ Hk]]; [done|].
    by destruct (Hk w eq_refl).
Qed.
End locks.

(** * Waiting on an address and waking *)
Section addresses.
Implicit Types (s : UserScheduler) (L : NodeId -> list NodeId) (f g cur : Z).

Definition waiting_members (a absolute_timeout : Z) (x : FiberLocalStorage) : FiberLocalStorage :=
  set_timeout (u64 absolute_timeout) (set_fiber_state FiberState_Waiting (set_wait_address a
    (set_waitable_object (Some WaitAddressArbiter) x))).

(** Where a fiber that waits on [a] is linked: behind the first fiber that does, if any. *)
Definition wait_link s L a cur : NodeId * NodeId :=
  match waiter_on s L a with Some w => (WaitHead w, WaitNode cur) | None => (WaitListHead, SchedNode cur) end.

Lemma wait_on_address_run s L cur a t :
  sched_inv s L -> fiber_id cur -> fiber_state (storage s cur) = FiberState_Running ->
  loose L (WaitNode cur) ->
  exists s', wait_on_address cur a t s = Ok (tt, s') /\
    (let '(h, n) := wait_link s L a cur in sched_inv s' (<[h := L h ++ [n]]> L)) /\
    storage s' cur = waiting_members a t (storage s cur) /\
    m_core_count s' = m_core_count s /\ m_scheduler_fiber_table s' = m_scheduler_fiber_table s /\
    m_scheduler_lock s' = m_scheduler_lock s.
Proof.
  intros HI Hf Hr Hln. pose proof (running_loose s L cur HI Hr) as Hls.
  set (s1 := upd (set_timeout (u64 t)) cur (upd (set_fiber_state FiberState_Waiting) cur
    (upd (set_wait_address a) cur (upd (set_waitable_object (Some WaitAddressArbiter)) cur s)))).
  assert (sched_inv s1 L) as HI1 by (do 4 (apply inv_upd; [|done]); done).
  assert (storage s1 cur = waiting_members a t (storage s cur)) as Es1.
  { unfold s1. by rewrite !storage_upd, !decide_True. }
  assert (waiter_on s1 L a = waiter_on s L a) as Ew.
  { unfold waiter_on. f_equal. apply find_ext. intros n Hn. 
    destruct (inv_sched s L WaitListHead n HI Hn ltac:(done)) as (f & -> & _). cbn [fiber_of].
    assert (f <> cur) as Hne by (intros ->; by apply Hls in Hn).
    unfold s1. by rewrite !storage_upd, !decide_False by done. }
  unfold wait_on_address, wait_link. run. fold s1.
  rewrite (M_bind_run _ _ _ _ _ (find_waiter_run s1 L a HI1)), Ew.
  destruct (waiter_on s L a) as [w|] eqn:Ewo.
  - exists (set_links (PushBack (WaitHead w) (WaitNode cur) (links s1)) s1).
    split; [done|]. split; [by apply inv_push_child|]. done.
  - exists (set_links (PushBack WaitListHead (SchedNode cur) (links s1)) s1).
    split; [done|]. split; [|done]. apply inv_push; [done..|]. by rewrite Es1.
Qed.

Lemma wait_for_address_run s L cur a v t :
  sched_inv s L -> m_scheduler_lock s = false -> fiber_id cur -> on_core s cur ->
  fiber_state (storage s cur) = FiberState_Running -> loose L (WaitNode cur) ->
  a <> 0 -> user_memory s !! a = Some v -> 0 < t ->
  exists s', WaitForAddressIfEqualImpl cur a v t s = Ok (Switched ResultSuccess, s') /\
    m_scheduler_lock s' = true /\ storage s' cur = waiting_members a t (storage s cur) /\
    let '(h, n) := wait_link s L a cur in sched_inv s' (<[h := L h ++ [n]]> L).
Proof.
  intros HI Hl Hf Hc Hr Hln Ha Hv Ht. unfold WaitForAddressIfEqualImpl.
  destruct (Z.eqb_spec a 0); [done|].
  set (s0 := set_m_scheduler_lock true s).
  assert (sched_inv s0 L) as HI0 by by apply inv_lock.
  destruct (wait_on_address_run s0 L cur a t HI0 Hf Hr Hln) as (s' & E & HI' & Est & Ecc & Et & El).
  exists s'. split; [|split; [by rewrite El|done]].
  rewrite (scheduler_locked_switch_run _ s (Switched ResultSuccess) s'); [done|done|].
  rewrite (M_bind_run _ _ _ _ _ (load_run s0 a v Ha Hv)), Z.eqb_refl. cbn [negb].
  destruct (Z.leb_spec t 0); [lia|].
  rewrite (M_bind_run _ _ _ ResultSuccess s'); [|by rewrite (M_bind_run _ _ _ _ _ E)].
  rewrite (M_bind_run _ _ _ _ _ (SwitchToScheduler_run s' cur ltac:(
    destruct Hc as [? ?]; split; rewrite Est; [by rewrite Ecc|by rewrite Et]))). done.
Qed.

(** [C24] WaitForAddressIfEqual switches to the scheduler with the lock held.  Another value
    and a timeout that is not positive leave the fiber running, so it is queued again;
    otherwise it waits, as the parent of the address in the wait list if it is the first
    to wait on it, and behind the parent otherwise. *)
Theorem wait_for_address_if_equal s L cur a v value t :
  sched_inv s L -> m_scheduler_lock s = false -> fiber_id cur -> on_core s cur ->
  fiber_state (storage s cur) = FiberState_Running -> loose L (WaitNode cur) ->
  a <> 0 -> user_memory s !! a = Some v ->
  exists s' result, WaitForAddressIfEqualImpl cur a value t s = Ok (Switched result, s') /\
    m_scheduler_lock s' = true /\
    if decide (v <> value) then
      result = ukern.ResultInvalidWaitAddressValue /\ sched_inv s' L /\ storage s' cur = storage s cur
    else if decide (t <= 0) then
      result = ukern.ResultTimeout /\ sched_inv s' L /\ storage s' cur = storage s cur
    else
      result = ResultSuccess /\ storage s' cur = waiting_members a t (storage s cur) /\
      let '(h, n) := wait_link s L a cur in sched_inv s' (<[h := L h ++ [n]]> L).
Proof.
  intros HI Hl Hf Hc Hr Hln Ha Hv. unfold WaitForAddressIfEqualImpl.
  destruct (Z.eqb_spec a 0); [done|].
  set (s0 := set_m_scheduler_lock true s).
  assert (sched_inv s0 L) as HI0 by by apply inv_lock.
  assert (on_core s0 cur) as Hc0 by done.
  pose proof (load_run s0 a v Ha Hv) as Eload.
  case_decide as Hvv; [|case_decide as Ht].
  - exists s0, ukern.ResultInvalidWaitAddressValue. split; [|done].
    rewrite (scheduler_locked_switch_run _ s (Switched ukern.ResultInvalidWaitAddressValue) s0); [done|done|].
    rewrite (M_bind_run _ _ _ _ _ Eload). destruct (Z.eqb_spec v value); [done|]. cbn [negb]. run.
    by rewrite (M_bind_run _ _ _ _ _ (SwitchToScheduler_run s0 cur Hc0)).
  - exists s0, ukern.ResultTimeout. split; [|done].
    rewrite (scheduler_locked_switch_run _ s (Switched ukern.ResultTimeout) s0); [done|done|].
    rewrite (M_bind_run _ _ _ _ _ Eload). destruct (Z.eqb_spec v value); [|done]. cbn [negb].
    destruct (Z.leb_spec t 0); [|lia]. run.
    by rewrite (M_bind_run _ _ _ _ _ (SwitchToScheduler_run s0 cur Hc0)).
  - assert (v = value) as -> by (by destruct (decide (v = value))).
    destruct (wait_for_address_run s L cur a value t) as (s' & E & El & Est & HI'); [done..|lia|].
    exists s', ResultSuccess. unfold WaitForAddressIfEqualImpl in E.
    destruct (Z.eqb_spec a 0); [done|]. by rewrite E.
Qed.

(** Unlinking scheduler_list_nodes leaves the wait lists alone. *)
Lemma without_wait_head s L f g : sched_inv s L -> without (SchedNode f) L (WaitHead g) = L (WaitHead g).
Proof.
  intros HI. apply without_same. intros Hin.
  by destruct (inv_elem s L HI _ _ Hin) as [(? & _ & _ & [])|(? & ? & [=] & _)].
Qed.

(** The common part of the wakes, for a parent without other waiters. *)
Lemma release_waiters_single s L w count arbiter :
  sched_inv s L -> fiber_id w -> L (WaitHead w) = [] ->
  waitable_object (storage s w) = Some arbiter -> arbiter <> DeadArbiter ->
  release_waiters w count s = Ok (tt, after_end_wait w ResultSuccess s).
Proof.
  intros HI Hw Ech Hwo Hd. unfold release_waiters. run. rewrite Hwo.
  rewrite (M_bind_run _ _ _ _ _ (EndWait_run arbiter w ResultSuccess s Hd)).
  pose proof (inv_after_end_wait s L w ResultSuccess HI Hw) as HI1.
  set (s1 := after_end_wait w ResultSuccess s) in *. set (L1 := enqueue _ _ _) in *.
  assert (L1 (WaitHead w) = []) as E1.
  { unfold L1. by rewrite enqueue_wait_head, (without_wait_head s). }
  rewrite (M_bind_run _ _ s1 1 s1).
  - unfold promote_waiter. rewrite (M_bind_run _ _ _ _ _ (wait_list_IsEmpty_run s1 L1 w HI1)).
    by rewrite bool_decide_true.
  - by apply (for_local_empty s1 L1).
Qed.

(** A fiber that was woken and whose waitable object is still set: until its timeout it is
    not run, then its wait is cancelled. *)
Lemma IsSchedulable_woken f core tick s :
  0 <= core < 32 -> fiber_state (storage s f) = FiberState_Scheduled ->
  waitable_object (storage s f) = Some WaitAddressArbiter ->
  Z.land (core_mask (storage s f)) (u64 (s32 (Z.shiftl 1 core))) <> 0 ->
  IsSchedulable f core tick s =
    if timeout (storage s f) <? tick then Ok (true, after_end_wait f ukern.ResultTimeout s) else Ok (false, s).
Proof.
  intros Hc Hs Hw Hm. unfold IsSchedulable. run. rewrite bool_decide_true by done. cbn [negb].
  rewrite (bind_lift _ _ _ _ (core_bit_ok core Hc)). run.
  destruct (Z.eqb_spec (Z.land (core_mask (storage s f)) (u64 (s32 (Z.shiftl 1 core)))) 0); [done|]. run.
  rewrite Hw, bool_decide_true by done. cbn [andb].
  destruct (timeout (storage s f) <? tick); [|done].
  unfold CancelWait. cbn [deref]. unfold mbind at 1, M_bind at 1. run. by rewrite EndFiberWaitImpl_run.
Qed.

(** Waking the only fiber that waits on an address queues it with ResultSuccess, but
    its timeout and waitable object stay: no core runs it before the timeout, and the core
    that then does cancels the finished wait, so that the fiber's WaitForAddress returns
    ResultTimeout after all. *)
Theorem woken_fiber_times_out s L a w count core :
  sched_inv s L -> m_scheduler_lock s = false -> a <> 0 -> count <> 0 ->
  waiter_on s L a = Some w -> L (WaitHead w) = [] ->
  waitable_object (storage s w) = Some WaitAddressArbiter ->
  activity_level (storage s w) <> ActivityLevel_Suspended ->
  0 <= core < 32 -> Z.land (core_mask (storage s w)) (u64 (s32 (Z.shiftl 1 core))) <> 0 ->
  exists s', WakeByAddressImpl a count s = Ok (ResultSuccess, s') /\
    sched_inv s' (enqueue (destination (storage s w)) (SchedNode w) (without (SchedNode w) L)) /\
    last_result (storage s' w) = ResultSuccess /\
    forall tick,
      if timeout (storage s w) <? tick
      then exists s'', IsSchedulable w core tick s' = Ok (true, s'') /\
        exists s3, Wait_resume w ResultSuccess s'' = Ok (ukern.ResultTimeout, s3)
      else IsSchedulable w core tick s' = Ok (false, s').
Proof.
  intros HI Hl Ha Hcount Hw Ech Hwo Hact Hc Hm. unfold WakeByAddressImpl.
  destruct (Z.eqb_spec a 0); [done|].
  set (s0 := set_m_scheduler_lock true s).
  assert (sched_inv s0 L) as HI0 by by apply inv_lock.
  destruct (waiter_on_inv s L a w HI Hw) as (_ & Hid & _).
  set (s1 := after_end_wait w ResultSuccess s0).
  pose proof (after_end_wait_storage w ResultSuccess w s0) as Es1.
  change (storage s0 w) with (storage s w) in Es1. fold s1 in Es1.
  rewrite decide_True in Es1 by done. destruct (Z.eqb_spec (activity_level (storage s w)) ActivityLevel_Suspended); [done|].
  exists (set_m_scheduler_lock false s1). split; [|split; [|split]].
  - apply scheduler_locked_run; [done|]. fold s0. destruct (Z.eqb_spec count 0); [done|].
    rewrite (M_bind_run _ _ _ _ _ (find_waiter_run s0 L a HI0)).
    change (waiter_on s0 L a) with (waiter_on s L a). rewrite Hw.
    by rewrite (M_bind_run _ _ _ _ _ (release_waiters_single s0 L w count WaitAddressArbiter HI0 Hid Ech Hwo ltac:(done))).
  - apply inv_lock. by apply (inv_after_end_wait s0).
  - change (storage (set_m_scheduler_lock false s1) w) with (storage s1 w). by rewrite Es1.
  - intros tick. set (s2 := set_m_scheduler_lock false s1).
    assert (storage s2 w = storage s1 w) as Es2 by done.
    rewrite (IsSchedulable_woken w core tick s2) by (rewrite ?Es2, ?Es1; done).
    rewrite Es2, Es1. cbn [timeout set_fiber_state set_last_result].
    destruct (timeout (storage s w) <? tick); [|done].
    eexists. split; [done|]. unfold Wait_resume. rewrite Z.eqb_refl. run.
    pose proof (after_end_wait_storage w ukern.ResultTimeout w s2) as E. rewrite decide_True in E by done.
    unfold drop_arbiter. rewrite E. cbn [last_result set_fiber_state set_last_result].
    eexists. unfold mbind at 1, M_bind at 1. run. rewrite E.
    cbn [waitable_object set_fiber_state set_last_result]. rewrite Es2, Es1.
    cbn [waitable_object set_fiber_state set_last_result]. rewrite Hwo. reflexivity.
Qed.

(** Waking an address on which nobody waits. *)
Lemma wake_nobody_run s L a count :
  sched_inv s L -> m_scheduler_lock s = false -> a <> 0 -> waiter_on s L a = None -> count <> 0 ->
  WakeByAddressImpl a count s = Ok (ukern.ResultNoWaiters, s).
Proof.
  intros HI Hl Ha Hw Hcount. unfold WakeByAddressImpl. destruct (Z.eqb_spec a 0); [done|].
  set (s0 := set_m_scheduler_lock true s).
  assert (set_m_scheduler_lock false s0 = s) as Es by (destruct s; cbn in *; by subst).
  rewrite <- Es. rewrite <- Es in Hl. apply scheduler_locked_run; [done|].
  change (set_m_scheduler_lock true (set_m_scheduler_lock false s0)) with s0.
  destruct (Z.eqb_spec count 0); [done|].
  rewrite (M_bind_run _ _ _ _ _ (find_waiter_run s0 L a ltac:(by apply inv_lock))).
  change (waiter_on s0 L a) with (waiter_on s L a). by rewrite Hw.
Qed.

(** Two of the three wakes dereference a null pointer when no fiber waits on the
    address: the check for a waiter that WakeByAddressImpl has is missing in them. *)
Theorem wake_without_waiter s L a v count :
  sched_inv s L -> m_scheduler_lock s = false -> a <> 0 -> user_memory s !! a = Some v ->
  waiter_on s L a = None -> count <> 0 ->
  (exists s', WakeByAddressImpl a count s = Ok (ukern.ResultNoWaiters, s')) /\
  WakeByAddressIncrementEqualImpl a v count s = Fault NullDeref /\
  WakeByAddressModifyLessThanImpl a v count s = Fault NullDeref.
Proof.
  intros HI Hl Ha Hv Hw Hcount.
  set (s0 := set_m_scheduler_lock true s).
  assert (sched_inv s0 L) as HI0 by by apply inv_lock.
  pose proof (load_run s0 a v Ha Hv) as Eload.
  assert (forall m, find_waiter a (set_user_memory m s0) = Ok (None, set_user_memory m s0)) as Ef.
  { intros m. rewrite (find_waiter_run _ L a) by (by apply (inv_same s0)).
    by change (waiter_on (set_user_memory m s0) L a) with (waiter_on s L a); rewrite Hw. }
  assert (find_waiter a s0 = Ok (None, s0)) as Ef0.
  { rewrite (find_waiter_run s0 L a HI0). by change (waiter_on s0 L a) with (waiter_on s L a); rewrite Hw. }
  split; [|split].
  - exists s. by apply (wake_nobody_run s L).
  - unfold WakeByAddressIncrementEqualImpl. destruct (Z.eqb_spec a 0); [done|].
    apply scheduler_locked_fault; [done|]. fold s0.
    rewrite (M_bind_run _ _ _ _ _ Eload), Z.eqb_refl. cbn [negb].
    rewrite (M_bind_run _ _ _ _ _ (store_run s0 a v _ Ha Hv)).
    by rewrite (M_bind_run _ _ _ _ _ (Ef _)).
  - unfold WakeByAddressModifyLessThanImpl. destruct (Z.eqb_spec a 0); [done|].
    apply scheduler_locked_fault; [done|]. fold s0.
    rewrite (M_bind_run _ _ _ _ _ Eload), Z.eqb_refl. cbn [negb].
    rewrite (M_bind_run _ _ _ _ _ Ef0). run. cbn [negb Z.eqb].
    by rewrite (M_bind_run _ _ _ _ _ (store_run s0 a v _ Ha Hv)).
Qed.

(** A loop whose body unlinks the only element goes on to the list head. *)
Lemma for_local_runs_past {B} s1 s2 h x (body : NodeId -> B -> M UserScheduler (B * bool)) b b' e :
  x <> h -> is_list (nodes s1) h [x] -> is_list (nodes s2) h [] ->
  body x b s1 = Ok ((b', false), s2) -> body h b' s2 = Fault e ->
  for_local h body b s1 = Fault e.
Proof.
  intros Hne Hl1 Hl2 Eb1 Eb2. unfold for_local.
  assert (for_each list_fuel h (fun n => with_local (body n)) (s1, b) = Fault e) as ->; [|done].
  change list_fuel with (S (S 298)). apply (for_each_runs_past _ _ h x (s1, b) (s2, b')).
  - done.
  - by rewrite local_nodes.
  - by rewrite local_nodes.
  - unfold with_local. by rewrite Eb1.
  - unfold with_local. by rewrite Eb2.
Qed.

(** Waking more fibers than wait on an address runs past the end of the wait list: with
    one fiber behind the parent and a count of two or more, the loop over the list treats
    the list head as a fiber, for unlinking an element moves the end it compares with. *)
Theorem wake_runs_past_list s L a w c count :
  sched_inv s L -> m_scheduler_lock s = false -> a <> 0 -> 2 <= count ->
  waiter_on s L a = Some w -> L (WaitHead w) = [WaitNode c] -> c <> w ->
  waitable_object (storage s w) = Some WaitAddressArbiter ->
  waitable_object (storage s c) = Some WaitAddressArbiter ->
  WakeByAddressImpl a count s = Fault BadContainer.
Proof.
  intros HI Hl Ha Hcount Hw Ech Hne Hwo Hco. unfold WakeByAddressImpl.
  destruct (Z.eqb_spec a 0); [done|].
  set (s0 := set_m_scheduler_lock true s).
  assert (sched_inv s0 L) as HI0 by by apply inv_lock.
  destruct (waiter_on_inv s L a w HI Hw) as (_ & Hid & _).
  assert (fiber_id c) as Hidc.
  { destruct (inv_elem s L HI (WaitHead w) (WaitNode c)) as [(? & [=] & _)|(f & ? & [= ->] & _ & ?)]; [|done].
    rewrite Ech. by left. }
  apply scheduler_locked_fault; [done|]. fold s0. destruct (Z.eqb_spec count 0); [lia|].
  rewrite (M_bind_run _ _ _ _ _ (find_waiter_run s0 L a HI0)).
  change (waiter_on s0 L a) with (waiter_on s L a). rewrite Hw.
  apply M_bind_fault. unfold release_waiters. run. change (storage s0 w) with (storage s w). rewrite Hwo.
  rewrite (M_bind_run _ _ _ _ _ (EndWait_run WaitAddressArbiter w ResultSuccess s0 ltac:(done))).
  pose proof (inv_after_end_wait s0 L w ResultSuccess HI0 Hid) as HI1.
  pose proof (after_end_wait_storage w ResultSuccess c s0) as Ec. rewrite decide_False in Ec by done.
  set (s1 := after_end_wait w ResultSuccess s0) in *. set (L1 := enqueue _ _ _) in *.
  assert (L1 (WaitHead w) = [WaitNode c]) as E1.
  { unfold L1. by rewrite enqueue_wait_head, (without_wait_head s0). }
  pose proof (inv_after_end_wait s1 L1 c ResultSuccess HI1 Hidc) as HI2.
  set (s2 := after_end_wait c ResultSuccess s1) in *.
  set (L2 := enqueue (destination (storage s1 c)) _ _) in *.
  pose proof (inv_unlink s2 L2 (WaitNode c) HI2 eq_refl) as HI3.
  set (s3 := set_links (Unlink (WaitNode c) (links s2)) s2) in *.
  pose proof (inv_is_list s1 L1 (WaitHead w) HI1 eq_refl) as Hl1. rewrite E1 in Hl1.
  pose proof (inv_is_list s3 _ (WaitHead w) HI3 eq_refl) as Hl3.
  assert (without (WaitNode c) L2 (WaitHead w) = []) as E3.
  { unfold without, L2. rewrite enqueue_wait_head, (without_wait_head s1) by done.
    rewrite E1. cbn. by rewrite decide_False by tauto. }
  rewrite E3 in Hl3.
  set (body := fun n i => _). apply M_bind_fault, (for_local_runs_past s1 s3 (WaitHead w) (WaitNode c) body 1 2).
  - done.
  - done.
  - done.
  - unfold body. destruct (Z.ltb_spec count 1); [lia|]. cbn [wait_parent]. run.
    rewrite Ec. change (storage s0 c) with (storage s c). rewrite Hco.
    by rewrite (M_bind_run _ _ _ _ _ (EndWait_run WaitAddressArbiter c ResultSuccess s1 ltac:(done))).
  - unfold body. by destruct (Z.ltb_spec count 2); [lia|].
Qed.
End addresses.

(** * Keys *)
Section keys.
Implicit Types (s : UserScheduler) (L : NodeId -> list NodeId) (f g cur : Z).

Lemma wait_key_run s L cur la key tag t v :
  sched_inv s L -> m_scheduler_lock s = false -> la <> 0 -> key <> 0 ->
  user_memory s !! la = Some v ->
  0 <= ukern_fiber_handle (storage s cur) < 2 ^ 30 ->
  (L (WaitHead cur) <> [] -> v = Z.lor (ukern_fiber_handle (storage s cur)) HasChildWaitersBit) ->
  WaitKeyImpl cur la key tag t s =
    Ok (Returned (if decide (L (WaitHead cur) = []) then ukern.ResultRequiresLock
                  else ukern.ResultInvalidLockAddressValue), s).
Proof.
  intros HI Hl Hla Hk Hv Hh Hlock. unfold WaitKeyImpl.
  destruct (Z.eqb_spec la 0); [done|]. destruct (Z.eqb_spec key 0); [done|]. cbn [negb].
  set (s0 := set_m_scheduler_lock true s).
  assert (set_m_scheduler_lock false s0 = s) as Es by (destruct s; cbn in *; by subst).
  assert (sched_inv s0 L) as HI0 by by apply inv_lock.
  rewrite <- Es at 2. case_decide as Ech.
  - rewrite (scheduler_locked_switch_run _ s (Returned ukern.ResultRequiresLock) s0); [done|done|].
    rewrite (M_bind_run _ _ _ _ _ (wait_list_IsEmpty_run s0 L cur HI0)). by rewrite bool_decide_true.
  - rewrite (scheduler_locked_switch_run _ s (Returned ukern.ResultInvalidLockAddressValue) s0); [done|done|].
    rewrite (M_bind_run _ _ _ _ _ (wait_list_IsEmpty_run s0 L cur HI0)), bool_decide_false by done. cbn [negb].
    run. rewrite (M_bind_run _ _ _ _ _ (load_run s0 la v Hla Hv)).
    change (storage s0 cur) with (storage s cur). rewrite (Hlock Ech).
    destruct (Z.eqb_spec (ukern_fiber_handle (storage s cur))
      (Z.lor (ukern_fiber_handle (storage s cur)) HasChildWaitersBit)) as [E|_]; [exfalso|done].
    change HasChildWaitersBit with (Z.shiftl 1 30) in E. rewrite lor_disjoint_add in E by lia. lia.
Qed.

(** WaitKey never waits.  The owner of a lock without waiters fails the check that its
    wait list is not empty; the owner of a lock with waiters, whose lock word carries the
    waiters bit, fails the comparison of the lock word with its handle. *)
Theorem wait_key_never_waits s L cur la key tag t v :
  sched_inv s L -> m_scheduler_lock s = false -> la <> 0 -> key <> 0 ->
  user_memory s !! la = Some v ->
  0 <= ukern_fiber_handle (storage s cur) < 2 ^ 30 ->
  (L (WaitHead cur) <> [] -> v = Z.lor (ukern_fiber_handle (storage s cur)) HasChildWaitersBit) ->
  WaitKeyImpl cur la key tag t s =
    Ok (Returned (if decide (L (WaitHead cur) = []) then ukern.ResultRequiresLock
                  else ukern.ResultInvalidLockAddressValue), s).
Proof. apply wait_key_run. Qed.

(** SignalKey dereferences a null pointer whenever the lock of the waiting fiber is
    held: the owner is looked up by the complement of the waiters bit, not by the tag in
    the lock word, and no handle has that value. *)
Theorem signal_key_held_lock s L key n w handles tag :
  sched_inv s L -> m_scheduler_lock s = false -> table_inv (m_handle_table s) handles ->
  key <> 0 -> n <> 0 -> waiter_on s L key = Some w ->
  lock_address (storage s w) <> 0 -> user_memory s !! lock_address (storage s w) = Some tag -> tag <> 0 ->
  SignalKeyImpl key n s = Fault NullDeref.
Proof.
  intros HI Hl [Hwf Hm] Hk Hn Hw Hla Hv Htag. unfold SignalKeyImpl.
  destruct (Z.eqb_spec key 0); [done|].
  set (s0 := set_m_scheduler_lock true s).
  assert (sched_inv s0 L) as HI0 by by apply inv_lock.
  apply scheduler_locked_fault; [done|]. fold s0. destruct (Z.eqb_spec n 0); [done|].
  rewrite (M_bind_run _ _ _ _ _ (find_waiter_run s0 L key HI0)).
  change (waiter_on s0 L key) with (waiter_on s L key). rewrite Hw.
  apply M_bind_fault. unfold SwapLockForSignalKey. run. change (storage s0 w) with (storage s w).
  rewrite (M_bind_run _ _ _ _ _ (load_run s0 _ tag Hla Hv)). run.
  rewrite (M_bind_run _ _ _ _ _ (store_run s0 _ tag _ Hla Hv)).
  destruct (Z.eqb_spec tag 0); [done|]. cbn [negb].
  set (s1 := set_user_memory _ s0).
  assert (forall m, GetObjectByHandle_body (u32 (Z.lnot HasChildWaitersBit)) (set_mutex m (m_handle_table s))
    = Ok (None, set_mutex m (m_handle_table s))) as Eb by done.
  destruct (with_table_mutex_run _ _ _ _ Hm Eb) as (m & Erun & _).
  rewrite (M_bind_run _ _ s1 None (set_m_handle_table (set_mutex m (m_handle_table s)) s1)); [done|].
  unfold GetFiberByHandle, with_handle_table. change (m_handle_table s1) with (m_handle_table s).
  unfold GetObjectByHandle. by rewrite Erun.
Qed.
End keys.

(** * Witnesses *)
(** Closed equations and disequations, by evaluation. *)
Ltac ground :=
  match goal with
  | |- _ = _ => vm_compute; reflexivity
  | |- _ <> _ => vm_compute; discriminate
  end.

(** Fibers 1 and 2 of [example_idle], a word of memory, and fiber 2 waiting for the lock at
    that word, which fiber 1 owns with handle 5. *)
Definition example_memory (v : Z) : UserScheduler := set_user_memory {[100 := v]} example_idle.

Lemma example_memory_inv v : sched_inv (example_memory v) (fun _ => []).
Proof. apply (inv_same example_idle); [done|done|apply example_idle_inv]. Qed.

Lemma nothing_loose (n : NodeId) : loose (fun _ => []) n.
Proof. intros h Hn. by apply not_elem_of_nil in Hn. Qed.

Lemma small_fiber_id f : 0 <= f < 3 -> fiber_id f.
Proof. unfold fiber_id, MaxThreadCount. lia. Qed.

Definition example_lock : UserScheduler :=
  let s := upd (set_lock_address 100 ∘ (set_wait_tag 77 ∘ set_waitable_object (Some LockArbiter))) 2
             (upd (set_ukern_fiber_handle 5) 1 (example_memory (Z.lor 5 HasChildWaitersBit))) in
  set_links (PushBack (WaitHead 1) (WaitNode 2) (links s)) s.
Definition example_lock_lists : NodeId -> list NodeId := <[WaitHead 1 := [WaitNode 2]]> (fun _ => []).

Lemma example_lock_inv : sched_inv example_lock example_lock_lists.
Proof.
  apply (inv_push_child _ (fun _ => []) 2 1); [|by apply small_fiber_id|apply nothing_loose].
  do 2 (apply inv_upd; [|apply nothing_loose]). apply example_memory_inv.
Qed.

Lemma unlock_hands_over_witness : exists s', ArbitrateUnlockImpl 1 100 example_lock = Ok (ResultSuccess, s') /\
  user_memory s' = <[100 := 77]> (user_memory example_lock) /\ last_result (storage s' 2) = ResultSuccess.
Proof.
  destruct (unlock_hands_over example_lock example_lock_lists 1 2 100 (Z.lor 5 HasChildWaitersBit) 77)
    as (s' & E & Em & _ & Er & _); try ground.
  - exact example_lock_inv.
  - apply small_fiber_id. lia.
  - exists s'. split; [exact E|]. split; [exact Em|exact Er].
Defined.

Definition example_lock2 : UserScheduler :=
  set_links (PushBack (WaitHead 1) (WaitNode 0) (links example_lock)) example_lock.

Lemma unlock_transfers_head_witness : exists s' L', ArbitrateUnlockImpl 1 100 example_lock2 = Ok (ResultSuccess, s') /\
  family (links s') L' /\ L' (WaitHead 2) = [WaitNode 0; WaitHead 1].
Proof.
  destruct (unlock_transfers_head example_lock2 (<[WaitHead 1 := [WaitNode 2] ++ [WaitNode 0]]> example_lock_lists)
    1 2 (WaitNode 0) [] 100 (Z.lor 5 HasChildWaitersBit) 77) as (s' & L' & E & _ & HF & EL);
    try ground.
  - apply (inv_push_child example_lock example_lock_lists 0 1 example_lock_inv); [apply small_fiber_id; lia|].
    apply loose_insert; [apply nothing_loose|]. apply (bool_decide_unpack _); vm_compute; exact I.
  - apply small_fiber_id. lia.
  - exists s', L'. split; [exact E|]. split; [exact HF|exact EL].
Defined.

Lemma wait_key_never_waits_witness :
  WaitKeyImpl 1 100 200 77 50 example_lock = Ok (Returned ukern.ResultInvalidLockAddressValue, example_lock).
Proof.
  apply (wait_key_never_waits example_lock example_lock_lists 1 100 200 77 50 (Z.lor 5 HasChildWaitersBit));
    try ground.
  - exact example_lock_inv.
  - split; [apply Z.leb_le|apply Z.ltb_lt]; reflexivity.
  - intros _. ground.
Defined.

Lemma wait_for_address_if_equal_witness : exists s',
  WaitForAddressIfEqualImpl 1 100 9 5000 (example_memory 9) = Ok (Switched ResultSuccess, s') /\
  storage s' 1 = waiting_members 100 5000 (example_fiber 2).
Proof.
  destruct (wait_for_address_if_equal (example_memory 9) (fun _ => []) 1 100 9 9 5000)
    as (s' & r & E & _ & H); try ground.
  - apply example_memory_inv.
  - apply small_fiber_id. lia.
  - split; [split; [apply Z.leb_le|apply Z.ltb_lt]|]; reflexivity.
  - apply nothing_loose.
  - destruct H as (-> & Es & _). exists s'. split; [exact E|exact Es].
Defined.

(** Fiber 1 waiting on the word until tick 500, and fiber 2 waiting behind it. *)
Definition example_wait : UserScheduler :=
  let s := upd (waiting_members 100 500) 1 (example_memory 9) in
  set_links (PushBack WaitListHead (SchedNode 1) (links s)) s.
Definition example_wait_lists : NodeId -> list NodeId := <[WaitListHead := [SchedNode 1]]> (fun _ => []).

Lemma example_wait_inv : sched_inv example_wait example_wait_lists.
Proof.
  apply (inv_push _ (fun _ => []) 1 WaitListHead).
  - apply inv_upd; [apply example_memory_inv|apply nothing_loose].
  - by apply small_fiber_id.
  - apply nothing_loose.
  - reflexivity.
Qed.

Lemma woken_fiber_times_out_witness : exists s', WakeByAddressImpl 100 1 example_wait = Ok (ResultSuccess, s') /\
  IsSchedulable 1 0 400 s' = Ok (false, s') /\
  exists s'', IsSchedulable 1 0 501 s' = Ok (true, s'') /\
    exists s3, Wait_resume 1 ResultSuccess s'' = Ok (ukern.ResultTimeout, s3).
Proof.
  destruct (woken_fiber_times_out example_wait example_wait_lists 100 1 1 0) as (s' & E & _ & _ & Ht);
    try ground.
  - exact example_wait_inv.
  - split; [apply Z.leb_le|apply Z.ltb_lt]; reflexivity.
  - exists s'. split; [exact E|]. split; [exact (Ht 400)|exact (Ht 501)].
Defined.

Lemma wake_without_waiter_witness :
  WakeByAddressIncrementEqualImpl 100 9 1 (example_memory 9) = Fault NullDeref.
Proof.
  refine (proj1 (proj2 (wake_without_waiter (example_memory 9) (fun _ => []) 100 9 1 (example_memory_inv 9)
    eq_refl _ eq_refl eq_refl _))); discriminate.
Defined.

Definition example_wait2 : UserScheduler :=
  let s := upd (waiting_members 100 500) 2 example_wait in
  set_links (PushBack (WaitHead 1) (WaitNode 2) (links s)) s.

Lemma wake_runs_past_list_witness : WakeByAddressImpl 100 2 example_wait2 = Fault BadContainer.
Proof.
  apply (wake_runs_past_list example_wait2 (<[WaitHead 1 := [WaitNode 2]]> example_wait_lists) 100 1 2 2);
    try ground; [|lia].
  apply (inv_push_child _ example_wait_lists 2 1).
  - apply inv_upd; [exact example_wait_inv|]. apply loose_insert; [apply nothing_loose|].
    apply (bool_decide_unpack _); vm_compute; exact I.
  - by apply small_fiber_id.
  - apply loose_insert; [apply nothing_loose|]. apply (bool_decide_unpack _); vm_compute; exact I.
Defined.

Lemma inv_handle_table s L ht : sched_inv s L -> sched_inv (set_m_handle_table ht s) L.
Proof. by apply inv_same. Qed.

Lemma signal_key_held_lock_witness : exists s handles, table_inv (m_handle_table s) handles /\
  SignalKeyImpl 200 1 s = Fault NullDeref.
Proof.
  destruct (@Initialize_inv Z) as (ht & _ & Hht).
  set (s := set_m_handle_table ht (upd (set_lock_address 100 ∘ set_wait_address 200) 1 example_wait)).
  exists s, (reverse (seq 0 256)). split; [exact Hht|].
  apply (signal_key_held_lock s example_wait_lists 200 1 1 (reverse (seq 0 256)) 9);
    try ground; [|exact Hht].
  apply inv_handle_table.
  apply inv_upd_placed; [exact example_wait_inv|]. generalize (storage example_wait 1).
  intros x h Hp. destruct h; exact Hp.
Defined.
