(* ===== verification/MessageQueue.v ===== *)
(** util::MessageQueue and sys::MessageQueue (util_messagequeue.hpp,
    sys_messagequeue.hpp): a ring buffer under a lock with two condition variables.

    The two classes have the same code over different locks and condition variables.
    [abs q l] reads the ring as the sequence [l] of pending messages.  A wait on a condition
    variable lets other threads act: it is an argument [wait] of the blocking operations. *)
From S2P Require Import Prelude.

Record MessageQueue : Type := mkQueue {
  m_message_buffer : option (list Z);   (* size_t[m_max_messages] *)
  m_max_messages : Z;                   (* s32 *)
  m_pending_messages : Z;               (* s32 *)
  m_current_message : Z;                (* s32 *)
  m_message_cs : bool;                  (* held *)
  m_message_sent_cv : nat;              (* broadcasts made *)
  m_buffer_full_cv : nat
}.

(** A queue with static storage: the constructor leaves the members as they are. *)
Definition construct : MessageQueue := mkQueue None 0 0 0 false 0 0.

Definition set_cs (b : bool) (q : MessageQueue) : MessageQueue :=
  mkQueue (m_message_buffer q) (m_max_messages q) (m_pending_messages q) (m_current_message q) b
    (m_message_sent_cv q) (m_buffer_full_cv q).

(** std::scoped_lock on the queue's lock. *)
Definition queue_locked {A} (body : M MessageQueue A) : M MessageQueue A :=
  held ← gets m_message_cs;
  (if (held : bool) then throw Blocked else modify (set_cs true));;
  r ← body;
  modify (set_cs false);;
  mret r.

(** [buffer]: what new size_t[max_message_count] returns. *)
Definition Initialize (buffer : option (list Z)) (max_message_count : Z) : M MessageQueue unit :=
  dd_assert (bool_decide (is_Some buffer));;
  modify (fun q => mkQueue buffer max_message_count (m_pending_messages q) (m_current_message q)
    (m_message_cs q) (m_message_sent_cv q) (m_buffer_full_cv q)).

Definition Finalize : M MessageQueue unit :=
  modify (fun q => mkQueue None (m_max_messages q) (m_pending_messages q) (m_current_message q)
    (m_message_cs q) (m_message_sent_cv q) (m_buffer_full_cv q)).

Definition SendMessageImpl (message : Z) : M MessageQueue unit :=
  q ← get;
  index ← lift (chk32 (m_pending_messages q + m_current_message q));
  index ← (if m_max_messages q <=? index then lift (chk32 (index - m_max_messages q)) else mret index);
  buffer ← deref (m_message_buffer q);
  buffer ← lift (arr_set buffer index message);
  pending ← lift (chk32 (m_pending_messages q + 1));
  modify (fun q => mkQueue (Some buffer) (m_max_messages q) pending (m_current_message q) (m_message_cs q)
    (S (m_message_sent_cv q)) (m_buffer_full_cv q)).

(** Answers *out_message. *)
Definition RecieveMessageImpl : M MessageQueue Z :=
  q ← get;
  buffer ← deref (m_message_buffer q);
  message ← lift (arr_get buffer (m_current_message q));
  current ← lift (chk32 (m_current_message q + 1));
  pending ← lift (chk32 (m_pending_messages q - 1));
  let offset := if m_max_messages q <=? current then u32 (m_max_messages q) else 0 in
  modify (fun q => mkQueue (m_message_buffer q) (m_max_messages q) pending (s32 (u32 (current - offset)))
    (m_message_cs q) (m_message_sent_cv q) (S (m_buffer_full_cv q)));;
  mret message.

Definition TryReceiveMessage : M MessageQueue (option Z) :=
  queue_locked (
    pending ← gets m_pending_messages;
    if pending =? 0 then mret None else message ← RecieveMessageImpl; mret (Some message)).

Definition TrySendMessage (message : Z) : M MessageQueue bool :=
  queue_locked (
    q ← get;
    if m_max_messages q <=? m_pending_messages q then mret false
    else SendMessageImpl message;; mret true).

Section blocking.
(** What a wait on the condition variable does to the queue; the lock is held again after it. *)
Variable wait : M MessageQueue unit.

Fixpoint WaitForMessage (fuel : nat) : M MessageQueue unit :=
  pending ← gets m_pending_messages;
  if pending =? 0 then
    match fuel with O => throw OutOfFuel | S fuel => wait;; WaitForMessage fuel end
  else mret tt.

Fixpoint WaitForMessageClear (fuel : nat) : M MessageQueue unit :=
  q ← get;
  if m_max_messages q <=? m_pending_messages q then
    match fuel with O => throw OutOfFuel | S fuel => wait;; WaitForMessageClear fuel end
  else mret tt.

Definition ReceiveMessage (fuel : nat) : M MessageQueue Z :=
  queue_locked (WaitForMessage fuel;; RecieveMessageImpl).
Definition SendMessage (fuel : nat) (message : Z) : M MessageQueue unit :=
  queue_locked (WaitForMessageClear fuel;; SendMessageImpl message).
End blocking.

(** sys::MessageQueue: the same operations, with a buffer from a heap as well. *)
Module sys.
Definition MessageQueue : Type := MessageQueue.
Definition WaitForMessage := WaitForMessage.
Definition WaitForMessageClear := WaitForMessageClear.
Definition SendMessageImpl := SendMessageImpl.
Definition RecieveMessageImpl := RecieveMessageImpl.
Definition Initialize := Initialize.
Definition Finalize := Finalize.
Definition ReceiveMessage := ReceiveMessage.
Definition TryReceiveMessage := TryReceiveMessage.
Definition SendMessage := SendMessage.
Definition TrySendMessage := TrySendMessage.
End sys.

(** * The queue of messages *)
(** The ring holds the messages [l], oldest first. *)
Record abs (q : MessageQueue) (l : list Z) : Prop := {
  abs_buffer : exists buffer, m_message_buffer q = Some buffer /\
    Z.of_nat (length buffer) = m_max_messages q /\
    forall i x, l !! i = Some x ->
      buffer !! Z.to_nat ((m_current_message q + Z.of_nat i) mod m_max_messages q) = Some x;
  abs_max : 0 < m_max_messages q < 2 ^ 30;
  abs_current : 0 <= m_current_message q < m_max_messages q;
  abs_pending : m_pending_messages q = Z.of_nat (length l);
  abs_bound : m_pending_messages q <= m_max_messages q
}.

Section queue.
Implicit Types (q : MessageQueue) (l : list Z).

Lemma wrap_index a b n : 0 <= a < n -> 0 <= b < n -> (if n <=? a + b then a + b - n else a + b) = (a + b) mod n.
Proof.
  intros Ha Hb. destruct (Z.leb_spec n (a + b)).
  - apply Z.mod_unique with 1; lia.
  - symmetry. apply Z.mod_small. lia.
Qed.

(** Distinct offsets below the capacity are distinct slots. *)
Lemma index_inj c i j n : 0 < n -> 0 <= i < n -> 0 <= j < n -> (c + i) mod n = (c + j) mod n -> i = j.
Proof.
  intros Hn Hi Hj E.
  assert ((c + i - (c + j)) mod n = 0) as E0.
  { rewrite Zminus_mod, E, Z.sub_diag. apply Z.mod_0_l. lia. }
  apply Z.mod_divide in E0 as [k Hk]; [|lia]. assert (k = 0) by nia. lia.
Qed.

Lemma SendMessageImpl_run q l m :
  abs q l -> Z.of_nat (length l) < m_max_messages q ->
  exists q', SendMessageImpl m q = Ok (tt, q') /\ abs q' (l ++ [m]) /\
    m_message_sent_cv q' = S (m_message_sent_cv q) /\ m_message_cs q' = m_message_cs q.
Proof.
  intros [(buffer & Hb & Hlen & Hl) Hmax Hcur Hpend Hbound] Hlt.
  set (n := m_max_messages q) in *. set (c := m_current_message q) in *.
  set (k := Z.of_nat (length l)) in *.
  pose proof (Z.mod_pos_bound (c + k) n ltac:(lia)) as Hidx.
  assert (arr_set buffer ((c + k) mod n) m = Ok (<[Z.to_nat ((c + k) mod n) := m]> buffer)) as Es.
  { rewrite <- (Z2Nat.id ((c + k) mod n)) at 1 by lia. apply arr_set_insert. lia. }
  assert (SendMessageImpl m q = Ok (tt, mkQueue (Some (<[Z.to_nat ((c + k) mod n) := m]> buffer)) n (k + 1) c
    (m_message_cs q) (S (m_message_sent_cv q)) (m_buffer_full_cv q))) as E.
  { unfold SendMessageImpl. run_M. fold c n. rewrite Hpend. fold k. rewrite chk32_ok by lia.
    rewrite <- (wrap_index c k n) in Es |- * by lia. rewrite (Z.add_comm c k) in Es |- *. rewrite Hb. run_M.
    destruct (n <=? k + c); [rewrite chk32_ok by lia|]; rewrite Es, chk32_ok by lia; done. }
  eexists. split; [exact E|]. split; [|done].
  split; cbn.
  - eexists. split; [done|]. split; [by rewrite length_insert|]. fold c n. intros i x Hi.
    destruct (decide (i = length l)) as [->|Hne].
    + rewrite lookup_app_r, Nat.sub_diag in Hi by lia. injection Hi as <-.
      rewrite list_lookup_insert_eq; [done|lia].
    + assert (i < length l)%nat as Hil.
      { apply lookup_lt_Some in Hi. rewrite length_app in Hi. cbn in Hi. lia. }
      rewrite lookup_app_l in Hi by done. rewrite list_lookup_insert_ne; [by apply Hl|].
      intros Ei. apply Z2Nat.inj in Ei; [|lia|apply Z.mod_pos_bound; lia].
      apply index_inj in Ei; lia.
  - done.
  - done.
  - rewrite length_app. cbn. lia.
  - fold n. lia.
Qed.

Lemma RecieveMessageImpl_run q x l :
  abs q (x :: l) ->
  exists q', RecieveMessageImpl q = Ok (x, q') /\ abs q' l /\
    m_buffer_full_cv q' = S (m_buffer_full_cv q) /\ m_message_cs q' = m_message_cs q.
Proof.
  intros [(buffer & Hb & Hlen & Hl) Hmax Hcur Hpend Hbound]. cbn in Hpend.
  set (n := m_max_messages q) in *. set (c := m_current_message q) in *.
  pose proof (Hl 0%nat x eq_refl) as Hx. rewrite Z.add_0_r, Z.mod_small in Hx by lia.
  set (c' := (c + 1) mod n).
  assert (RecieveMessageImpl q = Ok (x, mkQueue (Some buffer) n (Z.of_nat (length l)) c' (m_message_cs q)
     (m_message_sent_cv q) (S (m_buffer_full_cv q)))) as E.
  { unfold RecieveMessageImpl. run_M. fold c n. rewrite Hb. run_M.
    assert (arr_get buffer c = Ok x) as ->.
    { rewrite <- (Z2Nat.id c) by lia. by apply arr_get_lookup. }
    rewrite chk32_ok by lia. rewrite Hpend, chk32_ok by lia.
    replace (Z.of_nat (S (length l)) - 1) with (Z.of_nat (length l)) by lia.
    replace (s32 _) with c'; [by rewrite <- Hb|]. unfold c', s32, u32. destruct (Z.leb_spec n (c + 1)).
    - assert (c + 1 = n) as -> by lia. rewrite (wrap_small 32 n) by lia.
      rewrite Z.sub_diag, Z.mod_same by lia. done.
    - rewrite Z.sub_0_r, Z.mod_small by lia. rewrite wrap_small, swrap_small; lia. }
  eexists. split; [exact E|]. split; [|done]. split; cbn.
  - exists buffer. split; [done|]. split; [done|]. intros i y Hi.
    replace ((c' + Z.of_nat i) mod n) with ((c + Z.of_nat (S i)) mod n); [by apply Hl|].
    unfold c'. rewrite Zplus_mod_idemp_l. f_equal. lia.
  - done.
  - apply Z.mod_pos_bound. lia.
  - done.
  - lia.
Qed.

Lemma queue_locked_run {A} (body : M MessageQueue A) q r q' :
  m_message_cs q = false -> body (set_cs true q) = Ok (r, q') ->
  queue_locked body q = Ok (r, set_cs false q').
Proof. intros Hl Hb. unfold queue_locked. run_M. by rewrite Hl, Hb. Qed.

Lemma abs_set_cs q l b : abs q l -> abs (set_cs b q) l.
Proof. by intros []. Qed.
End queue.

(** * Properties *)
Section properties.
Implicit Types (q : MessageQueue) (l : list Z).

(** [C15] The ring buffer is a bounded first-in first-out queue: a send without waiting
    appends the message exactly when fewer than the maximum are pending and is refused
    otherwise, a receive without waiting takes the oldest message exactly when there is
    one; indices stay in the buffer and no counter overflows. *)
Theorem message_queue_fifo q l m :
  abs q l -> m_message_cs q = false ->
  (if Z.of_nat (length l) <? m_max_messages q
   then exists q', TrySendMessage m q = Ok (true, q') /\ abs q' (l ++ [m]) /\ m_message_cs q' = false
   else exists q', TrySendMessage m q = Ok (false, q') /\ abs q' l /\ m_message_cs q' = false) /\
  match l with
  | [] => exists q', TryReceiveMessage q = Ok (None, q') /\ abs q' [] /\ m_message_cs q' = false
  | x :: l' => exists q', TryReceiveMessage q = Ok (Some x, q') /\ abs q' l' /\ m_message_cs q' = false
  end.
Proof.
  intros Ha Hl. pose proof (abs_set_cs q l true Ha) as Ha1. pose proof (abs_pending _ _ Ha1) as Hp.
  split.
  - destruct (Z.ltb_spec (Z.of_nat (length l)) (m_max_messages q)) as [Hlt|Hge].
    + destruct (SendMessageImpl_run (set_cs true q) l m Ha1 Hlt) as (q' & E & Ha' & _).
      exists (set_cs false q'). split; [|split; [by apply abs_set_cs|done]].
      apply queue_locked_run; [done|]. unfold get. unfold mbind at 1, M_bind at 1. rewrite Hp.
      destruct (Z.leb_spec (m_max_messages (set_cs true q)) (Z.of_nat (length l))); [cbn in *; lia|].
      by rewrite (M_bind_run _ _ _ _ _ E).
    + exists (set_cs false (set_cs true q)). split; [|split; [by apply abs_set_cs|done]].
      apply queue_locked_run; [done|]. unfold get. unfold mbind at 1, M_bind at 1. rewrite Hp.
      by destruct (Z.leb_spec (m_max_messages (set_cs true q)) (Z.of_nat (length l))); [|cbn in *; lia].
  - destruct l as [|x l].
    + exists (set_cs false (set_cs true q)). split; [|split; [by apply abs_set_cs|done]].
      apply queue_locked_run; [done|]. unfold gets. unfold mbind at 1, M_bind at 1. by rewrite Hp.
    + destruct (RecieveMessageImpl_run (set_cs true q) x l Ha1) as (q' & E & Ha' & _).
      exists (set_cs false q'). split; [|split; [by apply abs_set_cs|done]].
      apply queue_locked_run; [done|]. unfold gets. unfold mbind at 1, M_bind at 1. rewrite Hp.
      destruct (Z.eqb_spec (Z.of_nat (length (x :: l))) 0); [cbn in *; lia|].
      by rewrite (M_bind_run _ _ _ _ _ E).
Qed.

Lemma WaitForMessage_empty wait fuel q :
  m_pending_messages q = 0 ->
  WaitForMessage wait fuel q =
    match fuel with O => Fault OutOfFuel | S fuel => (wait;; WaitForMessage wait fuel) q end.
Proof. intros Hp. destruct fuel; cbn [WaitForMessage]; unfold gets; unfold mbind at 1, M_bind at 1; by rewrite Hp. Qed.

Lemma WaitForMessage_pending wait fuel q :
  m_pending_messages q <> 0 -> WaitForMessage wait fuel q = Ok (tt, q).
Proof.
  intros Hp. apply Z.eqb_neq in Hp.
  destruct fuel; cbn [WaitForMessage]; unfold gets; unfold mbind at 1, M_bind at 1; by rewrite Hp.
Qed.

(** ReceiveMessage waits while the queue is empty: with a wait during which some thread
    sends a message it returns that message; a wait that changes nothing is repeated for
    ever. *)
Theorem receive_waits q m fuel wait :
  abs q [] -> m_message_cs q = false ->
  (wait (set_cs true q) = Ok (tt, set_cs true q) -> ReceiveMessage wait fuel q = Fault OutOfFuel) /\
  (wait (set_cs true q) = SendMessageImpl m (set_cs true q) ->
   exists q', ReceiveMessage wait (S fuel) q = Ok (m, q') /\ abs q' [] /\ m_message_cs q' = false).
Proof.
  intros Ha Hl. pose proof (abs_set_cs q [] true Ha) as Ha1. pose proof (abs_pending _ _ Ha1) as Hp.
  split.
  - intros Hw. unfold ReceiveMessage, queue_locked. unfold gets, modify, throw.
    unfold mbind at 1, M_bind at 1. rewrite Hl. unfold mbind at 1, M_bind at 1.
    apply M_bind_fault, M_bind_fault. induction fuel as [|fuel IH]; rewrite WaitForMessage_empty by done; [done|].
    by rewrite (M_bind_run _ _ _ _ _ Hw).
  - intros Hw. destruct (SendMessageImpl_run (set_cs true q) [] m Ha1) as (q1 & E1 & Ha2 & _).
    { pose proof (abs_max _ _ Ha1). cbn in *. lia. }
    rewrite E1 in Hw. destruct (RecieveMessageImpl_run q1 m [] Ha2) as (q2 & E2 & Ha3 & _).
    exists (set_cs false q2). split; [|split; [by apply abs_set_cs|done]].
    apply queue_locked_run; [done|].
    assert (WaitForMessage wait (S fuel) (set_cs true q) = Ok (tt, q1)) as E.
    { rewrite WaitForMessage_empty, (M_bind_run _ _ _ _ _ Hw) by done.
      apply WaitForMessage_pending. by rewrite (abs_pending _ _ Ha2). }
    by rewrite (M_bind_run _ _ _ _ _ E).
Qed.
End properties.

(** A queue for two messages. *)
Definition example_queue : MessageQueue := mkQueue (Some [0; 0]) 2 0 1 false 0 0.

Lemma example_queue_abs : abs example_queue [].
Proof. split; cbn; try lia. exists [0; 0]. split; [done|]. split; [done|]. intros i x Hi. done. Qed.

Lemma message_queue_fifo_witness : exists q1, TrySendMessage 7 example_queue = Ok (true, q1) /\ abs q1 [7].
Proof.
  destruct (message_queue_fifo example_queue [] 7 example_queue_abs eq_refl) as [(q1 & E & Ha & _) _].
  exists q1. split; [exact E|exact Ha].
Defined.

Lemma receive_waits_witness : ReceiveMessage (mret tt) 9 example_queue = Fault OutOfFuel.
Proof. apply (proj1 (receive_waits example_queue 7 9 (mret tt) example_queue_abs eq_refl)). reflexivity. Defined.
