(* ===== verification/UKernSync.v ===== *)
(** The interface of ukern and what is built on it: the thread and synchronisation calls
    (ukern_threadapi.cpp, ukern_synchronizationapi.cpp, ukern_debug.cpp),
    InternalCriticalSection and InternalConditionVariable.

    [cur] is the calling fiber; [ts] and [now] are the tick frequency and the counter.  A
    synchronisation object is the address of its word in user memory. *)
From stdpp Require Import functions.
From S2P Require Import Prelude Result TimeSpan IntrusiveList ListFamily BusyMutex HandleTable.
From S2P Require Import Allocators Fiber Scheduler SchedulerSpec WaitSpec.

(** * ukern_threadapi.cpp *)
Module ukern.
Definition CreateThread (thread_func arg stack_size priority core_id : Z) : M UserScheduler (Z * option Z) :=
  CreateThreadImpl thread_func arg stack_size (s32 priority) core_id.
Definition ExitThread (cur handle : Z) : M UserScheduler (option Outcome) := ExitThreadImpl_round cur handle.
Definition StartThread (handle : Z) : M UserScheduler Z := SetActivityImpl handle ActivityLevel_Schedulable.
Definition ResumeThread (handle : Z) : M UserScheduler Z := SetActivityImpl handle ActivityLevel_Schedulable.
Definition SuspendThread (handle : Z) : M UserScheduler Z := SetActivityImpl handle ActivityLevel_Suspended.

(** [name]: None is nullptr. *)
Definition SetThreadName (handle : Z) (name : option string) : M UserScheduler unit :=
  object ← GetFiberByHandle handle;
  dd_assert (bool_decide (is_Some object));;
  fiber ← deref object;
  match name with
  | None => SetInitialFiberNameUnsafe fiber
  | Some name => update (set_fiber_name_storage (strncpy name MaxFiberNameLength)) fiber
  end.
Definition SetThreadNamePointer (handle name : Z) : M UserScheduler unit :=
  object ← GetFiberByHandle handle;
  dd_assert (bool_decide (is_Some object));;
  fiber ← deref object;
  if name =? 0 then SetInitialFiberNameUnsafe fiber else update (set_fiber_name name) fiber.

Definition SetThreadPriority (handle priority : Z) : M UserScheduler Z := SetPriorityImpl handle (s32 priority).
Definition SetThreadCoreMask (handle core_mask : Z) : M UserScheduler Z := SetCoreMaskImpl handle core_mask.
Definition Sleep (ts : TimeStamp) (now cur timeout_span : Z) : M UserScheduler Outcome :=
  t ← lift (GetAbsoluteTimeToWakeup ts now timeout_span);
  SleepThreadImpl cur (u64 t).
Definition YieldThread (cur : Z) : M UserScheduler Outcome := SleepThreadImpl cur 0.

(** * ukern_synchronizationapi.cpp *)
Inductive ArbitrationType : Type :=
  | ArbitrationType_WaitIfLessThan | ArbitrationType_DecrementWaitIfLessThan | ArbitrationType_WaitIfEqual.
Definition arbitration_type (t : Z) : option ArbitrationType :=
  match t with
  | 0 => Some ArbitrationType_WaitIfLessThan
  | 1 => Some ArbitrationType_DecrementWaitIfLessThan
  | 2 => Some ArbitrationType_WaitIfEqual
  | _ => None
  end.
Inductive SignalType : Type :=
  | SignalType_Signal | SignalType_SignalAndIncrementIfEqual | SignalType_SignalAndModifyByWaiterCountIfEqual.
Definition signal_type (t : Z) : option SignalType :=
  match t with
  | 0 => Some SignalType_Signal
  | 1 => Some SignalType_SignalAndIncrementIfEqual
  | 2 => Some SignalType_SignalAndModifyByWaiterCountIfEqual
  | _ => None
  end.

Definition ArbitrateLock (cur handle address tag : Z) : M UserScheduler Outcome := ArbitrateLockImpl cur handle address tag.
Definition ArbitrateUnlock (cur address : Z) : M UserScheduler Z := ArbitrateUnlockImpl cur address.
Definition WaitKey (ts : TimeStamp) (now cur address cv_key tag timeout_ns : Z) : M UserScheduler Outcome :=
  t ← lift (GetAbsoluteTimeToWakeup ts now timeout_ns);
  WaitKeyImpl cur address cv_key tag t.
Definition SignalKey (cv_key count : Z) : M UserScheduler Z := SignalKeyImpl cv_key count.
Definition WaitOnAddress (ts : TimeStamp) (now cur address type value timeout_ns : Z) : M UserScheduler Outcome :=
  t ← lift (GetAbsoluteTimeToWakeup ts now timeout_ns);
  let absolute_timeout := u64 t in
  match arbitration_type type with
  | Some ArbitrationType_WaitIfEqual => WaitForAddressIfEqualImpl cur address value (s64 absolute_timeout)
  | Some ArbitrationType_DecrementWaitIfLessThan =>
      WaitForAddressIfLessThanImpl cur address value (s64 absolute_timeout) true
  | Some ArbitrationType_WaitIfLessThan =>
      WaitForAddressIfLessThanImpl cur address value (s64 absolute_timeout) false
  | None => mret (Returned Result.ukern.ResultInvalidArbitrationType)
  end.
Definition WakeByAddress (address type value count : Z) : M UserScheduler Z :=
  match signal_type type with
  | Some SignalType_Signal => WakeByAddressImpl address count
  | Some SignalType_SignalAndIncrementIfEqual => WakeByAddressIncrementEqualImpl address value count
  | Some SignalType_SignalAndModifyByWaiterCountIfEqual => WakeByAddressModifyLessThanImpl address value count
  | None => mret Result.ukern.ResultInvalidSignalType
  end.

(** ukern_init.cpp, ukern_debug.cpp *)
Definition InitializeUKern (core_mask : Z) : M UserScheduler unit := Scheduler_Initialize core_mask.
Definition StopAllOtherCores (cur : Z) : M UserScheduler unit := SuspendAllOtherCoresImpl cur.
End ukern.

(** * InternalCriticalSection *)
Definition owner_bits (word : Z) : Z := Z.land word (u32 (Z.lnot HasChildWaitersBit)).
Definition waiters_bit (word : Z) : bool := Z.land (Z.shiftr word 0x1e) 1 =? 1.

(** InterlockedCompareExchange and InterlockedOr: the old value is returned. *)
Definition compare_exchange (address exchange comparand : Z) : M UserScheduler Z :=
  v ← load address;
  (if v =? comparand then store address exchange else mret tt);;
  mret v.
Definition interlocked_or (address bits : Z) : M UserScheduler Z :=
  v ← load address;
  store address (Z.lor v bits);;
  mret v.

Module InternalCriticalSection.
(** Where Enter() is between two accesses to m_handle, and how a step of it ends. *)
Inductive EnterPc : Type := TryAcquire | SetTag (other_waiter : Z) | Arbitrate (other_waiter : Z) | CheckOwner.
Inductive EnterStep : Type :=
  | Goto (pc : EnterPc)
  | Entered
  | SwitchedOut.  (* waiting in ArbitrateLockImpl; goes on with [Enter_resume] *)

Definition Enter_step (cur m_handle : Z) (pc : EnterPc) : M UserScheduler EnterStep :=
  tag ← member ukern_fiber_handle cur;
  match pc with
  | TryAcquire =>
      other_waiter ← compare_exchange m_handle tag 0;
      if other_waiter =? 0 then mret Entered
      else if waiters_bit other_waiter then mret (Goto (Arbitrate other_waiter))
      else mret (Goto (SetTag other_waiter))
  | SetTag other_waiter =>
      prev_value ← interlocked_or m_handle HasChildWaitersBit;
      if prev_value =? other_waiter then mret (Goto (Arbitrate other_waiter)) else mret (Goto TryAcquire)
  | Arbitrate other_waiter =>
      o ← ArbitrateLockImpl cur (owner_bits other_waiter) m_handle tag;
      match o with
      | Switched _ => mret SwitchedOut
      | Returned r => if r =? ResultSuccess then mret (Goto CheckOwner) else throw AssertFailed
      end
  | CheckOwner =>
      v ← load m_handle;
      if owner_bits v =? tag then mret Entered else mret (Goto TryAcquire)
  end.

(** Enter() while no other thread runs in between. *)
Fixpoint Enter_from (fuel : nat) (cur m_handle : Z) (pc : EnterPc) : M UserScheduler EnterStep :=
  match fuel with
  | O => throw OutOfFuel
  | S fuel =>
      r ← Enter_step cur m_handle pc;
      match r with Goto pc => Enter_from fuel cur m_handle pc | _ => mret r end
  end.
Definition Enter (fuel : nat) (cur m_handle : Z) : M UserScheduler EnterStep :=
  Enter_from fuel cur m_handle TryAcquire.

(** The rest of ArbitrateLockImpl and RESULT_ABORT_UNLESS. *)
Definition Enter_resume (cur : Z) : M UserScheduler EnterPc :=
  r ← ArbitrateLockImpl_resume cur;
  if r =? ResultSuccess then mret CheckOwner else throw AssertFailed.

Definition TryEnter (cur m_handle : Z) : M UserScheduler bool :=
  tag ← member ukern_fiber_handle cur;
  other_waiter ← compare_exchange m_handle tag 0;
  mret (other_waiter =? 0).

Definition Leave (cur m_handle : Z) : M UserScheduler unit :=
  v ← load m_handle;
  if waiters_bit v then
    r ← ArbitrateUnlockImpl cur m_handle;
    if r =? ResultSuccess then mret tt else throw AssertFailed
  else store m_handle 0.

Definition IsLockedByCurrentThread (cur m_handle : Z) : M UserScheduler bool :=
  v ← load m_handle;
  tag ← member ukern_fiber_handle cur;
  mret (owner_bits v =? tag).
End InternalCriticalSection.

Module InternalConditionVariable.
(** [cs], [m_cv]: the addresses of the critical section and of the condition variable. *)
Definition Wait (cur m_cv cs : Z) : M UserScheduler Outcome :=
  tag ← member ukern_fiber_handle cur;
  v ← load cs;
  dd_assert (tag =? owner_bits v);;
  WaitKeyImpl cur cs m_cv tag (-1).

Definition TimedWait (ts : TimeStamp) (now cur m_cv cs timeout_ns : Z) : M UserScheduler Outcome :=
  tag ← member ukern_fiber_handle cur;
  v ← load cs;
  dd_assert (tag =? owner_bits v);;
  t ← lift (GetAbsoluteTimeToWakeup ts now timeout_ns);
  WaitKeyImpl cur cs m_cv tag t.

Definition Signal (m_cv count : Z) : M UserScheduler unit :=
  v ← load m_cv;
  if negb (v =? 0) then SignalKeyImpl m_cv count;; mret tt else mret tt.
Definition Broadcast (m_cv : Z) : M UserScheduler unit :=
  v ← load m_cv;
  if negb (v =? 0) then SignalKeyImpl m_cv (u32 (-1));; mret tt else mret tt.
End InternalConditionVariable.

(** * Properties of the critical section *)
Section critical_section.
Import InternalCriticalSection.
Implicit Types (s : UserScheduler) (L : NodeId -> list NodeId) (f g cur a : Z).

Lemma compare_exchange_run s a v exchange comparand :
  a <> 0 -> user_memory s !! a = Some v ->
  compare_exchange a exchange comparand s =
    Ok (v, if v =? comparand then set_user_memory (<[a := exchange]> (user_memory s)) s else s).
Proof.
  intros Ha Hv. unfold compare_exchange. rewrite (M_bind_run _ _ _ _ _ (load_run s a v Ha Hv)).
  destruct (v =? comparand); [|done]. by rewrite (M_bind_run _ _ _ _ _ (store_run s a v exchange Ha Hv)).
Qed.

Lemma GetFiberByHandle_other handle s s' o s1 :
  m_handle_table s' = m_handle_table s -> GetFiberByHandle handle s = Ok (o, s1) ->
  GetFiberByHandle handle s' = Ok (o, set_m_handle_table (m_handle_table s1) s').
Proof.
  unfold GetFiberByHandle, with_handle_table. intros ->.
  destruct (GetObjectByHandle handle (m_handle_table s)) as [[o' ht]|]; [|done].
  by intros [= <- <-].
Qed.

(** A handle, an index below 2^8 and a counter of 15 bits, leaves the waiters bit free. *)
Definition is_tag (tag : Z) : Prop := 0 < tag < 2 ^ 30.

Lemma tag_bits tag : is_tag tag ->
  waiters_bit tag = false /\ waiters_bit (Z.lor tag HasChildWaitersBit) = true /\
  owner_bits tag = tag /\ owner_bits (Z.lor tag HasChildWaitersBit) = tag.
Proof.
  intros Ht. unfold is_tag in Ht. unfold waiters_bit, owner_bits.
  change (u32 (Z.lnot HasChildWaitersBit)) with (Z.lor (Z.ones 30) (Z.shiftl 1 31)).
  change HasChildWaitersBit with (Z.shiftl 1 30).
  assert (Z.land tag (Z.lor (Z.ones 30) (Z.shiftl 1 31)) = tag) as E.
  { rewrite Z.land_lor_distr_r, Z.land_ones, Z.mod_small by lia.
    replace (Z.land tag (Z.shiftl 1 31)) with 0; [apply Z.lor_0_r|].
    rewrite <- (Z.mod_small tag (2 ^ 30)), <- Z.land_ones, <- Z.land_assoc by lia.
    change (Z.land (Z.ones 30) (Z.shiftl 1 31)) with 0. by rewrite Z.land_0_r. }
  assert (Z.shiftr tag 0x1e = 0) as Es by (rewrite Z.shiftr_div_pow2, Z.div_small by lia; done).
  split; [by rewrite Es|]. split; [by rewrite Z.shiftr_lor, Es|]. split; [done|].
  rewrite Z.land_lor_distr_l, E. apply Z.lor_0_r.
Qed.

(** The members of a fiber that waits for a lock. *)
Definition lock_waiter a tag (x : FiberLocalStorage) : FiberLocalStorage :=
  set_fiber_state FiberState_Waiting (set_wait_tag tag (set_lock_address a
    (set_waitable_object (Some LockArbiter) x))).

(** The lists with [cur] suspended, waiting behind [owner]. *)
Definition parked L owner cur : NodeId -> list NodeId :=
  let L1 := <[WaitHead owner := L (WaitHead owner) ++ [WaitNode cur]]> L in
  <[SuspendHead := L1 SuspendHead ++ [SchedNode cur]]> L1.

Definition park_state a tag owner cur s : UserScheduler :=
  let s1 := upd (set_fiber_state FiberState_Waiting) cur (upd (set_wait_tag tag) cur
    (upd (set_lock_address a) cur (upd (set_waitable_object (Some LockArbiter)) cur s))) in
  set_links (PushBack SuspendHead (SchedNode cur) (Unlink (SchedNode cur)
    (PushBack (WaitHead owner) (WaitNode cur) (links s1)))) s1.

Lemma park_storage a tag owner cur g s :
  storage (park_state a tag owner cur s) g =
    if decide (cur = g) then lock_waiter a tag (storage s cur) else storage s g.
Proof.
  unfold park_state. cbv zeta. change (storage (set_links _ ?x) g) with (storage x g).
  rewrite !storage_upd. case_decide; [subst g|done]. by rewrite !decide_True.
Qed.

Lemma inv_park s L a tag owner cur :
  sched_inv s L -> fiber_id cur -> fiber_state (storage s cur) = FiberState_Running ->
  loose L (WaitNode cur) -> sched_inv (park_state a tag owner cur s) (parked L owner cur).
Proof.
  intros HI Hf Hr Hln. pose proof (running_loose s L cur HI Hr) as Hls.
  unfold park_state, parked. cbv zeta. set (s1 := upd _ _ _).
  assert (sched_inv s1 L) as HI1 by (do 4 (apply inv_upd; [|done]); done).
  pose proof (inv_push_child s1 L cur owner HI1 Hf Hln) as HI2.
  set (s2 := set_links _ s1) in HI2. set (L2 := <[WaitHead owner := _]> L) in *.
  assert (loose L2 (SchedNode cur)) as Hls2.
  { apply loose_insert; [done|]. intros [Hin|[=]%list_elem_of_singleton]%elem_of_app. by apply Hls in Hin. }
  set (s3 := set_links (Unlink (SchedNode cur) (links s2)) s2).
  assert (sched_inv s3 L2) as HI3.
  { split; [|apply HI2]. apply (family_Unlink_loose (links s2)); [apply HI2|done|by apply (inv_leaf s2)]. }
  apply (inv_push s3 L2 cur SuspendHead); [done..|]. right.
  change (storage s3 cur) with (storage s1 cur). unfold s1. by rewrite !storage_upd, !decide_True.
Qed.

(** ArbitrateLockImpl of a lock that a live fiber holds, with the waiters bit set. *)
Lemma ArbitrateLock_run s L cur owner handle a tag sh :
  sched_inv s L -> m_scheduler_lock s = false -> on_core s cur -> owner <> cur ->
  a <> 0 -> user_memory s !! a = Some (Z.lor handle HasChildWaitersBit) ->
  GetFiberByHandle handle s = Ok (Some owner, sh) ->
  exists ht, ArbitrateLockImpl cur handle a tag s =
    Ok (Switched ResultSuccess, park_state a tag owner cur (set_m_handle_table ht (set_m_scheduler_lock true s))).
Proof.
  intros HI Hl Hc Hne Ha Hv Hh. unfold ArbitrateLockImpl. destruct (Z.eqb_spec a 0); [done|]. cbn [negb].
  set (s0 := set_m_scheduler_lock true s). exists (m_handle_table sh).
  set (s1 := set_m_handle_table (m_handle_table sh) s0). set (s2 := park_state a tag owner cur s1).
  rewrite (scheduler_locked_switch_run _ s (Switched ResultSuccess) s2); [done|done|].
  rewrite (M_bind_run _ _ _ _ _ (GetFiberByHandle_other handle s s0 _ _ eq_refl Hh)).
  destruct (Z.eqb_spec owner cur); [done|].
  rewrite (M_bind_run _ _ _ _ _ (load_run s1 a _ Ha Hv)), Z.eqb_refl. cbn [negb]. run.
  rewrite (M_bind_run _ _ _ tt s2); [done|]. apply SwitchToScheduler_run.
  destruct Hc as [Hc Ht]. by split; unfold s2; rewrite park_storage, decide_True.
Qed.

(** Enter() of a critical section that another fiber holds, without a waiter yet. *)
Lemma Enter_contended s L cur owner a sh :
  let held := ukern_fiber_handle (storage s owner) in
  sched_inv s L -> m_scheduler_lock s = false -> on_core s cur -> owner <> cur -> a <> 0 ->
  is_tag held -> user_memory s !! a = Some held -> GetFiberByHandle held s = Ok (Some owner, sh) ->
  exists ht, Enter 3 cur a s = Ok (SwitchedOut,
    park_state a (ukern_fiber_handle (storage s cur)) owner cur (set_m_handle_table ht
      (set_m_scheduler_lock true
        (set_user_memory (<[a := Z.lor held HasChildWaitersBit]> (user_memory s)) s)))).
Proof.
  intros held HI Hl Hc Hne Ha Htag Hv Hh. destruct (tag_bits held Htag) as (B1 & _ & B2 & _).
  set (s1 := set_user_memory (<[a := Z.lor held HasChildWaitersBit]> (user_memory s)) s).
  destruct (ArbitrateLock_run s1 L cur owner held a (ukern_fiber_handle (storage s cur))
    (set_m_handle_table (m_handle_table sh) s1)) as (ht & E); [by apply (inv_same s)|done..| | |].
  { cbn. apply lookup_insert_eq. }
  { by apply (GetFiberByHandle_other held s). }
  exists ht. unfold Enter. cbn [Enter_from].
  assert (Enter_step cur a TryAcquire s = Ok (Goto (SetTag held), s)) as E1.
  { unfold Enter_step. run. rewrite (M_bind_run _ _ _ _ _ (compare_exchange_run s a held _ 0 Ha Hv)).
    destruct (Z.eqb_spec held 0); [unfold is_tag in Htag; lia|]. by rewrite B1. }
  assert (Enter_step cur a (SetTag held) s = Ok (Goto (Arbitrate held), s1)) as E2.
  { unfold Enter_step. run. rewrite (M_bind_run _ _ _ held s1); [by rewrite Z.eqb_refl|].
    unfold interlocked_or. rewrite (M_bind_run _ _ _ _ _ (load_run s a held Ha Hv)).
    by rewrite (M_bind_run _ _ _ _ _ (store_run s a held _ Ha Hv)). }
  assert (exists s2, ArbitrateLockImpl cur held a (ukern_fiber_handle (storage s cur)) s1
    = Ok (Switched ResultSuccess, s2)) as [s2 E3] by eauto.
  rewrite (M_bind_run _ _ _ _ _ E1). cbn [Enter_from]. rewrite (M_bind_run _ _ _ _ _ E2). cbn [Enter_from].
  rewrite (M_bind_run _ _ _ SwitchedOut s2).
  - rewrite E in E3. by injection E3 as <-.
  - unfold Enter_step. run. change (storage s1 cur) with (storage s cur).
    by rewrite B2, (M_bind_run _ _ _ _ _ E3).
Qed.

Lemma inv_ext_L s L L' : (forall h, L' h = L h) -> sched_inv s L -> sched_inv s L'.
Proof.
  intros E HI. split; [by eapply family_ext_L, HI|]. intros h n. rewrite E. by apply HI.
Qed.

(** Waking the parked fiber puts it back in its queue and leaves no trace of the wait. *)
Lemma unparked s L owner cur h :
  loose L (SchedNode cur) -> L (WaitHead owner) = [] ->
  without (SchedNode cur) (<[WaitHead owner := []]> (parked L owner cur)) h = L h.
Proof.
  intros Hl Ew. unfold without, parked. cbv zeta.
  destruct (decide (h = WaitHead owner)) as [->|Hn]; [by rewrite fn_lookup_insert, Ew|].
  rewrite fn_lookup_insert_ne by done.
  pose proof (without_same (SchedNode cur) L h (Hl h)) as Es. unfold without in Es.
  destruct (decide (h = SuspendHead)) as [->|Hn']; [|by rewrite !fn_lookup_insert_ne].
  rewrite fn_lookup_insert, fn_lookup_insert_ne by done.
  by rewrite filter_app, Es, filter_cons_False, filter_nil, app_nil_r by tauto.
Qed.

Lemma enqueue_ext o n L L' h : (forall h, L' h = L h) -> enqueue o n L' h = enqueue o n L h.
Proof.
  intros E. destruct o as [h'|]; cbn [enqueue]; [|done].
  destruct (decide (h = h')) as [->|Hn]; [by rewrite !fn_lookup_insert, E|by rewrite !fn_lookup_insert_ne, E].
Qed.

(** The dispatched fiber goes on in Enter(). *)
Lemma Enter_resume_run s cur a tag :
  last_result (storage s cur) = ResultSuccess -> waitable_object (storage s cur) = None ->
  ukern_fiber_handle (storage s cur) = tag -> is_tag tag -> a <> 0 -> user_memory s !! a = Some tag ->
  let s' := set_m_scheduler_lock false s in
  Enter_resume cur s = Ok (CheckOwner, s') /\ Enter_from 1 cur a CheckOwner s' = Ok (Entered, s').
Proof.
  intros Hr Hw Hh Ht Ha Hv s'. destruct (tag_bits tag Ht) as (_ & _ & Ho & _). split.
  - unfold Enter_resume, ArbitrateLockImpl_resume, drop_arbiter. unfold mbind at 1, M_bind at 1. run.
    rewrite Hr. unfold mbind at 1, M_bind at 1. run. by rewrite Hw.
  - cbn [Enter_from]. rewrite (M_bind_run _ _ _ Entered s'); [done|]. unfold Enter_step. run.
    rewrite (M_bind_run _ _ _ _ _ (load_run s' a tag Ha Hv)).
    change (storage s' cur) with (storage s cur). by rewrite Ho, Hh, Z.eqb_refl.
Qed.

(** The owner's Leave() with one fiber parked. *)
Lemma Leave_parked s L owner cur a held tag :
  sched_inv s (parked L owner cur) -> m_scheduler_lock s = false -> fiber_id cur -> owner <> cur ->
  loose L (SchedNode cur) -> L (WaitHead owner) = [] -> a <> 0 -> is_tag held ->
  user_memory s !! a = Some (Z.lor held HasChildWaitersBit) -> ukern_fiber_handle (storage s owner) = held ->
  (exists x, storage s cur = lock_waiter a tag x) ->
  exists s', Leave owner a s = Ok (tt, s') /\ user_memory s' = <[a := tag]> (user_memory s) /\
    sched_inv s' (enqueue (destination (storage s cur)) (SchedNode cur) L) /\
    storage s' cur = set_waitable_object None (set_fiber_state
      (if activity_level (storage s cur) =? ActivityLevel_Suspended
       then FiberState_Suspended else FiberState_Scheduled)
      (set_last_result ResultSuccess (set_fiber_state FiberState_Scheduled (owner_members (storage s cur))))) /\
    m_scheduler_lock s' = false /\ m_core_count s' = m_core_count s.
Proof.
  intros HI Hl Hf Hne Hls Ew Ha Ht Hv Hh [x Ex]. destruct (tag_bits held Ht) as (_ & B2 & _ & B3).
  destruct (unlock_single_run s (parked L owner cur) owner cur a _ tag HI Hl Ha Hv) as
    (s' & E & Em & HI' & Est & El & Ecc); try done; try by rewrite Ex.
  { by rewrite Hh. }
  { unfold parked. cbv zeta. rewrite fn_lookup_insert_ne by done. by rewrite fn_lookup_insert, Ew. }
  exists s'. split; [|split; [done|split; [|done]]].
  - unfold Leave. rewrite (M_bind_run _ _ _ _ _ (load_run s a _ Ha Hv)), B2.
    by rewrite (M_bind_run _ _ _ _ _ E).
  - eapply inv_ext_L; [|exact HI']. intros h. apply enqueue_ext. intros h'. symmetry.
    apply unparked; done.
Qed.

(** A free critical section: Enter takes it in its first step, as TryEnter does, and
    Leave frees it again; TryEnter of a taken one answers false and changes nothing. *)
Theorem critical_section_uncontended s cur a v :
  a <> 0 -> user_memory s !! a = Some v -> is_tag (ukern_fiber_handle (storage s cur)) ->
  if v =? 0 then
    exists s', Enter 1 cur a s = Ok (Entered, s') /\ TryEnter cur a s = Ok (true, s') /\
      user_memory s' = <[a := ukern_fiber_handle (storage s cur)]> (user_memory s) /\
      IsLockedByCurrentThread cur a s' = Ok (true, s') /\
      Leave cur a s' = Ok (tt, set_user_memory (<[a := 0]> (user_memory s)) s)
  else TryEnter cur a s = Ok (false, s).
Proof.
  intros Ha Hv Ht. destruct (tag_bits _ Ht) as (B1 & _ & B2 & _).
  pose proof (compare_exchange_run s a v (ukern_fiber_handle (storage s cur)) 0 Ha Hv) as Ec.
  destruct (Z.eqb_spec v 0) as [->|Hn].
  - set (s' := set_user_memory _ s) in Ec. exists s'.
    assert (user_memory s' !! a = Some (ukern_fiber_handle (storage s cur))) as Hv' by apply lookup_insert_eq.
    split; [|split; [|split; [done|split]]].
    + unfold Enter. cbn [Enter_from]. rewrite (M_bind_run _ _ _ Entered s'); [done|].
      unfold Enter_step. run. by rewrite (M_bind_run _ _ _ _ _ Ec).
    + unfold TryEnter. run. by rewrite (M_bind_run _ _ _ _ _ Ec).
    + unfold IsLockedByCurrentThread. rewrite (M_bind_run _ _ _ _ _ (load_run s' a _ Ha Hv')). run.
      rewrite B2. change (storage s' cur) with (storage s cur). by rewrite Z.eqb_refl.
    + unfold Leave. rewrite (M_bind_run _ _ _ _ _ (load_run s' a _ Ha Hv')), B1.
      rewrite (store_run s' a _ 0 Ha Hv'). do 2 f_equal. unfold s'. destruct s; cbn. by rewrite insert_insert_eq.
  - unfold TryEnter. run. rewrite (M_bind_run _ _ _ _ _ Ec). by destruct (Z.eqb_spec v 0).
Qed.

(** [C3] A contended critical section: Enter marks the word, parks the fiber behind the
    owner and switches to the scheduler; the owner's Leave writes the waiting fiber's
    handle into the word and queues the fiber, with every list otherwise as before; when a
    core dispatches it, Enter finds its handle in the word and returns as the owner. *)
Theorem critical_section_handover s L owner cur a sh core :
  let held := ukern_fiber_handle (storage s owner) in
  let tag := ukern_fiber_handle (storage s cur) in
  sched_inv s L -> m_scheduler_lock s = false -> fiber_id cur -> on_core s cur -> owner <> cur ->
  fiber_state (storage s cur) = FiberState_Running -> loose L (WaitNode cur) -> L (WaitHead owner) = [] ->
  a <> 0 -> is_tag held -> is_tag tag -> user_memory s !! a = Some held ->
  GetFiberByHandle held s = Ok (Some owner, sh) -> core < m_core_count s ->
  exists s1 s2 s3 s4,
    Enter 3 cur a s = Ok (SwitchedOut, s1) /\ m_scheduler_lock s1 = true /\
    Dispatch_resume cur (current_core (storage s cur)) s1 = Ok (tt, s1) /\
    Leave owner a (set_m_scheduler_lock false s1) = Ok (tt, s2) /\
    user_memory s2 = <[a := tag]> (user_memory s) /\
    sched_inv s2 (enqueue (destination (storage s cur)) (SchedNode cur) L) /\
    Dispatch cur core (set_m_scheduler_lock true s2) = Ok (tt, s3) /\
    Enter_resume cur s3 = Ok (CheckOwner, s4) /\ m_scheduler_lock s4 = false /\
    Enter_from 1 cur a CheckOwner s4 = Ok (Entered, s4).
Proof.
  intros held tag HI Hl Hf Hc Hne Hr Hln Ew Ha Hth Htt Hv Hh Hcc.
  destruct (Enter_contended s L cur owner a sh HI Hl Hc Hne Ha Hth Hv Hh) as (ht & E1). fold held tag in E1.
  set (s0 := set_m_handle_table ht _) in E1. set (s1 := park_state a tag owner cur s0) in E1.
  set (s1' := set_m_scheduler_lock false s1).
  assert (storage s1 cur = lock_waiter a tag (storage s cur)) as Est.
  { unfold s1. by rewrite park_storage, decide_True. }
  assert (sched_inv s1 (parked L owner cur)) as HI1 by (apply inv_park; [by apply (inv_same s)|done..]).
  destruct (Leave_parked s1' L owner cur a held tag) as (s2 & E2 & Em2 & HI2 & Est2 & El2 & Ecc2);
    try done; try (by apply inv_lock); try (by eapply running_loose).
  { apply lookup_insert_eq. }
  { change (storage s1' owner) with (storage s1 owner). unfold s1. by rewrite park_storage, decide_False. }
  { by exists (storage s cur). }
  change (storage s1' cur) with (storage s1 cur) in *. rewrite Est in HI2, Est2.
  set (s2' := set_m_scheduler_lock true s2). set (s3 := after_dispatch cur core s2').
  assert (storage s3 cur = set_current_core core (set_fiber_state FiberState_Running (storage s2 cur))) as Est3.
  { change (storage s3 cur) with
      (storage (upd (set_current_core core) cur (upd (set_fiber_state FiberState_Running) cur s2')) cur).
    by rewrite !storage_upd, !decide_True. }
  exists s1, s2, s3, (set_m_scheduler_lock false s3).
  split; [done|]. split; [done|]. split; [|split; [done|split; [|split; [done|split]]]].
  - unfold Dispatch_resume. run. rewrite Est, bind_assert by apply Z.eqb_refl. run. by rewrite Est.
  - rewrite Em2. cbn. by rewrite insert_insert_eq.
  - apply Dispatch_run. change (core < m_core_count s2). by rewrite Ecc2.
  - destruct (Enter_resume_run s3 cur a tag) as [E3 E4];
      try done; try (by rewrite Est3, Est2).
    change (user_memory s3) with (user_memory s2). rewrite Em2. apply lookup_insert_eq.
Qed.

(** Leave in the middle of another fiber's Enter: between the marking of the word and
    the parking the owner has no waiter to hand over to, ArbitrateUnlock answers
    ResultRequiresLock, and Leave aborts the process. *)
Theorem leave_during_enter s L owner cur a :
  let held := ukern_fiber_handle (storage s owner) in
  sched_inv s L -> m_scheduler_lock s = false -> L (WaitHead owner) = [] ->
  a <> 0 -> is_tag held -> user_memory s !! a = Some held ->
  exists s', Enter_step cur a TryAcquire s = Ok (Goto (SetTag held), s) /\
    Enter_step cur a (SetTag held) s = Ok (Goto (Arbitrate held), s') /\
    Leave owner a s' = Fault AssertFailed.
Proof.
  intros held HI Hl Ew Ha Ht Hv. destruct (tag_bits held Ht) as (B1 & B2 & _).
  set (s' := set_user_memory (<[a := Z.lor held HasChildWaitersBit]> (user_memory s)) s).
  assert (user_memory s' !! a = Some (Z.lor held HasChildWaitersBit)) as Hv' by apply lookup_insert_eq.
  exists s'. split; [|split].
  - unfold Enter_step. run. rewrite (M_bind_run _ _ _ _ _ (compare_exchange_run s a held _ 0 Ha Hv)).
    destruct (Z.eqb_spec held 0); [unfold is_tag in Ht; lia|]. by rewrite B1.
  - unfold Enter_step. run. rewrite (M_bind_run _ _ _ held s'); [by rewrite Z.eqb_refl|].
    unfold interlocked_or. rewrite (M_bind_run _ _ _ _ _ (load_run s a held Ha Hv)).
    by rewrite (M_bind_run _ _ _ _ _ (store_run s a held _ Ha Hv)).
  - unfold Leave. rewrite (M_bind_run _ _ _ _ _ (load_run s' a _ Ha Hv')), B2.
    rewrite (M_bind_run _ _ _ ukern.ResultRequiresLock (set_m_scheduler_lock false (set_m_scheduler_lock true s'))).
    { done. }
    unfold ArbitrateUnlockImpl. destruct (Z.eqb_spec a 0); [done|]. cbn [negb].
    apply scheduler_locked_run; [done|].
    rewrite (M_bind_run _ _ _ _ _ (wait_list_IsEmpty_run (set_m_scheduler_lock true s') L owner ltac:(by apply (inv_same s)))).
    by rewrite Ew.
Qed.
End critical_section.

(** * Properties of the condition variable *)
Section condition_variable.
Import InternalConditionVariable.
Implicit Types (s : UserScheduler) (L : NodeId -> list NodeId) (cur m_cv cs : Z).

(** The fiber owns the critical section, whose word tells whether it has waiters. *)
Definition owns s L cur cs : Prop :=
  is_tag (ukern_fiber_handle (storage s cur)) /\ cs <> 0 /\
  user_memory s !! cs = Some (if decide (L (WaitHead cur) = []) then ukern_fiber_handle (storage s cur)
                              else Z.lor (ukern_fiber_handle (storage s cur)) HasChildWaitersBit).

Lemma owns_bits s L cur cs : owns s L cur cs ->
  exists v, user_memory s !! cs = Some v /\ owner_bits v = ukern_fiber_handle (storage s cur).
Proof.
  intros (Ht & Hcs & Hv). destruct (tag_bits _ Ht) as (_ & _ & B1 & B2).
  eexists. split; [exact Hv|]. by case_decide.
Qed.

Lemma WaitKey_owner s L cur cs m_cv tag t :
  sched_inv s L -> m_scheduler_lock s = false -> owns s L cur cs -> m_cv <> 0 ->
  WaitKeyImpl cur cs m_cv tag t s =
    Ok (Returned (if decide (L (WaitHead cur) = []) then ukern.ResultRequiresLock
                  else ukern.ResultInvalidLockAddressValue), s).
Proof.
  intros HI Hl (Ht & Hcs & Hv) Hcv. eapply wait_key_run; [done..|exact Hv| |].
  - unfold is_tag in Ht. lia.
  - intros Hne. by rewrite decide_False.
Qed.

Lemma Wait_run s L cur cs m_cv :
  sched_inv s L -> m_scheduler_lock s = false -> owns s L cur cs -> m_cv <> 0 ->
  Wait cur m_cv cs s =
    Ok (Returned (if decide (L (WaitHead cur) = []) then ukern.ResultRequiresLock
                  else ukern.ResultInvalidLockAddressValue), s).
Proof.
  intros HI Hl Ho Hcv. destruct (owns_bits s L cur cs Ho) as (v & Hv & Hb). unfold Wait. run.
  rewrite (M_bind_run _ _ _ _ _ (load_run s cs v ltac:(by destruct Ho as (_ & ? & _)) Hv)).
  rewrite Hb, bind_assert by apply Z.eqb_refl. by apply WaitKey_owner.
Qed.

(** Wait and TimedWait by the owner of the critical section return at once, with the
    state and so the lock as they were: the error of WaitKeyImpl is dropped.  The variable's
    word stays 0, and Signal and Broadcast then do nothing. *)
Theorem condition_variable_never_waits ts now s L cur cs m_cv timeout_ns t count :
  sched_inv s L -> m_scheduler_lock s = false -> owns s L cur cs -> m_cv <> 0 ->
  GetAbsoluteTimeToWakeup ts now timeout_ns = Ok t -> user_memory s !! m_cv = Some 0 ->
  (exists r, r <> ResultSuccess /\ Wait cur m_cv cs s = Ok (Returned r, s) /\
    TimedWait ts now cur m_cv cs timeout_ns s = Ok (Returned r, s)) /\
  Signal m_cv count s = Ok (tt, s) /\ Broadcast m_cv s = Ok (tt, s).
Proof.
  intros HI Hl Ho Hcv Ht Hv0. split; [|split].
  - eexists. split; [|split; [by apply Wait_run|]].
    + case_decide; vm_compute; discriminate.
    + destruct (owns_bits s L cur cs Ho) as (v & Hv & Hb). unfold TimedWait. run.
      rewrite (M_bind_run _ _ _ _ _ (load_run s cs v ltac:(by destruct Ho as (_ & ? & _)) Hv)).
      rewrite Hb, bind_assert by apply Z.eqb_refl. rewrite (bind_lift _ _ _ _ Ht). by apply WaitKey_owner.
  - unfold Signal. by rewrite (M_bind_run _ _ _ _ _ (load_run s m_cv 0 Hcv Hv0)).
  - unfold Broadcast. by rewrite (M_bind_run _ _ _ _ _ (load_run s m_cv 0 Hcv Hv0)).
Qed.
End condition_variable.

(** * Witnesses *)
(** * Witnesses *)
(** The handles of the fibers 1 and 2, and the handle table that gave them out. *)
Definition two_handles : Z * Z * HandleTable Z :=
  match Initialize construct with
  | Ok ht =>
      match (h ← ReserveHandle (Some 1); h' ← ReserveHandle (Some 2); mret (h, h')) ht with
      | Ok ((Some h, Some h'), ht) => (h, h', ht)
      | _ => (0, 0, construct)
      end
  | Fault _ => (0, 0, construct)
  end.

(** Both fibers running on the only core, with a user memory. *)
Definition example_sync_with (memory : gmap Z Z) : UserScheduler :=
  set_user_memory memory (set_m_handle_table two_handles.2
    (upd (set_ukern_fiber_handle two_handles.1.1) 1
      (upd (set_ukern_fiber_handle two_handles.1.2) 2 example_idle))).
Definition example_sync (v : Z) : UserScheduler := example_sync_with {[100 := v; 200 := 0]}.

Lemma example_sync_inv m : sched_inv (example_sync_with m) (fun _ => []).
Proof.
  apply (inv_same (upd (set_ukern_fiber_handle two_handles.1.1) 1
    (upd (set_ukern_fiber_handle two_handles.1.2) 2 example_idle))); [done|done|].
  do 2 (apply inv_upd; [|apply nothing_loose]). apply example_idle_inv.
Qed.

Lemma example_sync_tag m f : f = 1 \/ f = 2 -> is_tag (ukern_fiber_handle (storage (example_sync_with m) f)).
Proof.
  intros [-> | ->]; (split; [apply Z.ltb_lt|apply Z.ltb_lt]); vm_compute; reflexivity.
Qed.

Lemma example_sync_on_core m : on_core (example_sync_with m) 2.
Proof. split; [split; [apply Z.leb_le|apply Z.ltb_lt]|]; reflexivity. Qed.

Lemma critical_section_uncontended_witness : exists s',
  InternalCriticalSection.Enter 1 1 100 (example_sync 0) = Ok (InternalCriticalSection.Entered, s') /\
  InternalCriticalSection.TryEnter 1 100 (example_sync 33023) = Ok (false, example_sync 33023).
Proof.
  destruct (critical_section_uncontended (example_sync 0) 1 100 0) as (s' & E & _); try ground.
  { apply example_sync_tag. by left. }
  exists s'. split; [exact E|].
  apply (critical_section_uncontended (example_sync 33023) 1 100 33023); try ground.
  apply example_sync_tag. by left.
Defined.

Lemma critical_section_handover_witness : exists s1 s2,
  InternalCriticalSection.Enter 3 2 100 (example_sync 33023) = Ok (InternalCriticalSection.SwitchedOut, s1) /\
  InternalCriticalSection.Leave 1 100 (set_m_scheduler_lock false s1) = Ok (tt, s2).
Proof.
  assert (exists sh, GetFiberByHandle 33023 (example_sync 33023) = Ok (Some 1, sh)) as [sh Eh].
  { eexists. vm_compute. reflexivity. }
  destruct (critical_section_handover (example_sync 33023) (fun _ => []) 1 2 100 sh 0)
    as (s1 & s2 & s3 & s4 & E1 & _ & _ & E2 & _); try ground.
  - apply example_sync_inv.
  - apply small_fiber_id. lia.
  - apply example_sync_on_core.
  - apply nothing_loose.
  - apply example_sync_tag. by left.
  - apply example_sync_tag. by right.
  - exact Eh.
  - apply Z.ltb_lt. reflexivity.
  - exists s1, s2. split; [exact E1|exact E2].
Defined.

Lemma leave_during_enter_witness : exists s',
  InternalCriticalSection.Enter_step 2 100 (InternalCriticalSection.SetTag 33023) (example_sync 33023)
    = Ok (InternalCriticalSection.Goto (InternalCriticalSection.Arbitrate 33023), s') /\
  InternalCriticalSection.Leave 1 100 s' = Fault AssertFailed.
Proof.
  destruct (leave_during_enter (example_sync 33023) (fun _ => []) 1 2 100) as (s' & _ & E & EL); try ground.
  - apply example_sync_inv.
  - apply example_sync_tag. by left.
  - exists s'. split; [exact E|exact EL].
Defined.

Lemma condition_variable_never_waits_witness : exists r,
  InternalConditionVariable.Wait 1 200 100 (example_sync 33023) = Ok (Returned r, example_sync 33023).
Proof.
  destruct (condition_variable_never_waits ts_10MHz 0 (example_sync 33023) (fun _ => []) 1 100 200 0 MaxTime 1)
    as ((r & _ & E & _) & _); try ground.
  - apply example_sync_inv.
  - split; [apply example_sync_tag; by left|]. split; [discriminate|vm_compute; reflexivity].
  - exists r. exact E.
Defined.
