(* ===== verification/Machine.v ===== *)
(** One core at work: the main loop of its scheduler (UserScheduler::SchedulerFiberMain in ukern_scheduler.cpp), and
    the programs of the fibers that the loop runs, so that a whole execution is a function of the readings of the
    tick counter.

    A program is what a fiber does between its calls of the kernel.  A fiber that switches away leaves the rest of
    its call and of its program behind, which go on when the loop dispatches it again. *)
From S2P Require Import Prelude Result TimeSpan IntrusiveList ListFamily BusyMutex HandleTable Allocators Fiber Scheduler SchedulerSpec WaitSpec UKernSync.

(** * The main loop *)
(** At the restart label, at the idle part, and in the loop that rests. *)
Inductive Position : Type := AtPass | AtIdle | AtRest.

(** The fiber that is dispatched in the end.  Each round takes one reading of the counter from [clock]: a loop that
    has no reading left has not ended.  A rest ends by a wake or by its time. *)
Fixpoint SchedulerFiberMain (ts : TimeStamp) (core : Z) (p : Position) (clock : list Z) : M UserScheduler (Z * list Z) :=
  match clock with
  | [] => throw OutOfFuel
  | now :: clock =>
      let after_rest (i : Idle) : M UserScheduler (Z * list Z) :=
        match i with
        | RestartNow => SchedulerFiberMain_restart;; SchedulerFiberMain ts core AtPass clock
        | RestOnAddress _ =>
            woken ← SchedulerFiberMain_wake;
            SchedulerFiberMain ts core (if (woken : bool) then AtPass else AtRest) clock
        end in
      match p with
      | AtPass =>
          r ← SchedulerFiberMain_pass core now;
          match r with Some f => mret (f, clock) | None => SchedulerFiberMain ts core AtIdle clock end
      | AtIdle => i ← SchedulerFiberMain_idle ts now core; after_rest i
      | AtRest => i ← SchedulerFiberMain_rest ts now core; after_rest i
      end
  end.

(** * Programs *)
Inductive Program : Type :=
  | Return (r : Z)                                        (* of the function of the fiber *)
  | Run {A : Type} (call : Z -> M UserScheduler A) (k : A -> Program)
  | Switching {A : Type} (call : Z -> M UserScheduler (option A)) (resume : Z -> M UserScheduler A) (k : A -> Program)
  | ReadTick (k : Z -> Program).
(** A call gets the fiber that makes it; one that switches to the scheduler has no result until it is resumed. *)

Section machine.
(** The user functions by their addresses, and the core. *)
Variables (ts : TimeStamp) (core : Z) (code : Z -> Z -> Program).

(** The fiber [cur] runs [p].  [parked] holds what the fibers that have switched away still have to do;
    [entered] tells whether the scheduler fiber of the main thread has been switched to before. *)
Fixpoint run_program (fuel : nat) (cur : Z) (p : Program) (clock : list Z) (parked : gmap Z (M UserScheduler Program))
    (entered : bool) : M UserScheduler Z :=
  match fuel with
  | O => throw OutOfFuel
  | S fuel =>
      let switch parked : M UserScheduler Z :=
        (if entered then Dispatch_resume cur core else InternalSchedulerMainThreadFiberMain cur);;
        '(f, clock) ← SchedulerFiberMain ts core AtPass clock;
        p ← match parked !! f with
            | Some resume => resume
            | None => '(function, arg) ← UserFiberMain_enter f; mret (code function arg)
            end;
        run_program fuel f p clock parked true in
      match p with
      | Return r => if cur =? 0 then mret r else ExitFiberImpl cur;; switch parked
      | Run call k => a ← call cur; run_program fuel cur (k a) clock parked entered
      | Switching call resume k =>
          r ← call cur;
          match r with
          | Some a => run_program fuel cur (k a) clock parked entered
          | None => switch (<[cur := (a ← resume cur; mret (k a))]> parked)
          end
      | ReadTick k =>
          match clock with
          | [] => throw OutOfFuel
          | now :: clock => run_program fuel cur (k now) clock parked entered
          end
      end
  end.
End machine.

(** The steps of [run_program] that do not switch. *)
Section steps.
Variables (ts : TimeStamp) (core : Z) (code : Z -> Z -> Program) (fuel : nat) (cur : Z).
Variables (clock : list Z) (parked : gmap Z (M UserScheduler Program)) (entered : bool).

Lemma run_tick now k :
  run_program ts core code (S fuel) cur (ReadTick k) (now :: clock) parked entered = run_program ts core code fuel cur (k now) clock parked entered.
Proof. reflexivity. Qed.
Lemma run_call {A} (call : Z -> M UserScheduler A) k a s s' : call cur s = Ok (a, s') ->
  run_program ts core code (S fuel) cur (Run call k) clock parked entered s = run_program ts core code fuel cur (k a) clock parked entered s'.
Proof. intros E. cbn [run_program]. by rewrite (M_bind_run _ _ _ _ _ E). Qed.
Lemma run_return r s : cur = 0 -> run_program ts core code (S fuel) cur (Return r) clock parked entered s = Ok (r, s).
Proof. intros ->. reflexivity. Qed.
End steps.

(** ** The calls of programs *)
Definition returned (o : Outcome) : option Z := match o with Returned r => Some r | Switched _ => None end.
Definition sleep (ts : TimeStamp) (span : Z) (k : Program) : Program :=
  ReadTick (fun now =>
    Switching (fun cur => o ← ukern.Sleep ts now cur span; mret (returned o))
      (fun _ => SleepThreadImpl_resume;; mret ResultSuccess) (fun _ => k)).
Definition yield (k : Program) : Program :=
  Switching (fun cur => o ← ukern.YieldThread cur; mret (returned o))
    (fun _ => SleepThreadImpl_resume;; mret ResultSuccess) (fun _ => k).

(** InternalCriticalSection::Enter, in as many steps as it takes. *)
Fixpoint enter_from (fuel : nat) (m_handle : Z) (pc : InternalCriticalSection.EnterPc) (k : Program) : Program :=
  match fuel with
  | O => Run (fun _ => throw OutOfFuel) (fun _ : unit => k)
  | S fuel =>
      Switching
        (fun cur => r ← InternalCriticalSection.Enter_step cur m_handle pc;
                    mret match r with
                         | InternalCriticalSection.Goto pc => Some (Some pc)
                         | InternalCriticalSection.Entered => Some None
                         | InternalCriticalSection.SwitchedOut => None
                         end)
        (fun cur => pc ← InternalCriticalSection.Enter_resume cur; mret (Some pc))
        (fun next => match next with Some pc => enter_from fuel m_handle pc k | None => k end)
  end.
Definition enter (fuel : nat) (m_handle : Z) (k : Program) : Program :=
  enter_from fuel m_handle InternalCriticalSection.TryAcquire k.
Definition leave (m_handle : Z) (k : Program) : Program :=
  Run (fun cur => InternalCriticalSection.Leave cur m_handle) (fun _ => k).

(** * The loop while fibers sleep *)
Section waiting.
Implicit Types (s : UserScheduler) (L : NodeId -> list NodeId) (f core tick now : Z).

(** A loop over a list that reads the state and goes on. *)
Lemma for_local_keep {B} (P : B -> Prop) s L h (body : NodeId -> B -> M UserScheduler (B * bool)) b :
  sched_inv s L -> is_head h = true -> P b ->
  (forall n b, n ∈ L h -> P b -> exists b', body n b s = Ok ((b', false), s) /\ P b') ->
  exists b', for_local h body b s = Ok (b', s) /\ P b'.
Proof.
  intros HI Hh Hb Hbody. unfold for_local.
  pose proof (list_fuel_enough s L h HI) as Hfuel. pose proof (inv_is_list s L h HI Hh) as Hl.
  rewrite (for_each_visit_inv (fun sb : UserScheduler * B => sb.1 = s /\ P sb.2) _ list_fuel h (L h) (s, b)).
  2: by split.
  2: by rewrite local_nodes.
  2: done.
  2:{ intros y [s1 b1] [s2 b2] [E HP] Hy. cbn in E, HP. subst s1. destruct (Hbody y b1 Hy HP) as (b' & E' & HP').
      unfold with_local. rewrite E'. intros [= <- <-]. done. }
  clear Hfuel Hl. revert b Hb. induction (L h) as [|n l IH]; intros b Hb; [by exists b|].
  destruct (Hbody n b ltac:(by left) Hb) as (b1 & E1 & Hb1).
  cbn [visit]. unfold mbind, M_bind, with_local at 1. rewrite E1.
  destruct (IH ltac:(intros; apply Hbody; [by right|done]) b1 Hb1) as (b2 & E2 & Hb2). by exists b2.
Qed.

(** The timeouts of what is queued are ticks a signed counter can reach. *)
Definition timeouts_ok s L : Prop :=
  forall h f, SchedNode f ∈ L h -> 0 <= timeout (storage s f) <= s64_max.
Definition wake_time (t : Z) : Prop := t = 0xffffffffffffffff \/ 0 <= t <= s64_max.

Lemma earliest_run s L core h t : sched_inv s L -> timeouts_ok s L -> 0 <= core < 32 -> is_head h = true ->
  (forall g, h <> WaitHead g) -> wake_time t -> exists t', earliest core h t s = Ok (t', s) /\ wake_time t'.
Proof.
  intros HI Ht Hc Hh Hg Hw. unfold earliest. apply (for_local_keep wake_time s L); [done..|].
  intros n b Hn Hb. destruct (inv_sched s L h n HI Hn Hg) as (f & -> & _). cbn [sched_parent]. run.
  rewrite (bind_lift _ _ _ _ (core_bit_ok core Hc)). run. eexists. split; [reflexivity|].
  destruct (negb _ && _); [right; by eapply Ht|done].
Qed.

(** No time is ever left: the core starts over, with nothing changed. *)
Lemma rest_run ts s L core now : sched_inv s L -> timeouts_ok s L -> 0 <= core < 32 -> m_scheduler_lock s = true ->
  0 < now <= s64_max -> SchedulerFiberMain_rest ts now core s = Ok (RestartNow, s).
Proof.
  intros HI Ht Hc Hlock Hnow. unfold SchedulerFiberMain_rest.
  assert (wake_time 0xffffffffffffffff) as W0 by by left.
  destruct (earliest_run s L core WaitListHead _ HI Ht Hc eq_refl ltac:(done) W0) as (t1 & E1 & W1).
  destruct (earliest_run s L core (RunHead High) _ HI Ht Hc eq_refl ltac:(done) W1) as (t2 & E2 & W2).
  destruct (earliest_run s L core (RunHead AboveNormal) _ HI Ht Hc eq_refl ltac:(done) W2) as (t3 & E3 & W3).
  destruct (earliest_run s L core (RunHead Normal) _ HI Ht Hc eq_refl ltac:(done) W3) as (t4 & E4 & W4).
  destruct (earliest_run s L core (RunHead BelowNormal) _ HI Ht Hc eq_refl ltac:(done) W4) as (t5 & E5 & W5).
  destruct (earliest_run s L core (RunHead Low) _ HI Ht Hc eq_refl ltac:(done) W5) as (t & E6 & W).
  rewrite (M_bind_run _ _ _ _ _ E1), (M_bind_run _ _ _ _ _ E2), (M_bind_run _ _ _ _ _ E3), (M_bind_run _ _ _ _ _ E4),
    (M_bind_run _ _ _ _ _ E5), (M_bind_run _ _ _ _ _ E6).
  assert (GetTimeLeftOnTarget ts now (s64 t) = Ok 0) as Eg.
  { unfold GetTimeLeftOnTarget. destruct (Z.eqb_spec (s64 t) 0) as [|Hz]; [done|].
    assert (-1 <= s64 t <= s64_max) as Hs.
    { destruct W as [->|W]; [by vm_compute|]. unfold s64. rewrite swrap_small; unfold s64_max in *; lia. }
    unfold mbind, res_bind. rewrite chk64_ok by (unfold s64_min, s64_max in *; lia).
    destruct (Z.ltb_spec (s64 t - now) (s64 t)); [|lia]. by rewrite orb_true_r. }
  unfold ReleaseSRWLockExclusive, AcquireSRWLockExclusive. run. rewrite (bind_lift _ _ _ _ Eg). cbn.
  run. unfold mbind, M_bind, gets, modify. cbn. destruct s. cbn in *. by rewrite Hlock.
Qed.

(** The core can wait: it holds the lock, its sleepers' times are in range, and it is not alone with nothing to do. *)
Record waits s L core : Prop := {
  w_inv : sched_inv s L;
  w_no_waits : no_waits s L;
  w_timeouts : timeouts_ok s L;
  w_lock : m_scheduler_lock s = true;
  w_core : 0 <= core < 32;
  w_core_count : core < m_core_count s;
  w_active : 0 <= m_active_cores s < 2 ^ 32;
  w_runnable : m_runnable_fibers s <> 0
}.
Lemma waits_calls s L core calls : waits s L core -> waits (set_win32_calls calls s) L core.
Proof.
  intros [HI Hn Ht Hl Hc Hcc Ha Hr]. split; try done. by apply (inv_same s).
Qed.

(** A round without a fiber to run: the idle part and the way back to the restart label. *)
Lemma idle_round ts s L core now clock : waits s L core -> 0 < now <= s64_max ->
  exists calls, SchedulerFiberMain ts core AtIdle (now :: clock) s = SchedulerFiberMain ts core AtPass clock (set_win32_calls calls s).
Proof.
  intros W Hnow. cbn [SchedulerFiberMain]. unfold SchedulerFiberMain_idle. set (a := u32 (m_active_cores s - 1)).
  set (s1 := set_m_active_cores a s). pose proof (w_runnable _ _ _ W) as Hr%Z.eqb_neq.
  assert (forall calls, SchedulerFiberMain_rest ts now core (set_win32_calls calls s1) = Ok (RestartNow, set_win32_calls calls s1)) as Erest.
  { intros calls. destruct W as [HI Hn Ht Hl Hc Hcc Ha _]. apply (rest_run ts _ L); try done. by apply (inv_same s). }
  assert (forall calls, SchedulerFiberMain_restart (set_win32_calls calls s1) = Ok (tt, set_win32_calls calls s)) as Erestart.
  { intros calls. unfold SchedulerFiberMain_restart, modify. do 2 f_equal. unfold s1, a. destruct (w_active _ _ _ W) as [A1 A2].
    destruct s as [? ? ? ? ? ? ? ? ? n ? ? ?]. unfold set_m_active_cores, set_win32_calls. cbn in *. f_equal.
    unfold u32, wrap. rewrite Zplus_mod_idemp_l. rewrite <- (Z.mod_small n (2 ^ 32)) at 2 by lia. f_equal. lia. }
  exists (if a =? 0 then win32_calls s ++ [WakeByAddressSingle] else win32_calls s).
  rewrite M_bind_assoc, M_modify_bind. fold a s1. unfold get. rewrite !M_bind_assoc. unfold mbind at 1, M_bind at 1.
  change (m_runnable_fibers s1) with (m_runnable_fibers s). change (m_active_cores s1) with a. rewrite Hr. cbn [andb].
  destruct (a =? 0).
  - rewrite M_bind_assoc. unfold win32. rewrite M_modify_bind. change (win32_calls s1) with (win32_calls s).
    by rewrite (M_bind_run _ _ _ _ _ (Erest _)), (M_bind_run _ _ _ _ _ (Erestart _)).
  - rewrite M_bind_assoc, M_ret_bind. pose proof (Erest (win32_calls s)) as E1. pose proof (Erestart (win32_calls s)) as E2.
    replace (set_win32_calls (win32_calls s) s1) with s1 in E1, E2 by (unfold s1; by destruct s).
    by rewrite (M_bind_run _ _ _ _ _ E1), (M_bind_run _ _ _ _ _ E2).
Qed.

Lemma pass_round ts core tick clock s :
  SchedulerFiberMain ts core AtPass (tick :: clock) s =
    (r ← SchedulerFiberMain_pass core tick;
     match r with Some f => mret (f, clock) | None => SchedulerFiberMain ts core AtIdle clock end) s.
Proof. reflexivity. Qed.

Definition readings (quiet : list (Z * Z)) : list Z := concat ((fun '(tick, now) => [tick; now]) <$> quiet).

Lemma scheduler_waits_run ts s L core quiet tick f clock : waits s L core ->
  (forall tick now, (tick, now) ∈ quiet -> next_fiber s L core tick = None /\ 0 < now <= s64_max) ->
  next_fiber s L core tick = Some f ->
  exists calls, SchedulerFiberMain ts core AtPass (readings quiet ++ tick :: clock) s =
    Ok ((f, clock), set_win32_calls calls (after_dispatch f core s)).
Proof.
  intros W Hq Hf. cut (forall calls, exists calls', SchedulerFiberMain ts core AtPass (readings quiet ++ tick :: clock) (set_win32_calls calls s) =
    Ok ((f, clock), set_win32_calls calls' (after_dispatch f core s))).
  { intros H. destruct (H (win32_calls s)) as (calls' & E). exists calls'. rewrite <- E. by destruct s. }
  induction quiet as [|[tick1 now] quiet IH]; intros calls; pose proof (waits_calls s L core calls W) as Wc;
    destruct (Wc) as [HI Hn _ _ Hc Hcc _ _]; cbn [readings fmap list_fmap concat app]; rewrite pass_round;
    pose proof (SchedulerFiberMain_pass_run (set_win32_calls calls s) L core) as Hpass.
  - specialize (Hpass tick HI Hn Hc Hcc). change (next_fiber (set_win32_calls calls s)) with (next_fiber s) in Hpass. rewrite Hf in Hpass.
    rewrite (M_bind_run _ _ _ _ _ Hpass). exists calls. reflexivity.
  - destruct (Hq tick1 now ltac:(by left)) as [Hnone Hnow].
    specialize (Hpass tick1 HI Hn Hc Hcc). change (next_fiber (set_win32_calls calls s)) with (next_fiber s) in Hpass. rewrite Hnone in Hpass.
    rewrite (M_bind_run _ _ _ _ _ Hpass).
    destruct (idle_round ts _ L core now (readings quiet ++ tick :: clock) Wc Hnow) as (calls1 & E).
    change (concat ((fun '(tick, now) => [tick; now]) <$> quiet)) with (readings quiet). rewrite E.
    change (set_win32_calls calls1 (set_win32_calls calls s)) with (set_win32_calls calls1 s).
    apply IH. intros tick2 now2 H. apply (Hq tick2 now2). by right.
Qed.

(** [C36] A core whose fibers all sleep reads the counter again and again, for it never finds time left to rest, until
    the reading at which a fiber is due: that fiber, and no other before, is dispatched, and nothing else has changed
    but for the wakes of other cores. *)
Theorem scheduler_waits ts s L core quiet tick f clock : waits s L core ->
  (forall tick now, (tick, now) ∈ quiet -> next_fiber s L core tick = None /\ 0 < now <= s64_max) ->
  next_fiber s L core tick = Some f ->
  exists calls s', SchedulerFiberMain ts core AtPass (readings quiet ++ tick :: clock) s = Ok ((f, clock), s') /\
    s' = set_win32_calls calls (after_dispatch f core s) /\ fiber_state (storage s' f) = FiberState_Running /\
    current_core (storage s' f) = core.
Proof.
  intros W Hq Hf. destruct (scheduler_waits_run ts s L core quiet tick f clock W Hq Hf) as (calls & E).
  exists calls. eexists. split; [exact E|]. split; [done|].
  change (storage (set_win32_calls calls (after_dispatch f core s)) f) with
    (storage (upd (set_current_core core) f (upd (set_fiber_state FiberState_Running) f s)) f).
  rewrite !storage_upd, !decide_True by done. by split.
Qed.
End waiting.
