(* ===== verification/SysSync.v ===== *)
(** The locks and events of sys and util: sys::Mutex, Event, ServiceCriticalSection and
    ServiceEvent (sys_mutex.hpp, sys_event.hpp, sys_servicecriticalsection.hpp,
    sys_serviceevent.hpp), util::CriticalSection and ConditionVariable (util_critsec.hpp,
    util_condvar.hpp).

    An object of sys is the address of its first member; the members follow at the offsets
    the compiler gives them.  The Win32 objects are arguments or parts of the state. *)
From stdpp Require Import functions.
From S2P Require Import Prelude Result TimeSpan IntrusiveList ListFamily BusyMutex HandleTable.
From S2P Require Import Allocators Fiber Scheduler SchedulerSpec WaitSpec UKernSync.

(** std::scoped_lock on an InternalCriticalSection around [body]; None when the fiber was
    parked by Enter, from where it goes on with the body when it is resumed. *)
Definition scoped_lock {A} (fuel : nat) (cur cs : Z) (body : M UserScheduler (option A)) : M UserScheduler (option A) :=
  step ← InternalCriticalSection.Enter fuel cur cs;
  match step with
  | InternalCriticalSection.Entered =>
      r ← body;
      match r with
      | Some _ => InternalCriticalSection.Leave cur cs;; mret r
      | None => mret None
      end
  | _ => mret None
  end.

Module Mutex.
Definition m_cs (this : Z) : Z := this.
Definition m_lock_count (this : Z) : Z := this + 4.

(** The part of Enter after the internal lock is taken. *)
Definition Enter_finish (this : Z) : M UserScheduler unit :=
  count ← load (m_lock_count this);
  store (m_lock_count this) (u32 (count + 1)).

Definition Enter (fuel : nat) (cur this : Z) : M UserScheduler InternalCriticalSection.EnterStep :=
  count ← load (m_lock_count this);
  defer ← (if count =? 0 then
             locked ← InternalCriticalSection.IsLockedByCurrentThread cur (m_cs this);
             mret (negb locked)
           else mret false);
  step ← (if (defer : bool) then InternalCriticalSection.Enter fuel cur (m_cs this)
          else mret InternalCriticalSection.Entered);
  match step with
  | InternalCriticalSection.Entered => Enter_finish this;; mret step
  | _ => mret step
  end.

Definition TryEnter (cur this : Z) : M UserScheduler bool :=
  count ← load (m_lock_count this);
  if count =? 0 then mret false
  else
    locked ← InternalCriticalSection.IsLockedByCurrentThread cur (m_cs this);
    if negb locked then mret false
    else
      entered ← InternalCriticalSection.TryEnter cur (m_cs this);
      if negb entered then mret false
      else Enter_finish this;; mret true.

Definition Leave (cur this : Z) : M UserScheduler unit :=
  count ← load (m_lock_count this);
  store (m_lock_count this) (u32 (count - 1));;
  count ← load (m_lock_count this);
  if negb (count =? 0) then mret tt else InternalCriticalSection.Leave cur (m_cs this).

Definition IsLockedByCurrentThread (cur this : Z) : M UserScheduler bool :=
  InternalCriticalSection.IsLockedByCurrentThread cur (m_cs this).
End Mutex.

Module Event.
Definition m_signal_state (this : Z) : Z := this.           (* u16 *)
Definition m_auto_reset_mode (this : Z) : Z := this + 2.    (* u16 *)
Definition m_wake_id (this : Z) : Z := this + 4.
Definition m_cs (this : Z) : Z := this + 8.
Definition m_cv (this : Z) : Z := this + 12.

Definition Signal_body (this : Z) : M UserScheduler (option unit) :=
  mode ← load (m_auto_reset_mode this);
  (if mode =? 1 then InternalConditionVariable.Signal (m_cv this) 1
   else
     id ← load (m_wake_id this);
     store (m_wake_id this) (u32 (id + 1));;
     InternalConditionVariable.Broadcast (m_cv this));;
  mret (Some tt).
Definition Signal (fuel : nat) (cur this : Z) : M UserScheduler (option unit) :=
  scoped_lock fuel cur (m_cs this) (Signal_body this).

Definition Clear (fuel : nat) (cur this : Z) : M UserScheduler (option unit) :=
  scoped_lock fuel cur (m_cs this) (store (m_signal_state this) 0;; mret (Some tt)).

(** The do-while; None when the fiber switched to the scheduler. *)
Fixpoint Wait_loop (fuel : nat) (cur this wake_id : Z) : M UserScheduler (option unit) :=
  match fuel with
  | O => throw OutOfFuel
  | S fuel =>
      o ← InternalConditionVariable.Wait cur (m_cv this) (m_cs this);
      match o with
      | Switched _ => mret None
      | Returned _ =>
          id ← load (m_wake_id this);
          state ← load (m_signal_state this);
          if (wake_id =? id) && (state =? 0) then Wait_loop fuel cur this wake_id
          else mret (Some tt)
      end
  end.

Definition Wait_body (fuel : nat) (cur this : Z) : M UserScheduler (option unit) :=
  state ← load (m_signal_state this);
  if state =? 1 then mret (Some tt)
  else
    wake_id ← load (m_wake_id this);
    r ← Wait_loop fuel cur this wake_id;
    match r with
    | None => mret None
    | Some _ =>
        mode ← load (m_auto_reset_mode this);
        (if mode =? 1 then store (m_signal_state this) 0 else mret tt);;
        mret (Some tt)
    end.
Definition Wait (lock_fuel fuel : nat) (cur this : Z) : M UserScheduler (option unit) :=
  scoped_lock lock_fuel cur (m_cs this) (Wait_body fuel cur this).

(** The body of TimedWait is empty. *)
Definition TimedWait (timeout : Z) : M UserScheduler unit := mret tt.
End Event.

Module ServiceCriticalSection.
(** m_win32_lock, held or not, beside the scheduler; m_wait_value is a word of memory. *)
Record State : Type := mkState { m_win32_lock : bool; scheduler : UserScheduler }.

Definition on_scheduler {A} (m : M UserScheduler A) : M State A := fun s =>
  match m (scheduler s) with Ok (a, s') => Ok (a, mkState (m_win32_lock s) s') | Fault f => Fault f end.
Definition set_win32_lock (b : bool) (s : State) : State := mkState b (scheduler s).

Inductive EnterStep : Type := Entered | Again | SwitchedOut.

(** [cur]: None is a thread that is no fiber.  One turn of the loop. *)
Definition Enter_step (ts : TimeStamp) (now : Z) (cur : option Z) (m_wait_value : Z) : M State EnterStep :=
  held ← gets m_win32_lock;
  match cur with
  | None => (if (held : bool) then throw Blocked else modify (set_win32_lock true));; mret Entered
  | Some cur =>
      (* TryAcquireSRWLockExclusive *)
      let result0 := negb held in
      modify (set_win32_lock true);;
      if negb result0 then mret Entered
      else
        o ← on_scheduler (ukern.WaitOnAddress ts now cur m_wait_value 2 0 (-1));
        match o with Returned _ => mret Again | Switched _ => mret SwitchedOut end
  end.

Definition Leave (m_wait_value : Z) : M State unit :=
  modify (set_win32_lock false);;
  on_scheduler (ukern.WakeByAddress m_wait_value 0 0 1);;
  mret tt.
End ServiceCriticalSection.

Module ServiceEvent.
(** The Win32 event (None: no handle), beside the scheduler; m_signal_state is a word. *)
Record State : Type := mkState { win32_event : option bool; scheduler : UserScheduler }.
Definition set_win32_event (b : option bool) (s : State) : State := mkState b (scheduler s).
Definition on_scheduler {A} (m : M UserScheduler A) : M State A := fun s =>
  match m (scheduler s) with Ok (a, s') => Ok (a, mkState (win32_event s) s') | Fault f => Fault f end.

Definition Initialize : M State unit := modify (set_win32_event (Some false)).
Definition Finalize : M State unit := modify (set_win32_event None).

(** The outcome for a fiber that was switched out is [Switched]. *)
Definition Wait (ts : TimeStamp) (now : Z) (cur : option Z) (m_signal_state : Z) : M State Outcome :=
  state ← on_scheduler (load m_signal_state);
  if state =? 1 then mret (Returned ResultSuccess)
  else
    match cur with
    | Some cur => on_scheduler (ukern.WaitOnAddress ts now cur m_signal_state 0 1 (-1))
    | None =>
        event ← gets win32_event;
        match event with
        | Some true => mret (Returned ResultSuccess)
        | Some false => throw Blocked
        | None => mret (Returned ResultSuccess)   (* WAIT_FAILED, ignored *)
        end
    end.

Definition Signal (m_signal_state : Z) : M State unit :=
  on_scheduler (store m_signal_state 1);;
  on_scheduler (ukern.WakeByAddress m_signal_state 0 1 (u32 (-1)));;
  modify (fun s => set_win32_event ((fun _ => true) <$> win32_event s) s).

Definition Reset (m_signal_state : Z) : M State unit :=
  modify (fun s => set_win32_event ((fun _ => false) <$> win32_event s) s);;
  on_scheduler (store m_signal_state 0).
End ServiceEvent.

Module CriticalSection.
Record CriticalSection : Type := mkCriticalSection { m_srwlock : bool; m_locked_thread_id : Z }.
Definition construct : CriticalSection := mkCriticalSection false 0.

Definition SetId (manual_id : Z) : M CriticalSection unit :=
  modify (fun cs => mkCriticalSection (m_srwlock cs) manual_id).
Definition UnsetId : M CriticalSection Z :=
  id ← gets m_locked_thread_id;
  SetId 0;;
  mret id.

(** [thread_id]: GetCurrentThreadId().  The exchange writes the value that is there. *)
Definition IsLockedByCurrentThread (thread_id : Z) : M CriticalSection bool :=
  id ← gets m_locked_thread_id;
  mret (thread_id =? id).

Definition lock (thread_id : Z) : M CriticalSection unit :=
  locked ← IsLockedByCurrentThread thread_id;
  dd_assert (negb locked);;
  held ← gets m_srwlock;
  (if (held : bool) then throw Blocked
   else modify (fun cs => mkCriticalSection true (m_locked_thread_id cs)));;
  SetId thread_id.

Definition unlock (thread_id : Z) : M CriticalSection unit :=
  locked ← IsLockedByCurrentThread thread_id;
  dd_assert locked;;
  SetId 0;;
  modify (fun cs => mkCriticalSection false (m_locked_thread_id cs)).

Definition try_lock (thread_id : Z) : M CriticalSection bool :=
  held ← gets m_srwlock;
  if (held : bool) then mret false
  else
    modify (fun cs => mkCriticalSection true (m_locked_thread_id cs));;
    SetId thread_id;;
    mret true.
End CriticalSection.

Module ConditionVariable.
(** [sleep]: SleepConditionVariableSRW, which releases the lock, lets other threads run and
    takes the lock again. *)
Definition Wait (sleep : M CriticalSection.CriticalSection unit) : M CriticalSection.CriticalSection unit :=
  thread_id ← CriticalSection.UnsetId;
  sleep;;
  CriticalSection.SetId thread_id.
Definition TimedWait (sleep : Z -> M CriticalSection.CriticalSection unit) (timeout_ms : Z) :
    M CriticalSection.CriticalSection unit :=
  thread_id ← CriticalSection.UnsetId;
  sleep timeout_ms;;
  CriticalSection.SetId thread_id.
End ConditionVariable.

(** * Properties *)
Section mutex.
Implicit Types (s : UserScheduler) (cur this : Z).

Lemma Enter_finish_run s this c :
  Mutex.m_lock_count this <> 0 -> user_memory s !! Mutex.m_lock_count this = Some c ->
  Mutex.Enter_finish this s =
    Ok (tt, set_user_memory (<[Mutex.m_lock_count this := u32 (c + 1)]> (user_memory s)) s).
Proof.
  intros Ha Hc. unfold Mutex.Enter_finish.
  by rewrite (M_bind_run _ _ _ _ _ (load_run s _ c Ha Hc)), (store_run s _ c _ Ha Hc).
Qed.

Lemma IsLocked_run s cur cs v : cs <> 0 -> user_memory s !! cs = Some v ->
  InternalCriticalSection.IsLockedByCurrentThread cur cs s =
    Ok (owner_bits v =? ukern_fiber_handle (storage s cur), s).
Proof.
  intros Ha Hv. unfold InternalCriticalSection.IsLockedByCurrentThread.
  by rewrite (M_bind_run _ _ _ _ _ (load_run s cs v Ha Hv)).
Qed.

(** A mutex whose count is not zero lets everyone in. *)
Lemma Mutex_Enter_counted fuel s cur this c :
  Mutex.m_lock_count this <> 0 -> user_memory s !! Mutex.m_lock_count this = Some c -> c <> 0 ->
  Mutex.Enter fuel cur this s = Ok (InternalCriticalSection.Entered,
    set_user_memory (<[Mutex.m_lock_count this := u32 (c + 1)]> (user_memory s)) s).
Proof.
  intros Ha Hc Hne. unfold Mutex.Enter. rewrite (M_bind_run _ _ _ _ _ (load_run s _ c Ha Hc)).
  destruct (Z.eqb_spec c 0); [done|]. run. by rewrite (M_bind_run _ _ _ _ _ (Enter_finish_run s this c Ha Hc)).
Qed.

Lemma Mutex_Enter_free s cur this :
  this <> 0 -> Mutex.m_lock_count this <> 0 -> is_tag (ukern_fiber_handle (storage s cur)) ->
  user_memory s !! this = Some 0 -> user_memory s !! Mutex.m_lock_count this = Some 0 ->
  Mutex.Enter 1 cur this s = Ok (InternalCriticalSection.Entered,
    set_user_memory (<[Mutex.m_lock_count this := 1]>
      (<[this := ukern_fiber_handle (storage s cur)]> (user_memory s))) s).
Proof.
  intros Ha Hb Ht Hv Hc. unfold Mutex.Enter. rewrite (M_bind_run _ _ _ _ _ (load_run s _ 0 Hb Hc)).
  cbn [Z.eqb]. rewrite (M_bind_run _ _ _ true s).
  - set (s1 := set_user_memory (<[this := ukern_fiber_handle (storage s cur)]> (user_memory s)) s).
    rewrite (M_bind_run _ _ _ InternalCriticalSection.Entered s1).
    + rewrite (M_bind_run _ _ _ _ _ (Enter_finish_run s1 this 0 Hb
        ltac:(cbn; rewrite lookup_insert_ne; [exact Hc|unfold Mutex.m_lock_count; lia]))). done.
    + unfold InternalCriticalSection.Enter. cbn [InternalCriticalSection.Enter_from].
      rewrite (M_bind_run _ _ _ InternalCriticalSection.Entered s1); [done|].
      unfold InternalCriticalSection.Enter_step. run.
      by rewrite (M_bind_run _ _ _ _ _ (compare_exchange_run s this 0 _ 0 Ha Hv)).
  - rewrite (M_bind_run _ _ _ _ _ (IsLocked_run s cur this 0 Ha Hv)). unfold is_tag in Ht.
    change (owner_bits 0) with 0. by destruct (Z.eqb_spec 0 (ukern_fiber_handle (storage s cur))); [lia|].
Qed.

(** sys::Mutex excludes nobody: while one fiber holds it, the count is not zero and
    the Enter of any other fiber only counts up and returns; the owner's Leave then does not
    release the internal lock.  TryEnter answers false whatever the state, free or owned. *)
Theorem sys_mutex_no_exclusion s a b this fuel :
  this <> 0 -> Mutex.m_lock_count this <> 0 -> is_tag (ukern_fiber_handle (storage s a)) ->
  user_memory s !! this = Some 0 -> user_memory s !! Mutex.m_lock_count this = Some 0 ->
  (exists s1 s2 s3, Mutex.Enter 1 a this s = Ok (InternalCriticalSection.Entered, s1) /\
    Mutex.Enter fuel b this s1 = Ok (InternalCriticalSection.Entered, s2) /\
    Mutex.Leave a this s2 = Ok (tt, s3) /\
    Mutex.IsLockedByCurrentThread a this s3 = Ok (true, s3) /\
    user_memory s3 !! Mutex.m_lock_count this = Some 1) /\
  forall s' f v c, is_tag (ukern_fiber_handle (storage s' f)) ->
    user_memory s' !! this = Some v -> user_memory s' !! Mutex.m_lock_count this = Some c ->
    Mutex.TryEnter f this s' = Ok (false, s').
Proof.
  intros Ha Hb Ht Hv Hc. split.
  - set (s1 := set_user_memory (<[Mutex.m_lock_count this := 1]>
      (<[this := ukern_fiber_handle (storage s a)]> (user_memory s))) s).
    set (s2 := set_user_memory (<[Mutex.m_lock_count this := 2]> (user_memory s1)) s1).
    set (s3 := set_user_memory (<[Mutex.m_lock_count this := 1]> (user_memory s2)) s2).
    assert (user_memory s2 !! Mutex.m_lock_count this = Some 2) as Hc2 by apply lookup_insert_eq.
    assert (user_memory s3 !! Mutex.m_lock_count this = Some 1) as Hc3 by apply lookup_insert_eq.
    assert (user_memory s3 !! this = Some (ukern_fiber_handle (storage s a))) as Hv3.
    { cbn. unfold Mutex.m_lock_count. do 3 (rewrite lookup_insert_ne; [|lia]). by rewrite lookup_insert_eq. }
    exists s1, s2, s3. split; [by apply Mutex_Enter_free|]. split; [|split; [|split; [|done]]].
    + by apply (Mutex_Enter_counted fuel s1 b this 1); [|apply lookup_insert_eq|].
    + unfold Mutex.Leave. rewrite (M_bind_run _ _ _ _ _ (load_run s2 _ 2 Hb Hc2)).
      rewrite (M_bind_run _ _ _ _ _ (store_run s2 _ 2 (u32 (2 - 1)) Hb Hc2)).
      by rewrite (M_bind_run _ _ _ _ _ (load_run s3 _ 1 Hb Hc3)).
    + unfold Mutex.IsLockedByCurrentThread, Mutex.m_cs. rewrite (IsLocked_run s3 a this _ Ha Hv3).
      destruct (tag_bits _ Ht) as (_ & _ & -> & _). by rewrite Z.eqb_refl.
  - clear - Ha Hb. intros s f v c Ht Hv Hc. unfold Mutex.TryEnter.
    rewrite (M_bind_run _ _ _ _ _ (load_run s _ c Hb Hc)). destruct (c =? 0); [done|].
    rewrite (M_bind_run _ _ _ _ _ (IsLocked_run s f this v Ha Hv)).
    destruct (Z.eqb_spec (owner_bits v) (ukern_fiber_handle (storage s f))) as [E|]; [|done]. cbn [negb].
    rewrite (M_bind_run _ _ _ false s); [done|]. unfold InternalCriticalSection.TryEnter. run.
    rewrite (M_bind_run _ _ _ _ _ (compare_exchange_run s this v _ 0 Ha Hv)).
    destruct (Z.eqb_spec v 0) as [->|]; [|done]. unfold is_tag in Ht. change (owner_bits 0) with 0 in E. lia.
Qed.
End mutex.

Section event.
Implicit Types (s : UserScheduler) (L : NodeId -> list NodeId) (cur this : Z).

(** An event that no fiber waits on and whose internal lock is free. *)
Record idle_event s this (signal_state auto_reset wake_id : Z) : Prop := {
  ev_signal_state : user_memory s !! Event.m_signal_state this = Some signal_state;
  ev_auto_reset : user_memory s !! Event.m_auto_reset_mode this = Some auto_reset;
  ev_wake_id : user_memory s !! Event.m_wake_id this = Some wake_id;
  ev_cs : user_memory s !! Event.m_cs this = Some 0;
  ev_cv : user_memory s !! Event.m_cv this = Some 0;
  ev_address : 0 < this
}.

(** A scoped lock that is free. *)
Lemma scoped_lock_run {A} s cur cs (body : M UserScheduler (option A)) r m :
  cs <> 0 -> user_memory s !! cs = Some 0 -> is_tag (ukern_fiber_handle (storage s cur)) ->
  let s1 := set_user_memory (<[cs := ukern_fiber_handle (storage s cur)]> (user_memory s)) s in
  body s1 = Ok (Some r, set_user_memory m s) ->
  m !! cs = Some (ukern_fiber_handle (storage s cur)) ->
  scoped_lock 1 cur cs body s = Ok (Some r, set_user_memory (<[cs := 0]> m) s).
Proof.
  intros Ha Hv Ht s1 Hb Hm. unfold scoped_lock. destruct (tag_bits _ Ht) as (B1 & _).
  rewrite (M_bind_run _ _ _ InternalCriticalSection.Entered s1).
  - rewrite (M_bind_run _ _ _ _ _ Hb). rewrite (M_bind_run _ _ _ tt (set_user_memory (<[cs := 0]> m) s)); [done|].
    unfold InternalCriticalSection.Leave. rewrite (M_bind_run _ _ _ _ _ (load_run (set_user_memory m s) cs _ Ha Hm)), B1.
    by rewrite (store_run (set_user_memory m s) cs _ 0 Ha Hm).
  - unfold InternalCriticalSection.Enter. cbn [InternalCriticalSection.Enter_from].
    rewrite (M_bind_run _ _ _ InternalCriticalSection.Entered s1); [done|].
    unfold InternalCriticalSection.Enter_step. run.
    by rewrite (M_bind_run _ _ _ _ _ (compare_exchange_run s cs 0 _ 0 Ha Hv)).
Qed.

Lemma scoped_lock_fault {A} s cur cs (body : M UserScheduler (option A)) f :
  cs <> 0 -> user_memory s !! cs = Some 0 ->
  body (set_user_memory (<[cs := ukern_fiber_handle (storage s cur)]> (user_memory s)) s) = Fault f ->
  scoped_lock 1 cur cs body s = Fault f.
Proof.
  intros Ha Hv Hb. unfold scoped_lock.
  rewrite (M_bind_run _ _ _ InternalCriticalSection.Entered
    (set_user_memory (<[cs := ukern_fiber_handle (storage s cur)]> (user_memory s)) s)).
  - by apply M_bind_fault.
  - unfold InternalCriticalSection.Enter. cbn [InternalCriticalSection.Enter_from].
    rewrite (M_bind_run _ _ _ InternalCriticalSection.Entered
      (set_user_memory (<[cs := ukern_fiber_handle (storage s cur)]> (user_memory s)) s)); [done|].
    unfold InternalCriticalSection.Enter_step. run.
    by rewrite (M_bind_run _ _ _ _ _ (compare_exchange_run s cs 0 _ 0 Ha Hv)).
Qed.

(** No turn of the loop of Wait ends it, whatever their number. *)
Lemma Event_Wait_spins s L cur this auto_reset wake_id fuel :
  sched_inv s L -> m_scheduler_lock s = false -> L (WaitHead cur) = [] ->
  is_tag (ukern_fiber_handle (storage s cur)) -> idle_event s this 0 auto_reset wake_id ->
  Event.Wait 1 fuel cur this s = Fault OutOfFuel.
Proof.
  intros HI Hl Ew Ht [Hs Hm Hw Hcs Hcv Hpos]. unfold Event.Wait.
  unfold Event.m_signal_state, Event.m_auto_reset_mode, Event.m_wake_id, Event.m_cs, Event.m_cv in *.
  apply scoped_lock_fault; [lia|done|].
  set (s1 := set_user_memory _ s).
  assert (forall d v, d < 8 -> user_memory s !! (this + d) = Some v -> user_memory s1 !! (this + d) = Some v) as Hk.
  { intros d v Hd Hv. cbn. by rewrite lookup_insert_ne by lia. }
  assert (user_memory s1 !! this = Some 0) as Hs1 by (rewrite <- (Z.add_0_r this); apply Hk; [lia|by rewrite Z.add_0_r]).
  pose proof (Hk 4 wake_id ltac:(lia) Hw) as Hw1.
  assert (sched_inv s1 L) as HI1 by by apply (inv_same s).
  assert (owns s1 L cur (this + 8)) as Ho.
  { split; [done|]. split; [lia|]. rewrite decide_True by done. apply lookup_insert_eq. }
  unfold Event.Wait_body, Event.m_signal_state, Event.m_wake_id.
  rewrite (M_bind_run _ _ _ _ _ (load_run s1 this 0 ltac:(lia) Hs1)). cbn [Z.eqb].
  rewrite (M_bind_run _ _ _ _ _ (load_run s1 (this + 4) wake_id ltac:(lia) Hw1)).
  apply M_bind_fault. induction fuel as [|fuel IH]; [done|]. cbn [Event.Wait_loop].
  unfold Event.m_cs, Event.m_cv.
  rewrite (M_bind_run _ _ _ _ _ (Wait_run s1 L cur (this + 8) (this + 12) HI1 Hl Ho ltac:(lia))).
  unfold Event.m_wake_id, Event.m_signal_state.
  rewrite (M_bind_run _ _ _ _ _ (load_run s1 (this + 4) wake_id ltac:(lia) Hw1)).
  rewrite (M_bind_run _ _ _ _ _ (load_run s1 this 0 ltac:(lia) Hs1)).
  by rewrite Z.eqb_refl.
Qed.

Lemma Signal_body_run s this auto_reset wake_id :
  0 < this -> user_memory s !! Event.m_auto_reset_mode this = Some auto_reset ->
  user_memory s !! Event.m_wake_id this = Some wake_id -> user_memory s !! Event.m_cv this = Some 0 ->
  Event.Signal_body this s = Ok (Some tt, set_user_memory (if auto_reset =? 1 then user_memory s
    else <[Event.m_wake_id this := u32 (wake_id + 1)]> (user_memory s)) s).
Proof.
  unfold Event.Signal_body, Event.m_auto_reset_mode, Event.m_wake_id, Event.m_cv. intros Hpos Hm Hw Hcv.
  rewrite (M_bind_run _ _ _ _ _ (load_run s (this + 2) auto_reset ltac:(lia) Hm)).
  destruct (auto_reset =? 1).
  - rewrite (M_bind_run _ _ _ tt s); [by destruct s|]. unfold InternalConditionVariable.Signal.
    by rewrite (M_bind_run _ _ _ _ _ (load_run s (this + 12) 0 ltac:(lia) Hcv)).
  - set (s2 := set_user_memory (<[this + 4 := u32 (wake_id + 1)]> (user_memory s)) s).
    rewrite (M_bind_run _ _ _ tt s2); [done|].
    rewrite (M_bind_run _ _ _ _ _ (load_run s (this + 4) wake_id ltac:(lia) Hw)).
    rewrite (M_bind_run _ _ _ _ _ (store_run s (this + 4) wake_id _ ltac:(lia) Hw)).
    unfold InternalConditionVariable.Broadcast.
    by rewrite (M_bind_run _ _ _ _ _ (load_run s2 (this + 12) 0 ltac:(lia) ltac:(
      cbn; rewrite lookup_insert_ne by lia; done))).
Qed.

(** Members of an event are at different addresses. *)
Ltac members :=
  unfold Event.m_signal_state, Event.m_auto_reset_mode, Event.m_wake_id, Event.m_cs, Event.m_cv in *;
  cbn; by repeat first [rewrite lookup_insert_eq | rewrite lookup_insert_ne by lia].

(** sys::Event::Signal never sets the signal state: with auto reset it changes nothing,
    otherwise only the wake id.  A Wait that comes after it, as one that comes before, turns
    in its loop for ever while it holds the event's lock. *)
Theorem event_signal_lost s L cur this auto_reset wake_id :
  sched_inv s L -> m_scheduler_lock s = false -> L (WaitHead cur) = [] ->
  is_tag (ukern_fiber_handle (storage s cur)) -> idle_event s this 0 auto_reset wake_id ->
  exists s', Event.Signal 1 cur this s = Ok (Some tt, s') /\
    idle_event s' this 0 auto_reset (if auto_reset =? 1 then wake_id else u32 (wake_id + 1)) /\
    forall fuel, Event.Wait 1 fuel cur this s' = Fault OutOfFuel.
Proof.
  intros HI Hl Ew Ht Hev. pose proof Hev as [Hs Hm Hw Hcs Hcv Hpos].
  set (tag := ukern_fiber_handle (storage s cur)) in *.
  set (id := if auto_reset =? 1 then wake_id else u32 (wake_id + 1)).
  set (m1 := <[Event.m_cs this := tag]> (user_memory s)).
  set (m2 := if auto_reset =? 1 then m1 else <[Event.m_wake_id this := u32 (wake_id + 1)]> m1).
  set (s' := set_user_memory (<[Event.m_cs this := 0]> m2) s).
  assert (Event.Signal 1 cur this s = Ok (Some tt, s')) as E.
  { apply scoped_lock_run; [unfold Event.m_cs; lia|done|done| |].
    - fold tag. fold m1. apply (Signal_body_run (set_user_memory m1 s)); [done| | |]; unfold m1; members.
    - unfold m2, m1. destruct (_ =? _); members. }
  assert (idle_event s' this 0 auto_reset id) as Hev'.
  { unfold s', m2, m1, id. split; try done; destruct (auto_reset =? 1); members. }
  exists s'. split; [exact E|]. split; [exact Hev'|]. intros fuel.
  eapply (Event_Wait_spins _ L); [|done..|exact Hev']. by apply (inv_same s).
Qed.
End event.

Section service.
Implicit Types (L : NodeId -> list NodeId) (cur a now : Z) (ts : TimeStamp).

(** The wait that both service classes make, on a word with the expected value. *)
Lemma wait_minus_one_run ts now s L cur a t :
  sched_inv s L -> m_scheduler_lock s = false -> fiber_id cur -> on_core s cur ->
  fiber_state (storage s cur) = FiberState_Running -> loose L (WaitNode cur) ->
  a <> 0 -> user_memory s !! a = Some 0 ->
  GetAbsoluteTimeToWakeup ts now (-1) = Ok t -> 0 < t <= s64_max ->
  exists s', ukern.WaitOnAddress ts now cur a 2 0 (-1) s = Ok (Switched ResultSuccess, s') /\
    storage s' cur = waiting_members a t (storage s cur).
Proof.
  intros HI Hl Hf Hc Hr Hln Ha Hv Ht Htr.
  assert (s64 (u64 t) = t) as Et.
  { unfold s64_max in Htr. unfold u64, s64. rewrite wrap_small by lia. apply swrap_small; lia. }
  destruct (wait_for_address_run s L cur a 0 t) as (s' & E & _ & Est & _); [done..|lia|].
  exists s'. split; [|done]. unfold ukern.WaitOnAddress. rewrite (bind_lift _ _ _ _ Ht).
  cbn [ukern.arbitration_type]. by rewrite Et.
Qed.

(** sys::ServiceCriticalSection takes the answer of TryAcquireSRWLockExclusive the wrong
    way round: a fiber that finds the lock held enters beside the holder, and a fiber that
    finds it free takes it and then waits, with the lock held, to be woken by a Leave. *)
Theorem service_critical_section_inverted ts now s L cur a t :
  let free := ServiceCriticalSection.mkState false s in
  let held := ServiceCriticalSection.mkState true s in
  sched_inv s L -> m_scheduler_lock s = false -> fiber_id cur -> on_core s cur ->
  fiber_state (storage s cur) = FiberState_Running -> loose L (WaitNode cur) ->
  a <> 0 -> user_memory s !! a = Some 0 ->
  GetAbsoluteTimeToWakeup ts now (-1) = Ok t -> 0 < t <= s64_max ->
  ServiceCriticalSection.Enter_step ts now (Some cur) a held = Ok (ServiceCriticalSection.Entered, held) /\
  exists st, ServiceCriticalSection.Enter_step ts now (Some cur) a free
      = Ok (ServiceCriticalSection.SwitchedOut, st) /\
    ServiceCriticalSection.m_win32_lock st = true /\
    fiber_state (storage (ServiceCriticalSection.scheduler st) cur) = FiberState_Waiting.
Proof.
  intros free held HI Hl Hf Hc Hr Hln Ha Hv Ht Htr. split; [done|].
  destruct (wait_minus_one_run ts now s L cur a t) as (s' & E & Est); [done..|].
  exists (ServiceCriticalSection.mkState true s'). split; [|split; [done|]].
  - unfold ServiceCriticalSection.Enter_step, gets, modify, mbind, M_bind. cbn.
    unfold ServiceCriticalSection.on_scheduler. cbn. by rewrite E.
  - cbn [ServiceCriticalSection.scheduler]. by rewrite Est.
Qed.

(** sys::ServiceEvent: after Signal, with no fiber waiting, a Wait of a fiber and one of
    a Win32 thread return at once and leave the event signalled; after Reset the thread
    blocks again. *)
Theorem service_event_signal ts now s L cur a v b :
  let st := ServiceEvent.mkState (Some b) s in
  sched_inv s L -> m_scheduler_lock s = false -> a <> 0 -> user_memory s !! a = Some v ->
  waiter_on s L a = None ->
  exists s1 s2, ServiceEvent.Signal a st = Ok (tt, s1) /\
    ServiceEvent.Wait ts now (Some cur) a s1 = Ok (Returned ResultSuccess, s1) /\
    ServiceEvent.Wait ts now None a s1 = Ok (Returned ResultSuccess, s1) /\
    ServiceEvent.Reset a s1 = Ok (tt, s2) /\
    ServiceEvent.Wait ts now None a s2 = Fault Blocked.
Proof.
  intros st HI Hl Ha Hv Hw.
  set (u1 := set_user_memory (<[a := 1]> (user_memory s)) s).
  set (u2 := set_user_memory (<[a := 0]> (user_memory u1)) u1).
  set (s1 := ServiceEvent.mkState (Some true) u1). set (s2 := ServiceEvent.mkState (Some false) u2).
  assert (user_memory u1 !! a = Some 1) as Hv1 by apply lookup_insert_eq.
  assert (user_memory u2 !! a = Some 0) as Hv2 by apply lookup_insert_eq.
  assert (forall c, ServiceEvent.Wait ts now c a s1 = Ok (Returned ResultSuccess, s1)) as Ew.
  { intros c. unfold ServiceEvent.Wait, ServiceEvent.on_scheduler. unfold mbind at 1, M_bind at 1.
    cbn [ServiceEvent.scheduler s1]. by rewrite (load_run u1 a 1 Ha Hv1). }
  exists s1, s2. split; [|split; [done|split; [done|split]]].
  - unfold ServiceEvent.Signal, ServiceEvent.on_scheduler. unfold mbind, M_bind.
    cbn [ServiceEvent.scheduler st]. rewrite (store_run s a v 1 Ha Hv). fold u1.
    cbn [ServiceEvent.scheduler ServiceEvent.win32_event]. unfold ukern.WakeByAddress. cbn [ukern.signal_type].
    rewrite (wake_nobody_run u1 L a); [done|by apply (inv_same s)|done|done|done|done].
  - unfold ServiceEvent.Reset, ServiceEvent.on_scheduler, modify. unfold mbind, M_bind.
    cbn [ServiceEvent.scheduler ServiceEvent.set_win32_event s1]. by rewrite (store_run u1 a 1 0 Ha Hv1).
  - unfold ServiceEvent.Wait, ServiceEvent.on_scheduler. unfold mbind at 1, M_bind at 1.
    cbn [ServiceEvent.scheduler s2]. by rewrite (load_run u2 a 0 Ha Hv2).
Qed.
End service.

(** A Win32 thread that slept on the condition variable owns the lock again. *)
Lemma ConditionVariable_Wait_owner thread_id cs cs' sleep :
  CriticalSection.m_locked_thread_id cs = thread_id ->
  sleep (CriticalSection.mkCriticalSection (CriticalSection.m_srwlock cs) 0) = Ok (tt, cs') ->
  ConditionVariable.Wait sleep cs =
    Ok (tt, CriticalSection.mkCriticalSection (CriticalSection.m_srwlock cs') thread_id).
Proof.
  intros Ht Hs. unfold ConditionVariable.Wait, CriticalSection.UnsetId, CriticalSection.SetId, gets, modify.
  unfold mbind, M_bind, mret, M_ret. by rewrite Hs, Ht.
Qed.

(** * Witnesses *)
Definition example_mutex : UserScheduler := example_sync_with {[100 := 0; 104 := 0]}.

Lemma sys_mutex_no_exclusion_witness :
  exists s1 s2, Mutex.Enter 1 1 100 example_mutex = Ok (InternalCriticalSection.Entered, s1) /\
    Mutex.Enter 1 2 100 s1 = Ok (InternalCriticalSection.Entered, s2) /\
    Mutex.TryEnter 1 100 example_mutex = Ok (false, example_mutex).
Proof.
  destruct (sys_mutex_no_exclusion example_mutex 1 2 100 1) as [(s1 & s2 & s3 & E1 & E2 & _) Ht]; try ground.
  - apply example_sync_tag. by left.
  - exists s1, s2. split; [exact E1|]. split; [exact E2|].
    apply (Ht example_mutex 1 0 0); try ground. apply example_sync_tag. by left.
Defined.

Definition example_event : UserScheduler :=
  example_sync_with {[100 := 0; 102 := 1; 104 := 7; 108 := 0; 112 := 0]}.

Lemma event_signal_lost_witness : exists s', Event.Signal 1 1 100 example_event = Ok (Some tt, s') /\
  Event.Wait 1 10 1 100 s' = Fault OutOfFuel.
Proof.
  destruct (event_signal_lost example_event (fun _ => []) 1 100 1 7) as (s' & E & _ & Hw); try ground.
  - apply example_sync_inv.
  - apply example_sync_tag. by left.
  - split; try ground. apply Z.ltb_lt. reflexivity.
  - exists s'. split; [exact E|apply Hw].
Defined.

Lemma service_critical_section_inverted_witness : exists st,
  ServiceCriticalSection.Enter_step ts_10MHz 100 (Some 2) 200 (ServiceCriticalSection.mkState true (example_sync 0))
    = Ok (ServiceCriticalSection.Entered, ServiceCriticalSection.mkState true (example_sync 0)) /\
  ServiceCriticalSection.Enter_step ts_10MHz 100 (Some 2) 200 (ServiceCriticalSection.mkState false (example_sync 0))
    = Ok (ServiceCriticalSection.SwitchedOut, st).
Proof.
  destruct (service_critical_section_inverted ts_10MHz 100 (example_sync 0) (fun _ => []) 2 200 103)
    as [E1 (st & E2 & _)]; try ground.
  - apply example_sync_inv.
  - apply small_fiber_id. lia.
  - apply example_sync_on_core.
  - apply nothing_loose.
  - split; [apply Z.ltb_lt|apply Z.leb_le]; reflexivity.
  - exists st. split; [exact E1|exact E2].
Defined.

Lemma service_event_signal_witness : exists s1,
  ServiceEvent.Signal 200 (ServiceEvent.mkState (Some false) (example_sync 0)) = Ok (tt, s1) /\
  ServiceEvent.Wait ts_10MHz 0 None 200 s1 = Ok (Returned ResultSuccess, s1).
Proof.
  destruct (service_event_signal ts_10MHz 0 (example_sync 0) (fun _ => []) 1 200 0 false)
    as (s1 & s2 & E1 & _ & E2 & _); try ground.
  - apply example_sync_inv.
  - exists s1. split; [exact E1|exact E2].
Defined.
