(* ===== verification/SysThread.v ===== *)
(** The threads of sys and util: ThreadBase, Thread, DelegateThread, ServiceThread, MainThread,
    ThreadManager and SystemManager (sys_threadbase.h, sys_thread.hpp, sys_delegatethread.hpp,
    sys_servicethread.hpp, sys_mainthread.hpp, sys_threadmanager.hpp, sys_systemmanager.h/.cpp),
    util::DelegateThread (util_delegatethread.hpp) and the delegates.

    Virtual functions and delegates are arguments of the code that calls them, and so are
    the Win32 services, as functions of the state they change. *)
From S2P Require Import Prelude Result TimeSpan IntrusiveList ListFamily BusyMutex HandleTable.
From S2P Require Import Allocators Fiber Scheduler SchedulerSpec ThreadSpec MessageQueue UKernSync.

(** * ThreadBase *)
Inductive ThreadRunMode : Type := ThreadRunMode_WaitForMessage | ThreadRunMode_Looping.
#[export] Instance run_mode_eq_dec : EqDecision ThreadRunMode.
Proof. solve_decision. Defined.

Module ThreadBase.
(** The members but for the queue, which is shared with the senders, and the list node. *)
Record ThreadBase : Type := mkThreadBase {
  m_thread_heap : Z;
  m_lookup_heap : Z;
  m_exit_message : Z;
  m_stack_size : Z;
  m_priority : Z;
  m_core_mask : Z;
  m_run_mode : ThreadRunMode
}.

(** The two constructors; [raw] is what the members had that they leave alone.  The first
    also gives the queue its buffer. *)
Definition construct (raw : ThreadBase) (thread_heap : Z) (run_mode : ThreadRunMode)
    (exit_code stack_size priority : Z) : ThreadBase :=
  mkThreadBase thread_heap 0 exit_code (u32 stack_size) priority (m_core_mask raw) run_mode.
Definition construct_queue (buffer : option (list Z)) (max_messages : Z) : M MessageQueue unit :=
  sys.Initialize buffer (s32 max_messages).
(** The destructor: in it the virtual call is that of ThreadBase itself, which the source declares and nowhere defines. *)
Definition destruct_queue (ThreadBase_WaitForThreadExit : M MessageQueue unit) : M MessageQueue unit :=
  ThreadBase_WaitForThreadExit;; sys.Finalize.
Definition construct_main (raw : ThreadBase) (thread_heap : Z) : ThreadBase :=
  mkThreadBase thread_heap 0 (m_exit_message raw) (m_stack_size raw) (m_priority raw) (m_core_mask raw)
    (m_run_mode raw).

Definition set_priority (p : Z) (t : ThreadBase) : ThreadBase :=
  mkThreadBase (m_thread_heap t) (m_lookup_heap t) (m_exit_message t) (m_stack_size t) p (m_core_mask t)
    (m_run_mode t).
Definition set_core_mask (mask : Z) (t : ThreadBase) : ThreadBase :=
  mkThreadBase (m_thread_heap t) (m_lookup_heap t) (m_exit_message t) (m_stack_size t) (m_priority t) mask
    (m_run_mode t).
Definition SetThreadCurrentHeap (heap : Z) (t : ThreadBase) : ThreadBase :=
  mkThreadBase heap (m_lookup_heap t) (m_exit_message t) (m_stack_size t) (m_priority t) (m_core_mask t)
    (m_run_mode t).
Definition SetLookupHeap (heap : Z) (t : ThreadBase) : ThreadBase :=
  mkThreadBase (m_thread_heap t) heap (m_exit_message t) (m_stack_size t) (m_priority t) (m_core_mask t)
    (m_run_mode t).

Section run.
(** [W]: what ThreadCalc may change beside the queue; [wait]: a wait for a message. *)
Context {W : Type} (ThreadCalc : Z -> M (MessageQueue * W) unit) (wait : M MessageQueue unit).

Definition on_queue {A} (m : M MessageQueue A) : M (MessageQueue * W) A := fun '(q, w) =>
  match m q with Ok (a, q') => Ok (a, (q', w)) | Fault f => Fault f end.

Fixpoint Run_loop (fuel wait_fuel : nat) (t : ThreadBase) (current_message : Z) : M (MessageQueue * W) unit :=
  if current_message =? m_exit_message t then mret tt
  else
    match fuel with
    | O => throw OutOfFuel
    | S fuel =>
        ThreadCalc current_message;;
        current_message ← (match m_run_mode t with
          | ThreadRunMode_WaitForMessage => on_queue (sys.ReceiveMessage wait wait_fuel)
          | ThreadRunMode_Looping =>
              received ← on_queue sys.TryReceiveMessage;
              mret (default 0 received)
          end);
        Run_loop fuel wait_fuel t current_message
    end.

Definition Run (fuel wait_fuel : nat) (t : ThreadBase) : M (MessageQueue * W) unit :=
  current_message ← (match m_run_mode t with
    | ThreadRunMode_WaitForMessage => on_queue (sys.ReceiveMessage wait wait_fuel)
    | ThreadRunMode_Looping => mret (u64 (-1))
    end);
  Run_loop fuel wait_fuel t current_message.
End run.
End ThreadBase.

(** * sys::Thread *)
Module Thread.
Record Thread : Type := mkThread { base : ThreadBase.ThreadBase; m_thread_handle : Z }.

(** The constructor's body, for a base that is constructed: [this] is the address of the
    object, [main] that of InternalThreadMain. *)
Definition construct (main this : Z) (name : option string) (base : ThreadBase.ThreadBase) : M UserScheduler Thread :=
  r ← ukern.CreateThread main this (ThreadBase.m_stack_size base) (ThreadBase.m_priority base) (u32 (-1));
  let '(result0, handle) := r in
  dd_assert (result0 =? ResultSuccess);;
  let m_thread_handle := default 0 handle in
  ukern.SetThreadName m_thread_handle name;;
  mret (mkThread base m_thread_handle).

Definition succeeds (call : M UserScheduler Z) : M UserScheduler unit :=
  result0 ← call;
  dd_assert (result0 =? ResultSuccess).
Definition StartThread (t : Thread) : M UserScheduler unit := succeeds (ukern.StartThread (m_thread_handle t)).
Definition ResumeThread (t : Thread) : M UserScheduler unit := succeeds (ukern.ResumeThread (m_thread_handle t)).
Definition SuspendThread (t : Thread) : M UserScheduler unit := succeeds (ukern.SuspendThread (m_thread_handle t)).
Definition WaitForThreadExit (cur : Z) (t : Thread) : M UserScheduler (option Outcome) :=
  ukern.ExitThread cur (m_thread_handle t).
Definition SetPriority (priority : Z) (t : Thread) : M UserScheduler Thread :=
  succeeds (ukern.SetThreadPriority (m_thread_handle t) (u32 priority));;
  mret (mkThread (ThreadBase.set_priority priority (base t)) (m_thread_handle t)).
Definition SetCoreMask (core_mask : Z) (t : Thread) : M UserScheduler Thread :=
  succeeds (ukern.SetThreadCoreMask (m_thread_handle t) core_mask);;
  mret (mkThread (ThreadBase.set_core_mask core_mask (base t)) (m_thread_handle t)).
End Thread.

(** * Delegates *)
Module Delegate.
(** Delegate, Delegate1, Delegate2: an object and a member function of it. *)
Record Delegate (T F : Type) : Type := mkDelegate { m_t : T; m_function : T -> F }.
Arguments mkDelegate {T F} _ _.
Arguments m_t {T F} _.
Arguments m_function {T F} _.
Definition Invoke {T S} (d : Delegate T (M S unit)) : M S unit := m_function d (m_t d).
Definition Invoke1 {T P S} (d : Delegate T (P -> M S unit)) (param : P) : M S unit := m_function d (m_t d) param.
Definition Invoke2 {T P Q S} (d : Delegate T (P -> Q -> M S unit)) (param1 : P) (param2 : Q) : M S unit :=
  m_function d (m_t d) param1 param2.
Definition Clone {T F} (d : Delegate T F) : Delegate T F := mkDelegate (m_t d) (m_function d).
End Delegate.

Module DelegateThread.
(** sys::DelegateThread: a Thread whose ThreadCalc is the delegate, called with the thread. *)
Definition construct (main this delegate : Z) (name : option string) (base : ThreadBase.ThreadBase) :
    M UserScheduler Thread.Thread :=
  thread ← Thread.construct main this name base;
  dd_assert (negb (delegate =? 0));;
  mret thread.
Definition ThreadCalc {S : Type} (m_delegate : Z -> Z -> M S unit) (this message : Z) : M S unit :=
  m_delegate this message.

Section main.
(** util::DelegateThread. *)
Context {W : Type} (m_delegate : Z -> Z -> M (MessageQueue * W) unit) (wait : M MessageQueue unit).

Fixpoint Main_loop (fuel wait_fuel : nat) (this m_exit_code current_message : Z) : M (MessageQueue * W) unit :=
  if current_message =? m_exit_code then mret tt
  else
    match fuel with
    | O => throw OutOfFuel
    | S fuel =>
        m_delegate this current_message;;
        current_message ← ThreadBase.on_queue (ReceiveMessage wait wait_fuel);
        Main_loop fuel wait_fuel this m_exit_code current_message
    end.
Definition DelegateThreadMain (fuel wait_fuel : nat) (this m_exit_code : Z) : M (MessageQueue * W) unit :=
  current_message ← ThreadBase.on_queue (ReceiveMessage wait wait_fuel);
  Main_loop fuel wait_fuel this m_exit_code current_message.

(** The members but for the queue, the handle and the identifier of the thread; [delegate] is its address. *)
Record DelegateThread : Type := mkDelegateThread { m_exit_code : Z; m_stack_size : Z; m_delegate_address : Z }.
(** [buffer] is what new gives for the queue, [created] whether CreateThread gives a handle. *)
Definition util_construct (delegate stack_size exit_code max_messages : Z) (buffer : option (list Z)) (created : bool) :
    M (MessageQueue * W) DelegateThread :=
  dd_assert (negb (delegate =? 0));;
  ThreadBase.on_queue (MessageQueue.Initialize buffer (s32 max_messages));;
  dd_assert created;;
  mret (mkDelegateThread exit_code (u32 stack_size) delegate).
Definition SendMessage (wait_fuel : nat) (message : Z) : M (MessageQueue * W) unit :=
  ThreadBase.on_queue (MessageQueue.SendMessage wait wait_fuel message).
Definition GetExitCode (t : DelegateThread) : Z := m_exit_code t.

(** [join]: WaitForSingleObject on the thread. *)
Definition FinalizeThread (wait_fuel : nat) (join : M (MessageQueue * W) unit) (m_exit_code : Z) :
    M (MessageQueue * W) unit :=
  SendMessage wait_fuel m_exit_code;;
  join.
End main.
End DelegateThread.

(** * sys::ServiceThread *)
Module ServiceThread.
(** A Win32 thread: how often it is suspended, its priority and affinity, and whether it has
    ended.  [None] stands for a null handle. *)
Record Win32Thread : Type := mkWin32Thread {
  suspend_count : Z;
  thread_priority : Z;
  affinity : Z;
  ended : bool
}.
Definition with_suspend_count (n : Z) (w : Win32Thread) : Win32Thread :=
  mkWin32Thread n (thread_priority w) (affinity w) (ended w).

Section win32.
(** The answers of the Win32 services: the previous suspend count or -1, and success. *)
Context (Win32ResumeThread Win32SuspendThread : M Win32Thread Z).
Context (Win32SetThreadPriority Win32SetThreadAffinityMask : Z -> M Win32Thread bool).

(** The constructor's body: [created], whether CreateThread gave a handle. *)
Definition construct (created : bool) (name : string) (base : ThreadBase.ThreadBase) :
    M Win32Thread (ThreadBase.ThreadBase * string) :=
  dd_assert created;;
  result0 ← Win32SetThreadPriority (ThreadBase.m_priority base);
  dd_assert result0;;
  mret (base, strncpy name MaxFiberNameLength).

Definition StartThread : M Win32Thread unit :=
  result0 ← Win32ResumeThread;
  dd_assert (negb (s32 result0 =? -1)).
Definition ResumeThread : M Win32Thread unit :=
  result0 ← Win32ResumeThread;
  dd_assert (negb (s32 result0 =? -1)).
Definition SuspendThread : M Win32Thread unit :=
  result0 ← Win32SuspendThread;
  dd_assert (negb (s32 result0 =? -1)).
(** WaitForSingleObject without a timeout: the thread blocks until the other has ended. *)
Definition WaitForThreadExit : M Win32Thread unit :=
  e ← gets ended;
  if (e : bool) then mret tt else throw Blocked.
Definition SetPriority (priority : Z) (t : ThreadBase.ThreadBase) : M Win32Thread ThreadBase.ThreadBase :=
  result0 ← Win32SetThreadPriority priority;
  dd_assert result0;;
  mret (ThreadBase.set_priority priority t).
Definition SetCoreMask (core_mask : Z) (t : ThreadBase.ThreadBase) : M Win32Thread ThreadBase.ThreadBase :=
  result0 ← Win32SetThreadAffinityMask core_mask;
  dd_assert result0;;
  mret (ThreadBase.set_core_mask core_mask t).
End win32.
End ServiceThread.

(** * sys::ThreadManager *)
(** The nodes of the manager's list: its head and the m_thread_manager_list_node of threads. *)
Inductive ThreadNodeId : Type := ThreadHead | ThreadNode (thread : Z).
#[export] Instance thread_node_eq_dec : EqDecision ThreadNodeId.
Proof. solve_decision. Defined.
#[export] Instance thread_node_countable : Countable ThreadNodeId.
Proof.
  refine (inj_countable' (fun n => match n with ThreadHead => None | ThreadNode t => Some t end)
    (fun o => match o with None => ThreadHead | Some t => ThreadNode t end) _). by intros [].
Defined.

Module ThreadManager.
(** The list, the mutex (held or not), the main thread, the slot of thread-local storage and
    the value that the calling Win32 thread has there; [world]: what the threads do. *)
Record State (W : Type) : Type := mkState {
  list_nodes : gmap ThreadNodeId (IntrusiveListNode ThreadNodeId);
  m_list_mutex : bool;
  m_main_thread : option ThreadBase.ThreadBase;
  m_current_service_thread_tls_slot : Z;
  tls_value : Z;
  world : W
}.
Arguments mkState {W} _ _ _ _ _ _.
Arguments list_nodes {W} _.
Arguments m_list_mutex {W} _.
Arguments m_main_thread {W} _.
Arguments m_current_service_thread_tls_slot {W} _.
Arguments tls_value {W} _.
Arguments world {W} _.

Section manager.
Context {W : Type}.
Implicit Types (s : State W) (thread : Z).

Definition set_list_nodes (m : gmap ThreadNodeId (IntrusiveListNode ThreadNodeId)) s : State W :=
  mkState m (m_list_mutex s) (m_main_thread s) (m_current_service_thread_tls_slot s) (tls_value s) (world s).
Definition set_list_mutex (b : bool) s : State W :=
  mkState (list_nodes s) b (m_main_thread s) (m_current_service_thread_tls_slot s) (tls_value s) (world s).
Definition set_main_thread (t : option ThreadBase.ThreadBase) s : State W :=
  mkState (list_nodes s) (m_list_mutex s) t (m_current_service_thread_tls_slot s) (tls_value s) (world s).
Definition set_tls_slot (slot : Z) s : State W :=
  mkState (list_nodes s) (m_list_mutex s) (m_main_thread s) slot (tls_value s) (world s).
Definition set_tls_value (value : Z) s : State W :=
  mkState (list_nodes s) (m_list_mutex s) (m_main_thread s) (m_current_service_thread_tls_slot s) value (world s).

#[export] Instance manager_has_nodes : HasNodes ThreadNodeId (State W) := {
  nodes := list_nodes;
  set_nodes := set_list_nodes;
  nodes_set_nodes := fun m s => eq_refl;
  set_nodes_set_nodes := fun m m' s => eq_refl;
  set_nodes_nodes := ltac:(by intros [])
}.

Definition TLS_OUT_OF_INDEXES : Z := 0xFFFFFFFF.

(** IntrusiveListTraits::GetParentReference. *)
Definition parent (n : ThreadNodeId) : M (State W) Z :=
  match n with ThreadNode t => mret t | ThreadHead => throw BadContainer end.

(** std::scoped_lock on m_list_mutex. *)
Definition with_list_mutex {A} (body : M (State W) A) : M (State W) A :=
  held ← gets m_list_mutex;
  (if (held : bool) then throw Blocked else modify (set_list_mutex true));;
  r ← body;
  modify (set_list_mutex false);;
  mret r.

Definition InitializeMainThread (raw : ThreadBase.ThreadBase) (heap : Z) : M (State W) unit :=
  modify (set_main_thread (Some (ThreadBase.construct_main raw heap))).

(** [slot]: what TlsAlloc gives. *)
Definition Initialize (slot : Z) (raw : ThreadBase.ThreadBase) (heap : Z) : M (State W) unit :=
  modify (set_tls_slot slot);;
  dd_assert (negb (slot =? TLS_OUT_OF_INDEXES));;
  InitializeMainThread raw heap.

Definition PushBackThreadSafe thread : M (State W) unit :=
  with_list_mutex (modify_nodes (PushBack ThreadHead (ThreadNode thread))).
Definition RemoveThreadUnsafe thread : M (State W) unit := modify_nodes (Unlink (ThreadNode thread)).
Definition RemoveThreadSafe thread : M (State W) unit :=
  with_list_mutex (modify_nodes (Unlink (ThreadNode thread))).

(** ~ThreadManager(); [tls_freed]: the answer of TlsFree. *)
Definition destroy (fuel : nat) (WaitForThreadExit : Z -> M (State W) unit) (tls_freed : bool) : M (State W) unit :=
  with_list_mutex (
    for_each fuel ThreadHead (fun n =>
      thread ← parent n;
      WaitForThreadExit thread;;
      mret (None : option unit));;
    for_each fuel ThreadHead (fun n =>
      thread ← parent n;
      RemoveThreadUnsafe thread;;
      mret (None : option unit));;
    mret tt);;
  dd_assert tls_freed;;
  modify (set_tls_slot 0).

(** [current]: ukern::GetCurrentThread(), whose user_arg is the thread object. *)
Definition GetCurrentThread (current : option FiberLocalStorage) : M (State W) Z :=
  match current with
  | None => gets tls_value
  | Some fiber => mret (user_arg fiber)
  end.
Definition SetCurrentServiceThread thread (stored : bool) : M (State W) unit :=
  modify (fun s => if stored then set_tls_value thread s else s);;
  dd_assert stored.
Definition IsMainThread (main_thread : Z) (current : option FiberLocalStorage) : M (State W) bool :=
  t ← GetCurrentThread current;
  mret (t =? main_thread).
End manager.
End ThreadManager.

(** * sys::SystemManager *)
Module SystemManager.
Record SystemManager : Type := mkSystemManager {
  active_processor_count : Z;
  process_core_count : Z;
  process_core_mask : Z;
  system_core_mask : Z
}.
Definition PROCESSOR_ARCHITECTURE_AMD64 : Z := 9.

(** What the Win32 services answer: the architecture and page size of GetSystemInfo,
    GetActiveProcessorCount, and GetProcessAffinityMask with its two masks. *)
Definition InitializeSystemManager (wProcessorArchitecture dwPageSize active : Z) (result : bool)
    (process_mask system_mask : Z) : res SystemManager :=
  if negb (wProcessorArchitecture =? PROCESSOR_ARCHITECTURE_AMD64) then Fault AssertFailed
  else if negb (dwPageSize =? 0x1000) then Fault AssertFailed
  else if active =? 0 then Fault AssertFailed
  else if negb result then Fault AssertFailed
  else if negb (negb (process_mask =? 0) && negb (system_mask =? 0)) then Fault AssertFailed
  else Ok (mkSystemManager (u32 active) (u32 (CountOneBits64 process_mask)) process_mask system_mask).
(** GetCurrentProcessorNumber answers; the information of the system is that of the instance. *)
Definition GetCurrentThreadCoreNumber (GetCurrentProcessorNumber : Z) : Z := u32 GetCurrentProcessorNumber.
Definition GetProcessProcessorCount (instance : SystemManager) : Z := process_core_count instance.
End SystemManager.

(** * Properties *)
Section queue_receive.
Implicit Types (q : MessageQueue) (l : list Z).

(** Both receives take the oldest message of a queue that is not empty. *)
Lemma ReceiveMessage_pending wait fuel q x l :
  abs q (x :: l) -> m_message_cs q = false ->
  exists q', ReceiveMessage wait fuel q = Ok (x, q') /\ TryReceiveMessage q = Ok (Some x, q') /\
    abs q' l /\ m_message_cs q' = false.
Proof.
  intros Ha Hl. pose proof (abs_set_cs q _ true Ha) as Ha1. pose proof (abs_pending _ _ Ha1) as Hp.
  destruct (RecieveMessageImpl_run (set_cs true q) x l Ha1) as (q' & E & Ha' & _).
  exists (set_cs false q'). split; [|split; [|split; [by apply abs_set_cs|done]]].
  - apply queue_locked_run; [done|].
    by rewrite (M_bind_run _ _ _ _ _ (WaitForMessage_pending wait fuel (set_cs true q) ltac:(rewrite Hp; cbn; lia))).
  - apply queue_locked_run; [done|]. unfold gets. unfold mbind at 1, M_bind at 1. rewrite Hp.
    destruct (Z.eqb_spec (Z.of_nat (length (x :: l))) 0); [cbn in *; lia|].
    by rewrite (M_bind_run _ _ _ _ _ E).
Qed.

Lemma TryReceiveMessage_empty q : abs q [] -> m_message_cs q = false -> TryReceiveMessage q = Ok (None, q).
Proof.
  intros Ha Hl. assert (set_cs false (set_cs true q) = q) as Es by (destruct q; cbn in *; by subst).
  rewrite <- Es at 2. apply queue_locked_run; [done|]. unfold gets. unfold mbind at 1, M_bind at 1.
  by rewrite (abs_pending _ _ (abs_set_cs q _ true Ha)).
Qed.
End queue_receive.

Section thread_run.
Context {W : Type} (ThreadCalc : Z -> M (MessageQueue * W) unit) (wait : M MessageQueue unit).
Context (f : Z -> W -> W).
Context (calc_run : forall m q w, ThreadCalc m (q, w) = Ok (tt, (q, f m w))).
Import ThreadBase.
Implicit Types (q : MessageQueue) (l : list Z) (w : W).

(** The work of a list of messages. *)
Definition work l w : W := foldl (fun w m => f m w) w l.

Lemma on_queue_run {A} (m : M MessageQueue A) q w a q' :
  m q = Ok (a, q') -> on_queue m (q, w) = Ok (a, (q', w)).
Proof. intros E. unfold on_queue. by rewrite E. Qed.

Lemma Run_loop_messages wait_fuel t rest l q w current fuel :
  abs q (l ++ m_exit_message t :: rest) -> m_message_cs q = false ->
  m_exit_message t ∉ current :: l -> (length l + 1 <= fuel)%nat ->
  exists q', abs q' rest /\ m_message_cs q' = false /\
    Run_loop ThreadCalc wait fuel wait_fuel t current (q, w) = Ok (tt, (q', work (current :: l) w)).
Proof.
  revert q w current fuel. induction l as [|x l IH]; intros q w current fuel Ha Hl Hx Hfuel;
    (destruct fuel as [|fuel]; [cbn in Hfuel; lia|]); apply not_elem_of_cons in Hx as [Hx Hl'].
  - destruct (ReceiveMessage_pending wait wait_fuel q _ _ Ha Hl) as (q' & Er & Et & Ha' & Hl'').
    exists q'. split; [done|]. split; [done|]. cbn [Run_loop].
    destruct (Z.eqb_spec current (m_exit_message t)); [congruence|].
    rewrite (M_bind_run _ _ _ _ _ (calc_run current q w)).
    rewrite (M_bind_run _ _ _ (m_exit_message t) (q', f current w)).
    + destruct fuel; cbn [Run_loop]; by rewrite Z.eqb_refl.
    + destruct (m_run_mode t); [by apply on_queue_run|]. by rewrite (M_bind_run _ _ _ _ _ (on_queue_run _ _ _ _ _ Et)).
  - destruct (ReceiveMessage_pending wait wait_fuel q _ _ Ha Hl) as (q1 & Er & Et & Ha1 & Hl1).
    destruct (IH q1 (f current w) x fuel Ha1 Hl1 Hl' ltac:(cbn in Hfuel; lia)) as (q' & Ha' & Hl2 & E).
    exists q'. split; [done|]. split; [done|]. cbn [Run_loop].
    destruct (Z.eqb_spec current (m_exit_message t)); [congruence|].
    rewrite (M_bind_run _ _ _ _ _ (calc_run current q w)).
    rewrite (M_bind_run _ _ _ x (q1, f current w)); [exact E|].
    destruct (m_run_mode t); [by apply on_queue_run|]. by rewrite (M_bind_run _ _ _ _ _ (on_queue_run _ _ _ _ _ Et)).
Qed.

(** [C35] ThreadBase::Run calls ThreadCalc once for each message before the exit message, in
    order, then returns and leaves the later messages in the queue.  A looping thread makes
    one call with the message -1 before; with exit message 0 it returns as soon as it finds
    the queue empty, since an empty queue counts as the message 0. *)
Theorem thread_run_messages t q w l rest fuel wait_fuel :
  abs q (l ++ m_exit_message t :: rest) -> m_message_cs q = false -> m_exit_message t ∉ l ->
  (length l + 1 <= fuel)%nat ->
  match m_run_mode t with
  | ThreadRunMode_WaitForMessage => exists q', abs q' rest /\
      Run ThreadCalc wait fuel wait_fuel t (q, w) = Ok (tt, (q', work l w))
  | ThreadRunMode_Looping => m_exit_message t <> u64 (-1) ->
      (exists q', abs q' rest /\
        Run ThreadCalc wait fuel wait_fuel t (q, w) = Ok (tt, (q', work (u64 (-1) :: l) w))) /\
      (m_exit_message t = 0 -> forall q0, abs q0 [] -> m_message_cs q0 = false ->
        Run ThreadCalc wait fuel wait_fuel t (q0, w) = Ok (tt, (q0, f (u64 (-1)) w)))
  end.
Proof.
  intros Ha Hl Hx Hfuel. destruct (m_run_mode t) eqn:Em.
  - destruct l as [|x l].
    + destruct (ReceiveMessage_pending wait wait_fuel q _ _ Ha Hl) as (q' & Er & _ & Ha' & _).
      exists q'. split; [done|]. unfold Run. rewrite Em. rewrite (M_bind_run _ _ _ _ _ (on_queue_run _ _ _ _ _ Er)).
      destruct fuel; cbn [Run_loop]; by rewrite Z.eqb_refl.
    + destruct (ReceiveMessage_pending wait wait_fuel q _ _ Ha Hl) as (q1 & Er & _ & Ha1 & Hl1).
      destruct (Run_loop_messages wait_fuel t rest l q1 w x fuel Ha1 Hl1 Hx ltac:(cbn in Hfuel; lia))
        as (q' & Ha' & _ & E).
      exists q'. split; [done|]. unfold Run. rewrite Em.
      by rewrite (M_bind_run _ _ _ _ _ (on_queue_run _ _ _ _ _ Er)).
  - intros Hne. split.
    + destruct (Run_loop_messages wait_fuel t rest l q w (u64 (-1)) fuel Ha Hl) as (q' & Ha' & _ & E);
        [set_solver|done|].
      exists q'. split; [done|]. unfold Run. by rewrite Em.
    + intros H0 q0 Ha0 Hl0. unfold Run. rewrite Em, M_ret_bind.
      destruct fuel as [|fuel]; [lia|]. cbn [Run_loop].
      destruct (Z.eqb_spec (u64 (-1)) (m_exit_message t)); [congruence|].
      rewrite (M_bind_run _ _ _ _ _ (calc_run (u64 (-1)) q0 w)), Em.
      rewrite (M_bind_run _ _ _ 0 (q0, f (u64 (-1)) w)).
      * destruct fuel; cbn [Run_loop]; by rewrite H0.
      * by rewrite (M_bind_run _ _ _ _ _ (on_queue_run _ _ _ _ _ (TryReceiveMessage_empty q0 Ha0 Hl0))).
Qed.

End thread_run.

Section thread_manager.
Context {W : Type}.
Import ThreadManager.
Implicit Types (s : State W) (t : Z).

Lemma with_list_mutex_run {A} (body : M (State W) A) s r s' :
  m_list_mutex s = false -> body (set_list_mutex true s) = Ok (r, s') ->
  with_list_mutex body s = Ok (r, set_list_mutex false s').
Proof.
  intros Hm Hb. unfold with_list_mutex, gets, modify. unfold mbind at 1, M_bind at 1. rewrite Hm.
  unfold mbind at 1, M_bind at 1. by rewrite (M_bind_run _ _ _ _ _ Hb).
Qed.

Lemma with_list_mutex_fault {A} (body : M (State W) A) s e :
  m_list_mutex s = false -> body (set_list_mutex true s) = Fault e -> with_list_mutex body s = Fault e.
Proof.
  intros Hm Hb. unfold with_list_mutex, gets, modify. unfold mbind at 1, M_bind at 1. rewrite Hm.
  unfold mbind at 1, M_bind at 1. by apply M_bind_fault.
Qed.

(** Threads join the manager's list at its end.  The destructor with a single thread in
    the list waits for it and then runs past the end of the list: the loop that removes the
    threads unlinks the one it stands on, and takes the list head for the next one. *)
Theorem thread_manager_destructor s t fuel (WaitForThreadExit : Z -> M (State W) unit) freed :
  is_list (list_nodes s) ThreadHead [] -> m_list_mutex s = false ->
  unlinked (list_nodes s) (ThreadNode t) ->
  (forall u s', WaitForThreadExit u s' = Ok (tt, s')) ->
  exists s1, PushBackThreadSafe t s = Ok (tt, s1) /\ is_list (list_nodes s1) ThreadHead [ThreadNode t] /\
    destroy (S (S fuel)) WaitForThreadExit freed s1 = Fault BadContainer.
Proof.
  intros Hlist Hm Hu Hwait.
  set (s1 := set_list_mutex false (set_nodes (PushBack ThreadHead (ThreadNode t) (list_nodes s)) (set_list_mutex true s))).
  assert (is_list (list_nodes s1) ThreadHead [ThreadNode t]) as Hl1.
  { apply (PushBack_nodes (list_nodes s) ThreadHead [] (ThreadNode t)); [done|done|set_solver]. }
  exists s1. split; [|split; [done|]].
  - unfold PushBackThreadSafe. by apply (with_list_mutex_run _ s).
  - unfold destroy. apply M_bind_fault, with_list_mutex_fault; [done|].
    set (s2 := set_list_mutex true s1).
    rewrite (M_bind_run _ _ _ None s2).
    + apply M_bind_fault. set (s3 := set_nodes (Unlink (ThreadNode t) (list_nodes s1)) s2).
      apply (for_each_runs_past _ fuel ThreadHead (ThreadNode t) s2 s3); [done|done| |done|done].
      by apply (Unlink_nodes _ ThreadHead [] (ThreadNode t) []).
    + apply (for_each_none _ _ _ [ThreadNode t]); [done|cbn; lia|].
      intros y ->%list_elem_of_singleton. cbn [parent]. rewrite M_ret_bind.
      by rewrite (M_bind_run _ _ _ _ _ (Hwait t s2)).
Qed.

(** The main thread is not recognised as such: InitializeUKern leaves the user_arg of
    the main fiber null, so GetCurrentThread answers a null pointer there and IsMainThread
    compares it with the address of the main thread object. *)
Theorem main_thread_unknown mask memory pool (u : UserScheduler) s (main_thread : Z) :
  FixedObjectAllocator.construct MaxThreadCount = Ok pool -> CountOneBits64 mask <= 32 ->
  Scheduler_Initialize mask (SchedulerInstance pool memory) = Ok (tt, u) -> main_thread <> 0 ->
  GetCurrentThread (Some (storage u 0)) s = Ok (0, s) /\
  IsMainThread (W := W) main_thread (Some (storage u 0)) s = Ok (false, s).
Proof.
  intros Hpool Hc E Hm. pose proof (Initialize_run mask memory pool Hpool) as Hi. cbv zeta in Hi.
  rewrite decide_True in Hi by done. destruct Hi as (s' & c & E' & _ & _ & _ & _ & _ & Est & _).
  assert (s' = u) as -> by congruence.
  assert (user_arg (storage u 0) = 0) as Ea by (by rewrite Est).
  clear - Ea Hm. unfold IsMainThread, GetCurrentThread. rewrite Ea, M_ret_bind.
  by destruct (Z.eqb_spec 0 main_thread); [congruence|].
Qed.
End thread_manager.

Definition example_main : ThreadManager.State unit :=
  ThreadManager.mkState ∅ false None 0 0 tt.

Lemma thread_manager_destructor_witness : exists s1,
  ThreadManager.PushBackThreadSafe 7 example_main = Ok (tt, s1) /\
  ThreadManager.destroy 4 (fun _ => mret tt) true s1 = Fault BadContainer.
Proof.
  destruct (thread_manager_destructor example_main 7 2 (fun _ => mret tt) true) as (s1 & E1 & _ & E2).
  - split; [apply NoDup_singleton|]. split; reflexivity.
  - reflexivity.
  - split; [apply NoDup_singleton|]. split; reflexivity.
  - reflexivity.
  - exists s1. split; [exact E1|exact E2].
Defined.

(** A queue that holds the messages 5, 6 and the exit message 9, and what a thread does with
    a message: it adds it to a sum. *)
Definition example_thread : ThreadBase.ThreadBase := ThreadBase.mkThreadBase 0 0 9 4096 0 0 ThreadRunMode_WaitForMessage.
Definition add_message (m : Z) : M (MessageQueue * Z) unit := modify (fun '(q, w) => (q, w + m)).

Lemma thread_run_messages_witness : exists q',
  ThreadBase.Run add_message (mret tt) 3 1 example_thread
    (mkQueue (Some [5; 6; 9; 0]) 4 3 0 false 0 0, 0) = Ok (tt, (q', 11)) /\ abs q' [].
Proof.
  destruct (thread_run_messages add_message (mret tt) (fun m w => w + m) ltac:(reflexivity) example_thread
    (mkQueue (Some [5; 6; 9; 0]) 4 3 0 false 0 0) 0 [5; 6] [] 3 1) as (q' & Ha & E).
  - split; cbn; try lia. eexists. split; [reflexivity|]. split; [reflexivity|].
    intros [|[|[|i]]] x Hx; cbn in Hx; by inversion Hx.
  - reflexivity.
  - apply (bool_decide_unpack _). vm_compute. exact I.
  - cbn. lia.
  - exists q'. split; [exact E|exact Ha].
Defined.

Lemma main_thread_unknown_witness : exists pool u,
  FixedObjectAllocator.construct MaxThreadCount = Ok pool /\
  Scheduler_Initialize 3 (SchedulerInstance pool ∅) = Ok (tt, u) /\
  ThreadManager.IsMainThread 4096 (Some (storage u 0)) example_main = Ok (false, example_main).
Proof.
  destruct (FixedObjectAllocator_construct (T := unit) MaxThreadCount ltac:(unfold MaxThreadCount; lia))
    as (pool & Epool & _).
  pose proof (Initialize_run 3 ∅ pool Epool) as Hi. cbv zeta in Hi.
  change (CountOneBits64 3) with 2 in Hi. rewrite decide_True in Hi by lia.
  destruct Hi as (u & c & E & _).
  exists pool, u. split; [exact Epool|]. split; [exact E|].
  apply (main_thread_unknown 3 ∅ pool u example_main 4096 Epool); [|exact E|discriminate].
  vm_compute. discriminate.
Defined.
