(* ===== verification/TreeNode.v ===== *)
(** util::IntrusiveTreeNode (util_intrusivetreenode.hpp): trees of nodes with pointers to the
    parent, the first child and the siblings.

    The nodes are a store by address; one that the store does not hold is a node as its
    constructor leaves it.  The children of a node are linked forwards by m_sibling_next
    up to null and backwards by m_sibling_prev, where the first child points to the last.
    [forest s K par]: the links of [s] are the children lists [K] and the parents [par]. *)
From stdpp Require Import functions.
From S2P Require Import Prelude ListFamily.

Record IntrusiveTreeNode (A : Type) : Type := mkTreeNode {
  m_parent : option A;
  m_child : option A;
  m_sibling_next : option A;
  m_sibling_prev : option A
}.
Arguments mkTreeNode {A} _ _ _ _.
Arguments m_parent {A} _.
Arguments m_child {A} _.
Arguments m_sibling_next {A} _.
Arguments m_sibling_prev {A} _.

Section definitions.
Context {A : Type} `{Countable A}.
Local Abbreviation Store := (gmap A (IntrusiveTreeNode A)).
Implicit Types (s : Store) (n this : A) (x : option A).

(** IntrusiveTreeNode() and Clear(). *)
Definition empty_node : IntrusiveTreeNode A := mkTreeNode None None None None.
Definition tree_node s n : IntrusiveTreeNode A := default empty_node (s !! n).
Definition parent s n : option A := m_parent (tree_node s n).
Definition child s n : option A := m_child (tree_node s n).
Definition sibling_next s n : option A := m_sibling_next (tree_node s n).
Definition sibling_prev s n : option A := m_sibling_prev (tree_node s n).

Definition set_parent n x s : Store := <[n := mkTreeNode x (child s n) (sibling_next s n) (sibling_prev s n)]> s.
Definition set_child n x s : Store := <[n := mkTreeNode (parent s n) x (sibling_next s n) (sibling_prev s n)]> s.
Definition set_sibling_next n x s : Store := <[n := mkTreeNode (parent s n) (child s n) x (sibling_prev s n)]> s.
Definition set_sibling_prev n x s : Store := <[n := mkTreeNode (parent s n) (child s n) (sibling_next s n) x]> s.

Definition Clear this : M Store unit := modify (<[this := empty_node]>).

Definition DetachSubTree this : M Store unit :=
  iter ← gets (fun s => parent s this);
  first ← gets (fun s => match iter with None => false | Some p => bool_decide (child s p = Some this) end);
  (if negb first then
     iter ← gets (fun s => sibling_prev s this);
     (match iter with
      | Some iter => modify (fun s => set_sibling_next iter (sibling_next s this) s)
      | None => mret tt
      end);;
     iter ← gets (fun s => sibling_next s this);
     match iter with
     | None =>
         p ← gets (fun s => parent s this);
         match p with
         | Some p =>
             c ← gets (fun s => child s p);
             c ← deref c;
             modify (fun s => set_sibling_prev c (sibling_prev s this) s)
         | None => mret tt
         end
     | Some iter =>
         modify (fun s => set_sibling_prev iter (sibling_prev s this) s);;
         modify (set_sibling_next this None)
     end
   else
     p ← deref iter;
     modify (fun s => set_child p (sibling_next s this) s);;
     iter ← gets (fun s => sibling_next s this);
     match iter with
     | Some iter =>
         modify (fun s => set_sibling_prev iter (sibling_prev s this) s);;
         modify (set_sibling_next this None)
     | None => mret tt
     end);;
  modify (set_sibling_prev this None);;
  modify (set_parent this None).

(** The while loop of ClearChildrenRecursive: [iter] walks the siblings, the body clears m_child. *)
Definition clear_loop (clear_children : A -> M Store unit) this : nat -> option A -> M Store unit :=
  fix loop (turns : nat) (iter : option A) : M Store unit :=
    match iter with
    | None => mret tt
    | Some i =>
        match turns with
        | O => throw OutOfFuel
        | S turns =>
            iter ← gets (fun s => sibling_next s i);
            c ← gets (fun s => child s this);
            c ← deref c;
            clear_children c;;
            Clear c;;
            loop turns iter
        end
    end.

(** The recursion and its loops; [fuel] bounds the depth and the number of children. *)
Fixpoint ClearChildrenRecursive (fuel : nat) this : M Store unit :=
  match fuel with
  | O => throw OutOfFuel
  | S fuel =>
      iter ← gets (fun s => child s this);
      clear_loop (ClearChildrenRecursive fuel) this fuel iter
  end.

Definition DetachAll (fuel : nat) this : M Store unit :=
  DetachSubTree this;;
  ClearChildrenRecursive fuel this;;
  Clear this.

(** The first child of a node that has none. *)
Definition push_only_child this new_child : M Store unit :=
  modify (set_child this (Some new_child));;
  modify (set_parent new_child (Some this));;
  modify (set_sibling_prev new_child (Some new_child)).

Definition PushBackChild this new_child : M Store unit :=
  DetachSubTree new_child;;
  c ← gets (fun s => child s this);
  match c with
  | None => push_only_child this new_child
  | Some c =>
      sibling_end ← gets (fun s => sibling_prev s c);
      sibling_end ← deref sibling_end;
      modify (set_sibling_next sibling_end (Some new_child));;
      modify (set_sibling_prev new_child (Some sibling_end));;
      modify (fun s => set_parent new_child (parent s sibling_end) s);;
      c ← gets (fun s => child s this);
      c ← deref c;
      modify (set_sibling_prev c (Some new_child))
  end.

Definition PushFrontChild this new_child : M Store unit :=
  DetachSubTree new_child;;
  c ← gets (fun s => child s this);
  match c with
  | None => push_only_child this new_child
  | Some c =>
      modify (set_sibling_next new_child (Some c));;
      modify (fun s => set_sibling_prev new_child (sibling_prev s c) s);;
      modify (set_sibling_prev c (Some new_child));;
      modify (set_child this (Some new_child));;
      modify (set_parent new_child (Some this))
  end.

(** The walk to the last sibling. *)
Fixpoint sibling_list_end (fuel : nat) n : M Store A :=
  nx ← gets (fun s => sibling_next s n);
  match nx with
  | None => mret n
  | Some nx => match fuel with O => throw OutOfFuel | S fuel => sibling_list_end fuel nx end
  end.

Definition PushBackSibling (fuel : nat) this new_sibling : M Store unit :=
  DetachSubTree new_sibling;;
  p ← gets (fun s => parent s this);
  c ← gets (fun s => match p with None => None | Some p => child s p end);
  list_end ← (match c with
    | Some c =>
        list_end ← gets (fun s => sibling_prev s c);
        modify (set_sibling_prev c (Some new_sibling));;
        mret list_end
    | None => e ← sibling_list_end fuel this; mret (Some e)
    end);
  list_end ← deref list_end;
  modify (set_sibling_next list_end (Some new_sibling));;
  modify (set_sibling_prev new_sibling (Some list_end));;
  modify (fun s => set_parent new_sibling (parent s list_end) s).

Fixpoint FindRoot (fuel : nat) this : M Store A :=
  p ← gets (fun s => parent s this);
  match p with
  | None => mret this
  | Some p => match fuel with O => throw OutOfFuel | S fuel => FindRoot fuel p end
  end.
End definitions.

(** * Neighbours in a list *)
Section neighbours.
Context {A : Type} `{EqDecision A}.
Implicit Types (l : list A) (x y : A).

Fixpoint next_of x l : option A :=
  match l with
  | [] => None
  | y :: l => if decide (y = x) then head l else next_of x l
  end.
Definition pred_of x l : option A := next_of x (reverse l).
(** What m_sibling_prev holds: the predecessor, for the first the last. *)
Definition prev_of x l : option A := match pred_of x l with Some y => Some y | None => last l end.

Lemma next_of_mid l1 x l2 : x ∉ l1 -> next_of x (l1 ++ x :: l2) = head l2.
Proof.
  induction l1 as [|y l1 IH]; intros Hx; cbn; [by rewrite decide_True|].
  apply not_elem_of_cons in Hx as [Hne Hx]. rewrite decide_False by done. by apply IH.
Qed.

Lemma next_of_delete l1 x l2 y :
  NoDup (l1 ++ x :: l2) -> y <> x ->
  next_of y (l1 ++ l2) = if decide (last l1 = Some y) then head l2 else next_of y (l1 ++ x :: l2).
Proof.
  intros Hnd Hy. induction l1 as [|z l1 IH].
  - cbn. by repeat case_decide; congruence.
  - cbn in Hnd. apply NoDup_cons in Hnd as [Hz Hnd]. specialize (IH Hnd). cbn.
    destruct (decide (z = y)) as [->|Hne].
    + destruct l1 as [|w l1]; cbn; [by rewrite decide_True|].
      rewrite decide_False; [done|]. intros E. apply Hz. apply elem_of_app. left.
      apply last_Some in E as (l' & ->). apply elem_of_app. right. by left.
    + rewrite IH. destruct l1 as [|w l1].
      * cbn. repeat case_decide; congruence.
      * done.
Qed.

Lemma pred_of_mid l1 x l2 : x ∉ l2 -> pred_of x (l1 ++ x :: l2) = last l1.
Proof.
  intros Hx. unfold pred_of. rewrite reverse_app, reverse_cons, <- app_assoc. cbn.
  rewrite next_of_mid; [apply head_reverse|]. by rewrite elem_of_reverse.
Qed.

Lemma pred_of_delete l1 x l2 y :
  NoDup (l1 ++ x :: l2) -> y <> x ->
  pred_of y (l1 ++ l2) = if decide (head l2 = Some y) then last l1 else pred_of y (l1 ++ x :: l2).
Proof.
  intros Hnd Hy. unfold pred_of. rewrite !reverse_app, reverse_cons, <- app_assoc. cbn.
  rewrite (next_of_delete (reverse l2) x (reverse l1) y); [by rewrite last_reverse, head_reverse| |done].
  assert (reverse l2 ++ x :: reverse l1 = reverse (l1 ++ x :: l2)) as ->.
  { by rewrite reverse_app, reverse_cons, <- app_assoc. }
  by rewrite reverse_Permutation.
Qed.

Lemma next_of_None x l : x ∉ l -> next_of x l = None.
Proof.
  induction l as [|y l IH]; intros Hx; [done|]. apply not_elem_of_cons in Hx as [? ?]. cbn.
  rewrite decide_False by done. by apply IH.
Qed.

(** Only the first element has no predecessor. *)
Lemma pred_of_first l y : NoDup l -> y ∈ l -> pred_of y l = None -> head l = Some y.
Proof.
  intros Hnd Hy E. apply list_elem_of_split in Hy as (l1 & l2 & ->).
  apply NoDup_app in Hnd as (_ & _ & Hnd). apply NoDup_cons in Hnd as [Hy _].
  rewrite pred_of_mid in E by done. apply last_None in E as ->. done.
Qed.

Lemma prev_of_mid l1 x l2 : x ∉ l2 -> prev_of x (l1 ++ x :: l2) =
  match last l1 with Some y => Some y | None => last (x :: l2) end.
Proof. intros Hx. unfold prev_of. rewrite pred_of_mid by done. by destruct l1 using rev_ind; rewrite ?last_snoc. Qed.

Lemma next_of_snoc l c y : NoDup (l ++ [c]) -> y <> c ->
  next_of y (l ++ [c]) = if decide (last l = Some y) then Some c else next_of y l.
Proof.
  intros Hnd Hy. pose proof (next_of_delete l c [] y Hnd Hy) as E. rewrite app_nil_r in E. cbn in E.
  case_decide as Hl; [|done].
  apply last_Some in Hl as (l' & ->). rewrite <- app_assoc. cbn. apply next_of_mid.
  rewrite <- app_assoc in Hnd. apply NoDup_app in Hnd as (_ & Hd & _). intros Hin. apply (Hd y Hin). by left.
Qed.

Lemma prev_of_snoc l c y : NoDup (l ++ [c]) -> y ∈ l ->
  prev_of y (l ++ [c]) = if decide (head l = Some y) then Some c else prev_of y l.
Proof.
  intros Hnd Hy. assert (NoDup l) as Hl by (by apply NoDup_app in Hnd as (? & _)).
  assert (y <> c) as Hyc by (intros ->; apply NoDup_app in Hnd as (_ & Hd & _); by apply (Hd c Hy), list_elem_of_singleton).
  pose proof (pred_of_delete l c [] y Hnd Hyc) as E. rewrite app_nil_r, decide_False in E by done.
  unfold prev_of. rewrite <- E, last_snoc. destruct (pred_of y l) as [z|] eqn:Ep.
  - case_decide as Hh; [|done]. destruct l as [|x l]; [done|]. injection Hh as ->.
    apply NoDup_cons in Hl as [Hx _]. change (y :: l) with ([] ++ y :: l) in Ep. by rewrite pred_of_mid in Ep.
  - by rewrite decide_True by (by apply pred_of_first).
Qed.

Lemma prev_of_cons l c y : NoDup (c :: l) -> y ∈ l ->
  prev_of y (c :: l) = if decide (head l = Some y) then Some c else prev_of y l.
Proof.
  intros Hnd Hy. apply NoDup_cons in Hnd as Hnd'. destruct Hnd' as [Hc Hl].
  assert (y <> c) as Hyc by congruence.
  pose proof (pred_of_delete [] c l y Hnd Hyc) as E. cbn in E. unfold prev_of.
  apply list_elem_of_split in Hy as (l1 & l2 & ->). apply NoDup_app in Hl as (_ & Hd & Hl2).
  apply NoDup_cons in Hl2 as [Hy2 _].
  rewrite (pred_of_mid l1 y l2) by done. rewrite app_comm_cons, pred_of_mid by done.
  destruct l1 as [|x l1]; cbn [app head]; [by rewrite decide_True|].
  destruct (last_is_Some (x :: l1)) as [_ Hls]. destruct Hls as [z Ez]; [done|].
  rewrite last_cons, Ez, decide_False; [done|]. intros [= ->]. apply (Hd y); by left.
Qed.
End neighbours.

(** * Fields after updates *)
Section fields.
Context {A : Type} `{Countable A}.
Local Abbreviation Store := (gmap A (IntrusiveTreeNode A)).
Implicit Types (s : Store) (n m : A) (x : option A).

Lemma tree_node_insert s n v m : tree_node (<[n := v]> s) m = if decide (n = m) then v else tree_node s m.
Proof. unfold tree_node. rewrite lookup_insert. by case_decide. Qed.

Ltac field := unfold parent, child, sibling_next, sibling_prev, set_parent, set_child, set_sibling_next,
  set_sibling_prev; rewrite tree_node_insert; case_decide; by subst.

Lemma parent_set_parent n x s m : parent (set_parent n x s) m = if decide (n = m) then x else parent s m.
Proof. field. Qed.
Lemma parent_set_child n x s m : parent (set_child n x s) m = parent s m.
Proof. field. Qed.
Lemma parent_set_next n x s m : parent (set_sibling_next n x s) m = parent s m.
Proof. field. Qed.
Lemma parent_set_prev n x s m : parent (set_sibling_prev n x s) m = parent s m.
Proof. field. Qed.
Lemma child_set_parent n x s m : child (set_parent n x s) m = child s m.
Proof. field. Qed.
Lemma child_set_child n x s m : child (set_child n x s) m = if decide (n = m) then x else child s m.
Proof. field. Qed.
Lemma child_set_next n x s m : child (set_sibling_next n x s) m = child s m.
Proof. field. Qed.
Lemma child_set_prev n x s m : child (set_sibling_prev n x s) m = child s m.
Proof. field. Qed.
Lemma next_set_parent n x s m : sibling_next (set_parent n x s) m = sibling_next s m.
Proof. field. Qed.
Lemma next_set_child n x s m : sibling_next (set_child n x s) m = sibling_next s m.
Proof. field. Qed.
Lemma next_set_next' n x s m : sibling_next (set_sibling_next n x s) m = if decide (n = m) then x else sibling_next s m.
Proof. field. Qed.
Lemma next_set_prev' n x s m : sibling_next (set_sibling_prev n x s) m = sibling_next s m.
Proof. field. Qed.
Lemma prev_set_parent n x s m : sibling_prev (set_parent n x s) m = sibling_prev s m.
Proof. field. Qed.
Lemma prev_set_child n x s m : sibling_prev (set_child n x s) m = sibling_prev s m.
Proof. field. Qed.
Lemma prev_set_next' n x s m : sibling_prev (set_sibling_next n x s) m = sibling_prev s m.
Proof. field. Qed.
Lemma prev_set_prev' n x s m : sibling_prev (set_sibling_prev n x s) m = if decide (n = m) then x else sibling_prev s m.
Proof. field. Qed.
End fields.

Create Rewrite HintDb tree.
#[export] Hint Rewrite @parent_set_parent @parent_set_child @parent_set_next @parent_set_prev
  @child_set_parent @child_set_child @child_set_next @child_set_prev
  @next_set_parent @next_set_child @next_set_next' @next_set_prev'
  @prev_set_parent @prev_set_child @prev_set_next' @prev_set_prev' : tree.

(** Reads of updated nodes. *)
Ltac tree := autorewrite with tree in *.

(** * Forests *)
Section forest.
Context {A : Type} `{Countable A}.
Local Abbreviation Store := (gmap A (IntrusiveTreeNode A)).
Implicit Types (s : Store) (n m p : A) (K : A -> list A) (par : A -> option A).

Record forest s K par : Prop := {
  f_par : forall n p, par n = Some p <-> n ∈ K p;
  f_nodup : forall p, NoDup (K p);
  f_parent : forall n, parent s n = par n;
  f_child : forall n, child s n = head (K n);
  f_next : forall n, sibling_next s n = par n ≫= fun p => next_of n (K p);
  f_prev : forall n, sibling_prev s n = par n ≫= fun p => prev_of n (K p)
}.

(** The forest with the subtree of [n] on its own. *)
Definition pruned n par : A -> option A := fun x => if decide (x = n) then None else par x.

Lemma forest_pruned_par s K par n m p :
  forest s K par -> pruned n par m = Some p <-> m ∈ without n K p.
Proof.
  intros HF. unfold pruned. rewrite without_elem. case_decide.
  - split; [done|]. by intros [? _].
  - rewrite (f_par _ _ _ HF). tauto.
Qed.

Lemma forest_ext s s' K par :
  (forall n, parent s' n = parent s n /\ child s' n = child s n /\
    sibling_next s' n = sibling_next s n /\ sibling_prev s' n = sibling_prev s n) ->
  forest s K par -> forest s' K par.
Proof.
  intros E HF. split; try apply HF; intros n; destruct (E n) as (E1 & E2 & E3 & E4);
    rewrite ?E1, ?E2, ?E3, ?E4; apply HF.
Qed.

(** Where [n] stands among its siblings, from its fields. *)
Lemma forest_split s K par n p :
  forest s K par -> par n = Some p ->
  exists l1 l2, K p = l1 ++ n :: l2 /\ (n ∉ l1) /\ (n ∉ l2) /\ parent s n = Some p /\
    child s p = head (l1 ++ n :: l2) /\ sibling_next s n = head l2 /\
    sibling_prev s n = match last l1 with Some y => Some y | None => last (n :: l2) end /\
    without n K p = l1 ++ l2.
Proof.
  intros HF Hp. pose proof (f_nodup _ _ _ HF p) as Hnd.
  pose proof Hp as Hin%(f_par _ _ _ HF). apply list_elem_of_split in Hin as (l1 & l2 & E).
  exists l1, l2. pose proof (without_split n K p l1 l2 Hnd E) as Ew. rewrite E in Hnd.
  pose proof Hnd as Hnd'. apply NoDup_app in Hnd' as (_ & Hd & Hnd').
  apply NoDup_cons in Hnd' as [Hn2 _].
  assert (n ∉ l1) as Hn1 by (intros Hin; apply (Hd n Hin); by left).
  split; [done|]. split; [done|]. split; [done|].
  rewrite (f_parent _ _ _ HF), (f_child _ _ _ HF), (f_next _ _ _ HF), (f_prev _ _ _ HF), Hp. cbn. rewrite E.
  rewrite next_of_mid, prev_of_mid by done. done.
Qed.

(** The fields of the other nodes in the pruned forest. *)
Lemma pruned_next s K par n p l1 l2 m :
  forest s K par -> K p = l1 ++ n :: l2 -> par n = Some p -> m <> n ->
  (pruned n par m ≫= fun q => next_of m (without n K q)) =
    if decide (last l1 = Some m) then head l2 else sibling_next s m.
Proof.
  intros HF E Hp Hm. pose proof (f_nodup _ _ _ HF p) as Hnd.
  unfold pruned. rewrite decide_False by done. rewrite (f_next _ _ _ HF).
  destruct (par m) as [q|] eqn:Eq; cbn.
  - destruct (decide (q = p)) as [->|Hq].
    + rewrite (without_split n K p l1 l2), E by done. rewrite E in Hnd. by apply next_of_delete.
    + rewrite without_same, decide_False; [done| |].
      * intros Hl. assert (par m = Some p); [|congruence]. apply (f_par _ _ _ HF). rewrite E.
        apply last_Some in Hl as (l' & ->). set_solver.
      * intros Hin%(f_par _ _ _ HF). congruence.
  - rewrite decide_False; [done|]. intros Hl. assert (par m = Some p); [|congruence].
    apply (f_par _ _ _ HF). rewrite E. apply last_Some in Hl as (l' & ->). set_solver.
Qed.

Lemma pruned_prev s K par n p l1 l2 m :
  forest s K par -> K p = l1 ++ n :: l2 -> par n = Some p -> m <> n ->
  (pruned n par m ≫= fun q => prev_of m (without n K q)) =
    if decide (head l2 = Some m) then (match last l1 with Some y => Some y | None => last l2 end)
    else if decide (head l1 = Some m) then (match last l2 with Some y => Some y | None => last l1 end)
    else sibling_prev s m.
Proof.
  intros HF E Hp Hm. pose proof (f_nodup _ _ _ HF p) as Hnd.
  assert (forall l x, x ∈ l -> l ⊆ K p -> par x = Some p) as Hin.
  { intros l x Hx Hl. apply (f_par _ _ _ HF). by apply Hl. }
  unfold pruned. rewrite decide_False by done. rewrite (f_prev _ _ _ HF).
  destruct (decide (par m = Some p)) as [Eq|Eq].
  - rewrite Eq. cbn. rewrite (without_split n K p l1 l2), E by done. rewrite E in Hnd.
    unfold prev_of. rewrite (pred_of_delete l1 n l2 m) by done. case_decide as Hh.
    + rewrite last_app. destruct (last l1) as [y|]; [done|]. by destruct (last l2).
    + destruct (pred_of m (l1 ++ n :: l2)) as [y|] eqn:Ep.
      * case_decide as Hh1; [|done]. exfalso. destruct l1 as [|z l1]; [done|]. cbn in Hh1. injection Hh1 as ->.
        change ((m :: l1) ++ n :: l2) with ([] ++ m :: (l1 ++ n :: l2)) in Ep, Hnd. cbn in Hnd.
        apply NoDup_cons in Hnd as [Hm1 _]. by rewrite pred_of_mid in Ep.
      * apply pred_of_first in Ep; [|done|].
        -- destruct l1 as [|z l1]; [cbn in Ep; congruence|]. cbn in Ep. injection Ep as ->.
           rewrite decide_True by done. rewrite last_app. done.
        -- rewrite <- E. by apply (f_par _ _ _ HF).
  - rewrite !decide_False.
    + destruct (par m) as [q|] eqn:Eq'; [|done]. cbn. rewrite without_same; [done|].
      intros Hn%(f_par _ _ _ HF). congruence.
    + intros Hh. apply Eq, (Hin l1); [destruct l1; [done|injection Hh as ->; by left]|].
      rewrite E. set_solver.
    + intros Hh. apply Eq, (Hin l2); [destruct l2; [done|injection Hh as ->; by left]|].
      rewrite E. set_solver.
Qed.

Lemma pruned_child s K par n p l1 l2 m :
  forest s K par -> K p = l1 ++ n :: l2 -> par n = Some p ->
  head (without n K m) = if decide (m = p) then head (l1 ++ l2) else child s m.
Proof.
  intros HF E Hp. case_decide as Hm.
  - subst m. by rewrite (without_split n K p l1 l2 (f_nodup _ _ _ HF p) E).
  - rewrite (f_child _ _ _ HF), without_same; [done|]. intros Hin%(f_par _ _ _ HF). congruence.
Qed.

Lemma forest_intro s s' K par n :
  forest s K par ->
  (forall m, parent s' m = pruned n par m) ->
  (forall m, child s' m = head (without n K m)) ->
  (forall m, sibling_next s' m = pruned n par m ≫= fun p => next_of m (without n K p)) ->
  (forall m, sibling_prev s' m = pruned n par m ≫= fun p => prev_of m (without n K p)) ->
  forest s' (without n K) (pruned n par).
Proof.
  intros HF Hpar Hchild Hnext Hprev. split; [|intros p|done..].
  - intros m p. by eapply forest_pruned_par.
  - apply NoDup_filter. apply HF.
Qed.

Lemma not_first l1 (n : A) l2 : n ∉ l1 -> l1 <> [] -> head (l1 ++ n :: l2) <> Some n.
Proof. destruct l1 as [|x l1]; [done|]. intros Hn _ [= ->]. apply Hn. by left. Qed.

Lemma last_not_nil (l : list A) : l <> [] -> exists x, last l = Some x /\ x ∈ l.
Proof.
  induction l as [|x l _] using rev_ind; [done|]. intros _. exists x. rewrite last_snoc. set_solver.
Qed.

Lemma head_in (l : list A) x : head l = Some x -> x ∈ l.
Proof. destruct l; [done|]. intros [= ->]. by left. Qed.

(** Closes the comparison of a field before and after. *)
Ltac cases := repeat case_decide; subst; try done; try congruence.

Lemma detach_root s K par n :
  forest s K par -> par n = None -> exists s', DetachSubTree n s = Ok (tt, s') /\ forest s' (without n K) (pruned n par).
Proof.
  intros HF Hp. pose proof (f_parent _ _ _ HF n) as Fp. pose proof (f_next _ _ _ HF n) as Fn.
  pose proof (f_prev _ _ _ HF n) as Fv. rewrite Hp in Fp, Fn, Fv. cbn in Fn, Fv.
  assert (forall m, pruned n par m = par m) as Epar by (intros m; unfold pruned; cases).
  assert (forall m, without n K m = K m) as EK.
  { intros m. apply without_same. intros Hin%(f_par _ _ _ HF). congruence. }
  unfold DetachSubTree. steps. rewrite Fp. steps. rewrite (M_bind_run _ _ _ tt s).
  2:{ steps. rewrite Fv. steps. rewrite Fn. steps. by rewrite Fp. }
  steps. rewrite M_modify_run. eexists. split; [reflexivity|].
  apply (forest_intro s); [done|intros m..]; tree; rewrite ?Epar.
  - rewrite (f_parent _ _ _ HF). cases.
  - rewrite EK. apply HF.
  - rewrite (f_next _ _ _ HF). destruct (par m); [|done]. cbn. by rewrite EK.
  - case_decide; [subst m; by rewrite Hp|]. rewrite (f_prev _ _ _ HF). destruct (par m); [|done]. cbn. by rewrite EK.
Qed.

Lemma detach_first s K par n p l2 :
  forest s K par -> par n = Some p -> K p = n :: l2 ->
  exists s', DetachSubTree n s = Ok (tt, s') /\ forest s' (without n K) (pruned n par).
Proof.
  intros HF Hp E. pose proof (f_nodup _ _ _ HF p) as Hnd. rewrite E in Hnd. apply NoDup_cons in Hnd as [Hn2 Hnd2].
  pose proof (f_parent _ _ _ HF n) as Fp. pose proof (f_next _ _ _ HF n) as Fn.
  pose proof (f_prev _ _ _ HF n) as Fv. pose proof (f_child _ _ _ HF p) as Fc.
  rewrite Hp in Fp, Fn, Fv. cbn in Fn, Fv. rewrite E in Fc, Fn, Fv.
  change (n :: l2) with ([] ++ n :: l2) in Fn, Fv, E.
  rewrite next_of_mid in Fn by set_solver. rewrite prev_of_mid in Fv by done. cbn in Fc, Fv.
  unfold DetachSubTree. steps. rewrite Fp. steps. rewrite Fc, bool_decide_true by done. steps.
  destruct l2 as [|b l2]; cbn in Fn, Fv.
  - rewrite (M_bind_run _ _ _ tt (set_child p None s)); [|steps; tree; by rewrite Fn].
    steps. rewrite M_modify_run. eexists. split; [reflexivity|].
    apply (forest_intro s); [done|intros m; tree..].
    + rewrite (f_parent _ _ _ HF). unfold pruned. cases.
    + rewrite (pruned_child s K par n p [] []) by done. cases.
    + destruct (decide (m = n)) as [->|Hm]; [unfold pruned; by rewrite Fn, decide_True|].
      by rewrite (pruned_next s K par n p [] []).
    + destruct (decide (m = n)) as [->|Hm]; [unfold pruned; by rewrite !decide_True|].
      rewrite (pruned_prev s K par n p [] []) by done. cases.
  - rewrite (M_bind_run _ _ _ tt (set_sibling_next n None (set_sibling_prev b (last (b :: l2)) (set_child p (Some b) s)))).
    2:{ steps. tree. rewrite Fn. steps. tree. rewrite Fv. done. }
    steps. rewrite M_modify_run. eexists. split; [reflexivity|].
    apply (forest_intro s); [done|intros m; tree..].
    + rewrite (f_parent _ _ _ HF). unfold pruned. cases.
    + rewrite (pruned_child s K par n p [] (b :: l2)) by done. cases.
    + destruct (decide (m = n)) as [->|Hm]; [unfold pruned; by rewrite !decide_True|].
      rewrite (pruned_next s K par n p [] (b :: l2)) by done. cases.
    + destruct (decide (m = n)) as [->|Hm]; [unfold pruned; by rewrite !decide_True|].
      rewrite (pruned_prev s K par n p [] (b :: l2)) by done. cbn. cases.
Qed.

Lemma detach_inner s K par n p c l1 l2 a :
  forest s K par -> par n = Some p -> K p = (c :: l1) ++ n :: l2 -> last (c :: l1) = Some a ->
  exists s', DetachSubTree n s = Ok (tt, s') /\ forest s' (without n K) (pruned n par).
Proof.
  intros HF Hp E Ha. pose proof (f_nodup _ _ _ HF p) as Hnd. rewrite E in Hnd.
  pose proof Hnd as Hnd'. apply NoDup_app in Hnd' as (_ & Hd & Hnd2). apply NoDup_cons in Hnd2 as [Hn2 _].
  assert (n ∉ c :: l1) as Hn1 by (intros Hin; apply (Hd n Hin); by left).
  pose proof (f_parent _ _ _ HF n) as Fp. pose proof (f_next _ _ _ HF n) as Fn.
  pose proof (f_prev _ _ _ HF n) as Fv. pose proof (f_child _ _ _ HF p) as Fc.
  rewrite Hp in Fp, Fn, Fv. cbn [mbind option_bind] in Fn, Fv. rewrite E in Fc, Fn, Fv.
  rewrite next_of_mid in Fn by done. rewrite prev_of_mid, Ha in Fv by done. cbn in Fc.
  assert (a ∈ c :: l1) as Hain by (apply last_Some in Ha as (l & ->); set_solver).
  assert (c <> n) as Hcn by set_solver. assert (a <> n) as Han by set_solver.
  unfold DetachSubTree. steps. rewrite Fp. steps. rewrite Fc, bool_decide_false by congruence. steps.
  destruct l2 as [|b l2]; cbn in Fn.
  - rewrite (M_bind_run _ _ _ tt (set_sibling_prev c (Some a) (set_sibling_next a None s))).
    2:{ steps. rewrite Fv. steps. tree. rewrite Fn. rewrite decide_False by done. steps. tree. rewrite Fp.
        steps. tree. rewrite Fc. steps. rewrite M_modify_run. tree. by rewrite Fv. }
    steps. rewrite M_modify_run. eexists. split; [reflexivity|].
    apply (forest_intro s); [done|intros m; tree..].
    + rewrite (f_parent _ _ _ HF). unfold pruned. cases.
    + rewrite (pruned_child s K par n p (c :: l1) []) by done. cases.
    + destruct (decide (m = n)) as [->|Hm]; [unfold pruned; by rewrite Fn, decide_False, decide_True|].
      rewrite (pruned_next s K par n p (c :: l1) []) by done. rewrite Ha. cases.
    + destruct (decide (m = n)) as [->|Hm]; [unfold pruned; by rewrite !decide_True|].
      rewrite (pruned_prev s K par n p (c :: l1) []) by done. rewrite Ha. cbn. cases.
  - assert (b <> n) as Hbn by set_solver.
    rewrite (M_bind_run _ _ _ tt (set_sibling_next n None (set_sibling_prev b (Some a) (set_sibling_next a (Some b) s)))).
    2:{ steps. rewrite Fv. steps. tree. rewrite Fn. rewrite decide_False by done. steps. rewrite M_modify_run. tree. by rewrite Fv. }
    steps. rewrite M_modify_run. eexists. split; [reflexivity|].
    assert (c <> b) as Hcb by (intros ->; apply (Hd b); set_solver).
    assert (forall x, head (c :: l1) = Some x -> sibling_prev s x = last (b :: l2)) as Hfirst.
    { intros x [= <-]. rewrite (f_prev _ _ _ HF).
      assert (par c = Some p) as -> by (apply (f_par _ _ _ HF); rewrite E; by left). cbn [mbind option_bind].
      rewrite E. change ((c :: l1) ++ n :: b :: l2) with ([] ++ c :: (l1 ++ n :: b :: l2)).
      cbn in Hnd. apply NoDup_cons in Hnd as [Hc _]. rewrite (prev_of_mid [] c _ Hc). cbn.
      rewrite app_comm_cons, last_app_cons. done. }
    apply (forest_intro s); [done|intros m; tree..].
    + rewrite (f_parent _ _ _ HF). unfold pruned. cases.
    + rewrite (pruned_child s K par n p (c :: l1) (b :: l2)) by done. cases.
    + destruct (decide (m = n)) as [->|Hm]; [unfold pruned; by rewrite !decide_True|].
      rewrite (pruned_next s K par n p (c :: l1) (b :: l2)) by done. rewrite Ha. cases.
    + destruct (decide (m = n)) as [->|Hm]; [unfold pruned; by rewrite !decide_True|].
      rewrite (pruned_prev s K par n p (c :: l1) (b :: l2)) by done. rewrite Ha.
      assert (exists z, last (b :: l2) = Some z) as [z Ez] by (rewrite last_cons; destruct (last l2); eauto).
      rewrite Ez in *. cbn [head] in *. cases; try (by rewrite Hfirst).
Qed.

Lemma DetachSubTree_run s K par n :
  forest s K par -> exists s', DetachSubTree n s = Ok (tt, s') /\ forest s' (without n K) (pruned n par).
Proof.
  intros HF. destruct (par n) as [p|] eqn:Hp; [|by apply detach_root].
  destruct (forest_split s K par n p HF Hp) as (l1 & l2 & E & _).
  destruct l1 as [|c l1]; [by eapply detach_first|].
  destruct (last_not_nil (c :: l1)) as (a & Ha & _); [done|]. by eapply detach_inner.
Qed.

(** A root [c] becomes a child of [n], whose children are then [l]. *)
Definition attached n (l : list A) K : A -> list A := <[n := l]> K.

Lemma forest_attach s s' K par n c l :
  forest s K par -> par c = None -> (forall x, x ∈ l <-> x = c \/ x ∈ K n) -> NoDup l ->
  (forall m, parent s' m = if decide (c = m) then Some n else par m) ->
  (forall m, child s' m = head (attached n l K m)) ->
  (forall m, sibling_next s' m = if decide (c = m) then next_of c l
    else if decide (par m = Some n) then next_of m l else sibling_next s m) ->
  (forall m, sibling_prev s' m = if decide (c = m) then prev_of c l
    else if decide (par m = Some n) then prev_of m l else sibling_prev s m) ->
  forest s' (attached n l K) (<[c := Some n]> par).
Proof.
  intros HF Hc Hl Hnd Hp Hch Hn Hv.
  assert (forall m p, <[c := Some n]> par m = Some p <-> m ∈ attached n l K p) as Hpar.
  { intros m p. unfold attached. destruct (decide (p = n)) as [->|Hpn].
    - rewrite fn_lookup_insert, Hl. destruct (decide (m = c)) as [->|Hm].
      + rewrite fn_lookup_insert. tauto.
      + rewrite fn_lookup_insert_ne, (f_par _ _ _ HF) by done. tauto.
    - rewrite (fn_lookup_insert_ne K) by done. destruct (decide (m = c)) as [->|Hm].
      + rewrite fn_lookup_insert. rewrite <- (f_par _ _ _ HF). split; congruence.
      + rewrite fn_lookup_insert_ne by done. apply HF. }
  split; [done| | |done| |].
  - intros p. unfold attached. destruct (decide (p = n)) as [->|Hpn].
    + by rewrite fn_lookup_insert.
    + rewrite fn_lookup_insert_ne by done. apply HF.
  - intros m. rewrite Hp. case_decide as Hm; [subst m; by rewrite fn_lookup_insert|by rewrite fn_lookup_insert_ne].
  - intros m. rewrite Hn. case_decide as Hm.
    + subst m. rewrite fn_lookup_insert. cbn. unfold attached. by rewrite fn_lookup_insert.
    + rewrite fn_lookup_insert_ne by done. case_decide as Hpm.
      * rewrite Hpm. cbn. unfold attached. by rewrite fn_lookup_insert.
      * rewrite (f_next _ _ _ HF). destruct (par m) as [q|]; [|done]. cbn. unfold attached.
        rewrite fn_lookup_insert_ne; [done|congruence].
  - intros m. rewrite Hv. case_decide as Hm.
    + subst m. rewrite fn_lookup_insert. cbn. unfold attached. by rewrite fn_lookup_insert.
    + rewrite fn_lookup_insert_ne by done. case_decide as Hpm.
      * rewrite Hpm. cbn. unfold attached. by rewrite fn_lookup_insert.
      * rewrite (f_prev _ _ _ HF). destruct (par m) as [q|]; [|done]. cbn. unfold attached.
        rewrite fn_lookup_insert_ne; [done|congruence].
Qed.

(** The three ways a root is linked among the children of [n]. *)
Lemma link_only s K par n c :
  forest s K par -> par c = None -> K n = [] -> n <> c ->
  exists s', push_only_child n c s = Ok (tt, s') /\ forest s' (attached n [c] K) (<[c := Some n]> par).
Proof.
  intros HF Hc En Hne. unfold push_only_child. steps. rewrite M_modify_run. eexists. split; [reflexivity|].
  apply (forest_attach s); try done.
  - intros x. rewrite En, list_elem_of_singleton. set_solver.
  - apply NoDup_singleton.
  - intros m. tree. rewrite (f_parent _ _ _ HF). cases.
  - intros m. tree. unfold attached. destruct (decide (n = m)) as [->|Hm]; [by rewrite fn_lookup_insert|].
    rewrite fn_lookup_insert_ne by done. apply HF.
  - intros m. tree. pose proof (f_next _ _ _ HF c) as Fn. rewrite Hc in Fn. cbn in Fn. cbn [next_of]. cases.
    exfalso. assert (m ∈ K n) as Hin by (by apply (f_par _ _ _ HF)). rewrite En in Hin. by apply not_elem_of_nil in Hin.
  - intros m. tree. cases.
    + unfold prev_of, pred_of. cbn. by rewrite decide_True.
    + exfalso. assert (m ∈ K n) as Hin by (by apply (f_par _ _ _ HF)). rewrite En in Hin. by apply not_elem_of_nil in Hin.
Qed.

(** Linked behind the last child [a]; [x]: the first. *)
Lemma link_last s s' K par n c x l a :
  forest s K par -> par c = None -> K n = x :: l -> last (x :: l) = Some a -> n <> c ->
  (forall m, parent s' m = if decide (c = m) then Some n else parent s m) ->
  (forall m, child s' m = child s m) ->
  (forall m, sibling_next s' m = if decide (a = m) then Some c else sibling_next s m) ->
  (forall m, sibling_prev s' m = if decide (x = m) then Some c else if decide (c = m) then Some a
     else sibling_prev s m) ->
  forest s' (attached n (K n ++ [c]) K) (<[c := Some n]> par).
Proof.
  intros HF Hc En Ha Hne Hp Hch Hn Hv.
  assert (c ∉ K n) as Hcn by (intros Hin%(f_par _ _ _ HF); congruence).
  assert (NoDup (K n ++ [c])) as Hnd.
  { apply NoDup_app. split; [apply HF|]. split; [|apply NoDup_singleton].
    intros y Hy ->%list_elem_of_singleton. done. }
  assert (a ∈ K n) as Han by (rewrite En; apply last_Some in Ha as (l' & ->); set_solver).
  assert (x ∈ K n) as Hxn by (rewrite En; by left).
  apply (forest_attach s); try done.
  - intros y. rewrite elem_of_app, list_elem_of_singleton. tauto.
  - intros m. rewrite Hp, (f_parent _ _ _ HF). done.
  - intros m. rewrite Hch, (f_child _ _ _ HF). unfold attached.
    destruct (decide (n = m)) as [<-|Hm]; [by rewrite fn_lookup_insert, En|by rewrite fn_lookup_insert_ne].
  - intros m. rewrite Hn. destruct (decide (c = m)) as [<-|Hcm].
    + rewrite decide_False by congruence. rewrite next_of_mid by done.
      rewrite (f_next _ _ _ HF), Hc. done.
    + case_decide as Hm.
      * subst m. rewrite decide_True by (by apply (f_par _ _ _ HF)). rewrite next_of_snoc by done.
        by rewrite decide_True by (by rewrite En).
      * case_decide as Hpm; [|done]. rewrite next_of_snoc, (f_next _ _ _ HF), Hpm by done. cbn.
        rewrite decide_False; [done|]. rewrite En. congruence.
  - intros m. rewrite Hv. destruct (decide (c = m)) as [<-|Hcm].
    + rewrite decide_False by congruence. rewrite prev_of_mid by apply not_elem_of_nil. by rewrite En, Ha.
    + case_decide as Hm.
      * subst m. rewrite decide_True by (by apply (f_par _ _ _ HF)). rewrite prev_of_snoc by done.
        by rewrite decide_True by (by rewrite En).
      * case_decide as Hpm; [|done]. pose proof Hpm as Hin%(f_par _ _ _ HF).
        rewrite prev_of_snoc, (f_prev _ _ _ HF), Hpm by done. cbn.
        rewrite decide_False; [done|]. rewrite En. cbn. congruence.
Qed.

Lemma PushBackChild_run s K par n c :
  forest s K par -> n <> c ->
  exists s', PushBackChild n c s = Ok (tt, s') /\
    forest s' (attached n (without c K n ++ [c]) (without c K)) (<[c := Some n]> (pruned c par)).
Proof.
  intros HF Hne. destruct (DetachSubTree_run s K par c HF) as (s1 & E1 & HF1).
  set (K1 := without c K) in *. set (par1 := pruned c par) in *.
  assert (par1 c = None) as Hc by (unfold par1, pruned; by rewrite decide_True).
  unfold PushBackChild. rewrite (M_bind_run _ _ _ _ _ E1). steps. rewrite (f_child _ _ _ HF1).
  destruct (K1 n) as [|x l] eqn:En; cbn [head]; [by apply link_only|].
  destruct (last_not_nil (x :: l)) as (a & Ha & Hain); [done|].
  assert (par1 x = Some n) as Hx by (apply (f_par _ _ _ HF1); rewrite En; by left).
  assert (par1 a = Some n) as Hpa by (apply (f_par _ _ _ HF1); by rewrite En).
  pose proof (f_nodup _ _ _ HF1 n) as Hnd. rewrite En in Hnd. apply NoDup_cons in Hnd as [Hxl _].
  assert (sibling_prev s1 x = Some a) as Fv.
  { rewrite (f_prev _ _ _ HF1), Hx. cbn. rewrite En. by rewrite (prev_of_mid [] x l). }
  steps. rewrite Fv. steps. tree. rewrite (f_child _ _ _ HF1), En. cbn [head]. steps. rewrite M_modify_run.
  rewrite <- En. eexists. split; [reflexivity|].
  apply (link_last s1 _ K1 par1 n c x l a); try done; intros m; tree; try done.
  - rewrite (f_parent _ _ _ HF1 a), Hpa. done.
Qed.

(** Linked before the first child [x]; [a]: the last. *)
Lemma link_first s s' K par n c x l a :
  forest s K par -> par c = None -> K n = x :: l -> last (x :: l) = Some a -> n <> c ->
  (forall m, parent s' m = if decide (c = m) then Some n else parent s m) ->
  (forall m, child s' m = if decide (n = m) then Some c else child s m) ->
  (forall m, sibling_next s' m = if decide (c = m) then Some x else sibling_next s m) ->
  (forall m, sibling_prev s' m = if decide (x = m) then Some c else if decide (c = m) then Some a
     else sibling_prev s m) ->
  forest s' (attached n (c :: K n) K) (<[c := Some n]> par).
Proof.
  intros HF Hc En Ha Hne Hp Hch Hn Hv.
  assert (c ∉ K n) as Hcn by (intros Hin%(f_par _ _ _ HF); congruence).
  assert (NoDup (c :: K n)) as Hnd by (apply NoDup_cons; split; [done|apply HF]).
  assert (x ∈ K n) as Hxn by (rewrite En; by left).
  apply (forest_attach s); try done.
  - intros y. rewrite elem_of_cons. tauto.
  - intros m. rewrite Hp, (f_parent _ _ _ HF). done.
  - intros m. rewrite Hch, (f_child _ _ _ HF). unfold attached.
    destruct (decide (n = m)) as [<-|Hm]; [by rewrite fn_lookup_insert|by rewrite fn_lookup_insert_ne].
  - intros m. rewrite Hn. destruct (decide (c = m)) as [<-|Hcm].
    + cbn. by rewrite decide_True, En.
    + case_decide as Hpm; [|done]. rewrite (f_next _ _ _ HF), Hpm. cbn. by rewrite decide_False.
  - intros m. rewrite Hv. destruct (decide (c = m)) as [<-|Hcm].
    + rewrite decide_False by congruence. rewrite (prev_of_mid [] c (K n) Hcn). cbn [last].
      rewrite En. by rewrite <- Ha.
    + case_decide as Hm.
      * subst m. rewrite decide_True by (by apply (f_par _ _ _ HF)). rewrite prev_of_cons by done.
        by rewrite decide_True by (by rewrite En).
      * case_decide as Hpm; [|done]. pose proof Hpm as Hin%(f_par _ _ _ HF).
        rewrite prev_of_cons, (f_prev _ _ _ HF), Hpm by done. cbn.
        rewrite decide_False; [done|]. rewrite En. cbn. congruence.
Qed.

Lemma PushFrontChild_run s K par n c :
  forest s K par -> n <> c ->
  exists s', PushFrontChild n c s = Ok (tt, s') /\
    forest s' (attached n (c :: without c K n) (without c K)) (<[c := Some n]> (pruned c par)).
Proof.
  intros HF Hne. destruct (DetachSubTree_run s K par c HF) as (s1 & E1 & HF1).
  set (K1 := without c K) in *. set (par1 := pruned c par) in *.
  assert (par1 c = None) as Hc by (unfold par1, pruned; by rewrite decide_True).
  unfold PushFrontChild. rewrite (M_bind_run _ _ _ _ _ E1). steps. rewrite (f_child _ _ _ HF1).
  destruct (K1 n) as [|x l] eqn:En; cbn [head]; [by apply link_only|].
  destruct (last_not_nil (x :: l)) as (a & Ha & Hain); [done|].
  assert (par1 x = Some n) as Hx by (apply (f_par _ _ _ HF1); rewrite En; by left).
  pose proof (f_nodup _ _ _ HF1 n) as Hnd. rewrite En in Hnd. apply NoDup_cons in Hnd as [Hxl _].
  assert (sibling_prev s1 x = Some a) as Fv.
  { rewrite (f_prev _ _ _ HF1), Hx. cbn. rewrite En. by rewrite (prev_of_mid [] x l). }
  steps. rewrite M_modify_run. tree. rewrite Fv. rewrite <- En. eexists. split; [reflexivity|].
  by apply (link_first s1 _ K1 par1 n c x l a); try done; intros m; tree.
Qed.

Lemma PushBackSibling_run s K par this c p fuel :
  forest s K par -> par this = Some p -> this <> c -> p <> c ->
  exists s', PushBackSibling fuel this c s = Ok (tt, s') /\
    forest s' (attached p (without c K p ++ [c]) (without c K)) (<[c := Some p]> (pruned c par)).
Proof.
  intros HF Hp Hne Hpc. destruct (DetachSubTree_run s K par c HF) as (s1 & E1 & HF1).
  set (K1 := without c K) in *. set (par1 := pruned c par) in *.
  assert (par1 c = None) as Hc by (unfold par1, pruned; by rewrite decide_True).
  assert (par1 this = Some p) as Hp1 by (unfold par1, pruned; by rewrite decide_False).
  unfold PushBackSibling. rewrite (M_bind_run _ _ _ _ _ E1). steps. rewrite (f_parent _ _ _ HF1), Hp1.
  rewrite (f_child _ _ _ HF1).
  pose proof Hp1 as Hin%(f_par _ _ _ HF1). destruct (K1 p) as [|x l] eqn:En; [by apply not_elem_of_nil in Hin|].
  destruct (last_not_nil (x :: l)) as (a & Ha & Hain); [done|].
  assert (par1 x = Some p) as Hx by (apply (f_par _ _ _ HF1); rewrite En; by left).
  assert (par1 a = Some p) as Hpa by (apply (f_par _ _ _ HF1); by rewrite En).
  pose proof (f_nodup _ _ _ HF1 p) as Hnd. rewrite En in Hnd. apply NoDup_cons in Hnd as [Hxl _].
  assert (sibling_prev s1 x = Some a) as Fv.
  { rewrite (f_prev _ _ _ HF1), Hx. cbn. rewrite En. by rewrite (prev_of_mid [] x l). }
  cbn [head]. rewrite (M_bind_run _ _ _ (Some a) (set_sibling_prev x (Some c) s1)).
  2:{ steps. by rewrite Fv. }
  steps. rewrite M_modify_run. rewrite <- En. eexists. split; [reflexivity|].
  apply (link_last s1 _ K1 par1 p c x l a); try done; intros m; tree; try done.
  - by rewrite (f_parent _ _ _ HF1 a), Hpa.
  - assert (x <> c) by congruence. cases.
Qed.
End forest.

(** * Roots *)
Section roots.
Context {A : Type} `{Countable A}.
Local Abbreviation Store := (gmap A (IntrusiveTreeNode A)).
Implicit Types (s : Store) (n c p : A) (K : A -> list A) (par : A -> option A).

(** The [k]-th ancestor, and forests without cycles. *)
Fixpoint up par (k : nat) n : option A :=
  match k with O => Some n | S k => par n ≫= up par k end.
Definition rooted par : Prop := forall n, exists k, up par k n = None.

Lemma FindRoot_run s K par k n fuel :
  forest s K par -> up par k n = None -> (k <= fuel)%nat ->
  exists r j, FindRoot fuel n s = Ok (r, s) /\ par r = None /\ up par j n = Some r /\ (j < k)%nat.
Proof.
  intros HF. revert n fuel. induction k as [|k IH]; intros n fuel Hk Hfuel; [done|].
  destruct fuel as [|fuel]; [lia|]. cbn [FindRoot]. steps. rewrite (f_parent _ _ _ HF). cbn in Hk.
  destruct (par n) as [p|] eqn:Ep; cbn in Hk.
  - destruct (IH p fuel Hk ltac:(lia)) as (r & j & E & Hr & Hj & Hjk).
    exists r, (S j). split; [exact E|]. split; [done|]. split; [|lia]. cbn. by rewrite Ep.
  - exists n, O. split; [done|]. split; [done|]. split; [done|lia].
Qed.

Lemma rooted_pruned c par : rooted par -> rooted (pruned c par).
Proof.
  intros Hr n. destruct (Hr n) as [k Hk]. exists k. revert n Hk. induction k as [|k IH]; intros n Hk; [done|].
  cbn in *. unfold pruned at 2. destruct (decide (n = c)); [done|]. destruct (par n) as [p|]; [|done]. by apply IH.
Qed.

(** Hanging a root below a node that is not below it. *)
Lemma rooted_attached c n par :
  rooted par -> par c = None -> (forall k, up par k n <> Some c) -> rooted (<[c := Some n]> par).
Proof.
  intros Hr Hc Hn. set (par' := <[c := Some n]> par).
  assert (forall k x, (forall j, up par j x <> Some c) -> up par k x = None -> up par' k x = None) as Hfree.
  { induction k as [|k IH]; intros x Hx Hk; [done|]. cbn in *. unfold par' at 2.
    rewrite fn_lookup_insert_ne by (intros ->; by apply (Hx O)).
    destruct (par x) as [p|] eqn:Ep; [|done]. apply IH; [|done].
    intros j Hj. apply (Hx (S j)). cbn. by rewrite Ep. }
  destruct (Hr n) as [kn Hkn]. pose proof (Hfree kn n Hn Hkn) as Hkn'.
  assert (forall k x, up par k x = None -> exists k', up par' k' x = None) as Hall.
  { induction k as [|k IH]; intros x Hk; [done|]. cbn in Hk. destruct (decide (x = c)) as [->|Hx].
    - exists (S kn). cbn. unfold par' at 2. by rewrite fn_lookup_insert.
    - destruct (par x) as [p|] eqn:Ep.
      + destruct (IH p Hk) as [k' Hk']. exists (S k'). cbn. unfold par' at 2.
        by rewrite fn_lookup_insert_ne, Ep.
      + exists 1%nat. cbn. unfold par'. by rewrite fn_lookup_insert_ne, Ep. }
  intros x. destruct (Hr x) as [k Hk]. by apply (Hall k).
Qed.

(** The first children from [n] down. *)
Fixpoint first_line K n l : Prop :=
  match l with
  | [] => K n = []
  | c :: l => head (K n) = Some c /\ first_line K c l
  end.

Lemma first_line_parent s K par n l z :
  forest s K par -> first_line K n l -> z ∈ l -> exists p, p ∈ n :: l /\ par z = Some p.
Proof.
  intros HF. revert n. induction l as [|c l IH]; intros n Hl Hz; [by apply not_elem_of_nil in Hz|].
  destruct Hl as [Hc Hl]. apply elem_of_cons in Hz as [->|Hz].
  - exists n. split; [by left|]. by apply (f_par _ _ _ HF), head_in.
  - destruct (IH c Hl Hz) as (p & Hp & E). exists p. split; [by right|done].
Qed.

Definition cleared (l : list A) s s' : Prop :=
  forall x, tree_node s' x = if decide (x ∈ l) then empty_node else tree_node s x.

Lemma cleared_next l s s' x : cleared l s s' -> x ∉ l -> sibling_next s' x = sibling_next s x.
Proof. intros C Hx. unfold sibling_next. by rewrite C, decide_False. Qed.
Lemma cleared_child l s s' x : cleared l s s' -> x ∉ l -> child s' x = child s x.
Proof. intros C Hx. unfold child. by rewrite C, decide_False. Qed.

Lemma ClearChildren_S fuel n :
  ClearChildrenRecursive (A := A) (S fuel) n =
  (iter ← gets (fun s => child s n); clear_loop (ClearChildrenRecursive fuel) n fuel iter).
Proof. done. Qed.

Lemma clear_loop_turn (f : A -> M Store unit) n turns i c s s1 :
  child s n = Some c -> f c s = Ok (tt, s1) ->
  clear_loop f n (S turns) (Some i) s = clear_loop f n turns (sibling_next s i) (<[c := empty_node]> s1).
Proof.
  intros Hc Hf. cbn [clear_loop]. steps. rewrite Hc. steps. rewrite (M_bind_run _ _ _ _ _ Hf).
  unfold Clear. by rewrite M_modify_bind.
Qed.

Lemma ClearChildren_childless fuel c s : child s c = None -> ClearChildrenRecursive (S fuel) c s = Ok (tt, s).
Proof. intros Hc. rewrite ClearChildren_S. steps. rewrite Hc. by destruct fuel. Qed.

(** Once the first child [c] is cleared, the rest of the walk clears it again. *)
Lemma clear_loop_rest fuel n c l (r : list A) turns s0 s :
  cleared l s0 s -> c ∈ l -> n ∉ l -> child s0 n = Some c ->
  (forall i, i ∈ r -> i ∉ l) -> (forall l1 i l2, r = l1 ++ i :: l2 -> sibling_next s0 i = head l2) ->
  (length r <= turns)%nat ->
  exists s', clear_loop (ClearChildrenRecursive (S fuel)) n turns (head r) s = Ok (tt, s') /\ cleared l s0 s'.
Proof.
  intros C Hc Hn Hch. revert turns s C. induction r as [|i r IH]; intros turns s C Hr Hnext Ht.
  - exists s. by destruct turns.
  - destruct turns as [|turns]; cbn in Ht; [lia|]. cbn [head].
    assert (child s c = None) as Hcc by (unfold child; by rewrite C, decide_True).
    rewrite (clear_loop_turn _ _ _ _ c s s); [|by rewrite (cleared_child _ _ _ _ C Hn)|by apply ClearChildren_childless].
    rewrite (cleared_next _ _ _ _ C), (Hnext [] i r eq_refl) by (apply Hr; by left). apply IH; [|by intros; apply Hr; right| |lia].
    + intros x. rewrite tree_node_insert. case_decide as Hx; [subst x; by rewrite decide_True|apply C].
    + intros l1 j l2 ->. by apply (Hnext (i :: l1)).
Qed.

(** ClearChildrenRecursive clears the first child, its first child, and so on, and nothing else. *)
Lemma ClearChildren_run s K par n l fuel :
  forest s K par -> first_line K n l -> NoDup (n :: l) ->
  (forall x, x ∈ n :: l -> length (K x) + length l < fuel)%nat ->
  exists s', ClearChildrenRecursive fuel n s = Ok (tt, s') /\ cleared l s s'.
Proof.
  intros HF. revert n fuel. induction l as [|c l IH]; intros n fuel Hl Hnd Hfuel.
  - destruct fuel as [|fuel]; [pose proof (Hfuel n ltac:(by left)); lia|]. exists s. split; [|done].
    apply ClearChildren_childless. rewrite (f_child _ _ _ HF). by rewrite Hl.
  - destruct Hl as [Hc Hl]. destruct (K n) as [|c' r] eqn:En; [done|]. injection Hc as ->.
    apply NoDup_cons in Hnd as [Hn Hnd].
    pose proof (Hfuel n ltac:(by left)) as Hf. rewrite En in Hf. cbn in Hf.
    destruct fuel as [|[|[|fuel]]]; [lia|lia|lia|].
    destruct (IH c (S (S fuel)) Hl Hnd) as (s1 & E1 & C1).
    { intros x Hx. pose proof (Hfuel x ltac:(by right)) as Hfx. cbn in Hfx. lia. }
    rewrite ClearChildren_S. steps. rewrite (f_child _ _ _ HF), En. cbn [head].
    rewrite (clear_loop_turn _ _ _ _ c s s1); [|by rewrite (f_child _ _ _ HF), En|done].
    assert (forall i, i ∈ K n -> par i = Some n) as Hpar by (intros i; apply (f_par _ _ _ HF)).
    pose proof (f_nodup _ _ _ HF n) as Hk.
    assert (sibling_next s c = head r) as ->.
    { rewrite (f_next _ _ _ HF), (Hpar c) by (rewrite En; by left). cbn. rewrite En. apply (next_of_mid [] c r), not_elem_of_nil. }
    apply (clear_loop_rest (S fuel) n c (c :: l) r); [|by left|done|by rewrite (f_child _ _ _ HF), En| | |lia].
    + intros x. rewrite tree_node_insert. case_decide as Hx; [subst x; by rewrite decide_True by (by left)|].
      rewrite C1. by repeat case_decide; set_solver.
    + rewrite En in Hk, Hpar. apply NoDup_cons in Hk as [Hcr _]. intros i Hi [->|Hin]%elem_of_cons; [done|].
      destruct (first_line_parent s K par c l i HF Hl Hin) as (p & Hp & E).
      rewrite Hpar in E by (by right). injection E as <-. done.
    + intros l1 i l2 ->. rewrite (f_next _ _ _ HF), (Hpar i) by (rewrite En; set_solver). cbn.
      rewrite En in *. apply (next_of_mid (c :: l1) i l2).
      rewrite app_comm_cons in Hk. apply NoDup_app in Hk as (_ & Hd & _). intros Hin. apply (Hd i Hin). by left.
Qed.

Lemma first_line_ext K K' n l : (forall x, x ∈ n :: l -> K' x = K x) -> first_line K n l -> first_line K' n l.
Proof.
  revert n. induction l as [|c l IH]; intros n E; cbn; rewrite (E n) by (by left); [done|].
  intros [Hc Hl]. split; [done|]. apply IH; [|done]. intros x Hx. apply E. by right.
Qed.

Lemma first_line_tail s K par n l y :
  forest s K par -> first_line K n l -> NoDup (n :: l) -> n ∉ K n -> y ∈ tail (K n) -> (y ∉ n :: l) /\ par y = Some n.
Proof.
  intros HF Hl Hnd Hnn Hy. destruct l as [|c l]; [cbn in Hl; rewrite Hl in Hy; by apply not_elem_of_nil in Hy|].
  destruct Hl as [Hc Hl]. pose proof (f_nodup _ _ _ HF n) as Hk. pose proof (fun i => proj2 (f_par _ _ _ HF i n)) as Hpar.
  destruct (K n) as [|c' r]; [done|]. injection Hc as ->. cbn in Hy. apply NoDup_cons in Hk as [Hcr _].
  assert (par y = Some n) as Hyn by (apply Hpar; by right). split; [|done].
  apply NoDup_cons in Hnd as [Hn _]. intros [->|[->|Hin]%elem_of_cons]%elem_of_cons; [|done|].
  - apply Hnn. by right.
  - destruct (first_line_parent s K par c l y HF Hl Hin) as (p & Hp & E). congruence.
Qed.

Lemma root_unique par n r r' j j' :
  up par j n = Some r -> up par j' n = Some r' -> par r = None -> par r' = None -> r = r'.
Proof.
  revert n j'. induction j as [|j IH]; intros n [|j'] E E' Hr Hr'; cbn in *; simplify_eq; try done.
  - by rewrite Hr in E'.
  - by rewrite Hr' in E.
  - destruct (par n) as [p|]; [|done]. by apply (IH p j').
Qed.
End roots.

Section properties.
Context {A : Type} `{Countable A}.
Local Abbreviation Store := (gmap A (IntrusiveTreeNode A)).
Implicit Types (s : Store) (n c p : A) (K : A -> list A) (par : A -> option A).

(** Detaching a subtree from a forest without cycles gives the forest in which its root has left
    the list of its siblings and has no parent, wherever among its siblings it stood: every link of
    every node is the one of that forest, and there is still no cycle. *)
Theorem tree_detach s K par n :
  forest s K par -> rooted par ->
  exists s', DetachSubTree n s = Ok (tt, s') /\ forest s' (without n K) (pruned n par) /\ rooted (pruned n par).
Proof.
  intros HF Hr. destruct (DetachSubTree_run s K par n HF) as (s' & E & HF').
  exists s'. split_and!; [done|done|by apply rooted_pruned].
Qed.

Lemma up_pruned c par k n : (forall j, up par j n <> Some c) -> up (pruned c par) k n <> Some c.
Proof.
  revert n. induction k as [|k IH]; intros n Hn; [apply (Hn O)|]. cbn. unfold pruned at 2.
  destruct (decide (n = c)); [done|]. destruct (par n) as [p|] eqn:Ep; [|done]. cbn. apply IH.
  intros j. pose proof (Hn (S j)) as E. cbn in E. by rewrite Ep in E.
Qed.

Lemma rooted_moved c n par :
  rooted par -> (forall j, up par j n <> Some c) -> rooted (<[c := Some n]> (pruned c par)).
Proof.
  intros Hr Hn. apply rooted_attached; [by apply rooted_pruned| |].
  - unfold pruned. by rewrite decide_True.
  - intros k. by apply up_pruned.
Qed.

(** [C8] Pushing a node that is not above the receiver takes its subtree from where it was and makes it
    the last child, the first child, or the last sibling of a node that has a parent; the order of the
    other children is kept, every link is the one of the new forest, and there is no cycle. *)
Theorem tree_push s K par n c fuel :
  forest s K par -> rooted par -> (forall j, up par j n <> Some c) ->
  (exists s', PushBackChild n c s = Ok (tt, s') /\
    forest s' (attached n (without c K n ++ [c]) (without c K)) (<[c := Some n]> (pruned c par))) /\
  (exists s', PushFrontChild n c s = Ok (tt, s') /\
    forest s' (attached n (c :: without c K n) (without c K)) (<[c := Some n]> (pruned c par))) /\
  (forall this, this ∈ K n -> this <> c -> exists s', PushBackSibling fuel this c s = Ok (tt, s') /\
    forest s' (attached n (without c K n ++ [c]) (without c K)) (<[c := Some n]> (pruned c par))) /\
  rooted (<[c := Some n]> (pruned c par)).
Proof.
  intros HF Hr Hn. assert (n <> c) as Hne by (intros ->; by apply (Hn O)). split_and!.
  - by apply PushBackChild_run.
  - by apply PushFrontChild_run.
  - intros this Hin%(f_par _ _ _ HF) Hc. by apply PushBackSibling_run.
  - by apply rooted_moved.
Qed.

(** [C20] In a forest without cycles FindRoot terminates from every node, whatever the loop is given to
    run with beyond its depth: it returns the ancestor that has no parent and changes nothing. *)
Theorem tree_find_root s K par n :
  forest s K par -> rooted par ->
  exists k r j, up par j n = Some r /\ par r = None /\ forall fuel, (k <= fuel)%nat -> FindRoot fuel n s = Ok (r, s).
Proof.
  intros HF Hr. destruct (Hr n) as [k Hk].
  destruct (FindRoot_run s K par k n k HF Hk ltac:(lia)) as (r & j & _ & Hrr & Hj & _).
  exists k, r, j. split; [done|]. split; [done|]. intros fuel Hf.
  destruct (FindRoot_run s K par k n fuel HF Hk Hf) as (r' & j' & E & Hr' & Hj' & _).
  by rewrite E, (root_unique par n r' r j' j).
Qed.

(** DetachAll takes the node out and is meant to clear the whole subtree. The loop over the children
    clears the first child in every turn: what is cleared is the first child, its first child and so on,
    and every other child of the node keeps the node, which is empty by then, as its parent. *)
Theorem tree_detach_all s K par n l fuel :
  forest s K par -> first_line K n l -> NoDup (n :: l) -> (forall x, x ∈ n :: l -> n ∉ K x) ->
  (forall x, x ∈ n :: l -> length (K x) + length l < fuel)%nat ->
  exists s1 s', DetachSubTree n s = Ok (tt, s1) /\ DetachAll fuel n s = Ok (tt, s') /\
    cleared (n :: l) s1 s' /\ child s' n = None /\ forall y, y ∈ tail (K n) -> parent s' y = Some n.
Proof.
  intros HF Hl Hnd Hn Hfuel. destruct (DetachSubTree_run s K par n HF) as (s1 & E1 & HF1).
  assert (forall x, x ∈ n :: l -> without n K x = K x) as HK by (intros; by apply without_same, Hn).
  destruct (ClearChildren_run s1 (without n K) (pruned n par) n l fuel HF1) as (s2 & E2 & C2); [|done| |].
  - by apply (first_line_ext K).
  - intros x Hx. rewrite HK by done. by apply Hfuel.
  - assert (cleared (n :: l) s1 (<[n := empty_node]> s2)) as C.
    { intros x. rewrite tree_node_insert. case_decide as Hx; [subst x; by rewrite decide_True by (by left)|].
      rewrite C2. by repeat case_decide; set_solver. }
    exists s1, (<[n := empty_node]> s2). split; [done|]. split; [|split; [done|]].
    + unfold DetachAll. rewrite (M_bind_run _ _ _ _ _ E1), (M_bind_run _ _ _ _ _ E2). unfold Clear. by rewrite M_modify_run.
    + split; [unfold child; by rewrite C, decide_True by (by left)|]. intros y Hy.
      destruct (first_line_tail s K par n l y HF Hl Hnd (Hn n ltac:(by left)) Hy) as [Hyl Hpy].
      unfold parent. rewrite C, decide_False by done. fold (parent s1 y). rewrite (f_parent _ _ _ HF1).
      unfold pruned. rewrite decide_False; [done|]. intros ->. apply Hyl. by left.
Qed.
End properties.

(** * Example: the children of 0 are 1 and 2, and 3 is the child of 1. *)
#[local] Open Scope nat_scope.

Definition example_children (n : nat) : list nat := match n with 0 => [1; 2] | 1 => [3] | _ => [] end.
Definition example_parent (n : nat) : option nat := match n with 1 | 2 => Some 0 | 3 => Some 1 | _ => None end.
Definition example_tree : gmap nat (IntrusiveTreeNode nat) :=
  {[ 0 := mkTreeNode None (Some 1) None None; 1 := mkTreeNode (Some 0) (Some 3) (Some 2) (Some 2);
     2 := mkTreeNode (Some 0) None None (Some 1); 3 := mkTreeNode (Some 1) None None (Some 3) ]}.

Lemma example_outside n : tree_node example_tree (S (S (S (S n)))) = empty_node.
Proof. unfold tree_node, example_tree. by rewrite !lookup_insert_ne, lookup_singleton_ne by lia. Qed.

Lemma example_forest : forest example_tree example_children example_parent.
Proof.
  split.
  - intros [|[|[|[|n]]]] [|[|p]]; cbn; rewrite ?elem_of_cons, ?elem_of_nil; naive_solver lia.
  - intros [|[|p]]; cbn; repeat constructor; set_solver.
  - intros [|[|[|[|n]]]]; try done. unfold parent. by rewrite example_outside.
  - intros [|[|[|[|n]]]]; try done. unfold child. by rewrite example_outside.
  - intros [|[|[|[|n]]]]; try done. unfold sibling_next. by rewrite example_outside.
  - intros [|[|[|[|n]]]]; try done. unfold sibling_prev. by rewrite example_outside.
Qed.

Lemma example_rooted : rooted example_parent.
Proof. intros n. exists 3%nat. by do 4 (destruct n as [|n]; [done|]). Qed.

Lemma example_not_above j : up example_parent j 2%nat <> Some 1%nat.
Proof. by destruct j as [|[|[|j]]]. Qed.

Lemma tree_detach_witness :
  exists s', DetachSubTree 2 example_tree = Ok (tt, s') /\ child s' 0 = Some 1 /\ sibling_next s' 1 = None.
Proof.
  destruct (tree_detach example_tree example_children example_parent 2 example_forest example_rooted)
    as (s' & E & HF & _).
  exists s'. split; [done|]. by rewrite (f_child _ _ _ HF), (f_next _ _ _ HF).
Defined.

Lemma tree_push_witness :
  exists s', PushFrontChild 2 1 example_tree = Ok (tt, s') /\ child s' 2 = Some 1 /\ child s' 0 = Some 2.
Proof.
  destruct (tree_push example_tree example_children example_parent 2 1 0 example_forest example_rooted
    example_not_above) as (_ & (s' & E & HF) & _).
  exists s'. split; [done|]. by rewrite !(f_child _ _ _ HF).
Defined.

Lemma tree_find_root_witness : exists k, forall fuel, (k <= fuel)%nat -> exists r, FindRoot fuel 3 example_tree = Ok (r, example_tree).
Proof.
  destruct (tree_find_root example_tree example_children example_parent 3 example_forest example_rooted)
    as (k & r & _ & _ & _ & E).
  exists k. intros fuel Hf. exists r. by apply E.
Defined.

Lemma tree_detach_all_witness :
  exists s', DetachAll 5 0 example_tree = Ok (tt, s') /\ parent s' 2 = Some 0 /\ parent s' 1 = None.
Proof.
  destruct (tree_detach_all example_tree example_children example_parent 0 [1; 3] 5)
    as (s1 & s' & _ & E & C & _ & Hp); [apply example_forest|done| | | |].
  - repeat constructor; set_solver.
  - intros x [->|[->|[->|[]%elem_of_nil]%elem_of_cons]%elem_of_cons]%elem_of_cons; set_solver.
  - intros x [->|[->|[->|[]%elem_of_nil]%elem_of_cons]%elem_of_cons]%elem_of_cons; cbn; lia.
  - exists s'. split; [done|]. split; [apply Hp; by left|].
    unfold parent. rewrite C. by rewrite decide_True by (right; by left).
Defined.
