(* ===== verification/Alignment.v ===== *)
(** Alignment (util_alignment.hpp) and size constants (util_sizeconstants.hpp).  The functions are templates:
    [w] is the width of the value's unsigned type, 64 for a pointer; the arithmetic is that of [size_t]. *)
From S2P Require Import Prelude.

Module Alignment.
(** [~x] of a [size_t]. *)
Definition not64 (x : Z) : Z := u64 (Z.lnot x).

Definition AlignUp (w value align : Z) : Z :=
  let alignment := u64 (align - 1) in
  wrap w (Z.land (u64 (value + alignment)) (not64 alignment)).

Definition AlignDown (w value align : Z) : Z :=
  let alignment := u64 (align - 1) in
  wrap w (Z.land (u64 value) (not64 alignment)).

Definition Size1MB : Z := 0x100000.
Definition Size2MB : Z := 0x200000.
Definition Size4MB : Z := 0x400000.
Definition Size8MB : Z := 0x800000.
Definition Size16MB : Z := 0x1000000.
Definition Size32MB : Z := 0x2000000.
End Alignment.

Section alignment.
Import Alignment.
Implicit Types w x k : Z.

(** Clearing the lower [k] bits. *)
Lemma land_not64 x k : 0 <= x < 2 ^ 64 -> 0 <= k <= 64 -> Z.land x (not64 (2 ^ k - 1)) = x / 2 ^ k * 2 ^ k.
Proof.
  intros Hx Hk. rewrite <- Z.shiftr_div_pow2, <- Z.shiftl_mul_pow2 by lia.
  rewrite <- (Z.ldiff_ones_r x k) by lia. unfold not64, u64, wrap. apply Z.bits_inj'. intros i Hi.
  rewrite Z.land_spec, Z.ldiff_spec. replace (2 ^ k - 1) with (Z.ones k) by (rewrite Z.ones_equiv; lia).
  destruct (Z.ltb_spec i 64).
  - by rewrite Z.mod_pow2_bits_low, Z.lnot_spec by lia.
  - assert (Z.testbit x i = false) as ->; [|done].
    rewrite <- (Z.mod_small x (2 ^ 64)) by lia. apply Z.mod_pow2_bits_high. lia.
Qed.

Lemma mask64 k : 0 <= k < 64 -> u64 (2 ^ k - 1) = 2 ^ k - 1.
Proof.
  intros Hk. assert (0 < 2 ^ k) by (apply Z.pow_pos_nonneg; lia). assert (2 ^ k < 2 ^ 64) by (apply Z.pow_lt_mono_r; lia).
  unfold u64. rewrite wrap_small; lia.
Qed.

Lemma AlignDown_run w x k :
  0 <= w <= 64 -> 0 <= x < 2 ^ w -> 0 <= k < 64 -> AlignDown w x (2 ^ k) = x / 2 ^ k * 2 ^ k.
Proof.
  intros Hw Hx Hk. unfold AlignDown. assert (2 ^ w <= 2 ^ 64) by (apply Z.pow_le_mono_r; lia).
  assert (0 < 2 ^ k) by (apply Z.pow_pos_nonneg; lia).
  rewrite mask64 by done. unfold u64. rewrite (wrap_small 64 x) by lia. rewrite land_not64 by lia.
  rewrite wrap_small; [done|]. pose proof (Z.mul_div_le x (2 ^ k)). pose proof (Z.div_pos x (2 ^ k)). nia.
Qed.

Lemma AlignUp_run w x k :
  0 <= w <= 64 -> 0 <= x -> 0 <= k < 64 -> x + (2 ^ k - 1) < 2 ^ w ->
  AlignUp w x (2 ^ k) = (x + (2 ^ k - 1)) / 2 ^ k * 2 ^ k.
Proof.
  intros Hw Hx Hk Hb. unfold AlignUp. assert (2 ^ w <= 2 ^ 64) by (apply Z.pow_le_mono_r; lia).
  assert (0 < 2 ^ k) by (apply Z.pow_pos_nonneg; lia).
  rewrite mask64 by done. unfold u64. rewrite (wrap_small 64) by lia. rewrite land_not64 by lia.
  rewrite wrap_small; [done|]. set (y := x + (2 ^ k - 1)) in *.
  pose proof (Z.mul_div_le y (2 ^ k)). pose proof (Z.div_pos y (2 ^ k)). nia.
Qed.

(** [C30] For a power of two, AlignUp is the least multiple of it that is not below the value and AlignDown the
    greatest that is not above, at every width, as long as rounding up does not leave the type; a value that is
    a multiple already is its own alignment. *)
Theorem alignment_rounds w x k :
  0 <= w <= 64 -> 0 <= x -> 0 <= k < 64 -> x + (2 ^ k - 1) < 2 ^ w ->
  (exists q, AlignUp w x (2 ^ k) = q * 2 ^ k) /\ x <= AlignUp w x (2 ^ k) < x + 2 ^ k /\
  (exists q, AlignDown w x (2 ^ k) = q * 2 ^ k) /\ AlignDown w x (2 ^ k) <= x < AlignDown w x (2 ^ k) + 2 ^ k /\
  (forall q, x = q * 2 ^ k -> AlignUp w x (2 ^ k) = x /\ AlignDown w x (2 ^ k) = x).
Proof.
  intros Hw Hx Hk Hb. assert (0 < 2 ^ k) by (apply Z.pow_pos_nonneg; lia).
  rewrite AlignUp_run, AlignDown_run by (done || lia).
  pose proof (Z.div_mod (x + (2 ^ k - 1)) (2 ^ k)). pose proof (Z.mod_pos_bound (x + (2 ^ k - 1)) (2 ^ k)).
  pose proof (Z.div_mod x (2 ^ k)). pose proof (Z.mod_pos_bound x (2 ^ k)).
  split_and!; [by eexists|lia|lia|by eexists|lia|lia|]. intros q ->.
  rewrite Z.div_mul by lia. rewrite Z.add_comm, Z.div_add, Z.div_small by lia. lia.
Qed.

Lemma alignment_rounds_witness : AlignUp 64 10 (2 ^ 3) <= 17 /\ AlignDown 64 10 (2 ^ 3) <= 10.
Proof. pose proof (alignment_rounds 64 10 3 ltac:(lia) ltac:(lia) ltac:(lia) ltac:(lia)) as (_ & ? & _ & ? & _). lia. Defined.
End alignment.
