(* ===== verification/Strings.v ===== *)
(** Strings (util_tstring.hpp, util_bufferstring.hpp, util_charactercode.hpp): the string functions for
    constant evaluation, FixedString, HeapString and the character codes.

    A [char] is the [Z] of its value, signed as on the code's targets, and a [const char *] is the list
    of the characters from it on: reading behind the end of the list faults.  A function that asks
    whether it is being constant evaluated takes the answer as an argument. *)
From S2P Require Import Prelude.

(** * The functions of the C library the code calls *)
Module CString.
Fixpoint strlen (s : list Z) : res Z :=
  match s with
  | [] => Fault OutOfBounds
  | c :: s => if c =? 0 then Ok 0 else n ← strlen s; Ok (n + 1)
  end.

Fixpoint strnlen (s : list Z) (n : Z) : res Z :=
  if n =? 0 then Ok 0 else
  match s with
  | [] => Fault OutOfBounds
  | c :: s => if c =? 0 then Ok 0 else k ← strnlen s (n - 1); Ok (k + 1)
  end.

(** The [n] characters strncpy writes: the string, then zeros. *)
Fixpoint copied (src : list Z) (n : nat) : res (list Z) :=
  match n with
  | O => Ok []
  | S k =>
      match src with
      | [] => Fault OutOfBounds
      | c :: src => if c =? 0 then Ok (replicate n 0) else l ← copied src k; Ok (c :: l)
      end
  end.

Definition write (dst : list Z) (off : nat) (l : list Z) : list Z := take off dst ++ l ++ drop (off + length l) dst.

(** strncpy(dst + off, src, n) in the array [dst]. *)
Definition strncpy (dst : list Z) (off : Z) (src : list Z) (n : Z) : res (list Z) :=
  if Z.of_nat (length dst) <? off + n then Fault OutOfBounds
  else l ← copied src (Z.to_nat n); Ok (write dst (Z.to_nat off) l).

(** memcpy(dst, src + off, n) between different arrays. *)
Definition memcpy (dst src : list Z) (off n : Z) : res (list Z) :=
  if (Z.of_nat (length dst) <? n) || (Z.of_nat (length src) <? off + n) then Fault OutOfBounds
  else Ok (write dst 0 (take (Z.to_nat n) (drop (Z.to_nat off) src))).

(** vsnprintf(dst + off, n, ...) with [text] what the format and its arguments give: the characters
    that fit are written with a terminator, and the length of the whole text is returned. *)
Definition vsnprintf (dst : list Z) (off n : Z) (text : list Z) : res (Z * list Z) :=
  let len := Z.of_nat (length text) in
  let put := Z.min len (n - 1) in
  if 2 ^ 31 <=? len then Ok (-1, dst)
  else if n =? 0 then Ok (len, dst)
  else if Z.of_nat (length dst) <? off + put + 1 then Fault OutOfBounds
  else Ok (len, write dst (Z.to_nat off) (take (Z.to_nat put) text ++ [0])).
End CString.

(** * util_tstring.hpp *)
Module TString.
Fixpoint TStringLength_loop (string : list Z) (max_size len : Z) : res Z :=
  match string with
  | [] => Fault OutOfBounds
  | c :: rest => if negb (c =? 0) && (len <? max_size) then TStringLength_loop rest max_size (len + 1) else Ok len
  end.
Definition TStringLength (string : list Z) (max_size : Z) : res Z := TStringLength_loop string max_size 0.

(** The destination is the array [dst] from [off] on. *)
Fixpoint TStringCopy_loop (dst : list Z) (off : Z) (src : list Z) (max_size len : Z) : res (Z * list Z) :=
  match src with
  | [] => Fault OutOfBounds
  | c :: rest =>
      if negb (c =? 0) && (len <? max_size) then
        dst ← arr_set dst (off + len) c;
        TStringCopy_loop dst off rest max_size (len + 1)
      else Ok (len, dst)
  end.
Definition TStringCopy (dst : list Z) (off : Z) (src : list Z) (max_size : Z) : res (Z * list Z) :=
  '(len, dst) ← TStringCopy_loop dst off src max_size 0;
  dst ← arr_set dst (off + len) 0;
  Ok (len, dst).

Fixpoint TStringCompare_loop (lhs rhs : list Z) (max_size len : Z) : res bool :=
  if len <? max_size then
    match lhs, rhs with
    | l :: lhs, r :: rhs =>
        let is_same := l =? r in
        let terminated := (l =? 0) && (0 =? r) in
        if is_same && negb terminated then TStringCompare_loop lhs rhs max_size (len + 1) else Ok is_same
    | _, _ => Fault OutOfBounds
    end
  else Ok true.
Definition TStringCompare (lhs rhs : list Z) (max_size : Z) : res bool := TStringCompare_loop lhs rhs max_size 0.
End TString.

(** * FixedString *)
Module FixedString.
Import CString TString.
Section string.
Variable Size : Z.

(** [m_length] is [None] until something has assigned it. *)
Record FixedString := mkFixedString { m_string_array : list Z; m_length : option Z }.

Definition cleared : list Z := replicate (Z.to_nat Size) 0.
Definition construct : FixedString := mkFixedString cleared None.

Definition AssureTermination (this : FixedString) : res FixedString :=
  a ← arr_set (m_string_array this) (Size - 1) 0; Ok (mkFixedString a (m_length this)).

Definition construct_string (constant_evaluated : bool) (string : list Z) : res FixedString :=
  if constant_evaluated then
    max ← TStringLength string (Size - 1);
    '(len, a) ← TStringCopy cleared 0 string max;
    AssureTermination (mkFixedString a (Some (u32 len)))
  else
    len ← strnlen string Size;
    a ← strncpy cleared 0 string (len + 1);
    AssureTermination (mkFixedString a (Some (u32 len))).

(** Reading a length nothing has assigned is undefined. *)
Definition read_length (this : FixedString) : res Z :=
  match m_length this with Some n => Ok n | None => Fault Uninitialized end.

Definition assign (constant_evaluated : bool) (this rhs : FixedString) : res FixedString :=
  if constant_evaluated then
    max ← TStringLength (m_string_array rhs) (Size - 1);
    '(len, a) ← TStringCopy (m_string_array this) 0 (m_string_array rhs) max;
    AssureTermination (mkFixedString a (Some (u32 len)))
  else
    n ← read_length rhs;
    let len := if n <? Size - 1 then n else Size - 1 in
    a ← strncpy (m_string_array this) 0 (m_string_array rhs) len;
    AssureTermination (mkFixedString a (Some (u32 len))).

Definition assign_string (constant_evaluated : bool) (this : FixedString) (rhs : list Z) : res FixedString :=
  if constant_evaluated then
    max ← TStringLength rhs (Size - 1);
    '(len, a) ← TStringCopy (m_string_array this) 0 rhs max;
    Ok (mkFixedString a (Some (u32 len)))
  else
    len ← strnlen rhs (Size - 1);
    a ← strncpy (m_string_array this) 0 rhs len;
    AssureTermination (mkFixedString a (Some (u32 len))).

(** [text]: what the format and its arguments give. *)
Definition Format (this : FixedString) (text : list Z) : res (Z * FixedString) :=
  '(length, a) ← vsnprintf (m_string_array this) 0 Size text;
  if negb (0 <=? length) then Fault AssertFailed else
  this ← AssureTermination (mkFixedString a (Some (u32 length)));
  n ← read_length this;
  Ok (n, this).

Definition AppendFormat (this : FixedString) (text : list Z) : res (Z * FixedString) :=
  n ← read_length this;
  '(appended_length, a) ← vsnprintf (m_string_array this) n (u64 (Size - n)) text;
  if negb (0 <=? appended_length) then Fault AssertFailed else
  this ← AssureTermination (mkFixedString a (Some (u32 (n + appended_length))));
  n ← read_length this;
  Ok (n, this).

Definition Append (constant_evaluated : bool) (this : FixedString) (append : list Z) : res (Z * FixedString) :=
  n ← read_length this;
  this ←
    (if constant_evaluated then
       append_length ← TStringLength append (u64 (Size - n - 1));
       '(_, a) ← TStringCopy (m_string_array this) n append append_length;
       Ok (mkFixedString a (Some (u32 (n + append_length))))
     else
       append_length ← strnlen append (u64 (Size - n - 1));
       a ← strncpy (m_string_array this) n append append_length;
       Ok (mkFixedString a (Some (u32 (n + append_length)))));
  this ← AssureTermination this;
  n ← read_length this;
  Ok (n, this).

Definition GetLength (this : FixedString) : res Z := read_length this.
Definition GetString (this : FixedString) : list Z := m_string_array this.
End string.
End FixedString.

(** * HeapString: [fresh] is what the heap's new array of a size holds *)
Module HeapString.
Import CString.
Record HeapString := mkHeapString { m_string : option (list Z) }.

Definition construct (fresh : Z -> list Z) (string : list Z) : res HeapString :=
  n ← strlen string;
  let length := u32 n in
  a ← strncpy (fresh (u32 (length + 1))) 0 string length;
  Ok (mkHeapString (Some a)).
(** The array goes back to its heap, which keeps no more of it here. *)
Definition destroy (this : HeapString) : HeapString :=
  match m_string this with
  | Some _ => mkHeapString None
  | None => this
  end.
Definition GetString (this : HeapString) : option (list Z) := m_string this.
End HeapString.

(** * Character codes: a call the compiler rejects is a failed assertion *)
Module CharacterCode.
Import TString.

Definition TCharCode16 (string : list Z) : res Z :=
  size ← TStringLength string 3;
  if negb (size =? 2) then Fault AssertFailed else
  c1 ← arr_get string 0; c2 ← arr_get string 1;
  Ok (u16 (Z.lor (u32 c1) (u32 (Z.shiftl (u32 c2) 8)))).

Definition TCharCode32 (string : list Z) : res Z :=
  size ← TStringLength string 5;
  if negb (size =? 4) then Fault AssertFailed else
  c1 ← arr_get string 0; c2 ← arr_get string 1; c3 ← arr_get string 2; c4 ← arr_get string 3;
  Ok (Z.lor (Z.lor (Z.lor (u32 c1) (u32 (Z.shiftl (u32 c2) 8))) (u32 (Z.shiftl (u32 c3) 16)))
    (u32 (Z.shiftl (u32 c4) 24))).

Definition TCharCode64 (string : list Z) : res Z :=
  size ← TStringLength string 9;
  if negb (size =? 8) then Fault AssertFailed else
  c1 ← arr_get string 0; c2 ← arr_get string 1; c3 ← arr_get string 2; c4 ← arr_get string 3;
  c5 ← arr_get string 4; c6 ← arr_get string 5; c7 ← arr_get string 6; c8 ← arr_get string 7;
  Ok (Z.lor (Z.lor (Z.lor (Z.lor (Z.lor (Z.lor (Z.lor (u64 c1) (u64 (Z.shiftl (u64 c2) 8)))
    (u64 (Z.shiftl (u64 c3) 16))) (u64 (Z.shiftl (u64 c4) 24))) (u64 (Z.shiftl (u64 c5) 32)))
    (u64 (Z.shiftl (u64 c6) 40))) (u64 (Z.shiftl (u64 c7) 48))) (u64 (Z.shiftl (u64 c8) 56))).

(** The assertions of the header. *)
Example BY : TCharCode16 [66; 89; 0] = Ok 0x5942.
Proof. reflexivity. Qed.
Example BNSH : TCharCode32 [66; 78; 83; 72; 0] = Ok 0x48534e42.
Proof. reflexivity. Qed.
Example FRES : TCharCode64 [70; 82; 69; 83; 32; 32; 32; 32; 0] = Ok 0x2020202053455246.
Proof. reflexivity. Qed.
End CharacterCode.

(** * Strings in memory *)
Definition text (t : list Z) : Prop := Forall (fun c => c <> 0) t.
Definition terminated (src t : list Z) : Prop := text t /\ exists rest, src = t ++ 0 :: rest.
(** What printing an array prints. *)
Fixpoint cstr (a : list Z) : list Z :=
  match a with [] => [] | c :: a => if c =? 0 then [] else c :: cstr a end.

Section c_strings.
Import CString TString.
Implicit Types (src t dst l : list Z) (k n off : nat).

Lemma terminated_cons src t c : terminated (c :: src) (c :: t) <-> c <> 0 /\ terminated src t.
Proof.
  unfold terminated, text. rewrite Forall_cons. split.
  - intros [[? ?] [rest E]]. injection E as ->. split_and!; try done. by exists rest.
  - intros (? & ? & rest & ->). split_and!; try done. by exists rest.
Qed.

(** Induction over a terminated string. *)
Lemma terminated_ind (P : list Z -> list Z -> Prop) :
  (forall rest, P (0 :: rest) []) ->
  (forall c src t, (c =? 0) = false -> terminated src t -> P src t -> P (c :: src) (c :: t)) ->
  forall src t, terminated src t -> P src t.
Proof.
  intros H0 HS src t. revert src. induction t as [|c t IH]; intros src Ht.
  - destruct Ht as [_ [rest ->]]. apply H0.
  - assert (exists src', src = c :: src') as [src' ->] by (destruct Ht as [_ [rest ->]]; by eexists).
    apply terminated_cons in Ht as [Hc Ht]. apply HS; [by apply Z.eqb_neq|done|by apply IH].
Qed.

Lemma strlen_run src t : terminated src t -> strlen src = Ok (Z.of_nat (length t)).
Proof.
  revert src t. apply terminated_ind; [done|]. intros c src t Hc _ IH. cbn. rewrite Hc, IH. cbn. f_equal. lia.
Qed.

Lemma strnlen_run src t (n : Z) : terminated src t -> 0 <= n -> strnlen src n = Ok (Z.min (Z.of_nat (length t)) n).
Proof.
  intros Ht. revert n. pattern src, t. revert src t Ht. apply terminated_ind.
  - intros rest n Hn. cbn. destruct (Z.eqb_spec n 0) as [->|]; [done|]. f_equal. lia.
  - intros c src t Hc _ IH n Hn. cbn. destruct (Z.eqb_spec n 0) as [->|]; [f_equal; lia|].
    rewrite Hc, IH by lia. cbn. f_equal. lia.
Qed.

Lemma TStringLength_run src t m : terminated src t -> 0 <= m -> TStringLength src m = Ok (Z.min (Z.of_nat (length t)) m).
Proof.
  intros Ht Hm. unfold TStringLength.
  assert (forall len, 0 <= len <= m -> TStringLength_loop src m len = Ok (Z.min (len + Z.of_nat (length t)) m)) as E.
  { pattern src, t. revert src t Ht. apply terminated_ind.
    - intros rest len Hl. cbn. f_equal. lia.
    - intros c src t Hc _ IH len Hl. cbn [TStringLength_loop]. rewrite Hc. cbn.
      destruct (Z.ltb_spec len m); [rewrite IH by lia|]; f_equal; lia. }
  rewrite E by lia. done.
Qed.

Lemma copied_run src t n : terminated src t -> copied src n = Ok (take n t ++ replicate (n - length t) 0).
Proof.
  intros Ht. revert n. pattern src, t. revert src t Ht. apply terminated_ind.
  - intros rest [|n]; [done|]. cbn. by rewrite ?take_nil.
  - intros c src t Hc _ IH [|n]; [done|]. cbn. by rewrite Hc, IH.
Qed.

Lemma write_cons dst off c l :
  (off < length dst)%nat -> write (<[off := c]> dst) (S off) l = write dst off (c :: l).
Proof.
  intros Hoff. unfold write. rewrite (take_S_r _ _ c) by (by rewrite list_lookup_insert_eq).
  rewrite take_insert_ge, drop_insert_lt by (cbn; lia). rewrite <- app_assoc. cbn. do 4 f_equal. lia.
Qed.

Lemma write_one dst off c : (off < length dst)%nat -> <[off := c]> dst = write dst off [c].
Proof. intros Hoff. rewrite insert_take_drop by done. unfold write. cbn. by rewrite Nat.add_1_r. Qed.

Lemma write_write dst off l l2 :
  (off + length l <= length dst)%nat -> write (write dst off l) (off + length l) l2 = write dst off (l ++ l2).
Proof.
  intros Hl. assert (length (take off dst ++ l) = (off + length l)%nat) as E.
  { rewrite length_app, length_take. lia. }
  assert (write dst off l = (take off dst ++ l) ++ drop (off + length l) dst) as -> by (unfold write; by rewrite app_assoc).
  unfold write. rewrite take_app_length' by done. rewrite drop_app_ge by lia.
  rewrite E, drop_drop, length_app, <- !app_assoc. do 4 f_equal. lia.
Qed.

Lemma length_write dst off l : (off + length l <= length dst)%nat -> length (write dst off l) = length dst.
Proof. intros Hl. unfold write. rewrite !length_app, length_take, length_drop. lia. Qed.

(** TStringCopy writes the characters that fit [m] and a terminator. *)
Lemma TStringCopy_run src t dst off m :
  terminated src t -> 0 <= m -> (off + Nat.min (length t) (Z.to_nat m) < length dst)%nat ->
  TStringCopy dst (Z.of_nat off) src m =
    Ok (Z.min (Z.of_nat (length t)) m, write dst off (take (Z.to_nat m) t ++ [0])).
Proof.
  intros Ht Hm Hoff. unfold TStringCopy.
  assert (forall dst len, Z.of_nat len <= m -> (off + len + Nat.min (length t) (Z.to_nat m - len) < length dst)%nat ->
    TStringCopy_loop dst (Z.of_nat off) src m (Z.of_nat len) =
      Ok (Z.min (Z.of_nat len + Z.of_nat (length t)) m, write dst (off + len) (take (Z.to_nat m - len) t))) as E.
  { clear Hoff dst. pattern src, t. revert src t Ht. apply terminated_ind.
    - intros rest dst len Hl Hd. cbn. rewrite take_nil. unfold write. cbn. rewrite Nat.add_0_r, take_drop.
      do 2 f_equal. lia.
    - intros c src t Hc _ IH dst len Hl Hd. cbn [TStringCopy_loop length] in *. rewrite Hc. cbn [negb andb].
      destruct (Z.ltb_spec (Z.of_nat len) m) as [Hlt|Hge].
      + rewrite <- Nat2Z.inj_add, arr_set_insert by lia. cbn [mbind res_bind].
        replace (Z.of_nat len + 1) with (Z.of_nat (S len)) by lia.
        rewrite IH; [|lia|rewrite length_insert; lia].
        replace (Z.to_nat m - len)%nat with (S (Z.to_nat m - S len)) by lia. cbn [take].
        replace (off + S len)%nat with (S (off + len)) by lia. rewrite write_cons by lia.
        do 2 f_equal. lia.
      + replace (Z.to_nat m - len)%nat with O by lia. cbn. unfold write. cbn.
        rewrite Nat.add_0_r, take_drop. do 2 f_equal. lia. }
  specialize (E dst O). rewrite Nat.sub_0_r, !Nat.add_0_r in E. change (Z.of_nat 0) with 0 in E.
  rewrite Z.add_0_l in E. rewrite E by lia. cbn [mbind res_bind].
  assert (Z.of_nat off + Z.min (Z.of_nat (length t)) m = Z.of_nat (off + length (take (Z.to_nat m) t))) as ->.
  { rewrite length_take. lia. }
  rewrite arr_set_insert by (rewrite length_write; rewrite length_take; lia).
  cbn [mbind res_bind]. rewrite write_one, write_write; [done| |rewrite length_write]; rewrite length_take; lia.
Qed.

Lemma cstr_app t l : text t -> cstr (t ++ l) = t ++ cstr l.
Proof.
  intros Ht. induction Ht as [|c t Hc Ht IH]; [done|]. cbn. rewrite IH.
  by destruct (Z.eqb_spec c 0).
Qed.
End c_strings.

(** * FixedString: the array of a string that has been built is its text, then zeros *)
Section fixed_string.
Import CString TString FixedString.
Context (N : nat) (HN : 0 < Z.of_nat N < 65535).
Local Abbreviation Size := (Z.of_nat N).
Implicit Types (s t src : list Z) (fs : FixedString).

Definition padded s : list Z := s ++ replicate (N - length s) 0.

Record holds fs s : Prop := {
  h_array : m_string_array fs = padded s;
  h_length : m_length fs = Some (Z.of_nat (length s));
  h_fits : (length s < N)%nat;
  h_text : text s
}.

Lemma length_padded s : (length s <= N)%nat -> length (padded s) = N.
Proof. intros Hs. unfold padded. rewrite length_app, length_replicate. lia. Qed.

Lemma cleared_padded : cleared Size = padded [].
Proof. unfold cleared, padded. by rewrite Nat2Z.id, Nat.sub_0_r. Qed.

Lemma padded_zero s : (length s < N)%nat -> padded (s ++ [0]) = padded s.
Proof.
  intros Hs. unfold padded. rewrite length_app, <- app_assoc. f_equal. cbn.
  replace (N - length s)%nat with (S (N - (length s + 1))) by lia. done.
Qed.

Lemma padded_last s : (length s < N)%nat -> padded s !! (N - 1)%nat = Some 0.
Proof. intros Hs. unfold padded. rewrite lookup_app_r by lia. apply lookup_replicate_2. lia. Qed.

(** Writing at the end of the text, and at its start. *)
Lemma write_end s l : (length s + length l <= N)%nat -> write (padded s) (length s) l = padded (s ++ l).
Proof.
  intros Hl. unfold write, padded. rewrite take_app_length, drop_app_ge, drop_replicate by lia.
  rewrite length_app, <- app_assoc. do 3 f_equal. lia.
Qed.

Lemma write_start s l : (length s <= N)%nat -> (length l <= N)%nat -> write (padded s) 0 l = padded (l ++ drop (length l) s).
Proof.
  intros Hs Hl. unfold write, padded. cbn. rewrite drop_app, drop_replicate, length_app, length_drop, <- app_assoc.
  rewrite take_0. cbn. do 3 f_equal. lia.
Qed.

Lemma AssureTermination_padded s n :
  (length s < N)%nat -> AssureTermination Size (mkFixedString (padded s) n) = Ok (mkFixedString (padded s) n).
Proof.
  intros Hs. unfold AssureTermination. cbn. replace (Size - 1) with (Z.of_nat (N - 1)) by lia.
  rewrite arr_set_insert by (rewrite length_padded; lia). cbn. by rewrite list_insert_id by (by apply padded_last).
Qed.

Lemma u32_length s : (length s < N)%nat -> u32 (Z.of_nat (length s)) = Z.of_nat (length s).
Proof. intros Hs. unfold u32. rewrite wrap_small; lia. Qed.

Lemma text_take n t : text t -> text (take n t).
Proof. apply Forall_take. Qed.

(** strncpy of a string that fits, at the end of the text. *)
Lemma strncpy_padded s src t n off : terminated src t -> (n <= length t)%nat -> (off + n <= N)%nat -> (length s <= N)%nat ->
  strncpy (padded s) (Z.of_nat off) src (Z.of_nat n) = Ok (write (padded s) off (take n t)).
Proof.
  intros Ht Hn Hoff Hs. unfold strncpy. rewrite length_padded by done.
  destruct (Z.ltb_spec Size (Z.of_nat off + Z.of_nat n)); [lia|].
  rewrite !Nat2Z.id, (copied_run _ _ _ Ht). cbn. by replace (n - length t)%nat with O by lia; rewrite app_nil_r.
Qed.

(** The constructor. *)
Lemma construct_const src t : terminated src t ->
  exists fs, construct_string Size true src = Ok fs /\ holds fs (take (N - 1) t).
Proof.
  intros Ht. unfold construct_string. rewrite (TStringLength_run _ _ _ Ht) by lia. cbn [mbind res_bind].
  rewrite cleared_padded. rewrite (TStringCopy_run _ _ (padded []) 0 _ Ht); [|lia|rewrite length_padded by (cbn; lia); lia].
  cbn [mbind res_bind].
  assert (take (Z.to_nat (Z.min (Z.of_nat (length t)) (Size - 1))) t = take (N - 1) t) as ->.
  { destruct (decide (length t <= N - 1)%nat); [rewrite !take_ge by lia; done|f_equal; lia]. }
  set (s := take (N - 1) t). assert (length s < N)%nat by (unfold s; rewrite length_take; lia).
  rewrite (write_end []) by (cbn; rewrite length_app; cbn; lia). cbn [app]. rewrite padded_zero by done.
  rewrite AssureTermination_padded by done. eexists. split; [done|].
  split; [done| |done|]; cbn; [|by apply text_take, (proj1 Ht)].
  replace (Z.min _ _) with (Z.of_nat (length s)) by (unfold s; rewrite length_take; lia). by rewrite u32_length.
Qed.

Lemma construct_run src t : terminated src t -> (length t < N)%nat ->
  exists fs, construct_string Size false src = Ok fs /\ holds fs t.
Proof.
  intros Ht Hn. unfold construct_string. rewrite (strnlen_run _ _ _ Ht) by lia. cbn [mbind res_bind].
  rewrite Z.min_l by lia. rewrite cleared_padded. unfold strncpy. rewrite length_padded by (cbn; lia).
  destruct (Z.ltb_spec Size (0 + (Z.of_nat (length t) + 1))); [lia|].
  rewrite (copied_run _ _ _ Ht). cbn [mbind res_bind].
  replace (Z.to_nat (Z.of_nat (length t) + 1)) with (S (length t)) by lia.
  rewrite take_ge by lia. replace (S (length t) - length t)%nat with 1%nat by lia.
  rewrite (write_end []) by (cbn; rewrite length_app; cbn; lia). cbn [app]. rewrite padded_zero by done.
  rewrite AssureTermination_padded by done. eexists. split; [done|].
  split; [done| |done|by destruct Ht]. cbn. by rewrite u32_length.
Qed.

(** Constructing a FixedString from a string of fewer than Size characters gives the same object at
    run time and in constant evaluation: the text, zeros behind it, and its length. A longer string is cut
    to Size - 1 characters in constant evaluation; at run time Size + 1 characters are copied, one more
    than the array has, where the rest of the constructor assumes that it has been cut. *)
Theorem fixed_string_construct src t :
  terminated src t ->
  (exists fs, construct_string Size true src = Ok fs /\ holds fs (take (N - 1) t)) /\
  ((length t < N)%nat -> exists fs, construct_string Size false src = Ok fs /\ holds fs t) /\
  ((N <= length t)%nat -> construct_string Size false src = Fault OutOfBounds).
Proof.
  intros Ht. split; [by apply construct_const|]. split; [by apply construct_run|]. intros Hn.
  unfold construct_string. rewrite (strnlen_run _ _ _ Ht) by lia. cbn [mbind res_bind].
  rewrite Z.min_r by lia. rewrite cleared_padded. unfold strncpy. rewrite length_padded by (cbn; lia).
  by destruct (Z.ltb_spec Size (0 + (Size + 1))); [|lia].
Qed.


(** Assigning a string at run time copies its characters without a terminator and then sets only the
    last character of the array: when the old text was longer its tail stays behind the new text, with the
    length of the new text recorded. In constant evaluation the new text is terminated. *)
Theorem fixed_string_assign fs s src t :
  holds fs s -> terminated src t ->
  (exists fs', assign_string Size false fs src = Ok fs' /\
    m_length fs' = Some (Z.of_nat (length (take (N - 1) t))) /\
    m_string_array fs' = padded (take (N - 1) t ++ drop (length (take (N - 1) t)) s)) /\
  (exists fs', assign_string Size true fs src = Ok fs' /\
    m_length fs' = Some (Z.of_nat (length (take (N - 1) t))) /\ cstr (m_string_array fs') = take (N - 1) t).
Proof.
  intros [Ha Hl Hfit Htext] Ht. set (r := take (N - 1) t).
  assert (length r < N)%nat as Hr by (unfold r; rewrite length_take; lia).
  assert (Z.min (Z.of_nat (length t)) (Size - 1) = Z.of_nat (length r)) as Emin by (unfold r; rewrite length_take; lia).
  assert (take (length r) t = r) as Etake by (unfold r; rewrite length_take; destruct (decide (length t <= N - 1)%nat);
    [rewrite !take_ge by lia; done|f_equal; lia]).
  unfold assign_string. rewrite (strnlen_run _ _ _ Ht), (TStringLength_run _ _ _ Ht), Emin, Ha by lia.
  cbn [mbind res_bind]. rewrite (strncpy_padded s src t _ 0 Ht) by (unfold r; rewrite ?length_take; lia).
  rewrite (TStringCopy_run _ _ _ 0 _ Ht) by (rewrite ?length_padded; rewrite ?Nat2Z.id; lia).
  replace (Z.min (Z.of_nat (length t)) (Z.of_nat (length r))) with (Z.of_nat (length r)) by lia.
  rewrite Nat2Z.id, Etake, !u32_length by done. split; eexists.
  - cbn [mbind res_bind]. rewrite write_start by lia.
    rewrite AssureTermination_padded by (rewrite length_app, length_drop; lia). done.
  - cbn [mbind res_bind]. split; [done|]. split; [cbn; by rewrite u32_length|]. cbn [m_string_array].
    unfold write. rewrite take_0. cbn [app]. rewrite <- app_assoc, (cstr_app r) by (apply text_take, (proj1 Ht)).
    cbn. by rewrite app_nil_r.
Qed.
End fixed_string.

Section formatting.
Import CString FixedString.
Context (N : nat) (HN : 0 < Z.of_nat N < 65535).
Local Abbreviation Size := (Z.of_nat N).
Implicit Types (s t : list Z) (fs : FixedString).

(** Formatting a text that fits. *)
Lemma Format_fits fs t : length (m_string_array fs) = N -> text t -> (length t < N)%nat ->
  exists fs', Format Size fs t = Ok (Z.of_nat (length t), fs') /\ cstr (m_string_array fs') = t /\
    m_length fs' = Some (Z.of_nat (length t)).
Proof.
  intros Ha Ht Hn. unfold Format, vsnprintf.
  destruct (Z.leb_spec (2 ^ 31) (Z.of_nat (length t))); [lia|]. destruct (Z.eqb_spec Size 0); [lia|].
  rewrite Z.min_l by lia. rewrite Ha. destruct (Z.ltb_spec Size (0 + Z.of_nat (length t) + 1)); [lia|].
  cbn [mbind res_bind]. destruct (Z.leb_spec 0 (Z.of_nat (length t))); [|lia]. cbn [negb].
  rewrite Nat2Z.id, take_ge by lia. unfold u32. rewrite wrap_small by lia. unfold AssureTermination. cbn [m_string_array].
  set (a := write _ _ _). assert (length a = N) as Hla by (unfold a; rewrite length_write; rewrite ?length_app; cbn; lia).
  replace (Size - 1) with (Z.of_nat (N - 1)) by lia. rewrite arr_set_insert by lia.
  eexists. split; [done|]. split; [|done]. cbn [m_string_array].
  unfold a, write. cbn [take app Z.to_nat]. rewrite take_0. cbn [app]. rewrite <- app_assoc.
  rewrite insert_app_r_alt by lia. rewrite cstr_app by done. cbn [app].
  destruct (N - 1 - length t)%nat; cbn; by rewrite app_nil_r.
Qed.

Lemma Format_cut fs t : length (m_string_array fs) = N -> text t -> (N <= length t)%nat -> Z.of_nat (length t) < 2 ^ 31 ->
  exists fs', Format Size fs t = Ok (Z.of_nat (length t), fs') /\ cstr (m_string_array fs') = take (N - 1) t /\
    m_length fs' = Some (Z.of_nat (length t)) /\ length (m_string_array fs') = N.
Proof.
  intros Ha Ht Hn Hb. unfold Format, vsnprintf.
  destruct (Z.leb_spec (2 ^ 31) (Z.of_nat (length t))); [lia|]. destruct (Z.eqb_spec Size 0); [lia|].
  rewrite Z.min_r by lia. rewrite Ha. destruct (Z.ltb_spec Size (0 + (Size - 1) + 1)); [lia|].
  cbn [mbind res_bind]. destruct (Z.leb_spec 0 (Z.of_nat (length t))); [|lia]. cbn [negb].
  replace (Z.to_nat (Size - 1)) with (N - 1)%nat by lia. unfold AssureTermination. cbn [m_string_array].
  set (r := take (N - 1) t). assert (length r = N - 1)%nat as Hr by (unfold r; rewrite length_take; lia).
  assert (write (m_string_array fs) (Z.to_nat 0) (r ++ [0]) = r ++ [0]) as ->.
  { unfold write. cbn [Z.to_nat]. rewrite take_0, drop_ge, app_nil_r; [done|rewrite length_app; cbn; lia]. }
  replace (Size - 1) with (Z.of_nat (N - 1)) by lia. rewrite arr_set_insert by (rewrite length_app; cbn; lia).
  rewrite insert_app_r_alt, Hr, Nat.sub_diag by lia. unfold u32. rewrite wrap_small by lia.
  eexists. split; [done|]. cbn. split; [|split; [done|rewrite length_app; cbn; lia]].
  rewrite cstr_app by (by apply text_take). cbn. by rewrite app_nil_r.
Qed.

Lemma TStringCopy_outside dst off src t m : terminated src t -> (length dst <= off)%nat ->
  TString.TStringCopy dst (Z.of_nat off) src m = Fault OutOfBounds.
Proof.
  intros [_ [rest ->]] Hoff. unfold TString.TStringCopy.
  destruct t as [|c t]; cbn [TString.TStringCopy_loop app Z.eqb negb andb mbind res_bind].
  - by rewrite Z.add_0_r, arr_set_oob.
  - case_match; cbn [mbind res_bind]; by rewrite Z.add_0_r, arr_set_oob.
Qed.

(** What follows the end of the array is written to. *)
Lemma append_behind fs n src t ce :
  length (m_string_array fs) = N -> m_length fs = Some (Z.of_nat n) -> (N < n)%nat -> Z.of_nat n < 2 ^ 31 ->
  terminated src t -> Append Size ce fs src = Fault OutOfBounds.
Proof.
  intros Ha Hl Hn Hb Ht. unfold Append, read_length. rewrite Hl. cbn [mbind res_bind].
  assert (0 <= u64 (Size - Z.of_nat n - 1)) as Hu by (apply wrap_range; lia).
  rewrite (TStringLength_run _ _ _ Ht), (strnlen_run _ _ _ Ht) by done. cbn [mbind res_bind].
  rewrite (TStringCopy_outside _ _ _ _ _ Ht) by lia. unfold strncpy. rewrite Ha.
  destruct (Z.ltb_spec Size (Z.of_nat n + Z.min (Z.of_nat (length t)) (u64 (Size - Z.of_nat n - 1)))); [|lia].
  by destruct ce.
Qed.

Lemma append_format_behind fs n t :
  length (m_string_array fs) = N -> m_length fs = Some (Z.of_nat n) -> (N < n)%nat -> Z.of_nat n < 2 ^ 31 ->
  Z.of_nat (length t) < 2 ^ 31 -> AppendFormat Size fs t = Fault OutOfBounds.
Proof.
  intros Ha Hl Hn Hb Ht. unfold AppendFormat, read_length. rewrite Hl. cbn [mbind res_bind]. unfold vsnprintf.
  destruct (Z.leb_spec (2 ^ 31) (Z.of_nat (length t))); [lia|].
  assert (u64 (Size - Z.of_nat n) = 2 ^ 64 + (Size - Z.of_nat n)) as ->.
  { unfold u64, wrap. rewrite <- (Z_mod_plus_full _ 1), Z.mod_small; lia. }
  destruct (Z.eqb_spec (2 ^ 64 + (Size - Z.of_nat n)) 0); [lia|]. rewrite Z.min_l by lia. rewrite Ha.
  by destruct (Z.ltb_spec Size (Z.of_nat n + Z.of_nat (length t) + 1)); [|lia].
Qed.

(** Format keeps a text that fits and returns its length. For a text of more than Size characters the
    array holds the first Size - 1 of them but the recorded length is that of the whole text: Append and
    AppendFormat then compute the room left as a difference that wraps around, and write behind the array. *)
Theorem fixed_string_format fs t t' src ce :
  length (m_string_array fs) = N -> text t -> Z.of_nat (length t) < 2 ^ 31 ->
  terminated src t' -> Z.of_nat (length t') < 2 ^ 31 ->
  ((length t < N)%nat -> exists fs', Format Size fs t = Ok (Z.of_nat (length t), fs') /\
    cstr (m_string_array fs') = t /\ m_length fs' = Some (Z.of_nat (length t))) /\
  ((N < length t)%nat -> exists fs', Format Size fs t = Ok (Z.of_nat (length t), fs') /\
    cstr (m_string_array fs') = take (N - 1) t /\
    AppendFormat Size fs' t' = Fault OutOfBounds /\ Append Size ce fs' src = Fault OutOfBounds).
Proof.
  intros Ha Ht Hb Hs Hb'. split; intros Hn; [by apply Format_fits|].
  destruct (Format_cut fs t Ha Ht ltac:(lia) Hb) as (fs' & E & Ec & El & Ea). exists fs'.
  split_and!; [done|done|by eapply append_format_behind|by eapply append_behind].
Qed.
End formatting.

(** * Comparison and character codes *)
Section comparison.
Import TString.

(** TStringCompare tells whether two strings agree up to their first [max_size] characters, and reads
    neither of them behind its terminator. *)
Theorem string_compare a b s t (max_size : Z) :
  terminated a s -> terminated b t -> 0 <= max_size ->
  TStringCompare a b max_size = Ok (bool_decide (take (Z.to_nat max_size) s = take (Z.to_nat max_size) t)).
Proof.
  intros Ha Hb Hm. unfold TStringCompare.
  assert (forall len, 0 <= len <= max_size -> TStringCompare_loop a b max_size len =
    Ok (bool_decide (take (Z.to_nat (max_size - len)) s = take (Z.to_nat (max_size - len)) t))) as E.
  { revert b t Hb. pattern a, s. revert a s Ha. apply terminated_ind.
    - intros rest b t Hb len Hl. cbn -[Z.eqb Z.ltb]. destruct (Z.ltb_spec len max_size) as [Hlt|Hge].
      + replace (Z.to_nat (max_size - len)) with (S (Z.to_nat (max_size - len - 1))) by lia.
        revert b t Hb. apply terminated_ind; [by intros; cbn; rewrite bool_decide_true|].
        intros c src t Hc _ _. cbn -[Z.eqb]. rewrite (Z.eqb_sym 0 c), Hc. cbn. by rewrite bool_decide_false.
      + replace (max_size - len) with 0 by lia. by rewrite bool_decide_true.
    - intros c src s Hc _ IH b t Hb len Hl. cbn [TStringCompare_loop]. destruct (Z.ltb_spec len max_size) as [Hlt|Hge].
      + replace (Z.to_nat (max_size - len)) with (S (Z.to_nat (max_size - (len + 1)))) by lia.
        revert b t Hb. apply terminated_ind.
        * intros rest. cbn -[Z.eqb]. rewrite Hc. cbn. by rewrite bool_decide_false.
        * intros d b t Hd Hb _. rewrite Hc. cbn [andb negb]. rewrite andb_true_r. cbn [take].
          destruct (Z.eqb_spec c d) as [->|Hne]; [rewrite (IH b t Hb) by lia; do 2 f_equal|by rewrite bool_decide_false by congruence].
          apply bool_decide_ext. split; congruence.
      + replace (max_size - len) with 0 by lia. by rewrite bool_decide_true. }
  rewrite E by lia. by rewrite Z.sub_0_r.
Qed.
End comparison.

Section codes.
Import CharacterCode.

(** The number whose bytes, lowest first, are the characters. *)
Fixpoint little_endian (cs : list Z) : Z := match cs with [] => 0 | c :: cs => c + 256 * little_endian cs end.
Definition ascii (cs : list Z) : Prop := Forall (fun c => 0 < c < 128) cs.

Lemma ascii_text cs : ascii cs -> text cs.
Proof. intros H. eapply Forall_impl; [exact H|]. cbn. lia. Qed.

Lemma little_endian_range cs : ascii cs -> 0 <= little_endian cs < 256 ^ Z.of_nat (length cs).
Proof.
  intros H. induction H as [|c cs Hc H IH]; cbn [little_endian length]; [lia|].
  rewrite Nat2Z.inj_succ, Z.pow_succ_r by lia. lia.
Qed.

Lemma little_endian_inj cs ds : ascii cs -> ascii ds -> length cs = length ds -> little_endian cs = little_endian ds -> cs = ds.
Proof.
  intros H. revert ds. induction H as [|c cs Hc H IH]; intros [|d ds] Hd Hl E; try done.
  apply Forall_cons in Hd as [Hd Hds]. cbn in E, Hl. assert (c = d /\ little_endian cs = little_endian ds) as [-> ?] by lia.
  f_equal. apply IH; [done|lia|done].
Qed.

(** The next byte of a code under construction. *)
Lemma lor_byte w v c n m : 0 <= n -> m = n + 8 -> m <= w -> 0 <= v < 2 ^ n -> 0 < c < 128 ->
  Z.lor v (wrap w (Z.shiftl (wrap w c) n)) = v + c * 2 ^ n /\ 0 <= v + c * 2 ^ n < 2 ^ m.
Proof.
  intros Hn -> Hw Hv Hc. assert (2 ^ (n + 8) <= 2 ^ w) as Hle by (apply Z.pow_le_mono_r; lia).
  rewrite Z.pow_add_r in * by lia. change (2 ^ 8) with 256 in *.
  assert (0 < 2 ^ n) by (by apply Z.pow_pos_nonneg).
  rewrite (wrap_small w c), (wrap_small w) by (rewrite ?Z.shiftl_mul_pow2; nia).
  rewrite lor_disjoint_add by lia. split; [done|]. nia.
Qed.

(** Rewrites the innermost union of a byte as a sum. *)
Ltac next_byte m := match goal with
  | |- context [Z.lor ?v (wrap ?w (Z.shiftl (wrap ?w ?c) ?n))] =>
    lazymatch v with context [Z.lor] => fail | _ => idtac end;
    let E := fresh in let R := fresh in
    destruct (lor_byte w v c n m) as [E R]; [lia|lia|lia|lia|lia|rewrite E; clear E] end.

Lemma TStringLength_ascii cs rest (m : Z) : ascii cs -> 0 <= m ->
  TString.TStringLength (cs ++ 0 :: rest) m = Ok (Z.min (Z.of_nat (length cs)) m).
Proof. intros Hc Hm. apply TStringLength_run; [|done]. split; [by apply ascii_text|by eexists]. Qed.

Lemma TCharCode16_run cs rest : ascii cs -> length cs = 2%nat -> TCharCode16 (cs ++ 0 :: rest) = Ok (little_endian cs).
Proof.
  intros Hc Hl. unfold TCharCode16. rewrite TStringLength_ascii, Hl by (done || lia).
  destruct cs as [|c1 [|c2 [|]]]; try done. unfold ascii in Hc. rewrite !Forall_cons in Hc. destruct Hc as (H1 & H2 & _).
  cbv -[Z.lor Z.shiftl Z.add Z.mul u32 u16].
  unfold u32. rewrite (wrap_small 32 c1) by lia. next_byte 16. unfold u16. rewrite wrap_small by lia. f_equal. lia.
Qed.

Lemma TCharCode32_run cs rest : ascii cs -> length cs = 4%nat -> TCharCode32 (cs ++ 0 :: rest) = Ok (little_endian cs).
Proof.
  intros Hc Hl. unfold TCharCode32. rewrite TStringLength_ascii, Hl by (done || lia).
  destruct cs as [|c1 [|c2 [|c3 [|c4 [|]]]]]; try done. unfold ascii in Hc. rewrite !Forall_cons in Hc.
  destruct Hc as (H1 & H2 & H3 & H4 & _). cbv -[Z.lor Z.shiftl Z.add Z.mul u32].
  unfold u32. rewrite (wrap_small 32 c1) by lia. next_byte 16. next_byte 24. next_byte 32. f_equal. lia.
Qed.

Lemma TCharCode64_run cs rest : ascii cs -> length cs = 8%nat -> TCharCode64 (cs ++ 0 :: rest) = Ok (little_endian cs).
Proof.
  intros Hc Hl. unfold TCharCode64. rewrite TStringLength_ascii, Hl by (done || lia).
  destruct cs as [|c1 [|c2 [|c3 [|c4 [|c5 [|c6 [|c7 [|c8 [|]]]]]]]]]; try done.
  unfold ascii in Hc. rewrite !Forall_cons in Hc. destruct Hc as (H1 & H2 & H3 & H4 & H5 & H6 & H7 & H8 & _).
  cbv -[Z.lor Z.shiftl Z.add Z.mul u64]. unfold u64. rewrite (wrap_small 64 c1) by lia.
  next_byte 16. next_byte 24. next_byte 32. next_byte 40. next_byte 48. next_byte 56. next_byte 64. f_equal. lia.
Qed.

(** The code of a string of ASCII characters is the number whose bytes, lowest first, are its
    characters, for the three widths; different strings have different codes; and a call for a string of
    another length than the code's does not compile. *)
Theorem character_codes cs rest :
  ascii cs ->
  (length cs = 2%nat -> TCharCode16 (cs ++ 0 :: rest) = Ok (little_endian cs)) /\
  (length cs = 4%nat -> TCharCode32 (cs ++ 0 :: rest) = Ok (little_endian cs)) /\
  (length cs = 8%nat -> TCharCode64 (cs ++ 0 :: rest) = Ok (little_endian cs)) /\
  (length cs <> 4%nat -> TCharCode32 (cs ++ 0 :: rest) = Fault AssertFailed) /\
  (forall ds, ascii ds -> length ds = 4%nat -> length cs = 4%nat ->
    TCharCode32 (ds ++ 0 :: rest) = TCharCode32 (cs ++ 0 :: rest) -> ds = cs).
Proof.
  intros Hc. split_and!; [by apply TCharCode16_run|by apply TCharCode32_run|by apply TCharCode64_run| |].
  - intros Hl. unfold TCharCode32. rewrite TStringLength_ascii by (done || lia). cbn [mbind res_bind].
    by destruct (Z.eqb_spec (Z.min (Z.of_nat (length cs)) 5) 4); [lia|].
  - intros ds Hd Hdl Hcl. rewrite !TCharCode32_run by done. intros [= E]. apply little_endian_inj; congruence.
Qed.
End codes.

(** A HeapString holds the characters of the string it is made from, but the array's last character,
    which should be the terminator, is whatever the heap's memory held. *)
Theorem heap_string_unterminated fresh src t :
  terminated src t -> Z.of_nat (length t) < 2 ^ 32 - 1 -> (forall n, 0 <= n -> length (fresh n) = Z.to_nat n) ->
  let size := Z.of_nat (length t) + 1 in
  HeapString.construct fresh src = Ok (HeapString.mkHeapString (Some (t ++ drop (length t) (fresh size)))) /\
  length (drop (length t) (fresh size)) = 1%nat.
Proof.
  intros Ht Hb Hf size. unfold HeapString.construct. rewrite (strlen_run _ _ Ht). cbn [mbind res_bind].
  unfold u32. rewrite (wrap_small 32 (Z.of_nat (length t))), wrap_small by lia. fold size.
  unfold CString.strncpy. rewrite Hf by lia. destruct (Z.ltb_spec (Z.of_nat (Z.to_nat size)) (0 + Z.of_nat (length t))); [lia|].
  rewrite Nat2Z.id, (copied_run _ _ _ Ht), take_ge, Nat.sub_diag, app_nil_r by lia. cbn [mbind res_bind].
  split; [|rewrite length_drop, Hf; lia]. unfold CString.write. cbn [Z.to_nat]. by rewrite take_0.
Qed.

(** * Witnesses *)
Lemma terminated_abc : terminated [97; 98; 99; 0] [97; 98; 99].
Proof. split; [by repeat constructor|by exists []]. Qed.

Definition example_ab : FixedString.FixedString := FixedString.mkFixedString [97; 98; 0; 0; 0; 0; 0; 0] (Some 2).
Lemma example_ab_holds : holds 8 example_ab [97; 98].
Proof. split; [done|done|cbn; lia|by repeat constructor]. Qed.

Lemma fixed_string_construct_witness :
  (exists fs, FixedString.construct_string 8 false [97; 98; 99; 0] = Ok fs /\ holds 8 fs [97; 98; 99]) /\
  FixedString.construct_string 2 false [97; 98; 99; 0] = Fault OutOfBounds.
Proof.
  split.
  - destruct (fixed_string_construct 8 ltac:(lia) _ _ terminated_abc) as (_ & E & _). apply E. cbn. lia.
  - destruct (fixed_string_construct 2 ltac:(lia) _ _ terminated_abc) as (_ & _ & E). apply E. cbn. lia.
Defined.


Lemma fixed_string_assign_witness :
  exists fs, FixedString.assign_string 8 false (FixedString.mkFixedString [120; 120; 120; 120; 121; 0; 0; 0] (Some 5))
    [97; 98; 99; 0] = Ok fs /\ FixedString.m_length fs = Some 3 /\
    FixedString.m_string_array fs = [97; 98; 99; 120; 121; 0; 0; 0].
Proof.
  destruct (fixed_string_assign 8 ltac:(lia) (FixedString.mkFixedString [120; 120; 120; 120; 121; 0; 0; 0] (Some 5))
    [120; 120; 120; 120; 121] _ _ ltac:(split; [done|done|cbn; lia|by repeat constructor]) terminated_abc)
    as [(fs & E & El & Ea) _].
  exists fs. by rewrite El, Ea.
Defined.

Lemma fixed_string_format_witness :
  exists fs, FixedString.Format 2 (FixedString.mkFixedString [0; 0] None) [97; 98; 99] = Ok (3, fs) /\
    FixedString.Append 2 false fs [97; 98; 99; 0] = Fault OutOfBounds.
Proof.
  destruct (fixed_string_format 2 ltac:(lia) (FixedString.mkFixedString [0; 0] None) [97; 98; 99] _ _ false
    eq_refl ltac:(by repeat constructor) ltac:(cbn; lia) terminated_abc ltac:(cbn; lia)) as [_ H].
  destruct (H ltac:(cbn; lia)) as (fs & E & _ & _ & Ea). by exists fs.
Defined.

Lemma string_compare_witness :
  TString.TStringCompare [97; 98; 99; 0] [97; 98; 99; 0] 16 = Ok true.
Proof. exact (string_compare _ _ _ _ 16 terminated_abc terminated_abc ltac:(lia)). Defined.

Lemma character_codes_witness : CharacterCode.TCharCode32 [66; 78; 83; 72; 0] = Ok (little_endian [66; 78; 83; 72]).
Proof.
  destruct (character_codes [66; 78; 83; 72] []) as (_ & E & _); [repeat constructor; lia|]. by apply E.
Defined.

Lemma heap_string_unterminated_witness :
  HeapString.construct (fun n => replicate (Z.to_nat n) 205) [97; 98; 99; 0] =
    Ok (HeapString.mkHeapString (Some [97; 98; 99; 205])).
Proof.
  exact (proj1 (heap_string_unterminated (fun n => replicate (Z.to_nat n) 205) _ _ terminated_abc ltac:(cbn; lia)
    (fun n _ => length_replicate _ _))).
Defined.
