(* ===== verification/ExpHeap.v ===== *)
(** The expandable heap (mem_expheap.hpp, mem_expheap.cpp) with the parts of its base class that it uses
    (mem_heap.hpp): the free list and the list of allocated blocks, whose nodes are in headers in front of
    the blocks.

    An address is the [Z] of its value.  The headers that are alive are a map from their addresses: making a
    header ends the life of those it overlaps, and the access to a header that is not alive faults.  The
    members a header's or the heap's constructor does not set are [None] until they are assigned to. *)
From stdpp Require Import functions.
From S2P Require Import Prelude IntrusiveList ListFamily.
From S2P Require Import Alignment Strings.

(** What the heap needs of its ServiceCriticalSection. *)
Class HeapLock (CS : Type) : Type := {
  heap_cs_Enter : CS -> res CS;
  heap_cs_Leave : CS -> res CS
}.

(** * Local variables of a loop, as an extension of the state *)
Section locals.
Context {S L A : Type}.
Definition locally (l : L) (m : M (S * L) A) : M S (A * L) := fun s =>
  match m (s, l) with Ok (a, (s', l')) => Ok ((a, l'), s') | Fault f => Fault f end.
Definition outer (m : M S A) : M (S * L) A := fun '(s, l) =>
  match m s with Ok (a, s') => Ok (a, (s', l)) | Fault f => Fault f end.
End locals.
Definition get_local {S L} : M (S * L) L := gets snd.
Definition set_local {S L} (l : L) : M (S * L) unit := modify (fun sl => (fst sl, l)).

#[export] Instance local_nodes {A} `{Countable A} {S L} `{!HasNodes A S} : HasNodes A (S * L).
Proof.
  refine {| nodes := fun sl => nodes (fst sl); set_nodes := fun m sl => (set_nodes m (fst sl), snd sl) |}.
  - intros m [s l]. apply nodes_set_nodes.
  - intros m m' [s l]. cbn. by rewrite set_nodes_set_nodes.
  - intros [s l]. cbn. by rewrite set_nodes_nodes.
Defined.

Module ExpHeap.
Import Alignment.

Inductive HeapNode : Type :=
  | FreeHead               (* m_free_block_list *)
  | AllocatedHead          (* m_allocated_block_list *)
  | Block (address : Z)    (* exp_list_node of the header at an address *)
  | ChildHead              (* m_child_list *)
  | ChildNode (heap : Z).  (* m_child_list_node of the heap at an address *)

#[export] Instance HeapNode_eq_dec : EqDecision HeapNode.
Proof. solve_decision. Defined.
#[export] Instance HeapNode_countable : Countable HeapNode.
Proof.
  refine (inj_countable'
    (fun n => match n with FreeHead => inl (inl 0) | AllocatedHead => inl (inl 1) | ChildHead => inl (inl 2)
                         | Block a => inl (inr a) | ChildNode a => inr a end)
    (fun x => match x with inl (inl 0) => FreeHead | inl (inl 1) => AllocatedHead | inl (inl _) => ChildHead
                         | inl (inr a) => Block a | inr a => ChildNode a end) _).
  by intros [].
Defined.

Record ExpHeapMemoryBlock := mkBlock { alloc_magic : option Z; alignment : option Z; block_size : option Z }.
Definition sizeof_block : Z := 32.
Definition FreeMagic : Z := 0x5246.
Definition AllocMagic : Z := 0x4455.
Definition MinimumAlignment : Z := 4.
Definition MinimumAllocationGranularity : Z := 4.

Inductive AllocationMode := FirstFit | BestFit.

Section heap.
Context {CS : Type} `{!HeapLock CS}.

Record ExpHeap := mkExpHeap {
  m_start_address : Z;
  m_end_address : Z;
  m_parent_heap : option Z;
  m_heap_cs : CS;
  m_is_thread_safe : bool;
  m_allocation_mode : option AllocationMode;
  blocks : gmap Z ExpHeapMemoryBlock;
  links : gmap HeapNode (IntrusiveListNode HeapNode)
}.

Definition set_blocks b (s : ExpHeap) : ExpHeap := mkExpHeap (m_start_address s) (m_end_address s) (m_parent_heap s)
  (m_heap_cs s) (m_is_thread_safe s) (m_allocation_mode s) b (links s).
Definition set_links l (s : ExpHeap) : ExpHeap := mkExpHeap (m_start_address s) (m_end_address s) (m_parent_heap s)
  (m_heap_cs s) (m_is_thread_safe s) (m_allocation_mode s) (blocks s) l.
Definition set_heap_cs c (s : ExpHeap) : ExpHeap := mkExpHeap (m_start_address s) (m_end_address s) (m_parent_heap s)
  c (m_is_thread_safe s) (m_allocation_mode s) (blocks s) (links s).
Definition set_end_address e (s : ExpHeap) : ExpHeap := mkExpHeap (m_start_address s) e (m_parent_heap s)
  (m_heap_cs s) (m_is_thread_safe s) (m_allocation_mode s) (blocks s) (links s).

#[export] Instance ExpHeap_nodes : HasNodes HeapNode ExpHeap.
Proof. refine {| nodes := links; set_nodes := set_links |}; try done. by intros []. Defined.

(** ScopedHeapLock around a function body. *)
Definition locked {A} (body : M ExpHeap A) : M ExpHeap A :=
  safe ← gets m_is_thread_safe;
  if safe : bool then
    c ← gets m_heap_cs; c ← lift (heap_cs_Enter c); modify (set_heap_cs c);;
    r ← body;
    c ← gets m_heap_cs; c ← lift (heap_cs_Leave c); modify (set_heap_cs c);;
    mret r
  else body.

(** ** Headers *)
Definition header (a : Z) : M ExpHeap ExpHeapMemoryBlock :=
  b ← gets blocks;
  match b !! a with Some h => mret h | None => throw BadPointer end.
Definition read (f : ExpHeapMemoryBlock -> option Z) (a : Z) : M ExpHeap Z :=
  h ← header a;
  match f h with Some x => mret x | None => throw Uninitialized end.
Definition write (f : ExpHeapMemoryBlock -> ExpHeapMemoryBlock) (a : Z) : M ExpHeap unit :=
  h ← header a; modify (fun s => set_blocks (<[a := f h]> (blocks s)) s).
Definition set_alloc_magic x (h : ExpHeapMemoryBlock) := mkBlock (Some x) (alignment h) (block_size h).
Definition set_alignment x (h : ExpHeapMemoryBlock) := mkBlock (alloc_magic h) (Some x) (block_size h).
Definition set_block_size x (h : ExpHeapMemoryBlock) := mkBlock (alloc_magic h) (alignment h) (Some x).

Definition overlaps (a b : Z) : bool := (a - sizeof_block <? b) && (b <? a + sizeof_block).

(** std::construct_at on a header. *)
Definition construct_at (a : Z) : M ExpHeap unit :=
  modify (fun s => set_blocks (<[a := mkBlock None None None]> (filter (fun kv => overlaps a kv.1 = false) (blocks s))) s);;
  modify_nodes (ConstructNode (Block a)).

(** The header an element of a list is the node of: a list head is in none. *)
Definition address_of (n : HeapNode) : M ExpHeap Z :=
  match n with Block a => mret a | _ => throw BadContainer end.

(** header->exp_list_node.Unlink() *)
Definition unlink_block (a : Z) : M ExpHeap unit := header a;; modify_nodes (Unlink (Block a)).

(** ** AddFreeBlock *)
(** The loop for the free blocks before and after an address. *)
Definition find_neighbours (new_start : Z) (n : HeapNode) : M (ExpHeap * (option Z * option Z)) (option unit) :=
  a ← outer (address_of n);
  '(prev_block, _) ← get_local;
  if new_start <=? a then set_local (prev_block, Some a);; mret (Some tt)
  else set_local (Some a, Some a);; mret None.

(** Coalesce back: the end of the new block. *)
Definition coalesce_back (next_block : option Z) (new_end : Z) : M ExpHeap Z :=
  match next_block with
  | Some b =>
      if new_end =? b then
        unlink_block b;;
        size ← read block_size b;
        mret (u64 (b + size + sizeof_block))
      else mret new_end
  | None => mret new_end
  end.

(** Coalesce front: the start of the new block and link_node. *)
Definition coalesce_front (prev_block : option Z) (new_start : Z) : M ExpHeap (Z * HeapNode) :=
  p ← deref prev_block;
  size ← read block_size p;
  if new_start =? u64 (p + size + sizeof_block) then
    link_node ← gets (fun s => prev (links s) (Block p));
    unlink_block p;;
    mret (p, link_node)
  else mret (new_start, Block p).

(** The new header, and the two calls that link it. *)
Definition link_free_block (new_start new_end : Z) (link_node : HeapNode) : M ExpHeap bool :=
  let new_size := u64 (new_end - new_start) in
  if new_size <? sizeof_block then mret false else
  construct_at new_start;;
  write (set_alloc_magic FreeMagic) new_start;;
  write (set_block_size (u64 (new_size - sizeof_block))) new_start;;
  modify_nodes (fun l => LinkPrev (next l link_node) (Block new_start) l);;
  modify_nodes (LinkNext link_node (Block new_start));;
  mret true.

Definition AddFreeBlock (fuel : nat) (start end_ : Z) : M ExpHeap bool :=
  '(_, (prev_block, next_block)) ← locally (None, None) (for_each fuel FreeHead (find_neighbours start));
  new_end ← coalesce_back next_block end_;
  '(new_start, link_node) ← coalesce_front prev_block start;
  link_free_block new_start new_end link_node.

(** ** AddUsedBlock *)
Definition AddUsedBlock (free_node : HeapNode) (allocation_address size : Z) : M ExpHeap unit :=
  free_block ← address_of free_node;
  unlink_block free_block;;
  free_size ← read block_size free_block;
  let new_free_address := u64 (allocation_address + size) in
  let new_free_end_address := u64 (free_block + free_size) in
  let new_free_total_size := u64 (new_free_end_address - new_free_address) in
  free_alignment ← read alignment free_block;
  let orig_start_address := u64 (free_block - free_alignment) in
  let used_start_address := u64 (allocation_address - sizeof_block) in
  let used_alignment := u64 (used_start_address - orig_start_address) in
  used_alignment ←
    (if sizeof_block + MinimumAllocationGranularity <? used_alignment then
       construct_at orig_start_address;;
       write (set_alloc_magic FreeMagic) orig_start_address;;
       write (set_alignment 0) orig_start_address;;
       write (set_block_size (u64 (used_alignment - sizeof_block))) orig_start_address;;
       modify_nodes (PushBack FreeHead (Block orig_start_address));;
       mret 0
     else mret used_alignment);
  new_free_total_size ←
    (if sizeof_block + MinimumAllocationGranularity <? new_free_total_size then
       construct_at orig_start_address;;
       write (set_alloc_magic FreeMagic) orig_start_address;;
       write (set_alignment 0) orig_start_address;;
       write (set_block_size (u64 (new_free_total_size - sizeof_block))) orig_start_address;;
       modify_nodes (PushBack FreeHead (Block orig_start_address));;
       mret 0
     else mret new_free_total_size);
  construct_at used_start_address;;
  write (set_alloc_magic AllocMagic) used_start_address;;
  write (set_alignment (u8 used_alignment)) used_start_address;;
  write (set_block_size (u64 (size + new_free_total_size))) used_start_address;;
  modify_nodes (PushBack AllocatedHead (Block used_start_address)).

(** ** TryAllocate *)
(** The aligned address in a free block and whether the allocation is within the block's range. *)
Definition place (size alignment : Z) (a : Z) : Z * Z :=
  let allocation_address := AlignUp 64 (u64 (a + sizeof_block)) alignment in
  (allocation_address, u64 (allocation_address + size - a)).

(** First fit: allocation_address and free_block, which is the list's end when the loop ends. *)
Definition first_fit (size alignment : Z) (n : HeapNode) : M (ExpHeap * Z) (option HeapNode) :=
  a ← outer (address_of n);
  let '(allocation_address, aligned_allocation_size) := place size alignment a in
  set_local allocation_address;;
  free_size ← outer (read block_size a);
  if aligned_allocation_size <=? free_size then mret (Some n) else mret None.

(** Best fit: smaller_size, smaller_address, smaller_block and allocation_address. *)
Definition best_fit (size alignment : Z) (n : HeapNode) : M (ExpHeap * (Z * Z * HeapNode * Z)) (option unit) :=
  '(smaller_size, smaller_address, smaller_block, _) ← get_local;
  a ← outer (address_of n);
  let '(allocation_address, aligned_allocation_size) := place size alignment a in
  free_size ← outer (read block_size a);
  if (free_size <? smaller_size) && (aligned_allocation_size <=? free_size) then
    set_local (free_size, allocation_address, n, allocation_address);;
    mret (if free_size =? size then Some tt else None)
  else
    set_local (smaller_size, smaller_address, smaller_block, smaller_address);;
    mret None.

Definition TryAllocate (fuel : nat) (size alignment : Z) : M ExpHeap (option Z) :=
  locked (
    empty ← gets (fun s => IsEmpty (links s) FreeHead);
    if empty : bool then mret None else
    let alignment := if alignment <? MinimumAlignment then MinimumAlignment else alignment in
    let size := AlignUp 64 size MinimumAllocationGranularity in
    mode ← gets m_allocation_mode;
    '(free_block, allocation_address) ←
      match mode with
      | None => throw Uninitialized
      | Some FirstFit =>
          '(found, allocation_address) ← locally 0 (for_each fuel FreeHead (first_fit size alignment));
          mret (default FreeHead found, allocation_address)
      | Some BestFit =>
          '(_, (_, _, smaller_block, allocation_address)) ←
            locally (2 ^ 64 - 1, 0, FreeHead, 0) (for_each fuel FreeHead (best_fit size alignment));
          mret (smaller_block, allocation_address)
      end;
    if negb (bool_decide (free_block = FreeHead)) then mret None else
    AddUsedBlock free_block allocation_address size;;
    mret (Some allocation_address)).

(** ** Free *)
Definition Free (fuel : nat) (address : Z) : M ExpHeap unit :=
  locked (
    let block := u64 (address - sizeof_block) in
    unlink_block block;;
    block_alignment ← read alignment block;
    let start := u64 (block - block_alignment) in
    size ← read block_size block;
    AddFreeBlock fuel start (u64 (address + size));;
    mret tt).

(** ** AdjustHeap: the second component is the call made on the parent heap *)
Definition AdjustHeap : M ExpHeap ((Z * Z) * option (Z * Z * Z)) :=
  locked (
    last ← gets (fun s => Back (links s) FreeHead);
    empty ← gets (fun s => IsEmpty (links s) FreeHead);
    end_address ← gets m_end_address;
    if empty : bool then mret ((end_address, 0), None) else
    last_block ← address_of last;
    size ← read block_size last_block;
    if negb (u64 (last_block + size + sizeof_block) =? end_address) then mret ((end_address, 0), None) else
    modify_nodes (Remove last);;
    let trimed_size := u64 (sizeof_block + size) in
    let new_end_address := u64 (end_address - trimed_size) in
    modify (set_end_address new_end_address);;
    parent ← gets m_parent_heap;
    start_address ← gets m_start_address;
    mret ((new_end_address, trimed_size), option_map (fun p => (p, start_address, trimed_size)) parent)).

(** ** AdjustAllocation *)
Definition block_at (end_address : Z) (n : HeapNode) : M ExpHeap (option HeapNode) :=
  a ← address_of n; mret (if a =? end_address then Some n else None).

Definition AdjustAllocation (fuel : nat) (address new_size : Z) : M ExpHeap Z :=
  locked (
    let block := u64 (address - sizeof_block) in
    let new_size := AlignUp 64 new_size MinimumAllocationGranularity in
    size ← read block_size block;
    if size =? new_size then mret new_size else
    if new_size <? size then
      AddFreeBlock fuel (u64 (address + new_size)) (u64 (address + size));;
      write (set_block_size new_size) block;;
      mret new_size
    else
    let end_address := u64 (address + size) in
    found ← for_each fuel FreeHead (block_at end_address);
    let free_block := default FreeHead found in
    block_after ← address_of free_block;
    free_size ← read block_size block_after;
    let after_size := u64 (free_size + sizeof_block) in
    if new_size <? u64 (after_size + size) then mret size else
    unlink_block block_after;;
    let new_end_address := u64 (block_after + after_size) in
    let new_free := u64 (address + new_size + sizeof_block) in
    let new_free_size := u64 (new_end_address - new_free) in
    let new_free := if sizeof_block <=? new_free_size then u64 (new_free - new_free_size) else new_free in
    write (set_block_size (u64 (new_free - address))) block;;
    (if sizeof_block <=? new_free_size then
       construct_at new_free;;
       write (set_alloc_magic FreeMagic) new_free;;
       write (set_alignment 0) new_free;;
       write (set_block_size new_free_size) new_free;;
       modify_nodes (PushBack FreeHead (Block new_free))
     else mret tt);;
    mret new_size).

(** ** Sizes *)
Definition add_size (n : HeapNode) : M (ExpHeap * Z) (option unit) :=
  free_size ← get_local; a ← outer (address_of n); size ← outer (read block_size a);
  set_local (u64 (free_size + size));; mret None.
Definition GetTotalFreeSize (fuel : nat) : M ExpHeap Z :=
  locked ('(_, free_size) ← locally 0 (for_each fuel FreeHead add_size); mret free_size).

Definition max_size (alignment : Z) (n : HeapNode) : M (ExpHeap * Z) (option unit) :=
  max_free_size ← get_local;
  a ← outer (address_of n);
  size ← outer (read block_size a);
  let start_address := u64 (a + sizeof_block) in
  let end_address := u64 (start_address + size) in
  let block_size := u64 (end_address - AlignUp 64 start_address alignment) in
  set_local (if max_free_size <? block_size then block_size else max_free_size);; mret None.
Definition GetMaximumAllocatableSize (fuel : nat) (alignment : Z) : M ExpHeap Z :=
  locked ('(_, max_free_size) ← locally 0 (for_each fuel FreeHead (max_size alignment)); mret max_free_size).

Definition GetAllocationSize (address : Z) : M ExpHeap Z := read block_size (u64 (address - sizeof_block)).

(** ** Creation: [sizeof_ExpHeap] and the state of a new critical section are given *)
Section creation.
Variables (sizeof_ExpHeap : Z) (new_cs : CS).

(** ExpHeap::ExpHeap with the Heap constructor. *)
Definition construct (parent_heap : option Z) (start_address size : Z) (is_thread_safe : bool) : ExpHeap :=
  let start := u64 (start_address + sizeof_ExpHeap) in
  mkExpHeap start (u64 (start + size)) parent_heap new_cs is_thread_safe None ∅ ∅.

Definition minimum_size : Z := sizeof_ExpHeap + sizeof_block + MinimumAllocationGranularity.

(** The header of the first block and its place in the free list. *)
Definition first_block (address size : Z) : M ExpHeap unit :=
  let first := u64 (address + sizeof_ExpHeap) in
  construct_at first;;
  write (set_alloc_magic FreeMagic) first;;
  write (set_block_size (u64 (size - sizeof_ExpHeap - sizeof_block))) first;;
  modify_nodes (PushBack FreeHead (Block first)).

Definition TryCreate (address size : Z) (is_thread_safe : bool) : res (option ExpHeap) :=
  if (address =? 0) || (size <? minimum_size) then Ok None else
  '(_, heap) ← first_block address size (construct None address size is_thread_safe);
  Ok (Some heap).

Definition PushBackChild (child : Z) : M ExpHeap unit := locked (modify_nodes (PushBack ChildHead (ChildNode child))).

(** TryCreate in a parent heap, at [parent], whose state is passed along; [current]: the thread's heap, taken
    when the parent is null. *)
Definition TryCreate_in (fuel : nat) (size alignment : Z) (parent : Z) (is_thread_safe : bool) :
    M ExpHeap (option ExpHeap) :=
  size ← (if size =? 0 then GetMaximumAllocatableSize fuel MinimumAllocationGranularity else mret size);
  if size <? minimum_size then mret None else
  new_heap_memory ← TryAllocate fuel size alignment;
  match new_heap_memory with
  | None => mret None
  | Some new_heap =>
      '(_, heap) ← lift (first_block new_heap size (construct (Some parent) new_heap size is_thread_safe));
      PushBackChild new_heap;;
      mret (Some heap)
  end.
End creation.
End heap.
Arguments ExpHeap CS : clear implicits.
End ExpHeap.

(** * Loops with local variables *)
Section loops.
Context {A : Type} `{Countable A} {S L R B : Type} `{!HasNodes A S}.

Fixpoint fold_until (f : L -> B -> L * option R) (l : list B) (loc : L) : L * option R :=
  match l with
  | [] => (loc, None)
  | x :: l => match f loc x with (loc, Some r) => (loc, Some r) | (loc, None) => fold_until f l loc end
  end.

(** A loop that only reads the state computes a fold over the elements. *)
Lemma for_each_fold (g : B -> A) (body : A -> M (S * L) (option R)) f fuel h l (s : S) loc :
  is_list (nodes s) h (g <$> l) -> (length l + 1 <= fuel)%nat ->
  (forall x loc, x ∈ l -> body (g x) (s, loc) = Ok (snd (f loc x), (s, fst (f loc x)))) ->
  locally loc (for_each fuel h body) s = Ok ((snd (fold_until f l loc), fst (fold_until f l loc)), s).
Proof.
  intros Hl Hfuel Hb. unfold locally.
  rewrite (for_each_visit_inv (fun sl => fst sl = s) body fuel h (g <$> l) (s, loc) eq_refl).
  2: exact Hl.
  2: by rewrite length_fmap.
  2:{ intros y [s1 loc1] [s2 loc2] E (x & -> & Hx)%list_elem_of_fmap. cbn in E. subst s1.
      rewrite Hb by done. intros [= _ <- _]. done. }
  clear Hl Hfuel. revert loc. induction l as [|x l IH]; intros loc; [done|].
  cbn [fmap list_fmap visit fold_until]. unfold mbind, M_bind. rewrite Hb by by left.
  destruct (f loc x) as [loc' [r|]] eqn:E; cbn [fst snd]; [done|]. apply IH. intros y loc2 Hy. apply Hb. by right.
Qed.
End loops.

Section rings.
Context {A : Type} `{Countable A}.
Implicit Types (s : gmap A (IntrusiveListNode A)) (n x h : A) (l : list A).

Lemma is_list_member s h l x : is_list s h l -> x ∈ h :: l -> exists l', is_list s x l' /\ x :: l' ≡ₚ h :: l.
Proof.
  intros Hl [->|Hx]%elem_of_cons; [by exists l|].
  apply list_elem_of_split in Hx as (l1 & l2 & ->). exists (l2 ++ h :: l1). split; [by apply is_list_rotate|].
  by rewrite <- (Permutation_middle l2), <- (Permutation_middle l1), (Permutation_app_comm l2), (Permutation_swap x h).
Qed.

Lemma prev_next s h l : is_list s h l -> prev s (next s h) = h.
Proof. intros [_ Hs]. by destruct l as [|x l]; cbn in Hs; [destruct Hs as [-> ?]|destruct Hs as [[-> ?] _]]. Qed.

Lemma prev_in s h l1 x l2 : is_list s h (l1 ++ x :: l2) -> prev s x ∈ h :: l1.
Proof.
  intros [_ Hs]. apply seg_app in Hs as [Hs _]. rewrite (seg_prev _ _ _ _ Hs). apply last_or_in.
Qed.

(** Linking a node on both sides of the same place, as AddFreeBlock does, takes it out again. *)
Lemma link_both s h l x n y :
  is_list s h l -> x ∈ h :: l -> unlinked s n -> n ∉ h :: l ->
  node (LinkNext x n (LinkPrev (next s x) n s)) y = node s y.
Proof.
  intros Hl Hx Hn Hni. destruct (is_list_member s h l x Hl Hx) as (l' & Hl' & Hp).
  rewrite <- Hp in Hni. rewrite LinkPrev_LinkNext, (prev_next s x l' Hl').
  - by apply (LinkNext_twice s x l').
  - rewrite (is_list_next _ _ _ Hl'). destruct l'; cbn; set_solver.
Qed.
End rings.

(** * The state of a heap *)
Section states.
Import ExpHeap Alignment.
Context {CS : Type} `{!HeapLock CS}.
Implicit Types (s : ExpHeap CS) (F U C : list Z).

(** The nodes of the three lists. *)
Definition heap_lists F U C (n : HeapNode) : list HeapNode :=
  match n with
  | FreeHead => Block <$> F
  | AllocatedHead => Block <$> U
  | ChildHead => ChildNode <$> C
  | _ => []
  end.

Definition sized s a n : Prop := exists m al, blocks s !! a = Some (mkBlock m al (Some n)).

Record heap_ok s F U C : Prop := {
  hk_lists : family (links s) (heap_lists F U C);
  hk_free : forall a, a ∈ F -> exists n, sized s a n /\ 0 <= n < 2 ^ 64 - 1;
  hk_used : forall a, a ∈ U -> exists m al n, blocks s !! a = Some (mkBlock m (Some al) (Some n))
}.

Lemma heads_loose F U C h : h = FreeHead \/ h = AllocatedHead \/ h = ChildHead -> loose (heap_lists F U C) h.
Proof. intros Hh x Hin. destruct x; cbn in Hin; try (by apply not_elem_of_nil in Hin); apply list_elem_of_fmap in Hin as (? & -> & _); naive_solver. Qed.

Lemma heap_lists_empty : family ∅ (heap_lists [] [] []).
Proof. apply (family_ext_L _ (fun _ => [])); [by intros []|apply family_empty]. Qed.

Lemma free_list s F U C : heap_ok s F U C -> is_list (links s) FreeHead (Block <$> F).
Proof. intros HH. apply (family_list _ _ (hk_lists _ _ _ _ HH) FreeHead), heads_loose. by left. Qed.

Lemma free_IsEmpty s F U C : heap_ok s F U C -> IsEmpty (links s) FreeHead = bool_decide (F = []).
Proof.
  intros HH. rewrite (family_IsEmpty _ _ _ (hk_lists _ _ _ _ HH)) by (apply heads_loose; by left).
  apply bool_decide_ext. cbn. by destruct F.
Qed.

Lemma read_size s a n : sized s a n -> read block_size a s = Ok (n, s).
Proof. intros (m & al & E). unfold read, header. steps. by rewrite M_bind_assoc; steps; rewrite E. Qed.

Lemma locked_unsafe {B} (body : M (ExpHeap CS) B) s : m_is_thread_safe s = false -> locked body s = body s.
Proof. intros E. unfold locked. steps. by rewrite E. Qed.

Definition list_sum_Z (l : list Z) : Z := foldr Z.add 0 l.

Lemma fold_no_break {L R : Type} (f : L -> Z -> L) F loc :
  snd (fold_until (fun loc a => (f loc a, @None R)) F loc) = None.
Proof. revert loc. induction F as [|a F IH]; intros loc; [done|]. cbn. apply IH. Qed.

Lemma max_fold (f : Z -> Z) F :
  (forall a, a ∈ F -> 0 <= f a) ->
  let r := fst (fold_until (fun loc a => (if loc <? f a then f a else loc, @None unit)) F 0) in
  0 <= r /\ (forall a, a ∈ F -> f a <= r) /\ (r = 0 \/ exists a, a ∈ F /\ r = f a).
Proof.
  intros Hf. cbn zeta. assert (forall acc, 0 <= acc ->
    let r := fst (fold_until (fun loc a => (if loc <? f a then f a else loc, @None unit)) F acc) in
    acc <= r /\ (forall a, a ∈ F -> f a <= r) /\ (r = acc \/ exists a, a ∈ F /\ r = f a)) as Hall.
  { cbn zeta. induction F as [|a F IH]; intros acc Hacc; [cbn; split_and!; [done|set_solver|by left]|].
    cbn [fold_until]. destruct (IH ltac:(set_solver) (if acc <? f a then f a else acc)) as (H1 & H2 & H3).
    { destruct (acc <? f a); [apply Hf; by left|done]. }
    destruct (Z.ltb_spec acc (f a)); split_and!; [lia| |right|lia| |].
    - intros b [->|Hb]%elem_of_cons; [lia|by apply H2].
    - destruct H3 as [->|(b & Hb & ->)]; [exists a; split; [by left|done]|exists b; split; [by right|done]].
    - intros b [->|Hb]%elem_of_cons; [lia|by apply H2].
    - destruct H3 as [->|(b & Hb & ->)]; [by left|right; exists b; split; [by right|done]]. }
  apply Hall. lia.
Qed.

(** ** TryAllocate *)
Definition fits (sizes : Z -> Z) (size align a : Z) : bool := snd (place size align a) <=? sizes a.

Definition first_fit_step (sizes : Z -> Z) (size align : Z) (_ : Z) (a : Z) : Z * option HeapNode :=
  (fst (place size align a), if fits sizes size align a then Some (Block a) else None).

Lemma first_fit_found sizes size align F loc :
  is_Some (snd (fold_until (first_fit_step sizes size align) F loc)) <-> existsb (fits sizes size align) F = true.
Proof.
  revert loc. induction F as [|a F IH]; intros loc; cbn [fold_until existsb]; [split; [by intros [? ?]|done]|].
  unfold first_fit_step at 1. destruct (fits sizes size align a); cbn [snd orb]; [split; [done|by eexists]|apply IH].
Qed.

Lemma first_fit_block sizes size align F loc b :
  snd (fold_until (first_fit_step sizes size align) F loc) = Some b -> b <> FreeHead.
Proof.
  revert loc. induction F as [|a F IH]; intros loc; cbn [fold_until]; [done|].
  unfold first_fit_step at 1. destruct (fits sizes size align a); [by intros [= <-]|apply IH].
Qed.

Definition best_fit_step (sizes : Z -> Z) (size align : Z) (loc : Z * Z * HeapNode * Z) (a : Z) :
    (Z * Z * HeapNode * Z) * option unit :=
  let '(smaller_size, smaller_address, smaller_block, _) := loc in
  if (sizes a <? smaller_size) && fits sizes size align a then
    ((sizes a, fst (place size align a), Block a, fst (place size align a)), if sizes a =? size then Some tt else None)
  else ((smaller_size, smaller_address, smaller_block, smaller_address), None).

(** The block that best fit keeps is one of the list's, once one has fitted. *)
Lemma best_fit_found sizes size align F smaller_size smaller_address smaller_block x :
  (forall a, a ∈ F -> sizes a < 2 ^ 64 - 1) ->
  (smaller_block = FreeHead -> smaller_size = 2 ^ 64 - 1) ->
  let '(_, _, b, _) := fst (fold_until (best_fit_step sizes size align) F (smaller_size, smaller_address, smaller_block, x)) in
  b = FreeHead <-> smaller_block = FreeHead /\ existsb (fits sizes size align) F = false.
Proof.
  revert smaller_size smaller_address smaller_block x.
  induction F as [|a F IH]; intros ss sa sb x Hs Hsb; cbn [fold_until existsb]; [cbn; tauto|].
  unfold best_fit_step at 1. destruct (Z.ltb_spec (sizes a) ss) as [Hlt|Hge], (fits sizes size align a) eqn:Ef; cbn [andb].
  - assert (forall sa x, let '(_, _, b, _) := fst (fold_until (best_fit_step sizes size align) F (sizes a, sa, Block a, x)) in
      b <> FreeHead) as Hrest.
    { intros sa' x'. specialize (IH (sizes a) sa' (Block a) x' ltac:(set_solver) ltac:(done)).
      destruct (fst _) as [[[? ?] b] ?]. intros E. apply IH in E as [? _]. done. }
    destruct (sizes a =? size); [cbn; split; [done|by intros [_ ?]]|].
    specialize (Hrest (fst (place size align a)) (fst (place size align a))). destruct (fst _) as [[[? ?] b] ?]. cbn.
    split; [done|by intros [_ ?]].
  - apply IH; set_solver.
  - assert (sb <> FreeHead) as Hne by (intros E; apply Hsb in E; pose proof (Hs a ltac:(by left)); lia).
    specialize (IH ss sa sb sa ltac:(set_solver) Hsb). destruct (fst _) as [[[? ?] b] ?]. cbn. split; [|by intros [? _]].
    intros E. apply IH in E as [? _]. done.
  - apply IH; set_solver.
Qed.

Definition size_of s a : Z := default 0 (blocks s !! a ≫= block_size).

Lemma free_sized s F U C a : heap_ok s F U C -> a ∈ F -> sized s a (size_of s a) /\ 0 <= size_of s a < 2 ^ 64 - 1.
Proof.
  intros HH Ha. destruct (hk_free _ _ _ _ HH a Ha) as (n & (m & al & E) & Hn).
  assert (size_of s a = n) as -> by (unfold size_of; by rewrite E). split; [by exists m, al|done].
Qed.

(** The loops over the free list. *)
Lemma first_fit_run s F U C fuel size align :
  heap_ok s F U C -> (length F + 1 <= fuel)%nat ->
  locally 0 (for_each fuel FreeHead (first_fit size align)) s =
    let r := fold_until (first_fit_step (size_of s) size align) F 0 in Ok ((snd r, fst r), s).
Proof.
  intros HH Hf. apply (for_each_fold Block); [by eapply free_list|done|]. intros a loc Ha.
  destruct (free_sized s F U C a HH Ha) as [Hs _].
  unfold first_fit, outer, address_of, first_fit_step, fits. unfold mbind, M_bind, mret, M_ret. cbn.
  rewrite (read_size _ _ _ Hs). by case_match.
Qed.

Lemma best_fit_run s F U C fuel size align loc :
  heap_ok s F U C -> (length F + 1 <= fuel)%nat ->
  locally loc (for_each fuel FreeHead (best_fit size align)) s =
    let r := fold_until (best_fit_step (size_of s) size align) F loc in Ok ((snd r, fst r), s).
Proof.
  intros HH Hf. apply (for_each_fold Block); [by eapply free_list|done|]. intros a [[[ss sa] sb] x] Ha.
  destruct (free_sized s F U C a HH Ha) as [Hs _].
  unfold best_fit, outer, address_of, best_fit_step, fits. unfold mbind, M_bind, mret, M_ret. cbn.
  rewrite (read_size _ _ _ Hs). by case_match.
Qed.

(** [C40] TryAllocate never allocates, in either mode. The check that a block has been found is inverted:
    when one fits, or the heap has no free block, it returns null and leaves the heap as it was; when none
    fits, it takes the head of the free list for a block's header. *)
Theorem heap_never_allocates s F U C fuel size alignment :
  heap_ok s F U C -> m_is_thread_safe s = false -> is_Some (m_allocation_mode s) -> (length F + 1 <= fuel)%nat ->
  let align := if alignment <? MinimumAlignment then MinimumAlignment else alignment in
  let aligned_size := AlignUp 64 size MinimumAllocationGranularity in
  TryAllocate fuel size alignment s =
    if bool_decide (F = []) || existsb (fits (size_of s) aligned_size align) F then Ok (None, s) else Fault BadContainer.
Proof.
  intros HH Hsafe [mode Hmode] Hf align aligned_size. unfold TryAllocate. rewrite locked_unsafe by done. steps.
  rewrite (free_IsEmpty _ _ _ _ HH). destruct (bool_decide (F = [])) eqn:EF; [done|]. cbn [orb].
  fold align aligned_size. steps. rewrite Hmode. destruct mode.
  - rewrite (M_bind_run _ _ s (default FreeHead (snd (fold_until (first_fit_step (size_of s) aligned_size align) F 0)),
      fst (fold_until (first_fit_step (size_of s) aligned_size align) F 0)) s).
    2: by rewrite (M_bind_run _ _ _ _ _ (first_fit_run s F U C fuel aligned_size align HH Hf)).
    pose proof (first_fit_found (size_of s) aligned_size align F 0) as Hfound.
    pose proof (first_fit_block (size_of s) aligned_size align F 0) as Hblock.
    destruct (snd _) as [b|]; cbn [default from_option id].
    + rewrite (proj1 Hfound) by by eexists. specialize (Hblock b eq_refl).
      by rewrite (bool_decide_false (b = FreeHead)) by exact Hblock.
    + destruct (existsb _ F); [by destruct (proj2 Hfound eq_refl)|]. done.
  - set (loc := (2 ^ 64 - 1, 0, FreeHead, 0)).
    pose proof (best_fit_found (size_of s) aligned_size align F (2 ^ 64 - 1) 0 FreeHead 0) as Hfound.
    fold loc in Hfound. set (r := fold_until (best_fit_step (size_of s) aligned_size align) F loc) in *.
    destruct (fst r) as [[[ss sa] b] x] eqn:Er.
    rewrite (M_bind_run _ _ s (b, x) s).
    2:{ rewrite (M_bind_run _ _ _ _ _ (best_fit_run s F U C fuel aligned_size align loc HH Hf)). fold r. cbv zeta.
        rewrite Er. done. }
    specialize (Hfound (fun a Ha => proj2 (proj2 (free_sized s F U C a HH Ha))) ltac:(done)).
    destruct (existsb _ F).
    + rewrite bool_decide_false by (intros E; by apply Hfound in E as [_ ?]). done.
    + rewrite (proj2 Hfound) by done. done.
Qed.

(** ** Free *)
Definition neighbours_step (new_start : Z) (loc : option Z * option Z) (a : Z) : (option Z * option Z) * option unit :=
  if new_start <=? a then ((fst loc, Some a), Some tt) else ((Some a, Some a), None).

(** The last of the blocks in front, or what was known before. *)
Definition last_of (F : list Z) (d : option Z) : option Z := match last F with Some a => Some a | None => d end.

Lemma neighbours_fold start F1 F2 loc :
  Forall (fun a => a < start) F1 -> (forall b, head F2 = Some b -> start <= b) ->
  fst (fold_until (neighbours_step start) (F1 ++ F2) loc) =
    (last_of F1 (fst loc), match head F2 with Some b => Some b | None => last_of F1 (snd loc) end).
Proof.
  intros H1 H2. revert loc. induction H1 as [|a F1 Ha H1 IH]; intros loc.
  - cbn [app]. destruct F2 as [|b F2]; cbn [fold_until]; [by destruct loc|]. unfold neighbours_step at 1.
    destruct (Z.leb_spec start b); [done|]. specialize (H2 b eq_refl). lia.
  - cbn [app fold_until]. unfold neighbours_step at 1. destruct (Z.leb_spec start a); [lia|].
    rewrite IH. unfold last_of. rewrite last_cons. by destruct (last F1).
Qed.

Lemma neighbours_run s F U C fuel start loc :
  heap_ok s F U C -> (length F + 1 <= fuel)%nat ->
  locally loc (for_each fuel FreeHead (find_neighbours start)) s =
    let r := fold_until (neighbours_step start) F loc in Ok ((snd r, fst r), s).
Proof.
  intros HH Hf. apply (for_each_fold Block); [by eapply free_list|done|]. intros a [p n] Ha.
  unfold find_neighbours, outer, address_of, neighbours_step. unfold mbind, M_bind, mret, M_ret. cbn. by case_match.
Qed.

Lemma header_run s a n : sized s a n -> exists h, header a s = Ok (h, s).
Proof. intros (m & al & E). exists (mkBlock m al (Some n)). unfold header. steps. by rewrite E. Qed.

(** Taking a block out of the free list. *)
Lemma unlink_free s F1 a F2 U C :
  heap_ok s (F1 ++ a :: F2) U C ->
  exists s', unlink_block a s = Ok (tt, s') /\ blocks s' = blocks s /\ heap_ok s' (F1 ++ F2) U C.
Proof.
  intros HH. destruct (free_sized s _ U C a HH) as [Hs _]; [set_solver|].
  destruct (header_run _ _ _ Hs) as (h & E). unfold unlink_block. rewrite (M_bind_run _ _ _ _ _ E).
  eexists. split; [done|]. split; [done|]. destruct HH as [HL HF HU]. split.
  - apply (family_ext_L _ (<[FreeHead := (Block <$> F1) ++ (Block <$> F2)]> (heap_lists (F1 ++ a :: F2) U C))).
    { intros []; [rewrite fn_lookup_insert; apply fmap_app|by rewrite fn_lookup_insert_ne..]. }
    apply family_Unlink; [exact HL|]. cbn. by rewrite fmap_app.
  - intros b Hb. apply HF. set_solver.
  - exact HU.
Qed.

Lemma coalesce_back_run s F1 F2 U C next_block new_end :
  heap_ok s (F1 ++ F2) U C ->
  (match head F2 with Some b => next_block = Some b | None => next_block <> Some new_end end) ->
  exists new_end' s', coalesce_back next_block new_end s = Ok (new_end', s') /\ blocks s' = blocks s /\
    heap_ok s' (F1 ++ if decide (head F2 = Some new_end) then tail F2 else F2) U C.
Proof.
  intros HH Hn. unfold coalesce_back. destruct F2 as [|b F2]; cbn [head] in *.
  - rewrite decide_False by done. destruct next_block as [b|]; [|by eexists _, _].
    destruct (Z.eqb_spec new_end b); [congruence|]. by eexists _, _.
  - subst next_block. destruct (Z.eqb_spec new_end b) as [->|Hne].
    + rewrite decide_True by done. destruct (unlink_free s F1 b F2 U C HH) as (s1 & E & Eb & HH1).
      rewrite (M_bind_run _ _ _ _ _ E). destruct (free_sized s _ U C b HH) as [Hs _]; [set_solver|].
      assert (sized s1 b (size_of s b)) as Hs1 by (unfold sized; by rewrite Eb).
      rewrite (M_bind_run _ _ _ _ _ (read_size _ _ _ Hs1)). by eexists _, _.
    + rewrite decide_False by congruence. by eexists _, _.
Qed.

(** The place to link at is in the list without the block taken out. *)
Lemma coalesce_front_run s F1 p F2 U C new_start :
  heap_ok s (F1 ++ p :: F2) U C -> new_start ∉ (F1 ++ p :: F2) ++ U -> p ∉ U ->
  exists start' link s', coalesce_front (Some p) new_start s = Ok ((start', link), s') /\
    (let F' := F1 ++ (if decide (new_start = u64 (p + size_of s p + sizeof_block)) then [] else [p]) ++ F2 in
     heap_ok s' F' U C /\ link ∈ FreeHead :: (Block <$> F') /\ start' ∉ F' ++ U).
Proof.
  intros HH Hns HpU. unfold coalesce_front. steps. destruct (free_sized s _ U C p HH) as [Hs _]; [set_solver|].
  rewrite (M_bind_run _ _ _ _ _ (read_size _ _ _ Hs)). destruct (Z.eqb_spec new_start (u64 (p + size_of s p + sizeof_block))).
  - rewrite decide_True by done. destruct (unlink_free s F1 p F2 U C HH) as (s1 & E & Eb & HH1). steps.
    rewrite (M_bind_run _ _ _ _ _ E). eexists _, _, _. split; [done|]. cbn. split; [done|].
    pose proof (free_list _ _ _ _ HH) as Hl. rewrite fmap_app in Hl. cbn in Hl. split.
    + pose proof (prev_in _ _ _ _ _ Hl) as Hin. rewrite fmap_app. set_solver.
    + destruct Hl as [Hnd _]. apply NoDup_cons in Hnd as [_ Hnd]. rewrite <- fmap_cons, <- fmap_app in Hnd.
      apply NoDup_fmap_1, NoDup_app in Hnd as (_ & Hd & Hnd). apply NoDup_cons in Hnd as [Hp2 _].
      intros [[Hin|Hin]%elem_of_app|Hin]%elem_of_app; [|done..]. apply (Hd p Hin). by left.
  - rewrite decide_False by done. eexists _, _, _. split; [done|]. cbn. split; [done|]. split; [|done]. right.
    apply list_elem_of_fmap. exists p. split; [done|]. set_solver.
Qed.

Lemma block_loose F U C a : a ∉ F ++ U -> loose (heap_lists F U C) (Block a).
Proof.
  intros Ha h Hin. apply Ha, elem_of_app.
  destruct h; cbn in Hin; try (by apply not_elem_of_nil in Hin); apply list_elem_of_fmap in Hin as (? & E & ?);
    simplify_eq; auto.
Qed.

Lemma write_run f a h s : blocks s !! a = Some h -> write f a s = Ok (tt, set_blocks (<[a := f h]> (blocks s)) s).
Proof. intros E. unfold write, header. rewrite M_bind_assoc. steps. by rewrite E. Qed.

Lemma construct_at_run a s : exists s', construct_at a s = Ok (tt, s') /\ links s' = ConstructNode (Block a) (links s) /\
  blocks s' !! a = Some (mkBlock None None None).
Proof.
  unfold construct_at. steps. unfold modify_nodes. rewrite M_modify_run. eexists. split; [reflexivity|].
  split; [done|]. cbn. by rewrite lookup_insert_eq.
Qed.

(** A new header with some of its members set; its node stays unlinked. *)
Lemma new_header a m n s {B} (k : M (ExpHeap CS) B) : exists s',
  links s' = ConstructNode (Block a) (links s) /\
  (construct_at a;; write (set_alloc_magic m) a;; write (set_block_size n) a ;; k) s = k s'.
Proof.
  destruct (construct_at_run a s) as (s1 & E & El & Eb). rewrite (M_bind_run _ _ _ _ _ E).
  rewrite (M_bind_run _ _ _ _ _ (write_run _ _ _ _ Eb)).
  eexists. split; [|by eapply (M_bind_run _ (fun _ => k)), write_run; cbn; rewrite lookup_insert_eq]. done.
Qed.

Lemma link_free_block_run s F U C start' e link :
  family (links s) (heap_lists F U C) -> start' ∉ F ++ U -> link ∈ FreeHead :: (Block <$> F) ->
  exists r s', link_free_block start' e link s = Ok (r, s') /\ family (links s') (heap_lists F U C).
Proof.
  intros HF Hs Hl. unfold link_free_block. destruct (u64 (e - start') <? sizeof_block); [by eexists _, _|].
  pose proof (block_loose F U C start' Hs) as Hloose.
  set (size := u64 (u64 (e - start') - sizeof_block)).
  destruct (new_header start' FreeMagic size s (
    modify_nodes (fun l => LinkPrev (next l link) (Block start') l);;
    modify_nodes (LinkNext link (Block start'));; mret true)) as (s1 & El & E).
  rewrite E. unfold modify_nodes. steps. eexists _, _. split; [reflexivity|]. cbn. rewrite El.
  pose proof (family_ConstructNode _ _ _ HF Hloose eq_refl) as HF1.
  apply (family_ext (ConstructNode (Block start') (links s))); [|done]. intros y.
  apply (link_both _ FreeHead (Block <$> F)); [by apply (family_list _ _ HF1 FreeHead), heads_loose; left|done| |].
  - by apply (family_unlinked _ _ _ HF1).
  - rewrite elem_of_cons, list_elem_of_fmap. intros [?|(a & E' & Ha)]; [done|]. injection E' as <-. apply Hs. set_solver.
Qed.

(** What AddFreeBlock leaves of the free list: the blocks [F1] in front of [start], less the last one when
    the new block is directly behind it, and those behind, less the first when it is directly in front. *)
Definition after_add s (F1 F2 : list Z) (start end_ : Z) : list Z :=
  match last F1 with
  | Some p => removelast F1 ++ (if decide (start = u64 (p + size_of s p + sizeof_block)) then [] else [p])
  | None => []
  end ++ (if decide (head F2 = Some end_) then tail F2 else F2).

Lemma AddFreeBlock_run s F1 F2 U C fuel start end_ :
  heap_ok s (F1 ++ F2) U C -> (forall a, a ∈ F1 ++ F2 -> a ∉ U) -> (length (F1 ++ F2) + 1 <= fuel)%nat ->
  Forall (fun a => a < start) F1 -> (forall b, head F2 = Some b -> start <= b) -> start <= end_ -> start ∉ (F1 ++ F2) ++ U ->
  match F1 with
  | [] => AddFreeBlock fuel start end_ s = Fault NullDeref
  | _ => exists r s', AddFreeBlock fuel start end_ s = Ok (r, s') /\
           family (links s') (heap_lists (after_add s F1 F2 start end_) U C)
  end.
Proof.
  intros HH HU Hf H1 H2 Hse Hs. unfold AddFreeBlock.
  rewrite (M_bind_run _ _ _ _ _ (neighbours_run s _ U C fuel start (None, None) HH Hf)). cbv zeta. cbn [snd fst].
  rewrite (neighbours_fold start F1 F2 (None, None) H1 H2). cbn [fst snd].
  destruct (coalesce_back_run s F1 F2 U C (match head F2 with Some b => Some b | None => last_of F1 None end) end_ HH)
    as (new_end & s1 & E1 & Eb1 & HH1).
  { destruct (head F2) as [b|]; [done|]. unfold last_of. destruct (last F1) as [p|] eqn:Ep; [|done].
    intros [= ->]. apply last_Some_elem_of in Ep. rewrite Forall_forall in H1. specialize (H1 _ Ep). lia. }
  rewrite (M_bind_run _ _ _ _ _ E1). set (F2' := if decide (head F2 = Some end_) then tail F2 else F2) in *.
  assert (forall a, a ∈ F2' -> a ∈ F2) as Hsub by (intros a; unfold F2'; case_decide; destruct F2; cbn; set_solver).
  destruct F1 as [|a0 F0 _] using rev_ind; [done|].
  assert (last_of (F0 ++ [a0]) None = Some a0) as -> by (unfold last_of; by rewrite last_snoc).
  rewrite <- app_assoc in HH1. cbn in HH1.
  destruct (coalesce_front_run s1 F0 a0 F2' U C start HH1) as (start' & link & s2 & E2 & HH2 & Hlink & Hs').
  { set_solver. } { apply HU. set_solver. }
  rewrite (M_bind_run _ _ _ _ _ E2).
  destruct (link_free_block_run s2 _ U C start' new_end link (hk_lists _ _ _ _ HH2) Hs' Hlink) as (r & s3 & E3 & HF3).
  assert (after_add s (F0 ++ [a0]) F2 start end_ = F0 ++ (if decide (start = u64 (a0 + size_of s1 a0 + sizeof_block)) then []
    else [a0]) ++ F2') as Eafter.
  { unfold after_add. rewrite last_snoc, removelast_last. unfold size_of. rewrite Eb1. by rewrite app_assoc. }
  rewrite Eafter. destruct (F0 ++ [a0]) as [|? ?] eqn:E; [by destruct F0|]. by exists r, s3.
Qed.

(** Taking a block out of the list of allocated blocks. *)
Lemma unlink_used s F U1 a U2 C :
  heap_ok s F (U1 ++ a :: U2) C ->
  exists s', unlink_block a s = Ok (tt, s') /\ blocks s' = blocks s /\ heap_ok s' F (U1 ++ U2) C.
Proof.
  intros HH. destruct (hk_used _ _ _ _ HH a) as (m & al & n & Eb); [set_solver|].
  destruct (header_run s a n) as (h & E); [by exists m, (Some al)|]. unfold unlink_block. rewrite (M_bind_run _ _ _ _ _ E).
  eexists. split; [done|]. split; [done|]. destruct HH as [HL HF HU]. split.
  - apply (family_ext_L _ (<[AllocatedHead := (Block <$> U1) ++ (Block <$> U2)]> (heap_lists F (U1 ++ a :: U2) C))).
    { intros []; [by rewrite fn_lookup_insert_ne|rewrite fn_lookup_insert; apply fmap_app|by rewrite fn_lookup_insert_ne..]. }
    apply family_Unlink; [exact HL|]. cbn. by rewrite fmap_app.
  - exact HF.
  - intros b Hb. apply HU. set_solver.
Qed.

Lemma after_add_sub s F1 F2 start end_ a : a ∈ after_add s F1 F2 start end_ -> a ∈ F1 ++ F2.
Proof.
  unfold after_add. intros [Ha|Ha]%elem_of_app; apply elem_of_app.
  - left. destruct F1 as [|p F0 _] using rev_ind; [by apply not_elem_of_nil in Ha|].
    rewrite last_snoc, removelast_last in Ha. case_decide; set_solver.
  - right. case_decide; [|done]. destruct F2; [done|]. by right.
Qed.

(** Free takes the block out of the allocated list but never puts it into the free list. With no free
    block in front of it, it goes through a null pointer. Otherwise the new free block is linked at the same
    place twice, which takes it out again, and the neighbours it has been merged with are gone too: the free
    list afterwards is a part of the one before. *)
Theorem free_loses_block s F1 F2 U1 U2 C fuel address m al n :
  let block := u64 (address - sizeof_block) in
  let start := u64 (block - al) in
  let end_ := u64 (address + n) in
  heap_ok s (F1 ++ F2) (U1 ++ block :: U2) C -> m_is_thread_safe s = false ->
  blocks s !! block = Some (mkBlock m (Some al) (Some n)) ->
  (forall a, a ∈ F1 ++ F2 -> a ∉ U1 ++ block :: U2) -> (length (F1 ++ F2) + 1 <= fuel)%nat ->
  Forall (fun a => a < start) F1 -> (forall b, head F2 = Some b -> start <= b) -> start <= end_ ->
  start ∉ (F1 ++ F2) ++ U1 ++ U2 ->
  match F1 with
  | [] => Free fuel address s = Fault NullDeref
  | _ => exists s', Free fuel address s = Ok (tt, s') /\
           family (links s') (heap_lists (after_add s F1 F2 start end_) (U1 ++ U2) C) /\
           forall a, a ∈ after_add s F1 F2 start end_ -> a ∈ F1 ++ F2
  end.
Proof.
  intros block start end_ HH Hsafe Eb HU Hf H1 H2 Hse Hs. unfold Free. rewrite locked_unsafe by done. fold block.
  destruct (unlink_used s _ U1 block U2 C HH) as (s1 & E1 & Eb1 & HH1). rewrite (M_bind_run _ _ _ _ _ E1).
  assert (forall B (k : Z -> M (ExpHeap CS) B), (read alignment block ≫= k) s1 = k al s1) as ->.
  { intros B k. apply M_bind_run. unfold read, header. rewrite M_bind_assoc. steps. by rewrite Eb1, Eb. }
  fold start. rewrite (M_bind_run _ _ _ _ _ (read_size s1 block n ltac:(exists m, (Some al); by rewrite Eb1))). fold end_.
  pose proof (AddFreeBlock_run s1 F1 F2 (U1 ++ U2) C fuel start end_ HH1 ltac:(set_solver) Hf H1 H2 Hse Hs) as HA.
  assert (after_add s1 F1 F2 start end_ = after_add s F1 F2 start end_) as Ea by (unfold after_add, size_of; by rewrite Eb1).
  rewrite Ea in HA. destruct F1 as [|a F1]; [by rewrite (M_bind_fault _ _ _ _ HA)|].
  destruct HA as (r & s2 & E2 & HF2). rewrite (M_bind_run _ _ _ _ _ E2). exists s2.
  split_and!; [done|done|]. intros b. apply after_add_sub.
Qed.

(** ** Sizes *)
Lemma list_sum_nonneg (l : list Z) : (forall x, x ∈ l -> 0 <= x) -> 0 <= list_sum_Z l.
Proof.
  induction l as [|x l IH]; intros Hl; [done|]. unfold list_sum_Z in *. cbn [foldr].
  pose proof (Hl x ltac:(by left)). pose proof (IH ltac:(set_solver)). lia.
Qed.

Lemma total_fold s F acc : (forall a, a ∈ F -> 0 <= size_of s a) -> 0 <= acc ->
  acc + list_sum_Z (size_of s <$> F) < 2 ^ 64 ->
  fst (fold_until (fun loc a => (u64 (loc + size_of s a), @None unit)) F acc) = acc + list_sum_Z (size_of s <$> F).
Proof.
  revert acc. induction F as [|a F IH]; intros acc Hs Hacc Hb; [cbn; lia|].
  assert (list_sum_Z (size_of s <$> a :: F) = size_of s a + list_sum_Z (size_of s <$> F)) as E by done.
  rewrite E in *. cbn [fold_until]. pose proof (Hs a ltac:(by left)).
  assert (0 <= list_sum_Z (size_of s <$> F)).
  { apply list_sum_nonneg. intros x (b & -> & Hin)%list_elem_of_fmap. apply Hs. by right. }
  unfold u64. rewrite wrap_small by lia. rewrite IH by (try set_solver; lia). lia.
Qed.

(** GetTotalFreeSize is the sum of the sizes of the free blocks and GetMaximumAllocatableSize the most
    that one of them has behind the alignment, when the blocks are inside the address space. *)
Theorem heap_free_sizes s F U C fuel k :
  heap_ok s F U C -> m_is_thread_safe s = false -> (length F + 1 <= fuel)%nat -> 0 <= k < 32 ->
  list_sum_Z (size_of s <$> F) < 2 ^ 64 ->
  (forall a, a ∈ F -> 0 <= a /\ a + sizeof_block + size_of s a + 2 ^ k < 2 ^ 64 /\
    AlignUp 64 (a + sizeof_block) (2 ^ k) <= a + sizeof_block + size_of s a) ->
  GetTotalFreeSize fuel s = Ok (list_sum_Z (size_of s <$> F), s) /\
  exists r, GetMaximumAllocatableSize fuel (2 ^ k) s = Ok (r, s) /\ 0 <= r /\
    (forall a, a ∈ F -> a + sizeof_block + size_of s a - AlignUp 64 (a + sizeof_block) (2 ^ k) <= r) /\
    (r = 0 \/ exists a, a ∈ F /\ r = a + sizeof_block + size_of s a - AlignUp 64 (a + sizeof_block) (2 ^ k)).
Proof.
  intros HH Hsafe Hf Hk Hsum Hin.
  assert (forall a, a ∈ F -> 0 <= size_of s a) as Hpos by (intros a Ha; destruct (free_sized s F U C a HH Ha); lia).
  split.
  - unfold GetTotalFreeSize. rewrite locked_unsafe by done.
    rewrite (M_bind_run _ _ s (None, fst (fold_until (fun loc a => (u64 (loc + size_of s a), @None unit)) F 0)) s).
    { rewrite total_fold by (done || lia). done. }
    rewrite (for_each_fold Block add_size (fun loc a => (u64 (loc + size_of s a), @None unit)) fuel FreeHead F s 0);
      [by rewrite fold_no_break|by eapply free_list|done|].
    intros a loc Ha. unfold add_size, get_local, set_local, outer, address_of. unfold mbind, M_bind, mret, M_ret. cbn.
    by rewrite (read_size _ _ _ (proj1 (free_sized s F U C a HH Ha))).
  - set (avail := fun a => a + sizeof_block + size_of s a - AlignUp 64 (a + sizeof_block) (2 ^ k)).
    set (f := fun loc a => (if loc <? avail a then avail a else loc, @None unit)).
    exists (fst (fold_until f F 0)). split.
    + unfold GetMaximumAllocatableSize. rewrite locked_unsafe by done.
      rewrite (M_bind_run _ _ s (None, fst (fold_until f F 0)) s); [done|].
      rewrite (for_each_fold Block (max_size (2 ^ k)) f fuel FreeHead F s 0); [|by eapply free_list|done|].
      { by rewrite (fold_no_break (fun loc a => if loc <? avail a then avail a else loc) F 0
          : snd (fold_until f F 0) = None). }
      intros a loc Ha. destruct (Hin a Ha) as (Ha0 & Hab & Hau). pose proof (Hpos a Ha).
      unfold max_size, get_local, set_local, outer, address_of. unfold mbind, M_bind, mret, M_ret. cbn.
      rewrite (read_size _ _ _ (proj1 (free_sized s F U C a HH Ha))). unfold f, avail, sizeof_block in *.
      assert (0 < 2 ^ k) by (apply Z.pow_pos_nonneg; lia).
      assert (0 <= AlignUp 64 (a + 32) (2 ^ k)) by (apply wrap_range; lia).
      unfold u64. rewrite (wrap_small 64 (a + 32)), (wrap_small 64 (a + 32 + size_of s a)), wrap_small by lia. done.
    + apply max_fold. intros a Ha. destruct (Hin a Ha) as (_ & _ & ?). unfold avail. lia.
Qed.

(** ** Creation *)
Lemma first_block_run (sizeof : Z) address size s :
  family (links s) (heap_lists [] [] []) -> blocks s = ∅ -> sizeof + sizeof_block <= size < 2 ^ 63 ->
  0 <= sizeof -> 0 <= address -> address + sizeof < 2 ^ 64 ->
  exists s', first_block sizeof address size s = Ok (tt, s') /\ heap_ok s' [address + sizeof] [] [] /\
    size_of s' (address + sizeof) = size - sizeof - sizeof_block /\ m_is_thread_safe s' = m_is_thread_safe s /\
    m_end_address s' = m_end_address s /\ m_allocation_mode s' = m_allocation_mode s.
Proof.
  intros HF Eb Hsize Hso Ha Hb. unfold first_block, sizeof_block in *. set (first := address + sizeof) in *.
  assert (u64 first = first) as -> by (unfold u64; rewrite wrap_small; lia).
  assert (u64 (size - sizeof - 32) = size - sizeof - 32) as -> by (unfold u64; rewrite wrap_small; lia).
  unfold construct_at. rewrite M_bind_assoc. steps. unfold modify_nodes. rewrite M_modify_bind. steps.
  rewrite (M_bind_run _ _ _ _ _ (write_run _ first (mkBlock None None None) _ (lookup_insert_eq _ _ _))).
  rewrite (M_bind_run _ _ _ _ _ (write_run _ first _ _ (lookup_insert_eq _ _ _))).
  rewrite M_modify_run. eexists. split; [reflexivity|].
  assert (loose (heap_lists [] [] []) (Block first)) as Hloose by (apply block_loose; set_solver).
  pose proof (family_ConstructNode _ _ _ HF Hloose eq_refl) as HF1.
  split; [split|split_and!; try done].
  - apply (family_ext_L _ (<[FreeHead := heap_lists [] [] [] FreeHead ++ [Block first]]> (heap_lists [] [] []))).
    { by intros []. }
    apply family_PushBack; [exact HF1|apply heads_loose; by left|done|done|done].
  - intros a ->%list_elem_of_singleton. eexists. split; [eexists _, _; cbn; by rewrite lookup_insert_eq|]. lia.
  - by intros a Hin%not_elem_of_nil.
  - unfold size_of. cbn. by rewrite lookup_insert_eq.
Qed.

(** TryCreate refuses an area without room for the heap, a header and four bytes. Otherwise the new heap
    has one free block, which reaches to the end of the area, and nothing allocated; but the end address it
    records is that much behind the area as the heap object is large, so AdjustHeap finds no block at its
    end, and the allocation mode is not set, so TryAllocate reads an indeterminate value. *)
Theorem exp_heap_create (sizeof : Z) (cs : CS) address size fuel n align :
  0 < sizeof -> 0 < address -> address + sizeof + size < 2 ^ 64 -> 0 <= size < 2 ^ 63 -> (2 <= fuel)%nat ->
  if size <? minimum_size sizeof then TryCreate sizeof cs address size false = Ok None
  else exists heap, TryCreate sizeof cs address size false = Ok (Some heap) /\
    heap_ok heap [address + sizeof] [] [] /\
    address + sizeof + sizeof_block + size_of heap (address + sizeof) = address + size /\
    m_end_address heap = address + size + sizeof /\
    AdjustHeap heap = Ok (((address + size + sizeof, 0), None), heap) /\
    TryAllocate fuel n align heap = Fault Uninitialized.
Proof.
  intros Hso Ha Hb Hsize Hf. unfold TryCreate. destruct (Z.eqb_spec address 0); [lia|].
  destruct (Z.ltb_spec size (minimum_size sizeof)) as [Hlt|Hge]; [done|]. cbn [orb].
  unfold minimum_size, MinimumAllocationGranularity in Hge. unfold sizeof_block in Hge.
  set (s0 := construct sizeof cs None address size false).
  destruct (first_block_run sizeof address size s0) as (s & E & HH & Esize & Esafe & Eend & Emode);
    [exact heap_lists_empty|done|unfold sizeof_block; lia|lia|lia|lia|].
  rewrite E. exists s. split; [done|]. split; [done|]. rewrite Esize. split; [lia|].
  assert (m_end_address s = address + size + sizeof) as Ee.
  { rewrite Eend. cbn. unfold u64. rewrite (wrap_small 64 (address + sizeof)), wrap_small by lia. lia. }
  split; [done|]. pose proof (free_list _ _ _ _ HH) as Hl. split.
  - unfold AdjustHeap. rewrite locked_unsafe by done. steps.
    rewrite (free_IsEmpty _ _ _ _ HH). unfold Back. rewrite (is_list_prev _ _ _ Hl). cbn [bool_decide].
    rewrite bool_decide_false by done. unfold last_or. cbn [fmap list_fmap List.last]. unfold address_of. steps.
    destruct (free_sized s _ _ _ (address + sizeof) HH ltac:(by left)) as [Hs _].
    rewrite (M_bind_run _ _ _ _ _ (read_size _ _ _ Hs)), Esize, Ee. unfold sizeof_block, u64.
    rewrite wrap_small by lia.
    destruct (Z.eqb_spec (address + sizeof + (size - sizeof - 32) + 32) (address + size + sizeof)); [lia|]. done.
  - unfold TryAllocate. rewrite locked_unsafe by done. steps. rewrite (free_IsEmpty _ _ _ _ HH).
    rewrite bool_decide_false by done. steps. rewrite Emode. done.
Qed.
End states.

(** * Examples: a heap without a lock, with two free blocks and one allocated between them *)
#[local] Instance no_lock : HeapLock unit := {| heap_cs_Enter := Ok; heap_cs_Leave := Ok |}.
Section example.
Import ExpHeap.

Definition example_heap : ExpHeap unit :=
  mkExpHeap 4096 8192 None tt false (Some FirstFit)
    {[ 4096 := mkBlock (Some FreeMagic) (Some 0) (Some 100);
       4300 := mkBlock (Some AllocMagic) (Some 4) (Some 200);
       5000 := mkBlock (Some FreeMagic) (Some 0) (Some 300) ]}
    (PushBack AllocatedHead (Block 4300) (PushBack FreeHead (Block 5000) (PushBack FreeHead (Block 4096) ∅))).

Lemma example_heap_ok : heap_ok example_heap [4096; 5000] [4300] [].
Proof.
  split.
  - apply (family_ext_L _ (<[AllocatedHead := heap_lists [4096; 5000] [] [] AllocatedHead ++ [Block 4300]]>
      (heap_lists [4096; 5000] [] []))); [by intros []|].
    apply family_PushBack; [|apply heads_loose; naive_solver|apply block_loose; set_solver|done|done].
    apply (family_ext_L _ (<[FreeHead := heap_lists [4096] [] [] FreeHead ++ [Block 5000]]> (heap_lists [4096] [] [])));
      [by intros []|].
    apply family_PushBack; [|apply heads_loose; naive_solver|apply block_loose; set_solver|done|done].
    apply (family_ext_L _ (<[FreeHead := heap_lists [] [] [] FreeHead ++ [Block 4096]]> (heap_lists [] [] [])));
      [by intros []|].
    apply family_PushBack; [exact heap_lists_empty|apply heads_loose; naive_solver|apply block_loose; set_solver|done|done].
  - intros a [->|[->|Hin%not_elem_of_nil]%elem_of_cons]%elem_of_cons; [exists 100|exists 300|done];
      (split; [by eexists _, _|lia]).
  - intros a ->%list_elem_of_singleton. by eexists _, _, _.
Qed.

Lemma heap_never_allocates_witness :
  TryAllocate 3 16 4 example_heap = Ok (None, example_heap) /\ TryAllocate 3 1000 4 example_heap = Fault BadContainer.
Proof.
  split.
  - exact (heap_never_allocates example_heap _ _ _ 3 16 4 example_heap_ok eq_refl ltac:(by eexists) ltac:(cbn; lia)).
  - exact (heap_never_allocates example_heap _ _ _ 3 1000 4 example_heap_ok eq_refl ltac:(by eexists) ltac:(cbn; lia)).
Defined.

Lemma free_loses_block_witness :
  exists s', Free 3 4332 example_heap = Ok (tt, s') /\ family (links s') (heap_lists [4096; 5000] [] []).
Proof.
  destruct (free_loses_block example_heap [4096] [5000] [] [] [] 3 4332 (Some AllocMagic) 4 200 example_heap_ok eq_refl eq_refl)
    as (s' & E & HF & _).
  - intros a Ha. set_solver by lia.
  - cbn. lia.
  - by repeat constructor.
  - intros b [= <-]. done.
  - done.
  - cbn. set_solver by lia.
  - exists s'. split; [exact E|exact HF].
Defined.

Lemma heap_free_sizes_witness :
  GetTotalFreeSize 3 example_heap = Ok (400, example_heap).
Proof.
  refine (proj1 (heap_free_sizes example_heap _ _ _ 3 2 example_heap_ok eq_refl ltac:(cbn; lia) ltac:(lia) ltac:(done) _)).
  intros a [->|[->|Hin%not_elem_of_nil]%elem_of_cons]%elem_of_cons; [by vm_compute|by vm_compute|done].
Defined.

Lemma exp_heap_create_witness :
  TryCreate 200 tt 4096 100 false = Ok None /\
  exists heap, TryCreate 200 tt 4096 1024 false = Ok (Some heap) /\ m_end_address heap = 5320.
Proof.
  split.
  - exact (exp_heap_create 200 tt 4096 100 2 16 4 ltac:(lia) ltac:(lia) ltac:(lia) ltac:(lia) ltac:(lia)).
  - destruct (exp_heap_create 200 tt 4096 1024 2 16 4 ltac:(lia) ltac:(lia) ltac:(lia) ltac:(lia) ltac:(lia))
      as (heap & E & _ & _ & Ee & _).
    exists heap. by split.
Defined.
End example.
