(* ===== verification/HeapTree.v ===== *)
(** The tree of heaps and the heap manager: the base class Heap (mem_heap.hpp), IDisposer (mem_idisposer.hpp),
    the heap manager (mem_heapmanager.cpp) and operator new and delete (mem_new.hpp).

    A heap and a disposer are the addresses of their objects.  The child list and the disposer list of every
    heap are linked in one store; a name is the text of its C string.  The allocation functions of a heap are
    virtual: they are the heap model's, passed as arguments. *)
From stdpp Require Import functions.
From S2P Require Import Prelude IntrusiveList ListFamily.
From S2P Require Import Alignment Strings ExpHeap.

Module HeapTree.

Inductive HeapListNode : Type :=
  | ChildHead (heap : Z)         (* m_child_list *)
  | ChildNode (heap : Z)         (* m_child_list_node *)
  | DisposerHead (heap : Z)      (* m_disposer_list *)
  | DisposerNode (disposer : Z). (* m_disposer_list_node *)

#[export] Instance HeapListNode_eq_dec : EqDecision HeapListNode.
Proof. solve_decision. Defined.
#[export] Instance HeapListNode_countable : Countable HeapListNode.
Proof.
  refine (inj_countable'
    (fun n => match n with ChildHead h => inl (inl h) | ChildNode h => inl (inr h)
                         | DisposerHead h => inr (inl h) | DisposerNode d => inr (inr d) end)
    (fun x => match x with inl (inl h) => ChildHead h | inl (inr h) => ChildNode h
                         | inr (inl h) => DisposerHead h | inr (inr d) => DisposerNode d end) _).
  by intros [].
Defined.

Section heaps.
Context {CS : Type} `{!HeapLock CS}.

Record Heap := mkHeap {
  m_start_address : Z;
  m_end_address : Z;
  m_parent_heap : option Z;
  m_name : list Z;
  m_heap_cs : CS;
  m_is_thread_safe : bool
}.

Record Heaps := mkHeaps {
  heaps : gmap Z Heap;
  m_contained_heap : gmap Z (option Z);  (* of the disposers *)
  links : gmap HeapListNode (IntrusiveListNode HeapListNode)
}.
Definition set_links l (s : Heaps) : Heaps := mkHeaps (heaps s) (m_contained_heap s) l.
Definition set_heaps h (s : Heaps) : Heaps := mkHeaps h (m_contained_heap s) (links s).
Definition set_contained_heap d h (s : Heaps) : Heaps := mkHeaps (heaps s) (<[d := h]> (m_contained_heap s)) (links s).

#[export] Instance Heaps_nodes : HasNodes HeapListNode Heaps.
Proof. refine {| nodes := links; set_nodes := set_links |}; try done. by intros []. Defined.

Definition heap (h : Z) : M Heaps Heap :=
  hs ← gets heaps; match hs !! h with Some x => mret x | None => throw BadPointer end.

Definition set_cs c (x : Heap) : Heap :=
  mkHeap (m_start_address x) (m_end_address x) (m_parent_heap x) (m_name x) c (m_is_thread_safe x).

(** ScopedHeapLock *)
Definition ScopedHeapLock {A} (h : Z) (body : M Heaps A) : M Heaps A :=
  x ← heap h;
  if m_is_thread_safe x then
    c ← lift (heap_cs_Enter (m_heap_cs x)); modify (fun s => set_heaps (<[h := set_cs c x]> (heaps s)) s);;
    r ← body;
    x ← heap h;
    c ← lift (heap_cs_Leave (m_heap_cs x)); modify (fun s => set_heaps (<[h := set_cs c x]> (heaps s)) s);;
    mret r
  else body.

Definition AppendDisposer (h disposer : Z) : M Heaps unit :=
  ScopedHeapLock h (modify_nodes (PushBack (DisposerHead h) (DisposerNode disposer))).
Definition RemoveDisposer (h disposer : Z) : M Heaps unit :=
  ScopedHeapLock h (modify_nodes (Remove (DisposerNode disposer))).
Definition PushBackChild (h child : Z) : M Heaps unit :=
  ScopedHeapLock h (modify_nodes (PushBack (ChildHead h) (ChildNode child))).

Definition IsAddressInHeap (h address : Z) : M Heaps bool :=
  x ← heap h; mret ((m_start_address x <=? address) && (address <? m_end_address x)).

Definition GetTotalSize (h : Z) : M Heaps Z := x ← heap h; mret (u64 (m_end_address x - m_start_address x)).
Definition GetName (h : Z) : M Heaps (list Z) := x ← heap h; mret (m_name x).
Definition HasChldren (h : Z) : M Heaps bool := gets (fun s => IsEmpty (links s) (ChildHead h)).

(** The heap an element of a child list is the node of. *)
Definition child_of (n : HeapListNode) : M Heaps Z :=
  match n with ChildNode h => mret h | _ => throw BadContainer end.

(** [width] bounds the children of a heap, [fuel] the depth of the tree. *)
Fixpoint FindHeapFromAddress (width fuel : nat) (h address : Z) : M Heaps (option Z) :=
  match fuel with
  | O => throw OutOfFuel
  | S fuel =>
      inside ← IsAddressInHeap h address;
      if negb inside then mret None else
      found ← for_each width (ChildHead h) (fun n =>
        child ← child_of n;
        inside ← IsAddressInHeap child address;
        if inside : bool then r ← FindHeapFromAddress width fuel child address; mret (Some r) else mret None);
      match found with
      | Some r => mret r
      | None => mret (Some h)
      end
  end.

Fixpoint FindHeapByNameImpl (width fuel : nat) (parent_heap : Z) (heap_name : list Z) : M Heaps (option Z) :=
  match fuel with
  | O => throw OutOfFuel
  | S fuel =>
      found ← for_each width (ChildHead parent_heap) (fun n =>
        child ← child_of n;
        name ← GetName child;
        if bool_decide (name = heap_name) then mret (Some child) else
        empty ← gets (fun s => IsEmpty (links s) (ChildHead child));
        if negb empty then FindHeapByNameImpl width fuel child heap_name else mret None);
      mret found
  end.

(** [scoped_lock]: the mutex of the heap manager, taken around the body. *)
Definition FindHeapByName (scoped_lock : M Heaps (option Z) -> M Heaps (option Z)) (width fuel : nat) (sRootHeap : Z)
    (heap_name : list Z) : M Heaps (option Z) :=
  scoped_lock (
    found ← FindHeapByNameImpl width fuel sRootHeap heap_name;
    root_name ← GetName sRootHeap;
    if negb (bool_decide (is_Some found)) && bool_decide (heap_name = root_name) then mret (Some sRootHeap)
    else mret found).

(** ** IDisposer: [FindContainedHeap] is declared and nowhere defined *)
Section disposer.
Variable FindContainedHeap : Z -> M Heaps (option Z).

Definition construct_disposer (constant_evaluated : bool) (this : Z) : M Heaps unit :=
  if constant_evaluated then mret tt else
  contained ← FindContainedHeap this;
  modify (set_contained_heap this contained);;
  match contained with Some h => AppendDisposer h this | None => mret tt end.

Definition construct_disposer_in (constant_evaluated : bool) (this : Z) (in_heap : option Z) : M Heaps unit :=
  if constant_evaluated then mret tt else
  contained ← (match in_heap with Some h => mret (Some h) | None => FindContainedHeap this end);
  modify (set_contained_heap this contained);;
  match contained with Some h => AppendDisposer h this | None => mret tt end.
End disposer.

Definition destroy_disposer (this : Z) : M Heaps unit :=
  contained ← gets m_contained_heap;
  match contained !! this with
  | None => throw Uninitialized
  | Some None => mret tt
  | Some (Some h) => RemoveDisposer h this;; modify (set_contained_heap this None)
  end.
Definition GetDisposerHeap (this : Z) : M Heaps (option Z) :=
  contained ← gets m_contained_heap; match contained !! this with None => throw Uninitialized | Some h => mret h end.
End heaps.
Arguments Heap CS : clear implicits.
Arguments Heaps CS : clear implicits.
End HeapTree.

Module HeapManager.
Import ExpHeap Alignment.
Section manager.
Context {CS : Type} `{!HeapLock CS}.

(** The statics of mem_heapmanager.cpp; the root heap is an expandable heap. *)
Record HeapManager := mkHeapManager {
  memory : Z;
  memory_size : Z;
  sRootHeap : option (ExpHeap CS);
  sIsHeapManagerInitialized : bool
}.
Definition initial : HeapManager := mkHeapManager 0 0 None false.

Section operations.
(** The size of the heap object, a new critical section, and the allocation granularity, VirtualAlloc (null
    when it fails), VirtualFree of Windows. *)
Variables (sizeof_ExpHeap : Z) (new_cs : CS) (dwAllocationGranularity : Z).
Variables (VirtualAlloc : Z -> Z) (VirtualFree : Z -> bool).

Definition InitializeHeapManager (size : Z) : M HeapManager unit :=
  let memory_size := AlignUp 64 size dwAllocationGranularity in
  let memory := VirtualAlloc memory_size in
  dd_assert (negb (memory =? 0));;
  root ← lift (TryCreate sizeof_ExpHeap new_cs memory memory_size false);
  modify (fun _ => mkHeapManager memory memory_size root true).

Definition FinalizeHeapManager : M HeapManager unit :=
  m ← get;
  deref (sRootHeap m);;
  dd_assert (VirtualFree (memory m));;
  modify (fun m => mkHeapManager 0 0 (sRootHeap m) (sIsHeapManagerInitialized m)).

Definition IsHeapManagerInitialized (m : HeapManager) : bool := sIsHeapManagerInitialized m.
Definition GetRootHeap (m : HeapManager) : option (ExpHeap CS) := sRootHeap m.
Definition IsAddressFromAnyHeap (address : Z) : M HeapManager bool :=
  m ← get; root ← deref (sRootHeap m);
  mret ((m_start_address root <=? address) && (address <? m_end_address root)).

(** A call on the root heap, whose state it changes. *)
Definition with_root {A} (call : M (ExpHeap CS) A) : M HeapManager A :=
  m ← get; root ← deref (sRootHeap m);
  '(a, root) ← lift (call root);
  modify (fun m => mkHeapManager (memory m) (memory_size m) (Some root) (sIsHeapManagerInitialized m));;
  mret a.

(** A heap that an allocation goes to; a heap other than the root heap is its TryAllocate and Free. *)
Inductive heap_ref := NullHeap | RootHeap | OtherHeap (try_allocate : Z -> Z -> res (option Z)) (free : Z -> res unit).

(** What the thread manager of [sys] knows of the calling thread. *)
Inductive current_thread :=
  | NoThreadManager                         (* GetInstance() is null *)
  | NoThread                                (* GetCurrentThread() is null *)
  | Thread (m_current_heap : heap_ref).     (* the thread's heap *)

Definition GetCurrentThreadHeap (c : current_thread) : M HeapManager heap_ref :=
  match c with
  | NoThreadManager => throw NullDeref
  | NoThread => m ← get; mret (match sRootHeap m with Some _ => RootHeap | None => NullHeap end)
  | Thread h => mret h
  end.

Definition SetCurrentThreadHeap (c : current_thread) (heap : heap_ref) : res current_thread :=
  match c with
  | NoThreadManager => Fault NullDeref
  | NoThread => Ok NoThread
  | Thread _ => Ok (Thread heap)
  end.

(** operator new and delete: [aligned_malloc] is the C runtime's. *)
Variable aligned_malloc : Z -> Z -> option Z.
Definition DefaultNewAlignment : Z := 8.

Definition allocate_from (fuel : nat) (r : heap_ref) (size alignment : Z) : M HeapManager (option Z) :=
  match r with
  | NullHeap => mret None
  | RootHeap => with_root (TryAllocate fuel size alignment)
  | OtherHeap try_allocate _ => lift (try_allocate size alignment)
  end.

Definition NewImpl (fuel : nat) (c : current_thread) (size alignment : Z) : M HeapManager (option Z) :=
  m ← get;
  if negb (IsHeapManagerInitialized m) then mret (aligned_malloc size alignment) else
  current_heap ← GetCurrentThreadHeap c;
  allocate_from fuel current_heap size alignment.

Definition NewImpl_heap (fuel : nat) (c : current_thread) (size alignment : Z) (heap : heap_ref) : M HeapManager (option Z) :=
  m ← get;
  if negb (IsHeapManagerInitialized m) then mret (aligned_malloc size alignment) else
  current_heap ← (match heap with NullHeap => GetCurrentThreadHeap c | _ => mret heap end);
  allocate_from fuel current_heap size alignment.

(** Freed is what the current heap is given, wherever the address came from. *)
Definition DeleteImpl (fuel : nat) (c : current_thread) (address : Z) : M HeapManager unit :=
  m ← get;
  if negb (IsHeapManagerInitialized m) then mret tt else
  current_heap ← GetCurrentThreadHeap c;
  match current_heap with
  | NullHeap => mret tt
  | RootHeap => with_root (Free fuel address)
  | OtherHeap _ free => lift (free address)
  end.

Definition operator_new (fuel : nat) (c : current_thread) (size : Z) : M HeapManager (option Z) :=
  NewImpl fuel c size DefaultNewAlignment.
Definition operator_new_aligned (fuel : nat) (c : current_thread) (size alignment : Z) : M HeapManager (option Z) :=
  NewImpl fuel c size (u32 alignment).
Definition operator_new_heap (fuel : nat) (c : current_thread) (size : Z) (heap : heap_ref) (alignment : Z) :
    M HeapManager (option Z) := NewImpl_heap fuel c size alignment heap.
Definition operator_delete (fuel : nat) (c : current_thread) (address : Z) : M HeapManager unit := DeleteImpl fuel c address.
End operations.
End manager.
Arguments HeapManager CS : clear implicits.
End HeapManager.

(** * Searching the tree *)
Section search.
Import HeapTree.
Context {CS : Type} `{!HeapLock CS}.
Implicit Types (s : Heaps CS) (h c a : Z) (C : Z -> list Z).

(** [C]: the children of every heap; [rank] goes down from a heap to its children. *)
Record tree_ok s C (rank : Z -> nat) (width : nat) : Prop := {
  t_list : forall h, is_list (links s) (ChildHead h) (ChildNode <$> C h);
  t_live : forall h c, c ∈ C h -> is_Some (heaps s !! c);
  t_rank : forall h c, c ∈ C h -> (rank c < rank h)%nat;
  t_width : forall h, (length (C h) < width)%nat
}.

Definition inside s h a : bool :=
  match heaps s !! h with Some x => (m_start_address x <=? a) && (a <? m_end_address x) | None => false end.

Lemma IsAddressInHeap_run s h a : is_Some (heaps s !! h) -> IsAddressInHeap h a s = Ok (inside s h a, s).
Proof. intros [x E]. unfold IsAddressInHeap, heap, inside. rewrite M_bind_assoc. steps. by rewrite E. Qed.

(** The heap found: down from [h] through the first child that has the address, until none has. *)
Inductive located s C a : Z -> Z -> Prop :=
  | located_here h :
      inside s h a = true -> (forall c, c ∈ C h -> inside s c a = false) -> located s C a h h
  | located_child h l1 c l2 h' :
      inside s h a = true -> C h = l1 ++ c :: l2 -> (forall d, d ∈ l1 -> inside s d a = false) ->
      located s C a c h' -> located s C a h h'.

(** FindHeapFromAddress terminates on a tree of heaps and finds the heap it should: null for an address
    outside of the heap, otherwise a heap that contains the address and none of whose children does, reached
    through heaps that contain it. *)
Theorem find_heap_from_address s C rank width fuel h a :
  tree_ok s C rank width -> is_Some (heaps s !! h) -> (rank h < fuel)%nat ->
  if inside s h a then exists h', FindHeapFromAddress width fuel h a s = Ok (Some h', s) /\ located s C a h h'
  else FindHeapFromAddress width fuel h a s = Ok (None, s).
Proof.
  intros HT. revert h. induction fuel as [|fuel IH]; intros h Hh Hr; [lia|]. cbn [FindHeapFromAddress].
  rewrite (M_bind_run _ _ _ _ _ (IsAddressInHeap_run s h a Hh)). destruct (inside s h a) eqn:Ein; [|done]. cbn [negb].
  set (body := fun n => child ← child_of n; inside ← IsAddressInHeap child a;
    if inside : bool then r ← FindHeapFromAddress width fuel child a; mret (Some r) else mret None).
  pose proof (t_list _ _ _ _ HT h) as Hl. pose proof (t_width _ _ _ _ HT h) as Hw.
  assert (forall c, c ∈ C h -> inside s c a = false -> body (ChildNode c) s = Ok (None, s)) as Hskip.
  { intros c Hc Hf. unfold body, child_of. steps.
    rewrite (M_bind_run _ _ _ _ _ (IsAddressInHeap_run s c a (t_live _ _ _ _ HT h c Hc))). by rewrite Hf. }
  destruct (List.find (fun c => inside s c a) (C h)) as [c|] eqn:Ef.
  - apply find_split in Ef as (l1 & l2 & E & Hc & Hl1).
    assert (c ∈ C h) as Hcin by (rewrite E; set_solver).
    pose proof (IH c (t_live _ _ _ _ HT h c Hcin) ltac:(pose proof (t_rank _ _ _ _ HT h c Hcin); lia)) as Hsub.
    rewrite Hc in Hsub. destruct Hsub as (h' & E' & Hloc). exists h'.
    split; [|by eapply located_child].
    rewrite (M_bind_run _ _ s (Some (Some h')) s); [done|].
    rewrite E, fmap_app, fmap_cons in Hl. apply (for_each_find body width (ChildHead h) (ChildNode <$> l1) (ChildNode c) (ChildNode <$> l2));
      [exact Hl| | |].
    + rewrite <- fmap_cons, <- fmap_app, <- E, length_fmap. lia.
    + intros y (d & -> & Hd)%list_elem_of_fmap. apply Hskip; [rewrite E; set_solver|by apply Hl1].
    + unfold body, child_of. steps. rewrite (M_bind_run _ _ _ _ _ (IsAddressInHeap_run s c a (t_live _ _ _ _ HT h c Hcin))).
      rewrite Hc. by rewrite (M_bind_run _ _ _ _ _ E').
  - pose proof (find_none _ _ Ef) as Hnone. exists h. split; [|by apply located_here].
    rewrite (M_bind_run _ _ s None s); [done|].
    apply (for_each_none body width (ChildHead h) (ChildNode <$> C h)); [exact Hl|rewrite length_fmap; lia|].
    intros y (d & -> & Hd)%list_elem_of_fmap. by apply Hskip, Hnone.
Qed.

Definition name_of s h : option (list Z) := m_name <$> heaps s !! h.

(** The heaps below [h]. *)
Inductive below C : Z -> Z -> Prop :=
  | below_child h c : c ∈ C h -> below C h c
  | below_deeper h c d : c ∈ C h -> below C c d -> below C h d.

Lemma below_inv C h d : below C h d -> exists c, c ∈ C h /\ (d = c \/ below C c d).
Proof. intros [? c Hc|? c d' Hc Hb]; exists c; auto. Qed.

(** The first element of which something is found. *)
Lemma first_found {A B} (P : A -> option B -> Prop) (l : list A) :
  (forall x, x ∈ l -> exists r, P x r) ->
  (exists l1 x l2 b, l = l1 ++ x :: l2 /\ (forall y, y ∈ l1 -> P y None) /\ P x (Some b)) \/ (forall y, y ∈ l -> P y None).
Proof.
  induction l as [|x l IH]; intros H; [right; intros y Hy; by apply not_elem_of_nil in Hy|].
  destruct (H x ltac:(by left)) as [[b|] Hx].
  - left. exists [], x, l, b. split; [done|]. split; [|done]. intros y Hy. by apply not_elem_of_nil in Hy.
  - destruct IH as [(l1 & y & l2 & b & -> & H1 & Hy)|Hall]; [intros y Hy; apply H; by right| |].
    + left. exists (x :: l1), y, l2, b. split; [done|]. split; [|done]. intros z [->|Hz]%elem_of_cons; auto.
    + right. intros y [->|Hy]%elem_of_cons; auto.
Qed.

(** FindHeapByName terminates on a tree of heaps and searches it: what it finds is a heap below the given
    one with that name, and when it finds nothing no heap below has the name. *)
Theorem find_heap_by_name s C rank width fuel h name :
  tree_ok s C rank width -> (rank h < fuel)%nat ->
  exists r, FindHeapByNameImpl width fuel h name s = Ok (r, s) /\
    match r with
    | Some d => below C h d /\ name_of s d = Some name
    | None => forall d, below C h d -> name_of s d <> Some name
    end.
Proof.
  intros HT. revert h. induction fuel as [|fuel IH]; intros h Hr; [lia|]. cbn [FindHeapByNameImpl].
  set (body := fun n => child ← child_of n; child_name ← GetName child;
    if bool_decide (child_name = name) then mret (Some child) else
    empty ← gets (fun s => IsEmpty (links s) (ChildHead child));
    if negb empty then FindHeapByNameImpl width fuel child name else mret None).
  pose proof (t_list _ _ _ _ HT h) as Hl. pose proof (t_width _ _ _ _ HT h) as Hw.
  assert (forall c, c ∈ C h -> exists r, body (ChildNode c) s = Ok (r, s) /\
    match r with Some d => (d = c \/ below C c d) /\ name_of s d = Some name
               | None => name_of s c <> Some name /\ forall d, below C c d -> name_of s d <> Some name end) as Hbody.
  { intros c Hc. destruct (t_live _ _ _ _ HT h c Hc) as [x Hx]. unfold body, child_of. steps.
    assert (GetName c s = Ok (m_name x, s)) as En by (unfold GetName, heap; rewrite M_bind_assoc; steps; by rewrite Hx).
    rewrite (M_bind_run _ _ _ _ _ En). assert (name_of s c = Some (m_name x)) as Enc by (unfold name_of; by rewrite Hx).
    case_bool_decide as Hname; [exists (Some c); split; [done|]; split; [by left|congruence]|]. steps.
    rewrite (IsEmpty_spec _ _ _ (t_list _ _ _ _ HT c)). case_bool_decide as Hempty; cbn [negb].
    - exists None. split; [done|]. split; [congruence|]. intros d (c' & Hc' & _)%below_inv.
      apply fmap_nil_inv in Hempty. rewrite Hempty in Hc'. by apply not_elem_of_nil in Hc'.
    - destruct (IH c ltac:(pose proof (t_rank _ _ _ _ HT h c Hc); lia)) as (r & E & Hspec).
      exists r. split; [done|]. destruct r as [d|]; [|split; [congruence|done]].
      destruct Hspec. split; [by right|done]. }
  destruct (first_found _ _ Hbody) as [(l1 & c & l2 & d & E & H1 & Hd & Hspec)|Hnone].
  - exists (Some d). split.
    + rewrite (M_bind_run _ _ s (Some d) s); [done|]. rewrite E, fmap_app, fmap_cons in Hl.
      apply (for_each_find body width (ChildHead h) (ChildNode <$> l1) (ChildNode c) (ChildNode <$> l2)); [exact Hl| | |done].
      * rewrite <- fmap_cons, <- fmap_app, <- E, length_fmap. lia.
      * intros y (c' & -> & Hc')%list_elem_of_fmap. by apply H1.
    + destruct Hspec as [Hor Hn]. split; [|done]. assert (c ∈ C h) by (rewrite E; set_solver).
      destruct Hor as [->|?]; [by apply below_child|by eapply below_deeper].
  - exists None. split.
    + rewrite (M_bind_run _ _ s None s); [done|].
      apply (for_each_none body width (ChildHead h) (ChildNode <$> C h)); [exact Hl|rewrite length_fmap; lia|].
      intros y (c & -> & Hc)%list_elem_of_fmap. by apply Hnone.
    + intros d (c & Hc & [->|Hb])%below_inv; destruct (Hnone c Hc) as (_ & Hn1 & Hn2); auto.
Qed.

Lemma ScopedHeapLock_unsafe {A} h (body : M (Heaps CS) A) s x :
  heaps s !! h = Some x -> m_is_thread_safe x = false -> ScopedHeapLock h body s = body s.
Proof. intros Hx Hsafe. unfold ScopedHeapLock, heap. rewrite M_bind_assoc. steps. rewrite Hx. steps. by rewrite Hsafe. Qed.

Lemma construct_disposer_run find s (L : HeapListNode -> list HeapListNode) d h x :
  family (links s) L -> loose L (DisposerHead h) -> loose L (DisposerNode d) -> L (DisposerNode d) = [] ->
  heaps s !! h = Some x -> m_is_thread_safe x = false ->
  exists s1, construct_disposer_in find false d (Some h) s = Ok (tt, s1) /\
    family (links s1) (<[DisposerHead h := L (DisposerHead h) ++ [DisposerNode d]]> L) /\
    m_contained_heap s1 !! d = Some (Some h) /\ heaps s1 = heaps s.
Proof.
  intros HF Hh Hd Ed Hx Hsafe.
  exists (set_links (PushBack (DisposerHead h) (DisposerNode d) (links s)) (set_contained_heap d (Some h) s)). split_and!.
  - unfold construct_disposer_in. steps. unfold AppendDisposer.
    by rewrite (ScopedHeapLock_unsafe _ _ (set_contained_heap d (Some h) s) x).
  - by apply family_PushBack.
  - cbn. by rewrite lookup_insert_eq.
  - done.
Qed.

Lemma destroy_disposer_run s (L : HeapListNode -> list HeapListNode) d h l1 l2 x :
  family (links s) L -> L (DisposerHead h) = l1 ++ DisposerNode d :: l2 -> m_contained_heap s !! d = Some (Some h) ->
  heaps s !! h = Some x -> m_is_thread_safe x = false ->
  exists s', destroy_disposer d s = Ok (tt, s') /\ family (links s') (<[DisposerHead h := l1 ++ l2]> L) /\
    m_contained_heap s' !! d = Some None /\ heaps s' = heaps s.
Proof.
  intros HF HL Hc Hx Hsafe. exists (set_contained_heap d None (set_links (Unlink (DisposerNode d) (links s)) s)). split_and!.
  - unfold destroy_disposer. steps. rewrite Hc. unfold RemoveDisposer.
    rewrite (M_bind_run _ _ _ tt (set_links (Unlink (DisposerNode d) (links s)) s)); [done|].
    by rewrite (ScopedHeapLock_unsafe _ _ s x).
  - by apply family_Unlink.
  - cbn. by rewrite lookup_insert_eq.
  - done.
Qed.

(** A disposer is in the disposer list of its heap for as long as it lives: the constructor appends it,
    and the destructor takes it out and forgets the heap; the other lists are not touched. *)
Theorem disposer_life find s (L : HeapListNode -> list HeapListNode) d h x :
  family (links s) L -> loose L (DisposerHead h) -> loose L (DisposerNode d) -> L (DisposerNode d) = [] ->
  heaps s !! h = Some x -> m_is_thread_safe x = false ->
  exists s1 s2, construct_disposer_in find false d (Some h) s = Ok (tt, s1) /\
    family (links s1) (<[DisposerHead h := L (DisposerHead h) ++ [DisposerNode d]]> L) /\
    GetDisposerHeap d s1 = Ok (Some h, s1) /\
    destroy_disposer d s1 = Ok (tt, s2) /\ family (links s2) L /\ heaps s2 = heaps s /\
    GetDisposerHeap d s2 = Ok (None, s2).
Proof.
  intros HF Hh Hd Ed Hx Hsafe.
  destruct (construct_disposer_run find s L d h x HF Hh Hd Ed Hx Hsafe) as (s1 & E1 & HF1 & Hc1 & Hh1).
  destruct (destroy_disposer_run s1 _ d h (L (DisposerHead h)) [] x HF1 ltac:(by rewrite fn_lookup_insert) Hc1
    ltac:(by rewrite Hh1) Hsafe) as (s2 & E2 & HF2 & Hc2 & Hh2).
  exists s1, s2. split_and!; [done|done| |done| |congruence|]; [unfold GetDisposerHeap; steps; by rewrite Hc1| |
    unfold GetDisposerHeap; steps; by rewrite Hc2].
  rewrite app_nil_r in HF2. eapply family_ext_L; [|exact HF2]. intros y.
  destruct (decide (y = DisposerHead h)) as [->|Hy]; [by rewrite fn_lookup_insert|by rewrite !fn_lookup_insert_ne].
Qed.
End search.

(** * operator new *)
Section allocation.
Import HeapManager Alignment ExpHeap.
Context {CS : Type} `{!HeapLock CS}.

(** A thread allocates from the heap that was set last: operator new goes to it, whatever the heap of the
    thread was before; on a thread without an object setting the heap has no effect. *)
Theorem thread_heap_allocates malloc fuel h h' n align (m : HeapManager CS) try_allocate free :
  sIsHeapManagerInitialized m = true -> h' = OtherHeap try_allocate free ->
  (c ← SetCurrentThreadHeap (Thread h) h'; NewImpl malloc fuel c n align m) = (a ← try_allocate n align; Ok (a, m)) /\
  SetCurrentThreadHeap NoThread h' = Ok NoThread.
Proof.
  intros Hi ->. split; [|done]. cbn. unfold NewImpl, allocate_from, lift, get, mbind, M_bind. cbn.
  unfold IsHeapManagerInitialized. rewrite Hi. cbn. by destruct (try_allocate n align).
Qed.

(** Before the heap manager is initialised, operator new allocates with the C runtime. After it, no
    allocation succeeds: without a thread manager GetCurrentThreadHeap goes through a null pointer, and the
    root heap's TryAllocate, for a thread without an object or one with the root heap, reads an allocation
    mode that was never set. *)
Theorem operator_new_fails_after_init (sizeof : Z) (new_cs : CS) granularity VirtualAlloc malloc size fuel n :
  let area := AlignUp 64 size granularity in
  0 < sizeof -> 0 < VirtualAlloc area -> VirtualAlloc area + sizeof + area < 2 ^ 64 ->
  minimum_size sizeof <= area < 2 ^ 63 -> (2 <= fuel)%nat ->
  (forall c, operator_new malloc fuel c n initial = Ok (malloc n DefaultNewAlignment, initial)) /\
  exists m, InitializeHeapManager sizeof new_cs granularity VirtualAlloc size initial = Ok (tt, m) /\
    operator_new malloc fuel NoThreadManager n m = Fault NullDeref /\
    operator_new malloc fuel NoThread n m = Fault Uninitialized /\
    operator_new malloc fuel (Thread RootHeap) n m = Fault Uninitialized /\
    operator_new malloc fuel (Thread NullHeap) n m = Ok (None, m).
Proof.
  intros area Hso Hva Hb Hmin Hf. split; [done|].
  assert (0 <= minimum_size sizeof) by (unfold minimum_size, sizeof_block, MinimumAllocationGranularity; lia).
  pose proof (exp_heap_create sizeof new_cs (VirtualAlloc area) area fuel n DefaultNewAlignment Hso Hva Hb ltac:(lia) Hf) as HC.
  destruct (Z.ltb_spec area (minimum_size sizeof)); [lia|]. destruct HC as (root & E & _ & _ & _ & _ & HT).
  exists (mkHeapManager (VirtualAlloc area) area (Some root) true). split.
  { unfold InitializeHeapManager. fold area. unfold dd_assert. destruct (Z.eqb_spec (VirtualAlloc area) 0); [lia|].
    steps. rewrite (M_bind_run _ _ _ (Some root) initial); [done|]. unfold lift. by rewrite E. }
  unfold operator_new, NewImpl, allocate_from, with_root, GetCurrentThreadHeap, get, lift, deref, mbind, M_bind.
  cbn [sIsHeapManagerInitialized IsHeapManagerInitialized negb sRootHeap mret M_ret]. rewrite HT. by split_and!.
Qed.
End allocation.

(** * Examples: a root heap with two children, the first of which has a child; heaps without a lock *)
Section example.
Import HeapTree.
#[local] Existing Instance no_lock.

Definition example_children (h : Z) : list Z :=
  if decide (h = 1) then [2; 3] else if decide (h = 2) then [4] else [].
Definition example_rank (h : Z) : nat := if decide (h = 1) then 2%nat else if decide (h = 2) then 1%nat else 0%nat.
Definition example_heap_of (from size : Z) (name : list Z) : Heap unit := mkHeap from (from + size) None name tt false.
Definition example_heaps : Heaps unit :=
  mkHeaps {[ 1 := example_heap_of 1000 100 [114]; 2 := example_heap_of 1010 40 [97];
             3 := example_heap_of 1050 40 [98]; 4 := example_heap_of 1010 10 [99] ]} ∅
    (PushBack (ChildHead 2) (ChildNode 4) (PushBack (ChildHead 1) (ChildNode 3) (PushBack (ChildHead 1) (ChildNode 2) ∅))).
Definition example_lists : HeapListNode -> list HeapListNode :=
  <[ChildHead 2 := [ChildNode 4]]> (<[ChildHead 1 := [ChildNode 2; ChildNode 3]]> (<[ChildHead 1 := [ChildNode 2]]> (fun _ => []))).

Lemma example_loose n : n ∉ [ChildNode 2; ChildNode 3; ChildNode 4] -> loose example_lists n.
Proof.
  intros Hn. unfold example_lists. repeat apply loose_insert; try (intros Hin; apply Hn; set_solver).
  intros h Hin. by apply not_elem_of_nil in Hin.
Qed.

Lemma example_family : family (links example_heaps) example_lists.
Proof.
  assert (forall h, loose (fun _ : HeapListNode => @nil HeapListNode) h) as Hl.
  { intros h x Hin. by apply not_elem_of_nil in Hin. }
  pose proof (family_PushBack ∅ _ (ChildHead 1) (ChildNode 2) family_empty (Hl _) (Hl _) eq_refl ltac:(done)) as H1.
  pose proof (family_PushBack _ _ (ChildHead 1) (ChildNode 3) H1
    ltac:(apply loose_insert; [by apply Hl|set_solver]) ltac:(apply loose_insert; [by apply Hl|set_solver]) eq_refl ltac:(done)) as H2.
  pose proof (family_PushBack _ _ (ChildHead 2) (ChildNode 4) H2
    ltac:(repeat apply loose_insert; first [by apply Hl|set_solver])
    ltac:(repeat apply loose_insert; first [by apply Hl|set_solver]) eq_refl ltac:(done)) as H3.
  exact H3.
Qed.

Lemma example_tree : tree_ok example_heaps example_children example_rank 3.
Proof.
  assert (forall h c, c ∈ example_children h -> (h = 1 /\ (c = 2 \/ c = 3)) \/ (h = 2 /\ c = 4)) as Hc.
  { intros h c. unfold example_children. repeat case_decide; set_solver. }
  split.
  - intros h. replace (ChildNode <$> example_children h) with (example_lists (ChildHead h)).
    + apply example_family, example_loose. set_solver.
    + unfold example_lists, example_children. destruct (decide (h = 2)) as [->|].
      * by rewrite fn_lookup_insert.
      * rewrite fn_lookup_insert_ne by congruence. destruct (decide (h = 1)) as [->|]; [by rewrite fn_lookup_insert|].
        by rewrite !fn_lookup_insert_ne by congruence.
  - intros h c [[-> [-> | ->]]|[-> ->]]%Hc; by eexists.
  - intros h c [[-> [-> | ->]]|[-> ->]]%Hc; unfold example_rank; repeat case_decide; done || lia.
  - intros h. unfold example_children. repeat case_decide; cbn; lia.
Qed.

Lemma example_rank_root : (example_rank 1 < 3)%nat.
Proof. unfold example_rank. repeat case_decide; done || lia. Qed.

Lemma find_heap_from_address_witness :
  FindHeapFromAddress 3 3 1 1015 example_heaps = Ok (Some 4, example_heaps) /\
  FindHeapFromAddress 3 3 1 1040 example_heaps = Ok (Some 2, example_heaps) /\
  FindHeapFromAddress 3 3 1 1100 example_heaps = Ok (None, example_heaps) /\
  located example_heaps example_children 1015 1 4.
Proof.
  pose proof (find_heap_from_address example_heaps example_children example_rank 3 3 1 1015 example_tree
    ltac:(by eexists) example_rank_root) as (h & E & Hl).
  assert (FindHeapFromAddress 3 3 1 1015 example_heaps = Ok (Some 4, example_heaps)) as E' by (vm_compute; reflexivity).
  split; [exact E'|]. split; [vm_compute; reflexivity|]. split; [vm_compute; reflexivity|].
  rewrite E in E'. injection E' as ->. exact Hl.
Defined.

Lemma find_heap_by_name_witness :
  FindHeapByNameImpl 3 3 1 [99] example_heaps = Ok (Some 4, example_heaps) /\ below example_children 1 4 /\
  FindHeapByNameImpl 3 3 1 [100] example_heaps = Ok (None, example_heaps) /\
  FindHeapByName (fun m => m) 3 3 1 [114] example_heaps = Ok (Some 1, example_heaps).
Proof.
  pose proof (find_heap_by_name example_heaps example_children example_rank 3 3 1 [99] example_tree example_rank_root)
    as (r & E & Hr).
  assert (FindHeapByNameImpl 3 3 1 [99] example_heaps = Ok (Some 4, example_heaps)) as E' by (vm_compute; reflexivity).
  split; [exact E'|]. rewrite E in E'. injection E' as ->. split; [exact (proj1 Hr)|].
  split; vm_compute; reflexivity.
Defined.

Lemma disposer_life_witness :
  exists s1 s2, construct_disposer_in (fun _ => mret None) false 77 (Some 3) example_heaps = Ok (tt, s1) /\
    GetDisposerHeap 77 s1 = Ok (Some 3, s1) /\ destroy_disposer 77 s1 = Ok (tt, s2) /\
    family (links s2) example_lists.
Proof.
  destruct (disposer_life (fun _ => mret None) example_heaps example_lists 77 3 (example_heap_of 1050 40 [98]) example_family
    ltac:(apply example_loose; set_solver) ltac:(apply example_loose; set_solver) eq_refl eq_refl eq_refl)
    as (s1 & s2 & E1 & _ & E2 & E3 & HF & _).
  exists s1, s2. by split_and!.
Defined.

Lemma thread_heap_allocates_witness :
  exists m : HeapManager.HeapManager unit,
  (c ← HeapManager.SetCurrentThreadHeap (HeapManager.Thread HeapManager.RootHeap)
         (HeapManager.OtherHeap (fun _ _ => Ok (Some 64)) (fun _ => Ok tt));
   HeapManager.NewImpl (fun _ _ => None) 2 c 16 8 m) = Ok (Some 64, m).
Proof.
  exists (HeapManager.mkHeapManager 0 0 None true).
  exact (proj1 (thread_heap_allocates (fun _ _ => None) 2 HeapManager.RootHeap _ 16 8 (HeapManager.mkHeapManager 0 0 None true)
    (fun _ _ => Ok (Some 64)) (fun _ => Ok tt) eq_refl eq_refl)).
Defined.

Lemma operator_new_fails_after_init_witness :
  exists m, HeapManager.InitializeHeapManager 200 tt 65536 (fun _ => 65536) 1000 HeapManager.initial = Ok (tt, m) /\
    HeapManager.operator_new (fun _ _ => Some 16) 2 HeapManager.NoThread 16 m = Fault Uninitialized.
Proof.
  destruct (operator_new_fails_after_init 200 tt 65536 (fun _ => 65536) (fun _ _ => Some 16) 1000 2 16) as [_ (m & E & _ & En & _)];
    [by vm_compute|by vm_compute|by vm_compute|vm_compute; split; [intros; discriminate|done]|lia|].
  by exists m.
Defined.
End example.
