(* ===== verification/Runtime.v ===== *)
(** Language-level support: run-time type information (util_runtimetypeinfo.hpp), the offset of a member and the
    objects of intrusive nodes (util_member.hpp, the traits of util_intrusivelist.hpp), storage for an object that is
    constructed later (util_typestorage.hpp), and singletons (util_singleton.h). *)
From stdpp Require Import functions.
From S2P Require Import Prelude IntrusiveList ListFamily.
From S2P Require Import ExpHeap HeapTree.

(** * RuntimeTypeInfo: objects at addresses, each with the pointer to that of the base class *)
Module Rtti.
Abbreviation RuntimeTypeInfos := (gmap Z (option Z)).   (* m_next *)

(** The objects that RTTI_BASE and RTTI_DERIVED define. *)
Definition define_base (info : Z) (m : RuntimeTypeInfos) : RuntimeTypeInfos := <[info := None]> m.
Definition define_derived (info base_info : Z) (m : RuntimeTypeInfos) : RuntimeTypeInfos := <[info := Some base_info]> m.

(** The do-while loop of CheckRuntimeTypeInfo: the test is [!=]. *)
Fixpoint check_loop (fuel : nat) (m : RuntimeTypeInfos) (class_info target : Z) : res bool :=
  match fuel with
  | O => Fault OutOfFuel
  | S fuel =>
      if negb (class_info =? target) then Ok true else
      match m !! class_info with
      | None => Fault BadPointer
      | Some (Some next) => check_loop fuel m next target
      | Some None => Ok false            (* a null pointer is not the target *)
      end
  end.

(** [other_obj]: the object's GetRuntimeTypeInfo, null for a null pointer; [class_info]: the static one. *)
Definition CheckRuntimeTypeInfo (fuel : nat) (m : RuntimeTypeInfos) (class_info : Z) (other_obj : option Z) : res bool :=
  match other_obj with None => Fault NullDeref | Some target => check_loop fuel m class_info target end.
End Rtti.

(** * util_member.hpp *)
Module Member.
(** _OffsetOfImpl::GetOffset: it looks for the offset of a member, which the language knows, in steps. *)
Section offset.
Variables sizeof_Parent alignof_Parent sizeof_Member member_offset : Z.

Definition offset_step : Z := if sizeof_Member <? alignof_Parent then sizeof_Member else alignof_Parent.

Fixpoint GetOffset (fuel : nat) (Size : Z) : res Z :=
  match fuel with
  | O => Fault OutOfFuel
  | S fuel =>
      if Size <? sizeof_Parent then
        if Size <? member_offset then GetOffset fuel (Size + offset_step) else Ok Size
      else Ok Size
  end.
Definition OffsetOf (fuel : nat) : res Z := GetOffset fuel 0.
End offset.

(** IntrusiveListMemberTraits, with the value of OffsetOf. *)
Definition GetParent (offset node : Z) : Z := u64 (node - offset).
Definition GetListNode (offset parent : Z) : Z := u64 (parent + offset).

(** The index that the union reads out of a pointer to a virtual function. *)
Definition GetVTableOffset (i : Z) : res Z := chk32 (i - 1).
End Member.

(** * TypeStorage: room for an object, [None] while none is constructed in it *)
Module TypeStorage.
Section storage.
Context {T S : Type}.
Definition TypeStorage : Type := option T.   (* _storage *)

(** An access through the reference or the pointer, when there may be no object. *)
Definition GetReference (storage : TypeStorage) : res T :=
  match storage with Some object => Ok object | None => Fault Uninitialized end.
Definition GetPointer (address : Z) : Z := address.
(** std::construct_at makes the object whatever was there; std::destroy_at calls the destructor of the object. *)
Definition ConstructAt (construct : M S T) (storage : TypeStorage) : M S TypeStorage :=
  object ← construct; mret (Some object).
Definition DestructAt (destruct : T -> M S unit) (storage : TypeStorage) : M S TypeStorage :=
  object ← lift (GetReference storage); destruct object;; mret None.

(** An object that is constructed is used until it is destroyed, and then no more. *)
Lemma storage_life construct destruct storage s object s1 s2 :
  construct s = Ok (object, s1) -> destruct object s1 = Ok (tt, s2) ->
  (constructed ← ConstructAt construct storage; DestructAt destruct constructed) s = Ok (None, s2) /\
  (forall constructed s', ConstructAt construct storage s = Ok (constructed, s') -> GetReference constructed = Ok object) /\
  DestructAt destruct None s = Fault Uninitialized.
Proof.
  intros Ec Ed. unfold ConstructAt, DestructAt, mbind, M_bind, lift. cbn. rewrite Ec. cbn. rewrite Ed.
  split; [done|]. split; [|done]. by intros ? ? [= <- <-].
Qed.
End storage.
End TypeStorage.

(** * util_singleton.h *)
Module Singleton.
Import HeapTree.
Section singleton.
Context {CS W : Type} `{!HeapLock CS}.
(** operator new and delete, the constructor and the destructor of the class, where its member
    m_singleton_disposer is, and FindContainedHeap. *)
Variable operator_new : option Z -> M W (option Z).
Variable operator_delete : Z -> M W unit.
Variables construct_at destroy_at : Z -> M W unit.
Variable m_singleton_disposer : Z -> Z.
Variable FindContainedHeap : Z -> M (Heaps CS) (option Z).

Record Singleton := mkSingleton {
  sInstance : option Z;
  sDisposer : option Z;
  heap_tree : Heaps CS;
  world : W
}.
Definition set_sInstance i s := mkSingleton i (sDisposer s) (heap_tree s) (world s).
Definition set_sDisposer d s := mkSingleton (sInstance s) d (heap_tree s) (world s).

Definition on_world {A} (m : M W A) : M Singleton A := fun s =>
  match m (world s) with
  | Ok (a, w) => Ok (a, mkSingleton (sInstance s) (sDisposer s) (heap_tree s) w)
  | Fault f => Fault f
  end.
Definition on_heaps {A} (m : M (Heaps CS) A) : M Singleton A := fun s =>
  match m (heap_tree s) with
  | Ok (a, h) => Ok (a, mkSingleton (sInstance s) (sDisposer s) h (world s))
  | Fault f => Fault f
  end.

(** SingletonDisposer *)
Definition construct_SingletonDisposer (this : Z) (heap : option Z) : M Singleton unit :=
  on_heaps (construct_disposer_in FindContainedHeap false this heap);;
  modify (set_sDisposer (Some this)).

Definition destroy_SingletonDisposer (this : Z) : M Singleton unit :=
  d ← gets sDisposer;
  (if bool_decide (d = Some this) then
     modify (set_sDisposer None);;
     i ← gets sInstance;
     i ← deref i;
     on_world (destroy_at i);;
     modify (set_sInstance None)
   else mret tt);;
  on_heaps (destroy_disposer this).

Definition CreateInstance (allocate_heap : option Z) : M Singleton (option Z) :=
  i ← gets sInstance;
  match i with
  | Some i => mret (Some i)
  | None =>
      a ← on_world (operator_new allocate_heap);
      modify (set_sInstance a);;
      i ← deref a;
      on_world (construct_at i);;
      construct_SingletonDisposer (m_singleton_disposer i) allocate_heap;;
      gets sInstance
  end.

Definition FinalizeInstance : M Singleton unit :=
  d ← gets sDisposer;
  match d with
  | None => mret tt
  | Some disposer =>
      modify (set_sDisposer None);;
      destroy_SingletonDisposer disposer;;
      i ← gets sInstance;
      (match i with Some i => on_world (destroy_at i);; on_world (operator_delete i) | None => mret tt end);;
      modify (set_sInstance None)
  end.

Definition GetInstance (constant_evaluated : bool) (s : Singleton) : option Z :=
  if constant_evaluated then None else sInstance s.
End singleton.
Arguments Singleton CS W : clear implicits.
End Singleton.

(** * Run-time type information *)
Section rtti.
Import Rtti.

(** The check of a derived class accepts every object, whatever its type: the loop asks whether the
    information differs instead of whether it is the same, and the information of a class differs from that of
    its base. *)
Theorem rtti_accepts_everything m class_info base_info target (fuel : nat) :
  class_info <> base_info -> (2 <= fuel)%nat ->
  CheckRuntimeTypeInfo fuel (define_derived class_info base_info m) class_info (Some target) = Ok true.
Proof.
  intros Hne Hf. destruct fuel as [|[|fuel]]; [lia|lia|]. cbn [CheckRuntimeTypeInfo check_loop].
  destruct (Z.eqb_spec class_info target) as [->|]; [|done]. unfold define_derived. rewrite lookup_insert_eq. cbn [negb].
  by destruct (Z.eqb_spec base_info target).
Qed.
End rtti.

(** * Offsets of members *)
Section offsets.
Import Member.
Variables sp ap sm : Z.
Hypothesis Hsm : 0 < sm.
Hypothesis Hap : 0 < ap.

Local Abbreviation st := (offset_step ap sm).

Lemma step_pos : 0 < st.
Proof. unfold offset_step. destruct (sm <? ap); lia. Qed.

Lemma GetOffset_run off k fuel : 0 <= off < sp -> 0 <= k -> k * st < off + st -> off <= k * st + st * (Z.of_nat fuel - 1) ->
  (0 < fuel)%nat -> exists j, GetOffset sp ap sm off fuel (k * st) = Ok (j * st) /\ k <= j /\ off <= j * st < off + st.
Proof.
  pose proof step_pos as Hst. revert k. induction fuel as [|fuel IH]; intros k Ho Hk Hlt Hf Hpos; [lia|]. cbn [GetOffset].
  destruct (Z.ltb_spec (k * st) sp) as [Hp|Hp]; [|exists k; split; [done|lia]].
  destruct (Z.ltb_spec (k * st) off) as [Hm|Hm]; [|exists k; split; [done|lia]].
  replace (k * st + st) with ((k + 1) * st) by lia. destruct (IH (k + 1)) as (j & E & Hj & Hr); [lia|lia|lia|nia|nia|].
  exists j. split; [done|lia].
Qed.

(** OffsetOf ends and gives the first multiple of its step, the smaller one of the member's size and the
    parent's alignment, that is not before the member: the offset of the member when it is such a multiple, as
    it is for the nodes of the lists, but a place behind its start otherwise. With it, the object of a node
    is found from the node and the node from the object. *)
Theorem offset_of_member off fuel :
  0 <= off < sp -> sp + st <= st * Z.of_nat fuel ->
  (exists r, OffsetOf sp ap sm off fuel = Ok r /\ off <= r < off + st /\ r mod st = 0 /\ (r = off <-> off mod st = 0)) /\
  (forall r parent, 0 <= parent < 2 ^ 64 -> GetParent r (GetListNode r parent) = parent) /\
  (forall r node, 0 <= node < 2 ^ 64 -> GetListNode r (GetParent r node) = node).
Proof.
  intros Ho Hf. pose proof step_pos as Hst. split_and!.
  - destruct (GetOffset_run off 0 fuel) as (j & E & Hj & Hr); [lia|lia|lia|nia|nia|]. exists (j * st).
    split; [by rewrite <- E|]. split; [done|]. split; [apply Z_mod_mult|]. split; [intros <-; apply Z_mod_mult|].
    intros Hm. apply Z.div_exact in Hm; [|lia]. set (q := off / st) in *.
    assert (q <= j) by nia. assert (j < q + 1) by nia. assert (j = q) as -> by lia. lia.
  - intros r p Hp. unfold GetParent, GetListNode, u64, wrap. rewrite Zminus_mod_idemp_l.
    replace (p + r - r) with p by lia. by apply Z.mod_small.
  - intros r n Hn. unfold GetParent, GetListNode, u64, wrap. rewrite Zplus_mod_idemp_l.
    replace (n - r + r) with n by lia. by apply Z.mod_small.
Qed.
End offsets.

(** * Singletons *)
Section singletons.
Import Singleton HeapTree.
Context {CS W : Type} `{!HeapLock CS}.
Context (operator_new : option Z -> M W (option Z)) (operator_delete construct_at destroy_at : Z -> M W unit).
Context (disposer_of : Z -> Z) (find : Z -> M (Heaps CS) (option Z)).
Implicit Types (s : Singleton CS W).

Local Abbreviation Create := (CreateInstance operator_new construct_at disposer_of find).
Local Abbreviation Finalize := (FinalizeInstance operator_delete destroy_at).

(** An instance is made once and ended once. The first CreateInstance allocates it in the heap, constructs it
    and registers its disposer with the heap; the following ones and GetInstance give the same. FinalizeInstance
    takes the disposer out of the heap, destroys the instance and gives back its memory; when the heap goes
    first, its disposer destroys the instance and leaves the memory to the heap, and finalising does
    nothing more. *)
Theorem singleton_life s (L : HeapListNode -> list HeapListNode) h x a w0 w1 :
  let d := disposer_of a in
  sInstance s = None -> sDisposer s = None ->
  family (links (heap_tree s)) L -> loose L (DisposerHead h) -> loose L (DisposerNode d) -> L (DisposerNode d) = [] ->
  heaps (heap_tree s) !! h = Some x -> m_is_thread_safe x = false ->
  operator_new (Some h) (world s) = Ok (Some a, w0) -> construct_at a w0 = Ok (tt, w1) ->
  exists s1, Create (Some h) s = Ok (Some a, s1) /\ world s1 = w1 /\
    Create (Some h) s1 = Ok (Some a, s1) /\ GetInstance false s1 = Some a /\
    family (links (heap_tree s1)) (<[DisposerHead h := L (DisposerHead h) ++ [DisposerNode d]]> L) /\
    forall w2, destroy_at a w1 = Ok (tt, w2) ->
      (forall w3, operator_delete a w2 = Ok (tt, w3) ->
       exists s2, Finalize s1 = Ok (tt, s2) /\ world s2 = w3 /\ GetInstance false s2 = None /\ sDisposer s2 = None /\
         family (links (heap_tree s2)) (<[DisposerHead h := L (DisposerHead h)]> L)) /\
      exists s2, destroy_SingletonDisposer destroy_at d s1 = Ok (tt, s2) /\ world s2 = w2 /\
        GetInstance false s2 = None /\ Finalize s2 = Ok (tt, s2).
Proof.
  intros d Hi Hd HF Hh Hdl Ed Hx Hsafe Hnew Hcon.
  destruct (construct_disposer_run find (heap_tree s) L d h x HF Hh Hdl Ed Hx Hsafe) as (hs1 & E1 & HF1 & Hc1 & Hx1).
  destruct (destroy_disposer_run hs1 _ d h (L (DisposerHead h)) [] x HF1 ltac:(by rewrite fn_lookup_insert) Hc1
    ltac:(by rewrite Hx1) Hsafe) as (hs2 & E2 & HF2 & _ & _).
  exists (mkSingleton (Some a) (Some d) hs1 w1). split_and!; [|done|done|done|exact HF1|].
  - unfold CreateInstance. steps. rewrite Hi.
    rewrite (M_bind_run _ _ s (Some a) (mkSingleton None None (heap_tree s) w0)) by (unfold on_world; by rewrite Hnew, Hi, Hd). steps.
    rewrite (M_bind_run _ _ _ tt (mkSingleton (Some a) None (heap_tree s) w1)) by (unfold on_world; cbn; by rewrite Hcon).
    unfold construct_SingletonDisposer. rewrite M_bind_assoc.
    rewrite (M_bind_run _ _ _ tt (mkSingleton (Some a) None hs1 w1)) by (unfold on_heaps; cbn [heap_tree set_sDisposer set_sInstance]; fold d; by rewrite E1). done.
  - intros w2 Hdes. split.
    + intros w3 Hdel. exists (mkSingleton None None hs2 w3). split_and!; [|done|done|done|].
      * unfold FinalizeInstance, destroy_SingletonDisposer. steps. cbn [sDisposer]. steps. cbn [sDisposer set_sDisposer sInstance heap_tree world].
        rewrite M_bind_assoc. steps. cbn [sDisposer bool_decide]. rewrite bool_decide_false by done. steps.
        rewrite (M_bind_run _ _ _ tt (mkSingleton (Some a) None hs2 w1)) by (unfold on_heaps; cbn [heap_tree set_sDisposer set_sInstance]; fold d; by rewrite E2).
        steps. cbn [sInstance]. rewrite M_bind_assoc.
        rewrite (M_bind_run _ _ _ tt (mkSingleton (Some a) None hs2 w2)) by (unfold on_world; cbn; by rewrite Hdes).
        by rewrite (M_bind_run _ _ _ tt (mkSingleton (Some a) None hs2 w3)) by (unfold on_world; cbn; by rewrite Hdel).
      * cbn. by rewrite app_nil_r, fn_insert_insert in HF2 || (rewrite app_nil_r in HF2; eapply family_ext_L; [|exact HF2];
          intros y; destruct (decide (y = DisposerHead h)) as [->|Hy]; [by rewrite !fn_lookup_insert|by rewrite !fn_lookup_insert_ne]).
    + exists (mkSingleton None None hs2 w2). split_and!; [|done|done|done].
      unfold destroy_SingletonDisposer. steps. cbn [sDisposer]. rewrite bool_decide_true by done.
      unfold on_world, on_heaps, mbind, M_bind, gets, modify, deref, mret, M_ret.
      cbn [set_sDisposer set_sInstance sDisposer sInstance heap_tree world]. rewrite Hdes.
      cbn [set_sDisposer set_sInstance sDisposer sInstance heap_tree world]. by rewrite E2.
Qed.
End singletons.

(** * Examples *)
Section example.
Import Rtti Member Singleton.
#[local] Existing Instance no_lock.

Lemma rtti_accepts_everything_witness :
  CheckRuntimeTypeInfo 2 (define_derived 2 1 (define_base 1 ∅)) 2 (Some 5) = Ok true.
Proof. exact (rtti_accepts_everything (define_base 1 ∅) 2 1 5 2 ltac:(lia) ltac:(lia)). Defined.

(** A node of 16 bytes at 24 in an object of 64; a member of 12 bytes at 4 is looked for at 8. *)
Lemma offset_of_member_witness : OffsetOf 64 8 16 24 9 = Ok 24 /\ OffsetOf 64 8 12 4 9 = Ok 8.
Proof.
  destruct (offset_of_member 64 8 16 ltac:(lia) ltac:(lia) 24 9 ltac:(lia) ltac:(vm_compute; discriminate)) as ((r & E & _ & _ & Hr) & _).
  rewrite (proj2 Hr eq_refl) in E. split; [exact E|reflexivity].
Defined.

(** The world is the list of what was done. *)
Inductive event := New | Constructed | Destroyed | Deleted.
Definition log (e : event) (a : Z) : M (list event) unit := fun w => Ok (tt, w ++ [e]).
Definition log_new (heap : option Z) : M (list event) (option Z) := fun w => Ok (Some 5000, w ++ [New]).
Definition example_singleton : Singleton unit (list event) := mkSingleton None None example_heaps [].

Lemma singleton_life_witness : exists s1 s2,
  CreateInstance log_new (log Constructed) (fun a => a + 8) (fun _ => mret None) (Some 3) example_singleton = Ok (Some 5000, s1) /\
  FinalizeInstance (log Deleted) (log Destroyed) s1 = Ok (tt, s2) /\
  world s2 = [New; Constructed; Destroyed; Deleted] /\ GetInstance false s2 = None.
Proof.
  destruct (singleton_life log_new (log Deleted) (log Constructed) (log Destroyed) (fun a => a + 8) (fun _ => mret None)
    example_singleton example_lists 3 (example_heap_of 1050 40 [98]) 5000 [New] [New; Constructed] eq_refl eq_refl example_family
    ltac:(apply example_loose; set_solver) ltac:(apply example_loose; set_solver) eq_refl eq_refl eq_refl eq_refl eq_refl)
    as (s1 & E1 & _ & _ & _ & _ & Hend).
  destruct (Hend [New; Constructed; Destroyed] eq_refl) as [Hfin _].
  destruct (Hfin [New; Constructed; Destroyed; Deleted] eq_refl) as (s2 & E2 & Ew & Eg & _).
  exists s1, s2. by split_and!.
Defined.
End example.
