(* ===== verification/Float32.v ===== *)
(** Single and double precision arithmetic, as the code's target does it: IEEE 754 binary32 and binary64, rounded
    to nearest, with one NaN.  The operations are those of the Standard Library's SpecFloat. *)
From Stdlib Require Import ZArith SpecFloat.
From S2P Require Import Prelude.

Module Float32.
Definition f32 : Type := spec_float.
Definition f64 : Type := spec_float.

Definition add : f32 -> f32 -> f32 := SFadd 24 128.
Definition sub : f32 -> f32 -> f32 := SFsub 24 128.
Definition mul : f32 -> f32 -> f32 := SFmul 24 128.
Definition div : f32 -> f32 -> f32 := SFdiv 24 128.
Definition sqrt : f32 -> f32 := SFsqrt 24 128.
Definition opp : f32 -> f32 := SFopp.
Definition ltb : f32 -> f32 -> bool := SFltb.
Definition leb : f32 -> f32 -> bool := SFleb.
Definition eqb : f32 -> f32 -> bool := SFeqb.

Definition add64 : f64 -> f64 -> f64 := SFadd 53 1024.
Definition mul64 : f64 -> f64 -> f64 := SFmul 53 1024.
Definition div64 : f64 -> f64 -> f64 := SFdiv 53 1024.

(** Conversions: of integers, between the two widths, and to int with truncation, which is undefined when the
    result does not fit. *)
Definition of_Z (z : Z) : f32 := binary_normalize 24 128 z 0 false.
Definition of_Z64 (z : Z) : f64 := binary_normalize 53 1024 z 0 false.
Definition to_f64 (x : f32) : f64 :=
  match x with S754_finite s m e => binary_normalize 53 1024 (cond_Zopp s (Zpos m)) e s | _ => x end.
Definition to_f32 (x : f64) : f32 :=
  match x with S754_finite s m e => binary_normalize 24 128 (cond_Zopp s (Zpos m)) e s | _ => x end.

Definition truncate (x : f32) : option Z :=
  match x with
  | S754_zero _ => Some 0
  | S754_finite s m e => Some (cond_Zopp s (if 0 <=? e then Z.shiftl (Zpos m) e else Z.shiftr (Zpos m) (- e)))
  | _ => None
  end.
Definition to_s32 (x : f32) : res Z :=
  match truncate x with Some z => chk32 z | None => Fault SignedOverflow end.

(** The literal [n / 10^k] as a double, for [n] and [10^k] that are doubles, and as a float. *)
Definition literal64 (n k : Z) : f64 := div64 (of_Z64 n) (of_Z64 (10 ^ k)).
Definition literal (n k : Z) : f32 := to_f32 (literal64 n k).
End Float32.

(** * What holds of the rounded operations *)
Section float_lemmas.
Import Float32.
Implicit Types (x y : f32).

Lemma f32_mul_comm x y : mul x y = mul y x.
Proof.
  unfold mul. destruct x, y; cbn; rewrite ?(xorb_comm s), ?(Pos.mul_comm m), ?(Z.add_comm e); try done.
Qed.

Lemma f32_add_comm x y : add x y = add y x.
Proof.
  unfold add. destruct x as [[]|[]| |s m e], y as [[]|[]| |s' m' e']; try done. cbn.
  rewrite (Z.min_comm e' e). f_equal. apply Z.add_comm.
Qed.

Lemma f32_add_opp x : truncate x <> None -> exists s, add x (opp x) = S754_zero s.
Proof.
  unfold add, opp. destruct x as [[]|[]| |s m e]; cbn; intros H; try done; try (by eexists). exists false.
  generalize (fst (shl_align m e (Z.min e e))), (Z.min e e). intros q k.
  replace (_ + _) with 0; [done|]. destruct s; cbn [cond_Zopp negb]; lia.
Qed.
End float_lemmas.
