(* ===== verification/Simd.v ===== *)
(** The vector registers (util_float128.sse4.hpp, util_int128.sse4.hpp, util_clamp.hpp): the operations on four
    floats and on the lanes of 128 bits, at run time, where they are instructions of the processor, and in
    constant evaluation, where they are written out.

    [Arith] are the operations of a number type; the code's are the instances for float and double.  Theorems about
    formulas are proved for exact arithmetic, any field in the place of the rounded one. *)
From Stdlib Require Import SpecFloat Reals.
From S2P Require Import Prelude Float32.

Class Arith (T : Type) : Type := {
  a_add : T -> T -> T; a_sub : T -> T -> T; a_mul : T -> T -> T; a_div : T -> T -> T;
  a_opp : T -> T; a_sqrt : T -> T;
  a_ltb : T -> T -> bool; a_eqb : T -> T -> bool;
  a_of_Z : Z -> T;                 (* of an int *)
  a_literal : Z -> Z -> T;         (* n / 10^k *)
  a_truncate : T -> option Z       (* towards zero, of a number that is finite *)
}.
(** Between float and double. *)
Class Precision (F D : Type) : Type := { widen : F -> D; narrow : D -> F }.

#[export] Instance real_lt_decision (x y : R) : Decision (Rlt x y) := Rlt_dec x y.
#[export] Instance real_eq_decision (x y : R) : Decision (x = y) := Req_dec_T x y.

Definition float_arith : Arith Float32.f32 := {|
  a_add := Float32.add; a_sub := Float32.sub; a_mul := Float32.mul; a_div := Float32.div;
  a_opp := Float32.opp; a_sqrt := Float32.sqrt; a_ltb := Float32.ltb; a_eqb := Float32.eqb;
  a_of_Z := Float32.of_Z; a_literal := Float32.literal; a_truncate := Float32.truncate |}.
Definition double_arith : Arith Float32.f64 := {|
  a_add := SFadd 53 1024; a_sub := SFsub 53 1024; a_mul := SFmul 53 1024; a_div := SFdiv 53 1024;
  a_opp := SFopp; a_sqrt := SFsqrt 53 1024; a_ltb := SFltb; a_eqb := SFeqb;
  a_of_Z := Float32.of_Z64; a_literal := Float32.literal64;
  a_truncate := Float32.truncate |}.
Definition float_double : Precision Float32.f32 Float32.f64 := {| widen := Float32.to_f64; narrow := Float32.to_f32 |}.

#[export] Instance real_arith : Arith R := {|
  a_add := Rplus; a_sub := Rminus; a_mul := Rmult; a_div := Rdiv; a_opp := Ropp; a_sqrt := R_sqrt.sqrt;
  a_ltb := fun x y => bool_decide (Rlt x y); a_eqb := fun x y => bool_decide (x = y);
  a_of_Z := IZR; a_literal := fun n k => Rdiv (IZR n) (IZR (10 ^ k));
  a_truncate := fun x => Some (if decide (Rlt x (IZR 0)) then - Int_part (Ropp x) else Int_part x) |}.
#[export] Instance real_precision : Precision R R := {| widen := fun x => x; narrow := fun x => x |}.

(** A float as an unsigned 64 bit integer: undefined when the truncated number is none. *)
Definition to_u64 {T} `{!Arith T} (x : T) : res Z :=
  match a_truncate x with
  | Some z => if (0 <=? z) && (z <? 2 ^ 64) then Ok z else Fault BadConversion
  | None => Fault BadConversion
  end.

(** * util_clamp.hpp *)
Module Clamp.
Section clamp.
Context {T : Type} (ltb : T -> T -> bool).
Definition Min (value0 value1 : T) : T := if ltb value1 value0 then value1 else value0.
Definition Max (value0 value1 : T) : T := if ltb value0 value1 then value1 else value0.
Definition Clamp (value min max : T) : T := if ltb value min then min else if ltb max value then max else value.
End clamp.
(** The one of util_int128.sse4.hpp. *)
Definition sse4_Clamp (val min max : Z) : Z :=
  let val := if max <? val then max else val in if val <? min then min else val.
End Clamp.

(** * Four floats *)
Module Float128.
Record v4 (T : Type) : Type := V4 { lane0 : T; lane1 : T; lane2 : T; lane3 : T }.
Arguments V4 {T}. Arguments lane0 {T}. Arguments lane1 {T}. Arguments lane2 {T}. Arguments lane3 {T}.

Definition lane {T} (v : v4 T) (i : Z) : T :=
  if i =? 0 then lane0 v else if i =? 1 then lane1 v else if i =? 2 then lane2 v else lane3 v.
Definition set_lane {T} (v : v4 T) (i : Z) (x : T) : v4 T :=
  if i =? 0 then V4 x (lane1 v) (lane2 v) (lane3 v) else if i =? 1 then V4 (lane0 v) x (lane2 v) (lane3 v)
  else if i =? 2 then V4 (lane0 v) (lane1 v) x (lane3 v) else V4 (lane0 v) (lane1 v) (lane2 v) x.
Definition lanewise {A B C} (f : A -> B -> C) (a : v4 A) (b : v4 B) : v4 C :=
  V4 (f (lane0 a) (lane0 b)) (f (lane1 a) (lane1 b)) (f (lane2 a) (lane2 b)) (f (lane3 a) (lane3 b)).

Section float128.
Context {T : Type} `{!Arith T}.
Implicit Types (a b : v4 T) (mask : Z).
Local Abbreviation zero := (a_of_Z 0).

(** The same in both modes. *)
Definition addps a b : v4 T := lanewise a_add a b.
Definition subps a b : v4 T := lanewise a_sub a b.
Definition mulps a b : v4 T := lanewise a_mul a b.
Definition movaps_load (array : list T) : res (v4 T) :=
  x ← arr_get array 0; y ← arr_get array 1; z ← arr_get array 2; w ← arr_get array 3; Ok (V4 x y z w).
Definition movaps_store (array : list T) a : res (list T) :=
  array ← arr_set array 0 (lane0 a); array ← arr_set array 1 (lane1 a); array ← arr_set array 2 (lane2 a);
  arr_set array 3 (lane3 a).

Definition GetSelectionMask (x y z w : Z) : Z := Z.lor (Z.lor (Z.lor x (Z.shiftl y 1)) (Z.shiftl z 2)) (Z.shiftl w 3).
Definition GetDotProductMask (selection_mask result_selection_mask : Z) : Z :=
  Z.lor (Clamp.sse4_Clamp result_selection_mask 0 15) (Z.shiftl (Clamp.sse4_Clamp selection_mask 0 15) 4).

(** The instruction: a bit of the upper half of the mask selects a product, one of the lower half a lane of the result. *)
Definition dpps_instruction a b mask : v4 T :=
  let p i := if Z.testbit mask (4 + i) then a_mul (lane a i) (lane b i) else zero in
  let result := a_add (a_add (p 0) (p 1)) (a_add (p 2) (p 3)) in
  let out i := if Z.testbit mask i then result else zero in
  V4 (out 0) (out 1) (out 2) (out 3).
(** Constant evaluation: the bits are looked for to the left. *)
Definition dpps_constant a b mask : v4 T :=
  let bit i := Z.land (Z.shiftl mask i) 1 in
  let temp i := if negb (bit (4 + i) =? 0) then a_mul (lane a i) (lane b i) else zero in
  let result := a_add (a_add (a_add (temp 0) (temp 1)) (temp 2)) (temp 3) in
  let out i := if negb (bit i =? 0) then result else zero in
  V4 (out 0) (out 1) (out 2) (out 3).
Definition dpps (constant_evaluated : bool) a b mask : v4 T :=
  if constant_evaluated then dpps_constant a b mask else dpps_instruction a b mask.

Definition shuffle_index mask (i : Z) : Z := Z.land (Z.shiftr mask (i + i)) 3.
Definition shufps_instruction a b mask : v4 T :=
  V4 (lane a (shuffle_index mask 0)) (lane a (shuffle_index mask 1)) (lane b (shuffle_index mask 2)) (lane b (shuffle_index mask 3)).
(** Constant evaluation: the loop stops before the last lane, which nothing is written to. *)
Definition shufps_constant a b mask : v4 (option T) :=
  V4 (Some (lane a (shuffle_index mask 0))) (Some (lane a (shuffle_index mask 1))) (Some (lane b (shuffle_index mask 2))) None.

(** The instruction: lane 7-6 of the source goes to lane 5-4, then the lanes of bits 3-0 are cleared. *)
Definition insertps_instruction a b mask : v4 T :=
  let x := lane b (Z.land (Z.shiftr mask 6) 3) in
  let v := set_lane a (Z.land (Z.shiftr mask 4) 3) x in
  let out i := if Z.testbit mask i then zero else lane v i in
  V4 (out 0) (out 1) (out 2) (out 3).
(** Constant evaluation: again to the left. *)
Definition insertps_constant a b mask : v4 T :=
  let x := lane b (Z.land (Z.shiftl mask 6) 3) in
  let v := set_lane a (Z.land (Z.shiftl mask 4) 3) x in
  let out i := if Z.land (Z.shiftl mask i) 1 =? 0 then lane v i else zero in
  V4 (out 0) (out 1) (out 2) (out 3).
Definition insertps (constant_evaluated : bool) a b mask : v4 T :=
  if constant_evaluated then insertps_constant a b mask else insertps_instruction a b (u8 mask).
End float128.
End Float128.

(** * The lanes of a 128 bit integer *)
Module Int128.
(** A register is its value; lane [i] of width [w], unsigned and signed. *)
Definition ulane (w : Z) (x i : Z) : Z := wrap w (Z.shiftr x (w * i)).
Definition slane (w : Z) (x i : Z) : Z := swrap w (ulane w x i).
Fixpoint pack (w : Z) (l : list Z) : Z :=
  match l with [] => 0 | x :: l => wrap w x + 2 ^ w * pack w l end.
Definition lanes (w : Z) : list Z := seqZ 0 (128 / w).
Definition by_lane (w : Z) (f : Z -> Z) : Z := pack w (f <$> lanes w).
Definition truth (b : bool) : Z := if b then -1 else 0.

Definition paddq a b := by_lane 64 (fun i => ulane 64 a i + ulane 64 b i).
Definition paddd a b := by_lane 32 (fun i => ulane 32 a i + ulane 32 b i).
Definition psubq a b := by_lane 64 (fun i => ulane 64 a i - ulane 64 b i).
(** psubd and pmuld return before they ask for the mode of evaluation. *)
Definition psubd a b := by_lane 32 (fun i => ulane 32 a i - ulane 32 b i).
Definition pmuld a b := by_lane 32 (fun i => ulane 32 a i - ulane 32 b i).

(** The instructions shift every lane by the low 64 bits of the count; constant evaluation shifts each by its own. *)
Definition shift_instruction (w : Z) a count :=
  let n := ulane 64 count 0 in
  by_lane w (fun i => if w <=? n then 0 else Z.shiftl (ulane w a i) n).
Definition shift_constant (w : Z) a count : res Z :=
  if forallb (fun i => (0 <=? slane w count i) && (slane w count i <? w)) (lanes w)
  then Ok (by_lane w (fun i => Z.shiftl (ulane w a i) (slane w count i))) else Fault BadShift.
Definition psllq (constant_evaluated : bool) a count : res Z :=
  if constant_evaluated then shift_constant 64 a count else Ok (shift_instruction 64 a count).
Definition pslld (constant_evaluated : bool) a count : res Z :=
  if constant_evaluated then shift_constant 32 a count else Ok (shift_instruction 32 a count).
Definition psllw (constant_evaluated : bool) a count : res Z :=
  if constant_evaluated then shift_constant 16 a count else Ok (shift_instruction 16 a count).

Definition pand a b := by_lane 64 (fun i => Z.land (ulane 64 a i) (ulane 64 b i)).
Definition pandn a b := by_lane 64 (fun i => Z.land (Z.lnot (ulane 64 a i)) (ulane 64 b i)).
Definition por a b := by_lane 64 (fun i => Z.lor (ulane 64 a i) (ulane 64 b i)).
Definition pxor a b := by_lane 64 (fun i => Z.lxor (ulane 64 a i) (ulane 64 b i)).

Definition pcmpeqd a b := by_lane 32 (fun i => truth (slane 32 a i =? slane 32 b i)).
Definition pcmpeqw a b := by_lane 16 (fun i => truth (slane 16 a i =? slane 16 b i)).
Definition pcmpeqb a b := by_lane 8 (fun i => truth (slane 8 a i =? slane 8 b i)).
Definition pcmpgtd a b := by_lane 32 (fun i => truth (slane 32 b i <? slane 32 a i)).
Definition pcmpgtw a b := by_lane 16 (fun i => truth (slane 16 b i <? slane 16 a i)).
Definition pcmpgtb a b := by_lane 8 (fun i => truth (slane 8 b i <? slane 8 a i)).
Definition pcmpltd (constant_evaluated : bool) a b :=
  if constant_evaluated then by_lane 32 (fun i => truth (slane 32 a i <? slane 32 b i)) else pcmpgtd b a.
Definition pcmpltw (constant_evaluated : bool) a b :=
  if constant_evaluated then by_lane 16 (fun i => truth (slane 16 a i <? slane 16 b i)) else pcmpgtw b a.
Definition pcmpltb (constant_evaluated : bool) a b :=
  if constant_evaluated then by_lane 8 (fun i => truth (slane 8 a i <? slane 8 b i)) else pcmpgtb b a.

(** The clamped values are dropped. *)
Definition ShuffleToOrder (x y z w : Z) : Z :=
  Z.land (Z.lor (Z.lor (Z.lor x (Z.shiftl y 2)) (Z.shiftl z 4)) (Z.shiftl w 6)) 255.

Definition pshufd a (shuffle_mask : Z) : Z :=
  by_lane 32 (fun i => ulane 32 a (Z.land (Z.shiftr shuffle_mask (i + i)) 3)).

Definition lddqu (address : list Z) : res Z :=
  x ← arr_get address 0; y ← arr_get address 1; z ← arr_get address 2; w ← arr_get address 3; Ok (pack 32 [x; y; z; w]).
Definition insert_lane a (i index : Z) : Z := by_lane 32 (fun k => if k =? index then i else ulane 32 a k).
Definition pinsrd (constant_evaluated : bool) a (i index : Z) : res Z :=
  if constant_evaluated then if (0 <=? index) && (index <? 4) then Ok (insert_lane a i index) else Fault OutOfBounds
  else Ok (insert_lane a i (Z.land index 3)).
End Int128.

(** * Lanes *)
Section lane_lemmas.
Import Int128.
Implicit Types (w i : Z) (l : list Z).

Lemma pack_nonneg w l : 0 <= w -> 0 <= pack w l.
Proof.
  intros Hw. induction l as [|x l IH]; cbn; [done|]. pose proof (wrap_range w x Hw).
  assert (0 <= 2 ^ w) by (apply Z.pow_nonneg; lia). nia.
Qed.

Lemma ulane_pack w l (i : nat) x : 0 < w -> l !! i = Some x -> ulane w (pack w l) (Z.of_nat i) = wrap w x.
Proof.
  intros Hw. revert i. induction l as [|y l IH]; intros i E; [done|]. unfold ulane in *.
  assert (0 < 2 ^ w) by (apply Z.pow_pos_nonneg; lia). destruct i as [|i]; cbn [pack].
  - injection E as ->. change (Z.of_nat 0) with 0. rewrite Z.mul_0_r, Z.shiftr_0_r. unfold wrap. rewrite Z.mul_comm, Z_mod_plus_full. apply Zmod_mod.
  - rewrite <- (IH i E). replace (w * Z.of_nat (S i)) with (w + w * Z.of_nat i) by lia.
    rewrite <- Z.shiftr_shiftr by lia. f_equal. f_equal. rewrite Z.shiftr_div_pow2 by lia.
    rewrite Z.mul_comm, Z_div_plus_full by lia. unfold wrap. rewrite Z.div_small; [lia|]. by apply Z.mod_pos_bound.
Qed.

Lemma ulane_by_lane w (f : Z -> Z) i : 0 < w -> 0 <= i < 128 / w -> ulane w (by_lane w f) i = wrap w (f i).
Proof.
  intros Hw Hi. rewrite <- (Z2Nat.id i) by lia. unfold by_lane, lanes. apply ulane_pack; [done|].
  rewrite list_lookup_fmap, lookup_seqZ_lt by lia. reflexivity.
Qed.

Lemma by_lane_ext w (f g : Z -> Z) : (forall i, 0 <= i < 128 / w -> f i = g i) -> by_lane w f = by_lane w g.
Proof.
  intros H. unfold by_lane. f_equal. apply list_fmap_ext. intros k i Hk. apply H. unfold lanes in Hk.
  apply lookup_seqZ in Hk. lia.
Qed.

Lemma ulane_pack_Z w l i x : 0 < w -> 0 <= i -> l !! Z.to_nat i = Some x -> ulane w (pack w l) i = wrap w x.
Proof. intros Hw Hi E. rewrite <- (Z2Nat.id i) at 1 by done. by apply ulane_pack. Qed.

Lemma ulane_psubd a b i : 0 <= i < 4 -> ulane 32 (psubd a b) i = wrap 32 (ulane 32 a i - ulane 32 b i).
Proof. intros Hi. unfold psubd. by rewrite ulane_by_lane. Qed.

Lemma ulane_pshufd a mask i : 0 <= i < 4 -> ulane 32 (pshufd a mask) i = ulane 32 a (Z.land (Z.shiftr mask (i + i)) 3).
Proof. intros Hi. unfold pshufd. rewrite ulane_by_lane by done. apply wrap_wrap. Qed.

(** ShuffleToOrder(x, y, z, w) is the mask by which both shuffles take the lanes in that order, for numbers
    of lanes from 0 to 3. Numbers out of that range are not clamped, for the results of Clamp are dropped: they
    change the choice of other lanes. *)
Theorem shuffle_order {T} `{!Arith T} x y z w (a b : Float128.v4 T) (c : Z) :
  0 <= x < 4 -> 0 <= y < 4 -> 0 <= z < 4 -> 0 <= w < 4 ->
  let mask := ShuffleToOrder x y z w in
  Float128.shufps_instruction a b mask =
    Float128.V4 (Float128.lane a x) (Float128.lane a y) (Float128.lane b z) (Float128.lane b w) /\
  ulane 32 (pshufd c mask) 0 = ulane 32 c x /\ ulane 32 (pshufd c mask) 1 = ulane 32 c y /\
  ulane 32 (pshufd c mask) 2 = ulane 32 c z /\ ulane 32 (pshufd c mask) 3 = ulane 32 c w /\
  ShuffleToOrder 4 0 0 0 = ShuffleToOrder 0 1 0 0.
Proof.
  intros Hx Hy Hz Hw. cbv zeta. set (mask := ShuffleToOrder x y z w).
  assert (Z.land (Z.shiftr mask 0) 3 = x /\ Z.land (Z.shiftr mask 2) 3 = y /\ Z.land (Z.shiftr mask 4) 3 = z /\
    Z.land (Z.shiftr mask 6) 3 = w) as (E0 & E1 & E2 & E3).
  { unfold mask. assert (x = 0 \/ x = 1 \/ x = 2 \/ x = 3) as [-> |[-> |[-> | ->]]] by lia;
      assert (y = 0 \/ y = 1 \/ y = 2 \/ y = 3) as [-> |[-> |[-> | ->]]] by lia;
      assert (z = 0 \/ z = 1 \/ z = 2 \/ z = 3) as [-> |[-> |[-> | ->]]] by lia;
      assert (w = 0 \/ w = 1 \/ w = 2 \/ w = 3) as [-> |[-> |[-> | ->]]] by lia; by split_and!. }
  unfold Float128.shufps_instruction, Float128.shuffle_index. rewrite !ulane_pshufd by done.
  change (0 + 0) with 0. change (1 + 1) with 2. change (2 + 2) with 4. change (3 + 3) with 6.
  rewrite E0, E1, E2, E3. by split_and!.
Qed.

(** pmuld, which is to multiply the lanes, subtracts them, in both modes of evaluation: the product of one
    and one is zero. *)
Theorem pmuld_subtracts a b : pmuld a b = psubd a b /\ pmuld 1 1 = 0.
Proof. by split. Qed.

(** The shifts agree in the two modes of evaluation when every lane of the count is the same number of bits,
    less than the width; with a count in the lowest lane alone, as the instruction takes it, constant
    evaluation leaves the other lanes. *)
Theorem shift_modes w a n count : w = 64 \/ w = 32 \/ w = 16 -> 0 <= n < 16 -> count = pack 64 [n; n] ->
  (w = 64 -> shift_constant w a count = Ok (shift_instruction w a count)) /\
  (forall i, 0 <= i < 128 / w -> ulane w (shift_instruction w a n) i = wrap w (Z.shiftl (ulane w a i) n)) /\
  (exists r, shift_constant w a n = Ok r /\ ulane w r 0 = wrap w (Z.shiftl (ulane w a 0) n) /\ ulane w r 1 = ulane w a 1).
Proof.
  intros Hw Hn ->. assert (ulane 64 n 0 = n) as En.
  { unfold ulane. rewrite Z.mul_0_r, Z.shiftr_0_r. apply wrap_small. lia. }
  assert (0 < w) as Hw0 by lia. assert (2 <= 128 / w) as Hl by (destruct Hw as [-> |[-> | ->]]; vm_compute; discriminate).
  assert (slane w n 0 = n) as E0.
  { unfold slane, ulane. rewrite Z.mul_0_r, Z.shiftr_0_r. destruct Hw as [-> |[-> | ->]]; rewrite wrap_small, swrap_small; lia. }
  assert (forall i, 0 < i -> slane w n i = 0) as Ei.
  { intros i Hi. unfold slane, ulane. rewrite Z.shiftr_div_pow2 by lia.
    assert (2 ^ 16 <= 2 ^ (w * i)) by (apply Z.pow_le_mono_r; lia). rewrite Z.div_small by lia.
    destruct Hw as [-> |[-> | ->]]; reflexivity. }
  split_and!.
  - intros ->. unfold shift_constant, shift_instruction.
    assert (forall i, 0 <= i < 2 -> ulane 64 (pack 64 [n; n]) i = n) as Ep.
    { intros i Hi. rewrite <- (Z2Nat.id i) by lia. rewrite (ulane_pack 64 [n; n] _ n); [apply wrap_small; lia|lia|].
      by assert (i = 0 \/ i = 1) as [-> | ->] by lia. }
    assert (forall i, 0 <= i < 2 -> slane 64 (pack 64 [n; n]) i = n) as Es.
    { intros i Hi. unfold slane. rewrite Ep by done. apply swrap_small; lia. }
    change (lanes 64) with [0; 1]. cbn [forallb]. rewrite !Es, Ep by lia.
    destruct (Z.leb_spec 0 n); [|lia]. destruct (Z.ltb_spec n 64); [|lia]. cbn [andb]. f_equal. apply by_lane_ext.
    intros i Hi. rewrite Es by exact Hi. by destruct (Z.leb_spec 64 n); [lia|].
  - intros i Hi. unfold shift_instruction. rewrite En, ulane_by_lane by done. by destruct (Z.leb_spec w n); [lia|].
  - assert (forallb (fun i => (0 <=? slane w n i) && (slane w n i <? w)) (lanes w) = true) as Hall.
    { apply forallb_forall. intros i Hi%list_elem_of_In. apply elem_of_seqZ in Hi. apply andb_true_iff.
      destruct (Z.eq_dec i 0) as [->|]; [rewrite E0|rewrite Ei by lia]; split; try apply Z.leb_le; try apply Z.ltb_lt; lia. }
    eexists. split; [unfold shift_constant; by rewrite Hall|]. rewrite !ulane_by_lane by lia. rewrite E0, Ei by lia.
    split; [done|]. rewrite Z.shiftl_0_r. apply wrap_wrap.
Qed.
End lane_lemmas.

(** * Modes of evaluation of the float operations *)
Section float_modes.
Import Float128.
Context {T : Type} `{!Arith T}.

Lemma shiftl_even mask k : 0 < k -> Z.land (Z.shiftl mask k) 1 = 0.
Proof.
  intros Hk. apply Z.bits_inj'. intros i Hi. rewrite Z.land_spec, Z.bits_0.
  destruct (Z.eq_dec i 0) as [->|].
  - rewrite Z.shiftl_spec_low by lia. done.
  - change 1 with (2 ^ 0). rewrite Z.pow2_bits_false by lia. apply andb_false_r.
Qed.

(** A dot product that is evaluated at compile time is a vector of zeros, or has in its first lane the sum of
    four zeros, whatever its operands and its mask: the bits of the mask are shifted out to the left. The
    instruction gives the sum of the selected products in the selected lanes. An insertion at compile time
    inserts the first lane into the first, or clears the first, whatever the mask. *)
Theorem constant_masks (a b : v4 T) mask :
  let z := a_of_Z 0 in let s := a_add (a_add (a_add z z) z) z in
  dpps true a b mask = V4 (if Z.land mask 1 =? 0 then z else s) z z z /\
  insertps true a b mask = V4 (if Z.land mask 1 =? 0 then lane0 b else z) (lane1 a) (lane2 a) (lane3 a) /\
  dpps false a b (GetDotProductMask (GetSelectionMask 1 1 1 0) (GetSelectionMask 1 0 0 0)) =
    V4 (a_add (a_add (a_mul (lane0 a) (lane0 b)) (a_mul (lane1 a) (lane1 b))) (a_add (a_mul (lane2 a) (lane2 b)) z)) z z z.
Proof.
  cbv zeta. split_and!; [| |reflexivity].
  - unfold dpps, dpps_constant. rewrite Z.shiftl_0_r, !shiftl_even by lia. cbn [Z.eqb negb].
    by destruct (Z.land mask 1 =? 0).
  - unfold insertps, insertps_constant.
    assert (forall k, 4 <= k -> Z.land (Z.shiftl mask k) 3 = 0) as E3.
    { intros k Hk. apply Z.bits_inj'. intros i Hi. rewrite Z.land_spec, Z.bits_0. destruct (Z.ltb_spec i k).
      - by rewrite Z.shiftl_spec_low.
      - rewrite (Z.bits_above_log2 3 i) by (cbn; lia). apply andb_false_r. }
    rewrite !E3, Z.shiftl_0_r, !shiftl_even by lia. cbn. by destruct (Z.land mask 1 =? 0).
Qed.
End float_modes.

Lemma shuffle_order_witness :
  Int128.ulane 32 (Int128.pshufd (Int128.pack 32 [10; 11; 12; 13]) (Int128.ShuffleToOrder 1 2 0 3)) 0 = 11.
Proof.
  destruct (@shuffle_order Float32.f32 float_arith 1 2 0 3 (Float128.V4 (Float32.of_Z 0) (Float32.of_Z 0) (Float32.of_Z 0) (Float32.of_Z 0))
    (Float128.V4 (Float32.of_Z 0) (Float32.of_Z 0) (Float32.of_Z 0) (Float32.of_Z 0)) (Int128.pack 32 [10; 11; 12; 13])
    ltac:(lia) ltac:(lia) ltac:(lia) ltac:(lia)) as (_ & E & _).
  rewrite E. reflexivity.
Defined.

Lemma shift_modes_witness : exists r, Int128.psllq true (Int128.pack 64 [5; 7]) 1 = Ok r /\ Int128.ulane 64 r 1 = 7.
Proof.
  destruct (shift_modes 64 (Int128.pack 64 [5; 7]) 1 (Int128.pack 64 [1; 1]) ltac:(lia) ltac:(lia) eq_refl) as (_ & _ & r & E & _ & E1).
  exists r. split; [exact E|]. rewrite E1. reflexivity.
Defined.
