(* ===== verification/Vectors.v ===== *)
(** Vectors of two, three and four numbers (util_vector2.hpp, util_vector3.hpp, util_vector4.hpp), the constants and
    the sampled sine and cosine (util_constants.hpp), the rotations of a vector (util_vector3calc.cpp), and the
    rectangle of a framebuffer (util_logicalframebuffer.hpp, util_viewport.hpp).

    Left out, because their bodies do not compile when they are instantiated: the Dot of Vector2Type and of
    Vector4Type (they ask for the member m_vec of a vector register) and the Cross of Vector4Type (it calls a
    GetVectorType the class does not have). *)
From Stdlib Require Import Reals Psatz.
From S2P Require Import Prelude Float32 Simd.

Module Vector2.
Record v2 (T : Type) : Type := V2 { x : T; y : T }.
Arguments V2 {T}. Arguments x {T}. Arguments y {T}.

Section vector2.
Context {T : Type} `{!Arith T}.
Implicit Types (v w : v2 T).

Definition get v (i : Z) : T := if i =? 0 then x v else y v.
Definition add v w : v2 T := V2 (a_add (x v) (x w)) (a_add (y v) (y w)).
Definition sub v w : v2 T := V2 (a_sub (x v) (x w)) (a_sub (y v) (y w)).
Definition mul v w : T := a_add (a_mul (x v) (x w)) (a_mul (y v) (y w)).
Definition div v w : v2 T := V2 (a_div (x v) (x w)) (a_div (y v) (y w)).
Definition eq v w : bool := a_eqb (x v) (x w) && a_eqb (y v) (y w).
Definition ne v w : bool := negb (eq v w).
End vector2.
End Vector2.

Module Vector3.
Record v3 (T : Type) : Type := V3 { x : T; y : T; z : T }.
Arguments V3 {T}. Arguments x {T}. Arguments y {T}. Arguments z {T}.

Section vector3.
Context {T : Type} `{!Arith T}.
Implicit Types (v w : v3 T).

(** A number converts to a vector: the constructor has defaults for the other two. *)
Definition from_scalar (a : T) : v3 T := V3 a (a_of_Z 0) (a_of_Z 0).
Definition from_register (r : Float128.v4 T) : v3 T := V3 (Float128.lane0 r) (Float128.lane1 r) (Float128.lane2 r).
Definition GetVectorType v : Float128.v4 T := Float128.V4 (x v) (y v) (z v) (a_of_Z 0).
Definition convert {Y} (f : T -> Y) v : v3 Y := V3 (f (x v)) (f (y v)) (f (z v)).

Definition add v w : v3 T := from_register (Float128.lanewise a_add (GetVectorType v) (GetVectorType w)).
Definition sub v w : v3 T := from_register (Float128.lanewise a_sub (GetVectorType v) (GetVectorType w)).
Definition mul v (scalar : T) : v3 T := V3 (a_mul (x v) scalar) (a_mul (y v) scalar) (a_mul (z v) scalar).
(** operator+= and operator-=: the first three lanes of the result are assigned. *)
Definition assign (r : Float128.v4 T) : v3 T := V3 (Float128.lane r 0) (Float128.lane r 1) (Float128.lane r 2).
Definition add_assign v w : v3 T := assign (Float128.lanewise a_add (GetVectorType v) (GetVectorType w)).
Definition sub_assign v w : v3 T := assign (Float128.lanewise a_sub (GetVectorType v) (GetVectorType w)).
Definition eq v w : bool := a_eqb (x v) (x w) && a_eqb (y v) (y w) && a_eqb (z v) (z w).
Definition ne v w : bool := negb (eq v w).

Definition Cross v w : v3 T :=
  let a := Float128.shufps_instruction (GetVectorType v) (GetVectorType v) (Int128.ShuffleToOrder 1 2 0 3) in
  let b := Float128.shufps_instruction (GetVectorType w) (GetVectorType w) (Int128.ShuffleToOrder 2 0 1 3) in
  let c := Float128.mulps a (GetVectorType w) in
  let d := Float128.mulps a b in
  let e := Float128.shufps_instruction c c (Int128.ShuffleToOrder 1 2 0 3) in
  from_register (Float128.subps d e).
Definition Dot v w : T :=
  let temp := Float128.lanewise a_mul (GetVectorType v) (GetVectorType w) in
  a_add (a_add (Float128.lane0 temp) (Float128.lane1 temp)) (Float128.lane2 temp).
Definition Magnitude v : T := a_sqrt (a_add (a_add (a_mul (x v) (x v)) (a_mul (y v) (y v))) (a_mul (z v) (z v))).
End vector3.

(** The double literals of the code: compared with and divided by in double. *)
Section normalize.
Context {F D : Type} `{!Arith F} {AD : Arith D} {PD : Precision F D}.
(** [if (0.0 < mag) vec * (1.0 / mag)], which the code writes out wherever it normalizes. *)
Definition scale_to_unit (v : v3 F) (mag : F) : v3 F :=
  if a_ltb (a_of_Z (T := D) 0) (widen mag) then mul v (narrow (a_div (a_of_Z (T := D) 1) (widen mag))) else v.
Definition Normalize (v : v3 F) : v3 F := scale_to_unit v (Magnitude v).
End normalize.

(** The cross product of vectors of 32 bit integers, on the lanes of a register. *)
Definition int_register (v : v3 Z) : Z := Int128.pack 32 [x v; y v; z v; 0].
Definition int_from_register (r : Z) : v3 Z := V3 (Int128.slane 32 r 0) (Int128.slane 32 r 1) (Int128.slane 32 r 2).
Definition int_Cross (v w : v3 Z) : v3 Z :=
  let a := Int128.pshufd (int_register v) (Int128.ShuffleToOrder 1 2 0 3) in
  let b := Int128.pshufd (int_register w) (Int128.ShuffleToOrder 2 0 1 3) in
  let c := Int128.pmuld a (int_register w) in
  let d := Int128.pmuld a b in
  let e := Int128.pshufd c (Int128.ShuffleToOrder 1 2 0 3) in
  int_from_register (Int128.psubd d e).
End Vector3.

Module Vector4.
Section vector4.
Context {T : Type} `{!Arith T}.
Implicit Types (v w : Float128.v4 T).
Definition add v w : Float128.v4 T := Float128.lanewise a_add v w.
Definition sub v w : Float128.v4 T := Float128.lanewise a_sub v w.
Definition mul v w : T :=
  let a := Float128.lanewise a_mul v w in
  a_add (a_add (a_add (Float128.lane0 a) (Float128.lane1 a)) (Float128.lane2 a)) (Float128.lane3 a).
Definition div v w : Float128.v4 T := Float128.lanewise a_div v w.
Definition add_assign v w : Float128.v4 T := Float128.lanewise a_add v w.
Definition sub_assign v w : Float128.v4 T := Float128.lanewise a_sub v w.
Definition eq v w : bool :=
  a_eqb (Float128.lane0 v) (Float128.lane0 w) && a_eqb (Float128.lane1 v) (Float128.lane1 w) &&
  a_eqb (Float128.lane2 v) (Float128.lane2 w) && a_eqb (Float128.lane3 v) (Float128.lane3 w).
Definition ne v w : bool := negb (eq v w).
End vector4.
End Vector4.

(** * util_constants.hpp *)
Module Constants.
Section constants.
Context {T : Type} `{!Arith T}.
Definition FloatPi : T := a_literal 31415927 7.
Definition Float2Pi : T := a_literal 62831855 7.
Definition FloatDegree180 : T := a_of_Z 180.
Definition FloatUlp : T := a_literal 11920929 14.
Definition AngleIndexHalfRound : Z := 2147483648.
Definition TRadians (Degrees : T) : T := a_div (a_mul Degrees FloatPi) FloatDegree180.
Definition TDegrees (Radians : T) : T := a_div (a_mul Radians FloatDegree180) FloatPi.
Definition ToRadians (degrees : T) : T := a_mul degrees (a_div FloatPi FloatDegree180).
Definition ToDegrees (radians : T) : T := a_mul radians (a_div FloatDegree180 FloatPi).

Fixpoint TPow (V : T) (N : nat) : T := match N with O => a_of_Z 1 | S N => a_mul V (TPow V N) end.
Fixpoint TFactorial (V : nat) : T := match V with O => a_of_Z 1 | S n => a_mul (a_of_Z (Z.of_nat V)) (TFactorial n) end.
(** Each term is taken from or added to the sum so far: signs alternate. *)
Fixpoint series (term : nat -> T) (exponents : list nat) (plus : bool) (sum : T) : T :=
  match exponents with
  | [] => sum
  | n :: rest => series term rest (negb plus) ((if plus then a_add else a_sub) sum (term n))
  end.
Definition TSin (V : T) : T := series (fun n => a_div (TPow V n) (TFactorial n)) [3; 5; 7; 9; 11; 13; 15]%nat false V.
Definition TCos (V : T) : T := series (fun n => a_div (TPow V n) (TFactorial n)) [2; 4; 6; 8; 10; 12; 14]%nat false (a_of_Z 1).

(** [pow] is std::pow. *)
Context (pow : T -> nat -> T).
Definition PreciseSin (V : T) : T :=
  series (fun n => a_div (pow V n) (TFactorial n)) [3; 5; 7; 9; 11; 13; 15; 17; 19; 21; 23; 25; 27; 29; 31; 33; 35]%nat false V.
Definition PreciseCos (V : T) : T :=
  series (fun n => a_div (pow V n) (TFactorial n)) [2; 4; 6; 8; 10; 12; 14; 16; 18; 20; 22; 24; 26; 28; 30; 32; 34]%nat false (a_of_Z 1).
End constants.

(** The table of samples, computed in long double ([L]) when the program is compiled. *)
Section table.
Context {F L : Type} `{!Arith F} {AL : Arith L} {PL : Precision F L} (pow : L -> nat -> L).
Definition snap (value : L) : L :=
  if a_ltb (widen (a_opp (FloatUlp (T := F)))) value && a_ltb value (widen (FloatUlp (T := F))) then a_of_Z 0 else value.
Definition angle_of (i : Z) : L :=
  a_div (a_mul (a_mul (a_of_Z 2) (a_literal 3141592653589 12)) (a_add (a_of_Z i) (a_of_Z 1))) (a_of_Z 256).
(** One turn of the loop, [last] the pair last_cos, last_sin. *)
Definition table_step (i : Z) (values : list F) (last : L * L) : res (list F * (L * L)) :=
  let index := i * 4 in
  let n := angle_of i in
  let cos_value := PreciseCos pow n in
  let sin_value := PreciseSin pow n in
  let cos_diff := a_sub cos_value (fst last) in
  let sin_diff := a_sub sin_value (snd last) in
  let cos_value := snap cos_value in
  let sin_value := snap sin_value in
  values ← arr_set values (index + 2) (narrow cos_diff);
  values ← arr_set values (index + 3) (narrow sin_diff);
  values ← arr_set values (index + 4) (narrow cos_value);
  values ← arr_set values (index + 5) (narrow sin_value);
  Ok (values, (cos_value, sin_value)).
Fixpoint table_loop (n : nat) (i : Z) (values : list F) (last : L * L) : res (list F * (L * L)) :=
  match n with
  | O => Ok (values, last)
  | S n => '(values, last) ← table_step i values last; table_loop n (i + 1) values last
  end.
Definition GenerateSinCosTable : res (list F) :=
  let values := replicate 1024 (a_of_Z 0) in
  values ← arr_set values 0 (narrow (a_of_Z (T := L) 1));
  values ← arr_set values 1 (narrow (a_of_Z (T := L) 0));
  '(values, last) ← table_loop 255 0 values (a_of_Z 1, a_of_Z 0);
  values ← arr_set values 1022 (narrow (a_sub (a_of_Z 1) (fst last)));
  arr_set values 1023 (narrow (a_sub (a_of_Z 0) (snd last))).
End table.

(** Reading the table: [SinCosSampleTable] is whatever was generated; 5.9604644775390625e-8 is 1 / 2^24. *)
Section sample.
Context {F D : Type} `{!Arith F} {AD : Arith D} {PD : Precision F D} (SinCosSampleTable : list F).
Definition sample (offset : Z) (value_from_angle_index : F) : res F :=
  angle_index ← to_u64 value_from_angle_index;
  let index := Z.land (Z.shiftr angle_index 24) 255 in
  let variance := narrow (a_mul (widen (a_of_Z (T := F) (Z.land angle_index 16777215)))
                                (a_div (a_of_Z (T := D) 1) (a_of_Z 16777216))) in
  base ← arr_get SinCosSampleTable (index * 4 + offset);
  diff ← arr_get SinCosSampleTable (index * 4 + offset + 2);
  Ok (a_add base (a_mul diff variance)).
Definition SampleSin : F -> res F := sample 1.
Definition SampleCos : F -> res F := sample 0.
(** The number of angle units of one radian. *)
Definition half_round_per_pi : F := a_div (a_of_Z AngleIndexHalfRound) FloatPi.
Definition AngleHalfRound (rad : F) : F := a_mul rad half_round_per_pi.
Definition period_step (t max : Z) : F := a_mul half_round_per_pi (a_div (a_mul (a_of_Z t) Float2Pi) (a_of_Z max)).
Definition GetSinPeriodStep (t max : Z) : res F := SampleSin (period_step t max).
Definition GetCosPeriodStep (t max : Z) : res F := SampleCos (period_step t max).
End sample.
End Constants.

(** * util_vector3calc.cpp *)
Module Vector3Calc.
Section calc.
Context {F D : Type} `{!Arith F} {AD : Arith D} {PD : Precision F D} (SinCosSampleTable : list F).
Implicit Types (out rot : Vector3.v3 F) (angle : F).

Definition set_x out (a : F) : Vector3.v3 F := Vector3.V3 a (Vector3.y out) (Vector3.z out).
Definition set_y out (a : F) : Vector3.v3 F := Vector3.V3 (Vector3.x out) a (Vector3.z out).
Definition set_z out (a : F) : Vector3.v3 F := Vector3.V3 (Vector3.x out) (Vector3.y out) a.

(** The vector that is read is the one that is written when the caller passes the same object twice. *)
Definition source (aliased : bool) out rot : Vector3.v3 F := if aliased then out else rot.

Definition sine_cosine angle : res (F * F) :=
  let index := Constants.AngleHalfRound angle in
  sin ← Constants.SampleSin (D := D) SinCosSampleTable index;
  cos ← Constants.SampleCos (D := D) SinCosSampleTable index;
  Ok (sin, cos).

Definition rotate_x (aliased : bool) out rot (sin cos : F) : Vector3.v3 F :=
  let src o := source aliased o rot in
  let out := set_x out (Vector3.x (src out)) in
  let out := set_y out (a_sub (a_mul (Vector3.y (src out)) sin) (a_mul cos (Vector3.z (src out)))) in
  set_z out (a_add (a_mul (Vector3.y (src out)) cos) (a_mul sin (Vector3.z (src out)))).
Definition rotate_y (aliased : bool) out rot (sin cos : F) : Vector3.v3 F :=
  let src o := source aliased o rot in
  let out := set_x out (a_add (a_mul (Vector3.z (src out)) cos) (a_mul sin (Vector3.x (src out)))) in
  let out := set_y out (Vector3.y (src out)) in
  set_z out (a_sub (a_mul (Vector3.z (src out)) sin) (a_mul cos (Vector3.x (src out)))).
Definition rotate_z (aliased : bool) out rot (sin cos : F) : Vector3.v3 F :=
  let src o := source aliased o rot in
  let out := set_y out (Vector3.y (src out)) in
  let out := set_z out (a_sub (a_mul (Vector3.z (src out)) cos) (a_mul sin (Vector3.x (src out)))) in
  set_x out (a_add (a_mul (Vector3.z (src out)) sin) (a_mul cos (Vector3.x (src out)))).

Definition RotateVectorAxisX (aliased : bool) out rot angle : res (Vector3.v3 F) :=
  '(sin, cos) ← sine_cosine angle; Ok (rotate_x aliased out rot sin cos).
Definition RotateVectorAxisY (aliased : bool) out rot angle : res (Vector3.v3 F) :=
  '(sin, cos) ← sine_cosine angle; Ok (rotate_y aliased out rot sin cos).
Definition RotateVectorAxisZ (aliased : bool) out rot angle : res (Vector3.v3 F) :=
  '(sin, cos) ← sine_cosine angle; Ok (rotate_z aliased out rot sin cos).

(** The factor is read before anything is written. *)
Definition Parallelize (aliased : bool) out (base to_parallelize : Vector3.v3 F) : Vector3.v3 F :=
  let dot := Vector3.Dot base to_parallelize in
  let src o := source aliased o to_parallelize in
  let out := set_x out (a_mul (Vector3.x (src out)) dot) in
  let out := set_y out (a_mul (Vector3.y (src out)) dot) in
  set_z out (a_mul (Vector3.z (src out)) dot).
End calc.
End Vector3Calc.

(** * util_logicalframebuffer.hpp, util_viewport.hpp *)
Module Framebuffer.
Section framebuffer.
Context {F : Type} `{!Arith F}.
Record LogicalFrameBuffer : Type := MkFrameBuffer { m_virtual_size : Vector2.v2 F; m_dimensions : Vector2.v2 F }.
Definition initial : LogicalFrameBuffer :=
  MkFrameBuffer (Vector2.V2 (a_of_Z 0) (a_of_Z 0)) (Vector2.V2 (a_of_Z 0) (a_of_Z 0)).
Definition SetVirtualCanvasSize (f : LogicalFrameBuffer) (x y : F) := MkFrameBuffer (Vector2.V2 x y) (m_dimensions f).
Definition SetDimensions (f : LogicalFrameBuffer) (x y : F) := MkFrameBuffer (m_virtual_size f) (Vector2.V2 x y).
Definition GetVirtualCanvasSize (f : LogicalFrameBuffer) : F * F :=
  (Vector2.get (m_virtual_size f) 0, Vector2.get (m_virtual_size f) 1).
Definition GetDimensions (f : LogicalFrameBuffer) : F * F :=
  (Vector2.get (m_dimensions f) 0, Vector2.get (m_dimensions f) 1).

Record BoundingBox2 : Type := Box { min_x : F; min_y : F; max_x : F; max_y : F }.
(** The viewport of a framebuffer. *)
Definition Viewport_of (f : LogicalFrameBuffer) : BoundingBox2 :=
  let '(width, height) := GetVirtualCanvasSize f in
  let zero := a_of_Z 0 in
  Box (Clamp.Min a_ltb width zero) (Clamp.Min a_ltb height zero)
      (Clamp.Max a_ltb width zero) (Clamp.Max a_ltb height zero).
End framebuffer.
Arguments LogicalFrameBuffer : clear implicits. Arguments BoundingBox2 : clear implicits.
End Framebuffer.

(** * Cross products and lengths *)
Section cross.
Import Vector3.

Lemma Cross_lanes {T} `{!Arith T} (v w : v3 T) :
  Cross v w = V3 (a_sub (a_mul (y v) (z w)) (a_mul (z v) (y w)))
                 (a_sub (a_mul (z v) (x w)) (a_mul (x v) (z w)))
                 (a_sub (a_mul (x v) (y w)) (a_mul (y v) (x w))).
Proof. reflexivity. Qed.

(** Cross computes the coordinates of the cross product from two products each, in any arithmetic. In exact
    arithmetic it is orthogonal to both factors, its square length is the one of the factors less the square of
    their dot product, and it changes sign when they are exchanged. *)
Theorem cross_product :
  (forall T (A : Arith T) (v w : v3 T),
    Cross v w = V3 (a_sub (a_mul (y v) (z w)) (a_mul (z v) (y w)))
                   (a_sub (a_mul (z v) (x w)) (a_mul (x v) (z w)))
                   (a_sub (a_mul (x v) (y w)) (a_mul (y v) (x w)))) /\
  forall v w : v3 R,
    Dot v (Cross v w) = a_of_Z 0 /\ Dot w (Cross v w) = a_of_Z 0 /\
    Dot (Cross v w) (Cross v w) = a_sub (a_mul (Dot v v) (Dot w w)) (a_mul (Dot v w) (Dot v w)) /\
    Cross w v = mul (Cross v w) (a_opp (a_of_Z 1)).
Proof.
  split; [intros; apply Cross_lanes|]. intros [vx vy vz] [wx wy wz]. rewrite !Cross_lanes. cbn. split_and!; try ring.
  unfold mul; cbn. f_equal; ring.
Qed.

(** Normalize gives a vector of length one in the same direction, and leaves the vector of zeros as it is. *)
Theorem normalize_unit (v : v3 R) :
  (Dot v v <> a_of_Z 0 -> Magnitude (Normalize v) = a_of_Z 1 /\ Normalize v = mul v (a_div (a_of_Z 1) (Magnitude v))) /\
  (Dot v v = a_of_Z 0 -> Normalize v = v).
Proof.
  destruct v as [a b c]. unfold Normalize, scale_to_unit. cbn. set (n := Rplus (Rplus (Rmult a a) (Rmult b b)) (Rmult c c)).
  assert (Rle (IZR 0) n) as Hn by (unfold n; nra). split.
  - intros Hne. assert (Rlt (IZR 0) n) as Hpos by lra. pose proof (R_sqrt.sqrt_lt_R0 n Hpos) as Hs.
    rewrite bool_decide_true by done. cbn. split; [|done]. set (k := Rdiv (IZR 1) (R_sqrt.sqrt n)).
    replace (Rplus _ _) with (Rmult (Rmult k k) n) by (unfold n; ring).
    replace (Rmult (Rmult k k) n) with (IZR 1); [apply R_sqrt.sqrt_1|].
    unfold k. pose proof (R_sqrt.sqrt_sqrt n Hn) as E. rewrite <- E at 3. field. lra.
  - intros E. rewrite E, R_sqrt.sqrt_0, bool_decide_false; [done|]. apply Rlt_irrefl.
Qed.

Lemma int_register_lane v i : 0 <= i < 4 ->
  Int128.ulane 32 (int_register v) i = wrap 32 (nth (Z.to_nat i) [x v; y v; z v; 0] 0).
Proof.
  intros Hi. unfold int_register. apply ulane_pack_Z; [done|lia|].
  assert (i = 0 \/ i = 1 \/ i = 2 \/ i = 3) as [-> |[-> |[-> | ->]]] by lia; done.
Qed.

Lemma int_Cross_lanes v w : int_Cross v w =
  V3 (s32 (y v - z w - (z v - y w))) (s32 (z v - x w - (x v - z w))) (s32 (x v - y w - (y v - x w))).
Proof.
  unfold int_Cross, int_from_register. change Int128.pmuld with Int128.psubd.
  f_equal; unfold Int128.slane, s32;
    rewrite !ulane_psubd, !ulane_pshufd, !ulane_psubd, !ulane_pshufd, !int_register_lane by done;
    rewrite !(wrap_sub _ (nth _ _ _) (nth _ _ _)), wrap_sub, swrap_wrap; reflexivity.
Qed.

(** The cross product of vectors of integers, which takes the difference of the lanes for their product, is
    another vector: of a vector with itself it has the doubled differences of its coordinates. *)
Theorem integer_cross (v w : v3 Z) :
  int_Cross v w = V3 (s32 (y v - z w - (z v - y w))) (s32 (z v - x w - (x v - z w))) (s32 (x v - y w - (y v - x w))) /\
  int_Cross v v = V3 (s32 (2 * (y v - z v))) (s32 (2 * (z v - x v))) (s32 (2 * (x v - y v))) /\
  int_Cross (V3 1 0 0) (V3 1 0 0) = V3 0 (-2) 2.
Proof.
  rewrite !int_Cross_lanes. split_and!; [done| |reflexivity]. f_equal; f_equal; lia.
Qed.
End cross.

(** * The table of samples *)
Section samples.
Import Constants.
Context {F D L : Type} `{!Arith F} {AD : Arith D} {AL : Arith L} {PD : Precision F D} {PL : Precision F L}.
Implicit Types (values table : list F).

(** The entries: the cosine and the sine of the [i]-th of 256 equal steps, as the loop computes them. *)
Definition entry (precise : L -> L) (start : L) (i : Z) : L :=
  if i =? 0 then start else snap (F := F) (precise (angle_of (i - 1))).
Definition cos_entry (pow : L -> nat -> L) (i : Z) : L := entry (PreciseCos pow) (a_of_Z 1) i.
Definition sin_entry (pow : L -> nat -> L) (i : Z) : L := entry (PreciseSin pow) (a_of_Z 0) i.

Record table_upto (pow : L -> nat -> L) (i : Z) values (last : L * L) : Prop := {
  upto_length : length values = 1024%nat;
  upto_last : last = (cos_entry pow i, sin_entry pow i);
  upto_cos : forall j, 0 <= j <= i -> arr_get values (j * 4) = Ok (narrow (cos_entry pow j));
  upto_sin : forall j, 0 <= j <= i -> arr_get values (j * 4 + 1) = Ok (narrow (sin_entry pow j));
  upto_cos_diff : forall j, 0 <= j < i -> arr_get values (j * 4 + 2) =
    Ok (narrow (a_sub (PreciseCos pow (angle_of j)) (cos_entry pow j)));
  upto_sin_diff : forall j, 0 <= j < i -> arr_get values (j * 4 + 3) =
    Ok (narrow (a_sub (PreciseSin pow (angle_of j)) (sin_entry pow j)))
}.

Lemma table_step_upto pow i values last : 0 <= i < 255 -> table_upto pow i values last ->
  exists values' last', table_step pow i values last = Ok (values', last') /\ table_upto pow (i + 1) values' last'.
Proof.
  intros Hi [Hl -> Hc Hs Hcd Hsd]. unfold table_step. cbv zeta. cbn [fst snd].
  edestruct (arr_set_total values (i * 4 + 2)) as (v1 & -> & L1 & G1); [lia|]. cbn [mbind res_bind].
  edestruct (arr_set_total v1 (i * 4 + 3)) as (v2 & -> & L2 & G2); [lia|]. cbn [mbind res_bind].
  edestruct (arr_set_total v2 (i * 4 + 4)) as (v3 & -> & L3 & G3); [lia|]. cbn [mbind res_bind].
  edestruct (arr_set_total v3 (i * 4 + 5)) as (v4 & -> & L4 & G4); [lia|]. cbn [mbind res_bind].
  eexists v4, _. split; [reflexivity|].
  assert (forall precise start, snap (F := F) (precise (angle_of i)) = entry precise start (i + 1)) as E.
  { intros. unfold entry. destruct (Z.eqb_spec (i + 1) 0); [lia|]. by replace (i + 1 - 1) with i by lia. }
  split; [lia|by unfold cos_entry, sin_entry; rewrite <- !E|..]; intros j Hj;
    rewrite G4, G3, G2, G1; repeat match goal with |- context [?a =? ?b] => destruct (Z.eqb_spec a b); [try (exfalso; lia)|] end.
  all: try (solve [apply Hc; lia | apply Hs; lia | apply Hcd; lia | apply Hsd; lia]).
  all: (assert (j = i + 1) as -> by lia) || (assert (j = i) as -> by lia); try done; by unfold cos_entry, sin_entry; rewrite <- !E.
Qed.

Lemma table_loop_upto pow n i values last : 0 <= i -> i + Z.of_nat n <= 255 -> table_upto pow i values last ->
  exists values' last', table_loop pow n i values last = Ok (values', last') /\
    table_upto pow (i + Z.of_nat n) values' last'.
Proof.
  revert i values last. induction n as [|n IH]; intros i values last Hi Hn Hup; cbn [table_loop].
  - exists values, last. by rewrite Z.add_0_r.
  - destruct (table_step_upto pow i values last ltac:(lia) Hup) as (v & l & -> & Hup'). cbn [mbind res_bind].
    destruct (IH (i + 1) v l ltac:(lia) ltac:(lia) Hup') as (v' & l' & -> & Hup''). exists v', l'. split; [done|].
    by replace (i + Z.of_nat (S n)) with (i + 1 + Z.of_nat n) by lia.
Qed.

(** The table of samples is generated without an access out of its bounds. Entry i of its 256 has the cosine
    and the sine of the angle 2 pi i / 256, as the series gives them and with what is near zero made zero, and their
    differences to the next: to the value of the series, before it is made zero. *)
Theorem sample_table (pow : L -> nat -> L) : exists table, GenerateSinCosTable pow = Ok table /\
  length table = 1024%nat /\
  (forall i, 0 <= i < 256 -> arr_get table (i * 4) = Ok (narrow (cos_entry pow i)) /\
                             arr_get table (i * 4 + 1) = Ok (narrow (sin_entry pow i))) /\
  (forall i, 0 <= i < 255 ->
    arr_get table (i * 4 + 2) = Ok (narrow (a_sub (PreciseCos pow (angle_of i)) (cos_entry pow i))) /\
    arr_get table (i * 4 + 3) = Ok (narrow (a_sub (PreciseSin pow (angle_of i)) (sin_entry pow i)))) /\
  arr_get table 1022 = Ok (narrow (a_sub (a_of_Z 1) (cos_entry pow 255))) /\
  arr_get table 1023 = Ok (narrow (a_sub (a_of_Z 0) (sin_entry pow 255))).
Proof.
  unfold GenerateSinCosTable.
  assert (length (replicate 1024 (a_of_Z (T := F) 0)) = 1024%nat) as L0 by apply length_replicate.
  set (v0 := replicate _ _) in *. clearbody v0.
  edestruct (arr_set_total v0 0) as (v1 & -> & L1 & G1); [lia|]. cbn [mbind res_bind].
  edestruct (arr_set_total v1 1) as (v2 & -> & L2 & G2); [lia|]. cbn [mbind res_bind].
  destruct (table_loop_upto pow 255 0 v2 (a_of_Z 1, a_of_Z 0)) as (v3 & last & -> & [Ll -> Hc Hs Hcd Hsd]); [done|done| |].
  { split; [lia|done|..]; intros j Hj; try lia; replace j with 0 by lia; rewrite G2, G1; done. }
  cbn [mbind res_bind fst snd].
  edestruct (arr_set_total v3 1022) as (v4 & -> & L4 & G4); [lia|]. cbn [mbind res_bind].
  edestruct (arr_set_total v4 1023) as (v5 & -> & L5 & G5); [lia|]. cbn [mbind res_bind].
  exists v5. split; [done|]. split; [lia|].
  split_and!; [intros i Hi; split..| |]; rewrite G5, G4;
    repeat match goal with |- context [?a =? ?b] => destruct (Z.eqb_spec a b); [try (exfalso; lia)|] end; try done.
  all: solve [apply Hc; lia | apply Hs; lia | apply Hcd; lia | apply Hsd; lia].
Qed.

Lemma sample_negative table offset (v : F) n : a_truncate v = Some n -> n < 0 ->
  sample (D := D) table offset v = Fault BadConversion.
Proof. intros En Hneg. unfold sample, to_u64. rewrite En. by destruct (Z.leb_spec 0 n); [lia|]. Qed.

Lemma sample_total table offset (v : F) n : length table = 1024%nat -> 0 <= offset < 2 -> to_u64 v = Ok n ->
  exists r, sample (D := D) table offset v = Ok r.
Proof.
  intros Hl Ho En. unfold sample. rewrite En. cbn [mbind res_bind]. set (index := Z.land (Z.shiftr n 24) 255).
  assert (0 <= index < 256) as Hi.
  { unfold index. change 255 with (Z.ones 8). rewrite Z.land_ones by lia. by apply Z.mod_pos_bound. }
  destruct (arr_get_Some table (index * 4 + offset)) as [x ->]; [lia|]. cbn [mbind res_bind].
  destruct (arr_get_Some table (index * 4 + offset + 2)) as [y ->]; [lia|]. by eexists.
Qed.

(** A sample reads inside of the table whatever the angle, as long as its number of units is one that an
    unsigned integer of 64 bits has: index and difference are those of the eighth bits from the 24th. The
    conversion of any other, every negative angle of one unit or more among them, is undefined. *)
Theorem sample_in_bounds table (v : F) : length table = 1024%nat ->
  (forall n, to_u64 v = Ok n -> is_Ok (SampleSin (D := D) table v) = true /\ is_Ok (SampleCos (D := D) table v) = true) /\
  (forall n, a_truncate v = Some n -> n < 0 ->
    SampleSin (D := D) table v = Fault BadConversion /\ SampleCos (D := D) table v = Fault BadConversion).
Proof.
  intros Hl. unfold SampleSin, SampleCos. split; intros n En.
  - destruct (sample_total table 1 v n) as [r1 E1], (sample_total table 0 v n) as [r0 E0]; try done.
    by rewrite E1, E0.
  - intros Hneg. by rewrite !(sample_negative _ _ _ n).
Qed.
End samples.

Lemma sine_cosine_negative {F D} `{!Arith F} {AD : Arith D} {PD : Precision F D} (table : list F) (angle : F) n :
  a_truncate (Constants.AngleHalfRound angle) = Some n -> n < 0 ->
  Vector3Calc.sine_cosine (D := D) table angle = Fault BadConversion.
Proof. intros En Hn. unfold Vector3Calc.sine_cosine, Constants.SampleSin. by rewrite (sample_negative _ _ _ n). Qed.

(** * Rotated and scaled vectors *)
Section rotations.
Import Vector3 Vector3Calc.

Definition norm2 (v : v3 R) : R := Dot v v.

(** The rotations of a vector, in exact arithmetic and for the sine and the cosine of an angle, keep its
    length. About the x and the y axis an angle of zero turns the vector by a quarter of a turn, and the function
    for the z axis leaves y as it is and turns z and x. *)
Theorem rotations_of_vectors (out v : v3 R) (sin cos : R) :
  a_add (a_mul sin sin) (a_mul cos cos) = a_of_Z 1 ->
  norm2 (rotate_x false out v sin cos) = norm2 v /\ norm2 (rotate_y false out v sin cos) = norm2 v /\
  norm2 (rotate_z false out v sin cos) = norm2 v /\
  rotate_x false out v (a_of_Z 0) (a_of_Z 1) = V3 (x v) (a_opp (z v)) (y v) /\
  rotate_y false out v (a_of_Z 0) (a_of_Z 1) = V3 (z v) (y v) (a_opp (x v)) /\
  rotate_z false out v sin cos =
    V3 (a_add (a_mul (x v) cos) (a_mul (z v) sin)) (y v) (a_sub (a_mul (z v) cos) (a_mul (x v) sin)).
Proof.
  intros E. destruct v as [a b c]. unfold norm2, rotate_x, rotate_y, rotate_z. cbn in *.
  assert (forall s t : R, Rplus (Rmult (Rmult s s) (Rplus (Rmult sin sin) (Rmult cos cos)))
    (Rmult (Rmult t t) (Rplus (Rmult sin sin) (Rmult cos cos))) = Rplus (Rmult s s) (Rmult t t)) as Eq by (intros; rewrite E; ring).
  split_and!.
  - specialize (Eq b c). nra.
  - specialize (Eq a c). nra.
  - specialize (Eq a c). nra.
  - unfold set_z, set_y; cbn. f_equal; ring.
  - unfold set_z, set_y; cbn. f_equal; ring.
  - unfold set_z, set_y, set_x; cbn. f_equal; ring.
Qed.

(** With the same object for the result and the operand a rotation reads coordinates it has written: the
    vector (0, 1, 1), with an angle of zero about x, comes out as (0, -1, -1) and not as (0, -1, 1). Parallelize reads each before it writes
    it: the result is the one for two objects, the operand times the dot product, which is parallel to the
    operand and not to the base. *)
Theorem calculation_aliases (out base v : v3 R) :
  rotate_x true v v (a_of_Z 1) (a_of_Z 0) = rotate_x false v v (a_of_Z 1) (a_of_Z 0) /\
  rotate_x true (V3 0 1 1)%R (V3 0 1 1)%R (a_of_Z 0) (a_of_Z 1) = V3 0%R (-1)%R (-1)%R /\
  rotate_x false out (V3 0 1 1)%R (a_of_Z 0) (a_of_Z 1) = V3 0%R (-1)%R 1%R /\
  Parallelize true v base v = Parallelize false out base v /\
  Parallelize false out base v = mul v (Dot base v) /\
  Cross v (Parallelize false out base v) = V3 0%R 0%R 0%R.
Proof.
  destruct v as [a b c], base as [d e f], out as [g h i].
  split_and!; rewrite ?Cross_lanes; unfold rotate_x, Parallelize, set_x, set_y, set_z, source; cbn; f_equal; ring.
Qed.
End rotations.

(** The viewport of a framebuffer of any size, negative ones and those that are not numbers included, has no
    minimum above its maximum, and spans from zero to the size. *)
Theorem viewport_ordered (f : Framebuffer.LogicalFrameBuffer Float32.f32) :
  let box := @Framebuffer.Viewport_of Float32.f32 float_arith f in
  Float32.ltb (Framebuffer.max_x box) (Framebuffer.min_x box) = false /\
  Float32.ltb (Framebuffer.max_y box) (Framebuffer.min_y box) = false /\
  (Float32.ltb (Float32.of_Z 0) (Vector2.x (Framebuffer.m_virtual_size f)) = true ->
    Framebuffer.min_x box = Float32.of_Z 0 /\ Framebuffer.max_x box = Vector2.x (Framebuffer.m_virtual_size f)).
Proof.
  destruct f as [[w h] d]. cbn. unfold Clamp.Min, Clamp.Max. cbn.
  assert (forall s, Float32.ltb (if Float32.ltb s (Float32.of_Z 0) then Float32.of_Z 0 else s)
    (if Float32.ltb (Float32.of_Z 0) s then Float32.of_Z 0 else s) = false) as E.
  { by intros [[]|[]| |[] m e]. }
  split_and!; [apply E..|]. intros Hpos. rewrite Hpos. split; [done|]. by destruct w as [[]|[]| |[] m e].
Qed.

Lemma normalize_unit_witness : Vector3.Magnitude (Vector3.Normalize (Vector3.V3 3 0 4)%R) = IZR 1.
Proof. apply (normalize_unit (Vector3.V3 3 0 4)%R). cbn. lra. Defined.

Lemma sample_in_bounds_witness :
  @Constants.SampleSin Float32.f32 Float32.f64 float_arith double_arith float_double (replicate 1024 (Float32.of_Z 0))
    (Float32.of_Z (-5)) = Fault BadConversion.
Proof.
  apply (@sample_in_bounds Float32.f32 Float32.f64 float_arith double_arith float_double (replicate 1024 (Float32.of_Z 0))
    (Float32.of_Z (-5)) eq_refl) with (n := -5); [vm_compute; reflexivity|lia].
Defined.

Lemma rotations_of_vectors_witness :
  norm2 (Vector3Calc.rotate_x false (Vector3.V3 0 0 0)%R (Vector3.V3 1 2 3)%R (3 / 5)%R (4 / 5)%R) = norm2 (Vector3.V3 1 2 3)%R.
Proof. apply (rotations_of_vectors (Vector3.V3 0 0 0)%R (Vector3.V3 1 2 3)%R (3 / 5)%R (4 / 5)%R). cbn. lra. Defined.

Lemma viewport_ordered_witness :
  let box := @Framebuffer.Viewport_of Float32.f32 float_arith
    (Framebuffer.MkFrameBuffer (Vector2.V2 (Float32.of_Z 640) (Float32.of_Z 480)) (Vector2.V2 (Float32.of_Z 0) (Float32.of_Z 0))) in
  Framebuffer.min_x box = Float32.of_Z 0 /\ Framebuffer.max_x box = Float32.of_Z 640.
Proof.
  apply (viewport_ordered (Framebuffer.MkFrameBuffer (Vector2.V2 (Float32.of_Z 640) (Float32.of_Z 480))
    (Vector2.V2 (Float32.of_Z 0) (Float32.of_Z 0)))). vm_compute. reflexivity.
Defined.
