(* ===== verification/Matrices.v ===== *)
(** Matrices (util_matrix33.hpp, util_matrix34.hpp, util_matrix44.hpp) and the rotations of a matrix
    (util_matrix34calc.cpp).

    Left out, because their bodies do not compile when they are instantiated: the product of Matrix33RowMajorType
    (it multiplies two vectors, for which there is no operator) and the sum, difference and product of
    Matrix44RowMajorType (they name a member r4 there is not, or call operators that are not const). *)
From Stdlib Require Import Reals Psatz RNsatz.
From S2P Require Import Prelude Float32 Simd Vectors.

(** * util_matrix33.hpp *)
Module Matrix33.
Record m33 (T : Type) : Type := M33 { r1 : Vector3.v3 T; r2 : Vector3.v3 T; r3 : Vector3.v3 T }.
Arguments M33 {T}. Arguments r1 {T}. Arguments r2 {T}. Arguments r3 {T}.

Section matrix33.
Context {T : Type} `{!Arith T}.
Implicit Types (m n : m33 T).
(** m_arr2d[i][j]. *)
Definition vector_at (v : Vector3.v3 T) (j : Z) : T := if j =? 0 then Vector3.x v else if j =? 1 then Vector3.y v else Vector3.z v.
Definition at2 m (i j : Z) : T := vector_at (if i =? 0 then r1 m else if i =? 1 then r2 m else r3 m) j.
Definition add m n : m33 T := M33 (Vector3.add (r1 m) (r1 n)) (Vector3.add (r2 m) (r2 n)) (Vector3.add (r3 m) (r3 n)).
Definition sub m n : m33 T := M33 (Vector3.sub (r1 m) (r1 n)) (Vector3.sub (r2 m) (r2 n)) (Vector3.sub (r3 m) (r3 n)).
Definition Determinent m : T :=
  let d_eifh := a_sub (a_mul (at2 m 1 1) (at2 m 2 2)) (a_mul (at2 m 1 2) (at2 m 2 1)) in
  let d_fgid := a_sub (a_mul (at2 m 1 2) (at2 m 2 0)) (a_mul (at2 m 1 0) (at2 m 2 2)) in
  let d_dheg := a_sub (a_mul (at2 m 1 0) (at2 m 2 1)) (a_mul (at2 m 1 1) (at2 m 0 2)) in
  a_add (a_add (a_mul (at2 m 0 0) d_eifh) (a_mul (at2 m 0 1) d_fgid)) (a_mul (at2 m 0 2) d_dheg).
End matrix33.
End Matrix33.

(** * util_matrix34.hpp *)
Module Matrix34.
Record m34 (T : Type) : Type := M34 { row1 : Float128.v4 T; row2 : Float128.v4 T; row3 : Float128.v4 T }.
Arguments M34 {T}. Arguments row1 {T}. Arguments row2 {T}. Arguments row3 {T}.

Section matrix34.
Context {T : Type} `{!Arith T}.
Implicit Types (m : m34 T).
Definition row m (i : Z) : Float128.v4 T := if i =? 0 then row1 m else if i =? 1 then row2 m else row3 m.
Definition SetRow m (index : Z) (row_vec4 : Float128.v4 T) : m34 T :=
  if index =? 0 then M34 row_vec4 (row2 m) (row3 m) else if index =? 1 then M34 (row1 m) row_vec4 (row3 m)
  else M34 (row1 m) (row2 m) row_vec4.
(** m_arr2d[i][j], read and written. *)
Definition at2 m (i j : Z) : T := Float128.lane (row m i) j.
Definition set2 m (i j : Z) (a : T) : m34 T := SetRow m i (Float128.set_lane (row m i) j a).
Definition SetColumn m (index : Z) (col_vec3 : Vector3.v3 T) : m34 T :=
  let m := set2 m 0 index (Vector3.x col_vec3) in
  let m := set2 m 1 index (Vector3.y col_vec3) in
  set2 m 2 index (Vector3.z col_vec3).
Definition zero4 : Float128.v4 T := let z := a_of_Z 0 in Float128.V4 z z z z.
Definition ZeroMatrix34 : m34 T := M34 zero4 zero4 zero4.
Definition IdentityMatrix34 : m34 T :=
  let o := a_of_Z 1 in let z := a_of_Z 0 in
  M34 (Float128.V4 o z z z) (Float128.V4 z o z z) (Float128.V4 z z o z).
End matrix34.

Section rotation.
Context {F D : Type} `{!Arith F} {AD : Arith D} {PD : Precision F D}.
Implicit Types (align base : Vector3.v3 F).

(** The matrix for the scaled cross product [k] and the square root [s] of twice one plus the dot product. *)
Definition rotation_of (k : Vector3.v3 F) (s : F) : m34 F :=
  let one := a_of_Z 1 in let zero := a_of_Z 0 in
  let kx := Vector3.x k in let ky := Vector3.y k in let kz := Vector3.z k in
  let kcross2x := a_add kx kx in
  let kcross2y_kcrossy := a_mul ky (a_add ky ky) in
  let kcross2z_kcrossz := a_mul kz (a_add kz kz) in
  let kcross2y_kcrossz := a_mul kz (a_add ky ky) in
  let oproj_kcross2x_kcrossx := a_sub one (a_mul kx kcross2x) in
  M34 (Float128.V4 (a_sub (a_sub one kcross2y_kcrossy) kcross2y_kcrossz) (a_sub (a_mul ky kcross2x) (a_mul kz s))
                   (a_add (a_mul ky s) (a_mul kz kcross2x)) zero)
      (Float128.V4 (a_add (a_mul kz s) (a_mul ky kcross2x)) (a_sub oproj_kcross2x_kcrossx kcross2z_kcrossz)
                   (a_sub kcross2z_kcrossz (a_mul kx s)) zero)
      (Float128.V4 (a_sub (a_mul kz kcross2x) (a_sub ky s)) (a_add (a_mul kx s) kcross2y_kcrossz)
                   (a_sub oproj_kcross2x_kcrossx kcross2y_kcrossy) zero).

(** ::sqrt takes and gives a double. *)
Definition MakeVectorRotation align base : m34 F * bool :=
  let dot := a_add (Vector3.Dot base align) (a_of_Z 1) in
  if a_ltb dot Constants.FloatUlp || a_eqb dot Constants.FloatUlp
  then (IdentityMatrix34, false) else
  let sqrt2dot := narrow (a_sqrt (widen (a_add dot dot) : D)) in
  let k := a_div (a_of_Z 1) sqrt2dot in
  (rotation_of (Vector3.mul (Vector3.Cross base align) k) sqrt2dot, true).
End rotation.
End Matrix34.

(** * util_matrix34calc.cpp *)
Module Matrix34Calc.
Section calc.
Context {F D : Type} `{!Arith F} {AD : Arith D} {PD : Precision F D} (SinCosSampleTable : list F).
Implicit Types (m : Matrix34.m34 F) (theta sin cos : F).

(** The lines of the code for one row [i]: the saved entry is [a], the column of it [j], the other column [k]. *)
Definition rotate_x_row sin cos (a : F) (i : Z) m : Matrix34.m34 F :=
  let m := Matrix34.set2 m i 1 (a_add (a_mul a cos) (a_mul (Matrix34.at2 m i 2) sin)) in
  Matrix34.set2 m i 2 (a_sub (a_mul (Matrix34.at2 m i 2) cos) (a_mul a sin)).
Definition rotate_y_row sin cos (a : F) (i : Z) m : Matrix34.m34 F :=
  let m := Matrix34.set2 m i 0 (a_sub (a_mul a cos) (a_mul (Matrix34.at2 m i 2) sin)) in
  Matrix34.set2 m i 2 (a_add (a_mul (Matrix34.at2 m i 2) cos) (a_mul a sin)).
Definition rotate_z_row sin cos (a : F) (i : Z) m : Matrix34.m34 F :=
  let m := Matrix34.set2 m i 0 (a_add (a_mul a cos) (a_mul (Matrix34.at2 m i 1) sin)) in
  Matrix34.set2 m i 1 (a_sub (a_mul (Matrix34.at2 m i 1) cos) (a_mul a sin)).
Definition rotate_rows (row : F -> F -> F -> Z -> Matrix34.m34 F -> Matrix34.m34 F) (j : Z) sin cos m : Matrix34.m34 F :=
  let a1 := Matrix34.at2 m 0 j in let a2 := Matrix34.at2 m 1 j in let a3 := Matrix34.at2 m 2 j in
  row sin cos a3 2 (row sin cos a2 1 (row sin cos a1 0 m)).

Definition RotateLocalX m theta : res (Matrix34.m34 F) :=
  '(sin, cos) ← Vector3Calc.sine_cosine (D := D) SinCosSampleTable theta; Ok (rotate_rows rotate_x_row 1 sin cos m).
Definition RotateLocalY m theta : res (Matrix34.m34 F) :=
  '(sin, cos) ← Vector3Calc.sine_cosine (D := D) SinCosSampleTable theta; Ok (rotate_rows rotate_y_row 0 sin cos m).
Definition RotateLocalZ m theta : res (Matrix34.m34 F) :=
  '(sin, cos) ← Vector3Calc.sine_cosine (D := D) SinCosSampleTable theta; Ok (rotate_rows rotate_z_row 0 sin cos m).
End calc.
End Matrix34Calc.

(** * util_matrix44.hpp *)
Module Matrix44.
Record m44 (T : Type) : Type :=
  M44 { row1 : Float128.v4 T; row2 : Float128.v4 T; row3 : Float128.v4 T; row4 : Float128.v4 T }.
Arguments M44 {T}. Arguments row1 {T}. Arguments row2 {T}. Arguments row3 {T}. Arguments row4 {T}.
Definition zero {T} `{!Arith T} : m44 T := M44 Matrix34.zero4 Matrix34.zero4 Matrix34.zero4 Matrix34.zero4.
End Matrix44.

(** * The determinant *)
Import Matrix33.

(** Determinent is the determinant of a matrix up to one entry, for it takes m[0][2] for m[2][0] in the last
    product: it is off by m[0][2] m[1][1] (m[2][0] - m[0][2]), in exact arithmetic. *)
Theorem determinant_off (m : m33 R) :
  let a := at2 m in
  Determinent m =
    (a 0%Z 0%Z * (a 1%Z 1%Z * a 2%Z 2%Z - a 1%Z 2%Z * a 2%Z 1%Z) -
     a 0%Z 1%Z * (a 1%Z 0%Z * a 2%Z 2%Z - a 1%Z 2%Z * a 2%Z 0%Z) +
     a 0%Z 2%Z * (a 1%Z 0%Z * a 2%Z 1%Z - a 1%Z 1%Z * a 2%Z 0%Z) +
     a 0%Z 2%Z * a 1%Z 1%Z * (a 2%Z 0%Z - a 0%Z 2%Z))%R.
Proof. destruct m as [[] [] []]. cbn. ring. Qed.

(** * Rotations of a matrix *)
Section rotate.
Import Matrix34 Matrix34Calc.
Implicit Types (m : m34 R) (sin cos : R).

Definition row_norm2 m (i : Z) : R := a_add (a_add (a_mul (at2 m i 0) (at2 m i 0)) (a_mul (at2 m i 1) (at2 m i 1))) (a_mul (at2 m i 2) (at2 m i 2)).

(** The rotations of a matrix, in exact arithmetic and for the sine and the cosine of an angle: the opposite
    angle undoes each, the angle zero changes nothing, the last column is never changed, and the rows keep their
    lengths. *)
Theorem matrix_rotations m sin cos : a_add (a_mul sin sin) (a_mul cos cos) = a_of_Z 1 ->
  Forall (fun rotate : R -> R -> m34 R -> m34 R =>
      rotate (a_opp sin) cos (rotate sin cos m) = m /\ rotate (a_of_Z 0) (a_of_Z 1) m = m /\
      (forall i, at2 (rotate sin cos m) i 3 = at2 m i 3) /\
      (forall i, row_norm2 (rotate sin cos m) i = row_norm2 m i))
    [rotate_rows rotate_x_row 1; rotate_rows rotate_y_row 0; rotate_rows rotate_z_row 0].
Proof.
  intros E. cbn in E.
  assert (forall x : R, Rmult x (Rplus (Rmult sin sin) (Rmult cos cos)) = x) as Ex by (intros; rewrite E; ring).
  destruct m as [[a0 a1 a2 a3] [b0 b1 b2 b3] [c0 c1 c2 c3]].
  repeat constructor; try (cbn; f_equal; f_equal; first [ring | etransitivity; [|apply Ex]; ring]).
  all: intros i; unfold row_norm2, at2, rotate_rows, rotate_x_row, rotate_y_row, rotate_z_row, row; cbn;
    destruct (i =? 0), (i =? 1); cbn; try reflexivity; clear Ex; nsatz.
Qed.
End rotate.

(** * The rotation of a vector onto another *)
Section vector_rotation.
Import Vector3 Matrix34.
Implicit Types (align base k : v3 R) (s : R).

(** The rotation with the axis and the angle of the quaternion with the vector [k] and the scalar [s / 2]. *)
Definition exact_rotation k s : m34 R :=
  (let kx := x k in let ky := y k in let kz := z k in
   M34 (Float128.V4 (1 - 2 * ky * ky - 2 * kz * kz) (2 * kx * ky - kz * s) (2 * kx * kz + ky * s) 0)
       (Float128.V4 (2 * kx * ky + kz * s) (1 - 2 * kx * kx - 2 * kz * kz) (2 * ky * kz - kx * s) 0)
       (Float128.V4 (2 * kx * kz - ky * s) (2 * ky * kz + kx * s) (1 - 2 * kx * kx - 2 * ky * ky) 0))%R.
Definition apply_row (r : Float128.v4 R) (v : v3 R) : R :=
  (Float128.lane0 r * x v + Float128.lane1 r * y v + Float128.lane2 r * z v)%R.
Definition apply (m : m34 R) (v : v3 R) : v3 R := V3 (apply_row (row1 m) v) (apply_row (row2 m) v) (apply_row (row3 m) v).

Lemma exact_rotation_maps align base s h : Dot base base = 1%R -> Dot align align = 1%R ->
  (s * h = 1)%R -> (s * s = 2 * (Dot base align + 1))%R ->
  apply (exact_rotation (mul (Cross base align) h) s) base = align.
Proof.
  destruct align as [a1 a2 a3], base as [b1 b2 b3]. rewrite Cross_lanes. cbn. intros Hb Ha Hs Hd.
  unfold apply, apply_row. cbn. f_equal; nsatz.
Qed.

(** MakeVectorRotation gives the identity and reports false when the two unit vectors are nearly opposite.
    Otherwise it computes the axis and the angle of the rotation that maps the base to the vector to align with, but
    three entries of its matrix are not that rotation's, in exact arithmetic: those of rows and columns (0, 0),
    (1, 2) and (2, 0). *)
Theorem vector_rotation_entries (align base : v3 R) : Dot base base = 1%R -> Dot align align = 1%R ->
  ((Dot base align + 1 <= Constants.FloatUlp)%R -> MakeVectorRotation (D := R) align base = (IdentityMatrix34, false)) /\
  ((Constants.FloatUlp < Dot base align + 1)%R -> exists m k s,
    MakeVectorRotation (D := R) align base = (m, true) /\
    apply (exact_rotation k s) base = align /\
    at2 m 0 0 = (at2 (exact_rotation k s) 0 0 + 2 * z k * (z k - y k))%R /\
    at2 m 1 2 = (at2 (exact_rotation k s) 1 2 + 2 * z k * (z k - y k))%R /\
    at2 m 2 0 = (at2 (exact_rotation k s) 2 0 + (y k * s - y k + s))%R /\
    Forall (fun '(i, j) => at2 m i j = at2 (exact_rotation k s) i j)
      [(0, 1); (0, 2); (0, 3); (1, 0); (1, 1); (1, 3); (2, 1); (2, 2); (2, 3)]).
Proof.
  intros Hb Ha. unfold MakeVectorRotation. cbv zeta. cbn [a_ltb a_eqb real_arith]. split; intros Hd.
  - rewrite (proj2 (orb_true_iff _ _)); [done|]. destruct Hd as [Hd|Hd]; [left|right]; by apply bool_decide_eq_true.
  - rewrite !bool_decide_false by (cbn in Hd |- *; lra). cbn [orb]. set (s := narrow _). set (k := mul _ _).
    assert (0 < Dot base align + 1)%R as Hpos.
    { eapply Rlt_trans; [|exact Hd]. cbn. unfold Rdiv. apply Rmult_lt_0_compat; [lra|]. apply Rinv_0_lt_compat. lra. }
    assert (s = R_sqrt.sqrt (2 * (Dot base align + 1))) as Es by (unfold s; cbn; f_equal; ring).
    assert (s * s = 2 * (Dot base align + 1))%R as Ess by (rewrite Es; apply R_sqrt.sqrt_sqrt; lra).
    assert (0 < s)%R as Hs by (rewrite Es; apply R_sqrt.sqrt_lt_R0; lra).
    eexists _, k, s. split; [reflexivity|]. split; [apply (exact_rotation_maps align base s (1 / s)%R); try assumption; field; lra|].
    clearbody k s. destruct k as [kx ky kz]. cbn. split_and!; [ring..|]. repeat constructor; cbn; ring.
Qed.
End vector_rotation.

Lemma matrix_rotations_witness :
  Matrix34Calc.rotate_rows Matrix34Calc.rotate_x_row 1 (a_opp (3 / 5))%R (4 / 5)%R
    (Matrix34Calc.rotate_rows Matrix34Calc.rotate_x_row 1 (3 / 5)%R (4 / 5)%R Matrix34.IdentityMatrix34) = Matrix34.IdentityMatrix34.
Proof.
  pose proof (matrix_rotations Matrix34.IdentityMatrix34 (3 / 5)%R (4 / 5)%R ltac:(cbn; lra)) as H.
  inversion H as [|f l [E _] _]. exact E.
Defined.

Lemma vector_rotation_entries_witness :
  snd (Matrix34.MakeVectorRotation (D := R) (Vector3.V3 (-1) 0 0)%R (Vector3.V3 1 0 0)%R) = false.
Proof.
  pose proof (vector_rotation_entries (Vector3.V3 (-1) 0 0)%R (Vector3.V3 1 0 0)%R) as H.
  rewrite (proj1 (H ltac:(cbn; ring) ltac:(cbn; ring))); [reflexivity|]. cbn. lra.
Defined.
