(* ===== verification/Camera.v ===== *)
(** The camera and the projections (util_camera.hpp, util_projection.hpp).

    [F] is float, [D] double; the sines, cosines and tangents of the C library are parameters. *)
From Stdlib Require Import Reals Psatz RNsatz.
From S2P Require Import Prelude Float32 Simd Vectors Matrices.

(** * util_camera.hpp *)
Module Camera.
Import Vector3 Matrix34.
Section camera.
Context {F D : Type} `{!Arith F} {AD : Arith D} {PD : Precision F D}.

Record LookAtCamera : Type := MkLookAt {
  m_camera_mtx : m34 F;
  m_pos : v3 D;
  m_at : v3 D;
  m_up : v3 F
}.
Implicit Types (c : LookAtCamera).

Definition construct (pos at' up : v3 F) : LookAtCamera := MkLookAt ZeroMatrix34 (convert widen pos) (convert widen at') up.
Definition SetPos c (new_pos : v3 F) : LookAtCamera := MkLookAt (m_camera_mtx c) (convert widen new_pos) (m_at c) (m_up c).
Definition SetAt c (new_at : v3 F) : LookAtCamera := MkLookAt (m_camera_mtx c) (m_pos c) (convert widen new_at) (m_up c).
Definition SetUp c (new_up : v3 F) : LookAtCamera := MkLookAt (m_camera_mtx c) (m_pos c) (m_at c) new_up.
Definition GetPos c : v3 F := convert narrow (m_pos c).
Definition GetAt c : v3 F := convert narrow (m_at c).
Definition GetUp c : v3 F := m_up c.

(** The translation of one row, in double. *)
Definition inline_position (axis : v3 F) (pos : v3 D) : F :=
  narrow (a_opp (a_add (a_add (a_mul (widen (x axis)) (x pos)) (a_mul (widen (y axis)) (y pos))) (a_mul (widen (z axis)) (z pos)))).
Definition axes c : v3 F * v3 F * v3 F :=
  let dir := convert narrow (sub (m_pos c) (m_at c)) in
  let dir := scale_to_unit (D := D) dir (Magnitude dir) in
  let right_v := Cross (m_up c) dir in
  let right_v := scale_to_unit (D := D) right_v (Magnitude right_v) in
  (right_v, Cross dir right_v, dir).
Definition UpdateCameraMatrix c (out : m34 F) : m34 F :=
  let '(right_v, up, dir) := axes c in
  let out := set2 out 0 0 (x right_v) in let out := set2 out 0 1 (y right_v) in let out := set2 out 0 2 (z right_v) in
  let out := set2 out 1 0 (x up) in let out := set2 out 1 1 (y up) in let out := set2 out 1 2 (z up) in
  let out := set2 out 2 0 (x dir) in let out := set2 out 2 1 (y dir) in let out := set2 out 2 2 (z dir) in
  let out := set2 out 0 3 (inline_position right_v (m_pos c)) in
  let out := set2 out 1 3 (inline_position up (m_pos c)) in
  set2 out 2 3 (inline_position dir (m_pos c)).
Definition UpdateCameraMatrixSelf c : LookAtCamera :=
  MkLookAt (UpdateCameraMatrix c (m_camera_mtx c)) (m_pos c) (m_at c) (m_up c).

(** The getters index the pointer to the vector and not its coordinates: [out] are the vectors from there on. *)
Definition set_vectors (out : list (v3 F)) (a b c : F) : res (list (v3 F)) :=
  out ← arr_set out 0 (from_scalar a); out ← arr_set out 1 (from_scalar b); arr_set out 2 (from_scalar c).
Definition GetRightVectorByMatrix c (out : list (v3 F)) : res (list (v3 F)) :=
  let m := m_camera_mtx c in set_vectors out (at2 m 0 0) (at2 m 0 1) (at2 m 0 2).
Definition GetLookDirVectorByMatrix c (out : list (v3 F)) : res (list (v3 F)) :=
  let m := m_camera_mtx c in set_vectors out (at2 m 1 0) (at2 m 1 1) (at2 m 1 2).
Definition GetUpVectorByMatrix c (out : list (v3 F)) : res (list (v3 F)) :=
  let m := m_camera_mtx c in set_vectors out (at2 m 2 0) (at2 m 2 1) (at2 m 2 2).
Definition world_coordinate (m : m34 F) (j : Z) : F * F :=
  (a_sub (a_opp (a_mul (at2 m 0 j) (at2 m 0 3))) (a_mul (at2 m 1 j) (at2 m 1 3)), a_mul (at2 m 2 j) (at2 m 2 3)).
Definition GetWorldPosByMatrix c (out : list (v3 F)) : res (list (v3 F)) :=
  let w j := let '(a, b) := world_coordinate (m_camera_mtx c) j in a_sub a b in
  set_vectors out (w 0) (w 1) (w 2).
Definition CameraPositionToWorldPositionByMatrix c (out : list (v3 F)) (camera_pos : v3 F) : res (list (v3 F)) :=
  let w j := let '(a, b) := world_coordinate (m_camera_mtx c) j in
    a_sub (a_add (a_add (a_add (x camera_pos) (y camera_pos)) (z camera_pos)) a) b in
  set_vectors out (w 0) (w 1) (w 2).
End camera.
Arguments LookAtCamera : clear implicits.
End Camera.

(** * util_projection.hpp *)
Module Projection.
Section projection.
Context {F D : Type} `{!Arith F} {AD : Arith D} {PD : Precision F D} (sinf cosf tanf : F -> F).
Local Abbreviation zero := (a_of_Z (T := F) 0).
Local Abbreviation one := (a_of_Z (T := F) 1).

(** Both classes: a perspective projection is a frustum with its fov. *)
Record Projection : Type := MkProjection {
  m_projection_matrix : Matrix44.m44 F;
  m_need_update : bool;
  m_near : F; m_far : F; m_top : F; m_bottom : F; m_left : F; m_right : F;
  m_fov_x : option F
}.
Implicit Types (p : Projection).

Definition FrustumProjection (near far top bottom left right : F) : Projection :=
  MkProjection Matrix44.zero true near far top bottom left right None.
Definition FrustumProjection_box (near far : F) (box : Framebuffer.BoundingBox2 F) : Projection :=
  FrustumProjection near far (Framebuffer.max_y box) (Framebuffer.min_y box) (Framebuffer.max_x box) (Framebuffer.min_x box).
Definition PerspectiveProjection (near far fovy aspect : F) : Projection :=
  let half := a_div fovy (a_of_Z 2) in
  MkProjection Matrix44.zero true near far fovy (sinf half) (cosf half) (tanf half) (Some aspect).
Definition PerspectiveProjection_default : Projection :=
  PerspectiveProjection one (a_of_Z 10000) (Constants.TRadians (a_of_Z 45))
    (narrow (a_div (a_of_Z (T := D) 4) (a_of_Z 3))).

(** The rows that both classes fill in the same way. *)
Definition depth_row p : Float128.v4 F :=
  let reciprocal_c := a_div one (a_sub (m_far p) (m_near p)) in
  Float128.V4 zero zero (a_opp (a_mul (a_add (m_near p) (m_far p)) reciprocal_c))
    (a_opp (a_mul (a_mul (a_add (m_far p) (m_far p)) (m_near p)) reciprocal_c)).
Definition last_row : Float128.v4 F := Float128.V4 zero zero (a_opp one) zero.
Definition frustum_matrix p : Matrix44.m44 F :=
  let reciprocal_a := a_div one (a_add (m_right p) (m_left p)) in
  let reciprocal_b := a_div one (a_sub (m_top p) (m_bottom p)) in
  let near2 := a_add (m_near p) (m_near p) in
  Matrix44.M44
    (Float128.V4 (a_mul near2 reciprocal_a) zero (a_mul (a_add (m_left p) (m_right p)) reciprocal_a) zero)
    (Float128.V4 zero (a_mul near2 reciprocal_b) (a_mul (a_add (m_top p) (m_bottom p)) reciprocal_b) zero)
    (depth_row p) last_row.
Definition perspective_matrix p (fov_x : F) : Matrix44.m44 F :=
  Matrix44.M44 (Float128.V4 (a_div one (a_mul (m_right p) fov_x)) zero zero zero)
    (Float128.V4 zero (a_div one (m_right p)) zero zero) (depth_row p) last_row.
Definition UpdateMatrix p : Matrix44.m44 F :=
  match m_fov_x p with None => frustum_matrix p | Some fov_x => perspective_matrix p fov_x end.

Definition with_matrix p (m : Matrix44.m44 F) (need_update : bool) (fov_x : option F) : Projection :=
  MkProjection m need_update (m_near p) (m_far p) (m_top p) (m_bottom p) (m_left p) (m_right p) fov_x.
Definition UpdateProjectionMatrixSelf p : Projection := with_matrix p (UpdateMatrix p) false (m_fov_x p).
Definition GetProjectionMatrix p : Matrix44.m44 F * Projection :=
  let p := if m_need_update p then UpdateProjectionMatrixSelf p else p in (m_projection_matrix p, p).
(** The const member reads what there is. *)
Definition GetProjectionMatrix_const p : Matrix44.m44 F := m_projection_matrix p.
(** Members of PerspectiveProjection alone. *)
Definition SetAspect p (new_aspect : F) : Projection := with_matrix p (m_projection_matrix p) true (Some new_aspect).
Definition SetFovX p (new_fov_x : F) : Projection :=
  with_matrix p (m_projection_matrix p) true
    (Some (a_div (tanf (a_mul new_fov_x (a_div one (a_of_Z 2)))) (m_right p))).
End projection.
Arguments Projection : clear implicits.
End Projection.

(** * The matrix of a camera *)
Section look_at.
Import Vector3 Matrix34 Camera.
Implicit Types (c : LookAtCamera R R) (v w : v3 R).

Definition unit_pair v w : Prop := Dot v v = 1%R /\ Dot w w = 1%R /\ Dot v w = 0%R.

Lemma sub_swap v w : mul (sub v w) (-1)%R = sub w v.
Proof. destruct v, w. unfold sub, mul, from_register. cbn. f_equal; ring. Qed.

Lemma scale_to_unit_dot v : Dot v v <> 0%R ->
  let u := scale_to_unit (D := R) v (Magnitude v) in Dot u u = 1%R /\ u = mul v (1 / Magnitude v)%R /\ Magnitude v <> 0%R.
Proof.
  destruct v as [a b c]. unfold scale_to_unit. cbn. set (n := (a * a + b * b + c * c)%R). intros Hne.
  assert (0 <= n)%R by (unfold n; nra). pose proof (R_sqrt.sqrt_lt_R0 n ltac:(lra)) as Hs.
  pose proof (R_sqrt.sqrt_sqrt n ltac:(lra)) as Ess. rewrite bool_decide_true by done. cbn. split_and!; [|done|lra].
  set (s := R_sqrt.sqrt n) in *. replace (_ + _)%R with (n * (1 / s) * (1 / s))%R by (unfold n; ring).
  rewrite <- Ess. field. lra.
Qed.

(** The axes of a camera that does not look along its up vector. *)
Lemma axes_unit c :
  let d := sub (m_pos c) (m_at c) in
  Dot d d <> 0%R -> Dot (Cross (m_up c) d) (Cross (m_up c) d) <> 0%R ->
  exists r d', axes c = (r, Cross d' r, d') /\ unit_pair r d' /\ d = mul d' (Magnitude d).
Proof.
  intros d Hd Hr. destruct (scale_to_unit_dot d Hd) as (Ud & Ed & Hm).
  unfold axes. replace (convert narrow (sub (m_pos c) (m_at c))) with d by (by destruct c as [m [] [] u]).
  set (d' := scale_to_unit _ _) in *. clearbody d'.
  assert (Dot (Cross (m_up c) d') (Cross (m_up c) d') <> 0%R) as Hr'.
  { intros E. apply Hr. rewrite Ed in E. destruct d as [d1 d2 d3], (m_up c) as [u1 u2 u3]. rewrite Cross_lanes in *. cbn in E |- *.
    set (k := (1 / R_sqrt.sqrt _)%R) in E. assert (k <> 0)%R as Hk.
    { unfold k. cbn in Hm. intros E0. apply (Rmult_eq_compat_r (R_sqrt.sqrt (d1 * d1 + d2 * d2 + d3 * d3))) in E0. field_simplify in E0; [lra|done]. }
    apply (Rmult_eq_reg_l (k * k)); [|by apply Rmult_integral_contrapositive]. rewrite Rmult_0_r, <- E. ring. }
  destruct (scale_to_unit_dot _ Hr') as (Ur & Er & _). set (r := scale_to_unit _ _) in *.
  exists r, d'. split; [done|]. split.
  - split_and!; [done..|]. rewrite Er. destruct (m_up c) as [u1 u2 u3], d' as [d1 d2 d3]. rewrite Cross_lanes. cbn. ring.
  - rewrite Ed. destruct d as [d1 d2 d3]. unfold mul. cbn in *. f_equal; field; done.
Qed.

(** What a camera matrix does to a point of the world. *)
Definition to_camera (m : m34 R) (p : v3 R) : v3 R :=
  V3 (apply_row (row1 m) p + Float128.lane3 (row1 m))%R (apply_row (row2 m) p + Float128.lane3 (row2 m))%R
     (apply_row (row3 m) p + Float128.lane3 (row3 m))%R.
Definition axis (r : Float128.v4 R) : v3 R := V3 (Float128.lane0 r) (Float128.lane1 r) (Float128.lane2 r).
Definition camera_position (m : m34 R) : v3 R :=
  let w j := let '(a, b) := world_coordinate m j in a_sub a b in V3 (w 0) (w 1) (w 2).

Lemma camera_matrix_of_axes c (out : m34 R) r d : axes c = (r, Cross d r, d) -> unit_pair r d ->
  let m := UpdateCameraMatrix c out in
  axis (row1 m) = r /\ axis (row2 m) = Cross d r /\ axis (row3 m) = d /\
  unit_pair (axis (row1 m)) (axis (row2 m)) /\ unit_pair (axis (row2 m)) (axis (row3 m)) /\
  (forall p, to_camera m p = V3 (Dot r (sub p (m_pos c))) (Dot (Cross d r) (sub p (m_pos c))) (Dot d (sub p (m_pos c)))) /\
  camera_position m = m_pos c.
Proof.
  intros E (Hr & Hd & Hrd). unfold UpdateCameraMatrix. rewrite E. destruct c as [m0 [p1 p2 p3] at' up'].
  destruct r as [r1 r2 r3], d as [d1 d2 d3]. rewrite Cross_lanes. unfold unit_pair, to_camera, apply_row, camera_position, axis.
  cbn in *. split_and!; try reflexivity; try assumption; try nsatz.
  - intros [q1 q2 q3]. cbn. f_equal; ring.
  - f_equal; nsatz.
Qed.

(** The matrix of a look-at camera, for a camera that is not where it looks at and does not look along its up
    vector, in exact arithmetic: its axes are orthogonal and of length one, it takes the position of the camera to
    the origin and the point it looks at onto the negative z axis, as far away as it is, and the position of the
    camera can be computed back from it. *)
Theorem look_at_frame c (out : m34 R) :
  let d := sub (m_pos c) (m_at c) in
  Dot d d <> 0%R -> Dot (Cross (m_up c) d) (Cross (m_up c) d) <> 0%R ->
  let m := UpdateCameraMatrix c out in
  unit_pair (axis (row1 m)) (axis (row3 m)) /\ unit_pair (axis (row1 m)) (axis (row2 m)) /\
  unit_pair (axis (row2 m)) (axis (row3 m)) /\
  to_camera m (m_pos c) = V3 0%R 0%R 0%R /\ to_camera m (m_at c) = V3 0%R 0%R (- Magnitude d)%R /\
  camera_position m = m_pos c.
Proof.
  intros d Hd Hr m. destruct (axes_unit c Hd Hr) as (r & d' & E & Hrd & Ed). fold d in Ed.
  destruct (camera_matrix_of_axes c out r d' E Hrd) as (E1 & E2 & E3 & H12 & H23 & Hto & Hpos). fold m in E1, E2, E3, H12, H23, Hto, Hpos.
  split_and!; try done; [by rewrite E1, E3|rewrite Hto..].
  - destruct c as [? [p1 p2 p3] ? ?], r, d'. rewrite Cross_lanes. cbn. f_equal; ring.
  - replace (sub (m_at c) (m_pos c)) with (mul d' (- Magnitude d)%R).
    + destruct Hrd as (_ & Hd' & H0). destruct r as [r1 r2 r3], d' as [d1 d2 d3]. rewrite Cross_lanes.
      generalize (Magnitude d). intros k. cbn in *. f_equal; nsatz.
    + transitivity (mul d (-1)%R); [|apply sub_swap].
      rewrite Ed at 2. destruct d'. unfold mul. cbn. f_equal; ring.
Qed.

Lemma set_vectors_three w1 w2 w3 a b e :
  set_vectors [w1; w2; w3] a b e = Ok [from_scalar a; from_scalar b; from_scalar e].
Proof. reflexivity. Qed.

(** The getters of the matrix write three vectors, the first coordinate of each, where the caller has passed one:
    with one vector they write past it. What they take for the direction is the up axis of the matrix and what
    they take for the up axis is its direction. The conversion of a point adds the sum of the coordinates of the
    point to each coordinate of the position. *)
Theorem camera_getters c v w1 w2 w3 :
  let f := fun a => V3 a 0%R 0%R in
  let m := m_camera_mtx c in
  GetRightVectorByMatrix c [v] = Fault OutOfBounds /\ GetLookDirVectorByMatrix c [v] = Fault OutOfBounds /\
  GetUpVectorByMatrix c [v] = Fault OutOfBounds /\ GetWorldPosByMatrix c [v] = Fault OutOfBounds /\
  CameraPositionToWorldPositionByMatrix c [v] w1 = Fault OutOfBounds /\
  GetLookDirVectorByMatrix c [w1; w2; w3] = Ok (f <$> [x (axis (row2 m)); y (axis (row2 m)); z (axis (row2 m))]) /\
  GetUpVectorByMatrix c [w1; w2; w3] = Ok (f <$> [x (axis (row3 m)); y (axis (row3 m)); z (axis (row3 m))]) /\
  GetWorldPosByMatrix c [w1; w2; w3] = Ok (f <$> [x (camera_position m); y (camera_position m); z (camera_position m)]) /\
  CameraPositionToWorldPositionByMatrix c [w1; w2; w3] v = let s := (x v + y v + z v)%R in
    Ok (f <$> [(s + x (camera_position m))%R; (s + y (camera_position m))%R; (s + z (camera_position m))%R]).
Proof.
  cbv zeta. split_and!; try reflexivity. unfold CameraPositionToWorldPositionByMatrix. rewrite set_vectors_three.
  assert (forall a b e a' b' e' : R, a = a' -> b = b' -> e = e' ->
    @Ok (list (v3 R)) [from_scalar a; from_scalar b; from_scalar e] =
    Ok [V3 a' 0%R 0%R; V3 b' 0%R 0%R; V3 e' 0%R 0%R]) as H by (by intros ? ? ? ? ? ? -> -> ->).
  apply H; cbn; ring.
Qed.
End look_at.

(** * Projections *)
Section projections.
Import Projection.
Context {F D : Type} `{!Arith F} {AD : Arith D} {PD : Precision F D} (sinf cosf tanf : F -> F).
Implicit Types (p : Projection F).

(** What the program can do to a perspective projection; the frustum has the update alone. *)
Inductive event : Type :=
  | Ask                      (* GetProjectionMatrix *)
  | Update                   (* UpdateProjectionMatrixSelf *)
  | Aspect (a : F) | Fov (a : F).
Definition run_event (p : Projection F) (e : event) : Projection F :=
  match e with
  | Ask => snd (GetProjectionMatrix p)
  | Update => UpdateProjectionMatrixSelf p
  | Aspect a => SetAspect p a
  | Fov a => SetFovX tanf p a
  end.
Definition coherent p : Prop := m_need_update p = false -> m_projection_matrix p = UpdateMatrix p.

Lemma run_event_coherent p e : coherent p -> coherent (run_event p e).
Proof.
  intros Hp. destruct e; unfold coherent in *; cbn; try done. unfold GetProjectionMatrix. by destruct (m_need_update p) eqn:E; cbn; [|rewrite E].
Qed.

(** A projection keeps its matrix and whether it is up to date. After any sequence of questions for the matrix
    and changes of the aspect or of the field of view, a question is answered with the matrix of the values as
    they are then; the answer of the const member is that one unless a change has come after the last question. *)
Theorem projection_cache near far fovy aspect (events : list event) :
  let p := foldl run_event (PerspectiveProjection sinf cosf tanf near far fovy aspect) events in
  fst (GetProjectionMatrix p) = UpdateMatrix p /\
  (m_need_update p = false -> GetProjectionMatrix_const p = UpdateMatrix p) /\
  m_need_update (snd (GetProjectionMatrix p)) = false /\ GetProjectionMatrix (snd (GetProjectionMatrix p)) = GetProjectionMatrix p.
Proof.
  assert (forall events p, coherent p -> coherent (foldl run_event p events)) as H.
  { clear. induction events as [|e es IH]; intros p Hp; [done|]. apply IH. by apply run_event_coherent. }
  intros p. assert (coherent p) as Hp by (apply H; by intros E).
  clearbody p. unfold GetProjectionMatrix, GetProjectionMatrix_const. destruct (m_need_update p) eqn:E; cbn; split_and!; rewrite ?E; try done; intros; by apply Hp.
Qed.
End projections.

Section projection_values.
Import Projection.
Implicit Types (near far fovy aspect : R).

(** A perspective projection maps, in exact arithmetic, the near plane to depth -1 and the far plane to depth 1.
    Its horizontal scale is one over the tangent of half the vertical angle times the aspect, and after SetFovX
    one over the tangent of half the angle that was given. *)
Theorem perspective_planes (sinf cosf tanf : R -> R) near far fovy aspect fov_x :
  near <> far -> near <> 0%R -> far <> 0%R -> tanf (fovy / 2)%R <> 0%R ->
  let p := PerspectiveProjection sinf cosf tanf near far fovy aspect in
  let m := UpdateMatrix p in
  let depth z := ((Float128.lane2 (Matrix44.row3 m) * z + Float128.lane3 (Matrix44.row3 m)) /
                  (Float128.lane2 (Matrix44.row4 m) * z))%R in
  depth (- near)%R = (-1)%R /\ depth (- far)%R = 1%R /\
  Float128.lane0 (Matrix44.row1 m) = (1 / (tanf (fovy / 2) * aspect))%R /\
  Float128.lane1 (Matrix44.row2 m) = (1 / tanf (fovy / 2))%R /\
  Float128.lane0 (Matrix44.row1 (UpdateMatrix (SetFovX tanf p fov_x))) = (1 / tanf (fov_x * (1 / 2)))%R.
Proof.
  intros Hnf Hn Hf Ht. cbn in *. assert (far - near <> 0)%R by lra. split_and!; try reflexivity.
  - field. split; lra.
  - field. split; lra.
  - f_equal. field. done.
Qed.

(** A frustum that is symmetric, its left the negative of its right, has no matrix: for any right that is a
    number the first row has a third entry that is not one, for the code divides by the sum of left and right and
    not by their difference. *)
Theorem symmetric_frustum (near far top bottom r : Float32.f32) : Float32.truncate r <> None ->
  let p := @FrustumProjection Float32.f32 float_arith near far top bottom (Float32.opp r) r in
  Float128.lane2 (Matrix44.row1 (@UpdateMatrix Float32.f32 float_arith p)) = SpecFloat.S754_nan.
Proof.
  intros Hr. cbn -[SpecFloat.SFadd SpecFloat.SFdiv SpecFloat.SFmul]. destruct (f32_add_opp r Hr) as [s E].
  rewrite f32_add_comm, E. by destruct s.
Qed.
End projection_values.

Lemma look_at_frame_witness :
  let c := Camera.MkLookAt (Matrix34.ZeroMatrix34 (T := R)) (Vector3.V3 0 0 2)%R (Vector3.V3 0 0 0)%R (Vector3.V3 0 1 0)%R in
  to_camera (Camera.UpdateCameraMatrix c Matrix34.ZeroMatrix34) (Camera.m_pos c) = Vector3.V3 0%R 0%R 0%R.
Proof.
  apply (look_at_frame (Camera.MkLookAt (Matrix34.ZeroMatrix34 (T := R)) (Vector3.V3 0 0 2)%R (Vector3.V3 0 0 0)%R (Vector3.V3 0 1 0)%R)
    Matrix34.ZeroMatrix34); rewrite ?Cross_lanes; intros H; cbn in H; lra.
Defined.

Lemma perspective_planes_witness :
  Float128.lane1 (Matrix44.row2 (Projection.UpdateMatrix
    (Projection.PerspectiveProjection (fun x => x) (fun x => x) (fun x => x) 1 3 4 1)%R)) = (1 / (4 / 2))%R.
Proof.
  apply (perspective_planes (fun x => x) (fun x => x) (fun x => x) 1 3 4 1 0)%R; intros H; lra.
Defined.

Lemma symmetric_frustum_witness :
  let p := @Projection.FrustumProjection Float32.f32 float_arith (Float32.of_Z 1) (Float32.of_Z 9) (Float32.of_Z 1) (Float32.of_Z (-1))
    (Float32.opp (Float32.of_Z 2)) (Float32.of_Z 2) in
  Float128.lane2 (Matrix44.row1 (@Projection.UpdateMatrix Float32.f32 float_arith p)) = SpecFloat.S754_nan.
Proof. apply symmetric_frustum. discriminate. Defined.
