(* ===== verification/Vulkan.v ===== *)
(** What the rendering classes (dd/vk) have in common: the names of the Vulkan headers, the calls they make and the
    state they share.

    Vulkan is not part of the repository.  The numbers of its names are a parameter ([VkHeader]), and so are the
    answers of its functions ([Driver]): any function of the calls made so far.  A call is recorded with the values
    the code puts into its arguments and the structures they point to; structure types, allocators (always null) and
    members that are left zero are not.  The classes' objects live at addresses. *)
From stdpp Require Import gmap.
From S2P Require Import Prelude Float32.

(** The names the code uses, without those it only passes on in constant tables. *)
Inductive vk_name : Type :=
  | VK_SUCCESS | VK_TRUE | VK_FALSE
  | VK_MEMORY_PROPERTY_DEVICE_LOCAL_BIT | VK_MEMORY_PROPERTY_HOST_VISIBLE_BIT | VK_MEMORY_PROPERTY_HOST_COHERENT_BIT
  | VK_BUFFER_USAGE_TRANSFER_SRC_BIT | VK_BUFFER_USAGE_TRANSFER_DST_BIT | VK_BUFFER_USAGE_SHADER_DEVICE_ADDRESS_BIT
  | VK_IMAGE_USAGE_COLOR_ATTACHMENT_BIT | VK_IMAGE_USAGE_TRANSFER_DST_BIT | VK_IMAGE_USAGE_DEPTH_STENCIL_ATTACHMENT_BIT
  | VK_IMAGE_LAYOUT_UNDEFINED | VK_IMAGE_LAYOUT_GENERAL | VK_IMAGE_LAYOUT_ATTACHMENT_OPTIMAL_KHR
  | VK_IMAGE_TYPE_2D | VK_IMAGE_VIEW_TYPE_2D | VK_IMAGE_TILING_OPTIMAL | VK_SAMPLE_COUNT_1_BIT
  | VK_IMAGE_ASPECT_COLOR_BIT | VK_IMAGE_ASPECT_DEPTH_BIT | VK_IMAGE_ASPECT_STENCIL_BIT
  | VK_COMPONENT_SWIZZLE_IDENTITY | VK_FORMAT_UNDEFINED | VK_FORMAT_B8G8R8A8_SRGB | VK_FORMAT_D24_UNORM_S8_UINT
  | VK_COLOR_SPACE_SRGB_NONLINEAR_KHR | VK_PRESENT_MODE_FIFO_KHR
  | VK_FILTER_NEAREST | VK_SAMPLER_MIPMAP_MODE_NEAREST | VK_SAMPLER_ADDRESS_MODE_REPEAT
  | VK_COMPARE_OP_NEVER | VK_COMPARE_OP_ALWAYS | VK_COMPARE_OP_GREATER | VK_BORDER_COLOR_FLOAT_TRANSPARENT_BLACK
  | VK_DESCRIPTOR_TYPE_SAMPLED_IMAGE | VK_DESCRIPTOR_TYPE_SAMPLER
  | VK_ATTACHMENT_LOAD_OP_CLEAR | VK_ATTACHMENT_LOAD_OP_DONT_CARE
  | VK_PIPELINE_STAGE_TRANSFER_BIT | VK_PIPELINE_STAGE_COLOR_ATTACHMENT_OUTPUT_BIT
  | VK_PIPELINE_STAGE_EARLY_FRAGMENT_TESTS_BIT | VK_PIPELINE_STAGE_LATE_FRAGMENT_TESTS_BIT
  | VK_PIPELINE_STAGE_BOTTOM_OF_PIPE_BIT | VK_PIPELINE_STAGE_2_ALL_COMMANDS_BIT
  | VK_ACCESS_NONE | VK_ACCESS_TRANSFER_WRITE_BIT | VK_ACCESS_COLOR_ATTACHMENT_WRITE_BIT
  | VK_ACCESS_DEPTH_STENCIL_ATTACHMENT_WRITE_BIT | VK_ACCESS_SHADER_READ_BIT
  | VK_SHADER_STAGE_VERTEX_BIT | VK_SHADER_STAGE_TESSELLATION_CONTROL_BIT | VK_SHADER_STAGE_TESSELLATION_EVALUATION_BIT
  | VK_SHADER_STAGE_GEOMETRY_BIT | VK_SHADER_STAGE_FRAGMENT_BIT | VK_SHADER_STAGE_COMPUTE_BIT
  | VK_SHADER_STAGE_TASK_BIT_EXT | VK_SHADER_STAGE_MESH_BIT_EXT | VK_SHADER_STAGE_ALL
  | VK_PIPELINE_BIND_POINT_GRAPHICS | VK_PIPELINE_BIND_POINT_COMPUTE | VK_PIPELINE_BIND_POINT_RAY_TRACING_KHR
  | VK_STENCIL_FACE_FRONT_BIT | VK_STENCIL_FACE_BACK_BIT | VK_STENCIL_OP_KEEP
  | VK_LOGIC_OP_COPY | VK_COLOR_COMPONENT_R_BIT | VK_COLOR_COMPONENT_G_BIT | VK_COLOR_COMPONENT_B_BIT | VK_COLOR_COMPONENT_A_BIT
  | VK_CULL_MODE_NONE | VK_FRONT_FACE_CLOCKWISE | VK_POLYGON_MODE_FILL | VK_QUEUE_GRAPHICS_BIT
  | VK_BUFFER_USAGE_VERTEX_BUFFER_BIT | VK_BUFFER_USAGE_INDEX_BUFFER_BIT | VK_BUFFER_USAGE_UNIFORM_BUFFER_BIT
  | VK_IMAGE_USAGE_SAMPLED_BIT | VK_IMAGE_TILING_LINEAR | VK_FORMAT_R8G8B8A8_UNORM | VK_FORMAT_R32G32B32_SFLOAT
  | VK_FORMAT_R32G32_SFLOAT | VK_VERTEX_INPUT_RATE_VERTEX | VK_PIPELINE_STAGE_ALL_GRAPHICS_BIT
  | VK_IMAGE_LAYOUT_SHADER_READ_ONLY_OPTIMAL | VK_IMAGE_LAYOUT_PRESENT_SRC_KHR | VK_PRIMITIVE_TOPOLOGY_TRIANGLE_LIST.

(** The dynamic states of a pipeline that the code uses. *)
Inductive dynamic_state : Type :=
  | VK_DYNAMIC_STATE_VIEWPORT_WITH_COUNT | VK_DYNAMIC_STATE_SCISSOR_WITH_COUNT | VK_DYNAMIC_STATE_LINE_WIDTH
  | VK_DYNAMIC_STATE_DEPTH_BIAS | VK_DYNAMIC_STATE_BLEND_CONSTANTS | VK_DYNAMIC_STATE_DEPTH_BOUNDS
  | VK_DYNAMIC_STATE_STENCIL_COMPARE_MASK | VK_DYNAMIC_STATE_STENCIL_WRITE_MASK | VK_DYNAMIC_STATE_STENCIL_REFERENCE
  | VK_DYNAMIC_STATE_CULL_MODE | VK_DYNAMIC_STATE_FRONT_FACE | VK_DYNAMIC_STATE_PRIMITIVE_TOPOLOGY
  | VK_DYNAMIC_STATE_VERTEX_INPUT_BINDING_STRIDE | VK_DYNAMIC_STATE_DEPTH_TEST_ENABLE
  | VK_DYNAMIC_STATE_DEPTH_WRITE_ENABLE | VK_DYNAMIC_STATE_DEPTH_COMPARE_OP
  | VK_DYNAMIC_STATE_DEPTH_BOUNDS_TEST_ENABLE | VK_DYNAMIC_STATE_STENCIL_TEST_ENABLE | VK_DYNAMIC_STATE_STENCIL_OP
  | VK_DYNAMIC_STATE_RASTERIZER_DISCARD_ENABLE | VK_DYNAMIC_STATE_DEPTH_BIAS_ENABLE
  | VK_DYNAMIC_STATE_PRIMITIVE_RESTART_ENABLE | VK_DYNAMIC_STATE_VERTEX_INPUT_EXT | VK_DYNAMIC_STATE_LOGIC_OP_EXT
  | VK_DYNAMIC_STATE_COLOR_BLEND_ENABLE_EXT | VK_DYNAMIC_STATE_COLOR_BLEND_EQUATION_EXT
  | VK_DYNAMIC_STATE_COLOR_WRITE_MASK_EXT | VK_DYNAMIC_STATE_DEPTH_CLAMP_ENABLE_EXT
  | VK_DYNAMIC_STATE_LOGIC_OP_ENABLE_EXT | VK_DYNAMIC_STATE_POLYGON_MODE_EXT.
#[export] Instance dynamic_state_eq_dec : EqDecision dynamic_state.
Proof. solve_decision. Defined.

Class VkHeader : Type := vk : vk_name -> Z.
#[export] Instance vk_name_eq_dec : EqDecision vk_name.
Proof. solve_decision. Defined.

(** * Structures the calls point to *)
Record image_info : Type := MkImageInfo {
  im_flags : Z; im_type : Z; im_format : Z; im_width : Z; im_height : Z; im_depth : Z; im_mips : Z; im_layers : Z;
  im_samples : Z; im_tiling : Z; im_usage : Z; im_initial_layout : Z
}.
Record view_info : Type := MkViewInfo {
  vi_image : Z; vi_type : Z; vi_format : Z; vi_r : Z; vi_g : Z; vi_b : Z; vi_a : Z;
  vi_aspect : Z; vi_base_mip : Z; vi_mips : Z; vi_base_layer : Z; vi_layers : Z
}.
Record sampler_info : Type := MkSamplerCreate {
  si_mag : Z; si_min : Z; si_mip_mode : Z; si_u : Z; si_v : Z; si_w : Z; si_lod_bias : Float32.f32;
  si_max_anisotropy : Float32.f32; si_compare_op : Z; si_min_lod : Float32.f32; si_max_lod : Float32.f32; si_border : Z
}.
Record swapchain_info : Type := MkSwapchain {
  sc_surface : Z; sc_min_images : Z; sc_format : Z; sc_color_space : Z; sc_width : Z; sc_height : Z; sc_usage : Z;
  sc_present_mode : Z; sc_old : Z
}.
Record attachment : Type := MkAttachment { at_view : Z; at_layout : Z; at_load_op : Z; at_clear : list Float32.f32 * Z }.
Record rendering_info : Type := MkRendering {
  ri_width : Z; ri_height : Z; ri_colors : list attachment; ri_depth : option attachment; ri_stencil : option attachment
}.
Record barrier : Type := MkBarrier {
  ba_src_stage : Z; ba_src_access : Z; ba_dst_stage : Z; ba_dst_access : Z; ba_old_layout : Z; ba_new_layout : Z
}.
Record push_range : Type := MkRange { pr_stage : Z; pr_offset : Z; pr_size : Z }.
Record shader_stage : Type := MkStage { ss_stage : Z; ss_module : Z }.

(** * The calls *)
Inductive call : Type :=
  | CreateBuffer (size usage : Z) (external_host : bool) | DestroyBuffer (b : Z) | BindBufferMemory (b m offset : Z)
  | GetBufferDeviceAddress (b : Z) | GetDeviceBufferMemoryRequirements (size usage : Z)
  | AllocateMemory (size type_index : Z) (device_address : bool) (host_pointer : option Z) | FreeMemory (m : Z)
  | MapMemory (m : Z) | UnmapMemory (m : Z) | GetMemoryHostPointerProperties (pointer : Z)
  | CreateImage (i : image_info) | DestroyImage (i : Z) | BindImageMemory (i m offset : Z)
  | GetDeviceImageMemoryRequirements (i : image_info)
  | CreateImageView (i : view_info) | DestroyImageView (v : Z) | CreateSampler (i : sampler_info) | DestroySampler (s : Z)
  | CreateDescriptorPool (type count : Z) | DestroyDescriptorPool (p : Z) | AllocateDescriptorSets (p layout : Z)
  | UpdateDescriptorSets (set binding element type view layout sampler : Z)
  | CreateSwapchain (i : swapchain_info) | DestroySwapchain (s : Z) | GetSwapchainImages (s count : Z)
  | CreateSemaphore | DestroySemaphore (s : Z) | CreateFence (signaled : bool) | DestroyFence (f : Z) | ResetFences (f : Z)
  | WaitForFences (f : Z) | AcquireNextImage (s timeout fence : Z) | QueuePresent (semaphore s index : Z)
  | CreateShaderModule (code_size code : Z) | DestroyShaderModule (m : Z)
  | CreateGraphicsPipelines (stages : list shader_stage) (color_count format depth_format layout : Z) (dynamic : list dynamic_state)
  | CreateComputePipelines (stage : shader_stage) (layout : Z) | DestroyPipeline (p : Z)
  | AllocateCommandBuffers (pool : Z) | FreeCommandBuffers (pool cb : Z) | BeginCommandBuffer (cb : Z) | EndCommandBuffer (cb : Z)
  | CmdBeginRendering (i : rendering_info) | CmdEndRendering | CmdPushConstants (layout stage offset size data : Z)
  | CmdCopyBuffer (src dst size : Z) | CmdBufferBarrier (buffer : Z) (b : barrier)
  | CmdImageBarrier (image aspect : Z) (b : barrier)
  | CmdClearColorImage (image layout : Z) (color : list Float32.f32) | CmdClearDepthStencilImage (image layout : Z) (value : list Float32.f32 * Z)
  | CmdSetPrimitiveTopology (t : Z) | CmdDraw (vertices instances base_vertex base_instance : Z)
  | CmdDrawIndexed (indices instances base_index vertex_offset base_instance : Z) | CmdBindIndexBuffer (b offset format : Z)
  | CmdBindVertexBuffers (binding b offset size stride : Z) | CmdBindPipeline (point pipeline : Z)
  | CmdBindDescriptorSets (point layout set descriptor_set : Z)
  | CmdSet (state : dynamic_state) (integers : list Z) (numbers : list Float32.f32)  (* the function that sets it *)
  | CreateCommandPool (family : Z) | DestroyCommandPool (p : Z) | CreateDescriptorSetLayout (binding type count stages : Z)
  | DestroyDescriptorSetLayout (l : Z) | CreatePipelineLayout (sets : list Z) (ranges : list push_range) | DestroyPipelineLayout (l : Z)
  | CreateInstance | DestroyInstance (i : Z) | CreateDebugUtilsMessenger (i : Z) | DestroyDebugUtilsMessenger (i m : Z)
  | CreateDevice (physical family : Z) | DestroyDevice (d : Z) | GetDeviceQueue (family : Z) | QueueWaitIdle (q : Z) | DeviceWaitIdle (d : Z).

Record answer : Type := MkAnswer { result : Z; values : list Z }.
Definition value (a : answer) : Z := default 0 (head (values a)).
Class Driver : Type := answers : list call -> call -> answer.

(** * The objects the classes share *)
Record MemoryPool : Type := MkMemoryPool {
  m_vk_memory : Z; m_vk_staging_memory : Z; m_vk_staging_host_buffer : Z; m_vk_staging_device_buffer : Z;
  m_vk_memory_property_flags : Z; m_pool_requires_relocation : bool; m_is_device_memory : bool; m_is_import : bool;
  m_size : Z; m_mapped_memory : Z
}.
Record Buffer : Type := MkBuffer { m_buffer_pool : Z; m_vk_buffer : Z; m_memory_offset : Z; m_buffer_requires_relocation : bool }.
Record Texture : Type := MkTexture {
  m_vk_image : Z; m_texture_pool : option Z; m_vk_image_layout : Z; m_import : bool; m_texture_requires_relocation : bool
}.
(** ColorTargetView, DepthStencilTargetView and TextureView: an image view of a texture. *)
Record View : Type := MkView { m_view_texture : Z; m_vk_image_view : Z }.

(** What the context has found out and created. *)
Record Context : Type := MkContext {
  m_graphics_queue_family_index : Z; m_vk_graphics_command_pool : Z; m_vk_texture_descriptor_set_layout : Z;
  m_vk_sampler_descriptor_set_layout : Z; m_vk_pipeline_layout : Z; m_memory_types : list Z; m_vk_graphics_queue : Z
}.

Record Vk : Type := MkVk {
  log : list call;                (* oldest first *)
  context : Context;
  pools : gmap Z MemoryPool;
  buffers : gmap Z Buffer;
  textures : gmap Z Texture;
  views : gmap Z View
}.

Definition set_log (f : list call -> list call) (s : Vk) : Vk := MkVk (f (log s)) (context s) (pools s) (buffers s) (textures s) (views s).
Definition set_pools (f : gmap Z MemoryPool -> gmap Z MemoryPool) (s : Vk) : Vk := MkVk (log s) (context s) (f (pools s)) (buffers s) (textures s) (views s).
Definition set_buffers (f : gmap Z Buffer -> gmap Z Buffer) (s : Vk) : Vk := MkVk (log s) (context s) (pools s) (f (buffers s)) (textures s) (views s).
Definition set_textures (f : gmap Z Texture -> gmap Z Texture) (s : Vk) : Vk := MkVk (log s) (context s) (pools s) (buffers s) (f (textures s)) (views s).
Definition set_views (f : gmap Z View -> gmap Z View) (s : Vk) : Vk := MkVk (log s) (context s) (pools s) (buffers s) (textures s) (f (views s)).

(** Objects at addresses; an address without one is a dangling pointer. *)
Definition object {A} (proj : Vk -> gmap Z A) (p : Z) : M Vk A :=
  m ← gets proj; match m !! p with Some a => mret a | None => throw BadPointer end.

Section calls.
Context `{!VkHeader, !Driver}.

Definition submit (c : call) : M Vk answer := fun s => Ok (answers (log s) c, set_log (fun l => l ++ [c]) s).
(** A call whose result nothing looks at. *)
Definition record (c : call) : M Vk unit := _ ← submit c; mret tt.
(** [const u32 result = ...; DD_ASSERT(result == VK_SUCCESS);], with the handle the call has written. *)
Definition expect (c : call) : M Vk Z :=
  a ← submit c; _ ← dd_assert (result a =? vk VK_SUCCESS); mret (value a).
End calls.

(** * Running calls *)
Section runs.
Context `{!VkHeader, !Driver}.

(** A driver that never reports an error. *)
Definition reliable : Prop := forall l c, result (answers l c) = vk VK_SUCCESS.

Context {A : Type} (l : list call) (ctx : Context) (P : gmap Z MemoryPool) (B : gmap Z Buffer) (T : gmap Z Texture) (V : gmap Z View).
Local Abbreviation state := (MkVk l ctx P B T V).
Implicit Types (k : Z -> M Vk A).

Lemma submit_run c (k : answer -> M Vk A) : (submit c ≫= k) state = k (answers l c) (MkVk (l ++ [c]) ctx P B T V).
Proof. done. Qed.
Lemma record_run c (k : unit -> M Vk A) : (record c ≫= k) state = k tt (MkVk (l ++ [c]) ctx P B T V).
Proof. done. Qed.
Lemma expect_run c k : reliable -> (expect c ≫= k) state = k (value (answers l c)) (MkVk (l ++ [c]) ctx P B T V).
Proof.
  intros Hr. unfold expect, submit, dd_assert. unfold mbind, M_bind. rewrite Hr, Z.eqb_refl. done.
Qed.
Lemma object_run {O} (proj : Vk -> gmap Z O) p o (k : O -> M Vk A) : proj state !! p = Some o -> (object proj p ≫= k) state = k o state.
Proof. intros E. unfold object, gets, mbind, M_bind. by rewrite E. Qed.
End runs.

(** Writes a state out. *)
Ltac vk_cbn := unfold set_log, set_pools, set_buffers, set_textures, set_views; cbn [pools buffers textures views context log].

(** Runs one step of a computation on a state that is written out. *)
Ltac vk_step :=
  first
    [ rewrite submit_run | rewrite record_run | rewrite expect_run by assumption
    | erewrite object_run by (cbn [pools buffers textures views context log]; rewrite ?lookup_insert_eq; first [eassumption|reflexivity])
    | rewrite M_modify_bind | rewrite M_gets_bind | rewrite M_bind_assoc | rewrite M_ret_bind
    | rewrite M_modify_run ];
  vk_cbn.
