(* ===== verification/VkContext.v ===== *)
(** The Vulkan context (vk_context.hpp, vk_context.vulkan.cpp): the choice of the physical device, the queue family,
    the memory type, the push constants of the pipeline layout.  The constructor and the destructor are in VkStartup.

    [physical_device] is what the queries of one device answer; [debug] is whether the build defines DD_DEBUG, which
    decides what DD_ASSERT(false) does before the continue statements.  Commented out code is not modelled. *)
From stdpp Require Import gmap.
From S2P Require Import Prelude Float32 Vulkan.

Inductive feature : Type :=
  | independentBlend | geometryShader | tessellationShader | logicOp | depthClamp | depthBiasClamp
  | fillModeNonSolid | depthBounds | wideLines | largePoints | multiViewport | samplerAnisotropy
  | textureCompressionBC | fragmentStoresAndAtomics | shaderStorageImageExtendedFormats
  | shaderUniformBufferArrayDynamicIndexing | shaderSampledImageArrayDynamicIndexing
  | shaderStorageBufferArrayDynamicIndexing | shaderStorageImageArrayDynamicIndexing
  | variablePointersStorageBuffer | variablePointers | descriptorIndexing
  | shaderUniformBufferArrayNonUniformIndexing | shaderSampledImageArrayNonUniformIndexing
  | descriptorBindingSampledImageUpdateAfterBind | descriptorBindingPartiallyBound
  | descriptorBindingVariableDescriptorCount | runtimeDescriptorArray | scalarBlockLayout | bufferDeviceAddress
  | bufferDeviceAddressCaptureReplay | synchronization2 | dynamicRendering | maintenance4
  | vertexInputDynamicState | extendedDynamicState2LogicOp | extendedDynamicState3DepthClampEnable
  | extendedDynamicState3PolygonMode | extendedDynamicState3LogicOpEnable | extendedDynamicState3ColorBlendEnable
  | extendedDynamicState3ColorBlendEquation | extendedDynamicState3ColorWriteMask.
#[export] Instance feature_eq_dec : EqDecision feature.
Proof. solve_decision. Defined.

Module VkContext.
(** The features the device is created with, in the order of the chain of structures. *)
Definition TargetDeviceFeatures : list feature :=
  [extendedDynamicState3DepthClampEnable; extendedDynamicState3PolygonMode; extendedDynamicState3LogicOpEnable;
   extendedDynamicState3ColorBlendEnable; extendedDynamicState3ColorBlendEquation;
   extendedDynamicState3ColorWriteMask; extendedDynamicState2LogicOp; vertexInputDynamicState; synchronization2;
   dynamicRendering; maintenance4; descriptorIndexing; shaderUniformBufferArrayNonUniformIndexing;
   shaderSampledImageArrayNonUniformIndexing; descriptorBindingSampledImageUpdateAfterBind;
   descriptorBindingPartiallyBound; descriptorBindingVariableDescriptorCount; runtimeDescriptorArray;
   scalarBlockLayout; bufferDeviceAddress; bufferDeviceAddressCaptureReplay; variablePointersStorageBuffer;
   variablePointers; independentBlend; geometryShader; tessellationShader; logicOp; depthClamp; depthBiasClamp;
   fillModeNonSolid; depthBounds; wideLines; largePoints; multiViewport; samplerAnisotropy; textureCompressionBC;
   fragmentStoresAndAtomics; shaderStorageImageExtendedFormats; shaderUniformBufferArrayDynamicIndexing;
   shaderSampledImageArrayDynamicIndexing; shaderStorageBufferArrayDynamicIndexing;
   shaderStorageImageArrayDynamicIndexing].
(** The features PickValidPhysicalDevice asks for, in the order of its tests. *)
Definition checked_features : list feature :=
  [independentBlend; geometryShader; tessellationShader; logicOp; depthClamp; depthBiasClamp; fillModeNonSolid;
   depthBounds; wideLines; largePoints; multiViewport; samplerAnisotropy; textureCompressionBC;
   fragmentStoresAndAtomics; shaderStorageImageExtendedFormats; shaderUniformBufferArrayDynamicIndexing;
   shaderSampledImageArrayDynamicIndexing; shaderStorageBufferArrayDynamicIndexing;
   shaderStorageImageArrayDynamicIndexing; variablePointersStorageBuffer; variablePointers; descriptorIndexing;
   shaderUniformBufferArrayNonUniformIndexing; shaderSampledImageArrayNonUniformIndexing;
   descriptorBindingSampledImageUpdateAfterBind; descriptorBindingPartiallyBound;
   descriptorBindingVariableDescriptorCount; runtimeDescriptorArray; scalarBlockLayout; bufferDeviceAddress;
   bufferDeviceAddressCaptureReplay; synchronization2; dynamicRendering; maintenance4; vertexInputDynamicState;
   extendedDynamicState2LogicOp; extendedDynamicState3DepthClampEnable; extendedDynamicState3PolygonMode;
   extendedDynamicState3LogicOpEnable; extendedDynamicState3ColorBlendEnable;
   extendedDynamicState3ColorBlendEquation; extendedDynamicState3ColorWriteMask].

(** VK_MAKE_API_VERSION(0, 1, 3, 0). *)
Definition TargetMinimumApiVersion : Z := Z.lor (Z.shiftl 1 22) (Z.shiftl 3 12).
Definition TargetMemoryPoolAlignment : Z := 4096.
Definition TargetConstantBufferAlignment : Z := 256.
Definition TargetStorageBufferAlignment : Z := 256.
Definition TargetTexelBufferAlignment : Z := 256.
Definition TargetMaxUniformBufferSize : Z := 65536.
Definition TargetMaxTextureDescriptors : Z := 16684.
Definition TargetMaxSamplerDescriptors : Z := 4096.
Definition TargetMaxBufferDescriptors : Z := 6.
Definition TargetDescriptors : Z := TargetMaxTextureDescriptors + TargetMaxSamplerDescriptors + TargetMaxBufferDescriptors.
Definition TargetTextureDescriptorBinding : Z := 0.
Definition TargetSamplerDescriptorBinding : Z := 0.
Definition TargetShaderStages : Z := 6.
Definition TargetMaxPerStageUniformBufferCount : Z := 14.
Definition TargetMaxPerStageStorageBufferCount : Z := 16.
Definition TargetMaxPerStageTextureCount : Z := 32.
Definition TargetColorAttachmentCount : Z := 8.

Record physical_device : Type := MkDevice {
  handle : Z;
  apiVersion : Z; maxUniformBufferRange : Z;
  minMemoryMapAlignment : Z; minUniformBufferOffsetAlignment : Z; minStorageBufferOffsetAlignment : Z; minTexelBufferOffsetAlignment : Z;
  maxUpdateAfterBindDescriptorsInAllPools : Z; maxDescriptorSetUpdateAfterBindSampledImages : Z;
  maxDescriptorSetUpdateAfterBindSamplers : Z; maxDescriptorSetUniformBuffers : Z;
  supported : feature -> bool;
  queue_flags : list Z;                  (* of the queue families *)
  presents : Z -> bool;                  (* GetPhysicalDeviceWin32PresentationSupport *)
  memory_types : list Z                  (* their propertyFlags *)
}.

Section context.
Context `{!VkHeader, !Driver}.

(** The first memory type with all the properties; -1 as an unsigned number when there is none. *)
Fixpoint find_memory_type (types : list Z) (memory_properties i : Z) : Z :=
  match types with
  | [] => u32 (-1)
  | t :: types => if Z.land t memory_properties =? memory_properties then i else find_memory_type types memory_properties (i + 1)
  end.
Definition FindMemoryHeapIndex (c : Context) (memory_properties : Z) : Z := find_memory_type (m_memory_types c) memory_properties 0.

Fixpoint find_family (flags : list Z) (i : Z) : option Z :=
  match flags with
  | [] => None
  | f :: flags => if negb (Z.land f (vk VK_QUEUE_GRAPHICS_BIT) =? vk VK_QUEUE_GRAPHICS_BIT) then find_family flags (i + 1) else Some i
  end.
Definition FindGraphicsQueueFamily (d : physical_device) : option Z := find_family (queue_flags d) 0.

(** [target % alignment != 0] and [target / alignment > 0]. *)
Definition alignment_fits (target alignment : Z) : res bool :=
  if alignment =? 0 then Fault DivByZero
  else Ok ((Z.rem target alignment =? 0) && (0 <? Z.quot target alignment)).
(** DD_ASSERT of a condition the code goes on after. *)
Definition assertion (debug b : bool) : res unit := if debug && negb b then Fault AssertFailed else Ok tt.
(** A test [if (!holds) { DD_ASSERT(false); continue; }]: the rest is asked only when it holds. *)
Definition test (debug : bool) (holds : res bool) (rest : res bool) : res bool :=
  b ← holds; if (b : bool) then rest else (assertion debug false ≫= fun _ => Ok false).

Fixpoint features_supported (debug : bool) (d : physical_device) (fs : list feature) : res bool :=
  match fs with [] => Ok true | f :: fs => test debug (Ok (supported d f)) (features_supported debug d fs) end.
Definition is_valid_device (debug : bool) (d : physical_device) : res bool :=
  test debug (Ok (TargetMinimumApiVersion <=? apiVersion d)) (
  test debug (Ok (negb (maxUniformBufferRange d <? TargetMaxUniformBufferSize))) (
  let found := FindGraphicsQueueFamily d in
  _ ← assertion debug (match found with Some _ => true | None => false end);
  _ ← assertion debug (presents d (default 0 found));
  test debug (alignment_fits TargetMemoryPoolAlignment (minMemoryMapAlignment d)) (
  test debug (alignment_fits TargetConstantBufferAlignment (minUniformBufferOffsetAlignment d)) (
  test debug (alignment_fits TargetStorageBufferAlignment (minStorageBufferOffsetAlignment d)) (
  test debug (alignment_fits TargetTexelBufferAlignment (minTexelBufferOffsetAlignment d)) (
  test debug (Ok (negb (maxUpdateAfterBindDescriptorsInAllPools d <? TargetDescriptors))) (
  test debug (Ok (negb (maxDescriptorSetUpdateAfterBindSampledImages d <? TargetMaxTextureDescriptors))) (
  test debug (Ok (negb (maxDescriptorSetUpdateAfterBindSamplers d <? TargetMaxSamplerDescriptors))) (
  test debug (Ok (negb (maxDescriptorSetUniformBuffers d <? TargetMaxBufferDescriptors))) (
  features_supported debug d checked_features)))))))))).
(** The index of the device that is picked, and the device. *)
Fixpoint pick (debug : bool) (devices : list physical_device) (i : Z) : res (option (Z * physical_device)) :=
  match devices with
  | [] => Ok None
  | d :: devices => b ← is_valid_device debug d; if (b : bool) then Ok (Some (i, d)) else pick debug devices (i + 1)
  end.
Definition PickValidPhysicalDevice (debug : bool) (devices : list physical_device) : res (option (Z * physical_device)) :=
  pick debug devices 0.

(** The ranges of the push constants, one address for each stage. *)
Definition resource_index_push_constant_ranges : list push_range :=
  [MkRange (vk VK_SHADER_STAGE_VERTEX_BIT) 0 8; MkRange (vk VK_SHADER_STAGE_TESSELLATION_EVALUATION_BIT) 8 8;
   MkRange (vk VK_SHADER_STAGE_TESSELLATION_CONTROL_BIT) (8 * 2) 8; MkRange (vk VK_SHADER_STAGE_GEOMETRY_BIT) (8 * 3) 8;
   MkRange (vk VK_SHADER_STAGE_FRAGMENT_BIT) (8 * 4) 8; MkRange (vk VK_SHADER_STAGE_COMPUTE_BIT) (8 * 5) 8].

End context.
End VkContext.

(** * The choice of a device *)
Section pick.
Import VkContext.
Context `{!VkHeader, !Driver}.
Implicit Types (d : physical_device) (ds : list physical_device).

(** What a device must have for the features and limits the program relies on. *)
Definition suitable d : bool :=
  (TargetMinimumApiVersion <=? apiVersion d) && (TargetMaxUniformBufferSize <=? maxUniformBufferRange d) &&
  forallb (fun '(target, a) => (Z.rem target a =? 0) && (0 <? Z.quot target a))
    [(TargetMemoryPoolAlignment, minMemoryMapAlignment d); (TargetConstantBufferAlignment, minUniformBufferOffsetAlignment d);
     (TargetStorageBufferAlignment, minStorageBufferOffsetAlignment d); (TargetTexelBufferAlignment, minTexelBufferOffsetAlignment d)] &&
  ((TargetDescriptors <=? maxUpdateAfterBindDescriptorsInAllPools d) &&
   (TargetMaxTextureDescriptors <=? maxDescriptorSetUpdateAfterBindSampledImages d) &&
   (TargetMaxSamplerDescriptors <=? maxDescriptorSetUpdateAfterBindSamplers d) &&
   (TargetMaxBufferDescriptors <=? maxDescriptorSetUniformBuffers d)) &&
  forallb (supported d) TargetDeviceFeatures.
Definition can_present d : bool :=
  match FindGraphicsQueueFamily d with Some f => presents d f | None => false end.
Definition alignments_nonzero d : Prop :=
  minMemoryMapAlignment d <> 0 /\ minUniformBufferOffsetAlignment d <> 0 /\
  minStorageBufferOffsetAlignment d <> 0 /\ minTexelBufferOffsetAlignment d <> 0.

Lemma test_release b (rest : res bool) r : rest = Ok r -> test false (Ok b) rest = Ok (b && r).
Proof. intros ->. by destruct b. Qed.

Lemma test_debug b (rest : res bool) : test true (Ok b) rest = if b then rest else Fault AssertFailed.
Proof. by destruct b. Qed.

Lemma alignment_fits_eq target a : a <> 0 -> alignment_fits target a = Ok ((Z.rem target a =? 0) && (0 <? Z.quot target a)).
Proof. intros Ha. unfold alignment_fits. by destruct (Z.eqb_spec a 0). Qed.

Lemma features_release d fs : features_supported false d fs = Ok (forallb (supported d) fs).
Proof. induction fs as [|f fs IH]; [done|]. by apply test_release. Qed.

Lemma features_debug d fs : features_supported true d fs = if forallb (supported d) fs then Ok true else Fault AssertFailed.
Proof. induction fs as [|f fs IH]; [done|]. cbn [features_supported forallb]. rewrite test_debug, IH. by destruct (supported d f). Qed.

Lemma in_checked f : In f checked_features.
Proof. destruct f; cbn; repeat first [by left|right]. Qed.
Lemma in_target f : In f TargetDeviceFeatures.
Proof. destruct f; cbn; repeat first [by left|right]. Qed.

Lemma same_features d : forallb (supported d) checked_features = forallb (supported d) TargetDeviceFeatures.
Proof. apply eq_true_iff_eq. rewrite !forallb_forall. split; intros Hall f _; apply Hall; [apply in_checked|apply in_target]. Qed.

Lemma test_true debug rest : test debug (Ok true) rest = rest.
Proof. done. Qed.

(** The tests as variables, then the cases of the one that is asked next. *)
Ltac abstract_tests :=
  cbn [forallb];
  repeat match goal with
  | |- context [(?a =? ?b) && (?c <? ?e)] => generalize ((a =? b) && (c <? e)); intros ?
  end;
  rewrite ?Z.ltb_antisym, ?negb_involutive;
  repeat match goal with
  | |- context [?a <=? ?b] => generalize (a <=? b); intros ?
  end.
Ltac next_test :=
  lazymatch goal with |- test _ (Ok ?b) _ = _ => destruct b; [rewrite test_true|reflexivity] end.

Lemma is_valid_release d : alignments_nonzero d -> is_valid_device false d = Ok (suitable d).
Proof.
  intros (H1 & H2 & H3 & H4). unfold is_valid_device, suitable. rewrite !alignment_fits_eq, features_release, same_features by done.
  generalize (forallb (supported d) TargetDeviceFeatures). intros fs. abstract_tests.
  do 2 next_test. cbn [assertion andb mbind res_bind]. by repeat next_test.
Qed.

Lemma is_valid_debug d : alignments_nonzero d ->
  is_valid_device true d = if suitable d && can_present d then Ok true else Fault AssertFailed.
Proof.
  intros (H1 & H2 & H3 & H4). unfold is_valid_device, suitable, can_present.
  rewrite !alignment_fits_eq, features_debug, same_features by done.
  generalize (forallb (supported d) TargetDeviceFeatures). intros fs. abstract_tests. do 2 next_test.
  destruct (FindGraphicsQueueFamily d) as [f|]; [|rewrite andb_false_r; reflexivity].
  cbn [assertion andb negb bool_decide default]. unfold id. destruct (presents d f); [|rewrite andb_false_r; reflexivity].
  cbn [assertion andb negb mbind res_bind]. repeat next_test. by destruct fs.
Qed.

Lemma pick_release ds i : Forall alignments_nonzero ds ->
  pick false ds i = Ok (match list_find suitable ds with Some (k, d) => Some (i + Z.of_nat k, d) | None => None end).
Proof.
  intros Hds. revert i. induction Hds as [|d ds Hd Hds IH]; intros i; [done|]. cbn [pick list_find].
  rewrite is_valid_release by done. cbn [mbind res_bind]. destruct (suitable d) eqn:E.
  - rewrite decide_True by done. by rewrite Z.add_0_r.
  - rewrite decide_False by (by intros []). rewrite IH. destruct (list_find suitable ds) as [[k e]|]; [|done].
    cbn [fmap option_fmap option_map prod_map fst snd]. unfold id. by replace (i + 1 + Z.of_nat k) with (i + Z.of_nat (S k)) by lia.
Qed.

(** [C23] In a build without assertions the device that is picked is the first suitable one: it has the version, the
    limits and every feature the logical device is then created with; none is picked when there is no such. In a
    build with assertions the first device decides alone: when it is not suitable, or has no queue family for
    graphics that can present, the program stops, whatever the other devices are. *)
Theorem pick_device d ds : Forall alignments_nonzero (d :: ds) ->
  PickValidPhysicalDevice false (d :: ds) =
    Ok (match list_find suitable (d :: ds) with Some (k, e) => Some (Z.of_nat k, e) | None => None end) /\
  PickValidPhysicalDevice true (d :: ds) =
    (if suitable d && can_present d then Ok (Some (0, d)) else Fault AssertFailed) /\
  (forall f, suitable d = true -> f ∈ TargetDeviceFeatures -> supported d f = true).
Proof.
  intros Hds. split_and!.
  - unfold PickValidPhysicalDevice. rewrite pick_release by done. by destruct (list_find suitable (d :: ds)) as [[k e]|].
  - inversion Hds as [|? ? Hd _]; subst. unfold PickValidPhysicalDevice. cbn [pick]. rewrite is_valid_debug by done.
    by destruct (suitable d && can_present d).
  - intros f Hs _. unfold suitable in Hs. apply andb_true_iff in Hs as [_ Hf]. rewrite forallb_forall in Hf. apply Hf, in_target.
Qed.

(** The memory type that is found is the first one with all the properties asked for; when no type has them
    the answer is 2^32 - 1, which the callers that convert it to a signed number see as -1. *)
Theorem memory_type_found (c : Context) (properties : Z) :
  let r := FindMemoryHeapIndex c properties in
  (exists i t, r = Z.of_nat i /\ m_memory_types c !! i = Some t /\ Z.land t properties = properties /\
     forall j u, (j < i)%nat -> m_memory_types c !! j = Some u -> Z.land u properties <> properties) \/
  (r = 2 ^ 32 - 1 /\ s32 r = -1 /\ forall t, t ∈ m_memory_types c -> Z.land t properties <> properties).
Proof.
  cbn zeta. unfold FindMemoryHeapIndex.
  assert (forall types i, (exists k t, find_memory_type types properties i = i + Z.of_nat k /\ types !! k = Some t /\
    Z.land t properties = properties /\ forall j u, (j < k)%nat -> types !! j = Some u -> Z.land u properties <> properties) \/
    (find_memory_type types properties i = u32 (-1) /\ forall t, t ∈ types -> Z.land t properties <> properties)) as Hfind.
  { clear c. induction types as [|t types IH]; intros i; cbn [find_memory_type].
    - right. split; [done|]. intros t Ht. by apply not_elem_of_nil in Ht.
    - destruct (Z.eqb_spec (Z.land t properties) properties) as [E|E].
      + left. exists 0%nat, t. split_and!; [lia|done|done|]. intros. lia.
      + destruct (IH (i + 1)) as [(k & u & Ek & Hk & Hu & Hlt)|(Ek & Hall)].
        * left. exists (S k), u. split_and!; [rewrite Ek; lia|done|done|]. intros [|j] v Hj Hv; [by injection Hv as <-|].
          apply (Hlt j v); [lia|done].
        * right. split; [done|]. intros u [->|Hu]%elem_of_cons; [done|]. by apply Hall. }
  destruct (Hfind (m_memory_types c) 0) as [(k & t & Ek & Hk)|(Ek & Hall)].
  - left. exists k, t. rewrite Ek. by split.
  - right. rewrite Ek. by split_and!.
Qed.
End pick.

(** A header for the witnesses: any numbers will do. *)
Definition some_header : VkHeader := fun n => if decide (n = VK_QUEUE_GRAPHICS_BIT) then 1 else 0.
Definition some_device (version : Z) : VkContext.physical_device :=
  VkContext.MkDevice 7 version 65536 64 64 64 64 1048576 1048576 1048576 64 (fun _ => true) [4; 1] (fun f => f =? 1) [1; 7].

Lemma pick_device_witness :
  @VkContext.PickValidPhysicalDevice some_header false [some_device 0; some_device 4206592] = Ok (Some (1, some_device 4206592)) /\
  @VkContext.PickValidPhysicalDevice some_header true [some_device 0; some_device 4206592] = Fault AssertFailed.
Proof.
  destruct (@pick_device some_header (some_device 0) [some_device 4206592]) as (E1 & E2 & _).
  - repeat constructor; discriminate.
  - split; [rewrite E1|rewrite E2]; vm_compute; reflexivity.
Defined.
