(* ===== verification/VkMemory.v ===== *)
(** Memory pools, buffers, textures, image views and samplers (vk_memorypool.hpp, vk_buffer.hpp, vk_texture.hpp,
    vk_textureview.hpp, vk_colortargetview.hpp, vk_depthstenciltargetview.hpp, vk_sampler.hpp).

    The objects live at addresses of the state; the members a function does not assign keep what they had. *)
From stdpp Require Import gmap.
From S2P Require Import Prelude Float32 Vulkan VkContext.

Module VkMemory.
Section memory.
Context `{!VkHeader, !Driver}.

(** * vk_memorypool.hpp *)
Record MemoryPoolInfo : Type := MkPoolInfo { info_size : Z; vk_memory_property_flags : Z; import_memory : Z }.

Definition with_pool (this : Z) (f : MemoryPool -> MemoryPool) : M Vk unit :=
  p ← object pools this; modify (set_pools <[this := f p]>).
Definition set_memory (m : Z) (p : MemoryPool) : MemoryPool :=
  MkMemoryPool m (m_vk_staging_memory p) (m_vk_staging_host_buffer p) (m_vk_staging_device_buffer p) (m_vk_memory_property_flags p)
    (m_pool_requires_relocation p) (m_is_device_memory p) (m_is_import p) (m_size p) (m_mapped_memory p).
Definition set_staging_memory (m : Z) (p : MemoryPool) : MemoryPool :=
  MkMemoryPool (m_vk_memory p) m (m_vk_staging_host_buffer p) (m_vk_staging_device_buffer p) (m_vk_memory_property_flags p)
    (m_pool_requires_relocation p) (m_is_device_memory p) (m_is_import p) (m_size p) (m_mapped_memory p).
Definition set_host_buffer (b : Z) (p : MemoryPool) : MemoryPool :=
  MkMemoryPool (m_vk_memory p) (m_vk_staging_memory p) b (m_vk_staging_device_buffer p) (m_vk_memory_property_flags p)
    (m_pool_requires_relocation p) (m_is_device_memory p) (m_is_import p) (m_size p) (m_mapped_memory p).
Definition set_device_buffer (b : Z) (p : MemoryPool) : MemoryPool :=
  MkMemoryPool (m_vk_memory p) (m_vk_staging_memory p) (m_vk_staging_host_buffer p) b (m_vk_memory_property_flags p)
    (m_pool_requires_relocation p) (m_is_device_memory p) (m_is_import p) (m_size p) (m_mapped_memory p).
Definition set_relocation (r : bool) (p : MemoryPool) : MemoryPool :=
  MkMemoryPool (m_vk_memory p) (m_vk_staging_memory p) (m_vk_staging_host_buffer p) (m_vk_staging_device_buffer p) (m_vk_memory_property_flags p)
    r (m_is_device_memory p) (m_is_import p) (m_size p) (m_mapped_memory p).
Definition set_device_memory (d : bool) (p : MemoryPool) : MemoryPool :=
  MkMemoryPool (m_vk_memory p) (m_vk_staging_memory p) (m_vk_staging_host_buffer p) (m_vk_staging_device_buffer p) (m_vk_memory_property_flags p)
    (m_pool_requires_relocation p) d (m_is_import p) (m_size p) (m_mapped_memory p).
Definition set_size_flags (size flags : Z) (p : MemoryPool) : MemoryPool :=
  MkMemoryPool (m_vk_memory p) (m_vk_staging_memory p) (m_vk_staging_host_buffer p) (m_vk_staging_device_buffer p) flags
    (m_pool_requires_relocation p) (m_is_device_memory p) (m_is_import p) size (m_mapped_memory p).
Definition set_import (p : MemoryPool) : MemoryPool :=
  MkMemoryPool (m_vk_memory p) (m_vk_staging_memory p) (m_vk_staging_host_buffer p) (m_vk_staging_device_buffer p) (m_vk_memory_property_flags p)
    (m_pool_requires_relocation p) (m_is_device_memory p) true (m_size p) (m_mapped_memory p).
Definition set_mapped (a : Z) (p : MemoryPool) : MemoryPool :=
  MkMemoryPool (m_vk_memory p) (m_vk_staging_memory p) (m_vk_staging_host_buffer p) (m_vk_staging_device_buffer p) (m_vk_memory_property_flags p)
    (m_pool_requires_relocation p) (m_is_device_memory p) (m_is_import p) (m_size p) a.

Definition relocation_barrier : barrier :=
  MkBarrier 0 0 (vk VK_PIPELINE_STAGE_2_ALL_COMMANDS_BIT) (vk VK_ACCESS_SHADER_READ_BIT) 0 0.
Definition RelocateHostMemoryToDevice (this : Z) : M Vk unit :=
  p ← object pools this;
  if negb (m_pool_requires_relocation p) then mret tt else
  host ← expect (CreateBuffer (m_size p) (vk VK_BUFFER_USAGE_TRANSFER_SRC_BIT) true);
  _ ← with_pool this (set_host_buffer host);
  _ ← expect (BindBufferMemory host (m_vk_staging_memory p) 0);
  device ← expect (CreateBuffer (m_size p) (vk VK_BUFFER_USAGE_TRANSFER_DST_BIT) false);
  _ ← with_pool this (set_device_buffer device);
  _ ← expect (BindBufferMemory device (m_vk_memory p) 0);
  _ ← record (CmdCopyBuffer host device (m_size p));
  _ ← record (CmdBufferBarrier device relocation_barrier);
  with_pool this (set_relocation false).

(** FindMemoryHeapIndex, kept in an s32. *)
Definition find_memory (properties : Z) : M Vk Z :=
  c ← gets context; mret (s32 (VkContext.FindMemoryHeapIndex c properties)).
Definition host_properties : Z := Z.lor (vk VK_MEMORY_PROPERTY_HOST_VISIBLE_BIT) (vk VK_MEMORY_PROPERTY_HOST_COHERENT_BIT).
Definition Pool_Initialize (this : Z) (info : MemoryPoolInfo) : M Vk unit :=
  let properties := vk_memory_property_flags info in
  _ ← dd_assert (negb (import_memory info =? 0));
  _ ← with_pool this (set_size_flags (info_size info) properties);
  type_bits ← expect (GetMemoryHostPointerProperties (import_memory info));
  host_type ←
    (if Z.land type_bits properties =? properties then
       host_type ← find_memory properties;
       _ ← with_pool this (fun p => set_device_memory false (set_relocation false p));
       mret host_type
     else
       host_type ← find_memory host_properties;
       _ ← with_pool this (fun p => set_device_memory true (set_relocation true p));
       device_type ← find_memory properties;
       _ ← dd_assert (negb (device_type =? -1));
       memory ← expect (AllocateMemory (info_size info) (u32 device_type) true None);
       _ ← with_pool this (set_memory memory);
       mret host_type);
  _ ← dd_assert (negb (host_type =? -1));
  memory ← expect (AllocateMemory (info_size info) (u32 host_type) true (Some (import_memory info)));
  with_pool this (fun p => if m_pool_requires_relocation p then set_staging_memory memory p else set_memory memory p).
Definition Pool_ImportExisting (this memory : Z) (is_device_local : bool) : M Vk unit :=
  with_pool this (fun p => set_import (set_device_memory is_device_local (set_memory memory p))).

(** [if (handle != 0) { destroy(handle); member = 0; }] *)
Definition release (handle : Z) (destroy : Z -> call) (this : Z) (clear : MemoryPool -> MemoryPool) : M Vk unit :=
  if handle =? 0 then mret tt else _ ← record (destroy handle); with_pool this clear.
Definition Pool_Finalize (this : Z) : M Vk unit :=
  p ← object pools this;
  if m_is_import p then mret tt else
  _ ← release (m_vk_staging_device_buffer p) DestroyBuffer this (set_device_buffer 0);
  _ ← release (m_vk_memory p) FreeMemory this (set_memory 0);
  _ ← release (m_vk_staging_host_buffer p) DestroyBuffer this (set_device_buffer 0);
  release (m_vk_staging_memory p) FreeMemory this (set_staging_memory 0).
Definition Pool_Map (this : Z) : M Vk Z :=
  p ← object pools this;
  if m_mapped_memory p =? 0 then a ← expect (MapMemory (m_vk_memory p)); _ ← with_pool this (set_mapped a); mret a
  else mret (m_mapped_memory p).
Definition IsHostMemory (p : MemoryPool) : bool := negb (m_is_device_memory p).

(** * vk_buffer.hpp *)
Record BufferInfo : Type := MkBufferInfo { buffer_size : Z; buffer_offset : Z; vk_usage : Z }.

Definition Buffer_Initialize (this : Z) (info : BufferInfo) (pool : Z) : M Vk unit :=
  p ← object pools pool;
  b ← expect (CreateBuffer (buffer_size info) (Z.lor (vk_usage info) (vk VK_BUFFER_USAGE_SHADER_DEVICE_ADDRESS_BIT)) (IsHostMemory p));
  _ ← expect (BindBufferMemory b (m_vk_memory p) (buffer_offset info));
  modify (set_buffers <[this := MkBuffer pool b (buffer_offset info) (m_pool_requires_relocation p)]>).
Definition Buffer_Finalize (this : Z) : M Vk unit :=
  b ← object buffers this;
  _ ← record (DestroyBuffer (m_vk_buffer b));
  modify (set_buffers <[this := MkBuffer (m_buffer_pool b) 0 (m_memory_offset b) (m_buffer_requires_relocation b)]>).
Definition Buffer_Map (this : Z) : M Vk Z :=
  b ← object buffers this; a ← Pool_Map (m_buffer_pool b); mret (u64 (a + m_memory_offset b)).
Definition GetGpuAddress (this : Z) : M Vk Z :=
  b ← object buffers this; a ← submit (GetBufferDeviceAddress (m_vk_buffer b)); mret (nth 0 (values a) 0).
Definition Buffer_Relocate (this : Z) : M Vk unit :=
  b ← object buffers this;
  p ← object pools (m_buffer_pool b);
  _ ← (if m_pool_requires_relocation p then RelocateHostMemoryToDevice (m_buffer_pool b) else mret tt);
  modify (set_buffers <[this := MkBuffer (m_buffer_pool b) (m_vk_buffer b) (m_memory_offset b) true]>).
Definition Buffer_RequiresRelocation (this : Z) : M Vk bool := b ← object buffers this; mret (m_buffer_requires_relocation b).
Definition Buffer_GetAlignment (info : BufferInfo) : M Vk Z :=
  a ← submit (GetDeviceBufferMemoryRequirements (buffer_size info) (vk_usage info)); mret (nth 1 (values a) 0).

(** * vk_texture.hpp *)
Record TextureInfo : Type := MkTextureInfo {
  vk_create_flags : Z; vk_usage_flags : Z; mip_levels : Z; width : Z; height : Z; depth : Z; vk_format : Z;
  vk_image_layout : Z; vk_image_type : Z; vk_sample_count_flag : Z; vk_tiling : Z; array_layers : Z; memory_offset : Z
}.
Definition image_of (i : TextureInfo) : image_info :=
  MkImageInfo (vk_create_flags i) (vk_image_type i) (vk_format i) (width i) (height i) (depth i) (mip_levels i) (array_layers i)
    (vk_sample_count_flag i) (vk_tiling i) (vk_usage_flags i) (vk_image_layout i).
Definition Texture_Initialize (this : Z) (info : TextureInfo) (pool : Z) : M Vk unit :=
  t ← object textures this;
  p ← object pools pool;
  image ← expect (CreateImage (image_of info));
  _ ← expect (BindImageMemory image (m_vk_memory p) (memory_offset info));
  modify (set_textures <[this := MkTexture image (Some pool) (vk_image_layout info) (m_import t) (m_pool_requires_relocation p)]>).
Definition Texture_Initialize_unbound (this : Z) (info : TextureInfo) : M Vk unit :=
  t ← object textures this;
  image ← expect (CreateImage (image_of info));
  modify (set_textures <[this := MkTexture image (m_texture_pool t) (vk_image_layout info) (m_import t) (m_texture_requires_relocation t)]>).
Definition Texture_ImportExisting (this image : Z) : M Vk unit :=
  t ← object textures this;
  modify (set_textures <[this := MkTexture image (m_texture_pool t) (m_vk_image_layout t) true (m_texture_requires_relocation t)]>).
Definition Texture_Finalize (this : Z) : M Vk unit :=
  t ← object textures this; if m_import t then mret tt else record (DestroyImage (m_vk_image t)).
Definition Texture_Relocate (this : Z) : M Vk unit :=
  t ← object textures this;
  pool ← deref (m_texture_pool t);
  p ← object pools pool;
  _ ← (if m_pool_requires_relocation p then RelocateHostMemoryToDevice pool else mret tt);
  modify (set_textures <[this := MkTexture (m_vk_image t) (m_texture_pool t) (m_vk_image_layout t) (m_import t) true]>).
Definition SetImageLayout (this new_layout : Z) : M Vk unit :=
  t ← object textures this;
  modify (set_textures <[this := MkTexture (m_vk_image t) (m_texture_pool t) new_layout (m_import t) (m_texture_requires_relocation t)]>).
(** Size and alignment. *)
Definition GetMemoryRequirements (info : TextureInfo) : M Vk (Z * Z) :=
  a ← submit (GetDeviceImageMemoryRequirements (image_of info)); mret (nth 0 (values a) 0, nth 1 (values a) 0).
Definition GetRequiredMemorySize (info : TextureInfo) : M Vk Z := r ← GetMemoryRequirements info; mret (fst r).
Definition GetRequiredMemoryAlignment (info : TextureInfo) : M Vk Z := r ← GetMemoryRequirements info; mret (snd r).

(** * The views *)
Record ViewInfo : Type := MkView_Info {
  view_type : Z; view_format : Z; base_layer : Z; layers : Z; base_mip : Z; mips : Z;
  swizzle_r : Z; swizzle_g : Z; swizzle_b : Z; swizzle_a : Z; view_texture : Z
}.
Definition View_Initialize (this : Z) (info : ViewInfo) (aspect : Z) : M Vk unit :=
  t ← object textures (view_texture info);
  v ← expect (CreateImageView (MkViewInfo (m_vk_image t) (view_type info) (view_format info)
        (swizzle_r info) (swizzle_g info) (swizzle_b info) (swizzle_a info) aspect (base_mip info) (mips info) (base_layer info) (layers info)));
  modify (set_views <[this := MkView (view_texture info) v]>).
Definition TextureView_Initialize (this : Z) (info : ViewInfo) (vk_aspect_mask : Z) : M Vk unit := View_Initialize this info vk_aspect_mask.
Definition ColorTargetView_Initialize (this : Z) (info : ViewInfo) : M Vk unit := View_Initialize this info (vk VK_IMAGE_ASPECT_COLOR_BIT).
Definition DepthStencilTargetView_Initialize (this : Z) (info : ViewInfo) : M Vk unit :=
  View_Initialize this info (Z.lor (vk VK_IMAGE_ASPECT_DEPTH_BIT) (vk VK_IMAGE_ASPECT_STENCIL_BIT)).
(** The target views clear their handle, the texture view does not. *)
Definition TextureView_Finalize (this : Z) : M Vk unit :=
  v ← object views this; record (DestroyImageView (m_vk_image_view v)).
Definition TargetView_Finalize (this : Z) : M Vk unit :=
  v ← object views this; _ ← record (DestroyImageView (m_vk_image_view v)); modify (set_views <[this := MkView (m_view_texture v) 0]>).
Definition View_GetImage (this : Z) : M Vk Z := v ← object views this; t ← object textures (m_view_texture v); mret (m_vk_image t).
Definition TextureViewInfo_SetDefaults : ViewInfo * Z :=
  let identity := vk VK_COMPONENT_SWIZZLE_IDENTITY in
  (MkView_Info (vk VK_IMAGE_VIEW_TYPE_2D) (vk VK_FORMAT_UNDEFINED) 0 1 0 1 identity identity identity identity 0, vk VK_IMAGE_ASPECT_COLOR_BIT).

(** * vk_sampler.hpp *)
Record SamplerInfo : Type := MkSamplerInfo {
  vk_filter_min : Z; vk_filter_mag : Z; vk_mip_map_mode : Z; vk_address_mode_u : Z; vk_address_mode_v : Z; vk_address_mode_w : Z;
  lod_bias : Float32.f32; min_lod_clamp : Float32.f32; max_lod_clamp : Float32.f32; max_anisotropy_clamp : Float32.f32;
  vk_compare_op : Z; vk_border_color : Z
}.
Definition SamplerInfo_SetDefaults : SamplerInfo :=
  let repeat := vk VK_SAMPLER_ADDRESS_MODE_REPEAT in
  MkSamplerInfo (vk VK_FILTER_NEAREST) (vk VK_FILTER_NEAREST) (vk VK_SAMPLER_MIPMAP_MODE_NEAREST) repeat repeat repeat
    (Float32.of_Z 1) (Float32.of_Z 0) (Float32.of_Z 1) (Float32.of_Z 1) (vk VK_COMPARE_OP_NEVER) (vk VK_BORDER_COLOR_FLOAT_TRANSPARENT_BLACK).
Definition Sampler_Initialize (info : SamplerInfo) : M Vk Z :=
  expect (CreateSampler (MkSamplerCreate (vk_filter_mag info) (vk_filter_min info) (vk_mip_map_mode info) (vk_address_mode_u info)
    (vk_address_mode_v info) (vk_address_mode_w info) (lod_bias info) (max_anisotropy_clamp info) (vk_compare_op info)
    (min_lod_clamp info) (max_lod_clamp info) (vk_border_color info))).
Definition Sampler_Finalize (sampler : Z) : M Vk unit := record (DestroySampler sampler).
End memory.
End VkMemory.

(** * Relocation and the lives of objects *)
Section memory_theorems.
Import VkMemory.
Context `{!VkHeader, !Driver}.
Implicit Types (s : Vk) (p : MemoryPool) (b : Buffer).

Lemma with_pool_run {A} this f p l c P B T V (k : unit -> M Vk A) : P !! this = Some p ->
  (with_pool this f ≫= k) (MkVk l c P B T V) = k tt (MkVk l c (<[this := f p]> P) B T V).
Proof. intros E. unfold with_pool. rewrite M_bind_assoc. by vk_step. Qed.
Lemma with_pool_end this f p l c P B T V : P !! this = Some p ->
  with_pool this f (MkVk l c P B T V) = Ok (tt, MkVk l c (<[this := f p]> P) B T V).
Proof. intros E. unfold with_pool. by vk_step. Qed.

Ltac pool_step :=
  first [ vk_step
        | erewrite with_pool_run by (rewrite ?lookup_insert_eq; first [eassumption|reflexivity])
        | erewrite with_pool_end by (rewrite ?lookup_insert_eq; first [eassumption|reflexivity]) ];
  rewrite ?insert_insert_eq.

(** The calls of a relocation, after the calls [l]: two buffers over the two memories, the copy, the barrier. *)
Definition relocation_calls (l : list call) p : list call :=
  let host_call := CreateBuffer (m_size p) (vk VK_BUFFER_USAGE_TRANSFER_SRC_BIT) true in
  let host := value (answers l host_call) in
  let bind_host := BindBufferMemory host (m_vk_staging_memory p) 0 in
  let device_call := CreateBuffer (m_size p) (vk VK_BUFFER_USAGE_TRANSFER_DST_BIT) false in
  let device := value (answers (l ++ [host_call; bind_host]) device_call) in
  [host_call; bind_host; device_call; BindBufferMemory device (m_vk_memory p) 0; CmdCopyBuffer host device (m_size p);
   CmdBufferBarrier device relocation_barrier].

Lemma relocate_run this p l c P B T V : reliable -> P !! this = Some p -> m_pool_requires_relocation p = true ->
  exists p', m_pool_requires_relocation p' = false /\
    RelocateHostMemoryToDevice this (MkVk l c P B T V) = Ok (tt, MkVk (l ++ relocation_calls l p) c (<[this := p']> P) B T V).
Proof.
  intros Hr Hp Hreq. unfold RelocateHostMemoryToDevice. pool_step. rewrite Hreq. cbn [negb].
  repeat pool_step. eexists. split; [|rewrite <- !app_assoc; reflexivity]. done.
Qed.

(** The first Relocate of a buffer over memory that needs it copies the whole host memory to the device and clears
    the pool's request; the second records no call.  The buffer itself still reports that it requires relocation:
    Relocate sets its flag, so every draw that looks at it takes the slow way again. *)
Theorem buffer_relocation s this b p : reliable -> buffers s !! this = Some b -> pools s !! m_buffer_pool b = Some p ->
    m_pool_requires_relocation p = true ->
  exists s', Buffer_Relocate this s = Ok (tt, s') /\ log s' = log s ++ relocation_calls (log s) p /\
    (m_pool_requires_relocation <$> pools s' !! m_buffer_pool b) = Some false /\
    Buffer_RequiresRelocation this s' = Ok (true, s') /\ Buffer_Relocate this s' = Ok (tt, s').
Proof.
  intros Hr Hb Hp Hq. destruct s as [l c P B T V]. cbn in Hb, Hp.
  destruct (relocate_run (m_buffer_pool b) p l c P B T V Hr Hp Hq) as (p' & Hq' & E).
  unfold Buffer_Relocate at 1. do 2 vk_step. rewrite Hq.
  rewrite (M_bind_run _ _ _ _ _ E). eexists. split; [by vk_step|]. split_and!; [done| | |].
  - cbn. rewrite lookup_insert_eq. cbn. by rewrite Hq'.
  - unfold Buffer_RequiresRelocation. vk_cbn. by vk_step.
  - unfold Buffer_Relocate. vk_cbn. repeat vk_step. cbn [m_buffer_pool]. repeat vk_step. rewrite Hq'. repeat vk_step.
    by rewrite insert_insert_eq.
Qed.

(** Finalizing a pool that has been relocated destroys its two staging buffers and frees its two memories, once
    each; a second Finalize destroys the host staging buffer again, since only the device buffer's handle is cleared. *)
Theorem pool_finalize_twice s this p : pools s !! this = Some p -> m_is_import p = false ->
    m_vk_staging_device_buffer p ≠ 0 -> m_vk_memory p ≠ 0 -> m_vk_staging_host_buffer p ≠ 0 -> m_vk_staging_memory p ≠ 0 ->
  exists s' s'', Pool_Finalize this s = Ok (tt, s') /\ Pool_Finalize this s' = Ok (tt, s'') /\
    log s' = log s ++ [DestroyBuffer (m_vk_staging_device_buffer p); FreeMemory (m_vk_memory p);
                       DestroyBuffer (m_vk_staging_host_buffer p); FreeMemory (m_vk_staging_memory p)] /\
    log s'' = log s' ++ [DestroyBuffer (m_vk_staging_host_buffer p)].
Proof.
  intros Hp Hi H1%Z.eqb_neq H2%Z.eqb_neq H3%Z.eqb_neq H4%Z.eqb_neq. destruct s as [l c P B T V]. cbn in Hp.
  unfold Pool_Finalize at 1, release. pool_step. rewrite Hi, H1, H2, H3, H4. repeat pool_step.
  do 2 eexists. split; [reflexivity|]. unfold Pool_Finalize, release. pool_step.
  cbn [m_is_import set_staging_memory set_memory set_device_buffer m_vk_staging_device_buffer m_vk_memory m_vk_staging_host_buffer m_vk_staging_memory].
  rewrite Hi, H3. cbn [Z.eqb]. repeat pool_step.
  split; [reflexivity|]. split; [|done]. cbn. by rewrite <- !app_assoc.
Qed.

(** Initialize imports the caller's memory.  When the bit set of memory types the import allows has all the
    property bits that are asked for, this is the pool's memory; otherwise the pool gets a device memory as well and
    the import is its staging memory, to be relocated.  (A set of type indices is compared with property flags.) *)
Theorem pool_initialize s this info p :
    let properties := vk_memory_property_flags info in
    let type_of flags := s32 (VkContext.FindMemoryHeapIndex (context s) flags) in
    let import := Some (import_memory info) in
    let ask := GetMemoryHostPointerProperties (import_memory info) in
    let direct := Z.land (value (answers (log s) ask)) properties =? properties in
    let import_as flags := AllocateMemory (info_size info) (u32 (type_of flags)) true import in
    let device := AllocateMemory (info_size info) (u32 (type_of properties)) true None in
  reliable -> pools s !! this = Some p -> import_memory info ≠ 0 ->
    type_of properties ≠ -1 -> type_of host_properties ≠ -1 ->
  exists s' p', Pool_Initialize this info s = Ok (tt, s') /\ pools s' !! this = Some p' /\
    log s' = log s ++ ask :: (if direct then [import_as properties] else [device; import_as host_properties]) /\
    m_size p' = info_size info /\ m_pool_requires_relocation p' = negb direct /\ IsHostMemory p' = direct.
Proof.
  intros properties type_of import ask direct import_as device Hr Hp Hi%Z.eqb_neq H1%Z.eqb_neq H2%Z.eqb_neq.
  destruct s as [l c P B T V]. cbn in Hp. unfold Pool_Initialize, dd_assert, find_memory. cbn zeta.
  rewrite Hi. cbn [negb]. repeat pool_step. fold ask. unfold type_of in H1, H2. cbn [context] in H1, H2.
  unfold direct. cbn [log]. fold properties. destruct (Z.land _ _ =? _) eqn:E.
  all: repeat (fold properties; rewrite ?H1, ?H2; cbn [negb]; pool_step).
  all: do 2 eexists; split; [reflexivity|]; cbn [pools log]; rewrite lookup_insert_eq; split; [reflexivity|].
  all: rewrite <- !app_assoc; done.
Qed.

(** Map of a buffer maps its pool's memory once and gives the address of the buffer's offset in it; the next Map,
    of this buffer or another of the pool, records no call. *)
Theorem buffer_map s this b p : let a := value (answers (log s) (MapMemory (m_vk_memory p))) in
  reliable -> buffers s !! this = Some b -> pools s !! m_buffer_pool b = Some p -> m_mapped_memory p = 0 -> a ≠ 0 ->
  exists s', Buffer_Map this s = Ok (u64 (a + m_memory_offset b), s') /\ log s' = log s ++ [MapMemory (m_vk_memory p)] /\
    buffers s' = buffers s /\
    forall other b', buffers s !! other = Some b' -> m_buffer_pool b' = m_buffer_pool b ->
      Buffer_Map other s' = Ok (u64 (a + m_memory_offset b'), s').
Proof.
  intros a Hr Hb Hp Hm Ha%Z.eqb_neq. destruct s as [l c P B T V]. cbn in Hb, Hp.
  unfold Buffer_Map at 1, Pool_Map. vk_step. vk_step. pool_step. rewrite Hm. cbn [Z.eqb]. repeat (rewrite M_bind_assoc; pool_step).
  eexists. split; [repeat pool_step; reflexivity|]. split; [done|]. split; [done|]. intros other b' Hb' Hs.
  unfold Buffer_Map, Pool_Map. cbn in Hb'. vk_step. vk_step. rewrite Hs. vk_step. cbn [m_mapped_memory set_mapped].
  subst a. cbn [log] in Ha |- *. by rewrite Ha.
Qed.
End memory_theorems.

(** * Concrete objects *)
Section memory_examples.
Import VkMemory.
(** Every call succeeds, and the handle it gives is the number of calls before it, plus one. *)
Definition counting_driver : Driver := fun l _ => MkAnswer 0 [Z.of_nat (length l) + 1].
Local Instance header : VkHeader := some_header.
Local Instance driver : Driver := counting_driver.

Definition some_pool (relocation : bool) (mapped : Z) : MemoryPool := MkMemoryPool 11 12 13 14 3 relocation relocation false 4096 mapped.
Definition some_vk (p : MemoryPool) : Vk :=
  MkVk [] (MkContext 0 0 0 0 0 [1; 7] 0) {[1 := p]} {[2 := MkBuffer 1 21 256 true; 3 := MkBuffer 1 31 512 true]}
    {[4 := MkTexture 41 None 0 false false]} ∅.

Lemma counting_reliable : reliable.
Proof. done. Qed.

Lemma buffer_relocation_witness :
  exists s', Buffer_Relocate 2 (some_vk (some_pool true 0)) = Ok (tt, s') /\ length (log s') = 6%nat.
Proof.
  destruct (buffer_relocation (some_vk (some_pool true 0)) 2 (MkBuffer 1 21 256 true) (some_pool true 0))
    as (s' & E & H & _); [exact counting_reliable|reflexivity..|].
  exists s'. split; [exact E|]. rewrite H. reflexivity.
Defined.

Lemma pool_finalize_twice_witness :
  exists s' s'', Pool_Finalize 1 (some_vk (some_pool true 0)) = Ok (tt, s') /\ Pool_Finalize 1 s' = Ok (tt, s'') /\
    log s'' = [DestroyBuffer 14; FreeMemory 11; DestroyBuffer 13; FreeMemory 12; DestroyBuffer 13].
Proof.
  destruct (pool_finalize_twice (some_vk (some_pool true 0)) 1 (some_pool true 0)) as (s' & s'' & E1 & E2 & H1 & H2);
    [reflexivity|reflexivity|discriminate..|].
  exists s', s''. split; [exact E1|]. split; [exact E2|]. rewrite H2, H1. reflexivity.
Defined.

Lemma pool_initialize_witness :
  exists s' p', Pool_Initialize 1 (MkPoolInfo 8192 3 65536) (some_vk (some_pool false 0)) = Ok (tt, s') /\
    pools s' !! 1 = Some p' /\ m_pool_requires_relocation p' = true /\ length (log s') = 3%nat.
Proof.
  destruct (pool_initialize (some_vk (some_pool false 0)) 1 (MkPoolInfo 8192 3 65536) (some_pool false 0))
    as (s' & p' & E & Hp & Hl & _ & Hr & _); [exact counting_reliable|reflexivity|discriminate|vm_compute; discriminate..|].
  exists s', p'. split; [exact E|]. split; [exact Hp|]. split; [rewrite Hr; vm_compute; reflexivity|].
  rewrite Hl. vm_compute. reflexivity.
Defined.

Lemma buffer_map_witness :
  exists s', Buffer_Map 2 (some_vk (some_pool false 0)) = Ok (257, s') /\ Buffer_Map 3 s' = Ok (513, s').
Proof.
  destruct (buffer_map (some_vk (some_pool false 0)) 2 (MkBuffer 1 21 256 true) (some_pool false 0)) as (s' & E & _ & _ & H);
    [exact counting_reliable|reflexivity..|vm_compute; discriminate|].
  exists s'. split; [exact E|]. exact (H 3 (MkBuffer 1 31 512 true) eq_refl eq_refl).
Defined.
End memory_examples.
