(* ===== verification/VkDescriptors.v ===== *)
(** Descriptor pools (vk_descriptorpool.hpp): the slots of textures and samplers in a descriptor set, and the stack of
    slots that are free again.

    The elements of a new array have no value until they are written ([None]).  Initialize does not set the number of
    free slots; it is what the object's memory held, zero for the objects of the program, which are static. *)
From stdpp Require Import gmap.
From S2P Require Import Prelude Float32 Vulkan VkContext VkMemory.

Module VkDescriptors.
Definition FreeListDefaultSize : Z := 64.

Record DescriptorPool : Type := MkDescriptorPool {
  m_vk_descriptor_pool : Z; m_vk_descriptor_set : Z; m_vk_pool_type : Z;
  m_max_slot_ids : Z; m_texture_id_count : Z;
  m_free_id_stack_size : Z; m_free_id_stack_count : Z; m_free_id_stack : list (option Z)
}.
Definition set_counts (ids size free : Z) (stack : list (option Z)) (p : DescriptorPool) : DescriptorPool :=
  MkDescriptorPool (m_vk_descriptor_pool p) (m_vk_descriptor_set p) (m_vk_pool_type p) (m_max_slot_ids p) ids size free stack.

(** new u32[n]. *)
Definition new_stack (n : Z) : list (option Z) := replicate (Z.to_nat n) None.
(** Reading an element that was never written is undefined. *)
Definition read_slot (stack : list (option Z)) (i : Z) : res Z :=
  e ← arr_get stack i; match e with Some slot => Ok slot | None => Fault BadPointer end.

Definition GetNewDescriptorId (p : DescriptorPool) : res (Z * DescriptorPool) :=
  if negb (m_free_id_stack_count p =? 0) then
    let free := u32 (m_free_id_stack_count p - 1) in
    slot ← read_slot (m_free_id_stack p) free;
    Ok (slot, set_counts (m_texture_id_count p) (m_free_id_stack_size p) free (m_free_id_stack p) p)
  else if m_texture_id_count p =? m_max_slot_ids p then Fault AssertFailed
  else Ok (m_texture_id_count p,
           set_counts (u32 (m_texture_id_count p + 1)) (m_free_id_stack_size p) (m_free_id_stack_count p) (m_free_id_stack p) p).

(** memcpy of the first [n] elements into a new array. *)
Definition copy_stack (n : Z) (to from : list (option Z)) : res (list (option Z)) :=
  let k := Z.to_nat n in
  if (length to <? k)%nat || (length from <? k)%nat then Fault OutOfBounds else Ok (take k from ++ drop k to).

Definition UnregisterResourceBySlot (p : DescriptorPool) (slot : Z) : res DescriptorPool :=
  if u32 (m_texture_id_count p - 1) =? slot then
    Ok (set_counts (u32 (m_texture_id_count p - 1)) (m_free_id_stack_size p) (m_free_id_stack_count p) (m_free_id_stack p) p)
  else
    grown ← (if m_free_id_stack_size p =? m_free_id_stack_count p then
               let size := u32 (m_free_id_stack_size p * 2) in
               stack ← copy_stack (m_free_id_stack_count p) (new_stack size) (m_free_id_stack p);
               Ok (size, stack)
             else Ok (m_free_id_stack_size p, m_free_id_stack p));
    stack ← arr_set (snd grown) (m_free_id_stack_count p) (Some slot);
    Ok (set_counts (m_texture_id_count p) (u32 (fst grown + 1)) (m_free_id_stack_count p) stack p).

Section operations.
Context `{!VkHeader, !Driver}.

Definition Pool_Initialize (p : DescriptorPool) (descriptor_type max_descriptor_slots : Z) : M Vk DescriptorPool :=
  _ ← dd_assert ((descriptor_type =? vk VK_DESCRIPTOR_TYPE_SAMPLED_IMAGE) || (descriptor_type =? vk VK_DESCRIPTOR_TYPE_SAMPLER));
  pool ← expect (CreateDescriptorPool descriptor_type max_descriptor_slots);
  c ← gets context;
  let layout := if descriptor_type =? vk VK_DESCRIPTOR_TYPE_SAMPLED_IMAGE then m_vk_texture_descriptor_set_layout c
                else m_vk_sampler_descriptor_set_layout c in
  set ← expect (AllocateDescriptorSets pool layout);
  mret (MkDescriptorPool pool set descriptor_type max_descriptor_slots 0 FreeListDefaultSize (m_free_id_stack_count p)
          (new_stack FreeListDefaultSize)).
Definition Pool_Finalize (p : DescriptorPool) : M Vk unit := record (DestroyDescriptorPool (m_vk_descriptor_pool p)).

Definition RegisterTexture (p : DescriptorPool) (texture_view : Z) : M Vk (Z * DescriptorPool) :=
  _ ← dd_assert (m_vk_pool_type p =? vk VK_DESCRIPTOR_TYPE_SAMPLED_IMAGE);
  r ← lift (GetNewDescriptorId p);
  v ← object views texture_view;
  _ ← record (UpdateDescriptorSets (m_vk_descriptor_set p) VkContext.TargetTextureDescriptorBinding (fst r)
                (vk VK_DESCRIPTOR_TYPE_SAMPLED_IMAGE) (m_vk_image_view v) (vk VK_IMAGE_LAYOUT_GENERAL) 0);
  mret r.
Definition RegisterSampler (p : DescriptorPool) (sampler : Z) : M Vk (Z * DescriptorPool) :=
  _ ← dd_assert (m_vk_pool_type p =? vk VK_DESCRIPTOR_TYPE_SAMPLER);
  r ← lift (GetNewDescriptorId p);
  _ ← record (UpdateDescriptorSets (m_vk_descriptor_set p) VkContext.TargetSamplerDescriptorBinding (fst r)
                (vk VK_DESCRIPTOR_TYPE_SAMPLER) 0 0 sampler);
  mret r.
End operations.

(** * Clients *)
(** A client registers resources, and gives a slot back when it holds it. *)
Inductive step : DescriptorPool * list Z -> DescriptorPool * list Z -> Prop :=
  | step_register p held slot p' : GetNewDescriptorId p = Ok (slot, p') -> step (p, held) (p', slot :: held)
  | step_unregister p held1 slot held2 p' : UnregisterResourceBySlot p slot = Ok p' -> step (p, held1 ++ slot :: held2) (p', held1 ++ held2).

(** A pool as Initialize leaves it in static memory. *)
Definition fresh (p : DescriptorPool) : Prop :=
  m_texture_id_count p = 0 /\ m_free_id_stack_count p = 0 /\ m_free_id_stack_size p = FreeListDefaultSize /\
  m_free_id_stack p = new_stack FreeListDefaultSize /\ 0 <= m_max_slot_ids p < 2 ^ 32.
End VkDescriptors.

Section descriptors.
Import VkDescriptors.
Implicit Types (p : DescriptorPool) (held : list Z).

(** The slots that are held are different, and below the count of slots ever given and not yet taken back as the
    latest one; nothing is ever found on the stack of free slots. *)
Definition sound (x : DescriptorPool * list Z) : Prop :=
  let '(p, held) := x in
  NoDup held /\ (forall slot, slot ∈ held -> 0 <= slot < m_texture_id_count p) /\
  m_texture_id_count p <= m_max_slot_ids p < 2 ^ 32 /\ m_free_id_stack_count p = 0 /\ 0 <= m_texture_id_count p.

Lemma register_next p : m_free_id_stack_count p = 0 -> m_texture_id_count p <> m_max_slot_ids p ->
  GetNewDescriptorId p = Ok (m_texture_id_count p,
    set_counts (u32 (m_texture_id_count p + 1)) (m_free_id_stack_size p) 0 (m_free_id_stack p) p).
Proof. intros Hf Hm%Z.eqb_neq. unfold GetNewDescriptorId. by rewrite Hf, Hm. Qed.

Lemma register_full p : m_free_id_stack_count p = 0 -> m_texture_id_count p = m_max_slot_ids p -> GetNewDescriptorId p = Fault AssertFailed.
Proof. intros Hf Hm%Z.eqb_eq. unfold GetNewDescriptorId. by rewrite Hf, Hm. Qed.

(** Taking back the latest slot, and taking back any other. *)
Lemma unregister_counts p slot p' : m_free_id_stack_count p = 0 -> UnregisterResourceBySlot p slot = Ok p' ->
  m_free_id_stack_count p' = 0 /\ m_max_slot_ids p' = m_max_slot_ids p /\
  m_texture_id_count p' = (if u32 (m_texture_id_count p - 1) =? slot then u32 (m_texture_id_count p - 1) else m_texture_id_count p).
Proof.
  intros Hf. unfold UnregisterResourceBySlot. destruct (_ =? slot); [by intros [= <-]|].
  unfold mbind, res_bind. destruct (if m_free_id_stack_size p =? _ then _ else _) as [grown|]; [|done].
  destruct (arr_set _ _ _) as [stack|]; [|done]. by intros [= <-].
Qed.

Lemma step_sound x y : step x y -> sound x -> sound y.
Proof.
  intros [p held slot p' E|p held1 slot held2 p' E] (Hd & Hb & Hm & Hf & H0).
  - destruct (Z.eq_dec (m_texture_id_count p) (m_max_slot_ids p)) as [Hx|Hx].
    { by rewrite register_full in E by done. }
    rewrite register_next in E by done. injection E as <- <-. cbn. word_simpl. split_and!; try done; try lia.
    + constructor; [|done]. intros Hin%Hb. lia.
    + intros s [->|Hs%Hb]%elem_of_cons; lia.
  - destruct (unregister_counts p slot p' Hf E) as (Hf' & Hm' & Hc). rewrite <- Permutation_middle in Hd. setoid_rewrite <- Permutation_middle in Hb.
    apply NoDup_cons in Hd as [Hn Hd]. pose proof (Hb slot (list_elem_of_here _ _)).
    unfold sound. rewrite Hf', Hm', Hc. word_simpl. destruct (Z.eqb_spec (m_texture_id_count p - 1) slot) as [Hl|Hl].
    all: split_and!; try done; try lia.
    all: intros s Hs; assert (s <> slot) by (by intros ->); pose proof (Hb s (list_elem_of_further _ _ _ Hs)); lia.
Qed.

Lemma steps_sound x y : rtc step x y -> sound x -> sound y.
Proof. induction 1; [done|]. intros. eauto using step_sound. Qed.

Lemma fresh_sound p : fresh p -> sound (p, []).
Proof.
  intros (H1 & H2 & H3 & H4 & H5). unfold sound. rewrite H1. split_and!; [constructor| |lia..].
  by intros s Hs%elem_of_nil.
Qed.

(** [C19] Whatever a client registers and gives back, the slots it holds are different from each other and inside the
    pool; registering succeeds as long as the count has not come to the end, and gives a slot that is not held. *)
Theorem slots_distinct p q held : fresh p -> rtc step (p, []) (q, held) ->
  NoDup held /\ (forall slot, slot ∈ held -> 0 <= slot < m_max_slot_ids q) /\
  (m_texture_id_count q <> m_max_slot_ids q ->
   exists slot q', GetNewDescriptorId q = Ok (slot, q') /\ (slot ∉ held) /\ slot < m_max_slot_ids q).
Proof.
  intros Hp Hs. destruct (steps_sound _ _ Hs (fresh_sound _ Hp)) as (Hd & Hb & Hm & Hf & H0).
  split_and!; [done|intros s Hs'%Hb; lia|]. intros Hc. do 2 eexists. split; [by apply register_next|].
  split; [intros Hin%Hb|]; lia.
Qed.

(** The slots from [a] on, the latest first. *)
Definition descending (a n : Z) : list Z := reverse (seqZ a n).

Lemma descending_grow n : 0 <= n -> descending 0 (n + 1) = n :: descending 0 n.
Proof. intros. unfold descending. by rewrite seqZ_app, reverse_app by lia. Qed.
Lemma descending_shrink a n : 0 < n -> descending a n = descending (a + 1) (n - 1) ++ [a].
Proof. intros. unfold descending. rewrite seqZ_cons by lia. rewrite reverse_cons. by rewrite <- Z.add_1_r, <- Z.sub_1_r. Qed.

(** A pool after [n] slots were given out and [leaked] of them were taken back too early. *)
Definition after (p : DescriptorPool) (n leaked : Z) (q : DescriptorPool) : Prop :=
  m_texture_id_count q = n /\ m_free_id_stack_count q = 0 /\ m_max_slot_ids q = m_max_slot_ids p /\
  m_free_id_stack_size q = FreeListDefaultSize + leaked /\ length (m_free_id_stack q) = Z.to_nat FreeListDefaultSize.

Lemma register_many p n : fresh p -> Z.of_nat n <= m_max_slot_ids p ->
  exists q, rtc step (p, []) (q, descending 0 (Z.of_nat n)) /\ after p (Z.of_nat n) 0 q.
Proof.
  intros Hp. pose proof Hp as (H1 & H2 & H3 & H4 & H5). induction n as [|n IH]; intros Hn.
  - exists p. split; [done|]. unfold after. rewrite H4. unfold new_stack. rewrite length_replicate. by split_and!.
  - destruct IH as (q & Hq & A1 & A2 & A3 & A4 & A5); [lia|]. rewrite Nat2Z.inj_succ, <- Z.add_1_r.
    eexists. split.
    + eapply rtc_r; [exact Hq|]. rewrite descending_grow, <- A1 by lia. apply step_register, register_next; lia.
    + unfold after. cbn. word_simpl. by split_and!; try lia.
Qed.

Lemma unregister_early q n leaked slot p : after p n leaked q -> 0 <= slot < n - 1 -> n < 2 ^ 32 -> 0 <= leaked < 2 ^ 31 ->
  exists q', UnregisterResourceBySlot q slot = Ok q' /\ after p n (leaked + 1) q'.
Proof.
  intros (A1 & A2 & A3 & A4 & A5) Hs Hn Hl. unfold UnregisterResourceBySlot. rewrite A1, A2, A4. unfold FreeListDefaultSize in *.
  word_simpl. destruct (Z.eqb_spec (n - 1) slot); [lia|]. destruct (Z.eqb_spec (64 + leaked) 0); [lia|]. cbn [mbind res_bind snd fst].
  change 0 with (Z.of_nat 0). rewrite arr_set_insert by (rewrite A5; lia). eexists. split; [reflexivity|].
  unfold after. cbn -[Z.to_nat]. word_simpl. rewrite length_insert. split_and!; try done; unfold FreeListDefaultSize; lia.
Qed.

Lemma unregister_many p n k q : 0 < n < 2 ^ 31 -> Z.of_nat k < n -> after p n 0 q ->
  exists q', rtc step (q, descending 0 n) (q', descending (Z.of_nat k) (n - Z.of_nat k)) /\ after p n (Z.of_nat k) q'.
Proof.
  intros Hn Hk Hq. induction k as [|k IH]; [exists q; by rewrite Z.sub_0_r|].
  destruct IH as (r & Hr & Ar); [lia|]. destruct (unregister_early r n (Z.of_nat k) (Z.of_nat k) p) as (q' & E & A'); [done|lia..|].
  exists q'. rewrite Nat2Z.inj_succ, <- Z.add_1_r. split; [|done]. eapply rtc_r; [exact Hr|].
  rewrite (descending_shrink (Z.of_nat k)) by lia. replace (n - (Z.of_nat k + 1)) with (n - Z.of_nat k - 1) by lia.
  rewrite <- (app_nil_r (descending (Z.of_nat k + 1) _)) at 2. by apply step_unregister.
Qed.

(** A slot that is given back while a later one is held is lost: the stack of free slots is written, but its count
    is not raised (the capacity is, in its place).  Of a pool of any size, a client that fills it and empties it in
    the order of registration can then hold one slot, and the next registration fails an assertion. *)
Theorem slots_lost p : fresh p -> 0 < m_max_slot_ids p < 2 ^ 31 ->
  exists q, rtc step (p, []) (q, [m_max_slot_ids p - 1]) /\ GetNewDescriptorId q = Fault AssertFailed.
Proof.
  intros Hp Hm. set (n := m_max_slot_ids p) in *.
  destruct (register_many p (Z.to_nat n) Hp) as (q1 & S1 & A1); [lia|]. rewrite Z2Nat.id in S1, A1 by lia.
  destruct (unregister_many p n (Z.to_nat (n - 1)) q1) as (q2 & S2 & A2); [lia..|done|]. rewrite Z2Nat.id in S2, A2 by lia.
  replace (n - (n - 1)) with 1 in S2 by lia. destruct A2 as (C1 & C2 & C3 & _). exists q2. split.
  - etrans; [exact S1|]. exact S2.
  - apply register_full; [done|]. by rewrite C1, C3.
Qed.

Definition some_descriptor_pool (n : Z) : DescriptorPool := MkDescriptorPool 1 2 3 n 0 64 0 (new_stack 64).
Lemma slots_distinct_witness :
  exists q, rtc step (some_descriptor_pool 3, []) (q, [1; 0]) /\ NoDup [1; 0] /\ exists q', GetNewDescriptorId q = Ok (2, q').
Proof.
  eexists. assert (rtc step (some_descriptor_pool 3, []) (set_counts 2 64 0 (new_stack 64) (some_descriptor_pool 3), [1; 0])) as H.
  { eapply rtc_l; [by apply step_register|]. eapply rtc_l; [by apply step_register|]. apply rtc_refl. }
  split; [exact H|]. destruct (slots_distinct (some_descriptor_pool 3) _ _ ltac:(vm_compute; done) H) as (Hd & _ & Hr).
  split; [exact Hd|]. destruct Hr as (slot & q' & E & _); [discriminate|]. exists q'. rewrite E. vm_compute in E. congruence.
Defined.

Lemma slots_lost_witness :
  exists q, rtc step (some_descriptor_pool 16684, []) (q, [16683]) /\ GetNewDescriptorId q = Fault AssertFailed.
Proof. exact (slots_lost (some_descriptor_pool 16684) ltac:(vm_compute; done) ltac:(vm_compute; done)). Defined.
End descriptors.
