(* ===== verification/VkLifetime.v ===== *)
(** Lifetimes of what the driver creates: calls counted by the kind of object they create or destroy, and computations
    that run to their end with a given balance. *)
From S2P Require Import Prelude Vulkan.

Section lifetime.
Context `{!VkHeader, !Driver}.
Implicit Types (v : Vk) (cs : list call).

Inductive kind : Type :=
  KSwapchain | KView | KImage | KMemory | KSemaphore | KFence | KBuffer | KShaderModule | KPipeline | KDescriptorPool | KSampler
  | KCommandPool | KDescriptorSetLayout | KPipelineLayout.
#[export] Instance kind_eq_dec : EqDecision kind.
Proof. solve_decision. Defined.
Definition weight (k : kind) (c : call) : Z :=
  match k, c with
  | KSwapchain, CreateSwapchain _ | KView, CreateImageView _ | KImage, CreateImage _ | KMemory, AllocateMemory _ _ _ _
  | KSemaphore, CreateSemaphore | KFence, CreateFence _ | KBuffer, CreateBuffer _ _ _ | KShaderModule, CreateShaderModule _ _
  | KPipeline, CreateGraphicsPipelines _ _ _ _ _ _ | KPipeline, CreateComputePipelines _ _ | KDescriptorPool, CreateDescriptorPool _ _
  | KSampler, CreateSampler _ | KCommandPool, CreateCommandPool _ | KDescriptorSetLayout, CreateDescriptorSetLayout _ _ _ _
  | KPipelineLayout, CreatePipelineLayout _ _ => 1
  | KSwapchain, DestroySwapchain _ | KView, DestroyImageView _ | KImage, DestroyImage _ | KMemory, FreeMemory _
  | KSemaphore, DestroySemaphore _ | KFence, DestroyFence _ | KBuffer, DestroyBuffer _ | KShaderModule, DestroyShaderModule _
  | KPipeline, DestroyPipeline _ | KDescriptorPool, DestroyDescriptorPool _ | KSampler, DestroySampler _
  | KCommandPool, DestroyCommandPool _ | KDescriptorSetLayout, DestroyDescriptorSetLayout _ | KPipelineLayout, DestroyPipelineLayout _ => -1
  | _, _ => 0
  end.
(** Objects of a kind that are created and not destroyed by the calls. *)
Fixpoint alive (k : kind) (cs : list call) : Z := match cs with [] => 0 | c :: cs => weight k c + alive k cs end.
Definition of_call (c : call) (k : kind) : Z := weight k c.
Definition nothing (_ : kind) : Z := 0.
Definition both (b1 b2 : kind -> Z) (k : kind) : Z := b1 k + b2 k.
Definition times (n : nat) (b : kind -> Z) (k : kind) : Z := Z.of_nat n * b k.

Lemma alive_app k cs1 cs2 : alive k (cs1 ++ cs2) = alive k cs1 + alive k cs2.
Proof. induction cs1 as [|c cs1 IH]; [done|]. cbn. rewrite IH. lia. Qed.

(** [m] runs to its end from every state with [P], leaves [Q], and the calls it records create [b] objects. *)
Definition runs {A} (P : Vk -> Prop) (m : M Vk A) (b : kind -> Z) (Q : A -> Vk -> Prop) : Prop :=
  forall v, P v -> exists a v', m v = Ok (a, v') /\ Q a v' /\ exists cs, log v' = log v ++ cs /\ forall k, alive k cs = b k.

Lemma runs_bind {A B} P (m : M Vk A) (f : A -> M Vk B) b1 b2 Q R :
  runs P m b1 Q -> (forall a, runs (Q a) (f a) b2 R) -> runs P (m ≫= f) (both b1 b2) R.
Proof.
  intros Hm Hf v HP. destruct (Hm v HP) as (a & v1 & E1 & HQ & cs1 & L1 & B1).
  destruct (Hf a v1 HQ) as (c & v2 & E2 & HR & cs2 & L2 & B2). exists c, v2. rewrite (M_bind_run _ _ _ _ _ E1).
  split_and!; [done..|]. exists (cs1 ++ cs2). rewrite L2, L1, app_assoc. split; [done|]. intros k. rewrite alive_app, B1, B2. done.
Qed.
Lemma runs_weaken {A} (P P' : Vk -> Prop) (m : M Vk A) b b' (Q Q' : A -> Vk -> Prop) :
  (forall v, P' v -> P v) -> (forall k, b k = b' k) -> (forall a v, Q a v -> Q' a v) -> runs P m b Q -> runs P' m b' Q'.
Proof.
  intros HP Hb HQ Hm v H'. destruct (Hm v (HP v H')) as (a & v' & E & HQ' & cs & L & B). exists a, v'.
  split_and!; [done|by apply HQ|]. exists cs. split; [done|]. intros k. by rewrite B.
Qed.
Lemma runs_ret {A} (P : Vk -> Prop) (a : A) (Q : A -> Vk -> Prop) : (forall v, P v -> Q a v) -> runs P (mret a) nothing Q.
Proof. intros HQ v HP. exists a, v. split_and!; [done|by apply HQ|]. exists []. by rewrite app_nil_r. Qed.
Lemma runs_lift {A} (P : Vk -> Prop) (r : res A) a : r = Ok a -> runs P (lift r) nothing (fun a' v => a' = a /\ P v).
Proof. intros -> v HP. exists a, v. split_and!; [done..|]. exists []. by rewrite app_nil_r. Qed.

(** A condition that does not depend on the calls. *)
Definition quiet_log (P : Vk -> Prop) : Prop := forall v f, P v -> P (set_log f v).
Lemma runs_submit P c : quiet_log P -> runs P (submit c) (of_call c) (fun _ => P).
Proof.
  intros Hq v HP. do 2 eexists. split; [reflexivity|]. split; [by apply Hq|]. exists [c]. split; [done|]. intros k. cbn [alive]. unfold of_call. lia.
Qed.
Lemma runs_record P c : quiet_log P -> runs P (record c) (of_call c) (fun _ => P).
Proof.
  intros Hq. eapply runs_weaken; [done| | |eapply runs_bind; [by apply runs_submit|intros a; by apply (runs_ret _ tt (fun _ => P))]].
  - intros k. unfold both, nothing. lia.
  - done.
Qed.
Lemma runs_expect P c : reliable -> quiet_log P -> runs P (expect c) (of_call c) (fun _ => P).
Proof.
  intros Hr Hq v HP. do 2 eexists. split; [|split; [by apply (Hq v (fun l => l ++ [c]))|exists [c]; split; [done|intros k; cbn [alive]; unfold of_call; lia]]].
  unfold expect, submit, dd_assert, mbind, M_bind. by rewrite Hr, Z.eqb_refl.
Qed.

Lemma runs_pure {A} (F : Prop) P (m : M Vk A) b Q : (F -> runs P m b Q) -> runs (fun v => F /\ P v) m b Q.
Proof. intros Hm v [HF HP]. by apply Hm. Qed.
Lemma runs_exists {A X} (P : X -> Vk -> Prop) (m : M Vk A) b Q : (forall x, runs (P x) m b Q) -> runs (fun v => exists x, P x v) m b Q.
Proof. intros Hm v [x HP]. by apply (Hm x). Qed.
Lemma runs_answer P c : reliable -> quiet_log P -> runs P (submit c) (of_call c) (fun a v => result a = vk VK_SUCCESS /\ P v).
Proof.
  intros Hr Hq v HP. destruct (runs_submit P c Hq v HP) as (a & v' & E & HP' & Hcs). exists a, v'. split_and!; try done.
  injection E as <- _. apply Hr.
Qed.
Lemma runs_assert P b : b = true -> runs P (dd_assert b) nothing (fun _ => P).
Proof. intros -> v HP. exists tt, v. split_and!; [done..|]. exists []. by rewrite app_nil_r. Qed.
(** Ends a proof: the balance is the sum of what has been run. *)
Lemma runs_count {A} P (m : M Vk A) b b' Q : runs P m b Q -> (forall k, b k = b' k) -> runs P m b' Q.
Proof. intros Hm Hb. by eapply runs_weaken. Qed.
End lifetime.
