(* ===== verification/VkDisplay.v ===== *)
(** The display buffer (vk_displaybuffer.hpp): the swapchain with its images and their targets, the fences and
    semaphores of the frames, the depth image.

    The objects that are members live at the addresses of [Members].  Initialize does not set the number of the current
    frame; it is what the object's memory held. *)
From stdpp Require Import gmap.
From S2P Require Import Prelude Alignment Float32 Vectors Vulkan VkContext VkMemory VkLifetime.

Module VkDisplay.
Definition FramesInFlight : Z := 2.
Definition BufferedFrames : Z := 3.

Record Members : Type := MkMembers {
  m_vk_swapchain_textures : list Z; m_vk_swapchain_targets : list Z;
  m_depth_stencil_memory : Z; m_depth_stencil_texture : Z; m_depth_stencil_target : Z
}.
Record DisplayBuffer : Type := MkDisplayBuffer {
  frame_buffer : Framebuffer.LogicalFrameBuffer Float32.f32;
  m_vk_swapchain : Z; m_vk_surface : Z; m_vk_queue_present_semaphore : list Z; m_vk_queue_submit_fence : list Z;
  m_vk_image_acquire_fence : Z; m_vk_depth_stencil_image_memory : Z; m_current_target_index : Z; m_current_frame : Z
}.

Section display.
Context `{!VkHeader, !Driver} (this : Members).

(** The same call [n] times. *)
Fixpoint create_each (n : nat) (c : call) : M Vk (list Z) :=
  match n with O => mret [] | S n => h ← expect c; hs ← create_each n c; mret (h :: hs) end.
Fixpoint for_each (f : Z -> M Vk unit) (l : list Z) : M Vk unit :=
  match l with [] => mret tt | x :: l => _ ← f x; for_each f l end.
Fixpoint for_each2 (f : Z -> Z -> M Vk unit) (l1 l2 : list Z) : M Vk unit :=
  match l1, l2 with x :: l1, y :: l2 => _ ← f x y; for_each2 f l1 l2 | _, _ => mret tt end.

Definition swapchain_of (surface window_width window_height old : Z) : swapchain_info :=
  MkSwapchain surface BufferedFrames (vk VK_FORMAT_B8G8R8A8_SRGB) (vk VK_COLOR_SPACE_SRGB_NONLINEAR_KHR) window_width window_height
    (Z.lor (vk VK_IMAGE_USAGE_COLOR_ATTACHMENT_BIT) (vk VK_IMAGE_USAGE_TRANSFER_DST_BIT)) (vk VK_PRESENT_MODE_FIFO_KHR) old.
(** The view of a whole image. *)
Definition target_of (format texture : Z) : VkMemory.ViewInfo :=
  let identity := vk VK_COMPONENT_SWIZZLE_IDENTITY in
  VkMemory.MkView_Info (vk VK_IMAGE_VIEW_TYPE_2D) format 0 1 0 1 identity identity identity identity texture.
Definition depth_image_info (window_width window_height : Z) : VkMemory.TextureInfo :=
  VkMemory.MkTextureInfo 0 (Z.lor (vk VK_IMAGE_USAGE_DEPTH_STENCIL_ATTACHMENT_BIT) (vk VK_IMAGE_USAGE_TRANSFER_DST_BIT)) 1
    window_width window_height 1 (vk VK_FORMAT_D24_UNORM_S8_UINT) (vk VK_IMAGE_LAYOUT_UNDEFINED) (vk VK_IMAGE_TYPE_2D)
    (vk VK_SAMPLE_COUNT_1_BIT) (vk VK_IMAGE_TILING_OPTIMAL) 1 0.

(** The images of the swapchain, imported into the textures; those the driver does not write stay null. *)
Definition import_images (swapchain : Z) : M Vk unit :=
  a ← submit (GetSwapchainImages swapchain BufferedFrames);
  _ ← dd_assert (result a =? vk VK_SUCCESS);
  let images := (fun i => nth i (values a) 0) <$> seq 0 (Z.to_nat BufferedFrames) in
  for_each2 VkMemory.Texture_ImportExisting (m_vk_swapchain_textures this) images.
Definition create_targets : M Vk unit :=
  for_each2 (fun target texture => VkMemory.ColorTargetView_Initialize target (target_of (vk VK_FORMAT_B8G8R8A8_SRGB) texture))
    (m_vk_swapchain_targets this) (m_vk_swapchain_textures this).
(** The depth image, its memory and its target; the memory's handle. *)
Definition create_depth (window_width window_height : Z) : M Vk Z :=
  let info := depth_image_info window_width window_height in
  size ← VkMemory.GetRequiredMemorySize info;
  let required_memory := Alignment.AlignUp 64 size VkContext.TargetMemoryPoolAlignment in
  memory_type ← VkMemory.find_memory (vk VK_MEMORY_PROPERTY_DEVICE_LOCAL_BIT);
  memory ← expect (AllocateMemory required_memory (u32 memory_type) false None);
  _ ← VkMemory.Pool_ImportExisting (m_depth_stencil_memory this) memory true;
  _ ← VkMemory.Texture_Initialize (m_depth_stencil_texture this) info (m_depth_stencil_memory this);
  _ ← VkMemory.DepthStencilTargetView_Initialize (m_depth_stencil_target this)
        (target_of (vk VK_FORMAT_D24_UNORM_S8_UINT) (m_depth_stencil_texture this));
  mret memory.
Definition destroy_depth (memory : Z) : M Vk unit :=
  _ ← VkMemory.TargetView_Finalize (m_depth_stencil_target this);
  _ ← VkMemory.Texture_Finalize (m_depth_stencil_texture this);
  _ ← VkMemory.Pool_Finalize (m_depth_stencil_memory this);
  record (FreeMemory memory).
Definition destroy_images : M Vk unit :=
  for_each2 (fun target texture => _ ← VkMemory.TargetView_Finalize target; VkMemory.Texture_Finalize texture)
    (m_vk_swapchain_targets this) (m_vk_swapchain_textures this).

Definition Initialize (d : DisplayBuffer) (surface window_width window_height : Z) : M Vk DisplayBuffer :=
  let w := Float32.of_Z window_width in let h := Float32.of_Z window_height in
  let canvas := Framebuffer.SetDimensions (Framebuffer.SetVirtualCanvasSize (frame_buffer d) w h) w h in
  swapchain ← expect (CreateSwapchain (swapchain_of surface window_width window_height 0));
  _ ← import_images swapchain;
  _ ← create_targets;
  semaphores ← create_each (Z.to_nat FramesInFlight) CreateSemaphore;
  acquire_fence ← expect (CreateFence false);
  submit_fences ← create_each (Z.to_nat FramesInFlight) (CreateFence true);
  index ← expect (AcquireNextImage swapchain 0 acquire_fence);
  _ ← expect (WaitForFences acquire_fence);
  memory ← create_depth window_width window_height;
  mret (MkDisplayBuffer canvas swapchain surface semaphores submit_fences acquire_fence memory index (m_current_frame d)).
Definition Finalize (d : DisplayBuffer) : M Vk DisplayBuffer :=
  _ ← record (DestroyFence (m_vk_image_acquire_fence d));
  _ ← for_each2 (fun semaphore fence => _ ← record (DestroySemaphore semaphore); record (DestroyFence fence))
        (m_vk_queue_present_semaphore d) (m_vk_queue_submit_fence d);
  _ ← destroy_images;
  _ ← destroy_depth (m_vk_depth_stencil_image_memory d);
  mret (MkDisplayBuffer (frame_buffer d) (m_vk_swapchain d) 0 (m_vk_queue_present_semaphore d) (m_vk_queue_submit_fence d)
          (m_vk_image_acquire_fence d) (m_vk_depth_stencil_image_memory d) (m_current_target_index d) 0).
Definition Recreate (d : DisplayBuffer) (window_width window_height : Z) : M Vk DisplayBuffer :=
  swapchain ← expect (CreateSwapchain (swapchain_of (m_vk_surface d) window_width window_height (m_vk_swapchain d)));
  _ ← record (DestroySwapchain (m_vk_swapchain d));
  _ ← destroy_images;
  _ ← import_images swapchain;
  _ ← create_targets;
  _ ← expect (ResetFences (m_vk_image_acquire_fence d));
  index ← expect (AcquireNextImage swapchain 0 (m_vk_image_acquire_fence d));
  _ ← for_each (fun semaphore => record (DestroySemaphore semaphore)) (m_vk_queue_present_semaphore d);
  semaphores ← create_each (Z.to_nat FramesInFlight) CreateSemaphore;
  _ ← destroy_depth (m_vk_depth_stencil_image_memory d);
  memory ← create_depth window_width window_height;
  mret (MkDisplayBuffer (frame_buffer d) swapchain (m_vk_surface d) semaphores (m_vk_queue_submit_fence d)
          (m_vk_image_acquire_fence d) memory index 0).

Definition GetCurrentQueuePresentSemaphore (d : DisplayBuffer) : res Z := arr_get (m_vk_queue_present_semaphore d) (m_current_frame d).
Definition GetCurrentQueueSubmitFence (d : DisplayBuffer) : res Z := arr_get (m_vk_queue_submit_fence d) (m_current_frame d).
Definition GetCurrentColorTarget (d : DisplayBuffer) : res Z := arr_get (m_vk_swapchain_targets this) (m_current_target_index d).
Definition PresentTextureAndAcquireNext (d : DisplayBuffer) : M Vk DisplayBuffer :=
  current_semaphore ← lift (GetCurrentQueuePresentSemaphore d);
  _ ← expect (QueuePresent current_semaphore (m_vk_swapchain d) (m_current_target_index d));
  _ ← expect (ResetFences (m_vk_image_acquire_fence d));
  index ← expect (AcquireNextImage (m_vk_swapchain d) 0 (m_vk_image_acquire_fence d));
  mret (MkDisplayBuffer (frame_buffer d) (m_vk_swapchain d) (m_vk_surface d) (m_vk_queue_present_semaphore d) (m_vk_queue_submit_fence d)
          (m_vk_image_acquire_fence d) (m_vk_depth_stencil_image_memory d) index (Z.rem (u32 (m_current_frame d + 1)) FramesInFlight)).
Definition ResetCurrentQueueSubmitFence (d : DisplayBuffer) : M Vk unit :=
  fence ← lift (GetCurrentQueueSubmitFence d); _ ← expect (ResetFences fence); mret tt.
End display.
End VkDisplay.

(** * What is created is destroyed *)
Section lifetime.
Import VkDisplay.
Context `{!VkHeader, !Driver} (this : Members).
Implicit Types (v : Vk) (cs : list call).

(** * The members *)
(** The objects of the members exist; [imported] are textures of images that are not the display buffer's, [viewed] are
    targets that have been created, and [own] says that the pool has got its memory. *)
Definition members (imported viewed : list Z) (own : bool) v : Prop :=
  (forall t, t ∈ m_vk_swapchain_textures this -> is_Some (textures v !! t)) /\
  (forall t, t ∈ imported -> t <> m_depth_stencil_texture this /\ exists x, textures v !! t = Some x /\ m_import x = true) /\
  (exists x, textures v !! m_depth_stencil_texture this = Some x /\ m_import x = false) /\
  (exists p, pools v !! m_depth_stencil_memory this = Some p /\ (own = true -> m_is_import p = true)) /\
  (forall t, t ∈ viewed -> is_Some (views v !! t)).

Lemma members_log i w o : quiet_log (members i w o).
Proof. intros v f Hv. exact Hv. Qed.

Lemma insert_some {A} (m : gmap Z A) i j x : is_Some (m !! j) -> is_Some (<[i := x]> m !! j).
Proof. intros Hj. destruct (decide (i = j)) as [->|]; [by rewrite lookup_insert_eq|by rewrite lookup_insert_ne]. Qed.

Lemma import_runs t image i w o : t ∈ m_vk_swapchain_textures this -> t <> m_depth_stencil_texture this ->
  runs (members i w o) (VkMemory.Texture_ImportExisting t image) nothing (fun _ => members (t :: i) w o).
Proof.
  intros Ht Hne v (M1 & M2 & M3 & M4 & M5). destruct (M1 t Ht) as [x Hx]. do 2 eexists. split.
  { unfold VkMemory.Texture_ImportExisting, object. rewrite M_bind_assoc, M_gets_bind, Hx. reflexivity. }
  split; [|exists []; by rewrite app_nil_r]. split_and!.
  - intros j Hj. apply insert_some, M1, Hj.
  - intros j Hj. cbn. destruct (decide (t = j)) as [<-|Hj']; [split; [done|]; eexists; by rewrite lookup_insert_eq|].
    rewrite lookup_insert_ne by done. apply elem_of_cons in Hj as [->|Hj]; [done|by apply M2].
  - cbn. by rewrite lookup_insert_ne.
  - exact M4.
  - exact M5.
Qed.

Lemma view_runs target info aspect i w o : reliable ->
  VkMemory.view_texture info ∈ m_depth_stencil_texture this :: m_vk_swapchain_textures this ->
  runs (members i w o) (VkMemory.View_Initialize target info aspect) (of_call (CreateImageView (MkViewInfo 0 0 0 0 0 0 0 0 0 0 0 0)))
    (fun _ => members i (target :: w) o).
Proof.
  intros Hr Ht [l c P B T V] (M1 & M2 & M3 & M4 & M5).
  assert (exists x, T !! VkMemory.view_texture info = Some x) as [x Hx].
  { apply elem_of_cons in Ht as [->|Ht]; [destruct M3 as (x & Hx & _); by exists x|by apply M1]. }
  do 2 eexists. split.
  { unfold VkMemory.View_Initialize, object. rewrite M_bind_assoc, M_gets_bind; cbn [textures pools views]; rewrite Hx. cbn. rewrite M_ret_bind, expect_run by done. reflexivity. }
  split; [|exists [CreateImageView (MkViewInfo (m_vk_image x) (VkMemory.view_type info) (VkMemory.view_format info)
     (VkMemory.swizzle_r info) (VkMemory.swizzle_g info) (VkMemory.swizzle_b info) (VkMemory.swizzle_a info) aspect
     (VkMemory.base_mip info) (VkMemory.mips info) (VkMemory.base_layer info) (VkMemory.layers info))]; split; [done|by intros []]].
  split_and!; try done. intros j Hj. cbn. destruct (decide (target = j)) as [<-|Hj']; [by rewrite lookup_insert_eq|].
  rewrite lookup_insert_ne by done. apply elem_of_cons in Hj as [->|Hj]; [done|by apply M5].
Qed.

Lemma view_finalize_runs target i w o : target ∈ w ->
  runs (members i w o) (VkMemory.TargetView_Finalize target) (of_call (DestroyImageView 0)) (fun _ => members i w o).
Proof.
  intros Ht [l c P B T V] (M1 & M2 & M3 & M4 & M5). destruct (M5 target Ht) as [x Hx]. cbn in Hx. do 2 eexists. split.
  { unfold VkMemory.TargetView_Finalize, object. rewrite M_bind_assoc, M_gets_bind; cbn [textures pools views]; rewrite Hx. reflexivity. }
  split; [|exists [DestroyImageView (m_vk_image_view x)]; split; [done|by intros []]].
  split_and!; try done. intros j Hj. apply insert_some, M5, Hj.
Qed.

Lemma texture_finalize_runs t i w o : t ∈ i ->
  runs (members i w o) (VkMemory.Texture_Finalize t) nothing (fun _ => members i w o).
Proof.
  intros Ht v M. pose proof M as (_ & M2 & _). destruct (M2 t Ht) as (_ & x & Hx & Hi). exists tt, v. split.
  { unfold VkMemory.Texture_Finalize, object. by rewrite M_bind_assoc, M_gets_bind, Hx, M_ret_bind, Hi. }
  split; [done|]. exists []. by rewrite app_nil_r.
Qed.
Lemma depth_finalize_runs i w o :
  runs (members i w o) (VkMemory.Texture_Finalize (m_depth_stencil_texture this)) (of_call (DestroyImage 0)) (fun _ => members i w o).
Proof.
  intros v M. pose proof M as (_ & _ & (x & Hx & Hi) & _). do 2 eexists. split.
  { unfold VkMemory.Texture_Finalize, object. rewrite M_bind_assoc, M_gets_bind, Hx, M_ret_bind, Hi. reflexivity. }
  split; [by apply members_log|]. exists [DestroyImage (m_vk_image x)]. split; [done|by intros []].
Qed.
Lemma pool_import_runs memory device i w o :
  runs (members i w o) (VkMemory.Pool_ImportExisting (m_depth_stencil_memory this) memory device) nothing (fun _ => members i w true).
Proof.
  intros v (M1 & M2 & M3 & (p & Hp & _) & M5). do 2 eexists. split.
  { unfold VkMemory.Pool_ImportExisting, VkMemory.with_pool, object. rewrite M_bind_assoc, M_gets_bind; cbn [textures pools views]; rewrite Hp. reflexivity. }
  split; [|exists []; by rewrite app_nil_r]. split_and!; try done. cbn. eexists. split; [apply lookup_insert_eq|done].
Qed.
Lemma pool_finalize_runs i w :
  runs (members i w true) (VkMemory.Pool_Finalize (m_depth_stencil_memory this)) nothing (fun _ => members i w true).
Proof.
  intros v M. pose proof M as (_ & _ & _ & (p & Hp & Hi) & _). exists tt, v. split.
  { unfold VkMemory.Pool_Finalize, object. by rewrite M_bind_assoc, M_gets_bind; cbn [textures pools views]; rewrite Hp, M_ret_bind, Hi. }
  split; [done|]. exists []. by rewrite app_nil_r.
Qed.
Lemma depth_initialize_runs info i w o : reliable -> m_depth_stencil_texture this ∉ i ->
  runs (members i w o) (VkMemory.Texture_Initialize (m_depth_stencil_texture this) info (m_depth_stencil_memory this))
    (of_call (CreateImage (VkMemory.image_of info))) (fun _ => members i w o).
Proof.
  intros Hr Hn [l c P B T V] (M1 & M2 & (x & Hx & Hi) & (p & Hp & Ho) & M5). cbn in Hx, Hp. do 2 eexists. split.
  { unfold VkMemory.Texture_Initialize, object. rewrite M_bind_assoc, M_gets_bind; cbn [textures pools views]; rewrite Hx, M_ret_bind, M_bind_assoc, M_gets_bind; cbn [textures pools views]; rewrite Hp, M_ret_bind.
    rewrite !expect_run by done. reflexivity. }
  split; [|eexists [_; _]; split; [cbn; by rewrite <- app_assoc|by intros []]]. split_and!; cbn.
  - intros j Hj. apply insert_some, M1, Hj.
  - intros j Hj. destruct (M2 j Hj) as [Hne Hj']. split; [done|]. by rewrite lookup_insert_ne.
  - eexists. split; [apply lookup_insert_eq|exact Hi].
  - by exists p.
  - exact M5.
Qed.

(** * The loops *)
Lemma runs_cons {A B} P (m : M Vk A) (f : A -> M Vk B) b b2 n Q R : runs P m b Q -> (forall a, runs (Q a) (f a) b2 R) ->
  (forall k, b2 k = times n b k) -> runs P (m ≫= f) (times (S n) b) R.
Proof.
  intros Hm Hf Hb. eapply runs_weaken; [done| |done|by eapply runs_bind].
  intros k. unfold both. rewrite Hb. unfold times. lia.
Qed.
Lemma runs_nil {A} (P : Vk -> Prop) (a : A) b (Q : A -> Vk -> Prop) : (forall v, P v -> Q a v) -> runs P (mret a) (times 0 b) Q.
Proof. intros HQ. eapply runs_weaken; [done| |done|by apply runs_ret]. intros k. unfold times, nothing. lia. Qed.

Lemma create_each_runs P n c : reliable -> quiet_log P ->
  runs P (create_each n c) (times n (of_call c)) (fun hs v => length hs = n /\ P v).
Proof.
  intros Hr Hq. induction n as [|n IH]; cbn [create_each]; [by apply runs_nil|].
  eapply (runs_cons _ _ _ _ _ n); [by apply runs_expect| |]; cycle 1.
  - intros k. instantiate (1 := both (times n (of_call c)) nothing). unfold both, nothing. lia.
  - intros h. cbv beta. eapply runs_bind; [exact IH|]. intros hs. cbv beta. apply runs_ret. by intros v [<- Hv].
Qed.
Lemma destroy_each_runs P (f : Z -> call) l : quiet_log P -> (forall x k, weight k (f x) = weight k (f 0)) ->
  runs P (for_each (fun x => record (f x)) l) (times (length l) (of_call (f 0))) (fun _ => P).
Proof.
  intros Hq Hf. induction l as [|x l IH]; cbn [for_each length]; [by apply runs_nil|].
  eapply (runs_cons _ _ _ _ _ _ (fun _ => P)); [|intros _; exact IH|done].
  eapply (runs_weaken P _ _ _ _ (fun _ => P)); [done| |done|by apply runs_record]. intros k. apply Hf.
Qed.
Lemma for_each2_runs {P : list Z -> list Z -> Vk -> Prop} f l1 l2 b : length l1 = length l2 ->
  (forall x l1' y l2', x ∈ l1 -> y ∈ l2 -> runs (P (x :: l1') (y :: l2')) (f x y) b (fun _ => P l1' l2')) ->
  runs (P l1 l2) (for_each2 f l1 l2) (times (length l1) b) (fun _ => P [] []).
Proof.
  revert l2. induction l1 as [|x l1 IH]; intros [|y l2] Hl Hf; try done; cbn [for_each2 length]; [by apply runs_nil|].
  eapply (runs_cons _ _ _ b (times (length l1) b) _ (fun _ => P l1 l2)); [apply Hf; set_solver| |done].
  intros _. cbv beta. apply IH; [by injection Hl|]. intros x' l1' y' l2' Hx Hy. apply Hf; set_solver.
Qed.

Lemma members_subset i w o i' w' v : (forall t, t ∈ i' -> t ∈ i) -> (forall t, t ∈ w' -> t ∈ w) -> members i w o v -> members i' w' o v.
Proof. intros Hi Hw (M1 & M2 & M3 & M4 & M5). split_and!; auto. Qed.

(** * The operations *)
Local Abbreviation T := (m_vk_swapchain_textures this).
Local Abbreviation G := (m_vk_swapchain_targets this).
(** The members are different objects, and there are as many as the swapchain's images. *)
Definition separate : Prop := length T = 3%nat /\ length G = 3%nat /\ m_depth_stencil_texture this ∉ T.
Context (Hr : reliable) (Hsep : separate).

Definition one_view : kind -> Z := of_call (CreateImageView (MkViewInfo 0 0 0 0 0 0 0 0 0 0 0 0)).
Definition minus_view : kind -> Z := of_call (DestroyImageView 0).

(** Goes on with what follows. *)
Ltac next := intros ?; cbv beta.

(** Adds up what has been run, for each kind. *)
Ltac balance := intros []; unfold both, times, of_call, nothing, one_view, minus_view, FramesInFlight; cbn; lia.

Lemma import_images_runs swapchain i w o : runs (members i w o) (import_images this swapchain) nothing (fun _ => members T w o).
Proof.
  destruct Hsep as (HT & HG & Hn). unfold import_images. eapply runs_count.
  { eapply runs_bind; [apply runs_answer; [done|apply members_log]|]. intros a. cbv beta. apply runs_pure. intros Ha.
    eapply runs_bind; [apply runs_assert; by rewrite Ha, Z.eqb_refl|]. next.
    eapply (runs_weaken (fun v => exists dn, T = dn ++ T /\ members dn w o v) _ _ _ _ (fun _ v => exists dn, T = dn ++ [] /\ members dn w o v)).
    3: intros ? v (dn & -> & Hv); by rewrite app_nil_r.
    1: intros v Hv; exists []; split; [done|]; eapply members_subset; [..|exact Hv]; set_solver.
    2: apply (for_each2_runs (P := fun l1 _ v => exists dn, T = dn ++ l1 /\ members dn w o v)); [by rewrite HT|].
    2: { intros t l1 image l2 Ht _. apply runs_exists. intros dn. apply runs_pure. intros ET.
         eapply runs_weaken; [done|done| |apply (import_runs t); [done|by intros ->]].
         intros ? v Hv. exists (dn ++ [t]). rewrite <- app_assoc. split; [done|].
         eapply members_subset; [..|exact Hv]; set_solver. }
    reflexivity. }
  balance.
Qed.

Lemma create_targets_runs w o : runs (members T w o) (create_targets this) (times 3 one_view) (fun _ => members T (G ++ w) o).
Proof.
  destruct Hsep as (HT & HG & Hn). unfold create_targets. rewrite <- HG.
  eapply (runs_weaken (fun v => exists dn, G = dn ++ G /\ members T (dn ++ w) o v) _ _ _ _
            (fun _ v => exists dn, G = dn ++ [] /\ members T (dn ++ w) o v)).
  3: intros ? v (dn & -> & Hv); by rewrite app_nil_r.
  1: intros v Hv; by exists [].
  2: apply (for_each2_runs (P := fun l1 _ v => exists dn, G = dn ++ l1 /\ members T (dn ++ w) o v)); [congruence|].
  2: { intros g l1 t l2 _ Ht. apply runs_exists. intros dn. apply runs_pure. intros EG.
       eapply runs_weaken; [done|done| |apply view_runs; [done|cbn; by right]].
       intros ? v Hv. exists (dn ++ [g]). rewrite <- app_assoc. split; [done|]. eapply members_subset; [..|exact Hv]; set_solver. }
  reflexivity.
Qed.

Lemma destroy_images_runs w o : (forall g, g ∈ G -> g ∈ w) ->
  runs (members T w o) (destroy_images this) (times 3 minus_view) (fun _ => members T w o).
Proof.
  intros Hw. destruct Hsep as (HT & HG & Hn). unfold destroy_images. rewrite <- HG.
  apply (for_each2_runs (P := fun _ _ => members T w o)); [congruence|]. intros g l1 t l2 Hg Ht.
  eapply runs_count; [eapply runs_bind; [apply view_finalize_runs; auto|next; by apply texture_finalize_runs]|balance].
Qed.

Lemma create_depth_runs width height w o : runs (members T w o) (create_depth this width height)
  (both (of_call (CreateImage (VkMemory.image_of (depth_image_info 0 0)))) (both (of_call (AllocateMemory 0 0 false None)) one_view))
  (fun _ => members T (m_depth_stencil_target this :: w) true).
Proof.
  destruct Hsep as (HT & HG & Hn). unfold create_depth, VkMemory.GetRequiredMemorySize, VkMemory.GetMemoryRequirements. eapply runs_count.
  { eapply runs_bind.
    { eapply runs_bind; [eapply runs_bind; [apply runs_submit, members_log|]|]; next; by apply (runs_ret _ _ (fun _ => members T w o)). }
    next. eapply (runs_bind _ _ _ nothing _ (fun _ => members T w o)).
    { intros v Hv. do 2 eexists. split; [reflexivity|]. split; [done|]. exists []. by rewrite app_nil_r. }
    next. eapply (runs_bind _ _ _ (of_call (AllocateMemory 0 0 false None))).
    { eapply runs_count; [apply runs_expect; [done|apply members_log]|by intros []]. }
    next.
    eapply runs_bind; [apply pool_import_runs|]. next.
    eapply runs_bind; [by apply depth_initialize_runs|]. next.
    eapply runs_bind; [apply view_runs; [done|cbn; by left]|]. next. by apply runs_ret. }
  balance.
Qed.

Lemma destroy_depth_runs memory w : m_depth_stencil_target this ∈ w -> runs (members T w true) (destroy_depth this memory)
  (both (of_call (DestroyImage 0)) (both (of_call (FreeMemory 0)) minus_view)) (fun _ => members T w true).
Proof.
  intros Hw. unfold destroy_depth. eapply runs_count.
  { eapply runs_bind; [by apply view_finalize_runs|]. next. eapply runs_bind; [apply depth_finalize_runs|]. next.
    eapply runs_bind; [apply pool_finalize_runs|]. next. apply runs_record, members_log. }
  balance.
Qed.

(** What the display buffer has while it is in use. *)
Definition in_use (d : DisplayBuffer) : Prop :=
  length (m_vk_queue_present_semaphore d) = 2%nat /\ length (m_vk_queue_submit_fence d) = 2%nat /\ 0 <= m_current_frame d < 2.
Definition ready v : Prop := members T (m_depth_stencil_target this :: G) true v.
Definition unused v : Prop := members [] [] false v.
Definition whole (k : kind) : Z :=
  match k with KSwapchain => 1 | KView => 4 | KImage => 1 | KMemory => 1 | KSemaphore => 2 | KFence => 3 | _ => 0 end.
Definition torn_down (k : kind) : Z := match k with KSwapchain => 0 | _ => - whole k end.

Ltac keep := apply members_log.

Lemma initialize_runs d surface width height : 0 <= m_current_frame d < 2 ->
  runs unused (Initialize this d surface width height) whole (fun d' v => in_use d' /\ ready v).
Proof.
  intros Hf. unfold Initialize, unused, ready. eapply runs_count.
  { eapply runs_bind; [apply runs_expect; [done|keep]|]. next.
    eapply runs_bind; [apply import_images_runs|]. next.
    eapply runs_bind; [apply create_targets_runs|]. next.
    eapply runs_bind; [apply create_each_runs; [done|keep]|]. next. apply runs_pure. intros Hs.
    eapply runs_bind; [apply runs_expect; [done|keep]|]. next.
    eapply runs_bind; [apply create_each_runs; [done|keep]|]. next. apply runs_pure. intros Hsf.
    eapply (runs_bind _ _ _ nothing); [eapply runs_count; [apply runs_expect; [done|keep]|by intros []]|]. next.
    eapply (runs_bind _ _ _ nothing); [eapply runs_count; [apply runs_expect; [done|keep]|by intros []]|]. next.
    eapply runs_bind; [apply create_depth_runs|]. next. apply runs_ret. intros v Hv.
    split; [exact (conj Hs (conj Hsf Hf))|]. by rewrite app_nil_r in Hv. }
  balance.
Qed.

Lemma present_runs d : in_use d -> runs ready (PresentTextureAndAcquireNext d) nothing (fun d' v => in_use d' /\ ready v).
Proof.
  intros (Hs & Hf & Hc). unfold PresentTextureAndAcquireNext, GetCurrentQueuePresentSemaphore, ready.
  destruct (lookup_lt_is_Some_2 (m_vk_queue_present_semaphore d) (Z.to_nat (m_current_frame d))) as [x Hx]; [lia|].
  apply arr_get_lookup in Hx. rewrite Z2Nat.id in Hx by lia. eapply runs_count.
  { eapply runs_bind; [by apply runs_lift|]. next. apply runs_pure. intros ->.
    eapply runs_bind; [apply runs_expect; [done|keep]|]. next. eapply runs_bind; [apply runs_expect; [done|keep]|]. next.
    eapply runs_bind; [apply runs_expect; [done|keep]|]. next. apply runs_ret. intros v Hv. split; [|done].
    split_and!; try done; cbn; word_simpl; unfold FramesInFlight; rewrite Z.rem_mod_nonneg by lia; apply Z.mod_pos_bound; lia. }
  balance.
Qed.

Lemma recreate_runs d width height : in_use d -> runs ready (Recreate this d width height) nothing (fun d' v => in_use d' /\ ready v).
Proof.
  intros (Hs & Hf & Hc). unfold Recreate, ready. eapply runs_count.
  { eapply runs_bind; [apply runs_expect; [done|keep]|]. next. eapply runs_bind; [apply runs_record; keep|]. next.
    eapply runs_bind; [apply destroy_images_runs; set_solver|]. next. eapply runs_bind; [apply import_images_runs|]. next.
    eapply runs_bind; [apply create_targets_runs|]. next. eapply runs_bind; [apply runs_expect; [done|keep]|]. next.
    eapply (runs_bind _ _ _ nothing); [eapply runs_count; [apply runs_expect; [done|keep]|by intros []]|]. next.
    eapply runs_bind; [apply (destroy_each_runs _ DestroySemaphore); [keep|done]|]. next.
    eapply runs_bind; [apply create_each_runs; [done|keep]|]. next. apply runs_pure. intros Hs'.
    eapply runs_bind; [apply destroy_depth_runs; set_solver|]. next.
    eapply runs_bind; [apply create_depth_runs|]. next. apply runs_ret. intros v Hv.
    split; [exact (conj Hs' (conj Hf (conj (Z.le_refl 0) Z.lt_0_2)))|]. eapply members_subset; [..|exact Hv]; set_solver. }
  rewrite Hs. balance.
Qed.

Lemma finalize_runs d : in_use d -> runs ready (Finalize this d) torn_down (fun _ => ready).
Proof.
  intros (Hs & Hf & Hc). unfold Finalize, ready. eapply runs_count.
  { eapply runs_bind; [apply runs_record; keep|]. next.
    eapply runs_bind; [apply (for_each2_runs (P := fun _ _ => members T (m_depth_stencil_target this :: G) true)); [congruence|]|].
    { intros s l1 f l2 _ _. eapply (runs_count _ _ _ (both (of_call (DestroySemaphore 0)) (of_call (DestroyFence 0)))).
      { eapply runs_bind; [apply runs_record; keep|next; apply runs_record; keep]. }
      balance. }
    next. eapply runs_bind; [apply destroy_images_runs; set_solver|]. next.
    eapply runs_bind; [apply destroy_depth_runs; set_solver|]. next. by apply runs_ret. }
  rewrite Hs. balance.
Qed.

(** What a client does with a display buffer between Initialize and Finalize. *)
Inductive use : Type := Present | Resize (width height : Z).
Fixpoint uses (l : list use) (d : DisplayBuffer) : M Vk DisplayBuffer :=
  match l with
  | [] => mret d
  | Present :: l => d' ← PresentTextureAndAcquireNext d; uses l d'
  | Resize width height :: l => d' ← Recreate this d width height; uses l d'
  end.

Lemma uses_runs l : forall d, in_use d -> runs ready (uses l d) nothing (fun d' v => in_use d' /\ ready v).
Proof.
  induction l as [|[|width height] l IH]; intros d Hd; cbn [uses]; [by apply runs_ret| |].
  all: eapply (runs_count _ _ (both nothing nothing)); [|done].
  all: eapply runs_bind; [first [by apply present_runs|by apply recreate_runs]|]; next; apply runs_pure; apply IH.
Qed.

Definition lifetime (d : DisplayBuffer) (surface width height : Z) (l : list use) : M Vk DisplayBuffer :=
  d ← Initialize this d surface width height; d ← uses l d; Finalize this d.
End lifetime.

Section display_theorems.
Import VkDisplay.
Context `{!VkHeader, !Driver}.


(** Presenting submits the semaphore and the image of the current frame, resets the fence of the acquisition and
    asks for the next image without waiting (its timeout is zero), then goes on to the other frame. *)
Theorem present_calls (d : DisplayBuffer) (v : Vk) : reliable -> in_use d ->
  exists semaphore d' v', GetCurrentQueuePresentSemaphore d = Ok semaphore /\
    PresentTextureAndAcquireNext d v = Ok (d', v') /\
    log v' = log v ++ [QueuePresent semaphore (m_vk_swapchain d) (m_current_target_index d); ResetFences (m_vk_image_acquire_fence d);
                       AcquireNextImage (m_vk_swapchain d) 0 (m_vk_image_acquire_fence d)] /\
    m_current_frame d' = 1 - m_current_frame d.
Proof.
  intros Hr (Hs & Hf & Hc). destruct (lookup_lt_is_Some_2 (m_vk_queue_present_semaphore d) (Z.to_nat (m_current_frame d))) as [x Hx]; [lia|].
  apply arr_get_lookup in Hx. rewrite Z2Nat.id in Hx by lia. exists x. destruct v as [lg c P B T V].
  unfold PresentTextureAndAcquireNext, GetCurrentQueuePresentSemaphore, lift. rewrite Hx. do 2 eexists. split; [done|].
  rewrite (M_bind_run _ _ _ x (MkVk lg c P B T V)) by done. split; [repeat vk_step; reflexivity|].
  split; [cbn; by rewrite <- !app_assoc|]. cbn. word_simpl. unfold FramesInFlight.
  assert (m_current_frame d = 0 \/ m_current_frame d = 1) as [->| ->] by lia; done.
Qed.
End display_theorems.

Section display_examples.
Import VkDisplay.
Local Instance header : VkHeader := some_header.
Local Instance driver : Driver := counting_driver.

Definition some_members : Members := MkMembers [1; 2; 3] [4; 5; 6] 7 8 9.
Definition some_display : DisplayBuffer := MkDisplayBuffer (Framebuffer.MkFrameBuffer (Vector2.V2 (Float32.of_Z 0) (Float32.of_Z 0)) (Vector2.V2 (Float32.of_Z 0) (Float32.of_Z 0))) 0 0 [11; 12] [13; 14] 0 0 1 0.
Definition some_texture : Texture := MkTexture 0 None 0 false false.
Definition some_world : Vk :=
  MkVk [] (MkContext 0 0 0 0 77 [1; 7] 0) {[7 := some_pool false 0]} ∅ (list_to_map ((fun a => (a, some_texture)) <$> [1; 2; 3; 8])) ∅.

Lemma some_unused : unused some_members some_world.
Proof.
  unfold unused, members. split_and!.
  - intros t Ht. cbn in Ht. repeat (apply elem_of_cons in Ht as [->|Ht]; [by eexists|]). by apply not_elem_of_nil in Ht.
  - intros t Ht. by apply not_elem_of_nil in Ht.
  - by exists some_texture.
  - by exists (some_pool false 0).
  - intros t Ht. by apply not_elem_of_nil in Ht.
Qed.
Lemma some_separate : separate some_members.
Proof. split_and!; [done|done|]. cbn. set_solver by lia. Qed.


Lemma present_calls_witness :
  exists d' v', PresentTextureAndAcquireNext some_display some_world = Ok (d', v') /\
    log v' = [QueuePresent 11 0 1; ResetFences 0; AcquireNextImage 0 0 0] /\ m_current_frame d' = 1.
Proof.
  destruct (present_calls some_display some_world) as (x & d' & v' & Hx & E & L & Hf);
    [exact counting_reliable|by split_and!|]. exists d', v'. split; [exact E|]. split; [|exact Hf].
  rewrite L. vm_compute in Hx. injection Hx as <-. reflexivity.
Defined.
End display_examples.
