(* ===== verification/VkShader.v ===== *)
(** Shaders (vk_shader.hpp): the modules of the stages, the pipeline, and what is left of them.

    Of the pipeline's states only the dynamic ones are part of the recorded call; the others are the same for every
    shader (one sample, triangle lists). *)
From stdpp Require Import gmap.
From S2P Require Import Prelude Float32 Vulkan VkContext VkMemory.

Module VkShader.
Inductive ShaderStage : Type :=
  | ShaderStage_Vertex | ShaderStage_TessellationEvaluation | ShaderStage_TessellationControl | ShaderStage_Geometry
  | ShaderStage_Fragment | ShaderStage_Compute | ShaderStage_Task | ShaderStage_Mesh | ShaderStage_Ray | ShaderStage_AnyHit
  | ShaderStage_Closesthit | ShaderStage_Miss | ShaderStage_Callable.
(** The number of the enumerator. *)
Definition stage_number (s : ShaderStage) : nat :=
  match s with
  | ShaderStage_Vertex => 0 | ShaderStage_TessellationEvaluation => 1 | ShaderStage_TessellationControl => 2
  | ShaderStage_Geometry => 3 | ShaderStage_Fragment => 4 | ShaderStage_Compute => 5 | ShaderStage_Task => 6
  | ShaderStage_Mesh => 7 | ShaderStage_Ray => 8 | ShaderStage_AnyHit => 9 | ShaderStage_Closesthit => 10
  | ShaderStage_Miss => 11 | ShaderStage_Callable => 12
  end.
Inductive PipelineType : Type :=
  PipelineType_Invalid | PipelineType_Primitive | PipelineType_Mesh | PipelineType_RayTracing | PipelineType_Compute.

Record code : Type := MkCode { code_size : Z; code_address : Z }.
Record PrimitiveShaderInfo : Type := MkPrimitive {
  color_attachment_count : Z; vertex_code : code; tessellation_control_code : code; tessellation_evaluation_code : code;
  geometry_code : code; fragment_code : code
}.
Record MeshShaderInfo : Type := MkMesh { mesh_attachment_count : Z; task_code : code; mesh_code : code; mesh_fragment_code : code }.

Record Shader : Type := MkShader { m_vk_pipeline : Z; m_pipeline_type : PipelineType }.
Definition no_shader : Shader := MkShader 0 PipelineType_Invalid.

Section shader.
Context `{!VkHeader, !Driver}.

(** [if (code != nullptr) { create the module }] *)
Definition module_of (c : code) : M Vk Z :=
  if code_address c =? 0 then mret 0 else expect (CreateShaderModule (code_size c) (code_address c)).
(** [if (module != 0) { fill in the next stage }] *)
Definition stage_of (bit : vk_name) (module : Z) : list shader_stage := if module =? 0 then [] else [MkStage (vk bit) module].
Definition destroy_module (module : Z) : M Vk unit := if module =? 0 then mret tt else record (DestroyShaderModule module).

(** The dynamic states of a pipeline with vertices, and of one with a mesh shader. *)
Definition primitive_dynamic_states : list dynamic_state :=
  [VK_DYNAMIC_STATE_VIEWPORT_WITH_COUNT; VK_DYNAMIC_STATE_SCISSOR_WITH_COUNT; VK_DYNAMIC_STATE_LINE_WIDTH;
   VK_DYNAMIC_STATE_DEPTH_BIAS; VK_DYNAMIC_STATE_BLEND_CONSTANTS; VK_DYNAMIC_STATE_DEPTH_BOUNDS;
   VK_DYNAMIC_STATE_STENCIL_COMPARE_MASK; VK_DYNAMIC_STATE_STENCIL_WRITE_MASK; VK_DYNAMIC_STATE_STENCIL_REFERENCE;
   VK_DYNAMIC_STATE_CULL_MODE; VK_DYNAMIC_STATE_FRONT_FACE; VK_DYNAMIC_STATE_PRIMITIVE_TOPOLOGY;
   VK_DYNAMIC_STATE_VERTEX_INPUT_BINDING_STRIDE; VK_DYNAMIC_STATE_DEPTH_TEST_ENABLE;
   VK_DYNAMIC_STATE_DEPTH_WRITE_ENABLE; VK_DYNAMIC_STATE_DEPTH_COMPARE_OP; VK_DYNAMIC_STATE_DEPTH_BOUNDS_TEST_ENABLE;
   VK_DYNAMIC_STATE_STENCIL_TEST_ENABLE; VK_DYNAMIC_STATE_STENCIL_OP; VK_DYNAMIC_STATE_RASTERIZER_DISCARD_ENABLE;
   VK_DYNAMIC_STATE_DEPTH_BIAS_ENABLE; VK_DYNAMIC_STATE_PRIMITIVE_RESTART_ENABLE; VK_DYNAMIC_STATE_VERTEX_INPUT_EXT;
   VK_DYNAMIC_STATE_LOGIC_OP_EXT; VK_DYNAMIC_STATE_COLOR_BLEND_ENABLE_EXT; VK_DYNAMIC_STATE_COLOR_BLEND_EQUATION_EXT;
   VK_DYNAMIC_STATE_COLOR_WRITE_MASK_EXT; VK_DYNAMIC_STATE_DEPTH_CLAMP_ENABLE_EXT;
   VK_DYNAMIC_STATE_LOGIC_OP_ENABLE_EXT; VK_DYNAMIC_STATE_POLYGON_MODE_EXT].
Definition mesh_dynamic_states : list dynamic_state :=
  [VK_DYNAMIC_STATE_VIEWPORT_WITH_COUNT; VK_DYNAMIC_STATE_SCISSOR_WITH_COUNT; VK_DYNAMIC_STATE_LINE_WIDTH;
   VK_DYNAMIC_STATE_DEPTH_BIAS; VK_DYNAMIC_STATE_BLEND_CONSTANTS; VK_DYNAMIC_STATE_DEPTH_BOUNDS;
   VK_DYNAMIC_STATE_STENCIL_COMPARE_MASK; VK_DYNAMIC_STATE_STENCIL_WRITE_MASK; VK_DYNAMIC_STATE_STENCIL_REFERENCE;
   VK_DYNAMIC_STATE_CULL_MODE; VK_DYNAMIC_STATE_FRONT_FACE; VK_DYNAMIC_STATE_DEPTH_TEST_ENABLE;
   VK_DYNAMIC_STATE_DEPTH_WRITE_ENABLE; VK_DYNAMIC_STATE_DEPTH_COMPARE_OP; VK_DYNAMIC_STATE_DEPTH_BOUNDS_TEST_ENABLE;
   VK_DYNAMIC_STATE_STENCIL_TEST_ENABLE; VK_DYNAMIC_STATE_STENCIL_OP; VK_DYNAMIC_STATE_RASTERIZER_DISCARD_ENABLE;
   VK_DYNAMIC_STATE_DEPTH_BIAS_ENABLE; VK_DYNAMIC_STATE_LOGIC_OP_EXT; VK_DYNAMIC_STATE_COLOR_BLEND_ENABLE_EXT;
   VK_DYNAMIC_STATE_COLOR_BLEND_EQUATION_EXT; VK_DYNAMIC_STATE_COLOR_WRITE_MASK_EXT;
   VK_DYNAMIC_STATE_DEPTH_CLAMP_ENABLE_EXT; VK_DYNAMIC_STATE_LOGIC_OP_ENABLE_EXT; VK_DYNAMIC_STATE_POLYGON_MODE_EXT].
Definition create_pipeline (stages : list shader_stage) (color_count : Z) (dynamic : list dynamic_state) : M Vk Z :=
  c ← gets context;
  expect (CreateGraphicsPipelines stages color_count (vk VK_FORMAT_B8G8R8A8_SRGB) (vk VK_FORMAT_D24_UNORM_S8_UINT)
            (m_vk_pipeline_layout c) dynamic).

Definition Initialize_primitive (shader_info : PrimitiveShaderInfo) : M Vk Shader :=
  vertex ← module_of (vertex_code shader_info);
  control ← module_of (tessellation_control_code shader_info);
  evaluation ← module_of (tessellation_evaluation_code shader_info);
  geometry ← module_of (geometry_code shader_info);
  fragment ← module_of (fragment_code shader_info);
  pipeline ← create_pipeline
    (stage_of VK_SHADER_STAGE_VERTEX_BIT vertex ++ stage_of VK_SHADER_STAGE_TESSELLATION_CONTROL_BIT control ++
     stage_of VK_SHADER_STAGE_TESSELLATION_EVALUATION_BIT evaluation ++ stage_of VK_SHADER_STAGE_GEOMETRY_BIT geometry ++
     stage_of VK_SHADER_STAGE_FRAGMENT_BIT fragment) (color_attachment_count shader_info) primitive_dynamic_states;
  _ ← destroy_module vertex; _ ← destroy_module control; _ ← destroy_module evaluation; _ ← destroy_module geometry;
  _ ← destroy_module fragment;
  mret (MkShader pipeline PipelineType_Primitive).
Definition Initialize_compute (compute_code : code) : M Vk Shader :=
  compute ← module_of compute_code;
  c ← gets context;
  pipeline ← expect (CreateComputePipelines (MkStage (vk VK_SHADER_STAGE_COMPUTE_BIT) compute) (m_vk_pipeline_layout c));
  _ ← destroy_module compute;
  mret (MkShader pipeline PipelineType_Compute).
Definition Initialize_mesh (shader_info : MeshShaderInfo) : M Vk Shader :=
  task ← module_of (task_code shader_info);
  mesh ← module_of (mesh_code shader_info);
  fragment ← module_of (mesh_fragment_code shader_info);
  pipeline ← create_pipeline
    (stage_of VK_SHADER_STAGE_TASK_BIT_EXT task ++ stage_of VK_SHADER_STAGE_MESH_BIT_EXT mesh ++
     stage_of VK_SHADER_STAGE_FRAGMENT_BIT fragment) (mesh_attachment_count shader_info) mesh_dynamic_states;
  _ ← destroy_module task; _ ← destroy_module mesh; _ ← destroy_module fragment;
  mret (MkShader pipeline PipelineType_Mesh).
Definition Shader_Finalize (this : Shader) : M Vk Shader :=
  _ ← (if m_vk_pipeline this =? 0 then mret tt else record (DestroyPipeline (m_vk_pipeline this)));
  mret no_shader.
Definition GetPipelineBindPoint (this : Shader) : Z :=
  vk match m_pipeline_type this with
     | PipelineType_Primitive | PipelineType_Mesh => VK_PIPELINE_BIND_POINT_GRAPHICS
     | PipelineType_RayTracing => VK_PIPELINE_BIND_POINT_RAY_TRACING_KHR
     | PipelineType_Compute => VK_PIPELINE_BIND_POINT_COMPUTE
     | PipelineType_Invalid => VK_PIPELINE_BIND_POINT_GRAPHICS
     end.
End shader.
End VkShader.

Section shader_theorems.
Import VkShader.
Context `{!VkHeader, !Driver}.

(** A module that is created has a handle. *)
Definition gives_modules : Prop := forall l size address, value (answers l (CreateShaderModule size address)) <> 0.

(** What the driver answers to calls one after the other. *)
Fixpoint answers_to (l cs : list call) : list Z :=
  match cs with [] => [] | c :: cs => value (answers l c) :: answers_to (l ++ [c]) cs end.

(** The stages whose code is given. *)
Definition present (stages : list (vk_name * code)) : list (vk_name * code) := filter (fun x => code_address (snd x) <> 0) stages.
Definition creations (stages : list (vk_name * code)) : list call :=
  (fun x => CreateShaderModule (code_size (snd x)) (code_address (snd x))) <$> present stages.
Definition pipeline_stages (l : list call) (stages : list (vk_name * code)) : list shader_stage :=
  zip_with MkStage ((fun x => vk (fst x)) <$> present stages) (answers_to l (creations stages)).
Definition destructions (stages : list shader_stage) : list call := (fun st => DestroyShaderModule (ss_module st)) <$> stages.

Lemma module_run {A} c l ctx P B T V (k : Z -> M Vk A) : reliable ->
  (module_of c ≫= k) (MkVk l ctx P B T V) =
  if code_address c =? 0 then k 0 (MkVk l ctx P B T V)
  else k (value (answers l (CreateShaderModule (code_size c) (code_address c))))
         (MkVk (l ++ [CreateShaderModule (code_size c) (code_address c)]) ctx P B T V).
Proof. intros Hr. unfold module_of. destruct (code_address c =? 0); [done|]. by rewrite expect_run. Qed.

Lemma destroy_run {A} m l ctx P B T V (k : unit -> M Vk A) :
  (destroy_module m ≫= k) (MkVk l ctx P B T V) =
  k tt (MkVk (l ++ (if m =? 0 then [] else [DestroyShaderModule m])) ctx P B T V).
Proof. unfold destroy_module. destruct (m =? 0); [by rewrite app_nil_r|done]. Qed.

Lemma present_cons x stages : present (x :: stages) = if code_address (snd x) =? 0 then present stages else x :: present stages.
Proof.
  unfold present. rewrite filter_cons. destruct (Z.eqb_spec (code_address (snd x)) 0) as [E|E].
  - by rewrite decide_False by (by intros []).
  - by rewrite decide_True.
Qed.

Definition primitive_stages (i : PrimitiveShaderInfo) : list (vk_name * code) :=
  [(VK_SHADER_STAGE_VERTEX_BIT, vertex_code i); (VK_SHADER_STAGE_TESSELLATION_CONTROL_BIT, tessellation_control_code i);
   (VK_SHADER_STAGE_TESSELLATION_EVALUATION_BIT, tessellation_evaluation_code i); (VK_SHADER_STAGE_GEOMETRY_BIT, geometry_code i);
   (VK_SHADER_STAGE_FRAGMENT_BIT, fragment_code i)].

(** Splits on the presence of each stage's code, then runs the creations, the pipeline and the destructions. *)
Ltac split_codes :=
  repeat match goal with |- context [code_address ?c =? 0] => destruct (code_address c =? 0) eqn:? end.
Ltac shader_step Hr Hm :=
  first
    [ rewrite module_run by exact Hr;
      match goal with E : (code_address ?c =? 0) = _ |- context [if code_address ?c =? 0 then _ else _] => rewrite E end
    | rewrite destroy_run | rewrite M_bind_assoc | rewrite M_gets_bind | rewrite expect_run by exact Hr ];
  cbn [context]; rewrite ?(fun l n a => proj2 (Z.eqb_neq _ 0) (Hm l n a)), ?Z.eqb_refl.
Ltac run_shader Hr Hm :=
  repeat shader_step Hr Hm; do 2 eexists; split; [reflexivity|];
  cbn [log context stage_of fmap list_fmap fst snd answers_to zip_with app ss_module]; unfold stage_of;
  rewrite ?(fun l n a => proj2 (Z.eqb_neq _ 0) (Hm l n a)), ?Z.eqb_refl; split; [|done];
  rewrite ?app_nil_r, <- ?app_assoc; reflexivity.

(** Initialize of a primitive shader creates a module for each stage whose code is given, creates a pipeline with
    exactly these stages in the order of the pipeline, and destroys exactly the modules it has created. *)
Theorem primitive_shader (i : PrimitiveShaderInfo) (s : Vk) : reliable -> gives_modules ->
  let stages := pipeline_stages (log s) (primitive_stages i) in
  let create := CreateGraphicsPipelines stages (color_attachment_count i) (vk VK_FORMAT_B8G8R8A8_SRGB)
                  (vk VK_FORMAT_D24_UNORM_S8_UINT) (m_vk_pipeline_layout (context s)) primitive_dynamic_states in
  exists s' pipeline, Initialize_primitive i s = Ok (MkShader pipeline PipelineType_Primitive, s') /\
    log s' = log s ++ creations (primitive_stages i) ++ create :: destructions stages /\ context s' = context s.
Proof.
  intros Hr Hm stages create. subst stages create. destruct s as [l c P B T V].
  unfold Initialize_primitive, create_pipeline, pipeline_stages, creations, destructions, primitive_stages.
  rewrite !present_cons. cbn [snd log context]. split_codes; run_shader Hr Hm.
Qed.

Definition mesh_stages (i : MeshShaderInfo) : list (vk_name * code) :=
  [(VK_SHADER_STAGE_TASK_BIT_EXT, task_code i); (VK_SHADER_STAGE_MESH_BIT_EXT, mesh_code i); (VK_SHADER_STAGE_FRAGMENT_BIT, mesh_fragment_code i)].

(** The same of a mesh shader, with its task, mesh and fragment stages. *)
Theorem mesh_shader (i : MeshShaderInfo) (s : Vk) : reliable -> gives_modules ->
  let stages := pipeline_stages (log s) (mesh_stages i) in
  let create := CreateGraphicsPipelines stages (mesh_attachment_count i) (vk VK_FORMAT_B8G8R8A8_SRGB)
                  (vk VK_FORMAT_D24_UNORM_S8_UINT) (m_vk_pipeline_layout (context s)) mesh_dynamic_states in
  exists s' pipeline, Initialize_mesh i s = Ok (MkShader pipeline PipelineType_Mesh, s') /\
    log s' = log s ++ creations (mesh_stages i) ++ create :: destructions stages /\ context s' = context s.
Proof.
  intros Hr Hm stages create. subst stages create. destruct s as [l c P B T V].
  unfold Initialize_mesh, create_pipeline, pipeline_stages, creations, destructions, mesh_stages.
  rewrite !present_cons. cbn [snd log context]. split_codes; run_shader Hr Hm.
Qed.
End shader_theorems.

Section shader_examples.
Import VkShader.
Local Instance header : VkHeader := some_header.
Local Instance driver : Driver := counting_driver.

Lemma counting_modules : gives_modules.
Proof. intros l size address. unfold value, answers, driver, counting_driver. cbn. lia. Qed.

Lemma primitive_shader_witness :
  exists s' p, Initialize_primitive (MkPrimitive 1 (MkCode 64 4096) (MkCode 0 0) (MkCode 0 0) (MkCode 0 0) (MkCode 32 8192)) (some_vk (some_pool false 0))
      = Ok (MkShader p PipelineType_Primitive, s') /\
    log s' = [CreateShaderModule 64 4096; CreateShaderModule 32 8192; CreateGraphicsPipelines [MkStage 0 1; MkStage 0 2] 1 0 0 0 primitive_dynamic_states;
              DestroyShaderModule 1; DestroyShaderModule 2].
Proof.
  destruct (primitive_shader (MkPrimitive 1 (MkCode 64 4096) (MkCode 0 0) (MkCode 0 0) (MkCode 0 0) (MkCode 32 8192))
    (some_vk (some_pool false 0)) counting_reliable counting_modules) as (s' & p & E & Hl & _).
  exists s', p. split; [exact E|]. rewrite Hl. vm_compute. reflexivity.
Defined.

Lemma mesh_shader_witness :
  exists s' p, Initialize_mesh (MkMesh 1 (MkCode 0 0) (MkCode 64 4096) (MkCode 32 8192)) (some_vk (some_pool false 0))
      = Ok (MkShader p PipelineType_Mesh, s') /\ length (log s') = 5%nat.
Proof.
  destruct (mesh_shader (MkMesh 1 (MkCode 0 0) (MkCode 64 4096) (MkCode 32 8192)) (some_vk (some_pool false 0))
    counting_reliable counting_modules) as (s' & p & E & Hl & _).
  exists s', p. split; [exact E|]. rewrite Hl. vm_compute. reflexivity.
Defined.
End shader_examples.
