(* ===== verification/VkCommands.v ===== *)
(** Command buffers (vk_commandbuffer.hpp, vk_commandbuffer.vulkan.cpp): the rendering that is begun and ended as
    the commands need it, the resources of the stages, the states of the pipeline.

    A command buffer keeps its resources ([Resources], with the content of the mapped memory the stages' resource
    buffers are copied to), its targets ([Targets]) and the objects it refers to ([device]). *)
From stdpp Require Import gmap.
From S2P Require Import Prelude Alignment Float32 Vulkan VkContext VkMemory VkDescriptors VkShader.

Module VkCommands.
Import VkShader.
(** * The states of the pipeline *)
Record ColorBlendCmdState : Type := MkColorBlend {
  color_blend_count : Z; color_blend_enables : list bool; vk_color_blend_equations : list (list Z);
  vk_color_blend_write_masks : list Z; logic_op_enable : bool; vk_logic_op : Z; blend_constants : list Float32.f32
}.
Record StencilOpState : Type := MkStencil {
  failOp : Z; passOp : Z; depthFailOp : Z; compareOp : Z; compareMask : Z; writeMask : Z; reference : Z
}.
Record DepthStencilCmdState : Type := MkDepthStencil {
  depth_test_enable : bool; depth_write_enable : bool; depth_bounds_test_enable : bool; stencil_test_enable : bool;
  vk_op_state_front : StencilOpState; vk_op_state_back : StencilOpState; vk_depth_compare_op : Z;
  min_depth_bounds : Float32.f32; max_depth_bounds : Float32.f32
}.
Record RasterizerCmdState : Type := MkRasterizer {
  vk_cull_mode : Z; vk_front_face : Z; vk_polygon_mode : Z; rasterizer_discard_enable : bool; primitive_restart_enable : bool;
  depth_bias_enable : bool; depth_clamp_enable : bool; depth_bias_constant_factor : Float32.f32; depth_bias_clamp : Float32.f32;
  depth_bias_slope_factor : Float32.f32; line_width : Float32.f32
}.
(** The arrays of bindings and attributes, each element as its members. *)
Record VertexCmdState : Type := MkVertex { vertex_binding_array : list (list Z); vertex_attribute_array : list (list Z) }.
Record PipelineCmdState : Type := MkPipelineState {
  color_blend_state : ColorBlendCmdState; depth_stencil_state : DepthStencilCmdState; rasterizer_state : RasterizerCmdState;
  vertex_state : VertexCmdState
}.
Record BarrierCmdState : Type := MkBarrierState {
  vk_src_stage_mask : Z; vk_dst_stage_mask : Z; vk_src_access_mask : Z; vk_dst_access_mask : Z; vk_src_layout : Z; vk_dst_layout : Z
}.

Section defaults.
Context `{!VkHeader}.
Definition all_components : Z :=
  Z.lor (Z.lor (Z.lor (vk VK_COLOR_COMPONENT_R_BIT) (vk VK_COLOR_COMPONENT_G_BIT)) (vk VK_COLOR_COMPONENT_B_BIT)) (vk VK_COLOR_COMPONENT_A_BIT).
(** The blend equations and logic_op_enable are not assigned. *)
Definition ColorBlend_SetDefaults (s : ColorBlendCmdState) : ColorBlendCmdState :=
  let n := Z.to_nat VkContext.TargetColorAttachmentCount in
  MkColorBlend 1 (replicate n false) (vk_color_blend_equations s) (replicate n all_components) (logic_op_enable s) (vk VK_LOGIC_OP_COPY)
    [Float32.of_Z 0; Float32.of_Z 0; Float32.of_Z 0; Float32.of_Z 1].
Definition default_stencil : StencilOpState :=
  MkStencil (vk VK_STENCIL_OP_KEEP) (vk VK_STENCIL_OP_KEEP) (vk VK_STENCIL_OP_KEEP) (vk VK_COMPARE_OP_ALWAYS) 0 0 0.
Definition DepthStencil_SetDefaults : DepthStencilCmdState :=
  MkDepthStencil true true false false default_stencil default_stencil (vk VK_COMPARE_OP_GREATER) (Float32.of_Z 0) (Float32.of_Z 1).
Definition Rasterizer_SetDefaults : RasterizerCmdState :=
  MkRasterizer (vk VK_CULL_MODE_NONE) (vk VK_FRONT_FACE_CLOCKWISE) (vk VK_POLYGON_MODE_FILL) false false false false
    (Float32.of_Z 0) (Float32.of_Z 0) (Float32.of_Z 0) (Float32.of_Z 1).
Definition Vertex_SetDefaults : VertexCmdState := MkVertex [] [].
Definition Pipeline_SetDefaults (s : PipelineCmdState) : PipelineCmdState :=
  let color := ColorBlend_SetDefaults (color_blend_state s) in
  MkPipelineState (ColorBlend_SetDefaults color) DepthStencil_SetDefaults Rasterizer_SetDefaults (vertex_state s).
(** The layouts are members of the texture's state only. *)
Definition Barrier_SetDefaults : BarrierCmdState :=
  MkBarrierState (vk VK_ACCESS_NONE) (vk VK_ACCESS_NONE) (vk VK_ACCESS_NONE) (vk VK_ACCESS_NONE)
    (vk VK_IMAGE_LAYOUT_UNDEFINED) (vk VK_IMAGE_LAYOUT_UNDEFINED).
End defaults.

(** * The command buffer *)
Record ResourceBuffer : Type := MkResourceBuffer {
  uniform_buffers : list Z; storage_buffers : list Z; texture_ids : list Z; sampler_ids : list Z
}.
Definition zeros (n : Z) : list Z := replicate (Z.to_nat n) 0.
Definition ResourceBuffer_SetDefaults : ResourceBuffer :=
  MkResourceBuffer (zeros VkContext.TargetMaxPerStageUniformBufferCount) (zeros VkContext.TargetMaxPerStageStorageBufferCount)
    (zeros VkContext.TargetMaxPerStageTextureCount) (zeros VkContext.TargetMaxPerStageTextureCount).
(** sizeof(ResourceBuffer), as the static assertion has it. *)
Definition ResourceBuffer_size : Z := 512.
Definition TargetMaxResourceUpdatesPerSubmission : Z := 120.
Definition TargetResourceBufferPerStageSize : Z :=
  Alignment.AlignUp 64 (ResourceBuffer_size * TargetMaxResourceUpdatesPerSubmission) VkContext.TargetConstantBufferAlignment.
Definition GetDrawMemorySize (max_shader_stages max_draws : Z) : Z :=
  u64 (u32 (max_shader_stages * max_draws) * TargetResourceBufferPerStageSize).

Record Resources : Type := MkResources {
  m_resource_buffer_per_stage_array : list ResourceBuffer;
  m_resource_buffer_mapped_address : Z; m_vk_resource_buffer_memory : Z; m_vk_resource_buffer : Z; m_vk_resource_buffer_address : Z;
  m_need_resource_update : list bool;      (* the six members m_need_vertex_resource_update and the following *)
  m_resource_update_count : Z;
  mapped_memory : gmap Z ResourceBuffer
}.
Record Targets : Type := MkTargets {
  m_color_targets : list (option Z); m_depth_stencil_target : option Z;
  m_vk_clear_color : list Float32.f32; m_vk_clear_depth_stencil : Float32.f32 * Z;
  m_is_rendering : bool; m_are_new_targets : bool; m_render_width : Z; m_render_height : Z;
  m_fast_clear_color : bool; m_fast_clear_depth_stencil : bool
}.
Record CommandBuffer : Type := MkCommandBuffer { m_vk_command_buffer : Z; resources : Resources; targets : Targets; device : Vk }.

Definition with_resources (f : Resources -> Resources) (s : CommandBuffer) : CommandBuffer :=
  MkCommandBuffer (m_vk_command_buffer s) (f (resources s)) (targets s) (device s).
Definition with_targets (f : Targets -> Targets) (s : CommandBuffer) : CommandBuffer :=
  MkCommandBuffer (m_vk_command_buffer s) (resources s) (f (targets s)) (device s).
Definition set_stages (l : list ResourceBuffer) (r : Resources) : Resources :=
  MkResources l (m_resource_buffer_mapped_address r) (m_vk_resource_buffer_memory r) (m_vk_resource_buffer r) (m_vk_resource_buffer_address r)
    (m_need_resource_update r) (m_resource_update_count r) (mapped_memory r).
Definition set_updates (need : list bool) (count : Z) (r : Resources) : Resources :=
  MkResources (m_resource_buffer_per_stage_array r) (m_resource_buffer_mapped_address r) (m_vk_resource_buffer_memory r)
    (m_vk_resource_buffer r) (m_vk_resource_buffer_address r) need count (mapped_memory r).
Definition write_mapped (a : Z) (b : ResourceBuffer) (r : Resources) : Resources :=
  MkResources (m_resource_buffer_per_stage_array r) (m_resource_buffer_mapped_address r) (m_vk_resource_buffer_memory r)
    (m_vk_resource_buffer r) (m_vk_resource_buffer_address r) (m_need_resource_update r) (m_resource_update_count r)
    (<[a := b]> (mapped_memory r)).
Definition set_memory (memory buffer mapped address : Z) (r : Resources) : Resources :=
  MkResources (m_resource_buffer_per_stage_array r) mapped memory buffer address (m_need_resource_update r) (m_resource_update_count r)
    (mapped_memory r).
Definition set_rendering (b : bool) (t : Targets) : Targets :=
  MkTargets (m_color_targets t) (m_depth_stencil_target t) (m_vk_clear_color t) (m_vk_clear_depth_stencil t) b (m_are_new_targets t)
    (m_render_width t) (m_render_height t) (m_fast_clear_color t) (m_fast_clear_depth_stencil t).
Definition set_targets (colors : list (option Z)) (depth : option Z) (new : bool) (t : Targets) : Targets :=
  MkTargets colors depth (m_vk_clear_color t) (m_vk_clear_depth_stencil t) (m_is_rendering t) new
    (m_render_width t) (m_render_height t) (m_fast_clear_color t) (m_fast_clear_depth_stencil t).
Definition set_dimensions (w h : Z) (t : Targets) : Targets :=
  MkTargets (m_color_targets t) (m_depth_stencil_target t) (m_vk_clear_color t) (m_vk_clear_depth_stencil t) (m_is_rendering t)
    (m_are_new_targets t) w h (m_fast_clear_color t) (m_fast_clear_depth_stencil t).
Definition set_fast_color (c : list Float32.f32) (t : Targets) : Targets :=
  MkTargets (m_color_targets t) (m_depth_stencil_target t) c (m_vk_clear_depth_stencil t) (m_is_rendering t)
    (m_are_new_targets t) (m_render_width t) (m_render_height t) true (m_fast_clear_depth_stencil t).
Definition set_fast_depth (v : Float32.f32 * Z) (t : Targets) : Targets :=
  MkTargets (m_color_targets t) (m_depth_stencil_target t) (m_vk_clear_color t) v (m_is_rendering t)
    (m_are_new_targets t) (m_render_width t) (m_render_height t) (m_fast_clear_color t) true.

(** A computation on the device's objects. *)
Definition on_vk {A} (m : M Vk A) : M CommandBuffer A := fun s =>
  match m (device s) with
  | Ok (a, v) => Ok (a, MkCommandBuffer (m_vk_command_buffer s) (resources s) (targets s) v)
  | Fault f => Fault f
  end.

(** * The operations *)
Section commands.
Context `{!VkHeader, !Driver}.
Local Abbreviation cmd := (M CommandBuffer).

Definition command (c : call) : cmd unit := on_vk (record c).

Definition EndRenderingIfRendering : cmd unit :=
  t ← gets targets;
  if m_is_rendering t then _ ← modify (with_targets (set_rendering false)); command CmdEndRendering else mret tt.

Definition load_op (clear : bool) : Z := vk (if clear then VK_ATTACHMENT_LOAD_OP_CLEAR else VK_ATTACHMENT_LOAD_OP_DONT_CARE).
(** The color attachments are those of the targets before the first null. *)
Fixpoint color_attachments (t : Targets) (color_targets : list (option Z)) : M Vk (list attachment) :=
  match color_targets with
  | Some target :: color_targets =>
    v ← object views target;
    rest ← color_attachments t color_targets;
    mret (MkAttachment (m_vk_image_view v) (vk VK_IMAGE_LAYOUT_ATTACHMENT_OPTIMAL_KHR) (load_op (m_fast_clear_color t)) (m_vk_clear_color t, 0) :: rest)
  | _ => mret []
  end.
Definition depth_stencil_attachment (t : Targets) : M Vk (option attachment) :=
  match m_depth_stencil_target t with
  | None => mret None
  | Some target =>
    v ← object views target;
    mret (Some (MkAttachment (m_vk_image_view v) (vk VK_IMAGE_LAYOUT_GENERAL) (load_op (m_fast_clear_depth_stencil t))
                  ([fst (m_vk_clear_depth_stencil t)], snd (m_vk_clear_depth_stencil t))))
  end.
Definition begin_rendering : cmd unit :=
  t ← gets targets;
  colors ← on_vk (color_attachments t (m_color_targets t));
  depth ← on_vk (depth_stencil_attachment t);
  _ ← command (CmdBeginRendering (MkRendering (m_render_width t) (m_render_height t) colors depth depth));
  modify (with_targets (set_rendering true)).
Definition BeginRenderingIfNotRendering : cmd unit :=
  t ← gets targets;
  if m_are_new_targets t then
    _ ← modify (with_targets (set_targets (m_color_targets t) (m_depth_stencil_target t) false));
    _ ← EndRenderingIfRendering;
    begin_rendering
  else if m_is_rendering t then mret tt
  else begin_rendering.

(** One block of UpdateResourceBufferIfNecessary: the stage's resources are copied to the next place of the mapped
    memory and its device address is pushed. *)
Definition update_stage (stage : ShaderStage) (bit : vk_name) (slot : Z) : cmd unit :=
  r ← gets resources;
  need ← lift (arr_get (m_need_resource_update r) (Z.of_nat (stage_number stage)));
  if (need : bool) then
    let offset := ResourceBuffer_size * m_resource_update_count r in
    b ← lift (arr_get (m_resource_buffer_per_stage_array r) (Z.of_nat (stage_number stage)));
    _ ← modify (with_resources (write_mapped (u64 (m_resource_buffer_mapped_address r + offset)) b));
    layout ← gets (fun s => m_vk_pipeline_layout (context (device s)));
    _ ← command (CmdPushConstants layout (vk bit) (8 * slot) 8 (u64 (m_vk_resource_buffer_address r + offset)));
    flags ← lift (arr_set (m_need_resource_update r) (Z.of_nat (stage_number stage)) false);
    modify (with_resources (set_updates flags (u32 (m_resource_update_count r + 1))))
  else mret tt.
(** The blocks, in the order of the code: the tessellation control stage is pushed to the second place and the
    evaluation stage to the third. *)
Definition stage_blocks : list (ShaderStage * vk_name * Z) :=
  [(ShaderStage_Vertex, VK_SHADER_STAGE_VERTEX_BIT, 0);
   (ShaderStage_TessellationControl, VK_SHADER_STAGE_TESSELLATION_CONTROL_BIT, 1);
   (ShaderStage_TessellationEvaluation, VK_SHADER_STAGE_TESSELLATION_EVALUATION_BIT, 2);
   (ShaderStage_Geometry, VK_SHADER_STAGE_GEOMETRY_BIT, 3); (ShaderStage_Fragment, VK_SHADER_STAGE_FRAGMENT_BIT, 4);
   (ShaderStage_Compute, VK_SHADER_STAGE_COMPUTE_BIT, 5)].
Fixpoint update_stages (blocks : list (ShaderStage * vk_name * Z)) : cmd unit :=
  match blocks with [] => mret tt | (stage, bit, slot) :: blocks => _ ← update_stage stage bit slot; update_stages blocks end.
Definition UpdateResourceBufferIfNecessary : cmd unit :=
  r ← gets resources;
  _ ← dd_assert (negb (m_resource_buffer_mapped_address r =? 0));
  update_stages stage_blocks.

Definition Initialize (draw_memory_size : Z) : cmd unit :=
  c ← gets (fun s => context (device s));
  cb ← on_vk (expect (AllocateCommandBuffers (m_vk_graphics_command_pool c)));
  let memory_type := s32 (VkContext.FindMemoryHeapIndex c (Z.lor (Z.lor (vk VK_MEMORY_PROPERTY_DEVICE_LOCAL_BIT)
                       (vk VK_MEMORY_PROPERTY_HOST_VISIBLE_BIT)) (vk VK_MEMORY_PROPERTY_HOST_COHERENT_BIT))) in
  _ ← dd_assert (negb (memory_type =? -1));
  memory ← on_vk (expect (AllocateMemory draw_memory_size (u32 memory_type) true None));
  buffer ← on_vk (expect (CreateBuffer draw_memory_size (vk VK_BUFFER_USAGE_SHADER_DEVICE_ADDRESS_BIT) false));
  _ ← on_vk (expect (BindBufferMemory buffer memory 0));
  mapped ← on_vk (expect (MapMemory memory));
  address ← on_vk (submit (GetBufferDeviceAddress buffer));
  modify (fun s => MkCommandBuffer cb (set_memory memory buffer mapped (value address) (resources s)) (targets s) (device s)).
Definition Finalize : cmd unit :=
  s ← get; let r := resources s in
  _ ← command (FreeCommandBuffers (m_vk_graphics_command_pool (context (device s))) (m_vk_command_buffer s));
  _ ← command (DestroyBuffer (m_vk_resource_buffer r));
  _ ← (if m_resource_buffer_mapped_address r =? 0 then mret tt
       else _ ← command (UnmapMemory (m_vk_resource_buffer_memory r));
            modify (with_resources (set_memory (m_vk_resource_buffer_memory r) (m_vk_resource_buffer r) 0 (m_vk_resource_buffer_address r))));
  command (FreeMemory (m_vk_resource_buffer_memory r)).

Definition Begin : cmd unit :=
  s ← get;
  _ ← on_vk (expect (BeginCommandBuffer (m_vk_command_buffer s)));
  modify (with_resources (fun r =>
    set_updates (m_need_resource_update r) 0 (set_stages (replicate (Z.to_nat VkContext.TargetShaderStages) ResourceBuffer_SetDefaults) r))).
Definition End : cmd unit :=
  _ ← EndRenderingIfRendering;
  s ← get;
  _ ← on_vk (expect (EndCommandBuffer (m_vk_command_buffer s)));
  mret tt.

Definition SetTextureStateTransition (texture : Z) (barrier_state : BarrierCmdState) (aspect_mask : Z) : cmd unit :=
  _ ← (if vk_dst_stage_mask barrier_state =? vk VK_PIPELINE_STAGE_BOTTOM_OF_PIPE_BIT then EndRenderingIfRendering else mret tt);
  t ← on_vk (object textures texture);
  _ ← command (CmdImageBarrier (m_vk_image t) aspect_mask
        (MkBarrier (vk_src_stage_mask barrier_state) (vk_src_access_mask barrier_state) (vk_dst_stage_mask barrier_state)
           (vk_dst_access_mask barrier_state) (vk_src_layout barrier_state) (vk_dst_layout barrier_state)));
  on_vk (VkMemory.SetImageLayout texture (vk_dst_layout barrier_state)).
Definition ClearColorTarget (color_target : Z) (color : list Float32.f32) : cmd unit :=
  _ ← EndRenderingIfRendering;
  image ← on_vk (VkMemory.View_GetImage color_target);
  _ ← command (CmdClearColorImage image (vk VK_IMAGE_LAYOUT_GENERAL) color);
  v ← on_vk (object views color_target);
  SetTextureStateTransition (m_view_texture v)
    (MkBarrierState (vk VK_PIPELINE_STAGE_TRANSFER_BIT) (vk VK_PIPELINE_STAGE_COLOR_ATTACHMENT_OUTPUT_BIT) (vk VK_ACCESS_TRANSFER_WRITE_BIT)
       (vk VK_ACCESS_COLOR_ATTACHMENT_WRITE_BIT) (vk VK_IMAGE_LAYOUT_GENERAL) (vk VK_IMAGE_LAYOUT_GENERAL)) (vk VK_IMAGE_ASPECT_COLOR_BIT).
Definition ClearDepthStencilTarget (depth_stencil_target : Z) (clear_value : Float32.f32 * Z) : cmd unit :=
  _ ← EndRenderingIfRendering;
  image ← on_vk (VkMemory.View_GetImage depth_stencil_target);
  _ ← command (CmdClearDepthStencilImage image (vk VK_IMAGE_LAYOUT_GENERAL) ([fst clear_value], snd clear_value));
  v ← on_vk (object views depth_stencil_target);
  SetTextureStateTransition (m_view_texture v)
    (MkBarrierState (vk VK_PIPELINE_STAGE_TRANSFER_BIT)
       (Z.lor (vk VK_PIPELINE_STAGE_EARLY_FRAGMENT_TESTS_BIT) (vk VK_PIPELINE_STAGE_LATE_FRAGMENT_TESTS_BIT)) (vk VK_ACCESS_TRANSFER_WRITE_BIT)
       (vk VK_ACCESS_DEPTH_STENCIL_ATTACHMENT_WRITE_BIT) (vk VK_IMAGE_LAYOUT_GENERAL) (vk VK_IMAGE_LAYOUT_GENERAL))
    (Z.lor (vk VK_IMAGE_ASPECT_DEPTH_BIT) (vk VK_IMAGE_ASPECT_STENCIL_BIT)).
Definition RegisterFastClearColor (color_value : list Float32.f32) : cmd unit := modify (with_targets (set_fast_color (take 4 color_value))).
Definition RegisterFastClearDepthStencil (depth_stencil_value : Float32.f32 * Z) : cmd unit :=
  modify (with_targets (set_fast_depth depth_stencil_value)).

(** A buffer that requires it is relocated outside of a rendering. *)
Definition relocate_if_required (buffer : Z) : cmd unit :=
  required ← on_vk (VkMemory.Buffer_RequiresRelocation buffer);
  if (required : bool) then _ ← EndRenderingIfRendering; on_vk (VkMemory.Buffer_Relocate buffer) else mret tt.
Definition DrawInstanced (topology vertex_count base_vertex instance_count base_instance : Z) : cmd unit :=
  _ ← UpdateResourceBufferIfNecessary;
  _ ← BeginRenderingIfNotRendering;
  _ ← command (CmdSetPrimitiveTopology topology);
  command (CmdDraw vertex_count instance_count base_vertex base_instance).
Definition Draw (topology vertex_count base_vertex : Z) : cmd unit :=
  _ ← UpdateResourceBufferIfNecessary;
  _ ← BeginRenderingIfNotRendering;
  _ ← command (CmdSetPrimitiveTopology topology);
  command (CmdDraw vertex_count 1 base_vertex 0).
Definition DrawInstancedIndexed (topology index_format index_buffer index_count base_index instance_count base_instance : Z) : cmd unit :=
  _ ← relocate_if_required index_buffer;
  _ ← UpdateResourceBufferIfNecessary;
  _ ← BeginRenderingIfNotRendering;
  b ← on_vk (object buffers index_buffer);
  _ ← command (CmdBindIndexBuffer (m_vk_buffer b) 0 index_format);
  _ ← command (CmdSetPrimitiveTopology topology);
  command (CmdDrawIndexed index_count instance_count base_index 0 base_instance).
Definition DrawIndexed (topology index_format index_buffer index_count base_index : Z) : cmd unit :=
  _ ← relocate_if_required index_buffer;
  _ ← UpdateResourceBufferIfNecessary;
  _ ← BeginRenderingIfNotRendering;
  b ← on_vk (object buffers index_buffer);
  _ ← command (CmdBindIndexBuffer (m_vk_buffer b) 0 index_format);
  _ ← command (CmdSetPrimitiveTopology topology);
  command (CmdDrawIndexed index_count 1 base_index 0 0).

Definition SetShader (shader : Shader) : cmd unit := command (CmdBindPipeline (GetPipelineBindPoint shader) (m_vk_pipeline shader)).
Definition set (name : dynamic_state) (integers : list Z) (numbers : list Float32.f32) : cmd unit := command (CmdSet name integers numbers).
Definition of_bool (b : bool) : Z := vk (if b then VK_TRUE else VK_FALSE).
(** The arrays are read up to the count. *)
Definition SetColorBlendState (s : ColorBlendCmdState) : cmd unit :=
  let n := Z.to_nat (color_blend_count s) in
  _ ← set VK_DYNAMIC_STATE_LOGIC_OP_ENABLE_EXT [of_bool (logic_op_enable s)] [];
  _ ← set VK_DYNAMIC_STATE_LOGIC_OP_EXT [vk_logic_op s] [];
  _ ← set VK_DYNAMIC_STATE_BLEND_CONSTANTS [] (blend_constants s);
  _ ← set VK_DYNAMIC_STATE_COLOR_BLEND_ENABLE_EXT (of_bool <$> take n (color_blend_enables s)) [];
  _ ← set VK_DYNAMIC_STATE_COLOR_BLEND_EQUATION_EXT (concat (take n (vk_color_blend_equations s))) [];
  set VK_DYNAMIC_STATE_COLOR_WRITE_MASK_EXT (take n (vk_color_blend_write_masks s)) [].
Definition stencil_face (name : dynamic_state) (front back : Z) : cmd unit :=
  _ ← set name [vk VK_STENCIL_FACE_FRONT_BIT; front] []; set name [vk VK_STENCIL_FACE_BACK_BIT; back] [].
Definition SetDepthStencilState (s : DepthStencilCmdState) : cmd unit :=
  let front := vk_op_state_front s in let back := vk_op_state_back s in
  _ ← set VK_DYNAMIC_STATE_DEPTH_TEST_ENABLE [of_bool (depth_test_enable s)] [];
  _ ← set VK_DYNAMIC_STATE_DEPTH_WRITE_ENABLE [of_bool (depth_write_enable s)] [];
  _ ← set VK_DYNAMIC_STATE_DEPTH_BOUNDS_TEST_ENABLE [of_bool (depth_bounds_test_enable s)] [];
  _ ← set VK_DYNAMIC_STATE_DEPTH_BOUNDS [] [min_depth_bounds s; max_depth_bounds s];
  _ ← set VK_DYNAMIC_STATE_DEPTH_COMPARE_OP [vk_depth_compare_op s] [];
  _ ← set VK_DYNAMIC_STATE_STENCIL_TEST_ENABLE [of_bool (stencil_test_enable s)] [];
  _ ← stencil_face VK_DYNAMIC_STATE_STENCIL_COMPARE_MASK (compareMask front) (compareMask back);
  _ ← stencil_face VK_DYNAMIC_STATE_STENCIL_WRITE_MASK (writeMask front) (writeMask back);
  _ ← stencil_face VK_DYNAMIC_STATE_STENCIL_REFERENCE (reference front) (reference back);
  _ ← set VK_DYNAMIC_STATE_STENCIL_OP [vk VK_STENCIL_FACE_FRONT_BIT; failOp front; passOp front; depthFailOp front; compareOp front] [];
  set VK_DYNAMIC_STATE_STENCIL_OP [vk VK_STENCIL_FACE_BACK_BIT; failOp back; passOp back; depthFailOp back; compareOp back] [].
Definition SetRasterizerState (s : RasterizerCmdState) : cmd unit :=
  _ ← set VK_DYNAMIC_STATE_RASTERIZER_DISCARD_ENABLE [of_bool (rasterizer_discard_enable s)] [];
  _ ← set VK_DYNAMIC_STATE_PRIMITIVE_RESTART_ENABLE [of_bool (primitive_restart_enable s)] [];
  _ ← set VK_DYNAMIC_STATE_DEPTH_BIAS_ENABLE [of_bool (depth_bias_enable s)] [];
  _ ← set VK_DYNAMIC_STATE_DEPTH_BIAS [] [depth_bias_constant_factor s; depth_bias_clamp s; depth_bias_slope_factor s];
  _ ← set VK_DYNAMIC_STATE_LINE_WIDTH [] [line_width s];
  _ ← set VK_DYNAMIC_STATE_CULL_MODE [vk_cull_mode s] [];
  _ ← set VK_DYNAMIC_STATE_FRONT_FACE [vk_front_face s] [];
  _ ← set VK_DYNAMIC_STATE_DEPTH_CLAMP_ENABLE_EXT [of_bool (depth_clamp_enable s)] [];
  set VK_DYNAMIC_STATE_POLYGON_MODE_EXT [vk_polygon_mode s] [].
Definition SetVertexState (s : VertexCmdState) : cmd unit :=
  set VK_DYNAMIC_STATE_VERTEX_INPUT_EXT (Z.of_nat (length (vertex_binding_array s)) :: concat (vertex_binding_array s) ++
                        Z.of_nat (length (vertex_attribute_array s)) :: concat (vertex_attribute_array s)) [].
Definition SetPipelineState (s : PipelineCmdState) : cmd unit :=
  _ ← SetColorBlendState (color_blend_state s);
  _ ← SetDepthStencilState (depth_stencil_state s);
  _ ← SetRasterizerState (rasterizer_state s);
  SetVertexState (vertex_state s).
Definition SetViewports (viewports : list (list Float32.f32)) : cmd unit := set VK_DYNAMIC_STATE_VIEWPORT_WITH_COUNT [Z.of_nat (length viewports)] (concat viewports).
Definition SetScissors (scissors : list (list Z)) : cmd unit := set VK_DYNAMIC_STATE_SCISSOR_WITH_COUNT (Z.of_nat (length scissors) :: concat scissors) [].
Definition SetViewportScissors (viewports : list (list Float32.f32)) (scissors : list (list Z)) : cmd unit :=
  _ ← set VK_DYNAMIC_STATE_VIEWPORT_WITH_COUNT [Z.of_nat (length viewports)] (concat viewports);
  set VK_DYNAMIC_STATE_SCISSOR_WITH_COUNT (Z.of_nat (length scissors) :: concat scissors) [].

(** The loop that copies the targets; the array has eight places. *)
Fixpoint copy_targets (color_targets members : list (option Z)) (i : Z) : res (list (option Z)) :=
  match color_targets with [] => Ok members | c :: color_targets => members ← arr_set members i c; copy_targets color_targets members (i + 1) end.
(** [color_targets] has the elements of the array up to the count. *)
Definition SetRenderTargets (color_targets : list (option Z)) (depth_stencil_target : option Z) : cmd unit :=
  t ← gets targets;
  members ← lift (copy_targets color_targets (m_color_targets t) 0);
  _ ← modify (with_targets (set_targets members depth_stencil_target (m_are_new_targets t)));
  let n := Z.of_nat (length color_targets) in
  _ ← dd_assert ((0 <? n) && (n <=? 8));
  modify (with_targets (set_targets members depth_stencil_target true)).
Definition SetVertexBuffer (binding vertex_buffer stride size : Z) : cmd unit :=
  _ ← relocate_if_required vertex_buffer;
  b ← on_vk (object buffers vertex_buffer);
  command (CmdBindVertexBuffers binding (m_vk_buffer b) 0 size stride).
Definition SetBufferStateTransition (buffer : Z) (barrier_state : BarrierCmdState) : cmd unit :=
  _ ← relocate_if_required buffer;
  b ← on_vk (object buffers buffer);
  command (CmdBufferBarrier (m_vk_buffer b)
    (MkBarrier (vk_src_stage_mask barrier_state) (vk_src_access_mask barrier_state) (vk_dst_stage_mask barrier_state)
       (vk_dst_access_mask barrier_state) 0 0)).
Definition SetDescriptorPool (pool : VkDescriptors.DescriptorPool) : cmd unit :=
  let type := VkDescriptors.m_vk_pool_type pool in
  set_number ← (if type =? vk VK_DESCRIPTOR_TYPE_SAMPLED_IMAGE then mret 0
                else if type =? vk VK_DESCRIPTOR_TYPE_SAMPLER then mret 1 else throw AssertFailed);
  layout ← gets (fun s => m_vk_pipeline_layout (context (device s)));
  command (CmdBindDescriptorSets (vk VK_PIPELINE_BIND_POINT_GRAPHICS) layout set_number (VkDescriptors.m_vk_descriptor_set pool)).

(** Changes the resources of a stage when [same] does not say that nothing changes, and requires their update.  A
    stage or location out of the arrays is undefined. *)
Definition change_resources (shader_stage : ShaderStage) (same : ResourceBuffer -> res bool) (f : ResourceBuffer -> res ResourceBuffer) : cmd unit :=
  let i := Z.of_nat (stage_number shader_stage) in
  r ← gets resources;
  b ← lift (arr_get (m_resource_buffer_per_stage_array r) i);
  unchanged ← lift (same b);
  if (unchanged : bool) then mret tt else
  b ← lift (f b);
  stages ← lift (arr_set (m_resource_buffer_per_stage_array r) i b);
  _ ← modify (with_resources (set_stages stages));
  flags ← lift (arr_set (m_need_resource_update r) i true);
  modify (with_resources (fun r => set_updates flags (m_resource_update_count r) r)).
Definition SetUniformBuffer (location : Z) (shader_stage : ShaderStage) (gpu_address : Z) : cmd unit :=
  change_resources shader_stage
    (fun b => a ← arr_get (uniform_buffers b) location; Ok (a =? gpu_address))
    (fun b => l ← arr_set (uniform_buffers b) location gpu_address;
              Ok (MkResourceBuffer l (storage_buffers b) (texture_ids b) (sampler_ids b))).
Definition SetStorageBuffer (location : Z) (shader_stage : ShaderStage) (gpu_address : Z) : cmd unit :=
  change_resources shader_stage
    (fun b => a ← arr_get (storage_buffers b) location; Ok (a =? gpu_address))
    (fun b => l ← arr_set (storage_buffers b) location gpu_address;
              Ok (MkResourceBuffer (uniform_buffers b) l (texture_ids b) (sampler_ids b))).
Definition SetTextureAndSampler (location : Z) (shader_stage : ShaderStage) (texture_slot sampler_slot : Z) : cmd unit :=
  change_resources shader_stage
    (fun b => t ← arr_get (texture_ids b) location;
              if t =? texture_slot then s ← arr_get (sampler_ids b) location; Ok (s =? sampler_slot) else Ok false)
    (fun b => t ← arr_set (texture_ids b) location texture_slot; s ← arr_set (sampler_ids b) location sampler_slot;
              Ok (MkResourceBuffer (uniform_buffers b) (storage_buffers b) t s)).
Definition SetRenderDimensions (width height : Z) : cmd unit := modify (with_targets (set_dimensions (u16 width) (u16 height))).
End commands.
End VkCommands.
