(* ===== verification/VkRendering.v ===== *)
(** What command buffers promise: a rendering is begun before every draw, ended before every clear and copy, and
    ended when the recording ends; the resources of the stages that changed are copied and pushed once.

    [traced P m Q] is a triple over the one bit that says whether a rendering is going on, with the calls [m] records. *)
From stdpp Require Import gmap.
From S2P Require Import Prelude Alignment Float32 Vulkan VkContext VkMemory VkDescriptors VkShader VkCommands.

Section traces.
Import VkShader VkCommands.
Context `{!VkHeader, !Driver}.
Implicit Types (s : CommandBuffer) (cs l : list call).

(** Reads calls as Vulkan does: whether a rendering is going on after them, or none when a call is out of place. *)
Fixpoint scan (rendering : bool) (cs : list call) : option bool :=
  match cs with
  | [] => Some rendering
  | CmdBeginRendering _ :: cs => if rendering then None else scan true cs
  | CmdEndRendering :: cs => if rendering then scan false cs else None
  | (CmdDraw _ _ _ _ | CmdDrawIndexed _ _ _ _ _) :: cs => if rendering then scan true cs else None
  | (CmdClearColorImage _ _ _ | CmdClearDepthStencilImage _ _ _ | CmdCopyBuffer _ _ _ | BeginCommandBuffer _ | EndCommandBuffer _) :: cs =>
      if rendering then None else scan false cs
  | _ :: cs => scan rendering cs
  end.
Definition rendering s : bool := m_is_rendering (targets s).

Lemma scan_app r cs1 cs2 : scan r (cs1 ++ cs2) = scan r cs1 ≫= fun r' => scan r' cs2.
Proof.
  revert r. induction cs1 as [|c cs1 IH]; intros r; [done|].
  destruct c; cbn [app scan]; rewrite ?IH; try done; by destruct r.
Qed.

(** * Triples *)
Definition any (_ : bool) : Prop := True.
Definition on (r : bool) : Prop := r = true.
Definition off (r : bool) : Prop := r = false.
Definition traced {A} (P : bool -> Prop) (m : M CommandBuffer A) (Q : bool -> Prop) : Prop :=
  forall s a s', m s = Ok (a, s') -> P (rendering s) ->
  Q (rendering s') /\ exists cs, log (device s') = log (device s) ++ cs /\ scan (rendering s) cs = Some (rendering s').

Lemma traced_bind {A B} (P Q R : bool -> Prop) (m : M CommandBuffer A) (k : A -> M CommandBuffer B) :
  traced P m Q -> (forall a, traced Q (k a) R) -> traced P (m ≫= k) R.
Proof.
  intros Hm Hk s b s' (a & s1 & E1 & E2)%M_bind_ok HP.
  destruct (Hm _ _ _ E1 HP) as (HQ & cs1 & L1 & T1). destruct (Hk a _ _ _ E2 HQ) as (HR & cs2 & L2 & T2).
  split; [done|]. exists (cs1 ++ cs2). rewrite L2, L1, app_assoc. split; [done|]. by rewrite scan_app, T1.
Qed.

Lemma traced_quiet {A} (P : bool -> Prop) (m : M CommandBuffer A) :
  (forall s a s', m s = Ok (a, s') -> rendering s' = rendering s /\ log (device s') = log (device s)) -> traced P m P.
Proof.
  intros Hm s a s' E HP. destruct (Hm _ _ _ E) as [-> ->]. split; [done|]. exists []. by rewrite app_nil_r.
Qed.

Lemma traced_weaken {A} (P P' Q Q' : bool -> Prop) (m : M CommandBuffer A) :
  (forall r, P' r -> P r) -> (forall r, Q r -> Q' r) -> traced P m Q -> traced P' m Q'.
Proof. intros HP HQ Hm s a s' E HP'. destruct (Hm _ _ _ E (HP _ HP')) as (Hq & cs & L & T). eauto. Qed.

Lemma traced_ret {A} P (a : A) : traced P (mret a) P.
Proof. apply traced_quiet. by intros s b s' [= <- <-]. Qed.
Lemma traced_gets {A} P (f : CommandBuffer -> A) : traced P (gets f) P.
Proof. apply traced_quiet. by intros s b s' [= <- <-]. Qed.
Lemma traced_get P : traced P get P.
Proof. apply traced_quiet. by intros s b s' [= <- <-]. Qed.
Lemma traced_lift {A} P (r : res A) : traced P (lift r) P.
Proof. apply traced_quiet. intros s b s'. unfold lift. destruct r; [by intros [= <- <-]|done]. Qed.
Lemma traced_assert P b : traced P (dd_assert b) P.
Proof. apply traced_quiet. intros s a s'. unfold dd_assert. destruct b; [by intros [= <- <-]|done]. Qed.
Lemma traced_throw {A} P Q f : traced P (throw f : M CommandBuffer A) Q.
Proof. intros s a s'. done. Qed.
Lemma traced_resources P f : traced P (modify (with_resources f)) P.
Proof. apply traced_quiet. by intros s b s' [= <- <-]. Qed.
Lemma traced_targets P f : (forall t, m_is_rendering (f t) = m_is_rendering t) -> traced P (modify (with_targets f)) P.
Proof. intros Hf. apply traced_quiet. intros s b s' [= <- <-]. by split; [apply Hf|]. Qed.
Lemma traced_command (P Q : bool -> Prop) c : (forall r, P r -> exists r', scan r [c] = Some r' /\ r' = r /\ Q r) -> traced P (command c) Q.
Proof.
  intros Hc s a s' [= <- <-] HP. destruct (Hc _ HP) as (r' & T & -> & HQ). split; [done|]. exists [c]. by split.
Qed.
Lemma traced_neutral P c : (forall r, scan r [c] = Some r) -> traced P (command c) P.
Proof. intros Hc. apply traced_command. eauto. Qed.
Lemma traced_if {A} P Q (b : bool) (m1 m2 : M CommandBuffer A) : traced P m1 Q -> traced P m2 Q -> traced P (if b then m1 else m2) Q.
Proof. by destruct b. Qed.

(** * Computations on the device *)
(** All the calls recorded are such that a rendering may not or need not be going on. *)
Definition outside {A} (m : M Vk A) : Prop :=
  forall v a v', m v = Ok (a, v') -> exists cs, log v' = log v ++ cs /\ scan false cs = Some false.
Definition silent {A} (m : M Vk A) : Prop := forall v a v', m v = Ok (a, v') -> log v' = log v.

Lemma silent_outside {A} (m : M Vk A) : silent m -> outside m.
Proof. intros Hm v a v' E. exists []. by rewrite (Hm _ _ _ E), app_nil_r. Qed.
Lemma outside_bind {A B} (m : M Vk A) (k : A -> M Vk B) : outside m -> (forall a, outside (k a)) -> outside (m ≫= k).
Proof.
  intros Hm Hk v b v' (a & v1 & E1 & E2)%M_bind_ok. destruct (Hm _ _ _ E1) as (cs1 & L1 & T1).
  destruct (Hk a _ _ _ E2) as (cs2 & L2 & T2). exists (cs1 ++ cs2). rewrite L2, L1, app_assoc, scan_app, T1. done.
Qed.
Lemma silent_bind {A B} (m : M Vk A) (k : A -> M Vk B) : silent m -> (forall a, silent (k a)) -> silent (m ≫= k).
Proof. intros Hm Hk v b v' (a & v1 & E1 & E2)%M_bind_ok. by rewrite (Hk _ _ _ _ E2), (Hm _ _ _ E1). Qed.
Lemma outside_submit c : scan false [c] = Some false -> outside (submit c).
Proof. intros Hc v a v' [= <- <-]. by exists [c]. Qed.
Lemma silent_ret {A} (a : A) : silent (mret a).
Proof. by intros v b v' [= <- <-]. Qed.
Lemma silent_object {O} (proj : Vk -> gmap Z O) p : silent (object proj p).
Proof. intros v b v'. unfold object, gets, mbind, M_bind. destruct (_ !! p); [by intros [= <- <-]|done]. Qed.
Lemma silent_assert b : silent (dd_assert b).
Proof. intros v a v'. unfold dd_assert. destruct b; [by intros [= <- <-]|done]. Qed.
Lemma silent_modify f : (forall v, log (f v) = log v) -> silent (modify f).
Proof. by intros Hf v b v' [= <- <-]. Qed.
Lemma outside_if {A} (b : bool) (m1 m2 : M Vk A) : outside m1 -> outside m2 -> outside (if b then m1 else m2).
Proof. by destruct b. Qed.

Lemma traced_outside {A} (m : M Vk A) : outside m -> traced off (on_vk m) off.
Proof.
  intros Hm s a s'. unfold on_vk. destruct (m (device s)) as [[a' v]|] eqn:E; [|done]. intros [= <- <-] HP.
  destruct (Hm _ _ _ E) as (cs & L & T). split; [done|]. exists cs. split; [done|]. cbn. unfold rendering in *. cbn. by rewrite HP.
Qed.
Lemma traced_silent {A} P (m : M Vk A) : silent m -> traced P (on_vk m) P.
Proof.
  intros Hm. apply traced_quiet. intros s a s'. unfold on_vk. destruct (m (device s)) as [[a' v]|] eqn:E; [|done].
  intros [= <- <-]. by rewrite <- (Hm _ _ _ E).
Qed.
End traces.

Create HintDb traces.
#[export] Hint Resolve traced_ret traced_gets traced_get traced_lift traced_assert traced_throw traced_resources traced_silent
  traced_outside silent_ret silent_object silent_assert silent_outside outside_submit : traces.
#[export] Hint Extern 1 (traced _ (modify (VkCommands.with_targets _)) _) => apply traced_targets; reflexivity : traces.
#[export] Hint Extern 1 (silent (modify _)) => apply silent_modify; reflexivity : traces.
#[export] Hint Extern 1 (traced _ (VkCommands.command _) _) => apply traced_neutral; reflexivity : traces.
#[export] Hint Extern 1 (traced on (VkCommands.command _) on) =>
  apply traced_command; intros ? ->; eexists; split; [reflexivity|done] : traces.
#[export] Hint Extern 1 (traced off (VkCommands.command _) off) =>
  apply traced_command; intros ? ->; eexists; split; [reflexivity|done] : traces.
#[export] Hint Extern 1 (scan _ _ = _) => reflexivity : traces.

(** Goes through a computation whose binds all keep the same condition. *)
Ltac quiet :=
  repeat first
    [ progress intros
    | solve [eauto with traces]
    | apply silent_bind | apply outside_bind | eapply traced_bind | apply traced_if | apply outside_if
    | match goal with |- context [match ?x with _ => _ end] => destruct x end
    | lazymatch goal with |- traced off _ _ => apply traced_outside | |- _ => apply traced_silent end ].

Section operations.
Import VkShader VkCommands.
Context `{!VkHeader, !Driver}.
Implicit Types (s : CommandBuffer) (cs l : list call).

Lemma to_any {A} P Q (m : M CommandBuffer A) : traced P m Q -> traced P m any.
Proof. by apply traced_weaken. Qed.
Lemma from_any {A} P Q (m : M CommandBuffer A) : traced any m Q -> traced P m Q.
Proof. by apply traced_weaken. Qed.

Lemma traced_end P : traced P EndRenderingIfRendering off.
Proof.
  intros s a s'. unfold EndRenderingIfRendering. rewrite M_gets_bind. fold (rendering s).
  destruct (rendering s) eqn:E; intros [= <- <-] _; unfold off, rendering in *; cbn; rewrite ?E.
  - split; [done|]. by exists [CmdEndRendering].
  - split; [done|]. exists []. by rewrite app_nil_r.
Qed.

Lemma silent_colors t ts : silent (color_attachments t ts).
Proof. induction ts as [|[v|] ts IH]; cbn [color_attachments]; quiet. Qed.
Lemma silent_depth t : silent (depth_stencil_attachment t).
Proof. unfold depth_stencil_attachment. quiet. Qed.

Lemma traced_begin : traced off begin_rendering on.
Proof.
  unfold begin_rendering. eapply traced_bind; [apply traced_gets|]. intros t.
  eapply traced_bind; [apply traced_silent, silent_colors|]. intros colors.
  eapply traced_bind; [apply traced_silent, silent_depth|]. intros depth s a s' [= <- <-] HP.
  split; [done|]. eexists [_]. split; [done|]. unfold rendering, off in HP |- *. cbn. by rewrite HP.
Qed.

Lemma traced_begin_if P : traced P BeginRenderingIfNotRendering on.
Proof.
  intros s a s'. unfold BeginRenderingIfNotRendering. rewrite M_gets_bind.
  destruct (m_are_new_targets (targets s)).
  - intros E. refine (traced_bind P P on _ _ _ _ _ _ _ E); [quiet|intros _].
    eapply traced_bind; [apply traced_end|intros _; apply traced_begin].
  - destruct (m_is_rendering (targets s)) eqn:R.
    + intros [= <- <-] _. split; [done|]. exists []. by rewrite app_nil_r.
    + intros E _. exact (traced_begin _ _ _ E R).
Qed.

Lemma traced_update_stages P blocks : traced P (update_stages blocks) P.
Proof.
  induction blocks as [|[[stage bit] slot] blocks IH]; cbn [update_stages]; [quiet|].
  eapply traced_bind; [|intros; exact IH]. unfold update_stage. quiet.
Qed.
Lemma traced_update P : traced P UpdateResourceBufferIfNecessary P.
Proof. unfold UpdateResourceBufferIfNecessary. eapply traced_bind; [quiet|]. intros r. eapply traced_bind; [quiet|]. intros _. apply traced_update_stages. Qed.

Lemma outside_relocate b : outside (VkMemory.Buffer_Relocate b).
Proof.
  unfold VkMemory.Buffer_Relocate, VkMemory.RelocateHostMemoryToDevice, VkMemory.with_pool, expect, record. quiet.
Qed.
Lemma traced_relocate P b : traced P (relocate_if_required b) any.
Proof.
  unfold relocate_if_required, VkMemory.Buffer_RequiresRelocation. apply from_any.
  eapply traced_bind; [apply traced_silent; quiet|]. intros [|]; [|quiet].
  eapply traced_bind; [apply traced_end|]. intros _. eapply to_any, traced_outside, outside_relocate.
Qed.
End operations.
#[export] Hint Resolve traced_end traced_begin_if traced_update : traces.

Section recording.
Import VkShader VkCommands.
Context `{!VkHeader, !Driver}.
Implicit Types (s : CommandBuffer) (cs l : list call).

Lemma traced_transition P t b a : traced P (SetTextureStateTransition t b a) any.
Proof.
  unfold SetTextureStateTransition, VkMemory.SetImageLayout. apply from_any. eapply (traced_bind any any).
  - apply traced_if; [eapply to_any, traced_end|quiet].
  - intros _. quiet.
Qed.
Lemma silent_image v : silent (VkMemory.View_GetImage v).
Proof. unfold VkMemory.View_GetImage. quiet. Qed.
Lemma traced_clear_color P v c : traced P (ClearColorTarget v c) any.
Proof.
  unfold ClearColorTarget. eapply traced_bind; [apply traced_end|]. intros _.
  eapply traced_bind; [apply traced_silent, silent_image|]. intros i. eapply (traced_bind off off); [quiet|]. intros _.
  eapply traced_bind; [quiet|]. intros w. apply traced_transition.
Qed.
Lemma traced_clear_depth P v c : traced P (ClearDepthStencilTarget v c) any.
Proof.
  unfold ClearDepthStencilTarget. eapply traced_bind; [apply traced_end|]. intros _.
  eapply traced_bind; [apply traced_silent, silent_image|]. intros i. eapply (traced_bind off off); [quiet|]. intros _.
  eapply traced_bind; [quiet|]. intros w. apply traced_transition.
Qed.

(** What the four draws have in common after the resources: a rendering and the draw. *)
Lemma traced_draw {A} P (k : unit -> M CommandBuffer A) : traced on (k tt) on ->
  traced P (UpdateResourceBufferIfNecessary ≫= fun _ => BeginRenderingIfNotRendering ≫= k) any.
Proof.
  intros Hk. eapply to_any. eapply traced_bind; [apply traced_update|]. intros _.
  eapply traced_bind; [apply traced_begin_if|]. intros []. exact Hk.
Qed.
Lemma traced_indexed {A} P b (k : unit -> M CommandBuffer A) : traced on (k tt) on ->
  traced P (relocate_if_required b ≫= fun _ => UpdateResourceBufferIfNecessary ≫= fun _ => BeginRenderingIfNotRendering ≫= k) any.
Proof. intros Hk. eapply traced_bind; [apply traced_relocate|]. intros _. by apply traced_draw. Qed.

Lemma traced_pipeline P st : traced P (SetPipelineState st) P.
Proof.
  unfold SetPipelineState, SetColorBlendState, SetDepthStencilState, SetRasterizerState, SetVertexState, stencil_face, set. quiet.
Qed.
Lemma traced_change P stage same f : traced P (change_resources stage same f) P.
Proof. unfold change_resources. quiet. Qed.

(** The commands a client can record between Begin and End. *)
Inductive records : CommandBuffer -> CommandBuffer -> Prop :=
  | r_clear_color v c s s' : ClearColorTarget v c s = Ok (tt, s') -> records s s'
  | r_clear_depth v c s s' : ClearDepthStencilTarget v c s = Ok (tt, s') -> records s s'
  | r_fast_color c s s' : RegisterFastClearColor c s = Ok (tt, s') -> records s s'
  | r_fast_depth v s s' : RegisterFastClearDepthStencil v s = Ok (tt, s') -> records s s'
  | r_draw t n b s s' : Draw t n b s = Ok (tt, s') -> records s s'
  | r_draw_instanced t n b i bi s s' : DrawInstanced t n b i bi s = Ok (tt, s') -> records s s'
  | r_draw_indexed t f ib n b s s' : DrawIndexed t f ib n b s = Ok (tt, s') -> records s s'
  | r_draw_instanced_indexed t f ib n b i bi s s' : DrawInstancedIndexed t f ib n b i bi s = Ok (tt, s') -> records s s'
  | r_shader sh s s' : SetShader sh s = Ok (tt, s') -> records s s'
  | r_pipeline st s s' : SetPipelineState st s = Ok (tt, s') -> records s s'
  | r_viewports v s s' : SetViewports v s = Ok (tt, s') -> records s s'
  | r_scissors v s s' : SetScissors v s = Ok (tt, s') -> records s s'
  | r_targets c d s s' : SetRenderTargets c d s = Ok (tt, s') -> records s s'
  | r_vertex_buffer i b st n s s' : SetVertexBuffer i b st n s = Ok (tt, s') -> records s s'
  | r_buffer_barrier b ba s s' : SetBufferStateTransition b ba s = Ok (tt, s') -> records s s'
  | r_texture_barrier t ba a s s' : SetTextureStateTransition t ba a s = Ok (tt, s') -> records s s'
  | r_descriptors p s s' : SetDescriptorPool p s = Ok (tt, s') -> records s s'
  | r_uniform i st a s s' : SetUniformBuffer i st a s = Ok (tt, s') -> records s s'
  | r_storage i st a s s' : SetStorageBuffer i st a s = Ok (tt, s') -> records s s'
  | r_texture i st t sa s s' : SetTextureAndSampler i st t sa s = Ok (tt, s') -> records s s'
  | r_dimensions w h s s' : SetRenderDimensions w h s = Ok (tt, s') -> records s s'.

Lemma records_traced s s' : records s s' ->
  exists cs, log (device s') = log (device s) ++ cs /\ scan (rendering s) cs = Some (rendering s').
Proof.
  assert (forall (m : M CommandBuffer unit), traced any m any -> m s = Ok (tt, s') ->
    exists cs, log (device s') = log (device s) ++ cs /\ scan (rendering s) cs = Some (rendering s')) as Hm.
  { intros m Hm E. by destruct (Hm _ _ _ E I) as [_ ?]. }
  destruct 1; (eapply Hm; [|eassumption]).
  - apply traced_clear_color.
  - apply traced_clear_depth.
  - unfold RegisterFastClearColor. quiet.
  - unfold RegisterFastClearDepthStencil. quiet.
  - apply traced_draw. quiet.
  - apply traced_draw. quiet.
  - apply traced_indexed. quiet.
  - apply traced_indexed. quiet.
  - unfold SetShader. quiet.
  - apply traced_pipeline.
  - unfold SetViewports, set. quiet.
  - unfold SetScissors, set. quiet.
  - unfold SetRenderTargets. quiet.
  - unfold SetVertexBuffer. eapply traced_bind; [apply traced_relocate|intros _; quiet].
  - unfold SetBufferStateTransition. eapply traced_bind; [apply traced_relocate|intros _; quiet].
  - apply traced_transition.
  - unfold SetDescriptorPool. quiet.
  - apply traced_change.
  - apply traced_change.
  - apply traced_change.
  - unfold SetRenderDimensions. quiet.
Qed.

Lemma records_steps s s' : rtc records s s' ->
  exists cs, log (device s') = log (device s) ++ cs /\ scan (rendering s) cs = Some (rendering s').
Proof.
  induction 1 as [s|s s1 s' Hr _ IH]; [exists []; by rewrite app_nil_r|].
  destruct (records_traced _ _ Hr) as (cs1 & L1 & T1). destruct IH as (cs2 & L2 & T2).
  exists (cs1 ++ cs2). rewrite L2, L1, app_assoc. split; [done|]. by rewrite scan_app, T1.
Qed.

End recording.

Section updates.
Import VkShader VkCommands.
Context `{!VkHeader, !Driver}.
Implicit Types (s : CommandBuffer) (cs l : list call) (r : Resources) (blocks : list (ShaderStage * vk_name * Z)).

Definition needs r (b : ShaderStage * vk_name * Z) : Prop := m_need_resource_update r !! stage_number (fst (fst b)) = Some true.
#[export] Instance needs_dec r b : Decision (needs r b).
Proof. unfold needs. apply _. Defined.
(** The blocks whose stage has changed. *)
Definition changed r blocks : list (ShaderStage * vk_name * Z) := filter (needs r) blocks.
(** The pushes of these, from the [k]-th place of the buffer on. *)
Fixpoint pushes (layout base k : Z) blocks : list call :=
  match blocks with
  | [] => []
  | (_, bit, slot) :: blocks =>
      CmdPushConstants layout (vk bit) (8 * slot) 8 (u64 (base + ResourceBuffer_size * k)) :: pushes layout base (k + 1) blocks
  end.
Fixpoint clear_needs blocks (need : list bool) : list bool :=
  match blocks with [] => need | (stage, _, _) :: blocks => clear_needs blocks (<[stage_number stage := false]> need) end.
Definition place r (k : Z) : Z := u64 (m_resource_buffer_mapped_address r + ResourceBuffer_size * k).
(** Room for the updates, and no wrapping around. *)
Definition has_room r (n : Z) : Prop :=
  0 < m_resource_buffer_mapped_address r /\ 0 <= m_resource_update_count r /\ m_resource_update_count r + n < 2 ^ 32 /\
  m_resource_buffer_mapped_address r + ResourceBuffer_size * (m_resource_update_count r + n) <= 2 ^ 64.
Definition six_stages r : Prop :=
  length (m_need_resource_update r) = 6%nat /\ length (m_resource_buffer_per_stage_array r) = 6%nat.

Lemma place_inj r n j k : has_room r n -> 0 <= j < m_resource_update_count r + n -> 0 <= k < m_resource_update_count r + n ->
  place r j = place r k -> j = k.
Proof.
  unfold has_room, place, ResourceBuffer_size, u64. intros (H1 & H2 & H3 & H4) Hj Hk. rewrite !wrap_small by lia. lia.
Qed.

Lemma update_stage_run stage bit slot s b : let r := resources s in
  m_need_resource_update r !! stage_number stage = Some true -> m_resource_buffer_per_stage_array r !! stage_number stage = Some b ->
  update_stage stage bit slot s =
    Ok (tt, MkCommandBuffer (m_vk_command_buffer s)
              (set_updates (<[stage_number stage := false]> (m_need_resource_update r)) (u32 (m_resource_update_count r + 1))
                 (write_mapped (place r (m_resource_update_count r)) b r)) (targets s)
              (set_log (fun l => l ++ pushes (m_vk_pipeline_layout (context (device s))) (m_vk_resource_buffer_address r)
                                        (m_resource_update_count r) [(stage, bit, slot)]) (device s))).
Proof.
  intros r Hn Hb. subst r. unfold update_stage. rewrite M_gets_bind. unfold lift.
  rewrite (arr_get_lookup _ _ _ Hn), (arr_get_lookup _ _ _ Hb), (arr_set_insert _ _ false) by (by eapply lookup_lt_Some). done.
Qed.
Lemma update_stage_skip stage bit slot s :
  m_need_resource_update (resources s) !! stage_number stage = Some false -> update_stage stage bit slot s = Ok (tt, s).
Proof. intros Hn. unfold update_stage. rewrite M_gets_bind. unfold lift. by rewrite (arr_get_lookup _ _ _ Hn). Qed.

(** The state after some blocks: their stages are clear, their resources are in the places from the old count on, and
    the places before it are as they were. *)
Definition updated blocks s s' : Prop :=
  let r := resources s in let r' := resources s' in let n := Z.of_nat (length (changed r blocks)) in
  m_need_resource_update r' = clear_needs blocks (m_need_resource_update r) /\
  m_resource_update_count r' = m_resource_update_count r + n /\
  log (device s') = log (device s) ++ pushes (m_vk_pipeline_layout (context (device s))) (m_vk_resource_buffer_address r)
    (m_resource_update_count r) (changed r blocks) /\
  (forall k stage bit slot, changed r blocks !! k = Some (stage, bit, slot) ->
     mapped_memory r' !! place r (m_resource_update_count r + Z.of_nat k) = m_resource_buffer_per_stage_array r !! stage_number stage) /\
  (forall k, 0 <= k < m_resource_update_count r -> mapped_memory r' !! place r k = mapped_memory r !! place r k) /\
  m_resource_buffer_per_stage_array r' = m_resource_buffer_per_stage_array r /\ targets s' = targets s.

Lemma changed_skip r b blocks : ~ needs r b -> changed r (b :: blocks) = changed r blocks.
Proof. intros Hn. unfold changed. by rewrite filter_cons_False. Qed.
Lemma changed_push r b blocks : needs r b -> changed r (b :: blocks) = b :: changed r blocks.
Proof. intros Hn. unfold changed. by rewrite filter_cons_True. Qed.
Definition stage_of_block (b : ShaderStage * vk_name * Z) : nat := stage_number (fst (fst b)).
Lemma changed_other r r' n blocks : m_need_resource_update r' = <[n := false]> (m_need_resource_update r) ->
  n ∉ (stage_of_block <$> blocks) -> changed r' blocks = changed r blocks.
Proof.
  intros Hr Hn. unfold changed. induction blocks as [|b blocks IH]; [done|]. cbn [fmap list_fmap] in Hn.
  apply not_elem_of_cons in Hn as [Hb Hn]. assert (needs r' b <-> needs r b) as E.
  { unfold needs. rewrite Hr. fold (stage_of_block b). by rewrite list_lookup_insert_ne. }
  rewrite !filter_cons, IH by done. destruct (decide (needs r' b)) as [H1|H1].
  - by rewrite decide_True by tauto.
  - by rewrite decide_False by tauto.
Qed.

Lemma updated_push stage bit slot blocks s s' b : let r := resources s in
  let s1 := MkCommandBuffer (m_vk_command_buffer s)
              (set_updates (<[stage_number stage := false]> (m_need_resource_update r)) (u32 (m_resource_update_count r + 1))
                 (write_mapped (place r (m_resource_update_count r)) b r)) (targets s)
              (set_log (fun l => l ++ pushes (m_vk_pipeline_layout (context (device s))) (m_vk_resource_buffer_address r)
                                        (m_resource_update_count r) [(stage, bit, slot)]) (device s)) in
  m_need_resource_update r !! stage_number stage = Some true -> m_resource_buffer_per_stage_array r !! stage_number stage = Some b ->
  stage_number stage ∉ (stage_of_block <$> blocks) -> has_room r (Z.of_nat (S (length blocks))) ->
  updated blocks s1 s' -> updated ((stage, bit, slot) :: blocks) s s'.
Proof.
  intros r s1 Hn Eb Hs Hroom (U1 & U2 & U3 & U4 & U5 & U6 & U7). pose proof Hroom as (R1 & R2 & R3 & R4).
  assert (changed (resources s1) blocks = changed r blocks) as Ec by by apply (changed_other _ _ (stage_number stage)).
  assert (m_resource_update_count (resources s1) = m_resource_update_count r + 1) as En by (cbn; word_simpl; done).
  rewrite Ec, En in *. unfold updated. fold r. rewrite changed_push by done. cbn [length clear_needs pushes]. split_and!.
  - exact U1.
  - rewrite U2. lia.
  - rewrite U3. cbn. by rewrite <- app_assoc.
  - intros [|k] stage' bit' slot' Hk.
    + injection Hk as <- <- <-. rewrite Z.add_0_r, Eb. change (place r) with (place (resources s1)). rewrite U5 by lia.
      cbn. by rewrite lookup_insert_eq.
    + apply U4 in Hk. replace (m_resource_update_count r + Z.of_nat (S k)) with (m_resource_update_count r + 1 + Z.of_nat k) by lia. exact Hk.
  - intros k Hk. change (place r) with (place (resources s1)). rewrite U5 by lia. cbn. apply lookup_insert_ne. intros E.
    apply (place_inj r _ _ _ Hroom) in E; lia.
  - exact U6.
  - exact U7.
Qed.

Lemma update_stages_run blocks : forall s, six_stages (resources s) -> NoDup (stage_of_block <$> blocks) ->
  (forall b, b ∈ blocks -> (stage_of_block b < 6)%nat) -> has_room (resources s) (Z.of_nat (length blocks)) ->
  exists s', update_stages blocks s = Ok (tt, s') /\ updated blocks s s'.
Proof.
  induction blocks as [|[[stage bit] slot] blocks IH]; intros s H6 Hd Hb Hroom.
  { exists s. split; [done|]. unfold updated, changed. cbn. rewrite app_nil_r, Z.add_0_r. by split_and!. }
  cbn [fmap list_fmap] in Hd. apply NoDup_cons in Hd as [Hs Hd]. cbn [update_stages length] in *. set (r := resources s) in *.
  assert (stage_number stage < 6)%nat as Hlt by exact (Hb _ (list_elem_of_here _ _)).
  destruct H6 as [HA HB]. destruct (lookup_lt_is_Some_2 (m_need_resource_update r) (stage_number stage)) as [need Hn]; [lia|].
  destruct need.
  - destruct (lookup_lt_is_Some_2 (m_resource_buffer_per_stage_array r) (stage_number stage)) as [b Eb]; [lia|].
    rewrite (M_bind_run _ _ _ _ _ (update_stage_run stage bit slot s b Hn Eb)). fold r. pose proof Hroom as Hroom'. unfold has_room in Hroom'.
    set (s1 := MkCommandBuffer _ _ _ _). destruct (IH s1) as (s' & E & U).
    + split; [cbn; by rewrite length_insert|done].
    + done.
    + intros x Hx. apply Hb. by right.
    + unfold has_room. cbn. word_simpl. lia.
    + exists s'. split; [exact E|]. exact (updated_push stage bit slot blocks s s' b Hn Eb Hs Hroom U).
  - rewrite (M_bind_run _ _ _ _ _ (update_stage_skip stage bit slot s Hn)). destruct (IH s) as (s' & E & U).
    + done.
    + done.
    + intros x Hx. apply Hb. by right.
    + unfold has_room in *. fold r. unfold ResourceBuffer_size in *. lia.
    + exists s'. split; [exact E|]. unfold updated in *. fold r in U |- *. rewrite changed_skip by (unfold needs; cbn; by rewrite Hn).
      cbn [clear_needs]. by rewrite (list_insert_id _ _ _ Hn).
Qed.
End updates.

Section promises.
Import VkShader VkCommands.
Context `{!VkHeader, !Driver}.
Implicit Types (s : CommandBuffer) (cs l : list call) (r : Resources).

Lemma blocks_below b : b ∈ stage_blocks -> (stage_of_block b < 6)%nat.
Proof.
  unfold stage_blocks. intros Hb. repeat (apply elem_of_cons in Hb as [->|Hb]; [cbn; lia|]). by apply not_elem_of_nil in Hb.
Qed.
Lemma blocks_nodup : NoDup (stage_of_block <$> stage_blocks).
Proof. apply (bool_decide_unpack _). by vm_compute. Qed.
Lemma clear_all need : length need = 6%nat -> clear_needs stage_blocks need = replicate 6 false.
Proof. intros Hn. do 7 (destruct need as [|? need]; try done). Qed.

Lemma update_run s : six_stages (resources s) -> has_room (resources s) 6 ->
  exists s', UpdateResourceBufferIfNecessary s = Ok (tt, s') /\ m_need_resource_update (resources s') = replicate 6 false /\
    updated stage_blocks s s'.
Proof.
  intros H6 Hroom. destruct (update_stages_run stage_blocks s H6 blocks_nodup blocks_below Hroom) as (s' & E & U).
  exists s'. split_and!.
  - unfold UpdateResourceBufferIfNecessary, dd_assert. rewrite M_gets_bind. destruct Hroom as [Hm _].
    destruct (Z.eqb_spec (m_resource_buffer_mapped_address (resources s)) 0); [lia|]. exact E.
  - destruct U as [-> _]. destruct H6. by apply clear_all.
  - done.
Qed.

(** Before a draw the resources of each stage that has changed are copied to places of the mapped memory that no
    other update has used, and the device addresses of these places are pushed, one call for each; then no stage is
    left to be updated, and the earlier places, which the draws before read, are as they were. *)
Theorem resources_updated s : let r := resources s in
  six_stages r -> has_room r 6 ->
  exists s', UpdateResourceBufferIfNecessary s = Ok (tt, s') /\ let r' := resources s' in
    m_need_resource_update r' = replicate 6 false /\
    m_resource_update_count r' = m_resource_update_count r + Z.of_nat (length (changed r stage_blocks)) /\
    log (device s') = log (device s) ++ pushes (m_vk_pipeline_layout (context (device s))) (m_vk_resource_buffer_address r)
      (m_resource_update_count r) (changed r stage_blocks) /\
    (forall k stage bit slot, changed r stage_blocks !! k = Some (stage, bit, slot) ->
       mapped_memory r' !! place r (m_resource_update_count r + Z.of_nat k) = m_resource_buffer_per_stage_array r !! stage_number stage) /\
    (forall k, 0 <= k < m_resource_update_count r -> mapped_memory r' !! place r k = mapped_memory r !! place r k).
Proof.
  intros r H6 Hroom. destruct (update_run s H6 Hroom) as (s' & E & Hn & U1 & U2 & U3 & U4 & U5 & _). exists s'. by split_and!.
Qed.

(** The push of a stage is in the range the pipeline's layout has for the stage, except that of the tessellation
    control stage (and so of the evaluation stage, whose place it takes): no range of the layout has its place. *)
Theorem push_ranges stage bit slot : (stage, bit, slot) ∈ stage_blocks ->
  vk VK_SHADER_STAGE_TESSELLATION_CONTROL_BIT <> vk VK_SHADER_STAGE_TESSELLATION_EVALUATION_BIT ->
  (stage <> ShaderStage_TessellationControl -> stage <> ShaderStage_TessellationEvaluation ->
   MkRange (vk bit) (8 * slot) 8 ∈ VkContext.resource_index_push_constant_ranges) /\
  (stage = ShaderStage_TessellationControl \/ stage = ShaderStage_TessellationEvaluation ->
   MkRange (vk bit) (8 * slot) 8 ∉ VkContext.resource_index_push_constant_ranges).
Proof.
  intros Hin Hne. unfold stage_blocks in Hin. unfold VkContext.resource_index_push_constant_ranges.
  rewrite !elem_of_cons, elem_of_nil in Hin. destruct Hin as [Hin|[Hin|[Hin|[Hin|[Hin|[Hin|[]]]]]]]; injection Hin as -> -> ->.
  all: split; intros Hc; try done; try (destruct Hc; done).
  all: rewrite !elem_of_cons; try tauto.
  all: rewrite elem_of_nil; intros [[=]|[[=]|[[=]|[[=]|[[=]|[[=]|[]]]]]]]; congruence.
Qed.

(** SetDefaults of the pipeline's states sets the color states twice and the vertex state never: the vertex state
    is the one the object had before, and so are the blend equations and the switch of the logic operation. *)
Theorem pipeline_defaults (p q : PipelineCmdState) :
  vertex_state (Pipeline_SetDefaults p) = vertex_state p /\
  vk_color_blend_equations (color_blend_state (Pipeline_SetDefaults p)) = vk_color_blend_equations (color_blend_state p) /\
  logic_op_enable (color_blend_state (Pipeline_SetDefaults p)) = logic_op_enable (color_blend_state p) /\
  (Pipeline_SetDefaults p = Pipeline_SetDefaults q <->
   vertex_state p = vertex_state q /\ vk_color_blend_equations (color_blend_state p) = vk_color_blend_equations (color_blend_state q) /\
   logic_op_enable (color_blend_state p) = logic_op_enable (color_blend_state q)).
Proof.
  split_and!; [done..|]. split.
  - intros E. split_and!.
    + exact (f_equal vertex_state E).
    + exact (f_equal (fun x => vk_color_blend_equations (color_blend_state x)) E).
    + exact (f_equal (fun x => logic_op_enable (color_blend_state x)) E).
  - intros (Ev & Ee & El). unfold Pipeline_SetDefaults, ColorBlend_SetDefaults. cbn -[Float32.of_Z]. by rewrite Ev, Ee, El.
Qed.

(** The targets before the first null, and the attachment of one of them. *)
Fixpoint leading (ts : list (option Z)) : list Z := match ts with Some v :: ts => v :: leading ts | _ => [] end.
Lemma leading_app (colors : list Z) rest : leading ((Some <$> colors) ++ rest) = colors ++ leading rest.
Proof. induction colors as [|c colors IH]; [done|]. cbn. by rewrite <- IH. Qed.
Definition attach (t : Targets) (v : View) : attachment :=
  MkAttachment (m_vk_image_view v) (vk VK_IMAGE_LAYOUT_ATTACHMENT_OPTIMAL_KHR) (load_op (m_fast_clear_color t)) (m_vk_clear_color t, 0).
Definition depth_of (t : Targets) (v : View) : attachment :=
  MkAttachment (m_vk_image_view v) (vk VK_IMAGE_LAYOUT_GENERAL) (load_op (m_fast_clear_depth_stencil t))
    ([fst (m_vk_clear_depth_stencil t)], snd (m_vk_clear_depth_stencil t)).

Lemma color_attachments_run t ts v vs : mapM (fun p => views v !! p) (leading ts) = Some vs ->
  color_attachments t ts v = Ok (attach t <$> vs, v).
Proof.
  revert vs. induction ts as [|[p|] ts IH]; intros vs; cbn [leading mapM]; [by intros [= <-]| |by intros [= <-]].
  intros (o & Ho & (os & Hos & [= <-])%bind_Some)%bind_Some. cbn [color_attachments].
  rewrite (M_bind_run _ _ v o v) by (unfold object; rewrite M_gets_bind, Ho; done).
  by rewrite (M_bind_run _ _ _ _ _ (IH _ Hos)).
Qed.
Lemma depth_attachment_run t v d : match m_depth_stencil_target t with Some p => views v !! p = d /\ is_Some d | None => d = None end ->
  depth_stencil_attachment t v = Ok (depth_of t <$> d, v).
Proof.
  unfold depth_stencil_attachment. destruct (m_depth_stencil_target t) as [p|]; [|by intros ->].
  intros [Hp [o ->]]. by rewrite (M_bind_run _ _ v o v) by (unfold object; rewrite M_gets_bind, Hp; done).
Qed.

Lemma begin_rendering_run s vs d : let t := targets s in
  mapM (fun p => views (device s) !! p) (leading (m_color_targets t)) = Some vs ->
  match m_depth_stencil_target t with Some p => views (device s) !! p = d /\ is_Some d | None => d = None end ->
  begin_rendering s =
    Ok (tt, MkCommandBuffer (m_vk_command_buffer s) (resources s) (set_rendering true t)
              (set_log (fun l => l ++ [CmdBeginRendering (MkRendering (m_render_width t) (m_render_height t) (attach t <$> vs)
                                        (depth_of t <$> d) (depth_of t <$> d))]) (device s))).
Proof.
  intros t Hv Hd. unfold begin_rendering. rewrite M_gets_bind.
  assert (forall A (m : M Vk A) a, m (device s) = Ok (a, device s) -> on_vk m s = Ok (a, s)) as Hon.
  { intros A m a E. unfold on_vk. rewrite E. by destruct s. }
  rewrite (M_bind_run _ _ _ _ _ (Hon _ _ _ (color_attachments_run _ _ _ _ Hv))).
  by rewrite (M_bind_run _ _ _ _ _ (Hon _ _ _ (depth_attachment_run _ _ _ Hd))).
Qed.

Lemma end_rendering_run s : EndRenderingIfRendering s =
  Ok (tt, if rendering s then MkCommandBuffer (m_vk_command_buffer s) (resources s) (set_rendering false (targets s))
                                (set_log (fun l => l ++ [CmdEndRendering]) (device s)) else s).
Proof. unfold EndRenderingIfRendering. rewrite M_gets_bind. fold (rendering s). by destruct (rendering s). Qed.

Lemma copy_targets_run (cs : list (option Z)) : forall members i, (i + length cs <= length members)%nat ->
  copy_targets cs members (Z.of_nat i) = Ok (take i members ++ cs ++ drop (i + length cs) members).
Proof.
  induction cs as [|c cs IH]; intros members i Hi; cbn [copy_targets length app] in *.
  - by rewrite Nat.add_0_r, take_drop.
  - rewrite arr_set_insert by lia. cbn [mbind res_bind]. replace (Z.of_nat i + 1) with (Z.of_nat (S i)) by lia.
    rewrite IH by (rewrite length_insert; lia). f_equal.
    rewrite (take_S_r _ _ c) by (rewrite list_lookup_insert_eq; [done|lia]). rewrite take_insert_ge by lia.
    rewrite drop_insert_lt by lia. rewrite <- app_assoc. replace (i + S (length cs))%nat with (S i + length cs)%nat by lia. done.
Qed.

(** The rendering a draw begins has the targets of the last SetRenderTargets as its color attachments, and after
    these, without a null between, those an earlier call with more targets has left in the members; a rendering that
    was going on is ended first.  The targets are cleared when a fast clear was ever registered. *)
Theorem render_targets s (colors : list Z) (depth : option Z) (vs : list View) (d : option View) :
  let members := m_color_targets (targets s) in let all := (Some <$> colors) ++ drop (length colors) members in
  (0 < length colors <= 8)%nat -> length members = 8%nat ->
  mapM (fun p => views (device s) !! p) (leading all) = Some vs ->
  match depth with Some p => views (device s) !! p = d /\ is_Some d | None => d = None end ->
  leading all = colors ++ leading (drop (length colors) members) /\
  exists s1 s2, SetRenderTargets (Some <$> colors) depth s = Ok (tt, s1) /\ BeginRenderingIfNotRendering s1 = Ok (tt, s2) /\
    m_color_targets (targets s2) = all /\ rendering s2 = true /\
    let t := targets s in let ds := depth_of t <$> d in
    log (device s2) = log (device s) ++ (if rendering s then [CmdEndRendering] else []) ++
      [CmdBeginRendering (MkRendering (m_render_width t) (m_render_height t) (attach t <$> vs) ds ds)].
Proof.
  intros members all Hn Hm Hvs Hd. split.
  { apply leading_app. }
  unfold SetRenderTargets. rewrite M_gets_bind. fold members. unfold lift.
  pose proof (copy_targets_run (Some <$> colors) members 0) as Hc. rewrite length_fmap in Hc.
  change (Z.of_nat 0) with 0 in Hc. rewrite (M_bind_run _ _ _ _ s) by (rewrite Hc by lia; done).
  cbn [take app Nat.add]. fold all. rewrite M_modify_bind. rewrite length_fmap. unfold dd_assert.
  destruct (Z.ltb_spec 0 (Z.of_nat (length colors))); [|lia]. destruct (Z.leb_spec (Z.of_nat (length colors)) 8); [|lia].
  destruct (rendering s) eqn:R; (eexists; eexists; split; [reflexivity|]);
    unfold BeginRenderingIfNotRendering; rewrite M_gets_bind; cbn [m_are_new_targets with_targets set_targets targets];
    rewrite M_modify_bind, (M_bind_run _ _ _ _ _ (end_rendering_run _));
    (match goal with |- context [rendering (with_targets ?f ?x)] => change (rendering (with_targets f x)) with (rendering s) end); rewrite R;
    (split; [match goal with |- begin_rendering ?x = _ => exact (begin_rendering_run x vs d Hvs Hd) end|]).
  all: split_and!; try done. cbn. by rewrite <- app_assoc.
Qed.

Lemma set_uniform_run s stage location addr b old : let r := resources s in let n := stage_number stage in
  six_stages r -> m_resource_buffer_per_stage_array r !! n = Some b -> uniform_buffers b !! location = Some old ->
  SetUniformBuffer (Z.of_nat location) stage addr s =
    Ok (tt, if old =? addr then s
            else with_resources (fun r' => set_updates (<[n := true]> (m_need_resource_update r)) (m_resource_update_count r')  r')
                   (with_resources (set_stages (<[n := MkResourceBuffer (<[location := addr]> (uniform_buffers b)) (storage_buffers b)
                      (texture_ids b) (sampler_ids b)]> (m_resource_buffer_per_stage_array r))) s)).
Proof.
  intros r n [HA HB] Hb Ho. unfold SetUniformBuffer, change_resources. rewrite M_gets_bind. unfold lift.
  fold r n. rewrite (arr_get_lookup _ _ _ Hb). cbn -[arr_get arr_set]. unfold mbind, M_bind, res_bind.
  rewrite (arr_get_lookup _ _ _ Ho). destruct (old =? addr); [done|].
  rewrite (arr_set_insert (uniform_buffers b)) by (by eapply lookup_lt_Some).
  rewrite (arr_set_insert (m_resource_buffer_per_stage_array r)) by (by eapply lookup_lt_Some).
  unfold modify. rewrite (arr_set_insert (m_need_resource_update r)) by (apply lookup_lt_Some in Hb; lia). done.
Qed.

Lemma draw_run s s1 t n base : rendering s1 = true -> m_are_new_targets (targets s1) = false ->
  UpdateResourceBufferIfNecessary s = Ok (tt, s1) ->
  exists s2, Draw t n base s = Ok (tt, s2) /\ resources s2 = resources s1 /\
    log (device s2) = log (device s1) ++ [CmdSetPrimitiveTopology t; CmdDraw n 1 base 0].
Proof.
  intros Hr Hn E. unfold Draw. rewrite (M_bind_run _ _ _ _ _ E).
  assert (BeginRenderingIfNotRendering s1 = Ok (tt, s1)) as Eb.
  { unfold BeginRenderingIfNotRendering. rewrite M_gets_bind, Hn. fold (rendering s1). by rewrite Hr. }
  rewrite (M_bind_run _ _ _ _ _ Eb). eexists. split; [reflexivity|]. split; [done|]. cbn. by rewrite <- app_assoc.
Qed.

Lemma block_of stage : (stage_number stage < 6)%nat -> exists bit slot, (stage, bit, slot) ∈ stage_blocks.
Proof.
  intros Hs. destruct stage; cbn in Hs; try lia; do 2 eexists; unfold stage_blocks; rewrite !elem_of_cons; tauto.
Qed.

End promises.

Section dynamic.
Import VkShader VkCommands.
Context `{!VkHeader, !Driver}.

(** The dynamic states a call sets. *)
Definition sets (c : call) : list dynamic_state :=
  match c with
  | CmdSet state _ _ => [state]
  | CmdSetPrimitiveTopology _ => [VK_DYNAMIC_STATE_PRIMITIVE_TOPOLOGY]
  | CmdBindVertexBuffers _ _ _ _ _ => [VK_DYNAMIC_STATE_VERTEX_INPUT_BINDING_STRIDE]
  | _ => []
  end.

(** The state after some calls that change nothing else. *)
Definition after_calls (cs : list call) s : CommandBuffer :=
  MkCommandBuffer (m_vk_command_buffer s) (resources s) (targets s) (set_log (fun l => l ++ cs) (device s)).
Lemma calls_command {A} c cs s (k : unit -> M CommandBuffer A) :
  (command c ≫= k) (after_calls cs s) = k tt (after_calls (cs ++ [c]) s).
Proof. unfold after_calls, set_log. cbn. by rewrite app_assoc. Qed.
Lemma calls_last c cs s : command c (after_calls cs s) = Ok (tt, after_calls (cs ++ [c]) s).
Proof. unfold after_calls, set_log. cbn. by rewrite app_assoc. Qed.
Lemma calls_none s : s = after_calls [] s.
Proof. destruct s as [cb r t [l c P B T V]]. unfold after_calls, set_log. cbn. by rewrite app_nil_r. Qed.

(** A pipeline leaves its states to the commands, and the commands set them all: SetPipelineState and
    SetViewportScissors set every dynamic state of a primitive shader's pipeline except the topology, which each draw
    sets, and the stride of the vertex buffers, which SetVertexBuffer sets; so they set all of a mesh shader's. *)
Theorem dynamic_states_set st viewports scissors s :
  exists s' cs, (SetPipelineState st ≫= fun _ => SetViewportScissors viewports scissors) s = Ok (tt, s') /\
    log (device s') = log (device s) ++ cs /\
    (forall d, d ∈ primitive_dynamic_states ->
       d ∈ concat (sets <$> cs) ++ [VK_DYNAMIC_STATE_PRIMITIVE_TOPOLOGY; VK_DYNAMIC_STATE_VERTEX_INPUT_BINDING_STRIDE]) /\
    (forall d, d ∈ mesh_dynamic_states -> d ∈ concat (sets <$> cs)).
Proof.
  do 2 eexists. split.
  { unfold SetPipelineState, SetColorBlendState, SetDepthStencilState, SetRasterizerState, SetVertexState, SetViewportScissors, stencil_face, set.
    etrans; [refine (f_equal _ (calls_none s))|].
    repeat (rewrite ?M_bind_assoc; first [rewrite calls_command | rewrite calls_last]; cbn [app]). reflexivity. }
  split; [reflexivity|].
  cbn [fmap list_fmap concat sets app]. split; apply Forall_forall; apply (bool_decide_unpack _); vm_compute; done.
Qed.
End dynamic.

Section rendering_examples.
Import VkShader VkCommands.
Local Instance header : VkHeader := some_header.
Local Instance driver : Driver := counting_driver.

Definition some_resources (need : list bool) : Resources :=
  MkResources (replicate 6 ResourceBuffer_SetDefaults) 65536 1 2 131072 need 0 ∅.
Definition some_targets (going_on : bool) : Targets :=
  MkTargets [Some 5; Some 6; None; None; None; None; None; None] None [] (Float32.of_Z 0, 0) going_on false 640 480 false false.
Definition some_commands (need : list bool) (going_on : bool) : CommandBuffer :=
  MkCommandBuffer 9 (some_resources need) (some_targets going_on)
    (MkVk [] (MkContext 0 0 0 0 77 [1; 7] 0) ∅ ∅ ∅ {[5 := MkView 4 50; 6 := MkView 4 60]}).

Lemma some_room need : has_room (some_resources need) 6.
Proof. unfold has_room. cbn. unfold ResourceBuffer_size. lia. Qed.

Definition run_state (m : M CommandBuffer unit) (s : CommandBuffer) : CommandBuffer := match m s with Ok (_, s') => s' | Fault _ => s end.


Lemma resources_updated_witness :
  exists s', UpdateResourceBufferIfNecessary (some_commands [true; false; false; false; true; false] true) = Ok (tt, s') /\
    log (device s') = [CmdPushConstants 77 0 0 8 131072; CmdPushConstants 77 0 32 8 131584].
Proof.
  destruct (resources_updated (some_commands [true; false; false; false; true; false] true) (conj eq_refl eq_refl) (some_room _))
    as (s' & E & _ & _ & L & _).
  exists s'. split; [exact E|]. rewrite L. vm_compute. reflexivity.
Defined.

Lemma push_ranges_witness :
  let header : VkHeader := fun n => if decide (n = VK_SHADER_STAGE_TESSELLATION_CONTROL_BIT) then 2 else
    if decide (n = VK_SHADER_STAGE_TESSELLATION_EVALUATION_BIT) then 4 else 1 in
  MkRange 2 8 8 ∉ @VkContext.resource_index_push_constant_ranges header.
Proof.
  intros h. apply (@push_ranges h ShaderStage_TessellationControl VK_SHADER_STAGE_TESSELLATION_CONTROL_BIT 1).
  - right. left.
  - vm_compute. discriminate.
  - by left.
Defined.

Lemma render_targets_witness :
  exists s1 s2, SetRenderTargets [Some 6] None (some_commands [] true) = Ok (tt, s1) /\ BeginRenderingIfNotRendering s1 = Ok (tt, s2) /\
    exists a, log (device s2) = [CmdEndRendering; CmdBeginRendering (MkRendering 640 480 a None None)] /\ (at_view <$> a) = [60; 60].
Proof.
  destruct (render_targets (some_commands [] true) [6] None [MkView 4 60; MkView 4 60] None) as (_ & s1 & s2 & E1 & E2 & _ & _ & L);
    [cbn; lia|reflexivity|vm_compute; reflexivity|reflexivity|].
  exists s1, s2. split; [exact E1|]. split; [exact E2|]. eexists. split; [exact L|reflexivity].
Defined.

End rendering_examples.
