(* ===== verification/VkProc.v ===== *)
(** The functions of Vulkan (vk_proc.h, vk_proc.vulkan.cpp): the pointers the program calls them through, and the three
    steps that load them, from the library, from the instance and from the device.

    What the library and its functions answer is a parameter ([Loader]): an address for a name, zero for none.  A
    pointer that is not loaded is null; calling through it is undefined. *)
From stdpp Require Import gmap strings.
From S2P Require Import Prelude Float32 Vulkan VkContext VkMemory VkShader VkCommands.

Module VkProc.
Local Open Scope string_scope.
Local Open Scope Z_scope.

(** LoadLibraryA; GetProcAddress of a name in the library; what a function of the type of vkGetInstanceProcAddr and
    vkGetDeviceProcAddr at an address answers for a handle and a name. *)
Class Loader : Type := {
  LoadLibraryA : string -> Z;
  GetProcAddress : Z -> string -> Z;
  call_GetProcAddr : Z -> Z -> string -> Z
}.

Record Procs : Type := MkProcs { vulkan_dll : Z; pfn : gmap string Z }.
Definition initial : Procs := MkProcs 0 ∅.
Definition pointer (name : string) (s : Procs) : Z := default 0 (pfn s !! name).

Definition initial_procs : list string :=
  ["vkCreateInstance"; "vkEnumerateInstanceExtensionProperties"; "vkEnumerateInstanceLayerProperties";
   "vkEnumerateInstanceVersion"; "vkGetInstanceProcAddr"].
Definition instance_procs : list string :=
  ["vkCreateDevice"; "vkCreateWin32SurfaceKHR"; "vkDestroyDevice"; "vkDestroyInstance"; "vkDestroySurfaceKHR";
   "vkEnumerateDeviceExtensionProperties"; "vkEnumerateDeviceLayerProperties"; "vkEnumeratePhysicalDeviceGroups";
   "vkEnumeratePhysicalDevices"; "vkGetDeviceProcAddr"; "vkGetPhysicalDeviceExternalBufferProperties";
   "vkGetPhysicalDeviceExternalFenceProperties"; "vkGetPhysicalDeviceExternalSemaphoreProperties";
   "vkGetPhysicalDeviceFeatures"; "vkGetPhysicalDeviceFeatures2"; "vkGetPhysicalDeviceFormatProperties";
   "vkGetPhysicalDeviceFormatProperties2"; "vkGetPhysicalDeviceImageFormatProperties";
   "vkGetPhysicalDeviceImageFormatProperties2"; "vkGetPhysicalDeviceMemoryProperties";
   "vkGetPhysicalDeviceMemoryProperties2"; "vkGetPhysicalDevicePresentRectanglesKHR";
   "vkGetPhysicalDeviceProperties"; "vkGetPhysicalDeviceProperties2"; "vkGetPhysicalDeviceQueueFamilyProperties";
   "vkGetPhysicalDeviceQueueFamilyProperties2"; "vkGetPhysicalDeviceSparseImageFormatProperties";
   "vkGetPhysicalDeviceSparseImageFormatProperties2"; "vkGetPhysicalDeviceSurfaceCapabilities2KHR";
   "vkGetPhysicalDeviceSurfaceCapabilitiesKHR"; "vkGetPhysicalDeviceSurfaceFormats2KHR";
   "vkGetPhysicalDeviceSurfaceFormatsKHR"; "vkGetPhysicalDeviceSurfacePresentModesKHR";
   "vkGetPhysicalDeviceSurfaceSupportKHR"; "vkGetPhysicalDeviceToolProperties";
   "vkGetPhysicalDeviceWin32PresentationSupportKHR"; "vkCreateDebugUtilsMessengerEXT";
   "vkDestroyDebugUtilsMessengerEXT"].
Definition device_procs : list string :=
  ["vkAcquireNextImage2KHR"; "vkAcquireNextImageKHR"; "vkAllocateCommandBuffers"; "vkAllocateDescriptorSets";
   "vkAllocateMemory"; "vkBeginCommandBuffer"; "vkBindBufferMemory"; "vkBindBufferMemory2"; "vkBindImageMemory";
   "vkBindImageMemory2"; "vkCmdBeginQuery"; "vkCmdBeginRendering"; "vkCmdBeginRenderPass"; "vkCmdBeginRenderPass2";
   "vkCmdBindDescriptorSets"; "vkCmdBindIndexBuffer"; "vkCmdBindPipeline"; "vkCmdBindVertexBuffers";
   "vkCmdBindVertexBuffers2"; "vkCmdBlitImage"; "vkCmdBlitImage2"; "vkCmdClearAttachments"; "vkCmdClearColorImage";
   "vkCmdClearDepthStencilImage"; "vkCmdCopyBuffer"; "vkCmdCopyBuffer2"; "vkCmdCopyBufferToImage";
   "vkCmdCopyBufferToImage2"; "vkCmdCopyImage"; "vkCmdCopyImage2"; "vkCmdCopyImageToBuffer";
   "vkCmdCopyImageToBuffer2"; "vkCmdCopyQueryPoolResults"; "vkCmdDispatch"; "vkCmdDispatchBase";
   "vkCmdDispatchIndirect"; "vkCmdDraw"; "vkCmdDrawIndexed"; "vkCmdDrawIndexedIndirect";
   "vkCmdDrawIndexedIndirectCount"; "vkCmdDrawIndirect"; "vkCmdDrawIndirectCount"; "vkCmdEndQuery";
   "vkCmdEndRendering"; "vkCmdEndRenderPass"; "vkCmdEndRenderPass2"; "vkCmdExecuteCommands"; "vkCmdFillBuffer";
   "vkCmdNextSubpass"; "vkCmdNextSubpass2"; "vkCmdPipelineBarrier"; "vkCmdPipelineBarrier2"; "vkCmdPushConstants";
   "vkCmdResetEvent"; "vkCmdResetEvent2"; "vkCmdResetQueryPool"; "vkCmdResolveImage"; "vkCmdResolveImage2";
   "vkCmdSetBlendConstants"; "vkCmdSetCullMode"; "vkCmdSetDepthBias"; "vkCmdSetDepthBiasEnable";
   "vkCmdSetDepthBounds"; "vkCmdSetDepthBoundsTestEnable"; "vkCmdSetDepthCompareOp"; "vkCmdSetDepthTestEnable";
   "vkCmdSetDepthWriteEnable"; "vkCmdSetDeviceMask"; "vkCmdSetEvent"; "vkCmdSetEvent2"; "vkCmdSetFrontFace";
   "vkCmdSetLineWidth"; "vkCmdSetPrimitiveRestartEnable"; "vkCmdSetPrimitiveTopology";
   "vkCmdSetRasterizerDiscardEnable"; "vkCmdSetScissor"; "vkCmdSetScissorWithCount"; "vkCmdSetStencilCompareMask";
   "vkCmdSetStencilOp"; "vkCmdSetStencilReference"; "vkCmdSetStencilTestEnable"; "vkCmdSetStencilWriteMask";
   "vkCmdSetViewport"; "vkCmdSetViewportWithCount"; "vkCmdUpdateBuffer"; "vkCmdWaitEvents"; "vkCmdWaitEvents2";
   "vkCmdWriteTimestamp"; "vkCmdWriteTimestamp2"; "vkCreateBuffer"; "vkCreateBufferView"; "vkCreateCommandPool";
   "vkCreateComputePipelines"; "vkCreateDescriptorPool"; "vkCreateDescriptorSetLayout";
   "vkCreateDescriptorUpdateTemplate"; "vkCreateEvent"; "vkCreateFence"; "vkCreateFramebuffer";
   "vkCreateGraphicsPipelines"; "vkCreateImage"; "vkCreateImageView"; "vkCreatePipelineCache";
   "vkCreatePipelineLayout"; "vkCreatePrivateDataSlot"; "vkCreateQueryPool"; "vkCreateRenderPass";
   "vkCreateRenderPass2"; "vkCreateSampler"; "vkCreateSamplerYcbcrConversion"; "vkCreateSemaphore";
   "vkCreateShaderModule"; "vkCreateSwapchainKHR"; "vkDestroyBuffer"; "vkDestroyBufferView"; "vkDestroyCommandPool";
   "vkDestroyDescriptorPool"; "vkDestroyDescriptorSetLayout"; "vkDestroyDescriptorUpdateTemplate"; "vkDestroyEvent";
   "vkDestroyFence"; "vkDestroyFramebuffer"; "vkDestroyImage"; "vkDestroyImageView"; "vkDestroyPipeline";
   "vkDestroyPipelineCache"; "vkDestroyPipelineLayout"; "vkDestroyPrivateDataSlot"; "vkDestroyQueryPool";
   "vkDestroyRenderPass"; "vkDestroySampler"; "vkDestroySamplerYcbcrConversion"; "vkDestroySemaphore";
   "vkDestroyShaderModule"; "vkDestroySwapchainKHR"; "vkDeviceWaitIdle"; "vkEndCommandBuffer";
   "vkFlushMappedMemoryRanges"; "vkFreeCommandBuffers"; "vkFreeDescriptorSets"; "vkFreeMemory";
   "vkGetBufferDeviceAddress"; "vkGetBufferMemoryRequirements"; "vkGetBufferMemoryRequirements2";
   "vkGetBufferOpaqueCaptureAddress"; "vkGetDescriptorSetLayoutSupport"; "vkGetDeviceBufferMemoryRequirements";
   "vkGetDeviceGroupPeerMemoryFeatures"; "vkGetDeviceGroupPresentCapabilitiesKHR";
   "vkGetDeviceGroupSurfacePresentModesKHR"; "vkGetDeviceImageMemoryRequirements";
   "vkGetDeviceImageSparseMemoryRequirements"; "vkGetDeviceMemoryCommitment";
   "vkGetDeviceMemoryOpaqueCaptureAddress"; "vkGetDeviceProcAddr"; "vkGetDeviceQueue"; "vkGetDeviceQueue2";
   "vkGetEventStatus"; "vkGetFenceStatus"; "vkGetImageMemoryRequirements"; "vkGetImageMemoryRequirements2";
   "vkGetImageSparseMemoryRequirements"; "vkGetImageSparseMemoryRequirements2"; "vkGetImageSubresourceLayout";
   "vkGetPipelineCacheData"; "vkGetPrivateData"; "vkGetQueryPoolResults"; "vkGetRenderAreaGranularity";
   "vkGetSemaphoreCounterValue"; "vkGetSwapchainImagesKHR"; "vkInvalidateMappedMemoryRanges"; "vkMapMemory";
   "vkMergePipelineCaches"; "vkQueueBindSparse"; "vkQueuePresentKHR"; "vkQueueSubmit"; "vkQueueSubmit2";
   "vkQueueWaitIdle"; "vkResetCommandBuffer"; "vkResetCommandPool"; "vkResetDescriptorPool"; "vkResetEvent";
   "vkResetFences"; "vkResetQueryPool"; "vkSetEvent"; "vkSetPrivateData"; "vkSignalSemaphore"; "vkTrimCommandPool";
   "vkUnmapMemory"; "vkUpdateDescriptorSets"; "vkUpdateDescriptorSetWithTemplate"; "vkWaitForFences";
   "vkWaitSemaphores"; "vkGetMemoryHostPointerPropertiesEXT"; "vkCmdSetLogicOpEXT"; "vkCmdSetVertexInputEXT";
   "vkCmdSetColorBlendEnableEXT"; "vkCmdSetColorBlendEquationEXT"; "vkCmdSetColorWriteMaskEXT";
   "vkCmdSetDepthClampEnableEXT"; "vkCmdSetLogicOpEnableEXT"; "vkCmdSetPolygonModeEXT"].

Section loading.
Context `{!Loader}.

(** LOAD_..._VK_PROC of each name: the pointer is set, then it is asserted not to be null. *)
Fixpoint load (get : string -> M Procs Z) (names : list string) : M Procs unit :=
  match names with
  | [] => mret tt
  | name :: names =>
    address ← get name;
    _ ← modify (fun s => MkProcs (vulkan_dll s) (<[name := address]> (pfn s)));
    _ ← dd_assert (negb (address =? 0));
    load get names
  end.
(** A call through the pointer of a function that gives addresses. *)
Definition through (name : string) (handle : Z) (asked : string) : M Procs Z :=
  f ← gets (pointer name);
  if f =? 0 then throw BadPointer else mret (call_GetProcAddr f handle asked).

(** The library's handle is a local variable that hides the global one. *)
Definition LoadInitialVkCProcs : M Procs unit :=
  let local_vulkan_dll := LoadLibraryA "vulkan-1.dll" in
  _ ← dd_assert (negb (local_vulkan_dll =? 0));
  load (fun name => mret (GetProcAddress local_vulkan_dll name)) initial_procs.
Definition LoadCProcsInstance (instance : Z) : M Procs unit := load (through "vkGetInstanceProcAddr" instance) instance_procs.
Definition LoadCProcsDevice (device : Z) : M Procs unit := load (through "vkGetDeviceProcAddr" device) device_procs.
End loading.
End VkProc.

(** * What is loaded *)
Section loading_theorems.
Import VkProc.
Context `{!Loader}.
Implicit Types (s : Procs) (name : string) (names : list string).

(** The library and everything in it is found. *)
Definition complete : Prop :=
  LoadLibraryA "vulkan-1.dll" <> 0 /\ (forall dll name, GetProcAddress dll name <> 0) /\
  (forall f handle name, f <> 0 -> call_GetProcAddr f handle name <> 0).
Definition loaded s name : Prop := pointer name s <> 0.

(** The function that sets a dynamic state, and the function of a call. *)
Definition proc_of_state (d : dynamic_state) : string :=
  match d with
  | VK_DYNAMIC_STATE_VIEWPORT_WITH_COUNT => "vkCmdSetViewportWithCount"
  | VK_DYNAMIC_STATE_SCISSOR_WITH_COUNT => "vkCmdSetScissorWithCount"
  | VK_DYNAMIC_STATE_LINE_WIDTH => "vkCmdSetLineWidth" | VK_DYNAMIC_STATE_DEPTH_BIAS => "vkCmdSetDepthBias"
  | VK_DYNAMIC_STATE_BLEND_CONSTANTS => "vkCmdSetBlendConstants"
  | VK_DYNAMIC_STATE_DEPTH_BOUNDS => "vkCmdSetDepthBounds"
  | VK_DYNAMIC_STATE_STENCIL_COMPARE_MASK => "vkCmdSetStencilCompareMask"
  | VK_DYNAMIC_STATE_STENCIL_WRITE_MASK => "vkCmdSetStencilWriteMask"
  | VK_DYNAMIC_STATE_STENCIL_REFERENCE => "vkCmdSetStencilReference"
  | VK_DYNAMIC_STATE_CULL_MODE => "vkCmdSetCullMode" | VK_DYNAMIC_STATE_FRONT_FACE => "vkCmdSetFrontFace"
  | VK_DYNAMIC_STATE_PRIMITIVE_TOPOLOGY => "vkCmdSetPrimitiveTopology"
  | VK_DYNAMIC_STATE_VERTEX_INPUT_BINDING_STRIDE => "vkCmdBindVertexBuffers2"
  | VK_DYNAMIC_STATE_DEPTH_TEST_ENABLE => "vkCmdSetDepthTestEnable"
  | VK_DYNAMIC_STATE_DEPTH_WRITE_ENABLE => "vkCmdSetDepthWriteEnable"
  | VK_DYNAMIC_STATE_DEPTH_COMPARE_OP => "vkCmdSetDepthCompareOp"
  | VK_DYNAMIC_STATE_DEPTH_BOUNDS_TEST_ENABLE => "vkCmdSetDepthBoundsTestEnable"
  | VK_DYNAMIC_STATE_STENCIL_TEST_ENABLE => "vkCmdSetStencilTestEnable"
  | VK_DYNAMIC_STATE_STENCIL_OP => "vkCmdSetStencilOp"
  | VK_DYNAMIC_STATE_RASTERIZER_DISCARD_ENABLE => "vkCmdSetRasterizerDiscardEnable"
  | VK_DYNAMIC_STATE_DEPTH_BIAS_ENABLE => "vkCmdSetDepthBiasEnable"
  | VK_DYNAMIC_STATE_PRIMITIVE_RESTART_ENABLE => "vkCmdSetPrimitiveRestartEnable"
  | VK_DYNAMIC_STATE_VERTEX_INPUT_EXT => "vkCmdSetVertexInputEXT"
  | VK_DYNAMIC_STATE_LOGIC_OP_EXT => "vkCmdSetLogicOpEXT"
  | VK_DYNAMIC_STATE_COLOR_BLEND_ENABLE_EXT => "vkCmdSetColorBlendEnableEXT"
  | VK_DYNAMIC_STATE_COLOR_BLEND_EQUATION_EXT => "vkCmdSetColorBlendEquationEXT"
  | VK_DYNAMIC_STATE_COLOR_WRITE_MASK_EXT => "vkCmdSetColorWriteMaskEXT"
  | VK_DYNAMIC_STATE_DEPTH_CLAMP_ENABLE_EXT => "vkCmdSetDepthClampEnableEXT"
  | VK_DYNAMIC_STATE_LOGIC_OP_ENABLE_EXT => "vkCmdSetLogicOpEnableEXT"
  | VK_DYNAMIC_STATE_POLYGON_MODE_EXT => "vkCmdSetPolygonModeEXT"
  end.
Definition proc_of (c : call) : string :=
  match c with
  | CreateBuffer _ _ _ => "vkCreateBuffer" | DestroyBuffer _ => "vkDestroyBuffer"
  | BindBufferMemory _ _ _ => "vkBindBufferMemory" | GetBufferDeviceAddress _ => "vkGetBufferDeviceAddress"
  | GetDeviceBufferMemoryRequirements _ _ => "vkGetDeviceBufferMemoryRequirements"
  | AllocateMemory _ _ _ _ => "vkAllocateMemory" | FreeMemory _ => "vkFreeMemory" | MapMemory _ => "vkMapMemory"
  | UnmapMemory _ => "vkUnmapMemory" | GetMemoryHostPointerProperties _ => "vkGetMemoryHostPointerPropertiesEXT"
  | CreateImage _ => "vkCreateImage" | DestroyImage _ => "vkDestroyImage"
  | BindImageMemory _ _ _ => "vkBindImageMemory"
  | GetDeviceImageMemoryRequirements _ => "vkGetDeviceImageMemoryRequirements"
  | CreateImageView _ => "vkCreateImageView" | DestroyImageView _ => "vkDestroyImageView"
  | CreateSampler _ => "vkCreateSampler" | DestroySampler _ => "vkDestroySampler"
  | CreateDescriptorPool _ _ => "vkCreateDescriptorPool" | DestroyDescriptorPool _ => "vkDestroyDescriptorPool"
  | AllocateDescriptorSets _ _ => "vkAllocateDescriptorSets"
  | UpdateDescriptorSets _ _ _ _ _ _ _ => "vkUpdateDescriptorSets" | CreateSwapchain _ => "vkCreateSwapchainKHR"
  | DestroySwapchain _ => "vkDestroySwapchainKHR" | GetSwapchainImages _ _ => "vkGetSwapchainImagesKHR"
  | CreateSemaphore => "vkCreateSemaphore" | DestroySemaphore _ => "vkDestroySemaphore"
  | CreateFence _ => "vkCreateFence" | DestroyFence _ => "vkDestroyFence" | ResetFences _ => "vkResetFences"
  | WaitForFences _ => "vkWaitForFences" | AcquireNextImage _ _ _ => "vkAcquireNextImageKHR"
  | QueuePresent _ _ _ => "vkQueuePresentKHR" | CreateShaderModule _ _ => "vkCreateShaderModule"
  | DestroyShaderModule _ => "vkDestroyShaderModule"
  | CreateGraphicsPipelines _ _ _ _ _ _ => "vkCreateGraphicsPipelines"
  | CreateComputePipelines _ _ => "vkCreateComputePipelines" | DestroyPipeline _ => "vkDestroyPipeline"
  | AllocateCommandBuffers _ => "vkAllocateCommandBuffers" | FreeCommandBuffers _ _ => "vkFreeCommandBuffers"
  | BeginCommandBuffer _ => "vkBeginCommandBuffer" | EndCommandBuffer _ => "vkEndCommandBuffer"
  | CmdBeginRendering _ => "vkCmdBeginRendering" | CmdEndRendering => "vkCmdEndRendering"
  | CmdPushConstants _ _ _ _ _ => "vkCmdPushConstants" | CmdCopyBuffer _ _ _ => "vkCmdCopyBuffer"
  | CmdBufferBarrier _ _ => "vkCmdPipelineBarrier2" | CmdImageBarrier _ _ _ => "vkCmdPipelineBarrier2"
  | CmdClearColorImage _ _ _ => "vkCmdClearColorImage"
  | CmdClearDepthStencilImage _ _ _ => "vkCmdClearDepthStencilImage"
  | CmdSetPrimitiveTopology _ => "vkCmdSetPrimitiveTopology" | CmdDraw _ _ _ _ => "vkCmdDraw"
  | CmdDrawIndexed _ _ _ _ _ => "vkCmdDrawIndexed" | CmdBindIndexBuffer _ _ _ => "vkCmdBindIndexBuffer"
  | CmdBindVertexBuffers _ _ _ _ _ => "vkCmdBindVertexBuffers2" | CmdBindPipeline _ _ => "vkCmdBindPipeline"
  | CmdBindDescriptorSets _ _ _ _ => "vkCmdBindDescriptorSets" | CmdSet d _ _ => proc_of_state d
  | CreateCommandPool _ => "vkCreateCommandPool" | DestroyCommandPool _ => "vkDestroyCommandPool"
  | CreateDescriptorSetLayout _ _ _ _ => "vkCreateDescriptorSetLayout"
  | DestroyDescriptorSetLayout _ => "vkDestroyDescriptorSetLayout"
  | CreatePipelineLayout _ _ => "vkCreatePipelineLayout" | DestroyPipelineLayout _ => "vkDestroyPipelineLayout"
  | CreateInstance => "vkCreateInstance" | DestroyInstance _ => "vkDestroyInstance"
  | CreateDebugUtilsMessenger _ => "vkCreateDebugUtilsMessengerEXT"
  | DestroyDebugUtilsMessenger _ _ => "vkDestroyDebugUtilsMessengerEXT" | CreateDevice _ _ => "vkCreateDevice"
  | DestroyDevice _ => "vkDestroyDevice" | GetDeviceQueue _ => "vkGetDeviceQueue"
  | QueueWaitIdle _ => "vkQueueWaitIdle" | DeviceWaitIdle _ => "vkDeviceWaitIdle"
  end.

(** [m] keeps [P] and the handle, and loads [names]. *)
Lemma load_loads (P : Procs -> Prop) get names :
  (forall name s, P s -> exists a, get name s = Ok (a, s) /\ a <> 0) ->
  (forall name a s, P s -> a <> 0 -> P (MkProcs (vulkan_dll s) (<[name := a]> (pfn s)))) ->
  forall s, P s -> exists s', load get names s = Ok (tt, s') /\ P s' /\ vulkan_dll s' = vulkan_dll s /\
    (forall n, n ∈ names -> loaded s' n) /\ (forall n, loaded s n -> loaded s' n).
Proof.
  intros Hget Hset. induction names as [|name names IH]; intros s HP; cbn [load].
  { exists s. split_and!; try done. by intros n Hn%elem_of_nil. }
  destruct (Hget name s HP) as (a & E & Ha). rewrite (M_bind_run _ _ _ _ _ E), M_modify_bind. unfold dd_assert.
  destruct (Z.eqb_spec a 0) as [|_]; [done|]. destruct (IH _ (Hset name a s HP Ha)) as (s' & E' & HP' & Hd & Hn & Hold).
  assert (forall n, loaded s n -> loaded (MkProcs (vulkan_dll s) (<[name := a]> (pfn s))) n) as Hstep.
  { intros n. unfold loaded, pointer. cbn. destruct (decide (name = n)) as [->|]; [by rewrite lookup_insert_eq|by rewrite lookup_insert_ne]. }
  exists s'. split_and!; try done; [|by auto]. intros n [->|Hin]%elem_of_cons; [|by apply Hn].
  apply Hold. unfold loaded, pointer. cbn. by rewrite lookup_insert_eq.
Qed.

Lemma through_gets name handle asked s : complete -> loaded s name -> exists a, through name handle asked s = Ok (a, s) /\ a <> 0.
Proof.
  intros (_ & _ & Hc) Hl. unfold through. rewrite M_gets_bind. destruct (Z.eqb_spec (pointer name s) 0); [done|]. eexists. split; [done|by apply Hc].
Qed.
Lemma loaded_set name' name a s : loaded s name' -> a <> 0 -> loaded (MkProcs (vulkan_dll s) (<[name := a]> (pfn s))) name'.
Proof.
  intros Hl Ha. unfold loaded, pointer. cbn. destruct (decide (name = name')) as [->|]; [by rewrite lookup_insert_eq|by rewrite lookup_insert_ne].
Qed.

Lemma load_through names name handle s : complete -> loaded s name ->
  exists s', load (through name handle) names s = Ok (tt, s') /\ vulkan_dll s' = vulkan_dll s /\
    (forall n, n ∈ names -> loaded s' n) /\ (forall n, loaded s n -> loaded s' n).
Proof.
  intros Hc Hl. destruct (load_loads (fun s => loaded s name) (through name handle) names) with (s := s) as (s' & E & _ & H'); [..|eauto].
  - intros n s0 H0. by apply through_gets.
  - intros n a s0. apply loaded_set.
  - done.
Qed.

Lemma listed names n : existsb (String.eqb n) names = true -> n ∈ names.
Proof. intros (x & Hx & ->%String.eqb_eq)%existsb_exists. by apply list_elem_of_In. Qed.

Lemma load_initial s : complete ->
  exists s', LoadInitialVkCProcs s = Ok (tt, s') /\ vulkan_dll s' = vulkan_dll s /\ (forall n, n ∈ initial_procs -> loaded s' n).
Proof.
  intros (Hl & Hg & _). unfold LoadInitialVkCProcs, dd_assert. destruct (Z.eqb_spec (LoadLibraryA "vulkan-1.dll") 0) as [|_]; [done|].
  cbn [negb]. rewrite M_ret_bind.
  destruct (load_loads (fun _ => True) (fun name => (mret (GetProcAddress (LoadLibraryA "vulkan-1.dll") name) : M Procs Z)) initial_procs) with (s := s)
    as (s' & E & _ & D & N & _); eauto.
Qed.
Lemma load_instance instance s : complete -> (forall n, n ∈ initial_procs -> loaded s n) ->
  exists s', LoadCProcsInstance instance s = Ok (tt, s') /\ vulkan_dll s' = vulkan_dll s /\
    (forall n, n ∈ (initial_procs ++ instance_procs)%list -> loaded s' n).
Proof.
  intros Hc Hn. destruct (load_through instance_procs "vkGetInstanceProcAddr" instance s Hc) as (s' & E & D & N & O).
  { apply Hn, listed. reflexivity. }
  exists s'. split_and!; [done..|]. intros n [Hin|Hin]%elem_of_app; auto.
Qed.

Definition all_procs : list string := (initial_procs ++ instance_procs ++ device_procs)%list.
Lemma call_listed c : proc_of c ∈ all_procs.
Proof.
  apply listed. destruct c;
    try match goal with |- context [proc_of (CmdSet ?state _ _)] => destruct state end; vm_compute; reflexivity.
Qed.

Lemma load_device device s : complete -> (forall n, n ∈ (initial_procs ++ instance_procs)%list -> loaded s n) ->
  exists s', LoadCProcsDevice device s = Ok (tt, s') /\ vulkan_dll s' = vulkan_dll s /\ (forall n, n ∈ all_procs -> loaded s' n).
Proof.
  intros Hc Hn. destruct (load_through device_procs "vkGetDeviceProcAddr" device s Hc) as (s' & E & D & N & O).
  { apply Hn, listed. reflexivity. }
  exists s'. split_and!; [done..|]. intros n. unfold all_procs. rewrite app_assoc. intros [Hin|Hin]%elem_of_app; auto.
Qed.

(** With a complete library, the three steps in their order load every pointer, and with them the function of
    every call the rendering classes make; the handle of the library is not kept. *)
Theorem procs_loaded instance device : complete ->
  exists s, (LoadInitialVkCProcs ≫= fun _ => LoadCProcsInstance instance ≫= fun _ => LoadCProcsDevice device) initial = Ok (tt, s) /\
    (forall n, n ∈ all_procs -> loaded s n) /\ (forall c, loaded s (proc_of c)) /\ vulkan_dll s = 0.
Proof.
  intros Hc. destruct (load_initial initial Hc) as (s1 & E1 & D1 & N1). destruct (load_instance instance s1 Hc N1) as (s2 & E2 & D2 & N2).
  destruct (load_device device s2 Hc N2) as (s3 & E3 & D3 & N3). exists s3.
  rewrite (M_bind_run _ _ _ _ _ E1), (M_bind_run _ _ _ _ _ E2), D3, D2, D1. split_and!; [done..| |done].
  intros c. apply N3, call_listed.
Qed.

(** A library that lacks one of the first functions stops the program, and so does loading in another order: the
    functions of the instance before those of the library, or of the device before those of the instance, are asked
    for through a null pointer. *)
Theorem load_errors name instance device s :
  (name ∈ initial_procs -> LoadLibraryA "vulkan-1.dll" <> 0 -> GetProcAddress (LoadLibraryA "vulkan-1.dll") name = 0 ->
   LoadInitialVkCProcs s = Fault AssertFailed) /\
  (pointer "vkGetInstanceProcAddr" s = 0 -> LoadCProcsInstance instance s = Fault BadPointer) /\
  (pointer "vkGetDeviceProcAddr" s = 0 -> LoadCProcsDevice device s = Fault BadPointer).
Proof.
  split_and!.
  - intros Hin Hdll%Z.eqb_neq Hz. unfold LoadInitialVkCProcs, dd_assert. rewrite Hdll. cbn [negb].
    change (load (fun name => mret (GetProcAddress (LoadLibraryA "vulkan-1.dll") name)) initial_procs s = Fault AssertFailed).
    revert s Hin. generalize initial_procs as names. induction names as [|n names IH]; intros s Hin; [by apply not_elem_of_nil in Hin|].
    cbn [load]. rewrite M_ret_bind, M_modify_bind. unfold dd_assert, mbind, M_bind.
    destruct (Z.eqb_spec (GetProcAddress (LoadLibraryA "vulkan-1.dll") n) 0) as [|Hn]; [done|].
    apply elem_of_cons in Hin as [->|Hin]; [done|]. by apply IH.
  - intros Hz. unfold LoadCProcsInstance, instance_procs. cbn [load]. apply M_bind_fault. unfold through. by rewrite M_gets_bind, Hz.
  - intros Hz. unfold LoadCProcsDevice, device_procs. cbn [load]. apply M_bind_fault. unfold through. by rewrite M_gets_bind, Hz.
Qed.
End loading_theorems.

Section loading_examples.
Import VkProc.
(** A library that has everything but, possibly, one name. *)
Definition library (missing : string) : Loader :=
  {| LoadLibraryA _ := 1; GetProcAddress _ n := if bool_decide (n = missing) then 0 else 2; call_GetProcAddr _ _ _ := 3 |}.
Definition full_library : Loader := {| LoadLibraryA _ := 1; GetProcAddress _ _ := 2; call_GetProcAddr _ _ _ := 3 |}.

Lemma procs_loaded_witness :
  exists s, (@LoadInitialVkCProcs full_library ≫= fun _ => @LoadCProcsInstance full_library 5 ≫= fun _ => @LoadCProcsDevice full_library 6) initial
    = Ok (tt, s) /\ loaded s (proc_of CreateInstance).
Proof.
  destruct (@procs_loaded full_library 5 6) as (s & E & _ & Hc & _).
  - split; [discriminate|]. split; intros; discriminate.
  - exists s. split; [exact E|exact (Hc CreateInstance)].
Defined.

Lemma load_errors_witness : @LoadInitialVkCProcs (library "vkCreateInstance") initial = Fault AssertFailed /\
  @LoadCProcsDevice full_library 6 initial = Fault BadPointer.
Proof.
  split.
  - apply (@load_errors (library "vkCreateInstance") "vkCreateInstance" 0 0 initial); [left|discriminate|reflexivity].
  - apply (@load_errors full_library "" 0 6 initial). reflexivity.
Defined.
End loading_examples.
