(* ===== verification/VkStartup.v ===== *)
(** The start and the end of the Vulkan context (the constructor and the destructor in vk_context.vulkan.cpp): every
    call goes through a pointer of vk_proc.vulkan.cpp, which three steps load on the way.

    [Host] is what the system answers before there is a device.  The structures that describe the instance and the
    device, with the names of their layers and extensions, are not part of the calls.  The build is one with DD_DEBUG. *)
From stdpp Require Import gmap strings.
From S2P Require Import Prelude Vulkan VkLifetime VkContext VkProc.

Module VkStartup.
Import VkContext VkProc.

Record Host : Type := MkHost {
  api_version : Z;                      (* vkEnumerateInstanceVersion *)
  count_result : Z;                     (* of vkEnumeratePhysicalDevices, asked for the number *)
  list_result : Z;                      (* and for the devices *)
  devices : list physical_device;
  array : Z                             (* malloc of the list of devices *)
}.
Record Program : Type := MkProgram { global_context : Z; procs : Procs; vulkan : Vk; memory : list Z (* allocated *) }.
(** What the destructor needs besides the objects of [Context]. *)
Record Handles : Type := MkHandles { m_vk_instance : Z; m_debug_messenger : Z; m_vk_device : Z; m_vk_physical_device_array : Z }.

Definition SetGlobalContext (context : Z) : M Program unit := modify (fun s => MkProgram context (procs s) (vulkan s) (memory s)).
Definition GetGlobalContext : M Program Z := gets global_context.

Definition on_procs {A} (m : M Procs A) : M Program A := fun s =>
  match m (procs s) with Ok (a, p) => Ok (a, MkProgram (global_context s) p (vulkan s) (memory s)) | Fault f => Fault f end.
Definition on_vulkan {A} (m : M Vk A) : M Program A := fun s =>
  match m (vulkan s) with Ok (a, v) => Ok (a, MkProgram (global_context s) (procs s) v (memory s)) | Fault f => Fault f end.
(** A call through the pointer of a name. *)
Definition call_through {A} (name : string) (m : M Vk A) : M Program A :=
  f ← gets (fun s => pointer name (procs s)); if f =? 0 then throw BadPointer else on_vulkan m.
(** Pointers through which something is only asked: the answers are those of [Host]. *)
Fixpoint ask (names : list string) : M Program unit :=
  match names with [] => mret tt | name :: names => _ ← call_through name (mret tt); ask names end.

Definition keep_array (p : Z) : M Program unit := modify (fun s => MkProgram (global_context s) (procs s) (vulkan s) (p :: memory s)).
Definition free (p : Z) : M Program unit := fun s =>
  if bool_decide (p ∈ memory s)
  then Ok (tt, MkProgram (global_context s) (procs s) (vulkan s) (filter (fun q => q <> p) (memory s))) else Fault BadPointer.

Section context.
Context `{!VkHeader, !Driver, !Loader}.

Definition expect_call (c : call) : M Program Z := call_through (proc_of c) (expect c).
Definition submit_call (c : call) : M Program answer := call_through (proc_of c) (submit c).
Definition record_call (c : call) : M Program unit := call_through (proc_of c) (record c).

(** The instance and its messenger. *)
Definition create_instance (host : Host) : M Program (Z * Z) :=
  _ ← ask ["vkEnumerateInstanceVersion"%string]; _ ← dd_assert (TargetMinimumApiVersion <=? api_version host);
  instance ← expect_call CreateInstance;
  _ ← on_procs (LoadCProcsInstance instance);
  messenger ← expect_call (CreateDebugUtilsMessenger instance);
  mret (instance, messenger).
(** The physical device and its family of queues. *)
Definition pick_queries : list string :=
  ["vkGetPhysicalDeviceProperties2"; "vkGetPhysicalDeviceFeatures2"; "vkGetPhysicalDeviceQueueFamilyProperties";
   "vkGetPhysicalDeviceWin32PresentationSupportKHR"]%string.
Definition pick_device_and_family (host : Host) : M Program (physical_device * Z) :=
  _ ← ask ["vkEnumeratePhysicalDevices"%string]; _ ← dd_assert (count_result host =? vk VK_SUCCESS);
  _ ← dd_assert (negb (Z.of_nat (length (devices host)) =? 0));
  _ ← keep_array (array host); _ ← dd_assert (negb (array host =? 0));
  _ ← ask ["vkEnumeratePhysicalDevices"%string]; _ ← dd_assert (list_result host =? vk VK_SUCCESS);
  _ ← ask pick_queries;
  picked ← lift (PickValidPhysicalDevice true (devices host));
  match picked with
  | None => throw AssertFailed
  | Some (_, d) =>
    _ ← ask ["vkGetPhysicalDeviceQueueFamilyProperties"%string];
    match FindGraphicsQueueFamily d with None => throw AssertFailed | Some family => mret (d, family) end
  end.
(** The logical device and the objects every client of it shares. *)
Definition create_objects (d : physical_device) (family : Z) : M Program Z :=
  device ← expect_call (CreateDevice (handle d) family);
  _ ← on_procs (LoadCProcsDevice device);
  queue ← submit_call (GetDeviceQueue family);
  pool ← expect_call (CreateCommandPool family);
  _ ← ask ["vkGetPhysicalDeviceMemoryProperties"%string];
  texture_layout ← expect_call (CreateDescriptorSetLayout TargetTextureDescriptorBinding (vk VK_DESCRIPTOR_TYPE_SAMPLED_IMAGE) TargetMaxTextureDescriptors (vk VK_SHADER_STAGE_ALL));
  sampler_layout ← expect_call (CreateDescriptorSetLayout TargetSamplerDescriptorBinding (vk VK_DESCRIPTOR_TYPE_SAMPLER) TargetMaxSamplerDescriptors (vk VK_SHADER_STAGE_ALL));
  pipeline_layout ← expect_call (CreatePipelineLayout [texture_layout; sampler_layout] resource_index_push_constant_ranges);
  _ ← on_vulkan (modify (fun s => MkVk (log s) (MkContext family pool texture_layout sampler_layout pipeline_layout (memory_types d) (value queue))
                            (pools s) (buffers s) (textures s) (views s)));
  mret device.
Definition construct (this : Z) (host : Host) : M Program Handles :=
  _ ← SetGlobalContext this;
  _ ← on_procs LoadInitialVkCProcs;
  '(instance, messenger) ← create_instance host;
  '(d, family) ← pick_device_and_family host;
  device ← create_objects d family;
  mret (MkHandles instance messenger device (array host)).
Definition destroy (h : Handles) : M Program unit :=
  c ← gets (fun s => context (vulkan s));
  _ ← record_call (QueueWaitIdle (m_vk_graphics_queue c)); _ ← record_call (DeviceWaitIdle (m_vk_device h));
  _ ← record_call (DestroyPipelineLayout (m_vk_pipeline_layout c));
  _ ← record_call (DestroyDescriptorSetLayout (m_vk_texture_descriptor_set_layout c));
  _ ← record_call (DestroyDescriptorSetLayout (m_vk_sampler_descriptor_set_layout c));
  _ ← record_call (DestroyCommandPool (m_vk_graphics_command_pool c));
  _ ← record_call (DestroyDevice (m_vk_device h));
  _ ← record_call (DestroyDebugUtilsMessenger (m_vk_instance h) (m_debug_messenger h));
  _ ← record_call (DestroyInstance (m_vk_instance h));
  if m_vk_physical_device_array h =? 0 then mret tt else free (m_vk_physical_device_array h).
End context.
End VkStartup.

(** * Lifetimes *)
Section lives.
Context `{!VkHeader, !Driver}.

(** What is alive: the instance, its messenger, the device, and the objects of the device by kind and handle. *)
Record Living : Type := MkLiving { living_instance : option Z; living_messenger : option Z; living_device : option Z; living : list (kind * Z) }.
Definition nobody : Living := MkLiving None None None [].

Definition created (c : call) : option kind :=
  match c with
  | CreateSwapchain _ => Some KSwapchain | CreateImageView _ => Some KView | CreateImage _ => Some KImage
  | AllocateMemory _ _ _ _ => Some KMemory | CreateSemaphore => Some KSemaphore | CreateFence _ => Some KFence
  | CreateBuffer _ _ _ => Some KBuffer | CreateShaderModule _ _ => Some KShaderModule
  | CreateGraphicsPipelines _ _ _ _ _ _ | CreateComputePipelines _ _ => Some KPipeline
  | CreateDescriptorPool _ _ => Some KDescriptorPool | CreateSampler _ => Some KSampler | CreateCommandPool _ => Some KCommandPool
  | CreateDescriptorSetLayout _ _ _ _ => Some KDescriptorSetLayout | CreatePipelineLayout _ _ => Some KPipelineLayout
  | _ => None
  end.
Definition destroyed (c : call) : option (kind * Z) :=
  match c with
  | DestroySwapchain x => Some (KSwapchain, x) | DestroyImageView x => Some (KView, x) | DestroyImage x => Some (KImage, x)
  | FreeMemory x => Some (KMemory, x) | DestroySemaphore x => Some (KSemaphore, x) | DestroyFence x => Some (KFence, x)
  | DestroyBuffer x => Some (KBuffer, x) | DestroyShaderModule x => Some (KShaderModule, x) | DestroyPipeline x => Some (KPipeline, x)
  | DestroyDescriptorPool x => Some (KDescriptorPool, x) | DestroySampler x => Some (KSampler, x)
  | DestroyCommandPool x => Some (KCommandPool, x) | DestroyDescriptorSetLayout x => Some (KDescriptorSetLayout, x)
  | DestroyPipelineLayout x => Some (KPipelineLayout, x)
  | _ => None
  end.
Fixpoint take_out (o : kind * Z) (l : list (kind * Z)) : option (list (kind * Z)) :=
  match l with [] => None | p :: l => if decide (p = o) then Some l else cons p <$> take_out o l end.

(** The rules: an instance before what belongs to it and a device before what belongs to that, objects destroyed by the
    handle they were created with, and a parent only when nothing of it is left. *)
Definition life_step (before : list call) (s : Living) (c : call) : option Living :=
  let handle := value (answers before c) in
  match s, c with
  | MkLiving None _ _ _, CreateInstance => Some (MkLiving (Some handle) None None [])
  | MkLiving (Some i) None d l, CreateDebugUtilsMessenger i' => if i' =? i then Some (MkLiving (Some i) (Some handle) d l) else None
  | MkLiving (Some i) m None _, CreateDevice _ _ => Some (MkLiving (Some i) m (Some handle) [])
  | MkLiving (Some i) (Some m) d l, DestroyDebugUtilsMessenger i' m' => if (i' =? i) && (m' =? m) then Some (MkLiving (Some i) None d l) else None
  | MkLiving i m (Some d) [], DestroyDevice d' => if d' =? d then Some (MkLiving i m None []) else None
  | MkLiving (Some i) None None _, DestroyInstance i' => if i' =? i then Some nobody else None
  | _, CreateInstance | _, CreateDebugUtilsMessenger _ | _, CreateDevice _ _
  | _, DestroyDebugUtilsMessenger _ _ | _, DestroyDevice _ | _, DestroyInstance _ => None
  | MkLiving i m (Some d) l, c =>
    match created c, destroyed c with
    | Some k, _ => Some (MkLiving i m (Some d) (l ++ [(k, handle)]))
    | _, Some o => MkLiving i m (Some d) <$> take_out o l
    | _, _ => Some s
    end
  | _, _ => None
  end.
Fixpoint live (before : list call) (s : Living) (cs : list call) : option Living :=
  match cs with [] => Some s | c :: cs => s' ← life_step before s c; live (before ++ [c]) s' cs end.

Lemma live_app l s cs1 cs2 : live l s (cs1 ++ cs2) = s' ← live l s cs1; live (l ++ cs1) s' cs2.
Proof.
  revert l s. induction cs1 as [|c cs1 IH]; intros l s; cbn [live app]; [cbn; by rewrite app_nil_r|].
  destruct (life_step l s c) as [s'|]; [|done]. cbn. rewrite IH, <- app_assoc. done.
Qed.
End lives.

(** * Start and end *)
Section lifecycle.
Import VkContext VkProc VkStartup.
Context `{!VkHeader, !Driver, !Loader}.
Implicit Types (s : Program) (c : call) (cs : list call).

Definition said c s : Program := MkProgram (global_context s) (procs s) (set_log (fun l => l ++ [c]) (vulkan s)) (memory s).

Lemma call_through_run {A} name (m : M Vk A) a v s : loaded (procs s) name -> m (vulkan s) = Ok (a, v) ->
  call_through name m s = Ok (a, MkProgram (global_context s) (procs s) v (memory s)).
Proof.
  intros Hl%Z.eqb_neq E. unfold call_through, on_vulkan. rewrite M_gets_bind, Hl, E. done.
Qed.
Lemma expect_call_run {A} c s (k : Z -> M Program A) : reliable -> loaded (procs s) (proc_of c) ->
  (expect_call c ≫= k) s = k (value (answers (log (vulkan s)) c)) (said c s).
Proof.
  intros Hr Hl. apply M_bind_run. unfold expect_call. rewrite (call_through_run _ _ (value (answers (log (vulkan s)) c)) (set_log (fun l => l ++ [c]) (vulkan s)) s Hl); [done|].
  unfold expect, submit, dd_assert, mbind, M_bind. by rewrite Hr, Z.eqb_refl.
Qed.
Lemma submit_call_run {A} c s (k : answer -> M Program A) : loaded (procs s) (proc_of c) ->
  (submit_call c ≫= k) s = k (answers (log (vulkan s)) c) (said c s).
Proof. intros Hl. apply M_bind_run. by apply call_through_run. Qed.
Lemma record_call_run {A} c s (k : unit -> M Program A) : loaded (procs s) (proc_of c) -> (record_call c ≫= k) s = k tt (said c s).
Proof. intros Hl. apply M_bind_run. by apply call_through_run. Qed.
Lemma ask_run {A} names s (k : unit -> M Program A) : Forall (loaded (procs s)) names -> (ask names ≫= k) s = k tt s.
Proof.
  intros Hn. apply M_bind_run. induction Hn as [|n names Hl Hn IH]; [done|]. cbn [ask].
  rewrite (M_bind_run _ _ _ _ _ (call_through_run n (mret tt) tt (vulkan s) s Hl eq_refl)). by destruct s.
Qed.
Lemma assert_true_run {S A} (b : bool) (st : S) (k : unit -> M S A) : b = true -> (dd_assert b ≫= k) st = k tt st.
Proof. by intros ->. Qed.
Lemma on_procs_run {A} (m : M Procs unit) p s (k : unit -> M Program A) : m (procs s) = Ok (tt, p) ->
  (on_procs m ≫= k) s = k tt (MkProgram (global_context s) p (vulkan s) (memory s)).
Proof. intros E. apply M_bind_run. unfold on_procs. by rewrite E. Qed.

Definition ready_for (names : list string) s : Prop := forall n, n ∈ names -> loaded (procs s) n.
Lemma ready_call c s : ready_for all_procs s -> loaded (procs s) (proc_of c).
Proof. intros Hs. apply Hs, call_listed. Qed.
Lemma ready_listed names asked s : ready_for names s -> forallb (fun n => existsb (String.eqb n) names) asked = true ->
  Forall (loaded (procs s)) asked.
Proof. intros Hs Ha. rewrite forallb_forall in Ha. apply List.Forall_forall. intros n Hn. by apply Hs, listed, Ha. Qed.

(** What is left of a state after steps that only call. *)
Record continues s cs s' : Prop := {
  continues_global : global_context s' = global_context s;
  continues_log : log (vulkan s') = log (vulkan s) ++ cs
}.

Lemma create_instance_run host s : complete -> reliable -> ready_for initial_procs s -> TargetMinimumApiVersion <= api_version host ->
  exists i m s' cs, create_instance host s = Ok ((i, m), s') /\ ready_for (initial_procs ++ instance_procs) s' /\
    continues s cs s' /\ memory s' = memory s /\ live (log (vulkan s)) nobody cs = Some (MkLiving (Some i) (Some m) None []).
Proof.
  intros Hc Hr Hs Hv%Z.leb_le. unfold create_instance.
  set (i := value (answers (log (vulkan s)) CreateInstance)).
  destruct (load_instance i (procs s) Hc Hs) as (p & E & _ & Hp).
  rewrite ask_run, assert_true_run, expect_call_run by first [done|by apply (ready_listed initial_procs)|by apply Hs, listed].
  rewrite (on_procs_run _ p), expect_call_run by first [done|apply Hp, listed; reflexivity].
  do 4 eexists. split; [reflexivity|]. split; [exact Hp|]. split; [split; [done|]|split; [done|]].
  - unfold said. cbn [vulkan log set_log]. rewrite <- app_assoc. reflexivity.
  - cbn [live life_step app nobody mbind option_bind]. by rewrite Z.eqb_refl.
Qed.

Lemma pick_device_and_family_run host d ds s : ready_for (initial_procs ++ instance_procs) s -> devices host = d :: ds ->
  Forall alignments_nonzero (d :: ds) -> suitable d = true -> can_present d = true ->
  count_result host = vk VK_SUCCESS -> list_result host = vk VK_SUCCESS -> array host <> 0 ->
  exists family, FindGraphicsQueueFamily d = Some family /\
    pick_device_and_family host s = Ok ((d, family), MkProgram (global_context s) (procs s) (vulkan s) (array host :: memory s)).
Proof.
  intros Hs Ed Hds Hd Hp Hcount Hlist Harray%Z.eqb_neq.
  assert (PickValidPhysicalDevice true (d :: ds) = Ok (Some (0, d))) as Hpick.
  { unfold PickValidPhysicalDevice. cbn [pick]. inversion Hds; subst. by rewrite is_valid_debug, Hd, Hp. }
  unfold can_present in Hp. destruct (FindGraphicsQueueFamily d) as [family|] eqn:Ef; [|done]. exists family. split; [done|].
  unfold pick_device_and_family. rewrite Ed, Hcount, Hlist, Harray, Hpick.
  rewrite ask_run by (by apply (ready_listed (initial_procs ++ instance_procs))). rewrite !assert_true_run by first [apply Z.eqb_refl|done].
  unfold keep_array. rewrite M_modify_bind, !assert_true_run, !ask_run, !assert_true_run, ask_run
    by first [apply Z.eqb_refl|by apply (ready_listed (initial_procs ++ instance_procs))|done].
  rewrite M_lift_ok, ask_run by (by apply (ready_listed (initial_procs ++ instance_procs))). by rewrite Ef.
Qed.

(** The objects of the context, in the order they are created. *)
Definition objects_of (c : Context) : list (kind * Z) :=
  [(KCommandPool, m_vk_graphics_command_pool c); (KDescriptorSetLayout, m_vk_texture_descriptor_set_layout c);
   (KDescriptorSetLayout, m_vk_sampler_descriptor_set_layout c); (KPipelineLayout, m_vk_pipeline_layout c)].

Lemma create_objects_run d family i m s : complete -> reliable -> ready_for (initial_procs ++ instance_procs) s ->
  exists device s' cs, create_objects d family s = Ok (device, s') /\ ready_for all_procs s' /\ continues s cs s' /\ memory s' = memory s /\
    live (log (vulkan s)) (MkLiving (Some i) (Some m) None []) cs = Some (MkLiving (Some i) (Some m) (Some device) (objects_of (context (vulkan s')))).
Proof.
  intros Hc Hr Hs. unfold create_objects.
  rewrite expect_call_run by first [done|by apply Hs, listed].
  set (device := value (answers (log (vulkan s)) (CreateDevice (handle d) family))).
  destruct (load_device device (procs s) Hc Hs) as (p & E & _ & Hp).
  rewrite (on_procs_run _ p) by exact E. rewrite submit_call_run by (apply Hp, call_listed).
  rewrite expect_call_run by first [done|apply Hp, call_listed].
  rewrite ask_run by (by apply (ready_listed all_procs)).
  do 3 rewrite expect_call_run by first [done|apply Hp, call_listed].
  do 3 eexists. split; [reflexivity|]. split; [exact Hp|]. split; [split; [done|]|split; [done|]].
  - unfold said. cbn [vulkan log set_log]. rewrite <- !app_assoc. reflexivity.
  - unfold said. cbn [vulkan log set_log context procs global_context memory]. unfold objects_of.
    cbn [m_vk_graphics_command_pool m_vk_texture_descriptor_set_layout m_vk_sampler_descriptor_set_layout m_vk_pipeline_layout].
    cbn [live life_step app created destroyed mbind option_bind]. rewrite <- !app_assoc. reflexivity.
Qed.

Lemma filter_fresh (p : Z) (l : list Z) : p ∉ l -> filter (fun q => q <> p) l = l.
Proof.
  induction l as [|q l IH]; [done|]. intros [Hq Hl]%not_elem_of_cons. rewrite filter_cons_True by congruence. by rewrite IH.
Qed.
Lemma destroy_context_run h s i m : ready_for all_procs s -> m_vk_physical_device_array h ∈ memory s -> m_vk_physical_device_array h <> 0 ->
  m_vk_instance h = i -> m_debug_messenger h = m ->
  exists s' cs, VkStartup.destroy h s = Ok (tt, s') /\ continues s cs s' /\
    memory s' = filter (fun q => q <> m_vk_physical_device_array h) (memory s) /\
    live (log (vulkan s)) (MkLiving (Some i) (Some m) (Some (m_vk_device h)) (objects_of (context (vulkan s)))) cs = Some nobody.
Proof.
  intros Hs Hin Ha%Z.eqb_neq <- <-. unfold destroy. rewrite M_gets_bind.
  do 9 rewrite record_call_run by (by apply ready_call).
  rewrite Ha. unfold free, said. cbn [memory]. rewrite bool_decide_true by done.
  do 2 eexists. split; [reflexivity|]. split; [split; [done|]|split; [done|]].
  - cbn [vulkan log set_log]. rewrite <- !app_assoc. reflexivity.
  - unfold objects_of. cbn [live app].
    repeat (cbn [andb life_step created destroyed mbind option_bind take_out fmap option_fmap option_map];
            first [rewrite decide_True by done|rewrite decide_False by congruence|rewrite Z.eqb_refl]).
    done.
Qed.

(** [C14] With a complete library and a driver that reports no error, on a machine whose first device is suitable, the
    constructor runs through loaded pointers only, which then serve every call of the rendering classes.  Whatever a
    client does in between that leaves alive what it found, the destructor ends the context: in the calls of all three
    everything is created before what belongs to it and destroyed once, by its handle, after what belonged to it.
    Nothing is left alive, and the list of devices is freed. *)
Theorem context_lifetime this host d ds s : complete -> reliable -> TargetMinimumApiVersion <= api_version host ->
  devices host = d :: ds -> Forall alignments_nonzero (d :: ds) -> suitable d = true -> can_present d = true ->
  count_result host = vk VK_SUCCESS -> list_result host = vk VK_SUCCESS -> array host <> 0 -> array host ∉ memory s ->
  exists h s1 made alive, construct this host s = Ok (h, s1) /\ global_context s1 = this /\ (forall c, loaded (procs s1) (proc_of c)) /\
    log (vulkan s1) = log (vulkan s) ++ made /\ live (log (vulkan s)) nobody made = Some alive /\
    forall client s2, log (vulkan s2) = log (vulkan s1) ++ client -> context (vulkan s2) = context (vulkan s1) ->
      procs s2 = procs s1 -> memory s2 = memory s1 -> live (log (vulkan s1)) alive client = Some alive ->
    exists s3 ended, destroy h s2 = Ok (tt, s3) /\ log (vulkan s3) = log (vulkan s) ++ made ++ client ++ ended /\
      live (log (vulkan s)) nobody (made ++ client ++ ended) = Some nobody /\ memory s3 = memory s.
Proof.
  intros Hc Hr Hv Ed Hds Hd Hp Hcount Hlist Harray Hfresh. unfold construct, SetGlobalContext. rewrite M_modify_bind.
  destruct (load_initial (procs s) Hc) as (p0 & E0 & _ & Hp0). rewrite (on_procs_run _ p0) by exact E0.
  set (s0 := MkProgram this p0 (vulkan s) (memory s)).
  destruct (create_instance_run host s0 Hc Hr Hp0 Hv) as (i & m & s1 & cs1 & E1 & Hready1 & [G1 L1] & M1 & V1).
  rewrite (M_bind_run _ _ _ _ _ E1).
  destruct (pick_device_and_family_run host d ds s1 Hready1 Ed Hds Hd Hp Hcount Hlist Harray) as (family & _ & E2).
  rewrite (M_bind_run _ _ _ _ _ E2). set (s2 := MkProgram _ _ _ _).
  destruct (create_objects_run d family i m s2 Hc Hr Hready1) as (device & s3 & cs3 & E3 & Hready & [G3 L3] & M3 & V3).
  rewrite (M_bind_run _ _ _ _ _ E3). cbn [vulkan global_context memory s0 s2] in *.
  assert (log (vulkan s3) = log (vulkan s) ++ cs1 ++ cs3) as L by (by rewrite L3, L1, app_assoc).
  exists (MkHandles i m device (array host)), s3, (cs1 ++ cs3), (MkLiving (Some i) (Some m) (Some device) (objects_of (context (vulkan s3)))).
  split; [done|]. split; [by rewrite G3, G1|]. split; [intros c; by apply Hready, call_listed|]. split; [done|].
  assert (live (log (vulkan s)) nobody (cs1 ++ cs3) = Some (MkLiving (Some i) (Some m) (Some device) (objects_of (context (vulkan s3))))) as V.
  { rewrite live_app, V1. cbn [mbind option_bind]. by rewrite <- L1. }
  split; [exact V|]. intros client s4 L4 C4 P4 M4 V4.
  destruct (destroy_context_run (MkHandles i m device (array host)) s4 i m) as (s5 & cs5 & E5 & [G5 L5] & M5 & V5); try done.
  { unfold ready_for. by rewrite P4. }
  { rewrite M4, M3, M1. by left. }
  exists s5, cs5. split; [exact E5|]. split; [by rewrite L5, L4, L, !app_assoc|]. split.
  - rewrite live_app, V. cbn [mbind option_bind]. rewrite live_app, <- L, V4. cbn [mbind option_bind]. rewrite <- L4, <- C4. exact V5.
  - rewrite M5, M4, M3, M1. cbn [m_vk_physical_device_array]. rewrite filter_cons_False by (intros Hne; by apply Hne).
    by apply filter_fresh.
Qed.
End lifecycle.

Section lifecycle_example.
Import VkContext VkProc VkStartup.
(** A driver that numbers its answers. *)
Definition numbering : Driver := fun l _ => MkAnswer 0 [Z.of_nat (length l) + 1].
Definition some_host : Host := MkHost 4206592 0 0 [some_device 4206592; some_device 0] 512.
Definition before_start : Program := MkProgram 0 initial (MkVk [] (MkContext 0 0 0 0 0 [] 0) ∅ ∅ ∅ ∅) [].

Lemma context_lifetime_witness : exists h s1 s2 cs,
  @construct some_header numbering full_library 64 some_host before_start = Ok (h, s1) /\
  @VkStartup.destroy numbering h s1 = Ok (tt, s2) /\
  log (vulkan s2) = cs /\ @live numbering [] nobody cs = Some nobody.
Proof.
  destruct (@context_lifetime some_header numbering full_library 64 some_host (some_device 4206592) [some_device 0] before_start)
    as (h & s1 & made & alive & E1 & _ & _ & L1 & V1 & Hend).
  - split; [discriminate|]. split; intros; discriminate.
  - intros l c. reflexivity.
  - discriminate.
  - reflexivity.
  - repeat constructor; discriminate.
  - vm_compute. reflexivity.
  - vm_compute. reflexivity.
  - reflexivity.
  - reflexivity.
  - discriminate.
  - apply not_elem_of_nil.
  - destruct (Hend [] s1) as (s2 & ended & E2 & L2 & V2 & _); [by rewrite app_nil_r|done..|].
    exists h, s1, s2, (made ++ ended). split; [exact E1|]. split; [exact E2|]. split; [exact L2|exact V2].
Defined.
End lifecycle_example.
