(* ===== verification/Paths.v ===== *)
(** Path utilities (util_pathutil.hpp): the searches for a delimiter from the end of a path and the
    functions that cut a path at one.  The output and the path are different objects. *)
From S2P Require Import Prelude.
From S2P Require Import Strings.

Module PathUtil.
Import CString TString FixedString.
Implicit Types (path : list Z) (path_len : Z).

(** The characters of the source. *)
Definition ch_colon : Z := 58.
Definition ch_back_slash : Z := 92.
Definition ch_slash : Z := 47.


(** The three do-while loops, which differ in the character: from [path_len] down to 1.  With [path_len = 0]
    the decrement wraps around. *)
Fixpoint find_down (fuel : nat) path (c offset : Z) : res Z :=
  match fuel with
  | O => Fault OutOfFuel
  | S fuel =>
      x ← arr_get path offset;
      if x =? c then Ok offset else
      let offset := u32 (offset - 1) in
      if negb (offset =? 0) then find_down fuel path c offset else Ok offset
  end.
Definition find_last path (c path_len : Z) : res Z := find_down (S (length path)) path c path_len.

Definition FindDriveDelimiter path path_len : res Z := find_last path ch_colon path_len.

Definition FindDirectoryDelimiter path path_len : res Z :=
  back_slash_offset ← find_last path ch_back_slash path_len;
  forward_slash_offset ← find_last path ch_slash path_len;
  Ok (if forward_slash_offset <? back_slash_offset then back_slash_offset else forward_slash_offset).

Definition FindExtensionDelimiter path path_len : res Z := find_last path ch_slash path_len.

Definition MaxPath : Z := 256.
Definition MaxDrive : Z := 32.

(** strlen of a path in the two modes of evaluation. *)
Definition path_length (constant_evaluated : bool) path : res Z :=
  n ← (if constant_evaluated then TStringLength path (MaxPath + 1) else strlen path); Ok (u32 n).

(** The end of all of the functions: [name_size] characters from [start], at most [max - 1], the length
    and the terminator at the end of the array. *)
Definition copy_out (max : Z) (out : FixedString) path (start name_size : Z) : res FixedString :=
  a ← memcpy (m_string_array out) path start (if name_size <? max then name_size else max - 1);
  AssureTermination max (mkFixedString a (Some name_size)).

(** What each function does to a path that is not empty. *)
Definition drive_from (out : FixedString) path path_len : res FixedString :=
  drive_start_offset ← FindDriveDelimiter path path_len;
  copy_out MaxDrive out path 0 drive_start_offset.

Definition path_without_drive_from (out : FixedString) path path_len : res FixedString :=
  drive_start_offset ← FindDriveDelimiter path path_len;
  copy_out MaxPath out path drive_start_offset (u32 (path_len - drive_start_offset)).

Definition directory_from (out : FixedString) path path_len : res FixedString :=
  name_start_offset ← FindDirectoryDelimiter path path_len;
  copy_out MaxPath out path 0 name_start_offset.

Definition directory_without_drive_from (out : FixedString) path path_len : res FixedString :=
  dir_start_offset ← FindDriveDelimiter path path_len;
  name_start_offset ← FindDirectoryDelimiter path path_len;
  copy_out MaxPath out path dir_start_offset (u32 (name_start_offset - dir_start_offset - name_start_offset)).

Definition file_name_from (out : FixedString) path path_len : res FixedString :=
  name_start_offset ← FindDirectoryDelimiter path path_len;
  copy_out MaxPath out path name_start_offset (u32 (path_len - name_start_offset)).

Definition file_name_no_extension_from (out : FixedString) path path_len : res FixedString :=
  ext_start_offset ← FindExtensionDelimiter path path_len;
  name_start_offset ← FindDirectoryDelimiter path path_len;
  copy_out MaxPath out path name_start_offset (u32 (path_len - name_start_offset - ext_start_offset)).

Definition extension_from (out : FixedString) path path_len : res FixedString :=
  name_start_offset ← FindDirectoryDelimiter path path_len;
  copy_out MaxPath out path 0 name_start_offset.

(** The checks in front of them, for a string and for a FixedString: null pointers and empty paths leave
    the output alone. *)
Definition on_string (constant_evaluated : bool) (from : FixedString -> list Z -> Z -> res FixedString)
    (out : option FixedString) (path : option (list Z)) : res (option FixedString) :=
  match out, path with
  | Some o, Some p =>
      path_len ← path_length constant_evaluated p;
      if path_len =? 0 then Ok out else o ← from o p path_len; Ok (Some o)
  | _, _ => Ok out
  end.

Definition on_fixed_string (from : FixedString -> list Z -> Z -> res FixedString)
    (out path : option FixedString) : res (option FixedString) :=
  match out, path with
  | Some o, Some p =>
      path_len ← read_length p;
      if path_len =? 0 then Ok out else o ← from o (m_string_array p) path_len; Ok (Some o)
  | _, _ => Ok out
  end.

Definition GetDriveFromPath ce := on_string ce drive_from.
Definition GetDriveFromPath_fixed := on_fixed_string drive_from.
Definition GetPathWithoutDrive ce := on_string ce path_without_drive_from.
Definition GetPathWithoutDrive_fixed := on_fixed_string path_without_drive_from.
Definition GetDirectory ce := on_string ce directory_from.
Definition GetDirectory_fixed := on_fixed_string directory_from.
Definition GetDirectoryWithoutDrive ce := on_string ce directory_without_drive_from.
Definition GetDirectoryWithoutDrive_fixed := on_fixed_string directory_without_drive_from.
Definition GetFileNameFromPath ce := on_string ce file_name_from.
Definition GetFileNameFromPath_fixed := on_fixed_string file_name_from.
Definition GetFileNameFromPathNoExtension ce := on_string ce file_name_no_extension_from.
Definition GetFileNameFromPathNoExtension_fixed := on_fixed_string file_name_no_extension_from.
Definition GetExtensionFromPath ce := on_string ce extension_from.
Definition GetExtensionFromPath_fixed := on_fixed_string extension_from.

(** The loop of ChangeDirectoryDelimiter, in place. *)
Fixpoint change_delimiters (fuel : nat) (new_delimiter : Z) path (start_offset : Z) : res (list Z) :=
  match fuel with
  | O => Fault OutOfFuel
  | S fuel =>
      if start_offset =? 0 then Ok path else
      x ← arr_get path start_offset;
      path ← (if (x =? ch_slash) || (x =? ch_back_slash) then arr_set path start_offset new_delimiter else Ok path);
      change_delimiters fuel new_delimiter path (start_offset - 1)
  end.

Definition ChangeDirectoryDelimiter (in_out_path : option FixedString) (new_delimiter : Z) : res (option FixedString) :=
  match in_out_path with
  | None => Ok None
  | Some p =>
      path_len ← read_length p;
      if path_len =? 0 then Ok in_out_path else
      start_offset ← FindDirectoryDelimiter (m_string_array p) path_len;
      a ← change_delimiters (S (length (m_string_array p))) new_delimiter (m_string_array p) start_offset;
      Ok (Some (mkFixedString a (m_length p)))
  end.
End PathUtil.

(** * The searches *)
Section search.
Import CString TString FixedString PathUtil.
Implicit Types (path t : list Z) (c : Z) (n k : nat).

(** The last position from 1 to [n] that satisfies [P], and 0 when there is none. *)
Fixpoint last_index (P : Z -> bool) path n : nat :=
  match n with
  | O => O
  | S k => if match path !! n with Some x => P x | None => false end then n else last_index P path k
  end.

Lemma last_index_le P path n : (last_index P path n <= n)%nat.
Proof. induction n as [|k IH]; cbn [last_index]; [done|]. case_match; [done|lia]. Qed.

Lemma last_index_spec P path n :
  (last_index P path n = O \/ exists x, path !! last_index P path n = Some x /\ P x = true) /\
  forall j x, (last_index P path n < j <= n)%nat -> path !! j = Some x -> P x = false.
Proof.
  induction n as [|k [IH1 IH2]]; cbn [last_index]; [split; [by left|lia]|].
  destruct (path !! S k) as [y|] eqn:Ey; [destruct (P y) eqn:EP|].
  - split; [right; by exists y|lia].
  - split; [done|]. intros j x Hj Hx. destruct (decide (j = S k)) as [->|]; [congruence|]. apply (IH2 j); [lia|done].
  - split; [done|]. intros j x Hj Hx. destruct (decide (j = S k)) as [->|]; [congruence|]. apply (IH2 j); [lia|done].
Qed.

(** Two searches are the search for either character. *)
Lemma last_index_or P Q path n :
  last_index (fun x => P x || Q x) path n = Nat.max (last_index P path n) (last_index Q path n).
Proof.
  induction n as [|k IH]; cbn [last_index]; [done|]. rewrite IH.
  pose proof (last_index_le P path k). pose proof (last_index_le Q path k).
  destruct (path !! S k) as [y|]; [|done]. destruct (P y), (Q y); cbn [orb]; lia.
Qed.

Lemma find_last_run path c n :
  (0 < n < length path)%nat -> Z.of_nat n < 2 ^ 32 ->
  find_last path c (Z.of_nat n) = Ok (Z.of_nat (last_index (fun x => x =? c) path n)).
Proof.
  intros Hn Hb. unfold find_last.
  assert (forall fuel, (n < fuel)%nat -> find_down fuel path c (Z.of_nat n) =
    Ok (Z.of_nat (last_index (fun x => x =? c) path n))) as E; [|apply E; lia].
  induction n as [|k IH]; intros fuel Hf; [lia|]. destruct fuel as [|fuel]; [lia|]. cbn [find_down last_index].
  destruct (lookup_lt_is_Some_2 path (S k)) as [x Hx]; [lia|]. rewrite (arr_get_lookup _ _ _ Hx), Hx. cbn [mbind res_bind].
  destruct (x =? c); [done|]. replace (Z.of_nat (S k) - 1) with (Z.of_nat k) by lia.
  unfold u32. rewrite wrap_small by lia. destruct k as [|k]; [done|].
  destruct (Z.eqb_spec (Z.of_nat (S k)) 0); [lia|]. cbn [negb]. apply IH; lia.
Qed.

Definition is_colon (x : Z) : bool := x =? ch_colon.
Definition is_delimiter (x : Z) : bool := (x =? ch_back_slash) || (x =? ch_slash).

Lemma FindDirectoryDelimiter_run path n :
  (0 < n < length path)%nat -> Z.of_nat n < 2 ^ 32 ->
  FindDirectoryDelimiter path (Z.of_nat n) = Ok (Z.of_nat (last_index is_delimiter path n)).
Proof.
  intros Hn Hb. unfold FindDirectoryDelimiter. rewrite !find_last_run by done. cbn [mbind res_bind].
  rewrite (last_index_or (fun x => x =? ch_back_slash) (fun x => x =? ch_slash)).
  set (b := last_index (fun x => x =? ch_back_slash) path n). set (f := last_index (fun x => x =? ch_slash) path n).
  destruct (Z.ltb_spec (Z.of_nat f) (Z.of_nat b)); do 2 f_equal; lia.
Qed.

(** The end of the output: what the array held before. *)
Lemma copy_out_run (max n start : nat) out path :
  length (m_string_array out) = max -> (n < max)%nat -> (start + n <= length path)%nat ->
  copy_out (Z.of_nat max) out path (Z.of_nat start) (Z.of_nat n) =
    Ok (mkFixedString (take n (drop start path) ++ drop n (<[(max - 1)%nat := 0]> (m_string_array out))) (Some (Z.of_nat n))).
Proof.
  intros Ha Hn Hp. unfold copy_out, memcpy. destruct (Z.ltb_spec (Z.of_nat n) (Z.of_nat max)); [|lia].
  rewrite Ha. destruct (Z.ltb_spec (Z.of_nat max) (Z.of_nat n)); [lia|].
  destruct (Z.ltb_spec (Z.of_nat (length path)) (Z.of_nat start + Z.of_nat n)); [lia|]. cbn [orb mbind res_bind].
  rewrite !Nat2Z.id. unfold AssureTermination. cbn [m_string_array m_length].
  set (l := take n (drop start path)). assert (length l = n) as Hl by (unfold l; rewrite length_take, length_drop; lia).
  unfold write. rewrite take_0, Hl. cbn [app plus]. replace (Z.of_nat max - 1) with (Z.of_nat (max - 1)) by lia.
  rewrite arr_set_insert by (rewrite length_app, length_drop; lia). cbn [mbind res_bind].
  by rewrite insert_app_r_alt, Hl, drop_insert_ge by lia.
Qed.

Lemma path_length_run ce path t : terminated path t -> Z.of_nat (length t) <= 256 -> path_length ce path = Ok (Z.of_nat (length t)).
Proof.
  intros Ht Hl. unfold path_length, MaxPath. rewrite (TStringLength_run _ _ _ Ht), (strlen_run _ _ Ht) by lia.
  rewrite Z.min_l by lia. destruct ce; cbn [mbind res_bind]; unfold u32; by rewrite wrap_small by lia.
Qed.

Lemma on_string_run ce from out path t :
  terminated path t -> (0 < length t)%nat -> Z.of_nat (length t) <= 256 ->
  on_string ce from (Some out) (Some path) = (o ← from out path (Z.of_nat (length t)); Ok (Some o)).
Proof.
  intros Ht Hn Hl. unfold on_string. rewrite (path_length_run _ _ _ Ht Hl). cbn [mbind res_bind].
  by destruct (Z.eqb_spec (Z.of_nat (length t)) 0); [lia|].
Qed.

Lemma terminated_length path t : terminated path t -> (length t < length path)%nat.
Proof. intros [_ [rest ->]]. rewrite length_app. cbn. lia. Qed.

Lemma take_terminated path t n start : terminated path t -> (start + n <= length t)%nat ->
  take n (drop start path) = take n (drop start t).
Proof.
  intros [_ [rest ->]] Hn. rewrite drop_app_le by lia. rewrite take_app_le by (rewrite length_drop; lia). done.
Qed.
End search.

(** * What the functions give *)
Section paths.
Import CString TString FixedString PathUtil.
Implicit Types (path t : list Z) (out : FixedString) (n k : nat).

(** What of an output's array its recorded length covers. *)
Definition content (o : FixedString) : list Z := take (Z.to_nat (default 0 (m_length o))) (m_string_array o).

Lemma content_app l r n : n = length l -> content (mkFixedString (l ++ r) (Some (Z.of_nat n))) = l.
Proof. intros ->. unfold content. cbn. by rewrite Nat2Z.id, take_app_length. Qed.

(** The terminator is not a delimiter. *)
Lemma last_index_terminated P path t n : terminated path t -> P 0 = false -> (n <= length t)%nat ->
  last_index P path n = last_index P t n.
Proof.
  intros [_ [rest ->]] HP. induction n as [|k IH]; intros Hn; [done|]. cbn [last_index].
  rewrite IH by lia. destruct (decide (S k < length t)%nat).
  - by rewrite lookup_app_l by lia.
  - rewrite lookup_app_r by lia. rewrite (lookup_ge_None_2 t) by lia.
    replace (S k - length t)%nat with O by lia. cbn. by rewrite HP.
Qed.

(** Both parts of a path cut at [r]. *)
Lemma cut_run (m1 m2 : nat) o1 o2 path t r :
  terminated path t -> (r <= length t)%nat -> (r < m1)%nat -> (length t < m2 <= 256)%nat ->
  length (m_string_array o1) = m1 -> length (m_string_array o2) = m2 ->
  copy_out (Z.of_nat m1) o1 path 0 (Z.of_nat r) = Ok (mkFixedString
    (take r t ++ drop r (<[(m1 - 1)%nat := 0]> (m_string_array o1))) (Some (Z.of_nat r))) /\
  copy_out (Z.of_nat m2) o2 path (Z.of_nat r) (u32 (Z.of_nat (length t) - Z.of_nat r)) = Ok (mkFixedString
    (drop r t ++ drop (length t - r) (<[(m2 - 1)%nat := 0]> (m_string_array o2))) (Some (Z.of_nat (length t - r)))).
Proof.
  intros Ht Hr H1 H2 Hl1 Hl2. pose proof (terminated_length _ _ Ht). split.
  - rewrite (copy_out_run m1 r 0) by (done || lia). by rewrite (take_terminated _ _ _ _ Ht) by lia.
  - rewrite <- Nat2Z.inj_sub by lia. unfold u32. rewrite wrap_small by lia.
    rewrite (copy_out_run m2 (length t - r) r) by (done || lia). rewrite (take_terminated _ _ _ _ Ht) by lia.
    by rewrite (take_ge (drop r t)) by (rewrite length_drop; lia).
Qed.

(** [C27] A path of fewer than 256 characters is cut without loss: the directory is what stands before the last
    delimiter, either of the two, the file name the rest with the delimiter, and their contents put together
    are the path. So are the drive, when it has fewer than 32 characters, and the path without it. *)
Theorem path_split ce path t (d f v w : FixedString) :
  terminated path t -> (0 < length t < 256)%nat ->
  length (m_string_array d) = 256%nat -> length (m_string_array f) = 256%nat ->
  length (m_string_array v) = 32%nat -> length (m_string_array w) = 256%nat ->
  (exists d' f', GetDirectory ce (Some d) (Some path) = Ok (Some d') /\
    GetFileNameFromPath ce (Some f) (Some path) = Ok (Some f') /\
    content d' = take (last_index is_delimiter t (length t)) t /\ content d' ++ content f' = t) /\
  ((last_index is_colon t (length t) < 32)%nat ->
   exists v' w', GetDriveFromPath ce (Some v) (Some path) = Ok (Some v') /\
    GetPathWithoutDrive ce (Some w) (Some path) = Ok (Some w') /\
    content v' = take (last_index is_colon t (length t)) t /\ content v' ++ content w' = t).
Proof.
  intros Ht Hn Hd Hf Hv Hw. pose proof (terminated_length _ _ Ht) as Hp.
  assert (forall P, P 0 = false -> last_index P path (length t) = last_index P t (length t)) as Hlast.
  { intros P HP. by apply last_index_terminated. }
  unfold GetDirectory, GetFileNameFromPath, GetDriveFromPath, GetPathWithoutDrive.
  rewrite !(on_string_run _ _ _ _ _ Ht) by lia.
  unfold directory_from, file_name_from, drive_from, path_without_drive_from, FindDriveDelimiter.
  rewrite FindDirectoryDelimiter_run, find_last_run by (done || lia).
  fold is_colon. rewrite !Hlast by done. cbn [mbind res_bind]. split.
  - pose proof (last_index_le is_delimiter t (length t)) as Hr. set (r := last_index is_delimiter t (length t)) in *.
    destruct (cut_run 256 256 d f path t r Ht Hr) as (E1 & E2); [lia|lia|done|done|].
    change MaxPath with (Z.of_nat 256). rewrite E1, E2. cbn [mbind res_bind]. eexists _, _. split; [done|]. split; [done|].
    rewrite !content_app by (rewrite ?length_take, ?length_drop; lia). split; [done|]. apply take_drop.
  - pose proof (last_index_le is_colon t (length t)) as Hr.
    set (r := last_index is_colon t (length t)) in *. intros Hr32.
    destruct (cut_run 32 256 v w path t r Ht Hr) as (E1 & E2); [lia|lia|done|done|].
    change MaxPath with (Z.of_nat 256). change MaxDrive with (Z.of_nat 32). rewrite E1, E2. cbn [mbind res_bind]. eexists _, _. split; [done|]. split; [done|].
    rewrite !content_app by (rewrite ?length_take, ?length_drop; lia). split; [done|]. apply take_drop.
Qed.

(** A size that has wrapped around: 255 characters are copied whatever the path has. *)
Lemma copy_out_wrapped (max : Z) out path start name_size :
  max <= name_size -> Z.of_nat (length path) < start + (max - 1) -> copy_out max out path start name_size = Fault OutOfBounds.
Proof.
  intros Hn Hp. unfold copy_out, memcpy. destruct (Z.ltb_spec name_size max); [lia|].
  destruct (Z.ltb_spec (Z.of_nat (length path)) (start + (max - 1))); [|lia]. by rewrite orb_true_r.
Qed.

Lemma u32_negative x : - 2 ^ 31 <= x < 0 -> 2 ^ 31 <= u32 x.
Proof. intros Hx. unfold u32, wrap. rewrite <- (Z_mod_plus_full x 1), Z.mod_small; lia. Qed.

Definition is_slash (x : Z) : bool := x =? ch_slash.

(** The file name without its extension is not found: the search for the '.' looks for a '/', and its
    offset, which counts from the start of the path, is taken off the length of the name. With the last
    delimiter a '/' at [r], the result is the name without its last [r] characters; when the name has fewer,
    the size wraps around and 255 characters are copied from behind the path's end. *)
Theorem file_name_no_extension ce path t (o : FixedString) r :
  terminated path t -> (0 < length t < 256)%nat -> length (m_string_array o) = 256%nat ->
  last_index is_slash t (length t) = r -> last_index is_delimiter t (length t) = r ->
  ((2 * r <= length t)%nat -> exists o', GetFileNameFromPathNoExtension ce (Some o) (Some path) = Ok (Some o') /\
    content o' = take (length t - r - r) (drop r t)) /\
  ((length t < 2 * r)%nat -> (length path < r + 255)%nat ->
    GetFileNameFromPathNoExtension ce (Some o) (Some path) = Fault OutOfBounds).
Proof.
  intros Ht Hn Ho Hs Hd. pose proof (terminated_length _ _ Ht) as Hp.
  pose proof (last_index_le is_slash t (length t)) as Hr. rewrite Hs in Hr.
  unfold GetFileNameFromPathNoExtension. rewrite (on_string_run _ _ _ _ _ Ht) by lia.
  unfold file_name_no_extension_from, FindExtensionDelimiter.
  rewrite FindDirectoryDelimiter_run, find_last_run by lia. fold is_slash.
  change (fun x => x =? ch_slash) with is_slash.
  rewrite !(last_index_terminated _ _ _ _ Ht) by done. rewrite Hs, Hd. cbn [mbind res_bind]. split.
  - intros H2. replace (Z.of_nat (length t) - Z.of_nat r - Z.of_nat r) with (Z.of_nat (length t - r - r)) by lia.
    unfold u32. rewrite wrap_small by lia. change MaxPath with (Z.of_nat 256).
    rewrite copy_out_run by (done || lia). eexists. split; [done|].
    rewrite content_app by (rewrite length_take, length_drop; lia). by rewrite (take_terminated _ _ _ _ Ht) by lia.
  - intros H2 Hp2. rewrite copy_out_wrapped; [done| |unfold MaxPath; lia].
    pose proof (u32_negative (Z.of_nat (length t) - Z.of_nat r - Z.of_nat r)). unfold MaxPath. lia.
Qed.

(** The directory without its drive is not found either: the size is the negated offset of the drive
    delimiter. A path without a drive gives nothing; for one with a drive the size wraps around and 255
    characters are copied from the ':' on, past the end of a shorter path. *)
Theorem directory_without_drive ce path t (o : FixedString) r :
  terminated path t -> (0 < length t < 256)%nat -> length (m_string_array o) = 256%nat ->
  last_index is_colon t (length t) = r ->
  (r = O -> exists o', GetDirectoryWithoutDrive ce (Some o) (Some path) = Ok (Some o') /\ content o' = []) /\
  ((0 < r)%nat -> (length path < r + 255)%nat -> GetDirectoryWithoutDrive ce (Some o) (Some path) = Fault OutOfBounds).
Proof.
  intros Ht Hn Ho Hc. pose proof (terminated_length _ _ Ht) as Hp.
  pose proof (last_index_le is_colon t (length t)) as Hr. rewrite Hc in Hr.
  unfold GetDirectoryWithoutDrive. rewrite (on_string_run _ _ _ _ _ Ht) by lia.
  unfold directory_without_drive_from, FindDriveDelimiter. rewrite FindDirectoryDelimiter_run, find_last_run by lia.
  change (fun x => x =? ch_colon) with is_colon. rewrite !(last_index_terminated _ _ _ _ Ht) by done.
  rewrite Hc. cbn [mbind res_bind]. set (e := last_index is_delimiter t (length t)).
  replace (Z.of_nat e - Z.of_nat r - Z.of_nat e) with (- Z.of_nat r) by lia. split.
  - intros ->. change MaxPath with (Z.of_nat 256). rewrite (copy_out_run 256 0 0) by (done || lia). by eexists.
  - intros Hr0 Hp2. rewrite copy_out_wrapped; [done| |unfold MaxPath; lia].
    pose proof (u32_negative (- Z.of_nat r)). unfold MaxPath. lia.
Qed.

Definition changed (new_delimiter : Z) (x : Z) : Z := if is_delimiter x then new_delimiter else x.

Lemma is_delimiter_comm x : (x =? ch_slash) || (x =? ch_back_slash) = is_delimiter x.
Proof. apply orb_comm. Qed.

Lemma change_delimiters_run c fuel a n :
  (n < length a)%nat -> (n < fuel)%nat ->
  exists a', change_delimiters fuel c a (Z.of_nat n) = Ok a' /\
    forall j, a' !! j = (if decide (0 < j <= n)%nat then changed c <$> a !! j else a !! j).
Proof.
  revert a fuel. induction n as [|k IH]; intros a fuel Hn Hf; (destruct fuel as [|fuel]; [lia|]); cbn [change_delimiters].
  - exists a. split; [done|]. intros j. case_decide; [lia|done].
  - destruct (Z.eqb_spec (Z.of_nat (S k)) 0); [lia|].
    destruct (lookup_lt_is_Some_2 a (S k) Hn) as [x Hx]. rewrite (arr_get_lookup _ _ _ Hx). cbn [mbind res_bind].
    rewrite is_delimiter_comm. replace (Z.of_nat (S k) - 1) with (Z.of_nat k) by lia.
    assert ((if is_delimiter x then arr_set a (Z.of_nat (S k)) c else Ok a) = Ok (<[S k := changed c x]> a)) as ->.
    { unfold changed. destruct (is_delimiter x); [by rewrite arr_set_insert|by rewrite list_insert_id]. }
    cbn [mbind res_bind]. destruct (IH (<[S k := changed c x]> a) fuel) as (a' & E & Ha'); [rewrite length_insert; lia|lia|].
    exists a'. split; [done|]. intros j. rewrite Ha'. destruct (decide (j = S k)) as [->|Hj].
    + rewrite decide_False, decide_True, list_lookup_insert_eq, Hx by lia. done.
    + rewrite list_lookup_insert_ne by done. by repeat case_decide; try lia.
Qed.

(** ChangeDirectoryDelimiter terminates and replaces every delimiter of the path, of both kinds, except
    one that is the path's first character, and changes nothing else. *)
Theorem change_directory_delimiter (p : FixedString) n c :
  m_length p = Some (Z.of_nat n) -> (0 < n < length (m_string_array p))%nat -> Z.of_nat n < 2 ^ 32 ->
  exists a, ChangeDirectoryDelimiter (Some p) c = Ok (Some (mkFixedString a (m_length p))) /\
    forall j, a !! j = (if decide (0 < j <= n)%nat then changed c <$> m_string_array p !! j else m_string_array p !! j).
Proof.
  intros Hl Hn Hb. unfold ChangeDirectoryDelimiter, read_length. rewrite Hl. cbn [mbind res_bind].
  destruct (Z.eqb_spec (Z.of_nat n) 0); [lia|]. rewrite FindDirectoryDelimiter_run by done. cbn [mbind res_bind].
  set (a := m_string_array p) in *. pose proof (last_index_le is_delimiter a n) as Hr.
  destruct (last_index_spec is_delimiter a n) as [_ Hafter]. set (r := last_index is_delimiter a n) in *.
  destruct (change_delimiters_run c (S (length a)) a r) as (a' & E & Ha'); [lia|lia|].
  rewrite E. exists a'. split; [done|]. intros j. rewrite Ha'.
  destruct (decide (0 < j <= r)%nat); [by rewrite decide_True by lia|]. case_decide as Hj; [|done].
  destruct (a !! j) as [x|] eqn:Ex; [|done]. cbn. unfold changed. rewrite (Hafter j x); [done|lia|done].
Qed.
End paths.

(** * Example: d:/a/b.t *)
Section example.
Import FixedString PathUtil.
Definition example_path : list Z := [100; 58; 47; 97; 47; 98; 46; 116; 0].
Definition example_text : list Z := [100; 58; 47; 97; 47; 98; 46; 116].
Definition blank (n : nat) : FixedString := mkFixedString (replicate n 0) None.

Lemma example_terminated : terminated example_path example_text.
Proof. split; [by repeat constructor|by exists []]. Qed.

Lemma path_split_witness :
  exists d f, GetDirectory false (Some (blank 256)) (Some example_path) = Ok (Some d) /\
    GetFileNameFromPath false (Some (blank 256)) (Some example_path) = Ok (Some f) /\
    content d = [100; 58; 47; 97] /\ content d ++ content f = example_text.
Proof.
  exact (proj1 (path_split false _ _ (blank 256) (blank 256) (blank 32) (blank 256) example_terminated
    ltac:(cbn; lia) eq_refl eq_refl eq_refl eq_refl)).
Defined.

Lemma file_name_no_extension_witness :
  exists o, GetFileNameFromPathNoExtension false (Some (blank 256)) (Some example_path) = Ok (Some o) /\ content o = [].
Proof.
  destruct (file_name_no_extension false _ _ (blank 256) 4 example_terminated ltac:(cbn; lia) eq_refl eq_refl eq_refl)
    as [E _].
  apply E. cbn. lia.
Defined.

Lemma directory_without_drive_witness :
  GetDirectoryWithoutDrive false (Some (blank 256)) (Some example_path) = Fault OutOfBounds.
Proof.
  destruct (directory_without_drive false _ _ (blank 256) 1 example_terminated ltac:(cbn; lia) eq_refl eq_refl) as [_ E].
  apply E; cbn; lia.
Defined.

Lemma change_directory_delimiter_witness :
  exists a, ChangeDirectoryDelimiter (Some (mkFixedString example_path (Some 8))) 92 =
    Ok (Some (mkFixedString a (Some 8))) /\ a !! 4%nat = Some 92.
Proof.
  destruct (change_directory_delimiter (mkFixedString example_path (Some 8)) 8 92 eq_refl ltac:(cbn; lia) ltac:(lia))
    as (a & E & Ha).
  exists a. split; [exact E|]. by rewrite Ha.
Defined.
End example.
