(* ===== verification/Files.v ===== *)
(** File devices (res_filedevicebase.hpp, res_systemfiledevice.win32.hpp): SystemFileDevice and the two
    devices derived from it.

    [W] is the state of Windows; [Win32Files] are the calls that the code makes, with the values that come
    back through pointers as part of their answers.  A BOOL is a number, true when it is not zero; a HANDLE is
    the number of its value.  A path is the list of characters at its address, [None] for a null pointer. *)
From S2P Require Import Prelude Result.
From S2P Require Import Alignment Strings Paths.

Class Win32Files (W : Type) : Type := {
  win32_CreateFile : list Z -> Z -> M W Z;
  win32_GetFileSizeEx : Z -> M W (Z * Z);           (* the BOOL and the size *)
  win32_CloseHandle : Z -> M W bool;
  win32_SetFilePointerEx : Z -> Z -> M W Z;         (* handle, offset from the start *)
  win32_ReadFile : Z -> Z -> M W (bool * list Z);   (* the characters that are read *)
  win32_WriteFile : Z -> Z -> Z -> M W bool;        (* handle, address, size *)
  win32_FlushFileBuffers : Z -> M W bool;
  win32_GetFileAttributesA : list Z -> M W Z;
  win32_GetLastError : M W Z
}.

Module FileDevice.
Import FixedString PathUtil Alignment.

(** ** Data *)
Definition GENERIC_READ : Z := 0x80000000.
Definition GENERIC_WRITE : Z := 0x40000000.
Definition OpenMode_Read : Z := GENERIC_READ.
Definition OpenMode_Write : Z := GENERIC_WRITE.
Definition OpenMode_ReadWrite : Z := Z.lor GENERIC_READ GENERIC_WRITE.
Definition OpenMode_ReadWriteAppend : Z := Z.lor OpenMode_ReadWrite 0x1.
Definition INVALID_HANDLE_VALUE : Z := 2 ^ 64 - 1.
Definition INVALID_FILE_ATTRIBUTES : Z := 2 ^ 32 - 1.

Record FileHandle := mkFileHandle { win32_handle : Z; file_offset : Z; file_size : Z; open_mode : Z }.
Definition empty_handle : FileHandle := mkFileHandle 0 0 0 0.
Definition set_win32_handle x (h : FileHandle) := mkFileHandle x (file_offset h) (file_size h) (open_mode h).
Definition set_file_size x (h : FileHandle) := mkFileHandle (win32_handle h) (file_offset h) x (open_mode h).

Record FileLoadContext := mkFileLoadContext {
  out_file : Z;
  heap : Z;
  file_path : option (list Z);
  buffer_size : Z;             (* file_size *)
  read_div : Z;
  alignment : Z;
  is_heap_allocated : bool
}.

Definition valid_handle (h : FileHandle) : bool :=
  negb (win32_handle h =? 0) && negb (win32_handle h =? INVALID_HANDLE_VALUE).

(** ** FormatPath of the derived devices: [prefix] is what stands in the format in front of %s *)
Definition FormatPath_with (prefix : list Z) (path : option (list Z)) : res (Z * FixedString) :=
  path_no_drive ← GetPathWithoutDrive false (Some (construct MaxPath)) path;
  match path_no_drive with
  | None => Fault NullDeref
  | Some p =>
      '(length, formatted) ← Format MaxPath (construct MaxPath) (prefix ++ cstr (GetString p));
      Ok (if negb (length =? MaxPath) then ResultSuccess else res.ResultPathTooLong, formatted)
  end.
(** "content/" and "save/" *)
Definition ContentFileDevice_FormatPath := FormatPath_with [99; 111; 110; 116; 101; 110; 116; 47].
Definition SaveFileDevice_FormatPath := FormatPath_with [115; 97; 118; 101; 47].

Section device.
Context {W : Type} `{!Win32Files W}.
(** The virtual FormatPath, and operator new with a heap and an alignment. *)
Variable FormatPath : option (list Z) -> res (Z * FixedString).
Variable new_file : Z -> Z -> Z -> M W Z.

Definition ConvertWin32ErrorToResult : M W Z :=
  last_error ← win32_GetLastError;
  mret (if last_error =? 2 then res.ResultFileNotFound
        else if last_error =? 3 then res.ResultPathNotFound
        else if last_error =? 32 then res.ResultFileSharingViolation
        else if last_error =? 33 then res.ResultFileLockViolation
        else if last_error =? 4 then res.ResultOpenFileExhaustion
        else res.ResultUnknownWin32Error).

(** The handle that [out_file_handle] points to comes back with the result. *)
Definition OpenFileImpl (out_file_handle : option FileHandle) (path : option (list Z)) (open_mode : Z) :
    M W (Z * option FileHandle) :=
  match out_file_handle with
  | None => mret (res.ResultNullHandle, None)
  | Some h =>
      match path with
      | None => mret (res.ResultNullPath, Some h)
      | Some p =>
          RESULT_RETURN_UNLESS negb (Z.land open_mode OpenMode_ReadWriteAppend =? 0), (res.ResultInvalidOpenMode, Some h);;
          '(format_result, _) ← lift (FormatPath path);
          RESULT_RETURN_UNLESS format_result =? ResultSuccess, (format_result, Some h);;
          handle ← win32_CreateFile p GENERIC_READ;
          let h := set_win32_handle handle h in
          if handle =? INVALID_HANDLE_VALUE then r ← ConvertWin32ErrorToResult; mret (r, Some h) else
          '(result, size) ← win32_GetFileSizeEx handle;
          let h := set_file_size size h in
          RESULT_RETURN_IF negb (result =? 0), (res.ResultFileSizeRetrievalFailed, Some h);;
          mret (ResultSuccess, Some h)
      end
  end.

Definition CloseFileImpl (file_handle : option FileHandle) : M W (Z * option FileHandle) :=
  match file_handle with
  | None => mret (res.ResultNullHandle, None)
  | Some h =>
      RESULT_RETURN_UNLESS valid_handle h, (res.ResultInvalidHandle, Some h);;
      close_result ← win32_CloseHandle (win32_handle h);
      if negb close_result then r ← ConvertWin32ErrorToResult; mret (r, Some h) else
      mret (ResultSuccess, Some (mkFileHandle 0 0 0 (open_mode h)))
  end.

(** ReadFile is given the address of the parameter [out_read_buffer], which has eight bytes. *)
Definition ReadFileImpl (out_read_buffer : Z) (file_handle : option FileHandle) (read_size : Z) : M W Z :=
  match file_handle with
  | None => mret res.ResultNullHandle
  | Some h =>
      RESULT_RETURN_UNLESS valid_handle h, res.ResultInvalidHandle;;
      set_result ← win32_SetFilePointerEx (win32_handle h) (file_offset h);
      if negb (set_result =? 0) then ConvertWin32ErrorToResult else
      '(read_result, data) ← win32_ReadFile (win32_handle h) read_size;
      if 8 <? Z.of_nat (length data) then throw OutOfBounds else
      if negb read_result then ConvertWin32ErrorToResult else
      mret ResultSuccess
  end.

(** The function ends without a return statement: its value is indeterminate. *)
Definition WriteFileImpl (file_handle : option FileHandle) (write_buffer write_size : Z) : M W Z :=
  match file_handle with
  | None => mret res.ResultNullHandle
  | Some h =>
      RESULT_RETURN_UNLESS valid_handle h, res.ResultInvalidHandle;;
      RESULT_RETURN_UNLESS negb (write_buffer =? 0), res.ResultNullOutBuffer;;
      RESULT_RETURN_UNLESS negb (write_size =? 0), res.ResultInvalidSize;;
      win32_WriteFile (win32_handle h) write_buffer write_size;;
      throw Uninitialized
  end.

Definition FlushFileImpl (file_handle : option FileHandle) : M W Z :=
  match file_handle with
  | None => mret res.ResultNullHandle
  | Some h =>
      RESULT_RETURN_UNLESS valid_handle h, res.ResultInvalidHandle;;
      flush_result ← win32_FlushFileBuffers (win32_handle h);
      if negb flush_result then ConvertWin32ErrorToResult else mret ResultSuccess
  end.

Definition GetFileSizeImpl (file_handle : option FileHandle) : M W (Z * option Z) :=
  match file_handle with
  | None => mret (res.ResultNullHandle, None)
  | Some h =>
      RESULT_RETURN_UNLESS valid_handle h, (res.ResultInvalidHandle, None);;
      mret (ResultSuccess, Some (file_size h))
  end.

Definition GetFileSizeImpl_path (path : option (list Z)) : M W (Z * option Z) :=
  match path with
  | None => mret (res.ResultNullPath, None)
  | Some _ =>
      '(format_result, formatted_path) ← lift (FormatPath path);
      RESULT_RETURN_UNLESS format_result =? ResultSuccess, (format_result, None);;
      '(open_result, handle) ← OpenFileImpl (Some empty_handle) (Some (GetString formatted_path)) OpenMode_Read;
      RESULT_RETURN_UNLESS open_result =? ResultSuccess, (open_result, None);;
      h ← deref handle;
      '(close_result, _) ← CloseFileImpl handle;
      RESULT_RETURN_UNLESS close_result =? ResultSuccess, (close_result, Some (file_size h));;
      mret (ResultSuccess, Some (file_size h))
  end.

Definition CheckFileExistsImpl (path : option (list Z)) : M W Z :=
  match path with
  | None => mret res.ResultNullPath
  | Some _ =>
      '(format_result, formatted_path) ← lift (FormatPath path);
      RESULT_RETURN_UNLESS format_result =? ResultSuccess, format_result;;
      check_result ← win32_GetFileAttributesA (GetString formatted_path);
      if check_result =? INVALID_FILE_ATTRIBUTES then ConvertWin32ErrorToResult else mret ResultSuccess
  end.

(** The loop of LoadFileImpl; the results of the reads are dropped. *)
Fixpoint read_loop (fuel : nat) (buffer : Z) (handle : option FileHandle) (div_size remaining offset : Z) : M W Z :=
  match fuel with
  | O => throw OutOfFuel
  | S fuel =>
      if offset =? remaining then mret offset else
      ReadFileImpl (u64 (buffer + offset)) handle div_size;;
      read_loop fuel buffer handle div_size remaining (u64 (offset + div_size))
  end.

(** [context_address]: where the member out_file of the context is, the address that is read into. *)
Definition LoadFileImpl (fuel : nat) (context_address : Z) (c : FileLoadContext) : M W (Z * FileLoadContext) :=
  RESULT_RETURN_UNLESS negb (out_file c =? 0) && (buffer_size c =? 0), (res.ResultInvalidFileBufferSize, c);;
  RESULT_RETURN_UNLESS negb (Z.land (read_div c) 0x1f =? 0), (res.ResultInvalidReadDivAlignment, c);;
  '(open_result, handle) ← OpenFileImpl (Some empty_handle) (file_path c) OpenMode_Read;
  RESULT_RETURN_UNLESS open_result =? ResultSuccess, (open_result, c);;
  '(size_result, size) ← GetFileSizeImpl handle;
  RESULT_RETURN_UNLESS size_result =? ResultSuccess, (size_result, c);;
  let size := default 0 size in
  loaded ←
    (if out_file c =? 0 then
       address ← new_file size (heap c) (alignment c);
       mret (inl (mkFileLoadContext address (heap c) (file_path c) size (read_div c) (alignment c) true))
     else if size <=? buffer_size c then mret (inl c)
     else mret (inr res.ResultInvalidFileBufferSize));
  match loaded with
  | inr r => mret (r, c)
  | inl c =>
      let div_size := read_div c in
      let remaining := AlignDown 64 size div_size in
      offset ← read_loop fuel context_address handle div_size remaining 0;
      ReadFileImpl (u64 (context_address + offset)) handle (u32 (size - remaining));;
      '(close_result, _) ← CloseFileImpl handle;
      RESULT_RETURN_UNLESS close_result =? ResultSuccess, (close_result, c);;
      mret (ResultSuccess, c)
  end.
End device.
End FileDevice.

(** * What the functions give *)
Section device_properties.
Import FileDevice.
Context {W : Type} `{!Win32Files W}.
Variable FormatPath : option (list Z) -> res (Z * FixedString.FixedString).
Variable new_file : Z -> Z -> Z -> M W Z.
Implicit Types (w : W) (h : FileHandle) (p : list Z).

(** Running a leading call whose answer is known. *)
Ltac call E := rewrite (M_bind_run _ _ _ _ _ E).
Lemma lift_run {A} (r : res A) a w : r = Ok a -> lift r w = Ok (a, w).
Proof. by intros ->. Qed.

Lemma valid_handle_spec h : valid_handle h = true <-> win32_handle h <> 0 /\ win32_handle h <> INVALID_HANDLE_VALUE.
Proof.
  unfold valid_handle. rewrite andb_true_iff, !negb_true_iff, !Z.eqb_neq. done.
Qed.

Lemma ConvertWin32Error_run e w w' : win32_GetLastError w = Ok (e, w') ->
  ConvertWin32ErrorToResult w = Ok (if e =? 2 then res.ResultFileNotFound
        else if e =? 3 then res.ResultPathNotFound
        else if e =? 32 then res.ResultFileSharingViolation
        else if e =? 33 then res.ResultFileLockViolation
        else if e =? 4 then res.ResultOpenFileExhaustion
        else res.ResultUnknownWin32Error, w').
Proof. intros E. unfold ConvertWin32ErrorToResult. by call E. Qed.

Lemma OpenFile_created h p mode formatted handle w w1 :
  Z.land mode OpenMode_ReadWriteAppend <> 0 -> FormatPath (Some p) = Ok (ResultSuccess, formatted) ->
  win32_CreateFile p GENERIC_READ w = Ok (handle, w1) ->
  OpenFileImpl FormatPath (Some h) (Some p) mode w =
    (if handle =? INVALID_HANDLE_VALUE then
       r ← ConvertWin32ErrorToResult; mret (r, Some (set_win32_handle handle h))
     else '(result, size) ← win32_GetFileSizeEx handle;
       let h := set_file_size size (set_win32_handle handle h) in
       if negb (result =? 0) then mret (res.ResultFileSizeRetrievalFailed, Some h) else mret (ResultSuccess, Some h)) w1.
Proof.
  intros Hm Hf Hc. unfold OpenFileImpl. destruct (Z.eqb_spec (Z.land mode OpenMode_ReadWriteAppend) 0); [done|].
  cbn [negb]. call (lift_run _ _ w Hf). cbn [Z.eqb ResultSuccess]. by call Hc.
Qed.

(** Opening a file takes the answer of GetFileSizeEx, which is true on success, the wrong way round: when
    the file has been opened and its size read, the caller is told that the size could not be retrieved, with
    the handle left open; when the size could not be read it is told of success. A file that does not exist
    is opened with success, for ResultFileNotFound is the code of ResultSuccess. *)
Theorem open_file_inverted h p mode formatted handle w w1 w2 :
  Z.land mode OpenMode_ReadWriteAppend <> 0 -> FormatPath (Some p) = Ok (ResultSuccess, formatted) ->
  win32_CreateFile p GENERIC_READ w = Ok (handle, w1) ->
  (handle = INVALID_HANDLE_VALUE -> win32_GetLastError w1 = Ok (2, w2) ->
   OpenFileImpl FormatPath (Some h) (Some p) mode w = Ok ((ResultSuccess, Some (set_win32_handle handle h)), w2)) /\
  (forall size, handle <> INVALID_HANDLE_VALUE -> win32_GetFileSizeEx handle w1 = Ok ((1, size), w2) ->
   OpenFileImpl FormatPath (Some h) (Some p) mode w =
     Ok ((res.ResultFileSizeRetrievalFailed, Some (set_file_size size (set_win32_handle handle h))), w2)) /\
  (forall size, handle <> INVALID_HANDLE_VALUE -> win32_GetFileSizeEx handle w1 = Ok ((0, size), w2) ->
   OpenFileImpl FormatPath (Some h) (Some p) mode w =
     Ok ((ResultSuccess, Some (set_file_size size (set_win32_handle handle h))), w2)).
Proof.
  intros Hm Hf Hc. rewrite (OpenFile_created h p mode formatted handle w w1 Hm Hf Hc). split_and!.
  - intros -> He. rewrite Z.eqb_refl. by call (ConvertWin32Error_run 2 w1 w2 He).
  - intros size Hh Hs. destruct (Z.eqb_spec handle INVALID_HANDLE_VALUE); [done|]. by call Hs.
  - intros size Hh Hs. destruct (Z.eqb_spec handle INVALID_HANDLE_VALUE); [done|]. by call Hs.
Qed.

(** Reading takes the answer of SetFilePointerEx the wrong way round too: after a successful seek nothing
    is read and the last error is returned. After a failed one the data goes to the eight bytes of the
    parameter on the stack: more than that overruns it, and the caller's buffer is never written. *)
Theorem read_file_inverted h buffer size w w1 :
  valid_handle h = true ->
  (forall b, b <> 0 -> win32_SetFilePointerEx (win32_handle h) (file_offset h) w = Ok (b, w1) ->
   ReadFileImpl buffer (Some h) size w = ConvertWin32ErrorToResult w1) /\
  (forall data w2, win32_SetFilePointerEx (win32_handle h) (file_offset h) w = Ok (0, w1) ->
   win32_ReadFile (win32_handle h) size w1 = Ok ((true, data), w2) ->
   ReadFileImpl buffer (Some h) size w =
     if 8 <? Z.of_nat (length data) then Fault OutOfBounds else Ok (ResultSuccess, w2)).
Proof.
  intros Hv. unfold ReadFileImpl. rewrite Hv. split.
  - intros b Hb Hs. call Hs. by destruct (Z.eqb_spec b 0).
  - intros data w2 Hs Hr. call Hs. cbn [Z.eqb negb]. call Hr. by destruct (8 <? Z.of_nat (length data)).
Qed.

(** Closing an open handle clears it, and what is done with it afterwards answers ResultInvalidHandle; a
    handle that was never opened, or a null pointer, is refused by every operation without a call to
    Windows. *)
Theorem handle_life_cycle h w w1 buffer size :
  (valid_handle h = true -> win32_CloseHandle (win32_handle h) w = Ok (true, w1) ->
   exists h', CloseFileImpl (Some h) w = Ok ((ResultSuccess, Some h'), w1) /\ valid_handle h' = false) /\
  (valid_handle h = false ->
   CloseFileImpl (Some h) w = Ok ((res.ResultInvalidHandle, Some h), w) /\
   ReadFileImpl buffer (Some h) size w = Ok (res.ResultInvalidHandle, w) /\
   WriteFileImpl (Some h) buffer size w = Ok (res.ResultInvalidHandle, w) /\
   FlushFileImpl (Some h) w = Ok (res.ResultInvalidHandle, w) /\
   GetFileSizeImpl (Some h) w = Ok ((res.ResultInvalidHandle, None), w)) /\
  res.ResultInvalidHandle <> ResultSuccess.
Proof.
  split_and!; [|intros Hv|done].
  - intros Hv Hc. unfold CloseFileImpl. rewrite Hv. call Hc. by eexists.
  - unfold CloseFileImpl, ReadFileImpl, WriteFileImpl, FlushFileImpl, GetFileSizeImpl. rewrite Hv. by split_and!.
Qed.

(** LoadFile succeeds for empty files only: it requires a buffer and a buffer size of zero, and then that
    the file fits. *)
Theorem load_file_only_empty fuel address c w c' w' :
  LoadFileImpl FormatPath new_file fuel address c w = Ok ((ResultSuccess, c'), w') ->
  exists h w1, OpenFileImpl FormatPath (Some empty_handle) (file_path c) OpenMode_Read w = Ok ((ResultSuccess, Some h), w1) /\
    file_size h <= 0 /\ valid_handle h = true /\ c' = c.
Proof.
  unfold LoadFileImpl. destruct (Z.eqb_spec (out_file c) 0) as [|Hout]; [done|].
  destruct (Z.eqb_spec (buffer_size c) 0) as [Hbuf|]; [|done]. cbn [negb andb].
  destruct (Z.eqb_spec (Z.land (read_div c) 0x1f) 0); [done|]. cbn [negb].
  intros ([open_result handle] & w1 & Eo & E)%M_bind_ok.
  destruct (Z.eqb_spec open_result ResultSuccess) as [->|Hne]; [|by injection E as -> _ _].
  apply M_bind_ok in E as ([size_result size] & w2 & Es & E).
  destruct (Z.eqb_spec size_result ResultSuccess) as [->|Hne]; [|by injection E as -> _ _].
  destruct handle as [h|]; [|done]. cbn in Es. destruct (valid_handle h) eqn:Hv; [|done]. injection Es as <- <-.
  cbn [default from_option id] in E. rewrite Hbuf in E. destruct (Z.leb_spec (file_size h) 0) as [Hle|]; [|done].
  exists h, w1. split; [done|]. split; [lia|]. split; [done|]. unfold mbind at 1, M_bind at 1 in E. cbn in E.
  apply M_bind_ok in E as (offset & w3 & _ & E). apply M_bind_ok in E as (r & w4 & _ & E).
  apply M_bind_ok in E as ([close_result handle'] & w5 & _ & E).
  destruct (Z.eqb_spec close_result ResultSuccess); [by injection E as -> _|by injection E as -> _ _].
Qed.
End device_properties.

(** ** The paths of the derived devices *)
Section format_path.
Import FileDevice FixedString PathUtil.

Lemma GetPathWithoutDrive_run path t :
  terminated path t -> (0 < length t < 256)%nat ->
  let r := last_index is_colon t (length t) in
  exists o, GetPathWithoutDrive false (Some (construct MaxPath)) (Some path) = Ok (Some o) /\
    cstr (m_string_array o) = drop r t.
Proof.
  intros Ht Hn r. pose proof (terminated_length _ _ Ht) as Hp. pose proof (last_index_le is_colon t (length t)) as Hr.
  unfold GetPathWithoutDrive. rewrite (on_string_run _ _ _ _ _ Ht) by lia.
  unfold path_without_drive_from, FindDriveDelimiter. rewrite find_last_run by lia. fold is_colon.
  change (fun x => x =? ch_colon) with is_colon. rewrite (last_index_terminated _ _ _ _ Ht) by done. fold r. fold r in Hr.
  cbn [mbind res_bind]. destruct (cut_run 256 256 (construct (Z.of_nat 256)) (construct (Z.of_nat 256)) path t r Ht Hr) as (_ & E);
    [lia|lia|done|done|].
  change MaxPath with (Z.of_nat 256). rewrite E. eexists. split; [done|]. cbn [m_string_array].
  rewrite cstr_app by (apply Forall_drop, (proj1 Ht)).
  change (<[(256 - 1)%nat := 0]> (m_string_array (construct (Z.of_nat 256)))) with (replicate 256 0).
  rewrite drop_replicate. by destruct (256 - (length t - r))%nat; cbn; rewrite app_nil_r.
Qed.

(** The derived devices put their directory in front of the path from its drive delimiter on, so a path
    with a drive gets the ':' into the middle. A result of exactly 256 characters is refused as too long; a
    longer one is accepted and cut to 255. *)
Theorem format_path prefix path t :
  text prefix -> (length prefix <= 256)%nat -> terminated path t -> (0 < length t < 256)%nat ->
  let formatted := prefix ++ drop (last_index is_colon t (length t)) t in
  exists r f, FormatPath_with prefix (Some path) = Ok (r, f) /\
    cstr (GetString f) = take 255 formatted /\
    r = (if decide (length formatted = 256%nat) then res.ResultPathTooLong else ResultSuccess).
Proof.
  intros Hpre Hl Ht Hn formatted. unfold FormatPath_with.
  destruct (GetPathWithoutDrive_run path t Ht Hn) as (o & E & Eo). rewrite E. cbn [mbind res_bind].
  unfold GetString at 1. rewrite Eo. fold formatted.
  assert (text formatted) as Hf by (apply Forall_app; split; [done|apply Forall_drop, (proj1 Ht)]).
  assert (length formatted < 512)%nat as Hlen by (unfold formatted; rewrite length_app, length_drop; lia).
  change MaxPath with (Z.of_nat 256).
  destruct (decide (length formatted < 256)%nat) as [Hlt|Hge].
  - destruct (Format_fits 256 ltac:(lia) (construct (Z.of_nat 256)) formatted eq_refl Hf Hlt) as (f & Ef & Ec & _).
    rewrite Ef. cbn [mbind res_bind]. destruct (Z.eqb_spec (Z.of_nat (length formatted)) (Z.of_nat 256)); [lia|].
    eexists _, f. split; [done|]. unfold GetString. rewrite Ec, take_ge by lia. by rewrite decide_False by lia.
  - destruct (Format_cut 256 ltac:(lia) (construct (Z.of_nat 256)) formatted eq_refl Hf ltac:(lia) ltac:(lia))
      as (f & Ef & Ec & _).
    rewrite Ef. cbn [mbind res_bind]. eexists _, f. split; [done|]. split; [exact Ec|].
    destruct (Z.eqb_spec (Z.of_nat (length formatted)) (Z.of_nat 256)).
    + by rewrite decide_True by lia.
    + by rewrite decide_False by lia.
Qed.

(** d:/a/b.t becomes save/:/a/b.t. *)
Lemma format_path_witness :
  exists f, SaveFileDevice_FormatPath (Some example_path) = Ok (ResultSuccess, f) /\
    cstr (GetString f) = [115; 97; 118; 101; 47; 58; 47; 97; 47; 98; 46; 116].
Proof.
  destruct (format_path [115; 97; 118; 101; 47] _ _ ltac:(by repeat constructor) ltac:(cbn; lia) example_terminated
    ltac:(cbn; lia)) as (r & f & E & Ec & Er).
  exists f. rewrite decide_False in Er by done. subst r. by split.
Defined.
End format_path.

(** * Example: Windows with one file, of which the handle is 4; the state is the last error *)
Section example.
Import FileDevice.
Definition the_file : list Z := [97; 0].
#[local] Instance example_win32 : Win32Files Z := {|
  win32_CreateFile p _ := fun w => if decide (p = the_file) then Ok (4, w) else Ok (INVALID_HANDLE_VALUE, 2);
  win32_GetFileSizeEx _ := mret (1, 100);
  win32_CloseHandle _ := mret true;
  win32_SetFilePointerEx _ _ := mret 1;
  win32_ReadFile _ n := mret (true, replicate (Z.to_nat n) 0);
  win32_WriteFile _ _ _ := mret true;
  win32_FlushFileBuffers _ := mret true;
  win32_GetFileAttributesA _ := mret 128;
  win32_GetLastError := fun w => Ok (w, w)
|}.
Definition example_format (p : option (list Z)) : res (Z * FixedString.FixedString) :=
  Ok (ResultSuccess, FixedString.construct 256).
Definition open_handle : FileHandle := mkFileHandle 4 0 100 0.

Lemma open_file_inverted_witness :
  OpenFileImpl example_format (Some empty_handle) (Some the_file) OpenMode_Read 0 =
    Ok ((res.ResultFileSizeRetrievalFailed, Some (mkFileHandle 4 0 100 0)), 0) /\
  OpenFileImpl example_format (Some empty_handle) (Some [98; 0]) OpenMode_Read 0 =
    Ok ((ResultSuccess, Some (mkFileHandle INVALID_HANDLE_VALUE 0 0 0)), 2).
Proof.
  split.
  - destruct (open_file_inverted example_format empty_handle the_file OpenMode_Read _ 4 0 0 0 ltac:(done) eq_refl eq_refl)
      as (_ & E & _).
    by apply E.
  - destruct (open_file_inverted example_format empty_handle [98; 0] OpenMode_Read _ INVALID_HANDLE_VALUE 0 2 2
      ltac:(done) eq_refl eq_refl) as (E & _ & _).
    by apply E.
Defined.

Lemma read_file_inverted_witness :
  ReadFileImpl 4096 (Some open_handle) 16 0 = Ok (res.ResultUnknownWin32Error, 0).
Proof.
  destruct (read_file_inverted open_handle 4096 16 0 0 eq_refl) as [E _]. rewrite (E 1); [done|done|done].
Defined.

Lemma handle_life_cycle_witness :
  exists h, CloseFileImpl (Some open_handle) 0 = Ok ((ResultSuccess, Some h), 0) /\ valid_handle h = false.
Proof. destruct (handle_life_cycle open_handle 0 0 0 0) as (E & _). by apply E. Defined.
End example.

(** Windows with one empty file whose size cannot be read. *)
Section example_empty.
Import FileDevice.
#[local] Instance empty_win32 : Win32Files Z := {|
  win32_CreateFile _ _ := mret 4;
  win32_GetFileSizeEx _ := mret (0, 0);
  win32_CloseHandle _ := mret true;
  win32_SetFilePointerEx _ _ := mret 0;
  win32_ReadFile _ _ := mret (true, []);
  win32_WriteFile _ _ _ := mret true;
  win32_FlushFileBuffers _ := mret true;
  win32_GetFileAttributesA _ := mret 128;
  win32_GetLastError := fun w => Ok (w, w)
|}.

Lemma load_file_only_empty_witness :
  exists h w1, OpenFileImpl example_format (Some empty_handle) (Some the_file) OpenMode_Read 0 = Ok ((ResultSuccess, Some h), w1) /\
    file_size h <= 0.
Proof.
  set (c := mkFileLoadContext 8192 0 (Some the_file) 0 1 8 false).
  assert (LoadFileImpl example_format (fun _ _ _ => mret 0) 1 4096 c 0 = Ok ((ResultSuccess, c), 0)) as E0
    by (vm_compute; reflexivity).
  destruct (load_file_only_empty example_format (fun _ _ _ => mret 0) 1 4096 c 0 c 0 E0)
    as (h & w1 & E & Hs & _).
  by exists h, w1.
Defined.
End example_empty.
