(* ===== verification/Resources.v ===== *)
(** The managers of resources (res_filedevicemanager.hpp, res_resourcemanager.hpp): the mounted file devices and
    the factories of resources.

    A device and a factory are the addresses of their objects; the two lists share one store of nodes. What is
    virtual, the loading of a file by a device and the methods of a factory, and operator new are arguments; [W]
    is the state they work on. *)
From stdpp Require Import functions.
From S2P Require Import Prelude Result IntrusiveList ListFamily.
From S2P Require Import Strings Paths ExpHeap Files.

(** * The comparisons of the C library, of the characters as unsigned *)
Module CCompare.
Fixpoint strncmp (lhs rhs : list Z) (n : nat) : res Z :=
  match n with
  | O => Ok 0
  | S n =>
      match lhs, rhs with
      | c :: lhs, d :: rhs =>
          if negb (c =? d) then Ok (if u8 c <? u8 d then -1 else 1)
          else if c =? 0 then Ok 0 else strncmp lhs rhs n
      | _, _ => Fault OutOfBounds
      end
  end.

Fixpoint strcmp (lhs rhs : list Z) : res Z :=
  match lhs, rhs with
  | c :: lhs, d :: rhs =>
      if negb (c =? d) then Ok (if u8 c <? u8 d then -1 else 1)
      else if c =? 0 then Ok 0 else strcmp lhs rhs
  | _, _ => Fault OutOfBounds
  end.
End CCompare.

Module Resources.
Import FixedString PathUtil CCompare.
Import FileDevice(FileLoadContext, file_path, out_file, buffer_size).

Inductive ResourceNode : Type :=
  | DeviceHead                    (* m_mounted_file_device_list *)
  | DeviceNode (device : Z)
  | FactoryHead                   (* m_resource_factory_list *)
  | FactoryNode (factory : Z).

#[export] Instance ResourceNode_eq_dec : EqDecision ResourceNode.
Proof. solve_decision. Defined.
#[export] Instance ResourceNode_countable : Countable ResourceNode.
Proof.
  refine (inj_countable'
    (fun n => match n with DeviceHead => inl None | DeviceNode d => inl (Some d)
                         | FactoryHead => inr None | FactoryNode f => inr (Some f) end)
    (fun x => match x with inl None => DeviceHead | inl (Some d) => DeviceNode d
                         | inr None => FactoryHead | inr (Some f) => FactoryNode f end) _).
  by intros [].
Defined.

Section managers.
Context {CS W : Type} `{!HeapLock CS}.

(** Both managers and the objects they know: [m_device_name] of the devices, [m_file_extension] of the
    factories. [m_main_file_device] is [None] until something has been assigned. *)
Record Managers := mkManagers {
  m_main_file_device : option Z;
  m_device_name : gmap Z FixedString;
  m_list_cs : CS;
  m_file_extension : gmap Z (option (list Z));
  links : gmap ResourceNode (IntrusiveListNode ResourceNode);
  world : W
}.
Definition set_links l s := mkManagers (m_main_file_device s) (m_device_name s) (m_list_cs s) (m_file_extension s) l (world s).
Definition set_list_cs c s := mkManagers (m_main_file_device s) (m_device_name s) c (m_file_extension s) (links s) (world s).
Definition set_world w s := mkManagers (m_main_file_device s) (m_device_name s) (m_list_cs s) (m_file_extension s) (links s) w.
Definition set_main_file_device d s := mkManagers (Some d) (m_device_name s) (m_list_cs s) (m_file_extension s) (links s) (world s).
Definition set_device_name d n s :=
  mkManagers (m_main_file_device s) (<[d := n]> (m_device_name s)) (m_list_cs s) (m_file_extension s) (links s) (world s).
Definition set_file_extension f e s :=
  mkManagers (m_main_file_device s) (m_device_name s) (m_list_cs s) (<[f := e]> (m_file_extension s)) (links s) (world s).

#[export] Instance Managers_nodes : HasNodes ResourceNode Managers.
Proof. refine {| nodes := links; set_nodes := set_links |}; try done. by intros []. Defined.

(** What the objects outside do. *)
Definition outside {A} (m : M W A) : M Managers A := fun s =>
  match m (world s) with Ok (a, w) => Ok (a, set_world w s) | Fault f => Fault f end.

Record ResourceLoadContext := mkResourceLoadContext {
  resource_factory : option Z;
  file_device : option Z;
  file_load_context : FileLoadContext
}.

(** ** FileDeviceBase and FileDeviceManager *)
Definition construct_device (device : Z) (device_name : list Z) : M Managers unit :=
  name ← lift (construct_string MaxDrive false device_name);
  modify (set_device_name device name);; modify_nodes (ConstructNode (DeviceNode device)).

Definition GetDeviceName (device : Z) : M Managers (list Z) :=
  s ← get; match m_device_name s !! device with Some n => mret (GetString n) | None => throw BadPointer end.

(** "resource" *)
Definition ContentFileDevice (device : Z) : M Managers unit :=
  construct_device device [114; 101; 115; 111; 117; 114; 99; 101; 0].
(** "save" *)
Definition SaveFileDevice (device : Z) : M Managers unit := construct_device device [115; 97; 118; 101; 0].

Section devices.
(** operator new of an object of a size with a heap and an alignment, and LoadFileImpl of a device. *)
Variable operator_new : Z -> Z -> Z -> M W (option Z).
Variable LoadFileImpl : Z -> FileLoadContext -> M W (Z * FileLoadContext).
Variables sizeof_ContentFileDevice alignof_ContentFileDevice : Z.

(** The constructor runs in the new expression, before the assertion, and again by construct_at. *)
Definition Initialize (heap : Z) : M Managers unit :=
  content_device ← outside (operator_new sizeof_ContentFileDevice heap alignof_ContentFileDevice);
  d ← deref content_device;
  ContentFileDevice d;;
  ContentFileDevice d;;
  modify (set_main_file_device d).

Definition AddFileDevice (file_device : option Z) : M Managers unit :=
  dd_assert (bool_decide (is_Some file_device));;
  d ← deref file_device;
  modify_nodes (PushBack DeviceHead (DeviceNode d)).

Definition device_of (n : ResourceNode) : M Managers Z :=
  match n with DeviceNode d => mret d | _ => throw BadContainer end.

Definition GetFileDeviceByName (fuel : nat) (device_name : list Z) : M Managers (option Z) :=
  for_each fuel DeviceHead (fun n =>
    device ← device_of n;
    name ← GetDeviceName device;
    cmp_result ← lift (strncmp name device_name (Z.to_nat MaxDrive));
    mret (if u32 cmp_result =? 0 then Some device else None)).

Definition device_TryLoadFile (device : Z) (c : FileLoadContext) : M Managers (Z * FileLoadContext) :=
  outside (LoadFileImpl device c).

Definition TryLoadFile (fuel : nat) (c : FileLoadContext) : M Managers (Z * FileLoadContext) :=
  drive ← lift (GetDriveFromPath false (Some (construct MaxDrive)) (file_path c));
  drive ← deref drive;
  device ← GetFileDeviceByName fuel (GetString drive);
  path ← lift (GetPathWithoutDrive false (Some (construct MaxPath)) (file_path c));
  device ← deref device;
  device_TryLoadFile device c.

(** ** ResourceFactoryBase: its virtual functions that a factory may override are arguments *)
Section factories.
Variable AllocateResource : Z -> Z -> Z -> M W (option Z).     (* factory, heap, alignment *)
Variable GetResourceAlignment : Z -> M W Z.
Variable InitializeResource : Z -> Z -> Z -> Z -> M W unit.    (* resource, heap, file, size *)
(** FileDeviceManager::GetInstance() is not null. *)
Variable file_device_manager : bool.

(** AllocateResource and GetResourceAlignment as the base class has them. *)
Variable construct_resource : Z -> M W unit.
Definition AllocateResource_base (sizeof_ResourceBase heap alignment : Z) : M W (option Z) :=
  r ← operator_new sizeof_ResourceBase heap (u32 alignment); r ← deref r; construct_resource r;; mret (Some r).
Definition GetResourceAlignment_base : Z := 4.

(** The parameter [out_resource] is not used. *)
Definition factory_TryLoad (fuel : nat) (factory : Z) (load_arg : ResourceLoadContext) : M Managers (Z * ResourceLoadContext) :=
  let context := file_load_context load_arg in
  alignment ← outside (GetResourceAlignment factory);
  res ← outside (AllocateResource factory (FileDevice.heap context) (s32 alignment));
  match res with
  | None => mret (res.ResultResourceAllocationFailed, load_arg)
  | Some r =>
      '(result, context) ←
        match file_device load_arg with
        | None => if file_device_manager then TryLoadFile fuel context else throw NullDeref
        | Some device => device_TryLoadFile device context
        end;
      let load_arg := mkResourceLoadContext (resource_factory load_arg) (file_device load_arg) context in
      RESULT_RETURN_IF negb (result =? ResultSuccess), (result, load_arg);;
      outside (InitializeResource r (FileDevice.heap context) (out_file context) (u32 (buffer_size context)));;
      mret (ResultSuccess, load_arg)
  end.

(** ** ResourceFactoryManager *)
Definition construct_factory (factory : Z) (file_extension : option (list Z)) : M Managers unit :=
  modify (set_file_extension factory file_extension);; modify_nodes (ConstructNode (FactoryNode factory)).

(** The member of a factory that is dereferenced. *)
Definition extension_of (factory : Z) : M Managers (option (list Z)) :=
  s ← get; match m_file_extension s !! factory with Some e => mret e | None => throw BadPointer end.

Definition with_list_cs {A} (body : M Managers A) : M Managers A :=
  c ← gets m_list_cs; c ← lift (heap_cs_Enter c); modify (set_list_cs c);;
  r ← body;
  c ← gets m_list_cs; c ← lift (heap_cs_Leave c); modify (set_list_cs c);;
  mret r.

Definition RegisterResourceFactory (factory : Z) : M Managers unit :=
  e ← extension_of factory;
  dd_assert (bool_decide (is_Some e));;
  with_list_cs (modify_nodes (PushBack FactoryHead (FactoryNode factory))).

Definition RemoveResourceFactory (factory : Z) : M Managers unit :=
  with_list_cs (modify_nodes (Unlink (FactoryNode factory))).

Definition factory_of (n : ResourceNode) : M Managers Z :=
  match n with FactoryNode f => mret f | _ => throw BadContainer end.

Definition FindResourceFactory (fuel : nat) (file_extension : list Z) : M Managers (option Z) :=
  with_list_cs (for_each fuel FactoryHead (fun n =>
    rf ← factory_of n;
    e ← extension_of rf;
    e ← deref e;
    cmp ← lift (strcmp e file_extension);
    mret (if cmp =? 0 then Some rf else None))).

Definition TryLoad (fuel : nat) (load_arg : ResourceLoadContext) : M Managers ResourceLoadContext :=
  factory ←
    match resource_factory load_arg with
    | Some f => mret (Some f)
    | None =>
        extension ← lift (GetExtensionFromPath false (Some (construct MaxPath)) (file_path (file_load_context load_arg)));
        extension ← deref extension;
        FindResourceFactory fuel (GetString extension)
    end;
  f ← deref factory;
  '(result, load_arg) ← factory_TryLoad fuel f load_arg;
  dd_assert (result =? ResultSuccess);;
  mret load_arg.
End factories.
End devices.
End managers.
Arguments Managers CS W : clear implicits.
End Resources.

(** * The comparisons decide equality of the texts *)
Section comparisons.
Import CCompare.

Lemma strncmp_run a b s t (n : nat) : terminated a s -> terminated b t ->
  exists r, strncmp a b n = Ok r /\ (u32 r =? 0) = bool_decide (take n s = take n t).
Proof.
  intros Ha. revert b t n. pattern a, s. revert a s Ha. apply terminated_ind.
  - intros rest b t [|n] Hb; [by eexists|]. revert b t Hb. apply terminated_ind; [intros; by eexists|].
    intros d b t Hd _ _. cbn [strncmp]. rewrite (Z.eqb_sym 0 d), Hd. cbn. rewrite bool_decide_false by done.
    eexists; split; [done|]. by destruct (_ <? _).
  - intros c a s Hc _ IH b t [|n] Hb; [by eexists|]. revert b t Hb. apply terminated_ind.
    + intros rest. cbn [strncmp]. rewrite Hc. cbn. rewrite bool_decide_false by done. eexists; split; [done|]. by destruct (_ <? _).
    + intros d b t Hd Hb _. cbn [strncmp]. destruct (Z.eqb_spec c d) as [->|Hne]; cbn [negb].
      * rewrite Hd. destruct (IH b t n Hb) as (r & E & Er). exists r. split; [done|]. rewrite Er. apply bool_decide_ext.
        cbn. split; congruence.
      * cbn. rewrite bool_decide_false by congruence. eexists; split; [done|]. by destruct (_ <? _).
Qed.

Lemma strcmp_run a b s t : terminated a s -> terminated b t ->
  exists r, strcmp a b = Ok r /\ (r =? 0) = bool_decide (s = t).
Proof.
  intros Ha. revert b t. pattern a, s. revert a s Ha. apply terminated_ind.
  - intros rest. apply terminated_ind; [intros; by eexists|].
    intros d b t Hd _ _. cbn [strcmp]. rewrite (Z.eqb_sym 0 d), Hd. cbn. rewrite bool_decide_false by done.
    eexists; split; [done|]. by destruct (_ <? _).
  - intros c a s Hc _ IH. apply terminated_ind.
    + intros rest. cbn [strcmp]. rewrite Hc. cbn. rewrite bool_decide_false by done. eexists; split; [done|]. by destruct (_ <? _).
    + intros d b t Hd Hb _. cbn [strcmp]. destruct (Z.eqb_spec c d) as [->|Hne]; cbn [negb].
      * rewrite Hd. destruct (IH b t Hb) as (r & E & Er). exists r. split; [done|]. rewrite Er. apply bool_decide_ext.
        split; congruence.
      * cbn. rewrite bool_decide_false by congruence. eexists; split; [done|]. by destruct (_ <? _).
Qed.
End comparisons.

(** * File devices *)
Section device_manager.
Import Resources FixedString PathUtil.
Import FileDevice(file_path).
Context {CS W : Type} `{!HeapLock CS}.
Implicit Types (s : Managers CS W) (d : Z) (ds : list Z).

(** The devices that are mounted, in order, and their names. *)
Record mounted s ds (name : Z -> list Z) : Prop := {
  mo_list : is_list (links s) DeviceHead (DeviceNode <$> ds);
  mo_name : forall d, d ∈ ds -> exists n, m_device_name s !! d = Some n /\ terminated (m_string_array n) (name d)
}.

(** The device of a name: names count up to [MaxDrive] characters. *)
Definition device_named (name : Z -> list Z) (t : list Z) (d : Z) : bool := bool_decide (take 32 (name d) = take 32 t).

Lemma GetFileDeviceByName_run s ds name fuel a t :
  mounted s ds name -> (length ds < fuel)%nat -> terminated a t ->
  GetFileDeviceByName fuel a s = Ok (List.find (device_named name t) ds, s).
Proof.
  intros Hm Hf Ha. unfold GetFileDeviceByName.
  rewrite (for_each_search DeviceNode (device_named name t) id _ fuel DeviceHead ds s); [by destruct (List.find _ _)|apply Hm|lia|].
  intros d Hd. unfold device_of. steps. destruct (mo_name _ _ _ Hm d Hd) as (n & E & Hn).
  unfold GetDeviceName. rewrite M_bind_assoc. unfold mbind at 1, M_bind at 1, get. rewrite E. steps.
  destruct (strncmp_run _ _ _ _ 32 Hn Ha) as (r & Er & Hr). change (Z.to_nat MaxDrive) with 32%nat.
  unfold GetString, lift, mbind, M_bind. rewrite Er. by rewrite Hr.
Qed.

(** The drive of a path as the device manager cuts it. *)
Definition drive_of (t : list Z) : list Z := take (last_index is_colon t (length t)) t.

Lemma drive_run path t : terminated path t -> (0 < length t < 256)%nat -> (last_index is_colon t (length t) < 32)%nat ->
  exists v, GetDriveFromPath false (Some (construct MaxDrive)) (Some path) = Ok (Some v) /\
    terminated (m_string_array v) (drive_of t).
Proof.
  intros Ht Hl Hr. pose proof (terminated_length _ _ Ht) as Hp. unfold GetDriveFromPath.
  rewrite (on_string_run _ _ _ _ _ Ht) by lia. unfold drive_from, FindDriveDelimiter.
  rewrite find_last_run by (done || lia). fold is_colon. rewrite (last_index_terminated _ _ _ _ Ht) by done.
  pose proof (last_index_le is_colon t (length t)) as Hle. unfold drive_of. set (r := last_index is_colon t (length t)) in *.
  cbn [mbind res_bind]. destruct (cut_run 32 256 (construct MaxDrive) (construct MaxPath) path t r Ht Hle) as [E _];
    [lia|lia|done|done|].
  change MaxDrive with (Z.of_nat 32) in E |- *. rewrite E. cbn [mbind res_bind]. eexists. split; [done|]. cbn [m_string_array].
  destruct Ht as [Htext _]. split; [by apply text_take|].
  change (<[(32 - 1)%nat := 0]> (m_string_array (construct (Z.of_nat 32)))) with (replicate 32 0).
  rewrite drop_replicate. exists (replicate (31 - r) 0). f_equal. replace (32 - r)%nat with (S (31 - r)) by lia. done.
Qed.

Lemma without_drive_run path t : terminated path t -> (0 < length t < 256)%nat ->
  exists w, GetPathWithoutDrive false (Some (construct MaxPath)) (Some path) = Ok (Some w).
Proof.
  intros Ht Hl. pose proof (terminated_length _ _ Ht) as Hp. unfold GetPathWithoutDrive.
  rewrite (on_string_run _ _ _ _ _ Ht) by lia. unfold path_without_drive_from, FindDriveDelimiter.
  rewrite find_last_run by (done || lia). fold is_colon. rewrite (last_index_terminated _ _ _ _ Ht) by done.
  pose proof (last_index_le is_colon t (length t)) as Hle. set (r := last_index is_colon t (length t)) in *.
  cbn [mbind res_bind]. rewrite <- Nat2Z.inj_sub by lia. unfold u32. rewrite wrap_small by lia.
  change MaxPath with (Z.of_nat 256). rewrite (copy_out_run 256 (length t - r) r) by (done || lia). by eexists.
Qed.
(** AddFileDevice mounts a device behind those that are mounted, and refuses a null pointer; a lookup by
    name then finds the device mounted first whose name agrees with the wanted one up to the 32 characters
    of a drive. *)
Theorem device_lookup s ds (L : ResourceNode -> list ResourceNode) name d fuel a t :
  family (links s) L -> L DeviceHead = DeviceNode <$> ds -> loose L DeviceHead ->
  loose L (DeviceNode d) -> L (DeviceNode d) = [] ->
  (forall x, x ∈ ds ++ [d] -> exists n, m_device_name s !! x = Some n /\ terminated (m_string_array n) (name x)) ->
  terminated a t -> (length ds + 1 < fuel)%nat ->
  AddFileDevice None s = Fault AssertFailed /\
  exists s', AddFileDevice (Some d) s = Ok (tt, s') /\ mounted s' (ds ++ [d]) name /\
    GetFileDeviceByName fuel a s' = Ok (List.find (device_named name t) (ds ++ [d]), s').
Proof.
  intros HF HL Hh Hd Ed Hname Ha Hf. split; [done|].
  exists (set_links (PushBack DeviceHead (DeviceNode d) (links s)) s). split; [done|].
  assert (mounted (set_links (PushBack DeviceHead (DeviceNode d) (links s)) s) (ds ++ [d]) name) as Hm.
  { split; [|exact Hname]. pose proof (family_PushBack _ _ _ _ HF Hh Hd Ed ltac:(done)) as HF'.
    replace (DeviceNode <$> ds ++ [d]) with (<[DeviceHead := L DeviceHead ++ [DeviceNode d]]> L DeviceHead)
      by (by rewrite fn_lookup_insert, HL, fmap_app).
    apply HF', loose_insert; [done|]. rewrite HL. intros [Hin|Hin]%elem_of_app; [|set_solver].
    apply list_elem_of_fmap in Hin as (? & ? & _). done. }
  split; [exact Hm|]. apply GetFileDeviceByName_run; [done| |done]. rewrite length_app. cbn. lia.
Qed.

(** TryLoadFile gives the whole context to the device mounted first under the drive of the path, what
    stands in front of the last colon, and changes nothing else; when no device is mounted under that name
    it calls a virtual function of a null pointer. *)
Theorem device_try_load LoadFileImpl s ds name fuel c path t :
  mounted s ds name -> (length ds < fuel)%nat -> file_path c = Some path ->
  terminated path t -> (0 < length t < 256)%nat -> (last_index is_colon t (length t) < 32)%nat ->
  TryLoadFile LoadFileImpl fuel c s =
    match List.find (device_named name (drive_of t)) ds with
    | Some d => match LoadFileImpl d c (world s) with Ok (r, w) => Ok (r, set_world w s) | Fault f => Fault f end
    | None => Fault NullDeref
    end.
Proof.
  intros Hm Hf Hc Ht Hl Hr. unfold TryLoadFile. rewrite Hc.
  destruct (drive_run path t Ht Hl Hr) as (v & Ev & Hv). destruct (without_drive_run path t Ht Hl) as (w & Ew).
  rewrite (M_bind_run _ _ s (Some v) s) by (unfold lift; by rewrite Ev). steps. unfold GetString.
  rewrite (M_bind_run _ _ _ _ _ (GetFileDeviceByName_run s ds name fuel _ _ Hm Hf Hv)).
  rewrite (M_bind_run _ _ s (Some w) s) by (unfold lift; by rewrite Ew).
  by destruct (List.find _ ds).
Qed.

(** Initialize makes the content device, with its name, and remembers it, but does not mount it: after it
    no file can be loaded, whatever its drive. *)
Theorem initialize_mounts_nothing operator_new LoadFileImpl s L sizeof alignof heap d w fuel c path t :
  family (links s) L -> L DeviceHead = [] -> loose L DeviceHead -> loose L (DeviceNode d) -> L (DeviceNode d) = [] ->
  operator_new sizeof heap alignof (world s) = Ok (Some d, w) ->
  (1 <= fuel)%nat -> file_path c = Some path -> terminated path t -> (0 < length t < 256)%nat ->
  (last_index is_colon t (length t) < 32)%nat ->
  exists s' n, Initialize operator_new sizeof alignof heap s = Ok (tt, s') /\ m_main_file_device s' = Some d /\
    m_device_name s' !! d = Some n /\ cstr (GetString n) = [114; 101; 115; 111; 117; 114; 99; 101] /\
    TryLoadFile LoadFileImpl fuel c s' = Fault NullDeref.
Proof.
  intros HF HL Hh Hd Ed Hnew Hf Hc Ht Hl Hr.
  set (n := mkFixedString ([114; 101; 115; 111; 117; 114; 99; 101] ++ replicate 24 0) (Some 8)).
  assert (construct_string MaxDrive false [114; 101; 115; 111; 117; 114; 99; 101; 0] = Ok n) as En by (vm_compute; reflexivity).
  set (built := fun s : Managers CS W => set_links (ConstructNode (DeviceNode d) (links s)) (set_device_name d n s)).
  assert (forall s, ContentFileDevice d s = Ok (tt, built s)) as Econ.
  { intros s0. unfold ContentFileDevice, construct_device.
    rewrite (M_bind_run _ _ s0 n s0) by (unfold lift; by rewrite En). done. }
  exists (set_main_file_device d (built (built (set_world w s)))), n. split_and!.
  - unfold Initialize. rewrite (M_bind_run _ _ s (Some d) (set_world w s)) by (unfold outside; by rewrite Hnew). steps.
    by rewrite !(M_bind_run _ _ _ _ _ (Econ _)).
  - done.
  - cbn. by rewrite lookup_insert_eq.
  - done.
  - rewrite (device_try_load LoadFileImpl _ [] (fun _ => []) fuel c path t); [done| |cbn; lia|done..].
    split; [|set_solver]. cbn. rewrite <- HL.
    apply (family_ConstructNode _ L (DeviceNode d)); [by apply family_ConstructNode|done..].
Qed.
End device_manager.

(** * Resource factories *)
Section factory_manager.
Import Resources FixedString PathUtil.
Import FileDevice(FileLoadContext, file_path, out_file, buffer_size).
Context {CS W : Type} `{!HeapLock CS}.
Implicit Types (s : Managers CS W) (f : Z) (Fs : list Z).

(** The critical section is free: entering and leaving it are possible, and leave it as it was. *)
Definition lock_free s : Prop := exists c, heap_cs_Enter (m_list_cs s) = Ok c /\ heap_cs_Leave c = Ok (m_list_cs s).

Lemma with_list_cs_run {A} (body : M (Managers CS W) A) s r (change : Managers CS W -> Managers CS W) :
  lock_free s -> (forall c, body (set_list_cs c s) = Ok (r, set_list_cs c (change s))) ->
  m_list_cs (change s) = m_list_cs s -> with_list_cs body s = Ok (r, change s).
Proof.
  intros (c & He & Hl) Hb Hc. unfold with_list_cs. steps.
  rewrite (M_bind_run _ _ s c s) by (unfold lift; by rewrite He). steps. rewrite (M_bind_run _ _ _ _ _ (Hb c)). steps.
  rewrite (M_bind_run _ _ (set_list_cs c (change s)) (m_list_cs s) (set_list_cs c (change s))) by (unfold lift; cbn; by rewrite Hl).
  steps. rewrite <- Hc. unfold set_list_cs. cbn. by destruct (change s).
Qed.

(** The factories that are registered, in order, and their extensions. *)
Record registered s (L : ResourceNode -> list ResourceNode) Fs (ext : Z -> list Z) : Prop := {
  re_family : family (links s) L;
  re_head : loose L FactoryHead;
  re_list : L FactoryHead = FactoryNode <$> Fs;
  re_extension : forall f, f ∈ Fs -> exists e, m_file_extension s !! f = Some (Some e) /\ terminated e (ext f)
}.

Lemma FindResourceFactory_run s L Fs ext fuel a t :
  registered s L Fs ext -> lock_free s -> (length Fs < fuel)%nat -> terminated a t ->
  FindResourceFactory fuel a s = Ok (List.find (fun f => bool_decide (ext f = t)) Fs, s).
Proof.
  intros HR Hlock Hf Ha. apply (with_list_cs_run _ s _ id Hlock); [|done]. intros c. cbn [id].
  rewrite (for_each_search FactoryNode (fun f => bool_decide (ext f = t)) id _ fuel FactoryHead Fs);
    [by destruct (List.find _ _)| |lia|].
  - cbn. rewrite <- (re_list _ _ _ _ HR). apply (re_family _ _ _ _ HR), HR.
  - intros f Hin. unfold factory_of. steps. destruct (re_extension _ _ _ _ HR f Hin) as (e & E & He).
    unfold extension_of. rewrite M_bind_assoc. unfold mbind at 1, M_bind at 1, get. cbn [m_file_extension set_list_cs].
    rewrite E. steps. destruct (strcmp_run _ _ _ _ He Ha) as (r & Er & Hr).
    unfold lift, mbind, M_bind. rewrite Er. by rewrite Hr.
Qed.

(** The factory manager keeps the factories in the order of their registration: Register appends one that
    has an extension, Remove takes one out wherever it stands, and Find gives the one registered first among
    those with the wanted extension, null when there is none. *)
Theorem factory_registry s L l1 l2 f ext e fuel a t :
  registered s L (l1 ++ f :: l2) ext -> lock_free s -> (length (l1 ++ f :: l2) < fuel)%nat -> terminated a t ->
  (forall g, loose L (FactoryNode g) -> L (FactoryNode g) = [] -> m_file_extension s !! g = Some (Some e) ->
    terminated e (ext g) ->
    exists s' L', RegisterResourceFactory g s = Ok (tt, s') /\ registered s' L' ((l1 ++ f :: l2) ++ [g]) ext) /\
  (exists s' L', RemoveResourceFactory f s = Ok (tt, s') /\ registered s' L' (l1 ++ l2) ext) /\
  FindResourceFactory fuel a s = Ok (List.find (fun f => bool_decide (ext f = t)) (l1 ++ f :: l2), s).
Proof.
  intros HR Hlock Hf Ha. pose proof (re_list _ _ _ _ HR) as HL. pose proof (re_family _ _ _ _ HR) as HF.
  pose proof (re_head _ _ _ _ HR) as Hh. split_and!; [| |by eapply FindResourceFactory_run].
  - intros g Hg Eg Eext He. exists (set_links (PushBack FactoryHead (FactoryNode g) (links s)) s).
    exists (<[FactoryHead := L FactoryHead ++ [FactoryNode g]]> L). split.
    + unfold RegisterResourceFactory, extension_of. rewrite M_bind_assoc. unfold mbind at 1, M_bind at 1, get. rewrite Eext. steps.
      rewrite bool_decide_true by (by eexists).
      apply (with_list_cs_run _ s _ (fun s => set_links (PushBack FactoryHead (FactoryNode g) (links s)) s) Hlock); done.
    + split; [by apply family_PushBack| | |].
      * apply loose_insert; [done|]. rewrite HL. intros [Hin|Hin]%elem_of_app; [|set_solver].
        apply list_elem_of_fmap in Hin as (? & ? & _). done.
      * by rewrite fn_lookup_insert, HL, (fmap_app _ (l1 ++ f :: l2)).
      * intros x [Hx| ->%list_elem_of_singleton]%elem_of_app; [by apply HR|by exists e].
  - rewrite fmap_app, fmap_cons in HL. exists (set_links (Unlink (FactoryNode f) (links s)) s).
    exists (<[FactoryHead := (FactoryNode <$> l1) ++ (FactoryNode <$> l2)]> L). split.
    + apply (with_list_cs_run _ s _ (fun s => set_links (Unlink (FactoryNode f) (links s)) s) Hlock); done.
    + split; [by apply family_Unlink| | |].
      * apply loose_insert; [done|]. intros [(? & ? & _)%list_elem_of_fmap|(? & ? & _)%list_elem_of_fmap]%elem_of_app; done.
      * by rewrite fn_lookup_insert, fmap_app.
      * intros x Hx. apply HR. set_solver.
Qed.

(** What a factory does with a request: without memory for the resource it answers
    ResultResourceAllocationFailed and loads nothing; when the device fails, its result is passed on and the
    resource, which nothing refers to any more, is not initialised; otherwise the resource is initialised with
    what the device has put into the context, the size cut to 32 bits. The caller never gets the resource. *)
Theorem factory_try_load LoadFileImpl Alloc Align Init b fuel f rf d c s align w1 r w2 :
  Align f (world s) = Ok (align, w1) ->
  Alloc f (FileDevice.heap c) (s32 align) w1 = Ok (r, w2) ->
  let arg := mkResourceLoadContext rf (Some d) c in
  factory_TryLoad LoadFileImpl Alloc Align Init b fuel f arg s =
    match r with
    | None => Ok ((res.ResultResourceAllocationFailed, arg), set_world w2 s)
    | Some x =>
        match LoadFileImpl d c w2 with
        | Fault e => Fault e
        | Ok ((result, c'), w3) =>
            if result =? ResultSuccess then
              match Init x (FileDevice.heap c') (out_file c') (u32 (buffer_size c')) w3 with
              | Fault e => Fault e
              | Ok (_, w4) => Ok ((ResultSuccess, mkResourceLoadContext rf (Some d) c'), set_world w4 s)
              end
            else Ok ((result, mkResourceLoadContext rf (Some d) c'), set_world w3 s)
        end
    end.
Proof.
  intros Ha Hr arg. unfold factory_TryLoad. rewrite (M_bind_run _ _ s align (set_world w1 s)) by (unfold outside; by rewrite Ha).
  rewrite (M_bind_run _ _ _ r (set_world w2 s)) by (unfold outside; cbn; by rewrite Hr).
  destruct r as [x|]; [|done]. cbn [arg file_device file_load_context]. unfold device_TryLoadFile, outside, mbind, M_bind.
  cbn [world set_world]. destruct (LoadFileImpl d c w2) as [[[result c'] w3]|e]; [|done].
  destruct (result =? ResultSuccess); [|done]. cbn. by destruct (Init _ _ _ _ _) as [[? ?]|?].
Qed.

(** What TryLoad takes for the extension of a path: its directory. *)
Lemma extension_run path t : terminated path t -> (0 < length t < 256)%nat ->
  exists v, GetExtensionFromPath false (Some (construct MaxPath)) (Some path) = Ok (Some v) /\
    terminated (m_string_array v) (take (last_index is_delimiter t (length t)) t).
Proof.
  intros Ht Hl. pose proof (terminated_length _ _ Ht) as Hp. unfold GetExtensionFromPath.
  rewrite (on_string_run _ _ _ _ _ Ht) by lia. unfold extension_from.
  rewrite FindDirectoryDelimiter_run, (last_index_terminated _ _ _ _ Ht) by (done || lia).
  pose proof (last_index_le is_delimiter t (length t)) as Hle. set (r := last_index is_delimiter t (length t)) in *.
  cbn [mbind res_bind]. destruct (cut_run 256 256 (construct MaxPath) (construct MaxPath) path t r Ht Hle) as [E _];
    [lia|lia|done|done|].
  change MaxPath with (Z.of_nat 256) in E |- *. rewrite E. cbn [mbind res_bind]. eexists. split; [done|]. cbn [m_string_array].
  destruct Ht as [Htext _]. split; [by apply text_take|].
  change (<[(256 - 1)%nat := 0]> (m_string_array (construct (Z.of_nat 256)))) with (replicate 256 0).
  rewrite drop_replicate. exists (replicate (255 - r) 0). f_equal. replace (256 - r)%nat with (S (255 - r)) by lia. done.
Qed.

(** A request without a factory is given to the factory whose extension is the directory of the path, not
    its extension, for GetExtensionFromPath cuts the directory; when no factory is registered under that
    name, a virtual function of a null pointer is called. *)
Theorem resource_extension_is_directory LoadFileImpl Alloc Align Init b s L Fs ext fuel d c path t :
  registered s L Fs ext -> lock_free s -> (length Fs < fuel)%nat ->
  file_path c = Some path -> terminated path t -> (0 < length t < 256)%nat ->
  let directory := take (last_index is_delimiter t (length t)) t in
  let arg := mkResourceLoadContext None d c in
  TryLoad LoadFileImpl Alloc Align Init b fuel arg s =
    match List.find (fun f => bool_decide (ext f = directory)) Fs with
    | Some f => ('(result, arg) ← factory_TryLoad LoadFileImpl Alloc Align Init b fuel f arg;
                 dd_assert (result =? ResultSuccess);; mret arg) s
    | None => Fault NullDeref
    end.
Proof.
  intros HR Hlock Hf Hc Ht Hl directory arg. unfold TryLoad. cbn [arg resource_factory file_load_context]. rewrite Hc.
  destruct (extension_run path t Ht Hl) as (v & Ev & Hv).
  rewrite M_bind_assoc, (M_bind_run _ _ s (Some v) s) by (unfold lift; by rewrite Ev). rewrite M_bind_assoc. steps.
  rewrite (M_bind_run _ _ _ _ _ (FindResourceFactory_run s L Fs ext fuel _ _ HR Hlock Hf Hv)). fold directory.
  by destruct (List.find _ Fs).
Qed.
End factory_manager.

(** * Examples: a device of the drive d, and two factories, for the extensions t and d:/a *)
Section example.
Import Resources FixedString PathUtil.
Import FileDevice(FileLoadContext, mkFileLoadContext).
#[local] Existing Instance no_lock.

Definition device_d : FixedString := mkFixedString (100 :: replicate 31 0) (Some 1).
Definition example_context : FileLoadContext := mkFileLoadContext 0 9 (Some example_path) 0 1 8 false.
(** The world counts the calls. *)
Definition example_load (d : Z) (c : FileLoadContext) : M Z (Z * FileLoadContext) := fun w => Ok ((ResultSuccess, c), w + 1).
Definition example_alloc (f h a : Z) : M Z (option Z) := mret (Some 500).
Definition example_new (n h a : Z) : M Z (option Z) := mret (Some 600).
Definition example_align (f : Z) : M Z Z := mret 4.
Definition example_init (r h f n : Z) : M Z unit := fun w => Ok (tt, w + 100).

Definition empty_managers : Managers unit Z :=
  mkManagers None {[ 7 := device_d ]} tt {[ 20 := Some [116; 0]; 21 := Some [100; 58; 47; 97; 0] ]} ∅ 0.
Definition example_managers : Managers unit Z :=
  set_links (PushBack FactoryHead (FactoryNode 21) (PushBack FactoryHead (FactoryNode 20) ∅)) empty_managers.
Definition example_extension (f : Z) : list Z := if f =? 20 then [116] else [100; 58; 47; 97].

Lemma no_nodes_loose (n : ResourceNode) : loose (fun _ => []) n.
Proof. intros h Hin. by apply not_elem_of_nil in Hin. Qed.

Lemma device_d_terminated : terminated (m_string_array device_d) [100].
Proof. split; [by repeat constructor|]. by exists (replicate 30 0). Qed.

Lemma example_mounted : mounted (set_links (PushBack DeviceHead (DeviceNode 7) ∅) empty_managers) [7] (fun _ => [100]).
Proof.
  split.
  - pose proof (family_PushBack ∅ _ DeviceHead (DeviceNode 7) family_empty (no_nodes_loose _) (no_nodes_loose _) eq_refl
      ltac:(done)) as HF.
    apply (family_list _ _ HF DeviceHead). apply loose_insert; [apply no_nodes_loose|set_solver].
  - intros d ->%list_elem_of_singleton. exists device_d. split; [done|exact device_d_terminated].
Qed.

Lemma example_registered : exists L, registered example_managers L [20; 21] example_extension.
Proof.
  pose proof (family_PushBack ∅ _ FactoryHead (FactoryNode 20) family_empty (no_nodes_loose _) (no_nodes_loose _) eq_refl
    ltac:(done)) as H1.
  pose proof (family_PushBack _ _ FactoryHead (FactoryNode 21) H1
    ltac:(apply loose_insert; [apply no_nodes_loose|set_solver]) ltac:(apply loose_insert; [apply no_nodes_loose|set_solver])
    eq_refl ltac:(done)) as H2.
  eexists. split; [exact H2| | |].
  - repeat apply loose_insert; [apply no_nodes_loose|set_solver..].
  - done.
  - intros f [->|[->|[]%not_elem_of_nil]%elem_of_cons]%elem_of_cons; eexists; (split; [done|]);
      (split; [by repeat constructor|by exists []]).
Qed.

Lemma example_lock_free : lock_free example_managers.
Proof. by exists tt. Qed.

Lemma device_lookup_witness : exists s',
  AddFileDevice (Some 7) empty_managers = Ok (tt, s') /\ GetFileDeviceByName 3 [100; 0] s' = Ok (Some 7, s').
Proof.
  destruct (device_lookup empty_managers [] (fun _ => []) (fun _ => [100]) 7 3 [100; 0] [100] family_empty eq_refl
    (no_nodes_loose _) (no_nodes_loose _) eq_refl) as (_ & s' & E1 & _ & E2).
  - intros x ->%list_elem_of_singleton. exists device_d. split; [done|exact device_d_terminated].
  - split; [by repeat constructor|by exists []].
  - cbn. lia.
  - exists s'. split; [exact E1|exact E2].
Defined.

Lemma device_try_load_witness :
  let s := set_links (PushBack DeviceHead (DeviceNode 7) ∅) empty_managers in
  TryLoadFile example_load 2 example_context s = Ok ((ResultSuccess, example_context), set_world 1 s).
Proof.
  intros s. exact (device_try_load example_load s [7] (fun _ => [100]) 2 example_context example_path example_text example_mounted
    ltac:(cbn; lia) eq_refl example_terminated ltac:(cbn; lia) ltac:(by apply (bool_decide_unpack _); vm_compute)).
Defined.

Lemma initialize_mounts_nothing_witness : exists s',
  Initialize example_new 64 8 9 empty_managers = Ok (tt, s') /\
  TryLoadFile example_load 2 example_context s' = Fault NullDeref.
Proof.
  destruct (initialize_mounts_nothing example_new example_load empty_managers (fun _ => []) 64 8 9 600 0 2
    example_context example_path example_text family_empty eq_refl (no_nodes_loose _) (no_nodes_loose _) eq_refl eq_refl
    ltac:(lia) eq_refl example_terminated ltac:(cbn; lia) ltac:(by apply (bool_decide_unpack _); vm_compute))
    as (s' & n & E & _ & _ & _ & EL).
  by exists s'.
Defined.

Lemma factory_registry_witness : exists s' L',
  RemoveResourceFactory 20 example_managers = Ok (tt, s') /\ registered s' L' [21] example_extension /\
  FindResourceFactory 3 [116; 0] example_managers = Ok (Some 20, example_managers).
Proof.
  destruct example_registered as [L HR].
  destruct (factory_registry example_managers L [] [21] 20 example_extension [116; 0] 3 [116; 0] [116] HR example_lock_free
    ltac:(cbn; lia) ltac:(split; [by repeat constructor|by exists []])) as (_ & (s' & L' & E1 & HR') & E2).
  exists s', L'. split; [exact E1|]. split; [exact HR'|exact E2].
Defined.

Lemma factory_try_load_witness :
  let arg := mkResourceLoadContext None (Some 7) example_context in
  factory_TryLoad example_load example_alloc example_align example_init false 2 20 arg example_managers =
    Ok ((ResultSuccess, arg), set_world 101 example_managers).
Proof.
  exact (factory_try_load example_load example_alloc example_align example_init false 2 20 None 7 example_context
    example_managers 4 0 (Some 500) 0 eq_refl eq_refl).
Defined.

(** The file "d:/a/b.t" has the extension "t", and is given to the factory for "d:/a". *)
Lemma resource_extension_is_directory_witness :
  let arg := mkResourceLoadContext None (Some 7) example_context in
  TryLoad example_load example_alloc example_align example_init false 3 arg example_managers =
    ('(result, arg) ← factory_TryLoad example_load example_alloc example_align example_init false 3 21 arg;
     dd_assert (result =? ResultSuccess);; mret arg) example_managers.
Proof.
  destruct example_registered as [L HR].
  exact (resource_extension_is_directory example_load example_alloc example_align example_init false example_managers L
    [20; 21] example_extension 3 (Some 7) example_context example_path example_text HR example_lock_free ltac:(cbn; lia) eq_refl
    example_terminated ltac:(cbn; lia)).
Defined.
End example.
