(* ===== verification/Hid.v ===== *)
(** Human interface devices (hid_rawinput.h, hid_rawinput.cpp, hid_thread.cpp): the state of the keys and of the
    mouse, what the raw input of Windows does to it, and what a frame shows of it.

    A KeyState is its array of four words.  The raw input, the screen size, the position of the cursor and the
    lists of devices are what Windows answers: arguments of the definitions. *)
From stdpp Require Import strings.
From S2P Require Import Prelude ExpHeap Float32.

Module Hid.

(** ** KeyState *)
Local Open Scope string_scope.
(** VirtualKey_ names and codes. *)
Definition VirtualKey : list (string * Z) := [
  ("LButton", 0x01); ("RButton", 0x02); ("Cancel", 0x03); ("MButton", 0x04); ("XButton1", 0x05);
  ("XButton2", 0x06); ("Backspace", 0x08); ("Tab", 0x09); ("Clear", 0x0C); ("Enter", 0x0D); ("Shift", 0x10);
  ("Ctrl", 0x11); ("Alt", 0x12); ("Pause", 0x13); ("CapsLock", 0x14); ("KanaMode", 0x15);
  ("HanguelMode", 0x15); ("HangulMode", 0x15); ("IMEOn", 0x16); ("JunjaMode", 0x17); ("FinalMode", 0x18);
  ("KanjiMode", 0x19); ("IMEOff", 0x1A); ("Escape", 0x1B); ("Convert", 0x1C); ("NonConvert", 0x1D);
  ("Accept", 0x1E); ("ModeChange", 0x1F); ("Space", 0x20); ("PageUp", 0x21); ("PageDown", 0x22); ("End", 0x23);
  ("Home", 0x24); ("Left", 0x25); ("Up", 0x26); ("Right", 0x27); ("Down", 0x28); ("Select", 0x29);
  ("Print", 0x2A); ("Execute", 0x2B); ("PrintScreen", 0x2C); ("Insert", 0x2D); ("Delete", 0x2E);
  ("Help", 0x2F); ("0", 0x30); ("1", 0x31); ("2", 0x32); ("3", 0x33); ("4", 0x34); ("5", 0x35); ("6", 0x36);
  ("7", 0x37); ("8", 0x38); ("9", 0x39); ("A", 0x41); ("B", 0x42); ("C", 0x43); ("D", 0x44); ("E", 0x45);
  ("F", 0x46); ("G", 0x47); ("H", 0x48); ("I", 0x49); ("J", 0x4A); ("K", 0x4B); ("L", 0x4C); ("M", 0x4D);
  ("N", 0x4E); ("O", 0x4F); ("P", 0x50); ("Q", 0x51); ("R", 0x52); ("S", 0x53); ("T", 0x54); ("U", 0x55);
  ("V", 0x56); ("W", 0x57); ("X", 0x58); ("Y", 0x59); ("Z", 0x5A); ("LeftWin", 0x5B); ("RightWin", 0x5C);
  ("Apps", 0x5D); ("Sleep", 0x5F); ("Numpad0", 0x60); ("Numpad1", 0x61); ("Numpad2", 0x62); ("Numpad3", 0x63);
  ("Numpad4", 0x64); ("Numpad5", 0x65); ("Numpad6", 0x66); ("Numpad7", 0x67); ("Numpad8", 0x68);
  ("Numpad9", 0x69); ("Multiply", 0x6A); ("Add", 0x6B); ("Seperator", 0x6C); ("Subtract", 0x6D);
  ("Decimal", 0x6E); ("Divide", 0x6F); ("F1", 0x70); ("F2", 0x71); ("F3", 0x72); ("F4", 0x73); ("F5", 0x74);
  ("F6", 0x75); ("F7", 0x76); ("F8", 0x77); ("F9", 0x78); ("F10", 0x79); ("F11", 0x7A); ("F12", 0x7B);
  ("F13", 0x7C); ("F14", 0x7D); ("F15", 0x7E); ("F16", 0x7F); ("F17", 0x80); ("F18", 0x81); ("F19", 0x82);
  ("F20", 0x83); ("F21", 0x84); ("F22", 0x85); ("F23", 0x86); ("F24", 0x87); ("NumLock", 0x90);
  ("ScrollLock", 0x91); ("LeftShift", 0xA0); ("RightShift", 0xA1); ("LeftControl", 0xA2);
  ("RightControl", 0xA3); ("LeftMenu", 0xA4); ("RightMenu", 0xA5); ("BrowserBack", 0xA6);
  ("BrowserForward", 0xA7); ("BrowserRefresh", 0xA8); ("BrowserStop", 0xA9); ("BrowserSearch", 0xAA);
  ("BrowserFavorites", 0xAB); ("BrowserHome", 0xAC); ("VolumeMute", 0xAD); ("VolumeDown", 0xAE);
  ("VolumeUp", 0xAF); ("MediaNext", 0xB0); ("MediaPrev", 0xB1); ("MediaStop", 0xB2); ("MediaPlayPause", 0xB3);
  ("LaunchMail", 0xB4); ("LaunchMedia", 0xB5); ("LaunchApp1", 0xB6); ("LaunchApp2", 0xB7); ("Oem1", 0xBA);
  ("OemPlus", 0xBB); ("OemComma", 0xBC); ("OemMinus", 0xBD); ("OemPeriod", 0xBE); ("Oem2", 0xBF);
  ("Oem3", 0xC0); ("Oem4", 0xDB); ("Oem5", 0xDC); ("Oem6", 0xDD); ("Oem7", 0xDE); ("Oem8", 0xDF);
  ("Oem102", 0xE2); ("ProcessKey", 0xE5); ("Packet", 0xE7); ("Attn", 0xF6); ("CrSel", 0xF7); ("ExSel", 0xF8);
  ("EraseEof", 0xF9); ("Play", 0xFA); ("Zoom", 0xFB); ("NoName", 0xFC); ("Pa1", 0xFD); ("OemClear", 0xFE)].
(** The bit-fields of the union: the name, the width, and the key code that the comment gives. *)
Definition KeyState_fields : list (string * Z * Z) := [
  ("reserve17", 1, 0x00); ("vk_lbutton", 1, 0x01); ("vk_rbutton", 1, 0x02); ("vk_cancel", 1, 0x03);
  ("vk_mbutton", 1, 0x04); ("vk_xbutton1", 1, 0x05); ("vk_xbutton2", 1, 0x06); ("reserve0", 1, 0x07);
  ("vk_backspace", 1, 0x08); ("vk_tab", 1, 0x09); ("reserve1", 2, 0x0A); ("vk_clear", 1, 0x0C);
  ("vk_enter", 1, 0x0D); ("reserve2", 2, 0x0E); ("vk_shift", 1, 0x10); ("vk_ctrl", 1, 0x11);
  ("vk_alt", 1, 0x12); ("vk_pause", 1, 0x13); ("vk_caps_lock", 1, 0x14); ("vk_kana_mode", 1, 0x15);
  ("vk_ime_enable", 1, 0x16); ("vk_junja_mode", 1, 0x17); ("vk_final_mode", 1, 0x18);
  ("vk_kanji_mode", 1, 0x19); ("vk_ime_disable", 1, 0x1A); ("vk_esc", 1, 0x1B); ("vk_convert", 1, 0x1C);
  ("vk_nonconvert", 1, 0x1D); ("vk_accept", 1, 0x1E); ("vk_mode_change", 1, 0x1F); ("vk_space", 1, 0x20);
  ("vk_page_up", 1, 0x21); ("vk_page_down", 1, 0x22); ("vk_end", 1, 0x23); ("vk_home", 1, 0x24);
  ("vk_left", 1, 0x25); ("vk_up", 1, 0x26); ("vk_right", 1, 0x27); ("vk_down", 1, 0x28);
  ("vk_select", 1, 0x29); ("vk_print", 1, 0x2A); ("vk_execute", 1, 0x2B); ("vk_print_screen", 1, 0x2C);
  ("vk_insert", 1, 0x2D); ("vk_delete", 1, 0x2E); ("vk_help", 1, 0x2F); ("vk_0", 1, 0x30); ("vk_1", 1, 0x31);
  ("vk_2", 1, 0x32); ("vk_3", 1, 0x33); ("vk_4", 1, 0x34); ("vk_5", 1, 0x35); ("vk_6", 1, 0x36);
  ("vk_7", 1, 0x37); ("vk_8", 1, 0x38); ("vk_9", 1, 0x39); ("reserve3", 6, 0x3A); ("vk_a", 1, 0x41);
  ("vk_b", 1, 0x42); ("vk_c", 1, 0x43); ("vk_d", 1, 0x44); ("vk_e", 1, 0x45); ("vk_f", 1, 0x46);
  ("vk_g", 1, 0x47); ("vk_h", 1, 0x48); ("vk_i", 1, 0x49); ("vk_j", 1, 0x4A); ("vk_k", 1, 0x4B);
  ("vk_l", 1, 0x4C); ("vk_m", 1, 0x4D); ("vk_n", 1, 0x4E); ("vk_o", 1, 0x4F); ("vk_p", 1, 0x50);
  ("vk_q", 1, 0x51); ("vk_r", 1, 0x52); ("vk_s", 1, 0x53); ("vk_t", 1, 0x54); ("vk_u", 1, 0x55);
  ("vk_v", 1, 0x56); ("vk_w", 1, 0x57); ("vk_x", 1, 0x58); ("vk_y", 1, 0x59); ("vk_z", 1, 0x5A);
  ("vk_lwin", 1, 0x5B); ("vk_rwin", 1, 0x5C); ("vk_apps", 1, 0x5D); ("reserve4", 1, 0x5E);
  ("vk_sleep", 1, 0x5F); ("vk_numpad_0", 1, 0x60); ("vk_numpad_1", 1, 0x61); ("vk_numpad_2", 1, 0x62);
  ("vk_numpad_3", 1, 0x63); ("vk_numpad_4", 1, 0x64); ("vk_numpad_5", 1, 0x65); ("vk_numpad_6", 1, 0x66);
  ("vk_numpad_7", 1, 0x67); ("vk_numpad_8", 1, 0x68); ("vk_numpad_9", 1, 0x69); ("vk_multiply", 1, 0x6A);
  ("vk_add", 1, 0x6B); ("vk_seperator", 1, 0x6C); ("vk_subtract", 1, 0x6D); ("vk_decimal", 1, 0x6E);
  ("vk_divide", 1, 0x6F); ("vk_f1", 1, 0x70); ("vk_f2", 1, 0x71); ("vk_f3", 1, 0x72); ("vk_f4", 1, 0x73);
  ("vk_f5", 1, 0x74); ("vk_f6", 1, 0x75); ("vk_f7", 1, 0x76); ("vk_f8", 1, 0x77); ("vk_f9", 1, 0x78);
  ("vk_f10", 1, 0x79); ("vk_f11", 1, 0x7A); ("vk_f12", 1, 0x7B); ("vk_f13", 1, 0x7C); ("vk_f14", 1, 0x7D);
  ("vk_f15", 1, 0x7E); ("vk_f16", 1, 0x7F); ("vk_f17", 1, 0x80); ("vk_f18", 1, 0x81); ("vk_f19", 1, 0x82);
  ("vk_f20", 1, 0x83); ("vk_f21", 1, 0x84); ("vk_f22", 1, 0x85); ("vk_f23", 1, 0x86); ("vk_f24", 1, 0x87);
  ("reserve5", 7, 0x88); ("vk_num_lock", 1, 0x90); ("vk_scroll_lock", 1, 0x91); ("vk_oem_specific", 4, 0x92);
  ("reserve6", 8, 0x97); ("vk_lshift", 1, 0xA0); ("vk_rshift", 1, 0xA1); ("vk_lcontrol", 1, 0xA2);
  ("vk_rcontrol", 1, 0xA3); ("vk_lmenu", 1, 0xA4); ("vk_rmenu", 1, 0xA5); ("vk_browser_back", 1, 0xA6);
  ("vk_browser_forward", 1, 0xA7); ("vk_browser_refresh", 1, 0xA8); ("vk_browser_stop", 1, 0xA9);
  ("vk_browser_search", 1, 0xAA); ("vk_browser_favorites", 1, 0xAB); ("vk_browser_home", 1, 0xAC);
  ("vk_volume_mute", 1, 0xAD); ("vk_volume_down", 1, 0xAE); ("vk_volume_up", 1, 0xAF);
  ("vk_media_next", 1, 0xB0); ("vk_media_prev", 1, 0xB1); ("vk_media_stop", 1, 0xB2);
  ("vk_media_play_pause", 1, 0xB3); ("vk_launch_mail", 1, 0xB4); ("vk_launch_media", 1, 0xB5);
  ("vk_launch_app1", 1, 0xB6); ("vk_launch_app2", 1, 0xB7); ("reserve7", 2, 0xB8); ("vk_oem_1", 1, 0xBA);
  ("vk_oem_plus", 1, 0xBB); ("vk_oem_comma", 1, 0xBC); ("vk_oem_minus", 1, 0xBD); ("vk_oem_period", 1, 0xBE);
  ("vk_oem_2", 1, 0xBF); ("vk_oem_3", 1, 0xC0); ("reserve8", 16, 0xC1); ("reserve9", 2, 0xD8);
  ("vk_oem_4", 1, 0xDB); ("vk_oem_5", 1, 0xDC); ("vk_oem_6", 1, 0xDD); ("vk_oem_7", 1, 0xDE);
  ("vk_oem_8", 1, 0xDF); ("reserve10", 1, 0xE0); ("reserve11", 1, 0xE1); ("vk_oem_102", 1, 0xE2);
  ("reserve12", 2, 0xE3); ("vk_process_key", 1, 0xE5); ("reserve13", 1, 0xE6); ("vk_packet", 1, 0xE7);
  ("reserve14", 1, 0xE8); ("reserve15", 12, 0xE9); ("vk_attn", 1, 0xF6); ("vk_crsel", 1, 0xF7);
  ("vk_exsel", 1, 0xF8); ("vk_erase_eof", 1, 0xF9); ("vk_play", 1, 0xFA); ("vk_zoom", 1, 0xFB);
  ("vk_noname", 1, 0xFC); ("vk_pa1", 1, 0xFD); ("vk_oem_clear", 1, 0xFE); ("reserve16", 1, 0xFF)].
Local Close Scope string_scope.

Definition KeyState : Type := list Z.   (* state_array *)
Definition KeyState_zero : KeyState := [0; 0; 0; 0].

Definition KeyState_or (lhs rhs : KeyState) : KeyState := zip_with Z.lor lhs rhs.
Definition KeyState_and (lhs rhs : KeyState) : KeyState := zip_with Z.land lhs rhs.
Definition KeyState_not (k : KeyState) : KeyState := (fun x => u64 (Z.lnot x)) <$> k.

(** [1 << (vk_code % 64)] is a shift of an int: 31 gives the sign bit, more is undefined. *)
Definition key_pos (vk_code : Z) : res Z :=
  let n := vk_code mod 64 in
  if 32 <=? n then Fault BadShift else Ok (u64 (s32 (Z.shiftl 1 n))).

Definition GetKeyState (k : KeyState) (vk_code : Z) : res bool :=
  let index := Z.shiftr vk_code 6 in
  key_pos ← key_pos vk_code; x ← arr_get k index; Ok (Z.land x key_pos =? key_pos).
Definition SetKeyState (k : KeyState) (vk_code : Z) : res KeyState :=
  let index := Z.shiftr vk_code 6 in
  key_pos ← key_pos vk_code; x ← arr_get k index; arr_set k index (Z.lor x key_pos).
Definition ClearKeyState (k : KeyState) (vk_code : Z) : res KeyState :=
  let index := Z.shiftr vk_code 6 in
  key_pos ← key_pos vk_code; x ← arr_get k index; arr_set k index (Z.land x (u64 (Z.lnot key_pos))).

Record KeyboardState := mkKeyboardState { pressed_keys : KeyState; held_keys : KeyState; released_keys : KeyState }.
Definition IsKeyPressed (k : KeyboardState) (vk : Z) : res bool := GetKeyState (pressed_keys k) vk.
Definition IsKeyHeld (k : KeyboardState) (vk : Z) : res bool := GetKeyState (held_keys k) vk.
Definition IsKeyUp (k : KeyboardState) (vk : Z) : res bool := GetKeyState (released_keys k) vk.

(** ** MouseState *)
Definition MouseButton_Left : Z := 0x01.
Definition MouseButton_Right : Z := 0x04.
Definition MouseButton_Middle : Z := 0x10.
Definition MouseButton_X1 : Z := 0x40.
Definition MouseButton_X2 : Z := 0x100.
Definition ButtonDownMask : Z :=
  Z.lor (Z.lor (Z.lor (Z.lor MouseButton_Left MouseButton_Right) MouseButton_Middle) MouseButton_X1) MouseButton_X2.
Definition ButtonUpMask : Z := Z.shiftl ButtonDownMask 1.

Record MouseState := mkMouseState {
  absolute_x : Z; absolute_y : Z; delta_x : Z; delta_y : Z; delta_vwheel : Z; delta_hwheel : Z;
  button_state : Z; button_held : Z
}.
Definition MouseState_zero : MouseState := mkMouseState 0 0 0 0 0 0 0 0.
Definition set_absolute x y m := mkMouseState x y (delta_x m) (delta_y m) (delta_vwheel m) (delta_hwheel m) (button_state m) (button_held m).
Definition set_delta x y m := mkMouseState (absolute_x m) (absolute_y m) x y (delta_vwheel m) (delta_hwheel m) (button_state m) (button_held m).
Definition set_vwheel d m := mkMouseState (absolute_x m) (absolute_y m) (delta_x m) (delta_y m) d (delta_hwheel m) (button_state m) (button_held m).
Definition set_hwheel d m := mkMouseState (absolute_x m) (absolute_y m) (delta_x m) (delta_y m) (delta_vwheel m) d (button_state m) (button_held m).
Definition set_button_held b m := mkMouseState (absolute_x m) (absolute_y m) (delta_x m) (delta_y m) (delta_vwheel m) (delta_hwheel m) (button_state m) b.

Definition GetButtonDown (m : MouseState) (mouse_button : Z) : bool := negb (Z.land (button_state m) mouse_button =? 0).
Definition GetButtonHeld (m : MouseState) (mouse_button : Z) : bool := negb (Z.land (button_held m) mouse_button =? 0).
Definition GetButtonUp (m : MouseState) (mouse_button : Z) : bool := negb (Z.land (button_state m) (Z.shiftl mouse_button 1) =? 0).

(** ** The structures and constants of Windows that are used *)
Record RAWMOUSE := mkRAWMOUSE { usFlags : Z; usButtonFlags : Z; usButtonData : Z; lLastX : Z; lLastY : Z }.
Record RAWKEYBOARD := mkRAWKEYBOARD { Flags : Z; VKey : Z }.
Definition MOUSE_MOVE_RELATIVE : Z := 0.
Definition MOUSE_MOVE_ABSOLUTE : Z := 1.
Definition MOUSE_VIRTUAL_DESKTOP : Z := 2.
Definition RI_MOUSE_WHEEL : Z := 0x0400.
Definition RI_MOUSE_HWHEEL : Z := 0x0800.
Definition RI_KEY_MAKE : Z := 0.
Definition RI_KEY_BREAK : Z := 1.
Definition RIM_TYPEMOUSE : Z := 0.
Definition RIM_TYPEKEYBOARD : Z := 1.
Definition SM_CXSCREEN : Z := 0.
Definition SM_CYSCREEN : Z := 1.
Definition SM_CXVIRTUALSCREEN : Z := 78.
Definition SM_CYVIRTUALSCREEN : Z := 79.
Definition sizeof_RAWINPUTHEADER : Z := 24.
Definition sizeof_RAWMOUSE : Z := 24.
Definition sizeof_RAWKEYBOARD : Z := 16.
Definition sizeof_RawData : Z := 0x100.

Section input.
Context {CS : Type} `{!HeapLock CS}.

(** The variables of hid_rawinput.cpp. *)
Record State := mkState {
  raw_mouse : RAWMOUSE; last_raw_mouse : RAWMOUSE;
  interim_mouse_state : MouseState; frame_mouse_state : MouseState;
  mouse_state_cs : CS; keyboard_state_cs : CS;
  raw_keyboard : RAWKEYBOARD; frame_keyboard_state : KeyboardState;
  pressed_state : KeyState; pressed_state_last : KeyState;
  released_state : KeyState; released_state_last : KeyState; aheld_state : KeyState
}.
Definition initial (cs : CS) : State :=
  mkState (mkRAWMOUSE 0 0 0 0 0) (mkRAWMOUSE 0 0 0 0 0) MouseState_zero MouseState_zero cs cs (mkRAWKEYBOARD 0 0)
    (mkKeyboardState KeyState_zero KeyState_zero KeyState_zero)
    KeyState_zero KeyState_zero KeyState_zero KeyState_zero KeyState_zero.

Definition set_raw_mouse m s := mkState m (last_raw_mouse s) (interim_mouse_state s) (frame_mouse_state s) (mouse_state_cs s)
  (keyboard_state_cs s) (raw_keyboard s) (frame_keyboard_state s) (pressed_state s) (pressed_state_last s) (released_state s)
  (released_state_last s) (aheld_state s).
Definition set_last_raw_mouse m s := mkState (raw_mouse s) m (interim_mouse_state s) (frame_mouse_state s) (mouse_state_cs s)
  (keyboard_state_cs s) (raw_keyboard s) (frame_keyboard_state s) (pressed_state s) (pressed_state_last s) (released_state s)
  (released_state_last s) (aheld_state s).
Definition set_mouse_states i f s := mkState (raw_mouse s) (last_raw_mouse s) i f (mouse_state_cs s)
  (keyboard_state_cs s) (raw_keyboard s) (frame_keyboard_state s) (pressed_state s) (pressed_state_last s) (released_state s)
  (released_state_last s) (aheld_state s).
Definition set_mouse_cs c s := mkState (raw_mouse s) (last_raw_mouse s) (interim_mouse_state s) (frame_mouse_state s) c
  (keyboard_state_cs s) (raw_keyboard s) (frame_keyboard_state s) (pressed_state s) (pressed_state_last s) (released_state s)
  (released_state_last s) (aheld_state s).
Definition set_keyboard_cs c s := mkState (raw_mouse s) (last_raw_mouse s) (interim_mouse_state s) (frame_mouse_state s)
  (mouse_state_cs s) c (raw_keyboard s) (frame_keyboard_state s) (pressed_state s) (pressed_state_last s) (released_state s)
  (released_state_last s) (aheld_state s).
Definition set_raw_keyboard k s := mkState (raw_mouse s) (last_raw_mouse s) (interim_mouse_state s) (frame_mouse_state s)
  (mouse_state_cs s) (keyboard_state_cs s) k (frame_keyboard_state s) (pressed_state s) (pressed_state_last s) (released_state s)
  (released_state_last s) (aheld_state s).
(** The pressed and the released keys. *)
Definition set_keys p r s := mkState (raw_mouse s) (last_raw_mouse s) (interim_mouse_state s) (frame_mouse_state s)
  (mouse_state_cs s) (keyboard_state_cs s) (raw_keyboard s) (frame_keyboard_state s) p (pressed_state_last s) r
  (released_state_last s) (aheld_state s).
(** What a frame writes of the keyboard: its state, the last pressed and released keys, the released and the held ones. *)
Definition set_keyboard_frame f pl r rl a s := mkState (raw_mouse s) (last_raw_mouse s) (interim_mouse_state s) (frame_mouse_state s)
  (mouse_state_cs s) (keyboard_state_cs s) (raw_keyboard s) f (pressed_state s) pl r rl a.

Definition with_mouse_cs {A} (body : M State A) : M State A :=
  c ← gets mouse_state_cs; c ← lift (heap_cs_Enter c); modify (set_mouse_cs c);;
  r ← body;
  c ← gets mouse_state_cs; c ← lift (heap_cs_Leave c); modify (set_mouse_cs c);;
  mret r.
Definition with_keyboard_cs {A} (body : M State A) : M State A :=
  c ← gets keyboard_state_cs; c ← lift (heap_cs_Enter c); modify (set_keyboard_cs c);;
  r ← body;
  c ← gets keyboard_state_cs; c ← lift (heap_cs_Leave c); modify (set_keyboard_cs c);;
  mret r.

(** *** SetMouseState *)
Variable GetSystemMetrics : Z -> Z.

Definition set_flag (x flag : Z) : bool := Z.land x flag =? flag.

(** The coordinate of an absolute position on a screen of [size]: in single precision. *)
Definition absolute (position size : Z) : res Z :=
  Float32.to_s32 (Float32.mul (Float32.div (Float32.of_Z position) (Float32.of_Z 65535)) (Float32.of_Z size)).

Definition moved (width height : Z) (last_mouse mouse : RAWMOUSE) (m : MouseState) : res MouseState :=
  if set_flag (usFlags last_mouse) MOUSE_MOVE_ABSOLUTE then
    x ← absolute (lLastX mouse) width;
    y ← absolute (lLastY mouse) height;
    dx ← chk32 (lLastX mouse - lLastX last_mouse); dx ← chk32 (delta_x m + dx);
    dy ← chk32 (lLastY mouse - lLastY last_mouse); dy ← chk32 (delta_y m + dy);
    Ok (set_delta dx dy (set_absolute x y m))
  else if set_flag (usFlags last_mouse) MOUSE_MOVE_RELATIVE then
    dx ← chk32 (delta_x m + lLastX mouse);
    dy ← chk32 (delta_y m + lLastY mouse);
    Ok (set_delta dx dy m)
  else Ok m.

Definition wheeled (mouse : RAWMOUSE) (m : MouseState) : res MouseState :=
  m ← (if set_flag (usButtonFlags mouse) RI_MOUSE_WHEEL then
         d ← chk32 (delta_vwheel m + usButtonData mouse); Ok (set_vwheel d m)
       else Ok m);
  if set_flag (usButtonFlags mouse) RI_MOUSE_HWHEEL then
    d ← chk32 (delta_hwheel m + usButtonData mouse); Ok (set_hwheel d m)
  else Ok m.

Definition SetMouseState : M State unit :=
  s ← get;
  let last_mouse := last_raw_mouse s in
  let mouse := raw_mouse s in
  let virtual_desktop := set_flag (usFlags last_mouse) MOUSE_VIRTUAL_DESKTOP in
  let width := GetSystemMetrics (if virtual_desktop then SM_CXVIRTUALSCREEN else SM_CXSCREEN) in
  let height := GetSystemMetrics (if virtual_desktop then SM_CYVIRTUALSCREEN else SM_CYSCREEN) in
  with_mouse_cs (
    s ← get;
    m ← lift (moved width height last_mouse mouse (interim_mouse_state s));
    m ← lift (wheeled mouse m);
    let m := set_button_held (u16 (Z.lor (button_held m) (usButtonFlags mouse))) m in
    modify (set_mouse_states m (frame_mouse_state s)));;
  modify (fun s => set_last_raw_mouse (raw_mouse s) s).

(** *** SetKeyboardState *)
Definition SetKeyboardState : M State unit :=
  with_keyboard_cs (
    s ← get;
    let key := raw_keyboard s in
    let vk := u8 (VKey key) in
    if Flags key =? RI_KEY_MAKE then
      p ← lift (SetKeyState (pressed_state s) vk);
      modify (set_keys p (released_state s))
    else if Flags key =? RI_KEY_BREAK then
      r ← lift (SetKeyState (released_state s) vk);
      p ← lift (ClearKeyState (pressed_state s) vk);
      p ← lift (ClearKeyState p vk);
      modify (set_keys p r)
    else mret tt).

(** *** BeginFrame: [cursor] is what GetCursorPos answers *)
Definition BeginFrame (cursor : option (Z * Z)) : M State unit :=
  with_mouse_cs (
    s ← get;
    let interim := interim_mouse_state s in
    let held_state := u16 (Z.land (Z.lor (button_held (frame_mouse_state s)) (Z.land (button_state interim) ButtonDownMask))
                                  (Z.lnot (Z.land (Z.shiftr (button_state interim) 1) ButtonDownMask))) in
    modify (set_mouse_states MouseState_zero interim);;
    dd_assert (bool_decide (is_Some cursor));;
    '(x, y) ← deref cursor;
    modify (set_mouse_states MouseState_zero (set_button_held held_state (set_absolute x y interim))));;
  with_keyboard_cs (
    modify (fun s =>
      let pressed := pressed_state s in let pressed_last := pressed_state_last s in
      let released := released_state s in let released_last := released_state_last s in
      set_keyboard_frame
        (mkKeyboardState (KeyState_and pressed (KeyState_not pressed_last))
           (KeyState_or pressed (KeyState_and pressed_last (KeyState_not released_last)))
           released)
        pressed KeyState_zero released
        (KeyState_or (aheld_state s) (KeyState_and pressed (KeyState_not released))) s)).

(** *** SetLastRawInput: the answers of the calls of GetRawInputData, the size that is read and the data *)
Definition SetLastRawInput (raw_header : Z * Z) (mouse_data : Z * RAWMOUSE) (keyboard_data : Z * RAWKEYBOARD) : M State unit :=
  let '(result, dwType) := raw_header in
  dd_assert (result =? sizeof_RAWINPUTHEADER);;
  if dwType =? RIM_TYPEMOUSE then
    let '(result, data) := mouse_data in
    modify (set_raw_mouse data);;
    dd_assert ((sizeof_RAWMOUSE <=? result) && (result <=? sizeof_RawData));;
    SetMouseState
  else if dwType =? RIM_TYPEKEYBOARD then
    let '(result, data) := keyboard_data in
    modify (set_raw_keyboard data);;
    dd_assert ((sizeof_RAWKEYBOARD <=? result) && (result <=? sizeof_RawData));;
    SetKeyboardState
  else mret tt.

(** The window procedure: PostQuitMessage or what DefWindowProc answers. *)
Definition WM_DESTROY : Z := 0x0002.
Definition WM_INPUT : Z := 0x00FF.
Inductive wnd_answer := PostQuitMessage | DefWindowProc.
Definition HidWndProc (message : Z) (set_last_raw_input : M State unit) : M State wnd_answer :=
  if message =? WM_DESTROY then mret PostQuitMessage
  else if message =? WM_INPUT then set_last_raw_input;; mret DefWindowProc
  else mret DefWindowProc.

Definition GetKeyboardState : M State KeyboardState := with_keyboard_cs (gets frame_keyboard_state).
Definition GetMouseState : M State MouseState := with_mouse_cs (gets frame_mouse_state).
End input.
Arguments State CS : clear implicits.

(** ** hid_thread.cpp *)
(** [result] and [info] are what GetRawInputDeviceInfo gives: the type of the device and its number of keys. *)
Definition sizeof_RID_DEVICE_INFO : Z := 32.
Definition CheckRealKeyboard (result : Z) (info : Z * Z) : bool :=
  let '(dwType, dwNumberOfKeysTotal) := info in
  if negb (result =? -1) || (u32 result <? sizeof_RID_DEVICE_INFO) || negb (dwType =? RIM_TYPEKEYBOARD) then false
  else 30 <=? dwNumberOfKeysTotal.

(** The devices of Windows, each with its type; the contents of memory nothing has been written to is [None]. *)
Section devices.
Context {D : Type}.
(** GetRawInputDeviceList with a list of room for a number of devices: the result and the number it writes,
    and the devices when it writes them. *)
Variable GetRawInputDeviceList : Z -> Z * Z * option (list D).

(** The loop that gets the list; malloc gives memory. *)
Fixpoint get_device_list (fuel : nat) (device_list : option (list D)) (device_count second_count : Z) : res (option (list D) * Z) :=
  match fuel with
  | O => Fault OutOfFuel
  | S fuel =>
      if device_count =? second_count then Ok (device_list, device_count) else
      let '(result, second_count', written) := GetRawInputDeviceList second_count in
      let device_list := match written with Some l => Some l | None => device_list end in
      if result =? -1 then get_device_list fuel None device_count second_count'
      else get_device_list fuel device_list (u32 result) second_count'
  end.

(** The search for the keyboard and the mouse: [check] is CheckRealKeyboard of a device. *)
Variables (dwType : D -> Z) (check : D -> bool).
Fixpoint find_devices (l : list D) (keyboard mouse : option D) : option D * option D :=
  match l with
  | [] => (keyboard, mouse)
  | d :: l =>
      let keyboard := if (dwType d =? RIM_TYPEKEYBOARD) && check d then Some d else keyboard in
      let mouse := if dwType d =? RIM_TYPEMOUSE then Some d else mouse in
      find_devices l keyboard mouse
  end.

(** The part of ThreadCalc between the creation of the window and the registration: [count_result] and
    [device_count] are the answers of the first call. *)
Definition query_devices (fuel : nat) (count_result device_count : Z) : res (option D * option D) :=
  if count_result =? -1 then Fault AssertFailed else
  '(device_list, device_count) ← get_device_list fuel None device_count 0;
  if device_count =? 0 then Ok (None, None) else
  match device_list with
  | None => Fault Uninitialized
  | Some l => Ok (find_devices (take (Z.to_nat device_count) l) None None)
  end.
End devices.
End Hid.

(** * Sets of keys *)
Section key_sets.
Import Hid.
Implicit Types (k l : list Z) (v n : Z).

Record words k : Prop := { w_length : length k = 4%nat; w_range : forall i x, k !! i = Some x -> 0 <= x < 2 ^ 64 }.

(** The bit of a key. *)
Definition key k v : bool := Z.testbit (default 0 (k !! Z.to_nat (v / 64))) (v mod 64).
(** The keys whose bit an int shift reaches. *)
Definition plain v : Prop := 0 <= v < 256 /\ v mod 64 < 31.

Lemma plain_index v : plain v -> 0 <= v / 64 < 4 /\ 0 <= v mod 64 < 31.
Proof.
  intros [Hv Hm]. pose proof (Z.mod_pos_bound v 64). split; [|lia].
  split; [apply Z.div_pos; lia|apply Z.div_lt_upper_bound; lia].
Qed.

Lemma words_lookup k v : words k -> plain v -> exists x, k !! Z.to_nat (v / 64) = Some x /\ 0 <= x < 2 ^ 64.
Proof.
  intros [Hl Hr] Hv. apply plain_index in Hv as [Hi _].
  destruct (lookup_lt_is_Some_2 k (Z.to_nat (v / 64))) as [x E]; [lia|]. exists x. split; [done|by apply (Hr (Z.to_nat (v / 64)))].
Qed.

Lemma key_pos_plain v : plain v -> key_pos v = Ok (2 ^ (v mod 64)).
Proof.
  intros Hv. apply plain_index in Hv as [_ Hm]. unfold key_pos. destruct (Z.leb_spec 32 (v mod 64)); [lia|].
  rewrite Z.shiftl_1_l. assert (2 ^ (v mod 64) <= 2 ^ 30) by (apply Z.pow_le_mono_r; lia).
  assert (0 < 2 ^ (v mod 64)) by (apply Z.pow_pos_nonneg; lia). unfold s32, u64. rewrite swrap_small, wrap_small by lia. done.
Qed.

Lemma index_run k v x : plain v -> k !! Z.to_nat (v / 64) = Some x -> arr_get k (Z.shiftr v 6) = Ok x.
Proof.
  intros Hv E. rewrite Z.shiftr_div_pow2 by lia. change (2 ^ 6) with 64. apply plain_index in Hv as [Hi _].
  rewrite <- (Z2Nat.id (v / 64)) by lia. by apply arr_get_lookup.
Qed.

Lemma land_pow2 x n : 0 <= n -> (Z.land x (2 ^ n) =? 2 ^ n) = Z.testbit x n.
Proof.
  intros Hn. assert (0 < 2 ^ n) by (apply Z.pow_pos_nonneg; lia).
  assert (Z.land x (2 ^ n) = if Z.testbit x n then 2 ^ n else 0) as ->.
  { apply Z.bits_inj'. intros i Hi. rewrite Z.land_spec, Z.pow2_bits_eqb by done. destruct (Z.eqb_spec n i) as [->|Hne].
    - destruct (Z.testbit x i); [by rewrite Z.pow2_bits_true|by rewrite Z.bits_0].
    - rewrite andb_false_r. destruct (Z.testbit x n); [by rewrite Z.pow2_bits_false|by rewrite Z.bits_0]. }
  destruct (Z.testbit x n); [by rewrite Z.eqb_refl|]. by destruct (Z.eqb_spec 0 (2 ^ n)); [lia|].
Qed.

Lemma GetKeyState_run k v : words k -> plain v -> GetKeyState k v = Ok (key k v).
Proof.
  intros Hk Hv. destruct (words_lookup k v Hk Hv) as (x & E & _). unfold GetKeyState, key.
  rewrite (key_pos_plain v Hv), (index_run k v x Hv E), E. cbn [mbind res_bind default]. rewrite land_pow2; [done|].
  apply plain_index in Hv. lia.
Qed.

Lemma testbit_range x : 0 <= x -> (forall i, 64 <= i -> Z.testbit x i = false) -> x < 2 ^ 64.
Proof.
  intros Hx Hb. destruct (Z.eq_dec x 0) as [->|Hne]; [done|]. apply Z.log2_lt_pow2; [lia|].
  destruct (Z.lt_ge_cases (Z.log2 x) 64) as [|Hge]; [done|].
  pose proof (Hb (Z.log2 x) Hge) as Hf. by rewrite Z.bit_log2 in Hf by lia.
Qed.

Lemma testbit_high x i : 0 <= x < 2 ^ 64 -> 64 <= i -> Z.testbit x i = false.
Proof. intros Hx Hi. rewrite <- (Z.mod_small x (2 ^ 64)) by done. apply Z.mod_pow2_bits_high. lia. Qed.

Lemma word_land x y : 0 <= x < 2 ^ 64 -> 0 <= y -> 0 <= Z.land x y < 2 ^ 64.
Proof.
  intros Hx Hy. split; [apply Z.land_nonneg; lia|]. apply testbit_range; [apply Z.land_nonneg; lia|].
  intros i Hi. rewrite Z.land_spec, (testbit_high x) by done. done.
Qed.
Lemma word_lor x y : 0 <= x < 2 ^ 64 -> 0 <= y < 2 ^ 64 -> 0 <= Z.lor x y < 2 ^ 64.
Proof.
  intros Hx Hy. split; [apply Z.lor_nonneg; lia|]. apply testbit_range; [apply Z.lor_nonneg; lia|].
  intros i Hi. rewrite Z.lor_spec, !testbit_high by done. done.
Qed.
Lemma word_not x : 0 <= u64 (Z.lnot x) < 2 ^ 64.
Proof. apply wrap_range. lia. Qed.
Lemma testbit_not x i : 0 <= i < 64 -> Z.testbit (u64 (Z.lnot x)) i = negb (Z.testbit x i).
Proof. intros Hi. unfold u64, wrap. rewrite Z.mod_pow2_bits_low by lia. apply Z.lnot_spec. lia. Qed.

(** Writing the word of a key. *)
Lemma words_insert k v x y : words k -> plain v -> k !! Z.to_nat (v / 64) = Some x -> 0 <= y < 2 ^ 64 ->
  arr_set k (Z.shiftr v 6) y = Ok (<[Z.to_nat (v / 64) := y]> k) /\ words (<[Z.to_nat (v / 64) := y]> k) /\
  forall w, plain w -> key (<[Z.to_nat (v / 64) := y]> k) w = if w / 64 =? v / 64 then Z.testbit y (w mod 64) else key k w.
Proof.
  intros Hk Hv E Hy. pose proof (lookup_lt_Some _ _ _ E) as Hlt. apply plain_index in Hv as [Hi _]. split; [|split].
  - rewrite Z.shiftr_div_pow2 by lia. change (2 ^ 6) with 64. rewrite <- (Z2Nat.id (v / 64)) at 1 by lia. by rewrite arr_set_insert.
  - split; [rewrite length_insert; apply Hk|]. intros i z Hz. apply list_lookup_insert_Some in Hz as [(<- & <- & _)|[_ Hz]];
      [done|by apply (w_range k Hk i)].
  - intros w Hw. apply plain_index in Hw as [Hw _]. unfold key. destruct (Z.eqb_spec (w / 64) (v / 64)) as [->|Hne].
    + by rewrite list_lookup_insert_eq.
    + by rewrite list_lookup_insert_ne by lia.
Qed.

Lemma same_key v w : plain v -> plain w -> (v =? w) = (w / 64 =? v / 64) && (v mod 64 =? w mod 64).
Proof.
  intros _ _. pose proof (Z.div_mod v 64). pose proof (Z.div_mod w 64).
  destruct (Z.eqb_spec v w) as [->|Hne]; [by rewrite !Z.eqb_refl|].
  destruct (Z.eqb_spec (w / 64) (v / 64)), (Z.eqb_spec (v mod 64) (w mod 64)); cbn; try done. lia.
Qed.

Lemma SetKeyState_run k v : words k -> plain v ->
  exists k', SetKeyState k v = Ok k' /\ words k' /\ forall w, plain w -> key k' w = (v =? w) || key k w.
Proof.
  intros Hk Hv. destruct (words_lookup k v Hk Hv) as (x & E & Hx). pose proof (plain_index v Hv) as [Hi Hm].
  assert (0 < 2 ^ (v mod 64)) by (apply Z.pow_pos_nonneg; lia). assert (2 ^ (v mod 64) <= 2 ^ 30) by (apply Z.pow_le_mono_r; lia).
  destruct (words_insert k v x (Z.lor x (2 ^ (v mod 64))) Hk Hv E) as (Es & Hw & Hkey); [apply word_lor; lia|].
  eexists. split; [|split; [exact Hw|]].
  - unfold SetKeyState. rewrite (key_pos_plain v Hv), (index_run k v x Hv E). exact Es.
  - intros w Hpw. rewrite (Hkey w Hpw), (same_key v w Hv Hpw).
    destruct (Z.eqb_spec (w / 64) (v / 64)) as [e|]; [|done]. unfold key. rewrite e, E. cbn [default andb].
    rewrite Z.lor_spec, Z.pow2_bits_eqb by lia. apply orb_comm.
Qed.

Lemma ClearKeyState_run k v : words k -> plain v ->
  exists k', ClearKeyState k v = Ok k' /\ words k' /\ forall w, plain w -> key k' w = negb (v =? w) && key k w.
Proof.
  intros Hk Hv. destruct (words_lookup k v Hk Hv) as (x & E & Hx). pose proof (plain_index v Hv) as [Hi Hm].
  destruct (words_insert k v x (Z.land x (u64 (Z.lnot (2 ^ (v mod 64))))) Hk Hv E) as (Es & Hw & Hkey).
  { apply word_land; [done|]. apply word_not. }
  eexists. split; [|split; [exact Hw|]].
  - unfold ClearKeyState. rewrite (key_pos_plain v Hv), (index_run k v x Hv E). exact Es.
  - intros w Hpw. pose proof (plain_index w Hpw) as [_ Hmw]. rewrite (Hkey w Hpw), (same_key v w Hv Hpw).
    destruct (Z.eqb_spec (w / 64) (v / 64)) as [e|]; [|done]. unfold key. rewrite e, E. cbn [default andb].
    rewrite Z.land_spec, testbit_not, Z.pow2_bits_eqb by lia. apply andb_comm.
Qed.

Lemma zip_words (f : Z -> Z -> Z) k l : words k -> words l ->
  (forall x y, 0 <= x < 2 ^ 64 -> 0 <= y < 2 ^ 64 -> 0 <= f x y < 2 ^ 64) -> words (zip_with f k l).
Proof.
  intros Hk Hl Hf. split; [rewrite length_zip_with, (w_length k Hk), (w_length l Hl); done|].
  intros i z (x & y & -> & Hx & Hy)%lookup_zip_with_Some. apply Hf; [by apply (w_range k Hk i)|by apply (w_range l Hl i)].
Qed.

Lemma key_zip (f : Z -> Z -> Z) (b : bool -> bool -> bool) k l v : words k -> words l -> plain v ->
  (forall x y i, Z.testbit (f x y) i = b (Z.testbit x i) (Z.testbit y i)) -> key (zip_with f k l) v = b (key k v) (key l v).
Proof.
  intros Hk Hl Hv Hf. destruct (words_lookup k v Hk Hv) as (x & Ex & _). destruct (words_lookup l v Hl Hv) as (y & Ey & _).
  unfold key. by rewrite lookup_zip_with, Ex, Ey; cbn.
Qed.

Lemma or_words k l : words k -> words l -> words (KeyState_or k l).
Proof. intros Hk Hl. by apply zip_words; [..|apply word_lor]. Qed.
Lemma and_words k l : words k -> words l -> words (KeyState_and k l).
Proof. intros Hk Hl. apply zip_words; [done..|]. intros x y Hx Hy. apply word_land; [done|lia]. Qed.
Lemma not_words k : words k -> words (KeyState_not k).
Proof.
  intros Hk. unfold KeyState_not. split; [by rewrite length_fmap; apply Hk|]. intros i z Hz.
  apply list_lookup_fmap_Some in Hz as (x & -> & _). apply word_not.
Qed.
Lemma zero_words : words KeyState_zero.
Proof. split; [done|]. intros [|[|[|[|i]]]] x [= <-]; lia. Qed.
Lemma key_zero v : key KeyState_zero v = false.
Proof. unfold key. destruct (Z.to_nat (v / 64)) as [|[|[|[|i]]]]; apply Z.bits_0. Qed.
Lemma key_or k l v : words k -> words l -> plain v -> key (KeyState_or k l) v = key k v || key l v.
Proof. intros Hk Hl Hv. apply key_zip; [done..|]. intros. apply Z.lor_spec. Qed.
Lemma key_and k l v : words k -> words l -> plain v -> key (KeyState_and k l) v = key k v && key l v.
Proof. intros Hk Hl Hv. apply key_zip; [done..|]. intros. apply Z.land_spec. Qed.
Lemma key_not k v : words k -> plain v -> key (KeyState_not k) v = negb (key k v).
Proof.
  intros Hk Hv. destruct (words_lookup k v Hk Hv) as (x & E & _). unfold key, KeyState_not.
  rewrite list_lookup_fmap, E. cbn. apply testbit_not. apply plain_index in Hv. lia.
Qed.
End key_sets.

(** For the keys whose bit an int shift reaches, the ones whose code is below 31 modulo 64, a KeyState is a
    set of keys: setting and clearing a key change that key alone, and the operators are union, intersection and
    complement. *)
Theorem key_state_keys (k l : list Z) v :
  words k -> words l -> plain v ->
  (exists k', Hid.SetKeyState k v = Ok k' /\ words k' /\ Hid.GetKeyState k' v = Ok true /\
     forall w, plain w -> w <> v -> Hid.GetKeyState k' w = Hid.GetKeyState k w) /\
  (exists k', Hid.ClearKeyState k v = Ok k' /\ words k' /\ Hid.GetKeyState k' v = Ok false /\
     forall w, plain w -> w <> v -> Hid.GetKeyState k' w = Hid.GetKeyState k w) /\
  exists a b, Hid.GetKeyState k v = Ok a /\ Hid.GetKeyState l v = Ok b /\
    Hid.GetKeyState (Hid.KeyState_or k l) v = Ok (a || b) /\ Hid.GetKeyState (Hid.KeyState_and k l) v = Ok (a && b) /\
    Hid.GetKeyState (Hid.KeyState_not k) v = Ok (negb a).
Proof.
  intros Hk Hl Hv. split_and!.
  - destruct (SetKeyState_run k v Hk Hv) as (k' & E & Hw & Hkey). exists k'. split; [done|]. split; [done|]. split.
    + rewrite GetKeyState_run, Hkey by done. by rewrite Z.eqb_refl.
    + intros w Hpw Hne. rewrite !GetKeyState_run, Hkey by done. by destruct (Z.eqb_spec v w) as [->|].
  - destruct (ClearKeyState_run k v Hk Hv) as (k' & E & Hw & Hkey). exists k'. split; [done|]. split; [done|]. split.
    + rewrite GetKeyState_run, Hkey by done. by rewrite Z.eqb_refl.
    + intros w Hpw Hne. rewrite !GetKeyState_run, Hkey by done. by destruct (Z.eqb_spec v w) as [->|].
  - exists (key k v), (key l v). rewrite !GetKeyState_run by eauto using or_words, and_words, not_words.
    rewrite key_or, key_and, key_not by done. by split_and!.
Qed.

(** The other keys, among them space, the arrows, the digits and the function keys, cannot be used: the shift
    is undefined for 32 to 63 modulo 64, and 31 stands for the upper 33 bits of the word at once. *)
Theorem key_state_shift (k : Hid.KeyState) v :
  (32 <= v mod 64 -> Hid.GetKeyState k v = Fault BadShift /\ Hid.SetKeyState k v = Fault BadShift /\
     Hid.ClearKeyState k v = Fault BadShift) /\
  (v mod 64 = 31 -> Hid.key_pos v = Ok (2 ^ 64 - 2 ^ 31)) /\
  (forall name code, (name, code) ∈ Hid.VirtualKey ->
     code mod 64 < 31 \/ name = "ModeChange"%string \/ name = "Sleep"%string \/ name = "Oem8"%string \/
     Hid.key_pos code = Fault BadShift).
Proof.
  split; [|split].
  - intros Hv. unfold Hid.GetKeyState, Hid.SetKeyState, Hid.ClearKeyState, Hid.key_pos.
    destruct (Z.leb_spec 32 (v mod 64)); [done|lia].
  - intros Hv. unfold Hid.key_pos. rewrite Hv. reflexivity.
  - assert (Forall (fun nc => nc.2 mod 64 < 31 \/ nc.1 = "ModeChange"%string \/ nc.1 = "Sleep"%string \/ nc.1 = "Oem8"%string \/
      Hid.key_pos nc.2 = Fault BadShift) Hid.VirtualKey) as H.
    { apply (bool_decide_unpack _). vm_compute. exact I. }
    intros name code Hin. by apply (proj1 (Forall_forall _ _) H (name, code)).
Qed.

(** Where the compiler puts the bit-fields: one behind the other, but none across a border of 64 bits. *)
Fixpoint field_positions (fields : list (string * Z * Z)) (next : Z) : list (Z * Z) :=
  match fields with
  | [] => []
  | (_, width, code) :: fields =>
      let at_ := if next / 64 =? (next + width - 1) / 64 then next else (next / 64 + 1) * 64 in
      (code, at_) :: field_positions fields (at_ + width)
  end.

(** The named bits stand at the position of their key up to the digits; from [vk_a] on, all of them stand
    before it, for the reserved field in front has six bits for seven codes. *)
Theorem named_key_bits code at_ :
  (code, at_) ∈ field_positions Hid.KeyState_fields 0 ->
  (code < 0x41 -> at_ = code) /\ (0x41 <= code -> at_ < code) /\ (code = 0x41 -> at_ = 0x40).
Proof.
  assert (Forall (fun ca => (ca.1 < 0x41 -> ca.2 = ca.1) /\ (0x41 <= ca.1 -> ca.2 < ca.1) /\ (ca.1 = 0x41 -> ca.2 = 0x40))
    (field_positions Hid.KeyState_fields 0)) as H.
  { apply (bool_decide_unpack _). vm_compute. exact I. }
  intros Hin. exact (proj1 (Forall_forall _ _) H (code, at_) Hin).
Qed.

(** * The keyboard as a set of keys, each with its own history *)
Section keyboard.
Import Hid.
Context {CS : Type} `{!HeapLock CS}.
Variable GetSystemMetrics : Z -> Z.
Implicit Types (s : State CS) (v w : Z).

(** What is kept of a key, and what the frame shows of it. *)
Record key_history := mkHistory {
  down : bool; down_last : bool; released : bool; released_last : bool;
  shown_pressed : bool; shown_held : bool; shown_released : bool
}.

Inductive action := Make (v : Z) | Break (v : Z) | OtherFlags (flags v : Z) | Frame (cursor : Z * Z).

(** What an action does to one key. *)
Definition key_step (w : Z) (h : key_history) (a : action) : key_history :=
  match a with
  | Make v => if v =? w then mkHistory true (down_last h) (released h) (released_last h) (shown_pressed h) (shown_held h) (shown_released h) else h
  | Break v => if v =? w then mkHistory false (down_last h) true (released_last h) (shown_pressed h) (shown_held h) (shown_released h) else h
  | OtherFlags _ _ => h
  | Frame _ =>
      mkHistory (down h) (down h) false (released h)
        (down h && negb (down_last h)) (down h || (down_last h && negb (released_last h))) (released h)
  end.

(** What the program does: raw input of the keyboard, and the beginning of a frame. *)
Definition keyboard_input (flags v : Z) : M (State CS) unit :=
  SetLastRawInput GetSystemMetrics (sizeof_RAWINPUTHEADER, RIM_TYPEKEYBOARD) (0, mkRAWMOUSE 0 0 0 0 0)
    (sizeof_RAWINPUTHEADER + sizeof_RAWKEYBOARD, mkRAWKEYBOARD flags v).
Definition do_action (a : action) : M (State CS) unit :=
  match a with
  | Make v => keyboard_input RI_KEY_MAKE v
  | Break v => keyboard_input RI_KEY_BREAK v
  | OtherFlags flags v => keyboard_input flags v
  | Frame cursor => BeginFrame (Some cursor)
  end.
Fixpoint do_actions (l : list action) : M (State CS) unit :=
  match l with [] => mret tt | a :: l => do_action a;; do_actions l end.

Definition plain_action (a : action) : Prop :=
  match a with
  | Make v | Break v => plain v
  | OtherFlags flags _ => flags <> RI_KEY_MAKE /\ flags <> RI_KEY_BREAK
  | Frame _ => True
  end.

Definition lock_ok (c : CS) : Prop := exists c', heap_cs_Enter c = Ok c' /\ heap_cs_Leave c' = Ok c.

Record history_of s (h : Z -> key_history) : Prop := {
  hi_words : Forall words [pressed_state s; pressed_state_last s; released_state s; released_state_last s;
    pressed_keys (frame_keyboard_state s); held_keys (frame_keyboard_state s); released_keys (frame_keyboard_state s)];
  hi_keys : forall v, plain v -> h v = mkHistory
    (key (pressed_state s) v) (key (pressed_state_last s) v) (key (released_state s) v) (key (released_state_last s) v)
    (key (pressed_keys (frame_keyboard_state s)) v) (key (held_keys (frame_keyboard_state s)) v)
    (key (released_keys (frame_keyboard_state s)) v);
  hi_mouse_cs : lock_ok (mouse_state_cs s);
  hi_keyboard_cs : lock_ok (keyboard_state_cs s)
}.

Lemma with_keyboard_cs_run {A} (body : M (State CS) A) s r (change : State CS -> State CS) :
  lock_ok (keyboard_state_cs s) -> (forall c, body (set_keyboard_cs c s) = Ok (r, set_keyboard_cs c (change s))) ->
  keyboard_state_cs (change s) = keyboard_state_cs s -> with_keyboard_cs body s = Ok (r, change s).
Proof.
  intros (c & He & Hl) Hb Hc. unfold with_keyboard_cs. steps.
  rewrite (M_bind_run _ _ s c s) by (unfold lift; by rewrite He). steps. rewrite (M_bind_run _ _ _ _ _ (Hb c)). steps.
  rewrite (M_bind_run _ _ _ (keyboard_state_cs s) (set_keyboard_cs c (change s))) by (unfold lift; cbn; by rewrite Hl).
  steps. rewrite <- Hc. unfold set_keyboard_cs. cbn. by destruct (change s).
Qed.

Lemma with_mouse_cs_run {A} (body : M (State CS) A) s r (change : State CS -> State CS) :
  lock_ok (mouse_state_cs s) -> (forall c, body (set_mouse_cs c s) = Ok (r, set_mouse_cs c (change s))) ->
  mouse_state_cs (change s) = mouse_state_cs s -> with_mouse_cs body s = Ok (r, change s).
Proof.
  intros (c & He & Hl) Hb Hc. unfold with_mouse_cs. steps.
  rewrite (M_bind_run _ _ s c s) by (unfold lift; by rewrite He). steps. rewrite (M_bind_run _ _ _ _ _ (Hb c)). steps.
  rewrite (M_bind_run _ _ _ (mouse_state_cs s) (set_mouse_cs c (change s))) by (unfold lift; cbn; by rewrite Hl).
  steps. rewrite <- Hc. unfold set_mouse_cs. cbn. by destruct (change s).
Qed.

Lemma keyboard_input_unfold flags v s :
  keyboard_input flags v s = SetKeyboardState (set_raw_keyboard (mkRAWKEYBOARD flags v) s).
Proof. reflexivity. Qed.

Lemma plain_u8 v : plain v -> u8 v = v.
Proof. intros [Hv _]. apply wrap_small. lia. Qed.

(** One action of the program is one step of every key. *)
Lemma make_run v s h : plain v -> history_of s h ->
  exists s', do_action (Make v) s = Ok (tt, s') /\ history_of s' (fun w => key_step w (h w) (Make v)).
Proof.
  intros Hv [Hw Hh Hm Hc]. destruct (Forall_cons_1 _ _ _ Hw) as [Hp Hw'].
  destruct (SetKeyState_run _ v Hp Hv) as (p & E & Hpw & Hpk).
  exists (set_keys p (released_state s) (set_raw_keyboard (mkRAWKEYBOARD RI_KEY_MAKE v) s)). split.
  - cbn [do_action]. rewrite keyboard_input_unfold. unfold SetKeyboardState.
    apply (with_keyboard_cs_run _ (set_raw_keyboard _ s) _ (fun s => set_keys p (released_state s) s)); [exact Hc| |done].
    intros c. unfold get, lift, modify, mbind, M_bind. cbn. by rewrite plain_u8, E.
  - split; [by apply Forall_cons| |done|done]. intros w Hpl. cbn. rewrite (Hh w Hpl), (Hpk w Hpl). by destruct (v =? w).
Qed.

Lemma break_run v s h : plain v -> history_of s h ->
  exists s', do_action (Break v) s = Ok (tt, s') /\ history_of s' (fun w => key_step w (h w) (Break v)).
Proof.
  intros Hv [Hw Hh Hm Hc]. pose proof Hw as Hall. rewrite !Forall_cons in Hall.
  destruct Hall as (Hp & Hpl & Hr & Hrl & H1 & H2 & H3 & _).
  destruct (SetKeyState_run _ v Hr Hv) as (r & Er & Hrw & Hrk).
  destruct (ClearKeyState_run _ v Hp Hv) as (p & Ep & Hpw & Hpk).
  destruct (ClearKeyState_run _ v Hpw Hv) as (p2 & Ep2 & Hpw2 & Hpk2).
  exists (set_keys p2 r (set_raw_keyboard (mkRAWKEYBOARD RI_KEY_BREAK v) s)). split.
  - cbn [do_action]. rewrite keyboard_input_unfold. unfold SetKeyboardState.
    apply (with_keyboard_cs_run _ (set_raw_keyboard _ s) _ (fun s => set_keys p2 r s)); [exact Hc| |done].
    intros c. unfold get, lift, modify, mbind, M_bind. cbn. rewrite plain_u8, Er by done. cbn. rewrite Ep. cbn. by rewrite Ep2.
  - split; [by repeat apply Forall_cons_2| |done|done]. intros w Hplain. cbn.
    rewrite (Hh w Hplain), (Hpk2 w Hplain), (Hpk w Hplain), (Hrk w Hplain). by destruct (v =? w).
Qed.

Lemma other_run flags v s h : flags <> RI_KEY_MAKE -> flags <> RI_KEY_BREAK -> history_of s h ->
  exists s', do_action (OtherFlags flags v) s = Ok (tt, s') /\ history_of s' (fun w => key_step w (h w) (OtherFlags flags v)).
Proof.
  intros H0 H1 [Hw Hh Hm Hc]. exists (set_raw_keyboard (mkRAWKEYBOARD flags v) s). split; [|by split].
  cbn [do_action]. rewrite keyboard_input_unfold. unfold SetKeyboardState.
  apply (with_keyboard_cs_run _ (set_raw_keyboard _ s) _ id); [exact Hc| |done].
  intros c. unfold get, mbind, M_bind. cbn. by destruct (Z.eqb_spec flags RI_KEY_MAKE), (Z.eqb_spec flags RI_KEY_BREAK).
Qed.

(** What a frame does to the mouse and to the keyboard. *)
Definition mouse_frame x y s : State CS :=
  let interim := interim_mouse_state s in
  set_mouse_states MouseState_zero (set_button_held
    (u16 (Z.land (Z.lor (button_held (frame_mouse_state s)) (Z.land (button_state interim) ButtonDownMask))
       (Z.lnot (Z.land (Z.shiftr (button_state interim) 1) ButtonDownMask)))) (set_absolute x y interim)) s.
Definition keyboard_frame s : State CS :=
  set_keyboard_frame
    (mkKeyboardState (KeyState_and (pressed_state s) (KeyState_not (pressed_state_last s)))
       (KeyState_or (pressed_state s) (KeyState_and (pressed_state_last s) (KeyState_not (released_state_last s))))
       (released_state s))
    (pressed_state s) KeyState_zero (released_state s)
    (KeyState_or (aheld_state s) (KeyState_and (pressed_state s) (KeyState_not (released_state s)))) s.

Lemma BeginFrame_run x y s : lock_ok (mouse_state_cs s) -> lock_ok (keyboard_state_cs s) ->
  BeginFrame (Some (x, y)) s = Ok (tt, keyboard_frame (mouse_frame x y s)).
Proof.
  intros Hm Hc. unfold BeginFrame. rewrite (M_bind_run _ _ s tt (mouse_frame x y s)).
  - by apply (with_keyboard_cs_run _ (mouse_frame x y s) tt keyboard_frame).
  - by apply (with_mouse_cs_run _ s tt (mouse_frame x y)).
Qed.

Lemma frame_run cursor s h : history_of s h ->
  exists s', do_action (Frame cursor) s = Ok (tt, s') /\ history_of s' (fun w => key_step w (h w) (Frame cursor)).
Proof.
  destruct cursor as [x y]. intros [Hw Hh Hm Hc]. rewrite !Forall_cons in Hw.
  destruct Hw as (Hp & Hpl & Hr & Hrl & H1 & H2 & H3 & _).
  exists (keyboard_frame (mouse_frame x y s)). split; [by apply BeginFrame_run|].
  split; [| |exact Hm|exact Hc].
  - rewrite !Forall_cons. cbn. split_and!; eauto using and_words, or_words, not_words, zero_words.
  - intros v Hv. cbn. rewrite (Hh v Hv). cbn.
    rewrite key_zero, key_or, !key_and, !key_not by eauto using and_words, or_words, not_words. done.
Qed.

Lemma action_run a s h : plain_action a -> history_of s h ->
  exists s', do_action a s = Ok (tt, s') /\ history_of s' (fun w => key_step w (h w) a).
Proof. intros Ha Hh. destruct a; [by apply make_run|by apply break_run|destruct Ha; by apply other_run|by apply frame_run]. Qed.

End keyboard.

(** * The mouse *)
Section mouse.
Import Hid.
Context {CS : Type} `{!HeapLock CS}.
Variable GetSystemMetrics : Z -> Z.
Implicit Types (s : State CS) (m : MouseState).

Inductive mouse_action := Mouse (data : RAWMOUSE) | MouseFrame (cursor : Z * Z).
Definition do_mouse (a : mouse_action) : M (State CS) unit :=
  match a with
  | Mouse data => SetLastRawInput GetSystemMetrics (sizeof_RAWINPUTHEADER, RIM_TYPEMOUSE)
      (sizeof_RAWINPUTHEADER + sizeof_RAWMOUSE, data) (0, mkRAWKEYBOARD 0 0)
  | MouseFrame cursor => BeginFrame (Some cursor)
  end.
Fixpoint do_mouse_actions (l : list mouse_action) : M (State CS) unit :=
  match l with [] => mret tt | a :: l => do_mouse a;; do_mouse_actions l end.

Definition no_buttons s : Prop :=
  button_state (interim_mouse_state s) = 0 /\ button_state (frame_mouse_state s) = 0 /\ button_held (frame_mouse_state s) = 0.

(** Runs the computations of [res] among the hypotheses that have succeeded, along each of their paths. *)
Ltac run_res :=
  repeat match goal with
    | H : Ok _ = Ok _ |- _ => injection H as <-
    | H : Fault _ = Ok _ |- _ => discriminate H
    | H : context [if ?b then _ else _] |- _ => destruct b
    | H : (?x ≫= _) = Ok _ |- _ => destruct x eqn:?; cbn in H; [|discriminate H]
    end.

Lemma moved_buttons w h last mouse m m' : moved w h last mouse m = Ok m' -> button_state m' = button_state m.
Proof.
  unfold moved. intros E. by run_res.
Qed.

Lemma wheeled_buttons mouse m m' : wheeled mouse m = Ok m' -> button_state m' = button_state m.
Proof.
  unfold wheeled. intros E. by run_res.
Qed.

(** A body under the lock that keeps what the lock does not touch. *)
Lemma with_mouse_cs_inv {A} (P : State CS -> Prop) (body : M (State CS) A) s r s' :
  (forall c s, P s -> P (set_mouse_cs c s)) -> (forall s1 s2, P s1 -> body s1 = Ok (r, s2) -> P s2) ->
  P s -> with_mouse_cs body s = Ok (r, s') -> P s'.
Proof.
  intros HP Hb Hs E. unfold with_mouse_cs in E. rewrite M_gets_bind in E.
  apply M_bind_ok in E as (c & s1 & E1 & E). unfold lift in E1. destruct (heap_cs_Enter _); simplify_eq/=.
  rewrite M_modify_bind in E. apply M_bind_ok in E as (r1 & s2 & E2 & E). rewrite M_gets_bind in E.
  apply M_bind_ok in E as (c2 & s3 & E3 & E). unfold lift in E3. destruct (heap_cs_Leave _); simplify_eq/=.
  rewrite M_modify_bind in E. unfold mret, M_ret in E. simplify_eq. apply HP, (Hb _ _ (HP _ _ Hs) E2).
Qed.

Lemma with_keyboard_cs_inv {A} (P : State CS -> Prop) (body : M (State CS) A) s r s' :
  (forall c s, P s -> P (set_keyboard_cs c s)) -> (forall s1 s2, P s1 -> body s1 = Ok (r, s2) -> P s2) ->
  P s -> with_keyboard_cs body s = Ok (r, s') -> P s'.
Proof.
  intros HP Hb Hs E. unfold with_keyboard_cs in E. rewrite M_gets_bind in E.
  apply M_bind_ok in E as (c & s1 & E1 & E). unfold lift in E1. destruct (heap_cs_Enter _); simplify_eq/=.
  rewrite M_modify_bind in E. apply M_bind_ok in E as (r1 & s2 & E2 & E). rewrite M_gets_bind in E.
  apply M_bind_ok in E as (c2 & s3 & E3 & E). unfold lift in E3. destruct (heap_cs_Leave _); simplify_eq/=.
  rewrite M_modify_bind in E. unfold mret, M_ret in E. simplify_eq. apply HP, (Hb _ _ (HP _ _ Hs) E2).
Qed.

Lemma mouse_input_no_buttons data s s' : no_buttons s -> do_mouse (Mouse data) s = Ok (tt, s') -> no_buttons s'.
Proof.
  intros Hs E. change (SetMouseState GetSystemMetrics (set_raw_mouse data s) = Ok (tt, s')) in E.
  unfold SetMouseState in E. unfold get in E. apply M_bind_ok in E as (s0 & s1 & [= <- <-] & E).
  apply M_bind_ok in E as ([] & s2 & E2 & [= <-]). change (no_buttons s2).
  revert E2. apply (with_mouse_cs_inv no_buttons); [done| |done]. clear Hs. intros s3 s4 Hs E.
  apply M_bind_ok in E as (s5 & s6 & [= <- <-] & E). apply M_bind_ok in E as (m & s5 & E1 & E).
  apply M_bind_ok in E as (m2 & s6 & E2 & [= <-]). unfold lift in E1, E2.
  destruct (moved _ _ _ _ _) as [m'|] eqn:Em; simplify_eq/=. destruct (wheeled _ _) as [m2'|] eqn:Ew; simplify_eq/=.
  apply moved_buttons in Em. apply wheeled_buttons in Ew. destruct Hs as (H1 & H2 & H3). split; [cbn; congruence|done].
Qed.

Lemma mouse_frame_no_buttons cursor s s' : no_buttons s -> do_mouse (MouseFrame cursor) s = Ok (tt, s') -> no_buttons s'.
Proof.
  destruct cursor as [x y]. intros Hs E. unfold do_mouse, BeginFrame in E. apply M_bind_ok in E as ([] & s1 & E1 & E).
  apply (with_mouse_cs_inv no_buttons) in E1; [|done| |exact Hs].
  - revert E. apply (with_keyboard_cs_inv no_buttons); [done| |exact E1]. intros s2 s3 H2 [= <-]. exact H2.
  - clear. intros s s' (H1 & H2 & H3) E. cbn in E. injection E as <-. split; [done|]. split; [exact H1|]. cbn. by rewrite H1, H3.
Qed.

(** The program never sees a mouse button: the buttons of the raw input go into [button_held] of the interim
    state, which a frame overwrites, and a frame takes the buttons from [button_state], which nothing writes.
    Whatever the mouse sends, no button is down, held or up in any frame. *)
Theorem mouse_buttons_never_seen s l s' button :
  no_buttons s -> do_mouse_actions l s = Ok (tt, s') ->
  GetButtonDown (frame_mouse_state s') button = false /\ GetButtonHeld (frame_mouse_state s') button = false /\
  GetButtonUp (frame_mouse_state s') button = false.
Proof.
  intros Hs E. assert (no_buttons s') as (_ & H2 & H3).
  { revert s Hs E. induction l as [|a l IH]; intros s Hs E; [by injection E as <-|].
    cbn [do_mouse_actions] in E. apply M_bind_ok in E as ([] & s1 & E1 & E). apply (IH s1); [|done].
    destruct a; [by eapply mouse_input_no_buttons|by eapply mouse_frame_no_buttons]. }
  unfold GetButtonDown, GetButtonHeld, GetButtonUp. by rewrite H2, H3, !Z.land_0_l.
Qed.

(** The wheels only turn one way: Windows gives the distance as a signed number in the 16 bits of
    [usButtonData], which the code adds as an unsigned one; a turn back by 120 counts as 65416 forward. *)
Theorem mouse_wheel_one_way mouse m m' :
  0 <= usButtonData mouse < 2 ^ 16 -> wheeled mouse m = Ok m' ->
  delta_vwheel m <= delta_vwheel m' /\ delta_hwheel m <= delta_hwheel m' /\
  (usButtonFlags mouse = RI_MOUSE_WHEEL -> usButtonData mouse = u16 (- 120) -> delta_vwheel m' = delta_vwheel m + 65416).
Proof.
  intros Hd. unfold wheeled. set (v := set_flag (usButtonFlags mouse) RI_MOUSE_WHEEL).
  set (w := set_flag (usButtonFlags mouse) RI_MOUSE_HWHEEL).
  assert (forall x y, chk32 (x + usButtonData mouse) = Ok y -> y = x + usButtonData mouse) as Hchk.
  { intros x y. unfold chk32. destruct (_ && _); [by intros [= <-]|done]. }
  assert (usButtonFlags mouse = RI_MOUSE_WHEEL -> v = true) as Hv by (unfold v; by intros ->).
  intros E. destruct v.
  - destruct (chk32 (delta_vwheel m + _)) as [dv|] eqn:Ev; [|done]. apply Hchk in Ev. cbn in E. destruct w.
    + destruct (chk32 (delta_hwheel m + _)) as [dh|] eqn:Eh; [|done]. apply Hchk in Eh. injection E as <-. cbn.
      split_and!; [lia|lia|]. intros _ Eu. rewrite Ev, Eu. done.
    + injection E as <-. cbn. split_and!; [lia|lia|]. intros _ Eu. rewrite Ev, Eu. done.
  - cbn in E. destruct w.
    + destruct (chk32 (delta_hwheel m + _)) as [dh|] eqn:Eh; [|done]. apply Hchk in Eh. injection E as <-. cbn.
      split_and!; [lia|lia|]. intros Hw. by specialize (Hv Hw).
    + injection E as <-. split_and!; [lia|lia|]. intros Hw. by specialize (Hv Hw).
Qed.
End mouse.

(** * The devices *)
Section device_list.
Import Hid.

(** The list of devices is never read: asked with no room, Windows refuses and tells the number of devices, on
    which the loop ends with a list that nothing has been written to; the search for keyboard and mouse reads
    it. CheckRealKeyboard refuses every keyboard whose information it gets, and every one whose information it
    does not get, for that leaves the type at zero. *)
Theorem device_list_never_read {D} (GetRawInputDeviceList : Z -> Z * Z * option (list D)) dwType check fuel n info result :
  0 < n -> GetRawInputDeviceList 0 = (-1, n, None) -> (2 <= fuel)%nat ->
  query_devices GetRawInputDeviceList dwType check fuel 0 n = Fault Uninitialized /\
  (result <> -1 -> CheckRealKeyboard result info = false) /\ CheckRealKeyboard (-1) (0, 0) = false.
Proof.
  intros Hn Hg Hf. split_and!; [| |done].
  - unfold query_devices. cbn [Z.eqb]. destruct fuel as [|[|fuel]]; [lia|lia|]. cbn [get_device_list].
    destruct (Z.eqb_spec n 0); [lia|]. rewrite Hg. cbn [Z.eqb Pos.eqb get_device_list]. rewrite Z.eqb_refl.
    cbn [mbind res_bind]. by destruct (Z.eqb_spec n 0); [lia|].
  - intros Hr. unfold CheckRealKeyboard. destruct info. by destruct (Z.eqb_spec result (-1)).
Qed.
End device_list.

(** * Examples *)
Section example.
Import Hid.
#[local] Existing Instance no_lock.

Lemma plain_W : plain 0x57.
Proof. by vm_compute. Qed.

Lemma initial_history : history_of (initial tt) (fun _ => mkHistory false false false false false false false).
Proof.
  split; [by repeat (apply Forall_cons; split; [exact zero_words|])| |by exists tt..].
  intros v _. cbn. by rewrite key_zero.
Qed.

Lemma key_state_keys_witness :
  exists k', SetKeyState KeyState_zero 0x57 = Ok k' /\ GetKeyState k' 0x57 = Ok true.
Proof.
  destruct (key_state_keys KeyState_zero KeyState_zero 0x57 zero_words zero_words plain_W) as ((k' & E & _ & Eg & _) & _).
  by exists k'.
Defined.

Lemma key_state_shift_witness : GetKeyState KeyState_zero 0x20 = Fault BadShift /\ key_pos 0x5F = Ok (2 ^ 64 - 2 ^ 31).
Proof.
  split.
  - exact (proj1 (proj1 (key_state_shift KeyState_zero 0x20) ltac:(vm_compute; discriminate))).
  - exact (proj1 (proj2 (key_state_shift KeyState_zero 0x5F)) eq_refl).
Defined.

Lemma named_key_bits_witness : exists at_, (0x41, at_) ∈ field_positions KeyState_fields 0 /\ at_ = 0x40.
Proof.
  assert ((0x41, 0x40) ∈ field_positions KeyState_fields 0) as H.
  { apply (bool_decide_unpack _). vm_compute. exact I. }
  exists 0x40. split; [exact H|]. exact (proj2 (proj2 (named_key_bits 0x41 0x40 H)) eq_refl).
Defined.

(** The key W goes down, a frame shows it as pressed and held, the next one as held only; it goes up, and the
    frame after that shows it as released, and still as held. *)
Definition example_actions : list action := [Make 0x57; Frame (0, 0); Frame (0, 0); Break 0x57; Frame (0, 0)].

Lemma mouse_buttons_never_seen_witness : exists s',
  do_mouse_actions (fun _ => 1080) [Mouse (mkRAWMOUSE 0 1 0 5 5); MouseFrame (3, 4)] (initial tt) = Ok (tt, s') /\
  GetButtonDown (frame_mouse_state s') MouseButton_Left = false /\ delta_x (frame_mouse_state s') = 5.
Proof.
  eexists. split; [reflexivity|]. split; [|reflexivity].
  exact (proj1 (mouse_buttons_never_seen (fun _ => 1080) (initial tt) [Mouse (mkRAWMOUSE 0 1 0 5 5); MouseFrame (3, 4)] _
    MouseButton_Left ltac:(by split_and!) eq_refl)).
Defined.

Lemma mouse_wheel_one_way_witness : exists m',
  wheeled (mkRAWMOUSE 0 RI_MOUSE_WHEEL 65416 0 0) MouseState_zero = Ok m' /\ delta_vwheel m' = 65416.
Proof.
  eexists. split; [reflexivity|].
  exact (proj2 (proj2 (mouse_wheel_one_way (mkRAWMOUSE 0 RI_MOUSE_WHEEL 65416 0 0) MouseState_zero _ ltac:(by vm_compute) eq_refl))
    eq_refl eq_refl).
Defined.

Lemma device_list_never_read_witness :
  query_devices (fun room => if room <? 2 then (-1, 2, None) else (2, room, Some [0; 1])) id (fun _ => true) 2 0 2
    = Fault Uninitialized.
Proof.
  exact (proj1 (device_list_never_read (fun room => if room <? 2 then (-1, 2, None) else (2, room, Some [0; 1])) id
    (fun _ => true) 2 2 (0, 0) 0 ltac:(lia) eq_refl ltac:(lia))).
Defined.
End example.
