(* ===== verification/HidThread.v ===== *)
(** The thread of the input devices (hid_thread.h, hid_thread.cpp): what ThreadCalc does around the search for the
    devices, the loop over the messages of Windows, and how sys::ThreadBase runs it.

    The answers of Windows are arguments: a message comes with the number of the call of GetMessage, which may also
    leave the message it is given as it was. *)
From stdpp Require Import strings.
From S2P Require Import Prelude ExpHeap MessageQueue SysThread Hid.

Module HidThread.
Import Hid.

Record MSG : Type := mkMSG { hwnd : Z; message : Z; l_param : Z }.
(** [MSG msg = {};] *)
Definition no_message : MSG := mkMSG 0 0 0.

Section thread.
Context {CS D : Type} `{!HeapLock CS}.
Variable GetSystemMetrics : Z -> Z.
(** What GetRawInputData answers for a handle, in its calls for the header, the mouse and the keyboard. *)
Variable GetRawInputData : Z -> (Z * Z) * (Z * RAWMOUSE) * (Z * RAWKEYBOARD).
Variable GetMessage : nat -> MSG -> Z * MSG.
Variable GetRawInputDeviceList : Z -> Z * Z * option (list D).
Variables (dwType : D -> Z) (check : D -> bool).
(** RegisterClass, CreateWindowEx, and the call that asks for the number of devices. *)
Variables (registered window count_result device_count : Z).

(** The variables of hid_thread.cpp, those of hid_rawinput.cpp, and whether PostQuitMessage has been called. *)
Record ThreadState : Type := mkThreadState {
  keyboard_handle : option D; mouse_handle : option D; hid_hwnd : Z; input : State CS; quit_posted : bool
}.
Definition set_hwnd w (s : ThreadState) := mkThreadState (keyboard_handle s) (mouse_handle s) w (input s) (quit_posted s).
Definition set_input i (s : ThreadState) := mkThreadState (keyboard_handle s) (mouse_handle s) (hid_hwnd s) i (quit_posted s).
Definition set_quit (s : ThreadState) := mkThreadState (keyboard_handle s) (mouse_handle s) (hid_hwnd s) (input s) true.
(** A handle that is found is written. *)
Definition set_handles (found : option D * option D) (s : ThreadState) : ThreadState :=
  mkThreadState (match found.1 with Some d => Some d | None => keyboard_handle s end)
    (match found.2 with Some d => Some d | None => mouse_handle s end) (hid_hwnd s) (input s) (quit_posted s).

Definition on_input {A} (m : M (State CS) A) : M ThreadState A := fun s =>
  match m (input s) with Ok (a, i) => Ok (a, set_input i s) | Fault f => Fault f end.
Definition raw_input (handle : Z) : M (State CS) unit :=
  let '(header, mouse, keyboard) := GetRawInputData handle in SetLastRawInput GetSystemMetrics header mouse keyboard.

(** DispatchMessage calls the procedure of the class for the window that is made of it. *)
Definition DispatchMessage (msg : MSG) : M ThreadState unit :=
  window ← gets hid_hwnd;
  if hwnd msg =? window then
    answer ← on_input (HidWndProc (message msg) (raw_input (l_param msg)));
    match answer with PostQuitMessage => modify set_quit | DefWindowProc => mret tt end
  else mret tt.
(** [while (::GetMessage(...) != 0) { ... }], from the [n]-th call on. *)
Fixpoint message_loop (fuel n : nat) (msg : MSG) : M ThreadState unit :=
  match fuel with
  | O => throw OutOfFuel
  | S fuel =>
    let '(result, msg) := GetMessage n msg in
    if result =? 0 then mret tt else DispatchMessage msg;; message_loop fuel (S n) msg
  end.

Definition ThreadCalc (devices_fuel loop_fuel : nat) : M ThreadState unit :=
  dd_assert (negb (registered =? 0));;
  modify (set_hwnd window);;
  dd_assert (negb (window =? 0));;
  found ← lift (query_devices GetRawInputDeviceList dwType check devices_fuel count_result device_count);
  modify (set_handles found);;
  message_loop loop_fuel 0 no_message.

(** The thread as sys::ThreadBase sees it; its virtual ThreadCalc beside the queue. *)
Definition thread (raw : ThreadBase.ThreadBase) : ThreadBase.ThreadBase :=
  ThreadBase.construct raw 0 ThreadRunMode_Looping 0 0x1000 1.
Definition virtual_ThreadCalc (devices_fuel loop_fuel : nat) (_ : Z) : M (MessageQueue * ThreadState) unit := fun '(q, s) =>
  match ThreadCalc devices_fuel loop_fuel s with Ok (a, s') => Ok (a, (q, s')) | Fault f => Fault f end.
End thread.
Arguments ThreadState CS D : clear implicits.
(** InitializeRawInputThread: a thread that is created suspended, with the name and priority of the class. *)
Definition InitializeRawInputThread (SetThreadPriority : Z -> M ServiceThread.Win32Thread bool) (created : bool)
    (raw : ThreadBase.ThreadBase) : M ServiceThread.Win32Thread (ThreadBase.ThreadBase * string) :=
  ServiceThread.construct SetThreadPriority created "dd::hid::HidThread"%string (thread raw).
Definition FinalizeRawInputThread (ThreadBase_WaitForThreadExit : M MessageQueue unit) : M MessageQueue unit :=
  ThreadBase.destruct_queue ThreadBase_WaitForThreadExit.
End HidThread.

(** * What the thread does *)
Section thread_run.
Import Hid HidThread.
Context {CS D : Type} `{!HeapLock CS}.
Variable GetSystemMetrics : Z -> Z.
Variable GetRawInputData : Z -> (Z * Z) * (Z * RAWMOUSE) * (Z * RAWKEYBOARD).
Variable GetMessage : nat -> MSG -> Z * MSG.
Variable GetRawInputDeviceList : Z -> Z * Z * option (list D).
Variables (dwType : D -> Z) (check : D -> bool).
Variables (registered window count_result device_count : Z).
Implicit Types (s : ThreadState CS D) (ms : list MSG).

Local Abbreviation loop := (message_loop GetSystemMetrics GetRawInputData GetMessage).
Local Abbreviation calc := (ThreadCalc GetSystemMetrics GetRawInputData GetMessage GetRawInputDeviceList dwType check
  registered window count_result device_count).
Local Abbreviation virtual := (virtual_ThreadCalc GetSystemMetrics GetRawInputData GetMessage GetRawInputDeviceList dwType check
  registered window count_result device_count).

(** The raw inputs of the messages to a window, and the handling of raw inputs in their order. *)
Definition inputs_of ms : list Z := l_param <$> filter (fun m => hwnd m = window /\ message m = WM_INPUT) ms.
Fixpoint handle_inputs (handles : list Z) : M (State CS) unit :=
  match handles with [] => mret tt | h :: handles => raw_input GetSystemMetrics GetRawInputData h;; handle_inputs handles end.
Definition closes ms : bool := existsb (fun m => (hwnd m =? window) && (message m =? WM_DESTROY)) ms.
(** From the [k]-th call on GetMessage gives these messages, then it tells the end. *)
Definition delivers (k : nat) ms : Prop := forall j before,
  match ms !! j with
  | Some m => exists r, r <> 0 /\ GetMessage (k + j) before = (r, m)
  | None => j = length ms -> (GetMessage (k + j) before).1 = 0
  end.
Definition after ms s : res (unit * ThreadState CS D) :=
  '(_, i) ← handle_inputs (inputs_of ms) (input s);
  Ok (tt, mkThreadState (keyboard_handle s) (mouse_handle s) (hid_hwnd s) i (quit_posted s || closes ms)).

Lemma delivers_cons k m ms : delivers k (m :: ms) ->
  (forall before, exists r, r <> 0 /\ GetMessage k before = (r, m)) /\ delivers (S k) ms.
Proof.
  intros Hd. split.
  - intros before. destruct (Hd 0%nat before) as (r & Hr & E). rewrite Nat.add_0_r in E. by exists r.
  - intros j before. specialize (Hd (S j) before). rewrite Nat.add_succ_r in Hd. cbn [lookup list_lookup length] in Hd.
    destruct (ms !! j); [done|]. intros ->. by apply Hd.
Qed.
Lemma dispatch_run m s : hid_hwnd s = window ->
  DispatchMessage GetSystemMetrics GetRawInputData m s = after [m] s.
Proof.
  intros Hw. unfold DispatchMessage, after, inputs_of, closes. rewrite M_gets_bind, Hw. destruct s as [kh mh w i q]. cbn in Hw. subst w.
  cbn [existsb input keyboard_handle mouse_handle hid_hwnd quit_posted]. rewrite orb_false_r. destruct (Z.eqb_spec (hwnd m) window) as [E|E].
  - unfold on_input, HidWndProc. destruct (Z.eqb_spec (message m) WM_DESTROY) as [Em|Em].
    + rewrite filter_cons_False by (rewrite Em; intros [_ Hx]; discriminate Hx). cbn. by rewrite orb_true_r.
    + destruct (Z.eqb_spec (message m) WM_INPUT) as [Ei|Ei].
      * rewrite filter_cons_True, filter_nil by done. cbn [fmap list_fmap handle_inputs andb]. rewrite orb_false_r. cbn.
        unfold mbind, M_bind, res_bind. cbn [input]. destruct (raw_input _ _ (l_param m) i) as [[[] i']|f]; done.
      * rewrite filter_cons_False by (by intros []). cbn. by rewrite orb_false_r.
  - rewrite filter_cons_False by (by intros []). cbn. by rewrite orb_false_r.
Qed.
Lemma handle_inputs_app l1 l2 i : handle_inputs (l1 ++ l2) i = '(_, i') ← handle_inputs l1 i; handle_inputs l2 i'.
Proof.
  revert i. induction l1 as [|h l1 IH]; intros i; [done|]. cbn [app handle_inputs].
  unfold mbind, M_bind. by destruct (raw_input _ _ h i) as [[[] i']|f]; [rewrite IH|].
Qed.

Lemma loop_run ms : forall k fuel before s, hid_hwnd s = window -> delivers k ms -> (length ms < fuel)%nat -> loop fuel k before s = after ms s.
Proof.
  induction ms as [|m ms IH]; intros k fuel before s Hw Hd Hf; (destruct fuel as [|fuel]; [cbn in Hf; lia|]); cbn [message_loop].
  - specialize (Hd 0%nat before eq_refl). rewrite Nat.add_0_r in Hd. destruct (GetMessage k before) as [r m]. cbn in Hd. subst r.
    destruct s. cbn. by rewrite orb_false_r.
  - apply delivers_cons in Hd as [Hm Hd]. destruct (Hm before) as (r & Hr%Z.eqb_neq & E). rewrite E, Hr.
    unfold mbind, M_bind. rewrite dispatch_run by done. unfold after at 1. destruct (handle_inputs (inputs_of [m]) (input s)) as [[[] i]|f] eqn:Em; cbn [mbind res_bind].
    + rewrite (IH (S k) fuel m) by (done || (cbn in Hf; lia)). unfold after. cbn [input keyboard_handle mouse_handle hid_hwnd quit_posted].
      assert (inputs_of (m :: ms) = inputs_of [m] ++ inputs_of ms) as -> by (unfold inputs_of; by rewrite <- fmap_app, <- filter_app).
      rewrite handle_inputs_app, Em. cbn [mbind res_bind]. assert (closes (m :: ms) = closes [m] || closes ms) as -> by (unfold closes; by rewrite <- existsb_app).
      by rewrite orb_assoc.
    + unfold after. assert (inputs_of (m :: ms) = inputs_of [m] ++ inputs_of ms) as -> by (unfold inputs_of; by rewrite <- fmap_app, <- filter_app).
      by rewrite handle_inputs_app, Em.
Qed.

(** The state in which the loop begins. *)
Definition listening found s : ThreadState CS D := set_handles found (set_hwnd window s).
Lemma calc_run devices_fuel fuel found s : registered <> 0 -> window <> 0 ->
  query_devices GetRawInputDeviceList dwType check devices_fuel count_result device_count = Ok found ->
  calc devices_fuel fuel s = loop fuel 0 no_message (listening found s).
Proof.
  intros Hr%Z.eqb_neq Hw%Z.eqb_neq E. unfold ThreadCalc. rewrite Hr, Hw, E. done.
Qed.

(** The thread of the input devices, run as a looping thread with an empty queue, calls its ThreadCalc once and ends.
    When the window is made and the search for the devices succeeds, that handles the raw input of the messages to
    the window, each once and in the order of the messages, until Windows tells the end; the first input that cannot
    be handled stops the program. *)
Theorem hid_thread_run wait devices_fuel loop_fuel fuel wait_fuel found ms q s raw : registered <> 0 -> window <> 0 ->
  query_devices GetRawInputDeviceList dwType check devices_fuel count_result device_count = Ok found ->
  delivers 0 ms -> (length ms < loop_fuel)%nat -> (1 <= fuel)%nat -> abs q [] -> m_message_cs q = false ->
  ThreadBase.Run (virtual devices_fuel loop_fuel) wait fuel wait_fuel (thread raw) (q, s) =
    match handle_inputs (inputs_of ms) (input s) with
    | Ok (_, i) => Ok (tt, (q, mkThreadState (keyboard_handle (listening found s)) (mouse_handle (listening found s)) window i
                                (quit_posted s || closes ms)))
    | Fault f => Fault f
    end.
Proof.
  intros Hr Hw Hq Hd Hl Hf Ha Hcs. destruct fuel as [|fuel]; [lia|]. unfold ThreadBase.Run, thread. cbn [ThreadBase.m_run_mode ThreadBase.construct].
  rewrite M_ret_bind. cbn [ThreadBase.Run_loop ThreadBase.m_exit_message ThreadBase.construct ThreadBase.m_run_mode].
  change (u64 (-1) =? 0) with false. cbn [negb]. unfold mbind at 1, M_bind at 1. unfold virtual_ThreadCalc at 1.
  rewrite (calc_run _ _ _ _ Hr Hw Hq), (loop_run ms) by done. unfold after.
  change (input (listening found s)) with (input s). destruct (handle_inputs (inputs_of ms) (input s)) as [[[] i]|f]; [|done]. cbn [mbind res_bind].
  unfold sys.TryReceiveMessage, mbind, M_bind, ThreadBase.on_queue. rewrite (TryReceiveMessage_empty q Ha Hcs). cbn [default mret M_ret].
  destruct fuel; done.
Qed.

(** An error of GetMessage is not told from a message: as long as the answer is -1 the loop goes on with what it had,
    and an input that came before is handled again. *)
Theorem message_errors_spin k before s : hid_hwnd s = window ->
  (forall j m, (k <= j)%nat -> GetMessage j m = (-1, m)) ->
  (hwnd before <> window -> forall fuel, loop fuel k before s = Fault OutOfFuel) /\
  (forall fuel, loop (S fuel) k before s = (DispatchMessage GetSystemMetrics GetRawInputData before;; loop fuel (S k) before) s).
Proof.
  intros Hw Hg. split.
  - intros Hb fuel. revert k Hg. induction fuel as [|fuel IH]; intros k Hg; [done|]. cbn [message_loop]. rewrite Hg by done.
    cbn [Z.eqb]. unfold DispatchMessage at 1. rewrite M_bind_assoc, M_gets_bind, Hw. destruct (Z.eqb_spec (hwnd before) window); [done|].
    rewrite M_ret_bind. apply IH. intros j m Hj. apply Hg. lia.
  - intros fuel. cbn [message_loop]. by rewrite Hg.
Qed.

(** The event of raw data of the keyboard; a handle whose data are such an event. *)
Definition event_of (data : RAWKEYBOARD) : action :=
  if Flags data =? RI_KEY_MAKE then Make (VKey data) else if Flags data =? RI_KEY_BREAK then Break (VKey data)
  else OtherFlags (Flags data) (VKey data).
Definition carries (handle : Z) (data : RAWKEYBOARD) : Prop := exists mouse,
  GetRawInputData handle = ((sizeof_RAWINPUTHEADER, RIM_TYPEKEYBOARD), mouse, (sizeof_RAWINPUTHEADER + sizeof_RAWKEYBOARD, data)).

Lemma raw_input_event handle data : carries handle data ->
  raw_input GetSystemMetrics GetRawInputData handle = do_action GetSystemMetrics (event_of data).
Proof.
  intros ([mr m] & E). unfold raw_input. rewrite E. destruct data as [flags v]. unfold event_of, do_action. cbn [Flags VKey].
  destruct (Z.eqb_spec flags RI_KEY_MAKE) as [->|]; [done|]. by destruct (Z.eqb_spec flags RI_KEY_BREAK) as [->|].
Qed.
Lemma handle_events data handles i h : Forall (fun x => carries x (data x) /\ plain_action (event_of (data x))) handles -> history_of i h ->
  exists i', handle_inputs handles i = Ok (tt, i') /\ history_of i' (fun w => fold_left (key_step w) (event_of ∘ data <$> handles) (h w)).
Proof.
  intros Hall. revert i h. induction Hall as [|x handles [Hx Hp] _ IH]; intros i h Hi; [by exists i|].
  destruct (action_run GetSystemMetrics _ i h Hp Hi) as (i1 & E1 & H1). destruct (IH i1 _ H1) as (i' & E & Hi').
  exists i'. split; [|exact Hi']. cbn [handle_inputs]. by rewrite (raw_input_event x (data x) Hx), (M_bind_run _ _ _ _ _ E1).
Qed.

End thread_run.

(** * Example: the key W goes down and up, the window is closed *)
Section thread_example.
Import Hid HidThread.
#[local] Existing Instance no_lock.

Definition example_messages : list MSG := [mkMSG 9 WM_INPUT 0; mkMSG 8 WM_INPUT 0; mkMSG 9 WM_INPUT 1; mkMSG 9 WM_DESTROY 0].
Definition example_GetMessage (n : nat) (before : MSG) : Z * MSG :=
  match example_messages !! n with Some m => (1, m) | None => (0, before) end.
Definition example_data (handle : Z) : (Z * Z) * (Z * RAWMOUSE) * (Z * RAWKEYBOARD) :=
  ((sizeof_RAWINPUTHEADER, RIM_TYPEKEYBOARD), (0, mkRAWMOUSE 0 0 0 0 0), (sizeof_RAWINPUTHEADER + sizeof_RAWKEYBOARD, mkRAWKEYBOARD handle 0x57)).
Definition example_thread : ThreadState unit Z := mkThreadState None None 0 (initial tt) false.
Definition example_base : ThreadBase.ThreadBase := ThreadBase.mkThreadBase 0 0 0 0 0 0 ThreadRunMode_Looping.

End thread_example.
