(* ===== verification/Learn.v ===== *)
(** The scene of the sample program (src/test_program1/source/learn/learn_hello.cpp): what it loads, creates, draws
    and cleans up, and how the keys and the mouse move its camera.

    The files and images are read by functions that the repository declares and does not define (res_fileloader.hpp),
    the window's dimensions come from members of the context that are commented out: parameters.  The objects of the
    anonymous namespace live at the addresses of [Objects]; they are static, what their constructors do not assign
    is zero.  memcpy is recorded with the address it writes to and what it writes. *)
From Stdlib Require Import Reals.
From stdpp Require Import gmap strings.
From S2P Require Import Prelude Alignment Float32 Simd Vectors Matrices Camera Hid Vulkan VkContext VkMemory VkDescriptors VkShader VkCommands.

Module Learn.
Import VkMemory VkDescriptors VkShader VkCommands.

(** * The eye: what the input moves *)
Section eye.
Context {F D : Type} `{!Arith F} {AD : Arith D} {PD : Precision F D} (SinCosSampleTable : list F).
Context (sinf cosf tanf : F -> F).

Record Eye : Type := MkEye {
  camera : Camera.LookAtCamera F D; perspective_projection : Projection.Projection F; yaw : F; pitch : F
}.
Definition initial_eye : Eye :=
  let n (x : Z) : F := a_of_Z x in
  MkEye (Camera.construct (Vector3.V3 (n 0) (n 0) (n 3)) (Vector3.V3 (n 0) (n 0) (n 0)) (Vector3.V3 (n 0) (n 1) (n 0)))
    (Projection.PerspectiveProjection sinf cosf tanf (a_literal 1 1) (n 100) (Constants.TRadians (n 45)) (a_div (n 1280) (n 720)))
    (n (-90)) (n 0).

(** The direction of the angles, in units of the sample table. *)
Definition direction (yaw pitch : F) : res (Vector3.v3 F) :=
  let yaw_rad := Constants.AngleHalfRound (Constants.ToRadians yaw) in
  let pitch_rad := Constants.AngleHalfRound (Constants.ToRadians pitch) in
  cos_pitch ← Constants.SampleCos (D := D) SinCosSampleTable pitch_rad;
  cos_yaw ← Constants.SampleCos (D := D) SinCosSampleTable yaw_rad;
  sin_pitch ← Constants.SampleSin (D := D) SinCosSampleTable pitch_rad;
  sin_yaw ← Constants.SampleSin (D := D) SinCosSampleTable yaw_rad;
  Ok (Vector3.V3 (a_mul cos_yaw cos_pitch) sin_pitch (a_mul sin_yaw cos_pitch)).

(** [if (key_state.IsKeyHeld(key)) position = moved(position);] *)
Definition when_held (key_state : Hid.KeyboardState) (key : Z) (moved : Vector3.v3 F -> Vector3.v3 F) (position : Vector3.v3 F) : res (Vector3.v3 F) :=
  held ← Hid.IsKeyHeld key_state key; Ok (if (held : bool) then moved position else position).
Definition VirtualKey_W : Z := 0x57.
Definition VirtualKey_A : Z := 0x41.
Definition VirtualKey_S : Z := 0x53.
Definition VirtualKey_D : Z := 0x44.

(** One CalcTriangle, in a window of [width] and [height], with what GetDeltaTime, GetMouseState and GetKeyboardState
    answer. *)
Definition CalcTriangle (width height : Z) (delta_time : D) (mouse_state : Hid.MouseState) (key_state : Hid.KeyboardState) (e : Eye) : res Eye :=
  let projection := Projection.SetAspect (perspective_projection e) (a_div (a_of_Z width) (a_of_Z height)) in
  let new_pos := Camera.GetPos (camera e) in
  let up := Camera.GetUp (camera e) in
  let speed : F := narrow (a_mul (widen (a_literal 25 1 : F)) delta_time) in
  let sensitivity : F := a_literal 1 1 in
  let yaw := a_add (yaw e) (a_mul sensitivity (a_of_Z (Hid.delta_x mouse_state))) in
  let pitch := a_add (pitch e) (a_mul sensitivity (a_of_Z (Hid.delta_y mouse_state))) in
  dir ← direction yaw pitch;
  let front := Vector3.Normalize (D := D) dir in
  let side := Vector3.Normalize (D := D) (Vector3.Cross front up) in
  new_pos ← when_held key_state VirtualKey_W (fun p => Vector3.add_assign p (Vector3.mul front speed)) new_pos;
  new_pos ← when_held key_state VirtualKey_A (fun p => Vector3.sub_assign p (Vector3.mul side speed)) new_pos;
  new_pos ← when_held key_state VirtualKey_S (fun p => Vector3.sub_assign p (Vector3.mul front speed)) new_pos;
  new_pos ← when_held key_state VirtualKey_D (fun p => Vector3.add_assign p (Vector3.mul side speed)) new_pos;
  Ok (MkEye (Camera.SetAt (Camera.SetPos (camera e) new_pos) (Vector3.add new_pos front)) projection yaw pitch).

(** * The matrices of the cubes *)
Record ViewArg : Type := MkViewArg { model_matrix : Matrix34.m34 F; view_matrix : Matrix34.m34 F; projection_matrix : Matrix44.m44 F }.

Definition rotate_cube (m : Matrix34.m34 F) (i : Z) : res (Matrix34.m34 F) :=
  let rot_angle : F := a_mul (a_of_Z 20) (a_of_Z i) in
  m ← Matrix34Calc.RotateLocalX (D := D) SinCosSampleTable m rot_angle;
  m ← Matrix34Calc.RotateLocalY (D := D) SinCosSampleTable m (a_mul (a_literal 3 1) rot_angle);
  Matrix34Calc.RotateLocalZ (D := D) SinCosSampleTable m (a_mul (a_literal 5 1) rot_angle).
(** The loop over the cubes from [i] on; [place] is what it does to the model matrix before the rotations. *)
Fixpoint view_args (place : Matrix34.m34 F -> Vector3.v3 F -> Matrix34.m34 F) (cubes : list (Vector3.v3 F)) (i : Z)
    (view : Matrix34.m34 F) (p : Projection.Projection F) : res (list ViewArg * Projection.Projection F) :=
  match cubes with
  | [] => Ok ([], p)
  | cube :: cubes =>
    let '(projection, p) := Projection.GetProjectionMatrix p in
    model ← rotate_cube (place Matrix34.IdentityMatrix34 cube) i;
    '(rest, p) ← view_args place cubes (i + 1) view p;
    Ok (MkViewArg model view projection :: rest, p)
  end.

Definition tenths (n : Z) : F := a_literal n 1.
Definition CubePositions : list (Vector3.v3 F) :=
  (fun '(x, y, z) => Vector3.V3 (tenths x) (tenths y) (tenths z)) <$>
  [(0, 0, 0); (20, 50, -150); (-15, -22, -25); (-38, -20, -123); (24, -4, -35); (-17, 30, -75); (13, -20, -25);
   (15, 20, -25); (15, 2, -15); (-13, 10, -15)].
Definition with_eye_projection (e : Eye) (p : Projection.Projection F) : Eye := MkEye (camera e) p (yaw e) (pitch e).
(** SetupTriangle leaves the cubes where they are, DrawTriangle puts them to their positions. *)
Definition setup_args (e : Eye) : res (list ViewArg * Eye) :=
  '(args, p) ← view_args (fun m _ => m) CubePositions 0 (Camera.m_camera_mtx (camera e)) (perspective_projection e);
  Ok (args, with_eye_projection e p).
Definition draw_args (e : Eye) : res (list ViewArg * Eye) :=
  '(args, p) ← view_args (fun m cube => Matrix34.SetColumn m 3 cube) CubePositions 0 (Camera.m_camera_mtx (camera e)) (perspective_projection e);
  Ok (args, with_eye_projection e p).
End eye.
Arguments Eye : clear implicits.
Arguments ViewArg : clear implicits.

(** * What is drawn *)
Definition half (n : Z) : Float32.f32 := Float32.literal n 1.
(** A row of [vertices], in tenths: the position and the texture coordinates. *)
Definition vertex_rows : list (list Z) :=
  [[-5; -5; -5; 0; 0]; [5; -5; -5; 10; 0]; [5; 5; -5; 10; 10]; [5; 5; -5; 10; 10]; [-5; 5; -5; 0; 10]; [-5; -5; -5; 0; 0];
   [-5; -5; 5; 0; 0]; [5; -5; 5; 10; 0]; [5; 5; 5; 10; 10]; [5; 5; 5; 10; 10]; [-5; 5; 5; 0; 10]; [-5; -5; 5; 0; 0];
   [-5; 5; 5; 10; 0]; [-5; 5; -5; 10; 10]; [-5; -5; -5; 0; 10]; [-5; -5; -5; 0; 10]; [-5; -5; 5; 0; 0]; [-5; 5; 5; 10; 0];
   [5; 5; 5; 10; 0]; [5; 5; -5; 10; 10]; [5; -5; -5; 0; 10]; [5; -5; -5; 0; 10]; [5; -5; 5; 0; 0]; [5; 5; 5; 10; 0];
   [-5; -5; -5; 0; 10]; [5; -5; -5; 10; 10]; [5; -5; 5; 10; 0]; [5; -5; 5; 10; 0]; [-5; -5; 5; 0; 0]; [-5; -5; -5; 0; 10];
   [-5; 5; -5; 0; 10]; [5; 5; -5; 10; 10]; [5; 5; 5; 10; 0]; [5; 5; 5; 10; 0]; [-5; 5; 5; 0; 0]; [-5; 5; -5; 0; 10]].
Definition vertices : list Float32.f32 := half <$> concat vertex_rows.
Definition sizeof_vertices : Z := 4 * Z.of_nat (length (concat vertex_rows)).
Definition VerticeCount : Z := sizeof_vertices / (4 * 5).
Definition VerticeStride : Z := sizeof_vertices / VerticeCount.
Definition indices : list Z := [0; 1; 3; 1; 2; 3].
Definition sizeof_indices : Z := 4 * Z.of_nat (length indices).
Definition CubeCount : Z := 10.
(** Two matrices of three rows and one of four. *)
Definition sizeof_ViewArg : Z := 48 + 48 + 64.
Definition UniformBufferSize : Z := sizeof_ViewArg * CubeCount.

(** An image as LoadStbImage gives it. *)
Record image : Type := MkImage { data : Z; image_width : Z; image_height : Z; channels : Z }.
Class Loader : Type := {
  LoadFile : string -> code;
  LoadStbImage : string -> Z -> image;
  (** operator new[] with the alignment and the size, after the allocations before. *)
  operator_new : list (Z * Z) -> Z -> Z -> Z
}.

(** What memcpy copies, with its size. *)
Inductive content : Type :=
  | Vertices | Indices | Views (args : list (ViewArg Float32.f32)) | Pixels (data size : Z).
Definition size_of (c : content) : Z :=
  match c with
  | Vertices => sizeof_vertices | Indices => sizeof_indices | Views args => sizeof_ViewArg * Z.of_nat (length args) | Pixels _ size => size
  end.
(** Host memory: what has been allocated (address and size), what has been copied where, the images that were freed. *)
Record Host : Type := MkHost { allocations : list (Z * Z); copies : list (Z * content); freed : list Z }.

(** The objects that classes with an address refer to. *)
Record Objects : Type := MkObjects {
  vk_buffer_memory : Z; vk_vertex_buffer : Z; vk_index_buffer : Z; vk_uniform_buffer : Z; vk_image_memory : Z;
  vk_texture0 : Z; vk_texture1 : Z; vk_texture_view0 : Z; vk_texture_view1 : Z
}.
Record Scene : Type := MkScene {
  vk_shader : Shader; vk_pipeline_cmd_state : PipelineCmdState;
  vk_texture_descriptor_pool : DescriptorPool; vk_sampler_descriptor_pool : DescriptorPool; vk_sampler : Z;
  texture_view0_slot : Z; texture_view1_slot : Z; sampler_slot : Z;
  eye : Eye Float32.f32 Float32.f64; host : Host
}.
Definition set_eye (e : Eye Float32.f32 Float32.f64) (s : Scene) : Scene :=
  MkScene (vk_shader s) (vk_pipeline_cmd_state s) (vk_texture_descriptor_pool s) (vk_sampler_descriptor_pool s) (vk_sampler s)
    (texture_view0_slot s) (texture_view1_slot s) (sampler_slot s) e (host s).
Definition set_host (h : Host) (s : Scene) : Scene :=
  MkScene (vk_shader s) (vk_pipeline_cmd_state s) (vk_texture_descriptor_pool s) (vk_sampler_descriptor_pool s) (vk_sampler s)
    (texture_view0_slot s) (texture_view1_slot s) (sampler_slot s) (eye s) h.

Section scene.
Context `{!VkHeader, !Driver, !Loader} (this : Objects) (SinCosSampleTable : list Float32.f32).

Definition buffer_info (usage : vk_name) (offset : Z) : BufferInfo := MkBufferInfo sizeof_vertices offset (vk usage).
Definition texture_info (i : image) (offset : Z) : TextureInfo :=
  MkTextureInfo 0 (vk VK_IMAGE_USAGE_SAMPLED_BIT) 1 (u32 (image_width i)) (u32 (image_height i)) 1 (vk VK_FORMAT_R8G8B8A8_UNORM)
    (vk VK_IMAGE_LAYOUT_UNDEFINED) (vk VK_IMAGE_TYPE_2D) (vk VK_SAMPLE_COUNT_1_BIT) (vk VK_IMAGE_TILING_LINEAR) 1 offset.

(** Where the contents go, and the sizes of the two memories. *)
Record Layout : Type := MkLayout {
  index_offset : Z; uniform_offset : Z; texture0_size : Z; texture1_size : Z; texture1_offset : Z;
  buffer_memory_size : Z; image_memory_size : Z
}.
(** A product of two numbers of pixels, in int. *)
Definition pixels (i : image) (per_pixel : Z) : res Z := n ← chk32 (image_width i * image_height i); chk32 (n * per_pixel).
Definition lay_out (image0 image1 : image) : M Vk Layout :=
  texture0_size ← lift (pixels image0 4);
  texture1_size ← lift (pixels image1 (channels image1));
  alignment ← Buffer_GetAlignment (buffer_info VK_BUFFER_USAGE_INDEX_BUFFER_BIT 0);
  let index_offset := Alignment.AlignUp 64 sizeof_vertices alignment in
  alignment ← Buffer_GetAlignment (buffer_info VK_BUFFER_USAGE_UNIFORM_BUFFER_BIT 0);
  let uniform_offset := Alignment.AlignUp 64 (u64 (index_offset + sizeof_indices)) alignment in
  alignment ← GetRequiredMemoryAlignment (texture_info image1 0);
  let texture1_offset := u32 (Alignment.AlignUp 64 (u64 texture0_size) alignment) in
  mret (MkLayout index_offset uniform_offset texture0_size texture1_size texture1_offset
    (Alignment.AlignUp 64 (u64 (uniform_offset + UniformBufferSize)) VkContext.TargetMemoryPoolAlignment)
    (Alignment.AlignUp 64 (u64 (texture1_offset + texture1_size)) VkContext.TargetMemoryPoolAlignment)).

(** The two allocations, of the buffers' memory and of the images'. *)
Definition allocate (l : Layout) (h : Host) : res (Z * Z * Host) :=
  let b := operator_new (allocations h) VkContext.TargetMemoryPoolAlignment (buffer_memory_size l) in
  let a1 := allocations h ++ [(b, buffer_memory_size l)] in
  let i := operator_new a1 VkContext.TargetMemoryPoolAlignment (image_memory_size l) in
  if (b =? 0) || (i =? 0) then Fault AssertFailed
  else Ok (b, i, MkHost (a1 ++ [(i, image_memory_size l)]) (copies h) (freed h)).
Definition memcpy (to : Z) (c : content) (h : Host) : Host := MkHost (allocations h) (copies h ++ [(to, c)]) (freed h).
Definition fill (l : Layout) (memory_buffer memory_image : Z) (image0 image1 : image) (args : list (ViewArg Float32.f32)) (h : Host) : Host :=
  let h := memcpy memory_buffer Vertices h in
  let h := memcpy (u64 (memory_buffer + index_offset l)) Indices h in
  let h := memcpy (u64 (memory_buffer + uniform_offset l)) (Views args) h in
  let h := memcpy memory_image (Pixels (data image0) (texture0_size l)) h in
  let h := memcpy (u64 (memory_image + texture1_offset l)) (Pixels (data image1) (texture1_size l)) h in
  MkHost (allocations h) (copies h) (freed h ++ [data image0; data image1]).

Definition create_shader : M Vk Shader :=
  let vertex := LoadFile "resource/shader/primitive.vert.spv" in
  let fragment := LoadFile "resource/shader/primitive.frag.spv" in
  let none := MkCode 0 0 in
  Initialize_primitive (MkPrimitive 1 vertex none none none fragment).
Definition create_resources (l : Layout) (memory_buffer memory_image : Z) (image0 image1 : image) : M Vk unit :=
  let device := vk VK_MEMORY_PROPERTY_DEVICE_LOCAL_BIT in
  _ ← VkMemory.Pool_Initialize (vk_buffer_memory this) (MkPoolInfo (buffer_memory_size l)
        (Z.lor (Z.lor device (vk VK_MEMORY_PROPERTY_HOST_VISIBLE_BIT)) (vk VK_MEMORY_PROPERTY_HOST_COHERENT_BIT)) memory_buffer);
  _ ← VkMemory.Pool_Initialize (vk_image_memory this) (MkPoolInfo (image_memory_size l) device memory_image);
  _ ← Buffer_Initialize (vk_vertex_buffer this) (buffer_info VK_BUFFER_USAGE_VERTEX_BUFFER_BIT 0) (vk_buffer_memory this);
  _ ← Buffer_Initialize (vk_index_buffer this) (buffer_info VK_BUFFER_USAGE_INDEX_BUFFER_BIT (index_offset l)) (vk_buffer_memory this);
  _ ← Buffer_Initialize (vk_uniform_buffer this) (buffer_info VK_BUFFER_USAGE_UNIFORM_BUFFER_BIT (uniform_offset l)) (vk_buffer_memory this);
  _ ← Texture_Initialize (vk_texture0 this) (texture_info image0 0) (vk_image_memory this);
  Texture_Initialize (vk_texture1 this) (texture_info image1 (texture1_offset l)) (vk_image_memory this).
(** The view of a texture, with the defaults but the format. *)
Definition create_view (view texture : Z) : M Vk unit :=
  let '(d, aspect) := TextureViewInfo_SetDefaults in
  TextureView_Initialize view (MkView_Info (view_type d) (vk VK_FORMAT_R8G8B8A8_UNORM) (base_layer d) (layers d) (base_mip d) (mips d)
    (swizzle_r d) (swizzle_g d) (swizzle_b d) (swizzle_a d) texture) aspect.
Definition vk_input_binding_description : list Z := [0; VerticeStride; vk VK_VERTEX_INPUT_RATE_VERTEX; 1].
Definition vk_attribute_descriptions : list (list Z) := [[0; 0; vk VK_FORMAT_R32G32B32_SFLOAT; 0]; [1; 0; vk VK_FORMAT_R32G32_SFLOAT; 4 * 3]].
Definition pipeline_state (s : PipelineCmdState) : PipelineCmdState :=
  let d := Pipeline_SetDefaults s in
  MkPipelineState (color_blend_state d) (depth_stencil_state d) (rasterizer_state d)
    (MkVertex [vk_input_binding_description] vk_attribute_descriptions).

Definition SetupTriangle (s : Scene) : M Vk Scene :=
  shader ← create_shader;
  let image0 := LoadStbImage "resource/third_party/woodcrate.jpg" 4 in
  let image1 := LoadStbImage "resource/third_party/awesomeface.png" 0 in
  l ← lay_out image0 image1;
  '(memory_buffer, memory_image, h) ← lift (allocate l (host s));
  '(args, e) ← lift (@setup_args Float32.f32 Float32.f64 float_arith double_arith float_double SinCosSampleTable (eye s));
  let h := fill l memory_buffer memory_image image0 image1 args h in
  _ ← create_resources l memory_buffer memory_image image0 image1;
  _ ← create_view (vk_texture_view0 this) (vk_texture0 this);
  _ ← create_view (vk_texture_view1 this) (vk_texture1 this);
  sampler ← Sampler_Initialize SamplerInfo_SetDefaults;
  texture_pool ← VkDescriptors.Pool_Initialize (vk_texture_descriptor_pool s) (vk VK_DESCRIPTOR_TYPE_SAMPLED_IMAGE) 32;
  sampler_pool ← VkDescriptors.Pool_Initialize (vk_sampler_descriptor_pool s) (vk VK_DESCRIPTOR_TYPE_SAMPLER) 16;
  '(sampler_slot, sampler_pool) ← RegisterSampler sampler_pool sampler;
  '(view0_slot, texture_pool) ← RegisterTexture texture_pool (vk_texture_view0 this);
  '(view1_slot, texture_pool) ← RegisterTexture texture_pool (vk_texture_view1 this);
  mret (MkScene shader (pipeline_state (vk_pipeline_cmd_state s)) texture_pool sampler_pool sampler view0_slot view1_slot sampler_slot e h).

(** The textures' way from the undefined layout to one shaders read; the memory is relocated for the first only. *)
Definition texture_barrier_state : BarrierCmdState :=
  MkBarrierState (vk VK_PIPELINE_STAGE_TRANSFER_BIT) (vk VK_PIPELINE_STAGE_ALL_GRAPHICS_BIT) (vk VK_ACCESS_TRANSFER_WRITE_BIT)
    (vk VK_ACCESS_SHADER_READ_BIT) (vk VK_IMAGE_LAYOUT_UNDEFINED) (vk VK_IMAGE_LAYOUT_SHADER_READ_ONLY_OPTIMAL).
Definition ensure_transitioned (view : Z) (before : M Vk unit) : M CommandBuffer unit :=
  v ← on_vk (object views view);
  t ← on_vk (object textures (m_view_texture v));
  if m_vk_image_layout t =? vk VK_IMAGE_LAYOUT_UNDEFINED then
    _ ← on_vk before;
    SetTextureStateTransition (m_view_texture v) texture_barrier_state (vk VK_IMAGE_ASPECT_COLOR_BIT)
  else mret tt.
(** The uniform buffer is mapped and the arguments are copied there. *)
Definition update_uniforms (s : Scene) : M CommandBuffer Scene :=
  let e := eye s in
  let e := MkEye (@Camera.UpdateCameraMatrixSelf Float32.f32 Float32.f64 float_arith double_arith float_double (camera e)) (perspective_projection e) (yaw e) (pitch e) in
  '(args, e) ← lift (@draw_args Float32.f32 Float32.f64 float_arith double_arith float_double SinCosSampleTable e);
  ubo_address ← on_vk (Buffer_Map (vk_uniform_buffer this));
  _ ← dd_assert (negb (ubo_address =? 0));
  mret (set_host (memcpy ubo_address (Views args) (host s)) (set_eye e s)).
Definition bind_resources (s : Scene) (width height : Z) : M CommandBuffer unit :=
  _ ← SetDescriptorPool (vk_sampler_descriptor_pool s);
  _ ← SetDescriptorPool (vk_texture_descriptor_pool s);
  _ ← SetShader (vk_shader s);
  _ ← SetPipelineState (vk_pipeline_cmd_state s);
  _ ← SetVertexBuffer 0 (vk_vertex_buffer this) VerticeStride sizeof_vertices;
  address ← on_vk (GetGpuAddress (vk_uniform_buffer this));
  _ ← SetUniformBuffer 0 ShaderStage_Vertex address;
  _ ← SetTextureAndSampler 0 ShaderStage_Fragment (texture_view0_slot s) (sampler_slot s);
  _ ← SetTextureAndSampler 1 ShaderStage_Fragment (texture_view1_slot s) (sampler_slot s);
  let zero := Float32.of_Z 0 in
  _ ← SetViewports [[zero; zero; Float32.of_Z width; Float32.of_Z height; Float32.of_Z 1; zero]];
  SetScissors [[0; 0; width; height]].
Definition DrawTriangle (width height : Z) (s : Scene) : M CommandBuffer Scene :=
  s ← update_uniforms s;
  _ ← ensure_transitioned (vk_texture_view0 this) (RelocateHostMemoryToDevice (vk_image_memory this));
  _ ← ensure_transitioned (vk_texture_view1 this) (mret tt);
  _ ← bind_resources s width height;
  _ ← DrawInstanced (vk VK_PRIMITIVE_TOPOLOGY_TRIANGLE_LIST) VerticeCount 0 CubeCount 0;
  mret s.

Definition CleanTriangle (s : Scene) : M Vk Scene :=
  shader ← Shader_Finalize (vk_shader s);
  texture_pool ← lift (UnregisterResourceBySlot (vk_texture_descriptor_pool s) (texture_view1_slot s));
  texture_pool ← lift (UnregisterResourceBySlot texture_pool (texture_view0_slot s));
  _ ← VkDescriptors.Pool_Finalize texture_pool;
  sampler_pool ← lift (UnregisterResourceBySlot (vk_sampler_descriptor_pool s) (sampler_slot s));
  _ ← VkDescriptors.Pool_Finalize sampler_pool;
  _ ← TextureView_Finalize (vk_texture_view0 this);
  _ ← TextureView_Finalize (vk_texture_view1 this);
  _ ← Texture_Finalize (vk_texture0 this);
  _ ← Texture_Finalize (vk_texture1 this);
  _ ← Sampler_Finalize (vk_sampler s);
  _ ← Buffer_Finalize (vk_uniform_buffer this);
  _ ← Buffer_Finalize (vk_index_buffer this);
  _ ← Buffer_Finalize (vk_vertex_buffer this);
  _ ← VkMemory.Pool_Finalize (vk_image_memory this);
  _ ← VkMemory.Pool_Finalize (vk_buffer_memory this);
  mret (MkScene shader (vk_pipeline_cmd_state s) texture_pool sampler_pool (vk_sampler s) (texture_view0_slot s) (texture_view1_slot s)
          (sampler_slot s) (eye s) (host s)).
End scene.
End Learn.

(** * The camera moves *)
Section camera_moves.
Import Learn Vector3.
Implicit Types (e : Eye R R) (v w : v3 R).

Definition weight_of (plus minus : bool) : R := (IZR (Z.b2z plus) - IZR (Z.b2z minus))%R.
(** [p + a v + b w] *)
Definition combine (p v w : v3 R) (a b : R) : v3 R :=
  V3 (x p + a * x v + b * x w)%R (y p + a * y v + b * y w)%R (z p + a * z v + b * z w)%R.

Lemma normalize_length_one v : Dot v v <> 0%R -> Dot (Normalize (D := R) v) (Normalize (D := R) v) = 1%R.
Proof. intros H. exact (proj1 (scale_to_unit_dot v H)). Qed.
Lemma normalize_cross v w : Dot v v <> 0%R -> Dot v (Normalize (D := R) (Cross v w)) = 0%R.
Proof.
  intros _. unfold Normalize, scale_to_unit. rewrite Cross_lanes. destruct v as [a b c], w as [d f g]. cbn.
  case_bool_decide; cbn; ring.
Qed.
Lemma combine_norm p v w a b : Dot v v = 1%R -> Dot w w = 1%R -> Dot v w = 0%R ->
  Dot (sub (combine p v w a b) p) (sub (combine p v w a b) p) = (a * a + b * b)%R.
Proof.
  destruct p as [p1 p2 p3], v as [v1 v2 v3], w as [w1 w2 w3]. cbn. intros Hv Hw Hvw.
  transitivity (a * a * (v1 * v1 + v2 * v2 + v3 * v3) + b * b * (w1 * w1 + w2 * w2 + w3 * w3)
                + 2 * a * b * (v1 * w1 + v2 * w2 + v3 * w3))%R; [ring|]. rewrite Hv, Hw, Hvw. ring.
Qed.


(** Without a movement of the mouse and with W held: the angles are zero and the table has cosine one, sine zero. *)
Definition axis_table : list R := [1%R; 0%R; 0%R; 0%R].
Definition resting_eye : Eye R R :=
  MkEye (Camera.construct (V3 0 0 3)%R (V3 0 0 0)%R (V3 0 1 0)%R)
    (Projection.PerspectiveProjection (fun x => x) (fun x => x) (fun x => x) (1 / 10)%R 100%R 1%R 1%R) 0%R 0%R.
Definition forwards : Hid.KeyboardState := Hid.mkKeyboardState Hid.KeyState_zero [0; Z.shiftl 1 (VirtualKey_W - 64); 0; 0] Hid.KeyState_zero.
Definition still : Hid.MouseState := Hid.mkMouseState 0 0 0 0 0 0 0 0.

Lemma truncate_zero : to_u64 (T := R) 0%R = Ok 0.
Proof.
  unfold to_u64. cbn. destruct (decide _) as [H|_]; [by apply Rlt_irrefl in H|].
  rewrite <- (Int_part_spec 0%R 0); [done|]. split; [|apply Rle_refl]. rewrite Rminus_0_l, <- Ropp_0. apply Ropp_lt_contravar, Rlt_0_1.
Qed.
Lemma sample_zero offset x y : arr_get axis_table offset = Ok x -> arr_get axis_table (offset + 2) = Ok y -> y = 0%R ->
  Constants.sample (D := R) axis_table offset 0%R = Ok x.
Proof.
  intros Ex Ey ->. unfold Constants.sample. rewrite truncate_zero. cbn [mbind res_bind]. cbn -[arr_get axis_table Z.add].
  rewrite !Z.add_0_l, Ex. cbn [mbind res_bind]. rewrite Ey. cbn. f_equal. ring.
Qed.
Lemma direction_zero : direction (D := R) axis_table 0%R 0%R = Ok (V3 1 0 0)%R.
Proof.
  unfold direction, Constants.SampleCos, Constants.SampleSin. replace (Constants.AngleHalfRound (Constants.ToRadians 0%R)) with 0%R by (cbn; ring).
  rewrite (sample_zero 0 1%R 0%R), (sample_zero 1 0%R 0%R) by reflexivity. cbn. f_equal. f_equal; ring.
Qed.

End camera_moves.

(** * The first frame *)
Section first_frame.
Import Learn.
Local Abbreviation f32 := Float32.f32.
Local Abbreviation f64 := Float32.f64.
Local Existing Instances float_double.
Local Abbreviation sample_float := (@Constants.sample f32 f64 float_arith double_arith float_double).
Local Abbreviation direction_float := (@direction f32 f64 float_arith double_arith float_double).
Local Abbreviation to_u64_float := (@to_u64 f32 float_arith).
Implicit Types (table : list Float32.f32).

Definition units (degrees : Float32.f32) : Float32.f32 := @Constants.AngleHalfRound _ float_arith (@Constants.ToRadians _ float_arith degrees).

(** The angles after the mouse has moved. *)
Definition turned (mouse_delta : Z) (angle : Float32.f32) : Float32.f32 := Float32.add angle (Float32.mul (Float32.literal 1 1) (Float32.of_Z mouse_delta)).
Definition convertible (angle : Float32.f32) : bool := is_Ok (to_u64_float (units angle)).

Lemma to_u64_cases (x : Float32.f32) : (exists n, to_u64_float x = Ok n) \/ to_u64_float x = Fault BadConversion.
Proof. unfold to_u64. destruct (@a_truncate _ float_arith x) as [z|]; [|by right]. destruct ((0 <=? z) && (z <? 2 ^ 64)); [left; by eexists|by right]. Qed.
Lemma sample_fault table offset (x : Float32.f32) : to_u64_float x = Fault BadConversion -> sample_float table offset x = Fault BadConversion.
Proof. intros E. unfold Constants.sample. by rewrite E. Qed.

Lemma direction_cases table yaw pitch : length table = 1024%nat ->
  if convertible yaw && convertible pitch then exists dir, direction_float table yaw pitch = Ok dir
  else direction_float table yaw pitch = Fault BadConversion.
Proof.
  intros Hl. unfold direction, convertible, Constants.SampleCos, Constants.SampleSin. fold (units yaw) (units pitch).
  destruct (to_u64_cases (units pitch)) as [[n En]|En]; rewrite En; cbn [is_Ok].
  2: { rewrite andb_false_r, (sample_fault table 0 _ En). exact eq_refl. }
  destruct (@sample_total f32 f64 float_arith double_arith float_double table 0 _ n Hl ltac:(lia) En) as [cp ->], (@sample_total f32 f64 float_arith double_arith float_double table 1 _ n Hl ltac:(lia) En) as [sp ->].
  destruct (to_u64_cases (units yaw)) as [[m Em]|Em]; rewrite Em; cbn [is_Ok andb mbind res_bind].
  2: { rewrite (sample_fault table 0 _ Em). exact eq_refl. }
  destruct (@sample_total f32 f64 float_arith double_arith float_double table 0 _ m Hl ltac:(lia) Em) as [cy ->], (@sample_total f32 f64 float_arith double_arith float_double table 1 _ m Hl ltac:(lia) Em) as [sy ->]. by eexists.
Qed.

Definition readable (keys : Hid.KeyboardState) : Prop :=
  Forall (fun key => exists b, Hid.IsKeyHeld keys key = Ok b) [VirtualKey_W; VirtualKey_A; VirtualKey_S; VirtualKey_D].

(** CalcTriangle is defined exactly when the numbers of units of both angles are ones an unsigned integer has;
    a negative angle is converted to one, which is undefined.  The first frame does so when the mouse
    has not moved: yaw starts with 90 degrees below zero. *)
Theorem calc_defined table width height dt mouse keys (e : Eye Float32.f32 Float32.f64) :
    let calc := @CalcTriangle f32 f64 float_arith double_arith float_double table width height dt mouse keys in
    let start sinf cosf tanf := @initial_eye f32 f64 float_arith float_double sinf cosf tanf in
  length table = 1024%nat -> readable keys ->
  (if convertible (turned (Hid.delta_x mouse) (yaw e)) && convertible (turned (Hid.delta_y mouse) (pitch e))
   then exists e', calc e = Ok e' else calc e = Fault BadConversion) /\
  (forall sinf cosf tanf, Hid.delta_x mouse = 0 -> calc (start sinf cosf tanf) = Fault BadConversion).
Proof.
  intros calc start Hl Hk.
  assert (forall e, if convertible (turned (Hid.delta_x mouse) (yaw e)) && convertible (turned (Hid.delta_y mouse) (pitch e))
                    then exists e', calc e = Ok e' else calc e = Fault BadConversion) as Hc.
  { intros e0. unfold calc, CalcTriangle. pose proof (direction_cases table (turned (Hid.delta_x mouse) (yaw e0)) (turned (Hid.delta_y mouse) (pitch e0)) Hl) as Hd.
    cbv zeta. match goal with |- context [direction_float table ?y ?p] =>
      change (direction_float table y p) with (direction_float table (turned (Hid.delta_x mouse) (yaw e0)) (turned (Hid.delta_y mouse) (pitch e0))) end.
    destruct (convertible _ && convertible _); [destruct Hd as [dir ->]|by rewrite Hd]. unfold when_held.
    unfold readable in Hk. rewrite !Forall_cons in Hk. destruct Hk as ([w Ew] & [a Ea] & [s Es] & [d Ed] & _). cbn [mbind res_bind]. rewrite Ew, Ea, Es, Ed. by eexists. }
  split; [apply Hc|]. intros sinf cosf tanf Hx. specialize (Hc (start sinf cosf tanf)).
  assert (convertible (turned (Hid.delta_x mouse) (yaw (start sinf cosf tanf))) = false) as E; [|by rewrite E in Hc].
  change (yaw _) with (Float32.of_Z (-90)). rewrite Hx. by vm_compute.
Qed.

Lemma calc_defined_witness :
  let table := replicate 1024 (Float32.of_Z 0) in
  @CalcTriangle f32 f64 float_arith double_arith float_double table 1280 720 (Float32.of_Z64 0) still forwards
    (@initial_eye f32 f64 float_arith float_double (fun x => x) (fun x => x) (fun x => x)) = Fault BadConversion.
Proof.
  intros table. apply (calc_defined table 1280 720 (Float32.of_Z64 0) still forwards
    (@initial_eye f32 f64 float_arith float_double (fun x => x) (fun x => x) (fun x => x))).
  - reflexivity.
  - repeat (constructor; [eexists; reflexivity|]). constructor.
  - reflexivity.
Defined.
End first_frame.

(** * The memory of the scene *)
Section layout.
Import Learn VkMemory.
Context `{!VkHeader, !Driver}.

(** Alignments are powers of two, of a megabyte at most. *)
Definition alignments : Prop := forall l c, exists k, 0 <= k <= 20 /\ nth 1 (values (answers l c)) 0 = 2 ^ k.
(** An image with some number of channels whose bytes an int can count. *)
Definition countable (i : image) (per_pixel : Z) : Prop :=
  0 <= image_width i /\ 0 <= image_height i /\ 0 <= per_pixel <= 4 /\ image_width i * image_height i * 4 < 2 ^ 31.
(** The contents are one after the other between two addresses. *)
Fixpoint packed (lo hi : Z) (l : list (Z * content)) : Prop :=
  match l with [] => lo <= hi | (to, c) :: l => lo <= to /\ packed (to + size_of c) hi l end.

Lemma align_up_bounds x k : 0 <= x < 2 ^ 63 -> 0 <= k <= 20 -> x <= Alignment.AlignUp 64 x (2 ^ k) < x + 2 ^ 20.
Proof.
  intros Hx Hk. assert (0 < 2 ^ k <= 2 ^ 20) as Hp by (split; [by apply Z.pow_pos_nonneg; lia|apply Z.pow_le_mono_r; lia]).
  rewrite AlignUp_run by lia. pose proof (Z.div_mod (x + (2 ^ k - 1)) (2 ^ k)). pose proof (Z.mod_pos_bound (x + (2 ^ k - 1)) (2 ^ k)). lia.
Qed.
Lemma pixels_run i per_pixel : countable i per_pixel ->
  pixels i per_pixel = Ok (image_width i * image_height i * per_pixel) /\ 0 <= image_width i * image_height i * per_pixel < 2 ^ 31.
Proof.
  intros (Hw & Hh & Hp & Hb). unfold pixels. assert (0 <= image_width i * image_height i) by nia. rewrite !chk32_ok by nia.
  cbn [mbind res_bind]. rewrite chk32_ok by nia. split; [done|nia].
Qed.

(** The numbers of a layout with given alignments. *)
Definition layout_of (n0 n1 a_index a_uniform a_texture : Z) : Layout :=
  let index := Alignment.AlignUp 64 sizeof_vertices a_index in
  let uniform := Alignment.AlignUp 64 (u64 (index + sizeof_indices)) a_uniform in
  let texture1 := u32 (Alignment.AlignUp 64 (u64 n0) a_texture) in
  MkLayout index uniform n0 n1 texture1 (Alignment.AlignUp 64 (u64 (uniform + UniformBufferSize)) VkContext.TargetMemoryPoolAlignment)
    (Alignment.AlignUp 64 (u64 (texture1 + n1)) VkContext.TargetMemoryPoolAlignment).
Definition roomy (l : Layout) : Prop :=
  0 <= texture0_size l <= texture1_offset l /\ 0 <= texture1_size l /\ texture1_offset l + texture1_size l <= image_memory_size l < 2 ^ 34 /\
  sizeof_vertices <= index_offset l /\ index_offset l + sizeof_indices <= uniform_offset l /\
  uniform_offset l + UniformBufferSize <= buffer_memory_size l < 2 ^ 34.

Lemma layout_roomy n0 n1 k1 k2 k3 : 0 <= n0 < 2 ^ 31 -> 0 <= n1 < 2 ^ 31 -> 0 <= k1 <= 20 -> 0 <= k2 <= 20 -> 0 <= k3 <= 20 ->
  roomy (layout_of n0 n1 (2 ^ k1) (2 ^ k2) (2 ^ k3)).
Proof.
  intros Hn0 Hn1 Hk1 Hk2 Hk3. unfold roomy, layout_of; cbn -[Alignment.AlignUp sizeof_vertices sizeof_indices UniformBufferSize Z.pow].
  change sizeof_vertices with 720. change sizeof_indices with 24. change UniformBufferSize with 1600.
  change VkContext.TargetMemoryPoolAlignment with (2 ^ 12).
  pose proof (align_up_bounds 720 k1 ltac:(lia) Hk1) as B1. set (index := Alignment.AlignUp 64 720 _) in *. clearbody index.
  unfold u64, u32. rewrite (wrap_small 64 (index + 24)) by lia. rewrite (wrap_small 64 n0) by lia.
  pose proof (align_up_bounds (index + 24) k2 ltac:(lia) Hk2) as B2. set (uniform := Alignment.AlignUp 64 (index + 24) _) in *. clearbody uniform.
  pose proof (align_up_bounds n0 k3 ltac:(lia) Hk3) as B3. set (texture := Alignment.AlignUp 64 n0 _) in *. clearbody texture.
  rewrite (wrap_small 32 texture) by lia. rewrite !wrap_small by lia.
  pose proof (align_up_bounds (uniform + 1600) 12 ltac:(lia) ltac:(lia)). pose proof (align_up_bounds (texture + n1) 12 ltac:(lia) ltac:(lia)). lia.
Qed.

Lemma lay_out_run v image0 image1 : alignments -> countable image0 4 -> countable image1 (channels image1) ->
  exists l v', lay_out image0 image1 v = Ok (l, v') /\ roomy l.
Proof.
  intros Ha C0 C1. destruct (pixels_run _ _ C0) as [E0 B0], (pixels_run _ _ C1) as [E1 B1].
  destruct v as [lg c P B T V]. unfold lay_out, lift. rewrite E0, E1.
  set (c1 := GetDeviceBufferMemoryRequirements sizeof_vertices (vk VK_BUFFER_USAGE_INDEX_BUFFER_BIT)).
  set (c2 := GetDeviceBufferMemoryRequirements sizeof_vertices (vk VK_BUFFER_USAGE_UNIFORM_BUFFER_BIT)).
  set (c3 := GetDeviceImageMemoryRequirements (image_of (texture_info image1 0))).
  destruct (Ha lg c1) as (k1 & Hk1 & A1), (Ha (lg ++ [c1]) c2) as (k2 & Hk2 & A2), (Ha ((lg ++ [c1]) ++ [c2]) c3) as (k3 & Hk3 & A3).
  exists (layout_of (image_width image0 * image_height image0 * 4) (image_width image1 * image_height image1 * channels image1)
            (2 ^ k1) (2 ^ k2) (2 ^ k3)), (MkVk (((lg ++ [c1]) ++ [c2]) ++ [c3]) c P B T V).
  split; [|by apply layout_roomy]. rewrite <- A1, <- A2, <- A3. reflexivity.
Qed.

(** [C31] SetupTriangle's layout: for alignments that are powers of two up to a megabyte and images whose bytes an int
    can count, the vertices, the indices and the matrices lie one after the other inside of the first allocation and the
    two images inside of the second, whatever the images are.  The matrices need more than the uniform buffer that is
    created over them, which has the size of the vertices. *)
Theorem setup_in_bounds v image0 image1 : alignments -> countable image0 4 -> countable image1 (channels image1) ->
  exists l v', lay_out image0 image1 v = Ok (l, v') /\ buffer_size (buffer_info VK_BUFFER_USAGE_UNIFORM_BUFFER_BIT (uniform_offset l)) < UniformBufferSize /\
    forall b i args h, 0 <= b -> 0 <= i -> b + buffer_memory_size l < 2 ^ 64 -> i + image_memory_size l < 2 ^ 64 -> Z.of_nat (length args) = CubeCount ->
    exists in_buffers in_images, copies (fill l b i image0 image1 args h) = copies h ++ in_buffers ++ in_images /\
      packed b (b + buffer_memory_size l) in_buffers /\ packed i (i + image_memory_size l) in_images /\
      snd <$> in_buffers ++ in_images = [Vertices; Indices; Views args; Pixels (data image0) (texture0_size l); Pixels (data image1) (texture1_size l)].
Proof.
  intros Ha C0 C1. destruct (lay_out_run v _ _ Ha C0 C1) as (l & v' & E & R1 & R2 & R3 & R4 & R5 & R6). exists l, v'.
  split; [done|]. split; [done|]. change sizeof_vertices with 720 in *. change sizeof_indices with 24 in *. change UniformBufferSize with 1600 in *.
  intros b i args h Hb Hi Eb Ei Hn. unfold fill, memcpy; cbn [copies allocations freed].
  exists [(b, Vertices); (u64 (b + index_offset l), Indices); (u64 (b + uniform_offset l), Views args)],
    [(i, Pixels (data image0) (texture0_size l)); (u64 (i + texture1_offset l), Pixels (data image1) (texture1_size l))].
  split; [by rewrite <- !app_assoc|]. unfold u64. rewrite !wrap_small by lia. split_and!; [| |done]; cbn [packed size_of].
  - rewrite Hn. change sizeof_vertices with 720. change sizeof_indices with 24. change (sizeof_ViewArg * CubeCount) with 1600. lia.
  - lia.
Qed.
End layout.

Section layout_example.
Import Learn.
Local Instance layout_header : VkHeader := fun _ => 0.
(** Every answer has the alignment 256. *)
Local Instance aligning_driver : Driver := fun _ _ => MkAnswer 0 [4096; 256].

Lemma setup_in_bounds_witness :
  let image0 := MkImage 4096 100 50 4 in let image1 := MkImage 8192 30 30 3 in let v := MkVk [] (MkContext 0 0 0 0 0 [] 0) ∅ ∅ ∅ ∅ in
  exists l v', lay_out image0 image1 v = Ok (l, v') /\ index_offset l = 768 /\ uniform_offset l = 1024 /\ buffer_memory_size l = 4096.
Proof.
  intros image0 image1 v. destruct (setup_in_bounds v image0 image1) as (l & v' & E & _).
  - intros lg c. exists 8. split; [lia|reflexivity].
  - vm_compute. split_and!; first [discriminate|reflexivity].
  - vm_compute. split_and!; first [discriminate|reflexivity].
  - exists l, v'. split; [exact E|]. vm_compute in E. injection E as <- _. done.
Defined.
End layout_example.
