(* ===== verification/LearnLifetime.v ===== *)
(** The scene's objects live as long as they should: what SetupTriangle creates, with the buffers that the relocations of
    the first frames add, CleanTriangle destroys. *)
From Stdlib Require Import Reals.
From stdpp Require Import gmap strings.
From S2P Require Import Prelude Alignment Float32 Simd Vectors Matrices Camera Hid Vulkan VkContext VkMemory VkLifetime VkDescriptors VkShader VkCommands Learn.

(** * Memory pools *)
Section pools.
Import VkMemory.
Context `{!VkHeader, !Driver}.
Implicit Types (p : MemoryPool) (l cs : list call) (k : kind).

(** The driver reports no error and its handles are not null. *)
Definition gives_handles : Prop := reliable /\ forall l c, value (answers l c) <> 0.
(** There are memory types for what the scene asks for. *)
Definition memory_for (c : Context) (properties : Z) : Prop := s32 (VkContext.FindMemoryHeapIndex c properties) <> -1.

Inductive pool_state : Type := Fresh | Live (relocation : bool) | Relocated | Dead.
Definition pool_is (s : pool_state) p : Prop :=
  match s with
  | Fresh => m_is_import p = false /\ m_vk_staging_device_buffer p = 0 /\ m_vk_memory p = 0 /\ m_vk_staging_host_buffer p = 0 /\ m_vk_staging_memory p = 0
  | Live r => m_is_import p = false /\ m_pool_requires_relocation p = r /\ m_vk_staging_device_buffer p = 0 /\ m_vk_memory p <> 0 /\
              m_vk_staging_host_buffer p = 0 /\ (if r then m_vk_staging_memory p <> 0 else m_vk_staging_memory p = 0)
  | Relocated => m_is_import p = false /\ m_pool_requires_relocation p = false /\ m_vk_staging_device_buffer p <> 0 /\ m_vk_memory p <> 0 /\
                 m_vk_staging_host_buffer p <> 0 /\ m_vk_staging_memory p <> 0
  | Dead => True
  end.
(** A pool that has been initialized and not finalized. *)
Definition in_use (s : pool_state) : Prop := (exists r, s = Live r) \/ s = Relocated.
(** How many objects a pool holds. *)
Definition held (s : pool_state) k : Z :=
  match s, k with Live false, KMemory => 1 | Live true, KMemory | Relocated, KMemory | Relocated, KBuffer => 2 | _, _ => 0 end.

(** [m] runs on the pool at [this], keeps everything else and changes what the pool holds by what it creates. *)
Definition pool_runs (this : Z) (m : M Vk unit) (s : pool_state) (S : pool_state -> Prop) : Prop :=
  forall l c P B T V p, P !! this = Some p -> pool_is s p -> memory_for c (vk VK_MEMORY_PROPERTY_DEVICE_LOCAL_BIT) ->
    memory_for c (Z.lor (Z.lor (vk VK_MEMORY_PROPERTY_DEVICE_LOCAL_BIT) (vk VK_MEMORY_PROPERTY_HOST_VISIBLE_BIT)) (vk VK_MEMORY_PROPERTY_HOST_COHERENT_BIT)) ->
    memory_for c host_properties ->
  exists s' p' cs, m (MkVk l c P B T V) = Ok (tt, MkVk (l ++ cs) c (<[this := p']> P) B T V) /\ S s' /\ pool_is s' p' /\
    forall k, alive k cs = held s' k - held s k.

Ltac pool_step :=
  first [ vk_step
        | erewrite with_pool_run by (rewrite ?lookup_insert_eq; first [eassumption|reflexivity])
        | erewrite with_pool_end by (rewrite ?lookup_insert_eq; first [eassumption|reflexivity]) ];
  rewrite ?insert_insert_eq.

Lemma pool_initialize_runs this info : gives_handles -> import_memory info <> 0 ->
  (vk_memory_property_flags info = vk VK_MEMORY_PROPERTY_DEVICE_LOCAL_BIT \/
   vk_memory_property_flags info = Z.lor (Z.lor (vk VK_MEMORY_PROPERTY_DEVICE_LOCAL_BIT) (vk VK_MEMORY_PROPERTY_HOST_VISIBLE_BIT)) (vk VK_MEMORY_PROPERTY_HOST_COHERENT_BIT)) ->
  pool_runs this (Pool_Initialize this info) Fresh (fun s' => exists r, s' = Live r).
Proof.
  intros [Hr Hh] Hi%Z.eqb_neq Hf l c P B T V p Hp (I1 & I2 & I3 & I4 & I5) T1 T2 T3.
  assert (s32 (VkContext.FindMemoryHeapIndex c (vk_memory_property_flags info)) <> -1) as H1 by (destruct Hf as [-> | ->]; assumption).
  apply Z.eqb_neq in H1. apply Z.eqb_neq in T3.
  unfold Pool_Initialize, dd_assert, find_memory. cbn zeta. rewrite Hi. cbn [negb]. repeat pool_step.
  destruct (Z.land _ _ =? _) eqn:E.
  all: repeat (rewrite ?H1, ?T3; cbn [negb]; pool_step).
  - exists (Live false). do 2 eexists. split; [rewrite <- !app_assoc; reflexivity|]. split; [by eexists|].
    split; [split_and!; cbn; rewrite ?I1, ?I2, ?I4, ?I5; done|by intros []].
  - exists (Live true). do 2 eexists. split; [rewrite <- !app_assoc; reflexivity|]. split; [by eexists|].
    split; [split_and!; cbn; rewrite ?I1, ?I2, ?I4; done|by intros []].
Qed.

Lemma pool_relocate_runs this s : gives_handles -> in_use s ->
  pool_runs this (RelocateHostMemoryToDevice this) s in_use.
Proof.
  intros [Hr Hh] Hs l c P B T V p Hp Is _ _ _. unfold RelocateHostMemoryToDevice. pool_step.
  assert (m_pool_requires_relocation p = false \/ s = Live true) as [Hq| ->].
  { destruct Hs as [[r ->]| ->]; [|left; apply Is]. destruct r; [by right|left; apply Is]. }
  - rewrite Hq. exists s, p, []. rewrite app_nil_r, insert_id by done. split; [done|]. split; [done|]. split; [done|]. intros k; cbn; lia.
  - destruct Is as (I1 & I2 & I3 & I4 & I5 & I6). rewrite I2. cbn [negb]. repeat pool_step.
    exists Relocated. do 2 eexists. split; [rewrite <- !app_assoc; reflexivity|]. split; [by right|].
    split; [split_and!; cbn; rewrite ?I1; done|by intros []].
Qed.

Lemma pool_finalize_dead this s : in_use s ->
  pool_runs this (Pool_Finalize this) s (fun s' => s' = Dead).
Proof.
  intros Hs l c P B T V p Hp Is _ _ _. unfold Pool_Finalize, release. pool_step.
  destruct Hs as [[r ->]| ->]; [destruct Is as (I1 & I2 & I3 & I4%Z.eqb_neq & I5 & I6)|destruct Is as (I1 & I2 & I3%Z.eqb_neq & I4%Z.eqb_neq & I5%Z.eqb_neq & I6%Z.eqb_neq)].
  - destruct r; [apply Z.eqb_neq in I6|]; rewrite I1, I3, I4, I5, I6; cbn [Z.eqb]; repeat pool_step;
      (exists Dead; do 2 eexists; split; [rewrite <- ?app_assoc; reflexivity|split; [done|split; [done|by intros []]]]).
  - rewrite I1, I3, I4, I5, I6. cbn [Z.eqb]. repeat pool_step.
    exists Dead; do 2 eexists; split; [rewrite <- ?app_assoc; reflexivity|split; [done|split; [done|by intros []]]].
Qed.
End pools.

(** * The world of the scene *)
Section world.
Import VkMemory Learn.
Context `{!VkHeader, !Driver} (this : Objects) (Hd : gives_handles).
Implicit Types (v : Vk) (n : kind -> Z) (ps : bool -> pool_state).

(** The pool of the images, and that of the buffers. *)
Definition pool_at (images : bool) : Z := if images then vk_image_memory this else vk_buffer_memory this.
Definition set_pool (images : bool) (s : pool_state) ps : bool -> pool_state := fun b => if Bool.eqb images b then s else ps b.
Definition enough (c : Context) : Prop :=
  memory_for c (vk VK_MEMORY_PROPERTY_DEVICE_LOCAL_BIT) /\
  memory_for c (Z.lor (Z.lor (vk VK_MEMORY_PROPERTY_DEVICE_LOCAL_BIT) (vk VK_MEMORY_PROPERTY_HOST_VISIBLE_BIT)) (vk VK_MEMORY_PROPERTY_HOST_COHERENT_BIT)) /\
  memory_for c host_properties.

(** The scene's objects exist, the pools are in the states [ps], and of each kind [n] objects are alive besides those
    the pools hold. *)
Record world n ps v : Prop := {
  w_count k : alive k (log v) = n k + held (ps true) k + held (ps false) k;
  w_types : enough (context v);
  w_pool b : exists p, pools v !! pool_at b = Some p /\ pool_is (ps b) p;
  w_buffers : Forall (fun a => is_Some (buffers v !! a)) [vk_vertex_buffer this; vk_index_buffer this; vk_uniform_buffer this];
  w_textures : Forall (fun a => exists t, textures v !! a = Some t /\ m_import t = false) [vk_texture0 this; vk_texture1 this];
  w_views : Forall (fun a => is_Some (views v !! a)) [vk_texture_view0 this; vk_texture_view1 this]
}.
Definition more (c : call) n (k : kind) : Z := n k + weight k c.

Definition tot {A} (P : Vk -> Prop) (m : M Vk A) (Q : A -> Vk -> Prop) : Prop := forall v, P v -> exists a v', m v = Ok (a, v') /\ Q a v'.
Lemma tot_bind {A B} P (m : M Vk A) (f : A -> M Vk B) Q R : tot P m Q -> (forall a, tot (Q a) (f a) R) -> tot P (m ≫= f) R.
Proof. intros Hm Hf v HP. destruct (Hm v HP) as (a & v1 & E & HQ). rewrite (M_bind_run _ _ _ _ _ E). by apply Hf. Qed.
Lemma tot_ret {A} (P : Vk -> Prop) (a : A) (Q : A -> Vk -> Prop) : (forall v, P v -> Q a v) -> tot P (mret a) Q.
Proof. intros HQ v HP. exists a, v. split; [done|]. by apply HQ. Qed.
Lemma tot_lift {A B} P (r : res A) a (f : A -> M Vk B) Q : r = Ok a -> tot P (f a) Q -> tot P (lift r ≫= f) Q.
Proof. intros -> Hf v HP. destruct (Hf v HP) as (b & v' & E & HQ). by exists b, v'. Qed.
Lemma tot_pure {A} (F : Prop) P (m : M Vk A) Q : (F -> tot P m Q) -> tot (fun v => F /\ P v) m Q.
Proof. intros Hm v [HF HP]. by apply Hm. Qed.
Lemma tot_exists {A X} (P : X -> Vk -> Prop) (m : M Vk A) Q : (forall x, tot (P x) m Q) -> tot (fun v => exists x, P x v) m Q.
Proof. intros Hm v [x HP]. by apply (Hm x). Qed.
Lemma tot_assert (P : Vk -> Prop) b : b = true -> tot P (dd_assert b) (fun _ => P).
Proof. intros -> v HP. by exists tt, v. Qed.
Lemma tot_weaken {A} P (P' : Vk -> Prop) (m : M Vk A) Q (Q' : A -> Vk -> Prop) : (forall v, P' v -> P v) -> (forall a v, Q a v -> Q' a v) -> tot P m Q -> tot P' m Q'.
Proof. intros HP HQ Hm v H'. destruct (Hm v (HP v H')) as (a & v' & E & Hq). exists a, v'. auto. Qed.

Lemma world_ext n n' ps v : (forall k, n k = n' k) -> world n ps v -> world n' ps v.
Proof. intros Hn W. constructor; try apply W. intros k. rewrite <- Hn. apply W. Qed.
Lemma world_more n ps c v : world n ps v -> world (more c n) ps (set_log (fun l => l ++ [c]) v).
Proof.
  intros W. constructor; try apply W. intros k. cbn. rewrite alive_app. unfold more. cbn [alive]. rewrite (w_count _ _ _ W). lia.
Qed.
Lemma tot_submit n ps c : tot (world n ps) (submit c) (fun a => world (more c n) ps).
Proof. intros v W. do 2 eexists. split; [reflexivity|]. by apply world_more. Qed.
Lemma tot_record n ps c : tot (world n ps) (record c) (fun _ => world (more c n) ps).
Proof. intros v W. do 2 eexists. split; [reflexivity|]. by apply world_more. Qed.
Lemma tot_expect n ps c : tot (world n ps) (expect c) (fun h v => h <> 0 /\ world (more c n) ps v).
Proof.
  intros v W. destruct v as [l ctx P B T V]. exists (value (answers l c)), (MkVk (l ++ [c]) ctx P B T V). split.
  - unfold expect, submit, dd_assert, mbind, M_bind. by rewrite (proj1 Hd), Z.eqb_refl.
  - split; [apply Hd|]. exact (world_more _ _ c _ W).
Qed.

(** An operation on one of the pools. *)
Lemma tot_pool n ps b m S : pool_at true <> pool_at false -> pool_runs (pool_at b) m (ps b) S ->
  tot (world n ps) m (fun _ v => exists s', S s' /\ world n (set_pool b s' ps) v).
Proof.
  intros Hne Hm [l c P B T V] W. destruct (w_pool _ _ _ W b) as (p & Hp & Is). destruct (w_types _ _ _ W) as (T1 & T2 & T3).
  destruct (Hm l c P B T V p Hp Is T1 T2 T3) as (s' & p' & cs & E & HS & Is' & Hk). do 2 eexists. split; [exact E|].
  exists s'. split; [done|]. constructor; try apply W.
  - intros k. cbn. rewrite alive_app, Hk. pose proof (w_count _ _ _ W k) as Hc. cbn in Hc. rewrite Hc. unfold set_pool. destruct b; cbn; lia.
  - intros b'. cbn. unfold set_pool. destruct (Bool.eqb b b') eqn:Eb.
    + apply Bool.eqb_prop in Eb as <-. exists p'. by rewrite lookup_insert_eq.
    + rewrite lookup_insert_ne; [apply (w_pool _ _ _ W b')|]. by destruct b, b'; try done; apply not_eq_sym.
Qed.

(** The other objects. *)
Lemma Forall_insert {A} (m : gmap Z A) (Q : A -> Prop) i x keys : Q x -> Forall (fun a => exists y, m !! a = Some y /\ Q y) keys ->
  Forall (fun a => exists y, <[i := x]> m !! a = Some y /\ Q y) keys.
Proof.
  intros Hx HF. eapply Forall_impl; [exact HF|]. intros a (y & Hy & HQ). destruct (decide (i = a)) as [<-|Hne]; [exists x; by rewrite lookup_insert_eq|].
  exists y. by rewrite lookup_insert_ne.
Qed.
Lemma Forall_insert_some {A} (m : gmap Z A) i x keys : Forall (fun a => is_Some (m !! a)) keys -> Forall (fun a => is_Some (<[i := x]> m !! a)) keys.
Proof.
  intros HF. eapply Forall_impl; [exact HF|]. intros a Ha. destruct (decide (i = a)) as [<-|Hne]; [by rewrite lookup_insert_eq|by rewrite lookup_insert_ne].
Qed.
Lemma tot_object {A} (proj : Vk -> gmap Z A) (P : Vk -> Prop) a (Q : A -> Prop) : (forall v, P v -> exists x, proj v !! a = Some x /\ Q x) ->
  tot P (object proj a) (fun x v => Q x /\ P v).
Proof. intros Hx v HP. destruct (Hx v HP) as (x & Ex & HQ). exists x, v. unfold object, gets, mbind, M_bind. by rewrite Ex. Qed.
Lemma tot_modify_buffers n ps a b : tot (world n ps) (modify (set_buffers <[a := b]>)) (fun _ => world n ps).
Proof. intros v W. do 2 eexists. split; [reflexivity|]. constructor; try apply W. apply Forall_insert_some, W. Qed.
Lemma tot_modify_textures n ps a t : m_import t = false -> tot (world n ps) (modify (set_textures <[a := t]>)) (fun _ => world n ps).
Proof. intros Ht v W. do 2 eexists. split; [reflexivity|]. constructor; try apply W. by apply Forall_insert, W. Qed.
Lemma tot_modify_views n ps a w : tot (world n ps) (modify (set_views <[a := w]>)) (fun _ => world n ps).
Proof. intros v W. do 2 eexists. split; [reflexivity|]. constructor; try apply W. apply Forall_insert_some, W. Qed.

Lemma object_pool n ps b : tot (world n ps) (object pools (pool_at b)) (fun _ => world n ps).
Proof. eapply tot_weaken; [done| |apply (tot_object pools _ _ (fun _ => True))]; [by intros ? ? []|]. intros v W. destruct (w_pool _ _ _ W b) as (p & Hp & _). by exists p. Qed.
Lemma object_buffer n ps a : a ∈ [vk_vertex_buffer this; vk_index_buffer this; vk_uniform_buffer this] -> tot (world n ps) (object buffers a) (fun _ => world n ps).
Proof.
  intros Ha. eapply tot_weaken; [done| |apply (tot_object buffers _ _ (fun _ => True))]; [by intros ? ? []|].
  intros v W. destruct (proj1 (Forall_forall _ _) (w_buffers _ _ _ W) a Ha) as [x Hx]. by exists x.
Qed.
Lemma object_texture n ps a : a ∈ [vk_texture0 this; vk_texture1 this] -> tot (world n ps) (object textures a) (fun t v => m_import t = false /\ world n ps v).
Proof. intros Ha. apply tot_object. intros v W. exact (proj1 (Forall_forall _ _) (w_textures _ _ _ W) a Ha). Qed.
Lemma object_view n ps a : a ∈ [vk_texture_view0 this; vk_texture_view1 this] -> tot (world n ps) (object views a) (fun _ => world n ps).
Proof.
  intros Ha. eapply tot_weaken; [done| |apply (tot_object views _ _ (fun _ => True))]; [by intros ? ? []|].
  intros v W. destruct (proj1 (Forall_forall _ _) (w_views _ _ _ W) a Ha) as [x Hx]. by exists x.
Qed.

(** The counts of the calls, whatever their arguments are. *)
Definition plus (k : kind) (i : Z) n (k' : kind) : Z := n k' + (if decide (k = k') then i else 0).
Lemma tot_count {A} n n' ps (P : Vk -> Prop) (m : M Vk A) : (forall k, n k = n' k) -> tot P m (fun _ => world n ps) -> tot P m (fun _ => world n' ps).
Proof. intros Hn. apply tot_weaken; [done|]. intros _ v. by apply world_ext. Qed.
Ltac count := intros k; unfold more, plus; repeat case_decide; try congruence; destruct k; cbn; try congruence; lia.
Ltac then_ := intros ?; cbv beta.
Ltac create := eapply tot_bind; [apply tot_expect|]; then_; apply tot_pure; intros ?.

Lemma buffer_initialize_tot n ps a info b :
  tot (world n ps) (Buffer_Initialize a info (pool_at b)) (fun _ => world (plus KBuffer 1 n) ps).
Proof.
  unfold Buffer_Initialize. eapply tot_bind; [apply object_pool|]. then_. create. create.
  eapply tot_count; [|apply tot_modify_buffers]. count.
Qed.
Lemma buffer_finalize_tot n ps a : a ∈ [vk_vertex_buffer this; vk_index_buffer this; vk_uniform_buffer this] ->
  tot (world n ps) (Buffer_Finalize a) (fun _ => world (plus KBuffer (-1) n) ps).
Proof.
  intros Ha. unfold Buffer_Finalize. eapply tot_bind; [by apply object_buffer|]. then_. eapply tot_bind; [apply tot_record|]. then_.
  eapply tot_count; [|apply tot_modify_buffers]. count.
Qed.
Lemma texture_initialize_tot n ps a info b : a ∈ [vk_texture0 this; vk_texture1 this] ->
  tot (world n ps) (Texture_Initialize a info (pool_at b)) (fun _ => world (plus KImage 1 n) ps).
Proof.
  intros Ha. unfold Texture_Initialize. eapply tot_bind; [by apply object_texture|]. then_. apply tot_pure. intros Hi.
  eapply tot_bind; [apply object_pool|]. then_. create. create. eapply tot_count; [|by apply tot_modify_textures]. count.
Qed.
Lemma texture_finalize_tot n ps a : a ∈ [vk_texture0 this; vk_texture1 this] ->
  tot (world n ps) (Texture_Finalize a) (fun _ => world (plus KImage (-1) n) ps).
Proof.
  intros Ha. unfold Texture_Finalize. eapply tot_bind; [by apply object_texture|]. then_. apply tot_pure. intros ->.
  eapply tot_count; [|apply tot_record]. count.
Qed.
Lemma view_initialize_tot n ps a texture : texture ∈ [vk_texture0 this; vk_texture1 this] ->
  tot (world n ps) (create_view a texture) (fun _ => world (plus KView 1 n) ps).
Proof.
  intros Ht. unfold create_view, TextureView_Initialize, View_Initialize. cbn [TextureViewInfo_SetDefaults]. cbn [view_texture].
  eapply tot_bind; [by apply object_texture|]. then_. apply tot_pure. intros _. create. eapply tot_count; [|apply tot_modify_views]. count.
Qed.
Lemma view_finalize_tot n ps a : a ∈ [vk_texture_view0 this; vk_texture_view1 this] ->
  tot (world n ps) (TextureView_Finalize a) (fun _ => world (plus KView (-1) n) ps).
Proof.
  intros Ha. unfold TextureView_Finalize. eapply tot_bind; [by apply object_view|]. then_. eapply tot_count; [|apply tot_record]. count.
Qed.

(** Shaders and descriptor pools. *)
Definition created (module : Z) : Z := if module =? 0 then 0 else 1.
Lemma module_tot n ps c : tot (world n ps) (VkShader.module_of c) (fun m => world (plus KShaderModule (created m) n) ps).
Proof.
  unfold VkShader.module_of. destruct (VkShader.code_address c =? 0).
  - apply tot_ret. intros v. apply world_ext. count.
  - eapply tot_weaken; [done| |apply tot_expect]. intros m v [Hm%Z.eqb_neq W]. unfold created. rewrite Hm. eapply world_ext; [|exact W]. count.
Qed.
Lemma destroy_module_tot n ps m : tot (world n ps) (VkShader.destroy_module m) (fun _ => world (plus KShaderModule (- created m) n) ps).
Proof.
  unfold VkShader.destroy_module, created. destruct (m =? 0).
  - apply tot_ret. intros v. apply world_ext. count.
  - eapply tot_count; [|apply tot_record]. count.
Qed.
Lemma tot_context {A} n ps (f : Context -> M Vk A) Q : (forall c, tot (world n ps) (f c) Q) -> tot (world n ps) (c ← gets context; f c) Q.
Proof. intros Hf v W. exact (Hf (context v) v W). Qed.
Lemma pipeline_tot n ps stages count dynamic :
  tot (world n ps) (VkShader.create_pipeline stages count dynamic) (fun h v => h <> 0 /\ world (plus KPipeline 1 n) ps v).
Proof.
  unfold VkShader.create_pipeline. apply tot_context. intros c. eapply tot_weaken; [done| |apply tot_expect].
  intros h v [Hh W]. split; [done|]. eapply world_ext; [|exact W]. count.
Qed.
Lemma shader_tot n ps info :
  tot (world n ps) (VkShader.Initialize_primitive info) (fun sh v => VkShader.m_vk_pipeline sh <> 0 /\ world (plus KPipeline 1 n) ps v).
Proof.
  unfold VkShader.Initialize_primitive.
  do 5 (eapply tot_bind; [apply module_tot|]; intros ?; cbv beta).
  eapply tot_bind; [apply pipeline_tot|]. intros pipeline. cbv beta. apply tot_pure. intros Hp.
  do 5 (eapply tot_bind; [apply destroy_module_tot|]; then_).
  apply tot_ret. intros v W. split; [done|]. eapply world_ext; [|exact W]. count.
Qed.
Lemma shader_finalize_tot n ps sh : VkShader.m_vk_pipeline sh <> 0 ->
  tot (world n ps) (VkShader.Shader_Finalize sh) (fun _ => world (plus KPipeline (-1) n) ps).
Proof.
  intros Hp%Z.eqb_neq. unfold VkShader.Shader_Finalize. rewrite Hp. eapply tot_bind; [apply tot_record|]. then_.
  apply tot_ret. intros v W. eapply world_ext; [|exact W]. count.
Qed.

Import VkDescriptors.
Lemma descriptor_pool_tot n ps p type slots : type = vk VK_DESCRIPTOR_TYPE_SAMPLED_IMAGE \/ type = vk VK_DESCRIPTOR_TYPE_SAMPLER ->
  tot (world n ps) (VkDescriptors.Pool_Initialize p type slots) (fun p' v =>
    (exists pool set, p' = MkDescriptorPool pool set type slots 0 FreeListDefaultSize (m_free_id_stack_count p) (new_stack FreeListDefaultSize)) /\
    world (plus KDescriptorPool 1 n) ps v).
Proof.
  intros Ht. unfold VkDescriptors.Pool_Initialize. eapply tot_bind; [apply tot_assert|].
  { destruct Ht as [-> | ->]; rewrite Z.eqb_refl; [done|apply orb_true_r]. }
  then_. eapply tot_bind; [apply tot_expect|]. intros pool; cbv beta. apply tot_pure. intros _. apply tot_context. intros c.
  eapply tot_bind; [apply tot_expect|]. intros set; cbv beta. apply tot_pure. intros _. apply tot_ret. intros v W.
  split; [by eexists _, _|]. eapply world_ext; [|exact W]. count.
Qed.
(** The next slots of a pool that has no free ones. *)
Definition slots_taken p (i : Z) : DescriptorPool := set_counts i (m_free_id_stack_size p) 0 (m_free_id_stack p) p.
Lemma register_texture_tot n ps p i view : m_vk_pool_type p = vk VK_DESCRIPTOR_TYPE_SAMPLED_IMAGE -> 0 <= i < m_max_slot_ids p -> m_max_slot_ids p < 2 ^ 31 ->
  view ∈ [vk_texture_view0 this; vk_texture_view1 this] ->
  tot (world n ps) (RegisterTexture (slots_taken p i) view) (fun r v => r = (i, slots_taken p (i + 1)) /\ world n ps v).
Proof.
  intros Ht Hi Hm Hv. unfold RegisterTexture. eapply tot_bind; [apply tot_assert; cbn; by rewrite Ht, Z.eqb_refl|]. then_.
  eapply tot_lift.
  { unfold GetNewDescriptorId. cbn. destruct (Z.eqb_spec i (m_max_slot_ids p)); [lia|]. unfold u32. rewrite wrap_small by lia. reflexivity. }
  eapply tot_bind; [by apply object_view|]. then_. eapply tot_bind; [apply tot_record|]. then_. apply tot_ret. intros v W.
  split; [done|]. eapply world_ext; [|exact W]. count.
Qed.
Lemma register_sampler_tot n ps p i sampler : m_vk_pool_type p = vk VK_DESCRIPTOR_TYPE_SAMPLER -> 0 <= i < m_max_slot_ids p -> m_max_slot_ids p < 2 ^ 31 ->
  tot (world n ps) (RegisterSampler (slots_taken p i) sampler) (fun r v => r = (i, slots_taken p (i + 1)) /\ world n ps v).
Proof.
  intros Ht Hi Hm. unfold RegisterSampler. eapply tot_bind; [apply tot_assert; cbn; by rewrite Ht, Z.eqb_refl|]. then_.
  eapply tot_lift.
  { unfold GetNewDescriptorId. cbn. destruct (Z.eqb_spec i (m_max_slot_ids p)); [lia|]. unfold u32. rewrite wrap_small by lia. reflexivity. }
  eapply tot_bind; [apply tot_record|]. then_. apply tot_ret. intros v W. split; [done|]. eapply world_ext; [|exact W]. count.
Qed.
Lemma unregister_last p i : 0 < i < 2 ^ 31 -> UnregisterResourceBySlot (slots_taken p i) (i - 1) = Ok (slots_taken p (i - 1)).
Proof. intros Hi. unfold UnregisterResourceBySlot. cbn. unfold u32. rewrite wrap_small by lia. by rewrite Z.eqb_refl. Qed.
End world.

(** * The matrices can be computed *)
Section angles.
Import Learn.
Local Abbreviation f32 := Float32.f32.
Local Abbreviation rotate := (@rotate_cube f32 Float32.f64 float_arith double_arith float_double).
Implicit Types (table : list f32).

(** The angles of the cubes from [i] on are ones the table can be sampled at. *)
Definition cube_angles (i : Z) : list f32 :=
  let mul := @a_mul f32 float_arith in let tenths n := @a_literal f32 float_arith n 1 in
  let a := mul (@a_of_Z f32 float_arith 20) (@a_of_Z f32 float_arith i) in [a; mul (tenths 3) a; mul (tenths 5) a].
Definition sampled (a : f32) : bool := is_Ok (@to_u64 f32 float_arith (@Constants.AngleHalfRound f32 float_arith a)).

Lemma sine_cosine_total table a : length table = 1024%nat -> sampled a = true ->
  exists sc, @Vector3Calc.sine_cosine f32 Float32.f64 float_arith double_arith float_double table a = Ok sc.
Proof.
  intros Hl Ha. unfold sampled in Ha. destruct (@to_u64 f32 float_arith _) as [n|] eqn:En; [|done].
  unfold Vector3Calc.sine_cosine, Constants.SampleSin, Constants.SampleCos. cbv zeta.
  destruct (@sample_total f32 Float32.f64 float_arith double_arith float_double table 1 _ n Hl ltac:(lia) En) as [s ->].
  destruct (@sample_total f32 Float32.f64 float_arith double_arith float_double table 0 _ n Hl ltac:(lia) En) as [c ->]. by eexists.
Qed.
Lemma rotate_total table m i : length table = 1024%nat -> forallb sampled (cube_angles i) = true -> exists m', rotate table m i = Ok m'.
Proof.
  intros Hl (Hx & (Hy & (Hz & _)%andb_true_iff)%andb_true_iff)%andb_true_iff. unfold rotate_cube. cbv zeta.
  unfold Matrix34Calc.RotateLocalX, Matrix34Calc.RotateLocalY, Matrix34Calc.RotateLocalZ.
  destruct (sine_cosine_total table _ Hl Hx) as [[sx cx] Ex], (sine_cosine_total table _ Hl Hy) as [[sy cy] Ey], (sine_cosine_total table _ Hl Hz) as [[sz cz] Ez].
  rewrite Ex. cbn [mbind res_bind]. rewrite Ey. cbn [mbind res_bind]. rewrite Ez. by eexists.
Qed.
Lemma view_args_total table place cubes : length table = 1024%nat -> forall i view p,
  forallb (fun j => forallb sampled (cube_angles j)) (seqZ i (Z.of_nat (length cubes))) = true ->
  exists args p', @view_args f32 Float32.f64 float_arith double_arith float_double table place cubes i view p = Ok (args, p') /\ length args = length cubes.
Proof.
  intros Hl. induction cubes as [|cube cubes IH]; intros i view p Ha; cbn [view_args]; [by eexists _, _|].
  rewrite seqZ_cons in Ha by (cbn; lia). cbn [forallb] in Ha. apply andb_true_iff in Ha as [Hi Ha].
  replace (Z.pred (Z.of_nat (length (cube :: cubes)))) with (Z.of_nat (length cubes)) in Ha by (cbn; lia).
  destruct (@Projection.GetProjectionMatrix f32 float_arith p) as [projection p1].
  destruct (rotate_total table (place (@Matrix34.IdentityMatrix34 f32 float_arith) cube) i Hl Hi) as [m ->]. cbn [mbind res_bind].
  destruct (IH (i + 1) view p1) as (args & p' & -> & Hn); [by rewrite <- Z.add_1_r in Ha|]. cbn [mbind res_bind]. eexists _, _. split; [done|]. cbn. by rewrite Hn.
Qed.
Lemma setup_args_total table e : length table = 1024%nat ->
  exists args e', @setup_args f32 Float32.f64 float_arith double_arith float_double table e = Ok (args, e') /\ Z.of_nat (length args) = CubeCount.
Proof.
  intros Hl. unfold setup_args.
  destruct (view_args_total table (fun m _ => m) (@CubePositions f32 float_arith) Hl 0 (Camera.m_camera_mtx (camera e)) (perspective_projection e)) as (args & p & E & Hn);
    [by vm_compute|]. rewrite E. eexists _, _. split; [done|]. by rewrite Hn.
Qed.
End angles.

(** * Setup and cleaning *)
Section scene_lifetime.
Import VkMemory VkDescriptors Learn.
Context `{!VkHeader, !Driver, !Loader} (this : Objects) (table : list Float32.f32).
Context (Hd : gives_handles) (Hpools : vk_image_memory this <> vk_buffer_memory this) (Htable : length table = 1024%nat).
Context (Hnew : forall allocated alignment size, operator_new allocated alignment size <> 0).
Local Abbreviation image0 := (LoadStbImage "resource/third_party/woodcrate.jpg" 4).
Local Abbreviation image1 := (LoadStbImage "resource/third_party/awesomeface.png" 0).
Context (Hi0 : countable image0 4) (Hi1 : countable image1 (channels image1)).
Implicit Types (v : Vk) (n : kind -> Z) (ps : bool -> pool_state) (s : Scene).
Local Abbreviation world := (world this).

(** What SetupTriangle creates besides what the memory pools hold. *)
Definition scene_objects (k : kind) : Z :=
  match k with KPipeline => 1 | KBuffer => 3 | KImage => 2 | KView => 2 | KSampler => 1 | KDescriptorPool => 2 | _ => 0 end.
Definition with_scene n (k : kind) : Z := n k + scene_objects k.
(** A scene that has been set up: a pipeline, and two textures and a sampler that hold the first slots. *)
Definition set_up s : Prop :=
  VkShader.m_vk_pipeline (vk_shader s) <> 0 /\
  (exists p, vk_texture_descriptor_pool s = slots_taken p 2) /\ (exists p, vk_sampler_descriptor_pool s = slots_taken p 1) /\
  texture_view0_slot s = 0 /\ texture_view1_slot s = 1 /\ sampler_slot s = 0.
Definition all_fresh (_ : bool) : pool_state := Fresh.
Definition pools_ready ps : Prop := in_use (ps true) /\ in_use (ps false).

Ltac then_ := intros ?; cbv beta.
Ltac listed := first [by left|by right; left|by right; right; left].
Lemma tot_world_ret {A} n n' ps (a : A) : (forall k, n k = n' k) -> tot (world n ps) (mret a) (fun _ => world n' ps).
Proof. intros Hn. apply tot_ret. intros v. by apply world_ext. Qed.

Lemma lay_out_tot n ps : tot (world n ps) (lay_out image0 image1) (fun _ => world n ps).
Proof.
  destruct (pixels_run _ _ Hi0) as [E0 _], (pixels_run _ _ Hi1) as [E1 _]. unfold lay_out.
  eapply tot_lift; [exact E0|]. eapply tot_lift; [exact E1|]. unfold Buffer_GetAlignment, GetRequiredMemoryAlignment, GetMemoryRequirements.
  do 2 (eapply tot_bind; [eapply tot_bind; [apply tot_submit|then_; apply tot_world_ret; reflexivity]|then_]).
  eapply tot_bind; [eapply tot_bind; [eapply tot_bind; [apply tot_submit|then_; apply tot_world_ret; reflexivity]|then_; apply tot_world_ret; reflexivity]|then_].
  apply tot_world_ret. intros k. unfold more. destruct k; cbn; lia.
Qed.

Lemma resources_tot n l b i : b <> 0 -> i <> 0 ->
  tot (world n all_fresh) (create_resources this l b i image0 image1) (fun _ v => exists ps, pools_ready ps /\ world (plus KImage 2 (plus KBuffer 3 n)) ps v).
Proof.
  intros Hb Hi. unfold create_resources.
  eapply tot_bind; [apply (tot_pool this n all_fresh false _ (fun st : pool_state => exists r, st = Live r)); [done|apply pool_initialize_runs; [done|done|by right]]|].
  then_. apply tot_exists. intros st1. apply tot_pure. intros [r1 ->].
  eapply tot_bind; [apply (tot_pool this n _ true _ (fun st : pool_state => exists r, st = Live r)); [done|apply pool_initialize_runs; [done|done|by left]]|].
  then_. apply tot_exists. intros st2. apply tot_pure. intros [r2 ->]. set (ps := set_pool true _ _).
  do 3 (eapply tot_bind; [exact (buffer_initialize_tot this Hd _ _ _ _ false)|]; then_).
  eapply tot_bind; [apply (texture_initialize_tot this Hd _ _ _ _ true); listed|]. then_.
  eapply tot_weaken; [done| |apply (texture_initialize_tot this Hd _ _ _ _ true); listed].
  intros ? v W. exists ps. split; [by split; left; eexists|]. eapply world_ext; [|exact W]. intros k. unfold plus. destruct k; repeat case_decide; try congruence; lia.
Qed.

Lemma setup_tot n s : m_free_id_stack_count (vk_texture_descriptor_pool s) = 0 -> m_free_id_stack_count (vk_sampler_descriptor_pool s) = 0 ->
  tot (world n all_fresh) (SetupTriangle this table s) (fun s' v => set_up s' /\ exists ps, pools_ready ps /\ world (with_scene n) ps v).
Proof.
  intros Ht Hs. unfold SetupTriangle, create_shader. cbv zeta. eapply tot_bind; [apply (shader_tot this Hd)|]. intros shader. cbv beta. apply tot_pure. intros Hp.
  eapply tot_bind; [apply lay_out_tot|]. intros l. cbv beta.
  eapply tot_lift.
  { unfold allocate. rewrite !(proj2 (Z.eqb_neq _ _) (Hnew _ _ _)). reflexivity. }
  cbv beta iota. set (b := operator_new _ _ _). set (i := operator_new _ _ _).
  destruct (setup_args_total table (eye s) Htable) as (args & e & Ea & _). eapply tot_lift; [exact Ea|]. cbv beta iota.
  eapply tot_bind; [apply resources_tot; apply Hnew|]. then_. apply tot_exists. intros ps. apply tot_pure. intros Hps.
  do 2 (eapply tot_bind; [apply (view_initialize_tot this Hd); listed|]; then_).
  eapply tot_bind; [apply (tot_expect this Hd)|]. intros sampler. cbv beta. apply tot_pure. intros _.
  eapply tot_bind; [apply (descriptor_pool_tot this Hd); by left|]. intros tp. cbv beta. apply tot_pure. intros (tpool & tset & ->). rewrite Ht.
  eapply tot_bind; [apply (descriptor_pool_tot this Hd); by right|]. intros sp. cbv beta. apply tot_pure. intros (spool & sset & ->). rewrite Hs.
  set (tp := MkDescriptorPool tpool _ _ _ _ _ _ _). set (sp := MkDescriptorPool spool _ _ _ _ _ _ _).
  change tp with (slots_taken tp 0). change sp with (slots_taken sp 0).
  eapply tot_bind; [apply register_sampler_tot; [reflexivity|cbn; lia|cbn; lia]|]. intros r. cbv beta. apply tot_pure. intros ->. cbv iota.
  eapply tot_bind; [apply register_texture_tot; [reflexivity|cbn; lia|cbn; lia|listed]|]. intros r. cbv beta. apply tot_pure. intros ->. cbv iota.
  eapply tot_bind; [apply register_texture_tot; [reflexivity|cbn; lia|cbn; lia|listed]|]. intros r. cbv beta. apply tot_pure. intros ->. cbv iota.
  apply tot_ret. intros v W. split; [exact (conj Hp (conj (ex_intro _ tp eq_refl) (conj (ex_intro _ sp eq_refl) (conj eq_refl (conj eq_refl eq_refl)))))|].
  exists ps. split; [exact Hps|].   eapply world_ext; [|exact W]. intros k. unfold plus, more, with_scene. destruct k; repeat case_decide; try congruence; cbn; lia.
Qed.

Lemma clean_tot n ps s : set_up s -> pools_ready ps ->
  tot (world (with_scene n) ps) (CleanTriangle this s) (fun _ => world n (fun _ => Dead)).
Proof.
  intros (Hp & [tp Et] & [sp Es] & E0 & E1 & E2) [Hi Hb]. unfold CleanTriangle.
  eapply tot_bind; [by apply (shader_finalize_tot this)|]. intros shader. cbv beta.
  rewrite Et, Es, E0, E1, E2. eapply tot_lift; [exact (unregister_last tp 2 ltac:(lia))|]. eapply tot_lift; [exact (unregister_last tp 1 ltac:(lia))|].
  eapply tot_bind; [apply tot_record|]. then_. eapply tot_lift; [exact (unregister_last sp 1 ltac:(lia))|].
  eapply tot_bind; [apply tot_record|]. then_.
  do 2 (eapply tot_bind; [apply (view_finalize_tot this); listed|]; then_).
  do 2 (eapply tot_bind; [apply (texture_finalize_tot this); listed|]; then_).
  eapply tot_bind; [apply tot_record|]. then_.
  do 3 (eapply tot_bind; [apply (buffer_finalize_tot this); listed|]; then_).
  eapply tot_bind; [apply (tot_pool this _ ps true _ (fun st : pool_state => st = Dead)); [exact Hpools|by apply pool_finalize_dead]|].
  then_. apply tot_exists. intros st. apply tot_pure. intros ->.
  eapply tot_bind; [apply (tot_pool this _ _ false _ (fun st : pool_state => st = Dead)); [exact Hpools|by apply pool_finalize_dead]|].
  then_. apply tot_exists. intros st. apply tot_pure. intros ->.
  apply tot_ret. intros v W.
  assert (world n (set_pool false Dead (set_pool true Dead ps)) v) as [W1 W2 W3 W4 W5 W6].
  { eapply world_ext; [|exact W]. intros k. unfold plus, more, with_scene. destruct k; repeat case_decide; try congruence; cbn; lia. }
  constructor; try assumption. intros b. by destruct (W3 b) as (p & Hp' & Is); exists p; destruct b.
Qed.

(** What frames do to the objects: relocate the memory of the images, or that of the buffers. *)
Fixpoint relocations (l : list bool) : M Vk unit :=
  match l with [] => mret tt | images :: l => _ ← RelocateHostMemoryToDevice (pool_at this images); relocations l end.
Lemma relocations_tot n l : forall ps, pools_ready ps -> tot (world n ps) (relocations l) (fun _ v => exists ps', pools_ready ps' /\ world n ps' v).
Proof.
  induction l as [|images l IH]; intros ps Hp; cbn [relocations]; [apply tot_ret; intros v W; by exists ps|].
  eapply tot_bind; [apply (tot_pool this n ps images _ in_use); [exact Hpools|]|].
  { apply pool_relocate_runs; [exact Hd|]. destruct images; apply Hp. }
  then_. apply tot_exists. intros st. apply tot_pure. intros Hst. apply IH. unfold pools_ready, set_pool in *. destruct images; cbn; tauto.
Qed.

Definition lifetime (frames : list bool) s : M Vk Scene := s ← SetupTriangle this table s; _ ← relocations frames; CleanTriangle this s.
Lemma lifetime_tot n frames s : m_free_id_stack_count (vk_texture_descriptor_pool s) = 0 -> m_free_id_stack_count (vk_sampler_descriptor_pool s) = 0 ->
  tot (world n all_fresh) (lifetime frames s) (fun _ => world n (fun _ => Dead)).
Proof.
  intros Ht Hs. unfold lifetime. eapply tot_bind; [by apply setup_tot|]. intros s'. cbv beta. apply tot_pure. intros Hset.
  apply tot_exists. intros ps. apply tot_pure. intros Hp. eapply tot_bind; [by apply relocations_tot|]. then_.
  apply tot_exists. intros ps'. apply tot_pure. intros Hp'. by apply clean_tot.
Qed.
End scene_lifetime.

Section lifetime_theorem.
Import VkDescriptors Learn.
Context `{!VkHeader, !Driver, !Loader}.

End lifetime_theorem.

(** * A scene *)
Section scene_example.
Import VkMemory VkDescriptors VkCommands Learn.
Local Instance header : VkHeader := some_header.
Local Instance driver : Driver := counting_driver.
Local Instance loader : Loader := {|
  LoadFile _ := VkShader.MkCode 64 8192; LoadStbImage _ _ := MkImage 12288 16 16 4;
  operator_new allocated _ _ := 65536 * (Z.of_nat (length allocated) + 1) |}.

Definition sample_objects : Objects := MkObjects 1 2 3 4 5 6 7 8 9.
Definition sample_table : list Float32.f32 := replicate 1024 (Float32.of_Z 0).
Definition empty_pool : MemoryPool := MkMemoryPool 0 0 0 0 0 false false false 0 0.
Definition static_vk : Vk :=
  MkVk [] (MkContext 0 0 0 0 0 [1; 7] 0) {[1 := empty_pool; 5 := empty_pool]} {[2 := MkBuffer 0 0 0 false; 3 := MkBuffer 0 0 0 false; 4 := MkBuffer 0 0 0 false]}
    {[6 := MkTexture 0 None 0 false false; 7 := MkTexture 0 None 0 false false]} {[8 := MkView 0 0; 9 := MkView 0 0]}.
Definition static_eye : Eye Float32.f32 Float32.f64 :=
  @initial_eye Float32.f32 Float32.f64 float_arith float_double (fun x => x) (fun x => x) (fun x => x).
Definition static_pool : DescriptorPool := MkDescriptorPool 0 0 0 0 0 0 0 [].
Definition static_scene : Scene :=
  MkScene VkShader.no_shader (MkPipelineState (MkColorBlend 0 [] [] [] false 0 []) DepthStencil_SetDefaults Rasterizer_SetDefaults Vertex_SetDefaults)
    static_pool static_pool 0 0 0 0 static_eye (MkHost [] [] []).

End scene_example.
