(* ===== verification/SampleMain.v ===== *)
(** The main program of the sample (src/test_program1/source/main.cpp): one frame, from the targets to the message for
    the presentation, and the two threads that start and end together, one with the window and the context, one with
    the scene.

    The presentation and the resizing of the context are commented out in the library; of the frame they are the answer
    of IsSkipDrawUnsafe and the message.  Of the threads every statement is a step that reads or writes what they
    share: the event, the lock and the flag. *)
From stdpp Require Import gmap strings.
From S2P Require Import Prelude Float32 Vulkan VkContext VkMemory VkDescriptors VkDisplay VkShader VkCommands VkRendering Learn LearnLifetime.

Module SampleMain.
Import VkShader VkCommands.

(** * A frame *)
Section frame.
Context `{!VkHeader, !Driver} (this : VkDisplay.Members) (objects : Learn.Objects) (SinCosSampleTable : list Float32.f32).

Definition color_barrier_state : BarrierCmdState :=
  MkBarrierState (vk VK_PIPELINE_STAGE_COLOR_ATTACHMENT_OUTPUT_BIT) (vk VK_PIPELINE_STAGE_COLOR_ATTACHMENT_OUTPUT_BIT) 0
    (vk VK_ACCESS_COLOR_ATTACHMENT_WRITE_BIT) (vk VK_IMAGE_LAYOUT_UNDEFINED) (vk VK_IMAGE_LAYOUT_GENERAL).
Definition depth_barrier_state : BarrierCmdState :=
  MkBarrierState (vk VK_PIPELINE_STAGE_EARLY_FRAGMENT_TESTS_BIT) (vk VK_PIPELINE_STAGE_EARLY_FRAGMENT_TESTS_BIT) 0
    (vk VK_ACCESS_DEPTH_STENCIL_ATTACHMENT_WRITE_BIT) (vk VK_IMAGE_LAYOUT_UNDEFINED) (vk VK_IMAGE_LAYOUT_GENERAL).
Definition present_barrier_state : BarrierCmdState :=
  MkBarrierState (vk VK_PIPELINE_STAGE_COLOR_ATTACHMENT_OUTPUT_BIT) (vk VK_PIPELINE_STAGE_BOTTOM_OF_PIPE_BIT)
    (vk VK_ACCESS_COLOR_ATTACHMENT_WRITE_BIT) 0 (vk VK_IMAGE_LAYOUT_GENERAL) (vk VK_IMAGE_LAYOUT_PRESENT_SRC_KHR).
Definition depth_stencil_aspect : Z := Z.lor (vk VK_IMAGE_ASPECT_DEPTH_BIT) (vk VK_IMAGE_ASPECT_STENCIL_BIT).

(** Draw of the display buffer [d], in a window of [width] and [height]; the answer is whether the command buffer has
    been sent to the thread that presents it. *)
Definition Draw (d : VkDisplay.DisplayBuffer) (skip : bool) (width height : Z) (s : Learn.Scene) : M CommandBuffer (Learn.Scene * bool) :=
  if skip then mret (s, false) else
  current_color_target ← lift (VkDisplay.GetCurrentColorTarget this d);
  let depth_stencil_target := VkDisplay.m_depth_stencil_target this in
  color ← on_vk (object views current_color_target);
  depth ← on_vk (object views depth_stencil_target);
  let zero := Float32.of_Z 0 in
  _ ← RegisterFastClearColor [zero; zero; zero; Float32.of_Z 1];
  _ ← RegisterFastClearDepthStencil (zero, 0);
  _ ← Begin;
  _ ← SetTextureStateTransition (m_view_texture color) color_barrier_state (vk VK_IMAGE_ASPECT_COLOR_BIT);
  _ ← SetTextureStateTransition (m_view_texture depth) depth_barrier_state depth_stencil_aspect;
  _ ← SetRenderTargets [Some current_color_target] (Some depth_stencil_target);
  s ← Learn.DrawTriangle objects SinCosSampleTable width height s;
  _ ← SetTextureStateTransition (m_view_texture color) present_barrier_state (vk VK_IMAGE_ASPECT_COLOR_BIT);
  _ ← End;
  mret (s, true).
End frame.

(** * The two threads *)
(** Where main is, by the statement it is about to do. *)
Inductive main_pc : Type :=
  | M_CreateThread | M_WaitContext | M_ResetContext | M_Setup | M_Lock | M_Check | M_Unlock | M_Frame | M_Clean | M_Signal
  | M_WaitWindow | M_Close | M_Done.
(** Where ContextMain is. *)
Inductive window_pc : Type :=
  | W_NotCreated | W_Init | W_SignalReady | W_Messages | W_LockExit | W_SetExit | W_UnlockExit | W_WaitMain | W_ResetMain
  | W_Cleanup | W_Done.
Inductive owner : Type := Free | Main | Window.
#[export] Instance main_pc_eq_dec : EqDecision main_pc.
Proof. solve_decision. Defined.
#[export] Instance window_pc_eq_dec : EqDecision window_pc.
Proof. solve_decision. Defined.
#[export] Instance owner_eq_dec : EqDecision owner.
Proof. solve_decision. Defined.

Record Threads : Type := MkThreads {
  main_at : main_pc; window_at : window_pc; context_event : bool; context_lock : owner; is_ready_for_exit : bool
}.
#[export] Instance threads_eq_dec : EqDecision Threads.
Proof. solve_decision. Defined.
Definition started : Threads := MkThreads M_CreateThread W_NotCreated false Free false.

(** The next step of main; none when it waits or has returned. *)
Definition step_main (t : Threads) : option Threads :=
  let w := window_at t in let e := context_event t in let l := context_lock t in let r := is_ready_for_exit t in
  match main_at t with
  | M_CreateThread => Some (MkThreads M_WaitContext W_Init e l r)
  | M_WaitContext => if e then Some (MkThreads M_ResetContext w e l r) else None
  | M_ResetContext => Some (MkThreads M_Setup w false l r)
  | M_Setup => Some (MkThreads M_Lock w e l r)
  | M_Lock => match l with Free => Some (MkThreads M_Check w e Main r) | _ => None end
  | M_Check => Some (MkThreads (if r then M_Clean else M_Unlock) w e l r)
  | M_Unlock => Some (MkThreads M_Frame w e Free r)
  | M_Frame => Some (MkThreads M_Lock w e l r)
  | M_Clean => Some (MkThreads M_Signal w e l r)
  | M_Signal => Some (MkThreads M_WaitWindow w true l r)
  | M_WaitWindow => match w with W_Done => Some (MkThreads M_Close w e l r) | _ => None end
  | M_Close => Some (MkThreads M_Done w e l r)
  | M_Done => None
  end.
(** The next step of ContextMain; [closed] is whether GetMessage gives the message that ends the loop. *)
Definition step_window (closed : bool) (t : Threads) : option Threads :=
  let m := main_at t in let e := context_event t in let l := context_lock t in let r := is_ready_for_exit t in
  match window_at t with
  | W_NotCreated | W_Done => None
  | W_Init => Some (MkThreads m W_SignalReady e l r)
  | W_SignalReady => Some (MkThreads m W_Messages true l r)
  | W_Messages => Some (MkThreads m (if closed then W_LockExit else W_Messages) e l r)
  | W_LockExit => match l with Free => Some (MkThreads m W_SetExit e Window r) | _ => None end
  | W_SetExit => Some (MkThreads m W_UnlockExit e l true)
  | W_UnlockExit => Some (MkThreads m W_WaitMain e Free r)
  | W_WaitMain => if e then Some (MkThreads m W_ResetMain e l r) else None
  | W_ResetMain => Some (MkThreads m W_Cleanup false l r)
  | W_Cleanup => Some (MkThreads m W_Done e l r)
  end.

(** One step of a run in which the window can be closed where [may_close] says so. *)
Inductive step (may_close : Threads -> bool) : Threads -> Threads -> Prop :=
  | step_of_main t t' : step_main t = Some t' -> step may_close t t'
  | step_of_window t t' : step_window false t = Some t' -> step may_close t t'
  | step_of_closing t t' : may_close t = true -> step_window true t = Some t' -> step may_close t t'.
Definition anytime (t : Threads) : bool := true.
(** Only when main has gone on from the first event. *)
Definition after_start (t : Threads) : bool :=
  match main_at t with M_CreateThread | M_WaitContext | M_ResetContext => false | _ => true end.

(** Main is about to use the context, and whether it exists. *)
Definition uses_context (t : Threads) : bool :=
  match main_at t with M_Setup | M_Frame | M_Clean => true | _ => false end.
Definition context_exists (t : Threads) : bool :=
  match window_at t with W_NotCreated | W_Init | W_Cleanup | W_Done => false | _ => true end.
End SampleMain.

(** * What the threads promise each other *)
Section threads.
Import SampleMain.
Implicit Types (t : Threads) (may_close : Threads -> bool) (seen : list Threads).

Definition one (o : option Threads) : list Threads := match o with Some t => [t] | None => [] end.
Definition successors may_close t : list Threads :=
  one (step_main t) ++ one (step_window false t) ++ (if may_close t then one (step_window true t) else []).
(** Adds what [n] rounds of steps reach. *)
Fixpoint explore may_close (n : nat) seen : list Threads :=
  match n with O => seen | S n => explore may_close n (remove_dups (seen ++ (seen ≫= successors may_close))) end.
Definition closed may_close seen : bool :=
  forallb (fun t => forallb (fun t' => bool_decide (t' ∈ seen)) (successors may_close t)) seen.

Lemma elem_of_one t o : t ∈ one o <-> o = Some t.
Proof. destruct o as [t'|]; cbn; set_solver. Qed.
Lemma step_successor may_close t t' : step may_close t t' <-> t' ∈ successors may_close t.
Proof.
  unfold successors. rewrite !elem_of_app, !elem_of_one. split.
  - destruct 1 as [t t' E|t t' E|t t' Hc E]; [by left|by right; left|right; right]. rewrite Hc. by apply elem_of_one.
  - intros [E|[E|E]]; [by apply step_of_main|by apply step_of_window|].
    destruct (may_close t) eqn:Hc; [|by apply not_elem_of_nil in E]. apply elem_of_one in E. by apply step_of_closing.
Qed.
Lemma closed_reaches may_close seen t t' : closed may_close seen = true -> t ∈ seen -> rtc (step may_close) t t' -> t' ∈ seen.
Proof.
  intros Hc Ht Hr. induction Hr as [t|t t1 t' Hs _ IH]; [done|]. apply IH. apply step_successor in Hs.
  unfold closed in Hc. rewrite forallb_forall in Hc. specialize (Hc t). rewrite <- list_elem_of_In, forallb_forall in Hc.
  specialize (Hc Ht t1). rewrite <- list_elem_of_In in Hc. exact (bool_decide_eq_true_1 _ (Hc Hs)).
Qed.

(** The states of the runs in which the window is not closed too early. *)
Definition orderly : list Threads := Eval vm_compute in explore after_start 40 [started].
Lemma orderly_reaches t : rtc (step after_start) started t -> t ∈ orderly.
Proof. apply closed_reaches; [by vm_compute|]. by apply (bool_decide_unpack (started ∈ orderly)); vm_compute. Qed.
(** What a test says of every one of them. *)
Lemma orderly_all (P : Threads -> bool) t : forallb P orderly = true -> rtc (step after_start) started t -> P t = true.
Proof. intros Hp Hr. rewrite forallb_forall in Hp. by apply Hp, list_elem_of_In, orderly_reaches. Qed.

Definition main_left (m : main_pc) : nat :=
  match m with
  | M_Unlock => 8 | M_Frame | M_Setup => 7 | M_Lock => 6 | M_Check => 5 | M_Clean => 4 | M_Signal => 3 | M_WaitWindow => 2 | M_Close => 1 | _ => 0
  end.
Definition window_left (w : window_pc) : nat :=
  match w with W_UnlockExit => 4 | W_WaitMain => 3 | W_ResetMain => 2 | W_Cleanup => 1 | _ => 0 end.
(** How many steps are left when the flag is set. *)
Definition left_over t : nat := main_left (main_at t) + window_left (window_at t).
Definition finished t : bool := bool_decide (main_at t = M_Done) && bool_decide (window_at t = W_Done).

Lemma steps_left t n t' : rtc (step after_start) started t -> is_ready_for_exit t = true -> nsteps (step after_start) n t t' ->
  (n + left_over t' <= left_over t)%nat.
Proof.
  intros Hr He Hn. induction Hn as [t|n t t1 t' Hs _ IH]; [done|]. pose proof Hs as Hin%step_successor.
  assert (forallb (fun t => negb (is_ready_for_exit t) || forallb (fun t1 => is_ready_for_exit t1 && Nat.ltb (left_over t1) (left_over t)) (successors after_start t)) orderly = true)
    as Hall by (by vm_compute).
  pose proof (orderly_all _ t Hall Hr) as Ht. cbv beta in Ht. rewrite He in Ht. cbn [negb orb] in Ht. rewrite forallb_forall in Ht.
  apply list_elem_of_In, Ht, andb_true_iff in Hin as [He1 Hlt%Nat.ltb_lt].
  specialize (IH (rtc_r _ _ _ Hr Hs) He1). lia.
Qed.

(** [C12] As long as the window is not closed before main has gone on from the first event: main uses the context only
    while it exists, the two threads never wait for each other, and from the moment the flag is set both have returned
    after eleven more steps at most, whatever the interleaving.  Main never gives the lock back: it leaves the loop
    with it. *)
Theorem orderly_shutdown t : rtc (step after_start) started t ->
  (uses_context t = true -> context_exists t = true) /\
  ((exists t', step after_start t t') \/ (finished t = true /\ context_lock t = Main)) /\
  (is_ready_for_exit t = true -> forall n t', nsteps (step after_start) n t t' ->
     (n <= 11)%nat /\ ((forall t'', ~ step after_start t' t'') -> finished t' = true)).
Proof.
  intros Hr.
  assert (forall t, rtc (step after_start) started t -> (exists t', step after_start t t') \/ (finished t = true /\ context_lock t = Main)) as Hlive.
  { intros t0 H0. assert (forallb (fun t => match successors after_start t with [] => finished t && bool_decide (context_lock t = Main) | _ => true end) orderly = true)
      as Hall by (by vm_compute).
    pose proof (orderly_all _ t0 Hall H0) as Ht. cbv beta in Ht. destruct (successors after_start t0) as [|t1 l] eqn:E.
    - right. apply andb_true_iff in Ht as [Hf Hl]. split; [done|exact (bool_decide_eq_true_1 _ Hl)].
    - left. exists t1. apply step_successor. rewrite E. by left. }
  split_and!; [|by apply Hlive|].
  - assert (forallb (fun t => negb (uses_context t) || context_exists t) orderly = true) as Hall by (by vm_compute).
    pose proof (orderly_all _ t Hall Hr) as Ht. intros Hu. cbv beta in Ht. by rewrite Hu in Ht.
  - intros He n t' Hn. split.
    + assert (forallb (fun t => negb (is_ready_for_exit t) || Nat.leb (left_over t) 11) orderly = true) as Hall by (by vm_compute).
      pose proof (orderly_all _ t Hall Hr) as Ht. cbv beta in Ht. rewrite He in Ht. apply Nat.leb_le in Ht.
      pose proof (steps_left _ _ _ Hr He Hn). lia.
    + intros Hstuck. destruct (Hlive t') as [[t'' Hs]|[Hf _]]; [|by apply Hstuck in Hs|done].
      etransitivity; [exact Hr|]. apply rtc_nsteps. by eexists.
Qed.

(** Runs one thread after the other as the list says. *)
Inductive turn : Type := MainTurn | WindowTurn | ClosingTurn.
Fixpoint run_turns may_close (l : list turn) t : option Threads :=
  match l with
  | [] => Some t
  | MainTurn :: l => step_main t ≫= run_turns may_close l
  | WindowTurn :: l => step_window false t ≫= run_turns may_close l
  | ClosingTurn :: l => if may_close t then step_window true t ≫= run_turns may_close l else None
  end.
Lemma run_turns_reach may_close l : forall t t', run_turns may_close l t = Some t' -> rtc (step may_close) t t'.
Proof.
  induction l as [|[] l IH]; intros t t'; cbn [run_turns]; [by intros [= ->]| | |].
  3: destruct (may_close t) eqn:Hc; [|done].
  all: intros (t1 & E & Ht)%bind_Some; (eapply rtc_l; [|by apply IH]).
  - by apply step_of_main.
  - by apply step_of_window.
  - by apply step_of_closing.
Qed.

Definition window_to_the_end : list turn := ClosingTurn :: replicate 6 WindowTurn.
(** [C38] A window that is closed at once is not waited for: ContextMain takes its own signal for main's.  It may
    reset the event before main has seen it, and main waits for ever; or it destroys the context while main sets the
    scene up in it. *)
Theorem early_close :
  (exists t, rtc (step anytime) started t /\ main_at t = M_WaitContext /\ window_at t = W_Done /\ forall t', ~ step anytime t t') /\
  (exists t, rtc (step anytime) started t /\ uses_context t = true /\ context_exists t = false).
Proof.
  split.
  - exists (MkThreads M_WaitContext W_Done false Free true). split_and!; try done.
    + by apply (run_turns_reach anytime ([MainTurn; WindowTurn; WindowTurn] ++ window_to_the_end)).
    + intros t' Hs%step_successor. cbn in Hs. by apply not_elem_of_nil in Hs.
  - exists (MkThreads M_Setup W_Done false Free true). split_and!; try done.
    by apply (run_turns_reach anytime ([MainTurn; WindowTurn; WindowTurn; MainTurn] ++ window_to_the_end ++ [MainTurn])).
Qed.

Lemma orderly_shutdown_witness : exists t, rtc (step after_start) started t /\ is_ready_for_exit t = true /\
  forall n t', nsteps (step after_start) n t t' -> (n <= 11)%nat.
Proof.
  set (t := MkThreads M_Frame W_UnlockExit false Window true).
  assert (rtc (step after_start) started t) as Hr.
  { by apply (run_turns_reach after_start [MainTurn; WindowTurn; WindowTurn; MainTurn; MainTurn; MainTurn; MainTurn; MainTurn; MainTurn; ClosingTurn; WindowTurn; WindowTurn]). }
  destruct (orderly_shutdown t Hr) as (_ & _ & H). exists t. split; [exact Hr|]. split; [reflexivity|]. intros n t' Hn. exact (proj1 (H eq_refl n t' Hn)).
Defined.
End threads.

(** * A frame is a recording *)
Section frames.
Import VkShader VkCommands SampleMain.
Context `{!VkHeader, !Driver} (this : VkDisplay.Members) (objects : Learn.Objects) (table : list Float32.f32).

Lemma traced_uniforms s : traced off (Learn.update_uniforms objects table s) off.
Proof. unfold Learn.update_uniforms, VkMemory.Buffer_Map, VkMemory.Pool_Map, VkMemory.with_pool, expect. quiet. Qed.
Lemma outside_pool_relocate p : outside (VkMemory.RelocateHostMemoryToDevice p).
Proof. unfold VkMemory.RelocateHostMemoryToDevice, VkMemory.with_pool, expect, record. quiet. Qed.
Lemma traced_off_transition t b a : traced off (SetTextureStateTransition t b a) off.
Proof.
  unfold SetTextureStateTransition, VkMemory.SetImageLayout. eapply (traced_bind off off); [|intros _; quiet].
  apply traced_if; [apply traced_end|quiet].
Qed.
Lemma traced_ensure view before : outside before -> traced off (Learn.ensure_transitioned view before) off.
Proof.
  intros Hb. unfold Learn.ensure_transitioned. eapply traced_bind; [quiet|]. intros v. eapply traced_bind; [quiet|]. intros t.
  apply traced_if; [|quiet]. eapply traced_bind; [by apply traced_outside|]. intros _. apply traced_off_transition.
Qed.
Lemma traced_off_relocate b : traced off (relocate_if_required b) off.
Proof.
  unfold relocate_if_required, VkMemory.Buffer_RequiresRelocation. eapply traced_bind; [apply traced_silent; quiet|].
  intros [|]; [|quiet]. eapply traced_bind; [apply traced_end|]. intros _. apply traced_outside, outside_relocate.
Qed.
Lemma traced_bind_resources s width height : traced off (Learn.bind_resources objects s width height) off.
Proof.
  unfold Learn.bind_resources.
  eapply traced_bind; [unfold SetDescriptorPool; quiet|]. intros _. eapply traced_bind; [unfold SetDescriptorPool; quiet|]. intros _.
  eapply traced_bind; [unfold SetShader; quiet|]. intros _. eapply traced_bind; [apply traced_pipeline|]. intros _.
  eapply traced_bind; [unfold SetVertexBuffer; eapply traced_bind; [apply traced_off_relocate|intros _; quiet]|]. intros _.
  eapply traced_bind; [unfold VkMemory.GetGpuAddress; quiet|]. intros address.
  do 3 (eapply traced_bind; [apply traced_change|]; intros _). unfold SetViewports, SetScissors, set. quiet.
Qed.
Lemma traced_triangle width height s : traced off (Learn.DrawTriangle objects table width height s) any.
Proof.
  unfold Learn.DrawTriangle. eapply traced_bind; [apply traced_uniforms|]. intros s'.
  eapply traced_bind; [apply traced_ensure, outside_pool_relocate|]. intros _.
  eapply traced_bind; [apply traced_ensure; quiet|]. intros _. eapply traced_bind; [apply traced_bind_resources|]. intros _.
  eapply traced_bind; [apply traced_draw; quiet|]. intros _. quiet.
Qed.

(** [C11] A frame of the program that does not fail leaves no rendering open and records its calls in an order Vulkan
    allows, with whatever scene, targets and answers of the driver: the copy that relocates the textures, which does not
    end a rendering itself, comes before the rendering begins, the draw is inside, and the rendering ends before the
    recording does.  The frame is sent to be presented unless drawing is skipped; then nothing is recorded. *)
Theorem frame_bracketed (d : VkDisplay.DisplayBuffer) (skip : bool) (width height : Z) (scene : Learn.Scene) (s : CommandBuffer) scene' sent s' :
  rendering s = false -> Draw this objects table d skip width height scene s = Ok ((scene', sent), s') ->
  rendering s' = false /\ sent = negb skip /\ (skip = true -> s' = s) /\
  exists cs, log (device s') = log (device s) ++ cs /\ scan false cs = Some false.
Proof.
  intros Hs E. destruct skip; [injection E as <- <- <-; split_and!; try done; exists []; by rewrite app_nil_r|].
  assert (traced off (Draw this objects table d false width height scene) off) as Ht.
  { unfold Draw. eapply traced_bind; [quiet|]. intros target. eapply traced_bind; [quiet|]. intros color. eapply traced_bind; [quiet|]. intros depth.
    unfold RegisterFastClearColor, RegisterFastClearDepthStencil. eapply traced_bind; [quiet|]. intros _. eapply traced_bind; [quiet|]. intros _.
    eapply traced_bind; [unfold Begin, expect; quiet|]. intros _. do 2 (eapply traced_bind; [apply traced_off_transition|]; intros _).
    eapply traced_bind; [unfold SetRenderTargets; quiet|]. intros _. eapply traced_bind; [apply traced_triangle|]. intros scene1.
    eapply traced_bind; [apply traced_transition|]. intros _. eapply (traced_bind any off); [|intros _; quiet].
    unfold End, expect. eapply traced_bind; [apply traced_end|]. intros _. quiet. }
  destruct (Ht _ _ _ E Hs) as (Hs' & cs & L & T). split; [done|]. unfold off in Hs'. rewrite Hs, Hs' in T.
  split_and!; [|done|by exists cs]. clear -E. unfold Draw in E. repeat (apply M_bind_ok in E as (? & ? & _ & E)). by injection E.
Qed.
End frames.

(** * A frame that is drawn *)
Section frame_example.
Import VkMemory VkDescriptors VkShader VkCommands.
Local Instance header : VkHeader := some_header.
Local Instance driver : Driver := counting_driver.

Definition sample_members : VkDisplay.Members := VkDisplay.MkMembers [10; 11; 12] [13; 14; 15] 16 17 18.
Definition sample_pool (memory : Z) : MemoryPool := MkMemoryPool memory 0 0 0 0 false false false 4096 0.
Definition sample_texture : Texture := MkTexture 50 None 0 false false.
Definition sample_vk : Vk :=
  MkVk [] (MkContext 0 0 0 0 0 [1; 7] 0) {[1 := sample_pool 11; 5 := sample_pool 12]}
    {[2 := MkBuffer 1 21 0 false; 3 := MkBuffer 1 31 720 false; 4 := MkBuffer 1 41 768 false]}
    {[6 := sample_texture; 7 := sample_texture; 10 := sample_texture; 17 := sample_texture]}
    {[8 := MkView 6 1; 9 := MkView 7 2; 13 := MkView 10 3; 18 := MkView 17 4]}.
Definition sample_scene : Learn.Scene :=
  Learn.MkScene (MkShader 60 PipelineType_Primitive) (Pipeline_SetDefaults (MkPipelineState (MkColorBlend 0 [] [] [] false 0 []) DepthStencil_SetDefaults Rasterizer_SetDefaults Vertex_SetDefaults))
    (MkDescriptorPool 1 2 0 32 2 64 0 []) (MkDescriptorPool 3 4 0 16 1 64 0 []) 5 0 1 0
    static_eye
    (Learn.MkHost [] [] []).
Definition sample_commands : CommandBuffer :=
  MkCommandBuffer 70 (MkResources [] 4096 71 72 8192 [false; false; false; false; false; false] 0 ∅)
    (MkTargets (replicate 8 None) None [] (Float32.of_Z 0, 0) false false 1280 720 false false) sample_vk.
Definition sample_display : VkDisplay.DisplayBuffer :=
  VkDisplay.MkDisplayBuffer (Vectors.Framebuffer.MkFrameBuffer (Vectors.Vector2.V2 (Float32.of_Z 0) (Float32.of_Z 0)) (Vectors.Vector2.V2 (Float32.of_Z 0) (Float32.of_Z 0)))
    80 81 [82; 83] [84; 85] 86 87 0 0.

Lemma frame_bracketed_witness : exists scene' s', SampleMain.Draw sample_members sample_objects sample_table sample_display false 1280 720 sample_scene sample_commands = Ok ((scene', true), s') /\
  rendering s' = false.
Proof.
  assert (is_Ok (SampleMain.Draw sample_members sample_objects sample_table sample_display false 1280 720 sample_scene sample_commands) = true) as H by (vm_compute; reflexivity).
  destruct (SampleMain.Draw _ _ _ _ _ _ _ _ _) as [[[scene' sent] s']|] eqn:E; [|discriminate].
  destruct (frame_bracketed sample_members sample_objects sample_table sample_display false 1280 720 sample_scene sample_commands scene' sent s' eq_refl E) as (Hr & Hs & _).
  exists scene', s'. subst sent. split; [reflexivity|exact Hr].
Defined.
End frame_example.
