(* ===== verification/UnitTester.v ===== *)
(** The unit tester (unit_testbase.hpp, unit_testholder.hpp, unit_testdefines.hpp): tests register themselves in a list
    that grows at its front, and are run from there.

    A test is an object at an address; its virtual functions are those of its class.  [W] is the state of the program
    that is tested. *)
From Stdlib Require Import String.
From S2P Require Import Prelude.

Module UnitTester.
Section tester.
Context {W : Type}.

(** The virtual functions, and those of TestBase itself. *)
Record TestClass : Type := MkTestClass { TestMain : M W Z; GetTestName : string; GetTestFileName : string }.
Definition TestBase_functions : TestClass := MkTestClass (mret 1) "Default" "unit_testbase.hpp".

Record TestBase : Type := MkTestBase { functions : TestClass; m_next_test : option Z }.

(** The two texts of RunAllTests, with what is put in them. *)
Inductive Line : Type :=
  | TestFailed (name file : string) (line number count : Z)
  | TestSucceeded (name file : string) (number count : Z).

Record Tester : Type := MkTester { tests : gmap Z TestBase; m_head_test : option Z; output : list Line; world : W }.
Definition set_tests l s := MkTester l (m_head_test s) (output s) (world s).
Definition set_head h s := MkTester (tests s) h (output s) (world s).
Definition set_world w s := MkTester (tests s) (m_head_test s) (output s) w.
Definition puts (l : Line) : M Tester unit :=
  modify (fun s => MkTester (tests s) (m_head_test s) (output s ++ [l]) (world s)).

Definition test_at (test : Z) : M Tester TestBase :=
  l ← gets tests; match l !! test with Some t => mret t | None => throw BadPointer end.

(** TestHolder::AddTest; AddTestToTester calls it on the instance of the program. *)
Definition AddTest (test : Z) : M Tester unit :=
  t ← test_at test;
  head ← gets m_head_test;
  modify (fun s => set_tests (<[test := MkTestBase (functions t) head]> (tests s)) s);;
  modify (set_head (Some test)).
(** TestBase::TestBase *)
Definition construct_TestBase (test : Z) (f : TestClass) : M Tester unit :=
  modify (fun s => set_tests (<[test := MkTestBase f None]> (tests s)) s);; AddTest test.

Definition Run (f : TestClass) : M Tester Z := fun s =>
  match TestMain f (world s) with Ok (r, w) => Ok (r, set_world w s) | Fault e => Fault e end.

Fixpoint CountTests_from (fuel : nat) (current_test : option Z) (test_count : Z) : M Tester Z :=
  match current_test, fuel with
  | None, _ => mret test_count
  | Some _, O => throw OutOfFuel
  | Some test, S fuel => t ← test_at test; CountTests_from fuel (m_next_test t) (u64 (test_count + 1))
  end.
Definition CountTests (fuel : nat) : M Tester Z := head ← gets m_head_test; CountTests_from fuel head 0.

Definition report (f : TestClass) (result number count : Z) : Line :=
  if negb (result =? -1) then TestFailed (GetTestName f) (GetTestFileName f) result number count
  else TestSucceeded (GetTestName f) (GetTestFileName f) number count.
Fixpoint RunTests_from (fuel : nat) (current_test : option Z) (test_number test_count : Z) : M Tester unit :=
  match current_test, fuel with
  | None, _ => mret tt
  | Some _, O => throw OutOfFuel
  | Some test, S fuel =>
      t ← test_at test;
      result ← Run (functions t);
      puts (report (functions t) result test_number test_count);;
      t ← test_at test;
      RunTests_from fuel (m_next_test t) (u64 (test_number + 1)) test_count
  end.
Definition RunAllTests (fuel : nat) : M Tester unit :=
  test_count ← CountTests fuel;
  head ← gets m_head_test;
  RunTests_from fuel head 1 test_count.

(** DECLARE_UNIT_TESTER_INSTANCE: the tests of the file are constructed in their order before main. *)
Fixpoint construct_tests (l : list (Z * TestClass)) : M Tester unit :=
  match l with [] => mret tt | (test, f) :: l => construct_TestBase test f;; construct_tests l end.
Definition main (fuel : nat) (l : list (Z * TestClass)) : M Tester unit := construct_tests l;; RunAllTests fuel.
Definition initial (w : W) : Tester := MkTester ∅ None [] w.
End tester.
Arguments TestClass W : clear implicits.
Arguments TestBase W : clear implicits.
Arguments Tester W : clear implicits.

(** ** The body of a test: TEST_ASSERT returns its line, TEST_SUCCESS returns -1 *)
(** [inl r]: the function has returned [r]. *)
Definition Test (S A : Type) : Type := S -> res ((Z + A) * S).
#[export] Instance Test_ret {S} : MRet (Test S) := fun _ a s => Ok (inr a, s).
#[export] Instance Test_bind {S} : MBind (Test S) := fun _ _ k m s =>
  match m s with Ok (inr a, s) => k a s | Ok (inl r, s) => Ok (inl r, s) | Fault e => Fault e end.
Definition call {S A} (m : M S A) : Test S A := fun s =>
  match m s with Ok (a, s) => Ok (inr a, s) | Fault e => Fault e end.
Definition TEST_ASSERT {S} (line : Z) (condition : bool) : Test S unit := fun s =>
  if Bool.eqb condition false then Ok (inl line, s) else Ok (inr tt, s).
Definition TEST_SUCCESS {S A} : Test S A := fun s => Ok (inl (-1), s).
(** A body that runs into its end returns nothing. *)
Definition returns {S} (body : Test S unit) : M S Z := fun s =>
  match body s with Ok (inl r, s) => Ok (r, s) | Ok (inr _, _) => Fault Uninitialized | Fault e => Fault e end.

(** for (u32 i = first; n times; ++i) *)
Fixpoint for_range {S} (n : nat) (i : Z) (body : Z -> Test S unit) : Test S unit :=
  match n with O => mret tt | Datatypes.S n => _ ← body i; for_range n (i + 1) body end.
End UnitTester.

(** * What the tester does *)
Section run.
Import UnitTester.
Context {W : Type}.
Implicit Types (s : Tester W) (f : TestClass W) (l : list (Z * TestClass W)) (fs : list (TestClass W)) (w : W).

(** What the tests, run in a given order, report. *)
Fixpoint reports fs (number count : Z) w : res (list Line * W) :=
  match fs with
  | [] => Ok ([], w)
  | f :: fs =>
      '(r, w) ← TestMain f w;
      '(out, w) ← reports fs (number + 1) count w;
      Ok (report f r number count :: out, w)
  end.

(** The list from a test on is [l]. *)
Fixpoint chain s (cur : option Z) l : Prop :=
  match l with
  | [] => cur = None
  | (test, f) :: l => cur = Some test /\ exists next, tests s !! test = Some (MkTestBase f next) /\ chain s next l
  end.

Lemma chain_fresh s s' cur l x t : x ∉ l.*1 -> tests s' = <[x := t]> (tests s) -> chain s cur l -> chain s' cur l.
Proof.
  intros Hx Ht. revert cur. induction l as [|[y f] l IH]; intros cur; [done|]. cbn in Hx.
  apply not_elem_of_cons in Hx as [Hxy Hx]. intros (-> & next & E & Hc). split; [done|]. exists next.
  rewrite Ht, lookup_insert_ne by done. by split; [|apply IH].
Qed.
Lemma chain_world s s' cur l : tests s' = tests s -> chain s cur l -> chain s' cur l.
Proof.
  intros Ht. revert cur. induction l as [|[y f] l IH]; intros cur; [done|]. intros (-> & next & E & Hc).
  split; [done|]. exists next. rewrite Ht. by split; [|apply IH].
Qed.

Lemma construct_tester_run s test f l : test ∉ l.*1 -> chain s (m_head_test s) l ->
  exists s', construct_TestBase test f s = Ok (tt, s') /\ chain s' (m_head_test s') ((test, f) :: l) /\
    output s' = output s /\ world s' = world s.
Proof.
  intros Hx Hc. unfold construct_TestBase, AddTest, test_at. run_M. cbn.
  rewrite lookup_insert_eq. eexists. split; [reflexivity|]. cbn. split_and!; [done| |done..].
  exists (m_head_test s). rewrite insert_insert_eq, lookup_insert_eq. split; [done|].
  eapply chain_fresh; [exact Hx| |exact Hc]. reflexivity.
Qed.
Lemma construct_tests_run l : forall s l0, NoDup (l ++ l0).*1 -> chain s (m_head_test s) l0 ->
  exists s', construct_tests l s = Ok (tt, s') /\ chain s' (m_head_test s') (reverse l ++ l0) /\
    output s' = output s /\ world s' = world s.
Proof.
  induction l as [|[test f] l IH]; intros s l0 Hnd Hc; [by exists s|]. cbn in Hnd. apply NoDup_cons in Hnd as [Hx Hnd].
  rewrite fmap_app in Hx. destruct (construct_tester_run s test f l0) as (s1 & E1 & C1 & O1 & W1); [set_solver|done|].
  destruct (IH s1 ((test, f) :: l0)) as (s2 & E2 & C2 & O2 & W2).
  { rewrite fmap_app in Hnd. rewrite fmap_app. cbn. rewrite <- Permutation_middle. by constructor. }
  { exact C1. }
  exists s2. cbn [construct_tests]. rewrite (M_bind_run _ _ _ _ _ E1). split; [exact E2|].
  rewrite reverse_cons, <- app_assoc. split; [exact C2|]. by rewrite O2, W2.
Qed.

Lemma test_at_run s test t : tests s !! test = Some t -> test_at test s = Ok (t, s).
Proof. intros E. unfold test_at. run_M. by rewrite E. Qed.
Lemma count_run s l : forall cur fuel n, chain s cur l -> (length l <= fuel)%nat -> 0 <= n -> n + Z.of_nat (length l) < 2 ^ 64 ->
  CountTests_from fuel cur n s = Ok (n + Z.of_nat (length l), s).
Proof.
  induction l as [|[test f] l IH]; intros cur fuel n Hc Hf H0 Hn; cbn in Hc.
  { subst cur. rewrite Z.add_0_r. by destruct fuel. }
  destruct Hc as (-> & next & E & Hc). cbn in Hf. destruct fuel as [|fuel]; [lia|]. cbn [CountTests_from].
  rewrite (M_bind_run _ _ _ _ _ (test_at_run _ _ _ E)). cbn [m_next_test].
  cbn [length] in Hn. unfold u64. rewrite wrap_small by lia. rewrite (IH _ _ _ Hc) by lia. do 2 f_equal. cbn [length]. lia.
Qed.
Lemma tests_run count l : forall s cur fuel n, chain s cur l -> (length l <= fuel)%nat -> 0 <= n -> n + Z.of_nat (length l) < 2 ^ 64 ->
  RunTests_from fuel cur n count s =
    match reports l.*2 n count (world s) with
    | Ok (out, w) => Ok (tt, MkTester (tests s) (m_head_test s) (output s ++ out) w)
    | Fault e => Fault e
    end.
Proof.
  induction l as [|[test f] l IH]; intros s cur fuel n Hc Hf H0 Hn; cbn in Hc.
  { subst cur. cbn. rewrite app_nil_r. destruct s, fuel; done. }
  destruct Hc as (-> & next & E & Hc). cbn [length] in *. destruct fuel as [|fuel]; [lia|]. cbn [RunTests_from].
  rewrite (M_bind_run _ _ _ _ _ (test_at_run _ _ _ E)). cbn [functions fmap list_fmap snd reports].
  unfold mbind at 1, M_bind at 1. unfold Run at 1. destruct (TestMain f (world s)) as [[r w]|e]; [|done]. cbn [mbind res_bind].
  unfold puts. rewrite M_modify_bind. erewrite M_bind_run by (by apply test_at_run). cbn [m_next_test].
  unfold u64. rewrite wrap_small by lia. rewrite IH; [|by eapply chain_world; [|exact Hc]|lia..]. cbn.
  destruct (reports l.*2 (n + 1) count w) as [[out w']|e]; [|done]. cbn. by rewrite <- app_assoc.
Qed.

Lemma main_run l w fuel : NoDup l.*1 -> (length l <= fuel)%nat -> Z.of_nat (length l) < 2 ^ 64 - 1 ->
  exists registered head, main fuel l (initial w) =
    match reports (reverse l.*2) 1 (Z.of_nat (length l)) w with
    | Ok (out, w) => Ok (tt, MkTester registered head out w)
    | Fault e => Fault e
    end.
Proof.
  intros Hnd Hf Hl. unfold main. destruct (construct_tests_run l (initial w) []) as (s & E & C & O & Ew); [by rewrite app_nil_r|done|].
  exists (tests s), (m_head_test s).
  rewrite (M_bind_run _ _ _ _ _ E). rewrite app_nil_r in C. unfold RunAllTests, CountTests.
  unfold mbind at 1, M_bind at 1. rewrite M_gets_bind. pose proof (length_reverse l) as Hr.
  rewrite (count_run s _ _ _ _ C) by lia. rewrite M_gets_bind, (tests_run _ _ s _ _ _ C) by lia.
  rewrite Hr, Z.add_0_l, fmap_reverse, Ew. cbn [world initial].
  destruct (reports _ _ _ w) as [[out w']|e]; [|done]. by rewrite O.
Qed.

(** [C29] A program of the unit tester runs every test of its file once, in the reverse of the order in which the tests
    are constructed, each on the state the one before has left, and reports its name and file, the line it failed at
    if it returned another value than -1, its number and the count of the tests; then it ends. *)
Theorem run_all_tests l w fuel : NoDup l.*1 -> (length l <= fuel)%nat -> Z.of_nat (length l) < 2 ^ 64 - 1 ->
  match main fuel l (initial w) with
  | Ok (_, s) => reports (reverse l.*2) 1 (Z.of_nat (length l)) w = Ok (output s, world s)
  | Fault e => reports (reverse l.*2) 1 (Z.of_nat (length l)) w = Fault e
  end.
Proof.
  intros Hnd Hf Hl. destruct (main_run l w fuel Hnd Hf Hl) as (registered & head & ->).
  by destruct (reports _ _ _ w) as [[out w']|e].
Qed.
End run.

(** ** Running the body of a test *)
Section body.
Import UnitTester.
Context {S A B : Type}.
Implicit Types s : S.

Lemma bind_inr (m : Test S A) (k : A -> Test S B) s a s' : m s = Ok (inr a, s') -> (m ≫= k) s = k a s'.
Proof. intros E. unfold mbind, Test_bind. by rewrite E. Qed.
Lemma call_run (m : M S A) s a s' : m s = Ok (a, s') -> call m s = Ok (inr a, s').
Proof. intros E. unfold call. by rewrite E. Qed.
Lemma assert_run line s : TEST_ASSERT line true s = Ok (inr tt, s).
Proof. reflexivity. Qed.
Lemma success_returns (body : Test S unit) s s' : body s = Ok (inl (-1), s') -> returns body s = Ok (-1, s').
Proof. intros E. unfold returns. by rewrite E. Qed.
End body.

(** The rule of the loops of tests: [P] after each round. *)
Lemma for_range_run {S : Type} (P : nat -> S -> Prop) (body : Z -> UnitTester.Test S unit) n : forall k (s : S),
  (forall i (s : S), (k <= i < k + n)%nat -> P i s -> exists s', body (Z.of_nat i) s = Ok (inr tt, s') /\ P (Datatypes.S i) s') ->
  P k s -> exists s', UnitTester.for_range n (Z.of_nat k) body s = Ok (inr tt, s') /\ P (k + n)%nat s'.
Proof.
  induction n as [|n IH]; intros k s Hb Hk.
  { exists s. split; [done|]. by rewrite Nat.add_0_r. }
  destruct (Hb k s ltac:(lia) Hk) as (s1 & E1 & H1). destruct (IH (Datatypes.S k) s1) as (s2 & E2 & H2); [|done|].
  { intros i s' Hi. apply Hb. lia. }
  exists s2. split; [|by rewrite <- plus_n_Sm]. cbn [UnitTester.for_range]. unfold mbind, UnitTester.Test_bind. rewrite E1.
  replace (Z.of_nat k + 1) with (Z.of_nat (Datatypes.S k)) by lia. exact E2.
Qed.

Section example.
Import UnitTester.
Definition two_tests : list (Z * TestClass Z) :=
  [(10, MkTestClass (fun w => Ok (-1, w + 1)) "First" "a.cpp"); (20, MkTestClass (fun w => Ok (w, w + 1)) "Second" "a.cpp")].
Lemma run_all_tests_witness : exists s, main 2 two_tests (initial 7) = Ok (tt, s) /\
  output s = [TestFailed "Second" "a.cpp" 7 1 2; TestSucceeded "First" "a.cpp" 2 2].
Proof.
  pose proof (run_all_tests two_tests 7 2 ltac:(repeat constructor; set_solver) ltac:(cbn; lia) ltac:(cbn; lia)) as H.
  destruct (main 2 two_tests (initial 7)) as [[[] s]|e] eqn:E; [|by vm_compute in H].
  exists s. split; [reflexivity|]. vm_compute in H. injection H as H _. exact (eq_sym H).
Defined.
End example.
