(* ===== verification/UnitTests.v ===== *)
(** The unit tests of the library (src/unit_tests/lib_dd_tests), run on its models, and that they pass: the tests of
    the handle table, of TimeSpan and of the scheduler.  A TEST_ASSERT is given its line in the file. *)
From Stdlib Require Import String.
From stdpp Require Import functions.
From S2P Require Import Prelude Result TimeSpan IntrusiveList ListFamily BusyMutex HandleTable Allocators Fiber Scheduler SchedulerSpec ThreadSpec WaitSpec UKernSync Machine UnitTester.

(** * test_ukern_handletable.cpp *)
Module HandleTableTests.
Import UnitTester.

(** The local variables: the table, the handles, and the values that are its objects, a pointer being an index. *)
Record Locals : Type := MkLocals { handle_table : HandleTable nat; handles : list Z; values : list Z }.
Definition set_handles l s := MkLocals (handle_table s) l (values s).
Definition set_values l s := MkLocals (handle_table s) (handles s) l.

Definition on_table {A} (op : M (HandleTable nat) A) : Test Locals A := fun s =>
  match op (handle_table s) with
  | Ok (a, ht) => Ok (inr a, MkLocals ht (handles s) (values s))
  | Fault f => Fault f
  end.
Definition get_handle (i : Z) : M Locals Z := fun s => h ← arr_get (handles s) i; Ok (h, s).
Definition put_handle (i h : Z) : M Locals unit := fun s => l ← arr_set (handles s) i h; Ok (tt, set_handles l s).
Definition get_value (i : Z) : M Locals Z := fun s => v ← arr_get (values s) i; Ok (v, s).
Definition put_value (i v : Z) : M Locals unit := fun s => l ← arr_set (values s) i v; Ok (tt, set_values l s).
(** ReserveHandle(&handles[i], &values[i]): the handle is written when there is one. *)
Definition reserve_at (i : Z) : Test Locals bool :=
  h ← on_table (ReserveHandle (Some (Z.to_nat i)));
  match h with None => mret false | Some h => _ ← call (put_handle i h); mret true end.
Definition object_at (i : Z) : Test Locals (option nat) := h ← call (get_handle i); on_table (GetObjectByHandle h).
(** The u32 behind the pointer the table gives. *)
Definition value_of_object_at (i : Z) : Test Locals Z :=
  p ← object_at i; call (p ← deref p; get_value (Z.of_nat p)).
Definition free_at (i : Z) : Test Locals bool := h ← call (get_handle i); on_table (FreeHandle h).
Definition valid (p : option nat) : bool := bool_decide (is_Some p).

Definition HandleTableAllocation_body : Test Locals unit :=
  b ← reserve_at 0; _ ← TEST_ASSERT 34 b;
  b ← reserve_at 1; _ ← TEST_ASSERT 35 b;
  b ← reserve_at 2; _ ← TEST_ASSERT 36 b;
  p ← object_at 0; _ ← TEST_ASSERT 39 (valid p);
  p ← object_at 1; _ ← TEST_ASSERT 40 (valid p);
  p ← object_at 2; _ ← TEST_ASSERT 41 (valid p);
  v ← value_of_object_at 0; _ ← TEST_ASSERT 44 (v =? 1);
  v ← value_of_object_at 1; _ ← TEST_ASSERT 45 (v =? 2);
  v ← value_of_object_at 2; _ ← TEST_ASSERT 46 (v =? 3);
  b ← free_at 0; _ ← TEST_ASSERT 49 b;
  b ← free_at 1; _ ← TEST_ASSERT 50 b;
  b ← free_at 2; _ ← TEST_ASSERT 51 b;
  p ← object_at 0; _ ← TEST_ASSERT 54 (negb (valid p));
  p ← object_at 1; _ ← TEST_ASSERT 55 (negb (valid p));
  p ← object_at 2; _ ← TEST_ASSERT 56 (negb (valid p));
  TEST_SUCCESS.
Definition HandleTableAllocation : res Z :=
  ht ← Initialize construct;
  '(r, _) ← returns HandleTableAllocation_body (MkLocals ht [0; 0; 0] [1; 2; 3]);
  Ok r.

Definition TestIterations : nat := 2048.
(** One round of the loop over y. *)
Definition exhaust : Test Locals unit :=
  _ ← call (modify (set_values (replicate 257 0)));
  _ ← for_range 256 0 (fun i => _ ← call (put_value i (u32 (i + 1))); b ← reserve_at i; TEST_ASSERT 78 b);
  _ ← call (put_value MaxHandles (MaxHandles + 1));
  b ← reserve_at MaxHandles;
  _ ← TEST_ASSERT 83 (negb b);
  _ ← for_range 256 0 (fun i => p ← object_at i; TEST_ASSERT 87 (valid p));
  _ ← for_range 256 0 (fun i => v ← value_of_object_at i; TEST_ASSERT 90 (v =? u32 (i + 1)));
  for_range 256 0 (fun i => b ← free_at i; TEST_ASSERT 95 b).
Definition HandleExhaustion_body : Test Locals unit := _ ← for_range TestIterations 0 (fun _ => exhaust); TEST_SUCCESS.
Definition HandleExhaustion : res Z :=
  ht ← Initialize construct;
  '(r, _) ← returns HandleExhaustion_body (MkLocals ht (replicate 257 0) []);
  Ok r.

Definition file_tests : list (Z * TestClass unit) :=
  [(1, MkTestClass (lift HandleTableAllocation) "HandleTableAllocation" "test_ukern_handletable.cpp");
   (2, MkTestClass (lift HandleExhaustion) "HandleExhaustion" "test_ukern_handletable.cpp")].
End HandleTableTests.

(** * test_util_timespan.cpp *)
Module TimeSpanTests.
Import UnitTester.
(** [frequency]: what QueryPerformanceFrequency gives. *)
Definition TimeSpanToTickConversion (frequency : Z) : Test unit unit :=
  ts ← call (lift (InitializeTimeStamp frequency));
  span ← call (lift (FromMilliSeconds 2));
  _ ← TEST_ASSERT 29 (GetMilliSeconds span =? 2);
  tick ← call (lift (GetTick ts span));
  convert_span ← call (lift (FromTick ts tick));
  _ ← TEST_ASSERT 33 (GetMilliSeconds convert_span =? 2);
  TEST_SUCCESS.
End TimeSpanTests.

(** * The tests of the scheduler, which run on one core from a start of the program *)
Module SchedulerTests.
(** TEST_ASSERT in a program. *)
Definition test_assert (line : Z) (condition : bool) (k : Program) : Program :=
  if Bool.eqb condition false then Return line else k.
(** The functions of the threads, by address. *)
Definition no_code (function arg : Z) : Program := Return 0.

Definition start {A} (memory : gmap Z Z) (core_mask : Z) (test : M UserScheduler A) : res A :=
  pool ← FixedObjectAllocator.construct MaxThreadCount;
  '(r, _) ← (ukern.InitializeUKern core_mask;; test) (SchedulerInstance pool memory);
  Ok r.

(** test_ukern_scheduler_init.cpp *)
Definition SchedulerInit (frequency : Z) : res Z :=
  _ ← InitializeTimeStamp frequency;
  start ∅ 3 (mret (-1)).

(** test_ukern_scheduler_sleep.cpp *)
Definition SleepSingle_body (ts : TimeStamp) (span : Z) : Program :=
  ReadTick (fun start =>
  sleep ts span (
  ReadTick (fun end_ =>
  Run (fun _ => lift (d ← chk64 (end_ - start); FromTick ts d)) (fun elapsed =>
  test_assert 42 (2 <=? GetMilliSeconds elapsed) (Return (-1)))))).
Definition SchedulerSleepSingle (frequency : Z) (fuel : nat) (clock : list Z) : res Z :=
  ts ← InitializeTimeStamp frequency;
  span ← FromMilliSeconds 2;
  start ∅ 1 (run_program ts 0 no_code fuel 0 (SleepSingle_body ts span) clock ∅ false).

(** test_ukern_scheduler_threadvalueset.cpp: [cs] and [TestValue] are addresses, [main_function] that of
    TestWaitMain; [turns] bounds the loops. *)
Definition cs : Z := 0x1000.
Definition TestValue : Z := 0x2000.
Definition main_function : Z := 0x3000.
Definition TestWaitMain (turns : nat) (arg : Z) : Program :=
  enter turns arg (Run (fun _ => store TestValue 1) (fun _ => leave arg (Return 0))).
Definition functions (turns : nat) (function arg : Z) : Program :=
  if function =? main_function then TestWaitMain turns arg else Return 0.
Fixpoint barrier (turns : nat) (k : Program) : Program :=
  match turns with
  | O => Run (fun _ => throw OutOfFuel) (fun _ : unit => k)
  | S turns => Run (fun _ => load TestValue) (fun v => if negb (v =? 1) then yield (barrier turns k) else k)
  end.
Definition ThreadValueSet_body (ts : TimeStamp) (span : Z) (turns : nat) : Program :=
  Run (fun _ => store cs 0) (fun _ =>
  Run (fun _ => ukern.CreateThread main_function cs 0x1000 THREAD_PRIORITY_NORMAL 0) (fun '(result0, out_handle) =>
  let handle := default 0 out_handle in
  test_assert 45 (negb (result0 =? Result.ukern.ResultInvalidThreadFunctionPointer)) (
  test_assert 46 (negb (result0 =? Result.ukern.ResultInvalidStackSize)) (
  test_assert 47 (negb (result0 =? Result.ukern.ResultInvalidPriority)) (
  test_assert 48 (negb (result0 =? Result.ukern.ResultInvalidCoreId)) (
  enter turns cs (
  Run (fun cur => member current_core cur) (fun core =>
  test_assert 54 (core =? 0) (
  Run (fun _ => ukern.StartThread handle) (fun result1 =>
  test_assert 59 (result1 =? ResultSuccess) (
  sleep ts span (
  Run (fun _ => load TestValue) (fun value =>
  test_assert 65 (value =? 0) (
  leave cs (
  barrier turns (Return (-1))))))))))))))))).
(** [processors]: GetActiveProcessorCount(0). *)
Definition SchedulerDualCoreThreadValueSet (processors frequency : Z) (fuel turns : nat) (clock : list Z) : res Z :=
  if negb (2 <? processors) then Ok 27 else
  ts ← InitializeTimeStamp frequency;
  span ← FromMilliSeconds 2;
  start (<[cs := 0]> (<[TestValue := 0]> ∅)) 1
    (run_program ts 0 (functions turns) fuel 0 (ThreadValueSet_body ts span turns) clock ∅ false).
End SchedulerTests.

(** * The tests of the handle table pass *)
Section handle_table.
Import UnitTester HandleTableTests.
Implicit Types (s : Locals) (ht : HandleTable nat) (free : list nat).

(** The handle of the [j]-th value is the one of the [j]-th free entry, which holds the pointer to it. *)
Definition held free s (j : nat) : Prop :=
  exists i c, free !! j = Some i /\ handles s !! j = Some (encode i c) /\ entry (handle_table s) i = Some (c, j) /\
    values s !! j = Some (Z.of_nat j + 1).
Record holding free (k : nat) s : Prop := {
  h_table : table_inv (handle_table s) (drop k free);
  h_handles : length (handles s) = 257%nat;
  h_values : length (values s) = 257%nat;
  h_held : forall j, (j < k)%nat -> held free s j
}.

Lemma put_value_run s (i : nat) v : (i < length (values s))%nat ->
  put_value (Z.of_nat i) v s = Ok (tt, set_values (<[i := v]> (values s)) s).
Proof. intros Hi. unfold put_value. by rewrite arr_set_insert. Qed.
Lemma reserve_at_run s (k : nat) i free : table_inv (handle_table s) (i :: free) -> (k < length (handles s))%nat ->
  exists ht c, reserve_at (Z.of_nat k) s = Ok (inr true, MkLocals ht (<[k := encode i c]> (handles s)) (values s)) /\
    table_inv ht free /\ forall j, entry ht j = if decide (j = i) then Some (c, k) else entry (handle_table s) j.
Proof.
  intros Hi Hk. destruct (reserve_run (handle_table s) i free k Hi) as (ht & E & Hi' & He). exists ht, (m_counter_value (handle_table s)).
  split; [|done]. unfold reserve_at. erewrite bind_inr by (unfold on_table; by rewrite Nat2Z.id, E).
  cbv beta iota. erewrite bind_inr by (apply call_run; unfold put_handle; cbn [handles]; by rewrite arr_set_insert). done.
Qed.
Lemma reserve_at_full s (k : nat) : table_inv (handle_table s) [] ->
  exists ht, reserve_at (Z.of_nat k) s = Ok (inr false, MkLocals ht (handles s) (values s)) /\ table_inv ht [] /\
    forall j, entry ht j = entry (handle_table s) j.
Proof.
  intros Hi. destruct (reserve_run_full (handle_table s) k Hi) as (ht & E & Hi' & He). exists ht. split; [|done].
  unfold reserve_at. erewrite bind_inr by (unfold on_table; by rewrite Nat2Z.id, E). done.
Qed.
Lemma get_handle_run s (j : nat) h : handles s !! j = Some h -> call (get_handle (Z.of_nat j)) s = Ok (inr h, s).
Proof. intros E. apply call_run. unfold get_handle. by rewrite (arr_get_lookup _ _ _ E). Qed.

Lemma reserve_step free k s : length free = 256%nat -> NoDup free -> (k < 256)%nat -> holding free k s ->
  exists s', (call (put_value (Z.of_nat k) (u32 (Z.of_nat k + 1))) ≫= fun _ =>
     reserve_at (Z.of_nat k) ≫= fun b => TEST_ASSERT 78 b) s = Ok (inr tt, s') /\ holding free (S k) s'.
Proof.
  intros Hlen Hnd Hk [Ht Hh Hv Hheld]. destruct (lookup_lt_is_Some_2 free k ltac:(lia)) as [i Ei].
  rewrite (drop_S _ _ _ Ei) in Ht. erewrite bind_inr by (apply call_run, put_value_run; lia).
  unfold u32. rewrite wrap_small by lia. set (s1 := set_values _ s).
  destruct (reserve_at_run s1 k i (drop (S k) free) Ht ltac:(cbn; lia)) as (ht & c & E & Hi & He).
  erewrite bind_inr by exact E. rewrite assert_run. eexists. split; [done|]. split; cbn; rewrite ?length_insert; try done.
  intros j Hj. unfold held. cbn. destruct (decide (j = k)) as [->|Hne].
  - exists i, c. rewrite !list_lookup_insert_eq by lia. split_and!; try done. rewrite He. by rewrite decide_True.
  - destruct (Hheld j ltac:(lia)) as (i' & c' & E1 & E2 & E3 & E4). exists i', c'.
    rewrite !list_lookup_insert_ne by done. split_and!; try done. rewrite He, decide_False; [done|].
    intros ->. apply Hne. by eapply NoDup_lookup.
Qed.

(** A look at the table leaves it as it is, but for its lock. *)
Lemma look_run free s j : holding free 256 s -> (j < 256)%nat -> length free = 256%nat ->
  exists s', object_at (Z.of_nat j) s = Ok (inr (Some j), s') /\ holding free 256 s' /\ values s' = values s.
Proof.
  intros [Ht Hh Hv Hheld] Hj Hlen. destruct (Hheld j Hj) as (i & c & E1 & E2 & E3 & E4).
  pose proof Ht as [Hwf _]. pose proof (wf_used _ _ Hwf _ _ _ E3) as Hc. pose proof (entry_lt _ _ _ _ Hwf E3) as Hi.
  destruct (get_run _ _ i c Ht Hi ltac:(lia)) as (ht & E & Ht' & He).
  unfold object_at. erewrite bind_inr by (by apply get_handle_run). unfold on_table. rewrite E.
  apply lookup_handle_Some in E3 as E5. rewrite E5. eexists. split; [done|]. split; [|done].
  split; try done. intros j' Hj'. destruct (Hheld j' Hj') as (i' & c' & ? & ? & ? & ?). exists i', c'. cbn. rewrite He. done.
Qed.

(** What is left when the first [k] handles are freed. *)
Record freeing free (k : nat) s : Prop := {
  f_table : exists free', table_inv (handle_table s) free' /\ length free' = k;
  f_handles : length (handles s) = 257%nat;
  f_held : forall j, (k <= j < 256)%nat -> exists i c, free !! j = Some i /\ handles s !! j = Some (encode i c) /\
    entry (handle_table s) i = Some (c, j)
}.
Lemma free_step free k s : NoDup free -> (k < 256)%nat -> freeing free k s ->
  exists s', (free_at (Z.of_nat k) ≫= fun b => TEST_ASSERT 95 b) s = Ok (inr tt, s') /\ freeing free (S k) s'.
Proof.
  intros Hnd Hk [(free' & Ht & Hlen) Hh Hheld]. destruct (Hheld k ltac:(lia)) as (i & c & E1 & E2 & E3).
  destruct (free_run _ _ i c k Ht E3) as (ht & E & Ht' & He).
  unfold free_at. erewrite bind_inr; [|erewrite bind_inr by (by apply get_handle_run); unfold on_table; by rewrite E].
  rewrite assert_run. eexists. split; [done|]. split; cbn; [exists (i :: free'); cbn; by rewrite Hlen|done|].
  intros j Hj. destruct (Hheld j ltac:(lia)) as (i' & c' & F1 & F2 & F3). exists i', c'. split_and!; try done.
  rewrite He, decide_False; [done|]. intros ->. pose proof (NoDup_lookup _ _ _ _ Hnd E1 F1). lia.
Qed.

(** A loop over the handles whose round keeps [P]. *)
Lemma rounds (P : nat -> Locals -> Prop) (body : Z -> Test Locals unit) n s :
  (forall k s, (k < n)%nat -> P k s -> exists s', body (Z.of_nat k) s = Ok (inr tt, s') /\ P (S k) s') ->
  P 0%nat s -> exists s', for_range n 0 body s = Ok (inr tt, s') /\ P n s'.
Proof. intros Hb H0. apply (for_range_run P body n 0 s); [|done]. intros i s' Hi. apply Hb. lia. Qed.

Lemma exhaust_run s free : table_inv (handle_table s) free -> length free = 256%nat -> length (handles s) = 257%nat ->
  exists s' free', exhaust s = Ok (inr tt, s') /\ table_inv (handle_table s') free' /\ length free' = 256%nat /\
    length (handles s') = 257%nat.
Proof.
  intros Ht Hlen Hh. assert (NoDup free) as Hnd by apply (wf_nodup _ _ (proj1 Ht)). unfold exhaust.
  erewrite bind_inr by (apply call_run; reflexivity).
  destruct (rounds (holding free) (fun i => _ ← call (put_value i (u32 (i + 1))); b ← reserve_at i; TEST_ASSERT 78 b) 256
    (set_values (replicate 257 0) s)) as (s1 & E1 & H1).
  { intros k s1 Hk H. apply (reserve_step free k s1 Hlen Hnd Hk H). }
  { split; [exact Ht|exact Hh|done|lia]. }
  erewrite bind_inr by exact E1. clear E1.
  erewrite bind_inr; [|apply call_run, (put_value_run s1 256); rewrite (h_values _ _ _ H1); lia].
  destruct H1 as [T1 L1 V1 D1]. rewrite drop_ge in T1 by lia. set (s1' := set_values _ s1).
  destruct (reserve_at_full s1' 256 T1) as (ht & E & T2 & He). change MaxHandles with (Z.of_nat 256).
  erewrite bind_inr by exact E. erewrite bind_inr by apply assert_run. set (s2 := MkLocals ht _ _).
  assert (holding free 256 s2) as H2.
  { split; cbn; rewrite ?length_insert; [by rewrite drop_ge by lia|done..|]. intros j Hj.
    destruct (D1 j Hj) as (i & c & ? & ? & ? & ?). exists i, c. cbn. rewrite He, list_lookup_insert_ne by lia. done. }
  destruct (rounds (fun _ => holding free 256) (fun i => p ← object_at i; TEST_ASSERT 87 (valid p)) 256 s2) as (s3 & E3 & H3); [|done|].
  { intros k s' Hk H. destruct (look_run free s' k H Hk Hlen) as (s'' & E' & H' & _). exists s''. split; [|done].
    by erewrite bind_inr by exact E'. }
  erewrite bind_inr by exact E3.
  destruct (rounds (fun _ => holding free 256) (fun i => v ← value_of_object_at i; TEST_ASSERT 90 (v =? u32 (i + 1))) 256 s3)
    as (s4 & E4 & H4); [|done|].
  { intros k s' Hk H. destruct (look_run free s' k H Hk Hlen) as (s'' & E' & H' & V'). exists s''. split; [|done].
    destruct (h_held _ _ _ H k Hk) as (_ & _ & _ & _ & _ & Ev). rewrite <- V' in Ev.
    unfold value_of_object_at. erewrite bind_inr; [|erewrite bind_inr by exact E'; apply call_run; cbn [deref];
      rewrite M_ret_bind; unfold get_value; by rewrite (arr_get_lookup _ _ _ Ev)].
    unfold u32. rewrite wrap_small, Z.eqb_refl by lia. done. }
  erewrite bind_inr by exact E4.
  destruct (rounds (freeing free) (fun i => b ← free_at i; TEST_ASSERT 95 b) 256 s4) as (s5 & E5 & [(f' & T5 & L5) H5 _]).
  { intros k s' Hk H. by apply free_step. }
  { destruct H4 as [T4 L4 _ D4]. split; [|done|]; [exists []; split; [|done]; by rewrite drop_ge in T4 by lia|].
    intros j Hj. destruct (D4 j ltac:(lia)) as (i & c & ? & ? & ? & _). by exists i, c. }
  by exists s5, f'.
Qed.

Lemma exhaustion_passes n ht : (exists free, table_inv ht free /\ length free = 256%nat) ->
  exists s, returns (_ ← for_range n 0 (fun _ => exhaust); TEST_SUCCESS) (MkLocals ht (replicate 257 0) []) = Ok (-1, s).
Proof.
  intros (free & Ht & Hl).
  destruct (rounds (fun _ s => exists free, table_inv (handle_table s) free /\ length free = 256%nat /\ length (handles s) = 257%nat)
    (fun _ => exhaust) n (MkLocals ht (replicate 257 0) [])) as (s & E & _); [|by exists free|].
  { intros _ s _ (f & T & L & H). destruct (exhaust_run s f T L H) as (s' & f' & E & T' & L' & H'). exists s'. split; [exact E|by exists f']. }
  exists s. apply (success_returns _ _ s). by erewrite bind_inr by exact E.
Qed.

(** Both tests of the handle table pass: the run of the program reports two successes.  HandleExhaustion reserves
    all 256 handles, fails to reserve another, finds every object and value again and frees the handles, 2048 times
    over. *)
Theorem handle_table_tests_pass : exists t, main 2 file_tests (initial tt) = Ok (tt, t) /\
  output t = [TestSucceeded "HandleExhaustion" "test_ukern_handletable.cpp" 1 2;
              TestSucceeded "HandleTableAllocation" "test_ukern_handletable.cpp" 2 2].
Proof.
  assert (HandleExhaustion = Ok (-1)) as E1.
  { unfold HandleExhaustion. destruct (Initialize_inv (T := nat)) as (ht & E & Hi). rewrite E. cbn [mbind res_bind].
    destruct (exhaustion_passes TestIterations ht) as (s & Er); [exists (reverse (seq 0 256)); by split|].
    unfold HandleExhaustion_body. by rewrite Er. }
  assert (HandleTableAllocation = Ok (-1)) as E2 by (vm_compute; reflexivity).
  unfold file_tests. revert E1 E2. generalize HandleExhaustion HandleTableAllocation. intros ? ? -> ->.
  match goal with |- exists t, main 2 ?l _ = _ /\ _ =>
    destruct (main_run l tt 2) as (registered & head & ->); [repeat constructor; set_solver|cbn; lia..|] end.
  eexists. split; reflexivity.
Qed.
End handle_table.

(** * The tests of time and of the scheduler pass *)
Section scheduler.
Import UnitTester TimeSpanTests SchedulerTests.
Implicit Types (ts : TimeStamp) (s : UserScheduler).

(** Two milliseconds in ticks and back. *)
Lemma two_ms ts : valid_frequency ts -> 1000 <= sSystemFrequency ts <= 1000000000 ->
  9000000000 * sSystemFrequency ts <= GetMaxTickToTimeSpan ts ->
  let tick := (2000000 * sSystemFrequency ts + 999999999) / 1000000000 in
  GetTick ts 2000000 = Ok tick /\ 0 < tick <= 2000000 /\ tick <= GetMaxTickToTimeSpan ts /\
    2000000 <= tick * 1000000000 / sSystemFrequency ts < 3000000.
Proof.
  intros Hv Hf Hm tick. split; [apply GetTick_nonneg; [done|lia|unfold s64_max; lia]|].
  set (f := sSystemFrequency ts) in *.
  pose proof (Z.div_mod (2000000 * f + 999999999) 1000000000 ltac:(lia)) as Hd. fold tick in Hd.
  pose proof (Z.mod_pos_bound (2000000 * f + 999999999) 1000000000 ltac:(lia)) as Hb.
  split; [lia|]. split; [lia|]. split; [apply Z.div_le_lower_bound; lia|apply Z.div_lt_upper_bound; lia].
Qed.

(** The test of the conversion of time passes for every tick frequency from a thousand to a thousand million. *)
Theorem timespan_test_passes frequency : 1000 <= frequency <= 1000000000 ->
  returns (TimeSpanToTickConversion frequency) tt = Ok (-1, tt).
Proof.
  intros Hf. destruct (InitializeTimeStamp_valid frequency ltac:(lia)) as (ts & E & Hv & Ef & Hm).
  rewrite <- Ef in Hf, Hm. destruct (two_ms ts Hv Hf Hm) as (Et & Ht0 & Ht & Hns).
  apply (success_returns _ tt tt). unfold TimeSpanToTickConversion, call, lift, mbind, Test_bind. rewrite E.
  change (FromMilliSeconds 2) with (Ok 2000000). cbn [TEST_ASSERT]. rewrite Et. rewrite FromTick_nonneg by (done || lia).
  change (GetMilliSeconds 2000000) with 2. cbn. unfold GetMilliSeconds. rewrite quot_nonneg by lia.
  match goal with |- context [?x / 1000000 =? 2] => rewrite <- (Z.div_unique x 1000000 2 (x - 2000000)) by lia end. done.
Qed.

(** The scheduler of one core after InitializeUKern. *)
Record booted_one s : Prop := {
  b_inv : sched_inv s (fun _ => []);
  b_lock : m_scheduler_lock s = false;
  b_cores : m_core_count s = 1;
  b_active : m_active_cores s = 1;
  b_runnable : m_runnable_fibers s = 0;
  b_main : exists c, storage s 0 = set_fiber_name_storage "MainThread" (main_members (encode 255 c) zero_storage);
  b_on_core : on_core s 0
}.
Lemma start_gen {P S A} (c : res P) (f : P -> S) (i : M S unit) (test : M S A) pool (s : S) : c = Ok pool -> i (f pool) = Ok (tt, s) ->
  (p ← c; '(r, _) ← (i;; test) (f p); Ok r) = match test s with Ok (r, _) => Ok r | Fault e => Fault e end.
Proof. intros -> E. cbn [mbind res_bind]. rewrite (M_bind_run _ _ _ _ _ E). by destruct (test s) as [[]|]. Qed.
Lemma start_one {A} (test : M UserScheduler A) : exists s, booted_one s /\
  start ∅ 1 test = match test s with Ok (r, _) => Ok r | Fault f => Fault f end.
Proof.
  destruct (FixedObjectAllocator_construct (T := unit) MaxThreadCount ltac:(unfold MaxThreadCount; lia)) as (pool & Epool & _).
  pose proof (Initialize_run_cores 1 ∅ pool Epool) as Hi. cbv zeta in Hi. change (CountOneBits64 1) with 1 in Hi.
  rewrite decide_True in Hi by lia. destruct Hi as (s & c & E & HK & Hl & _ & Hc & _ & Ha & Hr & Hst & _ & Hon).
  exists s. split.
  - constructor; [apply HK|exact Hl|exact Hc|exact Ha|exact Hr|exists c; exact Hst|apply Hon; lia].
  - exact (start_gen _ _ _ test pool s Epool E).
Qed.

(** The main thread asleep until [t], when its scheduler fiber has been entered. *)
Definition asleep (t : Z) s : UserScheduler := after_add 0 (upd (set_timeout t) 0 (set_m_scheduler_lock true s)).
Definition queued : NodeId -> list NodeId := enqueue (Some (RunHead Normal)) (SchedNode 0) (fun _ => []).

Lemma asleep_run s t : booted_one s -> t <> 0 ->
  SleepThreadImpl 0 t s = Ok (Switched ResultSuccess, upd (set_timeout t) 0 (set_m_scheduler_lock true s)) /\
  InternalSchedulerMainThreadFiberMain 0 (upd (set_timeout t) 0 (set_m_scheduler_lock true s)) = Ok (tt, asleep t s).
Proof.
  intros B Ht. split; [|apply AddToSchedulerUnsafe_run]. unfold SleepThreadImpl.
  rewrite (scheduler_locked_switch_run _ s (Switched ResultSuccess) (upd (set_timeout t) 0 (set_m_scheduler_lock true s)));
    [done|apply b_lock, B|].
  destruct (Z.eqb_spec t 0) as [|_]; [done|]. cbn [negb]. run.
  rewrite (M_bind_run _ _ _ tt (upd (set_timeout t) 0 (set_m_scheduler_lock true s))); [done|]. apply SwitchToScheduler_run.
  destruct (b_on_core _ B) as [Hc Htab]. split; rewrite storage_upd, decide_True by done; [exact Hc|exact Htab].
Qed.

(** What the scheduler asks of the main thread's members. *)
Record main_like (t : Z) (x : FiberLocalStorage) : Prop := {
  ml_activity : activity_level x = ActivityLevel_Schedulable; ml_priority : priority x = 2; ml_mask : core_mask x = 1;
  ml_object : waitable_object x = None; ml_timeout : timeout x = t
}.
Lemma main_like_state t st x : main_like t x -> main_like t (set_fiber_state st x).
Proof. intros []. split; done. Qed.
Lemma main_like_timeout t t' x : main_like t x -> main_like t' (set_timeout t' x).
Proof. intros []. split; done. Qed.
Lemma main_like_booted n h : main_like 0 (set_fiber_name_storage n (main_members h zero_storage)).
Proof.
  unfold set_fiber_name_storage, main_members. split; cbn [activity_level priority core_mask waitable_object timeout]; reflexivity.
Qed.

Definition to_sleep (t : Z) s : UserScheduler := upd (set_timeout t) 0 (set_m_scheduler_lock true s).
Lemma to_sleep_main s t : booted_one s -> main_like t (storage (to_sleep t s) 0).
Proof.
  intros B. destruct (b_main _ B) as (c & E). unfold to_sleep. rewrite storage_upd, decide_True by done.
  apply (main_like_timeout 0). change (storage (set_m_scheduler_lock true s) 0) with (storage s 0). rewrite E. apply main_like_booted.
Qed.
Lemma asleep_main s t : booted_one s -> main_like t (storage (asleep t s) 0) /\
  fiber_state (storage (asleep t s) 0) = FiberState_Scheduled.
Proof.
  intros B. pose proof (to_sleep_main s t B) as Hm. unfold asleep. fold (to_sleep t s).
  rewrite after_add_storage, decide_True by done. rewrite (ml_activity _ _ Hm). split; [by apply main_like_state|done].
Qed.

Lemma queued_elem h f : SchedNode f ∈ queued h -> f = 0.
Proof.
  intros Hin. unfold queued, enqueue in Hin. destruct (decide (h = RunHead Normal)) as [->|Hne].
  - rewrite fn_lookup_insert in Hin. cbn in Hin. apply list_elem_of_singleton in Hin. congruence.
  - rewrite fn_lookup_insert_ne in Hin by done. by apply not_elem_of_nil in Hin.
Qed.

Lemma asleep_waits s t : booted_one s -> 0 < t <= s64_max -> waits (asleep t s) queued 0.
Proof.
  intros B Ht. destruct (asleep_main s t B) as [Hm Hst]. pose proof (to_sleep_main s t B) as Hm1.
  set (s1 := to_sleep t s) in *. change (asleep t s) with (after_add 0 s1) in *.
  assert (forall n, loose (fun _ : NodeId => []) n) as Hloose by (intros n h Hh; by apply not_elem_of_nil in Hh).
  assert (sched_inv s1 (fun _ => [])) as HI1 by (apply inv_upd; [by apply inv_lock, B|apply Hloose]).
  destruct (after_add_memory 0 s1) as (_ & _ & _ & Hlock & Hcount & _ & _).
  assert (destination (storage s1 0) = Some (RunHead Normal)) as Hd.
  { unfold destination. by rewrite (ml_activity _ _ Hm1), (ml_priority _ _ Hm1). }
  assert (m_active_cores (after_add 0 s1) = 1 /\ m_runnable_fibers (after_add 0 s1) = 1) as [Ha Hr].
  { unfold after_add. rewrite Hd, (ml_activity _ _ Hm1). cbn. by rewrite (b_active _ B), (b_runnable _ B). }
  pose proof (inv_after_add s1 (fun _ => []) 0 HI1 ltac:(done) (Hloose _)) as HI. rewrite Hd in HI. split.
  - exact HI.
  - intros p f Hin. rewrite (queued_elem _ _ Hin). apply Hm.
  - intros h f Hin. rewrite (queued_elem _ _ Hin), (ml_timeout _ _ Hm). lia.
  - by rewrite Hlock.
  - lia.
  - rewrite Hcount. change (m_core_count s1) with (m_core_count s). rewrite (b_cores _ B). lia.
  - rewrite Ha. lia.
  - by rewrite Hr.
Qed.
Lemma asleep_next s t tick : booted_one s -> next_fiber (asleep t s) queued 0 tick = if t <? tick then Some 0 else None.
Proof.
  intros B. destruct (asleep_main s t B) as [Hm _]. unfold next_fiber.
  change (concat (queued ∘ RunHead <$> run_order)) with [SchedNode 0]. cbn [List.find fiber_of fmap option_fmap option_map].
  unfold may_run. rewrite (ml_mask _ _ Hm), (ml_timeout _ _ Hm). cbn. by destruct (t <? tick).
Qed.

(** A fiber that is resumed from a sleep goes on with its program. *)
Lemma sleep_program ts code core fuel s t now span k clock quiet tick : booted_one s -> core = 0 -> 0 < t <= s64_max ->
  GetAbsoluteTimeToWakeup ts now span = Ok t ->
  (forall a b, (a, b) ∈ quiet -> a <= t /\ 0 < b <= s64_max) -> t < tick ->
  exists s' parked, run_program ts core code (2 + fuel) 0 (sleep ts span k) (now :: readings quiet ++ tick :: clock) ∅ false s =
    run_program ts core code fuel 0 k clock parked true s'.
Proof.
  intros B -> Ht Et Hq Htick. destruct (asleep_run s t B ltac:(lia)) as [E1 E2].
  destruct (scheduler_waits_run ts (asleep t s) queued 0 quiet tick 0 clock (asleep_waits s t B Ht)) as (calls & E3).
  { intros a b Hin. destruct (Hq a b Hin) as [Ha Hb]. rewrite asleep_next by done. split; [|done]. by destruct (Z.ltb_spec t a); [lia|]. }
  { rewrite asleep_next by done. by destruct (Z.ltb_spec t tick); [|lia]. }
  change (2 + fuel)%nat with (S (S fuel)). unfold sleep. cbn [run_program].
  erewrite (M_bind_run (_ ≫= _) _ s); [|unfold ukern.Sleep; rewrite M_bind_assoc;
    erewrite M_bind_run by (unfold lift; by rewrite Et); unfold u64; rewrite wrap_small by (unfold s64_max in Ht; lia);
    erewrite M_bind_run by exact E1; reflexivity].
  cbn [returned]. rewrite (M_bind_run _ _ _ _ _ E2), (M_bind_run _ _ _ _ _ E3). rewrite lookup_insert_eq.
  unfold SleepThreadImpl_resume, ReleaseSRWLockExclusive. rewrite !M_bind_assoc, M_modify_bind, !M_ret_bind.
  eexists _, _. reflexivity.
Qed.

Lemma FromTick_at_least ts tick d ns : valid_frequency ts -> 0 <= tick <= d -> ns <= tick * 1000000000 / sSystemFrequency ts ->
  ns <= MaxTime -> exists ns', FromTick ts d = Ok ns' /\ ns <= ns'.
Proof.
  intros Hv Hd Hns Hmax. destruct (Z.le_gt_cases d (GetMaxTickToTimeSpan ts)) as [Hle|Hgt].
  - rewrite FromTick_nonneg by (done || lia). eexists. split; [done|]. etransitivity; [exact Hns|].
    apply Z.div_le_mono; [apply Hv|lia].
  - exists MaxTime. split; [|done]. unfold FromTick. by destruct (Z.ltb_spec (GetMaxTickToTimeSpan ts) d); [|lia].
Qed.

(** [C34] The test of Sleep passes for every tick frequency from a thousand to a thousand million, whatever the readings
    of the counter are: the scheduler spins over the readings before the time to wake up, the main thread goes on with
    the first one after it, and the ticks gone by are two milliseconds at least. *)
Theorem scheduler_sleep_passes frequency fuel began now quiet tick end_ clock :
  let wake := now + (2000000 * frequency + 999999999) / 1000000000 + 2 in
  1000 <= frequency <= 1000000000 -> 0 <= began <= now -> now <= 2 ^ 61 ->
  (forall a b, (a, b) ∈ quiet -> a <= wake /\ 0 < b <= s64_max) -> wake < tick <= end_ -> end_ <= s64_max ->
  SchedulerSleepSingle frequency (6 + fuel) (began :: now :: readings quiet ++ tick :: end_ :: clock) = Ok (-1).
Proof.
  intros wake Hf Hs Hnow Hq Htick Hend.
  destruct (InitializeTimeStamp_valid frequency ltac:(lia)) as (ts & E & Hv & Ef & Hm).
  rewrite <- Ef in Hf, Hm. destruct (two_ms ts Hv Hf Hm) as (Et & Ht0 & Ht & Hns). rewrite Ef in Et, Ht0, Ht, Hns, Hf, Hm.
  unfold SchedulerSleepSingle. rewrite E. change (FromMilliSeconds 2) with (Ok 2000000). cbn [mbind res_bind].
  match goal with |- start ∅ 1 ?p = _ => destruct (start_one p) as (s & B & ->) end.
  assert (GetAbsoluteTimeToWakeup ts now 2000000 = Ok wake) as Ew.
  { unfold GetAbsoluteTimeToWakeup, mbind, res_bind. rewrite Et. destruct (Z.leb_spec ((2000000 * frequency + 999999999) / 1000000000) 0); [lia|].
    rewrite !chk64_ok by (unfold s64_min, s64_max; lia). destruct (Z.leb_spec ((2000000 * frequency + 999999999) / 1000000000 + now + 1) 1); [lia|].
    f_equal. unfold wake. lia. }
  change (6 + fuel)%nat with (S (2 + (3 + fuel))). unfold SleepSingle_body. rewrite run_tick.
  edestruct (sleep_program ts no_code 0 (3 + fuel) s wake now 2000000) as (s' & parked & ->);
    [done|done|unfold wake, s64_max; lia|done|exact Hq|lia|].
  change (3 + fuel)%nat with (S (S (S fuel))). rewrite run_tick.
  destruct (FromTick_at_least ts ((2000000 * frequency + 999999999) / 1000000000) (end_ - began) 2000000 Hv) as (ns & Ens & Hge);
    [unfold wake in *; lia|rewrite Ef; lia|by vm_compute|].
  rewrite (run_call _ _ _ _ _ _ _ _ _ _ ns s' s').
  2:{ unfold lift, mbind, res_bind. rewrite chk64_ok by (unfold s64_min, s64_max in *; lia). by rewrite Ens. }
  assert ((2 <=? GetMilliSeconds ns) = true) as ->.
  { apply Z.leb_le. unfold GetMilliSeconds. rewrite quot_nonneg by lia. apply Z.div_le_lower_bound; lia. }
  cbn [test_assert Bool.eqb]. by rewrite run_return.
Qed.
End scheduler.

(** The test of two threads that contend for a critical section passes, for clocks of many speeds: the started
    thread waits in Enter while the main thread sleeps with the lock, and sets the value after it has been handed the
    lock. *)
Theorem thread_value_set_passes : Forall (fun speed : nat =>
    SchedulerTests.SchedulerDualCoreThreadValueSet 4 10000000 400 40 ((fun i : nat => 500 + 100 * Z.of_nat (speed * i)) <$> seq 0 600) = Ok (-1))
  [1; 2; 3; 5; 8; 13; 21; 34; 55; 89; 144; 233]%nat.
Proof. repeat constructor; vm_compute; reflexivity. Qed.

Section scheduler_init.
Import SchedulerTests.
(** The test of the initialisation of the scheduler on two cores passes. *)
Theorem scheduler_init_passes frequency : 0 < frequency <= 1000000000 -> SchedulerInit frequency = Ok (-1).
Proof.
  intros Hf. destruct (InitializeTimeStamp_valid frequency Hf) as (ts & E & _). unfold SchedulerInit. rewrite E. cbn [mbind res_bind].
  destruct (FixedObjectAllocator_construct (T := unit) MaxThreadCount ltac:(unfold MaxThreadCount; lia)) as (pool & Epool & _).
  pose proof (Initialize_run 3 ∅ pool Epool) as Hi. cbv zeta in Hi. change (CountOneBits64 3) with 2 in Hi.
  rewrite decide_True in Hi by lia. destruct Hi as (s & c & Ei & _).
  exact (start_gen _ _ _ (mret (-1)) pool s Epool Ei).
Qed.
End scheduler_init.

Section examples.
Import UnitTester TimeSpanTests SchedulerTests.
Lemma timespan_test_passes_witness : returns (TimeSpanToTickConversion 10000000) tt = Ok (-1, tt).
Proof. apply (timespan_test_passes 10000000). lia. Defined.
Lemma scheduler_init_passes_witness : SchedulerInit 10000000 = Ok (-1).
Proof. apply (scheduler_init_passes 10000000). lia. Defined.
Lemma scheduler_sleep_passes_witness :
  SchedulerSleepSingle 10000000 6 ([500; 600] ++ readings [(700, 701); (20602, 20603)] ++ [20604; 20605]) = Ok (-1).
Proof.
  apply (scheduler_sleep_passes 10000000 0 500 600 [(700, 701); (20602, 20603)] 20604 20605 []).
  - lia.
  - lia.
  - lia.
  - intros a b [[= -> ->]|[[= -> ->]|[]%not_elem_of_nil]%elem_of_cons]%elem_of_cons; vm_compute; intuition discriminate.
  - vm_compute. intuition congruence.
  - vm_compute. discriminate.
Defined.
Lemma scheduler_waits_witness : exists s calls s', booted_one s /\
  SchedulerFiberMain ts_10MHz 0 AtPass [700; 701; 1000; 1001; 1002] (asleep 1001 s) = Ok ((0, []), s') /\
  s' = set_win32_calls calls (after_dispatch 0 0 (asleep 1001 s)).
Proof.
  destruct (start_one (mret tt)) as (s & B & _).
  destruct (scheduler_waits ts_10MHz (asleep 1001 s) queued 0 [(700, 701); (1000, 1001)] 1002 0 []) as (calls & s' & E & Es & _).
  - apply asleep_waits; [done|unfold s64_max; lia].
  - intros a b [[= -> ->]|[[= -> ->]|[]%not_elem_of_nil]%elem_of_cons]%elem_of_cons; (split; [by rewrite asleep_next|unfold s64_max; lia]).
  - by rewrite asleep_next.
  - exists s, calls, s'. split; [exact B|]. split; [exact E|exact Es].
Defined.
End examples.
